(* ===== verification/_CoqProject ===== *)
-Q . S2P
Prelude.v
PyStr.v
StrLemmas.v
PyVal.v
Ipv4.v
PyLemmas.v
TopoNodes.v
PyText.v
Showroom.v
ShowroomSafe.v
ClusterMembers.v
AgentClient.v
HealthPoller.v
HealthSafe.v
TemplateClusters.v
TemplateBastion.v
Calendar.v
MeteringMath.v
InstanceRates.v
MeteringService.v
MeteringSnapshot.v
MeteringStatements.v
ProjectTimer.v
WorkerScaling.v
GroupAccess.v
Interfaces.v
Db.v
NetworkMtu.v
IpAssign.v
OcpFlags.v
TopologyValidate.v
DnsRecords.v
TemplateVms.v
TemplateCanvas.v
TemplateWired.v
Vxlan.v
HostNetwork.v
GatewaySync.v
DhcpRange.v
EgressRank.v
TopologyExtract.v
DeployCanvas.v
Disks.v
DiffTopology.v
PatternLocations.v
EipService.v
Placement.v
PlaceProject.v
MtuGate.v
Tunnel.v
TunnelSession.v
RedisSync.v
RateLimit.v
JobMonad.v
VmStart.v
DeployHost.v
DeployTargets.v
JobTriples.v
DeployFlow.v
DeploySafe.v
PowerFlow.v
PowerSafe.v
DestroyFlow.v
DestroySafe.v
ProjectCanvas.v
ProjectApi.v
ApiSafe.v
RaceSafe.v
HostGc.v
GcService.v
GcSafe.v
