(* ===== verification/Prelude.v ===== *)
(** * Troshka verification library

    Troshka runs nested-VM labs.  A user draws a topology on a canvas: VMs, containers, disks,
    networks, a gateway, OpenShift clusters, a Ceph cluster, a showroom.  The backend
    ([src/src/backend/app]) validates it, chooses hosts, allocates VXLAN identifiers and
    addresses, and hands every host agent its configuration.  Workers share state through
    Redis, and the backend talks to remote agents through a framed tunnel.  This library models
    the backend's decision code, the requests and the jobs that deploy, stop, start, redeploy and destroy a
    project, the collection of what projects leave behind, and the concurrent protocols under
    them, and proves what makes them correct.

    ** Python in Rocq

    - [PyStr]: the [str] methods the code uses, on ASCII text.  [StrLemmas]: split/join,
      strip, decimal text round trips.
    - [PyVal]: JSON values [val] (numbers are integers), the result type [res] with Python's
      exceptions, dictionaries in insertion order, value-keyed dictionaries and sets (with
      [True == 1] and unhashable keys), loops with [continue], [break] and [return].
      [PyLemmas]: loop invariants, totality, dictionary lemmas, equality on values.
    - [PyText]: [base64], SHA-1, [json.dumps], [re.escape], substitutions of runs.
    - [Ipv4]: the part of [ipaddress] the code uses, parsing included.
    - [Calendar]: [datetime] in UTC as microseconds: proleptic Gregorian dates, months as
      numbers, the first instant of a month.
    - [TopoNodes]: the canvas helpers every module shares, [wf_topology], nodes keyed by id.
    - [Db]: the rows of [app/models/*.py] the services read, and the Redis counters with their
      in-memory fallback ([core/redis.py]).
    - [Interfaces]: what components promise each other, as classes: [CounterStore] (instance in
      [Db], used by the in-flight accounting of [Placement]) and [Allocator] (instance in
      [Vxlan], used by [PlaceProject]).

    A function that may raise returns [res]; a function that changes its argument in place
    returns the value afterwards; an operation with effects takes and returns the state.  The
    exception raised first is the one Python raises first.

    ** Components (file: code)

    - [NetworkMtu]: [services/network_mtu.py] and [resolve_topology_mtus].
    - [IpAssign], [TopologyValidate], [GatewaySync], [EgressRank], [TopologyExtract], [Disks],
      [DiffTopology]: [services/deploy_topology.py], in the order of that file except for
      [IpAssign], its end: address assignment; validation; the managed showroom forward; egress
      ranking and showroom DNS; what a deployment extracts from a canvas; disks and boot order;
      differences and TroshkaVM specs.
    - [OcpFlags]: [services/ocp_topology_flags.py].
    - [DnsRecords], [Vxlan], [HostNetwork]: [services/vxlan.py]: VNI allocation, transit links,
      DHCP reservations, then [build_host_network_config].  [DhcpRange] relates its DHCP range
      to the one of [deploy_topology].
    - [PatternLocations]: [services/pattern_locations.py].
    - [EipService]: [services/eip_service.py]: the life of an elastic address and its ports.
    - [Placement], [PlaceProject]: [services/placement.py], ending in [place_project].
      [MtuGate] relates placement's MTU gate to [NetworkMtu].
    - [MeteringMath], [InstanceRates]: [services/metering_math.py], [services/instance_rates.py].
      [MeteringSnapshot], [MeteringService], [MeteringStatements]:
      [services/metering_service.py] over [models/metering.py]: the snapshot of a project, the
      reconciliation of its intervals with the budget, then statements and invoices.
    - [ProjectTimer]: [services/project_timer.py].
    - [WorkerScaling]: [services/worker_scaling.py].
    - [GroupAccess]: [services/group_access.py], and the handlers of [api/groups.py] and
      [api/users.py] that change groups.
    - [AgentClient]: [services/troshkad_client.py]: requests and their retries, submission of a
      job, the wait for it.
    - [HealthPoller]: [services/health_poller.py] with the decisions of
      [services/storage_extend.py] and the console names of [services/console_dns.py]: a cycle of
      polls over the rows of hosts.  [HealthSafe] holds the theorems.
    - [ClusterMembers]: the members of a cluster of [services/template_loader.py] and
      [services/ocp/agent_template.py], and the publication of cluster APIs.
    - [TemplateClusters], [TemplateBastion], [TemplateVms], [TemplateCanvas]:
      [_generate_topology_from_vms] of [services/template_loader.py] with what it calls, there, in
      [services/ceph_scaffold.py] and in [services/showroom_scaffold.py]: the clusters and their
      machines, the bastion of an installation, the machines with their disks, addresses and
      edges, then the canvas.  [TemplateWired] holds the theorem on the canvas.
    - [Showroom]: the rest of [services/showroom_scaffold.py]: resolved tabs, nginx, interface,
      containers, overrides, export.  [ShowroomSafe] holds the theorems.
    - [JobMonad], [VmStart], [DeployCanvas], [DeployHost], [DeployTargets], [DeployFlow]:
      [deploy_project_async] of [services/deploy_service.py] with what it calls: the world and
      the session of a job, the start of VMs and containers, the canvas functions, the host, one
      host, several hosts or a cluster, the whole job.  [PowerFlow]: [stop_project_async],
      [start_project_async] and [services/vm_power.py].  [DestroyFlow]: [destroy_project_sync].
      [JobTriples] holds the triples about jobs; [DeploySafe], [PowerSafe], [DestroySafe] the
      theorems.
    - [ProjectCanvas], [ProjectApi]: the canvas helpers and the life-cycle handlers of
      [api/projects.py] (deploy, stop, start, force-stop, reconfigure, redeploy, undeploy,
      delete, extend the timer, save), [services/redeploy_ocp.py] and the redeployment job of
      [workers/jobs.py].  [ApiSafe] holds the theorems, [RaceSafe] those on requests that race.
    - [HostGc]: the handlers [gc/discover] and [gc/clean] of the host agent ([troshkad.py]).
      [GcService]: [services/gc_service.py], which drives them and reconciles the routes, the
      object store, the cluster's namespaces, volumes and services, and the storage pools; and
      [services/provider_gc_service.py].  [GcSafe] holds the theorems.
    - [Tunnel], [TunnelSession]: [tunnel/framing.py], [tunnel/limits.py], [tunnel/session.py].
    - [RedisSync], [RateLimit]: the semaphore and the lock of [core/redis.py], and
      [core/rate_limit.py].

    A deployment composes them: validation, [place_project] (requirements, host selection or
    bin-packing, [allocate_vnis_for_project], [build_host_network_config], the in-flight
    counter), [resolve_topology_mtus], address assignment, extraction.  A poll of the meter
    composes [build_snapshot], [reconcile_project], which calls [apply_budget], and at the end
    of a month [finalize_month]; a project's end, [freeze_invoice].

    ** What is proved

    - Jobs: whatever agents, clouds and other processes answer, a deployment, a stop and a start
      return with the project out of the transitional state and the semaphore and the counters as
      before, but for a deployment with a balancer for which a DNS provider is found, which waits
      for its own row lock; a destruction returns with the record gone or in error, and the
      semaphore short of no permit.  The record of a cluster's project whose provider has a row is
      kept while the namespace may be there.  A start makes exactly the calls of its order, delays
      and waits, then those of the other VMs, and reports the calls that raised; a cluster's API
      is published once.
    - Requests: whatever the world answers, a handler refuses without effect on the life cycle
      or hands over exactly one job of its own kind; a stop and a start requested are carried
      to a settled state by their jobs; networks a save adds get VNIs that no project uses; of
      racing requests to redeploy a project at most one is accepted, because of the lock under which
      its row is read.
    - Collection: a reconciliation of a host leaves the VMs, disks, pools, containers and
      namespace of every project the database keeps there; a sweep whose commands succeed leaves
      only what the request names; the objects of the store that a row names stay; so do the
      addresses and rules of live projects.
    - Agents: a request is refused, or retried as often as announced and on the errors
      announced; starting a job and waiting for it end in time, and a wait is given up at its
      deadline or after twelve failed polls in a row.
    - Polls of hosts: whatever agents and clouds answer, a cycle handles every host and none
      ends it; a connected host is given up for the causes the code names alone, one of them a
      silence longer than the configured time, and a host that stays active and has an agent is
      checked again within a minute.
    - Concurrency: whatever the interleaving of Redis commands, the semaphore never has more
      holders than its limit and the lock at most one; whatever the interleaving of tunnel
      messages, dials and reads, every socket of a session is accounted for and a reader only
      closes its own; the session registry counts what runs; in-flight counters are exact; a
      sliding window lets through no more than its rate; only cold attacker addresses are
      banned.
    - Placement: the result's effects and nothing else, eligibility of the host or of every host, KubeVirt templates never
      falling through, capacity with overcommit, optimality and completeness of host selection,
      soundness of bin-packing with anti-affinity, every VM on exactly one host, the choice of
      the network host, the diagnosis of a failed search, pattern storage readiness.
    - Billing: the open intervals after a poll are what the snapshot wants, an unchanged poll
      changes nothing, history is immutable, the ledger stays well formed, an invoice settles a
      project and equals what its owner's monthly statements bill, a budget stops a project
      once, a dedicated host pays its price, coverage is the measure of a union, the months of
      a period are enumerated and the enumeration ends.
    - Elastic addresses: consistent after any operations whatever the cloud answers, with transit
      ports apart but for addresses moved to another host with theirs; restored by a power
      cycle; ports the first free ones or the exact error.
    - Timers: an expired project is stopped, a project in transition is left alone, a warning
      is in time.
    - Operations: scaling and pool changes stay within the database's connections; a group
      never loses its last manager; bills are seen by whom they concern.
    - Networks: VNIs fresh, distinct, in range and never reused behind the high-water mark;
      transit links; infrastructure reservations; the DHCP range; MTU clamp, idempotence and
      the exactness of the placement gate; container and OSD addresses fresh; duplicate
      addresses counted; the Ceph lab address usable.
    - Templates: preparing the clusters of a template keeps what it declares and gives every
      cluster the machines it asks for; a bastion is added once, on an address no machine has;
      the disks of a cluster are normalised once; on the canvas generated, ids are distinct and
      edges, start order and hidden nodes refer to nodes.
    - Showroom pod: with a token, every location of its nginx that forwards asks for it, but for
      hosts of OAuth and companions; a public host is routed to its own application and no other;
      every terminal has its port, location, container and entry in the interface.
    - Showroom access: outbound ports round-trip, the managed forward is unique, stable under
      redeployment and gone after removal; the egress network; the name server.
    - Canvas: differences exact and empty on equal canvases; boot order a permutation, boot
      devices valid; cluster flags only grow and are stable.
    - Frames of the tunnel protocol round-trip.

    The theorems marked [C1] and on are the main properties; the others support them or state
    more of a component.  [<theorem>_witness] applies one to a concrete input.

    ** Modelling decisions

    - Text is bytes of ASCII; [lower], [strip], [casefold] and [isdigit] are the ASCII ones.
      JSON numbers are integers: a float on the canvas is outside the model.  IPv6 text is a
      [ValueError].
    - A query without ORDER BY returns rows in table order.  Python leaves the iteration order
      of a set open: functions that iterate one take [set_iter], and theorems ask only that
      it permutes.
    - Overcommit ratios, money, rates and quantities are exact rationals ([Qc] in the metering
      files).  What a numeric column does to a value it stores is the argument [store];
      theorems ask at most that it errs by half a millionth.
    - The identifiers and octets [uuid4] gives are supplies [fresh] and [octets] a computation
      draws from in order; theorems ask that the supply repeats no identifier.  A memory in MiB
      in GiB is the argument [gib].
    - The server name of an application is an expression of nginx: [ShowroomSafe.accepts] reads
      its parts, [server_name_printed] shows that they print to the text the code writes.
    - An instant is an integer number of microseconds in UTC.
    - What is outside the repository is an argument: the cloud call of [provision_host], the
      clock, fresh identifiers, the order of a set, the instance catalogue.  In [EipService] a
      cloud call is an oracle that answers or fails, and an exception keeps the effects made
      before it.  In [ProjectTimer] the job store, the progress store and the synchronous stop
      are arguments, and a tick is the rows, the effects and whether it completed.
    - Concurrent code is a step system: one step per Redis command, or per section of a
      coroutine between two awaits; theorems hold in every reachable state.  A handler of
      [GroupAccess] runs under the row locks it takes: it is one step.
    - A job is a computation over a world: the project rows, the other tables, the counters, the
      canvas it works on, its session with the objects it loaded, its pending assignments and the
      row lock a flush takes.  What acts outside is an event of a log, answered by an environment
      that sees all events before, may change the canvas and may let other processes change the
      rows.  A job that waits for a lock its own session holds is [Blocked].
    - A request handler is a job computation with refusals (an HTTP status and its text) as
      values; the library, private keys and the result of provisioning are arguments, a disk's
      share is a whole number.  A race of requests has two steps per request: the reading of its row,
      with the lock it takes or waits for, and the rest of the handler.
    - The host a sweep acts on is a record (files, domains, pools, containers, bridges,
      namespaces); whether a command of the host succeeds, what a failed removal leaves and what
      is mounted are answered by a platform.  Paths have no symbolic links.  A request of the
      collector to an agent is refused, lost after it acted, broken or answered.
    - The network below [AgentClient] is an oracle that answers after a time.
    - Recursion is structural, or on fuel that is proved enough: [Ipv4.trailing_zeros] (32
      steps for 32 bits), [MeteringMath.months_loop] (one turn per 28 days of the period, the
      shortest month), [PyLemmas.skip_used] and [ClusterMembers.allocate_api_ext_port] (one turn
      per used port), [PyText.sha1_blocks] (one turn per byte), [TemplateClusters.topup_loop] (one
      turn per name taken or to make), [AgentClient.drain_loop] and [wait_loop] (the time left).  The loops of
      [DeployTargets.poll_turns] (1440 turns) and [DestroyFlow.namespace_turns] (60, then 24)
      are bounded in the code.

    ** Not modelled

    Of [deploy_service.py]: reconfiguration (a call of its handler), the installation of OpenShift, and
    what runs behind the calls that are events: images, seeds, networks and VM definitions on agents,
    the operator's resources, DNS and TLS.  [pattern_service.py] (orchestration
    of I/O over what is modelled here); of [health_poller.py] the renewal of certificates and its
    thread; [cluster_storage.py] (a call of the GC); the API routes but for
    the life cycle of projects, groups and users; the rest of
    [core/redis.py] (job queue and caches); of [template_loader.py] the listing and resolution
    of templates and the export of a canvas; of [showroom_scaffold.py] the substitution of public
    URLs ([urllib]); [auto_layout.py];
    the agents ([troshkad] but for the sweep, [operator]) and the front end.  Within modelled files: [is_valid_smbios_uuid]
    (a library regular expression), [validate_kubevirt_vm_disk_buses] with a capability report,
    the text of notifications, logging and the database session's transaction control. *)
From stdpp Require Import prelude sorting strings.
From Stdlib Require Import ZArith Lia.

(** The scope of the notations every file of the development shares. *)
Declare Scope py_scope.
Delimit Scope py_scope with py.

(** Python integers are unbounded: [Z] throughout. *)
Open Scope Z_scope.

(** ** Stable sorting

    Python's [sorted] and [list.sort] are stable.  [sort_by le] is insertion
    sort with the same stability: an element is placed before the first
    element that is not strictly smaller. *)
Section StableSort.
Context {A : Type} (le : A → A → bool).

Fixpoint insert_by (x : A) (l : list A) : list A :=
  match l with
  | [] => [x]
  | y :: l' => if le x y then x :: y :: l' else y :: insert_by x l'
  end.

Fixpoint sort_by (l : list A) : list A :=
  match l with
  | [] => []
  | x :: l' => insert_by x (sort_by l')
  end.
End StableSort.

(** Ordering on strings: byte-wise lexicographic, as Python compares [str]. *)
Definition str_leb (a b : string) : bool :=
  match String.compare a b with Gt => false | _ => true end.

(** Inclusive integer interval, Python's [range(a, b + 1)]. *)
Definition zrange (a b : Z) : list Z := seqZ a (b - a + 1).

(** Sum and maximum of a list of integers. *)
Definition zsum (l : list Z) : Z := foldr Z.add 0 l.

Fixpoint zmax (l : list Z) : option Z :=
  match l with
  | [] => None
  | x :: l' => match zmax l' with None => Some x | Some m => Some (Z.max x m) end
  end.

(** Keep the first occurrence of each element, in order: Python's
    [list(dict.fromkeys(l))]. *)
Definition dedup_first `{EqDecision A} (l : list A) : list A :=
  foldl (λ acc x, if decide (x ∈ acc) then acc else acc ++ [x]) [] l.

(** ** Automation *)

Create HintDb troshka.

(** Case analysis on every test the goal or the hypotheses scrutinise. *)
Ltac case_bools :=
  repeat match goal with
  | |- context [if ?b then _ else _] => destruct b eqn:?
  | H : context [if ?b then _ else _] |- _ => destruct b eqn:?
  end.

(** Turn boolean comparisons into propositions and close arithmetic. *)
Ltac bool_lia :=
  repeat match goal with
  | H : _ && _ = true |- _ => apply andb_prop in H as [? ?]
  | H : _ || _ = false |- _ => apply orb_false_elim in H as [? ?]
  | H : negb _ = true |- _ => apply negb_true_iff in H
  | H : negb _ = false |- _ => apply negb_false_iff in H
  | H : (_ <=? _) = true |- _ => apply Z.leb_le in H
  | H : (_ <=? _) = false |- _ => apply Z.leb_gt in H
  | H : (_ <? _) = true |- _ => apply Z.ltb_lt in H
  | H : (_ <? _) = false |- _ => apply Z.ltb_ge in H
  | H : (_ =? _) = true |- _ => apply Z.eqb_eq in H
  | H : (_ =? _) = false |- _ => apply Z.eqb_neq in H
  end; try lia.

(** ** Lemmas on sorting *)

(** A total preorder given as a boolean test, what Python's sort keys compare with. *)
Class TotalPreorder {A} (le : A → A → bool) := {
  le_total x y : le x y = false → le y x = true;
  le_trans x y z : le x y = true → le y z = true → le x z = true
}.

Section StableSortLemmas.
Context {A : Type} (le : A → A → bool).

Lemma insert_by_perm x l : insert_by le x l ≡ₚ x :: l.
Proof.
  induction l as [|y l IH]; simpl; [done|].
  destruct (le x y); [done|]. rewrite IH. by rewrite Permutation_swap.
Qed.

Lemma sort_by_perm l : sort_by le l ≡ₚ l.
Proof. induction l as [|x l IH]; simpl; [done|]. by rewrite insert_by_perm, IH. Qed.

Lemma elem_of_sort_by x l : x ∈ sort_by le l ↔ x ∈ l.
Proof. by rewrite sort_by_perm. Qed.

Lemma sort_by_nil_inv l : sort_by le l = [] → l = [].
Proof. intros H. pose proof (sort_by_perm l) as P. rewrite H in P. by apply Permutation_nil in P. Qed.

Context `{!TotalPreorder le}.

Lemma insert_by_Sorted x l :
  StronglySorted (λ a b, le a b = true) l →
  StronglySorted (λ a b, le a b = true) (insert_by le x l).
Proof.
  induction 1 as [|y l Hs IH Hall]; simpl; [by repeat constructor|].
  destruct (le x y) eqn:E.
  - constructor; [by constructor|]. constructor; [done|].
    eapply Forall_impl; [exact Hall|]. intros z. by apply le_trans.
  - constructor; [done|]. rewrite insert_by_perm. constructor; [by apply le_total|done].
Qed.

Lemma sort_by_Sorted l : StronglySorted (λ a b, le a b = true) (sort_by le l).
Proof. induction l; simpl; [constructor|]. by apply insert_by_Sorted. Qed.

Lemma sort_by_head x l ys :
  sort_by le l = x :: ys → x ∈ l ∧ ∀ y, y ∈ l → y = x ∨ le x y = true.
Proof.
  intros H. pose proof (sort_by_perm l) as P. pose proof (sort_by_Sorted l) as S.
  rewrite H in P, S. split; [rewrite <-P; left|].
  intros y Hy. rewrite <-P in Hy. apply elem_of_cons in Hy as [->|Hy]; [by left|right].
  inversion S as [|? ? _ HF]; subst. rewrite Forall_forall in HF. by apply HF.
Qed.
End StableSortLemmas.

(** ** Lemmas on integer lists *)

Lemma elem_of_zrange a b x : x ∈ zrange a b ↔ a ≤ x ≤ b.
Proof. unfold zrange. rewrite elem_of_seqZ. lia. Qed.

Lemma zsum_app l1 l2 : zsum (l1 ++ l2) = zsum l1 + zsum l2.
Proof. induction l1 as [|x l1 IH]; simpl; [done|]. unfold zsum in *; simpl. lia. Qed.

Lemma zsum_nonneg l : Forall (λ x, 0 ≤ x) l → 0 ≤ zsum l.
Proof. induction 1; unfold zsum in *; simpl; lia. Qed.

#[export] Instance zsum_perm : Proper ((≡ₚ) ==> eq) zsum.
Proof. induction 1; unfold zsum in *; simpl; lia. Qed.

Lemma zmax_Some_elem l m : zmax l = Some m → m ∈ l.
Proof.
  revert m; induction l as [|x l IH]; intros m; simpl; [done|].
  destruct (zmax l) as [k|]; intros [= <-]; [|left].
  destruct (Z.max_spec x k) as [[_ ->]|[_ ->]]; [right; by apply IH|left].
Qed.

Lemma zmax_None l : zmax l = None ↔ l = [].
Proof. split; [|by intros ->]. destruct l as [|x l]; simpl; [done|]. by destruct (zmax l). Qed.

Lemma zmax_ge l m x : zmax l = Some m → x ∈ l → x ≤ m.
Proof.
  revert m; induction l as [|y l IH]; intros m; simpl; [by intros _ ?%elem_of_nil|].
  destruct (zmax l) as [k|] eqn:E; intros [= <-] [->|Hx]%elem_of_cons; try lia.
  - specialize (IH _ eq_refl Hx). lia.
  - apply zmax_None in E as ->. by apply elem_of_nil in Hx.
Qed.

(** ** Lemmas on [dedup_first] *)
Section Dedup.
Context `{EqDecision A}.

Lemma dedup_first_acc (l acc : list A) :
  let r := foldl (λ acc x, if decide (x ∈ acc) then acc else acc ++ [x]) acc l in
  (NoDup acc → NoDup r) ∧ (∀ x, x ∈ r ↔ x ∈ acc ∨ x ∈ l).
Proof.
  revert acc; induction l as [|y l IH]; intros acc; simpl; [set_solver|].
  destruct (IH (if decide (y ∈ acc) then acc else acc ++ [y])) as [H1 H2].
  split.
  - intros Hn. apply H1. case_decide as Hd; [done|].
    apply NoDup_app; set_solver by auto using NoDup_singleton.
  - intros x. rewrite H2. case_decide; set_solver.
Qed.

Lemma dedup_first_NoDup (l : list A) : NoDup (dedup_first l).
Proof. apply (dedup_first_acc l []). constructor. Qed.

Lemma elem_of_dedup_first (l : list A) x : x ∈ dedup_first l ↔ x ∈ l.
Proof. destruct (dedup_first_acc l []) as [_ H]. unfold dedup_first. set_solver. Qed.

Lemma dedup_first_go_id (l acc : list A) :
  NoDup (acc ++ l) →
  foldl (λ acc x, if decide (x ∈ acc) then acc else acc ++ [x]) acc l = acc ++ l.
Proof.
  revert acc; induction l as [|x l IH]; intros acc Hn; simpl; [by rewrite app_nil_r|].
  rewrite decide_False.
  - rewrite IH; by rewrite <-app_assoc.
  - intros Hx. apply NoDup_app in Hn as (_ & Hd & _). apply (Hd x Hx). left.
Qed.

Lemma dedup_first_id (l : list A) : NoDup l → dedup_first l = l.
Proof. apply (dedup_first_go_id l []). Qed.
End Dedup.

#[export] Hint Resolve dedup_first_NoDup : troshka.

(** A sublist of full length is the whole list. *)
Lemma sublist_length_eq {A} (l1 l2 : list A) :
  l1 `sublist_of` l2 → length l1 = length l2 → l1 = l2.
Proof.
  induction 1 as [|x l1 l2 Hs IH|x l1 l2 Hs IH]; cbn; [done|intros [= ?]; f_equal; auto|].
  apply sublist_length in Hs. lia.
Qed.

