(* ===== verification/PyStr.v ===== *)
(** * Python string operations

    The methods of [str] the modelled modules use, over Rocq's [string].  Text
    is ASCII: a Python string is a sequence of characters below 128.  Every
    function is total; the operations that raise live in [PyVal]. *)
From stdpp Require Import prelude strings pretty.
From Stdlib Require Import Ascii.
From S2P Require Import Prelude.

(** [s.startswith(p)] and [s.endswith(p)]. *)
Fixpoint startswith (p s : string) : bool :=
  match p, s with
  | EmptyString, _ => true
  | String a p', String b s' => if decide (a = b) then startswith p' s' else false
  | String _ _, EmptyString => false
  end.

Definition endswith (p s : string) : bool :=
  startswith (String.rev p) (String.rev s).

(** [sub in s]. *)
Fixpoint contains (sub s : string) : bool :=
  startswith sub s ||
  match s with
  | EmptyString => false
  | String _ s' => contains sub s'
  end.

(** [s[:n]] and [s[n:]] for a non-negative [n]. *)
Fixpoint str_take (n : nat) (s : string) : string :=
  match n, s with
  | S n', String a s' => String a (str_take n' s')
  | _, _ => EmptyString
  end.

Fixpoint str_drop (n : nat) (s : string) : string :=
  match n, s with
  | S n', String _ s' => str_drop n' s'
  | _, _ => s
  end.

(** [s[-n:]] and [s[:-n]] for a positive [n]. *)
Definition str_last (n : nat) (s : string) : string :=
  str_drop (String.length s - n) s.
Definition str_drop_last (n : nat) (s : string) : string :=
  str_take (String.length s - n) s.

(** [s.split(c)] for a one-character separator: always at least one part. *)
Fixpoint split (c : ascii) (s : string) : list string :=
  match s with
  | EmptyString => [EmptyString]
  | String a s' =>
      if decide (a = c) then EmptyString :: split c s'
      else match split c s' with
           | [] => [String a EmptyString]
           | p :: ps => String a p :: ps
           end
  end.

(** [s.split(c, 1)[0]]: the text before the first separator. *)
Fixpoint split_head (c : ascii) (s : string) : string :=
  match s with
  | EmptyString => EmptyString
  | String a s' => if decide (a = c) then EmptyString else String a (split_head c s')
  end.

(** [sep.join(parts)]. *)
Fixpoint join (sep : string) (parts : list string) : string :=
  match parts with
  | [] => EmptyString
  | [p] => p
  | p :: ps => p +:+ sep +:+ join sep ps
  end.

(** [s.strip()]: ASCII white space (including the separators 0x1c-0x1f, which
    Python counts as white space) off both ends. *)
Definition is_py_space (a : ascii) : bool :=
  let n := N_of_ascii a in
  ((9 <=? n) && (n <=? 13) || (28 <=? n) && (n <=? 32))%N.

Fixpoint lstrip (s : string) : string :=
  match s with
  | String a s' => if is_py_space a then lstrip s' else s
  | EmptyString => EmptyString
  end.

Definition rstrip (s : string) : string := String.rev (lstrip (String.rev s)).
Definition strip (s : string) : string := rstrip (lstrip s).

(** [s.lower()] and [s.upper()]. *)
Definition lower_ascii (a : ascii) : ascii :=
  let n := N_of_ascii a in
  if ((65 <=? n) && (n <=? 90))%N then ascii_of_N (n + 32) else a.
Definition upper_ascii (a : ascii) : ascii :=
  let n := N_of_ascii a in
  if ((97 <=? n) && (n <=? 122))%N then ascii_of_N (n - 32) else a.

Fixpoint str_map (f : ascii → ascii) (s : string) : string :=
  match s with
  | EmptyString => EmptyString
  | String a s' => String (f a) (str_map f s')
  end.
Definition lower : string → string := str_map lower_ascii.
Definition upper : string → string := str_map upper_ascii.

(** [s.replace(old, new)] for a non-empty [old]: left to right,
    non-overlapping.  [skip] counts the characters of a match still to drop. *)
Fixpoint replace_go (old new : string) (skip : nat) (s : string) : string :=
  match s with
  | EmptyString => EmptyString
  | String a s' =>
      match skip with
      | S k => replace_go old new k s'
      | O => if startswith old s
             then new +:+ replace_go old new (String.length old - 1) s'
             else String a (replace_go old new 0 s')
      end
  end.
Definition replace (old new s : string) : string := replace_go old new 0 s.

(** [str(z)]. *)
Definition str_of_Z (z : Z) : string := pretty z.

(** [s.isdigit()] restricted to ASCII, as [ipaddress] tests it. *)
Definition is_digit (a : ascii) : bool :=
  let n := N_of_ascii a in ((48 <=? n) && (n <=? 57))%N.

Definition digit_val (a : ascii) : Z := Z.of_N (N_of_ascii a) - 48.

Fixpoint all_digits (s : string) : bool :=
  match s with
  | EmptyString => true
  | String a s' => is_digit a && all_digits s'
  end.

Definition isdigit (s : string) : bool :=
  match s with EmptyString => false | _ => all_digits s end.

(** Value of a string of digits, most significant first. *)
Fixpoint dec_go (acc : Z) (s : string) : Z :=
  match s with
  | EmptyString => acc
  | String a s' => dec_go (10 * acc + digit_val a) s'
  end.
Definition dec_val (s : string) : Z := dec_go 0 s.

(** [int(s)]: optional white space and sign, digits with single underscores
    between them; [None] is Python's [ValueError]. *)
Fixpoint digits_underscored (prev_digit : bool) (s : string) : option string :=
  match s with
  | EmptyString => if prev_digit then Some EmptyString else None
  | String a s' =>
      if is_digit a then String a <$> digits_underscored true s'
      else if decide (a = "_"%char) then
        if prev_digit then digits_underscored false s' else None
      else None
  end.

Definition int_of_string (s : string) : option Z :=
  match strip s with
  | String "-" r => Z.opp ∘ dec_val <$> digits_underscored false r
  | String "+" r => dec_val <$> digits_underscored false r
  | r => dec_val <$> digits_underscored false r
  end.

(** ["%02x" % n] for [0 <= n]; the code formats bytes only. *)
Definition hex_digit (n : Z) : ascii :=
  if n <? 10 then ascii_of_N (Z.to_N (48 + n)) else ascii_of_N (Z.to_N (87 + n)).
Definition hex2 (n : Z) : string :=
  String (hex_digit (n / 16)) (String (hex_digit (n mod 16)) EmptyString).

(** ** Lemmas *)

#[global] Arguments String.append : simpl nomatch.

Lemma str_app_assoc (a b c : string) : a +:+ (b +:+ c) = (a +:+ b) +:+ c.
Proof. induction a as [|x a IH]; simpl; [done|]. by rewrite IH. Qed.

Lemma str_app_nil_r (a : string) : a +:+ "" = a.
Proof. induction a as [|x a IH]; simpl; [done|]. by rewrite IH. Qed.

Lemma str_app_inj_l (p a b : string) : p +:+ a = p +:+ b → a = b.
Proof. induction p as [|x p IH]; simpl; [done|]. intros [= ?]. by apply IH. Qed.

Lemma startswith_app p s : startswith p (p +:+ s) = true.
Proof. induction p as [|a p IH]; simpl; [done|]. by rewrite decide_True. Qed.

Lemma startswith_spec p s : startswith p s = true ↔ ∃ r, s = p +:+ r.
Proof.
  split; [|intros [r ->]; apply startswith_app].
  revert s; induction p as [|a p IH]; intros s; simpl; [by eauto|].
  destruct s as [|b s]; [done|]. case_decide as Heq; [subst|done].
  intros (r & ->)%IH. by exists r.
Qed.

Fixpoint no_char (c : ascii) (s : string) : bool :=
  match s with
  | EmptyString => true
  | String a s' => if decide (a = c) then false else no_char c s'
  end.

Lemma split_no_char c s : no_char c s = true → split c s = [s].
Proof.
  induction s as [|a s IH]; simpl; [done|].
  case_decide; [done|]. intros Hn%IH. by rewrite Hn.
Qed.

Lemma split_app c a s :
  no_char c a = true → split c (a +:+ String c s) = a :: split c s.
Proof.
  induction a as [|x a IH]; simpl.
  - intros _. by rewrite decide_True.
  - case_decide; [done|]. intros Hn%IH. by rewrite Hn.
Qed.

Lemma split_nonempty c s : split c s ≠ [].
Proof. destruct s as [|a s]; simpl; [done|]. case_decide; [done|]. by destruct (split c s). Qed.

(** [join] undoes [split]: Python's [c.join(s.split(c)) == s]. *)
Lemma join_split c s : join (String c EmptyString) (split c s) = s.
Proof.
  induction s as [|a s IH]; simpl; [done|].
  pose proof (split_nonempty c s) as Hne.
  case_decide as Heq; subst.
  - rewrite <-IH at 2. by destruct (split c s).
  - rewrite <-IH at 2. destruct (split c s) as [|p [|q ps]]; done.
Qed.

Lemma hex_digit_inj a b : 0 ≤ a < 16 → 0 ≤ b < 16 → hex_digit a = hex_digit b → a = b.
Proof.
  intros Ha Hb.
  assert (Hall : forallb (λ x, forallb (λ y,
      implb (bool_decide (hex_digit x = hex_digit y)) (x =? y)) (zrange 0 15)) (zrange 0 15) = true)
    by (vm_compute; reflexivity).
  rewrite forallb_forall in Hall. intros Heq.
  specialize (Hall a). rewrite <-list_elem_of_In, elem_of_zrange in Hall.
  specialize (Hall ltac:(lia)). rewrite forallb_forall in Hall.
  specialize (Hall b). rewrite <-list_elem_of_In, elem_of_zrange in Hall.
  specialize (Hall ltac:(lia)). rewrite bool_decide_eq_true_2 in Hall by done.
  simpl in Hall. by apply Z.eqb_eq.
Qed.

Lemma hex2_inj a b : 0 ≤ a < 256 → 0 ≤ b < 256 → hex2 a = hex2 b → a = b.
Proof.
  intros Ha Hb [= H1 H2].
  apply hex_digit_inj in H1, H2;
    [| split; (apply Z.mod_pos_bound || apply Z.div_pos || apply Z.div_lt_upper_bound); lia ..].
  rewrite (Z.div_mod a 16), (Z.div_mod b 16); lia.
Qed.

#[export] Hint Resolve startswith_app split_no_char : troshka.
