(* ===== verification/StrLemmas.v ===== *)
(** * Lemmas on Python texts

    Decimal text of integers, stripping, and splitting what was joined. *)
From stdpp Require Import prelude strings pretty.
From Stdlib Require Import Ascii.
From S2P Require Import Prelude PyStr.

(** A test of every character. *)
Fixpoint str_forallb (f : ascii → bool) (s : string) : bool :=
  match s with EmptyString => true | String a s' => f a && str_forallb f s' end.

Lemma str_forallb_app f s t : str_forallb f (s +:+ t) = str_forallb f s && str_forallb f t.
Proof. induction s as [|a s IH]; simpl; [done|]. by rewrite IH, andb_assoc. Qed.

Lemma str_forallb_impl (f g : ascii → bool) s :
  (∀ a, f a = true → g a = true) → str_forallb f s = true → str_forallb g s = true.
Proof.
  intros Hfg. induction s as [|a s IH]; simpl; [done|].
  intros [Ha Hs]%andb_prop. by rewrite (Hfg a Ha), IH.
Qed.

Lemma no_char_forallb c s : no_char c s = str_forallb (λ a, negb (bool_decide (a = c))) s.
Proof.
  induction s as [|a s IH]; simpl; [done|].
  case_decide; [by rewrite bool_decide_eq_true_2|]. by rewrite bool_decide_eq_false_2, IH.
Qed.

Lemma str_length_app s t : String.length (s +:+ t) = (String.length s + String.length t)%nat.
Proof. induction s as [|a s IH]; simpl; [done|]. by rewrite IH. Qed.

(** ** Reversal and stripping *)

Lemma rev_app_spec s t : String.rev_app s t = String.rev s +:+ t.
Proof.
  unfold String.rev. revert t; induction s as [|a s IH]; intros t; simpl; [done|].
  rewrite IH, (IH (String a "")). by rewrite <-str_app_assoc.
Qed.

Lemma rev_cons a s : String.rev (String a s) = String.rev s +:+ String a "".
Proof. unfold String.rev at 1. simpl. apply rev_app_spec. Qed.

Lemma rev_string_app s t : String.rev (s +:+ t) = String.rev t +:+ String.rev s.
Proof.
  induction s as [|a s IH]; simpl; [by rewrite str_app_nil_r|].
  by rewrite !rev_cons, IH, str_app_assoc.
Qed.

Lemma rev_involutive s : String.rev (String.rev s) = s.
Proof. induction s as [|a s IH]; [done|]. by rewrite rev_cons, rev_string_app, IH. Qed.

Lemma forallb_rev f s : str_forallb f (String.rev s) = str_forallb f s.
Proof.
  induction s as [|a s IH]; [done|]. rewrite rev_cons, str_forallb_app, IH. simpl.
  by rewrite andb_true_r, andb_comm.
Qed.

(** [lstrip] drops a prefix. *)
Lemma lstrip_suffix s : ∃ p, s = p +:+ lstrip s.
Proof.
  induction s as [|a s [p IH]]; simpl; [by exists ""|].
  destruct (is_py_space a); [exists (String a p); simpl; by rewrite <-IH|by exists ""].
Qed.

Lemma lstrip_idem s : lstrip (lstrip s) = lstrip s.
Proof.
  induction s as [|a s IH]; simpl; [done|]. destruct (is_py_space a) eqn:E; [done|].
  simpl. by rewrite E.
Qed.

Lemma lstrip_no_space s : str_forallb (λ a, negb (is_py_space a)) s = true → lstrip s = s.
Proof.
  destruct s as [|a s]; simpl; [done|]. intros [Ha _]%andb_prop. by destruct (is_py_space a).
Qed.

Lemma strip_no_space s : str_forallb (λ a, negb (is_py_space a)) s = true → strip s = s.
Proof.
  intros H. unfold strip, rstrip. rewrite (lstrip_no_space s) by done.
  rewrite lstrip_no_space by by rewrite forallb_rev. apply rev_involutive.
Qed.

(** A text whose first character is not white space, or that is empty. *)
Lemma lstrip_fixed s : lstrip s = s ↔ match s with String a _ => is_py_space a = false | _ => True end.
Proof.
  split.
  - destruct s as [|a s]; [done|]. simpl. destruct (is_py_space a) eqn:E; [|done].
    intros H. exfalso. destruct (lstrip_suffix s) as [p Hp]. rewrite H in Hp.
    apply (f_equal String.length) in Hp. rewrite str_length_app in Hp. simpl in Hp. lia.
  - destruct s as [|a s]; [done|]. simpl. by intros ->.
Qed.

(** Dropping white space at the end keeps the beginning. *)
Lemma rstrip_keeps_head s : lstrip s = s → lstrip (rstrip s) = rstrip s.
Proof.
  intros H. apply lstrip_fixed. unfold rstrip.
  destruct (lstrip_suffix (String.rev s)) as [p Hp].
  apply (f_equal String.rev) in Hp. rewrite rev_involutive, rev_string_app in Hp.
  apply lstrip_fixed in H. destruct (String.rev (lstrip (String.rev s))) as [|a r]; [done|].
  rewrite Hp in H. exact H.
Qed.

Lemma strip_idem s : strip (strip s) = strip s.
Proof.
  unfold strip. rewrite (rstrip_keeps_head (lstrip s)) by apply lstrip_idem.
  unfold rstrip. by rewrite rev_involutive, lstrip_idem.
Qed.

Lemma str_forallb_strip f s : str_forallb f s = true → str_forallb f (strip s) = true.
Proof.
  assert (Hl : ∀ t, str_forallb f t = true → str_forallb f (lstrip t) = true).
  { intros t Ht. destruct (lstrip_suffix t) as [p Hp]. rewrite Hp, str_forallb_app in Ht.
    by apply andb_prop in Ht as [_ Ht]. }
  intros H. unfold strip, rstrip. rewrite forallb_rev. apply Hl. rewrite forallb_rev. by apply Hl.
Qed.

(** ** Splitting and joining *)

Lemma split_forallb c s p : p ∈ split c s → no_char c p = true.
Proof.
  revert p; induction s as [|a s IH]; intros p; simpl; [by intros ->%list_elem_of_singleton|].
  pose proof (split_nonempty c s) as Hne. case_decide as Heq.
  - intros [->|Hp]%elem_of_cons; [done|by apply IH].
  - destruct (split c s) as [|q qs]; [done|]. intros [->|Hp]%elem_of_cons.
    + simpl. rewrite decide_False by done. apply IH. left.
    + apply IH. by right.
Qed.

(** [c.join(parts).split(c)] for parts without [c]. *)
Lemma split_join c parts :
  parts ≠ [] → Forall (λ p, no_char c p = true) parts →
  split c (join (String c EmptyString) parts) = parts.
Proof.
  intros Hne HF. induction HF as [|p ps Hp HF IH]; [done|]. destruct ps as [|q ps].
  - simpl. by apply split_no_char.
  - change (join (String c EmptyString) (p :: q :: ps))
      with (p +:+ String c (join (String c EmptyString) (q :: ps))).
    rewrite split_app by done. by rewrite IH.
Qed.

(** ** Decimal text *)

Lemma pretty_N_go_digits x s : all_digits (pretty_N_go x s) = all_digits s.
Proof.
  revert s; induction (N.lt_wf_0 x) as [x _ IH]; intros s.
  assert (x = 0 ∨ 0 < x)%N as [->|Hx] by lia; [by rewrite pretty_N_go_0|].
  rewrite pretty_N_go_step, IH by (done || by apply N.div_lt). simpl.
  pose proof (N.mod_lt x 10 ltac:(done)) as Hm. revert Hm. generalize (x `mod` 10)%N. intros m Hm.
  assert (is_digit (pretty_N_char m) = true) as ->; [|done].
  unfold pretty_N_char. by repeat case_match.
Qed.

Lemma digit_val_char m : (m < 10)%N → digit_val (pretty_N_char m) = Z.of_N m.
Proof.
  intros Hm. assert (m = 0 ∨ m = 1 ∨ m = 2 ∨ m = 3 ∨ m = 4 ∨ m = 5 ∨ m = 6 ∨ m = 7 ∨ m = 8 ∨ m = 9)%N
    as H by lia. by decompose [or] H; subst.
Qed.

Lemma pretty_N_go_value x s : dec_go 0 (pretty_N_go x s) = dec_go (Z.of_N x) s.
Proof.
  revert s; induction (N.lt_wf_0 x) as [x _ IH]; intros s.
  assert (x = 0 ∨ 0 < x)%N as [->|Hx] by lia; [by rewrite pretty_N_go_0|].
  rewrite pretty_N_go_step, IH by (done || by apply N.div_lt). simpl.
  rewrite digit_val_char by (by apply N.mod_lt). f_equal.
  pose proof (N.div_mod x 10 ltac:(done)). lia.
Qed.

Lemma str_of_Z_nonneg z : 0 ≤ z → str_of_Z z = pretty (Z.to_N z).
Proof. intros Hz. unfold str_of_Z, pretty, pretty_Z. destruct z; try done; lia. Qed.

Lemma str_of_Z_digits z : 0 ≤ z → all_digits (str_of_Z z) = true.
Proof.
  intros Hz. rewrite str_of_Z_nonneg by done. unfold pretty, pretty_N.
  case_decide; [done|]. by rewrite pretty_N_go_digits.
Qed.

Lemma dec_val_str_of_Z z : 0 ≤ z → dec_val (str_of_Z z) = z.
Proof.
  intros Hz. rewrite str_of_Z_nonneg by done. unfold pretty, pretty_N, dec_val.
  case_decide as H; [change (dec_go 0 "0") with 0; lia|]. rewrite pretty_N_go_value. simpl. lia.
Qed.

Lemma str_of_Z_nonempty z : 0 ≤ z → str_of_Z z ≠ "".
Proof.
  intros Hz He. pose proof (dec_val_str_of_Z z Hz) as Hv. rewrite He in Hv.
  assert (z = 0) as -> by done. done.
Qed.

Lemma all_digits_forallb s : all_digits s = str_forallb is_digit s.
Proof. induction s as [|a s IH]; simpl; [done|]. by rewrite IH. Qed.

Lemma str_of_Z_forallb f z :
  0 ≤ z → (∀ a, is_digit a = true → f a = true) → str_forallb f (str_of_Z z) = true.
Proof.
  intros Hz Hf. eapply str_forallb_impl; [exact Hf|].
  rewrite <-all_digits_forallb. by apply str_of_Z_digits.
Qed.

Lemma digit_not_space a : is_digit a = true → negb (is_py_space a) = true.
Proof. by destruct a as [[] [] [] [] [] [] [] []]. Qed.

Lemma digits_underscored_all b s :
  all_digits s = true → s ≠ "" ∨ b = true → digits_underscored b s = Some s.
Proof.
  revert b; induction s as [|a s IH]; intros b; simpl; [by intros _ [?| ->]|].
  intros [Ha Hs]%andb_prop _. rewrite Ha. rewrite IH by auto. done.
Qed.

(** [int(str(z)) == z]. *)
Lemma int_of_string_str_of_Z z : 0 ≤ z → int_of_string (str_of_Z z) = Some z.
Proof.
  intros Hz. unfold int_of_string.
  rewrite strip_no_space by (apply str_of_Z_forallb; [done|apply digit_not_space]).
  pose proof (str_of_Z_digits z Hz) as Hd. pose proof (dec_val_str_of_Z z Hz) as Hv.
  pose proof (str_of_Z_nonempty z Hz) as Hne.
  assert (H : digits_underscored false (str_of_Z z) = Some (str_of_Z z)).
  { apply digits_underscored_all; auto. }
  destruct (str_of_Z z) as [|a s] eqn:Es; [done|].
  assert (Ha : is_digit a = true) by (simpl in Hd; by apply andb_prop in Hd as [? _]).
  assert (dec_val <$> digits_underscored false (String a s) = Some z) as Hr by (by rewrite H, <-Hv).
  destruct a as [[] [] [] [] [] [] [] []]; try discriminate Ha; exact Hr.
Qed.

(** ** Prefixes and joined texts *)

(** Two prefixes of one text: one is a prefix of the other. *)
Lemma prefixes_comparable (a b x y : string) : a +:+ x = b +:+ y → startswith a b = true ∨ startswith b a = true.
Proof.
  revert b. induction a as [|c a IH]; intros [|c' b]; cbn; intros H; auto.
  injection H as -> H. rewrite !decide_True by done. by apply IH.
Qed.

Lemma join_snoc sep l x : l ≠ [] → join sep (l ++ [x]) = join sep l +:+ sep +:+ x.
Proof.
  induction l as [|a l IH]; [done|]. intros _. destruct l as [|b l]; [done|].
  change ((a :: b :: l) ++ [x]) with (a :: (b :: l) ++ [x]).
  change (join sep (a :: (b :: l) ++ [x])) with (a +:+ sep +:+ join sep ((b :: l) ++ [x])).
  rewrite IH by done. change (join sep (a :: b :: l)) with (a +:+ sep +:+ join sep (b :: l)).
  by rewrite !str_app_assoc.
Qed.
