(* ===== verification/PyVal.v ===== *)
(** * Python values, exceptions and control flow

    Canvas topologies are JSON documents handled as plain Python objects.  This
    file holds the value type, the result monad with Python's exceptions, the
    dictionary and list primitives with the exceptions they raise, and the loop
    combinators ([for] with [continue], [break] and [return]) the modelled
    functions are written with.  JSON numbers are integers here. *)
From stdpp Require Import prelude strings pretty.
From Stdlib Require Import Ascii.
From S2P Require Import Prelude PyStr.

(** ** Values *)

Inductive val :=
| VNone
| VBool (b : bool)
| VInt (z : Z)
| VStr (s : string)
| VList (l : list val)
| VDict (kvs : list (string * val)).

Fixpoint val_eq_dec (a b : val) {struct a} : {a = b} + {a ≠ b}.
Proof.
  decide equality.
  - apply bool_dec.
  - apply Z.eq_dec.
  - apply String.string_dec.
  - exact (List.list_eq_dec val_eq_dec l l0).
  - refine (List.list_eq_dec (λ p q : string * val, _) kvs kvs0).
    decide equality. apply String.string_dec.
Defined.
#[export] Instance val_eq_decision : EqDecision val := val_eq_dec.

(** ** Exceptions and the result monad *)

Inductive exn :=
| KeyError
| IndexError
| TypeError
| AttributeError
| ValueError
| StopIteration
| AssertionError
| OverflowError
| RuntimeError (msg : string).

Inductive res (A : Type) :=
| Ok (a : A)
| Raise (e : exn).
Arguments Ok {_} _.
Arguments Raise {_} _.

Definition bind {A B} (m : res A) (f : A → res B) : res B :=
  match m with Ok a => f a | Raise e => Raise e end.
Notation "x <- m ;; k" := (bind m (λ x, k))
  (at level 100, m at next level, right associativity) : py_scope.
Notation "' p <- m ;; k" := (bind m (λ x, match x with p => k end))
  (at level 100, p pattern, m at next level, right associativity) : py_scope.
#[export] Instance res_fmap : FMap res := λ A B f m,
  match m with Ok a => Ok (f a) | Raise e => Raise e end.
Open Scope py_scope.

#[export] Instance exn_eq_dec : EqDecision exn.
Proof. solve_decision. Defined.

(** [try: m except ValueError: h]. *)
Definition except_value_error {A} (m h : res A) : res A :=
  match m with Raise ValueError => h | _ => m end.

Definition is_Ok {A} (m : res A) : Prop := ∃ a, m = Ok a.

(** Short-circuit [and] / [or] over conditions that may raise. *)
Definition py_and (a b : res bool) : res bool := x <- a;; if x then b else Ok false.
Definition py_or (a b : res bool) : res bool := x <- a;; if x then Ok true else b.
Notation "a '<&&>' b" := (py_and a b) (at level 40, left associativity) : py_scope.
Notation "a '<||>' b" := (py_or a b) (at level 50, left associativity) : py_scope.

(** ** Association lists in insertion order: Python's [dict] *)
Section Assoc.
Context {K : Type} `{EqDecision K} {V : Type}.

Fixpoint assoc (k : K) (m : list (K * V)) : option V :=
  match m with
  | [] => None
  | (k', v) :: m' => if decide (k = k') then Some v else assoc k m'
  end.

(** [d[k] = v]: replace in place, or append. *)
Fixpoint assoc_set (k : K) (v : V) (m : list (K * V)) : list (K * V) :=
  match m with
  | [] => [(k, v)]
  | (k', v') :: m' => if decide (k = k') then (k, v) :: m' else (k', v') :: assoc_set k v m'
  end.

(** [d.pop(k, None)]. *)
Definition assoc_del (k : K) (m : list (K * V)) : list (K * V) :=
  base.filter (λ p, p.1 ≠ k) m.
End Assoc.

(** ** Truth, equality, hashing, conversion to text *)

Definition truthy (v : val) : bool :=
  match v with
  | VNone => false
  | VBool b => b
  | VInt z => negb (z =? 0)
  | VStr s => match s with EmptyString => false | _ => true end
  | VList l => match l with [] => false | _ => true end
  | VDict d => match d with [] => false | _ => true end
  end.

(** [a or b] on values. *)
Definition v_or (a b : val) : val := if truthy a then a else b.

(** [a == b]: [True == 1], lists element-wise, dictionaries regardless of
    insertion order. *)
Fixpoint py_eq (a b : val) {struct a} : bool :=
  match a, b with
  | VNone, VNone => true
  | VBool x, VBool y => Bool.eqb x y
  | VBool x, VInt y => Z.b2z x =? y
  | VInt x, VBool y => x =? Z.b2z y
  | VInt x, VInt y => x =? y
  | VStr x, VStr y => String.eqb x y
  | VList l1, VList l2 =>
      (fix go l1 l2 := match l1, l2 with
       | [], [] => true
       | x :: l1', y :: l2' => py_eq x y && go l1' l2'
       | _, _ => false
       end) l1 l2
  | VDict d1, VDict d2 =>
      (length d1 =? length d2)%nat &&
      (fix go d := match d with
       | [] => true
       | (k, v) :: d' =>
           match assoc k d2 with Some w => py_eq v w | None => false end && go d'
       end) d1
  | _, _ => false
  end.

(** [v == "literal"] and [v in ("a", "b")]. *)
Definition eq_str (v : val) (s : string) : bool :=
  match v with VStr t => String.eqb t s | _ => false end.
Definition in_strs (v : val) (l : list string) : bool := existsb (eq_str v) l.

(** Lists and dictionaries cannot be dictionary keys or set members. *)
Definition hashable (v : val) : bool :=
  match v with VList _ | VDict _ => false | _ => true end.
Definition hkey (v : val) : res val := if hashable v then Ok v else Raise TypeError.

(** [isinstance(v, int)]: [bool] is a subclass of [int]. *)
Definition as_int (v : val) : option Z :=
  match v with VInt z => Some z | VBool b => Some (Z.b2z b) | _ => None end.

Definition dquote : ascii := ascii_of_N 34.
Definition squote : ascii := ascii_of_N 39.
Definition backslash : ascii := ascii_of_N 92.

(** [repr] of a character inside quotes [q]. *)
Definition repr_char (q a : ascii) : string :=
  let n := N_of_ascii a in
  if decide (a = backslash) then String backslash (String backslash EmptyString)
  else if decide (a = q) then String backslash (String a EmptyString)
  else if (n =? 10)%N then String backslash "n"
  else if (n =? 13)%N then String backslash "r"
  else if (n =? 9)%N then String backslash "t"
  else if ((n <? 32) || (n =? 127))%N then String backslash ("x" +:+ hex2 (Z.of_N n))
  else String a EmptyString.

Fixpoint repr_chars (q : ascii) (s : string) : string :=
  match s with
  | EmptyString => EmptyString
  | String a s' => repr_char q a +:+ repr_chars q s'
  end.

Definition repr_str (s : string) : string :=
  let q := if contains (String squote EmptyString) s &&
              negb (contains (String dquote EmptyString) s)
           then dquote else squote in
  String q (repr_chars q s +:+ String q EmptyString).

(** [repr(v)] and [str(v)]. *)
Fixpoint py_repr (v : val) : string :=
  match v with
  | VNone => "None"
  | VBool b => if b then "True" else "False"
  | VInt z => str_of_Z z
  | VStr s => repr_str s
  | VList l => "[" +:+ join ", " (map py_repr l) +:+ "]"
  | VDict d => "{" +:+ join ", " (map (λ p, repr_str p.1 +:+ ": " +:+ py_repr p.2) d) +:+ "}"
  end.

Definition py_str (v : val) : string :=
  match v with VStr s => s | _ => py_repr v end.

(** [int(v)]. *)
Definition py_int (v : val) : res Z :=
  match v with
  | VInt z => Ok z
  | VBool b => Ok (Z.b2z b)
  | VStr s => match int_of_string s with Some z => Ok z | None => Raise ValueError end
  | _ => Raise TypeError
  end.

(** Arithmetic on values: the operators the code applies to JSON numbers.
    Sequences and text take part in [+] and [*] in Python; those cases do not
    produce a number and are [TypeError] as soon as they meet one. *)
Definition num (v : val) : res Z :=
  match as_int v with Some z => Ok z | None => Raise TypeError end.

(** The text of a value a [str] method is called on. *)
Definition as_str (v : val) : res string :=
  match v with VStr s => Ok s | _ => Raise AttributeError end.

(** ** Dictionary and sequence access *)

(** [d.get(k, dflt)]. *)
Definition get (d : val) (k : string) (dflt : val) : res val :=
  match d with
  | VDict kvs => Ok (default dflt (assoc k kvs))
  | _ => Raise AttributeError
  end.

(** [d[k]]. *)
Definition idx (d : val) (k : string) : res val :=
  match d with
  | VDict kvs => match assoc k kvs with Some v => Ok v | None => Raise KeyError end
  | _ => Raise TypeError
  end.

(** [k in d] for a text [k]. *)
Definition has_key (k : string) (d : val) : res bool :=
  match d with
  | VDict kvs => Ok (bool_decide (is_Some (assoc k kvs)))
  | VList l => Ok (existsb (λ v, eq_str v k) l)
  | VStr s => Ok (contains k s)
  | _ => Raise TypeError
  end.

(** [d[k] = v]. *)
Definition set_item (d : val) (k : string) (v : val) : res val :=
  match d with
  | VDict kvs => Ok (VDict (assoc_set k v kvs))
  | _ => Raise TypeError
  end.

(** [d.pop(k, None)] for its effect. *)
Definition pop_item (d : val) (k : string) : res val :=
  match d with
  | VDict kvs => Ok (VDict (assoc_del k kvs))
  | _ => Raise AttributeError
  end.

(** [d.setdefault(k, dflt)]: the dictionary afterwards and the value. *)
Definition setdefault (d : val) (k : string) (dflt : val) : res (val * val) :=
  match d with
  | VDict kvs =>
      Ok (match assoc k kvs with
          | Some v => (d, v)
          | None => (VDict (assoc_set k dflt kvs), dflt)
          end)
  | _ => Raise AttributeError
  end.

Fixpoint chars (s : string) : list val :=
  match s with
  | EmptyString => []
  | String a s' => VStr (String a EmptyString) :: chars s'
  end.

(** [for x in v]. *)
Definition iter (v : val) : res (list val) :=
  match v with
  | VList l => Ok l
  | VDict d => Ok (map (λ p, VStr p.1) d)
  | VStr s => Ok (chars s)
  | _ => Raise TypeError
  end.

(** [d.items()] and [d.values()]. *)
Definition items (v : val) : res (list (string * val)) :=
  match v with VDict d => Ok d | _ => Raise AttributeError end.

(** [v[i]] on a sequence, for a non-negative literal [i]. *)
Definition nth_item (v : val) (i : nat) : res val :=
  match v with
  | VList l => match l !! i with Some x => Ok x | None => Raise IndexError end
  | VStr s => match chars s !! i with Some x => Ok x | None => Raise IndexError end
  | VDict _ => Raise KeyError
  | _ => Raise TypeError
  end.

(** [len(v)]. *)
Definition py_len (v : val) : res Z :=
  match v with
  | VList l => Ok (Z.of_nat (length l))
  | VDict d => Ok (Z.of_nat (length d))
  | VStr s => Ok (Z.of_nat (String.length s))
  | _ => Raise TypeError
  end.

(** ** Dictionaries and sets keyed by values (node ids) *)

Fixpoint vlookup {A} (k : val) (m : list (val * A)) : option A :=
  match m with
  | [] => None
  | (k', a) :: m' => if py_eq k k' then Some a else vlookup k m'
  end.

Fixpoint vinsert {A} (k : val) (a : A) (m : list (val * A)) : list (val * A) :=
  match m with
  | [] => [(k, a)]
  | (k', b) :: m' => if py_eq k k' then (k', a) :: m' else (k', b) :: vinsert k a m'
  end.

(** [m.get(k)], [m[k] = a], [k in m]: an unhashable key raises. *)
Definition vget {A} (k : val) (m : list (val * A)) : res (option A) :=
  k <- hkey k;; Ok (vlookup k m).
Definition vset {A} (k : val) (a : A) (m : list (val * A)) : res (list (val * A)) :=
  k <- hkey k;; Ok (vinsert k a m).

Definition vmem (k : val) (s : list val) : bool := existsb (py_eq k) s.
Definition vadd (k : val) (s : list val) : res (list val) :=
  k <- hkey k;; Ok (if vmem k s then s else s ++ [k]).
Definition vin (k : val) (s : list val) : res bool := k <- hkey k;; Ok (vmem k s).

(** ** Loops *)
Section Loops.
Context {A S R : Type}.

(** [for x in l: body], the state being what the body assigns; [continue] is a
    body that returns the state. *)
Fixpoint for_each (l : list A) (s : S) (body : A → S → res S) : res S :=
  match l with
  | [] => Ok s
  | x :: l' => s' <- body x s;; for_each l' s' body
  end.

(** A loop body that may [break] or [return]. *)
Inductive ctl :=
| Next (s : S)
| Break (s : S)
| Return (r : R).

Fixpoint for_ctl (l : list A) (s : S) (body : A → S → res ctl) : res (S + R) :=
  match l with
  | [] => Ok (inl s)
  | x :: l' =>
      c <- body x s;;
      match c with
      | Next s' => for_ctl l' s' body
      | Break s' => Ok (inl s')
      | Return r => Ok (inr r)
      end
  end.

(** A stateless loop that returns at the first hit. *)
Fixpoint first_some (f : A → res (option R)) (l : list A) : res (option R) :=
  match l with
  | [] => Ok None
  | x :: l' => o <- f x;; match o with Some r => Ok (Some r) | None => first_some f l' end
  end.

(** [\[f(x) for x in l\]], [\[x for x in l if p(x)\]]. *)
Fixpoint map_res (f : A → res R) (l : list A) : res (list R) :=
  match l with
  | [] => Ok []
  | x :: l' => y <- f x;; ys <- map_res f l';; Ok (y :: ys)
  end.

Fixpoint filter_res (p : A → res bool) (l : list A) : res (list A) :=
  match l with
  | [] => Ok []
  | x :: l' => b <- p x;; ys <- filter_res p l';; Ok (if b then x :: ys else ys)
  end.

(** [any(...)] and [all(...)] over a generator. *)
Fixpoint any_res (p : A → res bool) (l : list A) : res bool :=
  match l with
  | [] => Ok false
  | x :: l' => b <- p x;; if b then Ok true else any_res p l'
  end.

Fixpoint all_res (p : A → res bool) (l : list A) : res bool :=
  match l with
  | [] => Ok true
  | x :: l' => b <- p x;; if b then all_res p l' else Ok false
  end.

(** [next((x for x in l if p(x)), None)]. *)
Fixpoint find_res (p : A → res bool) (l : list A) : res (option A) :=
  match l with
  | [] => Ok None
  | x :: l' => b <- p x;; if b then Ok (Some x) else find_res p l'
  end.
End Loops.
Arguments ctl : clear implicits.

(** A literal dictionary. *)
Notation "'{{' x ; .. ; y '}}'" :=
  (VDict (cons x .. (cons y nil) ..)) (at level 0) : py_scope.
Notation "k '::=' v" := (k : string, v : val) (at level 60, only parsing) : py_scope.
