(* ===== verification/Ipv4.v ===== *)
(** * The fragment of Python's [ipaddress] the code uses

    IPv4 only: an address is an integer in [0, 2^32), a network an address with
    its host bits cleared and a prefix length.  [ip_address] and [ip_network]
    (with [strict=False]) parse text the way the standard library does, netmask
    and hostmask forms included; [ValueError] covers its subclasses
    [AddressValueError] and [NetmaskValueError].  IPv6 text is a [ValueError]
    here. *)
From stdpp Require Import prelude strings pretty.
From Stdlib Require Import Ascii.
From S2P Require Import Prelude PyStr StrLemmas PyVal.

Record network := Net { net_addr : Z; net_prefix : Z }.

Definition all_ones : Z := 2 ^ 32 - 1.

(** [_BaseV4._parse_octet]. *)
Definition parse_octet (s : string) : option Z :=
  if negb (isdigit s) then None
  else if (3 <? Z.of_nat (String.length s)) then None
  else if negb (String.eqb s "0") && startswith "0" s then None
  else if 255 <? dec_val s then None
  else Some (dec_val s).

(** [_BaseV4._ip_int_from_string]. *)
Definition ip_int_from_string (s : string) : option Z :=
  match split "." s with
  | [a; b; c; d] =>
      a ← parse_octet a; b ← parse_octet b; c ← parse_octet c; d ← parse_octet d;
      Some (((a * 256 + b) * 256 + c) * 256 + d)
  | _ => None
  end.

(** [str(IPv4Address)]. *)
Definition ip_str (z : Z) : string :=
  str_of_Z (z / 2 ^ 24 mod 256) +:+ "." +:+ str_of_Z (z / 2 ^ 16 mod 256) +:+ "." +:+
  str_of_Z (z / 2 ^ 8 mod 256) +:+ "." +:+ str_of_Z (z mod 256).

(** [_count_righthand_zero_bits(number, 32)]. *)
Fixpoint trailing_zeros (fuel : nat) (z : Z) : Z :=
  match fuel with
  | O => 0
  | S f => if Z.odd z then 0 else 1 + trailing_zeros f (z / 2)
  end.

(** [_prefix_from_ip_int]. *)
Definition prefix_from_ip_int (z : Z) : option Z :=
  let tz := trailing_zeros 32 z in
  let prefixlen := 32 - tz in
  if Z.shiftr z tz =? 2 ^ prefixlen - 1 then Some prefixlen else None.

(** [_make_netmask]: prefix length, netmask or hostmask text. *)
Definition prefix_from_string (s : string) : option Z :=
  if isdigit s && (dec_val s <=? 32) then Some (dec_val s)
  else
    z ← ip_int_from_string s;
    match prefix_from_ip_int z with
    | Some p => Some p
    | None => prefix_from_ip_int (Z.lxor z all_ones)
    end.

Definition netmask (p : Z) : Z := 2 ^ 32 - 2 ^ (32 - p).

Definition make_network (addr p : Z) : network := Net (Z.land addr (netmask p)) p.

(** [ip_network(s, strict=False)] on text. *)
Definition ip_network_of_string (s : string) : option network :=
  match split "/" s with
  | [a] => addr ← ip_int_from_string a; Some (make_network addr 32)
  | [a; m] => addr ← ip_int_from_string a; p ← prefix_from_string m; Some (make_network addr p)
  | _ => None
  end.

Definition valid_addr (z : Z) : bool := (0 <=? z) && (z <? 2 ^ 32).

(** [ip_address(v)] and [ip_network(v, strict=False)] on a value: text, or an
    integer taken as a packed address.  The text of any other value is never an
    address. *)
Definition ip_address (v : val) : res Z :=
  match v with
  | VStr s => match ip_int_from_string s with Some z => Ok z | None => Raise ValueError end
  | _ => match as_int v with
         | Some z => if valid_addr z then Ok z else Raise ValueError
         | None => Raise ValueError
         end
  end.

Definition ip_network (v : val) : res network :=
  match v with
  | VStr s => match ip_network_of_string s with Some n => Ok n | None => Raise ValueError end
  | _ => match as_int v with
         | Some z => if valid_addr z then Ok (make_network z 32) else Raise ValueError
         | None => Raise ValueError
         end
  end.

(** [IPv4Address.__add__]: leaving the address space raises. *)
Definition addr_add (a k : Z) : res Z :=
  if valid_addr (a + k) then Ok (a + k) else Raise ValueError.

Definition broadcast (n : network) : Z := net_addr n + 2 ^ (32 - net_prefix n) - 1.

(** [list(net.hosts())]. *)
Definition hosts (n : network) : list Z :=
  if net_prefix n =? 32 then [net_addr n]
  else if net_prefix n =? 31 then zrange (net_addr n) (broadcast n)
  else zrange (net_addr n + 1) (broadcast n - 1).

(** [next(net.hosts())]: a /32 network's [hosts()] is a list, not an iterator. *)
Definition next_host (n : network) : res Z :=
  if net_prefix n =? 32 then Raise TypeError
  else match hosts n with a :: _ => Ok a | [] => Raise StopIteration end.

(** [a in net]. *)
Definition in_network (a : Z) (n : network) : bool :=
  Z.land a (netmask (net_prefix n)) =? net_addr n.

(** Networks [ip_network] builds. *)
Definition wf_network (n : network) : Prop :=
  0 ≤ net_prefix n ≤ 32 ∧ 0 ≤ net_addr n < 2 ^ 32 ∧
  net_addr n mod 2 ^ (32 - net_prefix n) = 0.

(** ** Lemmas *)

Definition octet_ok (z : Z) : bool :=
  no_char "." (str_of_Z z) && bool_decide (parse_octet (str_of_Z z) = Some z).

Lemma octet_ok_all z : 0 ≤ z < 256 → octet_ok z = true.
Proof.
  intros Hz. assert (H : forallb octet_ok (zrange 0 255) = true) by (vm_compute; done).
  rewrite forallb_forall in H. apply H. rewrite <-list_elem_of_In, elem_of_zrange. lia.
Qed.

Lemma parse_octet_str z : 0 ≤ z < 256 → parse_octet (str_of_Z z) = Some z.
Proof.
  intros Hz%octet_ok_all. unfold octet_ok in Hz.
  apply andb_prop in Hz as [_ H]. by apply bool_decide_eq_true in H.
Qed.

Lemma octet_no_dot z : 0 ≤ z < 256 → no_char "." (str_of_Z z) = true.
Proof. intros Hz%octet_ok_all. unfold octet_ok in Hz. by apply andb_prop in Hz as [H _]. Qed.

(** Splitting dotted-quad text gives back its parts. *)
Lemma split_dotted a b c d :
  no_char "." a = true → no_char "." b = true → no_char "." c = true → no_char "." d = true →
  split "." (a +:+ "." +:+ b +:+ "." +:+ c +:+ "." +:+ d) = [a; b; c; d].
Proof. intros. simpl. rewrite !split_app, split_no_char by done. done. Qed.

Lemma parse_ip_str z : 0 ≤ z < 2 ^ 32 → ip_int_from_string (ip_str z) = Some z.
Proof.
  intros Hz. unfold ip_int_from_string, ip_str.
  assert (∀ x, 0 ≤ x mod 256 < 256) by (intros; apply Z.mod_pos_bound; lia).
  rewrite split_dotted by auto using octet_no_dot.
  rewrite !parse_octet_str by auto. simpl. f_equal.
  change (2 ^ 24) with (256 * 256 * 256). change (2 ^ 16) with (256 * 256).
  change (2 ^ 8) with 256. change (2 ^ 32) with (256 * 256 * 256 * 256) in Hz.
  rewrite <-!Z.div_div by lia.
  rewrite (Z.mod_small (z / 256 / 256 / 256)); [|split].
  - pose proof (Z.div_mod z 256). pose proof (Z.div_mod (z / 256) 256).
    pose proof (Z.div_mod (z / 256 / 256) 256). lia.
  - repeat apply Z.div_pos; lia.
  - repeat (apply Z.div_lt_upper_bound; [lia|]). lia.
Qed.

Lemma ip_str_inj a b : 0 ≤ a < 2 ^ 32 → 0 ≤ b < 2 ^ 32 → ip_str a = ip_str b → a = b.
Proof. intros Ha Hb Hs. apply parse_ip_str in Ha, Hb. congruence. Qed.

Lemma dec_go_nonneg s acc : all_digits s = true → 0 ≤ acc → 0 ≤ dec_go acc s.
Proof.
  revert acc; induction s as [|a s IH]; intros acc; simpl; [done|].
  intros [Hd Hs]%andb_prop Hacc. apply IH; [done|].
  unfold is_digit in Hd. apply andb_prop in Hd as [Hd _]. apply N.leb_le in Hd.
  unfold digit_val. lia.
Qed.

Lemma isdigit_dec_nonneg s : isdigit s = true → 0 ≤ dec_val s.
Proof. intros H. apply dec_go_nonneg; [by destruct s|lia]. Qed.

Lemma parse_octet_range s z : parse_octet s = Some z → 0 ≤ z < 256.
Proof.
  unfold parse_octet. destruct (isdigit s) eqn:E; simpl; [|done].
  apply isdigit_dec_nonneg in E. case_bools; try done. intros [= <-]. bool_lia.
Qed.

Lemma ip_int_range s z : ip_int_from_string s = Some z → 0 ≤ z < 2 ^ 32.
Proof.
  unfold ip_int_from_string.
  destruct (split "." s) as [|a [|b [|c [|d [|]]]]]; try done. intros H.
  repeat (apply bind_Some in H as (? & ?%parse_octet_range & H)).
  injection H as <-. change (2 ^ 32) with (256 * 256 * 256 * 256). lia.
Qed.

Lemma ip_str_truthy z : truthy (VStr (ip_str z)) = true.
Proof.
  assert (H : ip_str z ≠ "").
  { unfold ip_str. intros E. apply (f_equal String.length) in E.
    rewrite str_length_app in E. simpl in E. lia. }
  simpl. by destruct (ip_str z).
Qed.

(** The text of an address is canonical: it parses to one address only, and an
    address prints to one text only. *)
Lemma ip_int_str s z : ip_int_from_string s = Some z → ip_int_from_string (ip_str z) = Some z.
Proof. intros H%ip_int_range. by apply parse_ip_str. Qed.

Lemma trailing_zeros_bound f z : 0 ≤ trailing_zeros f z ≤ Z.of_nat f.
Proof.
  revert z; induction f as [|f IH]; intros z; cbn [trailing_zeros]; [lia|].
  destruct (Z.odd z); [lia|]. specialize (IH (z / 2)). lia.
Qed.

Lemma prefix_from_ip_int_range z p : prefix_from_ip_int z = Some p → 0 ≤ p ≤ 32.
Proof.
  unfold prefix_from_ip_int. pose proof (trailing_zeros_bound 32 z) as Hb. revert Hb.
  generalize (trailing_zeros 32 z). intros tz Hb.
  destruct (Z.shiftr z tz =? 2 ^ (32 - tz) - 1); [|done]. intros [= <-]. lia.
Qed.

Lemma prefix_from_string_range s p : prefix_from_string s = Some p → 0 ≤ p ≤ 32.
Proof.
  unfold prefix_from_string. destruct (isdigit s && _) eqn:E.
  - apply andb_prop in E as [E1%isdigit_dec_nonneg E2]. intros [= <-]. bool_lia.
  - intros (z & _ & H)%bind_Some. destruct (prefix_from_ip_int z) eqn:E2.
    + injection H as <-. by eapply prefix_from_ip_int_range.
    + by eapply prefix_from_ip_int_range.
Qed.

Lemma land_netmask a p :
  0 ≤ a < 2 ^ 32 → 0 ≤ p ≤ 32 → Z.land a (netmask p) = a - a mod 2 ^ (32 - p).
Proof.
  intros Ha Hp. unfold netmask.
  assert (Hm : 2 ^ 32 - 2 ^ (32 - p) = Z.ldiff all_ones (Z.ones (32 - p))).
  { rewrite <-Z.sub_nocarry_ldiff.
    - unfold all_ones. rewrite Z.ones_equiv. lia.
    - apply Z.bits_inj'. intros n Hn. rewrite Z.ldiff_spec, Z.bits_0.
      change all_ones with (Z.ones 32).
      destruct (Z.ltb_spec n (32 - p)).
      + rewrite !Z.ones_spec_low by lia. done.
      + rewrite Z.ones_spec_high by lia. done. }
  rewrite Hm. rewrite <-Z.land_ones by lia. symmetry.
  rewrite Z.sub_nocarry_ldiff.
  - apply Z.bits_inj'. intros n Hn. rewrite Z.ldiff_spec, !Z.land_spec, Z.ldiff_spec.
    change all_ones with (Z.ones 32).
    destruct (Z.ltb_spec n 32).
    + rewrite (Z.ones_spec_low 32) by lia. destruct (Z.testbit a n), (Z.testbit (Z.ones (32 - p)) n); done.
    + rewrite (Z.bits_above_log2 a n); [done|lia|].
      destruct (decide (a = 0)) as [->|]; [simpl; lia|]. apply Z.log2_lt_pow2; [lia|].
      apply Z.lt_le_trans with (2 ^ 32); [lia|]. apply Z.pow_le_mono_r; lia.
  - apply Z.bits_inj'. intros n Hn. rewrite Z.ldiff_spec, Z.land_spec, Z.bits_0.
    destruct (Z.testbit a n), (Z.testbit (Z.ones (32 - p)) n); done.
Qed.

Lemma make_network_wf a p : 0 ≤ a < 2 ^ 32 → 0 ≤ p ≤ 32 → wf_network (make_network a p).
Proof.
  intros Ha Hp. unfold wf_network, make_network; simpl. rewrite land_netmask by done.
  assert (0 < 2 ^ (32 - p)) by (apply Z.pow_pos_nonneg; lia).
  pose proof (Z.mod_pos_bound a (2 ^ (32 - p)) ltac:(lia)).
  pose proof (Z.mod_le a (2 ^ (32 - p)) ltac:(lia) ltac:(lia)).
  split; [done|]. split; [lia|].
  rewrite Zminus_mod_idemp_r, Z.sub_diag. apply Zmod_0_l.
Qed.

Lemma ip_network_of_string_wf s n : ip_network_of_string s = Some n → wf_network n.
Proof.
  unfold ip_network_of_string.
  destruct (split "/" s) as [|a [|m [|]]]; try done.
  - intros (z & Hz%ip_int_range & [= <-])%bind_Some. apply make_network_wf; lia.
  - intros (z & Hz%ip_int_range & H)%bind_Some.
    apply bind_Some in H as (p & Hp%prefix_from_string_range & [= <-]).
    by apply make_network_wf.
Qed.

Lemma ip_network_wf v n : ip_network v = Ok n → wf_network n.
Proof.
  unfold ip_network.
  assert (∀ z, (if valid_addr z then Ok (make_network z 32) else Raise ValueError) = Ok n →
            wf_network n).
  { intros z. destruct (valid_addr z) eqn:E; [|done]. intros [= <-].
    unfold valid_addr in E. apply make_network_wf; bool_lia. }
  destruct v as [| | | | |]; simpl; eauto; try done.
  destruct (ip_network_of_string s) eqn:E; [|done].
  intros [= <-]. by eapply ip_network_of_string_wf.
Qed.

(** [ip_network] and [ip_address] raise [ValueError] only. *)
Lemma ip_network_total v : is_Ok (ip_network v) ∨ ip_network v = Raise ValueError.
Proof.
  unfold is_Ok, ip_network. destruct v; simpl; try (by right); try case_bools; eauto.
  destruct (ip_network_of_string s); eauto.
Qed.

Lemma ip_address_range v z : ip_address v = Ok z → 0 ≤ z < 2 ^ 32.
Proof.
  unfold ip_address.
  destruct v as [| | | | |]; simpl; try done; try (unfold valid_addr; case_bools; [|done]; intros [= <-]; bool_lia).
  destruct (ip_int_from_string s) eqn:E; [|done]. intros [= <-]. by eapply ip_int_range.
Qed.

Lemma broadcast_range n : wf_network n → net_addr n ≤ broadcast n < 2 ^ 32.
Proof.
  intros (Hp & Ha & Hm). unfold broadcast. set (k := 2 ^ (32 - net_prefix n)) in *.
  assert (0 < k) by (apply Z.pow_pos_nonneg; lia). split; [lia|].
  apply Z.mod_divide in Hm as [q Hq]; [|lia].
  assert (Hk : 2 ^ 32 = 2 ^ net_prefix n * k)
    by (unfold k; rewrite <-Z.pow_add_r by lia; f_equal; lia).
  rewrite Hk, Hq in *. assert (q < 2 ^ net_prefix n) by nia. nia.
Qed.

Lemma elem_of_hosts n a : a ∈ hosts n → wf_network n → net_addr n ≤ a ≤ broadcast n.
Proof.
  unfold hosts. intros H Hwf. pose proof (broadcast_range n Hwf).
  destruct (net_prefix n =? 32); [apply list_elem_of_singleton in H; lia|].
  destruct (net_prefix n =? 31); apply elem_of_zrange in H; lia.
Qed.

Lemma hosts_range n a : a ∈ hosts n → wf_network n → 0 ≤ a < 2 ^ 32.
Proof.
  intros H Hwf. pose proof (elem_of_hosts n a H Hwf). pose proof (broadcast_range n Hwf).
  destruct Hwf as (_ & ? & _). lia.
Qed.

Lemma hosts_NoDup n : NoDup (hosts n).
Proof. unfold hosts, zrange. case_bools; auto using NoDup_seqZ, NoDup_singleton. Qed.

(** A host's text identifies it within its network. *)
Lemma hosts_str_inj n a b :
  wf_network n → a ∈ hosts n → b ∈ hosts n → ip_str a = ip_str b → a = b.
Proof. intros Hwf Ha Hb. apply ip_str_inj; eapply hosts_range; eauto. Qed.

#[export] Hint Resolve ip_network_wf ip_address_range hosts_range hosts_NoDup : troshka.
