(* ===== verification/PyLemmas.v ===== *)
(** * Lemmas on Python values and loops

    Shared reasoning principles: when loops terminate normally, loop
    invariants, reduction of the dictionary primitives, and the behaviour of
    the value-keyed dictionaries on text keys. *)
From stdpp Require Import prelude strings.
From S2P Require Import Prelude PyStr PyVal.

(** ** The result monad *)

Lemma bind_Ok {A B} (m : res A) (f : A → res B) b :
  bind m f = Ok b ↔ ∃ a, m = Ok a ∧ f a = Ok b.
Proof. destruct m; simpl; naive_solver. Qed.

Lemma bind_is_Ok {A B} (m : res A) (f : A → res B) :
  is_Ok m → (∀ a, m = Ok a → is_Ok (f a)) → is_Ok (bind m f).
Proof. intros [a ->] H. simpl. by apply H. Qed.

Lemma bind_assoc {A B C} (m : res A) (f : A → res B) (g : B → res C) :
  bind (bind m f) g = bind m (λ a, bind (f a) g).
Proof. by destruct m. Qed.

Lemma Ok_is_Ok {A} (a : A) : is_Ok (Ok a).
Proof. by exists a. Qed.

Lemma py_and_Ok a b : py_and (Ok a) (Ok b) = Ok (a && b).
Proof. by destruct a. Qed.
Lemma py_or_Ok a b : py_or (Ok a) (Ok b) = Ok (a || b).
Proof. by destruct a. Qed.

Lemma py_and_true m1 m2 : py_and m1 m2 = Ok true ↔ m1 = Ok true ∧ m2 = Ok true.
Proof. destruct m1 as [[]|]; simpl; naive_solver. Qed.

Lemma py_and_false m1 m2 :
  py_and m1 m2 = Ok false ↔ m1 = Ok false ∨ (m1 = Ok true ∧ m2 = Ok false).
Proof. destruct m1 as [[]|]; simpl; naive_solver. Qed.

(** Expose the value of every bind in a hypothesis [_ = Ok _]. *)
Ltac bind_inv :=
  repeat match goal with
  | H : bind _ _ = Ok _ |- _ => apply bind_Ok in H as (? & ? & H)
  | H : Ok _ = Ok _ |- _ => injection H as H; try subst
  | H : Raise _ = Ok _ |- _ => discriminate H
  end.

(** ** Loops *)
Section LoopLemmas.
Context {A S R : Type}.
Implicit Types (l : list A) (s : S).

Lemma for_each_app l1 l2 s (body : A → S → res S) :
  for_each (l1 ++ l2) s body = bind (for_each l1 s body) (λ s', for_each l2 s' body).
Proof.
  revert s; induction l1 as [|x l1 IH]; intros s; simpl; [done|].
  destruct (body x s); simpl; [apply IH|done].
Qed.

(** A body that never raises makes the loop a fold. *)
Lemma for_each_foldl (f : S → A → S) l s (body : A → S → res S) :
  (∀ x s, x ∈ l → body x s = Ok (f s x)) → for_each l s body = Ok (foldl f s l).
Proof.
  revert s; induction l as [|x l IH]; intros s H; simpl; [done|].
  rewrite H by set_solver. simpl. apply IH. set_solver.
Qed.

Lemma for_each_inv (P : S → Prop) l s s' (body : A → S → res S) :
  (∀ x s s', x ∈ l → P s → body x s = Ok s' → P s') →
  P s → for_each l s body = Ok s' → P s'.
Proof.
  revert s; induction l as [|x l IH]; intros s Hb Hs; simpl; [by intros [= <-]|].
  destruct (body x s) as [s1|] eqn:E; simpl; [|done].
  apply IH; [intros; eapply Hb; eauto; set_solver|]. eapply Hb; eauto; set_solver.
Qed.

(** An invariant under which the body never raises: the loop completes. *)
Lemma for_each_total (P : S → Prop) l s (body : A → S → res S) :
  (∀ x s, x ∈ l → P s → ∃ s', body x s = Ok s' ∧ P s') →
  P s → ∃ s', for_each l s body = Ok s' ∧ P s'.
Proof.
  revert s; induction l as [|x l IH]; intros s Hb Hs; simpl; [by eauto|].
  destruct (Hb x s) as (s1 & -> & ?); [set_solver|done|]. simpl.
  apply IH; [|done]. intros; apply Hb; set_solver.
Qed.

Lemma map_res_ok (f : A → R) l (g : A → res R) :
  (∀ x, x ∈ l → g x = Ok (f x)) → map_res g l = Ok (map f l).
Proof.
  induction l as [|x l IH]; intros H; simpl; [done|].
  rewrite H by set_solver. simpl. by rewrite IH by set_solver.
Qed.

Lemma map_res_map {B} (f : B → A) (l : list B) (g : A → res R) :
  map_res g (map f l) = map_res (λ x, g (f x)) l.
Proof. induction l as [|x l IH]; simpl; [done|]. by rewrite IH. Qed.

Lemma map_res_Forall2 (g : A → res R) l ys :
  map_res g l = Ok ys → Forall2 (λ x y, g x = Ok y) l ys.
Proof.
  revert ys; induction l as [|x l IH]; intros ys; simpl; [intros [= <-]; constructor|].
  intros H. bind_inv. constructor; eauto.
Qed.

Lemma Forall2_map_res (g : A → res R) l ys :
  Forall2 (λ x y, g x = Ok y) l ys → map_res g l = Ok ys.
Proof. induction 1 as [|x y l ys Hx _ IH]; simpl; [done|]. by rewrite Hx, IH. Qed.

Lemma map_res_is_Ok (g : A → res R) l :
  (∀ x, x ∈ l → is_Ok (g x)) → is_Ok (map_res g l).
Proof.
  induction l as [|x l IH]; intros H; simpl; [by eexists|].
  destruct (H x) as [y ->]; [set_solver|]. destruct IH as [ys ->]; [set_solver|]. by eexists.
Qed.

Lemma filter_res_ok (p : A → bool) l (g : A → res bool) :
  (∀ x, x ∈ l → g x = Ok (p x)) → filter_res g l = Ok (List.filter p l).
Proof.
  induction l as [|x l IH]; intros H; simpl; [done|].
  rewrite H by set_solver. simpl. rewrite IH by set_solver. simpl. by destruct (p x).
Qed.

Lemma filter_res_Ok_elem (g : A → res bool) l ys x :
  filter_res g l = Ok ys → x ∈ l → is_Ok (g x).
Proof.
  revert ys; induction l as [|y l IH]; intros ys; simpl; [set_solver|].
  intros H. bind_inv. intros [->|?]%elem_of_cons; [by eexists|eauto].
Qed.

Lemma filter_res_all (g : A → res bool) l :
  (∀ x, x ∈ l → g x = Ok true) → filter_res g l = Ok l.
Proof.
  induction l as [|y l IH]; intros H; simpl; [done|]. rewrite H by set_solver. simpl.
  by rewrite IH by set_solver.
Qed.

Lemma filter_res_app (g : A → res bool) l1 l2 ys1 ys2 :
  filter_res g l1 = Ok ys1 → filter_res g l2 = Ok ys2 → filter_res g (l1 ++ l2) = Ok (ys1 ++ ys2).
Proof.
  intros H1 H2. revert ys1 H1; induction l1 as [|y l1 IH]; intros ys1; simpl; [by intros [= <-]|].
  destruct (g y) as [b|]; simpl; [|done]. destruct (filter_res g l1) as [zs|]; simpl; [|done].
  rewrite (IH zs) by done. intros [= <-]. by destruct b.
Qed.

Lemma filter_res_app_raise (g : A → res bool) l1 l2 e :
  filter_res g l1 = Raise e → filter_res g (l1 ++ l2) = Raise e.
Proof.
  induction l1 as [|y l1 IH]; simpl; [done|]. destruct (g y) as [b|]; simpl; [|congruence].
  destruct (filter_res g l1); simpl; [done|]. intros [= ->]. by rewrite IH.
Qed.

Lemma elem_of_filter_res (g : A → res bool) l ys x :
  filter_res g l = Ok ys → x ∈ ys ↔ x ∈ l ∧ g x = Ok true.
Proof.
  revert ys; induction l as [|y l IH]; intros ys; simpl.
  - intros [= <-]. set_solver.
  - intros H. bind_inv. match goal with H : filter_res _ _ = Ok _ |- _ => apply IH in H end.
    match goal with |- context [if ?b then _ else _] => destruct b end; [set_solver|].
    split; [set_solver|]. intros [[->|?]%elem_of_cons ?]; [congruence|set_solver].
Qed.

Lemma filter_res_sublist (g : A → res bool) l ys : filter_res g l = Ok ys → ys `sublist_of` l.
Proof.
  revert ys; induction l as [|y l IH]; intros ys; simpl; [by intros [= <-]|].
  intros H. bind_inv.
  match goal with |- context [if ?b then _ else _] => destruct b end;
    [apply sublist_skip|apply sublist_cons]; by apply IH.
Qed.

Lemma find_res_Some (p : A → res bool) l x :
  find_res p l = Ok (Some x) → x ∈ l ∧ p x = Ok true.
Proof.
  induction l as [|y l IH]; simpl; [done|].
  destruct (p y) as [[]|] eqn:E; simpl; [intros [= <-]; set_solver|set_solver|done].
Qed.

Lemma find_res_None (p : A → res bool) l :
  find_res p l = Ok None ↔ ∀ x, x ∈ l → p x = Ok false.
Proof.
  induction l as [|y l IH]; simpl; [set_solver|].
  destruct (p y) as [[]|] eqn:E; simpl; try (split; [done|]; intros H;
    specialize (H y ltac:(left)); congruence). rewrite IH. split; [|set_solver].
  intros H x [->|?]%elem_of_cons; [done|by apply H].
Qed.

Lemma any_res_ok (p : A → bool) l (g : A → res bool) :
  (∀ x, x ∈ l → g x = Ok (p x)) → any_res g l = Ok (existsb p l).
Proof.
  induction l as [|x l IH]; intros H; simpl; [done|].
  rewrite H by set_solver. simpl. destruct (p x); [done|]. apply IH. set_solver.
Qed.

Lemma first_some_Some (f : A → res (option R)) l r :
  first_some f l = Ok (Some r) → ∃ x, x ∈ l ∧ f x = Ok (Some r).
Proof.
  induction l as [|x l IH]; simpl; [done|]. intros H. bind_inv.
  destruct x0 as [r'|]; bind_inv; [set_solver|]. apply IH in H as (y & ? & ?). set_solver.
Qed.

Lemma first_some_None (f : A → res (option R)) l :
  first_some f l = Ok None ↔ ∀ x, x ∈ l → f x = Ok None.
Proof.
  induction l as [|x l IH]; simpl; [set_solver|].
  destruct (f x) as [[r|]|] eqn:E; simpl; try (split; [done|]; intros H;
    specialize (H x ltac:(left)); congruence). rewrite IH. split; [|set_solver].
  intros H y [->|?]%elem_of_cons; [done|by apply H].
Qed.
End LoopLemmas.

(** A loop that collects lists. *)
Lemma for_each_collect {A R} (g : A → res (list R)) l acc r (body : A → list R → res (list R)) :
  (∀ x s, body x s = bind (g x) (λ y, Ok (s ++ y))) →
  for_each l acc body = Ok r → ∃ ys, map_res g l = Ok ys ∧ r = acc ++ concat ys.
Proof.
  intros Hb. revert acc; induction l as [|x l IH]; intros acc; simpl.
  { intros [= <-]. exists []. by rewrite app_nil_r. }
  rewrite Hb. destruct (g x) as [y|]; simpl; [|done]. intros (ys & -> & ->)%IH.
  exists (y :: ys). simpl. by rewrite <-app_assoc.
Qed.

(** ** Association lists *)
Section AssocLemmas.
Context {K : Type} `{EqDecision K} {V : Type}.
Implicit Types (m : list (K * V)).

Lemma assoc_set_eq k v m : assoc k (assoc_set k v m) = Some v.
Proof.
  induction m as [|[k' v'] m IH]; simpl; [by rewrite decide_True|].
  case_decide; simpl; [by rewrite decide_True|by rewrite decide_False].
Qed.

Lemma assoc_set_ne k k' v m : k ≠ k' → assoc k' (assoc_set k v m) = assoc k' m.
Proof.
  intros Hne. induction m as [|[k2 v2] m IH]; simpl; [by rewrite decide_False|].
  case_decide; subst; simpl; [by rewrite !decide_False|]. by case_decide.
Qed.

Lemma assoc_None k m : assoc k m = None ↔ k ∉ m.*1.
Proof.
  induction m as [|[k' v] m IH]; simpl; [set_solver|].
  case_decide; [set_solver|]. rewrite IH. set_solver.
Qed.

Lemma assoc_Some_elem k v m : assoc k m = Some v → (k, v) ∈ m.
Proof.
  induction m as [|[k' v'] m IH]; simpl; [done|].
  case_decide; [intros [= ->]; subst; left|right; auto].
Qed.

Lemma assoc_del_eq k m : assoc k (assoc_del k m) = None.
Proof. apply assoc_None. unfold assoc_del. intros ([? v] & -> & [? _]%list_elem_of_filter)%list_elem_of_fmap. done. Qed.

Lemma assoc_del_ne k k' m : k ≠ k' → assoc k' (assoc_del k m) = assoc k' m.
Proof.
  intros Hne. unfold assoc_del. induction m as [|[k2 v] m IH]; [done|].
  rewrite filter_cons. simpl. repeat case_decide; subst; simpl; try done.
  - by rewrite decide_True.
  - by rewrite decide_False.
Qed.

Lemma assoc_set_keys k v m : k ∈ m.*1 → (assoc_set k v m).*1 = m.*1.
Proof.
  induction m as [|[k' v'] m IH]; csimpl; [set_solver|].
  case_decide; csimpl; [by subst|]. intros [?|?]%elem_of_cons; [done|]. by rewrite IH.
Qed.

Lemma assoc_set_keys_new k v m : k ∉ m.*1 → (assoc_set k v m).*1 = m.*1 ++ [k].
Proof.
  induction m as [|[k' v'] m IH]; csimpl; [done|]. intros Hn.
  rewrite decide_False by set_solver. csimpl. rewrite IH; set_solver.
Qed.

Lemma assoc_set_NoDup k v m : NoDup m.*1 → NoDup (assoc_set k v m).*1.
Proof.
  intros Hn. destruct (decide (k ∈ m.*1)); [by rewrite assoc_set_keys|].
  rewrite assoc_set_keys_new by done. apply NoDup_app; set_solver by auto using NoDup_singleton.
Qed.
Lemma assoc_set_set k a b m : assoc_set k a (assoc_set k b m) = assoc_set k a m.
Proof.
  induction m as [|[k' v] m IH]; simpl; [by rewrite decide_True|].
  case_decide; simpl; [by rewrite decide_True|]. rewrite decide_False by done. by rewrite IH.
Qed.

Lemma assoc_set_id k a m : assoc k m = Some a → assoc_set k a m = m.
Proof.
  induction m as [|[k' v] m IH]; simpl; [done|]. case_decide; [by intros [= ->]; subst|].
  intros H'. by rewrite IH.
Qed.

Lemma assoc_del_id k m : assoc k m = None → assoc_del k m = m.
Proof.
  induction m as [|[k' v] m IH]; [done|]. unfold assoc_del in *. rewrite filter_cons. simpl.
  repeat case_decide; simplify_eq; try done. intros H'. by rewrite IH.
Qed.
Lemma assoc_set_new k v m : k ∉ m.*1 → assoc_set k v m = m ++ [(k, v)].
Proof.
  induction m as [|[k' v'] m IH]; csimpl; [done|]. intros Hn.
  rewrite decide_False by set_solver. rewrite IH; set_solver.
Qed.

Lemma elem_of_assoc k v m : NoDup m.*1 → (k, v) ∈ m → assoc k m = Some v.
Proof.
  induction m as [|[k' v'] m IH]; csimpl; [set_solver|]. intros [Hk Hn]%NoDup_cons.
  intros [[= -> ->]|Hin]%elem_of_cons; [by rewrite decide_True|]. rewrite decide_False; [auto|].
  intros ->. apply Hk. by apply (list_elem_of_fmap_2 fst) in Hin.
Qed.

Lemma assoc_Some_key k v m : assoc k m = Some v → k ∈ m.*1.
Proof. intros H%assoc_Some_elem. by apply (list_elem_of_fmap_2 fst) in H. Qed.

Lemma key_assoc k m : k ∈ m.*1 → ∃ v, assoc k m = Some v.
Proof.
  intros Hk. destruct (assoc k m) as [v|] eqn:E; [eauto|]. by apply assoc_None in E.
Qed.
End AssocLemmas.

(** Mapping the values of an association list. *)
Section AssocMap.
Context {K : Type} `{EqDecision K} {V W : Type} (f : V → W).
Implicit Types (m : list (K * V)).
Let mapv m := map (λ p, (p.1, f p.2)) m.

Lemma assoc_map k m : assoc k (mapv m) = f <$> assoc k m.
Proof. induction m as [|[k' v] m IH]; simpl; [done|]. by case_decide. Qed.

Lemma assoc_set_map k v m : assoc_set k (f v) (mapv m) = mapv (assoc_set k v m).
Proof. induction m as [|[k' w] m IH]; simpl; [done|]. case_decide; simpl; [done|]. by rewrite IH. Qed.
End AssocMap.

(** Adding to one entry of an association list of lists adds to their concatenation. *)
Lemma assoc_set_concat {K A} `{EqDecision K} k (l : list A) x (m : list (K * list A)) :
  assoc k m = Some l → concat (assoc_set k (l ++ [x]) m).*2 ≡ₚ x :: concat m.*2.
Proof.
  induction m as [|[k' v] m IH]; csimpl; [done|]. case_decide; csimpl.
  - intros [= ->]. rewrite <-app_assoc. simpl. by rewrite <-Permutation_middle.
  - intros H'%IH. by rewrite H', <-Permutation_middle.
Qed.

(** ** Text keys of value-keyed dictionaries *)

Lemma py_eq_str a b : py_eq (VStr a) (VStr b) = bool_decide (a = b).
Proof. simpl. case_bool_decide as H; [by apply String.eqb_eq|by apply String.eqb_neq]. Qed.

Lemma eq_str_true v s : eq_str v s = true ↔ v = VStr s.
Proof. destruct v; simpl; try (split; congruence). rewrite String.eqb_eq. split; congruence. Qed.

Lemma eq_str_str a b : eq_str (VStr a) b = bool_decide (a = b).
Proof. exact (py_eq_str a b). Qed.

Lemma hashable_py_eq_refl k : hashable k = true → py_eq k k = true.
Proof. destruct k as [|[]|z|s| |]; simpl; try done; [lia|by rewrite String.eqb_refl]. Qed.

Section VmapLemmas.
Context {A : Type}.
Implicit Types (m : list (val * A)).

Lemma vlookup_insert_eq k a m : vlookup (VStr k) (vinsert (VStr k) a m) = Some a.
Proof.
  induction m as [|[k' b] m IH]; cbn [vinsert vlookup].
  - by rewrite py_eq_str, bool_decide_eq_true_2.
  - destruct (py_eq (VStr k) k') eqn:E; cbn [vlookup]; by rewrite E.
Qed.

Lemma py_eq_str_l k v : py_eq (VStr k) v = true ↔ v = VStr k.
Proof. destruct v; simpl; try (split; congruence). rewrite String.eqb_eq. split; congruence. Qed.

Lemma vlookup_insert_ne k k' a m :
  k ≠ k' → vlookup (VStr k') (vinsert (VStr k) a m) = vlookup (VStr k') m.
Proof.
  intros Hne. induction m as [|[k2 b] m IH]; cbn [vinsert vlookup].
  - rewrite py_eq_str, bool_decide_eq_false_2 by congruence. done.
  - destruct (py_eq (VStr k) k2) eqn:E; cbn [vlookup]; [|by rewrite IH].
    apply py_eq_str_l in E as ->. rewrite py_eq_str, bool_decide_eq_false_2 by congruence. done.
Qed.

Lemma vlookup_Some_elem k a m : vlookup (VStr k) m = Some a → (VStr k, a) ∈ m.
Proof.
  induction m as [|[k' b] m IH]; cbn [vlookup]; [done|].
  destruct (py_eq (VStr k) k') eqn:E; [|right; auto].
  apply py_eq_str_l in E as ->. intros [= ->]. left.
Qed.
End VmapLemmas.

Lemma vmem_str k s : vmem (VStr k) s = bool_decide (VStr k ∈ s).
Proof.
  induction s as [|v s IH]; cbn [vmem existsb].
  - symmetry. apply bool_decide_eq_false_2. set_solver.
  - unfold vmem in IH. rewrite IH. destruct (py_eq (VStr k) v) eqn:E; simpl.
    + apply py_eq_str_l in E as ->. symmetry. apply bool_decide_eq_true_2. left.
    + apply bool_decide_ext. rewrite elem_of_cons. split; [by right|].
      intros [<-|?]; [|done]. rewrite py_eq_str, bool_decide_eq_true_2 in E; done.
Qed.

Lemma vadd_str k s s' : vadd (VStr k) s = Ok s' → ∀ x, x ∈ s' ↔ x = VStr k ∨ x ∈ s.
Proof.
  unfold vadd; simpl. rewrite vmem_str. case_bool_decide; intros [= <-] x; set_solver.
Qed.

#[export] Hint Resolve Ok_is_Ok bind_is_Ok assoc_set_eq assoc_set_ne : troshka.

(** ** Induction on values and reflexivity of equality *)
Section ValInd.
Context (P : val → Prop).
Context (Pnone : P VNone) (Pbool : ∀ b, P (VBool b)) (Pint : ∀ z, P (VInt z)).
Context (Pstr : ∀ s, P (VStr s)) (Plist : ∀ l, Forall P l → P (VList l)).
Context (Pdict : ∀ d, Forall (λ p : string * val, P p.2) d → P (VDict d)).

Fixpoint val_nested_ind (v : val) : P v :=
  match v with
  | VNone => Pnone
  | VBool b => Pbool b
  | VInt z => Pint z
  | VStr s => Pstr s
  | VList l =>
      Plist l ((fix go l : Forall P l :=
        match l with
        | [] => Forall_nil_2 P
        | x :: l' => Forall_cons_2 P x l' (val_nested_ind x) (go l')
        end) l)
  | VDict d =>
      Pdict d ((fix go d : Forall (λ p : string * val, P p.2) d :=
        match d with
        | [] => Forall_nil_2 _
        | p :: d' =>
            Forall_cons_2 (λ p : string * val, P p.2) p d'
              (match p return P p.2 with (_, v) => val_nested_ind v end) (go d')
        end) d)
  end.
End ValInd.

(** A value whose dictionaries hold every key once, as Python's do. *)
Fixpoint unique_keys (v : val) : bool :=
  match v with
  | VList l => forallb unique_keys l
  | VDict d => bool_decide (NoDup d.*1) && forallb (λ p, unique_keys p.2) d
  | _ => true
  end.

Lemma forallb_Forall {A} (f : A → bool) l : forallb f l = true ↔ Forall (λ x, f x = true) l.
Proof. rewrite forallb_forall, Forall_forall. by setoid_rewrite <-list_elem_of_In. Qed.

(** The dictionary case of an equality: every entry of a part of [d] is found in [d]. *)
Lemma dict_entries_eq (eq : val → val → bool) (d d' : list (string * val)) :
  NoDup d.*1 → d' ⊆ d → Forall (λ p, eq p.2 p.2 = true) d' →
  (fix go d0 := match d0 with
   | [] => true
   | (k, v) :: d0' => match assoc k d with Some w => eq v w | None => false end && go d0'
   end) d' = true.
Proof.
  intros Hn Hsub HF. induction HF as [|[k v] d' Hv _ IH]; [done|].
  rewrite (elem_of_assoc k v) by (done || set_solver). cbn in Hv. rewrite Hv. cbn.
  apply IH. set_solver.
Qed.

Lemma py_eq_refl v : unique_keys v = true → py_eq v v = true.
Proof.
  induction v as [|b|z|s|l IH|d IH] using val_nested_ind; intros Hu; cbn; try done.
  - by destruct b.
  - apply Z.eqb_refl.
  - apply String.eqb_refl.
  - cbn in Hu. induction IH as [|x l Hx _ IHl]; [done|]. cbn in Hu.
    apply andb_prop in Hu as [Hux Hul]. rewrite Hx by done. cbn. by apply IHl.
  - cbn in Hu. apply andb_prop in Hu as [Hn%bool_decide_eq_true Hu].
    rewrite Nat.eqb_refl. cbn. apply dict_entries_eq; [done|done|].
    apply forallb_Forall in Hu. apply Forall_forall. intros p Hp.
    rewrite Forall_forall in IH, Hu. auto.
Qed.

(** ** Value-keyed dictionaries built from text ids *)

Lemma vinsert_new {A} k (a : A) m :
  (∀ k', k' ∈ m.*1 → py_eq k k' = false) → vinsert k a m = m ++ [(k, a)].
Proof.
  induction m as [|[k' b] m IH]; csimpl; [done|]. intros H.
  rewrite H by left. rewrite IH; [done|]. intros. apply H. by right.
Qed.

Lemma vlookup_keyed {A} (f : A → string) (l : list A) s :
  vlookup (VStr s) (map (λ x, (VStr (f x), x)) l) = List.find (λ x, String.eqb s (f x)) l.
Proof. induction l as [|x l IH]; cbn; [done|]. by destruct (String.eqb s (f x)). Qed.

(** ** Lists with distinct keys *)

Section DistinctKeys.
Context {A K : Type} (key : A → K).

Lemma NoDup_fmap_elem l x y : NoDup (map key l) → x ∈ l → y ∈ l → key x = key y → x = y.
Proof.
  induction l as [|z l IH]; cbn; [set_solver|]. intros [Hz Hn]%NoDup_cons Hx Hy He.
  apply elem_of_cons in Hx as [->|Hx]; apply elem_of_cons in Hy as [->|Hy]; [done|..|by apply IH].
  - destruct Hz. rewrite He. by apply list_elem_of_fmap_2.
  - destruct Hz. rewrite <-He. by apply list_elem_of_fmap_2.
Qed.

Lemma NoDup_map_filter (p : A → bool) l : NoDup (map key l) → NoDup (map key (List.filter p l)).
Proof.
  induction l as [|x l IH]; cbn; [done|]. intros [Hx Hn]%NoDup_cons. destruct (p x); [|by apply IH].
  cbn. constructor; [|by apply IH]. intros (y & Hy & [Hin _]%list_elem_of_In%filter_In)%list_elem_of_fmap.
  apply Hx. rewrite Hy. by apply list_elem_of_fmap_2, list_elem_of_In.
Qed.
End DistinctKeys.

(** ** The first integer that is not used

    [while n in used: n += 1]; each turn meets another used number, so as many turns as there are
    used numbers suffice. *)
Fixpoint skip_used (fuel : nat) (used : list Z) (p : Z) : option Z :=
  if bool_decide (p ∈ used) then
    match fuel with O => None | S fuel' => skip_used fuel' used (p + 1) end
  else Some p.

Definition next_free (used : list Z) (p : Z) : res Z :=
  match skip_used (length used) used p with
  | Some q => Ok q
  | None => Raise (RuntimeError "out of fuel")
  end.

Lemma skip_used_spec fuel used p :
  (length (List.filter (λ x, (p <=? x)%Z) used) ≤ fuel)%nat →
  ∃ q, skip_used fuel used p = Some q ∧ p ≤ q ∧ q ∉ used ∧ ∀ x, p ≤ x < q → x ∈ used.
Proof.
  revert p. induction fuel as [|fuel IH]; intros p Hf; cbn [skip_used];
    destruct (bool_decide (p ∈ used)) eqn:E; bool_lia.
  - apply bool_decide_eq_true, list_elem_of_In in E.
    assert (Hin : In p (List.filter (λ x, (p <=? x)%Z) used)) by (apply filter_In; split; [done|bool_lia]).
    destruct (List.filter _ used); [done|cbn in Hf; lia].
  - apply bool_decide_eq_false in E. exists p. split_and!; [done|lia|done|lia].
  - apply bool_decide_eq_true in E. destruct (IH (p + 1)) as (q & H1 & H2 & H3 & H4).
    + enough (length (List.filter (λ x, (p + 1 <=? x)%Z) used) < length (List.filter (λ x, (p <=? x)%Z) used))%nat by lia.
      clear -E. induction used as [|y used IHu]; [by apply not_elem_of_nil in E|]. cbn.
      assert (Hle : (length (List.filter (λ x, (p + 1 <=? x)%Z) used) ≤ length (List.filter (λ x, (p <=? x)%Z) used))%nat).
      { clear. induction used as [|z used IH]; [done|]. cbn.
        destruct (p + 1 <=? z) eqn:E1, (p <=? z) eqn:E2; cbn; bool_lia. }
      apply elem_of_cons in E as [->|E].
      * rewrite (proj2 (Z.leb_gt _ _)), Z.leb_refl by lia. cbn. lia.
      * specialize (IHu E). destruct (p + 1 <=? y) eqn:E1, (p <=? y) eqn:E2; cbn; bool_lia.
    + exists q. split_and!; [done|lia|done|]. intros x Hx.
      destruct (decide (x = p)) as [->|]; [done|apply H4; lia].
  - apply bool_decide_eq_false in E. exists p. split_and!; [done|lia|done|lia].
Qed.

Lemma next_free_spec used p :
  ∃ q, next_free used p = Ok q ∧ p ≤ q ∧ q ∉ used ∧ ∀ x, p ≤ x < q → x ∈ used.
Proof.
  destruct (skip_used_spec (length used) used p) as (q & H & Hq).
  - apply List.filter_length_le.
  - exists q. unfold next_free. by rewrite H.
Qed.
