(* ===== verification/TopoNodes.v ===== *)
(** * Canvas topologies: nodes, edges and their classification

    The helpers of [deploy_topology.py] that look at one node, the transit
    addressing of the showroom and ops pods, and the well-formedness of a
    canvas topology: what the editor and the template loader produce. *)
From stdpp Require Import prelude strings.
From Stdlib Require Import Ascii.
From S2P Require Import Prelude PyStr PyVal PyLemmas.

Definition empty_dict : val := VDict [].
Definition empty_list : val := VList [].
Definition vstr_empty : val := VStr "".

(** [topology.get("nodes", \[\])] and [topology.get("edges", \[\])], iterated. *)
Definition nodes_of (topology : val) : res (list val) :=
  ns <- get topology "nodes" empty_list;; iter ns.
Definition edges_of (topology : val) : res (list val) :=
  es <- get topology "edges" empty_list;; iter es.

(** [node.get("type")], [node.get("data", {})]. *)
Definition type_of (node : val) : res val := get node "type" VNone.
Definition data_of (node : val) : res val := get node "data" empty_dict.

(** [node.get("type") == "t"] and [node.get("type") in (...)]. *)
Definition has_type (node : val) (t : string) : res bool :=
  ty <- type_of node;; Ok (eq_str ty t).
Definition has_type_in (node : val) (ts : list string) : res bool :=
  ty <- type_of node;; Ok (in_strs ty ts).

(** [deploy_topology._is_showroom_node] *)
Definition is_showroom_node (node : val) : res bool :=
  c <- has_type node "containerNode";;
  if negb c then Ok false
  else
    data <- data_of node;;
    s <- get data "isShowroom" VNone;;
    if truthy s then Ok true
    else name <- get data "name" VNone;; Ok (eq_str name "showroom").

(** [deploy_topology._is_gateway_node]: [None] and an empty node are not gateways. *)
Definition is_gateway_node (node : val) : res bool :=
  if negb (truthy node) then Ok false
  else
    t <- has_type node "networkNode";;
    if negb t then Ok false
    else data <- data_of node;; st <- get data "subtype" VNone;; Ok (eq_str st "gateway").

(** [deploy_topology._find_gateway_node] *)
Definition find_gateway_node (topology : val) : res (option val) :=
  ns <- nodes_of topology;; find_res is_gateway_node ns.

(** [deploy_topology._is_plain_network] *)
Definition is_plain_network (node : val) : res bool :=
  if negb (truthy node) then Ok false
  else
    t <- has_type node "networkNode";;
    if negb t then Ok false
    else
      data <- data_of node;;
      subtype <- get data "subtype" VNone;;
      Ok (match subtype with VNone => true | _ => in_strs subtype ["network"; "dhcp"; "dns"] end).

(** [deploy_topology._network_node_by_id] *)
Definition network_node_by_id (topology network_id : val) : res (option val) :=
  ns <- nodes_of topology;;
  find_res (λ node,
    i <- get node "id" VNone;;
    if py_eq i network_id then has_type node "networkNode" else Ok false) ns.

(** [{n\["id"\]: n for n in topology.get("nodes", \[\])}] *)
Definition nodes_by_id_of (ns : list val) : res (list (val * val)) :=
  for_each ns [] (λ n m, i <- idx n "id";; vset i n m).

(** [deploy_topology._network_dns_enabled] *)
Definition network_dns_enabled (data : val) : res bool :=
  dns <- get data "dns" VNone;;
  if truthy dns then Ok true
  else st <- get data "subtype" VNone;; Ok (eq_str st "dns").

(** A VNI map ([vni_map] in the code): node id to VNI. *)
Notation vnis := (list (val * Z)).

(** [deploy_topology.showroom_transit_octet3] *)
Definition showroom_transit_octet3 (vni_map : list (val * Z)) : option Z :=
  match vni_map with
  | [] => None
  | (_, v) :: m => Some (Z.land (foldl Z.min v (map snd m)) 255)
  end.

Definition transit_ip (octet3 last : Z) : string :=
  "172.30." +:+ str_of_Z octet3 +:+ "." +:+ str_of_Z last.

(** [deploy_topology.is_showroom_infra_ip], [deploy_topology.is_terminator_ip]
    and [deploy_topology.is_ops_infra_ip] test one last octet each. *)
Definition is_transit_ip (last ip : string) : bool :=
  match split "." ip with
  | [a; b; _; d] => String.eqb a "172" && String.eqb b "30" && String.eqb d last
  | _ => false
  end.

(** [deploy_topology.is_showroom_infra_ip] *)
Definition is_showroom_infra_ip (ip : string) : bool := is_transit_ip "3" ip.

(** [deploy_topology.is_terminator_ip] *)
Definition is_terminator_ip (ip : string) : bool := is_transit_ip "1" ip.

(** [deploy_topology.is_ops_infra_ip] *)
Definition is_ops_infra_ip (ip : string) : bool := is_transit_ip "4" ip.

(** [deploy_topology.showroom_infra_ip] *)
Definition showroom_infra_ip (vni_map : list (val * Z)) : string :=
  match showroom_transit_octet3 vni_map with
  | None => ""
  | Some o => transit_ip o 3
  end.

(** [deploy_topology.ops_infra_ip] *)
Definition ops_infra_ip (vni_map : list (val * Z)) : string :=
  match showroom_transit_octet3 vni_map with
  | None => ""
  | Some o => transit_ip o 4
  end.

(** [dict(v)] and [{**v}] on a JSON object: a copy. *)
Definition copy_dict (v : val) : res val :=
  match v with VDict _ => Ok v | _ => Raise TypeError end.

(** [list(v)]. *)
Definition copy_list (v : val) : res (list val) := iter v.

(** Writing back the node objects a loop over [topology["nodes"]] mutated: the
    list is updated where it is, and nothing changes when there is none. *)
Definition update_list (topology : val) (key : string) (l : list val) : val :=
  match topology with
  | VDict kvs =>
      match assoc key kvs with
      | Some (VList _) => VDict (assoc_set key (VList l) kvs)
      | _ => topology
      end
  | _ => topology
  end.

(** [v\[:8\]]. *)
Definition slice8 (v : val) : res val :=
  match v with
  | VStr s => Ok (VStr (str_take 8 s))
  | VList l => Ok (VList (take 8 l))
  | VDict _ | _ => Raise TypeError
  end.

(** [str(d.get(k) or "").strip()], the code's way to read a text field. *)
Definition text_field (d : val) (k : string) : res string :=
  v <- get d k VNone;; Ok (strip (py_str (v_or v vstr_empty))).

(** [k in h] for a text [h]: the left operand must be a text. *)
Definition substr_in (k : val) (h : string) : res bool :=
  match k with VStr s => Ok (contains s h) | _ => Raise TypeError end.

(** [sorted(l, key=...)] of elements paired with their keys: texts or numbers;
    other mixes of keys have no order. *)
Definition sort_keyed {A} (l : list (val * A)) : res (list A) :=
  match l with
  | [] | [_] => Ok l.*2
  | _ =>
      match mapM (λ p, match p.1 with VStr s => Some (s, p.2) | _ => None end) l with
      | Some ss => Ok (sort_by (λ a b, str_leb a.1 b.1) ss).*2
      | None =>
          match mapM (λ p, z ← as_int p.1; Some (z, p.2)) l with
          | Some zs => Ok (sort_by (λ a b, a.1 <=? b.1) zs).*2
          | None => Raise TypeError
          end
      end
  end.

(** ** Well-formed topologies

    A node is an object with a text [id] and, when present, an object [data]; an
    edge is an object whose [source] and [target] are texts. *)
Definition wf_node (n : val) : Prop :=
  ∃ kvs i, n = VDict kvs ∧ assoc "id" kvs = Some (VStr i) ∧
    ∃ d, default empty_dict (assoc "data" kvs) = VDict d.

Definition wf_edge (e : val) : Prop :=
  ∃ kvs s t, e = VDict kvs ∧ assoc "source" kvs = Some (VStr s) ∧
    assoc "target" kvs = Some (VStr t).

Definition wf_topology (t : val) : Prop :=
  ∃ kvs ns es, t = VDict kvs ∧ default empty_list (assoc "nodes" kvs) = VList ns ∧
    default empty_list (assoc "edges" kvs) = VList es ∧ Forall wf_node ns ∧ Forall wf_edge es.

(** ** Lemmas *)

Lemma wf_node_id n : wf_node n → ∃ i, idx n "id" = Ok (VStr i).
Proof. intros (kvs & i & -> & Hi & _). exists i. simpl. by rewrite Hi. Qed.

Lemma wf_node_data n : wf_node n → ∃ d, data_of n = Ok (VDict d).
Proof. intros (kvs & i & -> & _ & d & Hd). exists d. unfold data_of; simpl. by rewrite Hd. Qed.

Lemma wf_node_get n k d : wf_node n → is_Ok (get n k d).
Proof. intros (kvs & i & -> & _). by eexists. Qed.

Lemma wf_node_type n t : wf_node n → is_Ok (has_type n t).
Proof. intros (kvs & i & -> & _). by eexists. Qed.

Lemma wf_node_type_in n ts : wf_node n → is_Ok (has_type_in n ts).
Proof. intros (kvs & i & -> & _). by eexists. Qed.

Lemma wf_is_showroom_node n : wf_node n → is_Ok (is_showroom_node n).
Proof.
  intros (kvs & i & -> & _ & d & Hd). unfold is_showroom_node, has_type, data_of; simpl.
  rewrite Hd. case_bools; simpl; eauto with troshka. case_bools; eauto with troshka.
Qed.

Lemma wf_is_gateway_node n : wf_node n → is_Ok (is_gateway_node n).
Proof.
  intros (kvs & i & -> & Hi & d & Hd). unfold is_gateway_node, has_type, data_of; simpl.
  rewrite Hd. case_bools; simpl; case_bools; eauto with troshka.
Qed.

Lemma wf_topology_nodes t : wf_topology t → ∃ ns, nodes_of t = Ok ns ∧ Forall wf_node ns.
Proof.
  intros (kvs & ns & es & -> & Hn & He & Fn & Fe). exists ns. unfold nodes_of; simpl.
  by rewrite Hn.
Qed.

Lemma wf_topology_edges t : wf_topology t → ∃ es, edges_of t = Ok es ∧ Forall wf_edge es.
Proof.
  intros (kvs & ns & es & -> & Hn & He & Fn & Fe). exists es. unfold edges_of; simpl.
  by rewrite He.
Qed.

Lemma find_res_is_Ok {A} (p : A → res bool) l :
  (∀ x, x ∈ l → is_Ok (p x)) → is_Ok (find_res p l).
Proof.
  induction l as [|x l IH]; intros H; simpl; [by eexists|].
  destruct (H x) as [b ->]; [set_solver|]. destruct b; [by eexists|]. apply IH. set_solver.
Qed.

Lemma any_res_is_Ok {A} (p : A → res bool) l :
  (∀ x, x ∈ l → is_Ok (p x)) → is_Ok (any_res p l).
Proof.
  induction l as [|x l IH]; intros H; simpl; [by eexists|].
  destruct (H x) as [b ->]; [set_solver|]. destruct b; [by eexists|]. apply IH. set_solver.
Qed.

Lemma filter_res_is_Ok {A} (p : A → res bool) l :
  (∀ x, x ∈ l → is_Ok (p x)) → is_Ok (filter_res p l).
Proof.
  induction l as [|x l IH]; intros H; simpl; [by eexists|].
  destruct (H x) as [b ->]; [set_solver|]. destruct IH as [ys ->]; [set_solver|].
  simpl. by eexists.
Qed.

Lemma wf_find_gateway t : wf_topology t → is_Ok (find_gateway_node t).
Proof.
  intros (ns & Hn & F)%wf_topology_nodes. unfold find_gateway_node. rewrite Hn. simpl.
  apply find_res_is_Ok. intros x Hx. rewrite Forall_forall in F. by apply wf_is_gateway_node, F.
Qed.

Lemma foldl_min_le v l : foldl Z.min v l ≤ v ∧ ∀ x, x ∈ l → foldl Z.min v l ≤ x.
Proof.
  revert v; induction l as [|y l IH]; intros v; simpl; [set_solver by lia|].
  destruct (IH (Z.min v y)) as [H1 H2]. split; [lia|].
  intros x [->|Hx]%elem_of_cons; [lia|auto].
Qed.

Lemma showroom_octet_range m o : showroom_transit_octet3 m = Some o → 0 ≤ o < 256.
Proof.
  destruct m as [|[k v] m]; simpl; [done|]. intros [= <-].
  change 255 with (Z.ones 8). rewrite Z.land_ones by lia. apply Z.mod_pos_bound. lia.
Qed.

#[export] Hint Resolve wf_node_get wf_node_type wf_node_type_in wf_is_showroom_node
  wf_is_gateway_node find_res_is_Ok any_res_is_Ok filter_res_is_Ok wf_find_gateway : troshka.

(** Sorting by key only reorders. *)
Lemma mapM_snd {A K} (f : val → option K) (l : list (val * A)) ss :
  mapM (λ p, k ← f p.1; Some (k, p.2)) l = Some ss → ss.*2 = l.*2.
Proof.
  intros H%mapM_Some. induction H as [|[k a] [k' a'] l ss Hp _ IH]; [done|].
  cbn in Hp. destruct (f k); [|done]. cbn in Hp. simplify_eq. csimpl. by rewrite IH.
Qed.

Lemma sort_keyed_perm {A} (l : list (val * A)) r : sort_keyed l = Ok r → r ≡ₚ l.*2.
Proof.
  unfold sort_keyed. destruct l as [|a [|b l]]; [by intros [= <-]..|]. set (l0 := a :: b :: l).
  destruct (mapM (λ p, match p.1 with VStr s => Some (s, p.2) | _ => None end) l0) as [ss|] eqn:E.
  - intros [= <-]. rewrite sort_by_perm.
    rewrite (mapM_snd (λ v, match v with VStr s => Some s | _ => None end) l0); [done|].
    rewrite <-E. apply mapM_ext. intros [[] v]; done.
  - destruct (mapM (λ p, z ← as_int p.1; Some (z, p.2)) l0) as [zs|] eqn:E2; [|done]. intros [= <-]. rewrite sort_by_perm.
    by rewrite (mapM_snd as_int l0).
Qed.

(** ** Nodes by id *)

(** The id of a well-formed node, and its type test as a boolean. *)
Definition node_key (n : val) : string := match idx n "id" with Ok (VStr s) => s | _ => "" end.
Definition is_of_type (t : string) (n : val) : bool :=
  match has_type n t with Ok b => b | Raise _ => false end.

Lemma wf_node_key n : wf_node n → idx n "id" = Ok (VStr (node_key n)).
Proof. intros (i & Hi)%wf_node_id. unfold node_key. by rewrite Hi. Qed.

Lemma wf_node_is_of_type n t : wf_node n → has_type n t = Ok (is_of_type t n).
Proof. intros [b Hb]%(wf_node_type _ t). unfold is_of_type. by rewrite Hb. Qed.

(** With distinct ids the dictionary of nodes is the list of nodes, keyed. *)
Lemma nodes_by_id_keyed ns :
  Forall wf_node ns → NoDup (map node_key ns) →
  nodes_by_id_of ns = Ok (map (λ n, (VStr (node_key n), n)) ns).
Proof.
  intros Hwf Hn. unfold nodes_by_id_of.
  assert (H : ∀ done, NoDup (map node_key (done ++ ns)) →
    for_each ns (map (λ n, (VStr (node_key n), n)) done) (λ n m, i <- idx n "id";; vset i n m) =
    Ok (map (λ n, (VStr (node_key n), n)) (done ++ ns))).
  2: { by apply (H []). }
  clear Hn. induction Hwf as [|n ns Hw _ IH]; intros dn Hn; [by rewrite app_nil_r|].
  cbn [for_each]. rewrite (wf_node_key n Hw). cbn [bind]. unfold vset. cbn [hkey hashable bind].
  rewrite vinsert_new.
  - change [(VStr (node_key n), n)] with (map (λ n, (VStr (node_key n), n)) [n]).
    rewrite <-map_app, IH; by rewrite <-app_assoc.
  - intros k'. rewrite <-list_fmap_compose. intros (n' & -> & Hin)%list_elem_of_fmap.
    change (py_eq (VStr (node_key n)) (VStr (node_key n')) = false). rewrite py_eq_str. apply bool_decide_eq_false. intros Heq. rewrite map_app in Hn.
    apply NoDup_app in Hn as (_ & Hd & _). apply (Hd (node_key n)); [|left].
    rewrite Heq. by apply (list_elem_of_fmap_2 node_key).
Qed.

(** Looking a node up by id. *)
Lemma find_keyed_Some ns s n :
  List.find (λ n, String.eqb s (node_key n)) ns = Some n → n ∈ ns ∧ node_key n = s.
Proof. intros [H1 H2%String.eqb_eq]%find_some. split; [by apply list_elem_of_In|done]. Qed.

Lemma find_keyed_None ns s :
  List.find (λ n, String.eqb s (node_key n)) ns = None ↔ s ∉ map node_key ns.
Proof.
  induction ns as [|n ns IH]; csimpl; [set_solver|].
  destruct (String.eqb_spec s (node_key n)) as [->|Hne]; [set_solver|]. rewrite IH. set_solver.
Qed.

Lemma find_keyed_unique ns n :
  NoDup (map node_key ns) → n ∈ ns → List.find (λ m, String.eqb (node_key n) (node_key m)) ns = Some n.
Proof.
  induction ns as [|m ns IH]; csimpl; [set_solver|]. intros [Hm Hn]%NoDup_cons Hin.
  destruct (String.eqb_spec (node_key n) (node_key m)) as [Heq|Hne].
  - apply elem_of_cons in Hin as [->|Hin]; [done|]. exfalso. apply Hm. rewrite <-Heq.
    by apply (list_elem_of_fmap_2 node_key).
  - apply IH; [done|]. set_solver.
Qed.
