(* ===== verification/PyText.v ===== *)
(** * Texts of the standard library

    [base64.b64encode], [hashlib.sha1], [json.dumps], [re.escape] and the substitutions of runs
    of characters, on ASCII text. *)
From stdpp Require Import prelude strings.
From Stdlib Require Import Ascii ZArith Lia.
From S2P Require Import Prelude PyStr StrLemmas PyVal.

Open Scope list_scope.

(** A double quote as a text. *)
Definition q : string := String dquote EmptyString.

(** A line feed as a text. *)
Definition nl : string := String (ascii_of_N 10) EmptyString.

(** The bytes of a text, [s.encode()]. *)
Definition encode (s : string) : list Z := map (λ a, Z.of_N (N_of_ascii a)) (String.list_ascii_of_string s).

(** ** Runs of characters *)

Definition is_lower_alnum (a : ascii) : bool :=
  let n := N_of_ascii a in is_digit a || ((97 <=? n) && (n <=? 122))%N.

(** [re.sub(r"\[^…\]+", sep, s)]: a run of characters that are not kept becomes one [sep]. *)
Fixpoint sub_runs (keep : ascii → bool) (sep : ascii) (in_run : bool) (s : string) : string :=
  match s with
  | EmptyString => EmptyString
  | String a s' =>
      if keep a then String a (sub_runs keep sep false s')
      else if in_run then sub_runs keep sep true s' else String sep (sub_runs keep sep true s')
  end.

(** [s.lstrip(c)], [s.rstrip(c)] and [s.strip(c)] for one character. *)
Fixpoint lstrip_char (c : ascii) (s : string) : string :=
  match s with
  | String a s' => if decide (a = c) then lstrip_char c s' else s
  | EmptyString => EmptyString
  end.
Definition rstrip_char (c : ascii) (s : string) : string := String.rev (lstrip_char c (String.rev s)).
Definition strip_char (c : ascii) (s : string) : string := rstrip_char c (lstrip_char c s).

(** As [re.escape]: the characters with a meaning in a pattern take a backslash. *)
Definition re_special : list ascii :=
  String.list_ascii_of_string "()[]{}?*+-|^$\.&~# " ++ map ascii_of_N [9; 10; 13; 11; 12]%N.
Fixpoint re_escape (s : string) : string :=
  match s with
  | EmptyString => EmptyString
  | String a s' =>
      if existsb (Ascii.eqb a) re_special then String backslash (String a (re_escape s'))
      else String a (re_escape s')
  end.

(** ** JSON *)

(** One character of a JSON text. *)
Definition json_char (a : ascii) : string :=
  let n := N_of_ascii a in
  if decide (a = dquote) then String backslash q
  else if decide (a = backslash) then String backslash (String backslash EmptyString)
  else if (n =? 10)%N then "\n"
  else if (n =? 13)%N then "\r"
  else if (n =? 9)%N then "\t"
  else if (n =? 8)%N then "\b"
  else if (n =? 12)%N then "\f"
  else if ((n <? 32) || (n =? 127))%N then "\u00" +:+ hex2 (Z.of_N n)
  else String a EmptyString.

Definition json_string (s : string) : string :=
  q +:+ String.concat "" (map json_char (String.list_ascii_of_string s)) +:+ q.

(** As [json.dumps]. *)
Fixpoint json_dumps (v : val) : string :=
  match v with
  | VNone => "null"
  | VBool b => if b then "true" else "false"
  | VInt z => str_of_Z z
  | VStr s => json_string s
  | VList l => "[" +:+ join ", " (map json_dumps l) +:+ "]"
  | VDict d =>
      "{" +:+ join ", " ((fix fields (d : list (string * val)) : list string :=
                            match d with [] => [] | (k, x) :: d' => (json_string k +:+ ": " +:+ json_dumps x) :: fields d' end) d)
      +:+ "}"
  end.

(** ** Base 64 *)

Definition b64_alphabet : string := "ABCDEFGHIJKLMNOPQRSTUVWXYZabcdefghijklmnopqrstuvwxyz0123456789+/".
Definition b64_digit (z : Z) : ascii := default "="%char (String.get (Z.to_nat z) b64_alphabet).

Fixpoint b64_groups (l : list Z) : string :=
  match l with
  | x :: y :: z :: l' =>
      String (b64_digit (Z.shiftr x 2))
        (String (b64_digit (Z.lor (Z.shiftl (Z.land x 3) 4) (Z.shiftr y 4)))
          (String (b64_digit (Z.lor (Z.shiftl (Z.land y 15) 2) (Z.shiftr z 6)))
            (String (b64_digit (Z.land z 63)) (b64_groups l'))))
  | [x; y] =>
      String (b64_digit (Z.shiftr x 2))
        (String (b64_digit (Z.lor (Z.shiftl (Z.land x 3) 4) (Z.shiftr y 4)))
          (String (b64_digit (Z.shiftl (Z.land y 15) 2)) "="))
  | [x] => String (b64_digit (Z.shiftr x 2)) (String (b64_digit (Z.shiftl (Z.land x 3) 4)) "==")
  | [] => EmptyString
  end.

(** [base64.b64encode(s.encode()).decode()] *)
Definition b64encode (s : string) : string := b64_groups (encode s).

(** ** SHA-1 *)

Definition word (z : Z) : Z := z mod 2 ^ 32.
Definition rotl (n x : Z) : Z := Z.lor (word (Z.shiftl x n)) (Z.shiftr x (32 - n)).

(** The big-endian bytes of a number. *)
Fixpoint be_bytes (n : nat) (z : Z) : list Z :=
  match n with O => [] | S n' => be_bytes n' (Z.shiftr z 8) ++ [Z.land z 255] end.

Definition sha1_pad (bytes : list Z) : list Z :=
  let n := Z.of_nat (length bytes) in
  bytes ++ [128] ++ replicate (Z.to_nat ((55 - n) mod 64)) 0 ++ be_bytes 8 (8 * n).

Fixpoint be_words (l : list Z) : list Z :=
  match l with
  | a :: b :: c :: d :: l' => Z.lor (Z.lor (Z.lor (Z.shiftl a 24) (Z.shiftl b 16)) (Z.shiftl c 8)) d :: be_words l'
  | _ => []
  end.

(** The words of the schedule, the last first. *)
Fixpoint sha1_schedule (n : nat) (w : list Z) : list Z :=
  match n with
  | O => w
  | S n' =>
      let at_ i := nth i w 0 in
      sha1_schedule n' (rotl 1 (Z.lxor (Z.lxor (at_ 2%nat) (at_ 7%nat)) (Z.lxor (at_ 13%nat) (at_ 15%nat))) :: w)
  end.

Definition sha1_state : Type := Z * Z * Z * Z * Z.

(** The function and the constant of round [t]. *)
Definition sha1_f (t b c d : Z) : Z * Z :=
  if t <? 20 then (Z.lor (Z.land b c) (Z.land (word (Z.lnot b)) d), 0x5A827999)
  else if t <? 40 then (Z.lxor (Z.lxor b c) d, 0x6ED9EBA1)
  else if t <? 60 then (Z.lor (Z.lor (Z.land b c) (Z.land b d)) (Z.land c d), 0x8F1BBCDC)
  else (Z.lxor (Z.lxor b c) d, 0xCA62C1D6).

Definition sha1_round (st : sha1_state) (tw : nat * Z) : sha1_state :=
  let '(a, b, c, d, e) := st in
  let '(f, k) := sha1_f (Z.of_nat tw.1) b c d in
  (word (rotl 5 a + f + e + k + tw.2), a, rotl 30 b, c, d).

Definition sha1_block (st : sha1_state) (block : list Z) : sha1_state :=
  let w := rev (sha1_schedule 64 (rev (be_words block))) in
  let '(a, b, c, d, e) := foldl sha1_round st (zip (seq 0 80) w) in
  let '(a0, b0, c0, d0, e0) := st in
  (word (a0 + a), word (b0 + b), word (c0 + c), word (d0 + d), word (e0 + e)).

Fixpoint sha1_blocks (fuel : nat) (st : sha1_state) (l : list Z) : sha1_state :=
  match fuel, l with
  | S fuel', _ :: _ => sha1_blocks fuel' (sha1_block st (take 64 l)) (drop 64 l)
  | _, _ => st
  end.

(** [hashlib.sha1(s.encode()).hexdigest()]; every turn takes a byte at least. *)
Definition sha1_hexdigest (s : string) : string :=
  let l := sha1_pad (encode s) in
  let '(a, b, c, d, e) :=
    sha1_blocks (length l) (0x67452301, 0xEFCDAB89, 0x98BADCFE, 0x10325476, 0xC3D2E1F0) l in
  String.concat "" (map hex2 (concat (map (be_bytes 4) [a; b; c; d; e]))).

Example sha1_abc : sha1_hexdigest "abc" = "a9993e364706816aba3e25717850c26c9cd0d89d".
Proof. vm_compute. reflexivity. Qed.
Example sha1_two_blocks :
  sha1_hexdigest "abcdbcdecdefdefgefghfghighijhijkijkljklmklmnlmnomnopnopq" = "84983e441c3bd26ebaae4aa1f95129e5e54670f1".
Proof. vm_compute. reflexivity. Qed.
Example b64_remainders : map b64encode ["M"; "Ma"; "Man"; "Many"] = ["TQ=="; "TWE="; "TWFu"; "TWFueQ=="].
Proof. vm_compute. reflexivity. Qed.
