(* ===== verification/Showroom.v ===== *)
(** * The showroom

    [services/showroom_scaffold.py] from the tabs of a showroom to what its pod runs: resolved
    tabs, the nginx configuration with its capability token and its application proxies, the
    interface's configuration, the init and pod containers; the overrides of a deployment and
    the export of the section. *)
From stdpp Require Import prelude strings.
From Stdlib Require Import Ascii ZArith Lia.
From S2P Require Import Prelude PyStr PyVal PyText TopoNodes.

Open Scope list_scope.

(** An optional text of Python where the empty text counts as none, [(t or "").strip() or None]. *)
Definition stripped (t : option string) : option string :=
  match t with
  | Some s => if String.eqb (strip s) "" then None else Some (strip s)
  | None => None
  end.

(** ** The capability token *)

(** [showroom_scaffold.ensure_showroom_access_token]: the store and its token; [minted] is what
    [mint_showroom_access_token] would draw. *)
Definition ensure_showroom_access_token (minted : string) (store : val) : res (val * string) :=
  t <- get store "_showroom_access_token" VNone;;
  let token := strip (py_str (v_or t vstr_empty)) in
  if negb (String.eqb token "") then Ok (store, token)
  else store <- set_item store "_showroom_access_token" (VStr minted);; Ok (store, minted).

(** [showroom_scaffold._nginx_token_maps] *)
Definition nginx_token_maps (access_token : string) : list string :=
  ["  map $arg_token $troshka_sr_arg_ok {"; "    default 0;"; "    " +:+ q +:+ access_token +:+ q +:+ " 1;"; "  }";
   "  map $cookie_troshka_sr $troshka_sr_cookie_ok {"; "    default 0;"; "    " +:+ q +:+ access_token +:+ q +:+ " 1;";
   "  }"].

(** [showroom_scaffold._nginx_token_gate_lines] *)
Definition nginx_token_gate_lines (access_token indent : string) : list string :=
  let cookie := "troshka_sr=" +:+ access_token +:+ "; Path=/; Secure; HttpOnly; SameSite=None" in
  [indent +:+ "set $troshka_sr_ok 0;"; indent +:+ "if ($troshka_sr_arg_ok) { set $troshka_sr_ok 1; }";
   indent +:+ "if ($troshka_sr_cookie_ok) { set $troshka_sr_ok 1; }";
   indent +:+ "if ($troshka_sr_ok = 0) { return 401; }";
   indent +:+ "add_header Set-Cookie " +:+ q +:+ cookie +:+ q +:+ ";"].

(** The gate when there is a token, [… if access_token else \[\]]. *)
Definition gate_lines (access_token : option string) (indent : string) : list string :=
  match access_token with Some t => nginx_token_gate_lines t indent | None => [] end.

(** ** Names *)

(** [showroom_scaffold._slugify] *)
Definition slugify (name : string) : string :=
  let slug := strip_char "_" (sub_runs is_lower_alnum "_" false (lower name)) in
  if String.eqb slug "" then "vm" else slug.

(** [showroom_scaffold.derive_apps_domain] *)
Definition derive_apps_domain (route_hostname : string) : string :=
  if contains "." route_hostname then join "." (tail (split "." route_hostname)) else "".

(** [showroom_scaffold._apps_cluster_slug] *)
Definition apps_cluster_slug (internal_host : string) : string :=
  match split "." (lower (strip internal_host)) with
  | _ :: "apps" :: name :: _ =>
      str_take 16 (strip_char "-" (sub_runs (λ a, is_lower_alnum a || Ascii.eqb a "-") "-" false name))
  | _ => ""
  end.

(** [showroom_scaffold._APP_PROXY_CODES] *)
Definition APP_PROXY_CODES : list (string * string) := [("console-openshift-console", "con"); ("oauth-openshift", "oauth")].

(** [showroom_scaffold.app_proxy_route_code] *)
Definition app_proxy_route_code (internal_host : string) : string :=
  let host := lower (strip internal_host) in
  let label := default "" (head (split "." host)) in
  let cluster := apps_cluster_slug host in
  let suffixed base := if String.eqb cluster "" then base else base +:+ "-" +:+ cluster in
  match assoc label APP_PROXY_CODES with
  | Some base => suffixed base
  | None =>
      let slug := strip_char "-" (str_take 8 (strip_char "-" (sub_runs is_lower_alnum "-" false label))) in
      let h := str_take 6 (sha1_hexdigest host) in
      suffixed (if String.eqb slug "" then h else slug +:+ "-" +:+ h)
  end.

(** [showroom_scaffold.app_proxy_route_name] *)
Definition app_proxy_route_name (project_id internal_host : string) : string :=
  "tpf-" +:+ str_take 8 project_id +:+ "-" +:+ app_proxy_route_code internal_host.

(** [showroom_scaffold.app_proxy_public_host] *)
Definition app_proxy_public_host (project_id internal_host apps_domain namespace : string) : string :=
  app_proxy_route_name project_id internal_host +:+ "-" +:+ namespace +:+ "." +:+ apps_domain.

(** [showroom_scaffold.app_proxy_eip_public_host] *)
Definition app_proxy_eip_public_host (project_id internal_host eip namespace : string) : string :=
  app_proxy_route_name project_id internal_host +:+ "-" +:+ namespace +:+ "." +:+ eip +:+ ".sslip.io".

(** The route codes of which [code] is the beginning, what they add to it, sorted. *)
Definition code_extensions (code : string) (all_codes : list string) : list string :=
  sort_by String.leb
    (omap (λ other, if negb (String.eqb other code) && startswith (code +:+ "-") other
                    then Some (str_drop (String.length code + 1) other) else None) all_codes).

(** [showroom_scaffold._app_proxy_server_name_regex] *)
Definition app_proxy_server_name_regex (code : string) (all_codes : list string) : string :=
  let lookahead :=
    match code_extensions code all_codes with
    | [] => ""
    | extensions => "(?!" +:+ join "|" (map re_escape extensions) +:+ "-)"
    end in
  q +:+ "~^tpf-(?<troshka_pid>[0-9a-f]{8})-" +:+ code +:+ "-" +:+ lookahead +:+ "(?<troshka_ns>.+)$" +:+ q.

(** [showroom_scaffold.app_proxy_internal_hosts] *)
Definition app_proxy_internal_hosts (tabs : list val) : res (list string) :=
  for_each tabs [] (λ tab seen,
    hosts <- get tab "proxyHosts" empty_list;;
    hosts <- iter hosts;;
    for_each hosts seen (λ host seen,
      host <- as_str (v_or host vstr_empty);;
      let host := strip host in
      Ok (if negb (String.eqb host "") && negb (bool_decide (host ∈ seen)) then seen ++ [host] else seen))).

(** ** Tabs *)

(** [{v: k for k, v in vm_name_to_id.items()}] *)
Definition invert_ids (vm_name_to_id : list (string * val)) : res (list (val * string)) :=
  for_each vm_name_to_id [] (λ '(k, v) m, vset v k m).

(** [showroom_scaffold._vm_ip_on_network] *)
Definition vm_ip_on_network (vms_def : val) (vm_name : string) (network_name : val) : res string :=
  cfg <- get vms_def vm_name empty_dict;;
  nics <- get cfg "nics" empty_list;;
  nics <- iter nics;;
  o <- first_some (λ nic,
    n <- get nic "network" VNone;;
    if py_eq n network_name then ip <- get nic "ip" vstr_empty;; Ok (Some (py_str (v_or ip vstr_empty)))
    else Ok None) nics;;
  Ok (default "" o).

(** The path of a proxied tab: its own or one made from a name, with a slash at the end. *)
Definition proxy_path_of (tab : val) (name : res string) : res string :=
  p <- get tab "proxyPath" VNone;;
  p <- (if truthy p then as_str p else n <- name;; Ok ("/" +:+ slugify n +:+ "/"));;
  Ok (if endswith "/" p then p else p +:+ "/").

(** [scheme://host:port] of a proxied tab. *)
Definition proxy_target_of (tab : val) (host : string) : res (string * bool) :=
  p <- get tab "proxyPort" VNone;;
  port <- py_int (v_or p (VInt 80));;
  tls <- get tab "proxyTls" VNone;;
  Ok ((if truthy tls then "https" else "http") +:+ "://" +:+ host +:+ ":" +:+ str_of_Z port, truthy tls).

(** [showroom_scaffold._resolve_name_based_proxy] *)
Definition resolve_name_based_proxy (tab : val) : res val :=
  host <- idx tab "proxyHost";;
  proxy_path <- proxy_path_of tab (as_str host);;
  '(target, tls) <- proxy_target_of tab (py_str host);;
  Ok {{ "tab" ::= tab; "proxyPath" ::= VStr proxy_path; "proxyTarget" ::= VStr target; "proxyTls" ::= VBool tls;
        "proxyHost" ::= host }}%py.

(** [showroom_scaffold._resolve_vm_proxy_tab] *)
Definition resolve_vm_proxy_tab (tab : val) (vm_name vm_ip : string) : res val :=
  proxy_path <- proxy_path_of tab (Ok vm_name);;
  '(target, tls) <- proxy_target_of tab vm_ip;;
  Ok {{ "tab" ::= tab; "proxyPath" ::= VStr proxy_path; "proxyTarget" ::= VStr target; "proxyTls" ::= VBool tls }}%py.

(** [showroom_scaffold._resolve_one_showroom_tab:642-658] a tab of a machine. *)
Definition resolve_vm_tab (tab tab_type vms_def : val) (vm_name : string) (network_name : val) (wetty_port : Z)
    : res (val * Z) :=
  vm_ip <- vm_ip_on_network vms_def vm_name network_name;;
  if String.eqb vm_ip "" then
    Ok ({{ "tab" ::= tab; "warning" ::= VStr (vm_name +:+ " has no IP on " +:+ py_str network_name) }}%py, wetty_port)
  else if eq_str tab_type "terminal" then
    Ok ({{ "tab" ::= tab; "wettyPath" ::= VStr ("/wetty_" +:+ slugify vm_name); "wettyPort" ::= VInt wetty_port;
           "wettyHost" ::= VStr vm_ip }}%py, wetty_port + 1)
  else item <- resolve_vm_proxy_tab tab vm_name vm_ip;; Ok (item, wetty_port).

(** [showroom_scaffold._resolve_one_showroom_tab] *)
Definition resolve_one_showroom_tab (tab : val) (id_to_name : list (val * string)) (vms_def : val) (wetty_port : Z)
    : res (val * Z) :=
  tab_type <- get tab "type" VNone;;
  if eq_str tab_type "external" then Ok ({{ "tab" ::= tab }}%py, wetty_port)
  else
    hosts <- get tab "proxyHosts" VNone;;
    if eq_str tab_type "proxy" && truthy hosts then
      hosts <- iter hosts;;
      Ok ({{ "tab" ::= tab; "appProxyHosts" ::= VList hosts }}%py, wetty_port)
    else
      host <- get tab "proxyHost" VNone;;
      if eq_str tab_type "proxy" && truthy host then
        item <- resolve_name_based_proxy tab;; Ok (item, wetty_port)
      else
        target <- get tab "target" VNone;;
        if eq_str tab_type "terminal" && eq_str target "clusters" then
          Ok ({{ "tab" ::= tab; "wettyPath" ::= VStr "/wetty_clusters"; "wettyPort" ::= VInt wetty_port;
                 "ocTerminal" ::= VBool true }}%py, wetty_port + 1)
        else
          vm_id <- get tab "vmId" vstr_empty;;
          vm_name <- vget vm_id id_to_name;;
          let vm_name := default "" vm_name in
          known <- (if String.eqb vm_name "" then Ok false else has_key vm_name vms_def);;
          if negb known then Ok ({{ "tab" ::= tab; "warning" ::= VStr "Select a VM for this tab" }}%py, wetty_port)
          else
            network_name <- get tab "network" vstr_empty;;
            if negb (truthy network_name)
            then Ok ({{ "tab" ::= tab; "warning" ::= VStr "Select a network for this tab" }}%py, wetty_port)
            else resolve_vm_tab tab tab_type vms_def vm_name network_name wetty_port.

(** [showroom_scaffold.resolve_showroom_tabs:671-675] the tabs from port [wetty_port] on. *)
Fixpoint resolve_tabs_from (tabs : list val) (id_to_name : list (val * string)) (vms_def : val) (wetty_port : Z)
    : res (list val) :=
  match tabs with
  | [] => Ok []
  | tab :: tabs' =>
      '(item, wetty_port) <- resolve_one_showroom_tab tab id_to_name vms_def wetty_port;;
      items <- resolve_tabs_from tabs' id_to_name vms_def wetty_port;;
      Ok (item :: items)
  end.

(** [showroom_scaffold.resolve_showroom_tabs] *)
Definition resolve_showroom_tabs (tabs : list val) (vms_def : val) (vm_name_to_id : list (string * val))
    : res (list val) :=
  id_to_name <- invert_ids vm_name_to_id;;
  resolve_tabs_from tabs id_to_name vms_def 8001.

(** ** The interface's configuration *)

(** [showroom_scaffold._yaml_name] *)
Definition yaml_name (name : val) : string := let s := str_drop 1 (json_dumps name) in str_drop_last 1 s.

(** [showroom_scaffold.build_ui_config_yaml:706-744] the lines of one tab. *)
Definition ui_tab_lines (item : val) : res (list string) :=
  tab <- idx item "tab";;
  tab_type <- get tab "type" VNone;;
  name <- get tab "name" vstr_empty;;
  let name_line := "  - name: " +:+ yaml_name name in
  if eq_str tab_type "external" then
    url <- get tab "url" vstr_empty;;
    Ok [name_line; "    url: " +:+ py_str url; "    external: true"]
  else
    wetty <- get item "wettyPath" VNone;;
    if eq_str tab_type "terminal" && truthy wetty then Ok [name_line; "    path: " +:+ py_str wetty; "    port: 443"]
    else
      hosts <- get item "appProxyHosts" VNone;;
      if eq_str tab_type "proxy" && truthy hosts then
        target <- nth_item hosts 0;;
        Ok [name_line; "    url: '__TROSHKA_APP_PROXY__" +:+ py_str target +:+ "__'"]
      else
        path <- get item "proxyPath" VNone;;
        if eq_str tab_type "proxy" && truthy path then Ok [name_line; "    url: '" +:+ py_str path +:+ "'"] else Ok [].

(** [showroom_scaffold.build_ui_config_yaml] *)
Definition build_ui_config_yaml (resolved : list val) : res string :=
  lines <- map_res ui_tab_lines resolved;;
  Ok (join nl (["---"; "type: showroom"; ""; "default_width: 30"; "persist_url_state: true"; ""; "view_switcher:";
                "  enabled: true"; "  default_mode: split"; ""; "antora:"; "  name: modules"; "  dir: www"; ""; "tabs:"]
               ++ concat lines) +:+ nl).

(** ** nginx *)

(** [showroom_scaffold._nginx_wetty_location] *)
Definition nginx_wetty_location (item : val) (access_token : option string) : res (list string) :=
  p <- idx item "wettyPath";;
  p <- as_str p;;
  let path := rstrip_char "/" p in
  port <- idx item "wettyPort";;
  Ok (["    location ^~ " +:+ path +:+ " {"] ++ gate_lines access_token "      "
      ++ ["      proxy_pass http://127.0.0.1:" +:+ py_str port +:+ path +:+ ";"; "      proxy_http_version 1.1;";
          "      proxy_set_header Upgrade $http_upgrade;"; "      proxy_set_header Connection $connection_upgrade;";
          "      proxy_set_header Host $host;"; "      proxy_read_timeout 43200000;"; "    }"]).

(** [showroom_scaffold._nginx_proxy_location] *)
Definition nginx_proxy_location (item : val) (access_token : option string) : res (list string) :=
  loc <- idx item "proxyPath";;
  proxy_host <- get item "proxyHost" VNone;;
  target <- idx item "proxyTarget";;
  tls <- get item "proxyTls" VNone;;
  Ok (["    location " +:+ py_str loc +:+ " {"] ++ gate_lines access_token "      "
      ++ ["      proxy_pass " +:+ py_str target +:+ ";"; "      proxy_http_version 1.1;";
          "      proxy_set_header Upgrade $http_upgrade;"; "      proxy_set_header Connection $connection_upgrade;";
          "      proxy_set_header Host " +:+ (if truthy proxy_host then py_str proxy_host else "$host") +:+ ";";
          "      proxy_read_timeout 86400;"]
      ++ (if truthy tls then
            ["      proxy_ssl_verify off;"]
            ++ (if truthy proxy_host
                then ["      proxy_ssl_server_name on;"; "      proxy_ssl_name " +:+ py_str proxy_host +:+ ";"] else [])
          else [])
      ++ ["    }"]).

(** [showroom_scaffold._nginx_tab_locations] of one tab. *)
Definition nginx_tab_location (access_token : option string) (item : val) : res (list string) :=
  tab <- idx item "tab";;
  tab_type <- get tab "type" VNone;;
  path <- get item "wettyPath" VNone;;
  port <- get item "wettyPort" VNone;;
  wetty <- (if eq_str tab_type "terminal" && truthy path && truthy port
            then nginx_wetty_location item access_token else Ok []);;
  path <- get item "proxyPath" VNone;;
  target <- get item "proxyTarget" VNone;;
  proxy <- (if eq_str tab_type "proxy" && truthy path && truthy target
            then nginx_proxy_location item access_token else Ok []);;
  Ok (wetty ++ proxy).

(** [showroom_scaffold._nginx_tab_locations] *)
Definition nginx_tab_locations (resolved : list val) (access_token : option string) : res (list string) :=
  l <- map_res (nginx_tab_location access_token) resolved;;
  Ok (concat l).

(** [showroom_scaffold._collect_app_proxy_hosts] *)
Definition collect_app_proxy_hosts (resolved : list val) : res (list val) :=
  for_each resolved [] (λ item app_hosts,
    hosts <- get item "appProxyHosts" empty_list;;
    hosts <- iter hosts;;
    for_each hosts app_hosts (λ host app_hosts, Ok (if vmem host app_hosts then app_hosts else app_hosts ++ [host]))).

(** [showroom_scaffold._is_oauth_app_proxy_host] *)
Definition is_oauth_app_proxy_host (host : string) : bool := contains "oauth" (lower host).

(** [showroom_scaffold._oauth_exempt_app_proxy_hosts] *)
Definition oauth_exempt_app_proxy_hosts (resolved : list val) : res (list val) :=
  for_each resolved [] (λ item exempt,
    hosts <- get item "appProxyHosts" VNone;;
    hosts <- iter (v_or hosts empty_list);;
    exempt <- for_each (tail hosts) exempt (λ h exempt, if truthy h then vadd h exempt else Ok exempt);;
    for_each hosts exempt (λ h exempt,
      if truthy h then
        s <- as_str h;;
        if is_oauth_app_proxy_host s then vadd h exempt else Ok exempt
      else Ok exempt)).

(** ** Application proxies *)

(** [showroom_scaffold._app_proxy_sub_filters] *)
Definition app_proxy_sub_filters (internal_hosts : list string) : list string :=
  ["    proxy_set_header Accept-Encoding " +:+ q +:+ q +:+ ";"; "    sub_filter_once off;"; "    sub_filter_types *;"]
  ++ map (λ h, "    sub_filter " +:+ q +:+ "//" +:+ h +:+ q +:+ " " +:+ q +:+ "//tpf-$troshka_pid-"
               +:+ app_proxy_route_code h +:+ "-$troshka_ns" +:+ q +:+ ";") internal_hosts.

(** [showroom_scaffold._app_proxy_redirects] *)
Definition app_proxy_redirects (internal_hosts : list string) : list string :=
  map (λ h,
    "    proxy_redirect ~^https://" +:+ default "" (head (split "." h)) +:+ "\." +:+ re_escape (derive_apps_domain h)
    +:+ "(?<troshka_rest>.*)$ https://tpf-$troshka_pid-" +:+ app_proxy_route_code h +:+ "-$troshka_ns$troshka_rest;")
    internal_hosts.

(** [showroom_scaffold._app_proxy_proxy_lines] *)
Definition app_proxy_proxy_lines (host : string) (index : nat) (resolver_line : option string) : list string :=
  match resolver_line with
  | None => ["    proxy_pass https://" +:+ host +:+ ";"]
  | Some line =>
      let var := "troshka_up_" +:+ str_of_Z (Z.of_nat index) in
      [line; "    set $" +:+ var +:+ " " +:+ q +:+ host +:+ q +:+ ";"; "    proxy_pass https://$" +:+ var +:+ ";"]
  end.

(** [showroom_scaffold._SERVICE_STARTING_HTML] *)
Definition SERVICE_STARTING_HTML : string :=
  "<!doctype html><html><head><meta charset=" +:+ q +:+ "utf-8" +:+ q +:+ "><meta http-equiv=" +:+ q +:+ "refresh"
  +:+ q +:+ " content=" +:+ q +:+ "5" +:+ q +:+ "><title>Starting...</title></head><body style=" +:+ q
  +:+ "font-family:sans-serif;color:#333;text-align:center;padding-top:14vh" +:+ q
  +:+ "><h2>The service is still starting...</h2><p>This page will refresh automatically.</p></body></html>".

(** The host asks for no token: a companion of a tab or a host of OAuth. *)
Definition ungated (oauth_exempt_hosts : list val) (host : string) : bool :=
  vmem (VStr host) oauth_exempt_hosts || is_oauth_app_proxy_host host.

(** [showroom_scaffold._one_app_proxy_server_block] *)
Definition one_app_proxy_server_block (host : string) (index : nat) (all_codes : list string)
    (resolver_line access_token : option string) (oauth_exempt_hosts : list val) (redirects sub_filters : list string)
    : list string :=
  let code := app_proxy_route_code host in
  let gate := if ungated oauth_exempt_hosts host then [] else gate_lines access_token "    " in
  ["server {"; "  listen 80;"; "  server_name " +:+ app_proxy_server_name_regex code all_codes +:+ ";"; "  location / {"]
  ++ gate ++ app_proxy_proxy_lines host index resolver_line
  ++ ["    proxy_ssl_server_name on;"; "    proxy_ssl_name " +:+ host +:+ ";"; "    proxy_ssl_verify off;";
      "    proxy_set_header Host " +:+ host +:+ ";"; "    proxy_set_header X-Forwarded-Proto https;";
      "    proxy_http_version 1.1;"; "    proxy_set_header Upgrade $http_upgrade;";
      "    proxy_set_header Connection $connection_upgrade;"; "    proxy_read_timeout 86400;";
      "    proxy_hide_header X-Frame-Options;"; "    error_page 502 503 504 = @service_starting;"]
  ++ redirects ++ sub_filters
  ++ ["    proxy_cookie_domain ." +:+ derive_apps_domain host +:+ " $host;"; "  }"; "  location @service_starting {";
      "    default_type text/html;"; "    return 200 '" +:+ SERVICE_STARTING_HTML +:+ "';"; "  }"; "}"].

(** The texts that are not blank, stripped. *)
Definition nonblank (l : list string) : list string := filter (λ s, s ≠ "") (map strip l).

(** [showroom_scaffold.build_app_proxy_config:1022-1048] the lines for hosts as texts. *)
Definition app_proxy_lines (internal_hosts resolver_ips : list string) (access_token : option string)
    (oauth_exempt_hosts : list val) : list string :=
  let internal_hosts := nonblank internal_hosts in
  let access_token := stripped access_token in
  let resolver_line :=
    match nonblank resolver_ips with
    | [] => None
    | ips => Some ("    resolver " +:+ join " " ips +:+ " valid=10s ipv6=off;")
    end in
  let sub_filters := app_proxy_sub_filters internal_hosts in
  let redirects := app_proxy_redirects internal_hosts in
  let all_codes := map app_proxy_route_code internal_hosts in
  concat (imap (λ i host, one_app_proxy_server_block host i all_codes resolver_line access_token oauth_exempt_hosts
                            redirects sub_filters) internal_hosts).

(** [showroom_scaffold.build_app_proxy_config] *)
Definition build_app_proxy_config (internal_hosts : list val) (resolver_ips : list string)
    (access_token : option string) (oauth_exempt_hosts : list val) : res string :=
  hosts <- map_res (λ h, as_str (v_or h vstr_empty)) internal_hosts;;
  match app_proxy_lines hosts resolver_ips access_token oauth_exempt_hosts with
  | [] => Ok ""
  | lines => Ok (join nl lines +:+ nl)
  end.

(** [showroom_scaffold.build_nginx_config:833-861] up to the end of the main server. *)
Definition nginx_main_lines (access_token : option string) (locations : list string) : list string :=
  ["user root;"; "events {}"; "http {"; "  include /etc/nginx/mime.types;"; "  proxy_cache off;";
   "  map $http_upgrade $connection_upgrade {"; "    default upgrade;"; "    '' close;"; "  }"]
  ++ match access_token with Some t => nginx_token_maps t | None => [] end
  ++ ["  server {"; "    listen 80;"; "    location / {"] ++ gate_lines access_token "      "
  ++ ["      proxy_pass http://127.0.0.1:8000;"; "      proxy_set_header Host $host;";
      "      proxy_set_header X-Forwarded-For $proxy_add_x_forwarded_for;";
      "      proxy_set_header X-Forwarded-Proto $scheme;"; "    }"]
  ++ locations ++ ["  }"].

(** [showroom_scaffold.build_nginx_config] *)
Definition build_nginx_config (resolved : list val) (resolver_ips : list string) (access_token : option string)
    : res string :=
  let access_token := stripped access_token in
  locations <- nginx_tab_locations resolved access_token;;
  app_hosts <- collect_app_proxy_hosts resolved;;
  apps <- (match app_hosts with
           | [] => Ok []
           | _ =>
               exempt <- oauth_exempt_app_proxy_hosts resolved;;
               text <- build_app_proxy_config app_hosts resolver_ips access_token exempt;;
               Ok [rstrip_char (ascii_of_N 10) text]
           end);;
  Ok (join nl (nginx_main_lines access_token locations ++ apps ++ ["}"]) +:+ nl).

(** ** Containers of the pod *)

(** A container; [rest] are the fields after its mounts. *)
Definition mount_of (disk_id : string) : val :=
  {{ "diskNodeId" ::= VStr disk_id; "mountPath" ::= VStr "/showroom" }}%py.
Definition env (l : list (string * string)) : val :=
  VList (map (λ '(k, v), {{ "key" ::= VStr k; "value" ::= VStr v }}%py) l).
Definition tcp_port (port : val) : val :=
  VList [ {{ "containerPort" ::= port; "hostPort" ::= VNone; "protocol" ::= VStr "tcp" }}%py ].

(** [showroom_scaffold._oc_terminal_container] *)
Definition oc_terminal_container (item : val) (disk_id : string) : res val :=
  p <- get item "wettyPath" VNone;;
  p <- as_str (v_or p (VStr "/wetty_clusters"));;
  port <- idx item "wettyPort";;
  Ok {{ "name" ::= VStr "wetty-clusters"; "image" ::= VStr "quay.io/redhat-gpte/troshka-terminal:latest";
        "cpus" ::= VInt 1; "memory" ::= VInt 256; "envVars" ::= VList []; "ports" ::= tcp_port port;
        "command" ::= VList (map VStr ["--base=/" +:+ lstrip_char "/" p +:+ "/"; "--port=" +:+ py_str port; "--command";
                                       "/usr/local/bin/cluster-shell"]);
        "mounts" ::= VList [mount_of disk_id];
        "securityContext" ::= {{ "capabilities" ::= {{ "add" ::= VList [VStr "SETUID"; VStr "SETGID"] }} }} }}%py.

(** [showroom_scaffold._build_wetty_containers:1104-1137] the container of a terminal on a machine. *)
Definition wetty_container (item tab : val) (vms_def : val) (id_to_name : list (val * string)) : res val :=
  vm_id <- get tab "vmId" vstr_empty;;
  vm_name <- vget vm_id id_to_name;;
  let vm_name := default "vm" vm_name in
  vm_cfg <- get vms_def vm_name empty_dict;;
  u <- get tab "sshUser" VNone;;
  user <- (if truthy u then Ok u else u <- get vm_cfg "login_user" VNone;; Ok (v_or u (VStr "cloud-user")));;
  p <- get tab "sshPass" VNone;;
  pass <- (if truthy p then Ok p else p <- get vm_cfg "cloud_user_password" VNone;; Ok (v_or p vstr_empty));;
  o <- get tab "sshPort" VNone;;
  let ssh_port := v_or o (VInt 22) in
  path <- get item "wettyPath" VNone;;
  path <- as_str (v_or path (VStr ("/wetty_" +:+ slugify vm_name)));;
  port <- idx item "wettyPort";;
  host <- idx item "wettyHost";;
  Ok {{ "name" ::= VStr ("wetty-" +:+ slugify vm_name); "image" ::= VStr "quay.io/rhpds/wetty:v2.5";
        "cpus" ::= VInt 1; "memory" ::= VInt 256; "envVars" ::= VList []; "ports" ::= tcp_port port;
        "command" ::= VList (map VStr ["--base=/" +:+ lstrip_char "/" path +:+ "/"; "--port=" +:+ py_str port;
                                       "--ssh-host=" +:+ py_str host; "--ssh-port=" +:+ py_str ssh_port;
                                       "--ssh-user=" +:+ py_str user; "--ssh-auth=password";
                                       "--ssh-pass=" +:+ py_str pass]);
        "mounts" ::= VList [] }}%py.

(** [showroom_scaffold._build_wetty_containers] *)
Definition build_wetty_containers (resolved : list val) (vms_def : val) (vm_name_to_id : list (string * val))
    (disk_id : string) : res (list val) :=
  id_to_name <- invert_ids vm_name_to_id;;
  l <- map_res (λ item,
    tab <- idx item "tab";;
    oc <- get item "ocTerminal" VNone;;
    port <- get item "wettyPort" VNone;;
    if truthy oc && truthy port then c <- oc_terminal_container item disk_id;; Ok [c]
    else
      tab_type <- get tab "type" VNone;;
      host <- get item "wettyHost" VNone;;
      if negb (eq_str tab_type "terminal") || negb (truthy port) || negb (truthy host) then Ok []
      else c <- wetty_container item tab vms_def id_to_name;; Ok [c]) resolved;;
  Ok (concat l).

(** [showroom_scaffold._build_init_containers] *)
Definition build_init_containers (content_repo content_ref nginx_b64 ui_config_b64 disk_id : string) : list val :=
  let mounts := VList [mount_of disk_id] in
  let to_file var path := "echo " +:+ q +:+ "$" +:+ var +:+ q +:+ " | base64 -d > " +:+ path +:+ " && " in
  [{{ "name" ::= VStr "git-cloner"; "image" ::= VStr "quay.io/rhpds/git-cloner:v1.1.4"; "cpus" ::= VInt 1;
      "memory" ::= VInt 256;
      "envVars" ::= env [("GIT_REPO_URL", content_repo); ("GIT_REPO_REF", content_ref); ("CLONE_DIR", "/showroom/repo")];
      "ports" ::= VList []; "command" ::= VNone; "mounts" ::= mounts }}%py;
   {{ "name" ::= VStr "nginx-config"; "image" ::= VStr "docker.io/library/busybox:1.36"; "cpus" ::= VInt 1;
      "memory" ::= VInt 64; "envVars" ::= env [("NGINX_B64", nginx_b64); ("UI_CONFIG_B64", ui_config_b64)];
      "ports" ::= VList [];
      "command" ::= VStr ("mkdir -p /showroom/nginx /showroom/repo /showroom/www && chown 1001 /showroom/www && "
                          +:+ to_file "NGINX_B64" "/showroom/nginx/nginx.conf"
                          +:+ to_file "UI_CONFIG_B64" "/showroom/repo/ui-config.yml"
                          +:+ to_file "UI_CONFIG_B64" "/showroom/www/ui-config.yml"
                          +:+ "chown 1001 /showroom/www/ui-config.yml");
      "mounts" ::= mounts }}%py;
   {{ "name" ::= VStr "antora-builder"; "image" ::= VStr "quay.io/rhpds/antora:v1.2.2"; "cpus" ::= VInt 1;
      "memory" ::= VInt 512;
      "envVars" ::= env [("FILES_DIR", "/showroom/repo"); ("OUTPUT_DIR", "/showroom/www"); ("ANTORA_PLAYBOOK", "site.yml");
                         ("ZT_UI_ENABLED", "true");
                         ("ZT_BUNDLE", "https://github.com/rhpds/nookbag/releases/download/nookbag-v0.3.2/nookbag-v0.3.2.zip")];
      "ports" ::= VList []; "command" ::= VNone; "mounts" ::= mounts }}%py].

(** [showroom_scaffold._build_pod_containers] *)
Definition build_pod_containers (disk_id : string) : list val :=
  let mounts := VList [mount_of disk_id] in
  [{{ "name" ::= VStr "proxy"; "image" ::= VStr "quay.io/rhpds/nginx:1.25"; "cpus" ::= VInt 1; "memory" ::= VInt 256;
      "envVars" ::= VList []; "ports" ::= tcp_port (VInt 80);
      "command" ::= VList (map VStr ["nginx"; "-c"; "/showroom/nginx/nginx.conf"; "-g"; "daemon off;"]);
      "mounts" ::= mounts }}%py;
   {{ "name" ::= VStr "content"; "image" ::= VStr "quay.io/rhpds/showroom-content:v1.4.1"; "cpus" ::= VInt 1;
      "memory" ::= VInt 256;
      "envVars" ::= env [("ANTORA_PLAYBOOK", "site.yml");
                         ("ZT_BUNDLE", "https://github.com/rhpds/nookbag/releases/download/nookbag-v0.3.2/nookbag-v0.3.2.zip");
                         ("ZT_UI_ENABLED", "true"); ("GUID", "workshop"); ("DOMAIN", "workshop.local")];
      "ports" ::= tcp_port (VInt 8000); "mounts" ::= mounts }}%py].

(** [showroom_scaffold.regenerate_showroom_containers:1287-1302] the init and pod containers of
    tabs; [build_showroom_from_config] makes them the same way. *)
Definition showroom_containers (tabs : list val) (vms_def : val) (vm_name_to_id : list (string * val))
    (resolver_ips : list string) (access_token : option string) (content_repo content_ref disk_id : string)
    : res (val * val) :=
  resolved <- resolve_showroom_tabs tabs vms_def vm_name_to_id;;
  nginx <- build_nginx_config resolved resolver_ips access_token;;
  ui <- build_ui_config_yaml resolved;;
  wetty <- build_wetty_containers resolved vms_def vm_name_to_id disk_id;;
  Ok (VList (build_init_containers content_repo content_ref (b64encode nginx) (b64encode ui) disk_id),
      VList (build_pod_containers disk_id ++ wetty)).

(** [showroom_scaffold._showroom_disk_id] *)
Definition showroom_disk_id (showroom_node : val) : res (option string) :=
  data <- data_of showroom_node;;
  mounts <- get data "mounts" empty_list;;
  mounts <- iter mounts;;
  first_some (λ mount,
    p <- get mount "mountPath" VNone;;
    d <- get mount "diskNodeId" VNone;;
    Ok (if eq_str p "/showroom" && truthy d then Some (py_str d) else None)) mounts.

(** [showroom_scaffold.regenerate_showroom_containers] *)
Definition regenerate_showroom_containers (showroom_node vms_def : val) (vm_name_to_id : list (string * val))
    (resolver_ips : list string) (access_token : option string) : res val :=
  data <- data_of showroom_node;;
  disk_id <- showroom_disk_id showroom_node;;
  match disk_id with
  | None | Some EmptyString => Ok showroom_node
  | Some disk_id =>
      tabs <- get data "showroomTabs" VNone;;
      tabs <- iter (v_or tabs empty_list);;
      repo <- get data "contentRepo" vstr_empty;;
      ref <- get data "contentRef" (VStr "main");;
      '(init_containers, pod_containers) <-
        showroom_containers tabs vms_def vm_name_to_id resolver_ips access_token (py_str repo) (py_str ref) disk_id;;
      data <- set_item data "initContainers" init_containers;;
      data <- set_item data "podContainers" pod_containers;;
      set_item showroom_node "data" data
  end.

(** ** Overrides of a deployment *)

(** [showroom_scaffold._find_showroom_container]: a test of one node. *)
Definition is_showroom_container (node : val) : res bool :=
  has_type node "containerNode"
  <&&> (data <- data_of node;;
        (b <- get data "isShowroom" VNone;; Ok (truthy b)) <||> (n <- get data "name" VNone;; Ok (eq_str n "showroom"))).

(** [showroom_scaffold._find_showroom_container] with the place of the node. *)
Definition find_showroom_container (nodes : list val) : res (option (nat * val)) :=
  find_res (λ n, is_showroom_container n.2) (zip (seq 0 (length nodes)) nodes).

(** The elements of a list field, each changed in place. *)
Definition map_field (d : val) (k : string) (f : val → res val) : res val :=
  v <- get d k empty_list;;
  l <- iter v;;
  l' <- map_res f l;;
  has <- has_key k d;;
  match v with VList _ => if has then set_item d k (VList l') else Ok d | _ => Ok d end.

(** [showroom_scaffold._patch_git_cloner_env] *)
Definition patch_git_cloner_env (data : val) (content_repo content_ref : option string) : res val :=
  let patch ev key value :=
    k <- get ev "key" VNone;;
    match value with Some v => if eq_str k key then set_item ev "value" (VStr v) else Ok ev | None => Ok ev end in
  map_field data "initContainers" (λ ic,
    name <- get ic "name" VNone;;
    if negb (eq_str name "git-cloner") then Ok ic
    else
      map_field ic "envVars" (λ ev,
        ev <- patch ev "GIT_REPO_URL" content_repo;;
        patch ev "GIT_REPO_REF" content_ref)).

(** [showroom_scaffold._write_showroom_content_fields] on one of the two stores, under its own
    names of the fields ([_set_showroom_field]). *)
Definition write_showroom_content_fields (store : val) (repo_key ref_key build_key : string)
    (content_repo content_ref : option string) (build_content : option bool) : res val :=
  let write key (value : option val) store := match value with Some v => set_item store key v | None => Ok store end in
  store <- write repo_key (VStr <$> content_repo) store;;
  store <- write ref_key (VStr <$> content_ref) store;;
  write build_key (VBool <$> build_content) store.

(** [showroom_scaffold.apply_showroom_deploy_overrides] *)
Definition apply_showroom_deploy_overrides (topology : val) (content_repo content_ref : option string)
    (build_content : option bool) : res val :=
  match content_repo, content_ref, build_content with
  | None, None, None => Ok topology
  | _, _, _ =>
      nodes <- get topology "nodes" empty_list;;
      nodes <- iter nodes;;
      found <- find_showroom_container nodes;;
      meta <- get topology "showroom" VNone;;
      let meta := match meta with VDict d => Some d | _ => None end in
      match found, meta with
      | None, None | None, Some [] => Ok topology
      | _, _ =>
          let build_content :=
            match build_content, content_repo, content_ref with
            | None, Some _, _ | None, _, Some _ => Some true
            | _, _, _ => build_content
            end in
          topology <- (match found with
            | Some (i, node) =>
                data <- data_of node;;
                data <- write_showroom_content_fields data "contentRepo" "contentRef" "buildContent" content_repo
                          content_ref build_content;;
                data <- (match content_repo, content_ref with
                         | None, None => Ok data
                         | _, _ => patch_git_cloner_env data content_repo content_ref
                         end);;
                node <- set_item node "data" data;;
                set_item topology "nodes" (VList (<[i := node]> nodes))
            | None => Ok topology
            end);;
          match meta with
          | Some d =>
              d <- write_showroom_content_fields (VDict d) "content_repo" "content_ref" "build_content" content_repo
                     content_ref build_content;;
              set_item topology "showroom" d
          | None => Ok topology
          end
      end
  end.

(** ** Export *)

(** A field copied when it is true. *)
Definition copy_true (source target : string) (from to : val) : res val :=
  v <- get from source VNone;; if truthy v then set_item to target v else Ok to.

(** [showroom_scaffold._copy_exported_optional_fields] *)
Definition copy_exported_optional_fields (entry tab : val) : res val :=
  let copy_set source target entry :=
    v <- get tab source VNone;; match v with VNone => Ok entry | _ => set_item entry target v end in
  entry <- copy_true "sshUser" "ssh_user" tab entry;;
  entry <- copy_true "sshPass" "ssh_pass" tab entry;;
  entry <- copy_set "sshPort" "ssh_port" entry;;
  entry <- copy_true "proxyPath" "proxy_path" tab entry;;
  entry <- copy_set "proxyPort" "proxy_port" entry;;
  tls <- get tab "proxyTls" VNone;;
  entry <- (if truthy tls then set_item entry "proxy_tls" (VBool true) else Ok entry);;
  copy_true "url" "url" tab entry.

(** [showroom_scaffold._export_showroom_tab] *)
Definition export_showroom_tab (tab : val) (id_to_name net_nodes cluster_names : list (val * val)) : res val :=
  name <- get tab "name" vstr_empty;;
  type <- get tab "type" (VStr "terminal");;
  let entry := {{ "name" ::= name; "type" ::= type }}%py in
  cluster_id <- get tab "clusterId" VNone;;
  entry <- (if truthy cluster_id then
              n <- vget cluster_id cluster_names;;
              let n := default VNone n in
              if truthy n then set_item entry "cluster" n else Ok entry
            else Ok entry);;
  vm_id <- get tab "vmId" VNone;;
  entry <- (if truthy vm_id then n <- vget vm_id id_to_name;; set_item entry "vm" (default vstr_empty n) else Ok entry);;
  network <- get tab "network" VNone;;
  entry <- (if truthy network then set_item entry "network" network
            else
              net_id <- get tab "networkId" VNone;;
              if truthy net_id then
                net <- vget net_id net_nodes;;
                match net with
                | Some net =>
                    data <- data_of net;;
                    name <- get data "name" VNone;;
                    name <- (if truthy name then Ok name else get data "label" VNone);;
                    set_item entry "network" name
                | None => Ok entry
                end
              else Ok entry);;
  copy_exported_optional_fields entry tab.

(** [showroom_scaffold._resolve_exported_dns_network] *)
Definition resolve_exported_dns_network (cd topology : val) : res string :=
  d <- get cd "dnsNetwork" VNone;;
  let dns_network := strip (py_str (v_or d vstr_empty)) in
  if negb (String.eqb dns_network "") then Ok dns_network
  else
    meta <- get topology "showroom" VNone;;
    d <- get (v_or meta empty_dict) "dns_network" VNone;;
    Ok (strip (py_str (v_or d vstr_empty))).

(** [showroom_scaffold.export_showroom_section] *)
Definition export_showroom_section (topology : val) (container_nodes : list val) (id_to_name net_nodes : list (val * val))
    : res val :=
  o <- find_res (λ n, data <- data_of n;; b <- get data "isShowroom" VNone;; Ok (truthy b)) container_nodes;;
  match o with
  | None => get topology "showroom" VNone
  | Some showroom_node =>
      cd <- idx showroom_node "data";;
      repo <- get cd "contentRepo" vstr_empty;;
      ref <- get cd "contentRef" (VStr "main");;
      build <- get cd "buildContent" (VBool true);;
      let exported := {{ "enabled" ::= VBool true; "content_repo" ::= repo; "content_ref" ::= ref;
                         "build_content" ::= build }}%py in
      dns_network <- resolve_exported_dns_network cd topology;;
      exported <- (if String.eqb dns_network "" then Ok exported
                   else set_item exported "dns_network" (VStr dns_network));;
      nics <- get cd "nics" empty_list;;
      nics <- iter nics;;
      exported <- for_each nics exported (λ nic exported, copy_true "ip" "ip" nic exported);;
      mounts <- get cd "mounts" empty_list;;
      exported <- (if truthy mounts then '(e, _) <- setdefault exported "disk_gb" (VInt 5);; Ok e else Ok exported);;
      clusters <- get topology "clusters" VNone;;
      clusters <- iter (v_or clusters empty_list);;
      cluster_names <- for_each clusters [] (λ c m,
        i <- get c "id" VNone;; n <- get c "name" VNone;; vset i n m);;
      tabs <- get cd "showroomTabs" empty_list;;
      tabs <- iter tabs;;
      tabs_out <- map_res (λ tab, export_showroom_tab tab id_to_name net_nodes cluster_names) tabs;;
      match tabs_out with [] => Ok exported | _ => set_item exported "tabs" (VList tabs_out) end
  end.
