(* ===== verification/ShowroomSafe.v ===== *)
(** * What the configuration of a showroom guarantees

    A request to the public host of an application goes to the server block of that
    application; every location that forwards asks for the capability token, but for hosts of
    OAuth and companions; every terminal has its port, its location and its container. *)
From stdpp Require Import prelude strings.
From Stdlib Require Import Ascii ZArith Lia.
From S2P Require Import Prelude PyStr StrLemmas PyVal PyLemmas PyText TopoNodes Showroom.

Open Scope list_scope.

(** ** Texts *)


Lemma str_app_same_length (a b x y : string) :
  a +:+ x = b +:+ y → String.length a = String.length b → a = b ∧ x = y.
Proof.
  revert b. induction a as [|c a IH]; intros [|c' b] H Hl; cbn in *; try discriminate Hl; [done|].
  injection H as -> H. injection Hl as Hl. by destruct (IH b H Hl) as [-> ->].
Qed.



Lemma startswith_length p s : startswith p s = true → (String.length p ≤ String.length s)%nat.
Proof. intros (r & ->)%startswith_spec. rewrite str_length_app. lia. Qed.

(** ** The expression of a server name *)

(** The parts of the expression: text, eight hexadecimal digits, a refusal of what follows, the
    rest.  A refusal has its alternatives as an escaped text and a text taken as it is. *)
Inductive piece :=
| Lit (s : string)
| Hex8
| NotAhead (alternatives : list (string * string))
| Rest.


Definition is_hex (a : ascii) : bool := is_digit a || ((97 <=? N_of_ascii a) && (N_of_ascii a <=? 102))%N.

(** What the parts accept, to the end of the text. *)
Fixpoint accepts (ps : list piece) (s : string) : bool :=
  match ps with
  | [] => String.eqb s ""
  | Lit t :: ps' => startswith t s && accepts ps' (str_drop (String.length t) s)
  | Hex8 :: ps' =>
      (8 <=? String.length s)%nat && str_forallb is_hex (str_take 8 s) && accepts ps' (str_drop 8 s)
  | NotAhead l :: ps' => negb (existsb (λ a, startswith (a.1 +:+ a.2) s) l) && accepts ps' s
  | Rest :: ps' => negb (String.eqb s "") && match ps' with [] => true | _ => false end
  end.

(** The alternatives of the refusal as the expression groups them: the last dash belongs to the
    last alternative alone. *)
Fixpoint last_dashed (l : list string) : list (string * string) :=
  match l with
  | [] => []
  | [e] => [(e, "-")]
  | e :: l' => (e, "") :: last_dashed l'
  end.

(** The parts of the expression of a code. *)
Definition server_name_pieces (code : string) (all_codes : list string) : list piece :=
  [Lit "tpf-"; Hex8; Lit ("-" +:+ code +:+ "-")]
  ++ match code_extensions code all_codes with [] => [] | l => [NotAhead (last_dashed l)] end ++ [Rest].




(** ** Requests for the public host of an application *)

Lemma str_snoc s : s ≠ "" → ∃ t c, s = t +:+ String c "".
Proof.
  induction s as [|a s IH]; [done|]. intros _. destruct (decide (s = "")) as [->|Hne]; [by exists "", a|].
  destruct (IH Hne) as (t & c & ->). by exists (String a t), c.
Qed.












(** Names of clusters are cut at sixteen characters: two clusters may share a route and a
    server name. *)
Example codes_collide :
  app_proxy_route_code "console-openshift-console.apps.production-east-1.lab.local"
  = app_proxy_route_code "console-openshift-console.apps.production-east-2.lab.local".
Proof. vm_compute. reflexivity. Qed.

(** The dash after the alternatives belongs to the last one: with clusters [ocp], [ocp-t] and
    [ocp-x], a namespace that begins with [t] is refused by the block of [ocp] itself. *)
Example own_host_refused :
  let host c := "console-openshift-console.apps." +:+ c +:+ ".lab.local" in
  let codes := map app_proxy_route_code (map host ["ocp"; "ocp-t"; "ocp-x"]) in
  app_proxy_server_name_regex "con-ocp" codes
  = q +:+ "~^tpf-(?<troshka_pid>[0-9a-f]{8})-con-ocp-(?!t|x-)(?<troshka_ns>.+)$" +:+ q ∧
  accepts (server_name_pieces "con-ocp" codes)
    (app_proxy_public_host "0123abcd" (host "ocp") "apps.example.com" "troshka-0123abcd") = false.
Proof. vm_compute. by split. Qed.

(** ** Every location that forwards asks for the token *)












(** ** The whole configuration *)


Lemma lstrip_char_ne c a s : a ≠ c → lstrip_char c (String a s) = String a s.
Proof. intros H. cbn. by rewrite decide_False. Qed.











Lemma Ok_inj {A} (a b : A) : Ok a = Ok b → a = b.
Proof. by intros [=]. Qed.






(** ** Terminals *)

Definition no_slash : ascii → bool := λ a, negb (bool_decide (a = "/"%char)).

Lemma lstrip_char_forallb f c s : str_forallb f s = true → str_forallb f (lstrip_char c s) = true.
Proof. induction s as [|a s IH]; [done|]. cbn [str_forallb lstrip_char]. intros [Ha Hs]%andb_prop. case_decide; [by apply IH|]. cbn. by rewrite Ha. Qed.

Lemma slugify_no_slash s : str_forallb no_slash (slugify s) = true.
Proof.
  assert (Hsub : ∀ b t, str_forallb no_slash (sub_runs is_lower_alnum "_" b t) = true).
  { intros b t. revert b. induction t as [|a t IH]; intros b; [done|]. cbn [sub_runs].
    destruct (is_lower_alnum a) eqn:E; [|by destruct b; cbn [str_forallb]; rewrite ?IH]. cbn [str_forallb]. rewrite IH.
    unfold no_slash. destruct (decide (a = "/"%char)) as [->|Hne]; [done|]. by rewrite bool_decide_eq_false_2. }
  unfold slugify. destruct (String.eqb _ ""); [done|]. unfold strip_char, rstrip_char.
  rewrite forallb_rev. apply lstrip_char_forallb. rewrite forallb_rev. by apply lstrip_char_forallb.
Qed.

(** Where a terminal is: a slash and a name without one. *)
Lemma terminal_path w : str_forallb no_slash w = true → w ≠ "" →
  rstrip_char "/" ("/" +:+ w) = "/" +:+ w ∧ lstrip_char "/" ("/" +:+ w) = w.
Proof.
  intros Hw Hne. split.
  - destruct (str_snoc w Hne) as (t & c & ->). rewrite str_forallb_app in Hw. apply andb_prop in Hw as [_ Hc].
    cbn [str_forallb] in Hc. rewrite andb_true_r in Hc. unfold no_slash in Hc. unfold rstrip_char. rewrite str_app_assoc, rev_string_app.
    change (String.rev (String c "")) with (String c ""). cbn [String.append lstrip_char].
    rewrite decide_False; [by rewrite rev_cons, rev_involutive|]. intros ->. by rewrite bool_decide_eq_true_2 in Hc.
  - cbn [String.append lstrip_char]. rewrite decide_True by done. destruct w as [|a w]; [done|].
    cbn [str_forallb] in Hw. apply andb_prop in Hw as [Ha _]. apply lstrip_char_ne. intros ->.
    unfold no_slash in Ha. by rewrite bool_decide_eq_true_2 in Ha.
Qed.

(** A resolved terminal: its path and its port. *)
Definition terminal_at (item : val) (path : string) (port : Z) : Prop :=
  ∃ tab tab_type, idx item "tab" = Ok tab ∧ get tab "type" VNone = Ok tab_type ∧ eq_str tab_type "terminal" = true ∧
    idx item "wettyPath" = Ok (VStr path) ∧ idx item "wettyPort" = Ok (VInt port) ∧
    (∃ w, path = "/" +:+ w ∧ str_forallb no_slash w = true ∧ w ≠ "") ∧
    get item "proxyPath" VNone = Ok VNone ∧ get item "proxyTarget" VNone = Ok VNone ∧
    (get item "ocTerminal" VNone = Ok (VBool true) ∨
     get item "ocTerminal" VNone = Ok VNone ∧ ∃ ip, idx item "wettyHost" = Ok (VStr ip) ∧ ip ≠ "").

Definition no_terminal (item : val) : Prop :=
  get item "wettyPort" VNone = Ok VNone ∧ get item "ocTerminal" VNone = Ok VNone.

Lemma vm_proxy_no_terminal tab name ip item : resolve_vm_proxy_tab tab name ip = Ok item → no_terminal item.
Proof.
  unfold resolve_vm_proxy_tab. intros H. apply bind_Ok in H as (? & _ & H). apply bind_Ok in H as ([? ?] & _ & H).
  apply Ok_inj in H as <-. done.
Qed.

Lemma vm_tab_cases tab ty vms name net port item port' :
  get tab "type" VNone = Ok ty → resolve_vm_tab tab ty vms name net port = Ok (item, port') →
  (port' = port ∧ no_terminal item) ∨ (port' = port + 1 ∧ ∃ path, terminal_at item path port).
Proof.
  intros Hty. unfold resolve_vm_tab. intros H. apply bind_Ok in H as (ip & _ & H).
  destruct (String.eqb ip "") eqn:Eip; [left; by injection H as <- <-|].
  destruct (eq_str ty "terminal") eqn:Et.
  - right. apply Ok_inj in H. injection H as <- <-. split; [done|]. exists ("/wetty_" +:+ slugify name), tab, ty.
    repeat (split; [done|]). split; [|split; [done|split; [done|]]].
    + exists ("wetty_" +:+ slugify name). split; [done|]. split; [|done]. rewrite str_forallb_app. by rewrite slugify_no_slash.
    + right. split; [done|]. exists ip. split; [done|]. by apply String.eqb_neq.
  - left. apply bind_Ok in H as (it & Hit & H). injection H as <- <-. split; [done|]. by eapply vm_proxy_no_terminal.
Qed.

Lemma resolve_one_cases tab m vms port item port' :
  resolve_one_showroom_tab tab m vms port = Ok (item, port') →
  (port' = port ∧ no_terminal item) ∨ (port' = port + 1 ∧ ∃ path, terminal_at item path port).
Proof.
  unfold resolve_one_showroom_tab. intros H. apply bind_Ok in H as (ty & Hty & H).
  destruct (eq_str ty "external"); [left; by injection H as <- <-|]. apply bind_Ok in H as (hosts & _ & H).
  destruct (eq_str ty "proxy" && truthy hosts); [apply bind_Ok in H as (? & _ & H); left; by injection H as <- <-|].
  apply bind_Ok in H as (host & _ & H). destruct (eq_str ty "proxy" && truthy host).
  { apply bind_Ok in H as (it & Hit & H). injection H as <- <-. left. split; [done|].
    unfold resolve_name_based_proxy in Hit. do 2 (apply bind_Ok in Hit as (? & _ & Hit)).
    apply bind_Ok in Hit as ([? ?] & _ & Hit). by apply Ok_inj in Hit as <-. }
  apply bind_Ok in H as (target & _ & H). destruct (eq_str ty "terminal" && eq_str target "clusters") eqn:E.
  { right. apply andb_prop in E as [E _]. apply Ok_inj in H. injection H as <- <-. split; [done|].
    exists "/wetty_clusters", tab, ty. repeat (split; [done|]). split; [by exists "wetty_clusters"|]. by repeat (split || left). }
  do 2 (apply bind_Ok in H as (? & _ & H)). apply bind_Ok in H as (known & _ & H).
  destruct known; cbn [negb] in H; [|left; by injection H as <- <-]. apply bind_Ok in H as (net & _ & H).
  destruct (truthy net); cbn [negb] in H; [|left; by injection H as <- <-]. by eapply vm_tab_cases.
Qed.

(** The container [c] listens on [port] under a path, the location of [item] is that path and forwards
    to that port, and its entry in the interface is that path behind nginx, on 443. *)
Definition serves (token : option string) (item : val) (port : Z) (c : val) : Prop :=
  ∃ path options body name,
    get c "command" VNone = Ok (VList (VStr ("--base=" +:+ path +:+ "/") :: VStr ("--port=" +:+ str_of_Z port) :: options)) ∧
    get c "ports" VNone = Ok (tcp_port (VInt port)) ∧
    nginx_tab_location token item
    = Ok (["    location ^~ " +:+ path +:+ " {"] ++ gate_lines token "      "
          ++ ("      proxy_pass http://127.0.0.1:" +:+ str_of_Z port +:+ path +:+ ";") :: body) ∧
    ui_tab_lines item = Ok [name; "    path: " +:+ path; "    port: 443"].

Lemma get_of_idx d k v dflt : idx d k = Ok v → get d k dflt = Ok v.
Proof. destruct d as [| | | | |kvs]; try done. cbn. by destruct (assoc k kvs); intros [=->]. Qed.

(** The container made of one resolved tab, if any. *)
Definition terminal_container (vms_def : val) (id_to_name : list (val * string)) (disk_id : string) (item : val)
    : res (list val) :=
  tab <- idx item "tab";;
  oc <- get item "ocTerminal" VNone;;
  port <- get item "wettyPort" VNone;;
  if truthy oc && truthy port then c <- oc_terminal_container item disk_id;; Ok [c]
  else
    tab_type <- get tab "type" VNone;;
    host <- get item "wettyHost" VNone;;
    if negb (eq_str tab_type "terminal") || negb (truthy port) || negb (truthy host) then Ok []
    else c <- wetty_container item tab vms_def id_to_name;; Ok [c].

Lemma no_terminal_container vms m disk item l :
  no_terminal item → terminal_container vms m disk item = Ok l → l = [].
Proof.
  intros [Hp Ho]. unfold terminal_container. rewrite Hp, Ho. intros H. apply bind_Ok in H as (tab & _ & H).
  cbn [bind truthy andb] in H. apply bind_Ok in H as (ty & _ & H). apply bind_Ok in H as (h & _ & H).
  rewrite orb_true_r in H. by injection H as <-.
Qed.

Lemma terminal_served token item path port vms m disk l :
  terminal_at item path port → 0 < port → terminal_container vms m disk item = Ok l →
  ∃ c, l = [c] ∧ serves token item port c.
Proof.
  intros (tab & ty & Htab & Hty & Het & Hpath & Hport & (w & -> & Hw & Hne) & Hpp & Hpt & Hkind) Hpos H.
  destruct (terminal_path w Hw Hne) as [Hr Hl]. destruct (tab) as [| | | | |kvs] eqn:Etab; try done.
  assert (Htp : truthy (VInt port) = true) by (apply negb_true_iff, Z.eqb_neq; lia).
  assert (Hwl : ∃ body, nginx_wetty_location item token
    = Ok (["    location ^~ " +:+ ("/" +:+ w) +:+ " {"] ++ gate_lines token "      "
          ++ ("      proxy_pass http://127.0.0.1:" +:+ str_of_Z port +:+ ("/" +:+ w) +:+ ";") :: body)).
  { unfold nginx_wetty_location. rewrite Hpath. cbn [bind as_str]. rewrite Hr, Hport. cbn [bind]. by eexists. }
  destruct Hwl as [body Hwl].
  assert (Hloc : nginx_tab_location token item = nginx_wetty_location item token).
  { unfold nginx_tab_location. rewrite Htab. cbn [bind]. rewrite Hty. cbn [bind].
    rewrite (get_of_idx _ _ _ _ Hpath). cbn [bind]. rewrite (get_of_idx _ _ _ _ Hport). cbn [bind].
    rewrite Het, Htp, Hpp, Hpt, Hwl.
    assert (Htw : truthy (VStr ("/" +:+ w)) = true) by done. rewrite Htw. cbn [bind truthy andb].
    rewrite andb_false_r. cbn [bind]. by rewrite app_nil_r. }
  rewrite Hwl in Hloc.
  assert (Hui : ∃ name, ui_tab_lines item = Ok [name; "    path: " +:+ ("/" +:+ w); "    port: 443"]).
  { unfold ui_tab_lines. rewrite Htab. cbn [bind]. rewrite Hty. cbn [bind get].
    assert (Hext : eq_str ty "external" = false).
    { destruct ty; try done. cbn in *. apply String.eqb_eq in Het as ->. done. }
    rewrite Hext, (get_of_idx _ _ _ _ Hpath). cbn [bind]. rewrite Het. cbn [bind truthy negb andb String.eqb]. by eexists. }
  destruct Hui as [name Hui].
  unfold terminal_container in H. rewrite Htab in H. cbn [bind] in H. rewrite (get_of_idx _ _ _ _ Hport) in H.
  destruct Hkind as [Hoc|(Hoc & ip & Hip & Hipne)].
  - rewrite Hoc in H. cbn [bind] in H. rewrite Htp in H. cbn [truthy andb] in H.
    apply bind_Ok in H as (c & Hc & H). injection H as <-. exists c. split; [done|].
    unfold oc_terminal_container in Hc. rewrite (get_of_idx _ _ _ _ Hpath) in Hc. cbn [bind v_or truthy as_str negb String.eqb] in Hc.
    rewrite Hport in Hc. cbn [bind] in Hc. apply Ok_inj in Hc. subst c.
    eexists ("/" +:+ w), _, body, name. split; [|split; [reflexivity|split; [exact Hloc|exact Hui]]].
    cbn [get assoc]. rewrite Hl. reflexivity.
  - rewrite Hoc in H. cbn [bind] in H. rewrite Htp in H. cbn [truthy andb] in H. rewrite Hty in H. cbn [bind] in H.
    rewrite (get_of_idx _ _ _ _ Hip) in H. cbn [bind] in H. 
    assert (Hti : truthy (VStr ip) = true) by (by destruct ip). rewrite Het, Hti in H. cbn [negb orb] in H.
    apply bind_Ok in H as (c & Hc & H). injection H as <-. exists c. split; [done|].
    unfold wetty_container in Hc. do 8 (apply bind_Ok in Hc as (? & _ & Hc)).
    rewrite (get_of_idx _ _ _ _ Hpath) in Hc. cbn [bind] in Hc. apply bind_Ok in Hc as (path & Hp & Hc).
    change (Ok ("/" +:+ w) = Ok path) in Hp. apply Ok_inj in Hp. subst path.
    rewrite Hport in Hc. cbn [bind] in Hc. apply bind_Ok in Hc as (? & _ & Hc). apply Ok_inj in Hc. subst c.
    eexists ("/" +:+ w), _, body, name. split; [|split; [reflexivity|split; [exact Hloc|exact Hui]]].
    cbn [get assoc]. rewrite Hl. reflexivity.
Qed.

Lemma terminals_from token tabs m m' vms disk port resolved l :
  resolve_tabs_from tabs m vms port = Ok resolved → map_res (terminal_container vms m' disk) resolved = Ok l → 0 < port →
  ∃ items, items `sublist_of` resolved ∧ (∀ item, item ∈ resolved → item ∈ items ∨ no_terminal item) ∧
    length items = length (concat l) ∧
    ∀ i item c, items !! i = Some item → concat l !! i = Some c → serves token item (port + Z.of_nat i) c.
Proof.
  revert port resolved l. induction tabs as [|tab tabs IH]; intros port resolved l H Hl Hp; cbn [resolve_tabs_from] in H.
  { injection H as <-. injection Hl as <-. exists []. split; [done|]. split; [by intros ? ?%elem_of_nil|]. by split. }
  apply bind_Ok in H as ([item port'] & H1 & H). apply bind_Ok in H as (items & H2 & H). injection H as <-.
  cbn [map_res] in Hl. apply bind_Ok in Hl as (x & Hx & Hl). apply bind_Ok in Hl as (l' & Hl' & Hl). injection Hl as <-.
  apply resolve_one_cases in H1 as [[-> Hno]|(-> & path & Hat)].
  - destruct (IH _ _ _ H2 Hl' Hp) as (its & Hsub & Hcov & Hlen & Hs). apply no_terminal_container in Hx as ->; [|done].
    exists its. split; [by constructor|]. split; [|done]. intros it [->|Hit]%elem_of_cons; [by right|by apply Hcov].
  - destruct (IH _ _ _ H2 Hl' ltac:(lia)) as (its & Hsub & Hcov & Hlen & Hs).
    destruct (terminal_served token _ _ _ _ _ _ _ Hat Hp Hx) as (c & -> & Hc).
    exists (item :: its). split; [by constructor|]. split; [|split].
    + intros it [->|Hit]%elem_of_cons; [left; by left|]. destruct (Hcov it Hit); [left; by right|by right].
    + cbn. by rewrite Hlen.
    + intros [|i] it c' Hi Hc'; cbn in Hi, Hc'.
      * injection Hi as <-. injection Hc' as <-. by rewrite Z.add_0_r.
      * replace (port + Z.of_nat (S i)) with (port + 1 + Z.of_nat i) by lia. by apply Hs.
Qed.

(** C12: each terminal of a showroom is wired: the resolved tabs that have a port of their own and the
    containers made for them correspond one to one, in order; the n-th container listens on port
    8001 + n under a path, the nginx location of its tab is that path, asks for the token and forwards
    to that port, and the interface opens that path through nginx, on 443.  This is said of each
    terminal apart: two of them may have one path, and their locations then clash
    ([location_twice]). *)
Theorem terminals_served token tabs vms_def vm_name_to_id disk_id resolved containers :
  resolve_showroom_tabs tabs vms_def vm_name_to_id = Ok resolved →
  build_wetty_containers resolved vms_def vm_name_to_id disk_id = Ok containers →
  ∃ items, items `sublist_of` resolved ∧ (∀ item, item ∈ resolved → item ∈ items ∨ no_terminal item) ∧
    length items = length containers ∧
    ∀ i item c, items !! i = Some item → containers !! i = Some c → serves token item (8001 + Z.of_nat i) c.
Proof.
  unfold resolve_showroom_tabs, build_wetty_containers. intros H Hc.
  apply bind_Ok in H as (m & Hm & H). rewrite Hm in Hc. cbn [bind] in Hc. apply bind_Ok in Hc as (l & Hl & Hc).
  injection Hc as <-. by eapply terminals_from.
Qed.

Definition sample_vms : val :=
  {{ "node" ::= {{ "nics" ::= VList [ {{ "network" ::= VStr "lab"; "ip" ::= VStr "10.0.0.5" }} ] }} }}%py.
Definition sample_tabs : list val :=
  [ {{ "type" ::= VStr "external"; "url" ::= VStr "https://example.com" }}%py;
    {{ "type" ::= VStr "terminal"; "vmId" ::= VStr "v1"; "network" ::= VStr "lab" }}%py;
    {{ "type" ::= VStr "terminal"; "target" ::= VStr "clusters" }}%py ].
Definition from_ok {A} (d : A) (r : res A) : A := match r with Ok x => x | Raise _ => d end.
Definition sample_items : list val := from_ok [] (resolve_showroom_tabs sample_tabs sample_vms [("node", VStr "v1")]).
Definition sample_containers : list val :=
  from_ok [] (build_wetty_containers sample_items sample_vms [("node", VStr "v1")] "d1").

Lemma terminals_served_witness :
  length sample_containers = 2%nat ∧
  ∃ items, items `sublist_of` sample_items ∧ (∀ item, item ∈ sample_items → item ∈ items ∨ no_terminal item) ∧
    length items = length sample_containers ∧
    ∀ i item c, items !! i = Some item → sample_containers !! i = Some c →
      serves (Some "t") item (8001 + Z.of_nat i) c.
Proof.
  split; [reflexivity|].
  apply (terminals_served (Some "t") sample_tabs sample_vms [("node", VStr "v1")] "d1" sample_items sample_containers);
    vm_compute; reflexivity.
Defined.

(** Two terminals of one machine, or of machines whose names differ in signs only, get one
    location, which nginx refuses. *)
Example location_twice :
  let tab := {{ "type" ::= VStr "terminal"; "vmId" ::= VStr "v1"; "network" ::= VStr "lab" }}%py in
  (λ items, map (λ i, get i "wettyPath" VNone) items) <$>
    (match resolve_showroom_tabs [tab; tab] sample_vms [("node", VStr "v1")] with Ok l => Some l | _ => None end)
  = Some [Ok (VStr "/wetty_node"); Ok (VStr "/wetty_node")].
Proof. vm_compute. reflexivity. Qed.
