(* ===== verification/ClusterMembers.v ===== *)
(** * Cluster members on the canvas

    The part of [services/template_loader.py] that normalises the VM nodes of OpenShift
    clusters and publishes the clusters' API on a gateway, with the replica counts of
    [services/ocp/agent_template.py] it relies on. *)
From stdpp Require Import prelude strings pretty.
From Stdlib Require Import Ascii.
From S2P Require Import Prelude PyStr PyVal PyLemmas TopoNodes.

Open Scope list_scope.

(** [k in h]. *)
Definition in_val (k h : val) : res bool :=
  match h with
  | VStr s => substr_in k s
  | VList l => Ok (vmem k l)
  | VDict kvs => k <- hkey k;; Ok (existsb (λ p, py_eq (VStr p.1) k) kvs)
  | _ => Raise TypeError
  end.

(** [a > 0]. *)
Definition positive (a : val) : res bool := z <- num a;; Ok (0 <? z).

(** ** How OpenShift is installed *)

(** [template_loader._normalize_install_via] *)
Definition normalize_install_via (value : val) : string :=
  let v := lower (strip (py_str (v_or value vstr_empty))) in
  if existsb (String.eqb v) ["bastion"; "pod"] then v else "pod".

(** [template_loader.resolve_install_via], after the configured default. *)
Definition resolve_install_via (config_default : string) (source : val) (dflt : option val) : res string :=
  let dflt := default (VStr config_default) dflt in
  raw <- get source "install_via" VNone;;
  Ok (normalize_install_via (match raw with VNone => dflt | _ => raw end)).

(** [template_loader.ocp_install_via] *)
Definition ocp_install_via (config_default : string) (topology : val) : res string :=
  raw <- get (v_or topology empty_dict) "ocpInstallVia" VNone;;
  Ok (match raw with VNone => config_default | _ => normalize_install_via raw end).

(** ** Roles and counts *)

(** [agent_template._node_role:1944-1954] and [_member_current_role], on the node's data. *)
Definition data_role (data : val) : res val :=
  role <- get data "clusterRole" VNone;;
  if in_strs role ["control-plane"; "worker"] then Ok role
  else
    tags <- get data "tags" empty_dict;;
    group <- get tags "AnsibleGroup" VNone;;
    Ok (match group with
        | VStr s =>
            if contains "controllers" s then VStr "control-plane"
            else if contains "workers" s then VStr "worker" else VNone
        | _ => VNone
        end).

(** [agent_template._node_role] *)
Definition node_role (node : val) : res val := data <- data_of node;; data_role data.

(** [agent_template.cluster_member_nodes] *)
Definition cluster_member_nodes (topology cluster_id : val) : res (list val) :=
  ns <- nodes_of topology;;
  filter_res (λ n, has_type n "vmNode" <&&>
    (data <- data_of n;; c <- get data "clusterId" VNone;; Ok (py_eq c cluster_id))) ns.

(** [agent_template._count_ocp_nodes_by_group] *)
Definition count_ocp_nodes_by_group (topology : val) (role : string) (cluster_id : val) : res Z :=
  ns <- (match cluster_id with
         | VNone => ns <- nodes_of topology;; filter_res (λ n, has_type n "vmNode") ns
         | _ => cluster_member_nodes topology cluster_id
         end);;
  for_each ns 0 (λ n count, r <- node_role n;; Ok (if eq_str r role then count + 1 else count)).

(** [agent_template._cluster_replicas] *)
Definition cluster_replicas (cluster topology : val) : res (val * val) :=
  cluster_id <- get cluster "id" VNone;;
  cp <- get cluster "controlPlane" VNone;;
  cp <- (match cp with
         | VNone => n <- count_ocp_nodes_by_group topology "control-plane" cluster_id;; Ok (VInt n)
         | _ => Ok cp end);;
  workers <- get cluster "workers" VNone;;
  workers <- (match workers with
              | VNone => n <- count_ocp_nodes_by_group topology "worker" cluster_id;; Ok (VInt n)
              | _ => Ok workers end);;
  Ok (cp, workers).

(** [agent_template._cluster_install_workers] *)
Definition cluster_install_workers (cluster topology : val) : res val :=
  explicit <- get cluster "installWorkers" VNone;;
  match explicit with
  | VNone =>
      '(cp, workers) <- cluster_replicas cluster topology;;
      type <- get cluster "type" VNone;;
      deferred <- Ok (eq_str type "sno") <&&> Ok (py_eq cp (VInt 1)) <&&> positive workers;;
      Ok (if deferred then VInt 0 else workers)
  | _ => z <- py_int explicit;; Ok (VInt z)
  end.

(** [agent_template.member_defers_ocp_install] *)
Definition member_defers_ocp_install (cluster node topology : val) : res bool :=
  role <- node_role node;;
  if negb (eq_str role "worker") then Ok false
  else
    _ <- cluster_replicas cluster topology;;
    install_workers <- cluster_install_workers cluster topology;;
    '(_, canvas_workers) <- cluster_replicas cluster topology;;
    Ok (py_eq install_workers (VInt 0)) <&&> positive canvas_workers.

(** ** Normalising a member *)

(** [template_loader._normalize_member_install_fields] *)
Definition MEMBER_DEFAULTS : list (string * val) :=
  [("os", VStr "rhcos"); ("firmware", VStr "uefi"); ("secureBoot", VBool false);
   ("powerOnAtDeploy", VBool true); ("bootMethod", VStr "disk"); ("bmcEnabled", VBool true)].

(** [template_loader._normalize_member_install_fields] *)
Definition normalize_member_install_fields (data : val) : res val :=
  for_each MEMBER_DEFAULTS data (λ kv data, '(data, _) <- setdefault data kv.1 kv.2;; Ok data).

(** [template_loader._normalize_member_role] *)
Definition normalize_member_role (data : val) : res val :=
  current <- data_role data;;
  let role := v_or current (VStr "worker") in
  data <- set_item data "clusterRole" role;;
  let group := if eq_str role "control-plane" then "controllers" else "workers" in
  tags <- get data "tags" VNone;;
  let tags := match tags with VDict _ => tags | _ => empty_dict end in
  have <- get tags "AnsibleGroup" VNone;;
  present <- in_val (VStr group) (v_or have vstr_empty);;
  tags <- (if present then Ok tags else set_item tags "AnsibleGroup" (VStr group));;
  set_item data "tags" tags.

(** [template_loader._edge_matches_controller_storage:791-793] one direction. *)
Definition edge_end_matches (e vm_id dc_id : val) (storage_ids : list val) (near handle far : string)
    : res (option val) :=
  t <- get e near VNone;;
  hit <- Ok (py_eq t vm_id) <&&> (h <- get e handle vstr_empty;; in_val dc_id h);;
  if hit then
    s <- get e far VNone;; b <- vin s storage_ids;; Ok (if b then Some s else None)
  else Ok None.

(** [template_loader._edge_matches_controller_storage] *)
Definition edge_matches_controller_storage (e vm_id dc_id : val) (storage_ids : list val) : res (option val) :=
  o <- edge_end_matches e vm_id dc_id storage_ids "target" "targetHandle" "source";;
  match o with
  | Some _ => Ok o
  | None => edge_end_matches e vm_id dc_id storage_ids "source" "sourceHandle" "target"
  end.

(** [template_loader._storage_node_for_controller] *)
Definition storage_node_for_controller (vm_id dc_id topology : val) : res val :=
  if negb (truthy dc_id) then Ok vstr_empty
  else
    ns <- nodes_of topology;;
    storage_ids <- for_each ns [] (λ n ids,
      t <- has_type n "storageNode";; if t then i <- idx n "id";; vadd i ids else Ok ids);;
    es <- edges_of topology;;
    found <- first_some (λ e,
      o <- edge_matches_controller_storage e vm_id dc_id storage_ids;;
      Ok (match o with Some s => if truthy s then Some s else None | None => None end)) es;;
    Ok (default vstr_empty found).

(** The test [str(dc.get("name", "")).startswith("cdrom")]. *)
Definition is_cdrom (dc : val) : res bool :=
  name <- get dc "name" vstr_empty;; Ok (startswith "cdrom" (py_str name)).

(** [template_loader._member_boot_devices] *)
Definition member_boot_devices (vm_node topology : val) : res (list val) :=
  data <- data_of vm_node;;
  dcs <- get data "diskControllers" VNone;;
  dcs <- iter (v_or dcs empty_list);;
  disk_dcs <- filter_res (λ dc, c <- is_cdrom dc;; Ok (negb c)) dcs;;
  match disk_dcs with
  | [] => Ok []
  | dc :: _ =>
      vm_id <- get vm_node "id" vstr_empty;;
      dc_id <- get dc "id" vstr_empty;;
      storage_id <- storage_node_for_controller vm_id dc_id topology;;
      Ok (if truthy storage_id then [storage_id] else [])
  end.

(** [template_loader._cdrom_controller], with the identifier drawn. *)
Definition cdrom_controller (fresh_id : string) : val :=
  VDict [("id", VStr ("dp-" +:+ fresh_id)); ("name", VStr "cdrom0"); ("bus", VStr "sata")].

(** [template_loader._normalize_member_disks] *)
Definition normalize_member_disks (fresh_id : string) (vm_node topology : val) : res val :=
  data <- idx vm_node "data";;
  dcs <- get data "diskControllers" VNone;;
  data <- (if negb (truthy dcs) then set_item data "diskControllers" (VList [cdrom_controller fresh_id])
           else
             l <- iter dcs;;
             b <- any_res is_cdrom l;;
             if b then Ok data
             else set_item data "diskControllers" (VList (l ++ [cdrom_controller fresh_id])));;
  vm_node <- set_item vm_node "data" data;;
  b <- has_key "bootDevices" data;;
  if b then Ok vm_node
  else
    boot <- member_boot_devices vm_node topology;;
    data <- set_item data "bootDevices" (VList boot);;
    set_item vm_node "data" data.

(** [template_loader.normalize_cluster_member_fields:875-877] *)
Definition clusters_by_id_of (topology : val) : res (list (val * val)) :=
  cs <- get topology "clusters" VNone;;
  cs <- iter (v_or cs empty_list);;
  for_each cs [] (λ c m,
    i <- get c "id" VNone;; if truthy i then i <- idx c "id";; vset i c m else Ok m).

(** [template_loader.normalize_cluster_member_fields:884-893] a member: the node before the
    decision to defer is already part of the canvas the counts are taken on. *)
Definition normalize_member (fresh_id : string) (clusters_by_id : list (val * val)) (node : val)
    (put : val → val) (topology : val) : res val :=
  data <- idx node "data";;
  data <- normalize_member_install_fields data;;
  data <- normalize_member_role data;;
  node <- set_item node "data" data;;
  node <- normalize_member_disks fresh_id node topology;;
  data <- idx node "data";;
  cid <- get data "clusterId" VNone;;
  o <- vget cid clusters_by_id;;
  match o with
  | Some cluster =>
      defers <- Ok (truthy cluster) <&&> member_defers_ocp_install cluster node (put node);;
      if negb defers then Ok node
      else
        d <- get data "deferOcpInstall" VNone;;
        if bool_decide (d = VBool false) then Ok node
        else
          data <- set_item data "deferOcpInstall" (VBool true);;
          data <- set_item data "powerOnAtDeploy" (VBool false);;
          set_item node "data" data
  | None => Ok node
  end.

(** [template_loader.normalize_cluster_member_fields:878-883] the test of a node. *)
Definition is_member (node : val) : res bool :=
  vm <- has_type node "vmNode";;
  if negb vm then Ok false
  else
    data <- get node "data" VNone;;
    match data with VDict _ => c <- get data "clusterId" VNone;; Ok (truthy c) | _ => Ok false end.

(** [template_loader.normalize_cluster_member_fields]; the identifiers drawn are numbered by the
    position of their node. *)
Definition normalize_cluster_member_fields (fresh_id : nat → string) (topology : val) : res val :=
  clusters_by_id <- clusters_by_id_of topology;;
  ns <- nodes_of topology;;
  for_each (seq 0 (length ns)) topology (λ i topology,
    ns <- nodes_of topology;;
    let node := default VNone (ns !! i) in
    member <- is_member node;;
    if negb member then Ok topology
    else
      let put node := update_list topology "nodes" (<[i := node]> ns) in
      node <- normalize_member (fresh_id i) clusters_by_id node put topology;;
      Ok (put node)).

(** ** The API of the clusters *)

(** [template_loader._cluster_api_ext_port] *)
Definition cluster_api_ext_port (index : nat) : Z := 6443 + Z.of_nat index.

(** [template_loader._cluster_api_vip] *)
Definition cluster_api_vip (cluster : val) : res string :=
  a <- get cluster "api_vip" VNone;;
  v <- (if truthy a then Ok a else b <- get cluster "apiVip" VNone;; Ok (v_or b vstr_empty));;
  Ok (strip (py_str v)).

(** The text of a field: [str(pf.get(k) or "")]. *)
Definition field_text (pf : val) (k : string) : res string :=
  v <- get pf k VNone;; Ok (py_str (v_or v vstr_empty)).

(** [template_loader._has_api_forward_for_vip] *)
Definition has_api_forward_for_vip (port_forwards : list val) (api_vip : string) : res bool :=
  any_res (λ pf,
    ip <- field_text pf "intIp";;
    if negb (String.eqb ip api_vip) then Ok false
    else port <- field_text pf "intPort";; Ok (String.eqb (strip port) "6443")) port_forwards.

(** [template_loader._allocate_api_ext_port]: a used port costs one turn, so one turn more than
    there are used ports is enough. *)
Fixpoint allocate_api_ext_port (fuel : nat) (port : Z) (used_ext : list string) : string :=
  match fuel with
  | O => str_of_Z port
  | S fuel' =>
      if existsb (String.eqb (str_of_Z port)) used_ext
      then allocate_api_ext_port fuel' (port + 1) used_ext
      else str_of_Z port
  end.

(** [template_loader.ensure_ocp_api_port_forwards:1412-1420] *)
Definition api_forward (eip_id ext_port api_vip : string) : val :=
  VDict [("extIpId", VStr eip_id); ("extPort", VStr ext_port); ("intIp", VStr api_vip);
         ("intPort", VStr "6443"); ("proto", VStr "tcp")].

(** [template_loader.ensure_ocp_api_port_forwards:1406-1420] *)
Fixpoint ensure_api_forwards (index : nat) (clusters : list val) (eip_id : string)
    (port_forwards : list val) (used_ext : list string) : res (list val) :=
  match clusters with
  | [] => Ok port_forwards
  | c :: clusters' =>
      api_vip <- cluster_api_vip c;;
      skip <- Ok (String.eqb api_vip "") <||> has_api_forward_for_vip port_forwards api_vip;;
      if skip then ensure_api_forwards (S index) clusters' eip_id port_forwards used_ext
      else
        let ext_port := allocate_api_ext_port (S (length used_ext)) (cluster_api_ext_port index) used_ext in
        ensure_api_forwards (S index) clusters' eip_id
          (port_forwards ++ [api_forward eip_id ext_port api_vip]) (ext_port :: used_ext)
  end.

(** [template_loader.ensure_ocp_api_port_forwards] *)
Definition ensure_ocp_api_port_forwards (port_forwards : list val) (eip_id : string) (clusters : list val)
    : res (list val) :=
  match clusters with
  | [] => Ok port_forwards
  | _ =>
      used_ext <- map_res (λ pf, field_text pf "extPort") port_forwards;;
      ensure_api_forwards 0 clusters eip_id port_forwards used_ext
  end.

(** ** Every cluster's API is published once *)

Definition is_object (v : val) : Prop := ∃ kvs, v = VDict kvs.

Definition pf_text (pf : val) (k : string) : string := match field_text pf k with Ok s => s | _ => "" end.
Definition vip_of (c : val) : string := match cluster_api_vip c with Ok s => s | _ => "" end.

(** A forward leads to the API of an address. *)
Definition leads_to (vip : string) (pf : val) : Prop :=
  pf_text pf "intIp" = vip ∧ strip (pf_text pf "intPort") = "6443".
Definition published (pfs : list val) (vip : string) : Prop := Exists (leads_to vip) pfs.

#[export] Instance leads_to_dec vip pf : Decision (leads_to vip pf).
Proof. unfold leads_to. apply _. Defined.

Lemma field_text_object pf k : is_object pf → field_text pf k = Ok (pf_text pf k).
Proof. intros [kvs ->]. done. Qed.

Lemma cluster_api_vip_object c : is_object c → cluster_api_vip c = Ok (vip_of c).
Proof. intros [kvs ->]. unfold vip_of, cluster_api_vip. cbn. by destruct (truthy _). Qed.

Lemma has_api_forward_ok pfs vip :
  Forall is_object pfs → has_api_forward_for_vip pfs vip = Ok (bool_decide (published pfs vip)).
Proof.
  unfold has_api_forward_for_vip, published. induction 1 as [|pf pfs Hpf Hall IH]; [done|].
  cbn [any_res]. rewrite (field_text_object pf "intIp"), (field_text_object pf "intPort") by done. cbn [bind].
  destruct (String.eqb_spec (pf_text pf "intIp") vip) as [Heq|Hne]; cbn [negb bind].
  - rewrite IH. destruct (String.eqb_spec (strip (pf_text pf "intPort")) "6443") as [Hp|Hp].
    + rewrite bool_decide_true; [done|]. left. done.
    + f_equal. apply bool_decide_ext. rewrite Exists_cons. unfold leads_to at 2. tauto.
  - rewrite IH. f_equal. apply bool_decide_ext. rewrite Exists_cons. unfold leads_to at 2. tauto.
Qed.

Lemma allocate_taken fuel port used :
  allocate_api_ext_port fuel port used ∈ used →
  ∀ i, (i ≤ fuel)%nat → str_of_Z (port + Z.of_nat i) ∈ used.
Proof.
  revert port. induction fuel as [|fuel IH]; intros port; cbn [allocate_api_ext_port].
  { intros H i Hi. by replace (port + Z.of_nat i) with port by lia. }
  destruct (existsb _ used) eqn:E.
  - apply existsb_exists in E as (x & Hx & <-%String.eqb_eq). apply list_elem_of_In in Hx.
    intros H [|i] Hi; [by rewrite Z.add_0_r|].
    replace (port + Z.of_nat (S i)) with (port + 1 + Z.of_nat i) by lia. apply IH; [done|lia].
  - intros H. exfalso. apply list_elem_of_In in H. apply not_true_iff_false in E. apply E.
    apply existsb_exists. eexists. split; [done|apply String.eqb_refl].
Qed.

(** One turn more than there are used ports finds a free one. *)
Lemma allocate_fresh port used : allocate_api_ext_port (S (length used)) port used ∉ used.
Proof.
  intros H. pose proof (allocate_taken _ _ _ H) as Hall.
  pose (ports := (λ i, str_of_Z (port + Z.of_nat i)) <$> seq 0 (S (length used))).
  assert (Hlen : (length ports ≤ length used)%nat).
  { apply submseteq_length, NoDup_submseteq.
    - apply NoDup_fmap_2; [|apply NoDup_seq].
      intros i j Heq. apply (inj pretty) in Heq. lia.
    - intros x (i & -> & Hi%elem_of_seq)%list_elem_of_fmap. apply Hall. lia. }
  subst ports. rewrite length_fmap, length_seq in Hlen. lia.
Qed.

(** What is added to the forwards, given the addresses that wait for one. *)
Inductive additions (eip : string) (pfs : list val) (used : list string) : list val → list val → Prop :=
| add_none : additions eip pfs used [] []
| add_skip c cs news :
    (vip_of c = "" ∨ published pfs (vip_of c)) →
    additions eip pfs used cs news → additions eip pfs used (c :: cs) news
| add_one c cs port news :
    vip_of c ≠ "" → ¬ published pfs (vip_of c) → port ∉ used →
    additions eip (pfs ++ [api_forward eip port (vip_of c)]) (port :: used) cs news →
    additions eip pfs used (c :: cs) (api_forward eip port (vip_of c) :: news).

Lemma ensure_api_forwards_additions index cs eip pfs used :
  Forall is_object cs → Forall is_object pfs →
  ∃ news, ensure_api_forwards index cs eip pfs used = Ok (pfs ++ news) ∧ additions eip pfs used cs news.
Proof.
  intros Hcs. revert index pfs used. induction Hcs as [|c cs Hc Hcs IH]; intros index pfs used Hpfs;
    cbn [ensure_api_forwards].
  { exists []. rewrite app_nil_r. split; [done|constructor]. }
  rewrite (cluster_api_vip_object _ Hc). cbn [bind]. rewrite has_api_forward_ok by done.
  rewrite py_or_Ok. cbn [bind].
  destruct (String.eqb_spec (vip_of c) "") as [He|He]; cbn [orb].
  { destruct (IH (S index) pfs used Hpfs) as (news & -> & H). exists news.
    split; [done|]. apply add_skip; auto. }
  case_bool_decide as Hp.
  { destruct (IH (S index) pfs used Hpfs) as (news & -> & H). exists news.
    split; [done|]. apply add_skip; auto. }
  set (port := allocate_api_ext_port _ _ _).
  assert (Hfresh : port ∉ used) by apply allocate_fresh.
  destruct (IH (S index) (pfs ++ [api_forward eip port (vip_of c)]) (port :: used)) as (news & -> & H).
  { apply Forall_app; split; [done|]. apply Forall_singleton. by eexists. }
  exists (api_forward eip port (vip_of c) :: news). rewrite <-app_assoc. split; [done|].
  by apply add_one.
Qed.

Lemma int_ip_api_forward eip port vip : pf_text (api_forward eip port vip) "intIp" = vip.
Proof. unfold pf_text. cbn. by destruct vip. Qed.

Lemma leads_to_api_forward eip port vip vip' : leads_to vip' (api_forward eip port vip) ↔ vip' = vip.
Proof.
  unfold leads_to. rewrite int_ip_api_forward. split; [by intros [-> _]|intros ->; done].
Qed.

Definition ext_ports (pfs : list val) : list string := map (λ pf, pf_text pf "extPort") pfs.

Lemma ext_port_api_forward eip port vip : pf_text (api_forward eip port vip) "extPort" = port.
Proof. unfold pf_text. cbn. by destruct port. Qed.

Lemma published_app pfs news vip : published (pfs ++ news) vip ↔ published pfs vip ∨ published news vip.
Proof. apply Exists_app. Qed.

Lemma additions_spec eip pfs used cs news :
  additions eip pfs used cs news →
  (∀ c, c ∈ cs → vip_of c ≠ "" → published (pfs ++ news) (vip_of c)) ∧
  NoDup (ext_ports news) ∧ (∀ p, p ∈ ext_ports news → p ∉ used) ∧
  NoDup (map (λ pf, pf_text pf "intIp") news) ∧
  ∀ pf, pf ∈ news → ∃ c port, c ∈ cs ∧ vip_of c ≠ "" ∧ ¬ published pfs (vip_of c) ∧
    pf = api_forward eip port (vip_of c).
Proof.
  induction 1 as [pfs used|pfs used c cs news Hc _ IH|pfs used c cs port news Hv Hn0 Hp Hadd IH].
  - split_and!; try constructor; intros ?; by intros ?%elem_of_nil.
  - destruct IH as (H1 & H2 & H3 & H4 & H5). split_and!; try done.
    + intros c' [->|Hc']%elem_of_cons Hv; [|by apply H1].
      destruct Hc as [?|?]; [done|]. apply published_app. by left.
    + intros pf Hpf. destruct (H5 pf Hpf) as (c' & port & ? & ?). exists c', port. split; [by right|done].
  - destruct IH as (H1 & H2 & H3 & H4 & H5). split_and!.
    + intros c' [->|Hc']%elem_of_cons Hv'.
      * apply published_app. right. left. by apply leads_to_api_forward.
      * rewrite cons_middle, app_assoc. by apply H1.
    + unfold ext_ports. cbn [map]. rewrite ext_port_api_forward. constructor; [|done]. intros Hin%H3. apply Hin. by left.
    + unfold ext_ports. cbn [map]. rewrite ext_port_api_forward. intros p [->|Hin%H3]%elem_of_cons; [done|].
      intros Hu. apply Hin. by right.
    + cbn [map]. constructor; [|done]. intros (pf & Heq & Hin)%list_elem_of_fmap.
      destruct (H5 _ Hin) as (c' & port' & Hc' & Hv' & Hn & ->). apply Hn, published_app. right. left.
      apply leads_to_api_forward. by rewrite !int_ip_api_forward in Heq.
    + intros pf [->|Hin]%elem_of_cons.
      * exists c, port. split_and!; [by left|done..].
      * destruct (H5 _ Hin) as (c' & port' & Hc' & Hv' & Hn & ->). exists c', port'.
        split_and!; [by right|done| |done]. intros Hp'. apply Hn, published_app. by left.
Qed.

Lemma ensure_published_id index cs eip pfs used :
  Forall is_object cs → Forall is_object pfs →
  (∀ c, c ∈ cs → vip_of c ≠ "" → published pfs (vip_of c)) →
  ensure_api_forwards index cs eip pfs used = Ok pfs.
Proof.
  intros Hcs Hpfs. revert index used. induction Hcs as [|c cs Hc Hcs IH]; intros index used Hpub;
    cbn [ensure_api_forwards]; [done|].
  rewrite (cluster_api_vip_object _ Hc). cbn [bind]. rewrite has_api_forward_ok, py_or_Ok by done. cbn [bind].
  assert (Hskip : String.eqb (vip_of c) "" || bool_decide (published pfs (vip_of c)) = true).
  { destruct (String.eqb_spec (vip_of c) "") as [|He]; [done|]. apply bool_decide_eq_true, Hpub; [by left|done]. }
  rewrite Hskip. apply IH. intros c' Hc'. apply Hpub. by right.
Qed.

Lemma ensure_api_forwards_unfold pfs eip cs :
  Forall is_object pfs →
  ensure_ocp_api_port_forwards pfs eip cs =
  match cs with [] => Ok pfs | _ => ensure_api_forwards 0 cs eip pfs (ext_ports pfs) end.
Proof.
  intros Hpfs. destruct cs as [|c cs]; [done|]. unfold ensure_ocp_api_port_forwards.
  enough (map_res (λ pf, field_text pf "extPort") pfs = Ok (ext_ports pfs)) as -> by done.
  induction Hpfs as [|pf pfs Hpf _ IH]; [done|]. cbn [map_res]. rewrite (field_text_object pf) by done.
  cbn [bind]. by rewrite IH.
Qed.

(** C31: The gateway publishes the API of every cluster that has an address: the forwards it had are
    kept, a cluster without one gets exactly one, on a listen port nothing else uses, and a second
    pass adds nothing. *)
Theorem api_published_once pfs eip cs :
  Forall is_object cs → Forall is_object pfs →
  ∃ news, ensure_ocp_api_port_forwards pfs eip cs = Ok (pfs ++ news) ∧
    (∀ c, c ∈ cs → vip_of c ≠ "" → published (pfs ++ news) (vip_of c)) ∧
    NoDup (ext_ports news) ∧ (∀ p, p ∈ ext_ports news → p ∉ ext_ports pfs) ∧
    NoDup (map (λ pf, pf_text pf "intIp") news) ∧
    (∀ pf, pf ∈ news → ∃ c port, c ∈ cs ∧ vip_of c ≠ "" ∧ ¬ published pfs (vip_of c) ∧
       pf = api_forward eip port (vip_of c)) ∧
    ensure_ocp_api_port_forwards (pfs ++ news) eip cs = Ok (pfs ++ news).
Proof.
  intros Hcs Hpfs. rewrite ensure_api_forwards_unfold by done.
  assert (H : ∃ news, match cs with [] => Ok pfs | _ => ensure_api_forwards 0 cs eip pfs (ext_ports pfs) end =
    Ok (pfs ++ news) ∧ additions eip pfs (ext_ports pfs) cs news).
  { destruct cs as [|c cs]; [exists []; rewrite app_nil_r; split; [done|constructor]|].
    by apply ensure_api_forwards_additions. }
  destruct H as (news & Heq & Hadd). exists news.
  destruct (additions_spec _ _ _ _ _ Hadd) as (H1 & H2 & H3 & H4 & H5). split_and!; try done.
  assert (Hnew : Forall is_object (pfs ++ news)).
  { apply Forall_app; split; [done|]. apply Forall_forall. intros pf Hpf.
    destruct (H5 pf Hpf) as (c & port & _ & _ & _ & ->). by eexists. }
  rewrite ensure_api_forwards_unfold by done. destruct cs; [done|]. by apply ensure_published_id.
Qed.

Definition api_sample_clusters : list val :=
  [VDict [("id", VStr "hub"); ("apiVip", VStr "10.0.0.5")];
   VDict [("id", VStr "edge"); ("apiVip", VStr " 10.0.1.5 ")];
   VDict [("id", VStr "bare")]].
Definition api_sample_forwards : list val :=
  [VDict [("extPort", VStr "6444"); ("intIp", VStr "10.0.9.9"); ("intPort", VStr "443")]].

Example api_sample :
  ensure_ocp_api_port_forwards api_sample_forwards "eip" api_sample_clusters =
  Ok (api_sample_forwards ++
      [api_forward "eip" "6443" "10.0.0.5"; api_forward "eip" "6445" "10.0.1.5"]).
Proof. vm_compute. reflexivity. Qed.

Lemma api_published_once_witness :
  ∃ news, ensure_ocp_api_port_forwards api_sample_forwards "eip" api_sample_clusters =
    Ok (api_sample_forwards ++ news) ∧ NoDup (ext_ports news).
Proof.
  destruct (api_published_once api_sample_forwards "eip" api_sample_clusters) as (news & H1 & _ & H2 & _).
  - repeat constructor; by eexists.
  - repeat constructor; by eexists.
  - by exists news.
Defined.
