(* ===== verification/AgentClient.v ===== *)
(** * The agent client: [services/troshkad_client.py]

    Requests to a host agent with their retries, and the two waiting loops of a job: starting
    it on an agent that drains, polling it until it ends.  The network is an oracle: how long an
    exchange takes and what comes back may depend on every request made before.  Time is in
    milliseconds and advances by the exchanges and the sleeps. *)
From stdpp Require Import prelude strings.
From S2P Require Import Prelude PyStr PyVal PyLemmas TopoNodes.

Open Scope list_scope.

(** ** Errors and the network *)

(** [troshkad_client.TroshkadError] *)
Record terr := mkTerr { te_msg : string; te_status : option Z; te_response : option val }.

(** A value, a [TroshkadError], or another Python exception. *)
Inductive tres (A : Type) := TOk (a : A) | TErr (e : terr) | TExc (e : exn).
Arguments TOk {_} _.
Arguments TErr {_} _.
Arguments TExc {_} _.

Record request := mkRequest {
  rq_host : string;
  rq_method : string;
  rq_path : string;
  rq_body : option val;
  rq_timeout : Z
}.

(** What an exchange brings: a response with its status, its text and what [json.loads] makes of
    the text (a value, or the message of its [ValueError]); a certificate error; a timeout or
    exhausted retries of the pool; any other exception, with their messages. *)
Inductive exchange :=
| XResponse (status : Z) (text : string) (json : val + string)
| XSslError (msg : string)
| XUnreachable (msg : string)
| XOther (msg : string).

Record net := mkNet { n_now : Z; n_log : list request }.

Definition agentM (A : Type) : Type := net → net * tres A.
Definition tret {A} (a : A) : agentM A := λ s, (s, TOk a).
Definition traise {A} (e : terr) : agentM A := λ s, (s, TErr e).
Definition tlift {A} (r : res A) : agentM A :=
  λ s, (s, match r with Ok a => TOk a | Raise e => TExc e end).
Definition tbind {A B} (m : agentM A) (f : A → agentM B) : agentM B :=
  λ s, let '(s, r) := m s in
       match r with TOk a => f a s | TErr e => (s, TErr e) | TExc e => (s, TExc e) end.
(** [try: m] with [except TroshkadError as e: h e] and [else: f]. *)
Definition ttry {A B} (m : agentM A) (h : terr → agentM B) (f : A → agentM B) : agentM B :=
  λ s, let '(s, r) := m s in
       match r with TOk a => f a s | TErr e => h e s | TExc e => (s, TExc e) end.
Declare Scope agent_scope.
Notation "x <~ m ;; k" := (tbind m (λ x, k)) (at level 100, m at next level, right associativity) : agent_scope.
Open Scope agent_scope.

Definition clock : agentM Z := λ s, (s, TOk (n_now s)).
Definition sleep (ms : Z) : agentM unit := λ s, (mkNet (n_now s + ms) (n_log s), TOk tt).

(** The columns of a host the client reads. *)
Record ahost := mkAhost {
  a_ip : string;
  a_agent_status : option string;
  a_fingerprint : option string
}.

(** [troshkad_client.DEFAULT_TIMEOUT:21-21] *)
Definition DEFAULT_TIMEOUT : Z := 30.
(** [troshkad_client._DRAIN_RETRY_INTERVAL:23-23] in milliseconds. *)
Definition DRAIN_RETRY_INTERVAL : Z := 5000.
(** [troshkad_client._DRAIN_RETRY_TIMEOUT:24-26] in milliseconds. *)
Definition DRAIN_RETRY_TIMEOUT : Z := 330000.

Definition error (msg : string) : terr := mkTerr msg None None.

Section Client.
Context (network : list request → request → Z * exchange).

(** One exchange: it is on record, takes its time, and brings its outcome. *)
Definition urlopen (rq : request) : agentM exchange :=
  λ s, let '(ms, x) := network (n_log s) rq in (mkNet (n_now s + ms) (n_log s ++ [rq]), TOk x).

(** [troshkad_client._execute_single_request] *)
Definition execute_single_request (rq : request) : agentM val :=
  x <~ urlopen rq;;
  match x with
  | XResponse status text json =>
      if 400 <=? status then
        let body := match json with inl v => v | inr _ => VDict [("error", VStr text)] end in
        traise (mkTerr ("troshkad " +:+ rq_host rq +:+ " returned " +:+ str_of_Z status +:+ ": " +:+ py_str body)
                  (Some status) (Some body))
      else
        match json with
        | inl v => tret v
        | inr msg => traise (error ("troshkad request failed: " +:+ msg))
        end
  | XSslError msg => traise (error ("Certificate verification failed for " +:+ rq_host rq +:+ ": " +:+ msg))
  | XUnreachable msg => traise (error ("Cannot connect to troshkad on " +:+ rq_host rq +:+ ": " +:+ msg))
  | XOther msg => traise (error ("troshkad request failed: " +:+ msg))
  end.

(** [troshkad_client._is_retryable_error] *)
Definition is_retryable_error (e : terr) : bool :=
  bool_decide (te_status e = Some 503) || contains "Cannot connect" (te_msg e).

(** [troshkad_client._get_pool:46-51]: the pool needs a fingerprint to pin. *)
Definition get_pool (h : ahost) : agentM unit :=
  match a_fingerprint h with
  | Some (String _ _) => tret tt
  | _ => traise (error ("No cert fingerprint stored for host " +:+ a_ip h +:+ " -- cannot verify identity. " +:+
                        "Re-install the agent to generate credentials."))
  end.

(** [troshkad_client.troshkad_request:159-178] the attempts that remain. *)
Fixpoint attempts (retries : Z) (left : nat) (rq : request) : agentM val :=
  match left with
  | O => traise (error ("troshkad request failed after " +:+ str_of_Z retries +:+ " retries"))
  | S left' =>
      ttry (execute_single_request rq)
        (λ e, if is_retryable_error e && (0 <? left')%nat
              then _ <~ sleep 5000;; attempts retries left' rq
              else traise e)
        tret
  end.

(** [troshkad_client.troshkad_request] *)
Definition troshkad_request (h : ahost) (method path : string) (body : option val) (timeout : Z)
    (retries : nat) (allow_disconnected : bool) : agentM val :=
  if negb allow_disconnected && bool_decide (a_agent_status h = Some "disconnected")
  then traise (error ("Host " +:+ a_ip h +:+ " is disconnected — skipping request"))
  else
    _ <~ get_pool h;;
    attempts (Z.of_nat retries) retries (mkRequest (a_ip h) method path body timeout).

(** [troshkad_client._is_drain_retryable] *)
Definition is_drain_retryable (e : terr) : bool :=
  bool_decide (te_status e = Some 503) || contains "Cannot connect" (te_msg e) ||
  contains "timed out" (te_msg e) || contains "is disconnected" (te_msg e).

(** [troshkad_client._get_drain_retry_reason] *)
Definition get_drain_retry_reason (e : terr) : res string :=
  if negb (default 0 (te_status e) =? 0) then
    match te_response e with
    | Some r =>
        if truthy r then
          v <- get r "status" VNone;;
          Ok (if eq_str v "draining" then "draining" else "busy (job queue full)")
        else Ok "busy (job queue full)"
    | None => Ok "busy (job queue full)"
    end
  else Ok "unreachable".

Definition OUT_OF_FUEL : exn := RuntimeError "out of fuel".

(** [troshkad_client.start_job:346-373] the loop. *)
Fixpoint drain_loop (fuel : nat) (h : ahost) (path : string) (params : val) (request_timeout deadline : Z)
    : agentM val :=
  match fuel with
  | O => tlift (Raise OUT_OF_FUEL)
  | S fuel' =>
      ttry (troshkad_request h "POST" ("/commands" +:+ path) (Some params) request_timeout 3 true)
        (λ e, if negb (is_drain_retryable e) then traise e
              else
                now <~ clock;;
                if deadline <=? now then traise e
                else
                  _ <~ tlift (get_drain_retry_reason e);;
                  _ <~ sleep DRAIN_RETRY_INTERVAL;;
                  drain_loop fuel' h path params request_timeout deadline)
        (λ result, tlift (idx result "job_id"))
  end.

(** [troshkad_client.start_job]; a turn that goes on sleeps one interval, so the timeout is over
    after as many turns as it holds intervals. *)
Definition start_job (h : ahost) (path : string) (params : val) (request_timeout : Z) : agentM val :=
  now <~ clock;;
  drain_loop (Z.to_nat (DRAIN_RETRY_TIMEOUT / DRAIN_RETRY_INTERVAL) + 1) h path params request_timeout
    (now + DRAIN_RETRY_TIMEOUT).

(** [troshkad_client.poll_job] *)
Definition poll_job (h : ahost) (job_id : val) : agentM val :=
  troshkad_request h "GET" ("/jobs/" +:+ py_str job_id) None 15 3 true.

(** [troshkad_client.wait_for_job:403-403] *)
Definition max_consecutive_failures : Z := 12.
(** [troshkad_client.wait_for_job:405-405] in milliseconds. *)
Definition fast_delays : list Z := [100; 300; 500; 1000].

(** [job.get("output", \[\])\[k:\]]: only text and lists have slices. *)
Definition output_lines (job : val) : res unit :=
  out <- get job "output" empty_list;;
  match out with VList _ | VStr _ => Ok tt | _ => Raise TypeError end.

(** [troshkad_client.wait_for_job:416-421] *)
Definition lost_job (job_id : val) : val :=
  VDict [("job_id", job_id); ("status", VStr "failed"); ("output", empty_list);
         ("result", VDict [("error", VStr "Job lost — agent may have restarted")])].

(** [troshkad_client.wait_for_job:407-451] the loop. *)
Fixpoint wait_loop (fuel : nat) (h : ahost) (job_id : val) (timeout poll_interval deadline : Z)
    (failures : Z) (poll_count : nat) : agentM val :=
  match fuel with
  | O => tlift (Raise OUT_OF_FUEL)
  | S fuel' =>
      now <~ clock;;
      if negb (now <? deadline)
      then traise (error ("Job " +:+ py_str job_id +:+ " timed out after " +:+ str_of_Z (timeout / 1000) +:+
                          "s on " +:+ a_ip h))
      else
        ttry (poll_job h job_id)
          (λ e, if bool_decide (te_status e = Some 404) then
                  _ <~ tlift (slice8 job_id);; tret (lost_job job_id)
                else if max_consecutive_failures <=? failures + 1 then traise e
                else
                  _ <~ tlift (slice8 job_id);;
                  _ <~ sleep poll_interval;;
                  wait_loop fuel' h job_id timeout poll_interval deadline (failures + 1) poll_count)
          (λ job,
             _ <~ tlift (output_lines job);;
             status <~ tlift (idx job "status");;
             if in_strs status ["completed"; "failed"] then tret job
             else
               _ <~ sleep (default poll_interval (fast_delays !! poll_count));;
               wait_loop fuel' h job_id timeout poll_interval deadline 0 (S poll_count))
  end.

(** [troshkad_client.wait_for_job]; past the fast polls a turn that goes on sleeps one interval. *)
Definition wait_for_job (h : ahost) (job_id : val) (timeout poll_interval : Z) : agentM val :=
  now <~ clock;;
  wait_loop (Z.to_nat (timeout / poll_interval) + length fast_delays + 2) h job_id timeout poll_interval
    (now + timeout) 0 0.

(** [try: m except TroshkadError: return v]. *)
Definition or_else {A} (m : agentM A) (v : A) : agentM A := ttry m (λ _, tret v) tret.

(** [troshkad_client.check_health] *)
Definition check_health (h : ahost) : agentM val :=
  or_else (troshkad_request h "GET" "/health" None 10 1 true) VNone.

(** [troshkad_client.get_vm_state]: the state and the boot devices. *)
Definition get_vm_state (h : ahost) (domain_name : string) (timeout : Z) : agentM (val * val) :=
  or_else
    (result <~ troshkad_request h "POST" "/commands/vms/state" (Some (VDict [("domain_name", VStr domain_name)])) 5 1 false;;
     job_id <~ tlift (idx result "job_id");;
     job <~ wait_for_job h job_id timeout 2000;;
     status <~ tlift (idx job "status");;
     if eq_str status "completed" then
       result <~ tlift (idx job "result");;
       state <~ tlift (get result "state" (VStr "unknown"));;
       boot_devs <~ tlift (get result "boot_devs" empty_list);;
       tret (state, boot_devs)
     else tret (VStr "unknown", empty_list))
    (VStr "not_found", empty_list).

(** The result of a completed query job, [None] on anything else. *)
Definition query_job (h : ahost) (path domain_name : string) (timeout : Z) : agentM val :=
  or_else
    (job_id <~ start_job h path (VDict [("domain_name", VStr domain_name)]) DEFAULT_TIMEOUT;;
     job <~ wait_for_job h job_id timeout 2000;;
     status <~ tlift (idx job "status");;
     if eq_str status "completed" then tlift (idx job "result") else tret VNone)
    VNone.

(** [troshkad_client.get_vm_console_info] *)
Definition get_vm_console_info (h : ahost) (domain_name : string) (timeout : Z) : agentM val :=
  query_job h "/vms/vnc-port" domain_name timeout.

(** [troshkad_client.get_vm_config] *)
Definition get_vm_config (h : ahost) (domain_name : string) (timeout : Z) : agentM val :=
  query_job h "/vms/config" domain_name timeout.

(** [troshkad_client.get_vnc_port] *)
Definition get_vnc_port (h : ahost) (domain_name : string) (timeout : Z) : agentM val :=
  info <~ get_vm_console_info h domain_name timeout;;
  if truthy info then tlift (get info "vnc_port" VNone) else tret VNone.

(** [troshkad_client.reconfigure_vm] *)
Definition reconfigure_vm (h : ahost) (domain_name : string) (timeout : Z) (kwargs : list (string * val))
    : agentM val :=
  let params := foldl (λ d p, assoc_set p.1 p.2 d) [("domain_name", VStr domain_name)] kwargs in
  job_id <~ start_job h "/vms/reconfigure" (VDict params) DEFAULT_TIMEOUT;;
  job <~ wait_for_job h job_id timeout 2000;;
  status <~ tlift (idx job "status");;
  result <~ tlift (idx job "result");;
  if eq_str status "failed" then
    msg <~ tlift (get result "error" VNone);;
    traise (error ("Reconfigure failed: " +:+ py_str msg))
  else tret result.

(** [troshkad_client.undefine_vm] *)
Definition undefine_vm (h : ahost) (domain_name : string) (remove_storage : bool) (timeout : Z) : agentM bool :=
  job_id <~ start_job h "/vms/undefine"
              (VDict [("domain_name", VStr domain_name); ("remove_storage", VBool remove_storage)]) DEFAULT_TIMEOUT;;
  job <~ wait_for_job h job_id timeout 2000;;
  status <~ tlift (idx job "status");;
  tret (eq_str status "completed").

(** [troshkad_client._find_primary_partition] *)
Definition find_primary_partition (partitions : list val) : res val :=
  o <- find_res (λ p, m <- get p "mount" VNone;; Ok (eq_str m "/var/lib/troshka")) partitions;;
  match o with
  | Some p => Ok p
  | None =>
      o <- find_res (λ p, m <- get p "mount" VNone;; Ok (eq_str m "/")) partitions;;
      Ok (match o with Some p => p | None => default empty_dict (head partitions) end)
  end.

(** [troshkad_client.check_disk_usage:638-648] the attempts that remain. *)
Fixpoint disk_usage_attempts (left : nat) (h : ahost) (timeout : Z) : agentM val :=
  match left with
  | O => tret VNone
  | S left' =>
      ttry (troshkad_request h "GET" "/host/disk-usage" None timeout 3 false)
        (λ e, match left' with
              | O => traise e
              | S _ => _ <~ sleep 2000;; disk_usage_attempts left' h timeout
              end)
        (λ result,
           has <~ tlift (has_key "partitions" result);;
           if negb has then tret result
           else
             partitions <~ tlift (idx result "partitions");;
             ps <~ tlift (iter partitions);;
             primary <~ tlift (find_primary_partition ps);;
             primary <~ tlift (items primary);;
             tret (VDict (assoc_set "partitions" partitions primary)))
  end.

(** [troshkad_client.check_disk_usage] *)
Definition check_disk_usage (h : ahost) (timeout : Z) (retries : nat) : agentM val :=
  disk_usage_attempts retries h timeout.
End Client.

(** ** Retries of a request *)

Section ClientFacts.
Context (network : list request → request → Z * exchange).

(** The outcome of an exchange after the requests of [log], and how long it takes. *)
Definition answer (log : list request) (rq : request) : tres val :=
  (execute_single_request network rq (mkNet 0 log)).2.
Definition latency (log : list request) (rq : request) : Z := (network log rq).1.

Definition retryable (r : tres val) : Prop := ∃ e, r = TErr e ∧ is_retryable_error e = true.

Lemma execute_eq rq s :
  execute_single_request network rq s =
    (mkNet (n_now s + latency (n_log s) rq) (n_log s ++ [rq]), answer (n_log s) rq).
Proof.
  unfold answer, execute_single_request, tbind, urlopen, latency. destruct s as [now log]. cbn [n_log n_now].
  destruct (network log rq) as [ms x]. cbn [fst snd].
  destruct x as [status text json|msg|msg|msg]; try done.
  destruct (400 <=? status); [by destruct json|]. by destruct json.
Qed.

Lemma answer_cases log rq : (∃ v, answer log rq = TOk v) ∨ ∃ e, answer log rq = TErr e.
Proof.
  unfold answer, execute_single_request, tbind, urlopen. cbn [n_log n_now].
  destruct (network log rq) as [ms [status text json|msg|msg|msg]]; cbn; try (right; by eexists).
  destruct (400 <=? status); [right; by eexists|]. destruct json; [left|right]; by eexists.
Qed.

(** The log when [i] copies of a request follow it. *)
Definition again (log : list request) (rq : request) (i : nat) : list request := log ++ replicate i rq.

Lemma again_S log rq i : again (log ++ [rq]) rq i = again log rq (S i).
Proof. unfold again. cbn. by rewrite <-app_assoc. Qed.

Definition exchanges_time (log : list request) (rq : request) (n : nat) : Z :=
  zsum (map (λ i, latency (again log rq i) rq) (seq 0 n)).

Lemma exchanges_time_S log rq n :
  exchanges_time log rq (S n) = latency log rq + exchanges_time (log ++ [rq]) rq n.
Proof.
  unfold exchanges_time. rewrite <-cons_seq, <-fmap_S_seq. cbn [map].
  change (zsum (?x :: ?l)) with (x + zsum l). f_equal; [unfold again; cbn; by rewrite app_nil_r|].
  f_equal. rewrite map_map. apply map_ext. intros i. by rewrite again_S.
Qed.

Lemma exchanges_time_1 log rq : exchanges_time log rq 1 = latency log rq.
Proof. rewrite exchanges_time_S. apply Z.add_0_r. Qed.

Lemma attempts_S retries left rq :
  attempts network retries (S left) rq =
    ttry (execute_single_request network rq)
      (λ e, if is_retryable_error e && (0 <? left)%nat
            then _ <~ sleep 5000;; attempts network retries left rq
            else traise e)
      tret.
Proof. done. Qed.

Lemma attempts_exact retries k rq s :
  ∃ j, (j ≤ k)%nat ∧
    (∀ i, (i < j)%nat → retryable (answer (again (n_log s) rq i) rq)) ∧
    (j = k ∨ ¬ retryable (answer (again (n_log s) rq j) rq)) ∧
    attempts network retries (S k) rq s =
      (mkNet (n_now s + 5000 * Z.of_nat j + exchanges_time (n_log s) rq (S j)) (again (n_log s) rq (S j)),
       answer (again (n_log s) rq j) rq).
Proof.
  revert s. induction k as [|k IH]; intros s; rewrite attempts_S; unfold ttry; rewrite execute_eq.
  - exists 0%nat. split_and!; [done|lia|by left|].
    rewrite exchanges_time_1. unfold again. cbn. rewrite !app_nil_r, Z.add_0_r.
    destruct (answer_cases (n_log s) rq) as [[v ->]|[e ->]]; cbn; by rewrite ?andb_false_r.
  - assert (Hstop : ∀ r, r = answer (n_log s) rq → ¬ retryable r →
      ∃ j, (j ≤ S k)%nat ∧ (∀ i, (i < j)%nat → retryable (answer (again (n_log s) rq i) rq)) ∧
        (j = S k ∨ ¬ retryable (answer (again (n_log s) rq j) rq)) ∧
        (mkNet (n_now s + latency (n_log s) rq) (n_log s ++ [rq]), r) =
          (mkNet (n_now s + 5000 * Z.of_nat j + exchanges_time (n_log s) rq (S j)) (again (n_log s) rq (S j)),
           answer (again (n_log s) rq j) rq)).
    { intros r -> Hr. exists 0%nat. rewrite exchanges_time_1. unfold again. cbn. rewrite !app_nil_r, Z.add_0_r.
      split_and!; [lia|lia|by right|done]. }
    destruct (answer_cases (n_log s) rq) as [[v Hv]|[e He]]; [rewrite Hv|rewrite He].
    { apply Hstop; [done|]. by intros (e & ? & _). }
    destruct (is_retryable_error e) eqn:Hre; [|apply Hstop; [done|intros (e' & [= ->] & ?); congruence]].
    cbn [andb Nat.ltb Nat.leb].
    destruct (IH (mkNet (n_now s + latency (n_log s) rq + 5000) (n_log s ++ [rq]))) as (j & Hj & Hi & Hend & Heq).
    cbn [n_log n_now] in *. exists (S j). rewrite again_S in Hend. split_and!; [lia| | |].
    + intros [|i] Hlt; [unfold again; cbn; rewrite app_nil_r; by exists e|].
      rewrite <-again_S. apply Hi. lia.
    + destruct Hend as [->|Hend]; [by left|by right].
    + unfold tbind, sleep. cbn [n_now n_log]. rewrite Heq, !again_S, (exchanges_time_S (n_log s)).
      f_equal. f_equal. lia.
Qed.

(** The guard of a request: the host is not marked disconnected, or the caller does not mind. *)
Definition let_through (h : ahost) (allow_disconnected : bool) : Prop :=
  allow_disconnected = true ∨ a_agent_status h ≠ Some "disconnected".

Lemma let_through_guard h allow :
  let_through h allow → negb allow && bool_decide (a_agent_status h = Some "disconnected") = false.
Proof. intros [->|Hd]; [done|]. rewrite bool_decide_false by done. by rewrite andb_false_r. Qed.

(** C32: A request, for every host, number of attempts and network.  To a host marked disconnected,
    without [allow_disconnected], it fails at once, and so it does without a fingerprint to pin, or
    when no attempt is asked for: nothing is sent and no time is spent.  Otherwise it is the same
    exchange made again: an outcome that may pass - a 503, or an error whose text says that it
    cannot connect, which is what a timeout and the exhausted retries of the pool are turned into -
    is tried again after five seconds, at most as often as asked; the first other outcome, or the
    last, is the result; nothing else is sent and no other time is spent. *)
Theorem request_retries_exact h method path body timeout retries allow s :
  let run := troshkad_request network h method path body timeout retries allow s in
  let rq := mkRequest (a_ip h) method path body timeout in
  let answer_after i := answer (again (n_log s) rq i) rq in
  (¬ let_through h allow →
     run = (s, TErr (error ("Host " +:+ a_ip h +:+ " is disconnected — skipping request")))) ∧
  (let_through h allow → default "" (a_fingerprint h) = "" → ∃ e, run = (s, TErr e)) ∧
  (let_through h allow → default "" (a_fingerprint h) ≠ "" → retries = 0%nat → ∃ e, run = (s, TErr e)) ∧
  (let_through h allow → default "" (a_fingerprint h) ≠ "" → ∀ k, retries = S k →
   ∃ j, (j ≤ k)%nat ∧ (∀ i, (i < j)%nat → retryable (answer_after i)) ∧
     (j = k ∨ ¬ retryable (answer_after j)) ∧
     run = (mkNet (n_now s + 5000 * Z.of_nat j + exchanges_time (n_log s) rq (S j)) (again (n_log s) rq (S j)),
            answer_after j)).
Proof.
  intros run rq answer_after. unfold run, troshkad_request.
  assert (Hfp : default "" (a_fingerprint h) ≠ "" → ∀ m : agentM val, tbind (get_pool h) (λ _, m) s = m s).
  { intros Hne m. unfold get_pool, tbind. by destruct (a_fingerprint h) as [[|c fp]|]. }
  split_and!.
  - intros Hno. destruct allow; [by destruct Hno; left|]. cbn [negb andb].
    case_bool_decide; [done|]. by destruct Hno; right.
  - intros Hgo Hf. rewrite let_through_guard by done. unfold get_pool, tbind.
    destruct (a_fingerprint h) as [[|c fp]|]; [by eexists|done|by eexists].
  - intros Hgo Hf ->. rewrite let_through_guard by done. rewrite Hfp by done. by eexists.
  - intros Hgo Hf k ->. rewrite let_through_guard by done. rewrite Hfp by done.
    destruct (attempts_exact (Z.of_nat (S k)) k rq s) as (j & H). by exists j.
Qed.

(** ** The waiting loops end *)

(** An exchange takes some time, at most [longest]. *)
Context (longest : Z) (latency_bounds : ∀ log rq, 0 ≤ latency log rq ≤ longest).

Lemma exchanges_time_bounds log rq n : 0 ≤ exchanges_time log rq n ≤ Z.of_nat n * longest.
Proof.
  revert log. induction n as [|n IH]; intros log; [done|]. rewrite exchanges_time_S.
  pose proof (latency_bounds log rq). specialize (IH (log ++ [rq])). lia.
Qed.

(** The longest a request of three attempts takes. *)
Definition request_limit : Z := 10000 + 3 * longest.

(** A request takes no negative time, ends in time and raises nothing but [TroshkadError]. *)
Lemma request_time h method path body timeout allow s :
  let '(s', r) := troshkad_request network h method path body timeout 3 allow s in
  (n_now s ≤ n_now s' ≤ n_now s + request_limit) ∧ ∀ e, r ≠ TExc e.
Proof.
  assert (Hl : 0 ≤ longest) by (pose proof (latency_bounds [] (mkRequest "" "" "" None 0)); lia).
  unfold request_limit, troshkad_request. destruct (_ && _); [split; [cbn; lia|done]|]. unfold tbind, get_pool.
  destruct (a_fingerprint h) as [[|c fp]|]; [split; [cbn; lia|done]| |split; [cbn; lia|done]].
  unfold tret. set (rq := mkRequest _ _ _ _ _).
  destruct (attempts_exact (Z.of_nat 3) 2 rq s) as (j & Hj & _ & _ & ->). cbn [n_now].
  split; [|destruct (answer_cases (again (n_log s) rq j) rq) as [[v ->]|[e ->]]; done].
  pose proof (exchanges_time_bounds (n_log s) rq (S j)). nia.
Qed.

Lemma tlift_cases {A} (r : res A) s : tlift r s = (s, match r with Ok a => TOk a | Raise e => TExc e end).
Proof. done. Qed.

Lemma drain_reason_fuel e x : get_drain_retry_reason e = Raise x → x ≠ OUT_OF_FUEL.
Proof.
  unfold OUT_OF_FUEL, get_drain_retry_reason. destruct (negb _); [|done]. destruct (te_response e) as [r|]; [|done].
  destruct (truthy r); [|done]. destruct r; cbn; congruence.
Qed.

Lemma idx_fuel d k x : idx d k = Raise x → x ≠ OUT_OF_FUEL.
Proof. unfold OUT_OF_FUEL. destruct d as [| | | | |kvs]; cbn; try congruence. destruct (assoc k kvs); congruence. Qed.

(** What starting a job comes to by [limit]. *)
Definition drained (deadline limit : Z) (o : net * tres val) : Prop :=
  n_now o.1 ≤ limit ∧ o.2 ≠ TExc OUT_OF_FUEL ∧
  ∀ e, o.2 = TErr e → is_drain_retryable e = true → deadline ≤ n_now o.1.

Lemma drain_loop_ends fuel h path params timeout deadline s :
  deadline - n_now s ≤ DRAIN_RETRY_INTERVAL * (Z.of_nat fuel - 1) → (0 < fuel)%nat →
  n_now s ≤ deadline + DRAIN_RETRY_INTERVAL →
  drained deadline (deadline + DRAIN_RETRY_INTERVAL + request_limit)
    (drain_loop network fuel h path params timeout deadline s).
Proof.
  revert s. induction fuel as [|fuel IH]; intros s Hf Hpos Hnow; [lia|]. cbn [drain_loop]. unfold ttry.
  pose proof (request_time h "POST" ("/commands" +:+ path) (Some params) timeout true s) as Ht.
  destruct (troshkad_request network h "POST" _ _ _ _ _ s) as [s1 [v|e|x]]; destruct Ht as [Ht Hexc].
  - unfold drained, tlift. destruct (idx v "job_id") as [j|x] eqn:E; cbn; (split; [lia|]); [by split|]. split; [|done].
    intros [= ->]. by apply idx_fuel in E.
  - destruct (is_drain_retryable e) eqn:Hr; cbn [negb].
    2: { split; [cbn; lia|]. split; [done|]. intros e' [= <-]. congruence. }
    unfold tbind, clock. destruct (deadline <=? n_now s1) eqn:Hd; bool_lia.
    { split; [cbn; lia|]. split; [done|]. by intros e' [= <-] _. }
    unfold tlift. destruct (get_drain_retry_reason e) as [m|x] eqn:E.
    2: { split; [cbn; lia|]. split; [|done]. intros [= ->]. by apply drain_reason_fuel in E. }
    unfold sleep. apply IH; cbn [n_now]; unfold DRAIN_RETRY_INTERVAL in *; lia.
  - by destruct (Hexc x).
Qed.

Lemma output_lines_fuel job x : output_lines job = Raise x → x ≠ OUT_OF_FUEL.
Proof.
  unfold OUT_OF_FUEL, output_lines. destruct job as [| | | | |kvs]; cbn; try congruence.
  destruct (default empty_list (assoc "output" kvs)); congruence.
Qed.

Lemma slice8_fuel v x : slice8 v = Raise x → x ≠ OUT_OF_FUEL.
Proof. unfold OUT_OF_FUEL. destruct v; cbn; congruence. Qed.

Section Waiting.
Context (h : ahost) (job_id : val) (timeout poll_interval : Z).

(** Polls that failed in a row since [s0], each followed by an interval: what the next one finds. *)
Inductive failing_since (s0 : net) : nat → net → Prop :=
| NoFailure : failing_since s0 0 s0
| OneMore n s s1 e :
    failing_since s0 n s → poll_job network h job_id s = (s1, TErr e) → te_status e ≠ Some 404 →
    failing_since s0 (S n) (mkNet (n_now s1 + poll_interval) (n_log s1)).

(** The error of a wait that is over. *)
Definition timed_out : terr :=
  error ("Job " +:+ py_str job_id +:+ " timed out after " +:+ str_of_Z (timeout / 1000) +:+ "s on " +:+ a_ip h).

(** What a wait from [start] comes to by [limit]: a job that ended; the timeout, at the deadline; or
    the error of the twelfth poll in a row to fail, eleven intervals after the last that did not. *)
Definition waited (start deadline limit : Z) (o : net * tres val) : Prop :=
  n_now o.1 ≤ limit ∧
  match o.2 with
  | TOk job => ∃ st, idx job "status" = Ok (VStr st) ∧ (st = "completed" ∨ st = "failed")
  | TErr e =>
      e = timed_out ∧ deadline ≤ n_now o.1 ∨
      ∃ s0 s, start ≤ n_now s0 ∧ failing_since s0 11 s ∧ n_now s0 + 11 * poll_interval ≤ n_now s ∧
        poll_job network h job_id s = (o.1, TErr e)
  | TExc x => x ≠ OUT_OF_FUEL
  end.
End Waiting.

Lemma in_status v l : in_strs v l = true → ∃ st, v = VStr st ∧ st ∈ l.
Proof.
  intros (x & Hx & Hv)%existsb_exists. apply eq_str_true in Hv as ->. exists x. by rewrite list_elem_of_In.
Qed.

Lemma poll_time h job_id s :
  let '(s', r) := poll_job network h job_id s in
  (n_now s ≤ n_now s' ≤ n_now s + request_limit) ∧ ∀ e, r ≠ TExc e.
Proof. apply request_time. Qed.

Lemma failing_time h job_id poll s0 n s :
  failing_since h job_id poll s0 n s → n_now s0 + Z.of_nat n * poll ≤ n_now s.
Proof.
  induction 1 as [|n s s1 e _ IH Hp _]; [lia|]. pose proof (poll_time h job_id s) as Ht. rewrite Hp in Ht.
  destruct Ht as [Ht _]. cbn [n_now]. lia.
Qed.

(** The longest a turn of the wait takes. *)
Definition turn_limit (poll_interval : Z) : Z := request_limit + Z.max poll_interval 1000.

Lemma fast_delay count poll_interval :
  0 < poll_interval →
  let d := default poll_interval (fast_delays !! count) in
  (4 ≤ count)%nat ∧ d = poll_interval ∨ (count < 4)%nat ∧ 0 < d ≤ 1000.
Proof. intros Hp. destruct count as [|[|[|[|count]]]]; cbn; try (right; lia). left. split; [lia|done]. Qed.

Lemma fuel_slow deadline now now' poll :
  0 < poll → now + poll ≤ now' → (deadline - now') / poll + 1 ≤ (deadline - now) / poll.
Proof. intros Hp H. rewrite <-Z.div_add by lia. apply Z.div_le_mono; lia. Qed.

Lemma wait_loop_ends fuel h job_id timeout poll deadline limit failures count start s0 s :
  0 < poll → (failures < 12)%nat → start ≤ n_now s0 → failing_since h job_id poll s0 failures s →
  (0 < fuel)%nat → n_now s ≤ limit → deadline + turn_limit poll ≤ limit →
  (n_now s < deadline → (deadline - n_now s) / poll + Z.max 0 (4 - Z.of_nat count) + 2 ≤ Z.of_nat fuel) →
  waited h job_id timeout poll start deadline limit
    (wait_loop network fuel h job_id timeout poll deadline (Z.of_nat failures) count s).
Proof.
  intros Hp. revert failures count s0 s.
  induction fuel as [|fuel IH]; intros failures count s0 s Hf Hs0 Hsince Hpos Hnow Hlim Hfuel; [lia|].
  cbn [wait_loop]. unfold tbind at 1, clock. destruct (n_now s <? deadline) eqn:Hd; cbn [negb]; bool_lia.
  2: { split; [done|]. by left. }
  specialize (Hfuel Hd). assert (Hq : 0 ≤ (deadline - n_now s) / poll) by (apply Z.div_pos; lia).
  unfold ttry. pose proof (poll_time h job_id s) as Ht. unfold turn_limit in Hlim.
  destruct (poll_job network h job_id s) as [s1 [job|e|x]] eqn:Epoll; destruct Ht as [Ht Hexc].
  - unfold tbind, tlift.
    destruct (output_lines job) as [u|x] eqn:E; [|split; [cbn; lia|by apply output_lines_fuel in E]].
    destruct (idx job "status") as [st|x] eqn:Es; [|split; [cbn; lia|by apply idx_fuel in Es]].
    destruct (in_strs st _) eqn:Hin.
    { apply in_status in Hin as (t & -> & Ht'). split; [cbn; lia|]. exists t. split; [done|].
      rewrite !elem_of_cons, elem_of_nil in Ht'. tauto. }
    unfold sleep. destruct (fast_delay count poll Hp) as [[Hc ->]|[Hc Hdel]].
    + eapply (IH 0%nat _ (mkNet (n_now s1 + poll) (n_log s1))); cbn [n_now]; [lia| |constructor|lia|lia|unfold turn_limit; lia|].
      { pose proof (failing_time _ _ _ _ _ _ Hsince). nia. }
      intros Hd'. pose proof (fuel_slow deadline (n_now s) (n_now s1 + poll) poll Hp ltac:(lia)). lia.
    + set (d := default poll (fast_delays !! count)) in *.
      eapply (IH 0%nat _ (mkNet (n_now s1 + d) (n_log s1))); cbn [n_now]; [lia| |constructor|lia|lia|unfold turn_limit; lia|].
      { pose proof (failing_time _ _ _ _ _ _ Hsince). nia. }
      intros Hd'. pose proof (Z.div_le_mono (deadline - (n_now s1 + d)) (deadline - n_now s) poll Hp ltac:(lia)). lia.
  - destruct (bool_decide (te_status e = Some 404)) eqn:H404.
    { unfold tbind, tlift. destruct (slice8 job_id) eqn:E; (split; [cbn; lia|]); [|by apply slice8_fuel in E].
      exists "failed". split; [done|by right]. }
    apply bool_decide_eq_false in H404.
    destruct (max_consecutive_failures <=? Z.of_nat failures + 1) eqn:Hm; unfold max_consecutive_failures in Hm; bool_lia.
    { split; [cbn; lia|]. right. assert (failures = 11%nat) as -> by lia. exists s0, s.
      pose proof (failing_time _ _ _ _ _ _ Hsince). split_and!; [done|done|lia|done]. }
    unfold tbind, tlift. destruct (slice8 job_id) eqn:E; [|split; [cbn; lia|by apply slice8_fuel in E]]. unfold sleep.
    replace (Z.of_nat failures + 1) with (Z.of_nat (S failures)) by lia.
    eapply (IH (S failures) _ s0); cbn [n_now]; [lia|done|by eapply OneMore|lia|lia|unfold turn_limit; lia|].
    intros Hd'. pose proof (fuel_slow deadline (n_now s) (n_now s1 + poll) poll Hp ltac:(lia)). lia.
  - by destruct (Hexc x).
Qed.

(** C33: Waiting on an agent always ends, whatever it answers, when an exchange takes at most
    [longest] and the poll interval is positive.  Starting a job is over after the five and a half minutes it allows a draining agent, one
    more interval and one more request ([request_limit]), and an agent that drains or cannot be
    reached is given up no earlier than after these five and a half minutes.  Waiting for a job is over
    one turn ([turn_limit]) after its timeout at the latest, and then: with a job that is completed
    or failed - a failed job is a result, not an error; or with the timeout error, not before the
    deadline; or with the error of a poll, when that poll and the eleven before it, an interval
    apart, have all failed: a single poll that is answered starts the count again; or with another
    exception, when what the agent answered is no job. *)
Theorem agent_waits_end h path params request_timeout job_id timeout poll_interval s :
  0 < poll_interval →
  drained (n_now s + DRAIN_RETRY_TIMEOUT) (n_now s + DRAIN_RETRY_TIMEOUT + DRAIN_RETRY_INTERVAL + request_limit)
    (start_job network h path params request_timeout s) ∧
  waited h job_id timeout poll_interval (n_now s) (n_now s + timeout)
    (n_now s + Z.max 0 timeout + turn_limit poll_interval)
    (wait_for_job network h job_id timeout poll_interval s).
Proof.
  assert (Hl : 0 ≤ longest) by (pose proof (latency_bounds [] (mkRequest "" "" "" None 0)); lia).
  intros Hp. split.
  - unfold start_job, tbind, clock. apply drain_loop_ends; [|lia|unfold DRAIN_RETRY_TIMEOUT, DRAIN_RETRY_INTERVAL; lia].
    vm_compute (Z.to_nat _). unfold DRAIN_RETRY_TIMEOUT, DRAIN_RETRY_INTERVAL. lia.
  - unfold wait_for_job, tbind, clock.
    apply (wait_loop_ends _ h job_id timeout poll_interval _ _ 0 0 (n_now s) s);
      [done|lia|lia|constructor|lia|unfold turn_limit, request_limit; lia|lia|].
    intros Hd. replace (n_now s + timeout - n_now s) with timeout by lia.
    assert (0 ≤ timeout / poll_interval) by (apply Z.div_pos; lia). cbn [length fast_delays]. lia.
Qed.
End ClientFacts.

(** ** A worked example: an agent that restarts while a job runs *)

(** The first two exchanges time out, the third a busy agent, the fourth the job done. *)
Definition sample_network (log : list request) (rq : request) : Z * exchange :=
  match length log with
  | 0%nat | 1%nat => (10, XUnreachable "timed out")
  | 2%nat => (10, XResponse 503 "" (inl (VDict [("status", VStr "draining")])))
  | 3%nat => (20, XResponse 200 "" (inl (VDict [("status", VStr "running")])))
  | _ => (20, XResponse 200 "" (inl (VDict [("status", VStr "failed")])))
  end.

Definition sample_ahost : ahost := mkAhost "10.0.0.5" (Some "connected") (Some "AB:CD").

Lemma sample_latency log rq : 0 ≤ latency sample_network log rq ≤ 20.
Proof. unfold latency, sample_network. by destruct (length log) as [|[|[|[|]]]]. Qed.

(** Two timeouts are waited for, the busy agent is the last of three attempts; a host marked
    disconnected is asked nothing. *)
Lemma request_retries_exact_witness :
  (∃ j, (j ≤ 2)%nat ∧
    troshkad_request sample_network sample_ahost "GET" "/health" None 10 3 true (mkNet 0 []) =
      (mkNet (0 + 5000 * Z.of_nat j + exchanges_time sample_network [] (mkRequest "10.0.0.5" "GET" "/health" None 10) (S j))
         (replicate (S j) (mkRequest "10.0.0.5" "GET" "/health" None 10)),
       answer sample_network (replicate j (mkRequest "10.0.0.5" "GET" "/health" None 10))
         (mkRequest "10.0.0.5" "GET" "/health" None 10))) ∧
  (troshkad_request sample_network (mkAhost "10.0.0.6" (Some "disconnected") (Some "AB:CD")) "GET" "/health" None 10 3
     false (mkNet 0 [])).1 = mkNet 0 [].
Proof.
  split.
  - destruct (request_retries_exact sample_network sample_ahost "GET" "/health" None 10 3 true (mkNet 0 []))
      as (_ & _ & _ & H). destruct (H (or_introl eq_refl) ltac:(done) 2%nat eq_refl) as (j & Hj & _ & _ & Heq).
    exists j. split; [exact Hj|]. exact Heq.
  - destruct (request_retries_exact sample_network (mkAhost "10.0.0.6" (Some "disconnected") (Some "AB:CD"))
      "GET" "/health" None 10 3 false (mkNet 0 [])) as (H & _). rewrite H; [reflexivity|].
    intros [Hx|Hx]; [discriminate|by apply Hx].
Defined.

Lemma agent_waits_end_witness :
  (∃ job, (wait_for_job sample_network sample_ahost (VStr "job1") 60000 5000 (mkNet 0 [])).2 = TOk job ∧
    idx job "status" = Ok (VStr "failed")) ∧
  n_now (wait_for_job sample_network sample_ahost (VStr "job1") 60000 5000 (mkNet 0 [])).1 ≤ 75060.
Proof.
  destruct (agent_waits_end sample_network 20 sample_latency sample_ahost "/vms/start" VNone 30 (VStr "job1") 60000 5000
    (mkNet 0 [])) as [_ [Hlim H]]; [done|]. split.
  - eexists. split; [vm_compute; reflexivity|]. vm_compute in H. destruct H as (st & [= <-] & _). vm_compute. reflexivity.
  - exact Hlim.
Defined.

(** An agent of which one poll in four fails is waited for to the deadline. *)
Definition flapping_network (log : list request) (rq : request) : Z * exchange :=
  if Nat.even (length log / 3) then (10, XUnreachable "timed out")
  else (10, XResponse 200 "" (inl (VDict [("status", VStr "running")]))).
Example flapping_agent_waited_for :
  (wait_for_job flapping_network sample_ahost (VStr "job1") 600000 5000 (mkNet 0 [])).2
  = TErr (timed_out sample_ahost (VStr "job1") 600000).
Proof. vm_compute. reflexivity. Qed.
