(* ===== verification/HealthPoller.v ===== *)
(** * The health poller

    [services/health_poller.py]: what one poll does to the row of a host, whatever agent and
    cloud answer, with the map of when a host may be polled again; [should_extend_host] and
    [should_extend_pool] of [services/storage_extend.py] and the console name of
    [services/console_dns.py] it uses.  The clock stands still while one host is handled. *)
From stdpp Require Import prelude strings gmap.
From Stdlib Require Import Ascii ZArith Lia.
From S2P Require Import Prelude PyStr PyVal PyText TopoNodes ClusterMembers.

Open Scope list_scope.

(** ** Rows and answers *)

(** [host.Host] as the poller uses it; a column set from an answer holds any value. *)
Record phost := mkPHost {
  ph_id : string; ph_type : string; ph_state : string; ph_agent_status : string;
  ph_provider_id : option string; ph_instance_id : option string; ph_has_token : bool; ph_fingerprint : option string;
  ph_private_key : option string; ph_last_health : option Z; ph_version : val; ph_uplink_mtu : val;
  ph_total_vcpus : val; ph_used_vcpus : val; ph_total_ram : val; ph_used_ram : val; ph_max_eips : Z;
  ph_ip : option string; ph_private_ip : val; ph_console : option string; ph_warnings : val;
  ph_pool : option string; ph_storage_gb : Z; ph_auto_extend : bool; ph_extend_pct : Z; ph_extend_max : option Z }.

(** [provider.Provider] *)
Record pprovider := mkPProvider { pp_id : string; pp_type : string; pp_console_base : option string; pp_sg : option string }.

(** [storage_pool.StoragePool] *)
Record ppool := mkPPool {
  sp_id : string; sp_mode : string; sp_auto_extend : bool; sp_extend_pct : Z; sp_extend_max : option Z;
  sp_fsx_gb : option Z; sp_netapp_gb : option Z; sp_azure_gb : option Z }.

(** What the world answers while one host is handled: the time, the agent's health, the cloud's
    status and power state, the address the backend leaves by, the mesh, the cluster's
    addresses and Ceph, what the driver's extension of a disk gives (the new size and whether it
    starts the cooldown, as the one of EC2 does), whether the queue takes a job. *)
Record answers := mkAnswers {
  a_now : Z; a_health : res val; a_status : res val; a_power : res val; a_egress : res (option string);
  a_mesh_peers : Z; a_mesh : res val; a_eips : res val; a_ceph : res val; a_extend : res (Z * bool); a_extend_pool : res ();
  a_queue : res () }.

(** What a poll does outside the row. *)
Inductive pevent :=
| EvRecover (host : string)
| EvReinstall (host : string) (ip : option string)
| EvExtendHost (host : string)
| EvExtendPool (pool : string)
| EvAllow (group ip : string).

#[export] Instance pevent_eq_dec : EqDecision pevent.
Proof. solve_decision. Defined.

(** The state of a cycle while one host is handled: its row, [_skip_until], the pools checked,
    [_last_extend], the events. *)
Record pstate := mkPState {
  ps_host : phost; ps_skip : gmap string Z; ps_pools : list string; ps_extended : gmap string Z;
  ps_events : list pevent }.

(** ** A computation: an exception keeps what was done before it *)

Definition poll (A : Type) := pstate → pstate * res A.
Definition pret {A} (a : A) : poll A := λ s, (s, Ok a).
Definition pbind {A B} (m : poll A) (f : A → poll B) : poll B :=
  λ s, match m s with (s', Ok a) => f a s' | (s', Raise e) => (s', Raise e) end.
Definition plift {A} (r : res A) : poll A := λ s, (s, r).
Definition ptry {A} (m : poll A) (h : poll A) : poll A :=
  λ s, match m s with (s', Ok a) => (s', Ok a) | (s', Raise _) => h s' end.

Declare Scope poll_scope.
Notation "'let*' x := m 'in' k" := (pbind m (λ x, k))
  (at level 200, x name, m at level 100, k at level 200, right associativity) : poll_scope.
Notation "m ';*' k" := (pbind m (λ _, k)) (at level 100, k at level 200, right associativity) : poll_scope.
Open Scope poll_scope.

Definition the_host : poll phost := λ s, (s, Ok (ps_host s)).
Definition on_host (f : phost → phost) : poll () :=
  λ s, (mkPState (f (ps_host s)) (ps_skip s) (ps_pools s) (ps_extended s) (ps_events s), Ok ()).
Definition emit (e : pevent) : poll () :=
  λ s, (mkPState (ps_host s) (ps_skip s) (ps_pools s) (ps_extended s) (ps_events s ++ [e]), Ok ()).
(** [_skip_until\[host.id\] = t] and [_skip_until.pop(host.id, None)]. *)
Definition skip_until (t : Z) : poll () :=
  λ s, (mkPState (ps_host s) (<[ph_id (ps_host s) := t]> (ps_skip s)) (ps_pools s) (ps_extended s) (ps_events s), Ok ()).
Definition skip_pop : poll () :=
  λ s, (mkPState (ps_host s) (delete (ph_id (ps_host s)) (ps_skip s)) (ps_pools s) (ps_extended s) (ps_events s), Ok ()).

(** Columns. *)
Definition with_state (v : string) (h : phost) : phost :=
  let '(mkPHost i t _ ag pr ins tok fp pk lh ve mtu tv uv tr ur eips ip pip con w pool gb ae pct mx) := h in
  mkPHost i t v ag pr ins tok fp pk lh ve mtu tv uv tr ur eips ip pip con w pool gb ae pct mx.
Definition with_agent (v : string) (h : phost) : phost :=
  let '(mkPHost i t st _ pr ins tok fp pk lh ve mtu tv uv tr ur eips ip pip con w pool gb ae pct mx) := h in
  mkPHost i t st v pr ins tok fp pk lh ve mtu tv uv tr ur eips ip pip con w pool gb ae pct mx.
Definition with_health (v : Z) (h : phost) : phost :=
  let '(mkPHost i t st ag pr ins tok fp pk _ ve mtu tv uv tr ur eips ip pip con w pool gb ae pct mx) := h in
  mkPHost i t st ag pr ins tok fp pk (Some v) ve mtu tv uv tr ur eips ip pip con w pool gb ae pct mx.
Definition with_version (v : val) (h : phost) : phost :=
  let '(mkPHost i t st ag pr ins tok fp pk lh _ mtu tv uv tr ur eips ip pip con w pool gb ae pct mx) := h in
  mkPHost i t st ag pr ins tok fp pk lh v mtu tv uv tr ur eips ip pip con w pool gb ae pct mx.
Definition with_mtu (v : val) (h : phost) : phost :=
  let '(mkPHost i t st ag pr ins tok fp pk lh ve _ tv uv tr ur eips ip pip con w pool gb ae pct mx) := h in
  mkPHost i t st ag pr ins tok fp pk lh ve v tv uv tr ur eips ip pip con w pool gb ae pct mx.
Definition with_capacity (tv uv tr ur : val) (h : phost) : phost :=
  let '(mkPHost i t st ag pr ins tok fp pk lh ve mtu _ _ _ _ eips ip pip con w pool gb ae pct mx) := h in
  mkPHost i t st ag pr ins tok fp pk lh ve mtu tv uv tr ur eips ip pip con w pool gb ae pct mx.
Definition with_eips (v : Z) (h : phost) : phost :=
  let '(mkPHost i t st ag pr ins tok fp pk lh ve mtu tv uv tr ur _ ip pip con w pool gb ae pct mx) := h in
  mkPHost i t st ag pr ins tok fp pk lh ve mtu tv uv tr ur v ip pip con w pool gb ae pct mx.
Definition with_ip (v : option string) (h : phost) : phost :=
  let '(mkPHost i t st ag pr ins tok fp pk lh ve mtu tv uv tr ur eips _ pip con w pool gb ae pct mx) := h in
  mkPHost i t st ag pr ins tok fp pk lh ve mtu tv uv tr ur eips v pip con w pool gb ae pct mx.
Definition with_private_ip (v : val) (h : phost) : phost :=
  let '(mkPHost i t st ag pr ins tok fp pk lh ve mtu tv uv tr ur eips ip _ con w pool gb ae pct mx) := h in
  mkPHost i t st ag pr ins tok fp pk lh ve mtu tv uv tr ur eips ip v con w pool gb ae pct mx.
Definition with_console (v : option string) (h : phost) : phost :=
  let '(mkPHost i t st ag pr ins tok fp pk lh ve mtu tv uv tr ur eips ip pip _ w pool gb ae pct mx) := h in
  mkPHost i t st ag pr ins tok fp pk lh ve mtu tv uv tr ur eips ip pip v w pool gb ae pct mx.
Definition with_warnings (v : val) (h : phost) : phost :=
  let '(mkPHost i t st ag pr ins tok fp pk lh ve mtu tv uv tr ur eips ip pip con _ pool gb ae pct mx) := h in
  mkPHost i t st ag pr ins tok fp pk lh ve mtu tv uv tr ur eips ip pip con v pool gb ae pct mx.
Definition with_storage (v : Z) (h : phost) : phost :=
  let '(mkPHost i t st ag pr ins tok fp pk lh ve mtu tv uv tr ur eips ip pip con w pool _ ae pct mx) := h in
  mkPHost i t st ag pr ins tok fp pk lh ve mtu tv uv tr ur eips ip pip con w pool v ae pct mx.

Definition seconds (n : Z) : Z := n * 1000000.

(** [health_poller._DISCONNECT_AFTER_SECONDS:29-31]: [configured] is
    [health.disconnect_after_seconds] of the configuration, when it has one; the file shipped with
    the code ([config.yaml:70]) says 90. *)
Definition DISCONNECT_AFTER_SECONDS (configured : option Z) : Z := default 180 configured.

(** ** Warnings *)

(** [health_poller._warning_for_pct] *)
Definition warning_for_pct (mount pct : val) : res (option val) :=
  p <- num pct;;
  let entry level := Some {{ "mount" ::= mount; "used_pct" ::= pct; "level" ::= VStr level }}%py in
  Ok (if 95 <=? p then entry "critical" else if 80 <=? p then entry "warning" else None).

(** The warnings that are not the one of [mount]; a warning that is no dictionary stays. *)
Definition without_mount (mount : string) (warnings : val) : res (list val) :=
  l <- iter (v_or warnings empty_list);;
  Ok (List.filter (λ w, negb (match w with VDict d => eq_str (default VNone (assoc "mount" d)) mount | _ => false end)) l).

(** A text with a default, [(v or d).strip() or d]. *)
Definition strip_or (v : val) (d : string) : res string :=
  s <- as_str (v_or v (VStr d));;
  Ok (if String.eqb (strip s) "" then d else strip s).

(** [health_poller._merge_paused_warning] *)
Definition merge_paused_warning (warnings reason : val) : res val :=
  msg <- strip_or reason "Host VM paused";;
  out <- without_mount "vm-paused" warnings;;
  Ok (VList (out ++ [ {{ "mount" ::= VStr "vm-paused"; "used_pct" ::= VInt 100; "level" ::= VStr "critical";
                         "reason" ::= VStr "paused"; "message" ::= VStr msg }}%py ])).

(** [health_poller._merge_agent_unreachable_warning] *)
Definition merge_agent_unreachable_warning (warnings : val) (egress_ip : option string) : res val :=
  ip <- strip_or (match egress_ip with Some ip => VStr ip | None => VNone end) "unknown";;
  out <- without_mount "agent-unreachable" warnings;;
  Ok (VList (out ++ [ {{ "mount" ::= VStr "agent-unreachable"; "used_pct" ::= VInt 0; "level" ::= VStr "warning";
        "reason" ::= VStr "agent_unreachable";
        "message" ::= VStr ("Cannot reach troshkad :31337 from backend egress " +:+ ip
          +:+ ". If the instance is running, add this IP to the host security group (TCP 31337).") }}%py ])).

(** The warnings without those of [mount], none when none is left. *)
Definition clear_warning (mount : string) (warnings : val) : res val :=
  if negb (truthy warnings) then Ok warnings
  else out <- without_mount mount warnings;; Ok (match out with [] => VNone | _ => VList out end).

(** [health_poller._clear_paused_warning] *)
Definition clear_paused_warning : val → res val := clear_warning "vm-paused".

(** [health_poller._clear_agent_unreachable_warning] *)
Definition clear_agent_unreachable_warning : val → res val := clear_warning "agent-unreachable".

(** [health_poller._evaluate_partitions] *)
Definition evaluate_partitions (health : val) : res val :=
  partitions <- get health "partitions" empty_list;;
  if negb (truthy partitions) then Ok VNone
  else
    l <- iter partitions;;
    ws <- map_res (λ p,
      mount <- get p "mount" vstr_empty;;
      skipped <- vin mount [VStr "/mnt/iso"; VStr "/boot"; VStr "/boot/efi"];;
      iso <- (if skipped then Ok true else fs <- get p "fstype" VNone;; Ok (eq_str fs "iso9660"));;
      if iso then Ok None
      else m <- idx p "mount";; pct <- get p "used_pct" (VInt 0);; warning_for_pct m pct) l;;
    Ok (match omap id ws with [] => VNone | ws => VList ws end).

(** ** Parts of a successful check *)

(** [health_poller._apply_uplink_mtu] *)
Definition apply_uplink_mtu (health : val) : poll () :=
  let* mtu := plift (get (v_or health empty_dict) "uplink_mtu" VNone) in
  match as_int mtu with
  | Some z => if 0 <? z then on_host (with_mtu mtu) else pret ()
  | None => pret ()
  end.

(** [health_poller._check_mesh_health:161-171] the warnings about handshakes. *)
Definition mesh_warnings (now : Z) (resp : val) : res (list val) :=
  projects <- get resp "projects" empty_dict;;
  projects <- items projects;;
  l <- map_res (λ '(project_id, info),
    bad <- in_val (VStr "error") info;;
    let head := "WireGuard " +:+ str_take 8 project_id +:+ ": " in
    if bad then e <- idx info "error";; Ok [VStr (head +:+ py_str e)]
    else
      peers <- get info "peers" empty_dict;;
      peers <- items peers;;
      ws <- map_res (λ '(pubkey, last_handshake),
        t <- num last_handshake;;
        Ok (if (0 <? t) && (180 <? now - t)
            then Some (VStr (head +:+ "peer " +:+ str_take 8 pubkey +:+ "… stale (" +:+ str_of_Z (now - t) +:+ "s)"))
            else None)) peers;;
      Ok (omap id ws)) projects;;
  Ok (concat l).

(** [health_poller._check_mesh_health] *)
Definition check_mesh_health (a : answers) : poll () :=
  if a_mesh_peers a =? 0 then pret ()
  else
    ptry (let* resp := plift (a_mesh a) in
          let* found := plift (mesh_warnings (a_now a / 1000000) resp) in
          let* h := the_host in
          let* existing := plift (iter (v_or (ph_warnings h) empty_list)) in
          let* non_mesh := plift (filter_res (λ w, s <- as_str w;; Ok (negb (startswith "WireGuard" s))) existing) in
          on_host (with_warnings (VList (non_mesh ++ found)))) (pret ()).

(** [storage_extend._on_cooldown] *)
Definition on_cooldown (now : Z) (extended : gmap string Z) (target_id : string) : bool :=
  now - default 0 (extended !! target_id) <? seconds 600.

(** [storage_extend.should_extend_host] *)
Definition should_extend_host (now : Z) (extended : gmap string Z) (h : phost) : res bool :=
  if negb (ph_auto_extend h) then Ok false
  else if match ph_extend_max h with Some m => negb (m =? 0) && (m <=? ph_storage_gb h) | None => false end then Ok false
  else if on_cooldown now extended ("host:" +:+ ph_id h) then Ok false
  else
    l <- iter (v_or (ph_warnings h) empty_list);;
    any_res (λ w,
      m <- idx w "mount";;
      data <- Ok (in_strs m ["/var/lib/troshka"; "/var/lib/troshka/local"]);;
      if data then pct <- idx w "used_pct";; p <- num pct;; Ok (ph_extend_pct h <=? p) else Ok false) l.

(** [storage_extend.should_extend_pool] *)
Definition should_extend_pool (now : Z) (extended : gmap string Z) (pool : ppool) (current_used_pct : val) : res bool :=
  let or0 (o : option Z) (d : Z) := match o with Some z => if z =? 0 then d else z | None => d end in
  if negb (bool_decide (sp_mode pool ∈ ["shared-fsx"; "shared-netapp"; "shared-azure-files"])) then Ok false
  else if negb (sp_auto_extend pool) then Ok false
  else if match sp_extend_max pool with
          | Some m => negb (m =? 0) && (m <=? or0 (sp_fsx_gb pool) (or0 (sp_netapp_gb pool) (or0 (sp_azure_gb pool) 0)))
          | None => false
          end then Ok false
  else if on_cooldown now extended ("pool:" +:+ sp_id pool) then Ok false
  else p <- num current_used_pct;; Ok (sp_extend_pct pool <=? p).

(** ** One host *)

Section Host.
(** The tables the poller reads. *)
Context (configured : option Z) (providers : list pprovider) (pools : list ppool).

Definition provider_of (id : option string) : option pprovider :=
  match id with Some i => List.find (λ p, String.eqb (pp_id p) i) providers | None => None end.
Definition pool_of (id : option string) : option ppool :=
  match id with Some i => List.find (λ p, String.eqb (sp_id p) i) pools | None => None end.

(** [storage_extend._mark_extended] *)
Definition mark_extended (a : answers) (target_id : string) : poll () := λ s,
  (mkPState (ps_host s) (ps_skip s) (ps_pools s) (<[target_id := a_now a]> (ps_extended s)) (ps_events s), Ok ()).

(** [health_poller._handle_storage_auto_extend] *)
Definition handle_storage_auto_extend (a : answers) : poll () :=
  ptry (λ s,
      let h := ps_host s in
      match should_extend_host (a_now a) (ps_extended s) h with
      | Raise e => (s, Raise e)
      | Ok wanted =>
          match provider_of (ph_provider_id h) with
          | Some _ =>
              if wanted then
                (emit (EvExtendHost (ph_id h));*
                 let* done := plift (a_extend a) in
                 on_host (with_storage done.1);*
                 if done.2 then mark_extended a ("host:" +:+ ph_id h) else pret ()) s
              else (s, Ok ())
          | None => (s, Ok ())
          end
      end) (pret ()).

(** [health_poller._handle_pool_fsx_extend] *)
Definition handle_pool_fsx_extend (a : answers) (health : val) : poll () := λ s,
  let h := ps_host s in
  match ph_pool h with
  | None => (s, Ok ())
  | Some pool_id =>
      if bool_decide (pool_id ∈ ps_pools s) then (s, Ok ())
      else
        let s := mkPState h (ps_skip s) (ps_pools s ++ [pool_id]) (ps_extended s) (ps_events s) in
        match pool_of (Some pool_id) with
        | None => (s, Ok ())
        | Some pool =>
            if negb (String.eqb (sp_mode pool) "shared-fsx") then (s, Ok ())
            else
              (let* partitions := plift (get health "partitions" empty_list) in
               let* l := plift (iter partitions) in
               let* mount := plift (find_res (λ p, m <- get p "mount" vstr_empty;; in_val (VStr "shared") m) l) in
               match mount with
               | None => pret ()
               | Some p =>
                   if negb (truthy p) then pret ()
                   else
                     ptry (let* pct := plift (idx p "used_pct") in
                           let* wanted := plift (should_extend_pool (a_now a) (ps_extended s) pool pct) in
                           if wanted then
                             emit (EvExtendPool pool_id);*
                             plift (a_extend_pool a);*
                             mark_extended a ("pool:" +:+ pool_id)
                           else pret ()) (pret ())
               end) s
        end
  end.

(** [health_poller._handle_health_success:387-395] the capacity of the host from live data. *)
Definition sync_capacity (health : val) : poll () :=
  let* capacity := plift (get health "capacity" empty_dict) in
  let* h := the_host in
  let* tv := plift (get capacity "vcpus_total" VNone) in
  let* uv := plift (get capacity "vcpus_used" (ph_used_vcpus h)) in
  let* tr := plift (get capacity "ram_total_mb" VNone) in
  let* ur := plift (get capacity "ram_used_mb" (ph_used_ram h)) in
  on_host (with_capacity (if truthy tv then tv else ph_total_vcpus h) uv
             (if truthy tr then tr else ph_total_ram h) ur).

(** [health_poller._handle_health_success] *)
Definition handle_health_success (a : answers) (health : val) : poll () :=
  on_host (with_health (a_now a));*
  skip_pop;*
  let* version := plift (get health "version" VNone) in
  (if truthy version then on_host (with_version version) else pret ());*
  apply_uplink_mtu health;*
  sync_capacity health;*
  let* ws := plift (evaluate_partitions health) in
  on_host (with_warnings ws);*
  let* ws := plift (clear_agent_unreachable_warning ws) in
  on_host (with_warnings ws);*
  (if truthy ws then handle_storage_auto_extend a else pret ());*
  check_mesh_health a;*
  handle_pool_fsx_extend a health;*
  let* h := the_host in
  (if bool_decide (ph_agent_status h ∈ ["disconnected"; "install_failed"]) then
     on_host (with_agent "connected");*
     plift (a_queue a);*
     emit (EvRecover (ph_id h))
   else pret ());*
  if String.eqb (ph_state h) "paused" then
    on_host (with_state "active");*
    let* ws := plift (clear_paused_warning (ph_warnings h)) in
    on_host (with_warnings ws)
  else pret ().

(** [console_dns.is_sslip_console] *)
Definition is_sslip_console (base_domain : option string) : bool :=
  match base_domain with
  | None => false
  | Some b => let d := rstrip_char "." (lower (strip b)) in String.eqb d "sslip.io" || endswith ".sslip.io" d
  end.

(** [console_dns.console_domain_for_host] *)
Definition console_domain_for_host (instance_id base_domain ip_address : string) : res string :=
  let base := rstrip_char "." (lower (strip base_domain)) in
  if is_sslip_console (Some base) then
    let ip := strip ip_address in
    if String.eqb ip "" then Raise ValueError else Ok (instance_id +:+ "." +:+ ip +:+ ".sslip.io")
  else Ok (instance_id +:+ "." +:+ base).

(** [health_poller._apply_sslip_console_for_ip] *)
Definition apply_sslip_console_for_ip (provider : pprovider) (new_ip : string) : poll bool :=
  let* h := the_host in
  if negb (is_sslip_console (pp_console_base provider)) && negb (endswith ".sslip.io" (default "" (ph_console h)))
  then pret false
  else
    match ph_instance_id h with
    | None | Some EmptyString => pret false
    | Some instance_id =>
        let base := match pp_console_base provider with None | Some EmptyString => "sslip.io" | Some b => b end in
        let* new_fqdn := plift (console_domain_for_host instance_id base new_ip) in
        if bool_decide (ph_console h = Some new_fqdn) then pret false
        else on_host (with_console (Some new_fqdn));* pret true
    end.

(** [health_poller._mark_host_stopped] *)
Definition mark_host_stopped (a : answers) : poll bool :=
  on_host (with_state "stopped");*
  on_host (with_agent "disconnected");*
  skip_until (a_now a + seconds 86400);*
  pret true.

(** [health_poller._mark_host_paused] *)
Definition mark_host_paused (a : answers) (status : val) : poll bool :=
  on_host (with_state "paused");*
  on_host (with_agent "disconnected");*
  let* reason := plift (get status "reason" VNone) in
  let* h := the_host in
  let* ws := plift (merge_paused_warning (ph_warnings h) reason) in
  on_host (with_warnings ws);*
  skip_until (a_now a + seconds 30);*
  pret false.

(** [health_poller._enqueue_agent_reinstall_for_ip_change] *)
Definition enqueue_agent_reinstall_for_ip_change (a : answers) : poll () :=
  ptry (let* h := the_host in
        if bool_decide (ph_agent_status h ∈ ["waiting_ssh"; "installing"]) then pret ()
        else
          on_host (with_agent "waiting_ssh");*
          plift (a_queue a);*
          emit (EvReinstall (ph_id h) (ph_ip h))) (pret ()).

(** [health_poller._sync_host_public_ip] *)
Definition sync_host_public_ip (a : answers) (provider : pprovider) (status : val) : poll () :=
  let* ip := plift (get status "public_ip" VNone) in
  match ip with
  | VStr ip =>
      let new_ip := strip ip in
      let* h := the_host in
      if String.eqb new_ip "" || bool_decide (ph_ip h = Some new_ip) then pret ()
      else
        on_host (with_ip (Some new_ip));*
        let* private := plift (get status "private_ip" VNone) in
        (if truthy private then on_host (with_private_ip private) else pret ());*
        (if String.eqb (ph_state h) "stopped" then on_host (with_state "active") else pret ());*
        let* fqdn_changed := apply_sslip_console_for_ip provider new_ip in
        skip_pop;*
        if fqdn_changed && match ph_private_key h with None | Some EmptyString => false | _ => true end
        then enqueue_agent_reinstall_for_ip_change a else pret ()
  | _ => pret ()
  end.

(** [health_poller._read_cloud_power] *)
Definition read_cloud_power (a : answers) (status : val) : res string :=
  s <- get status "state" VNone;;
  power <- as_str (v_or s vstr_empty);;
  if negb (String.eqb power "") then Ok (lower power)
  else p <- a_power a;; p <- as_str (v_or p vstr_empty);; Ok (lower p).

(** [health_poller._STOPPED_POWER_STATES] *)
Definition STOPPED_POWER_STATES : list string :=
  ["stopped"; "stopping"; "terminated"; "shutting-down"; "deallocated"; "deallocating"].

(** [health_poller._sync_cloud_powerstate:524-541] with the provider of the host. *)
Definition sync_with_cloud (a : answers) (provider : pprovider) : poll bool :=
  let* status := plift (a_status a) in
  let status := match status with VDict _ => status | _ => empty_dict end in
  let* power := plift (read_cloud_power a status) in
  if bool_decide (power ∈ STOPPED_POWER_STATES) then mark_host_stopped a
  else if String.eqb power "paused" then mark_host_paused a status
  else
    let* h := the_host in
    (if String.eqb power "running" && String.eqb (ph_state h) "paused" then
       on_host (with_state "active");*
       let* ws := plift (clear_paused_warning (ph_warnings h)) in
       on_host (with_warnings ws)
     else pret ());*
    sync_host_public_ip a provider status;*
    pret false.

(** [health_poller._sync_cloud_powerstate] *)
Definition sync_cloud_powerstate (a : answers) : poll bool :=
  let* h := the_host in
  if String.eqb (ph_type h) "kubevirt-cluster" then pret false
  else
    match ph_instance_id h, ph_provider_id h with
    | Some (String _ _), Some (String _ _) =>
        ptry (match provider_of (ph_provider_id h) with
              | Some provider => if String.eqb (pp_type provider) "kubevirt" then pret false else sync_with_cloud a provider
              | None => pret false
              end) (pret false)
    | _, _ => pret false
    end.

(** [health_poller._warn_agent_unreachable] *)
Definition warn_agent_unreachable (a : answers) : poll () :=
  let* h := the_host in
  if String.eqb (ph_state h) "active" && negb (String.eqb (ph_type h) "kubevirt-cluster") then
    let egress := match a_egress a with Ok ip => ip | Raise _ => None end in
    let* ws := plift (merge_agent_unreachable_warning (ph_warnings h) egress) in
    on_host (with_warnings ws)
  else pret ().

(** [health_poller._schedule_disconnected_retry] *)
Definition schedule_disconnected_retry (a : answers) : poll () :=
  let* h := the_host in
  if String.eqb (ph_type h) "pattern_buffer"
     && match ph_last_health h with Some t => seconds 600 <? a_now a - t | None => false end
  then on_host (with_state "stopped");* skip_until (a_now a + seconds 86400)
  else skip_until (a_now a + seconds 30).

(** [health_poller._handle_health_failure] *)
Definition handle_health_failure (a : answers) : poll () :=
  let* stopped := sync_cloud_powerstate a in
  if stopped : bool then pret ()
  else
    let* h := the_host in
    if String.eqb (ph_state h) "paused" then skip_until (a_now a + seconds 30)
    else
      warn_agent_unreachable a;*
      match String.eqb (ph_agent_status h) "connected", ph_last_health h with
      | true, Some t =>
          if seconds (DISCONNECT_AFTER_SECONDS configured) <? a_now a - t
          then on_host (with_agent "disconnected");* skip_until (a_now a + seconds 30)
          else skip_until (a_now a + seconds 15)
      | _, _ =>
          if String.eqb (ph_agent_status h) "disconnected" then schedule_disconnected_retry a
          else skip_until (a_now a + seconds 60)
      end.

(** [health_poller._refresh_kubevirt_eip_capacity] *)
Definition refresh_kubevirt_eip_capacity (a : answers) : poll () :=
  match a_eips a with
  | Raise _ => pret ()
  | Ok cap =>
      if negb (truthy cap) then pret ()
      else
        let* total := plift (t <- get cap "total" (VInt 0);; num t) in
        if total <=? 0 then pret ()
        else
          let* used := plift (u <- get cap "external_used" (VInt 0);; num u) in
          on_host (with_eips (Z.max 0 (total - used)))
  end.

(** [health_poller._kubevirt_ceph_storage_warnings] *)
Definition kubevirt_ceph_storage_warnings (a : answers) : val :=
  let w := (usage <- a_ceph a;;
            if negb (truthy usage) then Ok None else pct <- idx usage "used_pct";; warning_for_pct (VStr "ceph") pct) in
  match w with Ok (Some w) => VList [w] | _ => VNone end.

(** [health_poller._poll_kubevirt_host] *)
Definition poll_kubevirt_host (a : answers) : poll () :=
  ptry (let* h := the_host in
        match provider_of (ph_provider_id h) with
        | None => pret ()
        | Some _ =>
            let* status := plift (a_status a) in
            if truthy status then
              on_host (with_agent "connected");*
              on_host (with_health (a_now a));*
              apply_uplink_mtu status;*
              refresh_kubevirt_eip_capacity a;*
              on_host (with_warnings (kubevirt_ceph_storage_warnings a))
            else on_host (with_agent "disconnected")
        end) (on_host (with_agent "disconnected")).

(** [health_poller._poll_host]: whether the host was checked and whether it failed. *)
Definition poll_host (a : answers) (now : Z) : poll (bool * bool) := λ s,
  let h := ps_host s in
  if String.eqb (ph_type h) "kubevirt-cluster" then (poll_kubevirt_host a;* pret (false, false)) s
  else
    match ph_fingerprint h with
    | None | Some EmptyString => (let* stopped := sync_cloud_powerstate a in pret (stopped, stopped)) s
    | _ =>
        if match ps_skip s !! ph_id h with Some t => negb (t =? 0) && (now <? t) | None => false end
        then (s, Ok (false, false))
        else
          ptry (let* health := plift (a_health a) in
                if truthy health then handle_health_success a health;* pret (true, false)
                else handle_health_failure a;* pret (true, true))
            (handle_health_failure a;* pret (true, true)) s
    end.

(** ** A cycle *)

(** [health_poller._check_ip_change_if_all_unreachable]: the address known last and the groups
    opened; [ensured] tells for which groups the cloud call succeeds. *)
Definition check_ip_change_if_all_unreachable (hosts_checked hosts_failed : nat) (current_ip : option string)
    (last_known_ip : option string) (ensured : string → bool) : option string * list pevent :=
  if (hosts_failed =? 0)%nat || (hosts_checked =? 0)%nat then (last_known_ip, [])
  else
    match current_ip with
    | None | Some EmptyString => (last_known_ip, [])
    | Some ip =>
        if bool_decide (Some ip = last_known_ip) then (last_known_ip, [])
        else (Some ip, concat (map (λ p, match pp_sg p with
                                         | Some sg => if ensured sg then [EvAllow sg ip] else []
                                         | None => [] end) providers))
    end.

(** What a cycle keeps besides the rows; whether an exception ended its loop. *)
Record cycle := mkCycle {
  cy_skip : gmap string Z; cy_pools : list string; cy_extended : gmap string Z; cy_events : list pevent;
  cy_checked : nat; cy_failed : nat; cy_raised : bool }.

(** The query of [_poll_hosts]. *)
Definition polled (h : phost) : bool := String.eqb (ph_state h) "active" && ph_has_token h.

(** The cycle after a host. *)
Definition cycle_after (c : cycle) (s : pstate) (checked failed raised : bool) : cycle :=
  mkCycle (ps_skip s) (ps_pools s) (ps_extended s) (ps_events s)
    (cy_checked c + Nat.b2n checked) (cy_failed c + Nat.b2n failed) raised.

(** [health_poller._poll_hosts:687-704] the loop of a cycle over the rows, those the query leaves
    out included. *)
Fixpoint poll_loop (world : string → answers) (now : Z) (hosts : list phost) (c : cycle) : list phost * cycle :=
  match hosts with
  | [] => ([], c)
  | h :: hosts' =>
      if negb (polled h) then let '(hosts', c) := poll_loop world now hosts' c in (h :: hosts', c)
      else
        let '(s, r) :=
          poll_host (world (ph_id h)) now (mkPState h (cy_skip c) (cy_pools c) (cy_extended c) (cy_events c)) in
        match r with
        | Raise _ => (ps_host s :: hosts', cycle_after c s false false true)
        | Ok (checked, failed) =>
            let '(hosts', c) := poll_loop world now hosts' (cycle_after c s checked failed false) in
            (ps_host s :: hosts', c)
        end
  end.

(** [health_poller._poll_hosts] from the map, the extensions and the address the last cycle left:
    an exception leaves the rows as they are stored, but not the map. *)
Definition poll_hosts (world : string → answers) (now : Z) (current_ip last_known_ip : option string)
    (ensured : string → bool) (skip extended : gmap string Z) (hosts : list phost)
    : list phost * option string * cycle :=
  let '(rows, c) := poll_loop world now hosts (mkCycle skip [] extended [] 0 0 false) in
  if cy_raised c then (hosts, last_known_ip, c)
  else
    let '(ip, opened) := check_ip_change_if_all_unreachable (cy_checked c) (cy_failed c) current_ip last_known_ip ensured in
    (rows, ip, mkCycle (cy_skip c) (cy_pools c) (cy_extended c) (cy_events c ++ opened) (cy_checked c) (cy_failed c) false).
End Host.
