(* ===== verification/HealthSafe.v ===== *)
(** * What a poll of the hosts guarantees

    A poll always ends with an answer; a connected host is given up only for the reasons the
    code states; a host that stays active is polled again within a minute; hosts that are not
    active are left alone. *)
From stdpp Require Import prelude strings gmap.
From Stdlib Require Import Ascii ZArith Lia.
From S2P Require Import Prelude PyStr PyVal PyLemmas PyText TopoNodes ClusterMembers HealthPoller.

Open Scope list_scope.
Open Scope poll_scope.

(** ** Postconditions of a computation, exceptions included *)

Definition wp {A} (m : poll A) (s : pstate) (Q : pstate → res A → Prop) : Prop := Q (m s).1 (m s).2.

Lemma wp_bind {A B} (m : poll A) (f : A → poll B) s Q :
  wp m s (λ s' r, match r with Ok a => wp (f a) s' Q | Raise e => Q s' (Raise e) end) → wp (pbind m f) s Q.
Proof. unfold wp, pbind. destruct (m s) as [s' [a|e]]; done. Qed.

Lemma wp_try {A} (m h : poll A) s Q :
  wp m s (λ s' r, match r with Ok a => Q s' (Ok a) | Raise _ => wp h s' Q end) → wp (ptry m h) s Q.
Proof. unfold wp, ptry. destruct (m s) as [s' [a|e]]; done. Qed.

Lemma wp_mono {A} (m : poll A) s (Q Q' : pstate → res A → Prop) :
  wp m s Q → (∀ s' r, Q s' r → Q' s' r) → wp m s Q'.
Proof. unfold wp. auto. Qed.

(** What of a state a computation leaves as it was: everything that decides about a host. *)
Definition same (s s' : pstate) : Prop :=
  let h := ps_host s in
  let h' := ps_host s' in
  ph_id h' = ph_id h ∧ ph_type h' = ph_type h ∧ ph_state h' = ph_state h ∧ ph_agent_status h' = ph_agent_status h ∧
  ph_last_health h' = ph_last_health h ∧ ph_ip h' = ph_ip h ∧ ph_has_token h' = ph_has_token h ∧
  ph_fingerprint h' = ph_fingerprint h ∧ ps_skip s' = ps_skip s.

(** The warnings of a row are a list or nothing. *)
Definition wf_warnings (v : val) : Prop := v = VNone ∨ ∃ l, v = VList l.
Definition wf (s : pstate) : Prop := wf_warnings (ph_warnings (ps_host s)).

(** Steps that only touch what does not decide, and keep rows well formed. *)
Definition quiet {A} (m : poll A) : Prop := ∀ s, wf s → wp m s (λ s' _, same s s' ∧ wf s').

Lemma same_refl s : same s s.
Proof. by repeat split. Qed.
Lemma same_trans s1 s2 s3 : same s1 s2 → same s2 s3 → same s1 s3.
Proof. unfold same. intros H1 H2. destruct_and!. split_and!; congruence. Qed.

Create HintDb poll.

Lemma aside_ret {A} (a : A) : quiet (pret a).
Proof. intros s Hs. split; [apply same_refl|done]. Qed.
Lemma aside_lift {A} (r : res A) : quiet (plift r).
Proof. intros s Hs. split; [apply same_refl|done]. Qed.
Lemma aside_host : quiet the_host.
Proof. intros s Hs. split; [apply same_refl|done]. Qed.
Lemma aside_emit e : quiet (emit e).
Proof. intros s Hs. split; [by repeat split|done]. Qed.
Lemma aside_mark a t : quiet (mark_extended a t).
Proof. intros s Hs. split; [by repeat split|done]. Qed.

Lemma aside_bind {A B} (m : poll A) (f : A → poll B) : quiet m → (∀ a, quiet (f a)) → quiet (pbind m f).
Proof.
  intros Hm Hf s Hs. apply wp_bind. eapply wp_mono; [by apply Hm|]. intros s1 [a|e] [Hsame H1]; [|done].
  eapply wp_mono; [by apply Hf|]. intros s2 r [H2 ?]. split; [by eapply same_trans|done].
Qed.

Lemma aside_try {A} (m h : poll A) : quiet m → quiet h → quiet (ptry m h).
Proof.
  intros Hm Hh s Hs. apply wp_try. eapply wp_mono; [by apply Hm|]. intros s1 [a|e] [Hsame H1]; [done|].
  eapply wp_mono; [by apply Hh|]. intros s2 r [H2 ?]. split; [by eapply same_trans|done].
Qed.

Lemma aside_if {A} (b : bool) (m1 m2 : poll A) : quiet m1 → quiet m2 → quiet (if b then m1 else m2).
Proof. by destruct b. Qed.

(** Columns that decide nothing. *)
Definition aside_update (f : phost → phost) : Prop :=
  ∀ h, ph_id (f h) = ph_id h ∧ ph_type (f h) = ph_type h ∧ ph_state (f h) = ph_state h ∧
       ph_agent_status (f h) = ph_agent_status h ∧ ph_last_health (f h) = ph_last_health h ∧ ph_ip (f h) = ph_ip h ∧
       ph_has_token (f h) = ph_has_token h ∧ ph_fingerprint (f h) = ph_fingerprint h ∧
       (wf_warnings (ph_warnings h) → wf_warnings (ph_warnings (f h))).

Lemma aside_on_host f : aside_update f → quiet (on_host f).
Proof. intros Hf s Hs. destruct (Hf (ps_host s)) as (?&?&?&?&?&?&?&?&Hw). split; [done|by apply Hw]. Qed.

Ltac aside_column := intros h; destruct h; cbn; split_and!; done.
Lemma aside_version v : aside_update (with_version v). Proof. aside_column. Qed.
Lemma aside_mtu v : aside_update (with_mtu v). Proof. aside_column. Qed.
Lemma aside_capacity a b c d : aside_update (with_capacity a b c d). Proof. aside_column. Qed.
Lemma aside_eips v : aside_update (with_eips v). Proof. aside_column. Qed.
Lemma aside_private_ip v : aside_update (with_private_ip v). Proof. aside_column. Qed.
Lemma aside_console v : aside_update (with_console v). Proof. aside_column. Qed.
Lemma aside_storage v : aside_update (with_storage v). Proof. aside_column. Qed.
Lemma aside_warnings v : wf_warnings v → aside_update (with_warnings v). Proof. intros Hv. aside_column. Qed.

#[export] Hint Resolve aside_ret aside_lift aside_host aside_emit aside_mark aside_bind aside_try aside_if
  aside_on_host aside_version aside_mtu aside_capacity aside_eips aside_private_ip aside_console aside_storage
  aside_warnings : poll.
Ltac quiet :=
  repeat (first [ progress intros | apply aside_bind | apply aside_try | apply aside_if
                | match goal with |- quiet (match ?x with _ => _ end) => destruct x end ]); auto with poll.

(** ** The quiet parts *)

Lemma aside_apply_mtu v : quiet (apply_uplink_mtu v).
Proof. unfold apply_uplink_mtu. quiet. Qed.

Lemma aside_sync_capacity v : quiet (sync_capacity v).
Proof. unfold sync_capacity. quiet. Qed.

Lemma aside_mesh a : quiet (check_mesh_health a).
Proof. unfold check_mesh_health. quiet. apply aside_on_host, aside_warnings. right. by eexists. Qed.

Lemma aside_at {A} (m : poll A) s : wf s → quiet m → same s (m s).1 ∧ wf (m s).1.
Proof. intros Hs Hm. exact (Hm s Hs). Qed.

Lemma aside_auto_extend providers a : quiet (handle_storage_auto_extend providers a).
Proof.
  unfold handle_storage_auto_extend. apply aside_try; [|quiet]. intros s Hs. unfold wp.
  destruct (should_extend_host _ _ _) as [w|e]; [|split; [apply same_refl|done]].
  destruct (provider_of _ _); [|split; [apply same_refl|done]]. destruct w; [|split; [apply same_refl|done]].
  apply aside_at; [done|]. quiet.
Qed.

Lemma aside_pool_extend pools a health : quiet (handle_pool_fsx_extend pools a health).
Proof.
  intros s Hs. unfold wp, handle_pool_fsx_extend. destruct (ph_pool _) as [id|]; [|split; [apply same_refl|done]].
  case_bool_decide; [split; [apply same_refl|done]|]. destruct (pool_of pools _) as [pool|]; [|by repeat split].
  destruct (negb _); [by repeat split|].
  set (s1 := mkPState _ _ _ _ _). assert (H1 : wf s1) by done.
  assert (Hs1 : same s s1) by (by repeat split).
  match goal with |- context [(?m s1).1] => assert (Hq : quiet m) end.
  { quiet. }
  destruct (Hq s1 H1) as [? ?]. split; [by eapply same_trans|done].
Qed.

(** Evaluating partitions and clearing give well-formed warnings. *)
Lemma wf_evaluated health v : evaluate_partitions health = Ok v → wf_warnings v.
Proof.
  unfold evaluate_partitions. intros H. apply bind_Ok in H as (ps & _ & H). destruct (negb _); [injection H as <-; by left|].
  apply bind_Ok in H as (l & _ & H). apply bind_Ok in H as (ws & _ & H).
  destruct (omap id ws); injection H as <-; [by left|right; by eexists].
Qed.

Lemma wf_cleared mount v v' : wf_warnings v → clear_warning mount v = Ok v' → wf_warnings v'.
Proof.
  unfold clear_warning. intros Hv H. destruct (negb _); [by injection H as <-|].
  apply bind_Ok in H as (out & _ & H). destruct out; injection H as <-; [by left|right; by eexists].
Qed.

Lemma wf_iter v : wf_warnings v → ∃ l, iter (v_or v empty_list) = Ok l.
Proof. intros [->|[l ->]]; [by eexists|]. destruct l; by eexists. Qed.

Lemma without_mount_ok mount v : wf_warnings v → ∃ l, without_mount mount v = Ok l.
Proof. intros H. unfold without_mount. destruct (wf_iter v H) as [l ->]. by eexists. Qed.

Lemma clear_warning_ok mount v : wf_warnings v → ∃ v', clear_warning mount v = Ok v'.
Proof.
  intros H. unfold clear_warning. destruct (negb _); [by eexists|]. destruct (without_mount_ok mount v H) as [l ->]. by eexists.
Qed.

Lemma merge_unreachable_ok v ip : wf_warnings v → ∃ l, merge_agent_unreachable_warning v ip = Ok (VList l).
Proof.
  intros H. unfold merge_agent_unreachable_warning, strip_or.
  destruct (without_mount_ok "agent-unreachable" v H) as [l ->]. destruct ip as [[|c ip]|]; cbn [bind]; by eexists.
Qed.

Lemma wf_merged_paused v r v' : merge_paused_warning v r = Ok v' → wf_warnings v'.
Proof.
  unfold merge_paused_warning. intros H. apply bind_Ok in H as (? & _ & H). apply bind_Ok in H as (? & _ & H).
  injection H as <-. right. by eexists.
Qed.

(** ** A healthy answer *)

(** What a success leaves, complete or cut short by an exception. *)
Definition healthy (a : answers) (s s' : pstate) : Prop :=
  let h := ps_host s in
  let h' := ps_host s' in
  ph_id h' = ph_id h ∧ ph_type h' = ph_type h ∧ ph_has_token h' = ph_has_token h ∧ ph_fingerprint h' = ph_fingerprint h ∧
  ph_ip h' = ph_ip h ∧ ph_last_health h' = Some (a_now a) ∧ ps_skip s' = delete (ph_id h) (ps_skip s) ∧
  (ph_state h' = ph_state h ∨ ph_state h = "paused" ∧ ph_state h' = "active") ∧
  (ph_agent_status h' = ph_agent_status h ∨ ph_agent_status h' = "connected").

Lemma healthy_same a s1 s2 s3 : healthy a s1 s2 → same s2 s3 → healthy a s1 s3.
Proof. unfold healthy, same. intros H1 H2. destruct_and!. split_and!; try congruence; by rewrite ?H9, ?H10. Qed.

Lemma wp_quiet {A B} (m : poll A) (f : A → poll B) s Q :
  quiet m → wf s → (∀ s' a, same s s' → wf s' → wp (f a) s' Q) → (∀ s' e, same s s' → wf s' → Q s' (Raise e)) →
  wp (pbind m f) s Q.
Proof.
  intros Hm Hs Hok Hraise. apply wp_bind. eapply wp_mono; [by apply Hm|]. intros s' [a|e] [??]; auto.
Qed.

Lemma wp_lift {A B} (r : res A) (f : A → poll B) s Q :
  (∀ a, r = Ok a → wp (f a) s Q) → (∀ e, r = Raise e → Q s (Raise e)) → wp (pbind (plift r) f) s Q.
Proof. intros Hok Hraise. apply wp_bind. unfold wp at 1, plift. cbn. destruct r; auto. Qed.

(** So far in a success: nothing but the time and the map has changed. *)
Definition seen (a : answers) (s s' : pstate) : Prop :=
  healthy a s s' ∧ ph_state (ps_host s') = ph_state (ps_host s) ∧
  ph_agent_status (ps_host s') = ph_agent_status (ps_host s) ∧ wf s'.

Lemma seen_same a s1 s2 s3 : seen a s1 s2 → same s2 s3 → wf s3 → seen a s1 s3.
Proof.
  intros (Hh & Hst & Hag & _) Hs Hw. split; [by eapply healthy_same|]. unfold same in Hs. destruct_and!.
  split_and!; [congruence..|done].
Qed.

(** What a success leaves on its two ways out. *)
Definition success_post (a : answers) (s s' : pstate) (r : res ()) : Prop :=
  healthy a s s' ∧ wf s' ∧
  (r = Ok () → ph_agent_status (ps_host s')
               = if bool_decide (ph_agent_status (ps_host s) ∈ ["disconnected"; "install_failed"]) then "connected"
                 else ph_agent_status (ps_host s)).

Lemma seen_raise a s s' e : seen a s s' → success_post a s s' (Raise e).
Proof. intros (? & _ & _ & ?). split; [done|]. by split. Qed.

Lemma wp_seen {A B} a s0 (m : poll A) (f : A → poll B) s Q :
  quiet m → seen a s0 s → (∀ s' x, seen a s0 s' → wp (f x) s' Q) → (∀ s' e, seen a s0 s' → Q s' (Raise e)) →
  wp (pbind m f) s Q.
Proof.
  intros Hm Hs Hok Hraise. apply wp_quiet; [done|by apply Hs| |]; intros s' x Hsame Hw.
  - apply Hok. by eapply seen_same.
  - apply Hraise. by eapply seen_same.
Qed.

(** The end of a success: reconnection, then a paused host is active again. *)
Lemma success_end a s0 s :
  seen a s0 s →
  wp (let* h := the_host in
      (if bool_decide (ph_agent_status h ∈ ["disconnected"; "install_failed"]) then
         on_host (with_agent "connected");* plift (a_queue a);* emit (EvRecover (ph_id h))
       else pret ());*
      if String.eqb (ph_state h) "paused" then
        on_host (with_state "active");*
        let* ws := plift (clear_paused_warning (ph_warnings h)) in
        on_host (with_warnings ws)
      else pret ()) s (success_post a s0).
Proof.
  intros (Hh & Hst & Hag & Hw). apply wp_bind. unfold wp at 1. cbn [the_host fst snd].
  set (h := ps_host s) in *.
  assert (Hend : ∀ s1, wf s1 → healthy a s0 s1 → ph_state (ps_host s1) = ph_state h →
    ph_agent_status (ps_host s1) = (if bool_decide (ph_agent_status h ∈ ["disconnected"; "install_failed"])
                                    then "connected" else ph_agent_status h) →
    wp (if String.eqb (ph_state h) "paused" then
          on_host (with_state "active");*
          let* ws := plift (clear_paused_warning (ph_warnings h)) in on_host (with_warnings ws)
        else pret ()) s1 (success_post a s0)).
  { intros s1 Hw1 Hh1 Hst1 Hag1. destruct (String.eqb _ "paused") eqn:Ep.
    - apply String.eqb_eq in Ep. destruct (clear_warning_ok "vm-paused" (ph_warnings h)) as [ws Hws]; [exact Hw|].
      pose proof (wf_cleared _ _ _ Hw Hws) as Hwf. unfold wp, pbind, plift, clear_paused_warning. rewrite Hws. cbn.
      destruct s1 as [h1 sk pl ex ev]; destruct h1; cbn in *. unfold success_post, healthy in *. cbn in *. destruct_and!.
      split_and!; first [done | congruence | right; split; congruence | intros _; by rewrite <-Hag].
    - unfold wp. cbn. split; [done|]. split; [done|]. intros _. by rewrite <-Hag. }
  case_bool_decide as Hin.
  - apply wp_bind. apply wp_bind. unfold wp at 1. cbn [on_host fst snd].
    set (s1 := mkPState _ _ _ _ _).
    assert (H1 : healthy a s0 s1 ∧ wf s1 ∧ ph_state (ps_host s1) = ph_state h ∧ ph_agent_status (ps_host s1) = "connected").
    { unfold s1, healthy, wf in *. fold h. destruct (ps_host s) eqn:E; cbn in *. destruct_and!. split_and!; try done; auto. }
    destruct H1 as (H1 & Hw1 & Hst1 & Hag1).
    apply wp_lift; [intros [] _|intros e _; by split]. unfold wp at 1. cbn [emit fst snd].
    by apply Hend.
  - apply wp_bind. unfold wp at 1. cbn [pret fst snd]. by apply Hend.
Qed.

Lemma success_spec providers pools a health s :
  wf s → wp (handle_health_success providers pools a health) s (success_post a s).
Proof.
  intros Hs. unfold handle_health_success. apply wp_bind. unfold wp at 1. cbn [on_host fst snd].
  apply wp_bind. unfold wp at 1. cbn [skip_pop fst snd].
  set (s1 := mkPState _ _ _ _ _). assert (H1 : seen a s s1).
  { unfold s1, seen, healthy, wf in *. destruct s as [h sk pl ex ev]; destruct h; cbn in *. split_and!; auto. }
  clearbody s1. pose proof (seen_raise a s) as Hraise.
  apply (wp_seen a s); [apply aside_lift|done| |done]. intros s2 version H2.
  apply (wp_seen a s); [quiet|done| |done]. intros s3 _ H3.
  apply (wp_seen a s); [apply aside_apply_mtu|done| |done]. intros s4 _ H4.
  apply (wp_seen a s); [apply aside_sync_capacity|done| |done]. intros s5 _ H5.
  apply wp_lift; [intros ws Hws|intros; by apply Hraise]. apply wf_evaluated in Hws.
  apply (wp_seen a s); [by apply aside_on_host, aside_warnings|done| |done]. intros s6 _ H6.
  apply wp_lift; [intros ws' Hws'|intros; by apply Hraise]. apply wf_cleared in Hws'; [|done].
  apply (wp_seen a s); [by apply aside_on_host, aside_warnings|done| |done]. intros s7 _ H7.
  apply (wp_seen a s); [destruct (truthy ws'); [apply aside_auto_extend|apply aside_ret]|done| |done]. intros s8 _ H8.
  apply (wp_seen a s); [apply aside_mesh|done| |done]. intros s9 _ H9.
  apply (wp_seen a s); [apply aside_pool_extend|done| |done]. intros s10 _ H10.
  by apply success_end.
Qed.

(** ** What the cloud says *)

(** What the cloud's answer never changes. *)
Definition base (s s' : pstate) : Prop :=
  let h := ps_host s in
  let h' := ps_host s' in
  ph_id h' = ph_id h ∧ ph_type h' = ph_type h ∧ ph_has_token h' = ph_has_token h ∧ ph_fingerprint h' = ph_fingerprint h ∧
  ph_last_health h' = ph_last_health h ∧ wf s'.

(** A host that is kept: still in its state or active again; its agent as it was, or being
    reinstalled because its address changed. *)
Definition kept (s s' : pstate) : Prop :=
  let h := ps_host s in
  let h' := ps_host s' in
  base s s' ∧ (ph_state h' = ph_state h ∨ ph_state h ∈ ["paused"; "stopped"] ∧ ph_state h' = "active") ∧
  (ph_agent_status h' = ph_agent_status h ∨ ph_agent_status h' = "waiting_ssh" ∧ ph_ip h' ≠ ph_ip h) ∧
  (ps_skip s' = ps_skip s ∨ ps_skip s' = delete (ph_id h) (ps_skip s)).

Definition paused (s s' : pstate) : Prop :=
  base s s' ∧ ph_state (ps_host s') = "paused" ∧ ph_agent_status (ps_host s') = "disconnected".

Definition stopped (a : answers) (s s' : pstate) : Prop :=
  base s s' ∧ ph_state (ps_host s') = "stopped" ∧ ph_agent_status (ps_host s') = "disconnected" ∧
  ps_skip s' = <[ph_id (ps_host s) := a_now a + seconds 86400]> (ps_skip s).

Definition clouded (a : answers) (s s' : pstate) (b : bool) : Prop :=
  if b then stopped a s s' else paused s s' ∨ kept s s'.

Lemma kept_refl s : wf s → kept s s.
Proof. intros Hs. unfold kept, base. split_and!; auto. Qed.

Lemma kept_same s1 s2 s3 : kept s1 s2 → same s2 s3 → wf s3 → kept s1 s3.
Proof.
  unfold kept, base, same. intros H1 H2 Hw. destruct_and!.
  replace (ph_state (ps_host s3)) with (ph_state (ps_host s2)) by done.
  replace (ph_agent_status (ps_host s3)) with (ph_agent_status (ps_host s2)) by done.
  replace (ph_ip (ps_host s3)) with (ph_ip (ps_host s2)) by done.
  replace (ps_skip s3) with (ps_skip s2) by done.
  split_and!; try done; congruence.
Qed.

(** Midway: the address has changed. *)
Definition moved (s s' : pstate) : Prop := kept s s' ∧ ph_ip (ps_host s') ≠ ph_ip (ps_host s).

Lemma wp_moved {A B} s0 (m : poll A) (f : A → poll B) s (Q : pstate → res B → Prop) :
  quiet m → moved s0 s → (∀ s' x, moved s0 s' → wp (f x) s' Q) → (∀ s' e, kept s0 s' → Q s' (Raise e)) →
  wp (pbind m f) s Q.
Proof.
  intros Hm [Hk Hip] Hok Hraise. apply wp_quiet; [done|by apply Hk| |]; intros s' x Hsame Hw.
  - apply Hok. split; [by eapply kept_same|]. unfold same in Hsame. destruct_and!. congruence.
  - apply Hraise. by eapply kept_same.
Qed.

Lemma aside_sslip provider ip : quiet (apply_sslip_console_for_ip provider ip).
Proof.
  unfold apply_sslip_console_for_ip. quiet. 
Qed.

(** A stopped host whose address changed is active again. *)
Lemma moved_active s0 s :
  moved s0 s → ph_state (ps_host s0) = "stopped" → moved s0 (on_host (with_state "active") s).1.
Proof.
  intros [Hk Hip] Hst. unfold moved, kept, base, wf in *. destruct s as [h sk pl ex ev]; destruct h; cbn in *.
  destruct_and!. split_and!; try done. right. rewrite Hst. split; [set_solver|done].
Qed.

Lemma reinstall_spec a s0 s :
  moved s0 s → wp (enqueue_agent_reinstall_for_ip_change a) s (λ s' r, r = Ok () ∧ kept s0 s').
Proof.
  intros [Hk Hip]. unfold enqueue_agent_reinstall_for_ip_change, wp, ptry, pbind. cbn [the_host].
  case_bool_decide; [done|]. cbn [on_host plift].
  assert (Hw : kept s0 (mkPState (with_agent "waiting_ssh" (ps_host s)) (ps_skip s) (ps_pools s) (ps_extended s) (ps_events s))).
  { unfold kept, base, wf in *. destruct s as [h sk pl ex ev]; destruct h; cbn in *. destruct_and!. split_and!; try done. by right. }
  destruct (a_queue a); cbn; [split; [done|]|by split]. exact Hw.
Qed.

Lemma sync_ip_spec a provider status s :
  wf s → wp (sync_host_public_ip a provider status) s (λ s' r, kept s s').
Proof.
  intros Hs. unfold sync_host_public_ip. apply wp_lift; [intros ip _|intros; by apply kept_refl].
  destruct ip; try (by apply kept_refl). apply wp_bind. unfold wp at 1. cbn [the_host fst snd].
  destruct (_ || _) eqn:E; [by apply kept_refl|]. apply orb_false_elim in E as [_ E]. apply bool_decide_eq_false in E.
  apply wp_bind. unfold wp at 1. cbn [on_host fst snd]. set (s1 := mkPState _ _ _ _ _).
  assert (H1 : moved s s1).
  { unfold s1, moved, kept, base, wf in *. destruct s as [h sk pl ex ev]; destruct h; cbn in *. split_and!; auto. }
  assert (Hst : ph_state (ps_host s1) = ph_state (ps_host s)) by (unfold s1; by destruct (ps_host s)).
  clearbody s1. apply (wp_moved s); [apply aside_lift|done| |done]. intros s2 private H2.
  apply (wp_moved s); [quiet|done| |done]. intros s3 _ H3.
  apply wp_bind. assert (Hact : moved s (((if String.eqb (ph_state (ps_host s)) "stopped"
                                           then on_host (with_state "active") else pret ()) s3).1)).
  { destruct (String.eqb _ "stopped") eqn:Es; [|done]. apply String.eqb_eq in Es. by apply moved_active. }
  unfold wp at 1. assert (Hok : ((if String.eqb (ph_state (ps_host s)) "stopped" then on_host (with_state "active")
                                  else pret ()) s3).2 = Ok ()) by (by destruct (String.eqb _ _)).
  rewrite Hok. revert Hact. generalize (((if String.eqb (ph_state (ps_host s)) "stopped"
    then on_host (with_state "active") else pret ()) s3).1). clear Hok. intros s4 H4.
  apply (wp_moved s); [apply aside_sslip|done| |done]. intros s5 changed H5.
  apply wp_bind. unfold wp at 1. cbn [skip_pop fst snd]. set (s6 := mkPState _ _ _ _ _).
  assert (H6 : moved s s6).
  { destruct H5 as [Hk Hip]. split; [|done]. unfold kept, base, wf in *. cbn. destruct_and!. split_and!; try done. right.
    replace (ph_id (ps_host s5)) with (ph_id (ps_host s)) by done.
    match goal with H : ps_skip s5 = _ ∨ _ |- _ => destruct H as [-> | ->] end; [done|by rewrite delete_delete_eq]. }
  clearbody s6. destruct (_ && _); [|apply H6]. eapply wp_mono; [by apply reinstall_spec|]. by intros s' r [_ ?].
Qed.

Lemma mark_paused_spec a status s :
  wf s → wp (mark_host_paused a status) s (λ s' r, paused s s' ∧ (r = Ok false ∨ ∃ e, r = Raise e)).
Proof.
  intros Hs. unfold mark_host_paused. apply wp_bind. unfold wp at 1. cbn [on_host fst snd].
  apply wp_bind. unfold wp at 1. cbn [on_host fst snd ps_host ps_skip ps_pools ps_extended ps_events].
  set (s1 := mkPState _ _ _ _ _).
  assert (H1 : paused s s1).
  { unfold s1, paused, base, wf in *. destruct s as [h sk pl ex ev]; destruct h; cbn in *. by split_and!. }
  clearbody s1. apply wp_lift; [intros reason _|intros e _; split; [done|right; by eexists]].
  apply wp_bind. unfold wp at 1. cbn [the_host fst snd].
  apply wp_lift; [intros ws Hws|intros e _; split; [done|right; by eexists]]. apply wf_merged_paused in Hws.
  unfold wp, pbind. cbn. split; [|by left]. unfold paused, base, wf in *. destruct (ps_host s1); cbn in *.
  destruct_and!. by split_and!.
Qed.

(** Two steps, the first of which only resumed the host. *)
Lemma kept_trans s s1 s2 :
  kept s s1 → ps_skip s1 = ps_skip s → ph_ip (ps_host s1) = ph_ip (ps_host s) →
  ph_agent_status (ps_host s1) = ph_agent_status (ps_host s) → kept s1 s2 → kept s s2.
Proof.
  unfold kept, base. intros (Hb & Hst & _ & _) Hsk Hip Hag (Hb2 & Hst2 & Hag2 & Hsk2).
  destruct Hb as (Hid & ? & ? & ? & ? & ?). destruct Hb2 as (? & ? & ? & ? & ? & ?).
  rewrite Hip, Hag in Hag2. rewrite Hsk, Hid in Hsk2.
  split; [split_and!; (done || congruence)|]. split; [|by split].
  destruct Hst as [Hst|[Hin Hst]], Hst2 as [Hst2|[Hin2 Hst2]].
  - left. congruence.
  - right. by rewrite <-Hst.
  - right. split; [done|congruence].
  - by right.
Qed.

Lemma sync_with_cloud_spec a provider s :
  wf s → wp (sync_with_cloud a provider) s
    (λ s' r, clouded a s s' (match r with Ok b => b | Raise _ => false end)).
Proof.
  intros Hs. assert (Hrefl : clouded a s s false) by (right; by apply kept_refl).
  unfold sync_with_cloud. apply wp_lift; [intros status0 _|done]. apply wp_lift; [intros power _|done].
  case_bool_decide.
  { unfold wp, mark_host_stopped, pbind. cbn. unfold stopped, base, wf in *. destruct s as [h sk pl ex ev]; destruct h; cbn in *.
    by split_and!. }
  destruct (String.eqb power "paused").
  { eapply wp_mono; [by apply mark_paused_spec|]. intros s' r [Hp [->|[e ->]]]; by left. }
  apply wp_bind. unfold wp at 1. cbn [the_host fst snd].
  assert (Hip : ∀ s1, kept s s1 → ps_skip s1 = ps_skip s → ph_ip (ps_host s1) = ph_ip (ps_host s) →
    ph_agent_status (ps_host s1) = ph_agent_status (ps_host s) →
    wp (sync_host_public_ip a provider (match status0 with VDict _ => status0 | _ => empty_dict end);* pret false) s1
      (λ s' r, clouded a s s' (match r with Ok b => b | Raise _ => false end))).
  { intros s1 Hk1 Hsk Hip1 Hag1. apply wp_bind. eapply wp_mono; [apply sync_ip_spec, Hk1|]. intros s' r Hk.
    destruct r; right; by eapply kept_trans. }
  destruct (_ && _) eqn:E; [|apply wp_bind; by apply Hip; [apply kept_refl|..]].
  apply andb_true_iff in E as [_ E]. apply String.eqb_eq in E.
  destruct (clear_warning_ok "vm-paused" (ph_warnings (ps_host s))) as [ws Hws]; [exact Hs|].
  pose proof (wf_cleared _ _ _ Hs Hws) as Hwf. apply wp_bind. unfold wp at 1, pbind at 1, clear_paused_warning.
  cbn [on_host fst snd]. unfold pbind, plift. rewrite Hws. cbn [on_host fst snd]. unfold kept, base, wf in *.
  apply Hip; destruct s as [h sk pl ex ev]; destruct h; cbn in *; try done.
  split_and!; try done; [|by left..]. right. rewrite E. split; [apply list_elem_of_here|done].
Qed.

(** The cloud is always asked without an exception. *)
Lemma sync_spec providers a s :
  wf s → wp (sync_cloud_powerstate providers a) s (λ s' r, ∃ b, r = Ok b ∧ clouded a s s' b).
Proof.
  intros Hs. assert (Hrefl : ∃ b, @Ok bool false = Ok b ∧ clouded a s s b).
  { exists false. split; [done|]. right. by apply kept_refl. }
  unfold sync_cloud_powerstate. apply wp_bind. unfold wp at 1. cbn [the_host fst snd].
  destruct (String.eqb _ _); [done|]. destruct (ph_instance_id _) as [[|c i]|]; [done| |done].
  destruct (ph_provider_id _) as [[|d p]|]; [done| |done]. apply wp_try.
  destruct (provider_of _ _) as [provider|]; [|done]. destruct (String.eqb _ _); [done|].
  eapply wp_mono; [by apply sync_with_cloud_spec|]. intros s' [b|e] H; by eexists.
Qed.

(** ** An unhealthy answer *)

Section Failure.
(** The time without an answer after which a host is given up. *)
Context (configured : option Z).

(** What a failure leaves: the host is stopped or paused, or it is retried within a minute. *)
Definition failed (a : answers) (s s' : pstate) : Prop :=
  base s s' ∧
  (ph_state (ps_host s') = "active" → ∃ t,
     ps_skip s' !! ph_id (ps_host s) = Some t ∧ t ≤ a_now a + seconds 60) ∧
  (ph_state (ps_host s) = "active" → ph_agent_status (ps_host s) = "connected" →
   ph_state (ps_host s') ∈ ["stopped"; "paused"] ∨
   ph_agent_status (ps_host s') = "connected" ∨
   ph_agent_status (ps_host s') = "waiting_ssh" ∧ ph_ip (ps_host s') ≠ ph_ip (ps_host s) ∨
   ph_agent_status (ps_host s') = "disconnected" ∧
     ∃ t, ph_last_health (ps_host s) = Some t ∧ seconds (DISCONNECT_AFTER_SECONDS configured) < a_now a - t).

Lemma retry_spec a t s0 s :
  base s0 s → t ≤ a_now a + seconds 60 →
  (ph_state (ps_host s0) = "active" → ph_agent_status (ps_host s0) = "connected" →
   ph_state (ps_host s) ∈ ["stopped"; "paused"] ∨ ph_agent_status (ps_host s) = "connected" ∨
   ph_agent_status (ps_host s) = "waiting_ssh" ∧ ph_ip (ps_host s) ≠ ph_ip (ps_host s0) ∨
   ph_agent_status (ps_host s) = "disconnected" ∧
     ∃ t, ph_last_health (ps_host s0) = Some t ∧ seconds (DISCONNECT_AFTER_SECONDS configured) < a_now a - t) →
  wp (skip_until t) s (λ s' r, r = Ok () ∧ failed a s0 s').
Proof.
  intros Hb Ht Hlost. split; [done|]. split; [done|]. split; [|done]. intros _. exists t. cbn.
  destruct Hb as (-> & _). by rewrite lookup_insert_eq.
Qed.

Lemma aside_warn a : quiet (warn_agent_unreachable a).
Proof.
  intros s Hs. unfold warn_agent_unreachable. apply wp_bind. unfold wp at 1. cbn [the_host fst snd].
  destruct (_ && _); [|by apply aside_ret]. apply wp_lift; [intros ws Hws|intros; split; [apply same_refl|done]].
  edestruct merge_unreachable_ok as [l Hl]; [exact Hs|]. rewrite Hl in Hws. injection Hws as <-.
  apply aside_on_host; [apply aside_warnings; right; by eexists|done].
Qed.

Lemma warn_ok a s : wf s → (warn_agent_unreachable a s).2 = Ok ().
Proof.
  intros Hs. unfold warn_agent_unreachable, pbind, the_host, plift. destruct (_ && _); [|done].
  edestruct merge_unreachable_ok as [l Hl]; [exact Hs|]. by rewrite Hl.
Qed.

Lemma base_same s1 s2 s3 : base s1 s2 → same s2 s3 → wf s3 → base s1 s3.
Proof. unfold base, same. intros H1 H2 Hw. destruct_and!. split_and!; try done; congruence. Qed.

(** The agent of a host the cloud still knows as it was, or as moved. *)
Definition still (s s' : pstate) : Prop :=
  ph_agent_status (ps_host s') = ph_agent_status (ps_host s) ∨
  ph_agent_status (ps_host s') = "waiting_ssh" ∧ ph_ip (ps_host s') ≠ ph_ip (ps_host s).

Lemma still_same s1 s2 s3 : still s1 s2 → same s2 s3 → still s1 s3.
Proof.
  unfold still, same. intros H1 H2. destruct_and!.
  replace (ph_agent_status (ps_host s3)) with (ph_agent_status (ps_host s2)) by done.
  by replace (ph_ip (ps_host s3)) with (ph_ip (ps_host s2)) by done.
Qed.

(** The last part of a failure, for a host of which the cloud says nothing. *)
Lemma failure_end a s0 s :
  base s0 s → still s0 s →
  wp (match String.eqb (ph_agent_status (ps_host s)) "connected", ph_last_health (ps_host s) with
      | true, Some t =>
          if seconds (DISCONNECT_AFTER_SECONDS configured) <? a_now a - t
          then on_host (with_agent "disconnected");* skip_until (a_now a + seconds 30)
          else skip_until (a_now a + seconds 15)
      | _, _ =>
          if String.eqb (ph_agent_status (ps_host s)) "disconnected" then schedule_disconnected_retry a
          else skip_until (a_now a + seconds 60)
      end) s (λ s' r, r = Ok () ∧ failed a s0 s').
Proof.
  intros Hb Hst.
  assert (Hconn : ph_state (ps_host s0) = "active" → ph_agent_status (ps_host s0) = "connected" →
    ph_agent_status (ps_host s) = "connected" ∨
    ph_agent_status (ps_host s) = "waiting_ssh" ∧ ph_ip (ps_host s) ≠ ph_ip (ps_host s0)).
  { intros _ Hc. rewrite <-Hc at 1. exact Hst. }
  assert (Hplain : ∀ n, n ≤ seconds 60 → wp (skip_until (a_now a + n)) s (λ s' r, r = Ok () ∧ failed a s0 s')).
  { intros n Hn. apply retry_spec; [done|lia|]. intros Ha Hc. destruct (Hconn Ha Hc); auto. }
  assert (Hlast : wp (if String.eqb (ph_agent_status (ps_host s)) "disconnected" then schedule_disconnected_retry a
                      else skip_until (a_now a + seconds 60)) s (λ s' r, r = Ok () ∧ failed a s0 s')).
  { destruct (String.eqb _ "disconnected") eqn:Ed; [|apply Hplain; unfold seconds; lia]. apply String.eqb_eq in Ed.
    unfold schedule_disconnected_retry. apply wp_bind. unfold wp at 1. cbn [the_host fst snd].
    destruct (_ && _); [|apply Hplain; unfold seconds; lia]. split; [done|].
    unfold failed, base, wf in *. destruct s as [h sk pl ex ev]; destruct h; cbn in *. destruct_and!.
    split_and!; try done. intros Ha Hc. left. apply list_elem_of_here. }
  destruct (String.eqb _ "connected") eqn:Ec; [|done]. apply String.eqb_eq in Ec.
  destruct (ph_last_health (ps_host s)) as [t|] eqn:Et; [|done].
  destruct (seconds (DISCONNECT_AFTER_SECONDS configured) <? a_now a - t) eqn:Elt; [|apply Hplain; unfold seconds; lia].
  apply Z.ltb_lt in Elt. apply wp_bind. unfold wp at 1. cbn [on_host fst snd].
  unfold base, wf in Hb. destruct Hb as (?&?&?&?&Hl&Hw). rewrite Et in Hl.
  apply retry_spec; [|unfold seconds; lia|].
  - unfold base, wf. destruct s as [h sk pl ex ev]; destruct h; cbn in *. split_and!; (done || congruence).
  - intros _ _. right; right; right. split; [by destruct (ps_host s)|]. exists t. split; [congruence|done].
Qed.

Lemma failure_spec providers a s :
  wf s → wp (handle_health_failure configured providers a) s (λ s' r, r = Ok () ∧ failed a s s').
Proof.
  intros Hs. unfold handle_health_failure. apply wp_bind.
  eapply wp_mono; [by apply sync_spec|]. intros s1 r (b & -> & Hc). destruct b.
  { destruct Hc as (Hb & Hst & Hag & Hsk). split; [done|]. split; [done|]. split; [cbn; by rewrite Hst|].
    intros _ _. left. cbn. rewrite Hst. apply list_elem_of_here. }
  apply wp_bind. unfold wp at 1. cbn [the_host fst snd].
  assert (Hb : base s s1) by (by destruct Hc as [[? _]|[? _]]).
  destruct (String.eqb _ "paused") eqn:Ep.
  { apply String.eqb_eq in Ep. apply retry_spec; [done|unfold seconds; lia|]. intros _ _. left. rewrite Ep.
    apply list_elem_of_further, list_elem_of_here. }
  destruct Hc as [(_ & Hp & _)|(_ & _ & Hst & _)]; [by rewrite Hp in Ep|].
  assert (Hw : wf s1) by apply Hb. destruct (aside_warn a s1 Hw) as [Hsame Hw2]. pose proof (warn_ok a s1 Hw) as Hok.
  apply wp_bind. unfold wp at 1. rewrite Hok. set (s2 := (warn_agent_unreachable a s1).1) in *. clearbody s2.
  assert (Ha : ph_agent_status (ps_host s1) = ph_agent_status (ps_host s2)) by (symmetry; apply Hsame).
  assert (Hl : ph_last_health (ps_host s1) = ph_last_health (ps_host s2)) by (symmetry; apply Hsame).
  rewrite Ha, Hl. apply failure_end; [by eapply base_same|by eapply still_same].
Qed.

End Failure.

(** ** Computations only touch the entry of their own host *)

Definition frame (s s' : pstate) : Prop :=
  ph_id (ps_host s') = ph_id (ps_host s) ∧ ∀ k, k ≠ ph_id (ps_host s) → ps_skip s' !! k = ps_skip s !! k.
Definition local {A} (m : poll A) : Prop := ∀ s, frame s (m s).1.

Lemma frame_trans s1 s2 s3 : frame s1 s2 → frame s2 s3 → frame s1 s3.
Proof. unfold frame. intros [H1 K1] [H2 K2]. split; [congruence|]. intros k Hk. rewrite K2 by congruence. auto. Qed.

Lemma local_ret {A} (a : A) : local (pret a). Proof. by intros s. Qed.
Lemma local_lift {A} (r : res A) : local (plift r). Proof. by intros s. Qed.
Lemma local_host : local the_host. Proof. by intros s. Qed.
Lemma local_emit e : local (emit e). Proof. by intros s. Qed.
Lemma local_mark a t : local (mark_extended a t). Proof. by intros s. Qed.
Lemma local_skip t : local (skip_until t).
Proof. intros s. split; [done|]. intros k Hk. cbn. by rewrite lookup_insert_ne. Qed.
Lemma local_pop : local skip_pop.
Proof. intros s. split; [done|]. intros k Hk. cbn. by rewrite lookup_delete_ne. Qed.
Lemma local_on_host f : (∀ h, ph_id (f h) = ph_id h) → local (on_host f).
Proof. intros Hf s. split; [apply Hf|done]. Qed.

Lemma local_bind {A B} (m : poll A) (f : A → poll B) : local m → (∀ a, local (f a)) → local (pbind m f).
Proof.
  intros Hm Hf s. unfold pbind. specialize (Hm s). destruct (m s) as [s1 [a|e]]; [|done].
  eapply frame_trans; [exact Hm|apply Hf].
Qed.
Lemma local_try {A} (m h : poll A) : local m → local h → local (ptry m h).
Proof.
  intros Hm Hh s. unfold ptry. specialize (Hm s). destruct (m s) as [s1 [a|e]]; [done|].
  eapply frame_trans; [exact Hm|apply Hh].
Qed.

Ltac local :=
  repeat (first [ progress intros | solve [simple apply local_host | auto 1 with poll] | apply local_bind | apply local_try
                | match goal with |- local (match ?x with _ => _ end) => destruct x end ]);
  first [ apply local_ret | apply local_lift | apply local_host | apply local_emit | apply local_mark | apply local_skip
        | apply local_pop | (apply local_on_host; intros []; reflexivity) | auto with poll ].

Lemma frame_at {A} (m : poll A) s : local m → frame s (m s).1.
Proof. auto. Qed.

Lemma frame_moved s s1 s2 :
  ph_id (ps_host s1) = ph_id (ps_host s) → ps_skip s1 = ps_skip s → frame s1 s2 → frame s s2.
Proof. unfold frame. intros -> ->. auto. Qed.

Lemma local_auto_extend providers a : local (handle_storage_auto_extend providers a).
Proof.
  unfold handle_storage_auto_extend. apply local_try; [|local]. intros s.
  destruct (should_extend_host _ _ _) as [w|e]; [|done]. destruct (provider_of _ _); [|done]. destruct w; [|done].
  apply frame_at. local.
Qed.

Lemma local_pool_extend pools a health : local (handle_pool_fsx_extend pools a health).
Proof.
  intros s. unfold handle_pool_fsx_extend. destruct (ph_pool _) as [id|]; [|done].
  case_bool_decide; [done|]. destruct (pool_of pools _) as [pool|]; [|done].
  destruct (negb _); [done|]. eapply frame_moved; [..|apply frame_at; local]; done.
Qed.
#[export] Hint Resolve local_auto_extend local_pool_extend : poll.

Lemma local_success providers pools a health : local (handle_health_success providers pools a health).
Proof. unfold handle_health_success, apply_uplink_mtu, sync_capacity, check_mesh_health. local. Qed.

Lemma local_sync providers a : local (sync_cloud_powerstate providers a).
Proof.
  unfold sync_cloud_powerstate, sync_with_cloud, mark_host_stopped, mark_host_paused, sync_host_public_ip,
    enqueue_agent_reinstall_for_ip_change, apply_sslip_console_for_ip. local.
Qed.
#[export] Hint Resolve local_success local_sync : poll.

Lemma local_failure configured providers a : local (handle_health_failure configured providers a).
Proof. unfold handle_health_failure, warn_agent_unreachable, schedule_disconnected_retry. local. Qed.

Lemma local_kubevirt providers a : local (poll_kubevirt_host providers a).
Proof. unfold poll_kubevirt_host, refresh_kubevirt_eip_capacity, apply_uplink_mtu. local. Qed.
#[export] Hint Resolve local_failure local_kubevirt : poll.

Lemma local_poll configured providers pools a now : local (poll_host configured providers pools a now).
Proof.
  intros s. unfold poll_host. destruct (String.eqb _ _); [apply frame_at; local|].
  assert (Hrest : frame s ((if match ps_skip s !! ph_id (ps_host s) with
                                | Some t => negb (t =? 0) && (now <? t) | None => false end then (s, Ok (false, false))
      else ptry (let* health := plift (a_health a) in
                if truthy health then handle_health_success providers pools a health;* pret (true, false)
                else handle_health_failure configured providers a;* pret (true, true))
            (handle_health_failure configured providers a;* pret (true, true)) s).1)).
  { match goal with |- context [if ?b then _ else _] => destruct b end; [done|]. apply frame_at. local. }
  destruct (ph_fingerprint _) as [[|c f]|]; [apply frame_at; local|exact Hrest|apply frame_at; local].
Qed.

(** ** One host *)

Section Limit.
(** The time without an answer after which a host is given up; it is not negative. *)
Context (configured : option Z) (Hlimit : 0 ≤ DISCONNECT_AFTER_SECONDS configured).

(** What no poll changes of a row, and that rows stay well formed. *)
Definition identified (s s' : pstate) : Prop :=
  let h := ps_host s in
  let h' := ps_host s' in
  ph_id h' = ph_id h ∧ ph_type h' = ph_type h ∧ ph_has_token h' = ph_has_token h ∧
  ph_fingerprint h' = ph_fingerprint h ∧ wf s'.

(** Why a connected host may be anything else after a poll at [now]. *)
Definition given_up (now : Z) (h h' : phost) : Prop :=
  ph_state h' ∈ ["stopped"; "paused"] ∨
  ph_agent_status h' = "waiting_ssh" ∧ ph_ip h' ≠ ph_ip h ∨
  ph_agent_status h' = "disconnected" ∧ ∃ t, ph_last_health h = Some t ∧ seconds (DISCONNECT_AFTER_SECONDS configured) < now - t.

(** When a host may be polled again. *)
Definition soon (t : Z) (entry : option Z) : Prop := ∀ u, entry = Some u → u ≤ t + seconds 60.

Lemma soon_le t t' e : t ≤ t' → soon t e → soon t' e.
Proof. intros Ht H u Hu. specialize (H u Hu). lia. Qed.

(** What a poll of one host guarantees. *)
Definition polled_ok (a : answers) (s s' : pstate) : Prop :=
  identified s s' ∧
  (ph_type (ps_host s) ≠ "kubevirt-cluster" → ph_state (ps_host s) = "active" →
   ph_agent_status (ps_host s) = "connected" →
   ph_agent_status (ps_host s') = "connected" ∨ given_up (a_now a) (ps_host s) (ps_host s')) ∧
  (ph_state (ps_host s') = "active" →
   ps_skip s' !! ph_id (ps_host s) = ps_skip s !! ph_id (ps_host s) ∨
   soon (a_now a) (ps_skip s' !! ph_id (ps_host s))).

Lemma polled_refl a s : wf s → polled_ok a s s.
Proof. intros Hs. unfold polled_ok, identified. split_and!; auto. Qed.

Lemma polled_of_failed a s s' : failed configured a s s' → polled_ok a s s'.
Proof.
  intros (Hb & Hact & Hlost). unfold base in Hb. destruct_and!. split; [by split_and!|]. split.
  - intros _ Ha Hc. destruct (Hlost Ha Hc) as [?|[?|[?|?]]]; unfold given_up; auto.
  - intros Ha. right. destruct (Hact Ha) as (t & -> & Ht). by intros u [= <-].
Qed.

(** After an answer that raised midway the failure finds the host just seen. *)
Lemma polled_of_both a s s1 s2 : healthy a s s1 → failed configured a s1 s2 → polled_ok a s s2.
Proof.
  intros Hh (Hb & Hact & Hlost). unfold base, healthy in *. destruct Hh as (Hid&Hty&Htok&Hfp&Hip&Hl&Hsk&Hst&Hag).
  destruct Hb as (?&?&?&?&?&?). split; [unfold identified; split_and!; (done || congruence)|]. split.
  - intros _ Ha Hc. assert (Ha1 : ph_state (ps_host s1) = "active") by (destruct Hst as [|[? ?]]; congruence).
    assert (Hc1 : ph_agent_status (ps_host s1) = "connected") by (destruct Hag; congruence).
    destruct (Hlost Ha1 Hc1) as [?|[?|[[? ?]|[? (t & Ht & Hlt)]]]]; unfold given_up; auto.
    + right; right; left. split; [done|congruence].
    + exfalso. assert (t = a_now a) by congruence. subst t. unfold seconds in Hlt. lia.
  - intros Ha. right. rewrite <-Hid. destruct (Hact Ha) as (t & -> & Ht). by intros u [= <-].
Qed.

Lemma polled_of_success a s s' : success_post a s s' (Ok ()) → polled_ok a s s'.
Proof.
  intros (Hh & Hw & Hag). unfold healthy in Hh. destruct_and!. split; [by split_and!|]. split.
  - intros _ _ Hc. left. rewrite Hag, Hc by done. by case_bool_decide.
  - intros _. right. replace (ps_skip s') with (delete (ph_id (ps_host s)) (ps_skip s)) by done.
    rewrite lookup_delete_eq. by intros ?.
Qed.

Lemma polled_of_cloud a s s' b : clouded a s s' b → polled_ok a s s'.
Proof.
  assert (Hbase : base s s' → identified s s') by (unfold base, identified; intros; destruct_and!; by split_and!).
  intros Hc. destruct b; [destruct Hc as (Hb & Hst & _)|destruct Hc as [(Hb & Hst & _)|(Hb & Hst & Hag & Hsk)]].
  - split; [auto|]. rewrite Hst. split; [|done]. intros _ _ _. right. left. rewrite Hst. apply list_elem_of_here.
  - split; [auto|]. rewrite Hst. split; [|done]. intros _ _ _. right. left. rewrite Hst.
    apply list_elem_of_further, list_elem_of_here.
  - split; [auto|]. split.
    + intros _ _ Hc. destruct Hag as [Hag|Hag]; [left; congruence|right; right; by left].
    + intros _. destruct Hsk as [->|Hsk]; [by left|right]. rewrite Hsk, lookup_delete_eq. by intros ?.
Qed.

(** A cluster's host only changes its agent, its time and what does not decide. *)
Definition settled (s s' : pstate) : Prop :=
  identified s s' ∧ ph_state (ps_host s') = ph_state (ps_host s) ∧ ps_skip s' = ps_skip s.

Lemma settled_same s1 s2 s3 : settled s1 s2 → same s2 s3 → wf s3 → settled s1 s3.
Proof. unfold settled, identified, same. intros H1 H2 Hw. destruct_and!. split_and!; (done || congruence). Qed.

Lemma wp_settled {A B} s0 (m : poll A) (f : A → poll B) s (Q : pstate → res B → Prop) :
  quiet m → settled s0 s → (∀ s' x, settled s0 s' → wp (f x) s' Q) → (∀ s' e, settled s0 s' → Q s' (Raise e)) →
  wp (pbind m f) s Q.
Proof.
  intros Hm Hs Hok Hraise. apply wp_quiet; [done|apply Hs| |]; intros s' x Hsame Hw.
  - apply Hok. by eapply settled_same.
  - apply Hraise. by eapply settled_same.
Qed.

Lemma settled_agent s0 s v : settled s0 s → settled s0 (on_host (with_agent v) s).1.
Proof. unfold settled, identified, wf. destruct s as [h sk pl ex ev]; destruct h; cbn. intros H. destruct_and!. by split_and!. Qed.

Lemma settled_health s0 s v : settled s0 s → settled s0 (on_host (with_health v) s).1.
Proof. unfold settled, identified, wf. destruct s as [h sk pl ex ev]; destruct h; cbn. intros H. destruct_and!. by split_and!. Qed.

Lemma wf_ceph a : wf_warnings (kubevirt_ceph_storage_warnings a).
Proof. unfold kubevirt_ceph_storage_warnings. destruct (bind _ _) as [[w|]|e]; [right; by eexists|by left..]. Qed.

Lemma aside_refresh a : quiet (refresh_kubevirt_eip_capacity a).
Proof. unfold refresh_kubevirt_eip_capacity. quiet. Qed.

Lemma kubevirt_spec providers a s :
  wf s → wp (poll_kubevirt_host providers a) s (λ s' r, r = Ok () ∧ settled s s').
Proof.
  intros Hs. assert (H0 : settled s s) by (unfold settled, identified; by split_and!).
  unfold poll_kubevirt_host. apply wp_try.
  apply (wp_mono _ _ (λ s' r, settled s s')).
  2:{ intros s' [[]|e] H; [done|]. split; [done|]. by apply settled_agent. }
  apply (wp_settled s); [quiet|done| |done]. intros s1 h H1. destruct (provider_of _ _); [|done].
  apply (wp_settled s); [quiet|done| |done]. intros s2 status H2. destruct (truthy status); [|by apply settled_agent].
  apply wp_bind. unfold wp at 1. apply (settled_agent s s2 "connected") in H2.
  change ((on_host (with_agent "connected") s2).2) with (Ok ()). cbn match.
  set (s3 := (on_host _ s2).1) in *. clearbody s3.
  apply wp_bind. unfold wp at 1. apply (settled_health s s3 (a_now a)) in H2.
  change ((on_host (with_health (a_now a)) s3).2) with (Ok ()). cbn match.
  set (s4 := (on_host _ s3).1) in *. clearbody s4.
  apply (wp_settled s); [apply aside_apply_mtu|done| |done]. intros s5 _ H5.
  apply (wp_settled s); [apply aside_refresh|done| |done]. intros s6 _ H6.
  destruct (aside_on_host _ (aside_warnings _ (wf_ceph a)) s6) as [Hsame Hw]; [apply H6|]. by eapply settled_same.
Qed.

(** Whatever the agent and the cloud answer, the poll of a host ends with an answer. *)
Lemma poll_spec providers pools a now s :
  wf s → wp (poll_host configured providers pools a now) s (λ s' r, (∃ b f, r = Ok (b, f)) ∧ polled_ok a s s').
Proof.
  intros Hs. unfold poll_host, wp. destruct (String.eqb _ _) eqn:Et.
  { apply String.eqb_eq in Et.
    eapply wp_bind, wp_mono; [by apply kubevirt_spec|]. intros s' r [-> (Hid & Hst & Hsk)].
    split; [by do 2 eexists|]. split; [done|]. split; [by intros ?|]. intros _. left. cbn. by rewrite Hsk. }
  assert (Hcloud : wp (let* stopped := sync_cloud_powerstate providers a in pret (stopped, stopped)) s
    (λ s' r, (∃ b f, r = Ok (b, f)) ∧ polled_ok a s s')).
  { apply wp_bind. eapply wp_mono; [by apply sync_spec|]. intros s' r (b & -> & Hc). split; [by do 2 eexists|].
    by eapply polled_of_cloud. }
  destruct (ph_fingerprint _) as [[|c fp]|]; [exact Hcloud| |exact Hcloud].
  match goal with |- context [if ?b then _ else _] => destruct b end; [split; [by do 2 eexists|by apply polled_refl]|].
  assert (Hfail : ∀ s1, wf s1 → (∀ s2, failed configured a s1 s2 → polled_ok a s s2) →
    wp (handle_health_failure configured providers a;* pret (true, true)) s1 (λ s' r, (∃ b f, r = Ok (b, f)) ∧ polled_ok a s s')).
  { intros s1 H1 Hp. apply wp_bind. eapply wp_mono; [by apply failure_spec|]. intros s' r [-> Hf].
    split; [by do 2 eexists|auto]. }
  pose proof (Hfail s Hs (polled_of_failed a s)) as Hown.
  apply wp_try. apply wp_lift; [intros health _|intros e _; exact Hown].
  destruct (truthy health).
  - apply wp_bind. eapply wp_mono; [by apply success_spec|]. intros s' [[]|e] Hp.
    + split; [by do 2 eexists|by apply polled_of_success].
    + apply Hfail; [apply Hp|]. intros s2. apply polled_of_both, Hp.
  - eapply wp_mono; [exact Hown|]. intros s' [?|?] [(b & f & Hr) Hp]; [|done]. split; [|done]. by do 2 eexists.
Qed.

(** ** A cycle *)

Section Cycle.
Context (providers : list pprovider) (pools : list ppool) (world : string → answers) (now : Z).
Notation loop := (poll_loop configured providers pools world now).

(** What a cycle guarantees of a row. *)
Definition host_ok (h h' : phost) : Prop :=
  ph_id h' = ph_id h ∧ wf_warnings (ph_warnings h') ∧ (polled h = false → h' = h) ∧
  (polled h = true → ph_type h ≠ "kubevirt-cluster" → ph_agent_status h = "connected" →
   ph_agent_status h' = "connected" ∨ given_up (a_now (world (ph_id h))) h h').

(** The step of the loop at a row the query gives. *)
Definition at_host (c : cycle) (h : phost) : pstate * res (bool * bool) :=
  poll_host configured providers pools (world (ph_id h)) now (mkPState h (cy_skip c) (cy_pools c) (cy_extended c) (cy_events c)).

Lemma at_host_spec c h :
  wf_warnings (ph_warnings h) →
  ∃ s b f, at_host c h = (s, Ok (b, f)) ∧
    polled_ok (world (ph_id h)) (mkPState h (cy_skip c) (cy_pools c) (cy_extended c) (cy_events c)) s ∧
    ∀ k, k ≠ ph_id h → ps_skip s !! k = cy_skip c !! k.
Proof.
  intros Hw. unfold at_host. set (s0 := mkPState h _ _ _ _).
  destruct (poll_spec providers pools (world (ph_id h)) now s0 Hw) as [(b & f & Hr) Hp].
  destruct (local_poll configured providers pools (world (ph_id h)) now s0) as [_ Hk].
  destruct (poll_host _ _ _ _ _ s0) as [s r]. cbn in *. subst r. by exists s, b, f.
Qed.

Lemma loop_cons c h hosts :
  wf_warnings (ph_warnings h) → polled h = true →
  ∃ s b f, loop (h :: hosts) c = (ps_host s :: (loop hosts (cycle_after c s b f false)).1,
                                  (loop hosts (cycle_after c s b f false)).2) ∧
    polled_ok (world (ph_id h)) (mkPState h (cy_skip c) (cy_pools c) (cy_extended c) (cy_events c)) s ∧
    ∀ k, k ≠ ph_id h → ps_skip s !! k = cy_skip c !! k.
Proof.
  intros Hw Hpol. destruct (at_host_spec c h Hw) as (s & b & f & Hat & Hp & Hk). unfold at_host in Hat.
  exists s, b, f. cbn [poll_loop]. rewrite Hpol, Hat. cbn [negb]. by destruct (loop hosts _).
Qed.

Lemma loop_skip c h hosts :
  polled h = false → loop (h :: hosts) c = (h :: (loop hosts c).1, (loop hosts c).2).
Proof. intros Hpol. cbn [poll_loop]. rewrite Hpol. cbn. by destruct (loop hosts c). Qed.

(** Every row is handled, whatever happens to the others. *)
Lemma loop_hosts hosts c :
  Forall (λ h, wf_warnings (ph_warnings h)) hosts → cy_raised c = false →
  cy_raised (loop hosts c).2 = false ∧ Forall2 host_ok hosts (loop hosts c).1.
Proof.
  intros Hw. revert c. induction Hw as [|h hosts Hh Hw IH]; intros c Hc; [by split|].
  destruct (polled h) eqn:Hpol.
  - destruct (loop_cons c h hosts Hh Hpol) as (s & b & f & -> & (Hid & Hlost & _) & _). cbn.
    destruct (IH (cycle_after c s b f false) eq_refl) as [Hr Hall]. split; [done|]. constructor; [|done].
    unfold identified in Hid. cbn in Hid. destruct_and!. unfold host_ok. split_and!; try done; [by rewrite Hpol|].
    intros _ Hty Hag. apply Hlost; [done| |done]. apply andb_true_iff in Hpol as [Hst _]. by apply String.eqb_eq in Hst.
  - rewrite loop_skip by done. cbn. destruct (IH c Hc) as [Hr Hall]. split; [done|]. constructor; [|done].
    unfold host_ok. rewrite Hpol. by split_and!.
Qed.

Lemma loop_frame hosts c k :
  Forall (λ h, wf_warnings (ph_warnings h)) hosts → k ∉ map ph_id hosts →
  cy_skip (loop hosts c).2 !! k = cy_skip c !! k.
Proof.
  intros Hw. revert c. induction Hw as [|h hosts Hh Hw IH]; intros c Hk; [done|].
  cbn in Hk. apply not_elem_of_cons in Hk as [Hne Hk]. destruct (polled h) eqn:Hpol.
  - destruct (loop_cons c h hosts Hh Hpol) as (s & b & f & -> & _ & Hfr). cbn. rewrite IH by done. cbn. by apply Hfr.
  - rewrite loop_skip by done. cbn. by apply IH.
Qed.

(** A host that is active after the loop is in the map for at most another minute. *)
Lemma loop_soon hosts c T :
  NoDup (map ph_id hosts) → Forall (λ h, wf_warnings (ph_warnings h)) hosts →
  (∀ h, h ∈ hosts → a_now (world (ph_id h)) ≤ T) →
  (∀ h, h ∈ hosts → ph_state h = "active" → soon T (cy_skip c !! ph_id h)) →
  ∀ h', h' ∈ (loop hosts c).1 → ph_state h' = "active" → soon T (cy_skip (loop hosts c).2 !! ph_id h').
Proof.
  intros Hnd Hw. revert c. induction Hw as [|h hosts Hh Hw IH]; intros c Ht Hsoon h' Hin Hact; [by apply elem_of_nil in Hin|].
  cbn in Hnd. apply NoDup_cons in Hnd as [Hnin Hnd].
  assert (Hrest : ∀ c1, (∀ k, k ≠ ph_id h → cy_skip c1 !! k = cy_skip c !! k) →
    h' ∈ (loop hosts c1).1 → soon T (cy_skip (loop hosts c1).2 !! ph_id h')).
  { intros c1 Hc1 Hin1. apply IH; try done.
    - intros h1 H1. apply Ht. by apply list_elem_of_further.
    - intros h1 H1 Ha1. rewrite Hc1; [apply Hsoon; [by apply list_elem_of_further|done]|].
      intros Heq. apply Hnin. rewrite <-Heq. by apply list_elem_of_fmap_2. }
  destruct (polled h) eqn:Hpol.
  - destruct (loop_cons c h hosts Hh Hpol) as (s & b & f & Hl & (Hid & _ & Hent) & Hfr).
    rewrite Hl in *. cbn [fst snd] in *. apply elem_of_cons in Hin as [->|Hin]; [|by apply Hrest].
    unfold identified in Hid. cbn in Hid, Hent. destruct_and!. rewrite loop_frame; [|done|congruence]. cbn.
    replace (ph_id (ps_host s)) with (ph_id h) by done.
    destruct (Hent Hact) as [->|Hs]; [|eapply soon_le; [|exact Hs]; apply Ht; apply list_elem_of_here].
    apply Hsoon; [apply list_elem_of_here|]. apply andb_true_iff in Hpol as [Hst _]. by apply String.eqb_eq in Hst.
  - rewrite loop_skip in * by done. cbn [fst snd] in *. apply elem_of_cons in Hin as [->|Hin]; [|by apply Hrest].
    rewrite loop_frame by done. apply Hsoon; [apply list_elem_of_here|done].
Qed.
End Cycle.

(** A host whose entry has passed is checked. *)
Lemma due_checked providers pools a now s :
  wf s → ph_type (ps_host s) ≠ "kubevirt-cluster" → default "" (ph_fingerprint (ps_host s)) ≠ "" →
  (∀ u, ps_skip s !! ph_id (ps_host s) = Some u → u ≤ now) →
  ∃ s' f, poll_host configured providers pools a now s = (s', Ok (true, f)).
Proof.
  intros Hs Hty Hfp Hdue. unfold poll_host. apply String.eqb_neq in Hty. rewrite Hty.
  destruct (ph_fingerprint _) as [[|ch fp]|]; [done| |done].
  assert (Hskip : match ps_skip s !! ph_id (ps_host s) with
                  | Some t => negb (t =? 0) && (now <? t) | None => false end = false).
  { destruct (ps_skip s !! _) as [u|] eqn:E; [|done]. specialize (Hdue u eq_refl).
    replace (now <? u) with false by (symmetry; apply Z.ltb_ge; lia). by rewrite andb_false_r. }
  rewrite Hskip.
  assert (Hfail : ∀ s1, wf s1 → ∃ s', (handle_health_failure configured providers a;* pret (true, true)) s1 = (s', Ok (true, true))).
  { intros s1 H1. destruct (failure_spec configured providers a s1 H1) as [Hr _]. unfold pbind.
    destruct (handle_health_failure configured providers a s1) as [s2 r2]. cbn in Hr. subst r2. by eexists. }
  destruct (Hfail s Hs) as [s1 Hown]. unfold ptry, pbind at 1, plift. destruct (a_health a) as [health|e].
  2:{ rewrite Hown. by do 2 eexists. }
  destruct (truthy health).
  - pose proof (success_spec providers pools a health s Hs) as Hp. unfold wp in Hp. unfold pbind at 1.
    destruct (handle_health_success _ _ _ _ s) as [s2 [[]|e]]; [by do 2 eexists|].
    destruct (Hfail s2) as [s3 H3]; [apply Hp|]. rewrite H3. by do 2 eexists.
  - rewrite Hown. by do 2 eexists.
Qed.

(** ** The guarantees *)


(** C27: over rows with distinct identifiers and well-formed warnings, with a configured time that
    is not negative: when no active host waits
    longer than a minute for its next check, no active host does after a cycle, whatever the
    answers; and when such a host has an agent's fingerprint and is not a cluster's, every poll of
    it ([poll_host], which a cycle calls for each active host with a token) from a minute after the
    cycle on checks it, if nothing has changed its row or its entry meanwhile.  (A host without a
    fingerprint or of a cluster has no check to wait for; only [mark_host_stopped] and a pattern
    buffer that is put to sleep wait longer, and these are no longer active.) *)
Theorem active_hosts_checked_again providers pools world now current_ip last_known_ip ensured skip extended hosts T :
  NoDup (map ph_id hosts) → Forall (λ h, wf_warnings (ph_warnings h)) hosts →
  (∀ h, h ∈ hosts → a_now (world (ph_id h)) ≤ T) →
  (∀ h u, h ∈ hosts → ph_state h = "active" → skip !! ph_id h = Some u → u ≤ T + seconds 60) →
  let '(rows, _, c) := poll_hosts configured providers pools world now current_ip last_known_ip ensured skip extended hosts in
  ∀ h, h ∈ rows → ph_state h = "active" →
    (∀ u, cy_skip c !! ph_id h = Some u → u ≤ T + seconds 60) ∧
    ∀ providers' pools' a now' s,
      ph_type h ≠ "kubevirt-cluster" → default "" (ph_fingerprint h) ≠ "" → T + seconds 60 ≤ now' →
      ps_host s = h → ps_skip s !! ph_id h = cy_skip c !! ph_id h →
      ∃ s' failed, poll_host configured providers' pools' a now' s = (s', Ok (true, failed)).
Proof.
  intros Hnd Hw Ht Hsoon. unfold poll_hosts.
  set (c0 := mkCycle skip [] extended [] 0 0 false).
  destruct (loop_hosts providers pools world now hosts c0 Hw eq_refl) as [Hr Hall].
  pose proof (loop_soon providers pools world now hosts c0 T Hnd Hw Ht (λ h Hin Ha u, Hsoon h u Hin Ha)) as Hs.
  destruct (poll_loop _ _ _ _ _ _ _) as [rows c]. cbn in Hr, Hall, Hs. rewrite Hr.
  destruct (check_ip_change_if_all_unreachable _ _ _ _ _ _) as [ip opened]. cbn [cy_skip].
  intros h Hin Hact. specialize (Hs h Hin Hact). split; [exact Hs|].
  intros providers' pools' a now' s Hty Hfp Hnow Hh Hsk. apply due_checked; rewrite ?Hh; try done.
  - unfold wf. rewrite Hh. apply list_elem_of_lookup in Hin as [i Hi].
    destruct (Forall2_lookup_r _ _ _ _ _ Hall Hi) as (h0 & _ & _ & ? & _). done.
  - intros u. rewrite Hsk. intros Hu. specialize (Hs u Hu). lia.
Qed.

End Limit.

(** ** A fleet *)

(** The time of the configuration shipped with the code. *)
Definition shipped : option Z := Some 90.

(** An ordinary host of EC2, last healthy at [last]. *)
Definition host (id agent : string) (last : Z) : phost :=
  mkPHost id "agent" "active" agent (Some "ec2") (Some ("i-" +:+ id)) true (Some "fp") (Some "key") (Some last)
    VNone VNone (VInt 8) (VInt 0) (VInt 16384) (VInt 0) 4 (Some "10.0.0.1") VNone (Some "h.example.com") VNone
    None 100 true 80 None.

Definition ec2 : pprovider := mkPProvider "ec2" "ec2" None (Some "sg-1").

(** The agent does not answer; the cloud says [power]. *)
Definition silent (now : Z) (power : string) : answers :=
  mkAnswers now (Raise (RuntimeError "unreachable")) (Ok {{ "state" ::= VStr power }}%py) (Ok (VStr power)) (Ok (Some "192.0.2.7")) 0
    (Raise (RuntimeError "unreachable")) (Ok VNone) (Ok VNone) (Raise ValueError) (Ok ()) (Ok ()).

(** The agent answers with a full disk; the driver extends it to [size], with the cooldown if
    [marks]. *)
Definition full (now size : Z) (marks : bool) : answers :=
  mkAnswers now (Ok {{ "version" ::= VStr "1.2";
      "partitions" ::= VList [ {{ "mount" ::= VStr "/var/lib/troshka"; "used_pct" ::= VInt 91 }}%py ] }}%py)
    (Ok {{ "state" ::= VStr "running" }}%py) (Ok (VStr "running")) (Ok None) 0 (Raise (RuntimeError "unreachable")) (Ok VNone) (Ok VNone)
    (Ok (size, marks)) (Ok ()) (Ok ()).

(** One host answers, one was healthy a minute ago, one ten minutes ago, one is stopped by its cloud. *)
Definition hosts : list phost :=
  [host "a" "connected" 0; host "b" "connected" (seconds 540); host "c" "connected" 0; host "d" "connected" (seconds 540)].
Definition world (id : string) : answers :=
  if String.eqb id "a" then full (seconds 600) 200 true
  else silent (seconds 600) (if String.eqb id "d" then "stopped" else "running").

(** The hosts after a cycle: state, agent, entry. *)
Definition shown (r : list phost * option string * cycle) : list (string * string * option Z) :=
  map (λ h, (ph_state h, ph_agent_status h, cy_skip r.2 !! ph_id h)) r.1.1.
Definition cycle_of (ensured : string → bool) : list phost * option string * cycle :=
  poll_hosts shipped [ec2] [] world (seconds 600) (Some "192.0.2.7") None ensured ∅ ∅ hosts.

Example fleet_cycle :
  shown (cycle_of (λ _, true))
  = [("active", "connected", None); ("active", "connected", Some (seconds 615));
     ("active", "disconnected", Some (seconds 630)); ("stopped", "disconnected", Some (seconds 87000))]
  ∧ cy_events (cycle_of (λ _, true)).2 = [EvExtendHost "a"; EvAllow "sg-1" "192.0.2.7"].
Proof. split; vm_compute; reflexivity. Qed.

Lemma hosts_wf : Forall (λ h, wf_warnings (ph_warnings h)) hosts.
Proof. repeat constructor. Qed.


Lemma hosts_nodup : NoDup (map ph_id hosts).
Proof. apply (bool_decide_unpack _). vm_compute. exact I. Qed.

Lemma active_hosts_checked_again_witness :
  NoDup (map ph_id hosts) ∧ Forall (λ h, wf_warnings (ph_warnings h)) hosts ∧
  ∀ h, h ∈ (cycle_of (λ _, true)).1.1 → ph_state h = "active" →
    ∀ u, cy_skip (cycle_of (λ _, true)).2 !! ph_id h = Some u → u ≤ seconds 600 + seconds 60.
Proof.
  split; [exact hosts_nodup|]. split; [exact hosts_wf|]. intros h Hin Hact u Hu.
  pose proof (active_hosts_checked_again shipped ltac:(discriminate) [ec2] [] world (seconds 600) (Some "192.0.2.7") None (λ _, true) ∅ ∅ hosts (seconds 600)
                hosts_nodup hosts_wf) as H.
  change (poll_hosts shipped [ec2] [] world (seconds 600) (Some "192.0.2.7") None (λ _, true) ∅ ∅ hosts)
    with (cycle_of (λ _, true)) in H.
  destruct (cycle_of (λ _, true)) as [[rows ip] c]. cbn [fst snd] in *. eapply H; [| |exact Hin|exact Hact|exact Hu].
  - intros h0 _. unfold world. destruct (String.eqb _ "a"); cbn; lia.
  - intros h0 u0 _ _ Hu0. rewrite lookup_empty in Hu0. discriminate.
Defined.

(** A host its cloud had stopped and that was started again is active and connected, but its
    entry keeps it from being polled for a day: an hour later its silence goes unnoticed. *)
Example started_host_not_polled :
  let c := (cycle_of (λ _, true)).2 in
  let started := host "d" "connected" (seconds 1000) in
  let s := mkPState started (cy_skip c) [] ∅ [] in
  poll_host shipped [ec2] [] (silent (seconds 4600) "running") (seconds 4600) s = (s, Ok (false, false)).
Proof. vm_compute. reflexivity. Qed.

(** A host its cloud paused, or stopped, is never in the query again, whatever its cloud says. *)
Example paused_host_not_asked :
  let h := with_state "paused" (host "d" "disconnected" 0) in
  let '(rows, _, c) := poll_hosts shipped [ec2] [] (λ _, silent (seconds 4600) "running") (seconds 4600) None None (λ _, true) ∅ ∅ [h] in
  rows = [h] ∧ cy_checked c = 0%nat.
Proof. vm_compute. split; reflexivity. Qed.

(** With a warning about a disk, a stale WireGuard peer is not reported. *)
Example stale_peer_not_reported :
  let stale := {{ "projects" ::= {{ "p1" ::= {{ "peers" ::= {{ "k1" ::= VInt 1 }}%py }}%py }}%py }}%py in
  let a := full (seconds 600) 100 true in
  let a := mkAnswers (a_now a) (a_health a) (a_status a) (a_power a) (a_egress a) 1 (Ok stale) (a_eips a) (a_ceph a)
             (a_extend a) (a_extend_pool a) (a_queue a) in
  let warned w := ph_warnings (ps_host (check_mesh_health a
                    (mkPState (with_warnings w (host "a" "connected" 0)) ∅ [] ∅ [])).1) in
  let disk := VList [ {{ "mount" ::= VStr "/var/lib/troshka"; "used_pct" ::= VInt 91; "level" ::= VStr "warning" }}%py ] in
  warned VNone = VList [VStr "WireGuard p1: peer k1… stale (599s)"] ∧ warned disk = disk.
Proof. vm_compute. split; reflexivity. Qed.

(** A driver that does not start the cooldown extends the disk at every poll that finds it full,
    half a minute apart; the one of EC2 does once in ten minutes. *)
Example disk_extended_every_poll :
  let poll now size marks s := (poll_host shipped [ec2] [] (full now size marks) now s).1 in
  let twice marks := ps_events (poll (seconds 1030) 300 marks (poll (seconds 1000) 200 marks
                       (mkPState (host "a" "connected" 0) ∅ [] ∅ []))) in
  twice false = [EvExtendHost "a"; EvExtendHost "a"] ∧ twice true = [EvExtendHost "a"].
Proof. vm_compute. split; reflexivity. Qed.
