(* ===== verification/TemplateClusters.v ===== *)
(** * OpenShift clusters of a template

    The part of [services/template_loader.py] that reads the [ocp] section of a template: its
    clusters with their disks and sizes, the virtual machines that make up the declared counts,
    the cluster each machine belongs to, and the bastion added when OpenShift is installed from
    one.  Sizes are integers; the quotient [memory / 1024] is a float, which no decision reads:
    it is the argument [gib] of the definitions that compute it. *)
From stdpp Require Import prelude strings pretty.
From Stdlib Require Import Ascii ZArith Lia.
From S2P Require Import Prelude PyStr PyVal PyLemmas Ipv4 TopoNodes ClusterMembers.

Open Scope list_scope.

(** [d.update(d')]: the keys of [d] keep their place, the new ones follow. *)
Definition update_dict (d d' : val) : res val :=
  match d, d' with
  | VDict a, VDict b =>
      Ok (VDict (map (λ kv, (kv.1, default kv.2 (assoc kv.1 b))) a
                 ++ List.filter (λ kv, negb (bool_decide (kv.1 ∈ a.*1))) b))
  | _, _ => Raise TypeError
  end.

(** ** The section *)

(** [template_loader.normalize_ocp_section:54-58] one entry. *)
Definition normalize_ocp_entry (entry : val) : res val :=
  c <- copy_dict entry;;
  name <- get c "name" VNone;;
  cluster_name <- get c "cluster_name" VNone;;
  c <- set_item c "name" (v_or name (v_or cluster_name (VStr "ocp")));;
  pop_item c "cluster_name".

(** [template_loader.normalize_ocp_section] *)
Definition normalize_ocp_section (ocp : val) : res (list val) :=
  if negb (truthy ocp) then Ok []
  else
    entries <- (match ocp with VDict _ => Ok [ocp] | _ => iter ocp end);;
    map_res normalize_ocp_entry entries.

(** The entry of a value that is there. *)
Definition entry_if (k : string) (v : val) : list (string * val) :=
  match v with VNone => [] | _ => [(k, v)] end.

(** [template_loader._normalize_disk_spec] *)
Definition normalize_disk_spec (disk : val) : res val :=
  match disk with
  | VDict _ =>
      size_gb <- get disk "size_gb" VNone;;
      size <- get disk "sizeGb" size_gb;;
      bus <- get disk "bus" VNone;;
      bootable <- get disk "bootable" VNone;;
      ocp_mount <- get disk "ocp_mount" VNone;;
      mount <- get disk "ocpMount" ocp_mount;;
      Ok (VDict (entry_if "sizeGb" size ++ entry_if "bus" bus
                 ++ (if truthy bootable then [("bootable", VBool true)] else [])
                 ++ (if truthy mount then [("ocpMount", mount)] else [])))
  | _ => Ok (VDict [("sizeGb", VInt 50)])
  end.

(** [template_loader.normalize_cluster_disks:92-107] one role. *)
Definition normalize_role_disks (camel snake legacy : string) (default_gb : Z) (out : val) : res val :=
  a <- get out camel VNone;;
  disks <- (if truthy a then Ok a else get out snake VNone);;
  disks <- (if truthy disks then l <- iter disks;; map_res normalize_disk_spec l
            else
              gb <- get out legacy VNone;;
              Ok [VDict [("sizeGb", v_or gb (VInt default_gb)); ("bootable", VBool true)]]);;
  out <- set_item out camel (VList disks);;
  out <- (match disks with
          | first :: _ =>
              if truthy first then
                size <- get first "sizeGb" VNone;;
                match size with VNone => Ok out | _ => set_item out legacy size end
              else Ok out
          | [] => Ok out
          end);;
  pop_item out snake.

(** [template_loader.normalize_cluster_disks] *)
Definition normalize_cluster_disks (cluster : val) : res val :=
  out <- copy_dict cluster;;
  out <- normalize_role_disks "controlPlaneDisks" "control_plane_disks" "controlPlaneDisk" 120 out;;
  out <- normalize_role_disks "workerDisks" "worker_disks" "workerDisk" 100 out;;
  ids <- get out "networkIds" VNone;;
  '(out, _) <- setdefault out "networkIds" (v_or ids empty_list);;
  Ok out.

(** ** Roles *)

(** [template_loader._ansible_group] *)
Definition ansible_group (cfg : val) : res val :=
  tags <- get cfg "tags" empty_dict;; get tags "AnsibleGroup" vstr_empty.

(** The test [cfg.get("role") == role or group in _ansible_group(cfg)]. *)
Definition plays (role group : string) (cfg : val) : res bool :=
  r <- get cfg "role" VNone;;
  Ok (eq_str r role) <||> (g <- ansible_group cfg;; in_val (VStr group) g).

(** [template_loader._is_control_plane] *)
Definition is_control_plane : val → res bool := plays "control-plane" "controllers".

(** [template_loader._is_worker] *)
Definition is_worker : val → res bool := plays "worker" "workers".

(** The test [cfg.get("os", "rhcos") == "rhcos"]. *)
Definition is_rhcos (cfg : val) : res bool := os <- get cfg "os" (VStr "rhcos");; Ok (eq_str os "rhcos").

(** The test [single or cfg.get("cluster") == cluster_name]. *)
Definition in_cluster (cluster_name : val) (single : bool) (cfg : val) : res bool :=
  Ok single <||> (c <- get cfg "cluster" VNone;; Ok (py_eq c cluster_name)).

(** [template_loader._count_cluster_roles] *)
Definition count_cluster_roles (cluster_name vms_def : val) (single_cluster : bool) : res (Z * Z) :=
  vms <- items (v_or vms_def empty_dict);;
  for_each vms (0, 0) (λ '(_, cfg) '(cp, wk),
    b <- is_rhcos cfg <&&> in_cluster cluster_name single_cluster cfg;;
    if negb b then Ok (cp, wk)
    else
      c <- is_control_plane cfg;;
      if c then Ok (cp + 1, wk)
      else w <- is_worker cfg;; Ok (if w then (cp, wk + 1) else (cp, wk))).

(** [template_loader._infer_type] *)
Definition infer_type (cp wk : Z) : string :=
  if (cp <=? 1) && (wk =? 0) then "sno" else if wk =? 0 then "compact" else "standard".

(** [template_loader._coerce_workers] *)
Definition coerce_workers (workers : val) (fallback : Z) : Z :=
  match workers with
  | VNone => fallback
  | _ => match py_int workers with Ok z => z | Raise _ => fallback end
  end.

(** [template_loader._slug] the runs of other characters become one dash. *)
Fixpoint dash_runs (in_run : bool) (s : string) : string :=
  match s with
  | EmptyString => EmptyString
  | String a s' =>
      let n := N_of_ascii a in
      if is_digit a || ((97 <=? n) && (n <=? 122))%N then String a (dash_runs false s')
      else if in_run then dash_runs true s' else String "-" (dash_runs true s')
  end.

(** [s.strip("-")]. *)
Fixpoint lstrip_dashes (s : string) : string :=
  match s with
  | String a s' => if decide (a = "-"%char) then lstrip_dashes s' else s
  | EmptyString => EmptyString
  end.
Definition strip_dashes (s : string) : string :=
  String.rev (lstrip_dashes (String.rev (lstrip_dashes s))).

(** [template_loader._slug] *)
Definition slug (name : val) : res string :=
  name <- as_str (v_or name (VStr "ocp"));;
  let s := strip_dashes (dash_runs false (lower name)) in
  Ok (if String.eqb s "" then "ocp" else s).

(** ** Clusters *)

(** [list(dict.fromkeys(l))] of the names the nodes' interfaces refer to, in order. *)
Definition node_network_names (cfgs : list val) : res (list val) :=
  for_each cfgs [] (λ cfg names,
    nics <- get cfg "nics" VNone;;
    nics <- iter (v_or nics empty_list);;
    for_each nics names (λ nic names,
      n <- get nic "network" VNone;;
      if negb (truthy n) then Ok names
      else n <- hkey n;; Ok (if vmem n names then names else names ++ [n]))).

(** [template_loader._cluster_network_names] *)
Definition cluster_network_names (entry : val) : res val :=
  b <- has_key "networks" entry;;
  if b then idx entry "networks"
  else
    nodes <- get entry "nodes" VNone;;
    nodes <- items (v_or nodes empty_dict);;
    names <- node_network_names nodes.*2;;
    Ok (VList names).

(** [client_mirror.normalize_distribution] *)
Definition normalize_distribution (distribution : val) : string :=
  let value := replace "_" "-" (lower (strip (py_str (v_or distribution (VStr "ocp"))))) in
  if existsb (String.eqb value) ["okd"; "okd-scos"; "scos"] then "okd-scos" else "ocp".

(** Copy a field of [src] that holds something into the cluster object. *)
Definition carry (src : val) (key : string) (cluster_obj : val) : res val :=
  v <- get src key VNone;;
  if truthy v then set_item cluster_obj key v else Ok cluster_obj.

(** [template_loader._apply_topology_cluster_optionals] *)
Definition apply_topology_cluster_optionals (entry cluster_obj normalized : val) (install_workers : option Z)
    : res val :=
  dist <- get entry "distribution" VNone;;
  o <- (if truthy dist then set_item cluster_obj "ocpDistribution" (VStr (normalize_distribution dist))
        else Ok cluster_obj);;
  o <- (match install_workers with Some n => set_item o "installWorkers" (VInt n) | None => Ok o end);;
  o <- carry normalized "controlPlaneDisks" o;;
  o <- carry normalized "workerDisks" o;;
  o <- carry normalized "networkIds" o;;
  network_names <- cluster_network_names entry;;
  named <- Ok (truthy network_names) <||> has_key "networks" entry;;
  o <- (if named then set_item o "_networkNames" network_names else Ok o);;
  d <- get entry "vm_defaults" VNone;;
  if truthy d then set_item o "vmDefaults" d else Ok o.

(** [v * 1024]: a number, or a text or list repeated. *)
Definition times_1024 (v : val) : res val :=
  match v with
  | VStr s => Ok (VStr (Nat.iter 1024 (String.append s) ""))
  | VList l => Ok (VList (Nat.iter 1024 (app l) []))
  | _ => z <- num v;; Ok (VInt (z * 1024))
  end.

(** [template_loader._cluster_memory_mib] *)
Definition cluster_memory_mib (entry : val) (role : string) (dflt : Z) : res val :=
  let gib_key := role +:+ "_memory_gb" in
  let mib_key := role +:+ "_memory" in
  b <- has_key gib_key entry;;
  if negb b then get entry mib_key (VInt dflt)
  else
    g <- idx entry gib_key;;
    mib <- times_1024 g;;
    conflict <- has_key mib_key entry <&&> (m <- idx entry mib_key;; Ok (negb (py_eq m mib)));;
    if conflict then Raise ValueError else Ok mib.

(** [bool(entry.get(key, dflt))] *)
Definition flag (entry : val) (key : string) (dflt : bool) : res val :=
  v <- get entry key (VBool dflt);; Ok (VBool (truthy v)).

(** [normalized.get(camel, entry.get(snake, dflt))] *)
Definition disk_size (normalized entry : val) (camel snake : string) (dflt : Z) : res val :=
  s <- get entry snake (VInt dflt);; get normalized camel s.

(** [template_loader._build_one_topology_cluster] *)
Definition build_one_topology_cluster (vms_def : val) (single : bool) (entry : val) : res val :=
  name <- idx entry "name";;
  '(cp_count, wk_count) <- count_cluster_roles name vms_def single;;
  t <- get entry "type" VNone;;
  let ctype := v_or t (VStr (infer_type cp_count wk_count)) in
  let is_sno := eq_str ctype "sno" in
  w <- get entry "workers" VNone;;
  let workers := coerce_workers w wk_count in
  iw <- get entry "install_workers" VNone;;
  let install_workers := match iw with VNone => None | _ => Some (coerce_workers iw 0) end in
  normalized <- normalize_cluster_disks entry;;
  id <- slug name;;
  cp_cpu <- get entry "control_plane_cpu" (VInt 8);;
  cp_memory <- cluster_memory_mib entry "control_plane" 32768;;
  cp_disk <- disk_size normalized entry "controlPlaneDisk" "control_plane_disk" 120;;
  worker_cpu <- get entry "worker_cpu" (VInt 4);;
  worker_memory <- cluster_memory_mib entry "worker" 8192;;
  worker_disk <- disk_size normalized entry "workerDisk" "worker_disk" 100;;
  base_domain <- get entry "base_domain" (VStr "ocp.local");;
  api_vip <- get entry "api_vip" VNone;;
  ingress_vip <- get entry "ingress_vip" VNone;;
  version <- get entry "ocp_version" (VStr "4.22");;
  pull_through <- get entry "pull_through_registry" VNone;;
  recert <- flag entry "recert" is_sno;;
  monitor <- flag entry "ocp_monitor" true;;
  browser <- flag entry "configure_bastion_browser" false;;
  apply_topology_cluster_optionals entry
    {{ "id" ::= VStr id; "name" ::= name; "type" ::= ctype;
       "controlPlane" ::= VInt (if is_sno then 1 else 3); "workers" ::= VInt workers;
       "controlPlaneCpu" ::= cp_cpu; "controlPlaneMemory" ::= cp_memory; "controlPlaneDisk" ::= cp_disk;
       "workerCpu" ::= worker_cpu; "workerMemory" ::= worker_memory; "workerDisk" ::= worker_disk;
       "baseDomain" ::= base_domain; "apiVip" ::= api_vip; "ingressVip" ::= ingress_vip;
       "ocpVersion" ::= version; "pullThroughRegistry" ::= pull_through;
       "recert" ::= recert; "monitorHealth" ::= monitor; "configureBastionBrowser" ::= browser }}%py
    normalized install_workers.

(** [template_loader.build_topology_clusters] *)
Definition build_topology_clusters (ocp_list : list val) (vms_def : val) : res (list val) :=
  map_res (build_one_topology_cluster vms_def (bool_decide (length ocp_list = 1%nat))) ocp_list.

(** ** The machines of a cluster *)

(** The test of [_existing_role_names]: an RHCOS machine of the cluster with the role. *)
Definition is_role_member (cluster_name : val) (role : string) (single : bool) (cfg : val) : res bool :=
  is_rhcos cfg
  <&&> (if String.eqb role "control-plane" then is_control_plane cfg else is_worker cfg)
  <&&> in_cluster cluster_name single cfg.

(** [template_loader._existing_role_names] *)
Definition existing_role_names (vms_def cluster_name : val) (role : string) (single : bool)
    : res (list string) :=
  kvs <- items vms_def;;
  kvs <- filter_res (λ kv, is_role_member cluster_name role single kv.2) kvs;;
  Ok kvs.*1.

(** [template_loader._disk_spec_to_template] *)
Definition disk_spec_to_template (d : val) : res val :=
  s <- get d "size_gb" (VInt 50);;
  size <- get d "sizeGb" s;;
  bus <- get d "bus" (VStr "virtio");;
  bootable <- get d "bootable" (VBool false);;
  a <- get d "ocpMount" VNone;;
  mount <- (if truthy a then Ok a else get d "ocp_mount" VNone);;
  Ok (VDict ([("size_gb", size); ("bus", bus); ("bootable", bootable)]
             ++ (if truthy mount then [("ocp_mount", mount)] else []))).

Definition nics_on (networks : list val) : val := VList (map (λ nid, VDict [("network", nid)]) networks).

Section Machines.
Context (gib : Z → val).

(** [memory / 1024] *)
Definition in_gib (memory : val) : res val := z <- num memory;; Ok (gib z).

(** [template_loader._make_node] *)
Definition make_node (cluster : val) (role : string) (cpu memory : val) (disks : list val) (network_ids : val)
    : res val :=
  name <- idx cluster "name";;
  ram_gb <- in_gib memory;;
  disks <- map_res disk_spec_to_template disks;;
  networks <- iter (v_or network_ids empty_list);;
  Ok {{ "role" ::= VStr role; "os" ::= VStr "rhcos"; "cluster" ::= name; "vcpus" ::= cpu; "ram_gb" ::= ram_gb;
        "disks" ::= VList disks; "nics" ::= nics_on networks; "generated" ::= VBool true }}%py.

Definition role_prefix (role : string) : string := if String.eqb role "control-plane" then "cp" else "worker".

Definition generated_name (id : val) (role : string) (i : nat) : string :=
  py_str id +:+ "-" +:+ role_prefix role +:+ "-" +:+ str_of_Z (Z.of_nat i).

(** [template_loader._topup:539-547] the loop: a turn adds a machine or meets a taken name, so
    one turn per machine that is missing or there is enough. *)
Fixpoint topup_loop (fuel : nat) (node : res val) (id : val) (role : string) (i shortfall : nat) (vms : val)
    : res val :=
  match fuel, shortfall with
  | O, _ | _, O => Ok vms
  | S fuel', S shortfall' =>
      let name := generated_name id role i in
      taken <- has_key name vms;;
      if taken then topup_loop fuel' node id role (S i) shortfall vms
      else
        node' <- node;;
        vms <- set_item vms name node';;
        topup_loop fuel' node id role (S i) shortfall' vms
  end.

(** [template_loader._topup] *)
Definition topup (vms cluster : val) (role : string) (want cpu memory : val) (disks : list val)
    (network_ids : val) (single : bool) : res val :=
  name <- idx cluster "name";;
  have <- existing_role_names vms name role single;;
  want <- num want;;
  let shortfall := want - Z.of_nat (length have) in
  if shortfall <=? 0 then Ok vms
  else
    id <- idx cluster "id";;
    kvs <- items vms;;
    topup_loop (Z.to_nat shortfall + length kvs) (make_node cluster role cpu memory disks network_ids)
      id role 0 (Z.to_nat shortfall) vms.

(** [d\[new\] = d.pop(old)] when [old] is there and [new] is not. *)
Definition rename_key (old new : string) (d : val) : res val :=
  b <- has_key old d <&&> (n <- has_key new d;; Ok (negb n));;
  if b then v <- idx d old;; d <- pop_item d old;; set_item d new v else Ok d.

(** [template_loader._inherit_disk_defaults:554-561] one disk. *)
Definition inherit_disk (dflt : option val) (original : val) : res val :=
  overrides <- copy_dict original;;
  overrides <- rename_key "ocpMount" "ocp_mount" overrides;;
  overrides <- rename_key "sizeGb" "size_gb" overrides;;
  disk <- (match dflt with Some d => disk_spec_to_template d | None => Ok empty_dict end);;
  update_dict disk overrides.

(** [template_loader._inherit_disk_defaults] *)
Fixpoint inherit_disk_defaults (disks defaults : list val) : res (list val) :=
  match disks with
  | [] => Ok []
  | d :: disks' =>
      x <- inherit_disk (head defaults) d;;
      xs <- inherit_disk_defaults disks' (tail defaults);;
      Ok (x :: xs)
  end.

(** [template_loader._validate_vm_ocp_mounts] *)
Definition validate_vm_ocp_mounts (disks : list val) : res () :=
  for_each (zip (seq 0 (length disks)) disks) () (λ '(i, disk) _,
    m <- get disk "ocp_mount" VNone;;
    mounted <- (if truthy m then Ok true else m <- get disk "ocpMount" VNone;; Ok (truthy m));;
    boot <- Ok mounted <&&> (Ok (bool_decide (i = 0%nat)) <||> (b <- get disk "bootable" VNone;; Ok (truthy b)));;
    if boot then Raise ValueError else Ok ()).

Definition VM_ALIASES : list (string * string) :=
  [("nestedVirt", "nested_virt"); ("machineType", "machine_type"); ("legacyRootBus", "legacy_root_bus");
   ("headless", "serial_only")].

(** [template_loader._canonical_vm_settings] *)
Definition canonical_vm_settings (settings : val) : res val :=
  for_each VM_ALIASES settings (λ '(alias, canonical) cfg, rename_key alias canonical cfg).

(** [template_loader._inherit_role_settings:592-604] one machine. *)
Definition inherit_settings (cluster : val) (prefix : string) (defaults : list val) (vm : val) : res val :=
  d <- get cluster "vmDefaults" VNone;;
  cfg <- canonical_vm_settings (v_or d empty_dict);;
  own <- canonical_vm_settings vm;;
  cfg <- update_dict cfg own;;
  cpu <- idx cluster (prefix +:+ "Cpu");;
  '(cfg, _) <- setdefault cfg "vcpus" cpu;;
  memory <- idx cluster (prefix +:+ "Memory");;
  ram_gb <- in_gib memory;;
  '(cfg, _) <- setdefault cfg "ram_gb" ram_gb;;
  ids <- get cluster "networkIds" empty_list;;
  network_ids <- get cluster "_networkNames" ids;;
  networks <- iter network_ids;;
  '(cfg, _) <- setdefault cfg "nics" (nics_on networks);;
  disks <- get cfg "disks" VNone;;
  disks <- (match disks with VNone => map_res disk_spec_to_template defaults | _ => iter disks end);;
  disks <- inherit_disk_defaults disks defaults;;
  cfg <- set_item cfg "disks" (VList disks);;
  _ <- validate_vm_ocp_mounts disks;;
  Ok cfg.

(** [template_loader._inherit_role_settings] *)
Definition inherit_role_settings (vms cluster : val) (role : string) (defaults : list val) (single : bool)
    : res val :=
  let prefix := if String.eqb role "control-plane" then "controlPlane" else "worker" in
  name <- idx cluster "name";;
  names <- existing_role_names vms name role single;;
  for_each names vms (λ n vms,
    vm <- idx vms n;;
    cfg <- inherit_settings cluster prefix defaults vm;;
    set_item vms n cfg).

(** [template_loader.materialize_cluster_vms:612-645] one cluster. *)
Definition materialize_cluster (single : bool) (cluster vms : val) : res val :=
  normalized <- normalize_cluster_disks cluster;;
  ids <- get normalized "networkIds" VNone;;
  network_ids <- get cluster "_networkNames" ids;;
  want <- idx cluster "controlPlane";;
  cpu <- idx cluster "controlPlaneCpu";;
  memory <- idx cluster "controlPlaneMemory";;
  cp_disks <- idx normalized "controlPlaneDisks";;
  cp_disks <- iter cp_disks;;
  vms <- topup vms cluster "control-plane" want cpu memory cp_disks network_ids single;;
  want <- idx cluster "workers";;
  cpu <- idx cluster "workerCpu";;
  memory <- idx cluster "workerMemory";;
  worker_disks <- idx normalized "workerDisks";;
  worker_disks <- iter worker_disks;;
  vms <- topup vms cluster "worker" want cpu memory worker_disks network_ids single;;
  vms <- inherit_role_settings vms cluster "control-plane" cp_disks single;;
  inherit_role_settings vms cluster "worker" worker_disks single.

(** [template_loader.materialize_cluster_vms] *)
Definition materialize_cluster_vms (clusters : list val) (vms_def : val) : res val :=
  vms <- copy_dict (v_or vms_def empty_dict);;
  for_each clusters vms (materialize_cluster (bool_decide (length clusters = 1%nat))).

(** [template_loader._member_cluster_id] *)
Definition member_cluster_id (cfg : val) (by_name : list (val * val)) (single : bool) (only_id : val) : res val :=
  b <- is_rhcos cfg;;
  if negb b then Ok VNone
  else if single then Ok only_id
  else c <- get cfg "cluster" VNone;; o <- vget c by_name;; Ok (default VNone o).

(** [template_loader._cluster_id_for_vm] *)
Definition cluster_id_for_vm (vms_def : val) (clusters : list val) : res (list (string * val)) :=
  match clusters with
  | [] => Ok []
  | first :: _ =>
      by_name <- for_each clusters [] (λ c m, n <- idx c "name";; i <- idx c "id";; vset n i m);;
      let single := bool_decide (length clusters = 1%nat) in
      only_id <- (if single then idx first "id" else Ok VNone);;
      vms <- items (v_or vms_def empty_dict);;
      for_each vms [] (λ '(name, cfg) mapping,
        cid <- member_cluster_id cfg by_name single only_id;;
        Ok (if truthy cid then assoc_set name cid mapping else mapping))
  end.

(** [template_loader._expand_cluster_nodes:684-691] one node of a cluster. *)
Definition expand_node (entry : val) (name : string) (cfg vms : val) : res val :=
  dup <- has_key name vms;;
  if dup then Raise ValueError
  else
    owner <- idx entry "name";;
    c <- get cfg "cluster" owner;;
    if negb (py_eq c owner) then Raise ValueError
    else member <- set_item cfg "cluster" owner;; set_item vms name member.

(** [template_loader._expand_cluster_nodes] *)
Definition expand_cluster_nodes (ocp_list : list val) (vms_def : val) : res val :=
  for_each ocp_list (v_or vms_def empty_dict) (λ entry vms,
    nodes <- get entry "nodes" VNone;;
    nodes <- items (v_or nodes empty_dict);;
    for_each nodes vms (λ '(name, cfg), expand_node entry name cfg)).

(** [template_loader._prepare_ocp_clusters] *)
Definition prepare_ocp_clusters (tmpl vms_def : val) : res (val * list val * list (string * val)) :=
  ocp <- get tmpl "ocp" VNone;;
  ocp_list <- normalize_ocp_section ocp;;
  vms_def <- expand_cluster_nodes ocp_list vms_def;;
  root_dist <- get tmpl "distribution" VNone;;
  ocp_list <- (if truthy root_dist
               then map_res (λ e, '(e, _) <- setdefault e "distribution" root_dist;; Ok e) ocp_list
               else Ok ocp_list);;
  clusters <- build_topology_clusters ocp_list vms_def;;
  clusters <- (if truthy root_dist
               then map_res (λ c, '(c, _) <- setdefault c "ocpDistribution" (VStr (normalize_distribution root_dist));;
                                  Ok c) clusters
               else Ok clusters);;
  vms_def <- (match clusters with [] => Ok vms_def | _ => materialize_cluster_vms clusters vms_def end);;
  clusters <- map_res (λ c, i <- idx c "id";; set_item c "nodeId" (VStr ("cluster-" +:+ py_str i))) clusters;;
  vm_cluster_map <- cluster_id_for_vm vms_def clusters;;
  Ok (vms_def, clusters, vm_cluster_map).
End Machines.

(** ** What membership reads of a machine

    Whether a machine belongs to a cluster and in which role depends on four of its fields:
    its card. *)
Definition CARD : list string := ["role"; "os"; "cluster"; "tags"].
Definition on_card (kv : string * val) : bool := existsb (String.eqb kv.1) CARD.

Definition card (cfg : val) : val :=
  match cfg with VDict d => VDict (List.filter on_card d) | _ => cfg end.

(** The machines with their cards. *)
Definition roster (vms : val) : list (string * val) :=
  match vms with VDict kvs => map (λ kv, (kv.1, card kv.2)) kvs | _ => [] end.

Lemma assoc_on_card k d : existsb (String.eqb k) CARD = true → assoc k (List.filter on_card d) = assoc k d.
Proof.
  intros Hk. induction d as [|[k' v] d IH]; [done|]. cbn [List.filter]. unfold on_card at 1. cbn [fst].
  destruct (existsb (String.eqb k') CARD) eqn:E; cbn [assoc]; case_decide; subst; try done. congruence.
Qed.

Lemma get_card k cfg dflt : existsb (String.eqb k) CARD = true → get (card cfg) k dflt = get cfg k dflt.
Proof. intros Hk. destruct cfg; try done. cbn [card get]. by rewrite assoc_on_card. Qed.

Lemma is_rhcos_card cfg : is_rhcos (card cfg) = is_rhcos cfg.
Proof. unfold is_rhcos. by rewrite get_card. Qed.

Lemma in_cluster_card c single cfg : in_cluster c single (card cfg) = in_cluster c single cfg.
Proof. unfold in_cluster. by rewrite get_card. Qed.

Lemma is_role_member_card c role single cfg :
  is_role_member c role single (card cfg) = is_role_member c role single cfg.
Proof.
  unfold is_role_member. rewrite is_rhcos_card, in_cluster_card. f_equal. f_equal.
  unfold is_control_plane, is_worker, plays, ansible_group. by rewrite !get_card.
Qed.

(** The members are those of the roster. *)
Definition roster_members (r : list (string * val)) (c : val) (role : string) (single : bool) : res (list string) :=
  kvs <- filter_res (λ kv, is_role_member c role single kv.2) r;; Ok kvs.*1.

Lemma existing_roster kvs c role single :
  existing_role_names (VDict kvs) c role single = roster_members (roster (VDict kvs)) c role single.
Proof.
  unfold existing_role_names, roster_members. cbn [items bind roster].
  induction kvs as [|[n cfg] kvs IH]; [done|]. cbn [map filter_res fst snd].
  rewrite is_role_member_card. destruct (is_role_member _ _ _ cfg) as [b|]; [|done]. cbn [bind].
  destruct (filter_res _ kvs), (filter_res _ (map _ kvs)); cbn [bind] in *; try congruence.
  injection IH as IH. destruct b; csimpl; congruence.
Qed.

(** A field outside the card leaves it alone. *)
Lemma card_cons k v d :
  List.filter on_card ((k, v) :: d) =
  if existsb (String.eqb k) CARD then (k, v) :: List.filter on_card d else List.filter on_card d.
Proof. done. Qed.

Lemma card_assoc_set k v d :
  existsb (String.eqb k) CARD = false → List.filter on_card (assoc_set k v d) = List.filter on_card d.
Proof.
  intros Hk. induction d as [|[k' v'] d IH]; cbn [assoc_set]; [by rewrite card_cons, Hk|].
  case_decide; subst; rewrite !card_cons; [by rewrite !Hk|by rewrite IH].
Qed.

Lemma card_assoc_del k d :
  existsb (String.eqb k) CARD = false → List.filter on_card (assoc_del k d) = List.filter on_card d.
Proof.
  intros Hk. unfold assoc_del. induction d as [|[k' v'] d IH]; [done|]. rewrite filter_cons. cbn [fst].
  case_decide; rewrite !card_cons; [by rewrite IH|].
  assert (k = k') as <- by (by destruct (decide (k = k'))). by rewrite Hk.
Qed.

Lemma card_set_item d k v d' :
  existsb (String.eqb k) CARD = false → set_item d k v = Ok d' → card d' = card d.
Proof. intros Hk. destruct d; try done. intros [= <-]. cbn [card]. by rewrite card_assoc_set. Qed.

Lemma card_pop_item d k d' : existsb (String.eqb k) CARD = false → pop_item d k = Ok d' → card d' = card d.
Proof. intros Hk. destruct d; try done. intros [= <-]. cbn [card]. by rewrite card_assoc_del. Qed.

Lemma card_setdefault d k v d' w :
  existsb (String.eqb k) CARD = false → setdefault d k v = Ok (d', w) → card d' = card d.
Proof.
  intros Hk. destruct d; try done. cbn [setdefault]. destruct (assoc _ _); intros [= <- _]; [done|].
  cbn [card]. by rewrite card_assoc_set.
Qed.

Lemma card_rename_key old new d d' :
  existsb (String.eqb old) CARD = false → existsb (String.eqb new) CARD = false →
  rename_key old new d = Ok d' → card d' = card d.
Proof.
  intros Ho Hn. unfold rename_key. intros H. bind_inv. destruct x; [|by simplify_eq]. bind_inv.
  match goal with Hp : pop_item _ _ = Ok _ |- _ => apply card_pop_item in Hp as <-; [|done] end.
  by eapply (card_set_item _ new).
Qed.

Lemma card_canonical d d' : canonical_vm_settings d = Ok d' → card d' = card d.
Proof.
  unfold canonical_vm_settings. intros H.
  refine (for_each_inv (λ x, card x = card d) VM_ALIASES d d' _ _ eq_refl H).
  intros [a c] s s' Hin Hs Hr. change (rename_key a c s = Ok s') in Hr. rewrite <-Hs.
  apply list_elem_of_In in Hin as [[= <- <-]|[[= <- <-]|[[= <- <-]|[[= <- <-]|[]]]]];
    (eapply card_rename_key; [| |exact Hr]; reflexivity).
Qed.

Lemma dict_canonical d d' : canonical_vm_settings (VDict d) = Ok d' → ∃ e, d' = VDict e.
Proof.
  unfold canonical_vm_settings. intros H.
  refine (for_each_inv (λ x, ∃ e, x = VDict e) VM_ALIASES (VDict d) d' _ _ (ex_intro _ d eq_refl) H).
  intros [a c] s s' _ [e ->] Hr. unfold rename_key in Hr. bind_inv. destruct x; [|simplify_eq; eauto].
  bind_inv. simplify_eq/=. eauto.
Qed.

(** Defaults that say nothing about membership leave the machine its card. *)
Lemma card_update a b e : List.filter on_card a = [] → update_dict (VDict a) (VDict b) = Ok e → card e = card (VDict b).
Proof.
  intros Ha [= <-]. cbn [card]. f_equal. rewrite List.filter_app.
  assert (Hn : ∀ kv, kv ∈ a → on_card kv = false).
  { intros kv Hin. destruct (on_card kv) eqn:E; [|done]. exfalso.
    assert (In kv []) as []. rewrite <-Ha. apply filter_In. by rewrite <-list_elem_of_In. }
  replace (List.filter on_card (map _ a)) with (@nil (string * val)).
  - cbn [app]. clear Ha. induction b as [|kv b IH]; [done|]. cbn [List.filter].
    destruct (bool_decide_reflect (kv.1 ∈ a.*1)) as [Hin|Hni]; cbn [negb List.filter].
    + apply list_elem_of_fmap in Hin as ([k v] & Hk & Hin). cbn in Hk.
      assert (on_card kv = false) as -> by (specialize (Hn _ Hin); unfold on_card in *; cbn in Hn; by rewrite Hk). done.
    + by rewrite IH.
  - symmetry. clear Ha. induction a as [|[k v] a IH]; [done|]. cbn [map fst]. rewrite card_cons.
    assert (Hkv : existsb (String.eqb k) CARD = false) by (apply (Hn (k, v)); left). rewrite Hkv.
    apply IH. intros kv' Hin. apply Hn. by right.
Qed.

(** ** Topping up *)

Lemma generated_name_inj id role i j : generated_name id role i = generated_name id role j → i = j.
Proof.
  unfold generated_name. intros H. do 4 apply str_app_inj_l in H. apply (inj pretty) in H. lia.
Qed.

(** Distinct generated names among the keys: no more of them than there are keys. *)
Lemma taken_names_bound id role (keys : list string) i :
  (∀ j, (j < i)%nat → generated_name id role j ∈ keys) → (i ≤ length keys)%nat.
Proof.
  intros Hall.
  assert (Hi : i = length (generated_name id role <$> seq 0 i)) by (by rewrite length_fmap, length_seq). rewrite Hi.
  apply submseteq_length, NoDup_submseteq.
  - apply NoDup_fmap_2_strong; [|apply NoDup_seq]. intros ?? _ _. apply generated_name_inj.
  - intros x (j & -> & Hj%elem_of_seq)%list_elem_of_fmap. apply Hall. lia.
Qed.

Lemma topup_loop_spec fuel node id role i k kvs vms' :
  topup_loop fuel node id role i k (VDict kvs) = Ok vms' →
  (fuel + i = k + length kvs)%nat → (∀ j, (j < i)%nat → generated_name id role j ∈ kvs.*1) →
  ∃ news, vms' = VDict (kvs ++ news) ∧ length news = k ∧ Forall (λ kv, node = Ok kv.2) news ∧
    (NoDup kvs.*1 → NoDup (kvs ++ news).*1).
Proof.
  revert i k kvs. induction fuel as [|fuel IH]; intros i k kvs Hl Hf Hj; cbn [topup_loop] in Hl.
  { pose proof (taken_names_bound _ _ _ _ Hj) as Hb. rewrite length_fmap in Hb.
    assert (k = 0%nat) as -> by lia. simplify_eq. exists []. rewrite app_nil_r. eauto. }
  destruct k as [|k]; [simplify_eq; exists []; rewrite app_nil_r; eauto|].
  cbn [has_key bind] in Hl. case_bool_decide as Ht.
  - apply IH in Hl as (news & -> & Hlen & Hn & Hd); [eauto 10|lia|].
    intros j Hlt. destruct (decide (j = i)) as [->|]; [|apply Hj; lia].
    destruct Ht as [v Hv]. by apply assoc_Some_key in Hv.
  - rewrite <-eq_None_not_Some in Ht. apply assoc_None in Ht.
    apply bind_Ok in Hl as (n & Hn & Hl). cbn [set_item bind] in Hl.
    rewrite assoc_set_new in Hl by done.
    apply IH in Hl as (news & -> & Hlen & Hall & Hd).
    + exists ((generated_name id role i, n) :: news). rewrite <-app_assoc in *. split; [done|].
      split; [cbn; lia|]. split; [by constructor|]. intros Hnd. apply Hd.
      rewrite fmap_app. apply NoDup_app. split; [done|]. split; [|apply NoDup_singleton].
      intros x Hx ->%list_elem_of_singleton. done.
    + rewrite length_app. cbn. lia.
    + intros j Hlt. rewrite fmap_app. apply elem_of_app. destruct (decide (j = i)) as [->|]; [by right; left|].
      left. apply Hj. lia.
Qed.

(** A machine made for a cluster and a role. *)
Definition made_for (name : val) (role : string) (cfg : val) : Prop :=
  card cfg = {{ "role" ::= VStr role; "os" ::= VStr "rhcos"; "cluster" ::= name }}%py.

Lemma make_node_card gib cluster role cpu memory disks ids node name :
  make_node gib cluster role cpu memory disks ids = Ok node → idx cluster "name" = Ok name →
  made_for name role node.
Proof. unfold make_node. intros H Hn. rewrite Hn in H. bind_inv. done. Qed.

Lemma topup_spec gib kvs cluster role want cpu memory disks ids single vms' name z have :
  topup gib (VDict kvs) cluster role want cpu memory disks ids single = Ok vms' →
  idx cluster "name" = Ok name → existing_role_names (VDict kvs) name role single = Ok have →
  num want = Ok z →
  ∃ news, vms' = VDict (kvs ++ news) ∧ Z.of_nat (length news) = Z.max 0 (z - Z.of_nat (length have)) ∧
    Forall (λ kv, made_for name role kv.2) news ∧ (NoDup kvs.*1 → NoDup (kvs ++ news).*1).
Proof.
  unfold topup. intros H Hn Hh Hw. rewrite Hn in H. cbn [bind] in H. rewrite Hh in H. cbn [bind] in H.
  rewrite Hw in H. cbn [bind] in H. case_bools.
  { simplify_eq. exists []. rewrite app_nil_r. cbn. bool_lia. split; [done|]. split; [lia|]. eauto. }
  bool_lia. bind_inv. cbn [items] in *. bind_inv.
  apply topup_loop_spec in H as (news & -> & Hlen & Hall & Hd); [|lia|lia].
  exists news. split; [done|]. split; [lia|]. split; [|done].
  eapply Forall_impl; [exact Hall|]. intros kv Hkv. eapply make_node_card; [exact Hkv|exact Hn].
Qed.

(** ** Inheritance *)

(** The settings a cluster gives its machines do not speak about membership. *)
Definition neutral (cluster : val) : Prop :=
  ∃ d, get cluster "vmDefaults" VNone = Ok d ∧ card (v_or d empty_dict) = VDict [].

Lemma inherit_settings_card gib cluster prefix defaults vm cfg :
  neutral cluster → inherit_settings gib cluster prefix defaults vm = Ok cfg → card cfg = card vm.
Proof.
  intros (d & Hd & Hc) H. unfold inherit_settings in H. rewrite Hd in H. cbn [bind] in H.
  apply bind_Ok in H as (base & Hb & H). apply bind_Ok in H as (own & Ho & H).
  apply bind_Ok in H as (c0 & Hu & H).
  assert (card c0 = card vm) as <-.
  { rewrite <-(card_canonical _ _ Ho). destruct (v_or d empty_dict) as [| | | | |dd]; try done.
    destruct (dict_canonical _ _ Hb) as [e ->]. destruct own; try done.
    eapply card_update; [|exact Hu]. apply card_canonical in Hb. cbn [card] in *. congruence. }
  apply bind_Ok in H as (cpu & _ & H). apply bind_Ok in H as ([c1 ?] & H1 & H).
  apply bind_Ok in H as (? & _ & H). apply bind_Ok in H as (? & _ & H).
  apply bind_Ok in H as ([c2 ?] & H2 & H). apply bind_Ok in H as (? & _ & H).
  apply bind_Ok in H as (? & _ & H). apply bind_Ok in H as (? & _ & H).
  apply bind_Ok in H as ([c3 ?] & H3 & H). apply bind_Ok in H as (? & _ & H).
  apply bind_Ok in H as (? & _ & H). apply bind_Ok in H as (? & _ & H).
  apply bind_Ok in H as (c4 & H4 & H). apply bind_Ok in H as (? & _ & H). simplify_eq.
  apply card_setdefault in H1 as <-; [|done]. apply card_setdefault in H2 as <-; [|done].
  apply card_setdefault in H3 as <-; [|done]. by eapply (card_set_item _ "disks").
Qed.

Lemma roster_assoc_set n cfg vm kvs :
  assoc n kvs = Some vm → card cfg = card vm → roster (VDict (assoc_set n cfg kvs)) = roster (VDict kvs).
Proof.
  intros Ha Hc. cbn [roster]. rewrite <-(assoc_set_map card), Hc. apply assoc_set_id.
  by rewrite assoc_map, Ha.
Qed.

Lemma roster_keys kvs : (roster (VDict kvs)).*1 = kvs.*1.
Proof. induction kvs as [|kv kvs IH]; [done|]. csimpl. by rewrite <-IH. Qed.

Lemma inherit_role_settings_roster gib kvs cluster role defaults single vms' :
  neutral cluster → inherit_role_settings gib (VDict kvs) cluster role defaults single = Ok vms' →
  ∃ kvs', vms' = VDict kvs' ∧ roster vms' = roster (VDict kvs).
Proof.
  intros Hne H. unfold inherit_role_settings in H. bind_inv.
  refine (for_each_inv (λ v, ∃ kvs', v = VDict kvs' ∧ roster v = roster (VDict kvs)) _ _ _ _ _ _ H);
    [|by eexists].
  intros n s s' _ (kvs' & -> & Hr) Hb. cbn [idx] in Hb. bind_inv.
  destruct (assoc n kvs') as [vm|] eqn:Ea; [|done]. simplify_eq. cbn [set_item] in Hb. simplify_eq.
  eexists. split; [done|]. erewrite roster_assoc_set; [exact Hr|exact Ea|]. by eapply inherit_settings_card.
Qed.

(** ** Staffing a cluster *)

Definition ROLES : list string := ["control-plane"; "worker"].
Definition want_key (role : string) : string :=
  if String.eqb role "control-plane" then "controlPlane" else "workers".

(** The machines declared for a role. *)
Definition wanted (cluster : val) (role : string) : res Z := v <- idx cluster (want_key role);; num v.

Lemma made_member name role' c role single cfg :
  made_for name role' cfg → role ∈ ROLES → role' ∈ ROLES →
  is_role_member c role single cfg = Ok (String.eqb role role' && (single || py_eq name c)).
Proof.
  unfold made_for. intros Hm Hr Hr'. rewrite <-is_role_member_card, Hm.
  apply list_elem_of_In in Hr as [<-|[<-|[]]]; apply list_elem_of_In in Hr' as [<-|[<-|[]]];
    destruct single; cbn; try done; by destruct (py_eq name c).
Qed.

Lemma card_idem cfg : card (card cfg) = card cfg.
Proof.
  destruct cfg as [| | | | |d]; try done. cbn [card]. f_equal.
  induction d as [|[k v] d IH]; [done|]. rewrite card_cons. destruct (existsb _ CARD) eqn:E; [|done].
  by rewrite card_cons, E, IH.
Qed.

(** New machines extend the lists of their own cluster and role only. *)
Lemma roster_members_app r news name role' c role single :
  Forall (λ kv, made_for name role' kv.2) news → role ∈ ROLES → role' ∈ ROLES →
  roster_members (r ++ news) c role single =
  (ms <- roster_members r c role single;;
   Ok (ms ++ if String.eqb role role' && (single || py_eq name c) then news.*1 else [])).
Proof.
  intros Hm Hr Hr'. unfold roster_members. induction r as [|kv r IH]; cbn [app filter_res].
  - cbn [bind]. induction Hm as [|kv news Hkv _ IH]; [by case_bools|]. cbn [filter_res].
    rewrite (made_member name role') by done.
    destruct (filter_res _ news); cbn [bind] in *; [|by case_bools]. case_bools; csimpl in *; congruence.
  - destruct (is_role_member _ _ _ kv.2) as [b|]; [|done]. cbn [bind].
    destruct (filter_res _ (r ++ news)), (filter_res _ r); cbn [bind] in *; try congruence.
    injection IH as IH. destruct b; csimpl; congruence.
Qed.

(** What a pass over the clusters does to the roster. *)
Inductive hired (single : bool) : list val → list (string * val) → list (string * val) → Prop :=
| hired_nil r : hired single [] r r
| hired_cons c cs name r r' (haves : string → list string) (news : string → list (string * val)) :
    idx c "name" = Ok name →
    (∀ role, role ∈ ROLES →
       roster_members r name role single = Ok (haves role) ∧ Forall (λ kv, made_for name role kv.2) (news role) ∧
       ∃ z, wanted c role = Ok z ∧ Z.of_nat (length (news role)) = Z.max 0 (z - Z.of_nat (length (haves role)))) →
    hired single cs (r ++ news "control-plane" ++ news "worker") r' → hired single (c :: cs) r r'.

Lemma roster_app kvs news : roster (VDict (kvs ++ news)) = roster (VDict kvs) ++ roster (VDict news).
Proof. cbn [roster]. apply map_app. Qed.

Lemma made_roster name role news :
  Forall (λ kv, made_for name role kv.2) news → Forall (λ kv, made_for name role kv.2) (roster (VDict news)).
Proof.
  induction 1 as [|kv news Hkv _ IH]; [constructor|]. cbn [roster map]. constructor; [|exact IH].
  unfold made_for in *. cbn [snd]. by rewrite card_idem.
Qed.

Lemma length_roster kvs : length (roster (VDict kvs)) = length kvs.
Proof. apply length_map. Qed.

Lemma materialize_cluster_spec gib single c kvs vms' :
  neutral c → materialize_cluster gib single c (VDict kvs) = Ok vms' →
  ∃ kvs', vms' = VDict kvs' ∧ (NoDup kvs.*1 → NoDup kvs'.*1) ∧
    hired single [c] (roster (VDict kvs)) (roster vms').
Proof.
  intros Hne H. unfold materialize_cluster in H.
  apply bind_Ok in H as (? & _ & H). apply bind_Ok in H as (? & _ & H). apply bind_Ok in H as (? & _ & H).
  apply bind_Ok in H as (wcp & Hwcp & H). apply bind_Ok in H as (? & _ & H). apply bind_Ok in H as (? & _ & H).
  apply bind_Ok in H as (? & _ & H). apply bind_Ok in H as (? & _ & H).
  apply bind_Ok in H as (v1 & H1 & H). apply bind_Ok in H as (wwk & Hwwk & H).
  apply bind_Ok in H as (? & _ & H). apply bind_Ok in H as (? & _ & H).
  apply bind_Ok in H as (? & _ & H). apply bind_Ok in H as (? & _ & H).
  apply bind_Ok in H as (v2 & H2 & H). apply bind_Ok in H as (v3 & H3 & H4).
  assert (∃ name have z, idx c "name" = Ok name ∧ num wcp = Ok z ∧
    existing_role_names (VDict kvs) name "control-plane" single = Ok have) as (name & hcp & zcp & Hn & Hz & Hh).
  { unfold topup in H1. bind_inv. eauto 10. }
  eapply topup_spec in H1 as (cps & -> & Hlcp & Hmcp & Hdcp); [|done..].
  assert (∃ have z, num wwk = Ok z ∧ existing_role_names (VDict (kvs ++ cps)) name "worker" single = Ok have)
    as (hwk & zwk & Hzw & Hhw).
  { unfold topup in H2. rewrite Hn in H2. bind_inv. eauto. }
  eapply topup_spec in H2 as (wks & -> & Hlwk & Hmwk & Hdwk); [|done..].
  apply inherit_role_settings_roster in H3 as (kvs3 & -> & Hr3); [|done].
  apply inherit_role_settings_roster in H4 as (kvs4 & -> & Hr4); [|done].
  exists kvs4. split; [done|]. split.
  { intros Hnd. rewrite <-roster_keys, Hr4, Hr3, roster_keys. auto. }
  rewrite Hr4, Hr3, !roster_app, <-app_assoc. rewrite existing_roster in Hh, Hhw. rewrite roster_app in Hhw.
  rewrite (roster_members_app _ _ name "control-plane") in Hhw; [|by apply made_roster|set_solver..].
  change (String.eqb "worker" "control-plane") with false in Hhw. cbn [andb] in Hhw.
  apply bind_Ok in Hhw as (hw & Hhw & [= <-]). rewrite app_nil_r in Hlwk.
  eapply (hired_cons _ _ _ name _ _ (λ r, if String.eqb r "control-plane" then hcp else hw)
    (λ r, roster (VDict (if String.eqb r "control-plane" then cps else wks)))); [done| |constructor].
  intros role Hrole%list_elem_of_In.
  destruct Hrole as [<-|[<-|[]]]; cbn [String.eqb Ascii.eqb Bool.eqb]; rewrite length_roster;
    (split; [done|]; split; [by apply made_roster|]); unfold wanted, want_key;
    cbn [String.eqb Ascii.eqb Bool.eqb]; [rewrite Hwcp|rewrite Hwwk]; eexists; (split; [done|lia]).
Qed.

Lemma hired_cons_inv single c cs r r' :
  hired single (c :: cs) r r' ↔ ∃ r1, hired single [c] r r1 ∧ hired single cs r1 r'.
Proof.
  split.
  - inversion 1; subst. eexists. split; [|done]. eapply hired_cons; [done..|constructor].
  - intros (r1 & H1 & H2). inversion H1; subst.
    match goal with H : hired _ [] _ _ |- _ => inversion H; subst end. by econstructor.
Qed.

Lemma materialize_loop gib single cs kvs vms' :
  Forall neutral cs → for_each cs (VDict kvs) (materialize_cluster gib single) = Ok vms' →
  ∃ kvs', vms' = VDict kvs' ∧ (NoDup kvs.*1 → NoDup kvs'.*1) ∧
    hired single cs (roster (VDict kvs)) (roster vms').
Proof.
  intros Hne. revert kvs. induction Hne as [|c cs Hc Hcs IH]; intros kvs H; cbn [for_each] in H.
  { simplify_eq. eexists. split; [done|]. split; [done|constructor]. }
  apply bind_Ok in H as (v & H1 & H2). apply materialize_cluster_spec in H1 as (k1 & -> & Hd1 & Hh1); [|done].
  apply IH in H2 as (k2 & -> & Hd2 & Hh2). eexists. split; [done|]. split; [auto|].
  apply hired_cons_inv. eauto.
Qed.

(** A cluster hires for itself: the lists of the others do not change. *)
Lemma hired_one single c r r' name :
  hired single [c] r r' → idx c "name" = Ok name → ∀ role, role ∈ ROLES →
  ∃ have new z, roster_members r name role single = Ok have ∧ wanted c role = Ok z ∧
    Z.of_nat (length new) = Z.max 0 (z - Z.of_nat (length have)) ∧
    ∀ c', roster_members r' c' role single =
      (ms <- roster_members r c' role single;; Ok (ms ++ if single || py_eq name c' then new else [])).
Proof.
  inversion 1 as [|? ? name' ? ? haves news Hn' Hall Hrest]; subst. inversion Hrest; subst. intros Hn role Hr.
  assert (name' = name) as -> by congruence. destruct (Hall role Hr) as (Hh & _ & z & Hz & Hlen).
  exists (haves role), (news role).*1, z. rewrite length_fmap. split; [done|]. split; [done|]. split; [done|].
  intros c'. assert (Hcp : "control-plane" ∈ ROLES) by set_solver. assert (Hwk : "worker" ∈ ROLES) by set_solver.
  rewrite app_assoc. rewrite (roster_members_app _ _ name "worker") by (try done; by apply Hall).
  rewrite (roster_members_app _ _ name "control-plane") by (try done; by apply Hall). rewrite bind_assoc.
  destruct (roster_members r c' role single) as [ms|]; [|done]. cbn [bind]. rewrite <-app_assoc. do 2 f_equal.
  apply list_elem_of_In in Hr as [<-|[<-|[]]]; cbn [String.eqb Ascii.eqb Bool.eqb andb]; [by rewrite app_nil_r|done].
Qed.

(** The names of the clusters. *)
Definition named (names : list string) (cs : list val) : Prop :=
  Forall2 (λ s c, idx c "name" = Ok (VStr s)) names cs.

Lemma hired_others single names cs r r' s role :
  hired single cs r r' → named names cs → s ∉ names → single = false → role ∈ ROLES →
  roster_members r' (VStr s) role single = roster_members r (VStr s) role single.
Proof.
  intros H Hn Hs -> Hr. revert names Hn Hs. induction H as [r|c cs name r r' haves news Hname Hall Hrest IH];
    intros names Hn Hs; [done|]. inversion Hn as [|s' ? names' ? Hs' Hn']; subst.
  rewrite (IH names') by set_solver.
  assert (Hone : hired false [c] r (r ++ news "control-plane" ++ news "worker"))
    by exact (hired_cons _ _ _ name _ _ haves news Hname Hall (hired_nil _ _)).
  destruct (hired_one _ _ _ _ _ Hone Hs' role Hr) as (have & new & z & _ & _ & _ & Heq). rewrite Heq.
  cbn [orb]. rewrite py_eq_str, bool_decide_false by set_solver.
  destruct (roster_members r (VStr s) role false); [|done]. cbn [bind]. by rewrite app_nil_r.
Qed.

(** Every cluster ends with the machines it asks for, those it had first. *)
Lemma hired_staffed single names cs r r' s c role :
  hired single cs r r' → named names cs → NoDup names → (single = true → length cs = 1%nat) →
  role ∈ ROLES → c ∈ cs → idx c "name" = Ok (VStr s) →
  ∃ have new z, roster_members r (VStr s) role single = Ok have ∧ wanted c role = Ok z ∧
    roster_members r' (VStr s) role single = Ok (have ++ new) ∧
    Z.of_nat (length (have ++ new)) = Z.max z (Z.of_nat (length have)).
Proof.
  intros H. revert names. induction H as [r|c0 cs name r r' haves news Hname Hall Hrest IH];
    intros names Hn Hnd Hsingle Hr Hc Hs; [by apply elem_of_nil in Hc|].
  inversion Hn as [|s0 ? names' ? Hs0 Hn']; subst. apply NoDup_cons in Hnd as [Hni Hnd].
  assert (Hone : hired single [c0] r (r ++ news "control-plane" ++ news "worker"))
    by exact (hired_cons _ _ _ name _ _ haves news Hname Hall (hired_nil _ _)).
  destruct (hired_one _ _ _ _ _ Hone Hs0 role Hr) as (have & new & z & Hh & Hz & Hlen & Heq).
  assert (Htail : single = true → cs = []) by (intros Hst; apply Hsingle in Hst; by destruct cs).
  apply elem_of_cons in Hc as [->|Hc].
  - assert (s0 = s) as -> by congruence. exists have, new, z. split; [done|]. split; [done|].
    rewrite length_app. split; [|lia].
    assert (Hfirst : roster_members (r ++ news "control-plane" ++ news "worker") (VStr s) role single
      = Ok (have ++ new)) by (rewrite Heq, Hh; cbn; by rewrite String.eqb_refl, orb_true_r).
    destruct single; [|by rewrite (hired_others false names' cs _ _ s role Hrest) by done].
    rewrite (Htail eq_refl) in Hrest. inversion Hrest; by subst.
  - destruct single; [rewrite (Htail eq_refl) in Hc; by apply elem_of_nil in Hc|].
    destruct (IH names') as (have1 & new1 & z1 & H1 & H2 & H3 & H4); try done.
    assert (Hne : s0 ≠ s).
    { intros ->. apply Hni. eapply Forall2_flip in Hn'.
      apply list_elem_of_lookup in Hc as [i Hi]. destruct (Forall2_lookup_l _ _ _ _ _ Hn' Hi) as (s' & Hi' & Hs').
      cbn in Hs'. rewrite Hs in Hs'. simplify_eq. by apply list_elem_of_lookup_2 in Hi'. }
    rewrite Heq in H1. cbn [orb] in H1. rewrite py_eq_str, bool_decide_false in H1 by done.
    destruct (roster_members r (VStr s) role false) as [ms|]; [|done]. cbn [bind] in H1.
    rewrite app_nil_r in H1. simplify_eq. exists have1, new1, z1. by split_and!.
Qed.

(** ** Preparing the clusters of a template *)

Lemma idx_set_item_ne d k v d' k' : k ≠ k' → set_item d k v = Ok d' → idx d' k' = idx d k'.
Proof. intros Hne. destruct d; try done. intros [= <-]. cbn [idx]. by rewrite assoc_set_ne. Qed.

Lemma get_set_item_ne d k v d' k' w : k ≠ k' → set_item d k v = Ok d' → get d' k' w = get d k' w.
Proof. intros Hne. destruct d; try done. intros [= <-]. cbn [get]. by rewrite assoc_set_ne. Qed.

Lemma idx_setdefault_ne d k v d' w k' : k ≠ k' → setdefault d k v = Ok (d', w) → idx d' k' = idx d k'.
Proof.
  intros Hne. destruct d; try done. cbn [setdefault]. destruct (assoc k _); intros [= <- _]; [done|].
  cbn [idx]. by rewrite assoc_set_ne.
Qed.

Lemma idx_carry_ne src k d d' k' : k ≠ k' → carry src k d = Ok d' → idx d' k' = idx d k'.
Proof. intros Hne. unfold carry. intros H. bind_inv. case_bools; [by eapply idx_set_item_ne|by simplify_eq]. Qed.

Lemma slug_nonempty name id : slug name = Ok id → id ≠ "".
Proof. unfold slug. intros H. bind_inv. case_bools; [done|]. by apply String.eqb_neq. Qed.

Lemma optionals_keep_id entry o normalized iw o' :
  apply_topology_cluster_optionals entry o normalized iw = Ok o' → idx o' "id" = idx o "id".
Proof.
  unfold apply_topology_cluster_optionals. intros H.
  apply bind_Ok in H as (dist & _ & H). apply bind_Ok in H as (o1 & H1 & H). apply bind_Ok in H as (o2 & H2 & H).
  apply bind_Ok in H as (o3 & H3 & H). apply bind_Ok in H as (o4 & H4 & H). apply bind_Ok in H as (o5 & H5 & H).
  apply bind_Ok in H as (names & _ & H). apply bind_Ok in H as (b & _ & H). apply bind_Ok in H as (o6 & H6 & H).
  apply bind_Ok in H as (d & _ & H).
  assert (idx o1 "id" = idx o "id") as <-
    by (destruct (truthy dist); [by eapply (idx_set_item_ne _ "ocpDistribution")|by simplify_eq]).
  assert (idx o2 "id" = idx o1 "id") as <-
    by (destruct iw; [by eapply (idx_set_item_ne _ "installWorkers")|by simplify_eq]).
  apply (idx_carry_ne _ _ _ _ "id") in H3 as <-; [|done]. apply (idx_carry_ne _ _ _ _ "id") in H4 as <-; [|done].
  apply (idx_carry_ne _ _ _ _ "id") in H5 as <-; [|done].
  assert (idx o6 "id" = idx o5 "id") as <-
    by (destruct b; [by eapply (idx_set_item_ne _ "_networkNames")|by simplify_eq]).
  destruct (truthy d); [by eapply (idx_set_item_ne _ "vmDefaults")|by simplify_eq].
Qed.

Lemma cluster_id_built vms single entry c :
  build_one_topology_cluster vms single entry = Ok c → ∃ id, idx c "id" = Ok (VStr id) ∧ id ≠ "".
Proof.
  unfold build_one_topology_cluster. intros H.
  repeat match goal with
  | H : bind (slug _) _ = Ok _ |- _ => apply bind_Ok in H as (id & Hid & H)
  | H : bind (count_cluster_roles _ _ _) _ = Ok _ |- _ => apply bind_Ok in H as ([? ?] & _ & H)
  | H : bind _ _ = Ok _ |- _ => apply bind_Ok in H as (? & _ & H)
  end.
  exists id. split; [|by eapply slug_nonempty]. by rewrite (optionals_keep_id _ _ _ _ _ H).
Qed.

Lemma hired_prefix single cs r r' : hired single cs r r' → r `prefix_of` r'.
Proof. induction 1 as [|c cs name r r' haves news ? ? ? [k ->]]; [done|]. rewrite <-!app_assoc. by eexists. Qed.

Lemma expand_dict ocp vms_def kvs0 before :
  v_or vms_def empty_dict = VDict kvs0 → NoDup kvs0.*1 → expand_cluster_nodes ocp vms_def = Ok before →
  ∃ kvs, before = VDict kvs ∧ NoDup kvs.*1.
Proof.
  intros Hd Hnd H. unfold expand_cluster_nodes in H. rewrite Hd in H.
  refine (for_each_inv (λ v, ∃ kvs, v = VDict kvs ∧ NoDup kvs.*1) _ _ _ _ _ _ H); [|by eexists].
  intros entry v v' _ Hv Hb. bind_inv.
  refine (for_each_inv (λ v, ∃ kvs, v = VDict kvs ∧ NoDup kvs.*1) _ _ _ _ _ Hv Hb).
  intros [n cfg] u u' _ (kvs & -> & Hk) Hu. change (expand_node entry n cfg (VDict kvs) = Ok u') in Hu.
  unfold expand_node in Hu. apply bind_Ok in Hu as ([|] & _ & Hu); [done|]. bind_inv. case_bools; [done|].
  bind_inv. cbn [set_item] in Hu. simplify_eq. eexists. split; [done|]. by apply assoc_set_NoDup.
Qed.

(** The table of the clusters by name. *)
Lemma by_name_spec names cs m m' :
  for_each cs m (λ c m, n <- idx c "name";; i <- idx c "id";; vset n i m) = Ok m' → named names cs → NoDup names →
  (∀ c s, c ∈ cs → idx c "name" = Ok (VStr s) → ∃ i, idx c "id" = Ok i ∧ vlookup (VStr s) m' = Some i) ∧
  (∀ s, s ∉ names → vlookup (VStr s) m' = vlookup (VStr s) m).
Proof.
  intros H Hn. revert m H. induction Hn as [|s c names cs Hs Hn IH]; intros m H Hnd; cbn [for_each] in H.
  { simplify_eq. split; [|done]. by intros c s Hc%elem_of_nil. }
  apply NoDup_cons in Hnd as [Hni Hnd]. rewrite Hs in H. cbn [bind] in H. bind_inv.
  unfold vset in *. cbn [hkey bind hashable] in *. simplify_eq. apply IH in H as [Hb1 Hb2]; [|done]. split.
  - intros c' s' [->|Hc]%elem_of_cons Hs'; [|by eapply Hb1]. assert (s' = s) as -> by congruence.
    eexists. split; [done|]. rewrite Hb2 by done. apply vlookup_insert_eq.
  - intros s' Hs'. rewrite Hb2 by set_solver. apply vlookup_insert_ne. set_solver.
Qed.

Lemma owners_spec kvs by_name single only (m m' : list (string * val)) n cfg cid :
  for_each kvs m (λ '(name, cfg) mapping,
    cid <- member_cluster_id cfg by_name single only;;
    Ok (if truthy cid then assoc_set name cid mapping else mapping)) = Ok m' →
  NoDup kvs.*1 → (n, cfg) ∈ kvs → member_cluster_id cfg by_name single only = Ok cid → truthy cid = true →
  assoc n m' = Some cid.
Proof.
  intros H Hnd Hin Hm Ht.
  assert (Hlater : ∀ kvs m m', n ∉ kvs.*1 → for_each kvs m (λ '(name, cfg) mapping,
      cid <- member_cluster_id cfg by_name single only;;
      Ok (if truthy cid then assoc_set name cid mapping else mapping)) = Ok m' → assoc n m' = assoc n m).
  { clear. induction kvs as [|[k c] kvs IH]; intros m m' Hni H; cbn [for_each] in H; [by simplify_eq|].
    csimpl in *. bind_inv. rewrite (IH _ _ ltac:(set_solver) H). case_bools; [|done].
    apply assoc_set_ne. set_solver. }
  revert m H. induction kvs as [|[k c] kvs IH]; intros m H; [by apply elem_of_nil in Hin|].
  csimpl in *. apply NoDup_cons in Hnd as [Hni Hnd]. apply bind_Ok in H as (m1 & H1 & H).
  apply elem_of_cons in Hin as [[= <- <-]|Hin]; [|by eapply IH].
  rewrite Hm in H1. cbn [bind] in H1. rewrite Ht in H1. simplify_eq. rewrite (Hlater _ _ _ Hni H).
  apply assoc_set_eq.
Qed.

Lemma member_fields kvs c role single ms m :
  existing_role_names (VDict kvs) c role single = Ok ms → m ∈ ms →
  ∃ cfg, (m, cfg) ∈ kvs ∧ is_rhcos cfg = Ok true ∧ in_cluster c single cfg = Ok true.
Proof.
  unfold existing_role_names. cbn [items bind]. intros H Hm. apply bind_Ok in H as (f & Hf & [= <-]).
  apply list_elem_of_fmap in Hm as ([n cfg] & -> & Hin).
  apply (elem_of_filter_res _ _ _ _ Hf) in Hin as [Hin' Hp]. exists cfg. split; [done|].
  unfold is_role_member in Hp. apply py_and_true in Hp as [Hp1 Hp2]. by apply py_and_true in Hp1 as [? _].
Qed.

(** Every member of a cluster is recorded as its. *)
Lemma members_owned kvs cs owner names c s role ms m i :
  cluster_id_for_vm (VDict kvs) cs = Ok owner → NoDup kvs.*1 → named names cs → NoDup names → c ∈ cs →
  idx c "name" = Ok (VStr s) → idx c "id" = Ok i → truthy i = true →
  existing_role_names (VDict kvs) (VStr s) role (bool_decide (length cs = 1%nat)) = Ok ms → m ∈ ms →
  assoc m owner = Some i.
Proof.
  intros H Hnd Hn Hnn Hc Hs Hi Ht Hms Hm. destruct (member_fields _ _ _ _ _ _ Hms Hm) as (cfg & Hin & Hos & Hcl).
  destruct cs as [|first cs]; [by apply elem_of_nil in Hc|]. unfold cluster_id_for_vm in H.
  apply bind_Ok in H as (by_name & Hb & H). apply bind_Ok in H as (only & Ho & H).
  assert (v_or (VDict kvs) empty_dict = VDict kvs) as Hv by (destruct kvs; [by apply elem_of_nil in Hin|done]).
  rewrite Hv in H. cbn [items bind] in H. eapply owners_spec; [exact H|done|exact Hin| |done].
  unfold member_cluster_id. rewrite Hos. cbn [bind negb]. case_bool_decide as Hone.
  - destruct cs; [|done]. apply list_elem_of_singleton in Hc as ->. congruence.
  - destruct (by_name_spec _ _ _ _ Hb Hn Hnn) as [Hb1 _]. destruct (Hb1 c s Hc Hs) as (i' & Hi' & Hl).
    unfold in_cluster in Hcl. cbn [py_or bind] in Hcl. destruct (get cfg "cluster" VNone) as [v|]; [|done].
    cbn [bind] in *. assert (v = VStr s) as ->.
    { destruct v; cbn in Hcl; try done. injection Hcl as Hcl%String.eqb_eq. by subst. }
    unfold vget. cbn [hkey bind hashable]. rewrite Hl. cbn. congruence.
Qed.

(** A cluster and the same one with its canvas node named. *)
Definition same_cluster (c1 c2 : val) : Prop :=
  ∀ k, k ≠ "nodeId" → idx c2 k = idx c1 k ∧ get c2 k VNone = get c1 k VNone.

Lemma node_ids_same cs cs' :
  map_res (λ c, i <- idx c "id";; set_item c "nodeId" (VStr ("cluster-" +:+ py_str i))) cs = Ok cs' →
  Forall2 same_cluster cs cs'.
Proof.
  intros H%map_res_Forall2. eapply Forall2_impl; [exact H|]. intros c1 c2 Hc k Hk. cbn beta in Hc. bind_inv.
  split; [by eapply (idx_set_item_ne _ "nodeId")|by eapply (get_set_item_ne _ "nodeId")].
Qed.

Lemma same_named names cs cs' : Forall2 same_cluster cs cs' → named names cs' → named names cs.
Proof.
  intros H. revert names. induction H as [|c1 c2 cs1 cs2 Hc _ IH]; intros names Hn;
    inversion Hn; subst; constructor; [|by apply IH]. by destruct (Hc "name" ltac:(done)) as [<- _].
Qed.

Lemma same_neutral cs cs' : Forall2 same_cluster cs cs' → Forall neutral cs' → Forall neutral cs.
Proof.
  induction 1 as [|c1 c2 cs1 cs2 Hc _ IH]; [done|]. intros [(d & Hd & Hcd) Hne]%Forall_cons.
  constructor; [|by apply IH]. exists d. by destruct (Hc "vmDefaults" ltac:(done)) as [_ <-].
Qed.

Definition has_id (c : val) : Prop := ∃ id, idx c "id" = Ok (VStr id) ∧ id ≠ "".

Lemma built_ids (dist : val) ocp vms cs0 cs1 :
  build_topology_clusters ocp vms = Ok cs0 →
  (if truthy dist
   then map_res (λ c, '(c, _) <- setdefault c "ocpDistribution" (VStr (normalize_distribution dist));; Ok c) cs0
   else Ok cs0) = Ok cs1 → Forall has_id cs1.
Proof.
  intros Hbuild%map_res_Forall2 Hdist.
  assert (H0 : Forall has_id cs0) by (clear -Hbuild; induction Hbuild; constructor; [by eapply cluster_id_built|done]).
  destruct (truthy dist); [|by simplify_eq]. apply map_res_Forall2 in Hdist. clear -Hdist H0.
  induction Hdist as [|c c' cs cs' Hc _ IH]; [done|]. apply Forall_cons in H0 as [(id & Hid & Hne) H0].
  constructor; [|by apply IH]. exists id. split; [|done]. rewrite <-Hid. apply bind_Ok in Hc as ([? ?] & Hc & [= <-]).
  by eapply (idx_setdefault_ne _ "ocpDistribution").
Qed.

Lemma materialize_spec gib cs kvs vms :
  Forall neutral cs → NoDup kvs.*1 →
  match cs with [] => Ok (VDict kvs) | _ => materialize_cluster_vms gib cs (VDict kvs) end = Ok vms →
  ∃ kvs', vms = VDict kvs' ∧ NoDup kvs'.*1 ∧
    hired (bool_decide (length cs = 1%nat)) cs (roster (VDict kvs)) (roster vms).
Proof.
  intros Hne Hk Hmat.
  destruct cs as [|c cs1]; [simplify_eq; eexists; split; [done|]; split; [done|constructor]|].
  unfold materialize_cluster_vms in Hmat. apply bind_Ok in Hmat as (v & Hv & Hmat).
  assert (v = VDict kvs) as -> by (destruct kvs; cbn in Hv; by simplify_eq).
  apply materialize_loop in Hmat as (kvs' & -> & Hnd' & Hh); eauto.
Qed.

(** C14: preparing the clusters of a template keeps every machine it declares and ends, for every
    cluster and role, with as many members as the cluster asks for, or those declared when there
    are more: first the declared ones, then generated ones; each is recorded as the cluster's.
    The names of the clusters differ and their common settings do not speak about membership. *)
Theorem prepared_clusters_staffed gib tmpl vms_def kvs0 vms clusters owner names :
  v_or vms_def empty_dict = VDict kvs0 → NoDup kvs0.*1 →
  prepare_ocp_clusters gib tmpl vms_def = Ok (vms, clusters, owner) →
  named names clusters → NoDup names → Forall neutral clusters →
  ∃ ocp before, bind (get tmpl "ocp" VNone) normalize_ocp_section = Ok ocp ∧
    expand_cluster_nodes ocp vms_def = Ok before ∧ roster before `prefix_of` roster vms ∧
    ∀ c s role, c ∈ clusters → idx c "name" = Ok (VStr s) → role ∈ ROLES →
      let single := bool_decide (length clusters = 1%nat) in
      ∃ have new z i, existing_role_names before (VStr s) role single = Ok have ∧ wanted c role = Ok z ∧
        existing_role_names vms (VStr s) role single = Ok (have ++ new) ∧
        Z.of_nat (length (have ++ new)) = Z.max z (Z.of_nat (length have)) ∧
        idx c "id" = Ok i ∧ ∀ m, m ∈ have ++ new → assoc m owner = Some i.
Proof.
  intros Hd Hnd H Hn Hnn Hne. unfold prepare_ocp_clusters in H.
  apply bind_Ok in H as (ocp0 & Hocp & H). apply bind_Ok in H as (ocp & Hno & H).
  apply bind_Ok in H as (before & Hex & H). apply bind_Ok in H as (dist & _ & H).
  apply bind_Ok in H as (ocp' & _ & H). apply bind_Ok in H as (cs0 & Hbuild & H).
  apply bind_Ok in H as (cs1 & Hdist & H). apply bind_Ok in H as (vms' & Hmat & H).
  apply bind_Ok in H as (cs2 & Hid & H). apply bind_Ok in H as (owner' & Hown & H). simplify_eq.
  destruct (expand_dict _ _ _ _ Hd Hnd Hex) as (kvs & -> & Hk). apply node_ids_same in Hid.
  pose proof (Forall2_length _ _ _ Hid) as Hlen. pose proof (same_named _ _ _ Hid Hn) as Hn1.
  pose proof (built_ids _ _ _ _ _ Hbuild Hdist) as Hids. rewrite Forall_forall in Hids.
  destruct (materialize_spec _ _ _ _ (same_neutral _ _ Hid Hne) Hk Hmat) as (kvs' & -> & Hk' & Hh).
  exists ocp, (VDict kvs). split; [by rewrite Hocp|]. split; [done|]. split; [by eapply hired_prefix|].
  intros c s role Hc Hs Hr single. rewrite !existing_roster.
  pose proof Hc as Hlook. apply list_elem_of_lookup in Hlook as [i Hi].
  destruct (Forall2_lookup_r _ _ _ _ _ Hid Hi) as (c1 & Hi1 & Hcc). apply list_elem_of_lookup_2 in Hi1 as Hc1.
  destruct (Hcc "name" ltac:(done)) as [Hname _]. rewrite Hs in Hname. symmetry in Hname.
  destruct (Hids c1 Hc1) as (id & Hid1 & Hid0). destruct (Hcc "id" ltac:(done)) as [Hid2 _].
  destruct (hired_staffed _ names _ _ _ s c1 role Hh Hn1 Hnn) as (have & new & z & H1 & H2 & H3 & H4); try done.
  { by intros ?%bool_decide_eq_true_1. }
  unfold single. rewrite <-Hlen. exists have, new, z, (VStr id). split; [done|]. split.
  { unfold wanted. destruct (Hcc (want_key role)) as [-> _]; [unfold want_key; by case_bools|exact H2]. }
  split; [done|]. split; [done|]. rewrite Hid2. split; [done|]. intros m Hm.
  eapply members_owned; [exact Hown|done|exact Hn|done|exact Hc|exact Hs|by rewrite Hid2|by destruct id| |exact Hm].
  rewrite existing_roster, <-Hlen. exact H3.
Qed.

Definition example_template : val :=
  {{ "ocp" ::= VList [ {{ "name" ::= VStr "Hub"; "type" ::= VStr "standard"; "workers" ::= VInt 2;
                          "nodes" ::= {{ "hub-cp-1" ::= {{ "role" ::= VStr "control-plane"; "vcpus" ::= VInt 16 }} }} }};
                       {{ "name" ::= VStr "edge"; "type" ::= VStr "sno" }} ] }}%py.
Definition example_vms : val :=
  {{ "bastion" ::= {{ "role" ::= VStr "bastion"; "os" ::= VStr "rhel" }};
     "edge-0" ::= {{ "cluster" ::= VStr "edge"; "tags" ::= {{ "AnsibleGroup" ::= VStr "controllers" }} }} }}%py.

Definition example_prepared := prepare_ocp_clusters (λ z, VInt (z / 1024)) example_template example_vms.

Example example_roster :
  (match example_prepared with Ok (vms, _, owner) => ((roster vms).*1, owner) | _ => ([], []) end) =
  (["bastion"; "edge-0"; "hub-cp-1"; "hub-cp-0"; "hub-cp-2"; "hub-worker-0"; "hub-worker-1"],
   [("edge-0", VStr "edge"); ("hub-cp-1", VStr "hub"); ("hub-cp-0", VStr "hub"); ("hub-cp-2", VStr "hub");
    ("hub-worker-0", VStr "hub"); ("hub-worker-1", VStr "hub")]).
Proof. vm_compute. reflexivity. Qed.

Lemma prepared_clusters_staffed_witness :
  ∃ vms clusters owner,
    prepare_ocp_clusters (λ z, VInt (z / 1024)) example_template example_vms = Ok (vms, clusters, owner) ∧
    ∃ ocp before, bind (get example_template "ocp" VNone) normalize_ocp_section = Ok ocp ∧
      expand_cluster_nodes ocp example_vms = Ok before ∧ roster before `prefix_of` roster vms ∧
      ∀ c s role, c ∈ clusters → idx c "name" = Ok (VStr s) → role ∈ ROLES →
        let single := bool_decide (length clusters = 1%nat) in
        ∃ have new z i, existing_role_names before (VStr s) role single = Ok have ∧ wanted c role = Ok z ∧
          existing_role_names vms (VStr s) role single = Ok (have ++ new) ∧
          Z.of_nat (length (have ++ new)) = Z.max z (Z.of_nat (length have)) ∧
          idx c "id" = Ok i ∧ ∀ m, m ∈ have ++ new → assoc m owner = Some i.
Proof.
  eexists _, _, _. split; [vm_compute; reflexivity|].
  eapply (prepared_clusters_staffed (λ z, VInt (z / 1024)) example_template example_vms _ _ _ _ ["Hub"; "edge"]).
  - vm_compute. reflexivity.
  - apply (bool_decide_unpack (NoDup _)). vm_compute. exact I.
  - vm_compute. reflexivity.
  - repeat constructor.
  - apply (bool_decide_unpack (NoDup _)). vm_compute. exact I.
  - repeat constructor; (eexists; split; reflexivity).
Defined.

(** Clusters whose names differ may get the same id. *)
Example slugs_collide : slug (VStr "Hub A") = slug (VStr "hub-a").
Proof. reflexivity. Qed.

(** ** Disks are normalised once *)

Lemma entry_if_cases k v : (v = VNone ∧ entry_if k v = []) ∨ (v ≠ VNone ∧ entry_if k v = [(k, v)]).
Proof. destruct v; [by left|right..]; done. Qed.

Lemma normalize_disk_spec_fixed d d' : normalize_disk_spec d = Ok d' → normalize_disk_spec d' = Ok d'.
Proof.
  unfold normalize_disk_spec at 1. destruct d as [| | | | |kvs]; try (intros [= <-]; done). intros H.
  apply bind_Ok in H as (? & _ & H). apply bind_Ok in H as (size & _ & H). apply bind_Ok in H as (bus & _ & H).
  apply bind_Ok in H as (boot & _ & H). apply bind_Ok in H as (? & _ & H). apply bind_Ok in H as (mount & _ & H).
  injection H as <-.
  destruct (entry_if_cases "sizeGb" size) as [[Hs' Hs]|[Hs' Hs]];
    destruct (entry_if_cases "bus" bus) as [[Hb' Hb]|[Hb' Hb]]; rewrite Hs, Hb; try rewrite Hs' in *;
    destruct (truthy boot), (truthy mount) eqn:Hm; unfold normalize_disk_spec;
    lazy -[entry_if truthy]; rewrite ?Hs, ?Hb, ?Hm; done.
Qed.

Lemma normalized_disk_size d d' : normalize_disk_spec d = Ok d' → is_Ok (get d' "sizeGb" VNone).
Proof. unfold normalize_disk_spec. destruct d; intros H; bind_inv; by eexists. Qed.

(** A role whose disks are in the list form, with the legacy size the list's. *)
Definition disks_normal (camel snake legacy : string) (o : val) : Prop :=
  get o snake VNone = Ok VNone ∧ ∃ d first rest, o = VDict d ∧ assoc snake d = None ∧
    assoc camel d = Some (VList (first :: rest)) ∧ Forall (λ x, normalize_disk_spec x = Ok x) (first :: rest) ∧
    ∃ v, get first "sizeGb" VNone = Ok v ∧ (truthy first = true → v ≠ VNone → assoc legacy d = Some v).

Lemma normal_disks_fixed camel snake legacy default_gb o :
  disks_normal camel snake legacy o → normalize_role_disks camel snake legacy default_gb o = Ok o.
Proof.
  intros (_ & d & first & rest & -> & Hs & Hc & Hf & v & Hv & Hl). unfold normalize_role_disks.
  cbn [get]. rewrite Hc. cbn [default from_option id bind truthy iter].
  rewrite (map_res_ok id) by (intros x Hx; rewrite Forall_forall in Hf; by apply Hf).
  change (map id (first :: rest)) with (first :: map id rest). rewrite map_id.
  cbn [bind set_item]. rewrite assoc_set_id by done. rewrite Hv. cbn [bind].
  assert ((if truthy first then match v with VNone => Ok (VDict d) | _ => Ok (VDict (assoc_set legacy v d)) end
           else Ok (VDict d)) = Ok (VDict d)) as ->.
  { destruct (truthy first); [|done]. destruct v; try done; by rewrite (assoc_set_id legacy) by (apply Hl; done). }
  cbn [bind pop_item]. by rewrite assoc_del_id.
Qed.

Lemma normalize_role_normal camel snake legacy default_gb o o' :
  camel ≠ snake → camel ≠ legacy → snake ≠ legacy →
  normalize_role_disks camel snake legacy default_gb o = Ok o' → disks_normal camel snake legacy o'.
Proof.
  intros H1 H2 H3 H. unfold normalize_role_disks in H.
  apply bind_Ok in H as (a & _ & H). apply bind_Ok in H as (l0 & _ & H).
  apply bind_Ok in H as (disks & Hdisks & H). apply bind_Ok in H as (o1 & Ho1 & H).
  apply bind_Ok in H as (o2 & Ho2 & H). destruct o as [| | | | |d]; try done. cbn [set_item] in Ho1. simplify_eq.
  assert (∃ first rest, disks = first :: rest ∧ Forall (λ x, normalize_disk_spec x = Ok x) disks ∧
    is_Ok (get first "sizeGb" VNone)) as (first & rest & -> & Hf & v & Hv).
  { destruct (truthy l0) eqn:Ht.
    - apply bind_Ok in Hdisks as (l & Hl & Hm). apply map_res_Forall2 in Hm.
      destruct Hm as [|x y l ys Hx Hm]; [by destruct l0 as [| | |[]|[]|[]]|].
      exists y, ys. split; [done|]. split; [|by eapply normalized_disk_size].
      constructor; [by eapply normalize_disk_spec_fixed|]. clear -Hm.
      induction Hm; constructor; [by eapply normalize_disk_spec_fixed|done].
    - apply bind_Ok in Hdisks as (gb & _ & [= <-]). eexists _, _. split; [done|]. split; [|by eexists].
      constructor; [|constructor]. eapply (normalize_disk_spec_fixed (VDict [("sizeGb", v_or gb (VInt default_gb)); ("bootable", VBool true)])).
      unfold normalize_disk_spec. cbn -[entry_if v_or]. unfold v_or. destruct (truthy gb) eqn:E; [|done]. by destruct gb. }
  assert (∃ d2, o2 = VDict d2 ∧ assoc camel d2 = Some (VList (first :: rest)) ∧
    (truthy first = true → v ≠ VNone → assoc legacy d2 = Some v)) as (d2 & -> & Hc & Hl).
  { rewrite Hv in Ho2. cbn [bind set_item] in Ho2. destruct (truthy first).
    - destruct v; simplify_eq; eexists; (split; [done|]); rewrite ?(assoc_set_ne legacy) by done;
        rewrite ?assoc_set_eq; try done; split; try done; intros; by rewrite ?assoc_set_eq.
    - simplify_eq. eexists. split; [done|]. by rewrite assoc_set_eq. }
  cbn [pop_item] in H. simplify_eq. split; [cbn [get]; by rewrite assoc_del_eq|].
  exists (assoc_del snake d2), first, rest. split; [done|]. rewrite assoc_del_eq, !assoc_del_ne by done.
  split; [done|]. split; [done|]. split; [done|]. by exists v.
Qed.

(** The other fields of the cluster stay. *)
Definition same_but (keys : list string) (o o' : val) : Prop :=
  ∃ d d', o = VDict d ∧ o' = VDict d' ∧ ∀ k, k ∉ keys → assoc k d' = assoc k d.

Lemma normalize_role_same camel snake legacy default_gb o o' :
  normalize_role_disks camel snake legacy default_gb o = Ok o' → same_but [camel; snake; legacy] o o'.
Proof.
  unfold normalize_role_disks. intros H. apply bind_Ok in H as (? & _ & H). apply bind_Ok in H as (? & _ & H).
  apply bind_Ok in H as (disks & _ & H). apply bind_Ok in H as (o1 & Ho1 & H).
  apply bind_Ok in H as (o2 & Ho2 & H). destruct o as [| | | | |d]; try done. cbn [set_item] in Ho1. simplify_eq.
  assert (∃ d2, o2 = VDict d2 ∧ ∀ k, k ∉ [camel; snake; legacy] → assoc k d2 = assoc k d) as (d2 & -> & Hk).
  { assert (H1 : ∀ k, k ∉ [camel; snake; legacy] → assoc k (assoc_set camel (VList disks) d) = assoc k d)
      by (intros; apply assoc_set_ne; set_solver).
    destruct disks as [|f disks]; [simplify_eq; eauto|]. destruct (truthy f); [|simplify_eq; eauto].
    apply bind_Ok in Ho2 as (v & _ & Ho2).
    destruct v; cbn [set_item] in Ho2; simplify_eq; eexists; (split; [done|]); try done;
      intros k Hk; rewrite (assoc_set_ne legacy) by set_solver; by apply H1. }
  cbn [pop_item] in H. simplify_eq. exists d, (assoc_del snake d2). split; [done|]. split; [done|].
  intros k Hnk. rewrite assoc_del_ne by set_solver. by apply Hk.
Qed.

Lemma disks_normal_same keys camel snake legacy o o' :
  same_but keys o o' → camel ∉ keys → snake ∉ keys → legacy ∉ keys →
  disks_normal camel snake legacy o → disks_normal camel snake legacy o'.
Proof.
  intros (d & d' & -> & -> & Hk) H1 H2 H3 (_ & d0 & first & rest & [= <-] & Hs & Hc & Hf & v & Hv & Hl).
  split; [cbn [get]; by rewrite Hk, Hs|].
  exists d', first, rest. rewrite !Hk by done. split_and!; try done. by exists v.
Qed.

(** normalising the disks of a cluster a second time, as building its machines does with a
    cluster the template reader already normalised, changes nothing. *)
Theorem cluster_disks_normalised_once cluster out :
  normalize_cluster_disks cluster = Ok out → normalize_cluster_disks out = Ok out.
Proof.
  unfold normalize_cluster_disks. intros H. apply bind_Ok in H as (o0 & _ & H).
  apply bind_Ok in H as (o1 & H1 & H). apply bind_Ok in H as (o2 & H2 & H).
  apply bind_Ok in H as (ids & _ & H). apply bind_Ok in H as ([o3 w] & H3 & [= <-]).
  pose proof H1 as N1. apply normalize_role_normal in N1; [|done..].
  pose proof H2 as N2. apply normalize_role_normal in N2; [|done..].
  pose proof (normalize_role_same _ _ _ _ _ _ H2) as S2.
  assert (same_but ["networkIds"] o2 o3 ∧ ∃ d3 v, o3 = VDict d3 ∧ assoc "networkIds" d3 = Some v)
    as (S3 & d3 & v & -> & Hn).
  { destruct o2 as [| | | | |d]; try done. cbn [setdefault] in H3.
    destruct (assoc "networkIds" d) as [v|] eqn:E; injection H3 as <- _.
    - split; [by exists d, d|by exists d, v].
    - split; [|eexists _, _; split; [done|apply assoc_set_eq]].
      eexists _, _. split; [done|]. split; [done|]. intros k Hk. apply assoc_set_ne. set_solver. }
  apply (disks_normal_same _ _ _ _ _ _ S2) in N1; [|set_solver..].
  apply (disks_normal_same _ _ _ _ _ _ S3) in N1; [|set_solver..].
  apply (disks_normal_same _ _ _ _ _ _ S3) in N2; [|set_solver..].
  cbn [copy_dict bind]. rewrite (normal_disks_fixed _ _ _ _ _ N1). cbn [bind].
  rewrite (normal_disks_fixed _ _ _ _ _ N2). cbn [bind get setdefault]. by rewrite Hn.
Qed.

Lemma cluster_disks_normalised_once_witness :
  let cluster := {{ "name" ::= VStr "ocp"; "worker_disks" ::= VList [ {{ "size_gb" ::= VInt 80 }} ] }}%py in
  ∃ out, normalize_cluster_disks cluster = Ok out ∧ normalize_cluster_disks out = Ok out.
Proof.
  intros cluster. eexists. split; [vm_compute; reflexivity|].
  apply (cluster_disks_normalised_once cluster). vm_compute. reflexivity.
Defined.
