(* ===== verification/TemplateBastion.v ===== *)
(** * The bastion of a template

    [ensure_bastion_for_install_via] of [services/template_loader.py]: a template that declares
    no bastion gets one when OpenShift is to be installed from it, on an address of the cluster
    network that the template does not use. *)
From stdpp Require Import prelude strings.
From Stdlib Require Import ZArith Lia.
From S2P Require Import Prelude PyStr PyVal PyLemmas Ipv4 TopoNodes ClusterMembers TemplateClusters.

Open Scope list_scope.

(** [template_loader._resolved_has_bastion_vm] *)
Definition resolved_has_bastion_vm (vms : val) : res bool :=
  has_key "bastion" vms
  <||> (kvs <- items vms;;
        any_res (λ kv, r <- get kv.2 "role" VNone;; Ok (eq_str r "bastion")) kvs).

(** [template_loader._cluster_and_bmc_net_names] *)
Definition cluster_and_bmc_net_names (networks : val) : res (string * string) :=
  kvs <- items (v_or networks empty_dict);;
  '(cluster_name, bmc_name) <- for_each kvs ("", "") (λ '(name, cfg) '(cluster_name, bmc_name),
    let cfg := v_or cfg empty_dict in
    t <- get cfg "type" VNone;;
    if eq_str t "bmc" || String.eqb name "bmc"
    then Ok (cluster_name, if String.eqb bmc_name "" then name else bmc_name)
    else
      gateway <- (if String.eqb cluster_name "" then Ok true else g <- get cfg "gateway" VNone;; Ok (truthy g));;
      Ok (if gateway then name else cluster_name, bmc_name));;
  if String.eqb cluster_name "" then Raise ValueError
  else if String.eqb bmc_name "" then Raise ValueError
  else Ok (cluster_name, bmc_name).

(** A loop over [template_vm_definitions]: the definitions at the root, then those of every
    cluster. *)
Definition for_vm_definitions {S} (template : val) (s : S) (body : val → S → res S) : res S :=
  vms <- get template "vms" VNone;;
  kvs <- items (v_or vms empty_dict);;
  s <- for_each kvs.*2 s body;;
  ocp <- get template "ocp" VNone;;
  entries <- normalize_ocp_section ocp;;
  for_each entries s (λ entry s,
    nodes <- get entry "nodes" VNone;;
    kvs <- items (v_or nodes empty_dict);;
    for_each kvs.*2 s body).

(** [template_loader._collect_nic_ips_on_network] *)
Definition collect_nic_ips_on_network (resolved : val) (network_name : string) : res (list string) :=
  for_vm_definitions resolved [] (λ vm_cfg used,
    nics <- get vm_cfg "nics" VNone;;
    nics <- iter (v_or nics empty_list);;
    for_each nics used (λ nic used,
      n <- get nic "network" VNone;;
      if negb (eq_str n network_name) then Ok used
      else ip <- get nic "ip" VNone;; Ok (if truthy ip then used ++ [py_str ip] else used))).

(** [template_loader._collect_ocp_vip_ips] *)
Definition collect_ocp_vip_ips (resolved : val) : res (list string) :=
  ocp <- get resolved "ocp" VNone;;
  entries <- normalize_ocp_section ocp;;
  for_each entries [] (λ cluster used,
    for_each ["api_vip"; "ingress_vip"] used (λ key used,
      v <- get cluster key VNone;; Ok (if truthy v then used ++ [py_str v] else used))).

(** The definition of a network: [(resolved.get("networks") or {}).get(name) or {}]. *)
Definition network_cfg (resolved : val) (network_name : string) : res val :=
  networks <- get resolved "networks" VNone;;
  cfg <- get (v_or networks empty_dict) network_name VNone;;
  Ok (v_or cfg empty_dict).

(** [template_loader._collect_dns_record_ips] *)
Definition collect_dns_record_ips (resolved : val) (network_name : string) : res (list string) :=
  net_cfg <- network_cfg resolved network_name;;
  records <- get net_cfg "dns_records" VNone;;
  records <- iter (v_or records empty_list);;
  for_each records [] (λ rec used,
    ip <- get rec "ip" VNone;; Ok (if truthy ip then used ++ [py_str ip] else used)).

(** [template_loader._collect_used_host_ips] *)
Definition collect_used_host_ips (resolved : val) (network_name : string) : res (list string) :=
  a <- collect_nic_ips_on_network resolved network_name;;
  b <- collect_ocp_vip_ips resolved;;
  c <- collect_dns_record_ips resolved network_name;;
  Ok (a ++ b ++ c).

Definition BASTION_PREFERRED_HOST : Z := 50.

(** [template_loader._pick_bastion_cluster_ip] *)
Definition pick_bastion_cluster_ip (resolved : val) (cluster_net : string) : res string :=
  net_cfg <- network_cfg resolved cluster_net;;
  cidr <- get net_cfg "cidr" VNone;;
  network <- ip_network (v_or cidr (VStr "10.0.0.0/24"));;
  used <- collect_used_host_ips resolved cluster_net;;
  preferred <- addr_add (net_addr network) BASTION_PREFERRED_HOST;;
  if in_network preferred network && negb (existsb (String.eqb (ip_str preferred)) used)
  then Ok (ip_str preferred)
  else
    match find (λ h, negb (existsb (String.eqb (ip_str h)) used)) (hosts network) with
    | Some h => Ok (ip_str h)
    | None => Raise ValueError
    end.

Definition bastion_terminal_tab (cluster_net : string) : val :=
  {{ "name" ::= VStr "Bastion Terminal"; "type" ::= VStr "terminal"; "vm" ::= VStr "bastion";
     "network" ::= VStr cluster_net }}%py.

(** The tabs a bastion's terminal replaces. *)
Definition is_replaced_tab (t : val) : res bool :=
  match t with
  | VDict _ =>
      (target <- get t "target" VNone;; Ok (eq_str target "clusters"))
      <||> ((ty <- get t "type" VNone;; Ok (eq_str ty "terminal"))
            <&&> (vm <- get t "vm" VNone;; Ok (eq_str vm "bastion")))
  | _ => Ok false
  end.

(** [template_loader._rewrite_showroom_tabs_for_bastion] *)
Definition rewrite_showroom_tabs_for_bastion (resolved : val) (cluster_net : string) : res val :=
  showroom <- get resolved "showroom" VNone;;
  match showroom with
  | VDict _ =>
      tabs <- get showroom "tabs" VNone;;
      match tabs with
      | VList tabs =>
          let tab := bastion_terminal_tab cluster_net in
          '(new_tabs, replaced) <- for_each tabs ([], false) (λ t '(new_tabs, replaced),
            b <- is_replaced_tab t;;
            Ok (if b then (if replaced then (new_tabs, true) else (new_tabs ++ [tab], true))
                else (new_tabs ++ [t], replaced)));;
          showroom <- set_item showroom "tabs" (VList (if replaced then new_tabs else tab :: new_tabs));;
          set_item resolved "showroom" showroom
      | _ => Ok resolved
      end
  | _ => Ok resolved
  end.

(** [template_loader.ensure_bastion_for_install_via:313-320] the machine added. *)
Definition bastion_vm (cluster_net bmc_net bastion_ip : string) : val :=
  {{ "role" ::= VStr "bastion"; "vcpus" ::= VInt 2; "ram_gb" ::= VInt 4; "os" ::= VStr "rhel";
     "disks" ::= VList [ {{ "size_gb" ::= VInt 80 }} ];
     "nics" ::= VList [ {{ "network" ::= VStr cluster_net; "ip" ::= VStr bastion_ip }};
                        {{ "network" ::= VStr bmc_net }} ] }}%py.

(** [template_loader.ensure_bastion_for_install_via]: the template afterwards, and whether a
    machine was added. *)
Definition ensure_bastion_for_install_via (resolved install_via : val) : res (val * bool) :=
  if negb (String.eqb (normalize_install_via install_via) "bastion") then Ok (resolved, false)
  else
    '(resolved, vms) <- setdefault resolved "vms" empty_dict;;
    match vms with
    | VDict _ =>
        b <- resolved_has_bastion_vm vms;;
        if b then Ok (resolved, false)
        else
          networks <- get resolved "networks" VNone;;
          '(cluster_net, bmc_net) <- cluster_and_bmc_net_names (v_or networks empty_dict);;
          bastion_ip <- pick_bastion_cluster_ip resolved cluster_net;;
          vms <- set_item vms "bastion" (bastion_vm cluster_net bmc_net bastion_ip);;
          resolved <- set_item resolved "vms" vms;;
          resolved <- rewrite_showroom_tabs_for_bastion resolved cluster_net;;
          Ok (resolved, true)
    | _ => Raise ValueError
    end.

(** ** The address is free *)

Lemma in_network_bounds a n :
  wf_network n → 0 ≤ a < 2 ^ 32 → in_network a n = true → net_addr n ≤ a ≤ broadcast n.
Proof.
  intros (Hp & _ & _) Ha H%Z.eqb_eq. unfold broadcast.
  pose proof (land_netmask a (net_prefix n) Ha Hp) as Hl. rewrite H in Hl.
  pose proof (Z.mod_pos_bound a (2 ^ (32 - net_prefix n)) ltac:(apply Z.pow_pos_nonneg; lia)). lia.
Qed.

(** The template with its machines there. *)
Lemma used_setdefault resolved resolved1 vms net :
  setdefault resolved "vms" empty_dict = Ok (resolved1, vms) →
  collect_used_host_ips resolved1 net = collect_used_host_ips resolved net.
Proof.
  destruct resolved as [| | | | |d]; try done. cbn [setdefault].
  destruct (assoc "vms" d) as [v|] eqn:E; intros [= <- _]; [done|].
  assert (Hg : ∀ k, k ≠ "vms" → get (VDict (assoc_set "vms" empty_dict d)) k VNone = get (VDict d) k VNone)
    by (intros k Hk; cbn [get]; by rewrite assoc_set_ne).
  unfold collect_used_host_ips, collect_nic_ips_on_network, collect_ocp_vip_ips, collect_dns_record_ips,
    network_cfg, for_vm_definitions. rewrite !(Hg "ocp"), !(Hg "networks") by done.
  cbn [get]. by rewrite assoc_set_eq, E.
Qed.

Lemma not_used ip used : existsb (String.eqb ip) used = false → ip ∉ used.
Proof.
  intros He Hin%list_elem_of_In. apply not_true_iff_false in He. apply He. apply existsb_exists.
  exists ip. split; [done|apply String.eqb_refl].
Qed.

(** The address picked is one of the network's that the template leaves free. *)
Lemma pick_bastion_free resolved net ip :
  pick_bastion_cluster_ip resolved net = Ok ip →
  ∃ cfg cidr network used a, network_cfg resolved net = Ok cfg ∧ get cfg "cidr" VNone = Ok cidr ∧
    ip_network (v_or cidr (VStr "10.0.0.0/24")) = Ok network ∧ collect_used_host_ips resolved net = Ok used ∧
    ip = ip_str a ∧ net_addr network ≤ a ≤ broadcast network ∧ ip ∉ used.
Proof.
  unfold pick_bastion_cluster_ip. intros H. apply bind_Ok in H as (cfg & Hcfg & H).
  apply bind_Ok in H as (cidr & Hcidr & H). apply bind_Ok in H as (network & Hn & H).
  apply bind_Ok in H as (used & Hu & H). apply bind_Ok in H as (p & Hp & H).
  pose proof (ip_network_wf _ _ Hn) as Hwf. exists cfg, cidr, network, used.
  destruct (in_network p network && _) eqn:E.
  - injection H as <-. exists p. apply andb_prop in E as [E1 E2]. apply negb_true_iff in E2.
    split_and!; try done; [| |by apply not_used].
    all: assert (0 ≤ p < 2 ^ 32) by (unfold addr_add, valid_addr in Hp; case_bools; [|done]; simplify_eq; bool_lia).
    all: by apply in_network_bounds.
  - destruct (find _ _) as [h|] eqn:Ef; [|done]. injection H as <-. exists h.
    apply find_some in Ef as [Hh Hf]. apply list_elem_of_In in Hh. apply negb_true_iff in Hf.
    pose proof (elem_of_hosts _ _ Hh Hwf). split_and!; try done; try lia. by apply not_used.
Qed.

(** The tabs rewritten, the machines stay. *)
Lemma rewrite_tabs_keep resolved net resolved' k :
  rewrite_showroom_tabs_for_bastion resolved net = Ok resolved' → k ≠ "showroom" →
  get resolved' k VNone = get resolved k VNone.
Proof.
  unfold rewrite_showroom_tabs_for_bastion. intros H Hk. apply bind_Ok in H as (s & Hs & H).
  destruct s as [| | | | |sd]; try (by simplify_eq). apply bind_Ok in H as (t & _ & H).
  destruct t as [| | | |tabs|]; try (by simplify_eq). apply bind_Ok in H as ([new b] & _ & H).
  apply bind_Ok in H as (s' & _ & H). by eapply (get_set_item_ne _ "showroom").
Qed.

Lemma setdefault_present d k v w : get d k VNone = Ok v → v ≠ VNone → setdefault d k w = Ok (d, v).
Proof.
  destruct d as [| | | | |kvs]; try done. cbn [get setdefault]. intros [= H] Hv.
  destruct (assoc k kvs); cbn in H; by subst.
Qed.

(** When a bastion is added, its address is one of the cluster network that no machine,
    virtual address or DNS record of the template claims, and adding it again changes nothing. *)
Theorem bastion_added_once resolved install_via resolved' :
  ensure_bastion_for_install_via resolved install_via = Ok (resolved', true) →
  ensure_bastion_for_install_via resolved' install_via = Ok (resolved', false) ∧
  ∃ vms cluster_net bmc_net ip cfg cidr network used a,
    get resolved' "vms" VNone = Ok vms ∧ idx vms "bastion" = Ok (bastion_vm cluster_net bmc_net ip) ∧
    network_cfg resolved cluster_net = Ok cfg ∧ get cfg "cidr" VNone = Ok cidr ∧
    ip_network (v_or cidr (VStr "10.0.0.0/24")) = Ok network ∧
    collect_used_host_ips resolved cluster_net = Ok used ∧
    ip = ip_str a ∧ net_addr network ≤ a ≤ broadcast network ∧ ip ∉ used.
Proof.
  unfold ensure_bastion_for_install_via at 1. destruct (negb _) eqn:Hvia; [done|]. intros H.
  apply bind_Ok in H as ([r1 vms] & Hr1 & H). destruct vms as [| | | | |vd]; try done.
  apply bind_Ok in H as (b & Hb & H). destruct b; [done|]. apply bind_Ok in H as (nets & Hnets & H).
  apply bind_Ok in H as ([cn bn] & Hnames & H). apply bind_Ok in H as (ip & Hip & H).
  apply bind_Ok in H as (vms' & Hvms' & H). apply bind_Ok in H as (r2 & Hr2 & H).
  apply bind_Ok in H as (r3 & Hr3 & H). injection H as <-. cbn [set_item] in Hvms'. injection Hvms' as <-.
  assert (Hv : get r3 "vms" VNone = Ok (VDict (assoc_set "bastion" (bastion_vm cn bn ip) vd))).
  { rewrite (rewrite_tabs_keep _ _ _ "vms" Hr3) by done. destruct r1; try done. cbn [set_item] in Hr2.
    injection Hr2 as <-. cbn [get]. by rewrite assoc_set_eq. }
  split.
  - unfold ensure_bastion_for_install_via. rewrite Hvia, (setdefault_present _ _ _ _ Hv) by done. cbn [bind].
    unfold resolved_has_bastion_vm. cbn [has_key]. rewrite assoc_set_eq. done.
  - apply pick_bastion_free in Hip as (cfg & cidr & network & used & a & Hcfg & Hc & Hn & Hu & Ha).
    eexists _, cn, bn, ip, cfg, cidr, network, used, a. split; [exact Hv|].
    split; [cbn [idx]; by rewrite assoc_set_eq|]. rewrite <-(used_setdefault _ _ _ _ Hr1).
    split; [|done]. rewrite <-Hcfg. unfold network_cfg. f_equal.
    destruct resolved as [| | | | |d]; try done. cbn [setdefault] in Hr1. destruct (assoc "vms" d);
      injection Hr1 as <- _; [done|]. cbn [get]. by rewrite assoc_set_ne.
Qed.

Definition stock_template : val :=
  {{ "networks" ::= {{ "cluster" ::= {{ "cidr" ::= VStr "10.0.0.0/24"; "gateway" ::= VBool true }};
                       "bmc" ::= {{ "type" ::= VStr "bmc" }} }};
     "ocp" ::= {{ "name" ::= VStr "ocp"; "api_vip" ::= VStr "10.0.0.5" }};
     "showroom" ::= {{ "tabs" ::= VList [ {{ "target" ::= VStr "clusters" }} ] }} }}%py.

Lemma bastion_added_once_witness :
  ∃ resolved', ensure_bastion_for_install_via stock_template (VStr "bastion") = Ok (resolved', true) ∧
    ensure_bastion_for_install_via resolved' (VStr "bastion") = Ok (resolved', false).
Proof.
  eexists. split; [vm_compute; reflexivity|].
  apply (bastion_added_once stock_template (VStr "bastion")). vm_compute. reflexivity.
Defined.

(** When the preferred address is taken, the first host is picked: the address the network's
    gateway answers on. *)
Example bastion_takes_gateway_address :
  pick_bastion_cluster_ip
    {{ "networks" ::= {{ "cluster" ::= {{ "cidr" ::= VStr "10.0.0.0/24" }} }};
       "ocp" ::= {{ "api_vip" ::= VStr "10.0.0.50" }} }}%py "cluster" = Ok "10.0.0.1".
Proof. vm_compute. reflexivity. Qed.
