(* ===== verification/Calendar.v ===== *)
(** * Calendar months of instants

    The part of Python's [datetime] the billing code uses.  An aware datetime is an instant,
    in microseconds from 1970-01-01T00:00Z; its fields are the UTC ones.  Ordinals, years and
    months follow [_ymd2ord] and [_ord2ymd] of the standard library. *)
From stdpp Require Import prelude.
From Stdlib Require Import ZArith Lia.
From S2P Require Import Prelude PyVal.

(** ** Days *)

Definition DAY : Z := 86400 * 1000000.
Definition EPOCH_ORD : Z := 719163.
Definition MINYEAR : Z := 1.
Definition MAXYEAR : Z := 9999.

Definition is_leap (y : Z) : bool :=
  (y mod 4 =? 0) && (negb (y mod 100 =? 0) || (y mod 400 =? 0)).

(** Days before January 1st of a year. *)
Definition days_before_year (y : Z) : Z :=
  let y := y - 1 in y * 365 + y / 4 - y / 100 + y / 400.

(** Days before a month of a non-leap year. *)
Definition month_table (m : Z) : Z :=
  match m with
  | 1 => 0 | 2 => 31 | 3 => 59 | 4 => 90 | 5 => 120 | 6 => 151 | 7 => 181
  | 8 => 212 | 9 => 243 | 10 => 273 | 11 => 304 | 12 => 334 | _ => 365
  end.

Definition days_before_month (leap : bool) (m : Z) : Z :=
  month_table m + (if leap && (2 <? m) then 1 else 0).

(** [calendar.monthrange(y, m)\[1\]]. *)
Definition days_in_month (y m : Z) : Z :=
  days_before_month (is_leap y) (m + 1) - days_before_month (is_leap y) m.

Definition ymd2ord (y m d : Z) : Z := days_before_year y + days_before_month (is_leap y) m + d.

(** The year of an ordinal and the day in it, from 0. *)
Definition ord_year (o : Z) : Z * Z :=
  let n := o - 1 in
  let '(n400, n) := (n / 146097, n mod 146097) in
  let '(n100, n) := (n / 36524, n mod 36524) in
  let '(n4, n) := (n / 1461, n mod 1461) in
  let '(n1, n) := (n / 365, n mod 365) in
  let year := n400 * 400 + 1 + n100 * 100 + n4 * 4 + n1 in
  if (n1 =? 4) || (n100 =? 4) then (year - 1, 365) else (year, n).

(** The month of a day of the year. *)
Definition day_month (leap : bool) (n : Z) : Z :=
  let month := Z.shiftr (n + 50) 5 in
  if n <? days_before_month leap month then month - 1 else month.

(** ** Instants *)

(** [(t.year, t.month)]. *)
Definition year_month (t : Z) : Z * Z :=
  let '(y, n) := ord_year (t / DAY + EPOCH_ORD) in (y, day_month (is_leap y) n).

(** Midnight of the first day of a month. *)
Definition first_instant (y m : Z) : Z := (ymd2ord y m 1 - EPOCH_ORD) * DAY.

(** [datetime(y, m, 1, tzinfo=UTC)]. *)
Definition datetime_month (y m : Z) : res Z :=
  if (MINYEAR <=? y) && (y <=? MAXYEAR) && (1 <=? m) && (m <=? 12)
  then Ok (first_instant y m) else Raise ValueError.

(** [t.replace(day=1, hour=0, minute=0, second=0, microsecond=0)] and [t.replace(day=1)]. *)
Definition month_floor (t : Z) : Z := let '(y, m) := year_month t in first_instant y m.
Definition replace_day1 (t : Z) : Z := month_floor t + t mod DAY.

(** The latest instant a datetime can hold is just before this one. *)
Definition END_OF_TIME : Z := first_instant (MAXYEAR + 1) 1.

(** [t + timedelta(days=d)]. *)
Definition add_days (t d : Z) : res Z :=
  let t := t + d * DAY in
  if (first_instant MINYEAR 1 <=? t) && (t <? END_OF_TIME) then Ok t else Raise OverflowError.

(** ** Months in sequence *)

(** Months numbered from January of year 0. *)
Definition month_no (ym : Z * Z) : Z := 12 * ym.1 + (ym.2 - 1).
Definition month_at (i : Z) : Z * Z := (i / 12, i mod 12 + 1).
Definition month_start (i : Z) : Z := let '(y, m) := month_at i in first_instant y m.

Example year_month_epoch : year_month 0 = (1970, 1).
Proof. reflexivity. Qed.
Example year_month_leap_day : year_month (first_instant 2024 3 - 1) = (2024, 2).
Proof. reflexivity. Qed.
Example year_month_2000 : year_month (first_instant 2001 1 - 1) = (2000, 12).
Proof. reflexivity. Qed.

(** ** Correctness of the calendar *)

#[local] Ltac Zify.zify_post_hook ::= Z.to_euclidean_division_equations.

(** The day before January 1st of the year with given quotients. *)
Lemma days_before_year_split a b c d :
  0 ≤ b ≤ 3 → 0 ≤ c ≤ 24 → 0 ≤ d ≤ 3 →
  days_before_year (400 * a + 1 + 100 * b + 4 * c + d) =
    146097 * a + 36524 * b + 1461 * c + 365 * d.
Proof.
  intros Hb Hc Hd. unfold days_before_year.
  replace (400 * a + 1 + 100 * b + 4 * c + d - 1) with (400 * a + 100 * b + 4 * c + d) by lia.
  assert ((400 * a + 100 * b + 4 * c + d) / 4 = 100 * a + 25 * b + c) as -> by lia.
  assert ((400 * a + 100 * b + 4 * c + d) / 100 = 4 * a + b) as -> by lia.
  assert ((400 * a + 100 * b + 4 * c + d) / 400 = a) as -> by lia. lia.
Qed.

(** A property of the integers of an interval, checked one by one. *)
Lemma zrange_check (P : Z → bool) a b x : forallb P (zrange a b) = true → a ≤ x ≤ b → P x = true.
Proof.
  intros H Hx. rewrite forallb_forall in H. apply H, list_elem_of_In. by apply elem_of_zrange.
Qed.

Definition leap_of (b c d : Z) : bool := (d =? 3) && (negb (c =? 24) || (b =? 3)).

Lemma is_leap_split a b c d :
  0 ≤ b ≤ 3 → 0 ≤ c ≤ 24 → 0 ≤ d ≤ 3 →
  is_leap (400 * a + 1 + 100 * b + 4 * c + d) = leap_of b c d.
Proof.
  intros Hb Hc Hd.
  assert (is_leap (400 * a + 1 + 100 * b + 4 * c + d) = is_leap (1 + 100 * b + 4 * c + d)) as ->.
  { unfold is_leap.
    assert ((400 * a + 1 + 100 * b + 4 * c + d) mod 4 = (1 + 100 * b + 4 * c + d) mod 4) as -> by lia.
    assert ((400 * a + 1 + 100 * b + 4 * c + d) mod 100 = (1 + 100 * b + 4 * c + d) mod 100) as -> by lia.
    by assert ((400 * a + 1 + 100 * b + 4 * c + d) mod 400 = (1 + 100 * b + 4 * c + d) mod 400) as -> by lia. }
  pose proof (zrange_check (λ b, forallb (λ c, forallb (λ d,
    Bool.eqb (is_leap (1 + 100 * b + 4 * c + d)) (leap_of b c d)) (zrange 0 3)) (zrange 0 24)) 0 3 b
    ltac:(vm_compute; reflexivity) Hb) as H.
  apply eqb_prop. exact (zrange_check _ 0 3 d (zrange_check _ 0 24 c H Hc) Hd).
Qed.

(** [_ord2ymd]: the year holds the ordinal, and the day is in the year. *)
Lemma ord_year_spec o :
  let '(y, n) := ord_year o in
  o = days_before_year y + n + 1 ∧ 0 ≤ n < 365 + Z.b2z (is_leap y).
Proof.
  unfold ord_year. set (N := o - 1). set (a := N / 146097). set (r := N mod 146097).
  set (b := r / 36524). set (r' := r mod 36524). set (c := r' / 1461). set (r'' := r' mod 1461).
  set (d := r'' / 365). set (n := r'' mod 365).
  assert (HN : N = 146097 * a + r ∧ 0 ≤ r < 146097) by (unfold a, r; lia).
  assert (Hr : r = 36524 * b + r' ∧ 0 ≤ r' < 36524 ∧ 0 ≤ b ≤ 4) by (unfold b, r'; lia).
  assert (Hr' : r' = 1461 * c + r'' ∧ 0 ≤ r'' < 1461 ∧ 0 ≤ c ≤ 24) by (unfold c, r''; lia).
  assert (Hn : r'' = 365 * d + n ∧ 0 ≤ n < 365 ∧ 0 ≤ d ≤ 4) by (unfold d, n; lia).
  assert (Ho : o = N + 1) by (unfold N; lia).
  clearbody N a r b r' c r'' d n.
  replace (a * 400 + 1 + b * 100 + c * 4 + d) with (400 * a + 1 + 100 * b + 4 * c + d) by lia.
  destruct (d =? 4) eqn:Ed; [|destruct (b =? 4) eqn:Eb]; cbn [orb]; bool_lia.
  - assert (b ≤ 3) by lia. assert (d = 4 ∧ n = 0) as [-> ->] by lia.
    assert (Hlast : c ≤ 23 ∨ (c = 24 ∧ b = 3)) by lia.
    replace (400 * a + 1 + 100 * b + 4 * c + 4 - 1) with (400 * a + 1 + 100 * b + 4 * c + 3) by lia.
    rewrite days_before_year_split, is_leap_split by lia. unfold leap_of.
    replace (negb (c =? 24) || (b =? 3)) with true by lia. cbn. lia.
  - assert (b = 4 ∧ c = 0 ∧ d = 0 ∧ n = 0) as (-> & -> & -> & ->) by lia.
    replace (400 * a + 1 + 100 * 4 + 4 * 0 + 0 - 1) with (400 * a + 1 + 100 * 3 + 4 * 24 + 3) by lia.
    rewrite days_before_year_split, is_leap_split by lia. cbn. lia.
  - rewrite days_before_year_split by lia. split; [lia|].
    destruct (is_leap _); cbn; lia.
Qed.

Lemma is_leap_days y : days_before_year (y + 1) = days_before_year y + 365 + Z.b2z (is_leap y).
Proof.
  set (q := (y - 1) / 400). set (b := (y - 1) mod 400 / 100). set (c := (y - 1) mod 100 / 4).
  set (d := (y - 1) mod 4).
  assert (Hy : y = 400 * q + 1 + 100 * b + 4 * c + d ∧ 0 ≤ b ≤ 3 ∧ 0 ≤ c ≤ 24 ∧ 0 ≤ d ≤ 3)
    by (unfold q, b, c, d; lia).
  clearbody q b c d. destruct Hy as (-> & Hb & Hc & Hd). rewrite is_leap_split by done.
  rewrite days_before_year_split by done. unfold days_before_year, leap_of.
  replace (400 * q + 1 + 100 * b + 4 * c + d + 1 - 1) with (400 * q + 100 * b + 4 * c + d + 1) by lia.
  destruct (d =? 3) eqn:E3, (c =? 24) eqn:E24, (b =? 3) eqn:E5; bool_lia; cbn; lia.
Qed.

(** [_ord2ymd]: the month holds the day of the year. *)
Lemma day_month_spec leap n :
  0 ≤ n < 365 + Z.b2z leap →
  1 ≤ day_month leap n ≤ 12 ∧
  days_before_month leap (day_month leap n) ≤ n < days_before_month leap (day_month leap n + 1).
Proof.
  intros Hn.
  set (P := λ leap n, (1 <=? day_month leap n) && (day_month leap n <=? 12) &&
    (days_before_month leap (day_month leap n) <=? n) &&
    (n <? days_before_month leap (day_month leap n + 1))).
  assert (P leap n = true) as H; [|unfold P in H; bool_lia].
  destruct leap; cbn in Hn.
  - apply (zrange_check (P true) 0 365); [vm_compute; reflexivity|lia].
  - apply (zrange_check (P false) 0 364); [vm_compute; reflexivity|lia].
Qed.

Lemma month_at_no y m : 1 ≤ m ≤ 12 → month_at (month_no (y, m)) = (y, m).
Proof. intros Hm. unfold month_at, month_no. cbn [fst snd]. f_equal; lia. Qed.

Lemma month_no_at i : month_no (month_at i) = i.
Proof. unfold month_at, month_no. cbn [fst snd]. lia. Qed.

(** The table, one month to the next. *)
Lemma first_instant_next y m :
  1 ≤ m ≤ 12 →
  first_instant y m + days_in_month y m * DAY = month_start (month_no (y, m) + 1) ∧
  28 ≤ days_in_month y m ≤ 31.
Proof.
  intros Hm.
  assert (Hd : 28 ≤ days_in_month y m ≤ 31).
  { unfold days_in_month. set (P := λ leap m, let d := days_before_month leap (m + 1) - days_before_month leap m in
      (28 <=? d) && (d <=? 31)).
    assert (P (is_leap y) m = true) as H; [|unfold P in H; bool_lia].
    destruct (is_leap y); (apply (zrange_check _ 1 12); [vm_compute; reflexivity|lia]). }
  split; [|done]. unfold month_start, month_at, month_no. cbn [fst snd].
  destruct (decide (m = 12)) as [->|Hne].
  - replace ((12 * y + (12 - 1) + 1) / 12) with (y + 1) by lia.
    replace ((12 * y + (12 - 1) + 1) mod 12 + 1) with 1 by lia.
    unfold first_instant, ymd2ord, days_in_month. rewrite is_leap_days.
    assert (∀ b, days_before_month b 1 = 0) as -> by (by intros []).
    assert (∀ b, days_before_month b (12 + 1) = 365 + Z.b2z b) as -> by (by intros []). lia.
  - replace ((12 * y + (m - 1) + 1) / 12) with y by lia.
    replace ((12 * y + (m - 1) + 1) mod 12 + 1) with (m + 1) by lia.
    unfold first_instant, ymd2ord, days_in_month. lia.
Qed.

Lemma month_start_next i :
  month_start (i + 1) = month_start i + days_in_month (month_at i).1 (month_at i).2 * DAY ∧
  28 ≤ days_in_month (month_at i).1 (month_at i).2 ≤ 31.
Proof.
  destruct (first_instant_next (i / 12) (i mod 12 + 1)) as [H1 H2]; [lia|].
  split; [|exact H2]. rewrite <-(month_no_at i) at 1. symmetry. exact H1.
Qed.

Lemma month_start_mono i j : i ≤ j → month_start i ≤ month_start j.
Proof.
  intros Hij. replace j with (i + Z.of_nat (Z.to_nat (j - i))) by lia.
  induction (Z.to_nat (j - i)) as [|k IH]; [rewrite Z.add_0_r; lia|].
  replace (i + Z.of_nat (S k)) with (i + Z.of_nat k + 1) by lia.
  destruct (month_start_next (i + Z.of_nat k)) as [-> ?]. unfold DAY. lia.
Qed.

Lemma month_start_lt i j : i < j → month_start i < month_start j.
Proof.
  intros Hij. destruct (month_start_next i) as [H ?].
  pose proof (month_start_mono (i + 1) j ltac:(lia)). unfold DAY in *. lia.
Qed.

(** [(t.year, t.month)] is the month that holds [t]. *)
Lemma year_month_spec t :
  let i := month_no (year_month t) in
  month_at i = year_month t ∧ month_start i ≤ t < month_start (i + 1).
Proof.
  unfold year_month. pose proof (ord_year_spec (t / DAY + EPOCH_ORD)) as H.
  destruct (ord_year _) as [y n]. destruct H as [Ho Hn]. cbv zeta.
  destruct (day_month_spec _ _ Hn) as [Hm Hd]. set (m := day_month (is_leap y) n) in *.
  rewrite month_at_no by done. split; [done|].
  destruct (first_instant_next y m Hm) as [<- _].
  unfold month_start. rewrite month_at_no by done.
  unfold first_instant, ymd2ord, days_in_month, EPOCH_ORD, DAY in *. lia.
Qed.

(** The number of the month that holds an instant. *)
Definition month_of (t : Z) : Z := month_no (year_month t).

Lemma year_month_of t : month_at (month_of t) = year_month t.
Proof. unfold month_of. apply year_month_spec. Qed.

Lemma month_of_bounds t : month_start (month_of t) ≤ t < month_start (month_of t + 1).
Proof. apply year_month_spec. Qed.

Lemma month_of_unique t i : month_start i ≤ t < month_start (i + 1) → month_of t = i.
Proof.
  intros Hi. pose proof (month_of_bounds t).
  destruct (Z.lt_trichotomy (month_of t) i) as [Hl|[|Hl]]; [|done|].
  - pose proof (month_start_mono (month_of t + 1) i). lia.
  - pose proof (month_start_mono (i + 1) (month_of t)). lia.
Qed.

Lemma month_of_start i : month_of (month_start i) = i.
Proof. apply month_of_unique. pose proof (month_start_lt i (i + 1)). lia. Qed.

Lemma month_of_mono s t : s ≤ t → month_of s ≤ month_of t.
Proof.
  intros Hst. destruct (Z.le_gt_cases (month_of s) (month_of t)) as [|Hlt]; [done|].
  pose proof (month_of_bounds s). pose proof (month_of_bounds t).
  pose proof (month_start_mono (month_of t + 1) (month_of s)). lia.
Qed.

Lemma month_floor_start t : month_floor t = month_start (month_of t).
Proof.
  unfold month_floor, month_start, month_of. destruct (year_month_spec t) as [-> _].
  by destruct (year_month t).
Qed.

(** Months start at midnight. *)
Lemma month_start_day i : month_start i mod DAY = 0.
Proof.
  unfold month_start. destruct (month_at i) as [y m]. unfold first_instant.
  apply Z.mod_mul. unfold DAY. lia.
Qed.

Lemma month_start_le_iff i t : month_start i ≤ t ↔ i ≤ month_of t.
Proof.
  split; intros H.
  - rewrite <-(month_of_start i). by apply month_of_mono.
  - pose proof (month_start_mono _ _ H). pose proof (month_of_bounds t). lia.
Qed.

(** A month is at least 28 days long. *)
Lemma month_start_gap i j : i ≤ j → month_start i + (j - i) * (28 * DAY) ≤ month_start j.
Proof.
  intros Hij. replace j with (i + Z.of_nat (Z.to_nat (j - i))) by lia.
  induction (Z.to_nat (j - i)) as [|k IH]; [rewrite Z.add_0_r; lia|].
  replace (i + Z.of_nat (S k)) with (i + Z.of_nat k + 1) by lia.
  destruct (month_start_next (i + Z.of_nat k)) as [-> ?]. unfold DAY in *. lia.
Qed.

Lemma datetime_month_at i :
  12 * MINYEAR ≤ i < 12 * (MAXYEAR + 1) →
  datetime_month (month_at i).1 (month_at i).2 = Ok (month_start i).
Proof.
  intros Hi. unfold MINYEAR, MAXYEAR in Hi. unfold datetime_month, month_start, month_at, MINYEAR, MAXYEAR.
  cbn [fst snd]. replace ((1 <=? i / 12) && (i / 12 <=? 9999) && (1 <=? i mod 12 + 1) && (i mod 12 + 1 <=? 12)) with true; [done|].
  symmetry. rewrite !andb_true_iff, !Z.leb_le. lia.
Qed.
