(* ===== verification/MeteringMath.v ===== *)
(** * Metering arithmetic: [services/metering_math.py]

    Rates, spend, wall-clock coverage, calendar months, the resources a project should be
    billed for, and the difference between open intervals and those.  Amounts of money and
    quantities are exact rationals where Python has floats; an instant is in microseconds. *)
From stdpp Require Import prelude strings numbers gmap sorting.
From Stdlib Require Import QArith.Qcanon Qcabs Field Ascii.
From S2P Require Import Prelude PyStr PyVal PyLemmas TopoNodes Calendar.

Open Scope Z_scope.
Open Scope list_scope.

(** ** Amounts *)

Notation amount := Qc.
Definition amount_of (z : Z) : amount := Qc_of_Z z.
Definition qlt (a b : amount) : bool := bool_decide (a < b)%Qc.
Definition qle (a b : amount) : bool := bool_decide (a <= b)%Qc.
Definition qsum (l : list amount) : amount := foldr Qcplus 0%Qc l.

(** [1e-n]. *)
Definition tenth_pow (n : nat) : amount := (/ amount_of (10 ^ Z.of_nat n))%Qc.

(** [float(s)] on decimal text, with an optional exponent. *)
Definition mantissa_of (s : string) : option amount :=
  match split "." s with
  | w :: [] => if isdigit w then Some (amount_of (dec_val w)) else None
  | w :: f :: [] =>
      if (all_digits w && all_digits f && negb (String.eqb (w +:+ f) ""))
      then Some (amount_of (dec_val (w +:+ f)) * tenth_pow (String.length f))%Qc else None
  | _ => None
  end.

Definition float_of_string (s : string) : option amount :=
  let s := lower (strip s) in
  let '(neg, s) := match s with
                   | String "-"%char s' => (true, s')
                   | String "+"%char s' => (false, s')
                   | _ => (false, s)
                   end in
  let signed q := if neg : bool then Qcopp q else q in
  match split "e" s with
  | m :: [] => signed <$> mantissa_of m
  | m :: e :: [] =>
      q ← mantissa_of m;
      x ← int_of_string e;
      Some (signed (if x <? 0 then q * tenth_pow (Z.to_nat (- x)) else q * amount_of (10 ^ x))%Qc)
  | _ => None
  end.

(** [float(v)]; text that is not a finite decimal is a [ValueError]. *)
Definition py_float (v : val) : res amount :=
  match v with
  | VInt z => Ok (amount_of z)
  | VBool b => Ok (amount_of (Z.b2z b))
  | VStr s => match float_of_string s with Some q => Ok q | None => Raise ValueError end
  | _ => Raise TypeError
  end.

(** ** Rates *)

Definition RATE_KEYS : list string :=
  ["vcpu_hour"; "ram_gib_hour"; "disk_gib_hour"; "eip_hour"; "ceph_gib_hour"].

Definition KIND_TO_RATE : list (string * string) :=
  [("vcpu", "vcpu_hour"); ("ram", "ram_gib_hour"); ("disk", "disk_gib_hour"); ("eip", "eip_hour");
   ("ceph", "ceph_gib_hour")].

(** A rate map; [None] is a null rate. *)
Notation rates := (list (string * option amount)).

(** [d.get(key)] when it is not null. *)
Definition rate_in (key : string) (r : rates) : option amount := mjoin (assoc key r).

(** [metering_math.resolve_rate]; an absent map is empty. *)
Definition resolve_rate (kind provider_type : string) (host_rates : option rates)
    (type_rates : list (string * rates)) (fallback : option rates) : amount :=
  match assoc kind KIND_TO_RATE with
  | None => 0%Qc
  | Some key =>
      match rate_in key (default [] host_rates) with
      | Some r => r
      | None =>
          match rate_in key (default [] (assoc provider_type type_rates)) with
          | Some r => r
          | None => default 0%Qc (rate_in key (default [] fallback))
          end
      end
  end.

(** ** Spend *)

(** [metering_math.hours_between]. *)
Definition hours_between (s e : Z) : amount :=
  if e - s <=? 0 then 0%Qc else (amount_of (e - s) / amount_of (3600 * 1000000))%Qc.

(** [metering_math.interval_cost] *)
Definition interval_cost (qty unit_rate : amount) (s e : Z) : amount :=
  (qty * unit_rate * hours_between s e)%Qc.

(** A row as the arithmetic reads it; [None] is a missing or null entry. *)
Record usage := mkUsage {
  u_kind : option string;
  u_qty : option amount;
  u_rate : option amount;
  u_started : option Z;
  u_ended : option Z
}.

(** [row\[k\]]. *)
Definition required {A} (o : option A) : res A :=
  match o with Some x => Ok x | None => Raise KeyError end.

(** [metering_math.spend_total] *)
Definition spend_total (rows : list usage) (now : Z) : res amount :=
  for_each rows 0%Qc (λ row total,
    let e := default now (u_ended row) in
    q <- required (u_qty row);; r <- required (u_rate row);; s <- required (u_started row);;
    Ok (total + interval_cost q r s e)%Qc).

(** [metering_math.covered_seconds:82-88] overlapping spans of a sorted list joined. *)
Fixpoint merge_spans (last : Z * Z) (spans : list (Z * Z)) : list (Z * Z) :=
  match spans with
  | [] => [last]
  | (s, e) :: spans' =>
      if s <=? last.2 then merge_spans (last.1, Z.max last.2 e) spans'
      else last :: merge_spans (s, e) spans'
  end.

(** [metering_math.covered_seconds:72-78] the spans, an open one ending now. *)
Definition spans_of (rows : list (option Z * option Z)) (now : Z) : list (Z * Z) :=
  omap (λ r, (λ s, (s, default now r.2)) <$> r.1) rows.

(** [metering_math.covered_seconds], in seconds. *)
Definition covered_seconds (rows : list (option Z * option Z)) (now : Z) : amount :=
  match sort_by (λ a b, a.1 <=? b.1) (spans_of rows now) with
  | [] => 0%Qc
  | first :: rest =>
      qsum (map (λ '(s, e), hours_between s e * amount_of 3600)%Qc (merge_spans first rest))
  end.

(** ** Months *)

(** [metering_math.month_bounds] *)
Definition month_bounds (year month : Z) : res (Z * Z) :=
  s <- datetime_month year month;;
  e <- (if month =? 12 then datetime_month (year + 1) 1 else datetime_month year (month + 1));;
  Ok (s, e).

(** [metering_math.previous_month] *)
Definition previous_month (now : Z) : Z * Z :=
  let '(y, m) := year_month now in if m =? 1 then (y - 1, 12) else (y, m - 1).

Definition out_of_fuel {A} : res A := Raise (RuntimeError "out of fuel").

(** [metering_math.months_spanned:117-122] the loop. *)
Fixpoint months_loop (fuel : nat) (cur last : Z) (out : list (Z * Z)) : res (list (Z * Z)) :=
  match fuel with
  | O => out_of_fuel
  | S fuel' =>
      if cur <=? last then
        let '(y, m) := year_month cur in
        next <- add_days cur (days_in_month y m);;
        months_loop fuel' (replace_day1 next) last (out ++ [(y, m)])
      else Ok out
  end.

(** [metering_math.months_spanned]: a step advances by at least 28 days. *)
Definition months_spanned (s e : Z) : res (list (Z * Z)) :=
  let cur := month_floor s in
  months_loop (S (Z.to_nat ((e - cur) / (28 * DAY) + 1))) cur e [].

(** ** Usage in a period *)

Record bucket := mkBucket { b_qty_hours : amount; b_subtotal : amount }.

Record line := mkLine {
  ln_kind : string;
  ln_hours : amount;
  ln_qty_hours : amount;
  ln_subtotal : amount;
  ln_unit_rate : amount
}.

(** [metering_math.period_usage:150-162] one row added to its kind. *)
Definition add_usage (kind : string) (qty hours cost : amount) (m : list (string * bucket))
    : list (string * bucket) :=
  let b := default (mkBucket 0 0) (assoc kind m) in
  assoc_set kind (mkBucket (b_qty_hours b + qty * hours) (b_subtotal b + cost))%Qc m.

(** [metering_math.period_usage:166-171] the line of a kind. *)
Definition line_of (now : Z) (spans : list (string * list (option Z * option Z)))
    (p : string * bucket) : line :=
  let '(kind, b) := p in
  mkLine kind (covered_seconds (default [] (assoc kind spans)) now / amount_of 3600)%Qc
    (b_qty_hours b) (b_subtotal b)
    (if qlt 0 (b_qty_hours b) then b_subtotal b / b_qty_hours b else 0)%Qc.

(** State of the loop: the total, the buckets and the spans of each kind. *)
Definition period_state : Type :=
  amount * list (string * bucket) * list (string * list (option Z * option Z)).

(** [metering_math.period_usage:134-165] one row. *)
Definition period_row (p0 p1 now : Z) (st : period_state) (row : usage) : period_state :=
  let '(total, by_kind, spans) := st in
  match u_started row with
  | None => st
  | Some s =>
      let e := default now (u_ended row) in
      let clip_s := Z.max s p0 in
      let clip_e := Z.min e p1 in
      if clip_e <=? clip_s then st
      else
        let qty := default 0%Qc (u_qty row) in
        let rate := default 0%Qc (u_rate row) in
        let hours := hours_between clip_s clip_e in
        let cost := (qty * rate * hours)%Qc in
        let kind := match u_kind row with Some "" | None => "unknown" | Some k => k end in
        ((total + cost)%Qc, add_usage kind qty hours cost by_kind,
         assoc_set kind (default [] (assoc kind spans) ++ [(Some clip_s, Some clip_e)]) spans)
  end.

(** [metering_math.period_usage] *)
Definition period_usage (rows : list usage) (p0 p1 now : Z) : amount * list line :=
  let '(total, by_kind, spans) := foldl (period_row p0 p1 now) (0%Qc, [], []) rows in
  (total, map (line_of now spans) (sort_by (λ a b, str_leb a.1 b.1) by_kind)).

(** ** The resources a project is billed for *)

Definition RUNNING_STATES : list string := ["running"; "active"; "on"; "paused"].
Definition STOPPED_STATES : list string :=
  ["stopped"; "shutoff"; "off"; "halted"; "hibernated"; "shut_off"].

(** [metering_math._state_running]: [None] when the state says nothing. *)
Definition state_running (value : val) : option bool :=
  match value with
  | VBool b => Some b
  | _ =>
      let token := lower (py_str (v_or value vstr_empty)) in
      if bool_decide (token ∈ RUNNING_STATES) then Some true
      else if bool_decide (token ∈ STOPPED_STATES) then Some false else None
  end.

Definition is_false (v : val) : bool := match v with VBool false => true | _ => false end.

(** [metering_math._intended_off] *)
Definition intended_off (vm : val) : res bool :=
  a <- get vm "auto_start" VNone;;
  if is_false a then Ok true
  else
    p <- get vm "power_on_at_deploy" VNone;;
    if is_false p then Ok true
    else d <- get vm "defer_ocp_install" VNone;; Ok (truthy d).

(** [metering_math._vm_running] *)
Definition vm_running (vm : val) (project_state : string) : res bool :=
  known <- first_some (λ key, v <- get vm key VNone;; Ok (state_running v))
             ["live_state"; "state"; "power"; "running"];;
  match known with
  | Some b => Ok b
  | None =>
      off <- intended_off vm;;
      if off then Ok false
      else Ok (bool_decide (project_state ∈ ["active"; "starting"]))
  end.

(** [metering_math.Desired:24-24]: kind, resource, quantity, host, provider type. *)
Record desired := mkDesired {
  d_kind : string;
  d_rid : string;
  d_qty : amount;
  d_host : val;
  d_ptype : string
}.

(** Equality of the tuples, as set members. *)
Definition desired_eq (a b : desired) : bool :=
  bool_decide (d_kind a = d_kind b) && bool_decide (d_rid a = d_rid b) &&
  bool_decide (d_qty a = d_qty b) && py_eq (d_host a) (d_host b) &&
  bool_decide (d_ptype a = d_ptype b).

(** [out.add((...))]: an unhashable host raises. *)
Definition dadd (d : desired) (out : list desired) : res (list desired) :=
  _ <- hkey (d_host d);; Ok (if existsb (desired_eq d) out then out else out ++ [d]).

(** What [build_snapshot] gives the arithmetic. *)
Record snapshot := mkSnapshot {
  sn_provider_type : string;
  sn_host_id : val;
  sn_billing_mode : string;
  sn_host_vcpus : amount;
  sn_host_ram_gib : amount;
  sn_host_rates : option rates;
  sn_project_state : string;
  sn_vms : list val;
  sn_disks : list val;
  sn_eips : list val;
  sn_ceph : list val
}.

(** [metering_math._dedicated_host_resources] *)
Definition dedicated_host_resources (sn : snapshot) (provider_type : string) (default_host : val)
    : res (list desired) :=
  let rid := if truthy default_host then "host:" +:+ py_str default_host else "host" in
  out <- (if qlt 0 (sn_host_vcpus sn)
          then dadd (mkDesired "vcpu" rid (sn_host_vcpus sn) default_host provider_type) []
          else Ok []);;
  if qlt 0 (sn_host_ram_gib sn)
  then dadd (mkDesired "ram" rid (sn_host_ram_gib sn) default_host provider_type) out
  else Ok out.

(** [float(item.get(key) or 0)]. *)
Definition float_field (item : val) (key : string) : res amount :=
  v <- get item key VNone;; py_float (v_or v (VInt 0)).

(** [metering_math._add_persistent] *)
Definition add_persistent (out : list desired) (items : list val) (kind qty_key : string)
    (default_host : val) (provider_type : string) : res (list desired) :=
  for_each items out (λ item out,
    h <- get item "host_id" VNone;;
    i <- idx item "id";;
    q <- float_field item qty_key;;
    dadd (mkDesired kind (py_str i) q (v_or h default_host) provider_type) out).

(** [metering_math._add_eips] *)
Definition add_eips (out : list desired) (items : list val) (default_host : val)
    (provider_type : string) : res (list desired) :=
  for_each items out (λ item out,
    h <- get item "host_id" VNone;;
    i <- idx item "id";;
    dadd (mkDesired "eip" (py_str i) 1%Qc (v_or h default_host) provider_type) out).

(** [metering_math.desired_resources:228-233] one VM. *)
Definition add_vm_resources (project_state provider_type : string) (default_host vm : val)
    (out : list desired) : res (list desired) :=
  h <- get vm "host_id" VNone;;
  let hid := v_or h default_host in
  i <- idx vm "id";;
  let vid := py_str i in
  run <- vm_running vm project_state;;
  if run then
    c <- float_field vm "vcpus";;
    out <- dadd (mkDesired "vcpu" vid c hid provider_type) out;;
    r <- float_field vm "ram_gib";;
    dadd (mkDesired "ram" vid r hid provider_type) out
  else Ok out.

(** [metering_math.desired_resources] *)
Definition desired_resources (sn : snapshot) : res (list desired) :=
  let provider_type := if String.eqb (sn_provider_type sn) "" then "unknown" else sn_provider_type sn in
  let default_host := sn_host_id sn in
  let project_state := sn_project_state sn in
  let billing_mode := if String.eqb (sn_billing_mode sn) "" then "shared" else sn_billing_mode sn in
  if String.eqb project_state "error" then Ok []
  else if String.eqb billing_mode "dedicated"
  then dedicated_host_resources sn provider_type default_host
  else if bool_decide (project_state ∈ ["stopped"; "stopping"]) then Ok []
  else
    out <- for_each (sn_vms sn) [] (add_vm_resources project_state provider_type default_host);;
    out <- add_persistent out (sn_disks sn) "disk" "size_gib" default_host provider_type;;
    out <- add_eips out (sn_eips sn) default_host provider_type;;
    add_persistent out (sn_ceph sn) "ceph" "size_gib" default_host provider_type.

(** ** Differences *)

(** The key of an interval: kind and resource. *)
Notation rkey := (string * string)%type.

Definition desired_key (d : desired) : rkey := (d_kind d, d_rid d).

(** What a key should have: quantity, host, provider type. *)
Definition wanted : Type := amount * val * string.

(** [{(k, r): (q, h, p) for k, r, q, h, p in desired}]. *)
Definition desired_map (ds : list desired) : list (rkey * wanted) :=
  foldl (λ m d, assoc_set (desired_key d) (d_qty d, d_host d, d_ptype d) m) [] ds.

(** [{(kind, rid): qty for kind, rid, qty in open_rows}]. *)
Definition open_map (rows : list (rkey * amount)) : list (rkey * amount) :=
  foldl (λ m r, assoc_set r.1 r.2 m) [] rows.

(** [abs(a - b) > 1e-9]. *)
Definition qty_differs (a b : amount) : bool := qlt (tenth_pow 9) (Qcabs (a - b)).

(** [metering_math.diff_intervals]: the intervals to close and to open; [ds] is the set in
    the order it is iterated in. *)
Definition diff_intervals (open_rows : list (rkey * amount)) (ds : list desired)
    : list (rkey * amount) * list desired :=
  let om := open_map open_rows in
  let dm := desired_map ds in
  (List.filter (λ p, match assoc p.1 dm with
                     | None => true
                     | Some w => qty_differs w.1.1 p.2
                     end) om,
   map (λ p, mkDesired p.1.1 p.1.2 p.2.1.1 p.2.1.2 p.2.2)
     (List.filter (λ p, match assoc p.1 om with
                        | None => true
                        | Some q => qty_differs q p.2.1.1
                        end) dm)).

#[local] Ltac Zify.zify_post_hook ::= Z.to_euclidean_division_equations.

(** ** Months: the loop ends, with exactly the months between *)

Lemma month_bounds_at i :
  12 * MINYEAR ≤ i → i + 1 < 12 * (MAXYEAR + 1) →
  month_bounds (month_at i).1 (month_at i).2 = Ok (month_start i, month_start (i + 1)).
Proof.
  intros H1 H2. unfold month_bounds. rewrite datetime_month_at by lia. cbn [bind].
  assert ((if (month_at i).2 =? 12 then datetime_month ((month_at i).1 + 1) 1
           else datetime_month (month_at i).1 ((month_at i).2 + 1)) = Ok (month_start (i + 1))) as ->;
    [|done].
  rewrite <-datetime_month_at by lia. unfold month_at. cbn [fst snd].
  destruct (_ =? 12) eqn:E; bool_lia; f_equal; lia.
Qed.

Definition LAST_MONTH : Z := month_no (MAXYEAR, 12).

Lemma months_step i :
  12 * MINYEAR ≤ i → 
  year_month (month_start i) = month_at i ∧
  add_days (month_start i) (days_in_month (month_at i).1 (month_at i).2) =
    (if i <? LAST_MONTH then Ok (month_start (i + 1)) else Raise OverflowError).
Proof.
  intros Hi. split.
  { by rewrite <-year_month_of, month_of_start. }
  unfold add_days. destruct (month_start_next i) as [<- _].
  change (first_instant MINYEAR 1) with (month_start (12 * MINYEAR)).
  change END_OF_TIME with (month_start (LAST_MONTH + 1)).
  pose proof (month_start_mono (12 * MINYEAR) (i + 1) ltac:(lia)).
  destruct (i <? LAST_MONTH) eqn:E; bool_lia.
  - pose proof (month_start_lt (i + 1) (LAST_MONTH + 1) ltac:(lia)).
    rewrite (proj2 (Z.leb_le _ _)), (proj2 (Z.ltb_lt _ _)) by lia. done.
  - pose proof (month_start_mono (LAST_MONTH + 1) (i + 1) ltac:(lia)).
    rewrite (proj2 (Z.leb_le _ _)), (proj2 (Z.ltb_ge _ _)) by lia. done.
Qed.

Lemma replace_day1_start i : replace_day1 (month_start i) = month_start i.
Proof. unfold replace_day1. rewrite month_floor_start, month_of_start, month_start_day. lia. Qed.

(** The loop from the start of a month, with fuel for every month that is left. *)
Lemma months_loop_spec fuel i last out :
  12 * MINYEAR ≤ i → (Z.to_nat (month_of last - i + 1) < fuel)%nat →
  months_loop fuel (month_start i) last out =
    if (i <=? month_of last) && (LAST_MONTH <=? month_of last) then Raise OverflowError
    else Ok (out ++ map month_at (seqZ i (month_of last - i + 1))).
Proof.
  revert i out. induction fuel as [|fuel IH]; intros i out Hi Hf; [lia|]. cbn [months_loop].
  pose proof (month_start_le_iff i last) as Hle.
  destruct (i <=? month_of last) eqn:E; bool_lia.
  - rewrite (proj2 (Z.leb_le _ _)) by tauto.
    destruct (months_step i Hi) as [-> Hadd]. destruct (month_at i) as [y m] eqn:Ei. cbn [fst snd] in *.
    rewrite Hadd. destruct (i <? LAST_MONTH) eqn:El; bool_lia; cbn [bind andb].
    + rewrite replace_day1_start, IH by lia.
      rewrite (seqZ_cons i (month_of last - i + 1)) by lia. cbn [map]. rewrite Ei.
      replace (Z.succ i) with (i + 1) by lia.
      replace (Z.pred (month_of last - i + 1)) with (month_of last - (i + 1) + 1) by lia.
      rewrite <-app_assoc. cbn [app].
      destruct (LAST_MONTH <=? month_of last) eqn:E2; bool_lia.
      * rewrite (proj2 (Z.leb_le _ _)) by lia. done.
      * by rewrite andb_false_r.
    + rewrite (proj2 (Z.leb_le LAST_MONTH _)) by lia. done.
  - rewrite (proj2 (Z.leb_gt _ _)) by (apply Z.lt_nge; tauto || lia). cbn [andb].
    rewrite seqZ_nil by lia. by rewrite app_nil_r.
Qed.

(** The months of an interval, in order, or an overflow past year 9999. *)
Lemma months_spanned_spec s e :
  first_instant MINYEAR 1 ≤ s →
  months_spanned s e =
    if (month_of s <=? month_of e) && (first_instant MAXYEAR 12 <=? e) then Raise OverflowError
    else Ok (map month_at (seqZ (month_of s) (month_of e - month_of s + 1))).
Proof.
  intros Hs. change (first_instant MINYEAR 1) with (month_start (12 * MINYEAR)) in Hs.
  apply month_start_le_iff in Hs. unfold months_spanned. rewrite month_floor_start, months_loop_spec.
  - assert ((first_instant MAXYEAR 12 <=? e) = (LAST_MONTH <=? month_of e)) as ->; [|done].
    change (first_instant MAXYEAR 12) with (month_start LAST_MONTH).
    pose proof (month_start_le_iff LAST_MONTH e).
    destruct (LAST_MONTH <=? month_of e) eqn:E; bool_lia.
  - done.
  - set (i := month_of s) in *. pose proof (month_of_bounds e) as [He _].
    destruct (Z.le_gt_cases i (month_of e)) as [Hie|]; [|lia].
    pose proof (month_start_gap i (month_of e) Hie).
    assert (month_of e - i ≤ (e - month_start i) / (28 * DAY)); [|lia].
    apply Z.div_le_lower_bound; [unfold DAY; lia|]. lia.
Qed.

(** Calendar months of a period: [months_spanned] always ends, and gives exactly the
    months from that of the start to that of the end, once each and in order; it is empty
    when the end's month is before the start's.  It raises only when the period reaches
    the last month a datetime can hold. *)
Theorem months_spanned_exact s e :
  first_instant MINYEAR 1 ≤ s →
  months_spanned s e =
    if (month_of s <=? month_of e) && (first_instant MAXYEAR 12 <=? e) then Raise OverflowError
    else Ok (map month_at (seqZ (month_of s) (month_of e - month_of s + 1))).
Proof. apply months_spanned_spec. Qed.

(** ** Coverage: the union of the spans *)

Lemma amount_of_add a b : amount_of (a + b) = (amount_of a + amount_of b)%Qc.
Proof. apply Z2Qc_inj_add. Qed.

Lemma amount_of_mul a b : amount_of (a * b) = (amount_of a * amount_of b)%Qc.
Proof. apply Z2Qc_inj_mul. Qed.

Lemma amount_of_0 : amount_of 0 = 0%Qc.
Proof. apply Z2Qc_inj_0. Qed.

Lemma amount_of_neq z : z ≠ 0 → amount_of z ≠ 0%Qc.
Proof. rewrite <-amount_of_0. intros Hz H. by apply Hz, Z2Qc_inj. Qed.

Definition HOUR : Z := 3600 * 1000000.

Lemma hours_between_max s e :
  hours_between s e = (amount_of (Z.max 0 (e - s)) / amount_of HOUR)%Qc.
Proof.
  unfold hours_between. destruct (e - s <=? 0) eqn:E; bool_lia.
  - rewrite Z.max_l by lia. rewrite amount_of_0. unfold Qcdiv. by rewrite Qcmult_0_l.
  - by rewrite Z.max_r by lia.
Qed.

Lemma qsum_app l1 l2 : qsum (l1 ++ l2) = (qsum l1 + qsum l2)%Qc.
Proof.
  induction l1 as [|q l1 IH]; cbn [app qsum foldr]; [by rewrite Qcplus_0_l|].
  unfold qsum in *. by rewrite IH, Qcplus_assoc.
Qed.

#[export] Instance qsum_perm : Proper ((≡ₚ) ==> eq) qsum.
Proof. intros l1 l2. induction 1; unfold qsum in *; cbn; [done|by f_equal|ring|congruence]. Qed.

(** A common factor of a sum of integers. *)
Lemma qsum_scaled {A} (f : A → Z) (c : amount) l :
  qsum (map (λ x, amount_of (f x) * c)%Qc l) = (amount_of (zsum (map f l)) * c)%Qc.
Proof.
  induction l as [|x l IH]; cbn [map qsum foldr zsum].
  - rewrite amount_of_0. by rewrite Qcmult_0_l.
  - unfold qsum, zsum in *. rewrite IH, amount_of_add. ring.
Qed.

(** The instants of a span, and of some spans. *)
Definition instants_of (p : Z * Z) : gset Z := list_to_set (seqZ p.1 (p.2 - p.1)).
Definition instants (l : list (Z * Z)) : gset Z := ⋃ (map instants_of l).

Lemma elem_of_instants_of t p : t ∈ instants_of p ↔ p.1 ≤ t < p.2.
Proof. unfold instants_of. rewrite elem_of_list_to_set, elem_of_seqZ. lia. Qed.

Lemma instants_cons p l : instants (p :: l) = instants_of p ∪ instants l.
Proof. done. Qed.

Lemma elem_of_instants t l : t ∈ instants l ↔ ∃ p, p ∈ l ∧ p.1 ≤ t < p.2.
Proof.
  unfold instants. rewrite elem_of_union_list. split.
  - intros (X & (p & -> & Hp)%list_elem_of_fmap & Ht). exists p. by rewrite <-elem_of_instants_of.
  - intros (p & Hp & Ht). exists (instants_of p). split; [by apply list_elem_of_fmap_2|].
    by apply elem_of_instants_of.
Qed.

#[export] Instance instants_perm : Proper ((≡ₚ) ==> eq) instants.
Proof.
  intros l1 l2 H. apply set_eq. intros t. rewrite !elem_of_instants.
  by setoid_rewrite H.
Qed.

Definition span_length (p : Z * Z) : Z := Z.max 0 (p.2 - p.1).

Lemma size_instants_of p : Z.of_nat (size (instants_of p)) = span_length p.
Proof.
  unfold instants_of, span_length. rewrite size_list_to_set by apply NoDup_seqZ.
  rewrite length_seqZ. lia.
Qed.

(** Spans with a gap between each and all later ones. *)
Definition separated (l : list (Z * Z)) : Prop := StronglySorted (λ a b, a.2 < b.1) l.

Lemma size_instants_separated l :
  separated l → Z.of_nat (size (instants l)) = zsum (map span_length l).
Proof.
  induction 1 as [|p l _ IH Hp]; [done|]. unfold instants, zsum in *. cbn [map foldr union_list].
  rewrite size_union; [rewrite Nat2Z.inj_add, size_instants_of, IH; done|].
  intros t Ht1 Ht2. apply elem_of_instants_of in Ht1.
  change (t ∈ instants l) in Ht2. apply elem_of_instants in Ht2 as (q & Hq & Ht2).
  rewrite Forall_forall in Hp. specialize (Hp q Hq). cbn in Hp. lia.
Qed.

(** Merging sorted spans keeps their instants and separates them. *)
Lemma merge_spans_spec last l :
  StronglySorted (λ a b, a.1 <= b.1) (last :: l) →
  instants (merge_spans last l) = instants (last :: l) ∧ separated (merge_spans last l) ∧
  Forall (λ p, last.1 <= p.1) (merge_spans last l).
Proof.
  revert last. induction l as [|[s e] l IH]; intros last Hs; cbn [merge_spans].
  { split_and!; [done|by repeat constructor|by repeat constructor]. }
  apply StronglySorted_inv in Hs as [Hs Hlast]. apply Forall_cons in Hlast as [Hls Hlast].
  apply StronglySorted_inv in Hs as [Hs Hse]. cbn in Hls, Hse.
  destruct (s <=? last.2) eqn:E; bool_lia.
  - destruct (IH (last.1, Z.max last.2 e)) as (Hi & Hsep & Hge).
    { constructor; [done|]. exact Hlast. }
    split_and!; [|done|done]. rewrite Hi. apply set_eq. intros t. rewrite !elem_of_instants. split.
    + intros (p & [->|Hp]%elem_of_cons & Ht); cbn in Ht; [|exists p; split; [by do 2 right|done]].
      destruct (decide (t < last.2)); [exists last; split; [by left|lia]|].
      exists (s, e). split; [right; by left|cbn; lia].
    + intros (p & [->|[->|Hp]%elem_of_cons]%elem_of_cons & Ht); cbn in Ht;
        [..|exists p; split; [by right|done]]; (eexists; split; [by left|cbn; lia]).
  - destruct (IH (s, e)) as (Hi & Hsep & Hge); [by constructor|]. split_and!.
    + by rewrite !(instants_cons last), Hi.
    + constructor; [done|]. eapply Forall_impl; [exact Hge|]. cbn. intros p. lia.
    + constructor; [done|]. eapply Forall_impl; [exact Hge|]. cbn. intros p. lia.
Qed.

#[export] Instance span_order : TotalPreorder (λ a b : Z * Z, a.1 <=? b.1).
Proof. split; intros *; bool_lia. Qed.

Lemma spans_sorted l : StronglySorted (λ a b, a.1 <= b.1) (sort_by (λ a b : Z * Z, a.1 <=? b.1) l).
Proof.
  pose proof (sort_by_Sorted (λ a b : Z * Z, a.1 <=? b.1) l) as H.
  induction H as [|x l' Hs IH Hx]; constructor; [exact IH|].
  eapply Forall_impl; [exact Hx|]. intros y. apply Z.leb_le.
Qed.

(** C39: Wall-clock coverage: the seconds a project is metered for are the size of the union
    of its spans, whatever their order, overlaps and gaps: an instant covered twice counts
    once, and a span that ends before it starts counts nothing. *)
Theorem covered_seconds_union rows now :
  (covered_seconds rows now * amount_of 1000000)%Qc =
    amount_of (Z.of_nat (size (instants (spans_of rows now)))).
Proof.
  unfold covered_seconds. pose proof (sort_by_perm (λ a b : Z * Z, a.1 <=? b.1) (spans_of rows now)) as Hp.
  pose proof (spans_sorted (spans_of rows now)) as Hs. apply instants_perm in Hp.
  destruct (sort_by _ _) as [|first rest]; rewrite <-Hp; [by rewrite Qcmult_0_l, <-amount_of_0|].
  destruct (merge_spans_spec first rest Hs) as (<- & Hsep & _).
  rewrite (size_instants_separated _ Hsep).
  rewrite (map_ext _ (λ p, amount_of (span_length p) * (/ amount_of 1000000))%Qc).
  - rewrite qsum_scaled. field. by apply amount_of_neq.
  - intros [s e]. rewrite hours_between_max. unfold span_length, HOUR. cbn [fst snd].
    rewrite (amount_of_mul 3600). field. split; by apply amount_of_neq.
Qed.

(** ** Monthly shares add up *)

Lemma qsum_map_add {A} (f g : A → amount) l :
  qsum (map (λ x, f x + g x)%Qc l) = (qsum (map f l) + qsum (map g l))%Qc.
Proof. induction l as [|x l IH]; cbn; [ring|]. unfold qsum in *. rewrite IH. ring. Qed.

Lemma qsum_swap {A B} (f : A → B → amount) la lb :
  qsum (map (λ a, qsum (map (f a) lb)) la) = qsum (map (λ b, qsum (map (λ a, f a b) la)) lb).
Proof.
  induction la as [|a la IH]; cbn [map].
  - induction lb as [|b lb IHb]; [done|]. cbn in *. unfold qsum in *. cbn. rewrite <-IHb. ring.
  - change (qsum (?x :: ?l)) with (x + qsum l)%Qc. rewrite IH, <-qsum_map_add. done.
Qed.

(** What one row costs inside a period. *)
Definition clipped (p0 p1 now : Z) (row : usage) : amount :=
  match u_started row with
  | None => 0%Qc
  | Some s => (default 0 (u_qty row) * default 0 (u_rate row) *
               hours_between (Z.max s p0) (Z.min (default now (u_ended row)) p1))%Qc
  end.

(** The subtotals of the buckets. *)
Definition subtotals (m : list (string * bucket)) : amount := qsum (map (λ p, b_subtotal p.2) m).

Lemma subtotals_add kind qty hours cost m :
  subtotals (add_usage kind qty hours cost m) = (subtotals m + cost)%Qc.
Proof.
  unfold add_usage, subtotals. induction m as [|[k b] m IH]; cbn; [unfold qsum; cbn; ring|].
  case_decide as Hk; cbn; unfold qsum in *; cbn in *; [ring|].
  rewrite IH. ring.
Qed.

(** One row adds its clipped cost to the total and to the buckets. *)
Lemma period_row_total p0 p1 now st row :
  (period_row p0 p1 now st row).1.1 = (st.1.1 + clipped p0 p1 now row)%Qc ∧
  subtotals (period_row p0 p1 now st row).1.2 = (subtotals st.1.2 + clipped p0 p1 now row)%Qc.
Proof.
  destruct st as [[total m] spans]. unfold period_row, clipped.
  destruct (u_started row) as [s|]; cbn [fst snd]; [|split; ring].
  destruct (_ <=? _) eqn:E; bool_lia; cbn [fst snd].
  - unfold hours_between. rewrite (proj2 (Z.leb_le _ _)) by lia. split; ring.
  - split; [done|]. apply subtotals_add.
Qed.

Lemma period_usage_total rows p0 p1 now :
  let u := period_usage rows p0 p1 now in
  u.1 = qsum (map (clipped p0 p1 now) rows) ∧ qsum (map ln_subtotal u.2) = u.1.
Proof.
  assert (H : ∀ st, let st' := foldl (period_row p0 p1 now) st rows in
    st'.1.1 = (st.1.1 + qsum (map (clipped p0 p1 now) rows))%Qc ∧
    subtotals st'.1.2 = (subtotals st.1.2 + qsum (map (clipped p0 p1 now) rows))%Qc).
  { induction rows as [|row rows IH]; intros st; cbn [foldl map]; [split; cbn; ring|].
    destruct (IH (period_row p0 p1 now st row)) as [-> ->].
    destruct (period_row_total p0 p1 now st row) as [-> ->].
    change (qsum (?x :: ?l)) with (x + qsum l)%Qc. split; ring. }
  unfold period_usage. specialize (H (0%Qc, [], [])). destruct (foldl _ _ _) as [[total m] spans].
  cbn [fst snd] in *. destruct H as [H1 H2]. unfold subtotals at 2 in H2. cbn in H2.
  split; [rewrite H1; ring|]. rewrite H1, map_map.
  rewrite (map_ext (λ p, ln_subtotal (line_of now spans p)) (λ p, b_subtotal p.2)) by (by intros []).
  rewrite <-H2. unfold subtotals. by rewrite sort_by_perm.
Qed.

Lemma spend_total_sum rows now total :
  spend_total rows now = Ok total →
  total = qsum (map (λ row, default 0 (u_qty row) * default 0 (u_rate row) *
    hours_between (default 0%Z (u_started row)) (default now (u_ended row)))%Qc rows) ∧
  Forall (λ row, is_Some (u_started row)) rows.
Proof.
  unfold spend_total. cut (∀ t0 : amount, for_each rows t0 (λ row total,
    let e := default now (u_ended row) in
    q <- required (u_qty row);; r <- required (u_rate row);; s <- required (u_started row);;
    Ok (total + interval_cost q r s e)%Qc) = Ok total →
    total = (t0 + qsum (map (λ row, default 0 (u_qty row) * default 0 (u_rate row) *
    hours_between (default 0%Z (u_started row)) (default now (u_ended row)))%Qc rows))%Qc ∧
    Forall (λ row, is_Some (u_started row)) rows).
  { intros H H'. apply H in H' as [-> ?]. split; [ring|done]. }
  induction rows as [|row rows IH]; intros t0; cbn [for_each map].
  { intros [= ->]. split; [cbn; ring|done]. }
  intros H. apply bind_Ok in H as (t1 & H1 & H2). apply IH in H2 as [-> Hall].
  change (qsum (?x :: ?l)) with (x + qsum l)%Qc. cbv zeta in H1.
  destruct (u_qty row), (u_rate row), (u_started row) eqn:Es; cbn in H1; simplify_eq. cbn.
  unfold interval_cost. split; [ring|]. constructor; [by rewrite Es|done].
Qed.

(** The part of a span inside a window, over adjacent windows. *)
Definition clip (a b s e : Z) : Z := Z.max 0 (Z.min e b - Z.max s a).

Lemma clip_telescope i n s e :
  zsum (map (λ k, clip (month_start k) (month_start (k + 1)) s e) (seqZ i (Z.of_nat n))) =
    clip (month_start i) (month_start (i + Z.of_nat n)) s e.
Proof.
  induction n as [|n IH].
  - rewrite seqZ_nil, Z.add_0_r by lia. cbn [map zsum foldr]. unfold clip. lia.
  - rewrite seqZ_S, map_app, zsum_app, IH. cbn [map zsum foldr].
    replace (i + Z.of_nat (S n)) with (i + Z.of_nat n + 1) by lia.
    pose proof (month_start_mono i (i + Z.of_nat n) ltac:(lia)).
    pose proof (month_start_mono (i + Z.of_nat n) (i + Z.of_nat n + 1) ltac:(lia)).
    unfold clip. lia.
Qed.

(** Monthly statements lose and invent nothing: the shares of the months from [s] to [now] add
    up to the whole spend of rows that lie between. *)
Lemma monthly_shares_sum rows s now total :
  (∀ row r, row ∈ rows → u_started row = Some r → s ≤ r ∧ default now (u_ended row) ≤ now) →
  spend_total rows now = Ok total →
  qsum (map (λ k, (period_usage rows (month_start k) (month_start (k + 1)) now).1)
    (seqZ (month_of s) (month_of now - month_of s + 1))) = total.
Proof.
  intros Hrows Htotal. apply spend_total_sum in Htotal as [-> Hstart].
  rewrite (map_ext _ (λ k, qsum (map (clipped (month_start k) (month_start (k + 1)) now) rows)))
    by (intros k; apply period_usage_total).
  set (i := month_of s) in *. set (n := Z.to_nat (month_of now - i + 1)).
  rewrite qsum_swap. f_equal. apply map_ext_in. intros row Hrow%list_elem_of_In.
  rewrite Forall_forall in Hstart. destruct (Hstart row Hrow) as [r Hr].
  destruct (Hrows row r Hrow Hr) as [H1 H2]. rewrite Hr. unfold clipped. rewrite Hr.
  set (c := (default 0 (u_qty row) * default 0 (u_rate row))%Qc).
  set (e := default now (u_ended row)) in *. cbn [from_option]. unfold id.
  rewrite (map_ext _ (λ k, amount_of (clip (month_start k) (month_start (k + 1)) r e) *
                           (c / amount_of HOUR))%Qc).
  2: { intros k. rewrite hours_between_max. unfold clip. field. by apply amount_of_neq. }
  rewrite qsum_scaled, hours_between_max.
  assert (zsum (map (λ k, clip (month_start k) (month_start (k + 1)) r e)
            (seqZ i (month_of now - i + 1))) = Z.max 0 (e - r)) as ->.
  2: { field. by apply amount_of_neq. }
  pose proof (month_of_bounds s) as [Hi _]. fold i in Hi. pose proof (month_of_bounds now) as [_ Hn].
  destruct (Z.le_gt_cases i (month_of now)) as [Hle|Hlt].
  + replace (month_of now - i + 1) with (Z.of_nat n) by (unfold n; lia).
    rewrite clip_telescope. unfold n.
    replace (i + Z.of_nat (Z.to_nat (month_of now - i + 1))) with (month_of now + 1) by lia.
    unfold clip. lia.
  + rewrite seqZ_nil by lia. pose proof (month_start_mono (month_of now + 1) i). cbn [map zsum foldr]. lia.
Qed.

(** ** Differences: what is closed and what is opened *)

Lemma assoc_fold_set {K A B} `{EqDecision K} (key : A → K) (f : A → B) (l : list A) (m : list (K * B)) k :
  let m' := foldl (λ m x, assoc_set (key x) (f x) m) m l in
  (NoDup m.*1 → NoDup m'.*1) ∧
  (k ∈ m'.*1 ↔ k ∈ m.*1 ∨ k ∈ map key l) ∧
  (∀ b, assoc k m' = Some b → assoc k m = Some b ∨ ∃ x, x ∈ l ∧ key x = k ∧ f x = b).
Proof.
  revert m. induction l as [|x l IH]; intros m; cbn [foldl map].
  { split_and!; [done| |by left]. set_solver. }
  destruct (IH (assoc_set (key x) (f x) m)) as (H1 & H2 & H3). split_and!.
  - intros Hn. by apply H1, assoc_set_NoDup.
  - rewrite H2. assert (k ∈ (assoc_set (key x) (f x) m).*1 ↔ k = key x ∨ k ∈ m.*1) as ->.
    { destruct (decide (key x ∈ m.*1)).
      - rewrite assoc_set_keys by done. set_solver.
      - rewrite assoc_set_keys_new by done. set_solver. }
    set_solver.
  - intros b [Hb|(y & Hy & Hk & Hf)]%H3; [|right; exists y; set_solver].
    destruct (decide (key x = k)) as [<-|Hne].
    + rewrite assoc_set_eq in Hb. right. exists x. split; [left|]. by simplify_eq.
    + rewrite assoc_set_ne in Hb by done. by left.
Qed.

Lemma desired_map_NoDup ds : NoDup (desired_map ds).*1.
Proof. apply (assoc_fold_set desired_key (λ d, (d_qty d, d_host d, d_ptype d)) ds [] ("", "")). constructor. Qed.

Lemma open_map_keys rows k : k ∈ (open_map rows).*1 ↔ k ∈ rows.*1.
Proof.
  destruct (assoc_fold_set fst snd rows [] k) as (_ & H & _).
  unfold open_map. rewrite H. set_solver.
Qed.

Lemma open_map_NoDup rows : NoDup (open_map rows).*1.
Proof. apply (assoc_fold_set fst snd rows [] ("", "")). constructor. Qed.

(** With one row per key, the map of open rows is the rows. *)
Lemma open_map_rows rows : NoDup rows.*1 → open_map rows = rows.
Proof.
  intros Hn. unfold open_map.
  enough (∀ m, NoDup (m ++ rows).*1 → foldl (λ m r, assoc_set r.1 r.2 m) m rows = m ++ rows) as H
    by (by rewrite (H [])).
  clear Hn. induction rows as [|[k q] rows IH]; intros m Hm; cbn [foldl]; [by rewrite app_nil_r|].
  rewrite assoc_set_new.
  - rewrite IH; rewrite <-app_assoc; done.
  - rewrite fmap_app in Hm. apply NoDup_app in Hm as (_ & Hd & _). intros Hk.
    apply (Hd k Hk). left.
Qed.

(** The keys to close and to open, through the two maps. *)
Lemma diff_intervals_close rows ds k :
  NoDup rows.*1 →
  k ∈ (diff_intervals rows ds).1.*1 ↔
    ∃ q, assoc k rows = Some q ∧
      match assoc k (desired_map ds) with None => True | Some w => qty_differs w.1.1 q = true end.
Proof.
  intros Hn. unfold diff_intervals. cbn [fst]. rewrite open_map_rows by done. split.
  - intros ([k' q] & -> & [Hin Hf]%list_elem_of_In%filter_In)%list_elem_of_fmap. cbn in *.
    apply list_elem_of_In in Hin. exists q. split; [by apply elem_of_assoc|].
    destruct (assoc k' (desired_map ds)); [done|done].
  - intros (q & Hq & Hd). apply assoc_Some_elem in Hq. apply list_elem_of_fmap. exists (k, q).
    split; [done|]. apply list_elem_of_In, filter_In. split; [by apply list_elem_of_In|]. cbn.
    by destruct (assoc k (desired_map ds)).
Qed.

Lemma diff_intervals_open rows ds d :
  NoDup rows.*1 →
  d ∈ (diff_intervals rows ds).2 ↔
    assoc (desired_key d) (desired_map ds) = Some (d_qty d, d_host d, d_ptype d) ∧
    match assoc (desired_key d) rows with None => True | Some q => qty_differs q (d_qty d) = true end.
Proof.
  intros Hn. unfold diff_intervals. cbn [snd]. rewrite open_map_rows by done. split.
  - intros ([[k r] [[q h] p]] & -> & [Hin Hf]%list_elem_of_In%filter_In)%list_elem_of_fmap.
    cbn in *. apply list_elem_of_In in Hin. unfold desired_key; cbn.
    split; [by apply elem_of_assoc, Hin; apply desired_map_NoDup|].
    by destruct (assoc (k, r) rows).
  - intros [Hd Hr]. apply assoc_Some_elem in Hd. apply list_elem_of_fmap.
    exists (desired_key d, (d_qty d, d_host d, d_ptype d)). split; [by destruct d|].
    apply list_elem_of_In, filter_In. split; [by apply list_elem_of_In|]. cbn.
    by destruct (assoc (desired_key d) rows).
Qed.

(** What is opened has distinct keys. *)
Lemma diff_intervals_open_NoDup rows ds : NoDup (map desired_key (diff_intervals rows ds).2).
Proof.
  unfold diff_intervals. cbn [snd]. rewrite map_map.
  rewrite (map_ext _ fst) by (by intros [[] [[] ]]).
  apply (NoDup_map_filter fst), desired_map_NoDup.
Qed.

Lemma months_spanned_exact_witness :
  months_spanned (first_instant 2023 11 + 20 * DAY) (first_instant 2024 2 + 3 * DAY) =
    Ok [(2023, 11); (2023, 12); (2024, 1); (2024, 2)].
Proof.
  etransitivity; [apply months_spanned_exact; by vm_compute|]. vm_compute. reflexivity.
Defined.
