(* ===== verification/InstanceRates.v ===== *)
(** * Instance prices: [services/instance_rates.py]

    The hourly price of a host split into rates per vCPU and per GiB.  The catalogue (a JSON
    file the repository ships as data) is an argument. *)
From stdpp Require Import prelude strings numbers.
From Stdlib Require Import QArith.Qcanon Qcabs Field Ascii.
From S2P Require Import Prelude PyStr PyVal PyLemmas TopoNodes MeteringMath.

Open Scope list_scope.

(** A map of rates without nulls. *)
Notation rate_map := (list (string * amount)).

(** The catalogue: the unit rates, and the instances of each provider. *)
Record catalog := mkCatalog {
  cat_kubevirt : rates;
  cat_providers : list (string * list (string * rates))
}.

(** [d.get(key) or 0.0] of a map without nulls. *)
Definition rate_or_0 (key : string) (m : rate_map) : amount := default 0%Qc (assoc key m).

(** [x or y] for a number that may be null. *)
Definition q_or (a : option amount) (b : amount) : amount :=
  match a with Some q => if bool_decide (q = 0%Qc) then b else q | None => b end.

Section Rates.
Context (cat : catalog).

(** [instance_rates.kubevirt_unit_rates] *)
Definition kubevirt_unit_rates : rate_map :=
  foldl (λ out key, match rate_in key (cat_kubevirt cat) with
                    | Some v => assoc_set key v out
                    | None => out
                    end) (map (λ k, (k, 0%Qc)) RATE_KEYS) RATE_KEYS.

(** [instance_rates._PROVIDER_ALIAS:16-16] *)
Definition PROVIDER_ALIAS : list (string * string) :=
  [("aws", "ec2"); ("ec2", "ec2"); ("gcp", "gcp"); ("azure", "azure")].

(** [instance_rates.lookup_instance] *)
Definition lookup_instance (provider_type : string) (instance_type : option string) : option rates :=
  match instance_type with
  | None | Some "" => None
  | Some it =>
      let key := default provider_type (assoc provider_type PROVIDER_ALIAS) in
      let family := default [] (assoc key (cat_providers cat)) in
      match assoc it family with
      | Some [] | None => None
      | Some row => Some row
      end
  end.

(** [instance_rates.apportion_hourly] *)
Definition apportion_hourly (hourly_usd vcpus ram_gib : amount) (fallback : rate_map) : rate_map :=
  let base := match fallback with [] => kubevirt_unit_rates | _ => fallback end in
  let cpu_w := (vcpus * rate_or_0 "vcpu_hour" base)%Qc in
  let ram_w := (ram_gib * rate_or_0 "ram_gib_hour" base)%Qc in
  let weight := (cpu_w + ram_w)%Qc in
  if qle hourly_usd 0 || qle weight 0 then base
  else
    let base := if qlt 0 vcpus
                then assoc_set "vcpu_hour" (hourly_usd * (cpu_w / weight) / vcpus)%Qc base else base in
    if qlt 0 ram_gib
    then assoc_set "ram_gib_hour" (hourly_usd * (ram_w / weight) / ram_gib)%Qc base else base.

(** The leading decimal digits of a text, and the rest. *)
Fixpoint span_digits (s : string) : string * string :=
  match s with
  | String a s' => if is_digit a then let '(d, r) := span_digits s' in (String a d, r) else ("", s)
  | EmptyString => ("", "")
  end.

(** [instance_rates._OCPVIRT_SIZE:15-15]: [^(\d+)c-(\d+)g$], which a final line feed may follow. *)
Definition ocpvirt_size (s : string) : option (Z * Z) :=
  let '(v, s1) := span_digits s in
  if negb (String.eqb v "") && startswith "c-" s1 then
    let '(r, s2) := span_digits (str_drop 2 s1) in
    if negb (String.eqb r "") && bool_decide (s2 ∈ ["g"; "g" +:+ String (ascii_of_nat 10) ""])
    then Some (dec_val v, dec_val r) else None
  else None.

(** [instance_rates.ocpvirt_host_hourly] *)
Definition ocpvirt_host_hourly (instance_type : option string) : option (amount * amount * amount) :=
  match ocpvirt_size (default "" instance_type) with
  | None => None
  | Some (v, r) =>
      let vcpus := amount_of v in
      let ram_gib := amount_of r in
      let kv := kubevirt_unit_rates in
      Some ((vcpus * rate_or_0 "vcpu_hour" kv + ram_gib * rate_or_0 "ram_gib_hour" kv)%Qc, vcpus, ram_gib)
  end.

(** [instance_rates.host_capacity] *)
Definition host_capacity (provider_type : string) (instance_type : option string)
    (host_vcpus host_ram_gib : option amount) : amount * amount :=
  let catalogued :=
    match lookup_instance provider_type instance_type with
    | Some row => (default 0 (rate_in "vcpus" row), default 0 (rate_in "ram_gib" row))%Qc
    | None => (default 0 host_vcpus, default 0 host_ram_gib)%Qc
    end in
  if String.eqb provider_type "ocpvirt" then
    match ocpvirt_host_hourly instance_type with
    | Some (_, vcpus, ram_gib) => (vcpus, ram_gib)
    | None => catalogued
    end
  else catalogued.

(** [float(row\[key\])] of an entry of the catalogue. *)
Definition entry (key : string) (row : rates) : res amount :=
  match assoc key row with
  | Some (Some q) => Ok q
  | Some None => Raise TypeError
  | None => Raise KeyError
  end.

(** [instance_rates.rates_for_host] *)
Definition rates_for_host (provider_type : string) (instance_type : option string)
    (host_vcpus host_ram_gib : option amount) : res (option rate_map) :=
  if String.eqb provider_type "kubevirt" then Ok (Some kubevirt_unit_rates)
  else if String.eqb provider_type "ocpvirt" then
    match ocpvirt_host_hourly instance_type with
    | None => Ok (Some kubevirt_unit_rates)
    | Some (hourly, vcpus, ram_gib) => Ok (Some (apportion_hourly hourly vcpus ram_gib []))
    end
  else
    match lookup_instance provider_type instance_type with
    | None => Ok None
    | Some row =>
        let vcpus := q_or (rate_in "vcpus" row) (default 0%Qc host_vcpus) in
        let ram_gib := q_or (rate_in "ram_gib" row) (default 0%Qc host_ram_gib) in
        hourly <- entry "hourly_usd" row;;
        Ok (Some (apportion_hourly hourly vcpus ram_gib []))
    end.
End Rates.

(** ** The split adds up to the price *)

Lemma apportion_rates (cat : catalog) h v r (fb : rate_map) :
  let base := match fb with [] => kubevirt_unit_rates cat | _ => fb end in
  let w := (v * rate_or_0 "vcpu_hour" base + r * rate_or_0 "ram_gib_hour" base)%Qc in
  (0 < h)%Qc → (0 <= v)%Qc → (0 <= r)%Qc → (0 < w)%Qc →
  let out := apportion_hourly cat h v r fb in
  (v * rate_or_0 "vcpu_hour" out + r * rate_or_0 "ram_gib_hour" out)%Qc = h.
Proof.
  cbv zeta. intros Hh Hv Hr Hw. unfold apportion_hourly.
  set (base := match fb with [] => kubevirt_unit_rates cat | _ => fb end) in *.
  set (cv := rate_or_0 "vcpu_hour" base) in *. set (cr := rate_or_0 "ram_gib_hour" base) in *.
  set (w := (v * cv + r * cr)%Qc) in *.
  assert (qle h 0 = false) as -> by (unfold qle; by apply bool_decide_eq_false, Qclt_not_le).
  assert (qle w 0 = false) as -> by (unfold qle; by apply bool_decide_eq_false, Qclt_not_le).
  cbn [orb].
  assert (Hw0 : w ≠ 0%Qc) by (intros E; rewrite E in Hw; by apply Qclt_not_eq in Hw).
  assert (Hpos : ∀ q, (0 <= q)%Qc → qlt 0 q = false → q = 0%Qc).
  { unfold qlt. intros q Hq E%bool_decide_eq_false%Qcnot_lt_le. by apply Qcle_antisym. }
  assert (Hnz : ∀ q, qlt 0 q = true → q ≠ 0%Qc).
  { unfold qlt. intros q E%bool_decide_eq_true ->. by apply Qclt_not_eq in E. }
  destruct (qlt 0 v) eqn:Ev, (qlt 0 r) eqn:Er; unfold rate_or_0;
    rewrite ?assoc_set_eq, ?(assoc_set_ne "ram_gib_hour" "vcpu_hour"), ?(assoc_set_ne "vcpu_hour" "ram_gib_hour"),
      ?assoc_set_eq by discriminate;
    cbn [from_option]; unfold id.
  - apply Hnz in Ev. apply Hnz in Er. unfold w in *. field. done.
  - apply Hpos in Er; [|done]. apply Hnz in Ev.
    assert ((v * cv)%Qc = w) as -> by (unfold w; rewrite Er; ring). rewrite Er. clearbody w. field. done.
  - apply Hpos in Ev; [|done]. apply Hnz in Er.
    assert ((r * cr)%Qc = w) as -> by (unfold w; rewrite Ev; ring). rewrite Ev. clearbody w. field. done.
  - apply Hpos in Ev, Er; [|done..]. destruct Hw0. unfold w. rewrite Ev, Er. ring.
Qed.
