(* ===== verification/MeteringService.v ===== *)
(** * Metering service: [services/metering_service.py]

    The ledger of metering intervals and what is derived from it: reconciliation with what a
    project runs, budgets, invoices, monthly statements.  The database is a record of its
    rows.  A quantity or rate is rounded by its [Numeric(18,6)] column when it is stored:
    [store] is that rounding, of the database server.  The configuration, the rates of the
    instance catalogue and the iteration order of a set are arguments. *)
From stdpp Require Import prelude strings numbers gmap sorting.
From Stdlib Require Import QArith.Qcanon QArith.Qround Qcabs Field Ascii.
From S2P Require Import Prelude PyStr PyVal PyLemmas TopoNodes Calendar MeteringMath InstanceRates.

Open Scope list_scope.

(** ** Rows *)

(** [metering.MeteringInterval] *)
Record interval := mkInterval {
  iv_project : string;
  iv_kind : string;
  iv_resource : string;
  iv_qty : amount;
  iv_rate : amount;
  iv_host : val;
  iv_ptype : string;
  iv_started : Z;
  iv_ended : option Z
}.

(** The columns of [Project] the service reads and writes. *)
Record mproject := mkMProject {
  mp_id : string;
  mp_name : string;
  mp_owner : option string;
  mp_host : option string;
  mp_state : string;
  mp_budget : option amount;
  mp_budget_warned : bool;
  mp_budget_stopped : bool;
  mp_deploy_started : option Z
}.

(** A line of [MonthlyStatement.line_items\["by_project"\]]. *)
Record project_line := mkProjectLine {
  pl_project : string;
  pl_name : string;
  pl_subtotal : amount;
  pl_by_kind : list line
}.

(** [metering.MonthlyStatement] *)
Record statement := mkStatement {
  st_owner : option string;
  st_period_start : Z;
  st_period_end : Z;
  st_total : amount;
  st_lines : list project_line;
  st_final : bool;
  st_finalized_at : option Z
}.

(** A line of an invoice: by kind, with the hosts. *)
Record invoice_line := mkInvoiceLine { il_line : line; il_hosts : list val }.

(** [metering.ProjectInvoice] *)
Record invoice := mkInvoice {
  in_project : string;
  in_project_name : string;
  in_owner : option string;
  in_total : amount;
  in_lines : list invoice_line;
  in_period_start : Z;
  in_period_end : Z
}.

Record ledger := mkLedger {
  lg_projects : list mproject;
  lg_intervals : list interval;
  lg_statements : list statement;
  lg_invoices : list invoice
}.

Definition with_intervals (db : ledger) (ivs : list interval) : ledger :=
  mkLedger (lg_projects db) ivs (lg_statements db) (lg_invoices db).
Definition with_statements (db : ledger) (sts : list statement) : ledger :=
  mkLedger (lg_projects db) (lg_intervals db) sts (lg_invoices db).

Definition iv_key (r : interval) : rkey := (iv_kind r, iv_resource r).

(** What the service asks other services to do. *)
Inductive effect :=
| NotifyBudget (project_id kind : string) (spend budget : amount)
| SpawnStop (project_id : string).

(** ** Rates *)

(** [metering_service._typed_rate_row] *)
Definition typed_rate_row (provider_type : string) (type_rates : list (string * rates)) : rates :=
  match default [] (assoc provider_type type_rates) with
  | [] =>
      if String.eqb provider_type "ec2" then default [] (assoc "aws" type_rates)
      else if String.eqb provider_type "aws" then default [] (assoc "ec2" type_rates)
      else []
  | typed => typed
  end.

(** [metering_service._apply_rate_map] *)
Definition apply_rate_map (out : list (string * amount)) (r : rates) : list (string * amount) :=
  foldl (λ out p, match p.2 with
                  | Some v => if bool_decide (p.1 ∈ RATE_KEYS) then assoc_set p.1 v out else out
                  | None => out
                  end) out r.

(** [d.update(other)]. *)
Definition update_map {A} (out other : list (string * A)) : list (string * A) :=
  foldl (λ out p, assoc_set p.1 p.2 out) out other.

(** The columns of [Host] the service reads. *)
Record mhost := mkMHost {
  mh_id : string;
  mh_provider : option string;
  mh_instance_type : option string;
  mh_vcpus : option Z;
  mh_ram_mb : option Z;
  mh_billing_mode : option string;
  mh_rates : option rates
}.

(** [float(x) if x else None]. *)
Definition nonzero (x : option Z) : option amount :=
  match x with Some z => if z =? 0 then None else Some (amount_of z) | None => None end.

Definition host_vcpus (h : option mhost) : option amount := h ≫= (λ h, nonzero (mh_vcpus h)).
Definition host_ram (h : option mhost) : option amount :=
  (λ q, (q / amount_of 1024)%Qc) <$> (h ≫= (λ h, nonzero (mh_ram_mb h))).

(** [str(getattr(host, "billing_mode", None) or "shared") if host else "shared"]. *)
Definition billing_mode_of (h : option mhost) : string :=
  match h ≫= mh_billing_mode with None | Some "" => "shared" | Some m => m end.

(** [metering_service.compose_host_rates] *)
Definition compose_host_rates (cat : catalog) (nested_factor : amount) (host : option mhost)
    (provider_type : string) (type_rates : list (string * rates)) : res rate_map :=
  let out := apply_rate_map (kubevirt_unit_rates cat) (typed_rate_row provider_type type_rates) in
  derived <- rates_for_host cat provider_type (host ≫= mh_instance_type) (host_vcpus host) (host_ram host);;
  let out := match derived with
             | Some ((_ :: _) as d) => update_map out d
             | _ => out
             end in
  let billing_mode := billing_mode_of host in
  let out :=
    if negb (String.eqb billing_mode "dedicated") && negb (String.eqb provider_type "kubevirt")
    then let out := assoc_set "vcpu_hour" (rate_or_0 "vcpu_hour" out * nested_factor)%Qc out in
         assoc_set "ram_gib_hour" (rate_or_0 "ram_gib_hour" out * nested_factor)%Qc out
    else out in
  Ok (apply_rate_map out (default [] (host ≫= mh_rates))).

(** ** The ledger of a project *)

Definition is_open (pid : string) (r : interval) : bool :=
  String.eqb (iv_project r) pid && negb (bool_decide (is_Some (iv_ended r))).

(** [metering_service._open_rows] *)
Definition open_rows (db : ledger) (pid : string) : list interval :=
  List.filter (is_open pid) (lg_intervals db).

(** [metering_service._close_interval] *)
Definition close_interval (r : interval) (now : Z) : interval :=
  mkInterval (iv_project r) (iv_kind r) (iv_resource r) (iv_qty r) (iv_rate r) (iv_host r)
    (iv_ptype r) (iv_started r) (Some now).

(** The rows of a project. *)
Definition project_rows (db : ledger) (pid : string) : list interval :=
  List.filter (λ r, String.eqb (iv_project r) pid) (lg_intervals db).

(** A row as the arithmetic reads it. *)
Definition usage_of (r : interval) : usage :=
  mkUsage (Some (iv_kind r)) (Some (iv_qty r)) (Some (iv_rate r)) (Some (iv_started r)) (iv_ended r).

(** [metering_service.live_spend_total] *)
Definition live_spend_total (db : ledger) (pid : string) (now : Z) : res amount :=
  spend_total (map usage_of (project_rows db pid)) now.

Section Service.
(** The rounding of a [Numeric(18,6)] column. *)
Context (store : amount → amount).

(** [list(set)]: the order a set is iterated in. *)
Context (set_iter : list desired → list desired).
Context (type_rates : list (string * rates)) (fallback : rates) (warn_ratio : amount).

(** [metering_service._open_interval] *)
Definition open_interval (pid : string) (d : desired) (unit_rate : amount) (now : Z) : interval :=
  mkInterval pid (d_kind d) (d_rid d) (store (d_qty d)) (store unit_rate) (d_host d) (d_ptype d)
    now None.

(** [abs(a - b) <= 1e-6]. *)
Definition same_rate (a b : amount) : bool := qle (Qcabs (a - b)) (tenth_pow 6).

(** State of the loop of [_reopen_changed_rates]: keys to close, what to open, keys to open. *)
Definition reopen_state : Type := list rkey * list desired * list rkey.

(** [metering_service._reopen_changed_rates:363-375] one open row. *)
Definition reopen_row (dm : list (rkey * wanted)) (host_rates : option rates) (st : reopen_state)
    (row : interval) : reopen_state :=
  let '(close_keys, to_open, open_keys) := st in
  let key := iv_key row in
  if bool_decide (key ∈ close_keys) then st
  else
    match assoc key dm with
    | None => st
    | Some (qty, hid, ptype) =>
        let rate := resolve_rate (iv_kind row) ptype host_rates type_rates (Some fallback) in
        if same_rate (iv_rate row) rate then st
        else
          let close_keys := close_keys ++ [key] in
          if bool_decide (key ∈ open_keys) then (close_keys, to_open, open_keys)
          else (close_keys, to_open ++ [mkDesired (iv_kind row) (iv_resource row) qty hid ptype],
                open_keys ++ [key])
    end.

(** [metering_service._reopen_changed_rates] *)
Definition reopen_changed_rates (open_list : list interval) (ds : list desired)
    (close_keys : list rkey) (to_open : list desired) (host_rates : option rates)
    : list rkey * list desired :=
  (foldl (reopen_row (desired_map ds) host_rates)
     (close_keys, to_open, map desired_key to_open) open_list).1.

(** [metering_service.reconcile_project:390-406]: the intervals afterwards. *)
Definition reconcile_intervals (ivs : list interval) (pid : string) (now : Z) (snap : snapshot)
    : res (list interval) :=
  set <- desired_resources snap;;
  let ds := set_iter set in
  let host_rates := sn_host_rates snap in
  let open_list := List.filter (is_open pid) ivs in
  let '(to_close, to_open) := diff_intervals (map (λ r, (iv_key r, iv_qty r)) open_list) ds in
  let '(close_keys, to_open) :=
    reopen_changed_rates open_list ds to_close.*1 to_open host_rates in
  Ok (map (λ r, if is_open pid r && bool_decide (iv_key r ∈ close_keys)
                then close_interval r now else r) ivs ++
      map (λ d, open_interval pid d
             (resolve_rate (d_kind d) (d_ptype d) host_rates type_rates (Some fallback)) now) to_open).

(** [metering_service.apply_budget]: the project and the requests it makes. *)
Definition apply_budget (p : mproject) (spend : amount) : mproject * list effect :=
  match mp_budget p with
  | None => (p, [])
  | Some cap =>
      if qle cap 0 then (p, [])
      else
        let '(p, warn) :=
          if qle (warn_ratio * cap)%Qc spend && negb (mp_budget_warned p)
          then (mkMProject (mp_id p) (mp_name p) (mp_owner p) (mp_host p) (mp_state p) (mp_budget p)
                  true (mp_budget_stopped p) (mp_deploy_started p),
                [NotifyBudget (mp_id p) "budget_warning" spend cap])
          else (p, []) in
        if qle cap spend && String.eqb (mp_state p) "active" && negb (mp_budget_stopped p)
        then (mkMProject (mp_id p) (mp_name p) (mp_owner p) (mp_host p) (mp_state p) (mp_budget p)
                (mp_budget_warned p) true (mp_deploy_started p),
              warn ++ [SpawnStop (mp_id p); NotifyBudget (mp_id p) "budget_stop" spend cap])
        else (p, warn)
  end.

Definition save_mproject (db : ledger) (p : mproject) : ledger :=
  mkLedger (map (λ q, if String.eqb (mp_id q) (mp_id p) then p else q) (lg_projects db))
    (lg_intervals db) (lg_statements db) (lg_invoices db).

(** [metering_service.reconcile_project]: the spend, the ledger and the requests; [snap] is what
    [build_snapshot] returned. *)
Definition reconcile_project (enabled : bool) (db : ledger) (p : mproject) (now : Z)
    (snap : option snapshot) : res (amount * ledger * list effect) :=
  if negb enabled then Ok (0%Qc, db, [])
  else
    match snap with
    | None => spend <- live_spend_total db (mp_id p) now;; Ok (spend, db, [])
    | Some snap =>
        ivs <- reconcile_intervals (lg_intervals db) (mp_id p) now snap;;
        let db := with_intervals db ivs in
        spend <- live_spend_total db (mp_id p) now;;
        let '(p, effects) := apply_budget p spend in
        Ok (spend, save_mproject db p, effects)
    end.
End Service.

(** ** Reconciliation implements what should be billed *)

Lemma Qcabs_minus_sym (a b : amount) : Qcabs (a - b) = Qcabs (b - a).
Proof. rewrite <-Qcabs_opp. f_equal. ring. Qed.

Lemma qty_differs_sym a b : qty_differs a b = qty_differs b a.
Proof. unfold qty_differs. by rewrite Qcabs_minus_sym. Qed.

(** Rows of one project, one per key, have the quantities of their keys. *)
Lemma assoc_rows (rows : list interval) k q :
  NoDup (map iv_key rows) →
  assoc k (map (λ r, (iv_key r, iv_qty r)) rows) = Some q ↔
    ∃ r, r ∈ rows ∧ iv_key r = k ∧ iv_qty r = q.
Proof.
  intros Hn. split.
  - intros (r & [= -> ->] & Hr)%assoc_Some_elem%list_elem_of_fmap. eauto.
  - intros (r & Hr & <- & <-). apply elem_of_assoc.
    + by rewrite <-list_fmap_compose.
    + by apply (list_elem_of_fmap_2 (λ r, (iv_key r, iv_qty r))).
Qed.

Section ServiceFacts.
Context (type_rates : list (string * rates)) (fallback : rates).
Context (snap : snapshot) (pid : string).

(** The rate of a resource of the snapshot. *)
Definition rate_of (kind ptype : string) : amount :=
  resolve_rate kind ptype (sn_host_rates snap) type_rates (Some fallback).

(** An open row bills what its key should be billed. *)
Definition matches (dm : list (rkey * wanted)) (r : interval) : bool :=
  match assoc (iv_key r) dm with
  | None => false
  | Some (q, _, p) => negb (qty_differs q (iv_qty r)) && same_rate (iv_rate r) (rate_of (iv_kind r) p)
  end.

(** A row whose rate is stale. *)
Definition stale_rate (dm : list (rkey * wanted)) (r : interval) : bool :=
  match assoc (iv_key r) dm with
  | None => false
  | Some (_, _, p) => negb (same_rate (iv_rate r) (rate_of (iv_kind r) p))
  end.

(** What is opened in place of a row. *)
Definition reopened (dm : list (rkey * wanted)) (r : interval) : desired :=
  match assoc (iv_key r) dm with
  | Some (q, h, p) => mkDesired (iv_kind r) (iv_resource r) q h p
  | None => mkDesired (iv_kind r) (iv_resource r) 0%Qc VNone ""
  end.

Lemma reopened_key dm r : desired_key (reopened dm r) = iv_key r.
Proof. unfold reopened, desired_key, iv_key. by destruct (assoc (iv_kind r, iv_resource r) dm) as [[[q h] p]|]. Qed.

Definition stale_rows dm (close_keys : list rkey) (rows : list interval) : list interval :=
  List.filter (λ r, negb (bool_decide (iv_key r ∈ close_keys)) && stale_rate dm r) rows.
Definition fresh_rows (opened : list desired) (rows : list interval) : list interval :=
  List.filter (λ r, negb (bool_decide (iv_key r ∈ map desired_key opened))) rows.

(** Distinct rows do not interfere in the loop. *)
Lemma reopen_fold dm rows c o :
  NoDup (map iv_key rows) →
  foldl (reopen_row type_rates fallback dm (sn_host_rates snap)) (c, o, map desired_key o) rows =
    let s := stale_rows dm c rows in
    let o' := o ++ map (reopened dm) (fresh_rows o s) in
    (c ++ map iv_key s, o', map desired_key o').
Proof.
  revert c o. induction rows as [|r rows IH]; intros c o Hn; cbn [foldl].
  { cbn. by rewrite !app_nil_r. }
  cbn [map] in Hn. apply NoDup_cons in Hn as [Hr Hn].
  assert (Hkey : ∀ r', r' ∈ rows → iv_key r' ≠ iv_key r).
  { intros r' Hr' He. apply Hr. rewrite <-He. by apply list_elem_of_fmap_2. }
  assert (Hs : ∀ c', (∀ k, k ∈ c' ↔ k ∈ c ∨ k = iv_key r) → stale_rows dm c' rows = stale_rows dm c rows).
  { intros c' Hc'. apply filter_ext_in. intros r' Hr'%list_elem_of_In%Hkey. f_equal. f_equal.
    apply bool_decide_ext. rewrite Hc'. naive_solver. }
  assert (Hf : ∀ o' s, s ⊆ rows → (∀ k, k ∈ map desired_key o' ↔ k ∈ map desired_key o ∨ k = iv_key r) →
    fresh_rows o' s = fresh_rows o s).
  { intros o' s Hsub Ho'. apply filter_ext_in. intros r' Hr'%list_elem_of_In%Hsub%Hkey. f_equal.
    apply bool_decide_ext. rewrite Ho'. naive_solver. }
  assert (Hsub : stale_rows dm c rows ⊆ rows).
  { intros x [Hx _]%list_elem_of_In%filter_In. by apply list_elem_of_In. }
  assert (Hst : stale_rows dm c (r :: rows) =
    if negb (bool_decide (iv_key r ∈ c)) && stale_rate dm r then r :: stale_rows dm c rows
    else stale_rows dm c rows) by done.
  cbv zeta. rewrite Hst. clear Hst. unfold reopen_row at 2.
  destruct (bool_decide (iv_key r ∈ c)) eqn:Ec; cbn [negb andb]; [by apply IH|].
  unfold stale_rate, rate_of.
  destruct (assoc (iv_key r) dm) as [[[q h] p]|] eqn:Ed; [|by apply IH].
  destruct (same_rate _ _); cbn [negb]; [by apply IH|].
  cbn [map].
  assert (Hfr : ∀ s, fresh_rows o (r :: s) = if negb (bool_decide (iv_key r ∈ map desired_key o))
                                             then r :: fresh_rows o s else fresh_rows o s) by done.
  rewrite Hfr. destruct (bool_decide (iv_key r ∈ map desired_key o)) eqn:Eo; cbn [negb].
  - rewrite IH by done. cbv zeta. rewrite Hs by set_solver. by rewrite <-app_assoc.
  - assert (Hnew : reopened dm r = mkDesired (iv_kind r) (iv_resource r) q h p) by (unfold reopened; by rewrite Ed).
    assert (Hok : map desired_key o ++ [iv_key r] = map desired_key (o ++ [reopened dm r])).
    { rewrite map_app. cbn [map]. by rewrite reopened_key. }
    rewrite <-Hnew, Hok, IH by done. cbv zeta. rewrite Hs by set_solver.
    rewrite (Hf (o ++ [reopened dm r])); [|done|].
    + cbn [map]. by rewrite <-!app_assoc.
    + intros k. rewrite <-Hok. set_solver.
Qed.

(** What the loop closes and opens, from the differences of quantities. *)
Section Diff.
Context (rows : list interval) (ds : list desired).
Let dm := desired_map ds.
Let diff := diff_intervals (map (λ r, (iv_key r, iv_qty r)) rows) ds.
Let stale := stale_rows dm diff.1.*1 rows.
Let opened := diff.2 ++ map (reopened dm) (fresh_rows diff.2 stale).

(** An element of the list of what should be billed. *)
Definition wanted_by (d : desired) : Prop :=
  assoc (desired_key d) dm = Some (d_qty d, d_host d, d_ptype d).

Lemma wanted_by_inj d d' : wanted_by d → wanted_by d' → desired_key d = desired_key d' → d = d'.
Proof.
  unfold wanted_by. intros H H' He. rewrite He, H' in H. destruct d, d'. unfold desired_key in He.
  cbn in *. by simplify_eq.
Qed.

Hypothesis Hn : NoDup (map iv_key rows).

Lemma rows_keys_NoDup : NoDup (map (λ r, (iv_key r, iv_qty r)) rows).*1.
Proof. by rewrite <-list_fmap_compose. Qed.

Lemma assoc_row r : r ∈ rows → assoc (iv_key r) (map (λ r, (iv_key r, iv_qty r)) rows) = Some (iv_qty r).
Proof. intros Hr. apply assoc_rows; eauto. Qed.

Lemma diff_close_row r :
  r ∈ rows → iv_key r ∈ diff.1.*1 ↔
    match assoc (iv_key r) dm with None => True | Some w => qty_differs w.1.1 (iv_qty r) = true end.
Proof.
  intros Hr. unfold diff. rewrite diff_intervals_close by apply rows_keys_NoDup.
  rewrite assoc_row by done. naive_solver.
Qed.

Lemma closed_rows r :
  r ∈ rows → iv_key r ∈ diff.1.*1 ++ map iv_key stale ↔ matches dm r = false.
Proof.
  intros Hr. rewrite elem_of_app.
  assert (iv_key r ∈ map iv_key stale ↔ iv_key r ∉ diff.1.*1 ∧ stale_rate dm r = true) as ->.
  { split.
    - intros (r' & He & [Hr' Hf]%list_elem_of_In%filter_In)%list_elem_of_fmap.
      apply list_elem_of_In in Hr'. assert (r' = r) as -> by (eapply NoDup_fmap_elem; eauto).
      apply andb_true_iff in Hf as [Hf ?]. apply negb_true_iff, bool_decide_eq_false in Hf. done.
    - intros [Hc Hs]. apply list_elem_of_fmap_2, list_elem_of_In, filter_In.
      split; [by apply list_elem_of_In|]. rewrite Hs, bool_decide_eq_false_2 by done. done. }
  rewrite diff_close_row by done. unfold matches, stale_rate.
  destruct (assoc (iv_key r) dm) as [[[q h] p]|]; cbn [fst]; [|naive_solver].
  destruct (qty_differs q (iv_qty r)), (same_rate _ _); cbn; naive_solver.
Qed.

Lemma opened_rows d :
  d ∈ opened ↔ wanted_by d ∧ ∀ r, r ∈ rows → iv_key r = desired_key d → matches dm r = false.
Proof.
  assert (Hto : d ∈ diff.2 ↔ wanted_by d ∧
    ∀ r, r ∈ rows → iv_key r = desired_key d → qty_differs (iv_qty r) (d_qty d) = true).
  { unfold diff. rewrite diff_intervals_open by apply rows_keys_NoDup. fold dm. unfold wanted_by.
    split; intros [Hw Hr]; (split; [done|]).
    - intros r Hin He. by rewrite <-He, (assoc_row r) in Hr.
    - destruct (assoc _ (map _ rows)) as [q|] eqn:E; [|done].
      apply assoc_rows in E as (r & Hin & He & <-); eauto. }
  unfold opened. rewrite elem_of_app, Hto. split.
  - intros [[Hw Hr]|(r & -> & [Hin Hf]%list_elem_of_In%filter_In)%list_elem_of_fmap].
    + split; [done|]. intros r Hin He. specialize (Hr r Hin He). unfold matches. rewrite He.
      unfold wanted_by in Hw. by rewrite Hw, qty_differs_sym, Hr.
    + apply list_elem_of_In, list_elem_of_In, filter_In in Hin as [Hin Hs].
      apply list_elem_of_In in Hin. apply andb_true_iff in Hs as [Hc Hs].
      unfold wanted_by. rewrite reopened_key. split.
      * unfold reopened. unfold stale_rate in Hs. by destruct (assoc (iv_key r) dm) as [[[q h] p]|].
      * intros r' Hr' He. assert (r' = r) as -> by (eapply NoDup_fmap_elem; eauto).
        apply closed_rows; [done|]. apply elem_of_app. right.
        apply list_elem_of_fmap_2, list_elem_of_In, filter_In.
        split; [by apply list_elem_of_In|]. by rewrite Hc, Hs.
  - intros [Hw Hm]. destruct (decide (desired_key d ∈ map iv_key rows)) as [Hk|Hno].
    2: { left. split; [done|]. intros r Hr He. destruct Hno. rewrite <-He. by apply list_elem_of_fmap_2. }
    apply list_elem_of_fmap in Hk as (r & He%symmetry & Hr).
    specialize (Hm r Hr He) as Hmr. unfold matches in Hmr. rewrite He in Hmr.
    unfold wanted_by in Hw. rewrite Hw in Hmr.
    destruct (qty_differs (d_qty d) (iv_qty r)) eqn:Eq.
    { left. split; [done|]. intros r' Hr' He'.
      assert (r' = r) as -> by (eapply NoDup_fmap_elem; eauto; congruence). by rewrite qty_differs_sym. }
    right. cbn in Hmr. apply list_elem_of_fmap. exists r. split.
    { unfold reopened. rewrite He, Hw. destruct d. unfold iv_key, desired_key in He. cbn in *. by simplify_eq. }
    apply list_elem_of_In, filter_In. split.
    + apply list_elem_of_In, list_elem_of_In, filter_In. split; [by apply list_elem_of_In|].
      apply andb_true_iff. split.
      * apply negb_true_iff, bool_decide_eq_false. rewrite diff_close_row by done.
        rewrite He, Hw. cbn. by rewrite Eq.
      * unfold stale_rate. by rewrite He, Hw, Hmr.
    + apply negb_true_iff, bool_decide_eq_false. rewrite He.
      intros (d' & Hk & Hd')%list_elem_of_fmap. unfold diff in Hd'.
      apply diff_intervals_open in Hd' as [Hw' Hq]; [|apply rows_keys_NoDup].
      rewrite <-Hk, <-He, (assoc_row r) in Hq by done. rewrite <-Hk in Hw'. unfold dm in Hw. rewrite Hw in Hw'.
      injection Hw' as Hqd _ _. rewrite qty_differs_sym, <-Hqd in Hq. congruence.
Qed.

Lemma opened_NoDup : NoDup (map desired_key opened).
Proof.
  unfold opened. rewrite map_app, map_map. apply NoDup_app. split_and!.
  - apply diff_intervals_open_NoDup.
  - intros k Hk (r & He & [_ Hf]%list_elem_of_In%filter_In)%list_elem_of_fmap.
    rewrite reopened_key in He. apply negb_true_iff, bool_decide_eq_false in Hf. congruence.
  - rewrite (map_ext _ iv_key) by apply reopened_key. unfold fresh_rows, stale, stale_rows.
    by do 2 apply NoDup_map_filter.
Qed.

(** The loop of rates, on the differences of quantities. *)
Lemma reopen_changed_rates_spec :
  reopen_changed_rates type_rates fallback rows ds diff.1.*1 diff.2 (sn_host_rates snap) =
    (diff.1.*1 ++ map iv_key stale, opened).
Proof. unfold reopen_changed_rates. by rewrite reopen_fold. Qed.
End Diff.
End ServiceFacts.

(** The rows of a project that are open after reconciliation, for the rows before. *)
Lemma reconcile_intervals_spec store set_iter type_rates fallback ivs pid now snap set :
  desired_resources snap = Ok set →
  NoDup (map iv_key (List.filter (is_open pid) ivs)) →
  let dm := desired_map (set_iter set) in
  let ok := matches type_rates fallback snap dm in
  ∃ opened,
    reconcile_intervals store set_iter type_rates fallback ivs pid now snap =
      Ok (map (λ r, if is_open pid r && negb (ok r) then close_interval r now else r) ivs ++
          map (λ d, open_interval store pid d
                 (rate_of type_rates fallback snap (d_kind d) (d_ptype d)) now) opened) ∧
    NoDup (map desired_key opened) ∧
    ∀ d, d ∈ opened ↔ wanted_by (set_iter set) d ∧
      ∀ r, r ∈ ivs → is_open pid r = true → iv_key r = desired_key d → ok r = false.
Proof.
  intros Hset Hn. cbv zeta. set (rows := List.filter (is_open pid) ivs) in *.
  set (ds := set_iter set).
  assert (Hin : ∀ r, r ∈ rows ↔ r ∈ ivs ∧ is_open pid r = true).
  { intros r. unfold rows. by rewrite !list_elem_of_In, filter_In. }
  unfold reconcile_intervals. rewrite Hset. cbn [bind]. fold ds rows.
  pose proof (reopen_changed_rates_spec type_rates fallback snap rows ds Hn) as Hre.
  pose proof (closed_rows type_rates fallback snap rows ds Hn) as Hc.
  pose proof (opened_rows type_rates fallback snap rows ds Hn) as Ho.
  pose proof (opened_NoDup type_rates fallback snap rows ds Hn) as Hon.
  destruct (diff_intervals _ ds) as [tc to]. cbn [fst snd] in *. rewrite Hre. eexists. split_and!.
  - do 2 f_equal. apply map_ext_in. intros r Hr%list_elem_of_In.
    destruct (is_open pid r) eqn:Eo; [|done]. cbn [andb].
    assert (Hrr : r ∈ rows) by (by apply Hin). specialize (Hc r Hrr).
    destruct (matches _ _ _ _ r); cbn [negb].
    + rewrite bool_decide_eq_false_2; [done|]. by rewrite Hc.
    + rewrite bool_decide_eq_true_2; [done|]. by rewrite Hc.
  - exact Hon.
  - intros d. rewrite Ho. apply and_iff_compat_l. naive_solver.
Qed.

(** [f(x) <= t] for the distances used here. *)
Definition within (t a b : amount) : Prop := (Qcabs (a - b) <= t)%Qc.

Lemma qty_near a b : qty_differs a b = false → within (tenth_pow 6) b a.
Proof.
  unfold qty_differs, qlt, within. intros H%bool_decide_eq_false%Qcnot_lt_le.
  rewrite Qcabs_minus_sym. eapply Qcle_trans; [exact H|]. by vm_compute.
Qed.

Lemma same_rate_within a b : same_rate a b = true ↔ within (tenth_pow 6) a b.
Proof. unfold same_rate, qle, within. apply bool_decide_eq_true. Qed.

(** The rows that are open afterwards: the ones that match and the opened ones. *)
Lemma open_after store pid now ok ivs opened rate :
  List.filter (is_open pid)
    (map (λ r, if is_open pid r && negb (ok r) then close_interval r now else r) ivs ++
     map (λ d, open_interval store pid d (rate d) now) opened) =
  List.filter (λ r, is_open pid r && ok r) ivs ++
  map (λ d, open_interval store pid d (rate d) now) opened.
Proof.
  rewrite List.filter_app. f_equal.
  - induction ivs as [|r ivs IH]; [done|]. cbn [map List.filter].
    destruct (is_open pid r) eqn:Eo; cbn [andb]; [|by rewrite Eo].
    destruct (ok r) eqn:Ek; cbn [negb]; [by rewrite Eo, IH|].
    replace (is_open pid (close_interval r now)) with false; [done|].
    unfold is_open; cbn. by rewrite andb_false_r.
  - induction opened as [|d opened IH]; [done|]. cbn [map List.filter].
    replace (is_open pid _) with true; [by rewrite IH|]. unfold is_open; cbn.
    by rewrite String.eqb_refl.
Qed.

Definition half_millionth : amount := (tenth_pow 6 / amount_of 2)%Qc.

(** The open rows afterwards have the wanted keys, each once. *)
Lemma open_keys_after store type_rates fallback ivs pid now snap ds opened rate :
  let dm := desired_map ds in
  let ok := matches type_rates fallback snap dm in
  let open' := List.filter (λ r, is_open pid r && ok r) ivs ++
               map (λ d, open_interval store pid d (rate d) now) opened in
  NoDup (map iv_key (List.filter (is_open pid) ivs)) →
  NoDup (map desired_key opened) →
  (∀ d, d ∈ opened ↔ wanted_by ds d ∧
     ∀ r, r ∈ ivs → is_open pid r = true → iv_key r = desired_key d → ok r = false) →
  NoDup (map iv_key open') ∧ ∀ k, k ∈ map iv_key open' ↔ k ∈ dm.*1.
Proof.
  cbv zeta. intros Hn Hon Ho. set (dm := desired_map ds) in *.
  set (ok := matches type_rates fallback snap dm) in *. set (keep := List.filter _ ivs).
  assert (Hkeep : ∀ r, r ∈ keep ↔ r ∈ ivs ∧ is_open pid r = true ∧ ok r = true).
  { intros r. unfold keep. by rewrite !list_elem_of_In, filter_In, andb_true_iff. }
  rewrite map_app, (map_map _ iv_key opened). change (map _ opened) with (map desired_key opened). split.
  - apply NoDup_app. split_and!; [|..|done].
    + unfold keep. replace (List.filter _ ivs) with (List.filter ok (List.filter (is_open pid) ivs)).
      { by apply NoDup_map_filter. }
      clear. induction ivs as [|r ivs IH]; [done|]. cbn. destruct (is_open pid r); cbn; [|done].
      destruct (ok r); by rewrite IH.
    + intros k (r & -> & (Hr & Hop & Hm)%Hkeep)%list_elem_of_fmap (d & He & [_ Hd]%Ho)%list_elem_of_fmap.
      rewrite (Hd r) in Hm; done.
  - intros k. rewrite elem_of_app. split.
    + intros [(r & -> & (_ & _ & Hm)%Hkeep)%list_elem_of_fmap|(d & -> & [Hw _]%Ho)%list_elem_of_fmap].
      * unfold ok, matches in Hm. destruct (assoc (iv_key r) dm) as [w|] eqn:E; [|done].
        by apply assoc_Some_elem, (list_elem_of_fmap_2 fst) in E.
      * by apply assoc_Some_elem, (list_elem_of_fmap_2 fst) in Hw.
    + intros ([k' [[q h] p]] & -> & Hk)%list_elem_of_fmap. cbn [fst].
      apply elem_of_assoc in Hk; [|apply desired_map_NoDup].
      destruct (decide (k' ∈ map iv_key keep)) as [|Hno]; [by left|]. right.
      apply list_elem_of_fmap. exists (mkDesired k'.1 k'.2 q h p). split; [by destruct k'|].
      apply Ho. unfold wanted_by, desired_key. cbn. rewrite <-surjective_pairing. split; [done|].
      intros r Hr Hop He. destruct (ok r) eqn:Em; [|done]. destruct Hno. rewrite <-He.
      by apply list_elem_of_fmap_2, Hkeep.
Qed.

(** C20: Reconciliation refines the abstract ledger "one open interval per desired resource":
    when the open rows of a project have distinct keys, afterwards its open rows have
    exactly the keys of what the snapshot wants, each once, with the quantity and the rate
    within a millionth of the wanted ones (the column rounds to six places); a row that was
    open is kept as it is or closed at [now], and every other row is untouched. *)
Theorem reconcile_refines_desired store set_iter type_rates fallback ivs pid now snap ivs' :
  (∀ q, within half_millionth (store q) q) →
  NoDup (map iv_key (List.filter (is_open pid) ivs)) →
  reconcile_intervals store set_iter type_rates fallback ivs pid now snap = Ok ivs' →
  ∃ set, desired_resources snap = Ok set ∧
    let dm := desired_map (set_iter set) in
    let open' := List.filter (is_open pid) ivs' in
    NoDup (map iv_key open') ∧
    (∀ k, k ∈ map iv_key open' ↔ k ∈ dm.*1) ∧
    (∀ r, r ∈ open' → ∃ q h p, assoc (iv_key r) dm = Some (q, h, p) ∧
       within (tenth_pow 6) (iv_qty r) q ∧
       within (tenth_pow 6) (iv_rate r) (rate_of type_rates fallback snap (iv_kind r) p)) ∧
    ∃ kept opened, ivs' = kept ++ opened ∧
      Forall2 (λ r r', r' = r ∨ is_open pid r = true ∧ r' = close_interval r now) ivs kept ∧
      Forall (λ r, is_open pid r = true ∧ iv_started r = now) opened.
Proof.
  intros Hstore Hn Hrec. destruct (desired_resources snap) as [set|e] eqn:Hset.
  2: { unfold reconcile_intervals in Hrec. by rewrite Hset in Hrec. }
  destruct (reconcile_intervals_spec store set_iter type_rates fallback ivs pid now snap set Hset Hn)
    as (opened & Hok & Hon & Ho).
  rewrite Hok in Hrec. injection Hrec as <-. exists set. split; [done|]. cbv zeta.
  set (dm := desired_map (set_iter set)) in *. rewrite open_after.
  set (ok := matches type_rates fallback snap dm) in *.
  destruct (open_keys_after store type_rates fallback ivs pid now snap _ opened
    (λ d, rate_of type_rates fallback snap (d_kind d) (d_ptype d)) Hn Hon Ho) as [Hnd Hkeys].
  split_and!; [exact Hnd|exact Hkeys|..].
  - intros r [[_ [_ Hm]%andb_true_iff]%list_elem_of_In%filter_In|(d & -> & [Hw _]%Ho)%list_elem_of_fmap]%elem_of_app.
    + unfold ok, matches in Hm. destruct (assoc (iv_key r) dm) as [[[q h] p]|] eqn:E; [|done].
      exists q, h, p. apply andb_true_iff in Hm as [Hq%negb_true_iff%qty_near Hr%same_rate_within]. done.
    + exists (d_qty d), (d_host d), (d_ptype d). split; [exact Hw|]. cbn [iv_qty iv_rate open_interval iv_kind].
      split; (eapply Qcle_trans; [apply Hstore|by vm_compute]).
  - eexists _, _. split_and!; [done|..].
    + clear. induction ivs as [|r ivs IH]; constructor; [|done].
      destruct (is_open pid r && negb (ok r)) eqn:E; [right|by left]. by apply andb_true_iff in E as [-> _].
    + apply Forall_forall. intros r (d & -> & _)%list_elem_of_fmap. unfold is_open; cbn.
      by rewrite String.eqb_refl.
Qed.

(** A poll that finds nothing changed changes nothing: when the columns hold the wanted
    quantities exactly enough, reconciling again with the same snapshot, at any later time,
    closes and opens no interval. *)
Theorem reconcile_idempotent store set_iter type_rates fallback ivs pid now now' snap ivs' set :
  (∀ q, within half_millionth (store q) q) →
  desired_resources snap = Ok set →
  (∀ d, wanted_by (set_iter set) d → qty_differs (d_qty d) (store (d_qty d)) = false) →
  NoDup (map iv_key (List.filter (is_open pid) ivs)) →
  reconcile_intervals store set_iter type_rates fallback ivs pid now snap = Ok ivs' →
  reconcile_intervals store set_iter type_rates fallback ivs' pid now' snap = Ok ivs'.
Proof.
  intros Hstore Hset Hq Hn Hrec.
  destruct (reconcile_intervals_spec store set_iter type_rates fallback ivs pid now snap set Hset Hn)
    as (opened & Hok & Hon & Ho).
  rewrite Hok in Hrec. injection Hrec as Hivs.
  destruct (open_keys_after store type_rates fallback ivs pid now snap _ opened
    (λ d, rate_of type_rates fallback snap (d_kind d) (d_ptype d)) Hn Hon Ho) as [Hnd Hkeys].
  set (ok := matches type_rates fallback snap (desired_map (set_iter set))) in *.
  rewrite <-(open_after store pid now ok), Hivs in Hnd.
  assert (Hall : ∀ r, r ∈ ivs' → is_open pid r = true → ok r = true).
  { intros r Hr Hop. assert (Hr' : r ∈ List.filter (is_open pid) ivs') by (by apply list_elem_of_In, filter_In; rewrite <-list_elem_of_In).
    rewrite <-Hivs, open_after in Hr'.
    apply elem_of_app in Hr' as [[_ [_ Hm]%andb_true_iff]%list_elem_of_In%filter_In|(d & -> & [Hw _]%Ho)%list_elem_of_fmap]; [done|].
    unfold ok, matches. unfold wanted_by in Hw. replace (iv_key _) with (desired_key d) by done.
    rewrite Hw. apply andb_true_iff. split; [apply negb_true_iff; by apply Hq|].
    apply same_rate_within. eapply Qcle_trans; [apply Hstore|by vm_compute]. }
  destruct (reconcile_intervals_spec store set_iter type_rates fallback ivs' pid now' snap set Hset Hnd)
    as (opened' & Hok' & _ & Ho'). rewrite Hok'. f_equal.
  assert (opened' = []) as ->.
  { destruct opened' as [|d l]; [done|]. destruct (proj1 (Ho' d)) as [Hw Hd]; [by left|].
    assert (Hk : desired_key d ∈ map iv_key (List.filter (is_open pid) ivs')).
    { rewrite <-Hivs, open_after. apply Hkeys. by apply assoc_Some_elem, (list_elem_of_fmap_2 fst) in Hw. }
    apply list_elem_of_fmap in Hk as (r & He & [Hr Hop]%list_elem_of_In%filter_In).
    apply list_elem_of_In in Hr. specialize (Hd r Hr Hop (eq_sym He)).
    fold ok in Hd. rewrite (Hall r) in Hd; done. }
  cbn [map]. rewrite app_nil_r. rewrite <-(map_id ivs') at 2. apply map_ext_in. intros r Hr%list_elem_of_In.
  destruct (is_open pid r) eqn:E; [|done]. cbn. fold ok. by rewrite (Hall r).
Qed.

(** A project with one running VM and a disk, and a stale row. *)
Definition sample_snapshot : snapshot :=
  mkSnapshot "gcp" (VStr "h1") "shared" 0 0 None "active"
    [VDict [("id", VStr "vm1"); ("state", VStr "running"); ("vcpus", VInt 4); ("ram_gib", VInt 16)]]
    [VDict [("id", VStr "d1"); ("size_gib", VInt 100)]] [] [].

Definition sample_rates : rates :=
  [("vcpu_hour", Some (tenth_pow 2)); ("ram_gib_hour", Some (tenth_pow 3)); ("disk_gib_hour", Some (tenth_pow 4))].

Definition sample_rows : list interval :=
  [mkInterval "p1" "vcpu" "vm1" (amount_of 2) (tenth_pow 2) (VStr "h1") "gcp" 0 None;
   mkInterval "p1" "disk" "d1" (amount_of 100) (tenth_pow 4) (VStr "h1") "gcp" 0 None;
   mkInterval "p2" "eip" "e1" 1 (tenth_pow 3) (VStr "h1") "gcp" 0 None].

Lemma within_refl q : within half_millionth q q.
Proof.
  unfold within, Qcminus. rewrite Qcplus_opp_r. by vm_compute.
Qed.

Definition sample_after : list interval :=
  match reconcile_intervals (λ q, q) (λ l, l) [] sample_rates sample_rows "p1" 3600000000 sample_snapshot with
  | Ok l => l
  | Raise _ => []
  end.

Lemma sample_open : NoDup (map iv_key (List.filter (is_open "p1") sample_rows)).
Proof. apply (bool_decide_unpack _). vm_compute. exact I. Qed.

Lemma reconcile_refines_desired_witness :
  map iv_key (List.filter (is_open "p1") sample_after) = [("disk", "d1"); ("vcpu", "vm1"); ("ram", "vm1")] ∧
  NoDup (map iv_key (List.filter (is_open "p1") sample_after)).
Proof.
  split; [by vm_compute|].
  destruct (reconcile_refines_desired (λ q, q) (λ l, l) [] sample_rates sample_rows "p1" 3600000000
    sample_snapshot sample_after within_refl sample_open) as (set & _ & H & _).
  - vm_compute. reflexivity.
  - exact H.
Defined.

Lemma reconcile_idempotent_witness :
  reconcile_intervals (λ q, q) (λ l, l) [] sample_rates sample_after "p1" 7200000000 sample_snapshot =
    Ok sample_after.
Proof.
  destruct (desired_resources sample_snapshot) as [set|] eqn:E; [|by vm_compute in E].
  apply (reconcile_idempotent (λ q, q) (λ l, l) [] sample_rates sample_rows "p1" 3600000000 7200000000
    sample_snapshot sample_after set within_refl E).
  - intros d _. unfold qty_differs, Qcminus. rewrite Qcplus_opp_r. by vm_compute.
  - exact sample_open.
  - vm_compute. reflexivity.
Defined.

(** Rounding to six places, halves up. *)
Definition round6 (q : amount) : amount :=
  (amount_of (Qfloor (q * amount_of 1000000 + 1 / amount_of 2)%Qc) * tenth_pow 6)%Qc.

(** A dedicated host of 63482 MiB: its quantity has more than six decimals, so every poll closes
    its row and opens another, although nothing changed. *)
Definition dedicated_snapshot : snapshot :=
  mkSnapshot "ec2" (VStr "h1") "dedicated" (amount_of 16) (amount_of 63482 / amount_of 1024)%Qc
    None "active" [] [] [] [].

Example dedicated_ram_churns :
  let poll rows now := match reconcile_intervals round6 (λ l, l) [] sample_rates rows "p1" now dedicated_snapshot with
                       | Ok l => l
                       | Raise _ => []
                       end in
  let first := poll [] 0 in
  (length first, length (poll first 120000000), length (poll (poll first 120000000) 240000000)) =
    (2%nat, 3%nat, 4%nat).
Proof. vm_compute. reflexivity. Qed.

(** ** Budgets *)

Definition stops (effects : list effect) : nat :=
  length (List.filter (λ e, match e with SpawnStop _ => true | _ => false end) effects).
Definition warnings (effects : list effect) : nat :=
  length (List.filter (λ e, match e with NotifyBudget _ "budget_warning" _ _ => true | _ => false end) effects).

(** A sequence of polls of one project, each with the spend it found. *)
Fixpoint budget_polls (warn_ratio : amount) (p : mproject) (spends : list amount) : mproject * list effect :=
  match spends with
  | [] => (p, [])
  | s :: spends' =>
      let '(p, e) := apply_budget warn_ratio p s in
      let '(p, es) := budget_polls warn_ratio p spends' in (p, e ++ es)
  end.

Lemma apply_budget_flags ratio p s :
  let r := apply_budget ratio p s in
  (stops r.2 + Nat.b2n (mp_budget_stopped p) = Nat.b2n (mp_budget_stopped r.1))%nat ∧
  (warnings r.2 + Nat.b2n (mp_budget_warned p) = Nat.b2n (mp_budget_warned r.1))%nat ∧
  mp_state r.1 = mp_state p ∧ mp_budget r.1 = mp_budget p ∧ mp_id r.1 = mp_id p.
Proof.
  unfold apply_budget. destruct (mp_budget p) as [cap|] eqn:Eb; [|done].
  destruct (qle cap 0); [done|].
  destruct (qle _ s); destruct (mp_budget_warned p) eqn:Ew; cbn [andb negb];
    destruct (qle cap s); cbn [andb]; try (destruct (String.eqb (mp_state p) "active") eqn:Es; cbn [andb]);
    destruct (mp_budget_stopped p) eqn:Est; cbn; rewrite ?Est, ?Es, ?Ew, ?Est; cbn; rewrite ?Eb; done.
Qed.

Lemma apply_budget_stop ratio p s cap :
  mp_budget p = Some cap → (0 < cap)%Qc → (cap <= s)%Qc → mp_state p = "active" →
  mp_budget_stopped (apply_budget ratio p s).1 = true.
Proof.
  intros Hb Hc Hs Ha. unfold apply_budget. rewrite Hb.
  assert (qle cap 0 = false) as -> by (unfold qle; by apply bool_decide_eq_false, Qclt_not_le).
  assert (qle cap s = true) as -> by (unfold qle; by apply bool_decide_eq_true).
  destruct (qle _ s && _); cbn; rewrite Ha; cbn; by destruct (mp_budget_stopped p) eqn:E; cbn; rewrite ?E.
Qed.

Lemma budget_polls_flags ratio p spends :
  let r := budget_polls ratio p spends in
  (stops r.2 + Nat.b2n (mp_budget_stopped p) = Nat.b2n (mp_budget_stopped r.1))%nat ∧
  (warnings r.2 + Nat.b2n (mp_budget_warned p) = Nat.b2n (mp_budget_warned r.1))%nat.
Proof.
  revert p. induction spends as [|s spends IH]; intros p; [done|]. cbn [budget_polls].
  pose proof (apply_budget_flags ratio p s) as (H1 & H2 & _). destruct (apply_budget ratio p s) as [p1 e].
  specialize (IH p1). destruct (budget_polls ratio p1 spends) as [p2 es]. cbn [fst snd] in *.
  unfold stops, warnings in *. rewrite !List.filter_app, !length_app. lia.
Qed.

Lemma budget_polls_stopped ratio p spends cap s :
  mp_budget p = Some cap → (0 < cap)%Qc → mp_state p = "active" → s ∈ spends → (cap <= s)%Qc →
  mp_budget_stopped (budget_polls ratio p spends).1 = true.
Proof.
  intros Hb Hc Ha Hin Hs. revert p Hb Ha. induction spends as [|s0 spends IH]; intros p Hb Ha; [set_solver|].
  cbn [budget_polls]. pose proof (apply_budget_flags ratio p s0) as (_ & _ & Hst & Hbu & _).
  pose proof (apply_budget_stop ratio p s0 cap Hb Hc) as Hstop. destruct (apply_budget ratio p s0) as [p1 e].
  cbn [fst snd] in *. destruct (budget_polls_flags ratio p1 spends) as [Hf _].
  apply elem_of_cons in Hin as [->|Hin].
  - specialize (Hstop Hs Ha). destruct (budget_polls ratio p1 spends) as [p2 es]. cbn in *.
    rewrite Hstop in Hf. destruct (mp_budget_stopped p2); [done|cbn in Hf; lia].
  - specialize (IH Hin p1). rewrite Hst, Hbu in IH. specialize (IH Hb Ha).
    by destruct (budget_polls ratio p1 spends) as [p2 es].
Qed.

(** Over any number of polls a budget warns at most once and stops the project at most
    once, and an active project with a positive budget is stopped exactly once as soon as one
    poll finds the budget spent. *)
Theorem budget_acts_once ratio p spends :
  mp_budget_warned p = false → mp_budget_stopped p = false →
  let r := budget_polls ratio p spends in
  (warnings r.2 ≤ 1)%nat ∧ (stops r.2 ≤ 1)%nat ∧
  ∀ cap s, mp_budget p = Some cap → (0 < cap)%Qc → mp_state p = "active" → s ∈ spends → (cap <= s)%Qc →
    stops r.2 = 1%nat ∧ mp_budget_stopped r.1 = true.
Proof.
  intros Hw Hst r. destruct (budget_polls_flags ratio p spends) as [H1 H2]. fold r in H1, H2.
  rewrite Hw in H2. rewrite Hst in H1. cbn in H1, H2. split_and!.
  - destruct (mp_budget_warned r.1); cbn in H2; lia.
  - destruct (mp_budget_stopped r.1); cbn in H1; lia.
  - intros cap s Hb Hc Ha Hin Hs. pose proof (budget_polls_stopped ratio p spends cap s Hb Hc Ha Hin Hs) as H.
    fold r in H. rewrite H in H1. cbn in H1. split; [lia|done].
Qed.

Lemma budget_acts_once_witness :
  let p := mkMProject "p1" "lab" (Some "u1") (Some "h1") "active" (Some (amount_of 10)) false false None in
  stops (budget_polls (amount_of 4 / amount_of 5) p (map amount_of [2; 9; 11; 12])).2 = 1%nat.
Proof.
  cbv zeta. apply (budget_acts_once (amount_of 4 / amount_of 5)
    (mkMProject "p1" "lab" (Some "u1") (Some "h1") "active" (Some (amount_of 10)) false false None)
    (map amount_of [2; 9; 11; 12]) eq_refl eq_refl) with (cap := amount_of 10) (s := amount_of 11).
  - reflexivity.
  - by vm_compute.
  - reflexivity.
  - cbn [map]. right; right; left.
  - by vm_compute.
Defined.
