(* ===== verification/MeteringSnapshot.v ===== *)
(** * Metering snapshots: [services/metering_service.py]

    What [build_snapshot] tells the arithmetic about a project: its machines with their states,
    its disks, elastic addresses and Ceph volumes, and its host's capacity and rates. *)
From stdpp Require Import prelude strings numbers gmap.
From Stdlib Require Import QArith.Qcanon Qcabs Field Ascii.
From S2P Require Import Prelude PyStr PyVal PyLemmas TopoNodes MeteringMath InstanceRates MeteringService.

Open Scope list_scope.

(** [(topology or {}).get(key) or \[\]], iterated. *)
Definition listed (topology : val) (key : string) : res (list val) :=
  l <- get (v_or topology empty_dict) key VNone;; iter (v_or l empty_list).

(** [metering_service._start_auto_map] *)
Definition start_auto_map (topology : val) : res (list (string * bool)) :=
  entries <- listed topology "startOrder";;
  for_each entries [] (λ entry out,
    vid <- get entry "vmId" VNone;;
    present <- py_and (Ok (truthy vid)) (has_key "autoStart" entry);;
    if present then
      a <- get entry "autoStart" VNone;;
      Ok (assoc_set (py_str vid) (negb (is_false a)) out)
    else Ok out).

(** [live_states.get(nid)]. *)
Definition live_state (live_states : list (string * val)) (nid : val) : res val :=
  _ <- hkey nid;;
  Ok (match nid with VStr s => default VNone (assoc s live_states) | _ => VNone end).

(** [data.get("hostId") or data.get("host_id")]. *)
Definition node_host (data : val) : res val :=
  a <- get data "hostId" VNone;;
  if truthy a then Ok a else get data "host_id" VNone.

(** [data.get(a) or data.get(b)]. *)
Definition get_or (data : val) (a b : string) : res val :=
  x <- get data a VNone;; if truthy x then Ok x else get data b VNone.

(** [metering_service._vm_nodes:176-194] the description of one VM. *)
Definition vm_item (auto_map : list (string * bool)) (live_states : list (string * val)) (node : val)
    : res val :=
  d <- get node "data" VNone;;
  let data := v_or d empty_dict in
  r <- get data "ram_gib" VNone;;
  ram <- (match r with VNone => x <- get data "ram" VNone;; Ok (v_or x (VInt 0)) | _ => Ok r end);;
  nid <- get node "id" VNone;;
  running <- get data "running" VNone;;
  state <- get_or data "state" "power";;
  live <- live_state live_states nid;;
  vcpus <- get data "vcpus" VNone;;
  hid <- node_host data;;
  power_on <- get data "powerOnAtDeploy" VNone;;
  defer <- get data "deferOcpInstall" VNone;;
  Ok (VDict [("id", nid); ("running", running); ("state", state); ("live_state", live);
             ("vcpus", v_or vcpus (VInt 0)); ("ram_gib", ram); ("host_id", hid);
             ("auto_start", match assoc (py_str nid) auto_map with Some b => VBool b | None => VNone end);
             ("power_on_at_deploy", power_on); ("defer_ocp_install", defer)]).

(** [metering_service._vm_nodes] *)
Definition vm_nodes (topology : val) (live_states : list (string * val)) : res (list val) :=
  auto_map <- start_auto_map topology;;
  ns <- listed topology "nodes";;
  vms <- map_res (λ node,
    ty <- get node "type" VNone;;
    if eq_str ty "vmNode" then v <- vm_item auto_map live_states node;; Ok [v] else Ok []) ns;;
  Ok (concat vms).

(** [data.get("size_gib") or data.get("sizeGb") or data.get("size") or 0]. *)
Definition node_size (data : val) : res val :=
  a <- get data "size_gib" VNone;;
  if truthy a then Ok a
  else
    b <- get data "sizeGb" VNone;;
    if truthy b then Ok b else c <- get data "size" VNone;; Ok (v_or c (VInt 0)).

(** The entry of a storage node. *)
Definition storage_item (node data : val) : res val :=
  size <- node_size data;;
  i <- get node "id" VNone;;
  hid <- node_host data;;
  Ok (VDict [("id", i); ("size_gib", size); ("host_id", hid)]).

(** The storage nodes a predicate keeps, as entries. *)
Definition storage_items (keep : val → res bool) (topology : val) : res (list val) :=
  ns <- listed topology "nodes";;
  items <- map_res (λ node,
    ty <- get node "type" VNone;;
    if negb (eq_str ty "storageNode") then Ok []
    else
      d <- get node "data" VNone;;
      let data := v_or d empty_dict in
      k <- keep data;;
      if k then i <- storage_item node data;; Ok [i] else Ok []) ns;;
  Ok (concat items).

(** [metering_service._topology_disks] *)
Definition topology_disks (topology : val) : res (list val) :=
  storage_items (λ data,
    f <- get data "format" VNone;;
    let fmt := lower (py_str (v_or f vstr_empty)) in
    iso <- py_or (Ok (String.eqb fmt "iso")) (b <- get data "bootableIso" VNone;; Ok (truthy b));;
    Ok (negb iso)) topology.

(** [metering_service._ceph_nodes] *)
Definition ceph_nodes (topology : val) : res (list val) :=
  storage_items (λ data,
    py_or (py_or (c <- get data "ceph" VNone;; Ok (truthy c))
                 (k <- get data "kind" VNone;; Ok (eq_str k "ceph")))
          (b <- get data "backend" VNone;; Ok (contains "ceph" (lower (py_str (v_or b vstr_empty)))))) topology.

(** A row of the project's disks. *)
Record disk_row := mkDiskRow { dk_id : string; dk_size_gb : Z }.

Definition opt_str (s : option string) : val := match s with Some s => VStr s | None => VNone end.

(** [metering_service._snapshot_disks]: a disk the database knows hides the canvas node with its id. *)
Definition snapshot_disks (disks : list disk_row) (host_id : option string) (topology : val)
    : res (list val) :=
  let rows := map (λ d, VDict [("id", VStr (dk_id d)); ("size_gib", VInt (dk_size_gb d));
                               ("host_id", opt_str host_id)]) disks in
  nodes <- topology_disks topology;;
  st <- for_each nodes (rows, map (λ d, VStr (dk_id d)) disks) (λ item st,
    let '(out, seen) := st in
    i <- idx item "id";;
    known <- vin i seen;;
    if known then Ok (out, seen)
    else seen <- vadd i seen;; Ok (out ++ [item], seen));;
  Ok st.1.

(** [metering_service._host_provider_type]: [providers] are the provider rows, id and type. *)
Definition host_provider_type (providers : list (string * option string)) (host : option mhost) : string :=
  match host ≫= mh_provider with
  | None | Some "" => "unknown"
  | Some pid =>
      match assoc pid providers with
      | Some (Some ((String _ _) as t)) => t
      | _ => "unknown"
      end
  end.

(** An elastic address of the project. *)
Record eip_row := mkEipRow { er_id : string; er_host : option string; er_state : string }.

(** What [build_snapshot] reads of a project besides its row. *)
Record project_facts := mkFacts {
  pf_deployed : val;
  pf_topology : val;
  pf_disks : list disk_row;
  pf_eips : list eip_row;
  pf_live_states : list (string * val)
}.

(** [a or b] for texts that may be null. *)
Definition str_or (a b : option string) : option string :=
  match a with None | Some "" => b | _ => a end.

(** [metering_service.build_snapshot] *)
Definition build_snapshot (cat : catalog) (nested_factor : amount) (type_rates : list (string * rates))
    (hosts : list mhost) (providers : list (string * option string)) (p : mproject) (f : project_facts)
    : res (option snapshot) :=
  match mp_host p with
  | None | Some "" => Ok None
  | Some hid =>
      if String.eqb (mp_state p) "draft" then Ok None
      else
        let host := List.find (λ h, String.eqb (mh_id h) hid) hosts in
        let provider_type := host_provider_type providers host in
        let topology := v_or (v_or (pf_deployed f) (pf_topology f)) empty_dict in
        disks <- snapshot_disks (pf_disks f) (mp_host p) topology;;
        let eips := map (λ e, VDict [("id", VStr (er_id e));
                                     ("host_id", opt_str (str_or (er_host e) (mp_host p)))])
                      (List.filter (λ e, bool_decide (er_state e ∈ ["associated"; "allocated"])) (pf_eips f)) in
        let capacity := host_capacity cat provider_type (host ≫= mh_instance_type)
                          (host_vcpus host) (host_ram host) in
        rates <- compose_host_rates cat nested_factor host provider_type type_rates;;
        vms <- vm_nodes topology (pf_live_states f);;
        ceph <- ceph_nodes topology;;
        Ok (Some (mkSnapshot provider_type (VStr hid) (billing_mode_of host) capacity.1 capacity.2
                    (Some (map (λ p, (p.1, Some p.2)) rates)) (mp_state p) vms disks eips ceph))
  end.

(** ** A dedicated host is billed its hourly price *)

Lemma update_map_lookup {A} k (other : list (string * A)) out :
  NoDup other.*1 →
  assoc k (update_map out other) = match assoc k other with Some v => Some v | None => assoc k out end.
Proof.
  unfold update_map. revert out. induction other as [|[k' v] other IH]; intros out; csimpl; [done|].
  intros [Hk Hn]%NoDup_cons. rewrite IH by done. destruct (decide (k = k')) as [->|Hne].
  - assert (assoc k' other = None) as ->.
    { destruct (assoc k' other) as [w|] eqn:E; [|done]. destruct Hk.
      by apply assoc_Some_elem, (list_elem_of_fmap_2 fst) in E. }
    by rewrite assoc_set_eq.
  - destruct (assoc k other); [done|]. by rewrite assoc_set_ne.
Qed.

Lemma unit_rates_NoDup cat : NoDup (kubevirt_unit_rates cat).*1.
Proof.
  unfold kubevirt_unit_rates.
  assert (H : ∀ (l : list string) (m : rate_map), NoDup m.*1 → NoDup (foldl (λ out key,
    match rate_in key (cat_kubevirt cat) with Some v => assoc_set key v out | None => out end) m l).*1).
  { induction l as [|k l IH]; intros m Hm; cbn [foldl]; [done|]. apply IH.
    destruct (rate_in k _); [by apply assoc_set_NoDup|done]. }
  apply H. apply (bool_decide_unpack _). vm_compute. exact I.
Qed.

Lemma apportion_keys cat h v r :
  (0 < h)%Qc → (0 < v)%Qc → (0 < r)%Qc →
  (0 < v * rate_or_0 "vcpu_hour" (kubevirt_unit_rates cat) + r * rate_or_0 "ram_gib_hour" (kubevirt_unit_rates cat))%Qc →
  let out := apportion_hourly cat h v r [] in
  NoDup out.*1 ∧ is_Some (assoc "vcpu_hour" out) ∧ is_Some (assoc "ram_gib_hour" out).
Proof.
  cbv zeta. intros Hh Hv Hr Hw. unfold apportion_hourly.
  assert (∀ q, (0 < q)%Qc → qle q 0 = false) as Hq by (intros q ?; unfold qle; by apply bool_decide_eq_false, Qclt_not_le).
  rewrite !Hq by done. cbn [orb]. unfold qlt. rewrite !bool_decide_eq_true_2 by done. split_and!.
  - by do 2 apply assoc_set_NoDup; apply unit_rates_NoDup.
  - rewrite assoc_set_ne, assoc_set_eq by discriminate. by eexists.
  - rewrite assoc_set_eq. by eexists.
Qed.

(** A rate of the host is the one that is used. *)
Lemma rate_of_host type_rates fallback sn kind ptype key (m : rate_map) :
  sn_host_rates sn = Some (map (λ p, (p.1, Some p.2)) m) → assoc kind KIND_TO_RATE = Some key →
  is_Some (assoc key m) → rate_of type_rates fallback sn kind ptype = rate_or_0 key m.
Proof.
  intros Hm Hk [v Hv]. unfold rate_of, resolve_rate. rewrite Hk, Hm. cbn [from_option]. unfold id, rate_in, rate_or_0.
  replace (assoc key (map _ m)) with (Some <$> assoc key m); [by rewrite Hv|].
  clear. induction m as [|[k w] m IH]; cbn; [done|]. by case_decide.
Qed.

(** A project that owns a dedicated host pays the instance's price whatever runs on it: when
    the catalogue knows the instance, with a positive price and capacity, and the host has no
    rates of its own, the resources of its snapshot cost per hour exactly the hourly price, in
    every state but [error], for which nothing is billed. *)
Theorem dedicated_host_pays_price cat nested_factor type_rates hosts providers p f fallback sn h row hourly v r :
  build_snapshot cat nested_factor type_rates hosts providers p f = Ok (Some sn) →
  List.find (λ h, String.eqb (mh_id h) (default "" (mp_host p))) hosts = Some h →
  mh_billing_mode h = Some "dedicated" → default [] (mh_rates h) = [] →
  sn_provider_type sn ≠ "kubevirt" → sn_provider_type sn ≠ "ocpvirt" →
  lookup_instance cat (sn_provider_type sn) (mh_instance_type h) = Some row →
  rate_in "vcpus" row = Some v → rate_in "ram_gib" row = Some r → rate_in "hourly_usd" row = Some hourly →
  (0 < v)%Qc → (0 < r)%Qc → (0 < hourly)%Qc →
  (0 < v * rate_or_0 "vcpu_hour" (kubevirt_unit_rates cat) +
       r * rate_or_0 "ram_gib_hour" (kubevirt_unit_rates cat))%Qc →
  ∃ ds, desired_resources sn = Ok ds ∧
    qsum (map (λ d, d_qty d * rate_of type_rates fallback sn (d_kind d) (d_ptype d))%Qc ds) =
      if String.eqb (sn_project_state sn) "error" then 0%Qc else hourly.
Proof.
  intros Hb Hf Hd Hrates Hnk Hno Hl Hv Hr Hh Hv0 Hr0 Hh0 Hw. unfold build_snapshot in Hb.
  destruct (mp_host p) as [hid|] eqn:Ehost; [|done]. destruct hid as [|c hid0] eqn:Ehid; [done|]. rewrite <-Ehid in *.
  destruct (String.eqb (mp_state p) "draft"); [done|]. cbn [from_option] in Hf. unfold id in Hf. rewrite Hf in Hb.
  apply bind_Ok in Hb as (disks & _ & Hb). apply bind_Ok in Hb as (rm & Hrm & Hb).
  apply bind_Ok in Hb as (vms & _ & Hb). apply bind_Ok in Hb as (ceph & _ & Hb).
  injection Hb as <-. cbn [sn_provider_type sn_project_state] in *.
  set (pt := host_provider_type providers (Some h)) in *.
  assert (Hmode : billing_mode_of (Some h) = "dedicated") by (unfold billing_mode_of; cbn; by rewrite Hd).
  assert (Hcap : host_capacity cat pt (Some h ≫= mh_instance_type) (host_vcpus (Some h)) (host_ram (Some h)) = (v, r)).
  { unfold host_capacity. cbn [mbind option_bind]. rewrite Hl, Hv, Hr.
    by rewrite (proj2 (String.eqb_neq _ _) Hno). }
  assert (Hderived : rates_for_host cat pt (Some h ≫= mh_instance_type) (host_vcpus (Some h)) (host_ram (Some h)) =
    Ok (Some (apportion_hourly cat hourly v r []))).
  { unfold rates_for_host. cbn [mbind option_bind].
    rewrite (proj2 (String.eqb_neq _ _) Hnk), (proj2 (String.eqb_neq _ _) Hno), Hl.
    assert (Hq : ∀ q x, (0 < q)%Qc → q_or (Some q) x = q).
    { intros q x Hq. unfold q_or. rewrite bool_decide_eq_false_2; [done|]. intros ->. by apply Qclt_not_eq in Hq. }
    rewrite Hv, Hr, !Hq by done. unfold entry. unfold rate_in in Hh.
    by destruct (assoc "hourly_usd" row) as [[?|]|]; simplify_eq/=. }
  destruct (apportion_keys cat hourly v r Hh0 Hv0 Hr0 Hw) as (Hnd & Hkv & Hkr).
  pose proof (apportion_rates cat hourly v r [] Hh0 (Qclt_le_weak _ _ Hv0) (Qclt_le_weak _ _ Hr0) Hw) as Hsum.
  set (d := apportion_hourly cat hourly v r []) in *.
  unfold compose_host_rates in Hrm. rewrite Hderived, Hmode in Hrm. cbn [bind mbind option_bind negb andb] in Hrm.
  rewrite Hrates in Hrm.
  destruct d as [|e0 d0] eqn:Ed; [by destruct Hkv|]. rewrite <-Ed in *. injection Hrm as <-.
  rewrite Hmode. change (host_capacity cat pt _ _ _) with
    (host_capacity cat pt (Some h ≫= mh_instance_type) (host_vcpus (Some h)) (host_ram (Some h))).
  rewrite Hcap. unfold desired_resources. cbn [sn_project_state sn_provider_type sn_billing_mode sn_host_id fst snd].
  set (out := update_map _ d). change (apply_rate_map out []) with out.
  destruct (String.eqb (mp_state p) "error"); [by eexists|]. cbn [String.eqb].
  unfold dedicated_host_resources. cbn [sn_host_vcpus sn_host_ram_gib].
  unfold qlt. rewrite !bool_decide_eq_true_2 by done. cbn [bind dadd hkey hashable existsb].
  unfold dadd. cbn [hkey hashable bind existsb d_host app desired_eq d_kind]. cbn.
  eexists. split; [reflexivity|]. unfold desired_eq. cbn [d_kind].
  rewrite (bool_decide_eq_false_2 ("ram" = "vcpu")) by discriminate.
  cbn [andb orb map qsum foldr d_qty d_kind d_ptype].
  rewrite (rate_of_host _ _ _ "vcpu" _ "vcpu_hour" out), (rate_of_host _ _ _ "ram" _ "ram_gib_hour" out);
    try done; unfold out; rewrite ?update_map_lookup by done.
  - rewrite <-Hsum. unfold rate_or_0. rewrite !update_map_lookup by done.
    destruct Hkv as [a ->], Hkr as [b ->]. cbn. ring.
  - destruct Hkr as [b ->]. by eexists.
  - destruct Hkv as [a ->]. by eexists.
Qed.

(** A dedicated instance of the catalogue. *)
Definition sample_catalog : catalog :=
  mkCatalog [("vcpu_hour", Some (amount_of 2 * tenth_pow 2)%Qc); ("ram_gib_hour", Some (tenth_pow 3))]
    [("ec2", [("m5.metal", [("vcpus", Some (amount_of 96)); ("ram_gib", Some (amount_of 384));
                            ("hourly_usd", Some (amount_of 4608 * tenth_pow 3)%Qc)])])].

Definition sample_host : mhost :=
  mkMHost "h1" (Some "prov1") (Some "m5.metal") (Some 96) (Some 393216) (Some "dedicated") None.

Definition dedicated_project : mproject :=
  mkMProject "p1" "lab" (Some "u1") (Some "h1") "stopped" None false false None.

Definition no_facts : project_facts := mkFacts VNone VNone [] [] [].

Definition sample_built : snapshot :=
  match build_snapshot sample_catalog (1 / amount_of 2)%Qc [] [sample_host] [("prov1", Some "aws")]
          dedicated_project no_facts with
  | Ok (Some sn) => sn
  | _ => sample_snapshot
  end.

Lemma dedicated_host_pays_price_witness :
  ∃ ds, desired_resources sample_built = Ok ds ∧
    qsum (map (λ d, d_qty d * rate_of [] [] sample_built (d_kind d) (d_ptype d))%Qc ds) =
      (amount_of 4608 * tenth_pow 3)%Qc.
Proof.
  destruct (dedicated_host_pays_price sample_catalog (1 / amount_of 2)%Qc [] [sample_host]
    [("prov1", Some "aws")] dedicated_project no_facts [] sample_built sample_host
    [("vcpus", Some (amount_of 96)); ("ram_gib", Some (amount_of 384));
     ("hourly_usd", Some (amount_of 4608 * tenth_pow 3)%Qc)]
    (amount_of 4608 * tenth_pow 3)%Qc (amount_of 96) (amount_of 384)) as (ds & H1 & H2);
    try (vm_compute; reflexivity); try (by vm_compute).
  exists ds. split; [exact H1|exact H2].
Defined.
