(* ===== verification/MeteringStatements.v ===== *)
(** * Invoices and monthly statements: [services/metering_service.py]

    What a project is billed when it is destroyed ([freeze_invoice]), the monthly statement of
    its owner, built from the same intervals, and its closing at the end of the month
    ([finalize_month]); the live view of the spend.  Amounts are rounded by [store] when a
    column holds them; line items are JSON and are kept exact. *)
From stdpp Require Import prelude strings numbers gmap sorting.
From Stdlib Require Import QArith.Qcanon Qcabs Field Ascii.
From S2P Require Import Prelude PyStr PyVal PyLemmas TopoNodes Calendar MeteringMath MeteringService.

Open Scope list_scope.

(** ** Lines by kind *)

(** A bucket of a kind, with the hosts seen. *)
Record host_bucket := mkHostBucket { hb_bucket : bucket; hb_hosts : list val }.

(** Buckets in the order the kinds were seen, and the spans of each kind. *)
Definition bucket_state : Type :=
  list (string * host_bucket) * list (string * list (option Z * option Z)).

Definition span_of (now : Z) (r : interval) : option Z * option Z :=
  (Some (iv_started r), Some (default now (iv_ended r))).

(** [metering_service.freeze_invoice:563-605] one row; the loop of [live_spend] is the same. *)
Definition ledger_row (now : Z) (row : interval) (st : bucket_state) : res bucket_state :=
  let '(by_kind, spans) := st in
  let e := Some (default now (iv_ended row)) in
  hours <- spend_total [mkUsage None (Some 1%Qc) (Some 1%Qc) (Some (iv_started row)) e] now;;
  cost <- spend_total [mkUsage None (Some (iv_qty row)) (Some (iv_rate row)) (Some (iv_started row)) e] now;;
  let b := default (mkHostBucket (mkBucket 0 0) []) (assoc (iv_kind row) by_kind) in
  let hosts := if truthy (iv_host row) && negb (existsb (py_eq (iv_host row)) (hb_hosts b))
               then hb_hosts b ++ [iv_host row] else hb_hosts b in
  Ok (assoc_set (iv_kind row)
        (mkHostBucket (mkBucket (b_qty_hours (hb_bucket b) + iv_qty row * hours)
                                (b_subtotal (hb_bucket b) + cost))%Qc hosts) by_kind,
      assoc_set (iv_kind row) (default [] (assoc (iv_kind row) spans) ++ [span_of now row]) spans).

(** [metering_service.freeze_invoice:606-610] the line of a kind. *)
Definition invoice_line_of (now : Z) (spans : list (string * list (option Z * option Z)))
    (p : string * host_bucket) : invoice_line :=
  mkInvoiceLine (line_of now spans (p.1, hb_bucket p.2)) (hb_hosts p.2).

(** [min] and [max] of a non-empty sequence. *)
Definition zmin_of (x : Z) (l : list Z) : Z := foldl Z.min x l.
Definition zmax_of (x : Z) (l : list Z) : Z := foldl Z.max x l.

(** ** Live spend *)

(** [metering_service._running_window] *)
Definition running_window (p : mproject) (rows : list interval) (now : Z) : option Z * option Z :=
  let since := match rows with
               | r :: rows' => Some (zmin_of (iv_started r) (map iv_started rows'))
               | [] => mp_deploy_started p
               end in
  if existsb (λ r, negb (bool_decide (is_Some (iv_ended r)))) rows then (since, None)
  else
    match omap iv_ended rows with
    | e :: es => (since, Some (zmax_of e es))
    | [] => if bool_decide (mp_state p ∈ ["stopped"; "stopping"]) then (since, Some now)
            else (since, None)
    end.

Record live := mkLive {
  lv_total : amount;
  lv_by_kind : list (string * amount);
  lv_lines : list invoice_line;
  lv_budget : option amount;
  lv_warned : bool;
  lv_stopped : bool;
  lv_running_seconds : amount;
  lv_since : option Z;
  lv_until : option Z
}.

(** [metering_service.live_spend:445-446] the cost of a row in the totals by kind. *)
Definition live_row (now : Z) (row : interval) (m : list (string * amount)) : res (list (string * amount)) :=
  cost <- spend_total [usage_of row] now;;
  Ok (assoc_set (iv_kind row) (default 0 (assoc (iv_kind row) m) + cost)%Qc m).

(** [metering_service.live_spend] *)
Definition live_spend (db : ledger) (p : mproject) (now : Z) : res live :=
  let rows := project_rows db (mp_id p) in
  by_kind <- for_each rows (map (λ k, (k.1, 0%Qc)) KIND_TO_RATE) (live_row now);;
  '(lines, spans) <- for_each rows ([], []) (ledger_row now);;
  total <- spend_total (map usage_of rows) now;;
  let '(since, until) := running_window p rows now in
  Ok (mkLive total by_kind
        (map (invoice_line_of now spans) (sort_by (λ a b, str_leb a.1 b.1) lines))
        (mp_budget p) (mp_budget_warned p) (mp_budget_stopped p)
        (covered_seconds (map (λ r, (Some (iv_started r), iv_ended r)) rows) now) since until).

(** ** Statements *)

Definition st_is (owner : option string) (period_start : Z) (s : statement) : bool :=
  bool_decide (st_owner s = owner) && (st_period_start s =? period_start).

(** Change the first row a query finds. *)
Fixpoint update_first {A} (p : A → bool) (f : A → A) (l : list A) : list A :=
  match l with
  | [] => []
  | x :: l' => if p x then f x :: l' else x :: update_first p f l'
  end.

(** What [db.delete] leaves: without the first row a query finds. *)
Fixpoint delete_first {A} (p : A → bool) (l : list A) : list A :=
  match l with
  | [] => []
  | x :: l' => if p x then l' else x :: delete_first p l'
  end.

(** [sum(float(p.get("subtotal") or 0) for p in projects)]. *)
Definition lines_total (ls : list project_line) : amount := qsum (map pl_subtotal ls).

(** The order of the lines: by name, then by project. *)
Definition line_leb (a b : project_line) : bool :=
  if String.eqb (pl_name a) (pl_name b) then str_leb (pl_project a) (pl_project b)
  else str_leb (pl_name a) (pl_name b).

(** [metering_service._interval_payload] *)
Definition interval_payload (rows : list interval) (now : Z) : list usage :=
  map (λ r, mkUsage (Some (iv_kind r)) (Some (iv_qty r)) (Some (iv_rate r)) (Some (iv_started r))
              (Some (default now (iv_ended r)))) rows.

Section Statements.
(** The rounding of a [Numeric(18,6)] column. *)
Context (store : amount → amount).

(** [metering_service._get_or_create_statement]: the statement and the table with it. *)
Definition get_or_create_statement (sts : list statement) (owner : option string) (year month : Z)
    : res (statement * list statement) :=
  '(p0, p1) <- month_bounds year month;;
  match List.find (st_is owner p0) sts with
  | Some row => Ok (row, sts)
  | None =>
      let row := mkStatement owner p0 p1 (store 0) [] false None in
      Ok (row, sts ++ [row])
  end.

(** [metering_service._set_project_month_lines] *)
Definition set_project_month_lines (project_id project_name : string) (subtotal : amount)
    (by_kind : list line) (s : statement) : statement :=
  let projects := List.filter (λ l, negb (String.eqb (pl_project l) project_id)) (st_lines s) in
  let projects := if qlt 0 subtotal || negb (bool_decide (length by_kind = 0%nat))
                  then projects ++ [mkProjectLine project_id project_name subtotal by_kind]
                  else projects in
  let projects := sort_by line_leb projects in
  mkStatement (st_owner s) (st_period_start s) (st_period_end s) (store (lines_total projects))
    projects (st_final s) (st_finalized_at s).

(** One month of one project: the statement is created if missing and its lines replaced unless
    it is final. *)
Definition contribute_month (p : mproject) (payload : list usage) (now : Z) (ym : Z * Z)
    (sts : list statement) : res (list statement) :=
  '(p0, p1) <- month_bounds ym.1 ym.2;;
  '(s, sts) <- get_or_create_statement sts (mp_owner p) ym.1 ym.2;;
  if st_final s then Ok sts
  else
    let '(subtotal, by_kind) := period_usage payload p0 p1 now in
    Ok (update_first (st_is (mp_owner p) p0)
          (set_project_month_lines (mp_id p) (mp_name p) subtotal by_kind) sts).

Definition has_owner (p : mproject) : bool :=
  match mp_owner p with None | Some "" => false | _ => true end.

(** [metering_service._contribute_intervals_to_months] *)
Definition contribute_intervals_to_months (sts : list statement) (p : mproject)
    (rows : list interval) (now : Z) : res (list statement) :=
  match rows with
  | [] => Ok sts
  | r :: rows' =>
      if negb (has_owner p) then Ok sts
      else
        let payload := interval_payload rows now in
        let earliest := zmin_of (iv_started r) (map iv_started rows') in
        months <- months_spanned earliest now;;
        for_each months sts (contribute_month p payload now)
  end.

(** [metering_service._finalize_owner_statement] *)
Definition finalize_owner_statement (sts : list statement) (owner : option string)
    (period_start now : Z) : option statement * list statement :=
  match List.find (st_is owner period_start) sts with
  | None => (None, sts)
  | Some s =>
      if st_final s then (Some s, sts)
      else
        match st_lines s with
        | [] => (None, delete_first (st_is owner period_start) sts)
        | _ =>
            let s' := mkStatement (st_owner s) (st_period_start s) (st_period_end s)
                        (store (lines_total (st_lines s))) (st_lines s) true (Some now) in
            (Some s', update_first (st_is owner period_start) (λ _, s') sts)
        end
  end.

(** [metering_service.finalize_month:749-760] one project: the owners and the statements. *)
Definition finalize_project (db : ledger) (year month p0 p1 now : Z) (p : mproject)
    (st : list (option string) * list statement) : res (list (option string) * list statement) :=
  let '(owners, sts) := st in
  if negb (has_owner p) then Ok st
  else
    let owners := owners ++ [mp_owner p] in
    let rows := project_rows db (mp_id p) in
    match rows with
    | [] => Ok (owners, sts)
    | _ =>
        let '(subtotal, by_kind) := period_usage (interval_payload rows now) p0 p1 now in
        '(s, sts) <- get_or_create_statement sts (mp_owner p) year month;;
        if st_final s then Ok (owners, sts)
        else Ok (owners, update_first (st_is (mp_owner p) p0)
                   (set_project_month_lines (mp_id p) (mp_name p) subtotal by_kind) sts)
    end.

(** The order the set of owners is iterated in. *)
Context (owner_iter : list (option string) → list (option string)).

Definition metered (p : mproject) : bool :=
  negb (String.eqb (mp_state p) "draft") && bool_decide (is_Some (mp_host p)).

(** [metering_service.finalize_month]: what is final now, and the ledger. *)
Definition finalize_month (enabled : bool) (db : ledger) (year month now : Z)
    : res (list statement * ledger) :=
  if negb enabled then Ok ([], db)
  else
    '(p0, p1) <- month_bounds year month;;
    if now <? p1 then Ok ([], db)
    else
      '(owners, sts) <- for_each (List.filter metered (lg_projects db)) ([], lg_statements db)
                          (finalize_project db year month p0 p1 now);;
      let drafts := List.filter (λ s, (st_period_start s =? p0) && negb (st_final s)) sts in
      let owners := owner_iter (dedup_first (owners ++ map st_owner drafts)) in
      let '(done, sts) :=
        foldl (λ '(done, sts) owner,
                 let '(s, sts) := finalize_owner_statement sts owner p0 now in
                 (done ++ option_list s, sts)) ([], sts) owners in
      Ok (done, with_statements db sts).

(** [metering_service.maybe_finalize_previous_month]: an exception rolls back. *)
Definition maybe_finalize_previous_month (enabled : bool) (db : ledger) (now : Z) : ledger :=
  let '(year, month) := previous_month now in
  match finalize_month enabled db year month now with
  | Ok (_, db') => db'
  | Raise _ => db
  end.

(** ** Invoices *)

Context (set_iter : list desired → list desired).
Context (type_rates : list (string * rates)) (fallback : rates) (warn_ratio : amount).

(** [metering_service.freeze_invoice] *)
Definition freeze_invoice (enabled : bool) (db : ledger) (p : mproject) (now : Z)
    (snap : option snapshot) : res (invoice * ledger * list effect) :=
  '(_, db, effects) <- reconcile_project store set_iter type_rates fallback warn_ratio enabled db p now snap;;
  let db := with_intervals db
              (map (λ r, if is_open (mp_id p) r then close_interval r now else r) (lg_intervals db)) in
  let rows := project_rows db (mp_id p) in
  '(by_kind, spans) <- for_each rows ([], []) (ledger_row now);;
  let lines := map (invoice_line_of now spans) by_kind in
  let inv := mkInvoice (mp_id p) (mp_name p) (mp_owner p)
               (store (qsum (map (λ l, ln_subtotal (il_line l)) lines))) lines
               (match rows with
                | r :: rows' => zmin_of (iv_started r) (map iv_started rows')
                | [] => now
                end) now in
  sts <- contribute_intervals_to_months (lg_statements db) p rows now;;
  Ok (inv, mkLedger (lg_projects db) (lg_intervals db) sts (lg_invoices db ++ [inv]), effects).

(** [metering_service.safe_freeze_invoice]: an exception is logged. *)
Definition safe_freeze_invoice (enabled : bool) (db : ledger) (p : mproject) (now : Z)
    (snap : option snapshot) : option (invoice * ledger * list effect) :=
  if negb enabled then None
  else match freeze_invoice enabled db p now snap with Ok r => Some r | Raise _ => None end.

(** [metering_service.reconcile_all_projects]: a project whose reconciliation fails is rolled
    back and does not keep the others from being reconciled; [snap_of] is [build_snapshot]. *)
Definition reconcile_all_projects (enabled : bool) (snap_of : mproject → res (option snapshot))
    (now_of : mproject → Z) (db : ledger) : ledger * list effect :=
  if negb enabled then (db, [])
  else
    foldl (λ '(db, effects) p,
        match (snap <- snap_of p;;
               reconcile_project store set_iter type_rates fallback warn_ratio true db p (now_of p) snap) with
        | Ok (_, db', es) => (db', effects ++ es)
        | Raise _ => (db, effects)
        end) (db, []) (List.filter metered (lg_projects db)).
End Statements.

(** ** Statements: totals, one line per project, final means final *)

Lemma update_first_split {A} (p : A → bool) f l x :
  List.find p l = Some x →
  ∃ l1 l2, l = l1 ++ x :: l2 ∧ update_first p f l = l1 ++ f x :: l2 ∧ delete_first p l = l1 ++ l2.
Proof.
  induction l as [|y l IH]; [done|]. cbn [List.find update_first delete_first].
  destruct (p y); [intros [= ->]; by exists [], l|].
  intros (l1 & l2 & -> & -> & ->)%IH. by exists (y :: l1), l2.
Qed.

Definition st_key (s : statement) : option string * Z := (st_owner s, st_period_start s).

Lemma st_is_key owner p0 s : st_is owner p0 s = true ↔ st_key s = (owner, p0).
Proof.
  unfold st_is, st_key. rewrite andb_true_iff, bool_decide_eq_true, Z.eqb_eq. naive_solver.
Qed.

Section StatementFacts.
Context (store : amount → amount).

(** A statement's total is the sum of its lines, one per project. *)
Definition statement_ok (s : statement) : Prop :=
  st_total s = store (lines_total (st_lines s)) ∧ NoDup (map pl_project (st_lines s)).

(** The table: every statement well formed, one per owner and month. *)
Definition statements_ok (sts : list statement) : Prop :=
  Forall statement_ok sts ∧ NoDup (map st_key sts).

(** What an operation on the statements keeps. *)
Definition keeps (sts sts' : list statement) : Prop :=
  (statements_ok sts → statements_ok sts') ∧
  ∀ s, s ∈ sts → st_final s = true → s ∈ sts'.

#[export] Instance keeps_preorder : PreOrder keeps.
Proof.
  split; [by intros sts; split|]. intros a b c [H1 H2] [H3 H4]. split; auto.
Qed.

Lemma keeps_update sts p f s :
  List.find p sts = Some s → st_final s = false → st_key (f s) = st_key s →
  (statement_ok s → statement_ok (f s)) → keeps sts (update_first p f sts).
Proof.
  intros Hf Hfin Hk Hok. destruct (update_first_split p f sts s Hf) as (l1 & l2 & -> & -> & _). split.
  - intros [Ha Hn]. split.
    + apply Forall_app in Ha as [Ha1 [Hs Ha2]%Forall_cons]. apply Forall_app; auto.
    + rewrite map_app in *. cbn [map] in *. by rewrite Hk.
  - intros s' Hs' Hfs'. apply elem_of_app in Hs' as [|[->|]%elem_of_cons]; [set_solver|congruence|set_solver].
Qed.

Lemma set_lines_ok pid name subtotal by_kind s :
  statement_ok s → statement_ok (set_project_month_lines store pid name subtotal by_kind s).
Proof.
  intros [_ Hn]. split; [done|]. cbn [st_lines set_project_month_lines].
  rewrite sort_by_perm. pose proof (NoDup_map_filter pl_project
    (λ l, negb (String.eqb (pl_project l) pid)) (st_lines s) Hn) as Hf.
  destruct (_ || _); [|done]. rewrite map_app. apply NoDup_app. split_and!; [done| |apply NoDup_singleton].
  intros k (l & -> & [_ Hl]%list_elem_of_In%filter_In)%list_elem_of_fmap [He|]%elem_of_cons; [|set_solver].
  cbn in He. rewrite He, String.eqb_refl in Hl. done.
Qed.

(** Finding or creating a statement. *)
Lemma get_or_create_spec sts owner year month s sts' :
  get_or_create_statement store sts owner year month = Ok (s, sts') →
  ∃ p0 p1, month_bounds year month = Ok (p0, p1) ∧ List.find (st_is owner p0) sts' = Some s ∧ keeps sts sts'.
Proof.
  unfold get_or_create_statement. intros ([p0 p1] & Hb & H)%bind_Ok. exists p0, p1. split; [done|].
  destruct (List.find (st_is owner p0) sts) as [s0|] eqn:Ef; injection H as <- <-; [by split|].
  set (s := mkStatement _ _ _ _ _ _ _). split.
  - assert (st_is owner p0 s = true) by (by apply st_is_key).
    clear Hb. induction sts as [|x sts IH]; cbn in *; [by rewrite H|]. destruct (st_is owner p0 x); [done|auto].
  - split; [|set_solver]. intros [Ha Hn]. split.
    + apply Forall_app. split; [done|]. repeat constructor.
    + rewrite map_app. apply NoDup_app. split_and!; [done| |apply NoDup_singleton].
      intros k (x & -> & Hx)%list_elem_of_fmap [He|]%elem_of_cons; [|set_solver].
      apply list_elem_of_In in Hx. pose proof (find_none _ _ Ef x Hx) as Hno.
      apply not_true_iff_false in Hno. apply Hno. by apply st_is_key.
Qed.

Lemma contribute_month_keeps p payload now ym sts sts' :
  contribute_month store p payload now ym sts = Ok sts' → keeps sts sts'.
Proof.
  unfold contribute_month. intros ([p0 p1] & Hb & ([s sts1] & Hg & H)%bind_Ok)%bind_Ok.
  apply get_or_create_spec in Hg as (p0' & p1' & Hb' & Hf & Hk). rewrite Hb in Hb'. injection Hb' as <- <-.
  destruct (st_final s) eqn:Hfin; [by injection H as <-|].
  destruct (period_usage payload p0 p1 now) as [subtotal by_kind]. injection H as <-.
  transitivity sts1; [done|]. eapply keeps_update; [exact Hf|exact Hfin|done|apply set_lines_ok].
Qed.

(** A loop keeps what its body keeps. *)
Lemma for_each_preorder {A S} (R : S → S → Prop) `{!PreOrder R} (body : A → S → res S) l st st' :
  (∀ x st st', body x st = Ok st' → R st st') → for_each l st body = Ok st' → R st st'.
Proof.
  intros Hbody. revert st. induction l as [|x l IH]; intros st; cbn [for_each]; [by intros [= ->]|].
  intros (st1 & H1 & H2)%bind_Ok. transitivity st1; eauto.
Qed.

Lemma contribute_intervals_keeps sts p rows now sts' :
  contribute_intervals_to_months store sts p rows now = Ok sts' → keeps sts sts'.
Proof.
  unfold contribute_intervals_to_months. destruct rows as [|r rows]; [by intros [= ->]|].
  destruct (negb (has_owner p)); [by intros [= ->]|]. intros (ms & _ & H)%bind_Ok.
  eapply for_each_preorder; [apply _| |exact H]. intros x st st'. apply contribute_month_keeps.
Qed.

Lemma finalize_project_keeps db year month p0 p1 now p st st' :
  month_bounds year month = Ok (p0, p1) →
  finalize_project store db year month p0 p1 now p st = Ok st' → keeps st.2 st'.2.
Proof.
  intros Hb. destruct st as [owners sts]. unfold finalize_project. cbn [snd].
  destruct (negb (has_owner p)); [by intros [= <-]|].
  destruct (project_rows db (mp_id p)) as [|r rows]; [by intros [= <-]|].
  destruct (period_usage _ p0 p1 now) as [subtotal by_kind]. intros ([s sts1] & Hg & H)%bind_Ok.
  apply get_or_create_spec in Hg as (p0' & p1' & Hb' & Hf & Hk). rewrite Hb in Hb'. injection Hb' as <- <-.
  destruct (st_final s) eqn:Hfin; injection H as <-; [done|]. cbn [snd].
  transitivity sts1; [done|]. eapply keeps_update; [exact Hf|exact Hfin|done|apply set_lines_ok].
Qed.

Lemma finalize_owner_keeps sts owner p0 now s sts' :
  finalize_owner_statement store sts owner p0 now = (s, sts') → keeps sts sts'.
Proof.
  unfold finalize_owner_statement. destruct (List.find _ sts) as [s0|] eqn:Hf; [|by intros [= <- <-]].
  destruct (st_final s0) eqn:Hfin; [by intros [= <- <-]|]. destruct (st_lines s0) as [|l ls] eqn:El.
  - intros [= <- <-]. destruct (update_first_split _ id sts s0 Hf) as (l1 & l2 & -> & _ & ->). split.
    + intros [[Ha1 [_ Ha2]%Forall_cons]%Forall_app Hn]. split; [by apply Forall_app|].
      rewrite map_app in *. cbn [map] in Hn. rewrite Permutation_app_comm in Hn. cbn in Hn.
      apply NoDup_cons in Hn as [_ Hn]. by rewrite Permutation_app_comm.
    + intros s' [|[->|]%elem_of_cons]%elem_of_app Hs'; [set_solver|congruence|set_solver].
  - intros [= <- <-]. rewrite <-El. eapply keeps_update; [exact Hf|exact Hfin|done|].
    intros [_ Hn]. by split.
Qed.

Lemma finalize_month_keeps owner_iter enabled db year month now done db' :
  finalize_month store owner_iter enabled db year month now = Ok (done, db') →
  keeps (lg_statements db) (lg_statements db') ∧ lg_intervals db' = lg_intervals db ∧
  lg_invoices db' = lg_invoices db.
Proof.
  unfold finalize_month. destruct enabled; cbn [negb]; [|by intros [= <- <-]].
  intros ([p0 p1] & Hb & H)%bind_Ok. destruct (now <? p1); [by injection H as <- <-|].
  apply bind_Ok in H as ([owners sts] & Hloop & H).
  assert (Hk : keeps (lg_statements db) sts).
  { pose (R := λ a b : list (option string) * list statement, keeps a.2 b.2).
    assert (PreOrder R) by (split; [by intros ?; apply (reflexivity (R:=keeps))|by intros ????; apply (transitivity (R:=keeps))]).
    apply (for_each_preorder R _ _ _ _ (λ p st st', finalize_project_keeps db year month p0 p1 now p st st' Hb) Hloop). }
  set (os := owner_iter _) in H. clearbody os. destruct (foldl _ ([], sts) os) as [done0 sts2] eqn:Ef.
  injection H as <- <-. split; [|done]. cbn [lg_statements with_statements].
  transitivity sts; [done|]. clear -Ef. revert Ef. generalize (@nil statement) as d0.
  revert sts. induction os as [|o os IH]; intros sts d0; cbn [foldl]; [by intros [= <- <-]|].
  destruct (finalize_owner_statement store sts o p0 now) as [s sts1] eqn:Eo.
  intros Ef%IH. transitivity sts1; [|done]. by eapply finalize_owner_keeps.
Qed.
End StatementFacts.

(** ** The ledger over its life *)

(** At most one open interval per resource. *)
Definition open_distinct (ivs : list interval) : Prop :=
  ∀ pid, NoDup (map iv_key (List.filter (is_open pid) ivs)).

(** Intervals that have ended stay as they are. *)
Definition history_kept (ivs ivs' : list interval) : Prop :=
  ∀ r, r ∈ ivs → is_Some (iv_ended r) → r ∈ ivs'.

Lemma not_open_ended pid r : is_Some (iv_ended r) → is_open pid r = false.
Proof. intros H. unfold is_open. by rewrite bool_decide_eq_true_2, andb_false_r. Qed.

(** Closing some open rows of a project keeps the history. *)
Lemma close_history (p : interval → bool) ivs now :
  (∀ r, p r = true → ¬ is_Some (iv_ended r)) →
  history_kept ivs (map (λ r, if p r then close_interval r now else r) ivs).
Proof.
  intros Hp r Hr He. apply list_elem_of_fmap. exists r. split; [|done].
  destruct (p r) eqn:E; [by destruct (Hp r E)|done].
Qed.

(** Closing rows opens none. *)
Lemma close_filter (p : interval → bool) ivs now pid :
  List.filter (is_open pid) (map (λ r, if p r then close_interval r now else r) ivs) =
    List.filter (λ r, is_open pid r && negb (p r)) ivs.
Proof.
  induction ivs as [|r ivs IH]; [done|]. cbn [map List.filter]. destruct (p r) eqn:E; cbn [negb].
  - rewrite andb_false_r, not_open_ended by (by eexists). done.
  - rewrite andb_true_r. destruct (is_open pid r); by rewrite IH.
Qed.

Lemma filter_andb {A} (p q : A → bool) l :
  List.filter (λ x, p x && q x) l = List.filter q (List.filter p l).
Proof.
  induction l as [|x l IH]; [done|]. cbn. destruct (p x); cbn; [|done]. destruct (q x); by rewrite IH.
Qed.

Lemma reconcile_intervals_ledger store set_iter type_rates fallback ivs pid now snap ivs' :
  reconcile_intervals store set_iter type_rates fallback ivs pid now snap = Ok ivs' →
  open_distinct ivs → open_distinct ivs' ∧ history_kept ivs ivs'.
Proof.
  intros Hrec Hd. destruct (desired_resources snap) as [set|e] eqn:Hset.
  2: { unfold reconcile_intervals in Hrec. by rewrite Hset in Hrec. }
  destruct (reconcile_intervals_spec store set_iter type_rates fallback ivs pid now snap set Hset (Hd pid))
    as (opened & Hok & Hon & Ho).
  rewrite Hok in Hrec. injection Hrec as <-. split.
  - intros pid'. destruct (decide (pid' = pid)) as [->|Hne].
    + rewrite open_after.
      by apply (open_keys_after store type_rates fallback ivs pid now snap _ opened _ (Hd pid) Hon Ho).
    + rewrite List.filter_app.
      rewrite (close_filter (λ r, is_open pid r && negb (matches type_rates fallback snap (desired_map (set_iter set)) r))).
      replace (List.filter (is_open pid') (map _ opened)) with (@nil interval).
      * rewrite app_nil_r, filter_andb. apply NoDup_map_filter, Hd.
      * clear -Hne. induction opened as [|d l IH]; [done|]. cbn [map List.filter].
        unfold is_open at 1. cbn. rewrite (proj2 (String.eqb_neq _ _)) by congruence. done.
  - intros r Hr He. apply elem_of_app. left.
    apply (close_history (λ r, is_open pid r && _)); [|done|done].
    intros r0 [Hop _]%andb_true_iff Hs. by rewrite not_open_ended in Hop.
Qed.

(** One operation on the ledger. *)
Inductive metering_step (store : amount → amount) (set_iter : list desired → list desired)
    (owner_iter : list (option string) → list (option string)) (enabled : bool) : ledger → ledger → Prop :=
| StepReconcile type_rates fallback ratio db p now snap spend db' es :
    reconcile_project store set_iter type_rates fallback ratio enabled db p now snap = Ok (spend, db', es) →
    metering_step store set_iter owner_iter enabled db db'
| StepFreeze type_rates fallback ratio db p now snap inv db' es :
    freeze_invoice store set_iter type_rates fallback ratio enabled db p now snap = Ok (inv, db', es) →
    metering_step store set_iter owner_iter enabled db db'
| StepFinalize db now :
    metering_step store set_iter owner_iter enabled db
      (maybe_finalize_previous_month store owner_iter enabled db now).

Section LedgerFacts.
Context (store : amount → amount) (set_iter : list desired → list desired).
Context (owner_iter : list (option string) → list (option string)) (enabled : bool).

Definition ledger_ok (db : ledger) : Prop :=
  open_distinct (lg_intervals db) ∧ statements_ok store (lg_statements db).

(** What no operation undoes. *)
Definition history (db db' : ledger) : Prop :=
  history_kept (lg_intervals db) (lg_intervals db') ∧
  (∀ s, s ∈ lg_statements db → st_final s = true → s ∈ lg_statements db') ∧
  (∀ i, i ∈ lg_invoices db → i ∈ lg_invoices db').

Lemma reconcile_project_ledger type_rates fallback ratio db p now snap spend db' es :
  reconcile_project store set_iter type_rates fallback ratio enabled db p now snap = Ok (spend, db', es) →
  open_distinct (lg_intervals db) →
  open_distinct (lg_intervals db') ∧ history_kept (lg_intervals db) (lg_intervals db') ∧
  lg_statements db' = lg_statements db ∧ lg_invoices db' = lg_invoices db.
Proof.
  unfold reconcile_project. intros H Hd. destruct enabled; cbn [negb] in H; [|injection H as _ <- _; by split_and!; [|intros ?|..]].
  destruct snap as [snap|].
  - apply bind_Ok in H as (ivs & Hr & H). apply bind_Ok in H as (spend' & _ & H).
    destruct (apply_budget ratio p spend') as [p' effects]. injection H as _ <- _.
    cbn [lg_intervals lg_statements lg_invoices save_mproject with_intervals].
    destruct (reconcile_intervals_ledger _ _ _ _ _ _ _ _ _ Hr Hd). by split_and!.
  - apply bind_Ok in H as (spend' & _ & H). injection H as _ <- _. by split_and!; [|intros ?|..].
Qed.

Lemma step_ledger db db' :
  metering_step store set_iter owner_iter enabled db db' →
  ledger_ok db → ledger_ok db' ∧ history db db'.
Proof.
  intros Hstep [Hd Hs]. destruct Hstep as [type_rates fallback ratio db p now snap spend db' es H
    |type_rates fallback ratio db p now snap inv db' es H|db now].
  - apply reconcile_project_ledger in H as (H1 & H2 & H3 & H4); [|done]. split; [split; [done|by rewrite H3]|].
    split_and!; [done|by rewrite H3|by rewrite H4].
  - unfold freeze_invoice in H. apply bind_Ok in H as ([[spend db1] effects] & Hr & H).
    apply reconcile_project_ledger in Hr as (H1 & H2 & H3 & H4); [|done].
    apply bind_Ok in H as ([by_kind spans] & _ & H). apply bind_Ok in H as (sts & Hc & H).
    injection H as _ <- _. cbn [lg_statements with_intervals] in Hc.
    apply contribute_intervals_keeps in Hc as [Hk1 Hk2]. rewrite H3 in Hk1, Hk2. split.
    + split; cbn [lg_intervals lg_statements with_intervals]; [|auto]. intros pid.
      rewrite close_filter, filter_andb. apply NoDup_map_filter, H1.
    + split_and!; cbn [lg_intervals lg_statements lg_invoices with_intervals].
      * intros r Hr He. apply (close_history (is_open (mp_id p))); [|by apply H2|done].
        intros r0 Hop He0. by rewrite not_open_ended in Hop.
      * done.
      * rewrite H4. intros i Hi. apply elem_of_app. by left.
  - unfold maybe_finalize_previous_month. destruct (previous_month now) as [year month].
    destruct (finalize_month _ _ _ _ _ _ _) as [[fin db']|e] eqn:E.
    + apply finalize_month_keeps in E as ([Hk1 Hk2] & Hi & Hv). split.
      * split; [by rewrite Hi|by apply Hk1].
      * split_and!; [rewrite Hi; intros r Hr _; exact Hr|done|rewrite Hv; intros i Hin; exact Hin].
    + split; [done|]. by split; [intros r Hr _|split; [intros s|intros i]].
Qed.

(** C23: Over any sequence of reconciliations, invoices and month ends, a ledger that starts well
    formed stays well formed: at most one open interval per resource of a project, at most one
    statement per owner and month, each with one line per project and the sum of its lines as
    its total. *)
Theorem ledger_invariant db db' :
  rtc (metering_step store set_iter owner_iter enabled) db db' → ledger_ok db → ledger_ok db'.
Proof. induction 1 as [|x y z Hstep _ IH]; [done|]. intros Hok. apply IH. by apply (step_ledger x). Qed.

(** Billing history is immutable: once an interval has ended, a statement is final or an
    invoice exists, no later reconciliation, invoice or month end changes or removes it. *)
Theorem billing_history_immutable db db' :
  rtc (metering_step store set_iter owner_iter enabled) db db' → ledger_ok db →
  (∀ r, r ∈ lg_intervals db → is_Some (iv_ended r) → r ∈ lg_intervals db') ∧
  (∀ s, s ∈ lg_statements db → st_final s = true → s ∈ lg_statements db') ∧
  (∀ i, i ∈ lg_invoices db → i ∈ lg_invoices db').
Proof.
  induction 1 as [|x y z Hstep _ IH]; [done|]. intros Hok.
  destruct (step_ledger x y Hstep Hok) as [Hok' (H1 & H2 & H3)].
  destruct (IH Hok') as (H4 & H5 & H6). split_and!; auto.
Qed.
End LedgerFacts.

(** ** Invoices *)

(** What a row costs up to [now]. *)
Definition row_cost (now : Z) (r : interval) : amount :=
  (iv_qty r * iv_rate r * hours_between (iv_started r) (default now (iv_ended r)))%Qc.

Lemma spend_total_rows rows now :
  spend_total (map usage_of rows) now = Ok (qsum (map (row_cost now) rows)).
Proof.
  unfold spend_total. match goal with |- for_each _ _ ?b = _ => set (body := b) end.
  enough (H : ∀ t0 : amount, for_each (map usage_of rows) t0 body = Ok (t0 + qsum (map (row_cost now) rows))%Qc).
  { rewrite H. f_equal. ring. }
  induction rows as [|r rows IH]; intros t0; cbn [map for_each]; [f_equal; cbn; ring|].
  change (body (usage_of r) t0) with (@Ok amount (t0 + row_cost now r)%Qc). cbn [bind]. rewrite IH. f_equal.
  change (qsum (?x :: ?l)) with (x + qsum l)%Qc. ring.
Qed.

Lemma qsum_assoc_set {V} (f : V → amount) k v (d : V) (m : list (string * V)) :
  f d = 0%Qc →
  (qsum (map (λ p, f p.2) (assoc_set k v m)) + f (default d (assoc k m)))%Qc =
    (qsum (map (λ p, f p.2) m) + f v)%Qc.
Proof.
  intros Hd. induction m as [|[k' w] m IH]; cbn [assoc_set assoc map from_option].
  - rewrite Hd. cbn. ring.
  - case_decide; cbn [map snd fst from_option]; change (qsum (?x :: ?l)) with (x + qsum l)%Qc; unfold id in *; [ring|].
    rewrite <-Qcplus_assoc, IH. ring.
Qed.

Lemma ledger_row_cost now row bk sp st' :
  ledger_row now row (bk, sp) = Ok st' →
  qsum (map (λ p, b_subtotal (hb_bucket p.2)) st'.1) =
    (qsum (map (λ p, b_subtotal (hb_bucket p.2)) bk) + row_cost now row)%Qc.
Proof.
  unfold ledger_row, spend_total. set (e := default now (iv_ended row)).
  set (b := default (mkHostBucket (mkBucket 0 0) []) (assoc (iv_kind row) bk)).
  cbn [for_each bind u_qty u_rate u_started u_ended required]. intros [= <-]. cbn [fst].
  set (v := mkHostBucket (mkBucket _ _) _).
  pose proof (qsum_assoc_set (λ b, b_subtotal (hb_bucket b)) (iv_kind row) v _ bk
    (eq_refl : b_subtotal (hb_bucket (mkHostBucket (mkBucket 0 0) [])) = 0%Qc)) as H.
  fold b in H. cbn beta in H. apply (f_equal (λ x, x - b_subtotal (hb_bucket b))%Qc) in H.
  assert (E : ∀ a b : amount, (a + b - b)%Qc = a) by (intros; ring). rewrite E in H. rewrite H.
  unfold v. cbn [hb_bucket b_subtotal]. unfold row_cost, interval_cost. fold e. ring.
Qed.

Lemma ledger_rows_cost now rows st st' :
  for_each rows st (ledger_row now) = Ok st' →
  qsum (map (λ p, b_subtotal (hb_bucket p.2)) st'.1) =
    (qsum (map (λ p, b_subtotal (hb_bucket p.2)) st.1) + qsum (map (row_cost now) rows))%Qc.
Proof.
  revert st. induction rows as [|r rows IH]; intros st; cbn [for_each map].
  { intros [= ->]. cbn [qsum foldr]. ring. }
  intros (st1 & H1 & H2)%bind_Ok. apply IH in H2. destruct st as [bk sp]. apply ledger_row_cost in H1.
  rewrite H2, H1. cbn [fst]. change (qsum (?x :: ?l)) with (x + qsum l)%Qc. ring.
Qed.

Lemma row_cost_close now pid r :
  row_cost now (if is_open pid r then close_interval r now else r) = row_cost now r.
Proof.
  destruct (is_open pid r) eqn:E; [|done]. unfold is_open in E.
  apply andb_true_iff in E as [_ E%negb_true_iff%bool_decide_eq_false]. unfold row_cost. cbn.
  destruct (iv_ended r); [by destruct E|done].
Qed.

(** The rows of a project after its open rows are closed. *)
Lemma project_rows_close db pid now :
  project_rows (with_intervals db (map (λ r, if is_open pid r then close_interval r now else r) (lg_intervals db))) pid =
  map (λ r, if is_open pid r then close_interval r now else r) (project_rows db pid).
Proof.
  unfold project_rows. cbn [lg_intervals with_intervals]. induction (lg_intervals db) as [|r l IH]; [done|].
  cbn [map List.filter]. destruct (is_open pid r) eqn:E.
  - cbn. destruct (String.eqb (iv_project r) pid) eqn:Ep; [cbn [map]; by rewrite E, IH|done].
  - destruct (String.eqb (iv_project r) pid) eqn:Ep; [cbn [map]; by rewrite E, IH|done].
Qed.

(** What an invoice holds, and the rows left behind. *)
Lemma freeze_invoice_inv store set_iter type_rates fallback ratio enabled db p now snap inv db' es :
  freeze_invoice store set_iter type_rates fallback ratio enabled db p now snap = Ok (inv, db', es) →
  let rows := project_rows db' (mp_id p) in
  ∃ spend db1, reconcile_project store set_iter type_rates fallback ratio enabled db p now snap = Ok (spend, db1, es) ∧
    in_total inv = store (qsum (map (λ l, ln_subtotal (il_line l)) (in_lines inv))) ∧
    qsum (map (λ l, ln_subtotal (il_line l)) (in_lines inv)) = qsum (map (row_cost now) rows) ∧
    qsum (map (row_cost now) rows) = qsum (map (row_cost now) (project_rows db1 (mp_id p))) ∧
    (∀ r, r ∈ rows → is_Some (iv_ended r)) ∧
    contribute_intervals_to_months store (lg_statements db1) p rows now = Ok (lg_statements db') ∧
    lg_invoices db' = lg_invoices db1 ++ [inv] ∧
    in_project inv = mp_id p ∧ in_owner inv = mp_owner p ∧ in_period_end inv = now.
Proof.
  unfold freeze_invoice. intros ([[spend db1] effects] & Hr & H)%bind_Ok.
  apply bind_Ok in H as ([by_kind spans] & Hl & H). apply bind_Ok in H as (sts & Hc & H).
  injection H as Hinv Hdb <-. rewrite project_rows_close in Hl, Hc. exists spend, db1.
  set (rows := project_rows db' (mp_id p)).
  assert (Hrows : rows = map (λ r, if is_open (mp_id p) r then close_interval r now else r)
    (project_rows db1 (mp_id p))) by (unfold rows; rewrite <-Hdb, <-project_rows_close; done).
  clearbody rows. subst inv db'.
  cbn [lg_intervals lg_statements lg_invoices with_intervals in_total in_lines in_project in_owner in_period_end] in *.
  subst rows. split_and!; try done.
  - apply ledger_rows_cost in Hl. cbn [fst] in Hl. rewrite map_map. cbn [il_line invoice_line_of ln_subtotal line_of].
    etransitivity; [|etransitivity; [exact Hl|cbn [map qsum foldr]; ring]]. done.
  - rewrite map_map. f_equal. apply map_ext. intros r. apply row_cost_close.
  - intros r (r0 & -> & [_ Hp]%list_elem_of_In%filter_In)%list_elem_of_fmap.
    destruct (is_open (mp_id p) r0) eqn:E; [by eexists|]. unfold is_open in E. rewrite Hp in E. cbn in E.
    by apply negb_false_iff, bool_decide_eq_true in E.
Qed.

(** An invoice settles a project: afterwards no interval of it is open, the invoice's total is
    the rounded sum of its lines, the lines add up to the spend of the project, and when
    metering is enabled that is the spend the reconciliation had just shown. *)
Theorem freeze_invoice_settles store set_iter type_rates fallback ratio enabled db p now snap inv db' es :
  freeze_invoice store set_iter type_rates fallback ratio enabled db p now snap = Ok (inv, db', es) →
  (∀ r, r ∈ lg_intervals db' → is_open (mp_id p) r = false) ∧
  live_spend_total db' (mp_id p) now = Ok (qsum (map (λ l, ln_subtotal (il_line l)) (in_lines inv))) ∧
  in_total inv = store (qsum (map (λ l, ln_subtotal (il_line l)) (in_lines inv))) ∧
  (enabled = true → ∃ spend db1,
     reconcile_project store set_iter type_rates fallback ratio enabled db p now snap = Ok (spend, db1, es) ∧
     in_total inv = store spend).
Proof.
  intros (spend & db1 & Hr & Ht & Hl & Hs & Hend & _)%freeze_invoice_inv. split_and!.
  - intros r Hr'. destruct (is_open (mp_id p) r) eqn:E; [|done].
    rewrite not_open_ended in E; [done|]. apply Hend, list_elem_of_In, filter_In.
    split; [by apply list_elem_of_In|]. unfold is_open in E. by apply andb_true_iff in E as [-> _].
  - unfold live_spend_total. by rewrite spend_total_rows, Hl.
  - done.
  - intros He. exists spend, db1. split; [done|]. rewrite Ht, Hl, Hs. f_equal.
    rewrite He in Hr. unfold reconcile_project in Hr. cbn [negb] in Hr. unfold live_spend_total in Hr.
    destruct snap as [snap|].
    + apply bind_Ok in Hr as (ivs & _ & Hr). rewrite spend_total_rows in Hr. cbn [bind] in Hr.
      destruct (apply_budget _ _ _) as [p' effects]. injection Hr as <- <- _. done.
    + rewrite spend_total_rows in Hr. cbn [bind] in Hr. injection Hr as <- <- _. done.
Qed.

(** ** An invoice is split over the months *)

Lemma find_update_first {A} (p q : A → bool) f l :
  (∀ x, p x = true → q x = false ∧ q (f x) = false) → List.find q (update_first p f l) = List.find q l.
Proof.
  intros H. induction l as [|x l IH]; [done|]. cbn. destruct (p x) eqn:E.
  - destruct (H x E) as [H1 H2]. cbn. by rewrite H1, H2.
  - cbn. by rewrite IH.
Qed.

Lemma find_update_same {A} (p : A → bool) f l x :
  List.find p l = Some x → p (f x) = true → List.find p (update_first p f l) = Some (f x).
Proof.
  intros Hf Hp. induction l as [|y l IH]; [done|]. cbn in *. destruct (p y) eqn:E.
  - injection Hf as ->. cbn. by rewrite Hp.
  - cbn. rewrite E. by apply IH.
Qed.

(** What a statement bills a project. *)
Definition billed_in (pid : string) (s : statement) : amount :=
  lines_total (List.filter (λ l, String.eqb (pl_project l) pid) (st_lines s)).

(** What the statement of an owner and month bills a project. *)
Definition billed (sts : list statement) (owner : option string) (p0 : Z) (pid : string) : amount :=
  match List.find (st_is owner p0) sts with Some s => billed_in pid s | None => 0%Qc end.

Lemma lines_total_perm l l' : l ≡ₚ l' → lines_total l = lines_total l'.
Proof. intros H. unfold lines_total. by rewrite H. Qed.

Lemma billed_set_lines store pid name subtotal by_kind s :
  qsum (map ln_subtotal by_kind) = subtotal →
  billed_in pid (set_project_month_lines store pid name subtotal by_kind s) = subtotal.
Proof.
  intros Hs. unfold billed_in. cbn [st_lines set_project_month_lines].
  set (rest := List.filter (λ l, negb _) (st_lines s)).
  assert (Hrest : List.filter (λ l, String.eqb (pl_project l) pid) rest = []).
  { unfold rest. rewrite <-filter_andb. induction (st_lines s) as [|l ls IH]; [done|].
    cbn. destruct (String.eqb (pl_project l) pid); exact IH. }
  assert (Hperm : ∀ a b : list project_line, a ≡ₚ b → lines_total (List.filter (λ l, String.eqb (pl_project l) pid) a) =
    lines_total (List.filter (λ l, String.eqb (pl_project l) pid) b)).
  { intros a b Hab. apply lines_total_perm. clear -Hab. induction Hab; cbn; repeat case_match; try done; eauto using Permutation. }
  rewrite (Hperm _ _ (sort_by_perm line_leb _)).
  destruct (qlt 0 subtotal || _) eqn:E.
  - rewrite List.filter_app, Hrest. cbn. rewrite String.eqb_refl. unfold lines_total. cbn. ring.
  - rewrite Hrest. apply orb_false_iff in E as [_ E%negb_false_iff%bool_decide_eq_true].
    apply length_zero_iff_nil in E. subst by_kind. cbn in Hs. by rewrite <-Hs.
Qed.

Section Split.
Context (store : amount → amount) (p : mproject) (payload : list usage) (now : Z).
Notation owner := (mp_owner p).

(** No statement of the owner for that month is final. *)
Definition month_open (sts : list statement) (p0 : Z) : Prop :=
  ∀ s, List.find (st_is owner p0) sts = Some s → st_final s = false.

Lemma find_get_or_create sts year month p0 p1 s sts' :
  month_bounds year month = Ok (p0, p1) →
  get_or_create_statement store sts owner year month = Ok (s, sts') →
  (month_open sts p0 → st_final s = false) ∧ List.find (st_is owner p0) sts' = Some s ∧
  ∀ q0, q0 ≠ p0 → List.find (st_is owner q0) sts' = List.find (st_is owner q0) sts.
Proof.
  intros Hb Hg. apply (get_or_create_spec store) in Hg as Hspec.
  destruct Hspec as (p0' & p1' & Hb' & Hf & _). rewrite Hb in Hb'. injection Hb' as <- <-.
  unfold get_or_create_statement in Hg. rewrite Hb in Hg. cbn [bind] in Hg.
  destruct (List.find (st_is owner p0) sts) as [s0|] eqn:E; injection Hg as <- <-.
  - split_and!; [intros H; by apply H|done|done].
  - split_and!; [done|done|]. intros q0 Hq. clear -Hq. induction sts as [|x l IH]; cbn.
    + unfold st_is. cbn. rewrite (proj2 (Z.eqb_neq _ _)) by congruence. by rewrite andb_false_r.
    + by rewrite IH.
Qed.

Lemma contribute_month_billed ym p0 p1 sts sts' :
  month_bounds ym.1 ym.2 = Ok (p0, p1) → month_open sts p0 →
  contribute_month store p payload now ym sts = Ok sts' →
  billed sts' owner p0 (mp_id p) = (period_usage payload p0 p1 now).1 ∧
  ∀ q0, q0 ≠ p0 → List.find (st_is owner q0) sts' = List.find (st_is owner q0) sts.
Proof.
  intros Hb Hopen. unfold contribute_month. rewrite Hb. cbn [bind]. intros ([s sts1] & Hg & H)%bind_Ok.
  destruct (find_get_or_create _ _ _ _ _ _ _ Hb Hg) as (Hfin & Hf & Hoth). rewrite Hfin in H by done.
  destruct (period_usage_total payload p0 p1 now) as [_ Hsum].
  destruct (period_usage payload p0 p1 now) as [subtotal by_kind]. cbn [fst snd] in *. injection H as <-. split.
  - unfold billed. rewrite (find_update_same _ _ _ s); [|done|].
    + by apply billed_set_lines.
    + apply find_some in Hf as [_ Hs]. exact Hs.
  - intros q0 Hq. rewrite <-Hoth by done. apply find_update_first. intros x Hx%st_is_key.
    assert (H : ∀ y, st_key y = (owner, p0) → st_is owner q0 y = false).
    { intros y Hy. apply not_true_iff_false. rewrite st_is_key, Hy. congruence. }
    split; by apply H.
Qed.

(** The loop over the months. *)
Lemma contribute_months_billed ks sts sts' :
  (∀ k, k ∈ ks → 12 * MINYEAR ≤ k ∧ k + 1 < 12 * (MAXYEAR + 1)) → NoDup ks →
  (∀ k, k ∈ ks → month_open sts (month_start k)) →
  for_each (map month_at ks) sts (contribute_month store p payload now) = Ok sts' →
  (∀ k, k ∈ ks → billed sts' owner (month_start k) (mp_id p) =
     (period_usage payload (month_start k) (month_start (k + 1)) now).1) ∧
  ∀ k, k ∉ ks → List.find (st_is owner (month_start k)) sts' = List.find (st_is owner (month_start k)) sts.
Proof.
  intros Hr Hn. revert sts. induction ks as [|k ks IH]; intros sts Hopen; cbn [map for_each].
  { intros [= ->]. split; [set_solver|done]. }
  apply NoDup_cons in Hn as [Hk Hn]. intros (sts1 & H1 & H2)%bind_Ok.
  destruct (Hr k) as [Hk1 Hk2]; [by left|].
  apply (contribute_month_billed _ (month_start k) (month_start (k + 1))) in H1 as [Hbill Hoth];
    [|by apply month_bounds_at|apply Hopen; by left].
  assert (Hne : ∀ k', k' ≠ k → month_start k' ≠ month_start k).
  { intros k' Hk' He. destruct (Z.lt_total k' k) as [Hlt|[|Hlt]]; [|done|];
      apply month_start_lt in Hlt; lia. }
  destruct (IH ltac:(set_solver) Hn) with (sts := sts1) as [Hb Ho]; [|done|].
  { intros k' Hk' s. rewrite Hoth by (apply Hne; set_solver). apply Hopen. by right. }
  split.
  - intros k' [->|Hk']%elem_of_cons; [|by apply Hb]. unfold billed. rewrite Ho by done. exact Hbill.
  - intros k' [Hk' Hks]%not_elem_of_cons. rewrite Ho by done. by apply Hoth, Hne.
Qed.
End Split.

Lemma spend_total_payload rows now :
  spend_total (interval_payload rows now) now = Ok (qsum (map (row_cost now) rows)).
Proof.
  unfold interval_payload.
  replace (map _ rows) with (map usage_of (map (λ r, close_interval r (default now (iv_ended r))) rows))
    by (by rewrite map_map).
  rewrite spend_total_rows, map_map. do 2 f_equal.
Qed.

Lemma zmin_of_le x l : zmin_of x l ≤ x ∧ ∀ y, y ∈ l → zmin_of x l ≤ y.
Proof.
  unfold zmin_of. revert x. induction l as [|z l IH]; intros x; cbn; [split; [done|set_solver]|].
  destruct (IH (Z.min x z)) as [H1 H2]. split; [lia|]. intros y [->|Hy]%elem_of_cons; [lia|auto].
Qed.

(** What a project is billed for its rows over the months of a span. *)
Definition billed_over (sts : list statement) (p : mproject) (s now : Z) : amount :=
  qsum (map (λ k, billed sts (mp_owner p) (month_start k) (mp_id p))
    (seqZ (month_of s) (month_of now - month_of s + 1))).

Lemma contribute_split store sts p rows first now sts' :
  contribute_intervals_to_months store sts p rows now = Ok sts' →
  has_owner p = true → rows ≠ [] →
  first_instant MINYEAR 1 ≤ first →
  (∀ r, r ∈ rows → first ≤ iv_started r ∧ default now (iv_ended r) ≤ now) →
  (∀ s, s ∈ sts → st_owner s = mp_owner p → month_floor first ≤ st_period_start s → st_final s = false) →
  ∃ earliest, (∀ r, r ∈ rows → earliest ≤ iv_started r) ∧
    billed_over sts' p earliest now = qsum (map (row_cost now) rows).
Proof.
  intros Hc Ho Hne Hfirst Hrows Hopen. destruct rows as [|r0 rows0]; [done|]. unfold contribute_intervals_to_months in Hc.
  rewrite Ho in Hc. cbn [negb] in Hc. set (rows := r0 :: rows0) in *.
  set (earliest := zmin_of _ _) in Hc. apply bind_Ok in Hc as (ms & Hm & Hc). exists earliest.
  assert (Hle : ∀ r, r ∈ rows → earliest ≤ iv_started r).
  { destruct (zmin_of_le (iv_started r0) (map iv_started rows0)) as [H1 H2].
    intros r [->|Hr]%elem_of_cons; [done|]. by apply H2, list_elem_of_fmap_2. }
  assert (Hearly : first ≤ earliest).
  { assert (H : earliest ∈ map iv_started rows).
    { unfold earliest, rows. cbn [map]. clear. unfold zmin_of. generalize (map iv_started rows0) as l, (iv_started r0) as x.
      induction l as [|y l IH]; intros x; cbn; [left|].
      destruct (Z.min_dec x y) as [->| ->]; [|right; apply IH].
      specialize (IH x). set_solver. }
    apply list_elem_of_fmap in H as (r & -> & Hr). by apply Hrows. }
  split; [done|]. rewrite months_spanned_spec in Hm by lia.
  destruct (_ && _) eqn:E; [done|]. injection Hm as <-. unfold billed_over.
  set (ks := seqZ _ _) in *.
  assert (Hks : ∀ k, k ∈ ks → 12 * MINYEAR ≤ k ∧ k + 1 < 12 * (MAXYEAR + 1)).
  { intros k Hk%elem_of_seqZ. assert (Hmin : first_instant MINYEAR 1 ≤ earliest) by lia.
    change (first_instant MINYEAR 1) with (month_start (12 * MINYEAR)) in Hmin.
    apply month_start_le_iff in Hmin. split; [lia|].
    change (first_instant MAXYEAR 12) with (month_start LAST_MONTH) in E.
    destruct (month_start LAST_MONTH <=? now) eqn:El; bool_lia.
    pose proof (proj2 (month_start_le_iff k now)). pose proof (month_start_mono LAST_MONTH k).
    unfold LAST_MONTH, month_no, MAXYEAR in *; cbn [fst snd] in *. lia. }
  destruct (contribute_months_billed store p (interval_payload rows now) now ks sts sts' Hks) as [Hb _];
    [apply NoDup_seqZ| |exact Hc|].
  { intros k Hk s [Hin Hs%st_is_key]%find_some. unfold st_key in Hs.
    injection Hs as Hs1 Hs2. apply Hopen; [by apply list_elem_of_In|done|].
    rewrite month_floor_start, Hs2. apply elem_of_seqZ in Hk.
    assert (month_of first ≤ month_of earliest).
    { apply month_start_le_iff. pose proof (month_of_bounds first). lia. }
    apply month_start_mono. lia. }
  rewrite (map_ext_in _ (λ k, (period_usage (interval_payload rows now) (month_start k) (month_start (k + 1)) now).1))
    by (intros k Hk%list_elem_of_In; by apply Hb).
  apply monthly_shares_sum; [|apply spend_total_payload].
  intros row r (r' & -> & Hr')%list_elem_of_fmap [= <-]. cbn [u_ended from_option]. unfold id.
  split; [by apply Hle|by apply Hrows].
Qed.

(** C21: What a project is invoiced is what its owner's monthly statements bill: when a project is
    frozen whose owner has no final statement for the months it ran in, its lines in the
    statements from the month of its first interval to the present one add up to the
    amount its invoice rounds, nothing lost or counted twice at a month boundary. *)
Theorem invoice_split_over_months store set_iter type_rates fallback ratio enabled db p now snap inv db' es first :
  freeze_invoice store set_iter type_rates fallback ratio enabled db p now snap = Ok (inv, db', es) →
  has_owner p = true → project_rows db' (mp_id p) ≠ [] →
  first_instant MINYEAR 1 ≤ first →
  (∀ r, r ∈ project_rows db' (mp_id p) → first ≤ iv_started r ∧ default now (iv_ended r) ≤ now) →
  (∀ s, s ∈ lg_statements db → st_owner s = mp_owner p → month_floor first ≤ st_period_start s →
     st_final s = false) →
  ∃ earliest total,
    (∀ r, r ∈ project_rows db' (mp_id p) → earliest ≤ iv_started r) ∧
    in_total inv = store total ∧ billed_over (lg_statements db') p earliest now = total.
Proof.
  intros (spend & db1 & Hr & Ht & Hl & Hs & Hend & Hc & _)%freeze_invoice_inv Ho Hne Hfirst Hrows Hopen.
  assert (Hst : lg_statements db1 = lg_statements db).
  { unfold reconcile_project in Hr. destruct enabled; cbn [negb] in Hr; [|by injection Hr as _ <- _].
    destruct snap as [snap|].
    - apply bind_Ok in Hr as (ivs & _ & Hr). apply bind_Ok in Hr as (sp & _ & Hr).
      destruct (apply_budget _ _ _) as [p' effects]. by injection Hr as _ <- _.
    - apply bind_Ok in Hr as (sp & _ & Hr). by injection Hr as _ <- _. }
  rewrite Hst in Hc.
  destruct (contribute_split _ _ _ _ first _ _ Hc Ho Hne Hfirst Hrows Hopen) as (earliest & He & Hb).
  exists earliest, (qsum (map (row_cost now) (project_rows db' (mp_id p)))). split_and!; [done| |done].
  by rewrite Ht, Hl.
Qed.

(** ** A worked example: a project that ran from January to March *)

Definition at_day (year month day : Z) : Z := first_instant year month + (day - 1) * DAY.

Definition sample_project : mproject :=
  mkMProject "p1" "lab" (Some "u1") None "stopped" (Some (amount_of 500)) false false None.

Definition sample_ledger : ledger :=
  mkLedger [sample_project]
    [mkInterval "p1" "vcpu" "vm1" (amount_of 4) (tenth_pow 2) (VStr "h1") "gcp" (at_day 2024 1 20)
       (Some (at_day 2024 2 10));
     mkInterval "p1" "disk" "d1" (amount_of 100) (tenth_pow 4) (VStr "h1") "gcp" (at_day 2024 1 20) None;
     mkInterval "p2" "disk" "d2" (amount_of 10) (tenth_pow 4) VNone "gcp" (at_day 2024 1 1) None]
    [mkStatement (Some "u1") (first_instant 2023 12) (first_instant 2024 1) 0 [] true None] [].

Definition sample_freeze (now : Z) : res (invoice * ledger * list effect) :=
  freeze_invoice (λ q, q) (λ l, l) [] sample_rates (amount_of 4 / amount_of 5)%Qc true sample_ledger
    sample_project now None.

Definition sample_frozen : invoice * ledger * list effect :=
  match sample_freeze (at_day 2024 3 5) with
  | Ok r => r
  | Raise _ => (mkInvoice "" "" None 0 [] 0 0, sample_ledger, [])
  end.

Lemma sample_freeze_ok : sample_freeze (at_day 2024 3 5) = Ok sample_frozen.
Proof. unfold sample_frozen. by destruct (sample_freeze (at_day 2024 3 5)) as [r|e] eqn:E; [|vm_compute in E]. Qed.

Lemma freeze_sample : freeze_invoice (λ q, q) (λ l, l) [] sample_rates (amount_of 4 / amount_of 5)%Qc true
  sample_ledger sample_project (at_day 2024 3 5) None = Ok (sample_frozen.1.1, sample_frozen.1.2, sample_frozen.2).
Proof. rewrite <-!surjective_pairing. exact sample_freeze_ok. Qed.

(** Rows of the sample, as facts a computation decides. *)
Lemma sample_rows_between r :
  r ∈ project_rows sample_frozen.1.2 "p1" →
  at_day 2024 1 20 ≤ iv_started r ∧ default (at_day 2024 3 5) (iv_ended r) ≤ at_day 2024 3 5.
Proof.
  assert (H : Forall (λ x, at_day 2024 1 20 ≤ x.1 ∧ x.2 ≤ at_day 2024 3 5)
    (map (λ r, (iv_started r, default (at_day 2024 3 5) (iv_ended r))) (project_rows sample_frozen.1.2 "p1"))).
  { apply (bool_decide_unpack _). vm_compute. exact I. }
  rewrite Forall_map in H. rewrite Forall_forall in H. apply H.
Qed.

Lemma sample_ledger_ok : ledger_ok (λ q, q) sample_ledger.
Proof.
  split.
  - intros pid. unfold sample_ledger, is_open. cbn [lg_intervals].
    cbn -[String.eqb]. destruct (String.eqb "p1" pid), (String.eqb "p2" pid); cbn;
      apply (bool_decide_unpack _); vm_compute; exact I.
  - split; [|apply NoDup_singleton]. repeat constructor.
Qed.

Lemma freeze_invoice_settles_witness :
  live_spend_total sample_frozen.1.2 "p1" (at_day 2024 3 5) = Ok (in_total sample_frozen.1.1) ∧
  in_total sample_frozen.1.1 = (amount_of 3096 / amount_of 100)%Qc.
Proof.
  split; [|apply (bool_decide_unpack _); vm_compute; exact I].
  destruct (freeze_invoice_settles _ _ _ _ _ _ _ _ _ _ _ _ _ freeze_sample) as (_ & H & H' & _).
  rewrite H'. exact H.
Defined.

Lemma invoice_split_over_months_witness :
  ∃ earliest, billed_over (lg_statements sample_frozen.1.2) sample_project earliest (at_day 2024 3 5) =
    in_total sample_frozen.1.1.
Proof.
  destruct (invoice_split_over_months _ _ _ _ _ _ _ _ _ _ _ _ _ (at_day 2024 1 20) freeze_sample)
    as (earliest & total & _ & H1 & H2).
  - reflexivity.
  - intros H. apply (f_equal length) in H. by vm_compute in H.
  - by vm_compute.
  - exact sample_rows_between.
  - intros s [->|Hs]%elem_of_cons; [|by apply not_elem_of_nil in Hs]. intros _ H. by vm_compute in H.
  - exists earliest. rewrite H2, H1. reflexivity.
Defined.

Lemma ledger_invariant_witness : ledger_ok (λ q, q) sample_frozen.1.2.
Proof.
  apply (ledger_invariant (λ q, q) (λ l, l) (λ l, l) true sample_ledger); [|exact sample_ledger_ok].
  eapply rtc_once, StepFreeze, freeze_sample.
Defined.

Lemma billing_history_immutable_witness :
  let later := maybe_finalize_previous_month (λ q, q) (λ l, l) true sample_frozen.1.2 (at_day 2024 4 2) in
  mkStatement (Some "u1") (first_instant 2023 12) (first_instant 2024 1) 0 [] true None ∈ lg_statements later ∧
  mkInterval "p1" "vcpu" "vm1" (amount_of 4) (tenth_pow 2) (VStr "h1") "gcp" (at_day 2024 1 20)
    (Some (at_day 2024 2 10)) ∈ lg_intervals later.
Proof.
  cbv zeta.
  destruct (billing_history_immutable (λ q, q) (λ l, l) (λ l, l) true sample_ledger
    (maybe_finalize_previous_month (λ q, q) (λ l, l) true sample_frozen.1.2 (at_day 2024 4 2)))
    as (Hr & Hs & _); [|exact sample_ledger_ok|].
  - eapply rtc_l; [eapply StepFreeze, freeze_sample|]. apply rtc_once, StepFinalize.
  - split; [apply Hs; [left|reflexivity]|apply Hr; [left|by eexists]].
Defined.
