(* ===== verification/ProjectTimer.v ===== *)
(** * Project timers: [services/project_timer.py]

    One tick of the timer thread: projects whose auto-stop or lifetime has expired, warnings
    before that, and projects whose background job was lost.  The tick commits after each
    project; an exception ends the tick and keeps what was committed.  Redis, the queue and
    the synchronous stop of [deploy_service] are arguments; [enqueue_job], [get_job_info] and
    [_clear_project_job_ref] catch their own exceptions. *)
From stdpp Require Import prelude strings.
From S2P Require Import Prelude PyStr PyVal PyLemmas.

Open Scope list_scope.

(** ** State *)

(** The columns of [Project] the timer reads and writes; instants in microseconds. *)
Record tproject := mkTProject {
  tp_id : string;
  tp_state : string;
  tp_host : option string;
  tp_stop_started : option Z;
  tp_stop_expires : option Z;
  tp_stop_warned : bool;
  tp_auto_stopped : bool;
  tp_lifetime : option Z;
  tp_delete_warned : bool;
  tp_error : option string;
  tp_updated : Z
}.

Inductive timer := AutoStop | AutoDelete.

(** Messages, jobs and calls a tick makes. *)
Inductive timer_effect :=
| TimerFired (id : string) (t : timer)
| TimerWarning (id : string) (t : timer) (expires_at minutes_remaining : Z)
| ProjectDeleted (id : string)
| StateChanged (id error : string)
| EnqueueStop (id : string)
| EnqueueDestroy (id : string)
| ReleaseEips (id : string)
| ClearJobRef (id : string) (job : option string).

(** The lists [_check_project_timers] returns. *)
Record timer_result := mkResult {
  r_stop : list string;
  r_delete : list string;
  r_stop_warned : list string;
  r_delete_warned : list string;
  r_recovered : list string
}.

Record tick := mkTick { tk_db : list tproject; tk_result : timer_result; tk_effects : list timer_effect }.

(** A piece of the tick: the state afterwards, and whether it went on without an exception. *)
Definition act : Type := tick → tick * bool.
Definition skip : act := λ t, (t, true).
Definition then_ (a b : act) : act := λ t, let '(t, ok) := a t in if ok then b t else (t, false).

(** [for p in rows: f(p)], the rows by their ids. *)
Fixpoint each (ids : list string) (f : string → act) : act :=
  match ids with
  | [] => skip
  | i :: ids' => then_ (f i) (each ids' f)
  end.

Definition emit (e : timer_effect) : act :=
  λ t, (mkTick (tk_db t) (tk_result t) (tk_effects t ++ [e]), true).
Definition note (f : timer_result → timer_result) : act :=
  λ t, (mkTick (tk_db t) (f (tk_result t)) (tk_effects t), true).
(** Write the columns of a row and commit. *)
Definition save (id : string) (f : tproject → tproject) : act :=
  λ t, (mkTick (map (λ p, if String.eqb (tp_id p) id then f p else p) (tk_db t)) (tk_result t) (tk_effects t), true).
Definition remove (id : string) : act :=
  λ t, (mkTick (List.filter (λ p, negb (String.eqb (tp_id p) id)) (tk_db t)) (tk_result t) (tk_effects t), true).

Definition row (id : string) (t : tick) : option tproject :=
  List.find (λ p, String.eqb (tp_id p) id) (tk_db t).
(** [f] on the current row of a project. *)
Definition on_row (id : string) (f : tproject → act) : act :=
  λ t, match row id t with Some p => f p t | None => (t, true) end.
(** The ids of the rows a query finds, when it is made. *)
Definition query (q : tproject → bool) (f : list string → act) : act :=
  λ t, f (map tp_id (List.filter q (tk_db t))) t.

Definition note_stop id r := mkResult (r_stop r ++ [id]) (r_delete r) (r_stop_warned r) (r_delete_warned r) (r_recovered r).
Definition note_delete id r := mkResult (r_stop r) (r_delete r ++ [id]) (r_stop_warned r) (r_delete_warned r) (r_recovered r).
Definition note_stop_warned id r := mkResult (r_stop r) (r_delete r) (r_stop_warned r ++ [id]) (r_delete_warned r) (r_recovered r).
Definition note_delete_warned id r := mkResult (r_stop r) (r_delete r) (r_stop_warned r) (r_delete_warned r ++ [id]) (r_recovered r).
Definition note_recovered id r := mkResult (r_stop r) (r_delete r) (r_stop_warned r) (r_delete_warned r) (r_recovered r ++ [id]).

(** ** Arithmetic *)

Definition MINUTE : Z := 60 * 1000000.
(** [project_timer._WARNING_MINUTES:9-9] *)
Definition WARNING_MINUTES : Z := 5.

(** [round(x / y)] for [y > 0]: to the nearest, halves to even. *)
Definition round_div (x y : Z) : Z :=
  let q := x / y in
  let r := 2 * (x mod y) in
  if r <? y then q else if y <? r then q + 1 else if Z.even q then q else q + 1.

(** [project_timer._TRANSITIONAL_STATES:10-12] *)
Definition TRANSITIONAL_STATES : list string :=
  ["deploying"; "stopping"; "starting"; "reconfiguring"; "migrating"].

Definition in_states (p : tproject) (l : list string) : bool := bool_decide (tp_state p ∈ l).
(** A comparison with a column that may be null. *)
Definition at_most (o : option Z) (t : Z) : bool := match o with Some x => x <=? t | None => false end.
Definition after (o : option Z) (t : Z) : bool := match o with Some x => t <? x | None => false end.

Section Timer.
(** The clock of the database, for [updated_at]. *)
Context (stamp : Z).
(** [stop_project_async], called in the tick: the state it leaves, or an exception. *)
Context (stop_sync : tproject → option string).

Definition set_state (s : string) (p : tproject) : tproject :=
  mkTProject (tp_id p) s (tp_host p) (tp_stop_started p) (tp_stop_expires p) (tp_stop_warned p)
    (tp_auto_stopped p) (tp_lifetime p) (tp_delete_warned p) (tp_error p) stamp.

(** [project_timer._process_expired_timers:33-37] the columns of a stopped project. *)
Definition stop_fields (p : tproject) : tproject :=
  mkTProject (tp_id p) "stopping" (tp_host p) None None false true (tp_lifetime p)
    (tp_delete_warned p) (tp_error p) stamp.

(** [project_timer._delete_project] *)
Definition delete_project (id : string) : act :=
  then_ (on_row id (λ p,
           if String.eqb (tp_state p) "active" then
             then_ (save id (set_state "stopping"))
               (on_row id (λ p, match stop_sync p with
                                | Some s => save id (set_state s)
                                | None => λ t, (t, false)
                                end))
           else skip))
  (then_ (emit (ProjectDeleted id))
  (then_ (on_row id (λ p,
            if bool_decide (is_Some (tp_host p)) && negb (bool_decide (tp_host p = Some "")) &&
               in_states p ["stopped"; "error"]
            then emit (EnqueueDestroy id) else skip))
  (then_ (emit (ReleaseEips id)) (remove id)))).

(** [project_timer._process_expired_timers:20-40] the auto-stop timers. *)
Definition expired_stops (now : Z) (dry_run : bool) : act :=
  query (λ p, at_most (tp_stop_expires p) now && String.eqb (tp_state p) "active") (λ ids,
    each ids (λ id,
      then_ (note (note_stop id))
        (if dry_run then skip
         else then_ (save id stop_fields)
                (then_ (emit (TimerFired id AutoStop)) (emit (EnqueueStop id)))))).

(** [project_timer._process_expired_timers:43-59] the lifetimes. *)
Definition expired_deletes (now : Z) (dry_run : bool) : act :=
  query (λ p, at_most (tp_lifetime p) now && in_states p ["active"; "stopped"; "error"; "draft"]) (λ ids,
    each ids (λ id, on_row id (λ p,
      if in_states p TRANSITIONAL_STATES then skip
      else
        then_ (note (note_delete id))
          (if dry_run then skip
           else then_ (emit (TimerFired id AutoDelete)) (delete_project id))))).

(** [project_timer._process_expired_timers] *)
Definition process_expired_timers (now : Z) (dry_run : bool) : act :=
  then_ (expired_stops now dry_run) (expired_deletes now dry_run).

Definition set_stop_warned (p : tproject) : tproject :=
  mkTProject (tp_id p) (tp_state p) (tp_host p) (tp_stop_started p) (tp_stop_expires p) true
    (tp_auto_stopped p) (tp_lifetime p) (tp_delete_warned p) (tp_error p) stamp.
Definition set_delete_warned (p : tproject) : tproject :=
  mkTProject (tp_id p) (tp_state p) (tp_host p) (tp_stop_started p) (tp_stop_expires p)
    (tp_stop_warned p) (tp_auto_stopped p) (tp_lifetime p) true (tp_error p) stamp.

(** One warning of a kind, with the whole minutes that remain. *)
Definition warn (id : string) (t : timer) (now : Z) (expires : tproject → option Z)
    (mark : tproject → tproject) : act :=
  on_row id (λ p,
    match expires p with
    | None => skip
    | Some e => then_ (save id mark) (emit (TimerWarning id t e (round_div (e - now) MINUTE)))
    end).

(** [project_timer._process_timer_warnings] *)
Definition process_timer_warnings (now warning_threshold : Z) (dry_run : bool) : act :=
  then_
    (query (λ p, at_most (tp_stop_expires p) warning_threshold && after (tp_stop_expires p) now &&
                 negb (tp_stop_warned p) && String.eqb (tp_state p) "active") (λ ids,
       each ids (λ id, then_ (note (note_stop_warned id))
         (if dry_run then skip else warn id AutoStop now tp_stop_expires set_stop_warned))))
    (query (λ p, at_most (tp_lifetime p) warning_threshold && after (tp_lifetime p) now &&
                 negb (tp_delete_warned p) && negb (in_states p TRANSITIONAL_STATES)) (λ ids,
       each ids (λ id, then_ (note (note_delete_warned id))
         (if dry_run then skip else warn id AutoDelete now tp_lifetime set_delete_warned)))).

(** What [get_job_info] tells: the job and its status. *)
Context (job_info : string → option (string * string)).
(** Whether there is progress of the deployment; [None] when Redis raises. *)
Context (progress : string → option bool).

(** [project_timer._mark_project_error] *)
Definition mark_project_error (p : tproject) : act :=
  let id := tp_id p in
  let message := "Background job lost while " +:+ tp_state p +:+ " — please retry" in
  then_ (note (note_recovered id))
  (then_ (match job_info id with
          | Some (String c s, _) => emit (ClearJobRef id (Some (String c s)))
          | _ => skip
          end)
  (then_ (save id (λ p, mkTProject (tp_id p) "error" (tp_host p) (tp_stop_started p) (tp_stop_expires p)
                          (tp_stop_warned p) (tp_auto_stopped p) (tp_lifetime p) (tp_delete_warned p)
                          (Some message) stamp))
    (emit (StateChanged id message)))).

(** [project_timer._started_deploy_is_zombie]; [None] when Redis raises. *)
Definition started_deploy_is_zombie (status : string) (p : tproject) : option bool :=
  if String.eqb status "started" && String.eqb (tp_state p) "deploying"
  then negb <$> progress (tp_id p) else Some false.

(** [project_timer._recover_one_stuck_project] *)
Definition recover_one_stuck_project (p : tproject) (dry_run : bool) : act :=
  let id := tp_id p in
  let finish := if dry_run then note (note_recovered id) else mark_project_error p in
  let status := match job_info id with Some (_, s) => s | None => "" end in
  if bool_decide (status ∈ ["queued"; "started"]) then
    match started_deploy_is_zombie status p with
    | None => λ t, (t, false)
    | Some true =>
        then_ (if dry_run then skip else emit (ClearJobRef id (fst <$> job_info id))) finish
    | Some false => skip
    end
  else finish.

(** [project_timer._recover_stuck_projects:204-204] the states that are recovered. *)
Definition RECOVERED_STATES : list string := ["deploying"; "starting"; "stopping"; "reconfiguring"].

(** [project_timer._recover_stuck_projects] *)
Definition recover_stuck_projects (redis_available : bool) (now : Z) (dry_run : bool) : act :=
  if negb redis_available then skip
  else
    let grace := now - 5 * MINUTE in
    query (λ p, in_states p RECOVERED_STATES && (tp_updated p <? grace)) (λ ids,
      each ids (λ id, on_row id (λ p, recover_one_stuck_project p dry_run))).

(** [project_timer._check_project_timers] *)
Definition check_project_timers (redis_available : bool) (now : Z) (dry_run : bool) (db : list tproject)
    : tick * bool :=
  then_ (process_expired_timers now dry_run)
  (then_ (process_timer_warnings now (now + WARNING_MINUTES * MINUTE) dry_run)
    (recover_stuck_projects redis_available now dry_run))
  (mkTick db (mkResult [] [] [] [] []) []).
End Timer.

(** ** Frames: what a piece of the tick leaves alone *)

Definition uniq (t : tick) : Prop := NoDup (map tp_id (tk_db t)).

(** The project an effect is about. *)
Definition subject (e : timer_effect) : string :=
  match e with
  | TimerFired i _ | TimerWarning i _ _ _ | ProjectDeleted i | StateChanged i _ | EnqueueStop i
  | EnqueueDestroy i | ReleaseEips i | ClearJobRef i _ => i
  end.

Definition effects_on (i : string) (t : tick) : list timer_effect :=
  List.filter (λ e, String.eqb (subject e) i) (tk_effects t).

(** What an observer of one project sees. *)
Definition same_view (i : string) (t t' : tick) : Prop :=
  row i t' = row i t ∧ effects_on i t' = effects_on i t.

Lemma same_view_refl i t : same_view i t t.
Proof. done. Qed.
Lemma same_view_trans i a b c : same_view i a b → same_view i b c → same_view i a c.
Proof. intros [H1 H2] [H3 H4]. split; congruence. Qed.

(** [a] only touches the projects of [S]. *)
Definition framed (S : string → Prop) (a : act) : Prop :=
  ∀ t, uniq t → uniq (a t).1 ∧ ∀ i, ¬ S i → same_view i t (a t).1.

Lemma framed_weaken (S S' : string → Prop) a : (∀ i, S i → S' i) → framed S a → framed S' a.
Proof. intros HS Ha t Hu. destruct (Ha t Hu) as [H1 H2]. split; [done|]. intros i Hi. apply H2. auto. Qed.

Lemma framed_skip S : framed S skip.
Proof. done. Qed.

Lemma framed_raise S : framed S (λ t, (t, false)).
Proof. done. Qed.

Lemma framed_then S a b : framed S a → framed S b → framed S (then_ a b).
Proof.
  intros Ha Hb t Hu. unfold then_. destruct (Ha t Hu) as [H1 H2]. destruct (a t) as [t1 ok]. cbn [fst] in *.
  destruct ok; [|done]. destruct (Hb t1 H1) as [H3 H4]. split; [done|]. intros i Hi.
  eapply same_view_trans; eauto.
Qed.

Lemma framed_on_row S i f : (∀ p, tp_id p = i → framed S (f p)) → framed S (on_row i f).
Proof.
  intros Hf t Hu. unfold on_row. destruct (row i t) as [p|] eqn:E; [|done]. apply Hf; [|done].
  by apply find_some in E as [_ E%String.eqb_eq].
Qed.

Lemma framed_note S f : framed S (note f).
Proof. done. Qed.

Lemma framed_emit e : framed (eq (subject e)) (emit e).
Proof.
  intros t Hu. split; [done|]. intros i Hi. split; [done|]. unfold effects_on. cbn [fst tk_effects emit].
  rewrite List.filter_app. cbn. rewrite (proj2 (String.eqb_neq _ _)) by done. by rewrite app_nil_r.
Qed.

Lemma row_map f id i (db : list tproject) :
  (∀ p, tp_id (f p) = tp_id p) →
  List.find (λ p, String.eqb (tp_id p) i) (map (λ p, if String.eqb (tp_id p) id then f p else p) db) =
  (if String.eqb i id then f <$> List.find (λ p, String.eqb (tp_id p) i) db
   else List.find (λ p, String.eqb (tp_id p) i) db).
Proof.
  intros Hf. induction db as [|p db IH]; cbn [map List.find]; [by destruct (String.eqb i id)|].
  destruct (String.eqb (tp_id p) id) eqn:E.
  - rewrite Hf. apply String.eqb_eq in E. rewrite E, String.eqb_sym. destruct (String.eqb i id) eqn:Ei; [done|]. exact IH.
  - destruct (String.eqb (tp_id p) i) eqn:Ei; [|exact IH].
    apply String.eqb_eq in Ei. subst i. by rewrite E.
Qed.

Lemma framed_save id f : (∀ p, tp_id (f p) = tp_id p) → framed (eq id) (save id f).
Proof.
  intros Hf t Hu. split.
  - unfold uniq in *. cbn. rewrite map_map. erewrite map_ext; [exact Hu|]. intros p. cbn. by case_match.
  - intros i Hi. split; [|done]. unfold row. cbn. rewrite row_map by done.
    by rewrite (proj2 (String.eqb_neq i id)) by congruence.
Qed.

Lemma framed_remove id : framed (eq id) (remove id).
Proof.
  intros t Hu. split; [by apply NoDup_map_filter|]. intros i Hi. split; [|done]. unfold row. cbn.
  induction (tk_db t) as [|p db IH]; [done|]. cbn. destruct (String.eqb (tp_id p) id) eqn:E; cbn.
  - rewrite IH. apply String.eqb_eq in E. by rewrite E, (proj2 (String.eqb_neq id i)).
  - by rewrite IH.
Qed.

Lemma framed_each ids f : (∀ i, i ∈ ids → framed (eq i) (f i)) → framed (λ i, i ∈ ids) (each ids f).
Proof.
  induction ids as [|i ids IH]; intros Hf; [apply framed_skip|]. cbn [each]. apply framed_then.
  - eapply framed_weaken; [|apply Hf; by left]. intros j <-. by left.
  - eapply framed_weaken; [|apply IH; intros j Hj; apply Hf; by right]. intros j Hj. by right.
Qed.

(** A loop either reaches a project of its list, in a state that looks the same to it, or an
    exception ended it before. *)
Lemma each_at ids f i t :
  NoDup ids → i ∈ ids → (∀ j, j ∈ ids → framed (eq j) (f j)) → uniq t →
  (same_view i t (each ids f t).1 ∧ (each ids f t).2 = false) ∨
  ∃ t', uniq t' ∧ same_view i t t' ∧ same_view i (f i t').1 (each ids f t).1.
Proof.
  intros Hn Hi Hf. revert t. induction ids as [|j ids IH]; intros t Hu; [by apply not_elem_of_nil in Hi|].
  apply NoDup_cons in Hn as [Hj Hn]. cbn [each]. unfold then_.
  destruct (Hf j ltac:(by left) t Hu) as [Hu1 Hv1].
  destruct (f j t) as [t1 ok] eqn:E. cbn [fst] in *.
  destruct (decide (i = j)) as [->|Hne].
  - right. exists t. split; [done|]. split; [done|]. rewrite E. cbn [fst]. destruct ok; [|done].
    apply (framed_each ids f); [|done|done]. intros k Hk. apply Hf. by right.
  - apply elem_of_cons in Hi as [|Hi]; [done|]. assert (Hv : same_view i t t1) by (by apply Hv1).
    destruct ok; [|by left].
    destruct (IH Hn Hi ltac:(intros k Hk; apply Hf; by right) t1 Hu1) as [[H1 H2]|(t' & H1 & H2 & H3)].
    + left. split; [|done]. by eapply same_view_trans.
    + right. exists t'. split; [done|]. split; [by eapply same_view_trans|done].
Qed.

(** A query's loop leaves alone the projects the query does not find. *)
Lemma query_other q i t p :
  uniq t → row i t = Some p → q p = false →
  i ∉ map tp_id (List.filter q (tk_db t)).
Proof.
  intros Hu Hr Hq (p' & He & [Hin Hp']%list_elem_of_In%filter_In)%list_elem_of_fmap.
  apply find_some in Hr as [Hin' Hi%String.eqb_eq].
  assert (p' = p) as -> by (eapply (NoDup_fmap_elem tp_id); [exact Hu|by apply list_elem_of_In..|congruence]).
  congruence.
Qed.

Lemma query_found q i t p :
  uniq t → row i t = Some p → q p = true →
  i ∈ map tp_id (List.filter q (tk_db t)) ∧ NoDup (map tp_id (List.filter q (tk_db t))).
Proof.
  intros Hu Hr Hq. apply find_some in Hr as [Hin Hi%String.eqb_eq]. split.
  - subst i. by apply list_elem_of_fmap_2, list_elem_of_In, filter_In.
  - by apply NoDup_map_filter.
Qed.

Definition phase (q : tproject → bool) (f : string → act) : act := query q (λ ids, each ids f).

Lemma phase_uniq q f t : (∀ j, framed (eq j) (f j)) → uniq t → uniq (phase q f t).1.
Proof. intros Hf Hu. by apply (framed_each _ f). Qed.

Lemma phase_skips q f i t :
  (∀ j, framed (eq j) (f j)) → uniq t → (∀ p, row i t = Some p → q p = false) →
  same_view i t (phase q f t).1.
Proof.
  intros Hf Hu Hq. unfold phase, query. apply (framed_each _ f); [done|done|].
  intros (p & He & [Hin Hp]%list_elem_of_In%filter_In)%list_elem_of_fmap.
  assert (Hr : row i t = Some p).
  { unfold row. destruct (List.find _ (tk_db t)) as [p'|] eqn:E.
    - apply find_some in E as [Hin' E%String.eqb_eq]. f_equal.
      eapply (NoDup_fmap_elem tp_id); [exact Hu|by apply list_elem_of_In..|congruence].
    - eapply find_none in E; [|exact Hin]. by rewrite He, String.eqb_refl in E. }
  apply Hq in Hr. congruence.
Qed.

Lemma phase_hits q f i t p :
  (∀ j, framed (eq j) (f j)) → uniq t → row i t = Some p → q p = true →
  (same_view i t (phase q f t).1 ∧ (phase q f t).2 = false) ∨
  ∃ t', uniq t' ∧ same_view i t t' ∧ same_view i (f i t').1 (phase q f t).1.
Proof. intros Hf Hu Hr Hq. destruct (query_found q i t p Hu Hr Hq). by apply each_at. Qed.

(** A loop whose body cannot raise does not raise. *)
Lemma phase_ok q f t : (∀ j t, (f j t).2 = true) → (phase q f t).2 = true.
Proof.
  intros Hf. unfold phase, query. generalize (map tp_id (List.filter q (tk_db t))) as ids.
  intros ids. revert t. induction ids as [|j ids IH]; intros t; [done|]. cbn [each]. unfold then_.
  specialize (Hf j t). destruct (f j t) as [t1 ok]. cbn in Hf. subst ok. apply IH.
Qed.

#[local] Hint Resolve framed_skip framed_raise framed_note : core.

Section TimerFacts.
Context (stamp : Z) (stop_sync : tproject → option string).
Context (job_info : string → option (string * string)) (progress : string → option bool).

Definition stop_body (dry_run : bool) (id : string) : act :=
  then_ (note (note_stop id))
    (if dry_run then skip
     else then_ (save id (stop_fields stamp))
            (then_ (emit (TimerFired id AutoStop)) (emit (EnqueueStop id)))).

Lemma stop_body_framed dry id : framed (eq id) (stop_body dry id).
Proof.
  unfold stop_body. apply framed_then; [done|]. destruct dry; [done|].
  apply framed_then; [by apply framed_save|]. apply framed_then; apply framed_emit.
Qed.

Lemma delete_project_framed id : framed (eq id) (delete_project stamp stop_sync id).
Proof.
  unfold delete_project. repeat apply framed_then; try apply (framed_emit); try apply framed_remove.
  - apply framed_on_row. intros p _. case_match; [|done]. apply framed_then; [by apply framed_save|].
    apply framed_on_row. intros p' _. case_match; [by apply framed_save|done].
  - apply framed_on_row. intros p _. case_match; [apply (framed_emit (EnqueueDestroy id))|done].
Qed.

Definition delete_body (dry_run : bool) (id : string) : act :=
  on_row id (λ p,
    if in_states p TRANSITIONAL_STATES then skip
    else then_ (note (note_delete id))
           (if dry_run then skip
            else then_ (emit (TimerFired id AutoDelete)) (delete_project stamp stop_sync id))).

Lemma delete_body_framed dry id : framed (eq id) (delete_body dry id).
Proof.
  apply framed_on_row. intros p _. case_match; [done|]. apply framed_then; [done|]. destruct dry; [done|].
  apply framed_then; [apply (framed_emit (TimerFired id AutoDelete))|apply delete_project_framed].
Qed.

Definition warn_body (t : timer) (now : Z) (n : string → timer_result → timer_result)
    (expires : tproject → option Z) (mark : tproject → tproject) (dry_run : bool) (id : string) : act :=
  then_ (note (n id)) (if dry_run then skip else warn id t now expires mark).

Lemma warn_body_framed t now n expires mark dry id :
  (∀ p, tp_id (mark p) = tp_id p) → framed (eq id) (warn_body t now n expires mark dry id).
Proof.
  intros Hm. apply framed_then; [done|]. destruct dry; [done|]. apply framed_on_row. intros p _.
  case_match; [|done]. apply framed_then; [by apply framed_save|]. apply (framed_emit (TimerWarning id _ _ _)).
Qed.

Definition recover_body (dry_run : bool) (id : string) : act :=
  on_row id (λ p, recover_one_stuck_project stamp job_info progress p dry_run).

Lemma mark_project_error_framed p : framed (eq (tp_id p)) (mark_project_error stamp job_info p).
Proof.
  unfold mark_project_error. apply framed_then; [done|]. apply framed_then.
  { repeat case_match; try done. apply (framed_emit (ClearJobRef (tp_id p) _)). }
  apply framed_then; [by apply framed_save|]. apply (framed_emit (StateChanged (tp_id p) _)).
Qed.

Lemma recover_body_framed dry id : framed (eq id) (recover_body dry id).
Proof.
  apply framed_on_row. intros p <-. unfold recover_one_stuck_project.
  assert (H : framed (eq (tp_id p)) (if dry then note (note_recovered (tp_id p)) else mark_project_error stamp job_info p)).
  { destruct dry; [done|]. apply mark_project_error_framed. }
  cbv zeta. destruct (bool_decide _); [|exact H].
  destruct (started_deploy_is_zombie _ _ _) as [[|]|]; [|done|done].
  apply framed_then; [|exact H]. destruct dry; [done|]. apply (framed_emit (ClearJobRef (tp_id p) _)).
Qed.

(** The tick as its five phases. *)
Definition q_stop (now : Z) (p : tproject) : bool :=
  at_most (tp_stop_expires p) now && String.eqb (tp_state p) "active".
Definition q_delete (now : Z) (p : tproject) : bool :=
  at_most (tp_lifetime p) now && in_states p ["active"; "stopped"; "error"; "draft"].
Definition q_warn_stop (now w : Z) (p : tproject) : bool :=
  at_most (tp_stop_expires p) w && after (tp_stop_expires p) now && negb (tp_stop_warned p) &&
  String.eqb (tp_state p) "active".
Definition q_warn_delete (now w : Z) (p : tproject) : bool :=
  at_most (tp_lifetime p) w && after (tp_lifetime p) now && negb (tp_delete_warned p) &&
  negb (in_states p TRANSITIONAL_STATES).
Definition q_stuck (now : Z) (p : tproject) : bool :=
  in_states p RECOVERED_STATES && (tp_updated p <? now - 5 * MINUTE).

(** The phases after the auto-stop timers. *)
Definition later_phases (redis : bool) (now : Z) (dry : bool) : act :=
  let w := now + WARNING_MINUTES * MINUTE in
  then_ (phase (q_delete now) (delete_body dry))
  (then_ (phase (q_warn_stop now w) (warn_body AutoStop now note_stop_warned tp_stop_expires (set_stop_warned stamp) dry))
  (then_ (phase (q_warn_delete now w) (warn_body AutoDelete now note_delete_warned tp_lifetime (set_delete_warned stamp) dry))
    (if redis then phase (q_stuck now) (recover_body dry) else skip))).

Lemma tick_phases redis now dry db :
  check_project_timers stamp stop_sync job_info progress redis now dry db =
  then_ (phase (q_stop now) (stop_body dry)) (later_phases redis now dry)
    (mkTick db (mkResult [] [] [] [] []) []).
Proof.
  unfold check_project_timers, process_expired_timers, process_timer_warnings, later_phases,
    recover_stuck_projects.
  change (expired_stops stamp now dry) with (phase (q_stop now) (stop_body dry)).
  change (expired_deletes stamp stop_sync now dry) with (phase (q_delete now) (delete_body dry)).
  unfold then_. destruct (phase (q_stop now) _ _) as [t1 [|]]; [|done].
  destruct (phase (q_delete now) _ t1) as [t2 [|]]; [|done].
  change (query ?q (λ ids, each ids ?f)) with (phase q f).
  destruct (phase _ _ t2) as [t3 [|]] eqn:E1; unfold q_warn_stop, warn_body, then_ in *.
  all: rewrite ?E1; try done.
  destruct (phase _ _ t3) as [t4 [|]] eqn:E2; unfold q_warn_delete in *; rewrite ?E2; try done.
  by destruct redis.
Qed.

Lemma then_view i a b t :
  same_view i t (a t).1 → same_view i (a t).1 (b (a t).1).1 → same_view i t (then_ a b t).1.
Proof.
  unfold then_. destruct (a t) as [t1 ok]. cbn [fst]. intros H1 H2. destruct ok; [|done].
  by eapply same_view_trans.
Qed.

#[local] Hint Resolve stop_body_framed delete_body_framed recover_body_framed : core.
#[local] Hint Extern 1 (framed _ (warn_body _ _ _ _ _ _ _)) => apply warn_body_framed : core.

Lemma warn_body_framed' t now n expires mark dry :
  (∀ p, tp_id (mark p) = tp_id p) → ∀ id, framed (eq id) (warn_body t now n expires mark dry id).
Proof. intros H id. by apply warn_body_framed. Qed.

(** A project none of the warning and deletion queries finds reaches the recovery as it was. *)
Lemma later_phases_view i redis now dry t p :
  let w := now + WARNING_MINUTES * MINUTE in
  uniq t → row i t = Some p →
  q_delete now p = false → q_warn_stop now w p = false → q_warn_delete now w p = false →
  (same_view i t (later_phases redis now dry t).1 ∧ (later_phases redis now dry t).2 = false) ∨
  ∃ t', uniq t' ∧ same_view i t t' ∧
    (if redis then phase (q_stuck now) (recover_body dry) else skip) t' = later_phases redis now dry t.
Proof.
  cbv zeta. intros Hu Hr H1 H2 H3. unfold later_phases, then_.
  set (w := now + WARNING_MINUTES * MINUTE) in *.
  assert (Hskip : ∀ q f t', (∀ j, framed (eq j) (f j)) → uniq t' → same_view i t t' → q p = false →
    uniq (phase q f t').1 ∧ same_view i t (phase q f t').1).
  { intros q f t' Hf Hu' Hv Hq. split; [by apply phase_uniq|]. eapply same_view_trans; [exact Hv|].
    apply phase_skips; [done|done|]. intros p' Hp'. destruct Hv as [Hv _]. congruence. }
  destruct (Hskip (q_delete now) (delete_body dry) t) as [Hu1 Hv1]; auto using same_view_refl.
  destruct (phase (q_delete now) _ t) as [t1 [|]]; cbn [fst] in *; [|by left].
  destruct (Hskip (q_warn_stop now w) (warn_body AutoStop now note_stop_warned tp_stop_expires (set_stop_warned stamp) dry) t1)
    as [Hu2 Hv2]; auto using warn_body_framed'.
  destruct (phase (q_warn_stop now w) _ t1) as [t2 [|]]; cbn [fst] in *; [|by left].
  destruct (Hskip (q_warn_delete now w) (warn_body AutoDelete now note_delete_warned tp_lifetime (set_delete_warned stamp) dry) t2)
    as [Hu3 Hv3]; auto using warn_body_framed'.
  destruct (phase (q_warn_delete now w) _ t2) as [t3 [|]]; cbn [fst] in *; [|by left].
  right. exists t3. by split_and!.
Qed.

Lemma row_of db i p : NoDup (map tp_id db) → p ∈ db → tp_id p = i →
  row i (mkTick db (mkResult [] [] [] [] []) []) = Some p.
Proof.
  intros Hn Hp Hi. unfold row. cbn [tk_db]. destruct (List.find _ db) as [p'|] eqn:E.
  - apply find_some in E as [Hin E%String.eqb_eq]. f_equal.
    eapply (NoDup_fmap_elem tp_id); [exact Hn|by apply list_elem_of_In|done|congruence].
  - eapply find_none in E; [|by apply list_elem_of_In]. by rewrite Hi, String.eqb_refl in E.
Qed.

(** C28: An expired timer always stops its project: at the next tick every active project whose
    auto-stop has expired is moved to [stopping] with its timer cleared, and its stop is queued
    exactly once, whatever else the tick finds and whether or not it raises; the same tick
    neither deletes it nor takes it for a stuck one. *)
Theorem expired_project_stopped redis now db p :
  NoDup (map tp_id db) → p ∈ db → tp_state p = "active" → at_most (tp_stop_expires p) now = true →
  now - 5 * MINUTE ≤ stamp →
  let r := check_project_timers stamp stop_sync job_info progress redis now false db in
  row (tp_id p) r.1 = Some (stop_fields stamp p) ∧
  effects_on (tp_id p) r.1 = [TimerFired (tp_id p) AutoStop; EnqueueStop (tp_id p)].
Proof.
  intros Hn Hp Ha He Hst r. set (i := tp_id p) in *. unfold r. rewrite tick_phases.
  set (t0 := mkTick db _ []). assert (Hu : uniq t0) by done.
  assert (Hr : row i t0 = Some p) by (by apply row_of).
  assert (Hq : q_stop now p = true) by (unfold q_stop; by rewrite He, Ha).
  assert (Hok : (phase (q_stop now) (stop_body false) t0).2 = true) by (by apply phase_ok).
  destruct (phase_hits (q_stop now) (stop_body false) i t0 p) as [[_ Hf]|(t' & Hu' & [Hr' He'] & [Hr2 He2])];
    auto; [congruence|].
  pose proof (phase_uniq (q_stop now) (stop_body false) t0 (stop_body_framed false) Hu) as Hu1.
  unfold then_. destruct (phase _ _ t0) as [t1 ok]. cbn [fst snd] in *. subst ok.
  assert (Hrow1 : row i t1 = Some (stop_fields stamp p)).
  { rewrite Hr2. unfold row. cbn. rewrite row_map by done. rewrite String.eqb_refl.
    change (List.find _ (tk_db t')) with (row i t'). by rewrite Hr', Hr. }
  assert (Heff1 : effects_on i t1 = [TimerFired i AutoStop; EnqueueStop i]).
  { rewrite He2. unfold effects_on. cbn. rewrite !List.filter_app. cbn. rewrite String.eqb_refl.
    change (List.filter _ (tk_effects t')) with (effects_on i t'). by rewrite He'. }
  enough (Hv : same_view i t1 (later_phases redis now false t1).1) by (destruct Hv; split; congruence).
  destruct (later_phases_view i redis now false t1 (stop_fields stamp p)) as [[Hv _]|(t2 & Hu2 & Hv & <-)]; try done.
  - unfold q_delete, in_states. cbn. by rewrite andb_false_r.
  - unfold q_warn_delete, in_states. cbn. by rewrite andb_false_r.
  - destruct redis; [|done]. eapply same_view_trans; [exact Hv|]. apply phase_skips; [done|done|].
    intros p' Hp'. destruct Hv as [Hv _]. rewrite Hv, Hrow1 in Hp'. injection Hp' as <-.
    unfold q_stuck. cbn [tp_updated stop_fields]. rewrite (proj2 (Z.ltb_ge _ _)) by lia. by rewrite andb_false_r.
Qed.

(** No live job: none, or a deployment that never reported progress. *)
Definition job_lost (p : tproject) : bool :=
  let status := match job_info (tp_id p) with Some (_, s) => s | None => "" end in
  negb (bool_decide (status ∈ ["queued"; "started"])) ||
  bool_decide (started_deploy_is_zombie progress status p = Some true).

(** The row of a project whose job was lost. *)
Definition failed (p : tproject) : tproject :=
  mkTProject (tp_id p) "error" (tp_host p) (tp_stop_started p) (tp_stop_expires p) (tp_stop_warned p)
    (tp_auto_stopped p) (tp_lifetime p) (tp_delete_warned p)
    (Some ("Background job lost while " +:+ tp_state p +:+ " — please retry")) stamp.

(** Effects of a recovery. *)
Definition recovery_effect (e : timer_effect) : bool :=
  match e with ClearJobRef _ _ | StateChanged _ _ => true | _ => false end.

(** What one recovery does to its project. *)
Lemma recover_body_row i t p :
  row i t = Some p → effects_on i t = [] →
  let r := recover_body false i t in
  (row i r.1 = if job_lost p then Some (failed p) else Some p) ∧
  Forall (λ e, recovery_effect e = true) (effects_on i r.1).
Proof.
  intros Hr He. cbv zeta. unfold recover_body, on_row. rewrite Hr.
  apply find_some in Hr as Hpi. destruct Hpi as [_ Hi%String.eqb_eq].
  unfold recover_one_stuck_project, job_lost. cbv zeta.
  set (status := match job_info (tp_id p) with Some (_, s) => s | None => "" end).
  assert (Hmark : ∀ t, row i t = Some p → Forall (λ e, recovery_effect e = true) (effects_on i t) →
    row i (mark_project_error stamp job_info p t).1 = Some (failed p) ∧
    Forall (λ e, recovery_effect e = true) (effects_on i (mark_project_error stamp job_info p t).1)).
  { clear t He Hr. intros t Hr He. unfold mark_project_error. rewrite Hi.
    destruct (job_info i) as [[[|c s] st]|]; unfold effects_on, row in *; cbn; rewrite row_map by done;
      rewrite String.eqb_refl, Hr; (split; [done|]); rewrite !List.filter_app; cbn; rewrite String.eqb_refl;
      repeat (apply Forall_app; split); auto. }
  destruct (bool_decide (status ∈ _)) eqn:Es; cbn [negb orb]; [|by apply Hmark; [|rewrite He]].
  destruct (started_deploy_is_zombie progress status p) as [[|]|] eqn:Ez.
  - rewrite bool_decide_eq_true_2 by done. unfold then_, emit. apply Hmark; [done|].
    unfold effects_on in *. cbn [tk_effects]. rewrite List.filter_app, He. cbn. rewrite Hi, String.eqb_refl. by constructor.
  - rewrite bool_decide_eq_false_2 by done. unfold skip. cbn [fst]. by rewrite He.
  - rewrite bool_decide_eq_false_2 by done. cbn [fst]. by rewrite He.
Qed.

(** C29: A project in the middle of an operation is left to that operation: a tick never stops,
    warns, deletes or destroys a project in a transitional state.  The only thing it may do
    is move one of [RECOVERED_STATES] to [error] when it has not changed for five minutes and
    its job is lost, and a tick that completes does so for every such project. *)
Theorem transitional_projects_protected redis now db p :
  NoDup (map tp_id db) → p ∈ db → in_states p TRANSITIONAL_STATES = true →
  let r := check_project_timers stamp stop_sync job_info progress redis now false db in
  let lost := redis && q_stuck now p && job_lost p in
  (row (tp_id p) r.1 = Some p ∨ lost = true ∧ row (tp_id p) r.1 = Some (failed p)) ∧
  (r.2 = true → lost = true → row (tp_id p) r.1 = Some (failed p)) ∧
  Forall (λ e, recovery_effect e = true) (effects_on (tp_id p) r.1).
Proof.
  intros Hn Hp Ht r lost. set (i := tp_id p) in *. unfold r. rewrite tick_phases.
  set (t0 := mkTick db _ []). assert (Hu : uniq t0) by done.
  assert (Hr : row i t0 = Some p) by (by apply row_of).
  assert (Hstates : q_stop now p = false ∧ q_delete now p = false ∧
    ∀ w, q_warn_stop now w p = false ∧ q_warn_delete now w p = false).
  { unfold q_stop, q_delete, q_warn_stop, q_warn_delete. rewrite Ht. unfold in_states in *.
    apply bool_decide_eq_true in Ht. unfold TRANSITIONAL_STATES in Ht.
    repeat (apply elem_of_cons in Ht as [Ht|Ht]); try (by apply not_elem_of_nil in Ht); rewrite Ht; cbn;
      split_and!; intros; split_and?; by rewrite ?andb_false_r. }
  destruct Hstates as (H1 & H2 & H3).
  assert (Hv0 : same_view i t0 (phase (q_stop now) (stop_body false) t0).1).
  { apply phase_skips; [done|done|]. intros p'. rewrite Hr. by intros [= <-]. }
  assert (Hok : (phase (q_stop now) (stop_body false) t0).2 = true) by (by apply phase_ok).
  pose proof (phase_uniq (q_stop now) (stop_body false) t0 (stop_body_framed false) Hu) as Hu1.
  unfold then_. destruct (phase _ _ t0) as [t1 ok]. cbn [fst snd] in *. subst ok. destruct Hv0 as [Hr1 He1].
  assert (Hsame : ∀ t2, same_view i t1 t2 → row i t2 = Some p ∧ effects_on i t2 = []).
  { intros t2 [Ha Hb]. split; [by rewrite Ha, Hr1, Hr|by rewrite Hb, He1]. }
  destruct (later_phases_view i redis now false t1 p) as [[Hv Hf]|(t2 & Hu2 & Hv & <-)];
    [done|by rewrite Hr1, Hr|done|apply H3|apply H3| |].
  { destruct (Hsame _ Hv) as [Ha Hb]. rewrite Ha, Hb, Hf. split_and!; [by left|done|done]. }
  destruct (Hsame _ Hv) as [Ha Hb]. unfold lost. destruct redis; cbn [andb].
  2: { unfold skip. cbn [fst snd]. rewrite Ha, Hb. split_and!; [by left|done|done]. }
  destruct (q_stuck now p) eqn:Eq; cbn [andb].
  - destruct (phase_hits (q_stuck now) (recover_body false) i t2 p) as [[Hs Hf]|(t3 & Hu3 & Hv3 & Hs)]; auto.
    + destruct Hs as [Hs1 Hs2]. rewrite Hs1, Hs2, Ha, Hb, Hf. split_and!; [by left|done|done].
    + destruct Hv3 as [Hv3a Hv3b]. destruct (recover_body_row i t3 p) as [Hrow Heff]; [congruence..|].
      destruct Hs as [Hs1 Hs2]. rewrite Hs1, Hs2, Hrow. destruct (job_lost p); split_and!; try done; [by right|by left].
  - assert (Hs : same_view i t2 (phase (q_stuck now) (recover_body false) t2).1).
    { apply phase_skips; [done|done|]. intros p'. rewrite Ha. by intros [= <-]. }
    destruct Hs as [Hs1 Hs2]. rewrite Hs1, Hs2, Ha, Hb. split_and!; [by left|done|done].
Qed.
End TimerFacts.

(** ** Minutes of a warning *)

Lemma round_div_bounds x y n : 0 < y → 0 ≤ x ≤ n * y → 0 ≤ round_div x y ≤ n.
Proof.
  intros Hy [Hx Hn]. unfold round_div. pose proof (Z.div_mod x y ltac:(lia)) as Hd.
  pose proof (Z.mod_pos_bound x y Hy). assert (0 ≤ x / y) by (by apply Z.div_pos).
  assert (x / y ≤ n) by (apply Z.div_le_upper_bound; lia).
  destruct (2 * (x mod y) <? y) eqn:E1; [lia|]. apply Z.ltb_ge in E1.
  assert (x / y ≠ n) by nia.
  destruct (y <? 2 * (x mod y)); [lia|]. destruct (Z.even (x / y)); lia.
Qed.

(** A warning sent in time, with the minutes it names. *)
Definition warning_in_time (now : Z) (e : timer_effect) : Prop :=
  match e with
  | TimerWarning _ _ expires m => now < expires ≤ now + WARNING_MINUTES * MINUTE ∧ 0 ≤ m ≤ WARNING_MINUTES
  | _ => True
  end.

(** A piece of the tick whose effects satisfy [P]. *)
Definition emits (P : timer_effect → Prop) (a : act) : Prop :=
  ∀ t, Forall P (tk_effects t) → Forall P (tk_effects (a t).1).

Lemma emits_then P a b : emits P a → emits P b → emits P (then_ a b).
Proof. intros Ha Hb t Ht. unfold then_. specialize (Ha t Ht). destruct (a t) as [t1 [|]]; [by apply Hb|done]. Qed.
Lemma emits_emit P e : P e → emits P (emit e).
Proof. intros He t Ht. cbn. apply Forall_app. split; [done|by constructor]. Qed.
Lemma emits_quiet P a : (∀ t, tk_effects (a t).1 = tk_effects t) → emits P a.
Proof. intros Ha t Ht. by rewrite Ha. Qed.
#[local] Hint Extern 0 (emits _ skip) => by apply emits_quiet : core.
#[local] Hint Extern 0 (emits _ (note _)) => by apply emits_quiet : core.
#[local] Hint Extern 0 (emits _ (save _ _)) => by apply emits_quiet : core.
#[local] Hint Extern 0 (emits _ (remove _)) => by apply emits_quiet : core.
#[local] Hint Extern 0 (emits _ (λ _, _)) => by apply emits_quiet : core.
Lemma emits_on_row P i f : (∀ p, emits P (f p)) → emits P (on_row i f).
Proof. intros Hf t Ht. unfold on_row. destruct (row i t); [by apply Hf|done]. Qed.
Lemma emits_phase P q f : (∀ i, emits P (f i)) → emits P (phase q f).
Proof.
  intros Hf t Ht. unfold phase, query. generalize (map tp_id (List.filter q (tk_db t))) as ids.
  intros ids. revert t Ht. induction ids as [|i ids IH]; intros t Ht; [done|]. cbn [each].
  apply emits_then; [apply Hf|intros t1; apply IH|done].
Qed.

(** A loop over the projects of a query sees each in the state the query found. *)
Lemma each_pre P (Q : tproject → Prop) ids f t :
  NoDup ids → (∀ j, framed (eq j) (f j)) → uniq t → (∀ j, j ∈ ids → ∃ p, row j t = Some p ∧ Q p) →
  (∀ j t p, row j t = Some p → Q p → Forall P (tk_effects t) → Forall P (tk_effects (f j t).1)) →
  Forall P (tk_effects t) → Forall P (tk_effects (each ids f t).1).
Proof.
  intros Hn Hf Hu Hids Hbody. revert t Hu Hids. induction ids as [|j ids IH]; intros t Hu Hids Ht; [done|].
  apply NoDup_cons in Hn as [Hj Hn]. cbn [each]. unfold then_.
  destruct (Hids j ltac:(by left)) as (p & Hr & Hq). specialize (Hbody j t p Hr Hq Ht) as Hb.
  destruct (Hf j t Hu) as [Hu1 Hv]. destruct (f j t) as [t1 [|]]; cbn [fst] in *; [|done].
  apply IH; [done|done| |done]. intros k Hk. destruct (Hids k ltac:(by right)) as (p' & Hr' & Hq').
  exists p'. split; [|done]. destruct (Hv k ltac:(by intros ->)) as [-> _]. done.
Qed.

Lemma phase_pre P q f t :
  (∀ j, framed (eq j) (f j)) → uniq t →
  (∀ j t p, row j t = Some p → q p = true → Forall P (tk_effects t) → Forall P (tk_effects (f j t).1)) →
  Forall P (tk_effects t) → Forall P (tk_effects (phase q f t).1).
Proof.
  intros Hf Hu Hbody Ht. unfold phase, query. apply (each_pre P (λ p, q p = true)); try done.
  - by apply NoDup_map_filter.
  - intros j (p & -> & [Hin Hq]%list_elem_of_In%filter_In)%list_elem_of_fmap. exists p. split; [|done].
    unfold row. destruct (List.find _ (tk_db t)) as [p'|] eqn:E.
    + apply find_some in E as [Hin' E%String.eqb_eq]. f_equal.
      eapply (NoDup_fmap_elem tp_id); [exact Hu|by apply list_elem_of_In..|done].
    + eapply find_none in E; [|exact Hin]. by rewrite String.eqb_refl in E.
Qed.

Lemma warn_in_time now dry n kind expires mark q t :
  (∀ p, tp_id (mark p) = tp_id p) →
  (∀ p, q p = true → at_most (expires p) (now + WARNING_MINUTES * MINUTE) = true ∧ after (expires p) now = true) →
  uniq t → Forall (warning_in_time now) (tk_effects t) →
  Forall (warning_in_time now) (tk_effects (phase q (warn_body kind now n expires mark dry) t).1).
Proof.
  intros Hm Hq Hu. apply phase_pre; [by apply warn_body_framed'|done|].
  intros j t1 p Hr Hp Ht. unfold warn_body, then_, note. destruct dry; [done|].
  unfold warn, on_row. change (row j (mkTick _ _ _)) with (row j t1). rewrite Hr.
  destruct (Hq p Hp) as [H1 H2]. destruct (expires p) as [e|]; [|done]. cbn in H1, H2.
  apply Z.leb_le in H1. apply Z.ltb_lt in H2. cbn [then_ save emit fst tk_effects].
  apply Forall_app. split; [done|]. constructor; [|done]. split; [lia|].
  apply round_div_bounds; unfold MINUTE in *; lia.
Qed.

(** Warnings are warnings: every warning a tick sends is about a project whose timer has
    neither run out nor more than five minutes left, and the minutes it names are between
    0 and 5. *)
Theorem warnings_in_time stamp stop_sync job_info progress redis now dry db :
  NoDup (map tp_id db) →
  Forall (warning_in_time now)
    (tk_effects (check_project_timers stamp stop_sync job_info progress redis now dry db).1).
Proof.
  intros Hn. rewrite tick_phases. set (t0 := mkTick db _ []). assert (Hu : uniq t0) by done.
  assert (H0 : Forall (warning_in_time now) (tk_effects t0)) by constructor.
  pose proof (phase_uniq (q_stop now) (stop_body stamp dry) t0 (stop_body_framed stamp dry) Hu) as Hu1.
  assert (H1 : emits (warning_in_time now) (phase (q_stop now) (stop_body stamp dry))).
  { apply emits_phase. intros i. apply emits_then; [done|]. destruct dry; [done|].
    apply emits_then; [done|]. by apply emits_then; apply emits_emit. }
  specialize (H1 t0 H0). unfold then_. destruct (phase (q_stop now) _ t0) as [t1 [|]]; [|done]. cbn [fst] in *.
  unfold later_phases, then_.
  pose proof (phase_uniq (q_delete now) (delete_body stamp stop_sync dry) t1 (delete_body_framed stamp stop_sync dry) Hu1) as Hu2.
  assert (H2 : emits (warning_in_time now) (phase (q_delete now) (delete_body stamp stop_sync dry))).
  { apply emits_phase. intros i. apply emits_on_row. intros p. destruct (in_states p _); [done|].
    apply emits_then; [done|]. destruct dry; [done|]. apply emits_then; [by apply emits_emit|].
    repeat apply emits_then; try done; try by apply emits_emit.
    - apply emits_on_row. intros p'. destruct (String.eqb _ _); [|done]. apply emits_then; [done|].
      apply emits_on_row. intros p2. by destruct (stop_sync p2).
    - apply emits_on_row. intros p'. destruct (_ && _); [by apply emits_emit|done]. }
  specialize (H2 t1 H1). destruct (phase (q_delete now) _ t1) as [t2 [|]]; [|done]. cbn [fst] in *.
  set (w := now + WARNING_MINUTES * MINUTE).
  pose proof (phase_uniq (q_warn_stop now w) (warn_body AutoStop now note_stop_warned tp_stop_expires (set_stop_warned stamp) dry)
    t2 (warn_body_framed' AutoStop now note_stop_warned tp_stop_expires (set_stop_warned stamp) dry (λ _, eq_refl)) Hu2) as Hu3.
  assert (H3 := warn_in_time now dry note_stop_warned AutoStop tp_stop_expires (set_stop_warned stamp)
    (q_warn_stop now w) t2 (λ _, eq_refl)).
  specialize (H3 ltac:(unfold q_warn_stop; intros p Hp; repeat (apply andb_true_iff in Hp as [Hp ?]); done) Hu2 H2).
  destruct (phase (q_warn_stop now w) _ t2) as [t3 [|]]; [|done]. cbn [fst] in *.
  assert (H4 := warn_in_time now dry note_delete_warned AutoDelete tp_lifetime (set_delete_warned stamp)
    (q_warn_delete now w) t3 (λ _, eq_refl)).
  specialize (H4 ltac:(unfold q_warn_delete; intros p Hp; repeat (apply andb_true_iff in Hp as [Hp ?]); done) Hu3 H3).
  destruct (phase (q_warn_delete now w) _ t3) as [t4 [|]]; [|done]. cbn [fst] in *.
  destruct redis; [|done]. revert t4 H4. apply emits_phase. intros i. apply emits_on_row. intros p.
  assert (Hmark : emits (warning_in_time now) (if dry then note (note_recovered (tp_id p)) else mark_project_error stamp job_info p)).
  { destruct dry; [done|]. apply emits_then; [done|]. apply emits_then.
    - destruct (job_info (tp_id p)) as [[[|] ?]|]; [done|by apply emits_emit|done].
    - apply emits_then; [done|by apply emits_emit]. }
  unfold recover_one_stuck_project. cbv zeta. destruct (bool_decide _); [|exact Hmark].
  destruct (started_deploy_is_zombie _ _ _) as [[|]|]; [|done|done].
  apply emits_then; [|exact Hmark]. destruct dry; [done|by apply emits_emit].
Qed.

(** ** A worked example *)

Definition sample_projects : list tproject :=
  [mkTProject "p1" "active" (Some "h1") (Some 0) (Some 60000000) true false None false None 0;
   mkTProject "p2" "stopping" (Some "h1") None None false false (Some 0) false None 0;
   mkTProject "p3" "stopped" None None None false false (Some (800 * 1000000)) false None 0].

Definition sample_tick : tick * bool :=
  check_project_timers 600000000 (λ _, Some "stopped") (λ _, None) (λ _, Some false) true 600000000 false
    sample_projects.

Lemma sample_projects_NoDup : NoDup (map tp_id sample_projects).
Proof. apply (bool_decide_unpack _). vm_compute. exact I. Qed.

Lemma expired_project_stopped_witness :
  effects_on "p1" sample_tick.1 = [TimerFired "p1" AutoStop; EnqueueStop "p1"].
Proof.
  apply (expired_project_stopped 600000000 (λ _, Some "stopped") (λ _, None) (λ _, Some false) true 600000000
    sample_projects (mkTProject "p1" "active" (Some "h1") (Some 0) (Some 60000000) true false None false None 0)
    sample_projects_NoDup); [left|reflexivity|reflexivity|by vm_compute].
Defined.

Lemma transitional_projects_protected_witness :
  row "p2" sample_tick.1 =
    Some (mkTProject "p2" "error" (Some "h1") None None false false (Some 0) false
            (Some "Background job lost while stopping — please retry") 600000000) ∧
  Forall (λ e, recovery_effect e = true) (effects_on "p2" sample_tick.1).
Proof.
  destruct (transitional_projects_protected 600000000 (λ _, Some "stopped") (λ _, None) (λ _, Some false) true
    600000000 sample_projects (mkTProject "p2" "stopping" (Some "h1") None None false false (Some 0) false None 0)
    sample_projects_NoDup) as (_ & H & Heff); [right; left|reflexivity|].
  split; [exact (H eq_refl eq_refl)|exact Heff].
Defined.

Lemma warnings_in_time_witness : Forall (warning_in_time 600000000) (tk_effects sample_tick.1).
Proof.
  apply (warnings_in_time 600000000 (λ _, Some "stopped") (λ _, None) (λ _, Some false) true 600000000 false
    sample_projects sample_projects_NoDup).
Defined.
