(* ===== verification/WorkerScaling.v ===== *)
(** * Worker scaling: [services/worker_scaling.py]

    How many workers the database's connections allow, and which connection pools fit.  The
    cluster is the record of its two deployments; its API calls are taken to succeed. *)
From stdpp Require Import prelude strings.
From S2P Require Import Prelude PyStr PyVal PyLemmas StrLemmas.

Open Scope list_scope.

(** [worker_scaling.DEFAULT_CONN_RESERVE:13-13] *)
Definition DEFAULT_CONN_RESERVE : Z := 10.

(** [worker_scaling.compute_max_workers] *)
Definition compute_max_workers (max_connections backend_replicas backend_conns_per_proc
    worker_conns_per_proc reserve : Z) : Z :=
  let budget := max_connections - Z.max 0 reserve - Z.max 0 backend_replicas * Z.max 0 backend_conns_per_proc in
  let per_worker := if 0 <? worker_conns_per_proc then worker_conns_per_proc else 1 in
  Z.max 1 (budget / per_worker).

(** [worker_scaling.clamp_replicas] *)
Definition clamp_replicas (desired max_workers : Z) : Z := Z.max 1 (Z.min desired (Z.max 1 max_workers)).

(** [worker_scaling.db_pool_fits] *)
Definition db_pool_fits (max_connections pool_size max_overflow backend_replicas worker_replicas
    reserve : Z) : bool :=
  let per_proc := Z.max 0 pool_size + Z.max 0 max_overflow in
  let total := (Z.max 0 backend_replicas + Z.max 0 worker_replicas) * per_proc + Z.max 0 reserve in
  total <=? max_connections.

(** ** The cluster *)

(** A container is its environment: names, and values that may be absent. *)
Notation env := (list (string * option string)).
Record deployment := mkDeployment { dp_replicas : option Z; dp_containers : list env }.
Record cluster := mkCluster { cl_backend : deployment; cl_worker : deployment; cl_max_connections : Z }.

(** [worker_scaling._env_int]: the first value set, or the default when it is no integer. *)
Definition env_int (dep : deployment) (name : string) (dflt : Z) : Z :=
  match List.find (λ e, String.eqb e.1 name && bool_decide (is_Some e.2)) (concat (dp_containers dep)) with
  | Some (_, Some v) => default dflt (int_of_string v)
  | _ => dflt
  end.

Definition POOL_SIZE : string := "TROSHKA_DATABASE__POOL_SIZE".
Definition MAX_OVERFLOW : string := "TROSHKA_DATABASE__MAX_OVERFLOW".

(** [worker_scaling._deploy_conns_per_proc] *)
Definition deploy_conns_per_proc (dep : deployment) : Z :=
  env_int dep POOL_SIZE 5 + env_int dep MAX_OVERFLOW 10.

Record status := mkStatus {
  ws_workers : Z;
  ws_max_workers : Z;
  ws_max_connections : Z;
  ws_worker_conns : Z;
  ws_backend_conns : Z;
  ws_backend : Z;
  ws_pool_size : Z;
  ws_max_overflow : Z
}.

(** [worker_scaling.worker_scaling_status] *)
Definition worker_scaling_status (c : cluster) : status :=
  let worker_conns := deploy_conns_per_proc (cl_worker c) in
  let backend_conns := deploy_conns_per_proc (cl_backend c) in
  let backend := default 0 (dp_replicas (cl_backend c)) in
  mkStatus (default 0 (dp_replicas (cl_worker c)))
    (compute_max_workers (cl_max_connections c) backend backend_conns worker_conns DEFAULT_CONN_RESERVE)
    (cl_max_connections c) worker_conns backend_conns backend
    (env_int (cl_backend c) POOL_SIZE 5) (env_int (cl_backend c) MAX_OVERFLOW 10).

(** [worker_scaling.scale_workers] *)
Definition scale_workers (c : cluster) (delta : Z) : cluster * status :=
  let st := worker_scaling_status c in
  let target := clamp_replicas (ws_workers st + delta) (ws_max_workers st) in
  (mkCluster (cl_backend c) (mkDeployment (Some target) (dp_containers (cl_worker c))) (cl_max_connections c),
   mkStatus target (ws_max_workers st) (ws_max_connections st) (ws_worker_conns st) (ws_backend_conns st)
     (ws_backend st) (ws_pool_size st) (ws_max_overflow st)).

(** [worker_scaling._patch_pool_env:155-167] one container. *)
Definition patch_env (wanted : list (string * string)) (e : env) : env :=
  map (λ x, match assoc x.1 wanted with Some v => (x.1, Some v) | None => x end) e ++
  map (λ w, (w.1, Some w.2)) (List.filter (λ w, negb (bool_decide (w.1 ∈ e.*1))) wanted).

(** [worker_scaling._patch_pool_env] *)
Definition patch_pool_env (dep : deployment) (pool_size max_overflow : Z) : deployment :=
  mkDeployment (dp_replicas dep)
    (map (patch_env [(POOL_SIZE, str_of_Z pool_size); (MAX_OVERFLOW, str_of_Z max_overflow)])
       (dp_containers dep)).

(** [worker_scaling.set_db_pool] *)
Definition set_db_pool (c : cluster) (pool_size max_overflow : Z) : res cluster :=
  let st := worker_scaling_status c in
  if negb (db_pool_fits (ws_max_connections st) pool_size max_overflow (ws_backend st) (ws_workers st)
             DEFAULT_CONN_RESERVE)
  then Raise ValueError
  else Ok (mkCluster (patch_pool_env (cl_backend c) pool_size max_overflow)
             (patch_pool_env (cl_worker c) pool_size max_overflow) (cl_max_connections c)).

(** ** Connections *)

(** What a fleet may open: its processes' pools and the reserve. *)
Definition connections (c : cluster) (workers : Z) : Z :=
  Z.max 0 workers * deploy_conns_per_proc (cl_worker c) +
  Z.max 0 (default 0 (dp_replicas (cl_backend c))) * Z.max 0 (deploy_conns_per_proc (cl_backend c)) +
  DEFAULT_CONN_RESERVE.

(** The largest fleet the budget allows. *)
Lemma compute_max_workers_spec max_c backends bc wc reserve n :
  0 < wc → 1 < n →
  n ≤ compute_max_workers max_c backends bc wc reserve ↔
    n * wc + Z.max 0 backends * Z.max 0 bc + Z.max 0 reserve ≤ max_c.
Proof.
  intros Hw Hn. unfold compute_max_workers. rewrite (proj2 (Z.ltb_lt _ _) Hw).
  set (b := max_c - _ - _). transitivity (n ≤ b / wc).
  - split; lia.
  - split; intros H.
    + pose proof (Z.mul_div_le b wc Hw). unfold b in *. nia.
    + apply Z.div_le_lower_bound; unfold b; lia.
Qed.

(** Scaling never exhausts the database: whatever is asked for, a fleet always has at least
    one worker, and more than one only when the fleet, the backends and the reserve together
    open at most [max_connections]; a request the budget allows is granted in full. *)
Theorem scale_workers_within_connections c delta :
  0 < deploy_conns_per_proc (cl_worker c) →
  let '(c', st) := scale_workers c delta in
  let asked := default 0 (dp_replicas (cl_worker c)) + delta in
  dp_replicas (cl_worker c') = Some (ws_workers st) ∧ 1 ≤ ws_workers st ∧
  (ws_workers st = 1 ∨ connections c' (ws_workers st) ≤ cl_max_connections c') ∧
  (1 ≤ asked → connections c asked ≤ cl_max_connections c → ws_workers st = asked) ∧
  (1 ≤ asked → ws_workers st ≤ asked).
Proof.
  intros Hw. unfold scale_workers. cbn [dp_replicas cl_worker ws_workers ws_max_workers worker_scaling_status].
  set (asked := default 0 (dp_replicas (cl_worker c)) + delta).
  set (m := compute_max_workers _ _ _ _ _).
  assert (Hm : 1 ≤ m) by (unfold m, compute_max_workers; lia).
  assert (Hspec : ∀ n, 1 < n → n ≤ m ↔ connections c n ≤ cl_max_connections c).
  { intros n Hn. unfold m. rewrite compute_max_workers_spec by done. unfold connections.
    rewrite (Z.max_r 0 n) by lia. done. }
  set (t := clamp_replicas asked m). assert (Ht : 1 ≤ t) by (unfold t, clamp_replicas; lia).
  split_and!; [done|done|..].
  - destruct (Z.eq_dec t 1) as [|Hne]; [by left|right].
    change (connections (mkCluster _ _ _) t) with (connections c t).
    apply Hspec; [lia|]. unfold t, clamp_replicas in *. lia.
  - intros Ha Hfit. destruct (Z.eq_dec asked 1) as [->|Hne]; [unfold t, clamp_replicas; lia|].
    apply Hspec in Hfit; [|lia]. unfold t, clamp_replicas. lia.
  - intros Ha. unfold t, clamp_replicas. lia.
Qed.

Lemma patch_env_value wanted e x v :
  NoDup wanted.*1 → x ∈ patch_env wanted e → assoc x.1 wanted = Some v → x.2 = Some v.
Proof.
  intros Hn Hx Hv. unfold patch_env in Hx. apply elem_of_app in Hx as [Hx|Hx];
    apply list_elem_of_fmap in Hx as (y & -> & Hy).
  - destruct (assoc y.1 wanted) as [w|] eqn:E; [|congruence]. cbn in *. congruence.
  - cbn in *. apply list_elem_of_In, filter_In in Hy as [Hy _]. apply list_elem_of_In in Hy.
    rewrite (elem_of_assoc y.1 y.2) in Hv; [done|done|by rewrite <-surjective_pairing].
Qed.

Lemma patch_env_has wanted e k v :
  NoDup wanted.*1 → assoc k wanted = Some v → (k, Some v) ∈ patch_env wanted e.
Proof.
  intros Hn Hv. unfold patch_env. apply elem_of_app. destruct (decide (k ∈ e.*1)) as [Hk|Hk].
  - left. apply list_elem_of_fmap in Hk as (x & -> & Hx). apply list_elem_of_fmap. exists x. by rewrite Hv.
  - right. apply list_elem_of_fmap. exists (k, v). split; [done|]. apply list_elem_of_In, filter_In.
    split; [by apply list_elem_of_In, assoc_Some_elem|]. cbn. by rewrite bool_decide_eq_false_2.
Qed.

(** A patched value is the one read back. *)
Lemma env_int_patched dep pool_size max_overflow name v dflt :
  dp_containers dep ≠ [] → 0 ≤ v →
  assoc name [(POOL_SIZE, str_of_Z pool_size); (MAX_OVERFLOW, str_of_Z max_overflow)] = Some (str_of_Z v) →
  env_int (patch_pool_env dep pool_size max_overflow) name dflt = v.
Proof.
  intros Hne Hv Hw. unfold env_int, patch_pool_env. cbn [dp_containers].
  set (wanted := [_; _]) in *.
  assert (Hn : NoDup wanted.*1) by (apply (bool_decide_unpack _); vm_compute; exact I).
  destruct (List.find _ _) as [[k o]|] eqn:E.
  - apply find_some in E as [Hin [Hk Ho]%andb_true_iff]. cbn in Hk, Ho. apply String.eqb_eq in Hk. subst k.
    apply in_concat in Hin as (e' & He' & Hin). apply in_map_iff in He' as (e & <- & _).
    apply list_elem_of_In in Hin. apply (patch_env_value wanted e _ (str_of_Z v) Hn) in Hin; [|done].
    cbn in Hin. subst o. by rewrite int_of_string_str_of_Z.
  - destruct (dp_containers dep) as [|e es]; [done|].
    assert (Hin : In (name, Some (str_of_Z v)) (concat (map (patch_env wanted) (e :: es)))).
    { cbn. apply in_app_iff. left. apply list_elem_of_In. by apply patch_env_has. }
    pose proof (find_none _ _ E _ Hin) as H. cbn in H. rewrite String.eqb_refl in H. done.
Qed.

(** A pool change that is accepted fits: when [set_db_pool] does not refuse, both deployments
    have the requested pool afterwards and the fleet as it runs opens at most
    [max_connections]; it refuses exactly the pools that would not fit. *)
Theorem set_db_pool_fits c pool_size max_overflow :
  0 ≤ pool_size → 0 ≤ max_overflow →
  dp_containers (cl_backend c) ≠ [] → dp_containers (cl_worker c) ≠ [] →
  let workers := default 0 (dp_replicas (cl_worker c)) in
  let backends := default 0 (dp_replicas (cl_backend c)) in
  (∀ c', set_db_pool c pool_size max_overflow = Ok c' →
     deploy_conns_per_proc (cl_backend c') = pool_size + max_overflow ∧
     deploy_conns_per_proc (cl_worker c') = pool_size + max_overflow ∧
     dp_replicas (cl_worker c') = dp_replicas (cl_worker c) ∧
     connections c' workers ≤ cl_max_connections c') ∧
  (set_db_pool c pool_size max_overflow = Raise ValueError ↔
     cl_max_connections c <
       (Z.max 0 backends + Z.max 0 workers) * (pool_size + max_overflow) + DEFAULT_CONN_RESERVE).
Proof.
  intros Hp Ho Hb Hw workers backends. unfold set_db_pool.
  cbn [ws_max_connections ws_backend ws_workers worker_scaling_status]. fold workers backends.
  assert (Hfit : db_pool_fits (cl_max_connections c) pool_size max_overflow backends workers DEFAULT_CONN_RESERVE =
    ((Z.max 0 backends + Z.max 0 workers) * (pool_size + max_overflow) + DEFAULT_CONN_RESERVE <=? cl_max_connections c)).
  { unfold db_pool_fits. by rewrite (Z.max_r 0 pool_size), (Z.max_r 0 max_overflow), (Z.max_r 0 DEFAULT_CONN_RESERVE)
      by (unfold DEFAULT_CONN_RESERVE; lia). }
  rewrite Hfit. destruct (_ <=? _) eqn:E; cbn [negb]; bool_lia.
  - split; [|split; [done|lia]]. intros c' [= <-]. unfold connections. cbn [cl_backend cl_worker cl_max_connections].
    assert (H : ∀ dep, dp_containers dep ≠ [] →
      deploy_conns_per_proc (patch_pool_env dep pool_size max_overflow) = pool_size + max_overflow).
    { intros dep Hd. unfold deploy_conns_per_proc.
      by rewrite (env_int_patched dep pool_size max_overflow POOL_SIZE pool_size),
        (env_int_patched dep pool_size max_overflow MAX_OVERFLOW max_overflow). }
    rewrite !H by done. split_and!; [done|done|done|]. cbn [dp_replicas patch_pool_env]. fold backends.
    rewrite (Z.max_r 0 (pool_size + max_overflow)) by lia. lia.
  - split; [done|]. split; [intros _; lia|done].
Qed.

Definition sample_cluster : cluster :=
  mkCluster (mkDeployment (Some 2) [[("X", None)]])
    (mkDeployment (Some 3) [[(POOL_SIZE, Some "4"); (MAX_OVERFLOW, Some "2")]]) 100.

Lemma scale_workers_within_connections_witness :
  ws_workers (scale_workers sample_cluster 50).2 = 10 ∧
  connections (scale_workers sample_cluster 50).1 10 ≤ 100.
Proof.
  pose proof (scale_workers_within_connections sample_cluster 50 ltac:(by vm_compute)) as H.
  split; [reflexivity|]. cbn zeta in H. destruct H as (_ & _ & [H|H] & _); [by vm_compute in H|exact H].
Defined.

Lemma set_db_pool_fits_witness :
  set_db_pool sample_cluster 20 10 = Raise ValueError ∧
  ∃ c', set_db_pool sample_cluster 5 10 = Ok c' ∧ connections c' 3 ≤ 100.
Proof.
  split.
  - apply (set_db_pool_fits sample_cluster 20 10); [lia|lia|done|done|by vm_compute].
  - eexists. split; [reflexivity|].
    apply (set_db_pool_fits sample_cluster 5 10); [lia|lia|done|done|reflexivity].
Defined.
