(* ===== verification/GroupAccess.v ===== *)
(** * Managed groups: [services/group_access.py], [api/groups.py], [api/users.py]

    Who may see whose bills, and who may change a group.  A request handler is one step: the
    handlers that change a group hold its row lock ([FOR UPDATE]) from before their checks to
    their commit, so they do not interleave on a group. *)
From stdpp Require Import prelude strings sorting.
From Stdlib Require Import Ascii.
From S2P Require Import Prelude PyStr PyVal PyLemmas.

Open Scope list_scope.

(** ** Rows *)

Record guser := mkUser { u_id : string; u_email : string; u_role : string }.
Record ggroup := mkGroup { g_id : string; g_name : string; g_norm : string; g_description : string }.

(** The tables; an association is a group and a user. *)
Record gdb := mkGdb {
  gd_users : list guser;
  gd_groups : list ggroup;
  gd_managers : list (string * string);
  gd_members : list (string * string);
  gd_owners : list string
}.

(** An [HTTPException]: its status. *)
Inductive out (A : Type) := Done (a : A) | Http (code : Z).
Arguments Done {_} _.
Arguments Http {_} _.
Definition obind {A B} (m : out A) (f : A → out B) : out B :=
  match m with Done a => f a | Http c => Http c end.
Declare Scope http_scope.
Notation "x <-? m ;; k" := (obind m (λ x, k)) (at level 100, m at next level, right associativity) : http_scope.
Open Scope http_scope.

Definition find_user (db : gdb) (id : string) : option guser :=
  List.find (λ u, String.eqb (u_id u) id) (gd_users db).
Definition find_group (db : gdb) (id : string) : option ggroup :=
  List.find (λ g, String.eqb (g_id g) id) (gd_groups db).
Definition manages (db : gdb) (gid uid : string) : bool := bool_decide ((gid, uid) ∈ gd_managers db).
Definition managers_of (db : gdb) (gid : string) : list (string * string) :=
  List.filter (λ r, String.eqb r.1 gid) (gd_managers db).

Definition with_managers (db : gdb) m := mkGdb (gd_users db) (gd_groups db) m (gd_members db) (gd_owners db).
Definition with_members (db : gdb) m := mkGdb (gd_users db) (gd_groups db) (gd_managers db) m (gd_owners db).
Definition with_groups (db : gdb) g := mkGdb (gd_users db) g (gd_managers db) (gd_members db) (gd_owners db).

(** ** Billing *)

(** [group_access.billing_owner_ids]: [None] is everybody. *)
Definition billing_owner_ids (db : gdb) (user : guser) : option (list string) :=
  if String.eqb (u_role user) "admin" then None
  else
    let managed := (List.filter (λ r, String.eqb r.2 (u_id user)) (gd_managers db)).*1 in
    Some (u_id user :: (List.filter (λ r, bool_decide (r.1 ∈ managed)) (gd_members db)).*2).

(** [group_access.require_billing_owner] *)
Definition require_billing_owner (db : gdb) (user : guser) (owner_id : option string) : out unit :=
  match billing_owner_ids db user with
  | Some scope =>
      match owner_id with
      | Some o => if bool_decide (o ∈ scope) then Done tt else Http 403
      | None => Http 403
      end
  | None => Done tt
  end.

(** ** Groups *)

Definition is_hex (a : ascii) : bool :=
  let n := N_of_ascii a in
  is_digit a || ((97 <=? n) && (n <=? 102) || (65 <=? n) && (n <=? 70))%N.

Fixpoint all_hex (s : string) : bool :=
  match s with EmptyString => true | String a s' => is_hex a && all_hex s' end.

(** Drop the characters of a kind from both ends. *)
Fixpoint strip_left (p : ascii → bool) (s : string) : string :=
  match s with
  | String a s' => if p a then strip_left p s' else s
  | EmptyString => EmptyString
  end.
Definition strip_braces (s : string) : string :=
  let p a := bool_decide (a ∈ ["{"; "}"]%char) in String.rev (strip_left p (String.rev (strip_left p s))).

(** [str(UUID(text))]: 32 hexadecimal digits, in lower case with dashes. *)
Definition uuid_text (s : string) : option string :=
  let h := replace "-" "" (strip_braces (replace "uuid:" "" (replace "urn:" "" s))) in
  if Nat.eqb (String.length h) 32 && all_hex h then
    let h := lower h in
    Some (str_take 8 h +:+ "-" +:+ str_take 4 (str_drop 8 h) +:+ "-" +:+ str_take 4 (str_drop 12 h) +:+
          "-" +:+ str_take 4 (str_drop 16 h) +:+ "-" +:+ str_drop 20 h)
  else None.

(** [group_access.require_managed_group]: an unknown group and one that is not the user's look
    the same. *)
Definition require_managed_group (db : gdb) (user : guser) (group_id : string) : out ggroup :=
  match uuid_text group_id with
  | None => Http 404
  | Some gid =>
      match find_group db gid with
      | None => Http 404
      | Some g =>
          if negb (String.eqb (u_role user) "admin") && negb (manages db gid (u_id user))
          then Http 404 else Done g
      end
  end.

(** [group_access.lock_assignment_user] *)
Definition lock_assignment_user (db : gdb) (user_id : string) : out guser :=
  match find_user db user_id with None => Http 404 | Some u => Done u end.

(** [group_access.prevent_last_manager_removal] *)
Definition prevent_last_manager_removal (db : gdb) (group_id user_id : string) : out unit :=
  if negb (manages db group_id user_id) then Done tt
  else if (length (managers_of db group_id) <=? 1)%nat then Http 409 else Done tt.

(** A loop of checks. *)
Fixpoint check_all {A} (f : A → out unit) (l : list A) : out unit :=
  match l with
  | [] => Done tt
  | x :: l' => _ <-? f x;; check_all f l'
  end.

(** [group_access.protect_manager_user_deletion] *)
Definition protect_manager_user_deletion (db : gdb) (user_id : string) : out unit :=
  _ <-? lock_assignment_user db user_id;;
  let ids := (List.filter (λ r, String.eqb r.2 user_id) (gd_managers db)).*1 in
  let groups := sort_by (λ a b, str_leb (g_id a) (g_id b))
                  (List.filter (λ g, bool_decide (g_id g ∈ ids)) (gd_groups db)) in
  check_all (λ g, prevent_last_manager_removal db (g_id g) user_id) groups.

(** ** Handlers *)

(** [groups._set_name]; [casefold] is [lower] on ASCII. *)
Definition set_name (g : ggroup) (name : string) : out ggroup :=
  let name := strip name in
  if String.eqb name "" then Http 422 else Done (mkGroup (g_id g) name (lower name) (g_description g)).

(** [groups._save]: the names are unique. *)
Definition save_group (db : gdb) (g : ggroup) : out gdb :=
  if existsb (λ x, negb (String.eqb (g_id x) (g_id g)) && String.eqb (g_norm x) (g_norm g)) (gd_groups db)
  then Http 409
  else Done (with_groups db (map (λ x, if String.eqb (g_id x) (g_id g) then g else x) (gd_groups db))).

Definition require_admin (user : guser) : out unit :=
  if String.eqb (u_role user) "admin" then Done tt else Http 403.

(** [groups.create_group]; [gid] is the fresh identifier. *)
Definition create_group (db : gdb) (user : guser) (gid name description : string) : out gdb :=
  _ <-? require_admin user;;
  g <-? set_name (mkGroup gid "" "" description) name;;
  if existsb (λ x, String.eqb (g_norm x) (g_norm g)) (gd_groups db) then Http 409
  else Done (with_groups db (gd_groups db ++ [g])).

(** [groups.update_group] *)
Definition update_group (db : gdb) (user : guser) (group_id : string) (name description : option string)
    : out gdb :=
  _ <-? require_admin user;;
  g <-? require_managed_group db user group_id;;
  g <-? match name with Some n => set_name g n | None => Done g end;;
  let g := match description with Some d => mkGroup (g_id g) (g_name g) (g_norm g) d | None => g end in
  save_group db g.

(** [groups.delete_group] *)
Definition delete_group (db : gdb) (user : guser) (group_id : string) : out gdb :=
  _ <-? require_admin user;;
  g <-? require_managed_group db user group_id;;
  let keep (r : string * string) := negb (String.eqb r.1 (g_id g)) in
  Done (mkGdb (gd_users db) (List.filter (λ x, negb (String.eqb (g_id x) (g_id g))) (gd_groups db))
          (List.filter keep (gd_managers db)) (List.filter keep (gd_members db)) (gd_owners db)).

(** [groups.add_member] *)
Definition add_member (db : gdb) (user : guser) (group_id user_id : string) : out gdb :=
  _ <-? require_admin user;;
  u <-? lock_assignment_user db user_id;;
  g <-? require_managed_group db user group_id;;
  if bool_decide ((g_id g, u_id u) ∈ gd_members db) then Done db
  else Done (with_members db (gd_members db ++ [(g_id g, u_id u)])).

(** [groups.remove_member] *)
Definition remove_member (db : gdb) (user : guser) (group_id user_id : string) : out gdb :=
  _ <-? require_admin user;;
  g <-? require_managed_group db user group_id;;
  Done (with_members db (List.filter (λ r, negb (bool_decide (r = (g_id g, user_id)))) (gd_members db))).

(** [groups.add_manager] *)
Definition add_manager (db : gdb) (user : guser) (group_id email : string) : out gdb :=
  _ <-? require_managed_group db user group_id;;
  match List.find (λ u, String.eqb (u_email u) (strip email)) (gd_users db) with
  | None => Http 404
  | Some target =>
      g <-? require_managed_group db user group_id;;
      if manages db (g_id g) (u_id target) then Done db
      else Done (with_managers db (gd_managers db ++ [(g_id g, u_id target)]))
  end.

(** [groups.remove_manager] *)
Definition remove_manager (db : gdb) (user : guser) (group_id user_id : string) : out gdb :=
  g <-? require_managed_group db user group_id;;
  _ <-? prevent_last_manager_removal db (g_id g) user_id;;
  Done (with_managers db (List.filter (λ r, negb (bool_decide (r = (g_id g, user_id)))) (gd_managers db))).

(** [users.delete_user] *)
Definition delete_user (db : gdb) (current : guser) (user_id : string) : out gdb :=
  _ <-? require_admin current;;
  match find_user db user_id with
  | None => Http 404
  | Some _ =>
      if String.eqb user_id (u_id current) then Http 400
      else if bool_decide (user_id ∈ gd_owners db) then Http 409
      else
        _ <-? protect_manager_user_deletion db user_id;;
        let keep (r : string * string) := negb (String.eqb r.2 user_id) in
        Done (mkGdb (List.filter (λ u, negb (String.eqb (u_id u) user_id)) (gd_users db)) (gd_groups db)
                (List.filter keep (gd_managers db)) (List.filter keep (gd_members db)) (gd_owners db))
  end.

(** ** What the handlers keep *)

(** The tables are consistent: keys are unique and associations refer to rows. *)
Definition groups_ok (db : gdb) : Prop :=
  NoDup (map g_id (gd_groups db)) ∧ NoDup (gd_managers db) ∧
  (∀ r, r ∈ gd_managers db ++ gd_members db →
     r.1 ∈ map g_id (gd_groups db) ∧ r.2 ∈ map u_id (gd_users db)).

(** A handler that answered. *)
Inductive group_step : guser → gdb → gdb → Prop :=
| StepCreate u db gid n d db' : gid ∉ map g_id (gd_groups db) → create_group db u gid n d = Done db' → group_step u db db'
| StepUpdate u db gid n d db' : update_group db u gid n d = Done db' → group_step u db db'
| StepDeleteGroup u db gid db' : delete_group db u gid = Done db' → group_step u db db'
| StepAddMember u db gid uid db' : add_member db u gid uid = Done db' → group_step u db db'
| StepRemoveMember u db gid uid db' : remove_member db u gid uid = Done db' → group_step u db db'
| StepAddManager u db gid email db' : add_manager db u gid email = Done db' → group_step u db db'
| StepRemoveManager u db gid uid db' : remove_manager db u gid uid = Done db' → group_step u db db'
| StepDeleteUser u db uid db' : delete_user db u uid = Done db' → group_step u db db'.

Lemma obind_Done {A B} (m : out A) (f : A → out B) b : obind m f = Done b ↔ ∃ a, m = Done a ∧ f a = Done b.
Proof. destruct m as [a|c]; cbn; split; [by eauto|intros (x & [= <-] & H); done|done|by intros (x & ? & _)]. Qed.

Lemma require_managed_group_Done db user gid g :
  require_managed_group db user gid = Done g →
  find_group db (g_id g) = Some g ∧ (u_role user = "admin" ∨ manages db (g_id g) (u_id user) = true).
Proof.
  unfold require_managed_group. destruct (uuid_text gid) as [gid'|]; [|done].
  destruct (find_group db gid') as [g'|] eqn:Ef; [|done].
  destruct (negb _ && _) eqn:E; [done|]. intros [= ->].
  pose proof Ef as Ef'. apply find_some in Ef' as [_ Hid%String.eqb_eq]. rewrite Hid. split; [done|].
  apply andb_false_iff in E as [E%negb_false_iff|E%negb_false_iff]; [left; by apply String.eqb_eq|by right].
Qed.

Lemma find_group_in db gid g : find_group db gid = Some g → gid ∈ map g_id (gd_groups db).
Proof. intros [Hin <-%String.eqb_eq]%find_some. apply list_elem_of_fmap_2. by apply list_elem_of_In. Qed.

Lemma find_user_in db uid u : find_user db uid = Some u → u_id u = uid ∧ uid ∈ map u_id (gd_users db).
Proof.
  intros [Hin Hid%String.eqb_eq]%find_some. split; [done|]. subst uid. apply list_elem_of_fmap_2. by apply list_elem_of_In.
Qed.

Lemma elem_filter {A} (p : A → bool) l x : x ∈ List.filter p l ↔ x ∈ l ∧ p x = true.
Proof. by rewrite !list_elem_of_In, filter_In. Qed.

(** The check leaves another manager. *)
Lemma prevent_leaves_manager db gid uid :
  prevent_last_manager_removal db gid uid = Done tt → NoDup (gd_managers db) →
  managers_of db gid ≠ [] → ∃ other, other ≠ uid ∧ (gid, other) ∈ gd_managers db.
Proof.
  unfold prevent_last_manager_removal. intros H Hn Hne.
  assert (Hmem : ∀ r, r ∈ managers_of db gid → r.1 = gid ∧ (gid, r.2) ∈ gd_managers db).
  { intros [g u] [Hin Hg%String.eqb_eq]%elem_filter. cbn in *. by subst g. }
  assert (Hnd : NoDup (managers_of db gid)).
  { unfold managers_of. rewrite <-(map_id (List.filter _ _)). apply NoDup_map_filter. by rewrite map_id. }
  destruct (manages db gid uid) eqn:Em; cbn [negb] in H.
  - destruct (managers_of db gid) as [|a [|b l]] eqn:E; [done|done|].
    destruct (Hmem a) as [Ha1 Ha2]; [by left|]. destruct (Hmem b) as [Hb1 Hb2]; [right; by left|].
    destruct (decide (a.2 = uid)) as [Ea|Ea]; [|by exists a.2].
    exists b.2. split; [|done]. intros Eb. apply NoDup_cons in Hnd as [Hab _]. apply Hab.
    replace a with b; [by left|]. destruct a, b. cbn in *. congruence.
  - destruct (managers_of db gid) as [|a l] eqn:E; [done|]. destruct (Hmem a) as [Ha1 Ha2]; [by left|].
    exists a.2. split; [|done]. intros Ea. unfold manages in Em. apply bool_decide_eq_false in Em. by rewrite <-Ea in Em.
Qed.

Lemma check_all_Done {A} (f : A → out unit) l : check_all f l = Done tt → ∀ x, x ∈ l → f x = Done tt.
Proof.
  induction l as [|x l IH]; cbn [check_all]; intros H y Hy; [by apply not_elem_of_nil in Hy|].
  apply obind_Done in H as ([] & H1 & H2). apply elem_of_cons in Hy as [->|Hy]; [done|by apply IH].
Qed.

Lemma has_manager db gid uid : (gid, uid) ∈ gd_managers db → managers_of db gid ≠ [].
Proof.
  intros Hin He. assert (H : (gid, uid) ∈ managers_of db gid) by (apply elem_filter; split; [done|by apply String.eqb_eq]).
  rewrite He in H. by apply not_elem_of_nil in H.
Qed.

Lemma filter_NoDup {A} (p : A → bool) l : NoDup l → NoDup (List.filter p l).
Proof. intros H. rewrite <-(map_id (List.filter _ _)). apply NoDup_map_filter. by rewrite map_id. Qed.

(** Rows that stay when the rows with a key, and the associations to it, go. *)
Lemma refs_after_delete {A} (key : A → string) (pick : string * string → string) (rows : list A)
    (ms ns : list (string * string)) k r :
  (∀ r, r ∈ ms ++ ns → pick r ∈ map key rows) →
  r ∈ List.filter (λ r, negb (String.eqb (pick r) k)) ms ++ List.filter (λ r, negb (String.eqb (pick r) k)) ns →
  r ∈ ms ++ ns ∧ pick r ∈ map key (List.filter (λ x, negb (String.eqb (key x) k)) rows).
Proof.
  intros Href Hr.
  assert (Hr' : r ∈ ms ++ ns ∧ pick r ≠ k).
  { apply elem_of_app in Hr as [[Hr Hk]%elem_filter|[Hr Hk]%elem_filter]; (split; [apply elem_of_app; by auto|]);
      intros E; by rewrite E, String.eqb_refl in Hk. }
  destruct Hr' as [Hr' Hne]. split; [done|].
  specialize (Href r Hr'). apply list_elem_of_fmap in Href as (x & Hx & Hin).
  apply list_elem_of_fmap. exists x. split; [done|].
  apply elem_filter. split; [done|]. apply negb_true_iff, String.eqb_neq. congruence.
Qed.

(** Handlers keep the tables consistent. *)
Lemma group_step_ok u db db' : group_step u db db' → groups_ok db → groups_ok db'.
Proof.
  intros Hstep (Hg & Hn & Href).
  destruct Hstep as [u db gid n d db' Hnew H|u db gid n d db' H|u db gid db' H|u db gid uid db' H
    |u db gid uid db' H|u db gid email db' H|u db gid uid db' H|u db uid db' H].
  - apply obind_Done in H as ([] & _ & H). apply obind_Done in H as (g & Hname & H).
    assert (Hid : g_id g = gid) by (unfold set_name in Hname; destruct (String.eqb _ _); by simplify_eq/=).
    destruct (existsb _ _); [done|]. injection H as <-. split_and!; cbn.
    + rewrite map_app. apply NoDup_app. split_and!; [done| |apply NoDup_singleton].
      intros i Hi ->%list_elem_of_singleton. by rewrite Hid in Hi.
    + done.
    + intros r Hr. destruct (Href r Hr) as [H1 H2]. split; [|done]. rewrite map_app. apply elem_of_app. by left.
  - apply obind_Done in H as ([] & _ & H). apply obind_Done in H as (g & Hreq & H).
    apply obind_Done in H as (g1 & Hname & H). unfold save_group in H. destruct (existsb _ _); [done|]. injection H as <-.
    set (g2 := match d with Some _ => _ | None => g1 end).
    assert (Hids : map g_id (map (λ x, if String.eqb (g_id x) (g_id g2) then g2 else x) (gd_groups db)) = map g_id (gd_groups db)).
    { rewrite map_map. apply map_ext. intros x. destruct (String.eqb (g_id x) (g_id g2)) eqn:E; [|done].
      by apply String.eqb_eq in E. }
    split_and!; cbn; [by rewrite Hids|done|]. intros r Hr. rewrite Hids. by apply Href.
  - apply obind_Done in H as ([] & _ & H). apply obind_Done in H as (g & Hreq & H). injection H as <-.
    split_and!; cbn; [by apply NoDup_map_filter|by apply filter_NoDup|].
    intros r Hr. destruct (refs_after_delete g_id fst (gd_groups db) (gd_managers db) (gd_members db) (g_id g) r)
      as [Hr' H1]; [intros; by apply Href|exact Hr|]. split; [exact H1|by apply Href].
  - apply obind_Done in H as ([] & _ & H). apply obind_Done in H as (x & Hu & H). apply obind_Done in H as (g & Hreq & H).
    apply require_managed_group_Done in Hreq as [Hfind _]. apply find_group_in in Hfind.
    unfold lock_assignment_user in Hu. destruct (find_user db uid) as [x'|] eqn:Ex; [|done]. injection Hu as ->.
    apply find_user_in in Ex as [<- Hx].
    destruct (bool_decide _); injection H as <-; [done|]. split_and!; cbn; [done|done|].
    intros r Hr. rewrite app_assoc in Hr. apply elem_of_app in Hr as [Hr|Hr]; [by apply Href|].
    apply list_elem_of_singleton in Hr as ->. done.
  - apply obind_Done in H as ([] & _ & H). apply obind_Done in H as (g & _ & H). injection H as <-.
    split_and!; cbn; [done|done|]. intros r Hr. apply Href. apply elem_of_app in Hr as [Hr|[Hr _]%elem_filter];
      apply elem_of_app; by auto.
  - apply obind_Done in H as (g0 & _ & H). destruct (List.find _ _) as [t|] eqn:Ef; [|done].
    apply obind_Done in H as (g & Hreq & H). apply require_managed_group_Done in Hreq as [Hfind _]. apply find_group_in in Hfind.
    destruct (manages db (g_id g) (u_id t)) eqn:Em; injection H as <-; [done|]. split_and!; cbn; [done| |].
    + apply NoDup_app. split_and!; [done| |apply NoDup_singleton]. intros r Hr ->%list_elem_of_singleton.
      unfold manages in Em. by apply bool_decide_eq_false in Em.
    + intros r Hr. rewrite <-app_assoc in Hr. apply elem_of_app in Hr as [Hr|Hr]; [apply Href, elem_of_app; by left|].
      apply elem_of_cons in Hr as [->|Hr]; [|apply Href, elem_of_app; by right]. split; [done|].
      apply find_some in Ef as [Hin _]. apply (list_elem_of_fmap_2 u_id). by apply list_elem_of_In.
  - apply obind_Done in H as (g & _ & H). apply obind_Done in H as ([] & _ & H). injection H as <-.
    split_and!; cbn; [done|by apply filter_NoDup|]. intros r Hr. apply Href.
    apply elem_of_app in Hr as [[Hr _]%elem_filter|Hr]; apply elem_of_app; by auto.
  - apply obind_Done in H as ([] & _ & H). destruct (find_user db uid); [|done].
    destruct (String.eqb uid (u_id u)); [done|]. destruct (bool_decide _); [done|].
    apply obind_Done in H as ([] & _ & H). injection H as <-.
    split_and!; cbn; [done|by apply filter_NoDup|]. intros r Hr.
    destruct (refs_after_delete u_id snd (gd_users db) (gd_managers db) (gd_members db) uid r)
      as [Hr' H2]; [intros; by apply Href|exact Hr|]. split; [by apply Href|exact H2].
Qed.

Lemma some_manager db gid : managers_of db gid ≠ [] → ∃ b, (gid, b) ∈ gd_managers db.
Proof.
  intros Hne. destruct (managers_of db gid) as [|[a b] l] eqn:E; [done|].
  assert (Hab : (a, b) ∈ managers_of db gid) by (rewrite E; by left).
  apply elem_filter in Hab as [Hab Ha%String.eqb_eq]. cbn in Ha. subst a. by exists b.
Qed.

(** Removing a manager leaves every group one. *)
Lemma remove_manager_keeps db u gid uid db' gid' :
  remove_manager db u gid uid = Done db' → NoDup (gd_managers db) →
  managers_of db gid' ≠ [] → managers_of db' gid' ≠ [].
Proof.
  intros H Hn Hne. apply obind_Done in H as (g & _ & H). apply obind_Done in H as ([] & Hp & [= <-]).
  assert (Hb : ∃ b, (gid', b) ∈ gd_managers db ∧ (gid', b) ≠ (g_id g, uid)).
  { destruct (decide (gid' = g_id g)) as [->|Hneq].
    - destruct (prevent_leaves_manager db (g_id g) uid Hp Hn Hne) as (b & Ho & Hin). exists b. split; [done|congruence].
    - destruct (some_manager db gid' Hne) as [b Hb]. exists b. split; [done|congruence]. }
  destruct Hb as (b & Hb & Hneq). apply (has_manager _ _ b). cbn. apply elem_filter. split; [done|].
  by rewrite bool_decide_eq_false_2.
Qed.

(** So does deleting a user. *)
Lemma delete_user_keeps db u uid db' gid :
  delete_user db u uid = Done db' → NoDup (gd_managers db) → gid ∈ map g_id (gd_groups db) →
  managers_of db gid ≠ [] → managers_of db' gid ≠ [].
Proof.
  intros H Hn Hgid Hne. apply obind_Done in H as (x & _ & H). destruct (find_user db uid); [|done].
  destruct (String.eqb uid (u_id u)); [done|]. destruct (bool_decide _); [done|].
  apply obind_Done in H as ([] & Hp & [= <-]). apply obind_Done in Hp as (y & _ & Hp).
  assert (Hother : ∃ b, b ≠ uid ∧ (gid, b) ∈ gd_managers db).
  { destruct (decide ((gid, uid) ∈ gd_managers db)) as [Hm|Hm].
    - apply list_elem_of_fmap in Hgid as (gr & -> & Hgr).
      apply (prevent_leaves_manager db (g_id gr) uid); [|done|done].
      apply (check_all_Done _ _ Hp). apply elem_of_sort_by, elem_filter. split; [done|].
      apply bool_decide_eq_true, list_elem_of_fmap. exists (g_id gr, uid). split; [done|].
      apply elem_filter. split; [done|]. by apply String.eqb_eq.
    - destruct (some_manager db gid Hne) as [b Hb]. exists b. split; [by intros ->|done]. }
  destruct Hother as (b & Ho & Hin). apply (has_manager _ _ b). cbn. apply elem_filter. split; [done|].
  apply negb_true_iff, String.eqb_neq. done.
Qed.

(** C37: A group never loses its last manager: whatever request is answered - removing a manager,
    deleting a user, or anything else - a group that had a manager and still exists has one;
    and a request by someone who is not an administrator changes no group, no member, and
    only the managers of groups that person manages. *)
Theorem group_keeps_manager u db db' :
  group_step u db db' → groups_ok db →
  groups_ok db' ∧
  (∀ gid, gid ∈ map g_id (gd_groups db') → managers_of db gid ≠ [] → managers_of db' gid ≠ []) ∧
  (u_role u ≠ "admin" →
     gd_groups db' = gd_groups db ∧ gd_members db' = gd_members db ∧ gd_users db' = gd_users db ∧
     ∀ gid, manages db gid (u_id u) = false → managers_of db' gid = managers_of db gid).
Proof.
  intros Hstep Hok. split; [by eapply group_step_ok|]. destruct Hok as (Hg & Hn & Href).
  assert (Hkeep : ∀ gid, gd_managers db' = gd_managers db → managers_of db gid ≠ [] → managers_of db' gid ≠ []).
  { intros gid He. unfold managers_of. by rewrite He. }
  assert (Hadm : ∀ x, require_admin u = Done x → u_role u = "admin").
  { unfold require_admin. intros x. destruct (String.eqb (u_role u) "admin") eqn:E; [|done]. by apply String.eqb_eq in E. }
  destruct Hstep as [u db gid n d db' Hnew H|u db gid n d db' H|u db gid db' H|u db gid uid db' H
    |u db gid uid db' H|u db gid email db' H|u db gid uid db' H|u db uid db' H].
  - apply obind_Done in H as (x & Ha%Hadm & H). split; [|congruence].
    apply obind_Done in H as (g & _ & H). destruct (existsb _ _); [done|]. injection H as <-. intros; by apply Hkeep.
  - apply obind_Done in H as (x & Ha%Hadm & H). split; [|congruence]. apply obind_Done in H as (g & _ & H).
    apply obind_Done in H as (g1 & _ & H). unfold save_group in H. destruct (existsb _ _); [done|]. injection H as <-.
    intros; by apply Hkeep.
  - apply obind_Done in H as (x & Ha%Hadm & H). split; [|congruence]. apply obind_Done in H as (g & _ & H).
    injection H as <-. intros gid' Hin Hne. cbn in Hin.
    apply list_elem_of_fmap in Hin as (y & -> & [_ Hy]%elem_filter).
    destruct (some_manager db _ Hne) as [b Hb]. apply (has_manager _ _ b). cbn. by apply elem_filter.
  - apply obind_Done in H as (x & Ha%Hadm & H). split; [|congruence]. apply obind_Done in H as (y & _ & H).
    apply obind_Done in H as (g & _ & H). destruct (bool_decide _); injection H as <-; intros; by apply Hkeep.
  - apply obind_Done in H as (x & Ha%Hadm & H). split; [|congruence]. apply obind_Done in H as (g & _ & H).
    injection H as <-. intros; by apply Hkeep.
  - apply obind_Done in H as (g0 & _ & H). destruct (List.find _ _) as [t|]; [|done].
    apply obind_Done in H as (g & Hreq & H). apply require_managed_group_Done in Hreq as [_ Hman].
    destruct (manages db (g_id g) (u_id t)); injection H as <-; [by split; [intros|]|]. split.
    + intros gid' _ Hne. unfold managers_of. cbn. rewrite List.filter_app. intros [Hnil _]%app_nil. done.
    + intros Hna. split_and!; [done..|]. intros gid' Hgid'. unfold managers_of. cbn. rewrite List.filter_app. cbn.
      destruct Hman as [|Hman]; [done|]. rewrite (proj2 (String.eqb_neq _ _)); [by rewrite app_nil_r|]. congruence.
  - split; [intros gid' _; by eapply remove_manager_keeps|].
    apply obind_Done in H as (g & Hreq & H). apply require_managed_group_Done in Hreq as [_ Hman].
    apply obind_Done in H as ([] & Hp & [= <-]).
    intros Hna. split_and!; [done..|]. intros gid' Hgid'. destruct Hman as [|Hman]; [done|].
    unfold managers_of. cbn. induction (gd_managers db) as [|[a b] l IH] in |- *; [done|]. cbn.
    destruct (bool_decide _) eqn:Eb; cbn; [|by rewrite IH]. rewrite IH.
    apply bool_decide_eq_true in Eb. injection Eb as -> ->.
    rewrite (proj2 (String.eqb_neq _ _)); [done|]. intros <-. congruence.
  - pose proof H as H'. apply obind_Done in H' as (x & Ha%Hadm & H').
    split; [|congruence]. intros gid Hgid. eapply delete_user_keeps; [exact H|done|].
    destruct (find_user db uid); [|done]. destruct (String.eqb uid (u_id u)); [done|]. destruct (bool_decide _); [done|].
    apply obind_Done in H' as ([] & _ & [= <-]). exact Hgid.
Qed.

(** Bills stay with their owners: a user who is not an administrator may see the bills of
    exactly himself and the members of the groups he manages; an administrator sees all. *)
Theorem billing_scope_exact db user owner :
  require_billing_owner db user (Some owner) = Done tt ↔
    u_role user = "admin" ∨ owner = u_id user ∨
    ∃ gid, (gid, u_id user) ∈ gd_managers db ∧ (gid, owner) ∈ gd_members db.
Proof.
  unfold require_billing_owner, billing_owner_ids.
  destruct (String.eqb (u_role user) "admin") eqn:E.
  { apply String.eqb_eq in E. split; [by left|done]. }
  apply String.eqb_neq in E.
  set (managed := (List.filter _ (gd_managers db)).*1). set (scope := u_id user :: _).
  assert (Hs : owner ∈ scope ↔ owner = u_id user ∨ ∃ gid, (gid, u_id user) ∈ gd_managers db ∧ (gid, owner) ∈ gd_members db).
  { unfold scope. rewrite elem_of_cons. apply or_iff_compat_l. rewrite list_elem_of_fmap. split.
    - intros ([gid o] & -> & [Hin Hm]%elem_filter). cbn in *. apply bool_decide_eq_true in Hm.
      apply list_elem_of_fmap in Hm as ([g' u'] & -> & [Hin' Hu%String.eqb_eq]%elem_filter). cbn in *. subst u'. eauto.
    - intros (gid & Hm & Hin). exists (gid, owner). split; [done|]. apply elem_filter. split; [done|].
      apply bool_decide_eq_true, list_elem_of_fmap. exists (gid, u_id user). split; [done|].
      apply elem_filter. split; [done|]. by apply String.eqb_eq. }
  destruct (bool_decide (owner ∈ scope)) eqn:Eb.
  - apply bool_decide_eq_true in Eb. split; [intros _; right; by apply Hs|done].
  - apply bool_decide_eq_false in Eb. split; [done|]. intros [|H]; [done|]. by destruct Eb; apply Hs.
Qed.

(** ** A worked example *)

Definition gid1 : string := "00000000-0000-0000-0000-00000000000a".
Definition sample_groups : gdb :=
  mkGdb [mkUser "u1" "a@x" "user"; mkUser "u2" "b@x" "user"; mkUser "u0" "root@x" "admin"]
    [mkGroup gid1 "Lab" "lab" ""] [(gid1, "u1"); (gid1, "u2")] [(gid1, "u2")] [].

Lemma sample_groups_ok : groups_ok sample_groups.
Proof.
  split_and!; [apply (bool_decide_unpack _); vm_compute; exact I..|]. intros r Hr.
  repeat (apply elem_of_cons in Hr as [->|Hr]; [split; apply (bool_decide_unpack _); vm_compute; exact I|]).
  by apply not_elem_of_nil in Hr.
Qed.

Definition sample_removed : gdb :=
  match remove_manager sample_groups (mkUser "u1" "a@x" "user") gid1 "u2" with Done db => db | _ => sample_groups end.

Lemma group_keeps_manager_witness :
  managers_of sample_removed gid1 ≠ [] ∧
  remove_manager sample_removed (mkUser "u1" "a@x" "user") gid1 "u1" = Http 409.
Proof.
  split; [|reflexivity].
  destruct (group_keeps_manager (mkUser "u1" "a@x" "user") sample_groups sample_removed) as (_ & H & _).
  - apply (StepRemoveManager _ _ gid1 "u2"). reflexivity.
  - exact sample_groups_ok.
  - apply H; [left|done].
Defined.
