(* ===== verification/Interfaces.v ===== *)
(** * Interfaces between components

    What one component promises to the components that call it, as classes: the counters of
    [core/redis.py] to the deployment accounting of [placement.py] and [rate_limit.py], and
    the VNI allocator of [vxlan.py] to [place_project].  Clients are proved against the class;
    [Db] and [Vxlan] give the instances. *)
From stdpp Require Import prelude strings.
From S2P Require Import Prelude PyVal.

(** ** Counters *)

(** A store of named counters: an increment adds one to its key, a decrement takes one from
    its key when the count is positive, and neither moves another key. *)
Class CounterStore (C : Type) := {
  counter_get : C → string → Z;
  counter_up : C → string → C;
  counter_down : C → string → C;
  counter_up_get c k k' :
    counter_get (counter_up c k) k' = counter_get c k' + (if decide (k = k') then 1 else 0);
  counter_down_get c k k' :
    (k = k' → 0 < counter_get c k') →
    counter_get (counter_down c k) k' = counter_get c k' - (if decide (k = k') then 1 else 0)
}.

Inductive counter_event := Up (key : string) | Down (key : string).

(** Increments less decrements of one key. *)
Definition net (k : string) (es : list counter_event) : Z :=
  zsum (map (λ e, match e with
                  | Up k' => if decide (k' = k) then 1 else 0
                  | Down k' => if decide (k' = k) then -1 else 0
                  end) es).

Lemma net_app k es1 es2 : net k (es1 ++ es2) = net k es1 + net k es2.
Proof. unfold net. by rewrite map_app, zsum_app. Qed.

Section Accounting.
Context {C : Type} `{!CounterStore C}.

Definition counter_step (c : C) (e : counter_event) : C :=
  match e with Up k => counter_up c k | Down k => counter_down c k end.

(** No decrement of [k] finds the counter at zero. *)
Definition never_below (c : C) (k : string) (es : list counter_event) : Prop :=
  ∀ pre post, es = pre ++ Down k :: post → 0 < counter_get c k + net k pre.

Lemma counter_accounting c es k :
  never_below c k es → counter_get (foldl counter_step c es) k = counter_get c k + net k es.
Proof.
  induction es as [|e es IH] using rev_ind; intros Hpre; [cbn; lia|].
  rewrite foldl_app, net_app. cbn [foldl].
  assert (IH' : counter_get (foldl counter_step c es) k = counter_get c k + net k es).
  { apply IH. intros pre post ->. apply (Hpre pre (post ++ [e])). by rewrite <-app_assoc. }
  destruct e as [k'|k']; cbn [counter_step]; unfold net at 2; cbn.
  - rewrite counter_up_get, IH'. case_decide; lia.
  - rewrite counter_down_get, IH'; [case_decide; lia|]. intros ->. rewrite IH'.
    by apply (Hpre es []).
Qed.
End Accounting.

(** ** Allocation of identifiers *)

(** [alloc] gives every key of a request a number of its own that no record [used] holds,
    above the mark and up to [limit], and writes the greatest number given as the new mark. *)
Class Allocator {D F T K : Type} (used : D → list Z) (mark : F → Z) (limit : Z)
    (write : F → Z → F) (alloc : D → F → T → res (list (K * Z) * F)) := {
  alloc_distinct d f t m f' : alloc d f t = Ok (m, f') → NoDup m.*2;
  alloc_fresh d f t m f' v :
    alloc d f t = Ok (m, f') → v ∈ m.*2 → v ∉ used d ∧ mark f < v ≤ limit;
  alloc_marks d f t m f' :
    alloc d f t = Ok (m, f') → f' = match zmax m.*2 with Some g => write f g | None => f end
}.
