(* ===== verification/Db.v ===== *)
(** * Database rows and shared counters

    The columns of the SQLAlchemy models the modelled services read or write
    ([app/models/*.py]), the database as lists of rows (a query without
    [ORDER BY] returns rows in table order here), and the Redis counters of
    [app/core/redis.py] with their in-memory fallback. *)
From stdpp Require Import prelude strings gmap.
From S2P Require Import Prelude PyStr PyVal Interfaces.

(** [host.Host:22-64] *)
Record Host := mkHost {
  h_id : string;
  h_provider_id : option string;
  h_state : string;
  h_host_type : string;
  h_total_vcpus : Z;
  h_total_ram_mb : Z;
  h_used_vcpus : Z;
  h_used_ram_mb : Z;
  h_ip_address : option string;
  h_private_ip : option string;
  h_agent_status : string;
  h_max_eips : Z;
  h_uplink_mtu : option Z;
  h_storage_pool_id : option string;
  h_accepting_work : bool
}.

(** [project.Project:31-108] *)
Record Project := mkProject {
  p_id : string;
  p_provider_id : option string;
  p_host_id : option string;
  p_state : string;
  p_topology : val;
  p_vni_map : option (list (val * Z));
  p_deploy_started_at : option Z
}.

(** [elastic_ip.ElasticIp:11-34] *)
Record ElasticIp := mkEip {
  e_id : string;
  e_provider_id : string;
  e_project_id : option string;
  e_canvas_eip_id : string;
  e_allocation_id : string;
  e_public_ip : string;
  e_private_ip : option string;
  e_host_id : option string;
  e_association_id : option string;
  e_state : string;
  e_port_map : option (list (string * Z))
}.

(** [provider.Provider:18-36] *)
Record Provider := mkProvider {
  pr_id : string;
  pr_type : string;
  pr_max_eips : option Z
}.

(** [storage_pool.StoragePool:27-35] *)
Record StoragePool := mkPool { sp_id : string; sp_mode : string; sp_status : string }.

(** [pattern_location.PatternLocation:18-49] *)
Record PatternLocation := mkLocation {
  l_pattern_disk_id : string;
  l_provider_id : option string;
  l_location_type : string;
  l_state : string
}.

Record DB := mkDB {
  db_hosts : list Host;
  db_projects : list Project;
  db_eips : list ElasticIp;
  db_providers : list Provider;
  db_pools : list StoragePool;
  db_locations : list PatternLocation
}.

#[export] Instance Host_eq_dec : EqDecision Host.
Proof. solve_decision. Defined.

(** Text comparison as a boolean test. *)
Definition streq (a b : string) : bool := bool_decide (a = b).
Definition in_list (a : string) (l : list string) : bool := bool_decide (a ∈ l).

(** [Column == value] on a nullable column: SQL's NULL never matches. *)
Definition col_is (c : option string) (v : string) : bool :=
  match c with Some x => streq x v | None => false end.

(** Writing a session object back: the row with the same primary key. *)
Definition save_host (db : DB) (h : Host) : DB :=
  mkDB (map (λ h', if streq (h_id h') (h_id h) then h else h') (db_hosts db))
       (db_projects db) (db_eips db) (db_providers db) (db_pools db) (db_locations db).

Definition save_project (db : DB) (p : Project) : DB :=
  mkDB (db_hosts db)
       (map (λ p', if streq (p_id p') (p_id p) then p else p') (db_projects db))
       (db_eips db) (db_providers db) (db_pools db) (db_locations db).

Definition find_host (db : DB) (hid : string) : option Host :=
  List.find (λ h, streq (h_id h) hid) (db_hosts db).

Definition find_provider (db : DB) (pid : string) : option Provider :=
  List.find (λ p, streq (pr_id p) pid) (db_providers db).

(** ** Counters *)

(** The Redis server ([redis_up] is [_redis_available]) and the process-local
    fallback. Key expiry is a separate event, not part of these operations. *)
Record counters := mkCounters {
  redis_up : bool;
  redis_counters : gmap string Z;
  mem_counters : gmap string Z
}.

(** [redis.get_counter] *)
Definition get_counter (c : counters) (key : string) : Z :=
  if redis_up c then default 0 (redis_counters c !! key)
  else default 0 (mem_counters c !! key).

(** [redis.increment_counter] *)
Definition increment_counter (c : counters) (key : string) : counters :=
  if redis_up c
  then mkCounters true (<[key := default 0 (redis_counters c !! key) + 1]> (redis_counters c))
         (mem_counters c)
  else mkCounters false (redis_counters c)
         (<[key := default 0 (mem_counters c !! key) + 1]> (mem_counters c)).

(** [redis.decrement_counter] *)
Definition decrement_counter (c : counters) (key : string) : counters :=
  if redis_up c
  then mkCounters true (<[key := default 0 (redis_counters c !! key) - 1]> (redis_counters c))
         (mem_counters c)
  else mkCounters false (redis_counters c)
         (<[key := Z.max 0 (default 0 (mem_counters c !! key) - 1)]> (mem_counters c)).

(** ** Lemmas *)

Lemma streq_true a b : streq a b = true ↔ a = b.
Proof. apply bool_decide_eq_true. Qed.

Lemma streq_refl a : streq a a = true.
Proof. by apply streq_true. Qed.

Lemma col_is_true c v : col_is c v = true ↔ c = Some v.
Proof. destruct c; simpl; [rewrite streq_true; split; congruence|done]. Qed.

#[export, refine] Instance counters_store : CounterStore counters := {
  counter_get := get_counter;
  counter_up := increment_counter;
  counter_down := decrement_counter
}.
Proof.
  - intros c k k'. unfold get_counter, increment_counter. destruct c as [[|] red mem]; cbn;
      case_decide; subst; rewrite ?lookup_insert_eq, ?lookup_insert_ne by done; cbn; lia.
  - intros c k k'. unfold get_counter, decrement_counter. destruct c as [[|] red mem]; cbn;
      case_decide as Hk; intros Hpos; [specialize (Hpos Hk)| |specialize (Hpos Hk)|]; subst;
      rewrite ?lookup_insert_eq, ?lookup_insert_ne by done; cbn; lia.
Defined.

Lemma save_host_others db h : db_projects (save_host db h) = db_projects db ∧
  db_eips (save_host db h) = db_eips db ∧ db_providers (save_host db h) = db_providers db ∧
  db_pools (save_host db h) = db_pools db ∧ db_locations (save_host db h) = db_locations db.
Proof. done. Qed.

#[export] Hint Rewrite streq_true col_is_true : troshka_db.
