(* ===== verification/NetworkMtu.v ===== *)
(** * Network MTU resolution: [network_mtu.py]

    The effective MTU of a lab network from the requested value, the host
    uplink and the mesh overhead, and its use over a topology. *)
From stdpp Require Import prelude strings.
From S2P Require Import Prelude PyStr PyVal PyLemmas TopoNodes.

Definition MESH_OVERHEAD : Z := 110.
Definition OVN_GENEVE_OVERHEAD : Z := 100.
Definition MTU_FLOOR : Z := 1280.
Definition DEFAULT_FALLBACK_MTU : Z := 1500.

(** [requested in (None, "", "auto")] *)
Definition is_auto_mtu (requested : val) : bool :=
  match requested with VNone => true | _ => in_strs requested [""; "auto"] end.

Definition exceeds_warning (candidate ceiling uplink overhead : Z) : string :=
  "MTU " +:+ str_of_Z candidate +:+ " reduced to " +:+ str_of_Z ceiling +:+
  ": exceeds host uplink " +:+ str_of_Z uplink +:+ " (overhead " +:+ str_of_Z overhead +:+ ")".

Definition floor_warning (candidate : Z) : string :=
  "MTU " +:+ str_of_Z candidate +:+ " raised to floor " +:+ str_of_Z MTU_FLOOR +:+
  " (minimum supported)".

(** [network_mtu.resolve_network_mtu]: the MTU and the warning. *)
Definition resolve_network_mtu (network_data : val) (host_uplink_mtu : option Z)
    (spans_hosts : bool) : res (Z * option string) :=
  requested <- get (v_or network_data empty_dict) "mtu" VNone;;
  match host_uplink_mtu with
  | None =>
      Ok (DEFAULT_FALLBACK_MTU,
          Some ("host uplink MTU unknown; defaulting to " +:+ str_of_Z DEFAULT_FALLBACK_MTU +:+
                " (agent may not have reported yet)"))
  | Some uplink =>
      let overhead := if spans_hosts then MESH_OVERHEAD else 0 in
      let ceiling := uplink - overhead in
      candidate <- (if is_auto_mtu requested then Ok ceiling else py_int requested);;
      let '(candidate, warning) :=
        if ceiling <? candidate
        then (ceiling, Some (exceeds_warning candidate ceiling uplink overhead))
        else (candidate, None) in
      if candidate <? MTU_FLOOR
      then Ok (MTU_FLOOR,
               Some (match warning with
                     | None => floor_warning candidate
                     | Some w => w +:+ "; " +:+ floor_warning candidate
                     end))
      else Ok (candidate, warning)
  end.

(** [deploy_topology.network_mtu_map] *)
Definition network_mtu_map (topology : val) (host_uplink_mtu : option Z)
    (spans_hosts : bool) : res (list (val * Z)) :=
  ns <- nodes_of topology;;
  for_each ns [] (λ node out,
    t <- has_type node "networkNode";;
    if negb t then Ok out
    else
      data <- data_of node;;
      '(mtu, _) <- resolve_network_mtu data host_uplink_mtu spans_hosts;;
      i <- idx node "id";;
      vset i mtu out).

(** [deploy_topology.resolve_topology_mtus:2717-2724] one iteration: the node with its resolved MTU
    written back and the warning line. *)
Definition resolve_node_mtu (host_uplink_mtu : option Z) (spans_hosts : bool) (node : val)
    : res (val * list string) :=
  t <- has_type node "networkNode";;
  if negb t then Ok (node, [])
  else
    '(node1, data) <- setdefault node "data" empty_dict;;
    '(mtu, warn) <- resolve_network_mtu data host_uplink_mtu spans_hosts;;
    data1 <- set_item data "mtu" (VInt mtu);;
    node2 <- set_item node1 "data" data1;;
    match warn with
    | None => Ok (node2, [])
    | Some w =>
        i <- idx node2 "id";;
        name <- get data1 "name" i;;
        Ok (node2, [py_str name +:+ ": " +:+ w])
    end.

(** [deploy_topology.resolve_topology_mtus]: the topology afterwards and the
    warnings. *)
Definition resolve_topology_mtus (topology : val) (host_uplink_mtu : option Z)
    (spans_hosts : bool) : res (val * list string) :=
  ns <- nodes_of topology;;
  rs <- map_res (resolve_node_mtu host_uplink_mtu spans_hosts) ns;;
  Ok (update_list topology "nodes" rs.*1, concat rs.*2).

(** ** Theorems *)

(** The candidate MTU before clamping. *)
Definition mtu_candidate (requested : val) (ceiling : Z) : res Z :=
  if is_auto_mtu requested then Ok ceiling else py_int requested.

Definition mtu_ceiling (uplink : Z) (spans_hosts : bool) : Z :=
  uplink - (if spans_hosts then MESH_OVERHEAD else 0).

Lemma resolve_known_uplink data uplink spans requested c :
  get (v_or data empty_dict) "mtu" VNone = Ok requested →
  mtu_candidate requested (mtu_ceiling uplink spans) = Ok c →
  ∃ w, resolve_network_mtu data (Some uplink) spans =
         Ok (Z.max MTU_FLOOR (Z.min c (mtu_ceiling uplink spans)), w) ∧
       (w = None ↔ MTU_FLOOR ≤ c ≤ mtu_ceiling uplink spans).
Proof.
  intros Hr Hc. unfold resolve_network_mtu. rewrite Hr. simpl.
  unfold mtu_candidate in Hc. fold (mtu_ceiling uplink spans). rewrite Hc. simpl.
  generalize (mtu_ceiling uplink spans). intros ceil.
  destruct (ceil <? c) eqn:E1; simpl; case_bools; bool_lia; eexists; (split;
    [f_equal; f_equal; lia|]); split; try done; unfold MTU_FLOOR in *; lia.
Qed.

(** What one iteration does to a network node. *)
Lemma resolve_node_mtu_inv up spans n n' ws :
  resolve_node_mtu up spans n = Ok (n', ws) →
  (has_type n "networkNode" = Ok false ∧ n' = n ∧ ws = []) ∨
  ∃ kvs d m w, n = VDict kvs ∧ has_type n "networkNode" = Ok true ∧
    default empty_dict (assoc "data" kvs) = VDict d ∧
    resolve_network_mtu (VDict d) up spans = Ok (m, w) ∧
    n' = VDict (assoc_set "data" (VDict (assoc_set "mtu" (VInt m) d))
                 (match assoc "data" kvs with Some _ => kvs
                  | None => assoc_set "data" empty_dict kvs end)) ∧
    (ws = [] ↔ w = None) ∧ (w ≠ None → is_Some (assoc "id" kvs)).
Proof.
  unfold resolve_node_mtu. intros H. destruct (has_type n "networkNode") as [t|] eqn:Et; [|done].
  simpl in H. destruct t; simpl in H; [right|left; by simplify_eq].
  destruct n as [| | | | |kvs]; try done. simpl in H.
  destruct (assoc "data" kvs) as [d0|] eqn:Ed; simpl in H; bind_inv;
    [destruct x as [m w]|destruct x as [m w]]; bind_inv.
  - destruct d0 as [| | | | |d]; try done. simpl in *. simplify_eq/=.
    exists kvs, d, m, w. rewrite Ed. destruct w; simpl in *; bind_inv; simplify_eq/=; [|naive_solver].
    rewrite assoc_set_ne in * by done. destruct (assoc "id" kvs); [naive_solver|done].
  - simpl in *. simplify_eq/=. exists kvs, [], m, w. rewrite Ed.
    destruct w; simpl in *; bind_inv; simplify_eq/=; [|naive_solver].
    rewrite !assoc_set_ne in * by done. destruct (assoc "id" kvs); [naive_solver|done].
Qed.

(** The MTU already written is what resolution writes again. *)
Lemma resolve_again d up spans m w :
  resolve_network_mtu (VDict d) up spans = Ok (m, w) →
  ∃ w', resolve_network_mtu (VDict (assoc_set "mtu" (VInt m) d)) up spans = Ok (m, w') ∧
    (∀ u, up = Some u → MTU_FLOOR ≤ mtu_ceiling u spans → w' = None) ∧ (w = None → w' = None).
Proof.
  intros H. destruct up as [u|].
  - assert (∃ c, m = Z.max MTU_FLOOR (Z.min c (mtu_ceiling u spans)) ∧
              (w = None → MTU_FLOOR ≤ mtu_ceiling u spans)) as (c & Hm & Hwn).
    { unfold resolve_network_mtu in H. fold (mtu_ceiling u spans) in H. bind_inv. exists x0.
      revert H. generalize (mtu_ceiling u spans). intros ceil.
      destruct (ceil <? x0) eqn:E1; case_bools; intros H; simplify_eq/=; bool_lia;
      (split; [lia|]); unfold MTU_FLOOR in *; try done; intros _; lia. }
    destruct (resolve_known_uplink (VDict (assoc_set "mtu" (VInt m) d)) u spans (VInt m) m)
      as (w' & Hr & Hw).
    { unfold v_or. destruct (truthy _) eqn:E; simpl; [by rewrite assoc_set_eq|].
      destruct d as [|[k v] d]; simpl in E; [done|]. case_decide; done. }
    { done. }
    exists w'. rewrite Hr. split; [f_equal; f_equal; lia|].
    split; [intros u' [= <-] Hle|intros ?%Hwn]; apply Hw; lia.
  - unfold resolve_network_mtu in *. bind_inv. simpl in *. simplify_eq.
    unfold v_or. destruct (truthy _); simpl; eexists; split_and!; done.
Qed.

(** Resolving a node again writes the same node. *)
Lemma resolve_node_mtu_again up spans n n' ws :
  resolve_node_mtu up spans n = Ok (n', ws) →
  ∃ ws', resolve_node_mtu up spans n' = Ok (n', ws') ∧
    (∀ u, up = Some u → MTU_FLOOR ≤ mtu_ceiling u spans → ws' = []).
Proof.
  intros [(Ht & -> & ->)|(kvs & d & m & w & -> & Ht & Hd & Hr & -> & Hw & Hid)]%resolve_node_mtu_inv.
  { exists []. unfold resolve_node_mtu. by rewrite Ht. }
  destruct (resolve_again _ _ _ _ _ Hr) as (w' & Hr' & Hu & Hn).
  set (kvs' := match assoc "data" kvs with Some _ => kvs | None => _ end).
  set (d' := assoc_set "mtu" (VInt m) d) in *.
  assert (Hid' : is_Some (assoc "id" kvs) → is_Some (assoc "id" kvs')).
  { intros ?. unfold kvs'. destruct (assoc "data" kvs); [done|]. by rewrite assoc_set_ne. }
  assert (Ht' : has_type (VDict (assoc_set "data" (VDict d') kvs')) "networkNode" = Ok true).
  { revert Ht. unfold has_type, type_of; simpl. rewrite assoc_set_ne by done. unfold kvs'.
    destruct (assoc "data" kvs); [done|]. by rewrite assoc_set_ne. }
  unfold resolve_node_mtu. rewrite Ht'. simpl. rewrite assoc_set_eq. simpl. rewrite Hr'. simpl.
  assert (assoc_set "mtu" (VInt m) d' = d') as -> by apply assoc_set_set.
  rewrite assoc_set_set. destruct w' as [w'|]; simpl.
  - rewrite assoc_set_ne by done. destruct Hid' as [i ->]; [apply Hid; intros ->; by specialize (Hn eq_refl)|].
    simpl. eexists; split; [done|]. intros u Hup Hle. by specialize (Hu u Hup Hle).
  - by eexists.
Qed.

(** MTU resolution is a clamp: with a known host uplink a lab network gets its
    requested MTU (the uplink less the mesh overhead for an automatic one) clamped
    between the floor and the ceiling, a warning is given exactly when the clamp changed
    the value, and a malformed request is the only error. *)
Theorem resolve_network_mtu_clamps data uplink spans requested :
  get (v_or data empty_dict) "mtu" VNone = Ok requested →
  match mtu_candidate requested (mtu_ceiling uplink spans) with
  | Ok c => ∃ w, resolve_network_mtu data (Some uplink) spans =
         Ok (Z.max MTU_FLOOR (Z.min c (mtu_ceiling uplink spans)), w) ∧
       (w = None ↔ MTU_FLOOR ≤ c ≤ mtu_ceiling uplink spans)
  | Raise e => resolve_network_mtu data (Some uplink) spans = Raise e
  end.
Proof.
  intros Hr. destruct (mtu_candidate _ _) as [c|e] eqn:E; [by eapply resolve_known_uplink|].
  unfold resolve_network_mtu. rewrite Hr. simpl. fold (mtu_ceiling uplink spans).
  unfold mtu_candidate in E. by rewrite E.
Qed.

Lemma resolve_network_mtu_clamps_witness :
  let d := VDict [("mtu", VStr "9000")] in
  get (v_or d empty_dict) "mtu" VNone = Ok (VStr "9000") ∧
  match mtu_candidate (VStr "9000") (mtu_ceiling 8901 true) with
  | Ok c => ∃ w, resolve_network_mtu d (Some 8901) true =
         Ok (Z.max MTU_FLOOR (Z.min c (mtu_ceiling 8901 true)), w) ∧
       (w = None ↔ MTU_FLOOR ≤ c ≤ mtu_ceiling 8901 true)
  | Raise e => resolve_network_mtu d (Some 8901) true = Raise e
  end.
Proof.
  split; [reflexivity|]. apply (resolve_network_mtu_clamps (VDict [("mtu", VStr "9000")]) 8901 true).
  reflexivity.
Defined.

Lemma resolve_nodes_again up spans ns rs :
  map_res (resolve_node_mtu up spans) ns = Ok rs →
  ∃ rs', map_res (resolve_node_mtu up spans) rs.*1 = Ok rs' ∧ rs'.*1 = rs.*1 ∧
    (∀ u, up = Some u → MTU_FLOOR ≤ mtu_ceiling u spans → concat rs'.*2 = []).
Proof.
  revert rs; induction ns as [|n ns IH]; intros rs; simpl; [intros [= <-]; by exists []|].
  intros H. bind_inv. destruct (IH _ H1) as (rs' & Hm & He & Hw). destruct x as [n' ws].
  destruct (resolve_node_mtu_again _ _ _ _ _ H0) as (ws' & Hy & Hws). csimpl.
  rewrite Hy. simpl. rewrite Hm. eexists; split; [done|]. csimpl. split; [by rewrite He|].
  intros u Hu Hle. by rewrite (Hws u), (Hw u).
Qed.

(** Resolving the MTUs of a topology is idempotent: once resolution has written them,
    running it again with the same uplink leaves the topology as it is, and it warns about
    nothing when the uplink leaves room for the floor. *)
Theorem resolve_topology_mtus_idempotent topology up spans topology' ws :
  resolve_topology_mtus topology up spans = Ok (topology', ws) →
  ∃ ws', resolve_topology_mtus topology' up spans = Ok (topology', ws') ∧
    (∀ u, up = Some u → MTU_FLOOR ≤ mtu_ceiling u spans → ws' = []).
Proof.
  unfold resolve_topology_mtus. intros H. bind_inv. simplify_eq.
  destruct (resolve_nodes_again _ _ _ _ H1) as (rs' & Hm & He & Hw).
  destruct topology as [| | | | |kvs]; try done. unfold nodes_of in H0. simpl in H0. simpl.
  destruct (assoc "nodes" kvs) as [ns|] eqn:En; simpl in H0.
  2: { simplify_eq/=. simpl in *. simplify_eq. unfold nodes_of. simpl. rewrite !En. simpl. by eexists. }
  destruct ns as [| | |s|ns|dn]; simpl in H0; simplify_eq.
  - destruct s; simpl in H1; [|by destruct (map_res _ _)]. simplify_eq.
    unfold nodes_of. simpl. rewrite !En. simpl. by eexists.
  - unfold nodes_of. simpl. rewrite assoc_set_eq. simpl. rewrite Hm. simpl.
    rewrite assoc_set_set, He. by eexists.
  - destruct dn; simpl in H1; [|by destruct (map_res _ _)]. simplify_eq.
    unfold nodes_of. simpl. rewrite !En. simpl. by eexists.
Qed.

Definition mtu_sample : val := VDict [("nodes", VList [
  VDict [("id", VStr "n1"); ("type", VStr "networkNode");
         ("data", VDict [("name", VStr "lan"); ("mtu", VStr "9000")])];
  VDict [("id", VStr "n2"); ("type", VStr "networkNode")]])].

Definition mtu_sample_resolved : val * list string :=
  match resolve_topology_mtus mtu_sample (Some 1500) true with
  | Ok r => r | Raise _ => (VNone, []) end.

Lemma resolve_topology_mtus_idempotent_witness :
  resolve_topology_mtus mtu_sample (Some 1500) true = Ok mtu_sample_resolved ∧
  length mtu_sample_resolved.2 = 1%nat ∧
  ∃ ws', resolve_topology_mtus mtu_sample_resolved.1 (Some 1500) true =
           Ok (mtu_sample_resolved.1, ws') ∧
    (∀ u, Some 1500 = Some u → MTU_FLOOR ≤ mtu_ceiling u true → ws' = []).
Proof.
  split; [vm_compute; reflexivity|]. split; [vm_compute; reflexivity|].
  apply (resolve_topology_mtus_idempotent mtu_sample (Some 1500) true _ mtu_sample_resolved.2).
  vm_compute. reflexivity.
Defined.
