(* ===== verification/IpAssign.v ===== *)
(** * Automatic addresses: the end of [deploy_topology.py]

    Container NIC addresses from the DHCP range of the connected network, and
    the static addresses of the Ceph OSDs from the top of the lab network.  The
    Python code changes the topology it is given; the functions here return the
    topology afterwards. *)
From stdpp Require Import prelude strings.
From S2P Require Import Prelude PyStr PyVal PyLemmas Ipv4 TopoNodes.

(** ** The DHCP range of a network *)

(** [deploy_topology._compute_dhcp_bounds] *)
Definition compute_dhcp_bounds (cidr range_start range_end : val) : res (val * val) :=
  if negb (truthy cidr) then Ok (range_start, range_end)
  else
    match ip_network cidr with
    | Raise ValueError => Ok (range_start, range_end)
    | Raise e => Raise e
    | Ok net =>
        let hs := hosts net in
        let n := Z.of_nat (length hs) in
        let host i := VStr (ip_str (nth (Z.to_nat i) hs 0)) in
        if 10 <? n then
          Ok (if truthy range_start then range_start else host (Z.min 9 (n - 2)),
              if truthy range_end then range_end else host (n - 1))
        else Ok (range_start, range_end)
    end.

(** [deploy_topology._get_dhcp_range] *)
Definition get_dhcp_range (net_data : val) : res (option (Z * Z)) :=
  range_start <- get net_data "dhcpRangeStart" vstr_empty;;
  range_end <- get net_data "dhcpRangeEnd" vstr_empty;;
  '(s, e) <- (if negb (truthy range_start) || negb (truthy range_end)
              then cidr <- get net_data "cidr" vstr_empty;;
                   compute_dhcp_bounds cidr range_start range_end
              else Ok (range_start, range_end));;
  if truthy s && truthy e
  then except_value_error (a <- ip_address s;; b <- ip_address e;; Ok (Some (a, b))) (Ok None)
  else Ok None.

(** ** Addresses already in use *)

(** [deploy_topology._add_node_used_ips:2519-2522] *)
Definition add_nic_ips (data : val) (used : list val) : res (list val) :=
  nics <- get data "nics" empty_list;;
  nics <- iter nics;;
  for_each nics used (λ nic used,
    ip <- get nic "ip" vstr_empty;; if truthy ip then vadd ip used else Ok used).

(** [deploy_topology._add_node_used_ips:2523-2526] *)
Definition add_osd_ips (data : val) (used : list val) : res (list val) :=
  ips <- get data "osdIps" VNone;;
  ips <- iter (v_or ips empty_list);;
  for_each ips used (λ ip used, if truthy ip then vadd ip used else Ok used).

(** [deploy_topology._add_node_used_ips:2529-2536] *)
Definition add_gateway_ip (data : val) (used : list val) : res (list val) :=
  cidr <- get data "cidr" vstr_empty;;
  if negb (truthy cidr) then Ok used
  else
    except_value_error
      (net <- ip_network cidr;; a <- addr_add (net_addr net) 1;; vadd (VStr (ip_str a)) used)
      (Ok used).

(** [deploy_topology._add_node_used_ips] *)
Definition add_node_used_ips (node : val) (used : list val) : res (list val) :=
  data <- data_of node;;
  used <- add_nic_ips data used;;
  ceph <- has_type node "cephClusterNode";;
  used <- (if ceph then add_osd_ips data used else Ok used);;
  t <- has_type node "networkNode";;
  if negb t then Ok used else add_gateway_ip data used.

(** [deploy_topology._collect_used_ips] *)
Definition collect_used_ips (topology : val) : res (list val) :=
  ns <- nodes_of topology;; for_each ns [] add_node_used_ips.

(** ** Container NICs *)

(** [deploy_topology._pick_available_ip] *)
Definition pick_available_ip (dhcp_range : Z * Z) (used_ips : list val) : option string :=
  List.find (λ candidate, negb (vmem (VStr candidate) used_ips))
    (map ip_str (zrange dhcp_range.1 dhcp_range.2)).

(** [deploy_topology._find_container_network] *)
Definition find_container_network (node_id nic : val) (edges : list val)
    (net_nodes : list (val * val)) : res (option val) :=
  nic_id <- idx nic "id";;
  let handles := ["nic-" +:+ py_str nic_id +:+ "-top"; "nic-" +:+ py_str nic_id +:+ "-bottom"] in
  let network_at (i : val) : res (option val) :=
    o <- vget i net_nodes;;
    Ok (match o with Some n => if truthy n then Some n else None | None => None end) in
  first_some (λ edge,
    src <- get edge "source" vstr_empty;;
    tgt <- get edge "target" vstr_empty;;
    sh <- get edge "sourceHandle" vstr_empty;;
    th <- get edge "targetHandle" vstr_empty;;
    if py_eq src node_id && in_strs sh handles then network_at tgt
    else if py_eq tgt node_id && in_strs th handles then network_at src
    else Ok None) edges.

(** [deploy_topology._assign_container_nic_ip:2464-2477] the address to assign. *)
Definition container_nic_candidate (node nic : val) (edges : list val)
    (net_nodes : list (val * val)) (used_ips : list val) : res (option string) :=
  node_id <- idx node "id";;
  net_node <- find_container_network node_id nic edges net_nodes;;
  match net_node with
  | None => Ok None
  | Some net_node =>
      net_data <- data_of net_node;;
      cidr <- get net_data "cidr" vstr_empty;;
      if negb (truthy cidr) then Ok None
      else
        dhcp_range <- get_dhcp_range net_data;;
        Ok (match dhcp_range with
            | None => None
            | Some r => pick_available_ip r used_ips
            end)
  end.

(** [deploy_topology._assign_container_nic_ip]: the NIC and the used addresses
    afterwards. *)
Definition assign_container_nic_ip (node nic : val) (edges : list val)
    (net_nodes : list (val * val)) (used_ips : list val) : res (val * list val) :=
  candidate <- container_nic_candidate node nic edges net_nodes used_ips;;
  match candidate with
  | None | Some "" => Ok (nic, used_ips)
  | Some ip =>
      nic' <- set_item nic "ip" (VStr ip);;
      used' <- vadd (VStr ip) used_ips;;
      Ok (nic', used')
  end.

(** [deploy_topology._auto_assign_container_ips:2450-2453] one NIC: an address
    already there is kept. *)
Definition assign_nic (node : val) (edges : list val) (net_nodes : list (val * val))
    (nic : val) (s : list val * list val) : res (list val * list val) :=
  let '(done, used_ips) := s in
  ip <- get nic "ip" VNone;;
  if truthy ip then Ok (done ++ [nic], used_ips)
  else
    '(nic', used') <- assign_container_nic_ip node nic edges net_nodes used_ips;;
    Ok (done ++ [nic'], used').

(** Writing the NICs of a node back where they are. *)
Definition update_nics (node : val) (nics : list val) : val :=
  match node with
  | VDict kvs =>
      match assoc "data" kvs with
      | Some d => VDict (assoc_set "data" (update_list d "nics" nics) kvs)
      | None => node
      end
  | _ => node
  end.

(** [deploy_topology._auto_assign_container_ips:2446-2453] one node. *)
Definition assign_node (edges : list val) (net_nodes : list (val * val))
    (node : val) (s : list val * list val) : res (list val * list val) :=
  let '(done, used_ips) := s in
  t <- has_type node "containerNode";;
  if negb t then Ok (done ++ [node], used_ips)
  else
    data <- data_of node;;
    nics <- get data "nics" empty_list;;
    nics <- iter nics;;
    '(nics', used') <- for_each nics ([], used_ips) (assign_nic node edges net_nodes);;
    Ok (done ++ [update_nics node nics'], used').

(** [{n\["id"\]: n for n in nodes if n.get("type") == "networkNode"}] *)
Definition network_nodes_by_id (nodes : list val) : res (list (val * val)) :=
  for_each nodes [] (λ n m,
    t <- has_type n "networkNode";;
    if t then i <- idx n "id";; vset i n m else Ok m).

(** [deploy_topology._auto_assign_container_ips] *)
Definition auto_assign_container_ips (topology : val) : res val :=
  nodes <- nodes_of topology;;
  edges <- edges_of topology;;
  used_ips <- collect_used_ips topology;;
  net_nodes <- network_nodes_by_id nodes;;
  '(nodes', _) <- for_each nodes ([], used_ips) (assign_node edges net_nodes);;
  Ok (update_list topology "nodes" nodes').

(** ** Ceph OSD addresses *)

Definition CEPH_OSD_MIN : Z := 1.
Definition CEPH_OSD_MAX : Z := 6.

(** [deploy_topology._pick_high_free_ips:2566-2573] the loop over the hosts from
    the top, [count] being at least one. *)
Fixpoint take_free (gateway : string) (used : list val) (count : nat) (hs : list Z)
    : list string :=
  match hs with
  | [] => []
  | h :: hs' =>
      let ip := ip_str h in
      if String.eqb ip gateway || vmem (VStr ip) used then take_free gateway used count hs'
      else ip :: match count with
                 | S (S c) => take_free gateway used (S c) hs'
                 | _ => []
                 end
  end.

(** [deploy_topology._pick_high_free_ips] *)
Definition pick_high_free_ips (cidr : string) (count : Z) (used : list val)
    : res (list string) :=
  if (count <=? 0) || String.eqb cidr "" then Ok []
  else
    match ip_network (VStr cidr) with
    | Raise ValueError => Ok []
    | Raise e => Raise e
    | Ok net =>
        g <- addr_add (net_addr net) 1;;
        Ok (take_free (ip_str g) used (Z.to_nat count) (reverse (hosts net)))
    end.

(** [deploy_topology._ceph_reserved_ips:2580-2585] the dnsmasq address and the
    default mon address. *)
Definition reserve_dnsmasq (cidr : string) (used : list val) : res (list val * string) :=
  match ip_network (VStr cidr) with
  | Raise ValueError => Ok (used, "")
  | Raise e => Raise e
  | Ok net =>
      match addr_add (net_addr net) 2 with
      | Raise _ => Ok (used, "")
      | Ok a =>
          used <- vadd (VStr (ip_str a)) used;;
          Ok (used, match addr_add (net_addr net) 4 with Ok m => ip_str m | Raise _ => "" end)
      end
  end.

(** [deploy_topology._ceph_reserved_ips:2586-2594] one node. *)
Definition reserve_node (default_mon : string) (node : val) (used : list val)
    : res (list val) :=
  data <- data_of node;;
  cluster <- has_type node "clusterNode";;
  if cluster then
    for_each ["apiVip"; "ingressVip"] used (λ key used,
      vip <- text_field data key;;
      if String.eqb vip "" then Ok used else vadd (VStr vip) used)
  else
    ceph <- has_type node "cephClusterNode";;
    if ceph then
      lab <- text_field data "labIp";;
      vadd (VStr (if String.eqb lab "" then default_mon else lab)) used
    else Ok used.

(** [deploy_topology._ceph_reserved_ips] *)
Definition ceph_reserved_ips (topology : val) (cidr : string) : res (list val) :=
  used <- collect_used_ips topology;;
  '(used, default_mon) <- reserve_dnsmasq cidr used;;
  ns <- nodes_of topology;;
  used <- for_each ns used (reserve_node default_mon);;
  Ok (List.filter (λ ip, negb (eq_str ip "")) used).

(** [deploy_topology._cidr_for_network_ref] *)
Definition cidr_for_network_ref (nodes : list val) (network_ref : string) : res string :=
  o <- first_some (λ node,
    t <- has_type node "networkNode";;
    if negb t then Ok None
    else
      data <- data_of node;;
      st <- get data "subtype" VNone;;
      if eq_str st "gateway" then Ok None
      else
        i <- get node "id" vstr_empty;;
        node_id <- get data "id" i;;
        raw_id <- get node "id" VNone;;
        if eq_str node_id network_ref || eq_str raw_id network_ref
        then cidr <- get data "cidr" VNone;; Ok (Some (py_str (v_or cidr vstr_empty)))
        else Ok None) nodes;;
  Ok (default "" o).

(** [deploy_topology._keep_valid_osd_ips] *)
Definition keep_valid_osd_ips (existing valid_hosts reserved_ips : list val) (osd_count : Z)
    : res (list val) :=
  r <- for_ctl existing [] (λ ip kept,
    v <- vin ip valid_hosts;;
    let kept := if v && negb (vmem ip reserved_ips) && negb (vmem ip kept)
                then kept ++ [ip] else kept in
    Ok (if osd_count <=? Z.of_nat (length kept) then Break kept else Next kept : ctl _ unit));;
  Ok (match r with inl kept => kept | inr _ => [] end).

(** [set(a) - set(b)]: members of [b] must be hashable. *)
Definition set_minus (a b : list val) : res (list val) :=
  b <- map_res hkey b;; Ok (List.filter (λ x, negb (vmem x b)) a).

(** [deploy_topology._auto_assign_ceph_osd_ips:2646-2656] the addresses the node
    ends with. *)
Definition derive_osd_ips (topology data : val) (cidr : string) (valid_hosts : list val)
    : res (list val) :=
  n <- get data "osdCount" VNone;;
  n <- py_int (v_or n (VInt 3));;
  let osd_count := Z.max CEPH_OSD_MIN (Z.min CEPH_OSD_MAX n) in
  all_reserved <- ceph_reserved_ips topology cidr;;
  existing <- get data "osdIps" VNone;;
  existing <- iter (v_or existing empty_list);;
  reserved_ips <- set_minus all_reserved existing;;
  kept <- keep_valid_osd_ips existing valid_hosts reserved_ips osd_count;;
  let need := osd_count - Z.of_nat (length kept) in
  if 0 <? need then
    more <- pick_high_free_ips cidr need (reserved_ips ++ kept);;
    Ok (kept ++ map VStr more)
  else Ok kept.

(** [next((x for x in l if p(x)), None)] with what is before and after it. *)
Fixpoint find_split {A} (p : A → res bool) (l : list A) : res (option (list A * A * list A)) :=
  match l with
  | [] => Ok None
  | x :: l' =>
      b <- p x;;
      if b then Ok (Some ([], x, l'))
      else
        o <- find_split p l';;
        Ok (match o with Some (pre, y, post) => Some (x :: pre, y, post) | None => None end)
  end.

(** [deploy_topology._auto_assign_ceph_osd_ips:2638-2656] the data of the Ceph
    node afterwards. *)
Definition assign_osd_data (topology data : val) (nodes : list val) : res val :=
  ref <- get data "networkRef" VNone;;
  cidr <- cidr_for_network_ref nodes (py_str (v_or ref vstr_empty));;
  if String.eqb cidr "" then Ok data
  else
    match ip_network (VStr cidr) with
    | Raise ValueError => Ok data
    | Raise e => Raise e
    | Ok net =>
        ips <- derive_osd_ips topology data cidr (map (λ h, VStr (ip_str h)) (hosts net));;
        set_item data "osdIps" (VList ips)
    end.

(** [deploy_topology._auto_assign_ceph_osd_ips] *)
Definition auto_assign_ceph_osd_ips (topology : val) : res val :=
  nodes <- nodes_of topology;;
  o <- find_split (λ n, has_type n "cephClusterNode") nodes;;
  match o with
  | None => Ok topology
  | Some (pre, ceph, post) =>
      '(ceph1, data) <- setdefault ceph "data" empty_dict;;
      data' <- assign_osd_data topology data nodes;;
      ceph2 <- set_item ceph1 "data" data';;
      Ok (update_list topology "nodes" (pre ++ ceph2 :: post))
  end.

(** ** The OSD addresses *)

Lemma vmem_str_list v l : vmem v (map VStr l) = true ↔ ∃ s, v = VStr s ∧ s ∈ l.
Proof.
  unfold vmem. rewrite existsb_exists. split.
  - intros (x & Hx & He). apply list_elem_of_In, list_elem_of_fmap in Hx as (s & -> & Hs).
    destruct v; try done. apply String.eqb_eq in He as ->. eauto.
  - intros (s & -> & Hs). exists (VStr s). split; [by apply list_elem_of_In, list_elem_of_fmap_2|].
    simpl. apply String.eqb_refl.
Qed.

(** [take_free] takes the first free hosts: none twice, at most [count + 1], and fewer only when
    the free hosts ran out. *)
Lemma take_free_spec gateway used count hs :
  let free h := ip_str h ≠ gateway ∧ VStr (ip_str h) ∉ used in
  let r := take_free gateway used count hs in
  (∀ ip, ip ∈ r → ∃ h, h ∈ hs ∧ ip = ip_str h ∧ free h) ∧
  (NoDup (map ip_str hs) → NoDup r) ∧
  (length r ≤ Nat.max 1 count)%nat ∧
  ((length r < Nat.max 1 count)%nat → ∀ h, h ∈ hs → free h → ip_str h ∈ r).
Proof.
  intros free r. subst r. revert count; induction hs as [|h hs IH]; intros count; simpl.
  { split_and!; [set_solver|constructor|lia|set_solver]. }
  destruct (String.eqb (ip_str h) gateway || vmem (VStr (ip_str h)) used) eqn:E.
  - assert (Hf : ¬ free h).
    { intros [H1 H2]. apply String.eqb_neq in H1. rewrite H1, vmem_str in E.
      by rewrite bool_decide_eq_false_2 in E. }
    destruct (IH count) as (H1 & H2 & H3 & H4). split_and!; [|intros [_ ?]%NoDup_cons; auto|done|].
    + intros ip (h' & ? & ? & ?)%H1. exists h'. set_solver.
    + intros Hl h' [->|Hh']%elem_of_cons Hfr; [done|auto].
  - apply orb_false_elim in E as [E1%String.eqb_neq E2].
    rewrite vmem_str, bool_decide_eq_false in E2. assert (Hf : free h) by done.
    destruct count as [|[|c]].
    1, 2: split_and!; [intros ip ->%list_elem_of_singleton; exists h; set_solver
                      |intros; apply NoDup_singleton|simpl; lia|simpl; lia].
    destruct (IH (S c)) as (H1 & H2 & H3 & H4). split_and!.
    + intros ip [->|(h' & ? & ? & ?)%H1]%elem_of_cons; [exists h|exists h']; set_solver.
    + intros [Hn Hnd]%NoDup_cons. apply NoDup_cons. split; [|auto].
      intros (h' & Hh' & Heq & _)%H1. apply Hn. rewrite Heq. by apply list_elem_of_fmap_2.
    + simpl in *; lia.
    + intros Hl h' [->|Hh']%elem_of_cons Hfr; [left|right]. apply H4; [simpl in *; lia|done..].
Qed.

Lemma hosts_text_NoDup net : wf_network net → NoDup (map ip_str (hosts net)).
Proof.
  intros Hwf. apply NoDup_fmap_2_strong; [|apply hosts_NoDup].
  intros x y Hx Hy. by apply (hosts_str_inj net).
Qed.

(** The loop of [keep_valid_osd_ips]. *)
Lemma keep_valid_spec existing valid reserved_ips n kept :
  keep_valid_osd_ips existing (map VStr valid) reserved_ips n = Ok kept →
  1 ≤ n →
  ∃ ks, kept = map VStr ks ∧ NoDup ks ∧ kept `sublist_of` existing ∧ Z.of_nat (length ks) ≤ n ∧
    ∀ k, k ∈ ks → k ∈ valid ∧ VStr k ∉ reserved_ips.
Proof.
  unfold keep_valid_osd_ips. intros H Hn. bind_inv.
  assert (Hg : ∀ ks0 l0, NoDup ks0 → map VStr ks0 `sublist_of` l0 → Z.of_nat (length ks0) < n →
    (∀ k, k ∈ ks0 → k ∈ valid ∧ VStr k ∉ reserved_ips) →
    ∀ r, for_ctl existing (map VStr ks0) (λ ip kept,
      v <- vin ip (map VStr valid);;
      let kept := if v && negb (vmem ip reserved_ips) && negb (vmem ip kept)
                  then kept ++ [ip] else kept in
      Ok (if n <=? Z.of_nat (length kept) then Break kept else Next kept : ctl _ unit)) = Ok r →
    ∃ ks, r = inl (map VStr ks) ∧ NoDup ks ∧ map VStr ks `sublist_of` (l0 ++ existing) ∧
      Z.of_nat (length ks) ≤ n ∧ ∀ k, k ∈ ks → k ∈ valid ∧ VStr k ∉ reserved_ips).
  2: { destruct (Hg [] [] ltac:(constructor) ltac:(done) ltac:(simpl; lia) ltac:(set_solver) _ H0)
         as (ks & -> & ? & ? & ? & ?). exists ks. simplify_eq. done. }
  clear H0. induction existing as [|ip existing IH]; intros ks0 l0 Hnd Hsub Hlen Hok r; simpl.
  { intros [= <-]. exists ks0. rewrite app_nil_r. split_and!; [done..|lia|done]. }
  unfold vin at 1, hkey. destruct (hashable ip); simpl; [|done].
  destruct (vmem ip (map VStr valid) && negb (vmem ip reserved_ips) && negb (vmem ip (map VStr ks0))) eqn:E.
  - apply andb_prop in E as [[E1 E2]%andb_prop E3].
    apply vmem_str_list in E1 as (s & -> & Hs). rewrite vmem_str, negb_true_iff, bool_decide_eq_false in E2.
    rewrite negb_true_iff, <-not_true_iff_false, vmem_str_list in E3.
    replace (map VStr ks0 ++ [VStr s]) with (map VStr (ks0 ++ [s])) by apply map_app.
    assert (Hnd' : NoDup (ks0 ++ [s])).
    { apply NoDup_app. split_and!; [done| |apply NoDup_singleton].
      intros y Hy ->%list_elem_of_singleton. eauto. }
    assert (Hsub' : map VStr (ks0 ++ [s]) `sublist_of` (l0 ++ [VStr s]))
      by (rewrite map_app; by apply sublist_app).
    assert (Hok' : ∀ k, k ∈ ks0 ++ [s] → k ∈ valid ∧ VStr k ∉ reserved_ips)
      by (intros k [?|?%list_elem_of_singleton]%elem_of_app; subst; auto).
    rewrite length_map, length_app. simpl.
    replace (l0 ++ VStr s :: existing) with ((l0 ++ [VStr s]) ++ existing) by by rewrite <-app_assoc.
    destruct (n <=? Z.of_nat (length ks0 + 1)) eqn:En.
    + intros [= <-]. exists (ks0 ++ [s]). split_and!; [done|done|by apply sublist_inserts_r| |done].
      rewrite length_app; simpl. lia.
    + apply Z.leb_gt in En. apply IH; [done..| |done]. rewrite length_app; simpl. lia.
  - rewrite length_map. replace (n <=? Z.of_nat (length ks0)) with false by lia.
    intros Hr. destruct (IH ks0 (l0 ++ [ip]) Hnd) with (r := r) as (ks & ? & ? & Hs & ? & ?); try done.
    { by apply sublist_inserts_r. }
    exists ks. rewrite <-app_assoc in Hs. done.
Qed.

(** [set(all) - set(mine)] drops what is in [mine] only. *)
Lemma set_minus_spec a b r k :
  set_minus a b = Ok r → VStr k ∈ a → VStr k ∉ b → VStr k ∈ r.
Proof.
  unfold set_minus. intros H Ha Hb. bind_inv.
  assert (x = b) as ->.
  { apply map_res_Forall2 in H0. clear -H0. induction H0 as [|v w l l' Hv _ ->]; [done|].
    unfold hkey in Hv. by destruct (hashable v); simplify_eq. }
  apply list_elem_of_In, filter_In. split; [by apply list_elem_of_In|].
  by rewrite vmem_str, bool_decide_eq_false_2.
Qed.

Lemma pick_high_spec cidr net need used more :
  ip_network (VStr cidr) = Ok net → 0 < need → cidr ≠ "" →
  pick_high_free_ips cidr need used = Ok more →
  (∀ ip, ip ∈ more → ip ∈ map ip_str (hosts net) ∧ VStr ip ∉ used) ∧ NoDup more ∧
  Z.of_nat (length more) ≤ need ∧
  (Z.of_nat (length more) < need → ∀ h, h ∈ hosts net → h ≠ net_addr net + 1 →
     VStr (ip_str h) ∉ used → ip_str h ∈ more).
Proof.
  intros Hn Hneed Hc H. pose proof (ip_network_wf _ _ Hn) as Hwf.
  unfold pick_high_free_ips in H. apply String.eqb_neq in Hc. rewrite Hc, Hn, orb_false_r in H.
  replace (need <=? 0) with false in H by (symmetry; by apply Z.leb_gt). bind_inv.
  destruct (take_free_spec (ip_str x) used (Z.to_nat need) (reverse (hosts net))) as (H1 & H2 & H3 & H4).
  split_and!.
  - intros ip (h & Hh & -> & _ & ?)%H1. rewrite elem_of_reverse in Hh.
    split; [by apply list_elem_of_fmap_2|done].
  - apply H2. assert (map ip_str (reverse (hosts net)) ≡ₚ map ip_str (hosts net)) as ->
      by (apply Permutation_map, reverse_Permutation). by apply hosts_text_NoDup.
  - lia.
  - intros Hl h Hh Hne Hu. apply H4; [lia|by apply elem_of_reverse|]. split; [|done].
    unfold addr_add in H0. destruct (valid_addr (net_addr net + 1)) eqn:Ev; [|done].
    injection H0 as <-. unfold valid_addr in Ev.
    intros E. apply ip_str_inj in E; [done|by eapply hosts_range|bool_lia].
Qed.

(** OSD addresses: the Ceph node gets at most the requested number of OSDs (between 1 and
    6) of addresses, pairwise distinct hosts of the lab network; the addresses it had that
    are still valid come first; none is an address anything else on the canvas reserves; and
    there are fewer than requested only when every other free host has been used. *)
Theorem derive_osd_ips_sound topology data cidr net all_reserved have existing c n ips :
  ip_network (VStr cidr) = Ok net → cidr ≠ "" →
  ceph_reserved_ips topology cidr = Ok all_reserved →
  get data "osdIps" VNone = Ok have → iter (v_or have empty_list) = Ok existing →
  get data "osdCount" VNone = Ok c → py_int (v_or c (VInt 3)) = Ok n →
  derive_osd_ips topology data cidr (map (λ h, VStr (ip_str h)) (hosts net)) = Ok ips →
  let count := Z.max CEPH_OSD_MIN (Z.min CEPH_OSD_MAX n) in
  ∃ texts kept more, ips = map VStr texts ∧ texts = kept ++ more ∧ NoDup texts ∧
    map VStr kept `sublist_of` existing ∧
    1 ≤ count ≤ 6 ∧ Z.of_nat (length texts) ≤ count ∧
    (∀ t, t ∈ texts → t ∈ map ip_str (hosts net) ∧
       (VStr t ∈ all_reserved → VStr t ∈ existing)) ∧
    (Z.of_nat (length texts) < count → ∀ h, h ∈ hosts net → h ≠ net_addr net + 1 →
       VStr (ip_str h) ∉ all_reserved → ip_str h ∈ texts).
Proof.
  intros Hn Hc Hres Hhave Hex Hcnt Hint H count.
  assert (Hcount : 1 ≤ count ≤ 6) by (unfold count, CEPH_OSD_MIN, CEPH_OSD_MAX; lia).
  unfold derive_osd_ips in H. rewrite Hcnt in H. cbn [bind] in H. rewrite Hint in H.
  cbn [bind] in H. rewrite Hres, Hhave in H. cbn [bind] in H. rewrite Hex in H. cbn [bind] in H.
  fold count in H. bind_inv. rename x into res_ips, x0 into kept0.
  rewrite <-(map_map ip_str VStr) in H1.
  destruct (keep_valid_spec _ _ _ _ _ H1 ltac:(lia)) as (kept & -> & Hnd & Hsub & Hlen & Hk).
  assert (Hown : ∀ t, VStr t ∉ res_ips → VStr t ∈ all_reserved → VStr t ∈ existing).
  { intros t Ht Ha. destruct (decide (VStr t ∈ existing)); [done|].
    by specialize (set_minus_spec _ _ _ _ H0 Ha n0). }
  rewrite length_map in H. destruct (0 <? count - Z.of_nat (length kept)) eqn:E.
  2: { injection H as <-. apply Z.ltb_ge in E. exists kept, kept, []. rewrite app_nil_r.
       split_and!; try done; try (intros; lia). intros t [? ?]%Hk. auto. }
  bind_inv. apply Z.ltb_lt in E. rename x into more.
  destruct (pick_high_spec _ _ _ _ _ Hn E Hc H2) as (P1 & P2 & P3 & P4).
  assert (Hu : ∀ t, VStr t ∉ res_ips ++ map VStr kept ↔ VStr t ∉ res_ips ∧ t ∉ kept).
  { intros t. rewrite not_elem_of_app, (list_elem_of_fmap VStr). naive_solver. }
  exists (kept ++ more), kept, more. rewrite map_app, !length_app.
  split_and!; try done; try (intros; lia).
  - apply NoDup_app. split_and!; [done| |done]. intros t Ht [_ Hm]%P1. by apply Hu in Hm as [_ ?].
  - intros t [[? ?]%Hk|[? [? _]%Hu]%P1]%elem_of_app; auto.
  - intros Hl h Hh Hne Ha. apply elem_of_app. destruct (decide (ip_str h ∈ kept)); [by left|right].
    apply P4; [lia|done|done|]. apply Hu. split; [|done]. intros Hr. apply Ha.
    unfold set_minus in H0. bind_inv. by apply list_elem_of_In, filter_In, proj1, list_elem_of_In in Hr.
Qed.

Definition osd_sample_data : val := VDict
  [("networkRef", VStr "n1"); ("osdCount", VInt 3);
   ("osdIps", VList [VStr "10.0.0.3"; VStr "10.9.9.9"])].

Definition osd_sample : val := VDict [("nodes", VList [
  VDict [("id", VStr "n1"); ("type", VStr "networkNode"); ("data", VDict [("cidr", VStr "10.0.0.0/29")])];
  VDict [("id", VStr "v1"); ("type", VStr "vmNode");
         ("data", VDict [("nics", VList [VDict [("ip", VStr "10.0.0.6")]])])];
  VDict [("id", VStr "c1"); ("type", VStr "cephClusterNode"); ("data", osd_sample_data)]])].

Lemma derive_osd_ips_sound_witness :
  let all := map VStr ["10.0.0.1"; "10.0.0.6"; "10.0.0.3"; "10.9.9.9"; "10.0.0.2"; "10.0.0.4"] in
  let ips := map VStr ["10.0.0.3"; "10.0.0.5"] in
  let net := Net 167772160 29 in
  ceph_reserved_ips osd_sample "10.0.0.0/29" = Ok all ∧
  derive_osd_ips osd_sample osd_sample_data "10.0.0.0/29"
    (map (λ h, VStr (ip_str h)) (hosts net)) = Ok ips ∧
  let count := Z.max CEPH_OSD_MIN (Z.min CEPH_OSD_MAX 3) in
  ∃ texts kept more, ips = map VStr texts ∧ texts = kept ++ more ∧ NoDup texts ∧
    map VStr kept `sublist_of` [VStr "10.0.0.3"; VStr "10.9.9.9"] ∧
    1 ≤ count ≤ 6 ∧ Z.of_nat (length texts) ≤ count ∧
    (∀ t, t ∈ texts → t ∈ map ip_str (hosts net) ∧
       (VStr t ∈ all → VStr t ∈ [VStr "10.0.0.3"; VStr "10.9.9.9"])) ∧
    (Z.of_nat (length texts) < count → ∀ h, h ∈ hosts net → h ≠ net_addr net + 1 →
       VStr (ip_str h) ∉ all → ip_str h ∈ texts).
Proof.
  split; [vm_compute; reflexivity|]. split; [vm_compute; reflexivity|].
  apply (derive_osd_ips_sound osd_sample osd_sample_data "10.0.0.0/29" (Net 167772160 29) _
    (VList [VStr "10.0.0.3"; VStr "10.9.9.9"]) _ (VInt 3));
    [vm_compute; reflexivity|discriminate|vm_compute; reflexivity..].
Defined.

(** ** Container addresses *)

(** The first free address of a range: the lowest candidate not in use. *)
Lemma pick_available_spec r used ip :
  pick_available_ip r used = Some ip →
  ∃ a, ip = ip_str a ∧ r.1 ≤ a ≤ r.2 ∧ VStr ip ∉ used ∧
    ∀ b, r.1 ≤ b < a → VStr (ip_str b) ∈ used.
Proof.
  unfold pick_available_ip, zrange. destruct r as [lo hi]. cbn [fst snd].
  remember (Z.to_nat (hi - lo + 1)) as n eqn:En. unfold seqZ. rewrite <-En.
  assert (Hhi : ∀ i, (i < n)%nat → lo + Z.of_nat i ≤ hi) by lia. clear En.
  assert (Hg : ∀ k m, (k + m = n)%nat → (∀ b, lo ≤ b < lo + Z.of_nat k → VStr (ip_str b) ∈ used) →
    List.find (λ c, negb (vmem (VStr c) used)) (map ip_str ((λ i, Z.of_nat i + lo) <$> seq k m)) = Some ip →
    ∃ a, ip = ip_str a ∧ lo ≤ a ≤ hi ∧ VStr ip ∉ used ∧
      ∀ b, lo ≤ b < a → VStr (ip_str b) ∈ used).
  2: { apply (Hg O n); [done|lia]. }
  intros k m. revert k. induction m as [|m IH]; intros k Hkm Hb; [done|].
  cbn [seq fmap list_fmap map List.find]. rewrite vmem_str. case_bool_decide as Hin; cbn [negb].
  - apply (IH (S k)); [lia|]. intros b Hbr. destruct (decide (b = Z.of_nat k + lo)) as [->|]; [done|].
    apply Hb. lia.
  - intros [= <-]. exists (Z.of_nat k + lo). split_and!; try done; try lia.
    + specialize (Hhi k ltac:(lia)). lia.
    + intros b Hbr. apply Hb. lia.
Qed.

Lemma container_candidate_fresh node nic edges nets used ip :
  container_nic_candidate node nic edges nets used = Ok (Some ip) → VStr ip ∉ used.
Proof.
  unfold container_nic_candidate. intros H. bind_inv. destruct x0; [|done]. bind_inv.
  destruct (negb (truthy _)); [done|]. bind_inv. destruct x2 as [r|]; [|done].
  by apply pick_available_spec in H as (? & _ & _ & ? & _).
Qed.

(** What assigning one NIC does: nothing, or one fresh address. *)
Definition nic_given (nic nic' : val) (given : list string) : Prop :=
  (given = [] ∧ nic' = nic) ∨
  ∃ ip old, given = [ip] ∧ get nic "ip" VNone = Ok old ∧ truthy old = false ∧
    set_item nic "ip" (VStr ip) = Ok nic'.

(** The address list [new] extends the used addresses by fresh ones. *)
Definition fresh_for (used : list val) (new : list string) : Prop :=
  NoDup new ∧ ∀ ip, ip ∈ new → VStr ip ∉ used.

Lemma fresh_for_app used new new' :
  fresh_for used new → fresh_for (used ++ map VStr new) new' → fresh_for used (new ++ new').
Proof.
  intros [H1 H2] [H3 H4]. split.
  - apply NoDup_app. split_and!; [done| |done]. intros ip Hip Hip'. apply (H4 ip Hip').
    apply elem_of_app. right. by apply list_elem_of_fmap_2.
  - intros ip [?|Hip]%elem_of_app; [auto|]. intros Hu. apply (H4 ip Hip). set_solver.
Qed.

Lemma assign_nic_spec node edges nets nic acc used acc' used' :
  assign_nic node edges nets nic (acc, used) = Ok (acc', used') →
  ∃ nic' given, acc' = acc ++ [nic'] ∧ nic_given nic nic' given ∧
    used' = used ++ map VStr given ∧ fresh_for used given.
Proof.
  assert (Hnil : fresh_for used []) by (split; [constructor|set_solver]).
  unfold assign_nic. intros H. bind_inv. destruct (truthy x) eqn:Et.
  { injection H as <- <-. exists nic, []. rewrite app_nil_r. by split_and!; [|left| |]. }
  bind_inv. destruct x0 as [nic' u]. simplify_eq. unfold assign_container_nic_ip in H1.
  apply bind_Ok in H1 as (cand & Hc & H1). destruct cand as [[|a s]|].
  1, 3: simplify_eq; exists nic', []; rewrite app_nil_r; by split_and!; [|left| |].
  set (ip := String a s) in *. bind_inv. simplify_eq.
  assert (Hfree : VStr ip ∉ used) by by eapply container_candidate_fresh.
  exists nic', [ip]. split_and!; [done|right; by exists ip, x| |].
  - unfold vadd in H2. simpl in H2. fold ip in H2. rewrite vmem_str, bool_decide_eq_false_2 in H2 by done.
    by simplify_eq.
  - split; [apply NoDup_singleton|]. by intros ? ->%list_elem_of_singleton.
Qed.

(** A loop whose every step appends one result and extends the used addresses by fresh ones. *)
Lemma assign_loop_spec (R : val → val → list string → Prop) body :
  (∀ x acc used acc' used', body x (acc, used) = Ok (acc', used') →
    ∃ y given, acc' = acc ++ [y] ∧ R x y given ∧ used' = used ++ map VStr given ∧
      fresh_for used given) →
  ∀ l (acc used acc' used' : list val), for_each l (acc, used) body = Ok (acc', used') →
  ∃ ys given, acc' = acc ++ ys ∧ Forall3 R l ys given ∧
    used' = used ++ map VStr (concat given) ∧ fresh_for used (concat given).
Proof.
  intros Hb l. induction l as [|x l IH]; intros acc used acc' used'; simpl.
  { intros [= <- <-]. exists [], []. rewrite !app_nil_r. split_and!; try done; [constructor|].
    split; [constructor|set_solver]. }
  intros H. bind_inv. destruct x0 as [acc1 used1].
  destruct (Hb _ _ _ _ _ H0) as (y & g & -> & HR & -> & Hf).
  destruct (IH _ _ _ _ H) as (ys & gs & -> & HF & -> & Hf').
  exists (y :: ys), (g :: gs). simpl. rewrite map_app, <-!app_assoc. split_and!; try done.
  - by constructor.
  - by apply fresh_for_app.
Qed.

(** What assigning one node does: containers get addresses on NICs that had none. *)
Definition node_given (node node' : val) (given : list string) : Prop :=
  (given = [] ∧ node' = node) ∨
  ∃ data nics nics' given_per_nic,
    has_type node "containerNode" = Ok true ∧ data_of node = Ok data ∧
    bind (get data "nics" empty_list) iter = Ok nics ∧
    Forall3 nic_given nics nics' given_per_nic ∧ given = concat given_per_nic ∧
    node' = update_nics node nics'.

Lemma assign_node_spec edges nets node acc used acc' used' :
  assign_node edges nets node (acc, used) = Ok (acc', used') →
  ∃ node' given, acc' = acc ++ [node'] ∧ node_given node node' given ∧
    used' = used ++ map VStr given ∧ fresh_for used given.
Proof.
  assert (Hnil : fresh_for used []) by (split; [constructor|set_solver]).
  unfold assign_node. intros H. bind_inv. destruct x.
  2: { injection H as <- <-. exists node, []. rewrite app_nil_r. by split_and!; [|left| |]. }
  cbn [negb] in H. bind_inv. destruct x2 as [nics' u]. simplify_eq.
  destruct (assign_loop_spec nic_given (assign_nic node edges nets)
    (assign_nic_spec node edges nets) _ _ _ _ _ H4) as (ys & gs & -> & HF & -> & Hf).
  exists (update_nics node ys), (concat gs). split_and!; try done. right.
  exists x, x1, ys, gs. rewrite H2. done.
Qed.

(** Container addresses: every NIC of every container keeps the address it has; a NIC
    without one gets at most one new address; and the new addresses of the whole topology are
    pairwise distinct and none was in use anywhere on the canvas. *)
Theorem container_ips_fresh topology topology' :
  auto_assign_container_ips topology = Ok topology' →
  ∃ nodes nodes' used given,
    nodes_of topology = Ok nodes ∧ collect_used_ips topology = Ok used ∧
    topology' = update_list topology "nodes" nodes' ∧
    Forall3 node_given nodes nodes' given ∧ fresh_for used (concat given).
Proof.
  unfold auto_assign_container_ips. intros H. bind_inv. destruct x3 as [nodes' u]. simplify_eq.
  destruct (assign_loop_spec node_given (assign_node x0 x2) (assign_node_spec x0 x2)
    _ _ _ _ _ H4) as (ys & gs & -> & HF & _ & Hf).
  by exists x, ys, x1, gs.
Qed.

Definition container_sample_nics (ip1 ip2 : list (string * val)) : val := VList
  [VDict ([("id", VStr "1")] ++ ip1); VDict ([("id", VStr "2")] ++ ip2)].

Definition container_sample (ip1 ip2 : list (string * val)) : val := VDict
  [("nodes", VList [
     VDict [("id", VStr "net"); ("type", VStr "networkNode");
            ("data", VDict [("cidr", VStr "10.0.0.0/24"); ("dhcpRangeStart", VStr "10.0.0.1");
                            ("dhcpRangeEnd", VStr "10.0.0.9")])];
     VDict [("id", VStr "c1"); ("type", VStr "containerNode");
            ("data", VDict [("nics", container_sample_nics ip1 ip2)])]]);
   ("edges", VList [
     VDict [("source", VStr "c1"); ("target", VStr "net"); ("sourceHandle", VStr "nic-1-top")];
     VDict [("source", VStr "net"); ("target", VStr "c1"); ("targetHandle", VStr "nic-2-top")]])].

Lemma container_ips_fresh_witness :
  let t := container_sample [] [] in
  let t' := container_sample [("ip", VStr "10.0.0.2")] [("ip", VStr "10.0.0.3")] in
  auto_assign_container_ips t = Ok t' ∧
  ∃ nodes nodes' used given,
    nodes_of t = Ok nodes ∧ collect_used_ips t = Ok used ∧
    t' = update_list t "nodes" nodes' ∧
    Forall3 node_given nodes nodes' given ∧ fresh_for used (concat given).
Proof.
  split; [vm_compute; reflexivity|]. apply container_ips_fresh. vm_compute. reflexivity.
Defined.
