(* ===== verification/OcpFlags.v ===== *)
(** * OCP check boxes of canvas nodes: [services/ocp_topology_flags.py]

    The nodes are changed in place; here the list of nodes is passed and written back. *)
From stdpp Require Import prelude strings.
From Stdlib Require Import Ascii.
From S2P Require Import Prelude PyStr PyVal PyLemmas TopoNodes.

Open Scope list_scope.

(** [node.get("data", {}).get(key)]. *)
Definition field (node : val) (key : string) : res val := d <- data_of node;; get d key VNone.

(** [ocp_topology_flags._vm_name] *)
Definition vm_name (node : val) : res string :=
  l <- field node "label";;
  n <- (if truthy l then Ok l else m <- field node "name";; Ok (v_or m vstr_empty));;
  s <- as_str n;; Ok (lower s).

(** [ocp_topology_flags.rhcos_vms]: a test of one node. *)
Definition is_rhcos_vm (n : val) : res bool :=
  has_type n "vmNode" <&&> (o <- field n "os";; Ok (eq_str o "rhcos")).

(** [ocp_topology_flags.has_bastion_vm] *)
Definition has_bastion_vm (topology : val) : res bool :=
  ns <- nodes_of topology;;
  any_res (λ n, has_type n "vmNode" <&&> (s <- vm_name n;; Ok (String.eqb s "bastion"))) ns.

(** [ocp_topology_flags._cluster_members]: a test of one node. *)
Definition in_cluster (cluster_id n : val) : res bool :=
  has_type n "vmNode" <&&> (c <- field n "clusterId";; Ok (py_eq c cluster_id)).

(** [ocp_topology_flags._is_control_plane] *)
Definition is_control_plane (n : val) : res bool :=
  role <- field n "clusterRole";;
  if in_strs role ["control-plane"; "worker"] then Ok (eq_str role "control-plane")
  else
    d <- data_of n;;
    tags <- get d "tags" empty_dict;;
    group <- get tags "AnsibleGroup" VNone;;
    Ok (match group with VStr s => contains "controllers" s | _ => false end).

(** [ocp_topology_flags.apply_cluster_ocp_flags:61-66] [_set]: the node, and whether it changed. *)
Definition set_flag (node : val) (key : string) : res (val * bool) :=
  '(node, data) <- setdefault node "data" empty_dict;;
  v <- get data key VNone;;
  if truthy v then Ok (node, false)
  else
    data <- set_item data key (VBool true);;
    node <- set_item node "data" data;;
    Ok (node, true).

(** The positions of the elements of a list that satisfy a test. *)
Fixpoint positions (p : val → res bool) (i : nat) (l : list val) : res (list nat) :=
  match l with
  | [] => Ok []
  | x :: l' => b <- p x;; r <- positions p (S i) l';; Ok (if b then i :: r else r)
  end.

(** Set a flag of the node at a position. *)
Definition set_at (i : nat) (key : string) (ns : list val) : res (list val * bool) :=
  match ns !! i with
  | None => Raise IndexError
  | Some n => '(n', ch) <- set_flag n key;; Ok (<[i := n']> ns, ch)
  end.

(** The test [m in cps] of one member, at its position. *)
Fixpoint control_planes (ns : list val) (members : list nat) : res (list nat) :=
  match members with
  | [] => Ok []
  | i :: ms =>
      b <- is_control_plane (default VNone (ns !! i));;
      r <- control_planes ns ms;; Ok (if b then i :: r else r)
  end.

(** The node a cluster's flags go to: its first control plane, or its first member. *)
Definition monitor_target (cid : val) (ns : list val) : res (option nat) :=
  members <- positions (in_cluster cid) 0 ns;;
  match members with
  | [] => Ok None
  | m :: _ =>
      cps <- control_planes ns members;;
      Ok (Some (match cps with c :: _ => c | [] => m end))
  end.

(** [ocp_topology_flags.apply_cluster_ocp_flags:69-82] one cluster. *)
Definition flag_cluster (cluster : val) (st : val * bool) : res (val * bool) :=
  let '(topology, changed) := st in
  install <- get cluster "installOnDeploy" VNone;;
  if match install with VBool false => true | _ => false end then Ok st
  else
    cid <- get cluster "id" VNone;;
    if negb (truthy cid) then Ok st
    else
      ns <- nodes_of topology;;
      target <- monitor_target cid ns;;
      match target with
      | None => Ok st
      | Some i =>
          '(ns, ch1) <- set_at i "ocpMonitor" ns;;
          b <- get cluster "configureBastionBrowser" VNone;;
          '(ns, ch2) <- (if truthy b then set_at i "configureBastionBrowser" ns else Ok (ns, false));;
          Ok (update_list topology "nodes" ns, changed || ch1 || ch2)
      end.

(** [topology.get("clusters", \[\])]. *)
Definition clusters_of (topology : val) : res (list val) :=
  c <- get topology "clusters" empty_list;; iter c.

(** [ocp_topology_flags.apply_cluster_ocp_flags] *)
Definition apply_cluster_ocp_flags (topology : val) : res (val * bool) :=
  clusters <- clusters_of topology;;
  for_each clusters (topology, false) flag_cluster.

(** [ocp_topology_flags._flag_unset] *)
Definition flag_unset (data : val) (key : string) : res bool :=
  v <- get data key VNone;; Ok (match v with VNone => true | _ => false end).

(** Set a key of [data] to true when a condition holds. *)
Definition set_true_if (c : bool) (key : string) (data : val) : res val :=
  if c then set_item data key (VBool true) else Ok data.

(** [ocp_topology_flags.apply_sno_ocp_vm_flags] *)
Definition apply_sno_ocp_vm_flags (topology : val) (recert : bool) : res val :=
  ns <- nodes_of topology;;
  vms <- positions is_rhcos_vm 0 ns;;
  match vms with
  | [i] =>
      '(node, data) <- setdefault (default VNone (ns !! i)) "data" empty_dict;;
      c <- py_and (Ok recert) (flag_unset data "recertEnabled");;
      data <- set_true_if c "recertEnabled" data;;
      c <- flag_unset data "ocpMonitor";;
      data <- set_true_if c "ocpMonitor" data;;
      node' <- set_item node "data" data;;
      let topology' := update_list topology "nodes" (<[i := node']> ns) in
      b <- py_and (has_bastion_vm topology') (flag_unset data "configureBastionBrowser");;
      data <- set_true_if b "configureBastionBrowser" data;;
      data <- set_true_if b "ocpMonitor" data;;
      node' <- set_item node "data" data;;
      Ok (update_list topology "nodes" (<[i := node']> ns))
  | _ => Ok topology
  end.

(** ** The docstring of [apply_sno_ocp_vm_flags] says an explicit [False] is preserved *)

Definition bastion_topology : val :=
  VDict [("nodes", VList
    [VDict [("id", VStr "b"); ("type", VStr "vmNode"); ("data", VDict [("label", VStr "Bastion")])];
     VDict [("id", VStr "s"); ("type", VStr "vmNode");
            ("data", VDict [("os", VStr "rhcos"); ("ocpMonitor", VBool false)])]])].

Example explicit_monitor_overridden :
  apply_sno_ocp_vm_flags bastion_topology false =
    Ok (VDict [("nodes", VList
      [VDict [("id", VStr "b"); ("type", VStr "vmNode"); ("data", VDict [("label", VStr "Bastion")])];
       VDict [("id", VStr "s"); ("type", VStr "vmNode");
              ("data", VDict [("os", VStr "rhcos"); ("ocpMonitor", VBool true);
                              ("configureBastionBrowser", VBool true)])]])]).
Proof. reflexivity. Qed.

(** ** Flags are only ever set *)

Definition FLAGS : list string := ["ocpMonitor"; "configureBastionBrowser"].

(** A node that lost nothing: other fields as they were, a flag that was set still set. *)
Definition extends (n n' : val) : Prop :=
  (∀ k, k ≠ "data" → get n' k VNone = get n k VNone) ∧
  (∀ k, k ∉ FLAGS → field n' k = field n k) ∧
  (∀ k dflt, k ∉ FLAGS → (d <- data_of n';; get d k dflt) = (d <- data_of n;; get d k dflt)) ∧
  (∀ k v, field n k = Ok v → truthy v = true → field n' k = Ok v).

#[export] Instance extends_preorder : PreOrder extends.
Proof.
  split; [intros n; split_and!; by intros|]. intros a b c (A1 & A2 & A3 & A4) (B1 & B2 & B3 & B4).
  split_and!.
  - intros k Hk. by rewrite B1, A1.
  - intros k Hk. by rewrite B2, A2.
  - intros k dflt Hk. by rewrite B3, A3.
  - intros k v Hv Ht. by apply B4; [apply A4|].
Qed.

Lemma set_flag_spec n key n' ch :
  key ∈ FLAGS → set_flag n key = Ok (n', ch) →
  extends n n' ∧ (∃ v, field n' key = Ok v ∧ truthy v = true) ∧ (ch = false → n' = n).
Proof.
  intros Hkey. unfold set_flag. destruct n as [| | | | |kvs]; try done. cbn [setdefault bind].
  set (p := match assoc "data" kvs with Some v => (VDict kvs, v) | None => _ end).
  assert (Hdata : data_of (VDict kvs) = Ok p.2 ∧ (∃ kvs', p.1 = VDict kvs' ∧
    assoc "data" kvs' = Some p.2 ∧ ∀ k, k ≠ "data" → assoc k kvs' = assoc k kvs)).
  { unfold p, data_of, get. destruct (assoc "data" kvs) eqn:E; cbn; (split; [done|]); eexists;
      (split; [done|]); [done|]. rewrite assoc_set_eq. split; [done|]. intros k Hk. by rewrite assoc_set_ne. }
  destruct Hdata as [Hdata (kvs' & Hp1 & Hk1 & Hk2)].
  destruct p as [node data] eqn:Ep. cbn [fst snd] in *. subst node. intros (v & Hv & H)%bind_Ok.
  destruct (truthy v) eqn:Et.
  - injection H as <- <-. assert (Hsome : assoc "data" kvs = Some data).
    { unfold p in Ep. destruct (assoc "data" kvs) eqn:E; [by injection Ep as _ ->|].
      injection Ep as _ <-. cbn in Hv. injection Hv as <-. done. }
    assert (VDict kvs' = VDict kvs) as ->.
    { unfold p in Ep. rewrite Hsome in Ep. congruence. }
    split; [reflexivity|]. split; [|done]. exists v. split; [|done]. unfold field. by rewrite Hdata.
  - destruct data as [| | | | |d]; try done. cbn [set_item bind] in H. injection H as <- <-.
    assert (Hd' : data_of (VDict (assoc_set "data" (VDict (assoc_set key (VBool true) d)) kvs')) =
      Ok (VDict (assoc_set key (VBool true) d))) by (unfold data_of, get; by rewrite assoc_set_eq).
    assert (Hget : ∀ k dflt, k ≠ key → get (VDict (assoc_set key (VBool true) d)) k dflt = get (VDict d) k dflt).
    { intros k dflt Hk. cbn. by rewrite assoc_set_ne by congruence. }
    split_and!; [split_and!|..].
    + intros k Hk. cbn. by rewrite assoc_set_ne, Hk2 by congruence.
    + intros k Hk. unfold field. rewrite Hd', Hdata. cbn [bind]. apply Hget. intros ->. done.
    + intros k dflt Hk. rewrite Hd', Hdata. cbn [bind]. apply Hget. intros ->. done.
    + intros k w Hw Htw. unfold field in *. rewrite Hd'. rewrite Hdata in Hw. cbn [bind] in *.
      rewrite Hget; [done|]. intros ->. rewrite Hv in Hw. injection Hw as ->. congruence.
    + exists (VBool true). split; [|done]. unfold field. rewrite Hd'. cbn. by rewrite assoc_set_eq.
    + done.
Qed.

(** A flag that is set is left alone. *)
Lemma set_flag_noop n key v : field n key = Ok v → truthy v = true → set_flag n key = Ok (n, false).
Proof.
  intros Hf Ht. unfold field in Hf. apply bind_Ok in Hf as (d & Hd & Hv). unfold set_flag.
  destruct n as [| | | | |kvs]; try done. unfold data_of, get in Hd. cbn [setdefault bind].
  destruct (assoc "data" kvs) eqn:E; cbn in Hd; injection Hd as <-.
  - cbn [bind]. rewrite Hv. cbn [bind]. by rewrite Ht.
  - cbn in Hv. injection Hv as <-. done.
Qed.

(** What the target of a cluster is chosen by does not change. *)
Lemma extends_tests n n' cid :
  extends n n' → in_cluster cid n' = in_cluster cid n ∧ is_control_plane n' = is_control_plane n.
Proof.
  intros (H1 & H2 & H3 & _). split.
  - unfold in_cluster, has_type, type_of. rewrite H1 by done. rewrite H2 by (apply (bool_decide_unpack _); by vm_compute). done.
  - unfold is_control_plane. rewrite H2 by (apply (bool_decide_unpack _); by vm_compute).
    destruct (field n "clusterRole") as [role|]; cbn [bind]; [|done]. destruct (in_strs role _); [done|].
    specialize (H3 "tags" empty_dict ltac:(apply (bool_decide_unpack _); by vm_compute)).
    rewrite <-(bind_assoc (data_of n') (λ d, get d "tags" empty_dict)), H3.
    by rewrite <-(bind_assoc (data_of n) (λ d, get d "tags" empty_dict)).
Qed.

Lemma target_extends cid ns ns' : Forall2 extends ns ns' → monitor_target cid ns' = monitor_target cid ns.
Proof.
  intros HF. unfold monitor_target.
  assert (Hpos : ∀ i, positions (in_cluster cid) i ns' = positions (in_cluster cid) i ns).
  { induction HF as [|n n' l l' Hn _ IH]; intros i; cbn [positions]; [done|].
    destruct (extends_tests n n' cid Hn) as [-> _]. by rewrite IH. }
  rewrite Hpos. destruct (positions _ 0 ns) as [members|]; [|done]. cbn [bind].
  assert (Hcp : ∀ l, control_planes ns' l = control_planes ns l).
  { induction l as [|i l IH]; cbn [control_planes]; [done|]. rewrite IH.
    assert (extends (default VNone (ns !! i)) (default VNone (ns' !! i))) as He.
    { clear -HF. revert i. induction HF; intros [|i]; cbn; [done|done|done|auto]. }
    by destruct (extends_tests _ _ cid He) as [_ ->]. }
  by rewrite Hcp.
Qed.

(** ** Applying the flags twice *)

(** The flags of a cluster are on its target. *)
Definition settled (c t : val) : Prop :=
  ∃ install cid conf, get c "installOnDeploy" VNone = Ok install ∧ get c "id" VNone = Ok cid ∧
    get c "configureBastionBrowser" VNone = Ok conf ∧
    (install = VBool false ∨ truthy cid = false ∨
     ∃ ns target, nodes_of t = Ok ns ∧ monitor_target cid ns = Ok target ∧
       ∀ i, target = Some i → ∃ n v, ns !! i = Some n ∧ field n "ocpMonitor" = Ok v ∧ truthy v = true ∧
         (truthy conf = true → ∃ w, field n "configureBastionBrowser" = Ok w ∧ truthy w = true)).

(** A canvas whose nodes lost nothing. *)
Definition grows (t t' : val) : Prop :=
  clusters_of t' = clusters_of t ∧
  ∀ ns, nodes_of t = Ok ns → ∃ ns', nodes_of t' = Ok ns' ∧ Forall2 extends ns ns'.

Lemma Forall2_extends_refl ns : Forall2 extends ns ns.
Proof. induction ns; by constructor. Qed.

#[export] Instance grows_preorder : PreOrder grows.
Proof.
  split; [intros t; split; [done|]; intros ns Hns; exists ns; split; [done|apply Forall2_extends_refl]|].
  intros a b c [A1 A2] [B1 B2]. split; [congruence|]. intros ns Hns.
  destruct (A2 ns Hns) as (ns1 & Hns1 & H1), (B2 _ Hns1) as (ns2 & Hns2 & H2).
  exists ns2. split; [done|]. clear -H1 H2. revert ns2 H2.
  induction H1 as [|x y l l1 Hxy _ IH]; intros l2 H2; [by apply Forall2_nil_inv_l in H2 as ->|].
  apply Forall2_cons_inv_l in H2 as (z & l2' & Hyz & H2 & ->). constructor; [by transitivity y|by apply IH].
Qed.

Lemma settled_grows c t t' : settled c t → grows t t' → settled c t'.
Proof.
  intros (install & cid & conf & H1 & H2 & H3 & Hs) [_ Hg]. exists install, cid, conf. split_and!; try done.
  destruct Hs as [|[|(ns & target & Hns & Ht & Hi)]]; [by left|by right; left|]. right; right.
  destruct (Hg ns Hns) as (ns' & Hns' & HF). exists ns', target. split; [done|].
  split; [by rewrite (target_extends cid ns ns' HF)|]. intros i Hti.
  destruct (Hi i Hti) as (n & v & Hn & Hv & Htv & Hw).
  destruct (Forall2_lookup_l _ _ _ _ _ HF Hn) as (n' & Hn' & (_ & _ & _ & Hext)). exists n', v.
  split_and!; [done|by apply Hext|done|]. intros Hc. destruct (Hw Hc) as (w & Hw1 & Hw2). exists w.
  split; [by apply Hext|done].
Qed.

(** Nodes that are objects come from a list, which can be written back. *)
Lemma nodes_written t ns i kvs ns' :
  nodes_of t = Ok ns → ns !! i = Some (VDict kvs) →
  nodes_of (update_list t "nodes" ns') = Ok ns' ∧ clusters_of (update_list t "nodes" ns') = clusters_of t ∧
  (ns' = ns → update_list t "nodes" ns' = t).
Proof.
  intros Hns Hi. unfold nodes_of in Hns. destruct t as [| | | | |d]; try done. cbn [get bind] in Hns.
  destruct (assoc "nodes" d) as [v|] eqn:E; cbn [from_option] in Hns; unfold id in Hns.
  2: { injection Hns as <-. done. }
  assert (v = VList ns) as ->.
  { destruct v as [| | |s|l|d']; try done; injection Hns as <-.
    - exfalso. revert i Hi. clear. induction s as [|a s IH]; intros i Hi; [done|].
      cbn [chars] in Hi. destruct i as [|i]; [done|]. by apply (IH i).
    - done.
    - apply list_lookup_fmap_Some in Hi as (? & ? & ?). done. }
  cbn [update_list]. rewrite E. unfold nodes_of, clusters_of. cbn [get bind].
  rewrite assoc_set_eq, assoc_set_ne by discriminate. split_and!; [done|done|].
  intros ->. by rewrite assoc_set_id.
Qed.

Lemma set_at_spec i key ns ns' ch :
  key ∈ FLAGS → set_at i key ns = Ok (ns', ch) →
  ∃ n n' v, ns !! i = Some n ∧ ns' = <[i := n']> ns ∧ extends n n' ∧ field n' key = Ok v ∧ truthy v = true ∧
    (∃ kvs, n = VDict kvs) ∧ Forall2 extends ns ns'.
Proof.
  intros Hkey. unfold set_at. destruct (ns !! i) as [n|] eqn:En; [|done].
  intros ([n' b] & Hs & [= <- <-])%bind_Ok.
  destruct (set_flag_spec n key n' b Hkey Hs) as (He & (v & Hv & Ht) & _). exists n, n', v.
  split_and!; try done.
  - destruct n as [| | | | |kvs]; try done. by eexists.
  - clear -He En. revert i En. induction ns as [|m ns IH]; intros [|i] En; try done.
    + cbn in *. injection En as ->. constructor; [done|apply Forall2_extends_refl].
    + cbn. constructor; [done|by apply IH].
Qed.

Lemma flag_cluster_spec c t b t' b' :
  flag_cluster c (t, b) = Ok (t', b') → is_Ok (get c "configureBastionBrowser" VNone) →
  is_Ok (get c "id" VNone) → grows t t' ∧ settled c t'.
Proof.
  intros H [conf Hconf] [cid Hcid]. unfold flag_cluster in H. apply bind_Ok in H as (install & Hi & H).
  destruct (match install with VBool false => true | _ => false end) eqn:Einst.
  { injection H as <- <-. split; [done|]. exists install, cid, conf. split_and!; try done.
    left. by destruct install as [|[]| | | |]. }
  rewrite Hcid in H. cbn [bind] in H. destruct (truthy cid) eqn:Ecid; cbn [negb] in H.
  2: { injection H as <- <-. split; [done|]. exists install, cid, conf. split_and!; try done. by right; left. }
  apply bind_Ok in H as (ns & Hns & H). apply bind_Ok in H as (target & Ht & H).
  destruct target as [i|].
  2: { injection H as <- <-. split; [done|]. exists install, cid, conf. split_and!; try done. right; right.
       exists ns, None. split_and!; [done|done|]. by intros i. }
  apply bind_Ok in H as ([ns1 ch1] & Hs1 & H). rewrite Hconf in H. cbn [bind] in H.
  apply bind_Ok in H as ([ns2 ch2] & Hs2 & H). injection H as <- _.
  apply set_at_spec in Hs1 as (n & n1 & v & Hn & -> & He1 & Hv & Htv & (kvs & ->) & HF1);
    [|apply (bool_decide_unpack _); by vm_compute].
  assert (Hn1 : <[i := n1]> ns !! i = Some n1) by (apply list_lookup_insert_eq; by eapply lookup_lt_Some).
  assert (H2 : ∃ n2, ns2 !! i = Some n2 ∧ Forall2 extends (<[i := n1]> ns) ns2 ∧
    (truthy conf = true → ∃ w, field n2 "configureBastionBrowser" = Ok w ∧ truthy w = true)).
  { destruct (truthy conf).
    - apply set_at_spec in Hs2 as (m & n2 & w & Hm & -> & He2 & Hw & Htw & _ & HF2);
        [|apply (bool_decide_unpack _); by vm_compute].
      exists n2. split_and!; [apply list_lookup_insert_eq; by eapply lookup_lt_Some|done|by eauto].
    - injection Hs2 as <- <-. exists n1. split_and!; [done|apply Forall2_extends_refl|done]. }
  destruct H2 as (n2 & Hn2 & HF2 & Hw).
  assert (HF : Forall2 extends ns ns2).
  { transitivity (<[i := n1]> ns); [exact HF1|exact HF2]. }
  destruct (nodes_written t ns i kvs ns2 Hns Hn) as (Hw1 & Hw2 & _). split.
  - split; [done|]. intros ns0 Hns0. rewrite Hns in Hns0. injection Hns0 as <-. by exists ns2.
  - exists install, cid, conf. split_and!; try done. right; right. exists ns2, (Some i).
    split; [done|]. split; [by rewrite (target_extends cid ns ns2 HF)|]. intros j [= <-].
    destruct (Forall2_lookup_lr _ _ _ _ _ _ HF2 Hn1 Hn2) as (_ & _ & _ & Hext).
    exists n2, v. split_and!; [done|by apply Hext|done|done].
Qed.

Lemma settled_noop c t b : settled c t → flag_cluster c (t, b) = Ok (t, b).
Proof.
  intros (install & cid & conf & H1 & H2 & H3 & Hs). unfold flag_cluster. rewrite H1. cbn [bind].
  destruct (match install with VBool false => true | _ => false end) eqn:Ei; [done|].
  rewrite H2. cbn [bind]. destruct (truthy cid) eqn:Ec; cbn [negb]; [|done].
  destruct Hs as [->|[Hs|(ns & target & Hns & Ht & Hi)]]; [done|congruence|].
  rewrite Hns. cbn [bind]. rewrite Ht. cbn [bind]. destruct target as [i|]; [|done].
  destruct (Hi i eq_refl) as (n & v & Hn & Hv & Htv & Hw). unfold set_at at 1. rewrite Hn.
  rewrite (set_flag_noop n "ocpMonitor" v) by done. cbn [bind]. rewrite list_insert_id by done.
  rewrite H3. cbn [bind].
  assert (Hdict : ∃ kvs, n = VDict kvs).
  { unfold field, data_of in Hv. destruct n as [| | | | |kvs]; try done. by eexists. }
  destruct Hdict as [kvs ->]. destruct (nodes_written t ns i kvs ns Hns Hn) as (_ & _ & Hid).
  destruct (truthy conf).
  - destruct (Hw eq_refl) as (w & Hw1 & Hw2). unfold set_at. rewrite Hn.
    rewrite (set_flag_noop (VDict kvs) "configureBastionBrowser" w) by done. cbn [bind].
    rewrite list_insert_id by done. cbn [bind]. rewrite Hid by done. by rewrite !orb_false_r.
  - cbn [bind]. rewrite Hid by done. by rewrite !orb_false_r.
Qed.

(** Projecting the cluster flags is additive and idempotent: it never clears a flag nor
    touches another field of a node, and applied to its own result it changes nothing and
    says so, so a canvas can be saved again without spurious changes. *)
Theorem cluster_flags_idempotent t t' changed :
  apply_cluster_ocp_flags t = Ok (t', changed) →
  grows t t' ∧ apply_cluster_ocp_flags t' = Ok (t', false).
Proof.
  intros H. unfold apply_cluster_ocp_flags in *. apply bind_Ok in H as (cs & Hc & H).
  assert (Hloop : ∀ st, for_each cs st flag_cluster = Ok (t', changed) →
    grows st.1 t' ∧ ∀ c, c ∈ cs → settled c t').
  { clear Hc H. induction cs as [|c cs IH]; intros st; cbn [for_each].
    { intros [= ->]. split; [done|]. intros c Hin. by apply not_elem_of_nil in Hin. }
    intros ([t1 b1] & H1 & H2)%bind_Ok. destruct st as [t0 b0].
    destruct (flag_cluster_spec c t0 b0 t1 b1 H1) as [Hg Hs];
      [by destruct c; (done || eexists)|by destruct c; (done || eexists)|].
    destruct (IH _ H2) as [Hg' Hs']. cbn [fst] in *.
    split; [by transitivity t1|]. intros x [->|Hx]%elem_of_cons; [by eapply settled_grows|by apply Hs']. }
  destruct (Hloop _ H) as [Hg Hs]. cbn [fst] in Hg. split; [done|]. destruct Hg as [Hcl _]. rewrite Hcl, Hc. cbn [bind].
  clear -Hs. induction cs as [|c cs IH]; cbn [for_each]; [done|].
  rewrite settled_noop by (apply Hs; by left). cbn [bind]. apply IH. intros x Hx. apply Hs. by right.
Qed.

Definition cluster_topology : val :=
  VDict [("clusters", VList [VDict [("id", VStr "c1"); ("configureBastionBrowser", VBool true)]]);
         ("nodes", VList
           [VDict [("id", VStr "w"); ("type", VStr "vmNode");
                   ("data", VDict [("clusterId", VStr "c1"); ("clusterRole", VStr "worker")])];
            VDict [("id", VStr "m"); ("type", VStr "vmNode");
                   ("data", VDict [("clusterId", VStr "c1"); ("clusterRole", VStr "control-plane")])]])].

Lemma cluster_flags_idempotent_witness :
  ∃ t', apply_cluster_ocp_flags cluster_topology = Ok (t', true) ∧ apply_cluster_ocp_flags t' = Ok (t', false).
Proof.
  eexists. split; [reflexivity|]. apply (cluster_flags_idempotent cluster_topology _ true). reflexivity.
Defined.
