(* ===== verification/TopologyValidate.v ===== *)
(** * Topology validation: the start of [deploy_topology.py]

    Duplicate names, duplicate addresses per network, the Ceph lab address
    against everything already claimed on its network, missing passwords, and
    the non-blocking warnings about reserved infrastructure addresses. *)
From stdpp Require Import prelude strings.
From Stdlib Require Import Ascii.
From S2P Require Import Prelude PyStr PyVal PyLemmas Ipv4 TopoNodes IpAssign.

(** ** Duplicate names *)

(** [deploy_topology.validate_topology_names:43-50] the bucket of a node and its
    label; other types are skipped. *)
Definition name_bucket (node : val) : res (option (string * string)) :=
  ty <- type_of node;;
  Ok (if eq_str ty "vmNode" then Some ("vm", "VM")
      else if eq_str ty "networkNode" then Some ("network", "Network")
      else if eq_str ty "storageNode" then Some ("storage", "Disk")
      else None).

(** [deploy_topology.validate_topology_names:38-54] one node; [seen] holds the
    names met per bucket. *)
Definition validate_name (node : val) (s : list string * list (string * list (val * val)))
    : res (list string * list (string * list (val * val))) :=
  let '(errors, seen) := s in
  data <- data_of node;;
  name <- get data "name" VNone;;
  label <- get data "label" vstr_empty;;
  let name := v_or name label in
  if negb (truthy name) then Ok (errors, seen)
  else
    b <- name_bucket node;;
    match b with
    | None => Ok (errors, seen)
    | Some (bucket, label) =>
        let names := default [] (assoc bucket seen) in
        o <- vget name names;;
        match o with
        | Some _ => Ok (errors ++ ["Duplicate " +:+ label +:+ " name: '" +:+ py_str name +:+ "'"], seen)
        | None =>
            i <- idx node "id";;
            names' <- vset name i names;;
            Ok (errors, assoc_set bucket names' seen)
        end
    end.

(** [deploy_topology.validate_topology_names] *)
Definition validate_topology_names (topology : val) : res (list string) :=
  ns <- nodes_of topology;;
  '(errors, _) <- for_each ns ([], [("vm", []); ("network", []); ("storage", [])]) validate_name;;
  Ok errors.

(** ** NICs and the networks they are wired to *)

(** [deploy_topology._is_nic_edge] *)
Definition is_nic_edge (nodes_by_id : list (val * val)) (net_id vm_id handle : val) : res bool :=
  (o <- vget net_id nodes_by_id;; has_type (default empty_dict o) "networkNode") <&&>
  (o <- vget vm_id nodes_by_id;;
   has_type_in (default empty_dict o) ["vmNode"; "containerNode"]) <&&>
  has_key "nic-" handle.

(** [deploy_topology._build_nic_to_network_map:374-380] one end of an edge. *)
Definition map_nic_handle (nodes_by_id : list (val * val)) (net_id vm_id handle : val)
    (m : list (val * val)) : res (list (val * val)) :=
  b <- is_nic_edge nodes_by_id net_id vm_id handle;;
  if negb b then Ok m
  else
    h <- as_str handle;;
    let raw := replace "-bottom" "" (replace "-top" "" h) in
    if startswith "nic-" raw then vset (VStr (str_drop 4 raw)) net_id m else Ok m.

(** [deploy_topology._build_nic_to_network_map] *)
Definition build_nic_to_network_map (topology : val) (nodes_by_id : list (val * val))
    : res (list (val * val)) :=
  es <- edges_of topology;;
  for_each es [] (λ edge m,
    src <- get edge "source" vstr_empty;;
    tgt <- get edge "target" vstr_empty;;
    th <- get edge "targetHandle" vstr_empty;;
    m <- map_nic_handle nodes_by_id src tgt th m;;
    sh <- get edge "sourceHandle" vstr_empty;;
    map_nic_handle nodes_by_id tgt src sh m).

(** ** Duplicate addresses *)

Notation net_table := (list (val * list (val * val))).

(** [deploy_topology._check_duplicate_ips:405-422] one NIC; [per_network] maps a
    network to the addresses met on it and their owner. *)
Definition check_nic_ip (nodes_by_id nic_to_network : list (val * val)) (vm_name nic : val)
    (s : list string * net_table) : res (list string * net_table) :=
  let '(errors, per_network) := s in
  ip <- get nic "ip" vstr_empty;;
  if negb (truthy ip) then Ok (errors, per_network)
  else
    nic_id <- idx nic "id";;
    o <- vget nic_id nic_to_network;;
    let net_id := default (VStr "unconnected") o in
    n <- vget net_id nodes_by_id;;
    d <- data_of (default empty_dict n);;
    net_name <- get d "name" (VStr "unconnected");;
    seen <- vget net_id per_network;;
    let seen := default [] seen in
    other <- vget ip seen;;
    match other with
    | Some other_vm =>
        per_network' <- vset net_id seen per_network;;
        Ok (errors ++ ["Duplicate IP " +:+ py_str ip +:+ " on network '" +:+ py_str net_name +:+
                       "': used by both '" +:+ py_str other_vm +:+ "' and '" +:+
                       py_str vm_name +:+ "'"], per_network')
    | None =>
        seen' <- vset ip vm_name seen;;
        per_network' <- vset net_id seen' per_network;;
        Ok (errors, per_network')
    end.

(** [deploy_topology._check_duplicate_ips:401-422] one node. *)
Definition check_node_ips (nodes_by_id nic_to_network : list (val * val)) (node : val)
    (s : list string * net_table) : res (list string * net_table) :=
  t <- has_type_in node ["vmNode"; "containerNode"];;
  if negb t then Ok s
  else
    d <- data_of node;;
    vm_name <- get d "name" (VStr "?");;
    nics <- get d "nics" empty_list;;
    nics <- iter nics;;
    for_each nics s (check_nic_ip nodes_by_id nic_to_network vm_name).

(** [deploy_topology._check_duplicate_ips] *)
Definition check_duplicate_ips (topology : val) (nodes_by_id nic_to_network : list (val * val))
    : res (list string) :=
  ns <- nodes_of topology;;
  '(errors, _) <- for_each ns ([], []) (check_node_ips nodes_by_id nic_to_network);;
  Ok errors.

(** ** The Ceph lab address *)

(** [deploy_topology._default_ceph_lab_ip] *)
Definition default_ceph_lab_ip (cidr : string) : string :=
  if negb (contains "/" cidr) then ""
  else
    match split "." (split_head "/" cidr) with
    | [a; b; c; _] => join "." [a; b; c; "4"]
    | _ => ""
    end.

(** Addresses claimed on a network and by what. *)
Notation claims := (list (string * string)).

(** [deploy_topology._claim_cidr_infra_ips] *)
Definition claim_cidr_infra_ips (cidr : string) (claimed : claims) : res claims :=
  if String.eqb cidr "" then Ok claimed
  else
    match ip_network (VStr cidr) with
    | Raise ValueError => Ok claimed
    | Raise e => Raise e
    | Ok net =>
        match addr_add (net_addr net) 1 with
        | Raise _ => Ok claimed
        | Ok a =>
            let claimed := assoc_set (ip_str a) "gateway" claimed in
            match addr_add (net_addr net) 2 with
            | Raise _ => Ok claimed
            | Ok b => Ok (assoc_set (ip_str b) "dnsmasq" claimed)
            end
        end
    end.

(** [claimed\[ip\] = label] when there is an address. *)
Definition claim (ip label : string) (claimed : claims) : claims :=
  if String.eqb ip "" then claimed else assoc_set ip label claimed.

(** [deploy_topology._claim_dns_records_and_lb] *)
Definition claim_dns_records_and_lb (net_data : val) (claimed : claims) : res claims :=
  recs <- get net_data "dnsRecords" VNone;;
  recs <- iter (v_or recs empty_list);;
  claimed <- for_each recs claimed (λ rec claimed,
    ip <- text_field rec "ip";;
    name <- get rec "name" VNone;;
    Ok (claim ip ("DNS record '" +:+ py_str (v_or name (VStr "dns record")) +:+ "'") claimed));;
  lb <- text_field net_data "lbIp";;
  Ok (claim lb "load balancer" claimed).

(** [deploy_topology._claim_nic_ips_for_network] *)
Definition claim_nic_ips_for_network (topology : val) (network_id : string)
    (nic_to_network : list (val * val)) (claimed : claims) : res claims :=
  ns <- nodes_of topology;;
  for_each ns claimed (λ node claimed,
    t <- has_type_in node ["vmNode"; "containerNode"];;
    if negb t then Ok claimed
    else
      d <- data_of node;;
      name <- get d "name" (VStr "?");;
      nics <- get d "nics" empty_list;;
      nics <- iter nics;;
      for_each nics claimed (λ nic claimed,
        nic_id <- get nic "id" vstr_empty;;
        o <- vget nic_id nic_to_network;;
        if negb (eq_str (default VNone o) network_id) then Ok claimed
        else
          ip <- text_field nic "ip";;
          Ok (claim ip ("VM/container '" +:+ py_str name +:+ "'") claimed))).

(** [deploy_topology._claim_vip_keys] *)
Definition claim_vip_keys (source cname : val) (claimed : claims) (snake_fallback : bool)
    : res claims :=
  for_each [("apiVip", "API VIP"); ("ingressVip", "ingress VIP")] claimed (λ '(key, label) claimed,
    v <- get source key VNone;;
    v <- (if snake_fallback && negb (truthy v)
          then get source (replace "Vip" "_vip" key) VNone else Ok v);;
    Ok (claim (strip (py_str (v_or v vstr_empty)))
              ("cluster '" +:+ py_str cname +:+ "' " +:+ label) claimed)).

(** [deploy_topology._claim_topology_cluster_vips] *)
Definition claim_topology_cluster_vips (topology : val) (network_id : string) (claimed : claims)
    : res claims :=
  cs <- get topology "clusters" VNone;;
  cs <- iter (v_or cs empty_list);;
  for_each cs claimed (λ cluster claimed,
    ids <- get cluster "networkIds" VNone;;
    ids <- iter (v_or ids empty_list);;
    ids <- map_res hkey ids;;
    if negb (vmem (VStr network_id) ids) then Ok claimed
    else
      name <- get cluster "name" VNone;;
      claim_vip_keys cluster (v_or name (VStr "cluster")) claimed true).

(** [deploy_topology._claim_cluster_node_vips] *)
Definition claim_cluster_node_vips (topology : val) (claimed : claims) : res claims :=
  ns <- nodes_of topology;;
  for_each ns claimed (λ node claimed,
    t <- has_type node "clusterNode";;
    if negb t then Ok claimed
    else
      data <- data_of node;;
      name <- get data "name" VNone;;
      claim_vip_keys data (v_or name (VStr "cluster")) claimed false).

(** [deploy_topology._collect_ips_on_network] *)
Definition collect_ips_on_network (topology : val) (network_id : string)
    (nodes_by_id nic_to_network : list (val * val)) : res claims :=
  o <- network_node_by_id topology (VStr network_id);;
  match o with
  | None => Ok []
  | Some net_node =>
      net_data <- data_of net_node;;
      cidr <- get net_data "cidr" VNone;;
      claimed <- claim_cidr_infra_ips (py_str (v_or cidr vstr_empty)) [];;
      claimed <- claim_dns_records_and_lb net_data claimed;;
      nodes_by_id <- (match nodes_by_id with
                      | [] => ns <- nodes_of topology;; nodes_by_id_of ns
                      | m => Ok m
                      end);;
      nic_to_network <- (match nic_to_network with
                         | [] => build_nic_to_network_map topology nodes_by_id
                         | m => Ok m
                         end);;
      claimed <- claim_nic_ips_for_network topology network_id nic_to_network claimed;;
      claimed <- claim_topology_cluster_vips topology network_id claimed;;
      claim_cluster_node_vips topology claimed
  end.

(** [deploy_topology._lab_ip_in_dhcp_pool] *)
Definition lab_ip_in_dhcp_pool (lab_ip : string) (net_data : val) : res bool :=
  dhcp <- get net_data "dhcp" VNone;;
  if negb (truthy dhcp) then Ok false
  else
    r <- get_dhcp_range net_data;;
    match r with
    | None => Ok false
    | Some (start, stop) =>
        match ip_int_from_string lab_ip with
        | None => Ok false
        | Some a => Ok ((start <=? a) && (a <=? stop))
        end
    end.

(** [deploy_topology._ceph_lab_ip_cidr_error] *)
Definition ceph_lab_ip_cidr_error (lab_ip cidr ceph_name net_label : string) : option string :=
  let invalid := Some ("Ceph Storage '" +:+ ceph_name +:+ "' lab IP " +:+ repr_str lab_ip +:+
                       " is invalid") in
  match ip_int_from_string lab_ip with
  | None => invalid
  | Some ip =>
      if String.eqb cidr "" then None
      else
        match ip_network_of_string cidr with
        | None => invalid
        | Some net =>
            if in_network ip net then None
            else Some ("Ceph Storage '" +:+ ceph_name +:+ "' lab IP " +:+ lab_ip +:+
                       " is outside network '" +:+ net_label +:+ "' (" +:+ cidr +:+ ")")
        end
  end.

(** [deploy_topology._ceph_lab_ip_conflict_error] *)
Definition ceph_lab_ip_conflict_error (lab_ip ceph_name net_label : string) (net_data : val)
    (claimed : claims) : res (option string) :=
  match assoc lab_ip claimed with
  | Some owner =>
      Ok (Some ("Ceph Storage '" +:+ ceph_name +:+ "' lab IP " +:+ lab_ip +:+
                " conflicts with " +:+ owner +:+ " on network '" +:+ net_label +:+ "'"))
  | None =>
      pool <- lab_ip_in_dhcp_pool lab_ip net_data;;
      Ok (if pool
          then Some ("Ceph Storage '" +:+ ceph_name +:+ "' lab IP " +:+ lab_ip +:+
                     " falls in the DHCP pool on network '" +:+ net_label +:+ "'")
          else None)
  end.

(** [deploy_topology._validate_one_ceph_lab_ip] *)
Definition validate_one_ceph_lab_ip (node topology : val)
    (nodes_by_id nic_to_network : list (val * val)) : res (list string) :=
  data <- data_of node;;
  name <- get data "name" VNone;;
  label <- get data "label" VNone;;
  let ceph_name := py_str (v_or (v_or name label) (VStr "Ceph Storage")) in
  network_ref <- text_field data "networkRef";;
  net_node <- network_node_by_id topology (VStr network_ref);;
  match net_node with
  | None => Ok ["Ceph Storage '" +:+ ceph_name +:+ "' has no lab network selected"]
  | Some net_node =>
      if String.eqb network_ref "" || negb (truthy net_node)
      then Ok ["Ceph Storage '" +:+ ceph_name +:+ "' has no lab network selected"]
      else
        net_data <- data_of net_node;;
        net_name <- get net_data "name" VNone;;
        let net_label := py_str (v_or net_name (VStr network_ref)) in
        cidr <- get net_data "cidr" VNone;;
        let cidr := py_str (v_or cidr vstr_empty) in
        lab <- text_field data "labIp";;
        let lab_ip := if String.eqb lab "" then default_ceph_lab_ip cidr else lab in
        if String.eqb lab_ip ""
        then Ok ["Ceph Storage '" +:+ ceph_name +:+ "' has no lab IP configured"]
        else
          match ceph_lab_ip_cidr_error lab_ip cidr ceph_name net_label with
          | Some err => Ok [err]
          | None =>
              claimed <- collect_ips_on_network topology network_ref nodes_by_id nic_to_network;;
              conflict <- ceph_lab_ip_conflict_error lab_ip ceph_name net_label net_data claimed;;
              Ok (match conflict with Some c => [c] | None => [] end)
          end
  end.

(** [deploy_topology.validate_ceph_lab_ips] *)
Definition validate_ceph_lab_ips (topology : val) : res (list string) :=
  ns <- nodes_of topology;;
  nodes_by_id <- nodes_by_id_of ns;;
  nic_to_network <- build_nic_to_network_map topology nodes_by_id;;
  for_each ns [] (λ node errors,
    t <- has_type node "cephClusterNode";;
    if negb t then Ok errors
    else
      es <- validate_one_ceph_lab_ip node topology nodes_by_id nic_to_network;;
      Ok (errors ++ es)).

(** [deploy_topology.validate_topology_ips] *)
Definition validate_topology_ips (topology : val) : res (list string) :=
  ns <- nodes_of topology;;
  nodes_by_id <- nodes_by_id_of ns;;
  nic_to_network <- build_nic_to_network_map topology nodes_by_id;;
  dups <- check_duplicate_ips topology nodes_by_id nic_to_network;;
  ceph <- validate_ceph_lab_ips topology;;
  Ok (dups ++ ceph).

(** ** Warnings and passwords *)

(** [deploy_topology._network_infra_ips:309-312] the reserved addresses of one
    network: an address outside IPv4 is an uncaught [ValueError]. *)
Definition claim_infra (net : network) (infra : claims) : res claims :=
  for_each [(1, "gateway"); (2, "dnsmasq"); (3, "exec"); (9, "showroom")] infra
    (λ '(k, label) infra,
      a <- addr_add (net_addr net) k;; Ok (assoc_set (ip_str a) label infra)).

(** [deploy_topology._network_infra_ips] *)
Definition network_infra_ips (topology : val) : res claims :=
  ns <- nodes_of topology;;
  for_each ns [] (λ node infra,
    t <- has_type node "networkNode";;
    if negb t then Ok infra
    else
      d <- data_of node;;
      cidr <- get d "cidr" vstr_empty;;
      if negb (truthy cidr) then Ok infra
      else
        match ip_network cidr with
        | Raise ValueError => Ok infra
        | Raise e => Raise e
        | Ok net => claim_infra net infra
        end).

(** [deploy_topology._vm_infra_overlap_warnings] *)
Definition vm_infra_overlap_warnings (node : val) (infra : claims) : res (list string) :=
  data <- data_of node;;
  label <- get data "label" VNone;;
  name <- get data "name" VNone;;
  name <- (if truthy (v_or label name) then Ok (v_or label name)
           else i <- get node "id" vstr_empty;; slice8 i);;
  nics <- get data "nics" empty_list;;
  nics <- iter nics;;
  for_each nics [] (λ nic warnings,
    ip <- text_field nic "ip";;
    Ok (match assoc ip infra with
        | Some what => warnings ++ ["VM '" +:+ py_str name +:+ "' IP " +:+ ip +:+
                         " overlaps the reserved " +:+ what +:+ " infra address"]
        | None => warnings
        end)).

(** [deploy_topology._cluster_infra_overlap_warnings] *)
Definition cluster_infra_overlap_warnings (node : val) (infra : claims) : res (list string) :=
  data <- data_of node;;
  cname <- get data "name" (VStr "cluster");;
  for_each [("apiVip", "API VIP"); ("ingressVip", "ingress VIP")] [] (λ '(key, label) warnings,
    ip <- text_field data key;;
    Ok (match assoc ip infra with
        | Some what => warnings ++ ["Cluster '" +:+ py_str cname +:+ "' " +:+ label +:+ " " +:+ ip +:+
                         " overlaps the reserved " +:+ what +:+ " infra address"]
        | None => warnings
        end)).

(** [deploy_topology.infra_ip_overlap_warnings] *)
Definition infra_ip_overlap_warnings (topology : val) : res (list string) :=
  infra <- network_infra_ips topology;;
  match infra with
  | [] => Ok []
  | _ =>
      ns <- nodes_of topology;;
      for_each ns [] (λ node warnings,
        vm <- has_type node "vmNode";;
        if vm then ws <- vm_infra_overlap_warnings node infra;; Ok (warnings ++ ws)
        else
          c <- has_type node "clusterNode";;
          if c then ws <- cluster_infra_overlap_warnings node infra;; Ok (warnings ++ ws)
          else Ok warnings)
  end.

(** [deploy_topology.validate_topology_passwords] *)
Definition validate_topology_passwords (topology : val) : res (list string) :=
  ns <- nodes_of topology;;
  for_each ns [] (λ node errors,
    data <- data_of node;;
    t <- has_type node "networkNode";;
    nt <- (if t then get data "networkType" VNone else Ok VNone);;
    if negb (t && eq_str nt "bmc") then Ok errors
    else
      pw <- get data "bmcPassword" VNone;;
      if truthy pw then Ok errors
      else
        name <- get data "name" (VStr "?");;
        Ok (errors ++ ["BMC network '" +:+ py_str name +:+ "' has no password set"])).

(** ** Duplicate addresses are all reported *)

(** The address a NIC claims: its network and the address. *)
Definition nic_claim (nic_to_network : list (val * val)) (nic : val) : res (list (val * val)) :=
  ip <- get nic "ip" vstr_empty;;
  if negb (truthy ip) then Ok []
  else
    nic_id <- idx nic "id";;
    o <- vget nic_id nic_to_network;;
    Ok [(default (VStr "unconnected") o, ip)].

Definition node_claims (nic_to_network : list (val * val)) (node : val) : res (list (val * val)) :=
  t <- has_type_in node ["vmNode"; "containerNode"];;
  if negb t then Ok []
  else
    d <- data_of node;;
    nics <- get d "nics" empty_list;;
    nics <- iter nics;;
    cs <- map_res (nic_claim nic_to_network) nics;;
    Ok (concat cs).

(** Every address a workload of the topology claims, in canvas order. *)
Definition topology_claims (topology : val) (nic_to_network : list (val * val))
    : res (list (val * val)) :=
  ns <- nodes_of topology;; cs <- map_res (node_claims nic_to_network) ns;; Ok (concat cs).

Definition text_claim (c : val * val) : Prop := ∃ net ip, c = (VStr net, VStr ip).

(** The table after some claims, and the errors given for them. *)
Definition table_inv (done : list (val * val)) (s : list string * net_table) : Prop :=
  (∀ net ip, is_Some (vlookup (VStr ip) (default [] (vlookup (VStr net) s.2))) ↔
             (VStr net, VStr ip) ∈ done) ∧
  (length s.1 + length (dedup_first done) = length done)%nat.

Lemma dedup_first_snoc {A} `{EqDecision A} (l : list A) x :
  dedup_first (l ++ [x]) = if decide (x ∈ l) then dedup_first l else dedup_first l ++ [x].
Proof.
  unfold dedup_first. rewrite foldl_app. cbn.
  destruct (dedup_first_acc l []) as [_ H]. destruct (decide (x ∈ l)).
  - rewrite decide_True; [done|]. apply H. by right.
  - rewrite decide_False; [done|]. intros [?%elem_of_nil|?]%H; done.
Qed.

Lemma check_nic_ip_inv nbi n2n vm nic s s' claimed cs :
  check_nic_ip nbi n2n vm nic s = Ok s' → nic_claim n2n nic = Ok cs →
  Forall text_claim cs → table_inv claimed s → table_inv (claimed ++ cs) s'.
Proof.
  destruct s as [errs per]. unfold check_nic_ip, nic_claim.
  destruct (get nic "ip" vstr_empty) as [ip|]; cbn [bind]; [|done].
  destruct (negb (truthy ip)); [intros [= <-] [= <-]; by rewrite app_nil_r|].
  destruct (idx nic "id") as [i|]; cbn [bind]; [|done].
  destruct (vget i n2n) as [o|]; cbn [bind]; [|done]. intros H [= <-] Ht [Hin Hlen].
  apply Forall_cons in Ht as [(net & ip' & Heq) _]. injection Heq as Hnet ->. rewrite Hnet in *.
  unfold vget, vset in H. cbn [hkey hashable bind] in H. cbn [fst snd] in *.
  apply bind_Ok in H as (d & _ & H). apply bind_Ok in H as (nm & _ & H).
  pose proof (Hin net ip') as Hseen.
  destruct (vlookup (VStr ip') (default [] (vlookup (VStr net) per))) as [other|] eqn:E;
    cbn [bind] in H; injection H as <-; cbn [fst snd].
  - assert (Hc : (VStr net, VStr ip') ∈ claimed) by (apply Hseen; by eexists). split; cbn [fst snd].
    + intros n2 ip2. destruct (decide (net = n2)) as [->|Hne].
      * rewrite vlookup_insert_eq. cbn [from_option id]. rewrite Hin. set_solver.
      * rewrite vlookup_insert_ne by done. rewrite Hin. set_solver.
    + rewrite dedup_first_snoc, decide_True, !length_app by done. cbn. lia.
  - assert (Hc : (VStr net, VStr ip') ∉ claimed) by (intros Hc; apply Hseen in Hc as [? ?]; done).
    split; cbn [fst snd].
    + intros n2 ip2. destruct (decide (net = n2)) as [->|Hne].
      * rewrite vlookup_insert_eq. cbn [from_option id]. destruct (decide (ip' = ip2)) as [->|Hni].
        -- rewrite vlookup_insert_eq. split; [set_solver|by eexists].
        -- rewrite vlookup_insert_ne by done. rewrite Hin. set_solver.
      * rewrite vlookup_insert_ne by done. rewrite Hin. set_solver.
    + rewrite dedup_first_snoc, decide_False, !length_app by done. cbn. lia.
Qed.

(** A loop whose steps keep the table in step with their claims. *)
Lemma table_loop {A} (step : A → list string * net_table → res (list string * net_table))
    (claims_of : A → res (list (val * val))) l :
  (∀ x s s' claimed cs, step x s = Ok s' → claims_of x = Ok cs → Forall text_claim cs →
     table_inv claimed s → table_inv (claimed ++ cs) s') →
  ∀ s s' claimed css, for_each l s step = Ok s' → map_res claims_of l = Ok css →
    Forall text_claim (concat css) → table_inv claimed s → table_inv (claimed ++ concat css) s'.
Proof.
  intros Hstep. induction l as [|x l IH]; intros s s' claimed css; cbn.
  { intros [= <-] [= <-]. by rewrite app_nil_r. }
  intros H Hc Ht Hi. apply bind_Ok in H as (s1 & H1 & H). apply bind_Ok in Hc as (cs & Hc1 & Hc).
  apply bind_Ok in Hc as (css' & Hc2 & [= <-]). cbn in *. apply Forall_app in Ht as [Ht1 Ht2].
  rewrite app_assoc. eapply IH; [exact H|exact Hc2|done|]. by eapply Hstep.
Qed.

(** Duplicate addresses: there is exactly one error for every repeated claim of an address
    on a network, counted over all NICs of all VMs and containers; so the check passes exactly
    when the addresses on each network are pairwise distinct. *)
Theorem duplicate_ips_counted topology nodes_by_id nic_to_network errors cs :
  check_duplicate_ips topology nodes_by_id nic_to_network = Ok errors →
  topology_claims topology nic_to_network = Ok cs → Forall text_claim cs →
  (length errors + length (dedup_first cs) = length cs)%nat ∧ (errors = [] ↔ NoDup cs).
Proof.
  unfold check_duplicate_ips, topology_claims. intros H Hcs Ht.
  apply bind_Ok in H as (ns & Hns & H). rewrite Hns in Hcs. cbn [bind] in Hcs.
  apply bind_Ok in Hcs as (css & Hcss & [= <-]).
  apply bind_Ok in H as ([errs per] & Hloop & [= ->]).
  assert (Hinv : table_inv ([] ++ concat css) (errors, per)).
  { eapply (table_loop (check_node_ips nodes_by_id nic_to_network) (node_claims nic_to_network));
      [|exact Hloop|exact Hcss|done|].
    - intros node s s' claimed cs Hn Hc Htc Hi. unfold check_node_ips, node_claims in *.
      destruct (has_type_in node _) as [t|]; cbn [bind] in *; [|done].
      destruct (negb t); [simplify_eq; by rewrite app_nil_r|].
      destruct (data_of node) as [d|]; cbn [bind] in *; [|done].
      apply bind_Ok in Hn as (vm & _ & Hn). apply bind_Ok in Hn as (nv & Hnv & Hn).
      rewrite Hnv in Hc. cbn [bind] in Hc. apply bind_Ok in Hn as (nics & Hnics & Hn).
      rewrite Hnics in Hc. cbn [bind] in Hc. apply bind_Ok in Hc as (css' & Hc & [= <-]).
      eapply (table_loop (check_nic_ip nodes_by_id nic_to_network vm)); [|exact Hn|exact Hc|done|done].
      intros. by eapply check_nic_ip_inv.
    - split; [|done]. intros net ip. cbn. split; [by intros [? ?]|set_solver]. }
  destruct Hinv as [_ Hlen]. cbn [app fst] in Hlen. split; [done|]. split.
  - intros ->. cbn in Hlen. assert (Hp : dedup_first (concat css) ⊆+ concat css).
    { apply NoDup_submseteq; [apply dedup_first_NoDup|]. intros x. by rewrite elem_of_dedup_first. }
    apply submseteq_length_Permutation in Hp; [|lia]. rewrite <-Hp. apply dedup_first_NoDup.
  - intros Hn. rewrite dedup_first_id in Hlen by done. destruct errors; [done|cbn in Hlen; lia].
Qed.

Definition duplicate_sample : val :=
  let vm id ip := VDict [("id", VStr id); ("type", VStr "vmNode"); ("data", VDict
    [("name", VStr id); ("nics", VList [VDict [("id", VStr id); ("ip", VStr ip)]])])] in
  VDict [("nodes", VList [vm "a" "10.0.0.5"; vm "b" "10.0.0.5"; vm "c" "10.0.0.6"])].

Lemma duplicate_ips_counted_witness :
  let n2n := [(VStr "a", VStr "n1"); (VStr "b", VStr "n1")] in
  let cs := [(VStr "n1", VStr "10.0.0.5"); (VStr "n1", VStr "10.0.0.5");
             (VStr "unconnected", VStr "10.0.0.6")] in
  ∃ errors, check_duplicate_ips duplicate_sample [] n2n = Ok errors ∧ length errors = 1%nat ∧
  (length errors + length (dedup_first cs) = length cs)%nat ∧ (errors = [] ↔ NoDup cs).
Proof.
  eexists. split; [vm_compute; reflexivity|]. split; [reflexivity|].
  apply (duplicate_ips_counted duplicate_sample [] [(VStr "a", VStr "n1"); (VStr "b", VStr "n1")]).
  - vm_compute. reflexivity.
  - vm_compute. reflexivity.
  - repeat constructor; eexists _, _; reflexivity.
Defined.

(** ** The Ceph lab address *)

Lemma ceph_cidr_error_None lab cidr name label :
  ceph_lab_ip_cidr_error lab cidr name label = None ↔
  ∃ a, ip_int_from_string lab = Some a ∧
    (cidr = "" ∨ ∃ net, ip_network_of_string cidr = Some net ∧ in_network a net = true).
Proof.
  unfold ceph_lab_ip_cidr_error. destruct (ip_int_from_string lab) as [a|]; [|naive_solver].
  destruct (String.eqb_spec cidr "") as [->|Hne]; [naive_solver|].
  destruct (ip_network_of_string cidr) as [net|]; [|naive_solver].
  destruct (in_network a net) eqn:E.
  - split; [|done]. intros _. exists a. split; [done|]. right. by exists net.
  - split; [done|]. intros (? & [= <-] & [?|(? & [= <-] & ?)]); congruence.
Qed.

(** An accepted Ceph lab address is usable: when a Ceph node gives no error it names a lab
    network, and its address (its own, or the network's fourth) is a valid address inside the
    network's CIDR, is claimed by nothing else there - gateway, DNS, load balancer, workload
    or cluster VIP - and is outside the DHCP pool. *)
Theorem ceph_lab_ip_accepted node topology nodes_by_id nic_to_network :
  validate_one_ceph_lab_ip node topology nodes_by_id nic_to_network = Ok [] →
  ∃ data ref net_node net_data cidr lab claimed a,
    data_of node = Ok data ∧ text_field data "networkRef" = Ok ref ∧ ref ≠ "" ∧
    network_node_by_id topology (VStr ref) = Ok (Some net_node) ∧ data_of net_node = Ok net_data ∧
    get net_data "cidr" VNone = Ok cidr ∧ text_field data "labIp" = Ok lab ∧
    let cidr := py_str (v_or cidr vstr_empty) in
    let ip := if String.eqb lab "" then default_ceph_lab_ip cidr else lab in
    ip_int_from_string ip = Some a ∧
    (cidr = "" ∨ ∃ net, ip_network_of_string cidr = Some net ∧ in_network a net = true) ∧
    collect_ips_on_network topology ref nodes_by_id nic_to_network = Ok claimed ∧
    assoc ip claimed = None ∧ lab_ip_in_dhcp_pool ip net_data = Ok false.
Proof.
  unfold validate_one_ceph_lab_ip. intros H.
  apply bind_Ok in H as (data & Hd & H). apply bind_Ok in H as (nm & _ & H).
  apply bind_Ok in H as (lb & _ & H). cbv zeta in H. apply bind_Ok in H as (ref & Href & H).
  apply bind_Ok in H as ([net_node|] & Hnn & H); [|done].
  destruct (String.eqb_spec ref "") as [->|Hne]; [done|]. cbn [orb] in H.
  destruct (negb (truthy net_node)); [done|].
  apply bind_Ok in H as (net_data & Hnd & H). apply bind_Ok in H as (nname & _ & H).
  apply bind_Ok in H as (cidr & Hcidr & H). apply bind_Ok in H as (lab & Hlab & H).
  set (c := py_str (v_or cidr vstr_empty)) in *.
  set (ip := if String.eqb lab "" then default_ceph_lab_ip c else lab) in *.
  destruct (String.eqb ip ""); [done|].
  destruct (ceph_lab_ip_cidr_error ip c _ _) eqn:Ec; [done|].
  apply ceph_cidr_error_None in Ec as (a & Ha & Hnet).
  apply bind_Ok in H as (claimed & Hcl & H). apply bind_Ok in H as (conf & Hconf & H).
  unfold ceph_lab_ip_conflict_error in Hconf. destruct (assoc ip claimed) eqn:Ea; [by simplify_eq|].
  apply bind_Ok in Hconf as ([] & Hpool & Hconf); [by simplify_eq|].
  by exists data, ref, net_node, net_data, cidr, lab, claimed, a.
Qed.

Definition ceph_sample_node : val :=
  VDict [("id", VStr "c1"); ("type", VStr "cephClusterNode"); ("data", VDict
    [("name", VStr "ceph"); ("networkRef", VStr "n1")])].

Definition ceph_sample : val :=
  VDict [("nodes", VList [VDict [("id", VStr "n1"); ("type", VStr "networkNode"); ("data",
    VDict [("subtype", VStr "network"); ("cidr", VStr "10.0.0.0/24"); ("dhcp", VBool true)])];
    ceph_sample_node])].

Lemma ceph_lab_ip_accepted_witness :
  validate_one_ceph_lab_ip ceph_sample_node ceph_sample [] [] = Ok [] ∧
  ∃ data ref net_node net_data cidr lab claimed a,
    data_of ceph_sample_node = Ok data ∧ text_field data "networkRef" = Ok ref ∧ ref ≠ "" ∧
    network_node_by_id ceph_sample (VStr ref) = Ok (Some net_node) ∧
    data_of net_node = Ok net_data ∧
    get net_data "cidr" VNone = Ok cidr ∧ text_field data "labIp" = Ok lab ∧
    let cidr := py_str (v_or cidr vstr_empty) in
    let ip := if String.eqb lab "" then default_ceph_lab_ip cidr else lab in
    ip_int_from_string ip = Some a ∧
    (cidr = "" ∨ ∃ net, ip_network_of_string cidr = Some net ∧ in_network a net = true) ∧
    collect_ips_on_network ceph_sample ref [] [] = Ok claimed ∧
    assoc ip claimed = None ∧ lab_ip_in_dhcp_pool ip net_data = Ok false.
Proof.
  split; [vm_compute; reflexivity|].
  apply (ceph_lab_ip_accepted ceph_sample_node ceph_sample [] []). vm_compute. reflexivity.
Defined.
