(* ===== verification/DnsRecords.v ===== *)
(** * Workload addresses and DNS record targets

    The two helpers of [template_loader.py] that turn a record's [target] into
    an address; the network configuration of a host uses them. *)
From stdpp Require Import prelude strings.
From S2P Require Import Prelude PyStr PyVal PyLemmas TopoNodes.

(** The first non-empty [ip] of a list of NICs. *)
Definition first_nic_ip (nics : list val) : res val :=
  o <- first_some (λ nic,
         ip <- get nic "ip" VNone;;
         if truthy ip then ip <- idx nic "ip";; Ok (Some ip) else Ok None) nics;;
  Ok (default vstr_empty o).

(** [template_loader._collect_workload_ips] *)
Definition collect_workload_ips (nodes : list val) : res (list (val * val)) :=
  for_each nodes [] (λ n ips,
    t <- has_type_in n ["vmNode"; "containerNode"];;
    if negb t then Ok ips
    else
      data <- data_of n;;
      nics <- get data "nics" empty_list;;
      nics <- iter nics;;
      ip <- first_nic_ip nics;;
      if negb (truthy ip) then Ok ips
      else
        name <- get data "name" vstr_empty;;
        label <- get data "label" vstr_empty;;
        ips <- (if truthy name then vset name ip ips else Ok ips);;
        if truthy label then vset label ip ips else Ok ips).

(** [template_loader._resolve_dns_record_entry] *)
Definition resolve_dns_record_entry (rec : val) (workload_ips : list (val * val)) : res val :=
  name <- get rec "name" vstr_empty;;
  if negb (truthy name) then copy_dict rec
  else
    ip <- text_field rec "ip";;
    target <- text_field rec "target";;
    let ip := if String.eqb ip "" && negb (String.eqb target "")
              then default vstr_empty (vlookup (VStr target) workload_ips)
              else VStr ip in
    out <- copy_dict rec;;
    set_item out "ip" ip.
