(* ===== verification/TemplateVms.v ===== *)
(** * Workloads of a template on the canvas

    The part of [services/template_loader.py] that turns a virtual machine or a container of a
    template into canvas nodes and edges.  Identifiers are drawn from a supply: a builder is a
    computation of [gen], which counts the draws.  [fresh] is the text of the n-th [uuid4], and
    [octets] the three numbers [random.randint] gives for the n-th MAC address. *)
From stdpp Require Import prelude strings.
From Stdlib Require Import Ascii ZArith Lia.
From S2P Require Import Prelude PyStr PyVal PyLemmas TopoNodes ClusterMembers TemplateClusters.

Open Scope list_scope.

(** ** Drawing identifiers *)

Definition gen (A : Type) : Type := nat → res (A * nat).

Declare Scope gen_scope.
Delimit Scope gen_scope with gen.
Open Scope gen_scope.

Definition gret {A} (a : A) : gen A := λ n, Ok (a, n).
Definition gbind {A B} (m : gen A) (f : A → gen B) : gen B := λ n, '(a, n) <- m n;; f a n.
Definition glift {A} (r : res A) : gen A := λ n, a <- r;; Ok (a, n).

Notation "x <-' m ;; k" := (gbind m (λ x, k))
  (at level 100, m at next level, right associativity) : gen_scope.
Notation "' p <-' m ;; k" := (gbind m (λ x, match x with p => k end))
  (at level 100, p pattern, m at next level, right associativity) : gen_scope.
Notation "x <-! r ;; k" := (gbind (glift r) (λ x, k))
  (at level 100, r at next level, right associativity) : gen_scope.
Notation "' p <-! r ;; k" := (gbind (glift r) (λ x, match x with p => k end))
  (at level 100, p pattern, r at next level, right associativity) : gen_scope.

(** A loop of draws; [i] counts the turns. *)
Fixpoint gmap_i {A B} (i : nat) (l : list A) (f : nat → A → gen B) : gen (list B) :=
  match l with
  | [] => gret []
  | x :: l' => y <-' f i x;; ys <-' gmap_i (S i) l' f;; gret (y :: ys)
  end.

(** [d.get(k, dflt)] for a key that is any value: the keys are texts. *)
Definition get_by (d k dflt : val) : res val :=
  match d with
  | VDict _ => match k with VStr s => get d s dflt | _ => _ <- hkey k;; Ok dflt end
  | _ => Raise AttributeError
  end.

(** The names of a part of the template with the ids of their nodes. *)
Definition ids := list (string * val).

(** [ids.get(k, dflt)]. *)
Definition id_of (m : ids) (k dflt : val) : res val := get_by (VDict m) k dflt.

Definition z_of (n : nat) : Z := Z.of_nat n.

Section Workloads.
Context (fresh : nat → string) (octets : nat → Z * Z * Z).

(** [template_loader._id] *)
Definition _id : gen string := λ n, Ok (fresh n, S n).

Definition mac_with (prefix : string) : gen string := λ n,
  let '(a, b, c) := octets n in Ok (prefix +:+ hex2 a +:+ ":" +:+ hex2 b +:+ ":" +:+ hex2 c, S n).

(** [template_loader._mac] *)
Definition _mac : gen string := mac_with "52:54:00:".

(** [template_loader._bmc_mac] *)
Definition _bmc_mac : gen string := mac_with "52:54:01:".

(** ** Edges *)

Definition edge_style (stroke dash : string) : val :=
  {{ "stroke" ::= VStr stroke; "strokeWidth" ::= VInt 2; "strokeDasharray" ::= VStr dash }}%py.
Definition network_style : val := edge_style "rgba(34,211,238,0.5)" "6 4".
Definition storage_style : val := edge_style "rgba(251,191,36,0.6)" "4 4".

(** [template_loader._workload_net_edge] *)
Definition workload_net_edge (net_id workload_id : val) (nic_id workload_handle : string) : gen val :=
  i <-' _id;;
  gret {{ "id" ::= VStr i; "source" ::= net_id; "target" ::= workload_id;
          "sourceHandle" ::= VStr (if String.eqb workload_handle "top" then "bottom" else "top");
          "targetHandle" ::= VStr ("nic-" +:+ nic_id +:+ "-" +:+ workload_handle);
          "type" ::= VStr "smoothstep"; "style" ::= network_style; "animated" ::= VBool true }}%py.

(** [template_loader._net_edge] *)
Definition net_edge (net_id vm_node : val) (nic_index : nat) (vm_handle : string) : gen val :=
  data <-! idx vm_node "data";;
  nics <-! idx data "nics";;
  nic <-! nth_item nics nic_index;;
  vm_id <-! idx vm_node "id";;
  nic_id <-! idx nic "id";;
  workload_net_edge net_id vm_id (py_str nic_id) vm_handle.

(** An edge between a disk and the slot of a workload it is plugged in. *)
Definition storage_edge (edge_id : string) (disk_id target : val) (handle : string) (rest : list (string * val)) : val :=
  VDict ([("id", VStr edge_id); ("source", disk_id); ("target", target); ("sourceHandle", VStr "right");
          ("targetHandle", VStr handle); ("type", VStr "smoothstep"); ("style", storage_style)] ++ rest).

Definition pulse : list (string * val) :=
  [("animated", VBool false); ("className", VStr "edge-storage-pulse")].

Definition position (x y : Z) : val := {{ "x" ::= VInt x; "y" ::= VInt y }}%py.

(** ** Virtual machines *)

(** [template_loader._build_vm_nics] *)
Definition build_vm_nics (nics_cfg : list val) (nets_def : val) : gen (list val) :=
  gmap_i 0 nics_cfg (λ i nic_cfg,
    network <-! get nic_cfg "network" vstr_empty;;
    net_cfg <-! get_by nets_def network empty_dict;;
    t <-! get net_cfg "type" VNone;;
    nic_id <-' _id;;
    mac <-' (if eq_str t "bmc" then _bmc_mac else _mac);;
    model <-! get nic_cfg "model" (VStr "virtio");;
    ip <-! get nic_cfg "ip" VNone;;
    gret (VDict ([("id", VStr ("nic-" +:+ nic_id)); ("name", VStr ("eth" +:+ str_of_Z (z_of i)));
                  ("mac", VStr mac); ("model", model)]
                 ++ (if truthy ip then [("ip", ip)] else [])))).

(** [template_loader._build_disk_node_and_edge:1739-1744] the library fields of a disk. *)
Definition library_fields (cfg : val) : res (list (string * val)) :=
  item <- get cfg "library_item_id" VNone;;
  name <- get cfg "library_item_name" VNone;;
  Ok ((if truthy item then [("libraryItemId", item)] else [])
      ++ (if truthy name then [("libraryItemName", name)] else [])).

(** [template_loader._build_disk_node_and_edge]: controller, id, node, and edge without target. *)
Definition build_disk_node_and_edge (vm_name : string) (disk_cfg : val) (di : nat) (vm_x vm_row_y : Z)
    : gen (val * val * val * val) :=
  bus <-! get disk_cfg "bus" (VStr "virtio");;
  dc_id <-' _id;;
  rotation <-! (if in_strs bus ["scsi"; "sata"; "ide"]
                then r <- get disk_cfg "rotation_rate" (VInt 1);; Ok [("rotationRate", r)] else Ok []);;
  let dc := VDict ([("id", VStr ("dp-" +:+ dc_id)); ("name", VStr ("disk" +:+ str_of_Z (z_of di))); ("bus", bus)]
                   ++ rotation) in
  disk_id <-' _id;;
  name <-! get disk_cfg "name" (VStr (vm_name +:+ "-disk" +:+ str_of_Z (z_of di)));;
  size <-! get disk_cfg "size_gb" (VInt 50);;
  lib <-! library_fields disk_cfg;;
  mount <-! get disk_cfg "ocp_mount" VNone;;
  let node := {{ "id" ::= VStr disk_id; "type" ::= VStr "storageNode";
                 "position" ::= position (vm_x - 190) (vm_row_y + 70 + z_of di * 100);
                 "data" ::= VDict ([("label", name); ("name", name); ("size", size); ("format", VStr "qcow2");
                                    ("icon", VStr "🛢")]
                                   ++ lib
                                   ++ (match lib with [] => [] | _ => [("source", VStr "library")] end)
                                   ++ (if truthy mount then [("ocpMount", mount)] else [])) }}%py in
  edge_id <-' _id;;
  gret (dc, VStr disk_id, node,
        storage_edge edge_id (VStr disk_id) vstr_empty ("dp-dp-" +:+ dc_id +:+ "-left") pulse).

(** [template_loader._vm_icon_for_os] *)
Definition vm_icon_for_os (os_type : val) : val := VStr (if eq_str os_type "blank" then "📦" else "🖥").

Definition hide (b : bool) (v : val) : res val := if b then set_item v "hidden" (VBool true) else Ok v.

(** [template_loader._build_vm_disk_set:1791-1794] the boot disk after the [di]-th disk. *)
Definition note_boot_disk (di : nat) (disk_id : val) (bootable : bool) (first_bootable : option val) : option val :=
  let first_bootable :=
    match first_bootable with None => if bootable then Some disk_id else None | _ => first_bootable end in
  match first_bootable with
  | None => if bool_decide (di = 0%nat) then Some disk_id else None
  | _ => first_bootable
  end.

(** [template_loader._build_vm_disk_set:1785-1800] the loop over the disks: per disk the
    controller, the node and the edge. *)
Fixpoint build_vm_disks (vm_name : string) (di : nat) (disks_cfg : list val) (vm_x vm_row_y : Z)
    (is_cluster_member : bool) (first_bootable : option val) : gen (list (val * val * val) * option val) :=
  match disks_cfg with
  | [] => gret ([], first_bootable)
  | disk_cfg :: disks_cfg' =>
      '(dc, disk_id, node, edge) <-' build_disk_node_and_edge vm_name disk_cfg di vm_x vm_row_y;;
      bootable <-! get disk_cfg "bootable" (VBool false);;
      let first_bootable := note_boot_disk di disk_id (truthy bootable) first_bootable in
      node <-! hide is_cluster_member node;;
      edge <-! hide is_cluster_member edge;;
      '(rest, first_bootable) <-' build_vm_disks vm_name (S di) disks_cfg' vm_x vm_row_y is_cluster_member first_bootable;;
      gret ((dc, node, edge) :: rest, first_bootable)
  end.

(** [template_loader._build_vm_disk_set] *)
Definition build_vm_disk_set (vm_name : string) (disks_cfg : list val) (vm_x vm_row_y : Z) (is_cluster_member : bool)
    : gen (list (val * val * val) * list val) :=
  _ <-! validate_vm_ocp_mounts disks_cfg;;
  '(l, first_bootable) <-' build_vm_disks vm_name 0 disks_cfg vm_x vm_row_y is_cluster_member None;;
  gret (l, option_list first_bootable).

(** ** Optional settings *)

(** [d\[target\] = v] where [v] is there and true. *)
Definition set_true (d : val) (key : string) (v : val) : res val := if truthy v then set_item d key v else Ok d.

(** [template_loader._VM_SETTING_FIELDS] *)
Definition VM_SETTING_FIELDS : list (string * string) :=
  [("cloud_init", "cloudInit"); ("minimal_cloud_init", "ciMinimalCloudInit"); ("login_user", "ciLoginUser");
   ("cloud_user_password", "ciCloudUserPassword"); ("userdata_only", "ciUserDataOnly");
   ("user_data", "ciUserData"); ("packages", "ciPackages"); ("network_config", "ciNetworkConfig");
   ("affinity_group", "affinityGroup"); ("machine_type", "machineType"); ("separate_host", "separateHost")].

(** [template_loader._apply_vm_cloud_init_fields] *)
Definition apply_vm_cloud_init_fields (vm_cfg vm_data : val) : res val :=
  for_each VM_SETTING_FIELDS vm_data (λ '(source, target) vm_data,
    b <- has_key source vm_cfg;;
    if b then v <- idx vm_cfg source;; set_item vm_data target v else Ok vm_data).

(** The digits of [int(s, 16)], with single underscores between them. *)
Definition is_hex (a : ascii) : bool :=
  let n := N_of_ascii a in
  is_digit a || ((97 <=? n) && (n <=? 102))%N || ((65 <=? n) && (n <=? 70))%N.
Fixpoint hex_underscored (prev_digit : bool) (s : string) : bool :=
  match s with
  | EmptyString => prev_digit
  | String a s' =>
      if is_hex a then hex_underscored true s'
      else bool_decide (a = "_"%char) && prev_digit && hex_underscored false s'
  end.

(** [int(s, 16)] succeeds: spaces around, a sign, a prefix [0x] are allowed. *)
Definition hex_text (s : string) : bool :=
  let s := strip s in
  let s := if startswith "-" s || startswith "+" s then str_drop 1 s else s in
  if startswith "0x" s || startswith "0X" s
  then hex_underscored true (str_drop 2 s) && negb (String.eqb (str_drop 2 s) "")
  else hex_underscored false s.

(** [s.strip("{}")]. *)
Definition is_brace (a : ascii) : bool := bool_decide (a = "{"%char) || bool_decide (a = "}"%char).
Fixpoint lstrip_braces (s : string) : string :=
  match s with String a s' => if is_brace a then lstrip_braces s' else s | EmptyString => EmptyString end.

(** [uuid.UUID(s)] does not raise. *)
Definition uuid_ok (s : string) : bool :=
  let s := replace "uuid:" "" (replace "urn:" "" s) in
  let s := replace "-" "" (String.rev (lstrip_braces (String.rev (lstrip_braces s)))) in
  (String.length s =? 32)%nat && hex_text s.

(** [template_loader._apply_vm_smbios_uuid] *)
Definition apply_vm_smbios_uuid (vm_cfg vm_data : val) : res val :=
  u <- get vm_cfg "uuid" VNone;;
  if negb (truthy u) then Ok vm_data
  else
    s <- as_str u;;
    if uuid_ok s then set_item vm_data "smbiosUuid" u else Raise ValueError.

(** [template_loader._apply_vm_pxe_and_serial] *)
Definition apply_vm_pxe_and_serial (vm_cfg vm_data : val) : res val :=
  v <- get vm_cfg "pxe_boot_iso_id" VNone;;
  vm_data <- set_true vm_data "pxeBootIsoId" v;;
  v <- get vm_cfg "pxe_boot_iso_name" VNone;;
  vm_data <- set_true vm_data "pxeBootIsoName" v;;
  serial_exec <- get vm_cfg "serial_exec" VNone;;
  there <- has_key "serial_exec" vm_cfg;;
  vm_data <- (if truthy serial_exec
              then set_item vm_data "serialExecType"
                     (VStr (match serial_exec with VBool true => "linux" | _ => lower (py_str serial_exec) end))
              else if there then set_item vm_data "serialExecType" vstr_empty else Ok vm_data);;
  serial_only <- get vm_cfg "serial_only" VNone;;
  serial_only <- (match serial_only with VNone => get vm_cfg "headless" VNone | _ => Ok serial_only end);;
  match serial_only with VNone => Ok vm_data | _ => set_item vm_data "headless" (VBool (truthy serial_only)) end.

(** [template_loader._apply_vm_machine_and_bus] *)
Definition apply_vm_machine_and_bus (vm_cfg vm_data : val) : res val :=
  a <- get vm_cfg "machine_type" VNone;;
  machine_type <- (if truthy a then Ok a else get vm_cfg "machineType" VNone);;
  vm_data <- (if truthy machine_type then set_item vm_data "machineType" (VStr (py_str machine_type)) else Ok vm_data);;
  bus <- get vm_cfg "legacy_root_bus" VNone;;
  bus <- (match bus with VNone => get vm_cfg "legacyRootBus" VNone | _ => Ok bus end);;
  match bus with VNone => Ok vm_data | _ => set_item vm_data "legacyRootBus" (VBool (truthy bus)) end.

Definition ansible_tag (groups : string) : val := {{ "AnsibleGroup" ::= VStr groups }}%py.

(** [template_loader._apply_vm_role_tags] *)
Definition apply_vm_role_tags (vm_cfg vm_data role : val) : res val :=
  b <- has_key "tags" vm_cfg;;
  if b then tags <- idx vm_cfg "tags";; set_item vm_data "tags" tags
  else if eq_str role "control-plane" then set_item vm_data "tags" (ansible_tag "controllers")
  else if eq_str role "worker" then set_item vm_data "tags" (ansible_tag "workers")
  else if eq_str role "bastion" then set_item vm_data "tags" (ansible_tag "bastions,showroom")
  else Ok vm_data.

(** [template_loader._apply_vm_optional_fields] *)
Definition apply_vm_optional_fields (vm_cfg vm_data role bmc_ip : val) : res val :=
  vm_data <- apply_vm_smbios_uuid vm_cfg vm_data;;
  vm_data <- set_true vm_data "bmcIp" bmc_ip;;
  vm_data <- apply_vm_pxe_and_serial vm_cfg vm_data;;
  vm_data <- apply_vm_machine_and_bus vm_cfg vm_data;;
  vm_data <- apply_vm_role_tags vm_cfg vm_data role;;
  vm_data <- apply_vm_cloud_init_fields vm_cfg vm_data;;
  g <- get vm_cfg "affinity_group" VNone;;
  vm_data <- set_true vm_data "affinityGroup" g;;
  b <- has_key "separate_host" vm_cfg;;
  vm_data <- (if b then v <- idx vm_cfg "separate_host";; set_item vm_data "separateHost" (VBool (truthy v))
              else Ok vm_data);;
  nested <- has_key "nested_virt" vm_cfg <||> has_key "nestedVirt" vm_cfg;;
  if nested then
    camel <- get vm_cfg "nestedVirt" VNone;;
    v <- get vm_cfg "nested_virt" camel;;
    set_item vm_data "nestedVirt" v
  else Ok vm_data.

(** [template_loader._build_vm_iso_nodes]: the nodes with their edges. *)
Definition build_vm_iso_nodes (vm_cfg : val) (vm_name : string) (vm_node_id : val) (disk_controllers : list val)
    (disks : nat) (vm_x vm_row_y : Z) : gen (list (val * val)) :=
  cdrom_dc <-! find_res (λ dc, n <- get dc "name" vstr_empty;; s <- as_str n;; Ok (startswith "cdrom" s))
                 disk_controllers;;
  isos <-! get vm_cfg "isos" empty_list;;
  isos <-! iter isos;;
  match cdrom_dc with
  | None => gret []
  | Some cdrom_dc =>
      gmap_i 0 isos (λ _ iso_cfg,
        iso_id <-' _id;;
        name <-! get iso_cfg "name" (VStr (vm_name +:+ "-iso"));;
        lib <-! library_fields iso_cfg;;
        boot <-! get iso_cfg "boot" (VBool false);;
        let node := {{ "id" ::= VStr iso_id; "type" ::= VStr "storageNode";
                       "position" ::= position (vm_x - 190) (vm_row_y + 70 + z_of disks * 100);
                       "data" ::= VDict ([("label", name); ("name", name); ("size", VInt 10); ("format", VStr "iso");
                                          ("source", VStr "library"); ("icon", VStr "💿")]
                                         ++ lib ++ [("bootableIso", VBool (truthy boot))]) }}%py in
        edge_id <-' _id;;
        dc_id <-! idx cdrom_dc "id";;
        gret (node, storage_edge edge_id (VStr iso_id) vm_node_id ("dp-" +:+ py_str dc_id +:+ "-left") pulse))
  end.

(** [template_loader._base_vm_data_dict] *)
Definition base_vm_data_dict (vm_name : string) (vm_cfg os_type icon : val) (nics disk_controllers : list val)
    (has_bmc : val) (boot_device_ids : list val) (power_on : val) : res val :=
  vcpus <- get vm_cfg "vcpus" (VInt 2);;
  ram <- get vm_cfg "ram_gb" (VInt 4);;
  recert <- get vm_cfg "recert" (VBool false);;
  monitor <- get vm_cfg "ocp_monitor" (VBool false);;
  browser <- get vm_cfg "configure_bastion_browser" (VBool false);;
  firmware <- get vm_cfg "firmware" (VStr "uefi");;
  secure_boot <- get vm_cfg "secure_boot" (VBool false);;
  Ok {{ "label" ::= VStr vm_name; "name" ::= VStr vm_name; "vcpus" ::= vcpus; "ram" ::= ram; "os" ::= os_type;
        "icon" ::= icon; "nics" ::= VList nics; "diskControllers" ::= VList disk_controllers;
        "bmcEnabled" ::= has_bmc; "recertEnabled" ::= recert; "ocpMonitor" ::= monitor;
        "configureBastionBrowser" ::= browser; "firmware" ::= firmware; "secureBoot" ::= secure_boot;
        "bootDevices" ::= VList boot_device_ids; "bootMethod" ::= VStr "disk"; "powerOnAtDeploy" ::= power_on }}%py.

(** [template_loader._build_vm_nic_edges] *)
Definition build_vm_nic_edges (nics_cfg : list val) (net_ids : ids) (vm_node : val) (is_cluster_member : bool)
    : gen (list val) :=
  l <-' gmap_i 0 nics_cfg (λ ni nic_cfg,
    net_identifier <-! get nic_cfg "network" vstr_empty;;
    net_node_id <-! id_of net_ids net_identifier net_identifier;;
    if truthy net_node_id then
      edge <-' net_edge net_node_id vm_node ni (if bool_decide (ni = 0%nat) then "top" else "bottom");;
      edge <-! hide is_cluster_member edge;;
      gret [edge]
    else gret []);;
  gret (concat l).

(** [template_loader._build_vm_data]: the machine, its disks with their edges, its images with
    theirs, and the edges of its interfaces. *)
Definition build_vm_data (vm_name : string) (vm_cfg nets_def : val) (net_ids : ids) (vm_x vm_row_y : Z)
    (force_nested_virt : bool) : gen (val * list val * list val * list (val * val) * list val) :=
  role <-! get vm_cfg "role" vstr_empty;;
  os_type <-! get vm_cfg "os" (VStr "rhcos");;
  power_on <-! get vm_cfg "power_on" (VBool true);;
  has_bmc <-! get vm_cfg "bmc" (VBool (eq_str role "control-plane"));;
  bmc_ip <-! get vm_cfg "bmc_ip" vstr_empty;;
  disks_cfg <-! get vm_cfg "disks" (VList [VDict [("size_gb", VInt 50)]]);;
  nics_cfg <-! get vm_cfg "nics" empty_list;;
  let is_cluster_member := in_strs role ["control-plane"; "worker"] in
  nics_cfg <-! iter nics_cfg;;
  nics <-' build_vm_nics nics_cfg nets_def;;
  disks_cfg <-! iter disks_cfg;;
  '(disks, boot_device_ids) <-' build_vm_disk_set vm_name disks_cfg vm_x vm_row_y is_cluster_member;;
  isos_cfg <-! get vm_cfg "isos" empty_list;;
  cdrom <-' (if negb (eq_str os_type "blank") || truthy isos_cfg
             then i <-' _id;; gret [cdrom_controller i] else gret []);;
  let disk_controllers := map (λ d, d.1.1) disks ++ cdrom in
  vm_data <-! base_vm_data_dict vm_name vm_cfg os_type (vm_icon_for_os os_type) nics disk_controllers has_bmc
                boot_device_ids power_on;;
  vm_data <-! (if is_cluster_member then set_item vm_data "clusterRole" role else Ok vm_data);;
  vm_data <-! apply_vm_optional_fields vm_cfg vm_data role bmc_ip;;
  forced <-! (Ok force_nested_virt <&&> Ok (eq_str os_type "rhcos")
              <&&> (b <- has_key "nestedVirt" vm_data;; Ok (negb b)));;
  vm_data <-! (if forced then set_item vm_data "nestedVirt" (VBool true) else Ok vm_data);;
  generated <-! get vm_cfg "generated" VNone;;
  vm_data <-! (if truthy generated then set_item vm_data "generated" (VBool true) else Ok vm_data);;
  vm_id <-' _id;;
  let vm_node := {{ "id" ::= VStr vm_id; "type" ::= VStr "vmNode"; "position" ::= position vm_x vm_row_y;
                    "data" ::= vm_data }}%py in
  disk_edges <-! map_res (λ d, set_item d.2 "target" (VStr vm_id)) disks;;
  isos <-' build_vm_iso_nodes vm_cfg vm_name (VStr vm_id) disk_controllers (length disks_cfg) vm_x vm_row_y;;
  nic_edges <-' build_vm_nic_edges nics_cfg net_ids vm_node is_cluster_member;;
  gret (vm_node, map (λ d, d.1.2) disks, disk_edges, isos, nic_edges).

(** ** Containers *)

(** The environment of a container: [[{"key": k, "value": str(v)} ...]]. *)
Definition env_vars (cfg : val) : res val :=
  env <- get cfg "env" VNone;;
  kvs <- items (v_or env empty_dict);;
  Ok (VList (map (λ kv, {{ "key" ::= VStr kv.1; "value" ::= VStr (py_str kv.2) }}%py) kvs)).

Definition port_entry (container host protocol : val) : val :=
  {{ "containerPort" ::= container; "hostPort" ::= host; "protocol" ::= protocol }}%py.

(** [template_loader._parse_pod_sub_container:1511-1522] the ports of a container. *)
Definition container_ports (cfg : val) : res val :=
  ports <- get cfg "ports" empty_list;;
  ports <- iter ports;;
  l <- map_res (λ p,
    match as_int p with
    | Some _ => Ok (port_entry p VNone (VStr "tcp"))
    | None =>
        c <- get p "container_port" (VInt 0);; h <- get p "host_port" VNone;;
        pr <- get p "protocol" (VStr "tcp");; Ok (port_entry c h pr)
    end) ports;;
  Ok (VList l).

(** [template_loader._parse_pod_sub_container] *)
Definition parse_pod_sub_container (sc_cfg : val) (default_name : string) (disk_name_to_id : ids) : res val :=
  env <- env_vars sc_cfg;;
  ports <- container_ports sc_cfg;;
  mounts <- get sc_cfg "mounts" empty_list;;
  mounts <- iter mounts;;
  mounts <- map_res (λ m,
    disk_name <- get m "disk" vstr_empty;;
    disk <- id_of disk_name_to_id disk_name vstr_empty;;
    path <- get m "mount_path" vstr_empty;;
    Ok {{ "diskNodeId" ::= disk; "mountPath" ::= path }}%py) mounts;;
  name <- get sc_cfg "name" (VStr default_name);;
  image <- get sc_cfg "image" vstr_empty;;
  cpus <- get sc_cfg "cpus" (VInt 1);;
  memory <- get sc_cfg "memory_mb" (VInt 512);;
  command <- get sc_cfg "command" VNone;;
  Ok {{ "name" ::= name; "image" ::= image; "registryCredentialId" ::= VNone; "cpus" ::= cpus;
        "memory" ::= memory; "envVars" ::= env; "ports" ::= ports; "command" ::= command;
        "mounts" ::= VList mounts }}%py.

(** [template_loader._build_container_nics_and_edges]: interface and edge of each. *)
Definition build_container_nics_and_edges (ctr_id ctr_cfg : val) (net_ids : ids) : gen (list (val * list val)) :=
  nics <-! get ctr_cfg "nics" empty_list;;
  nics <-! iter nics;;
  gmap_i 0 nics (λ i nic_cfg,
    nic_id <-' _id;;
    mac <-' _mac;;
    own <-! get nic_cfg "mac" VNone;;
    model <-! get nic_cfg "model" (VStr "virtio");;
    ip <-! get nic_cfg "ip" vstr_empty;;
    let nic := {{ "id" ::= VStr ("nic-" +:+ nic_id); "name" ::= VStr ("eth" +:+ str_of_Z (z_of i));
                  "mac" ::= v_or own (VStr mac); "model" ::= model; "ip" ::= ip }}%py in
    net_name <-! get nic_cfg "network" vstr_empty;;
    net_node_id <-! id_of net_ids net_name VNone;;
    if truthy net_node_id
    then e <-' workload_net_edge net_node_id ctr_id ("nic-" +:+ nic_id) "top";; gret (nic, [e])
    else gret (nic, [])).

(** [template_loader._build_container_node:1965-2003] a disk: name, id, node, mount, edge. *)
Definition build_container_disk (ctr_key : string) (ctr_id : val) (vm_x vm_row_y : Z) (disk_idx : nat) (disk_cfg : val)
    : gen (string * val * val * val * val) :=
  disk_id <-' _id;;
  let disk_name := ctr_key +:+ "-vol" +:+ str_of_Z (z_of disk_idx) in
  size <-! get disk_cfg "size_gb" (VInt 10);;
  let node := {{ "id" ::= VStr disk_id; "type" ::= VStr "storageNode";
                 "position" ::= position (vm_x - 190) (vm_row_y + 70 + z_of disk_idx * 100);
                 "data" ::= {{ "label" ::= VStr disk_name; "name" ::= VStr disk_name; "size" ::= size;
                               "format" ::= VStr "raw"; "icon" ::= VStr "🛢" }} }}%py in
  path <-! get disk_cfg "mount_path" vstr_empty;;
  edge_id <-' _id;;
  gret (disk_name, VStr disk_id, node, {{ "diskNodeId" ::= VStr disk_id; "mountPath" ::= path }}%py,
        storage_edge edge_id (VStr disk_id) ctr_id ("mnt-" +:+ disk_id +:+ "-left") []).

(** The sub-containers of a pod, named by their place. *)
Definition sub_containers (ctr_cfg : val) (key prefix : string) (disk_name_to_id : ids) : res val :=
  l <- get ctr_cfg key empty_list;;
  l <- iter l;;
  l <- map_res (λ '(i, c), parse_pod_sub_container c (prefix +:+ str_of_Z (z_of i)) disk_name_to_id)
         (zip (seq 0 (length l)) l);;
  Ok (VList l).

(** [template_loader._build_container_node:2046-2067] what a pod has more. *)
Definition pod_fields (ctr_cfg data : val) (disk_name_to_id : ids) : res val :=
  data <- set_item data "isPod" (VBool true);;
  data <- set_item data "icon" (VStr "🫛");;
  b <- has_key "build_content" ctr_cfg;;
  data <- (if b then v <- idx ctr_cfg "build_content";; set_item data "buildContent" (VBool (truthy v)) else Ok data);;
  inits <- sub_containers ctr_cfg "init_containers" "init-" disk_name_to_id;;
  data <- set_item data "initContainers" inits;;
  ctrs <- sub_containers ctr_cfg "containers" "ctr-" disk_name_to_id;;
  set_item data "podContainers" ctrs.

(** [template_loader._build_container_node]: the container, its disks, their edges, and those of
    its interfaces. *)
Definition build_container_node (ctr_key : string) (ctr_cfg : val) (net_ids : ids) (vm_x vm_row_y : Z)
    : gen (val * list val * list val * list val) :=
  id <-' _id;;
  let ctr_id := VStr id in
  t <-! get ctr_cfg "type" VNone;;
  nics <-' build_container_nics_and_edges ctr_id ctr_cfg net_ids;;
  disks <-! get ctr_cfg "disks" empty_list;;
  disks <-! iter disks;;
  disks <-' gmap_i 0 disks (build_container_disk ctr_key ctr_id vm_x vm_row_y);;
  let disk_name_to_id := map (λ '(n, i, _, _, _), (n, i)) disks in
  env <-! env_vars ctr_cfg;;
  ports <-! container_ports ctr_cfg;;
  image <-! get ctr_cfg "image" vstr_empty;;
  credential <-! get ctr_cfg "registry_credential" VNone;;
  cpus <-! get ctr_cfg "cpus" (VInt 1);;
  memory <-! get ctr_cfg "memory_mb" (VInt 512);;
  command <-! get ctr_cfg "command" VNone;;
  restart <-! get ctr_cfg "restart_policy" (VStr "always");;
  privileged <-! get ctr_cfg "privileged" (VBool false);;
  let data := {{ "label" ::= VStr ctr_key; "name" ::= VStr ctr_key; "image" ::= image;
                 "registryCredentialId" ::= VNone; "registryCredentialName" ::= credential; "cpus" ::= cpus;
                 "memory" ::= memory; "nics" ::= VList nics.*1; "envVars" ::= env; "ports" ::= ports;
                 "command" ::= command; "restartPolicy" ::= restart; "privileged" ::= privileged;
                 "mounts" ::= VList (map (λ '(_, _, _, m, _), m) disks); "status" ::= VStr "stopped";
                 "icon" ::= VStr "📦" }}%py in
  data <-! (if eq_str t "pod" then pod_fields ctr_cfg data disk_name_to_id else Ok data);;
  gret ({{ "id" ::= ctr_id; "type" ::= VStr "containerNode"; "position" ::= position vm_x vm_row_y;
           "data" ::= data }}%py,
        map (λ '(_, _, n, _, _), n) disks, map (λ '(_, _, _, _, e), e) disks, concat nics.*2).
End Workloads.
