(* ===== verification/TemplateCanvas.v ===== *)
(** * The canvas of a template

    [_generate_topology_from_vms] of [services/template_loader.py] with what it calls there, in
    [services/ceph_scaffold.py] and in [services/showroom_scaffold.py]: networks, gateway,
    cluster boundaries, Ceph, machines, showroom, containers, start order, DNS records and BMC
    addresses. *)
From stdpp Require Import prelude strings.
From Stdlib Require Import Ascii ZArith Lia.
From S2P Require Import Prelude PyStr PyVal PyLemmas Ipv4 TopoNodes DnsRecords ClusterMembers TemplateClusters TemplateVms Showroom.

Open Scope list_scope.
Open Scope gen_scope.

(** ** BMC addresses *)

(** [template_loader._bmc_cidr_from_nets] *)
Definition bmc_cidr_from_nets (nets_def : val) : res string :=
  kvs <- items nets_def;;
  o <- first_some (λ kv,
    t <- get kv.2 "type" VNone;;
    if eq_str t "bmc" then c <- get kv.2 "cidr" VNone;; Ok (Some (py_str (v_or c (VStr "192.168.100.0/24"))))
    else Ok None) kvs;;
  Ok (default "192.168.100.0/24" o).

(** [template_loader._next_free_bmc_ip:1279-1280] the first three octets of the network. *)
Definition bmc_prefix (cidr : string) : string :=
  let base := take 3 (split "." (default "" (head (split "/" cidr)))) in
  if (length base =? 3)%nat then join "." base else "192.168.100".

(** [template_loader._next_free_bmc_ip] *)
Definition next_free_bmc_ip (used : list string) (cidr : string) : string :=
  let candidate h := bmc_prefix cidr +:+ "." +:+ str_of_Z h in
  default (candidate 11)
    (find (λ ip, negb (existsb (String.eqb ip) used)) (map candidate (zrange 11 249))).

(** [template_loader._assign_bmc_ips] *)
Definition assign_bmc_ips (nodes : list val) (nets_def : val) : res (list val) :=
  cidr <- bmc_cidr_from_nets nets_def;;
  used <- for_each nodes [] (λ node used,
    t <- has_type node "vmNode";;
    if negb t then Ok used
    else
      data <- data_of node;;
      ip <- get data "bmcIp" VNone;;
      Ok (if truthy ip then used ++ [py_str ip] else used));;
  '(nodes, _) <- for_each nodes ([], used) (λ node '(done, used),
    t <- has_type node "vmNode";;
    if negb t then Ok (done ++ [node], used)
    else
      '(node, data) <- setdefault node "data" empty_dict;;
      enabled <- get data "bmcEnabled" VNone;;
      ip <- get data "bmcIp" VNone;;
      if negb (truthy enabled) || truthy ip then Ok (done ++ [node], used)
      else
        let ip := next_free_bmc_ip used cidr in
        data <- set_item data "bmcIp" (VStr ip);;
        node <- set_item node "data" data;;
        Ok (done ++ [node], used ++ [ip]));;
  Ok nodes.

(** ** DNS records *)

(** Some record has the name. *)
Definition has_record (top_dns : list val) (name : string) : res bool :=
  any_res (λ r, n <- get r "name" VNone;; Ok (eq_str n name)) top_dns.

Definition dns_record (name : val) (ip : val) : val := {{ "name" ::= name; "ip" ::= ip }}%py.

(** [template_loader._generate_ocp_cluster_dns_records] *)
Definition generate_ocp_cluster_dns_records (ocp_cfg : val) (top_dns : list val) : res (list val) :=
  cn <- get ocp_cfg "name" VNone;;
  bd <- get ocp_cfg "base_domain" VNone;;
  if negb (truthy cn && truthy bd) then Ok top_dns
  else
    api_vip <- get ocp_cfg "api_vip" vstr_empty;;
    ingress_vip <- get ocp_cfg "ingress_vip" api_vip;;
    if negb (truthy api_vip) then Ok top_dns
    else
      let zone := py_str cn +:+ "." +:+ py_str bd in
      top_dns <- for_each ["api." +:+ zone; "api-int." +:+ zone] top_dns (λ rec_name top_dns,
        b <- has_record top_dns rec_name;;
        Ok (if b then top_dns else top_dns ++ [dns_record (VStr rec_name) api_vip]));;
      let apps_name := ".apps." +:+ zone in
      b <- has_record top_dns apps_name;;
      Ok (if b then top_dns else top_dns ++ [dns_record (VStr apps_name) ingress_vip]).

(** [template_loader._generate_ocp_dns_records] *)
Definition generate_ocp_dns_records (ocp_section : val) (top_dns : list val) : res (list val) :=
  entries <- normalize_ocp_section ocp_section;;
  for_each entries top_dns generate_ocp_cluster_dns_records.

(** [template_loader._resolve_dns_records_on_networks] one node. *)
Definition resolve_dns_records_on_network (workload_ips : list (val * val)) (net_node : val) : res val :=
  t <- has_type net_node "networkNode";;
  if negb t then Ok net_node
  else
    data <- data_of net_node;;
    subtype <- get data "subtype" (VStr "network");;
    kind <- get data "networkType" VNone;;
    records <- get data "dnsRecords" VNone;;
    if negb (eq_str subtype "network") || eq_str kind "bmc" || negb (truthy records) then Ok net_node
    else
      records <- iter records;;
      records <- map_res (λ r, resolve_dns_record_entry r workload_ips) records;;
      data <- set_item data "dnsRecords" (VList records);;
      set_item net_node "data" data.

(** [template_loader._resolve_dns_records_on_networks] *)
Definition resolve_dns_records_on_networks (nodes : list val) : res (list val) :=
  workload_ips <- collect_workload_ips nodes;;
  map_res (resolve_dns_records_on_network workload_ips) nodes.

(** [template_loader._merge_dns_to_network]: the names that count are those the network had. *)
Definition merge_dns_to_network (net_node : val) (top_dns : list val) (workload_ips : list (val * val)) : res val :=
  data <- idx net_node "data";;
  existing <- get data "dnsRecords" empty_list;;
  existing <- iter existing;;
  existing_names <- for_each existing [] (λ r names, n <- idx r "name";; vadd n names);;
  existing <- for_each top_dns existing (λ rec existing,
    resolved <- resolve_dns_record_entry rec workload_ips;;
    ip <- get resolved "ip" vstr_empty;;
    name <- get resolved "name" VNone;;
    new <- (if truthy ip && truthy name then n <- idx resolved "name";; b <- vin n existing_names;; Ok (negb b)
            else Ok false);;
    Ok (if new then existing ++ [dns_record name ip] else existing));;
  match existing with
  | [] => Ok net_node
  | _ => data <- set_item data "dnsRecords" (VList existing);; set_item net_node "data" data
  end.

(** The test of [_apply_dns_records]: the first lab network takes the records. *)
Definition takes_dns_records (net_node : val) : res bool :=
  has_type net_node "networkNode"
  <&&> (data <- data_of net_node;; s <- get data "subtype" VNone;; Ok (eq_str s "network"))
  <&&> (data <- data_of net_node;; k <- get data "networkType" VNone;; Ok (negb (eq_str k "bmc"))).

(** Change the first element that passes. *)
Fixpoint update_first (p : val → res bool) (f : val → res val) (l : list val) : res (list val) :=
  match l with
  | [] => Ok []
  | x :: l' =>
      b <- p x;;
      if b then y <- f x;; Ok (y :: l') else ys <- update_first p f l';; Ok (x :: ys)
  end.

(** [template_loader._apply_dns_records] *)
Definition apply_dns_records (tmpl : val) (nodes : list val) : res (list val) :=
  top_dns <- get tmpl "dns_records" empty_list;;
  top_dns <- iter top_dns;;
  ocp <- get tmpl "ocp" empty_dict;;
  top_dns <- generate_ocp_dns_records ocp top_dns;;
  match top_dns with
  | [] => Ok nodes
  | _ =>
      workload_ips <- collect_workload_ips nodes;;
      update_first takes_dns_records (λ n, merge_dns_to_network n top_dns workload_ips) nodes
  end.

(** [template_loader._validate_uuid_uniqueness] *)
Definition validate_uuid_uniqueness (nodes : list val) : res () :=
  _ <- for_each nodes [] (λ n seen,
    d <- data_of n;;
    a <- get d "smbiosUuid" VNone;;
    u <- (if truthy a then Ok a else get d "uuid" VNone);;
    t <- has_type n "vmNode";;
    if negb (t && truthy u) then Ok seen
    else b <- vin u seen;; if b then Raise ValueError else vadd u seen);;
  Ok ().

(** ** Start order and hidden nodes *)

(** [template_loader._build_container_start_entry] *)
Definition build_container_start_entry (entry : val) (container_name_to_id : ids) : res (option val) :=
  c <- idx entry "container";;
  ctr_id <- id_of container_name_to_id c vstr_empty;;
  if negb (truthy ctr_id) then Ok None
  else
    delay <- get entry "delay" (VInt 0);;
    Ok (Some {{ "vmId" ::= ctr_id; "containerId" ::= ctr_id; "entryType" ::= VStr "container";
                "autoStart" ::= VBool true; "waitForVm" ::= VNone; "waitForService" ::= VStr "none";
                "waitForPort" ::= vstr_empty; "delaySeconds" ::= delay }}%py).

(** [template_loader._build_vm_start_entry] *)
Definition build_vm_start_entry (entry : val) (vm_name_to_id : ids) : res (option val) :=
  v <- get entry "vm" vstr_empty;;
  vm_id <- id_of vm_name_to_id v vstr_empty;;
  if negb (truthy vm_id) then Ok None
  else
    auto <- get entry "auto_start" (VBool true);;
    wait_name <- get entry "wait_for" vstr_empty;;
    waits <- (if truthy wait_name then w <- id_of vm_name_to_id wait_name VNone;;
                Ok (match w with VNone => [] | _ => [("waitForVm", w)] end)
              else Ok []);;
    delay <- get entry "delay" VNone;;
    Ok (Some (VDict ([("vmId", vm_id); ("autoStart", auto)] ++ waits
                     ++ (if truthy delay then [("delay", delay)] else [])))).

(** [template_loader._build_start_order] *)
Definition build_start_order (tmpl : val) (vm_name_to_id container_name_to_id : ids) : res (list val) :=
  entries <- get tmpl "start_order" empty_list;;
  entries <- iter entries;;
  l <- map_res (λ entry,
    c <- has_key "container" entry;;
    if c then build_container_start_entry entry container_name_to_id
    else v <- has_key "vm" entry;; if v then build_vm_start_entry entry vm_name_to_id else Ok None) entries;;
  Ok (omap id l).

(** [template_loader._collect_hidden_node_ids] *)
Definition collect_hidden_node_ids (tmpl : val) (all_name_to_id : ids) : res (list val) :=
  names <- get tmpl "hidden_nodes" empty_list;;
  names <- iter names;;
  l <- map_res (λ name, nid <- id_of all_name_to_id name VNone;; Ok (if truthy nid then [nid] else [])) names;;
  Ok (concat l).

(** ** Networks of clusters *)

(** [template_loader._append_nic_network_id] *)
Definition append_nic_network_id (nets_def : val) (net_ids : ids) (nic : val) (found : list val) : res (list val) :=
  net <- get nic "network" vstr_empty;;
  cfg <- get_by nets_def net VNone;;
  t <- get (v_or cfg empty_dict) "type" VNone;;
  if eq_str t "bmc" then Ok found
  else
    nid <- id_of net_ids net net;;
    Ok (if truthy nid && negb (vmem nid found) then found ++ [nid] else found).

(** [template_loader._network_ids_from_cluster_members] *)
Definition network_ids_from_cluster_members (cid vms_def : val) (vm_cluster_map : ids) (net_ids : ids) (nets_def : val)
    : res (list val) :=
  kvs <- items (v_or vms_def empty_dict);;
  for_each kvs [] (λ '(vm_name, vm_cfg) found,
    if negb (py_eq (default VNone (assoc vm_name vm_cluster_map)) cid) then Ok found
    else
      nics <- get vm_cfg "nics" empty_list;;
      nics <- iter (v_or nics empty_list);;
      for_each nics found (append_nic_network_id nets_def net_ids)).

(** [template_loader._infer_cluster_network_ids] *)
Definition infer_cluster_network_ids (clusters : list val) (vms_def : val) (vm_cluster_map net_ids : ids) (nets_def : val)
    : res (list val) :=
  map_res (λ cluster,
    have <- get cluster "networkIds" VNone;;
    if truthy have then Ok cluster
    else
      cid <- get cluster "id" VNone;;
      found <- network_ids_from_cluster_members cid vms_def vm_cluster_map net_ids nets_def;;
      match found with [] => Ok cluster | _ => set_item cluster "networkIds" (VList found) end) clusters.

(** [template_loader._resolve_cluster_network_names] *)
Definition resolve_cluster_network_names (clusters : list val) (net_ids : ids) : res (list val) :=
  map_res (λ cluster,
    b <- has_key "_networkNames" cluster;;
    if negb b then Ok cluster
    else
      names <- idx cluster "_networkNames";;
      names <- iter names;;
      network_ids <- map_res (λ n, id_of net_ids n n) names;;
      cluster <- (match network_ids with [] => Ok cluster | _ => set_item cluster "networkIds" (VList network_ids) end);;
      pop_item cluster "_networkNames") clusters.

(** [template_loader._default_dns_network_name] *)
Definition default_dns_network_name (nets_def gateway_network : val) : res string :=
  gw <- as_str (v_or gateway_network vstr_empty);;
  let gw_net := strip gw in
  known <- (if String.eqb gw_net "" then Ok false else has_key gw_net nets_def);;
  if negb known then Ok ""
  else
    net_cfg <- idx nets_def gw_net;;
    t <- get net_cfg "type" VNone;;
    if eq_str t "bmc" then Ok ""
    else
      domain <- get net_cfg "domain" VNone;;
      dns <- get net_cfg "dns" VNone;;
      upstream <- get net_cfg "dns_upstream" VNone;;
      Ok (if truthy domain || truthy dns || truthy upstream then gw_net else "").

(** [template_loader._template_requires_kubevirt] *)
Definition template_requires_kubevirt (tmpl : val) : res bool :=
  placement <- get tmpl "placement" VNone;;
  let placement := v_or placement empty_dict in
  a <- get placement "requires_kubevirt" VNone;;
  b <- (if truthy a then Ok a else get placement "requiresKubevirt" VNone);;
  Ok (truthy b).

(** [template_loader._build_cluster_boundary_nodes] *)
Definition build_cluster_boundary_nodes (clusters : list val) : res (list val) :=
  map_res (λ '(i, c),
    id <- idx c "id";; name <- idx c "name";; type <- idx c "type";; cp <- idx c "controlPlane";;
    workers <- idx c "workers";; domain <- idx c "baseDomain";; api <- idx c "apiVip";; ingress <- idx c "ingressVip";;
    Ok {{ "id" ::= VStr ("cluster-" +:+ py_str id); "type" ::= VStr "clusterNode";
          "position" ::= position (100 + Z.of_nat i * 900) 250;
          "data" ::= {{ "clusterId" ::= id; "name" ::= name; "type" ::= type; "controlPlane" ::= cp;
                        "workers" ::= workers; "baseDomain" ::= domain; "apiVip" ::= api;
                        "ingressVip" ::= ingress }} }}%py)
    (zip (seq 0 (length clusters)) clusters).

(** ** Ceph *)

(** [ceph_scaffold._default_ceph_lab_ip] *)
Definition default_ceph_lab_ip (cidr : string) : res string :=
  if String.eqb cidr "" || negb (contains "/" cidr) then Ok ""
  else
    let octets := split "." (default "" (head (split "/" cidr))) in
    if (3 <? length octets)%nat then Ok (join "." (<[3%nat := "4"]> octets)) else Raise IndexError.

(** [ceph_scaffold.ceph_position_for_cluster_count] *)
Definition ceph_position_for_cluster_count (count : Z) : Z * Z :=
  if 2 <=? count then
    let gap_left := 100 + 520 in
    let gap_right := 100 + (count - 1) * 900 in
    (gap_left + Z.max 40 ((gap_right - gap_left - 200) / 2), 250 + Z.max 0 ((320 - 80) / 2))
  else if count =? 1 then (100 + 520 + 40, 250 + Z.max 0 ((320 - 80) / 2))
  else (50, 250 + 120).

(** [ceph_scaffold._clamp_osd_capacity] *)
Definition clamp_osd_capacity (ceph_cfg : val) : res (Z * Z) :=
  c <- get ceph_cfg "osdCount" VNone;;
  osd_count <- py_int (v_or c (VInt 3));;
  let osd_count := Z.max 1 (Z.min 6 osd_count) in
  g <- get ceph_cfg "capacityGi" VNone;;
  capacity_gi <- py_int (v_or g (VInt (osd_count * 50)));;
  Ok (osd_count, Z.max capacity_gi (osd_count * 50)).

(** [ceph_scaffold._ceph_cluster_edges] *)
Definition ceph_cluster_edges (node_id : string) (linked_names : list val) (cluster_name_to_id : list (val * val))
    : res (list val) :=
  l <- map_res (λ '(i, name),
    o <- vget name cluster_name_to_id;;
    match o with
    | Some cluster_id =>
        if truthy cluster_id then
          Ok [{{ "id" ::= VStr ("edge-" +:+ node_id +:+ "-" +:+ py_str cluster_id); "source" ::= VStr node_id;
                 "target" ::= cluster_id;
                 "sourceHandle" ::= VStr (if Nat.even i then "right" else "left");
                 "targetHandle" ::= VStr (if Nat.even i then "ceph-left" else "ceph-right") }}%py]
        else Ok []
    | None => Ok []
    end) (zip (seq 0 (length linked_names)) linked_names);;
  Ok (concat l).

(** [showroom_scaffold.dns_network_resolver_ips] *)
Definition dns_network_resolver_ips (cidr dns_server_ip : string) : list string :=
  let dns_server_ip := strip dns_server_ip in
  if negb (String.eqb dns_server_ip "") then [dns_server_ip]
  else
    match ip_network_of_string cidr with
    | None => []
    | Some net =>
        let base := join "." (take 3 (split "." (ip_str (net_addr net)))) in
        [base +:+ ".1"; base +:+ ".2"]
    end.

(** [template_loader._showroom_resolver_ips] *)
Definition showroom_resolver_ips (showroom_cfg nets_def gw_net_name : val) : res (list string) :=
  d <- text_field showroom_cfg "dns_network";;
  dns_net <- (if String.eqb d "" then default_dns_network_name nets_def gw_net_name else Ok d);;
  cfg <- (if String.eqb dns_net "" then Ok empty_dict else get nets_def dns_net empty_dict);;
  cidr <- get cfg "cidr" VNone;;
  a <- get cfg "dns_server_ip" VNone;;
  server <- (if truthy a then Ok a else get cfg "dnsServerIp" VNone);;
  Ok (dns_network_resolver_ips (py_str (v_or cidr vstr_empty)) (py_str (v_or server vstr_empty))).

(** ** Tabs of the showroom *)

(** [showroom_scaffold.cluster_console_hosts] *)
Definition cluster_console_hosts (name base_domain : string) : list string :=
  ["console-openshift-console.apps." +:+ name +:+ "." +:+ base_domain;
   "oauth-openshift.apps." +:+ name +:+ "." +:+ base_domain].

(** [showroom_scaffold._resolve_tab_cluster] *)
Definition resolve_tab_cluster (ref : string) (clusters : list val) : res val :=
  o <- find_res (λ c, n <- get c "name" VNone;; Ok (eq_str n ref)) clusters;;
  match o with Some c => Ok c | None => Raise ValueError end.

(** [showroom_scaffold._apply_cluster_link] *)
Definition apply_cluster_link (tab raw : val) (clusters : list val) : res (val * bool) :=
  ref <- get raw "cluster" VNone;;
  t <- get tab "type" VNone;;
  if negb (eq_str t "proxy") || negb (truthy ref) then Ok (tab, false)
  else
    cluster <- resolve_tab_cluster (py_str ref) clusters;;
    name <- idx cluster "name";;
    domain <- get cluster "baseDomain" VNone;;
    let base_domain := v_or domain (VStr "ocp.local") in
    id <- idx cluster "id";;
    tab <- set_item tab "clusterId" id;;
    tab <- set_item tab "name" (VStr (py_str name +:+ " Console"));;
    tab <- set_item tab "proxyHosts"
             (VList (map VStr (cluster_console_hosts (py_str name) (py_str base_domain))));;
    Ok (tab, true).

(** [showroom_scaffold._copy_optional_tab_fields] *)
Definition copy_optional_tab_fields (tab raw : val) : res val :=
  let copy_true target source tab := v <- get raw source VNone;; set_true tab target v in
  let copy_int target source tab :=
    v <- get raw source VNone;;
    match v with VNone => Ok tab | _ => z <- py_int v;; set_item tab target (VInt z) end in
  tab <- copy_true "sshUser" "ssh_user" tab;;
  tab <- copy_true "sshPass" "ssh_pass" tab;;
  tab <- copy_int "sshPort" "ssh_port" tab;;
  tab <- copy_true "proxyPath" "proxy_path" tab;;
  tab <- copy_int "proxyPort" "proxy_port" tab;;
  tls <- get raw "proxy_tls" VNone;;
  tab <- (if truthy tls then set_item tab "proxyTls" (VBool true) else Ok tab);;
  tab <- copy_true "proxyHost" "proxy_host" tab;;
  hosts <- get raw "proxy_hosts" VNone;;
  hosts <- iter (v_or hosts empty_list);;
  tab <- (match hosts with [] => Ok tab | _ => set_item tab "proxyHosts" (VList hosts) end);;
  copy_true "url" "url" tab.

(** [d\[k\]] for a key that is any value, and [k in d]. *)
Definition has_id (k : val) (m : ids) : res bool := k <- hkey k;; Ok (match k with VStr s => bool_decide (is_Some (assoc s m)) | _ => false end).

(** [showroom_scaffold._parse_one_template_tab] with the tab's id. *)
Definition parse_one_template_tab (tab_id : string) (raw : val) (vm_name_to_id net_ids : ids) (clusters : list val)
    : res val :=
  tab_type <- get raw "type" (VStr "terminal");;
  name <- get raw "name" tab_type;;
  let tab := {{ "id" ::= VStr tab_id; "name" ::= name; "type" ::= tab_type }}%py in
  vm_name <- get raw "vm" vstr_empty;;
  tab <- (if truthy vm_name then
            known <- has_id vm_name vm_name_to_id;;
            if negb known then Raise ValueError
            else v <- id_of vm_name_to_id vm_name VNone;; set_item tab "vmId" v
          else Ok tab);;
  '(tab, cluster_linked) <- apply_cluster_link tab raw clusters;;
  h <- get raw "proxy_host" VNone;;
  h <- (if truthy h then Ok h else get raw "proxy_hosts" VNone);;
  target <- get raw "target" VNone;;
  let name_based_proxy := eq_str tab_type "proxy" && (truthy h || cluster_linked) in
  let cluster_terminal := eq_str tab_type "terminal" && eq_str target "clusters" in
  tab <- (if cluster_terminal then set_item tab "target" (VStr "clusters") else Ok tab);;
  network <- get raw "network" vstr_empty;;
  if negb (eq_str tab_type "external") && negb name_based_proxy && negb cluster_terminal && negb (truthy network)
  then Raise ValueError
  else
    tab <- (if truthy network then
              known <- has_id network net_ids;;
              if negb known then Raise ValueError
              else
                tab <- set_item tab "network" network;;
                i <- id_of net_ids network VNone;; set_item tab "networkId" i
            else Ok tab);;
    copy_optional_tab_fields tab raw.

(** ** The generator *)

Section Canvas.
Context (fresh : nat → string) (octets : nat → Z * Z * Z).
Notation _id := (_id fresh).

(** [template_loader._gw_net_edge] *)
Definition gw_net_edge (gw_id net_id : val) : gen val :=
  i <-' _id;;
  gret {{ "id" ::= VStr i; "source" ::= gw_id; "target" ::= net_id; "sourceHandle" ::= VStr "bottom";
          "targetHandle" ::= VStr "top"; "type" ::= VStr "smoothstep"; "style" ::= network_style;
          "animated" ::= VBool true }}%py.

(** [template_loader._create_network_nodes:1317-1345] what a network's node holds. *)
Definition network_data (net_name : string) (net_cfg bmc_password : val) : res val :=
  t <- get net_cfg "type" VNone;;
  let is_bmc := eq_str t "bmc" in
  cidr <- get net_cfg "cidr" (VStr "10.0.0.0/24");;
  dhcp <- get net_cfg "dhcp" (VBool (negb is_bmc));;
  domain <- get net_cfg "domain" VNone;;
  dns <- get net_cfg "dns" VNone;;
  records <- get net_cfg "dns_records" VNone;;
  upstream <- get net_cfg "dns_upstream" VNone;;
  kind <- (if is_bmc then
             user <- get net_cfg "bmc_username" (VStr "admin");;
             password <- get net_cfg "bmc_password" bmc_password;;
             Ok [("networkType", VStr "bmc"); ("bmcUsername", user); ("bmcPassword", password)]
           else if eq_str t "migration" then
             allow <- get net_cfg "allow_nested_macs" (VBool true);;
             Ok [("networkType", VStr "migration"); ("allowNestedMacs", allow)]
           else
             allow <- get net_cfg "allow_nested_macs" VNone;;
             Ok (if truthy allow then [("allowNestedMacs", VBool true)] else []));;
  Ok (VDict ([("name", VStr net_name); ("label", VStr net_name); ("subtype", VStr "network"); ("cidr", cidr);
              ("dhcp", dhcp); ("icon", VStr "🌐")]
             ++ (if truthy domain then [("dns", VBool true); ("dnsDomain", domain)]
                 else if truthy dns || truthy records then [("dns", VBool true)] else [])
             ++ (if truthy records then [("dnsRecords", records)] else [])
             ++ (if truthy upstream then [("dnsUpstream", VBool true)] else [])
             ++ kind)).

(** [template_loader._create_network_nodes]: the nodes and the ids by name. *)
Definition create_network_nodes (nets_def bmc_password : val) (net_row_y vm_spacing : Z) : gen (list val * ids) :=
  kvs <-! items nets_def;;
  l <-' gmap_i 0 kvs (λ i '(net_name, net_cfg),
    data <-! network_data net_name net_cfg bmc_password;;
    id <-' _id;;
    gret (net_name, {{ "id" ::= VStr id; "type" ::= VStr "networkNode";
                       "position" ::= position (150 + z_of i * vm_spacing) net_row_y; "data" ::= data }}%py, VStr id));;
  gret (map (λ '(_, n, _), n) l, foldl (λ m '(name, _, id), assoc_set name id m) [] l).

(** [template_loader._find_bastion_ip] *)
Definition find_bastion_ip (vms_def : val) : res val :=
  kvs <- items vms_def;;
  o <- first_some (λ kv,
    role <- get kv.2 "role" VNone;;
    if negb (eq_str role "bastion") then Ok None
    else
      nics <- get kv.2 "nics" empty_list;;
      nics <- iter nics;;
      ip <- first_nic_ip nics;; Ok (Some ip)) kvs;;
  Ok (default vstr_empty o).

(** [template_loader._generate_ocp_port_forwards] *)
Definition generate_ocp_port_forwards (eip_id : string) (vms_def : val) (clusters : list val) : res (list val) :=
  bastion_ip <- find_bastion_ip vms_def;;
  ensure_ocp_api_port_forwards
    (if truthy bastion_ip then
       [{{ "extIpId" ::= VStr eip_id; "extPort" ::= VStr "2222"; "intIp" ::= bastion_ip; "intPort" ::= VStr "22";
           "proto" ::= VStr "tcp" }}%py] else []) eip_id clusters.

(** [template_loader._create_gateway_node:1461-1470] a forward the template lists. *)
Definition custom_forward (eip_id : string) (pf : val) : res val :=
  ext <- idx pf "ext_port";; int_ip <- idx pf "int_ip";; int <- idx pf "int_port";; proto <- get pf "proto" (VStr "tcp");;
  Ok {{ "extIpId" ::= VStr eip_id; "extPort" ::= VStr (py_str ext); "intIp" ::= int_ip;
        "intPort" ::= VStr (py_str int); "proto" ::= proto }}%py.

(** [template_loader._create_gateway_node]: the node, the external addresses, the network. *)
Definition create_gateway_node (gw_def vms_def tmpl : val) (external_access : bool) (gw_y : Z) (nets_def : val)
    : gen (val * list val * val) :=
  gw_outbound <-! get gw_def "outbound_ports" empty_list;;
  ext <-! get gw_def "external_access" (VBool false);;
  let gw_external := external_access || truthy ext in
  '(external_ips, port_forwards) <-'
    (if gw_external then
       eip_id <-' _id;;
       custom <-! get gw_def "port_forwards" empty_list;;
       custom <-! iter custom;;
       custom <-! map_res (custom_forward eip_id) custom;;
       ocp <-! get tmpl "ocp" VNone;;
       ocp_clusters <-! normalize_ocp_section ocp;;
       pfs <-! (match custom with
                | [] => generate_ocp_port_forwards eip_id vms_def ocp_clusters
                | _ => ensure_ocp_api_port_forwards custom eip_id ocp_clusters
                end);;
       gret ([{{ "id" ::= VStr eip_id; "name" ::= VStr "IP-1" }}%py], pfs)
     else gret ([], []));;
  gw_id <-' _id;;
  ports <-! iter gw_outbound;;
  let gw_node :=
    {{ "id" ::= VStr gw_id; "type" ::= VStr "networkNode"; "position" ::= position 150 gw_y;
       "data" ::= {{ "name" ::= VStr "gateway"; "label" ::= VStr "gateway"; "subtype" ::= VStr "gateway";
                     "gatewayMode" ::= VStr (if gw_external then "nat-portforward" else "nat");
                     "portForwards" ::= VList port_forwards;
                     "outboundPolicy" ::= VStr (if truthy gw_outbound then "restrict" else "allow-all");
                     "outboundPorts" ::= VStr (join "," (map py_str ports)); "icon" ::= VStr "🌐" }} }}%py in
  named <-! get gw_def "network" VNone;;
  gw_net_name <-!
    (if truthy named then Ok named
     else
       kvs <- items nets_def;;
       o <- find_res (λ kv, t <- get kv.2 "type" VNone;; Ok (negb (eq_str t "bmc"))) kvs;;
       Ok (match o with Some (nn, _) => VStr nn | None => named end));;
  gret (gw_node, external_ips, gw_net_name).

(** [template_loader._cluster_boundary_anchor_edge] *)
Definition cluster_boundary_anchor_edge (net_id boundary_id : val) (use_bottom : bool) : gen val :=
  i <-' _id;;
  gret {{ "id" ::= VStr i; "source" ::= net_id; "target" ::= boundary_id;
          "sourceHandle" ::= VStr (if use_bottom then "top" else "bottom");
          "targetHandle" ::= VStr (if use_bottom then "cluster-net-bottom" else "cluster-net-top");
          "type" ::= VStr "clusterAnchor"; "style" ::= network_style; "animated" ::= VBool true }}%py.

Definition is_linked (linked : list (val * val)) (a b : val) : bool :=
  existsb (λ p, py_eq p.1 a && py_eq p.2 b) linked.

(** [template_loader._append_boundary_edges_for_cluster:948-955] over the networks of a cluster. *)
Fixpoint append_boundary_edges (idx_ : nat) (networks : list val) (boundary_id : val) (node_by_id : list (val * val))
    (linked : list (val * val)) (edges : list val) : gen (list (val * val) * list val) :=
  match networks with
  | [] => gret (linked, edges)
  | net_id :: networks' =>
      net <-! vget net_id node_by_id;;
      match net with
      | Some net =>
          if is_linked linked net_id boundary_id
          then append_boundary_edges (S idx_) networks' boundary_id node_by_id linked edges
          else
            data <-! data_of net;;
            kind <-! get data "networkType" VNone;;
            e <-' cluster_boundary_anchor_edge net_id boundary_id (negb (bool_decide (idx_ = 0%nat)) || eq_str kind "bmc");;
            append_boundary_edges (S idx_) networks' boundary_id node_by_id (linked ++ [(net_id, boundary_id)])
              (edges ++ [e])
      | None => append_boundary_edges (S idx_) networks' boundary_id node_by_id linked edges
      end
  end.

(** [template_loader._add_cluster_boundary_network_edges:973-974] with
    [_append_boundary_edges_for_cluster]. *)
Fixpoint add_boundary_edges (clusters : list val) (node_by_id : list (val * val)) (linked : list (val * val))
    (edges : list val) : gen (list val) :=
  match clusters with
  | [] => gret edges
  | c :: clusters' =>
      id <-! idx c "id";;
      let boundary_id := VStr ("cluster-" +:+ py_str id) in
      b <-! vget boundary_id node_by_id;;
      match b with
      | None => add_boundary_edges clusters' node_by_id linked edges
      | Some _ =>
          networks <-! get c "networkIds" VNone;;
          networks <-! iter (v_or networks empty_list);;
          '(linked, edges) <-' append_boundary_edges 0 networks boundary_id node_by_id linked edges;;
          add_boundary_edges clusters' node_by_id linked edges
      end
  end.

(** [template_loader._add_cluster_boundary_network_edges]: the edges afterwards. *)
Definition add_cluster_boundary_network_edges (clusters nodes edges : list val) : gen (list val) :=
  node_by_id <-! nodes_by_id_of nodes;;
  linked <-! map_res (λ e, s <- get e "source" VNone;; s <- hkey s;; t <- get e "target" VNone;; t <- hkey t;; Ok (s, t)) edges;;
  add_boundary_edges clusters node_by_id linked edges.

(** [ceph_scaffold.build_ceph_from_config], where the position is the default one. *)
Definition build_ceph_from_config (ceph_cfg : val) (net_ids : ids) (nets_def : val)
    (cluster_name_to_id : list (val * val)) : gen (val * list val) :=
  network <-! get ceph_cfg "network" VNone;;
  let network_name := strip (py_str (v_or network (VStr "cluster"))) in
  net_id <-! id_of net_ids (VStr network_name) (VStr network_name);;
  cfg <-! get nets_def network_name VNone;;
  c <-! get (v_or cfg empty_dict) "cidr" VNone;;
  let cidr := py_str (v_or c vstr_empty) in
  '(osd_count, capacity_gi) <-! clamp_osd_capacity ceph_cfg;;
  own <-! text_field ceph_cfg "labIp";;
  lab_ip <-! (if String.eqb own "" then default_ceph_lab_ip cidr else Ok own);;
  i <-' _id;;
  let node_id := "ceph-" +:+ str_take 8 i in
  name <-! get ceph_cfg "name" VNone;;
  let name := py_str (v_or name (VStr "Ceph Storage")) in
  linked <-! get ceph_cfg "clusters" VNone;;
  linked <-! iter (v_or linked empty_list);;
  let '(x, y) := ceph_position_for_cluster_count (Z.of_nat (length linked)) in
  class <-! get ceph_cfg "storageClassName" VNone;;
  edges <-! ceph_cluster_edges node_id linked cluster_name_to_id;;
  gret ({{ "id" ::= VStr node_id; "type" ::= VStr "cephClusterNode"; "position" ::= position x y;
           "data" ::= {{ "id" ::= VStr node_id; "label" ::= VStr name; "name" ::= VStr name; "networkRef" ::= net_id;
                         "labIp" ::= VStr lab_ip; "capacityGi" ::= VInt capacity_gi; "osdCount" ::= VInt osd_count;
                         "linkedClusters" ::= VList linked;
                         "storageClassName" ::= v_or class (VStr "troshka-ceph-rbd") }} }}%py, edges).

(** [template_loader._maybe_append_ceph_scaffold]: the nodes and edges added. *)
Definition maybe_append_ceph_scaffold (tmpl : val) (clusters : list val) (net_ids : ids) (nets_def : val)
    : gen (list val * list val) :=
  a <-! get tmpl "cephCluster" VNone;;
  ceph_cfg <-! (if truthy a then Ok a else get tmpl "ceph_cluster" VNone);;
  wanted <-! (Ok (truthy ceph_cfg) <&&> template_requires_kubevirt tmpl);;
  if negb wanted then gret ([], [])
  else
    cluster_name_to_id <-! for_each clusters [] (λ c m,
      name <- get c "name" VNone;;
      if truthy name then i <- idx c "id";; vset name (VStr ("cluster-" +:+ py_str i)) m else Ok m);;
    '(node, edges) <-' build_ceph_from_config ceph_cfg net_ids nets_def cluster_name_to_id;;
    gret ([node], edges).

(** [template_loader._stamp_cluster_membership] *)
Definition stamp_cluster_membership (vm_node : val) (vm_cluster_map : ids) (vm_name : string) : res val :=
  let cluster_id := default VNone (assoc vm_name vm_cluster_map) in
  if negb (truthy cluster_id) then Ok vm_node
  else
    data <- idx vm_node "data";;
    data <- set_item data "clusterId" cluster_id;;
    vm_node <- set_item vm_node "data" data;;
    vm_node <- set_item vm_node "parentId" (VStr ("cluster-" +:+ py_str cluster_id));;
    vm_node <- set_item vm_node "extent" (VStr "parent");;
    set_item vm_node "draggable" (VBool false).

(** [template_loader._materialize_vm_nodes]: nodes, edges, and the ids by name. *)
Fixpoint materialize_vm_nodes (vms : list (string * val)) (nets_def : val) (net_ids : ids) (vm_cluster_map : ids)
    (requires_kubevirt : bool) (vm_x vm_row_y vm_spacing : Z) (vm_name_to_id : ids)
    : gen (list val * list val * ids * Z) :=
  match vms with
  | [] => gret ([], [], vm_name_to_id, vm_x)
  | (vm_name, vm_cfg) :: vms' =>
      '(vm_node, disk_nodes, disk_edges, isos, nic_edges) <-'
        build_vm_data fresh octets vm_name vm_cfg nets_def net_ids vm_x vm_row_y requires_kubevirt;;
      vm_node <-! stamp_cluster_membership vm_node vm_cluster_map vm_name;;
      vm_id <-! idx vm_node "id";;
      '(nodes, edges, m, x) <-'
        materialize_vm_nodes vms' nets_def net_ids vm_cluster_map requires_kubevirt (vm_x + vm_spacing) vm_row_y
          vm_spacing (assoc_set vm_name vm_id vm_name_to_id);;
      gret (vm_node :: disk_nodes ++ isos.*1 ++ nodes, disk_edges ++ isos.*2 ++ nic_edges ++ edges, m, x)
  end.

(** [template_loader._materialize_container_nodes]: nodes, edges, and the ids by name. *)
Fixpoint materialize_container_nodes (containers : list (string * val)) (net_ids : ids) (vm_x vm_row_y vm_spacing : Z)
    (container_name_to_id : ids) : gen (list val * list val * ids) :=
  match containers with
  | [] => gret ([], [], container_name_to_id)
  | (ctr_key, ctr_cfg) :: containers' =>
      '(ctr_node, disk_nodes, disk_edges, nic_edges) <-'
        build_container_node fresh octets ctr_key ctr_cfg net_ids vm_x vm_row_y;;
      ctr_id <-! idx ctr_node "id";;
      '(nodes, edges, m) <-'
        materialize_container_nodes containers' net_ids (vm_x + vm_spacing) vm_row_y vm_spacing
          (assoc_set ctr_key ctr_id container_name_to_id);;
      gret (ctr_node :: disk_nodes ++ nodes, disk_edges ++ nic_edges ++ edges, m)
  end.

(** [showroom_scaffold.parse_template_tabs] *)
Definition parse_template_tabs (tabs_yaml : list val) (vm_name_to_id net_ids : ids) (clusters : list val)
    : gen (list val) :=
  gmap_i 0 tabs_yaml (λ _ raw,
    i <-' _id;; tab <-! parse_one_template_tab i raw vm_name_to_id net_ids clusters;; gret tab).

(** [showroom_scaffold.build_showroom_from_config]: container, disk, its edge, and the metadata. *)
Definition build_showroom_from_config (showroom_cfg : val) (vm_name_to_id : ids) (vms_def : val) (net_ids : ids)
    (vm_x vm_row_y : Z) (clusters : list val) (resolver_ips : list string) : gen (val * val * val * val) :=
  gb <-! get showroom_cfg "disk_gb" (VInt 5);;
  disk_gb <-! py_int gb;;
  repo <-! get showroom_cfg "content_repo" vstr_empty;;
  ref <-! get showroom_cfg "content_ref" (VStr "main");;
  build_content <-! get showroom_cfg "build_content" (VBool true);;
  dns_network <-! text_field showroom_cfg "dns_network";;
  raw <-! get showroom_cfg "tabs" VNone;;
  raw <-! iter (v_or raw empty_list);;
  tabs <-' parse_template_tabs raw vm_name_to_id net_ids clusters;;
  ctr_id <-' _id;;
  disk_id <-' _id;;
  edge_id <-' _id;;
  '(init_containers, pod_containers) <-!
    showroom_containers tabs vms_def vm_name_to_id resolver_ips None (py_str repo) (py_str ref) disk_id;;
  enabled <-! get showroom_cfg "enabled" (VBool true);;
  let disk_node := {{ "id" ::= VStr disk_id; "type" ::= VStr "storageNode";
                      "position" ::= position (vm_x - 190) (vm_row_y + 70);
                      "data" ::= {{ "label" ::= VStr "showroom-vol0"; "name" ::= VStr "showroom-vol0";
                                    "size" ::= VInt disk_gb; "format" ::= VStr "raw"; "icon" ::= VStr "🛢" }} }}%py in
  let ctr_node :=
    {{ "id" ::= VStr ctr_id; "type" ::= VStr "containerNode"; "position" ::= position vm_x vm_row_y;
       "data" ::= {{ "label" ::= VStr "showroom"; "name" ::= VStr "showroom"; "image" ::= vstr_empty;
                     "registryCredentialId" ::= VNone; "cpus" ::= VInt 1; "memory" ::= VInt 512;
                     "status" ::= VStr "stopped"; "icon" ::= VStr "📖"; "isPod" ::= VBool true;
                     "isShowroom" ::= VBool true; "infraNetworking" ::= VBool true;
                     "buildContent" ::= VBool (truthy build_content); "contentRepo" ::= VStr (py_str repo);
                     "contentRef" ::= VStr (py_str ref); "dnsNetwork" ::= VStr dns_network;
                     "showroomTabs" ::= VList tabs; "nics" ::= empty_list; "envVars" ::= empty_list;
                     "ports" ::= empty_list; "command" ::= VNone; "restartPolicy" ::= VStr "always";
                     "privileged" ::= VBool false;
                     "mounts" ::= VList [ {{ "diskNodeId" ::= VStr disk_id; "mountPath" ::= VStr "/showroom" }} ];
                     "initContainers" ::= init_containers; "podContainers" ::= pod_containers }} }}%py in
  gret (ctr_node, disk_node, storage_edge edge_id (VStr disk_id) (VStr ctr_id) ("mnt-" +:+ disk_id +:+ "-left") [],
        VDict ([("enabled", enabled); ("content_repo", VStr (py_str repo)); ("content_ref", VStr (py_str ref));
                ("build_content", VBool (truthy build_content)); ("disk_gb", VInt disk_gb); ("tabs", VList tabs)]
               ++ (if String.eqb dns_network "" then [] else [("dns_network", VStr dns_network)]))).

(** [template_loader._ensure_showroom_dns_network]: the metadata and the node. *)
Definition ensure_showroom_dns_network (showroom_meta ctr_node nets_def gw_net_name : val) : res (val * val) :=
  d <- get showroom_meta "dns_network" VNone;;
  if truthy d then Ok (showroom_meta, ctr_node)
  else
    default_dns <- default_dns_network_name nets_def gw_net_name;;
    if String.eqb default_dns "" then Ok (showroom_meta, ctr_node)
    else
      showroom_meta <- set_item showroom_meta "dns_network" (VStr default_dns);;
      data <- idx ctr_node "data";;
      data <- set_item data "dnsNetwork" (VStr default_dns);;
      ctr_node <- set_item ctr_node "data" data;;
      Ok (showroom_meta, ctr_node).

(** [template_loader._append_showroom_scaffold]: what it adds, when it does: nodes, edges, the
    id of the container and the metadata. *)
Definition append_showroom_scaffold (tmpl nets_def gw_net_name : val) (vm_name_to_id : ids) (vms_def : val)
    (net_ids : ids) (gw_x gw_y : Z) (clusters : list val) : gen (option (list val * list val * val * val)) :=
  cfg <-! get tmpl "showroom" VNone;;
  let showroom_cfg := v_or cfg empty_dict in
  containers_def <-! get tmpl "containers" empty_dict;;
  enabled <-! get showroom_cfg "enabled" VNone;;
  wanted <-! (Ok (truthy enabled) <&&> (b <- has_key "showroom" containers_def;; Ok (negb b)));;
  if negb wanted then gret None
  else
    resolver_ips <-! showroom_resolver_ips showroom_cfg nets_def gw_net_name;;
    '(ctr_node, disk_node, disk_edge, meta) <-'
      build_showroom_from_config showroom_cfg vm_name_to_id vms_def net_ids gw_x gw_y clusters resolver_ips;;
    ctr_id <-! idx ctr_node "id";;
    '(meta, ctr_node) <-! ensure_showroom_dns_network meta ctr_node nets_def gw_net_name;;
    gret (Some ([ctr_node; disk_node], [disk_edge], ctr_id, meta)).

(** [template_loader._assemble_topology_result] *)
Definition assemble_topology_result (nodes edges external_ips start_order hidden_ids clusters : list val)
    (showroom_meta : option val) (tmpl : val) : res val :=
  let result := {{ "nodes" ::= VList nodes; "edges" ::= VList edges; "externalIps" ::= VList external_ips;
                   "startOrder" ::= VList start_order; "hiddenNodeIds" ::= VList hidden_ids;
                   "clusters" ::= VList clusters }}%py in
  result <- (match showroom_meta with
             | Some meta => set_item result "showroom" meta
             | None => carry tmpl "showroom" result
             end);;
  result <- carry tmpl "placement" result;;
  result <- carry tmpl "workloads" result;;
  result <- carry tmpl "requirements_content" result;;
  carry tmpl "workloadsDone" result.

(** [d1 | d2] of the ids by name. *)
Definition merge_ids (a b : ids) : ids := foldl (λ m '(k, v), assoc_set k v m) a b.

(** [template_loader._generate_topology_from_vms:2597-2626] from the containers on. *)
Definition finish_topology (tmpl nets_def : val) (net_ids vm_name_to_id container_name_to_id : ids) (vm_x : Z)
    (nodes edges external_ips clusters : list val) (showroom_meta : option val) : gen val :=
  containers_def <-! get tmpl "containers" empty_dict;;
  containers <-! items containers_def;;
  '(ctr_nodes, ctr_edges, container_name_to_id) <-'
    materialize_container_nodes containers net_ids vm_x 350 400 container_name_to_id;;
  let nodes := nodes ++ ctr_nodes in
  let edges := edges ++ ctr_edges in
  start_order <-! build_start_order tmpl vm_name_to_id container_name_to_id;;
  nodes <-! apply_dns_records tmpl nodes;;
  nodes <-! resolve_dns_records_on_networks nodes;;
  _ <-! validate_uuid_uniqueness nodes;;
  nodes <-! assign_bmc_ips nodes nets_def;;
  hidden_ids <-! collect_hidden_node_ids tmpl (merge_ids (merge_ids vm_name_to_id container_name_to_id) net_ids);;
  glift (assemble_topology_result nodes edges external_ips start_order hidden_ids clusters showroom_meta tmpl).

(** [template_loader._generate_topology_from_vms] *)
Definition generate_topology_from_vms (gib : Z → val) (tmpl bmc_password : val) (external_access : bool) : gen val :=
  vms_def <-! get tmpl "vms" empty_dict;;
  nets_def <-! get tmpl "networks" empty_dict;;
  gw_def <-! get tmpl "gateway" empty_dict;;
  '(vms_def, clusters, vm_cluster_map) <-! prepare_ocp_clusters gib tmpl vms_def;;
  '(net_nodes, net_ids) <-' create_network_nodes nets_def bmc_password 150 400;;
  clusters <-! resolve_cluster_network_names clusters net_ids;;
  clusters <-! infer_cluster_network_ids clusters vms_def vm_cluster_map net_ids nets_def;;
  '(gw_node, external_ips, gw_net_name) <-' create_gateway_node gw_def vms_def tmpl external_access 0 nets_def;;
  gw_id <-! idx gw_node "id";;
  gw_net <-! (if truthy gw_net_name then id_of net_ids gw_net_name VNone else Ok VNone);;
  edges <-' (match gw_net with VNone => gret [] | _ => e <-' gw_net_edge gw_id gw_net;; gret [e] end);;
  boundaries <-! build_cluster_boundary_nodes clusters;;
  let nodes := net_nodes ++ [gw_node] ++ boundaries in
  edges <-' add_cluster_boundary_network_edges clusters nodes edges;;
  '(ceph_nodes, ceph_edges) <-' maybe_append_ceph_scaffold tmpl clusters net_ids nets_def;;
  requires_kubevirt <-! template_requires_kubevirt tmpl;;
  vms <-! items vms_def;;
  '(vm_nodes, vm_edges, vm_name_to_id, vm_x) <-'
    materialize_vm_nodes vms nets_def net_ids vm_cluster_map requires_kubevirt 150 350 400 [];;
  let nodes := nodes ++ ceph_nodes ++ vm_nodes in
  let edges := edges ++ ceph_edges ++ vm_edges in
  showroom <-' append_showroom_scaffold tmpl nets_def gw_net_name vm_name_to_id vms_def net_ids (150 - 400) 0 clusters;;
  match showroom with
  | Some (sr_nodes, sr_edges, ctr_id, meta) =>
      finish_topology tmpl nets_def net_ids vm_name_to_id [("showroom", ctr_id)] (vm_x + 400) (nodes ++ sr_nodes)
        (edges ++ sr_edges) external_ips clusters (Some meta)
  | None => finish_topology tmpl nets_def net_ids vm_name_to_id [] vm_x nodes edges external_ips clusters None
  end.
End Canvas.
