(* ===== verification/TemplateWired.v ===== *)
(** * The canvas of a template is well wired

    The nodes [generate_topology_from_vms] makes have distinct ids, and what refers to a node
    (edges, start order, hidden nodes) refers to one of them. *)
From stdpp Require Import prelude strings pretty.
From Stdlib Require Import Ascii ZArith Lia.
From S2P Require Import Prelude PyStr PyVal PyLemmas TopoNodes DnsRecords ClusterMembers TemplateClusters TemplateVms Showroom TemplateCanvas.

Open Scope list_scope.
Open Scope gen_scope.

(** ** Reasoning about draws *)

Lemma gbind_Ok {A B} (m : gen A) (f : A → gen B) n b n' :
  gbind m f n = Ok (b, n') ↔ ∃ a k, m n = Ok (a, k) ∧ f a k = Ok (b, n').
Proof.
  unfold gbind. split.
  - intros H. apply bind_Ok in H as ([a k] & Hm & H). eauto.
  - intros (a & k & Hm & H). by rewrite Hm.
Qed.

Lemma glift_Ok {A} (r : res A) n a n' : glift r n = Ok (a, n') ↔ r = Ok a ∧ n' = n.
Proof.
  unfold glift. split; [|by intros [-> ->]]. intros H. apply bind_Ok in H as (x & -> & [= -> ->]). done.
Qed.

Lemma gret_Ok {A} (a b : A) n n' : gret a n = Ok (b, n') ↔ b = a ∧ n' = n.
Proof. unfold gret. split; [by intros [= -> ->]|by intros [-> ->]]. Qed.

(** Take one step of a computation apart. *)
Tactic Notation "gstep" hyp(H) "as" simple_intropattern(a) ident(k) simple_intropattern(Hm) :=
  apply gbind_Ok in H as (a & k & Hm & H).
Tactic Notation "gpure" hyp(H) "as" simple_intropattern(a) simple_intropattern(Hm) :=
  let k := fresh "k" in
  let E := fresh "E" in
  apply gbind_Ok in H as (a & k & E & H); apply glift_Ok in E as [Hm ->].

(** Peel the pure steps off the front. *)
Ltac gpures H :=
  repeat (let a := fresh "v" in let k := fresh "k" in let E := fresh "E" in
          apply gbind_Ok in H as (a & k & E & H); apply glift_Ok in E as [E ->]).

Lemma gmap_i_spec {A B} (R : nat → nat → nat → A → B → Prop) i (l : list A) (f : nat → A → gen B) n ys n' :
  gmap_i i l f n = Ok (ys, n') → (∀ i x n y n', f i x n = Ok (y, n') → n ≤ n' ∧ R i n n' x y)%nat →
  (n ≤ n')%nat ∧ Forall2 (λ x y, ∃ i k k', (n ≤ k ∧ k' ≤ n')%nat ∧ R i k k' x y) l ys.
Proof.
  intros H Hf. revert i n ys H. induction l as [|x l IH]; intros i n ys H; cbn [gmap_i] in H.
  { apply gret_Ok in H as [-> ->]. split; [done|constructor]. }
  gstep H as y k Hy. gstep H as ys' k' Hys. apply gret_Ok in H as [-> ->].
  apply Hf in Hy as [Hle HR]. apply IH in Hys as [Hle' HF]. split; [lia|]. constructor.
  - exists i, n, k. split; [lia|done].
  - eapply Forall2_impl; [exact HF|]. intros ?? (j & a & b & ? & ?). exists j, a, b. split; [lia|done].
Qed.

Section Wired.
Context (fresh : nat → string) (octets : nat → Z * Z * Z).
Notation _id := (_id fresh).

(** ** Ids that were drawn *)

(** The values are distinct ids drawn from [n] up to [n']. *)
Definition drawn (n n' : nat) (vs : list val) : Prop :=
  ∃ ks, vs = map (λ k, VStr (fresh k)) ks ∧ NoDup ks ∧ Forall (λ k, n ≤ k < n')%nat ks.

Lemma drawn_nil n n' : drawn n n' [].
Proof. exists []. by repeat constructor. Qed.

Lemma drawn_one n n' k : (n ≤ k < n')%nat → drawn n n' [VStr (fresh k)].
Proof. intros Hk. exists [k]. split; [done|]. split; [apply NoDup_singleton|by constructor]. Qed.

Lemma drawn_weaken n n' m m' vs : drawn n n' vs → (m ≤ n)%nat → (n' ≤ m')%nat → drawn m m' vs.
Proof.
  intros (ks & -> & Hn & Hk) ??. exists ks. split; [done|]. split; [done|].
  eapply Forall_impl; [exact Hk|]. intros k ?. cbn in *. lia.
Qed.

Lemma drawn_app n m n' a b : drawn n m a → drawn m n' b → (n ≤ m ≤ n')%nat → drawn n n' (a ++ b).
Proof.
  intros (ka & -> & Hna & Hka) (kb & -> & Hnb & Hkb) Hle. exists (ka ++ kb). split; [by rewrite map_app|]. split.
  - apply NoDup_app. split; [done|]. split; [|done]. intros k Ha Hb.
    rewrite Forall_forall in Hka, Hkb. apply Hka in Ha. apply Hkb in Hb. lia.
  - apply Forall_app. split; (eapply Forall_impl; [eassumption|]); intros k ?; cbn in *; lia.
Qed.

Lemma drawn_perm n n' a b : drawn n n' a → a ≡ₚ b → drawn n n' b.
Proof.
  intros (ks & -> & Hn & Hk) Hp. symmetry in Hp. apply Permutation_map_inv in Hp as (ks' & -> & Hp).
  exists ks'. split; [done|]. split; [by rewrite <-Hp|by rewrite <-Hp].
Qed.

Lemma drawn_cons n m n' v b : drawn n m [v] → drawn m n' b → (n ≤ m ≤ n')%nat → drawn n n' (v :: b).
Proof. intros H1 H2 Hle. apply (drawn_app n m n' [v] b); done. Qed.

Lemma id_drawn n i n' : _id n = Ok (i, n') → i = fresh n ∧ n' = S n.
Proof. unfold TemplateVms._id. by intros [= <- <-]. Qed.

(** ** Nodes and edges *)

Definition field (k : string) (v : val) : val := match idx v k with Ok x => x | Raise _ => VNone end.
Notation nid := (field "id").

(** Both ends of every edge are among the known ids. *)
Definition wired (known es : list val) : Prop :=
  Forall (λ e, field "source" e ∈ known ∧ field "target" e ∈ known) es.

Lemma wired_app known a b : wired known (a ++ b) ↔ wired known a ∧ wired known b.
Proof. apply Forall_app. Qed.

Lemma wired_weaken known known' es : wired known es → known ⊆ known' → wired known' es.
Proof. intros H Hk. eapply Forall_impl; [exact H|]. set_solver. Qed.

Lemma field_set_item_ne d k v d' k' : k ≠ k' → set_item d k v = Ok d' → field k' d' = field k' d.
Proof. intros Hk H. unfold field. by rewrite (idx_set_item_ne _ _ _ _ _ Hk H). Qed.

Lemma field_set_item d k v d' : set_item d k v = Ok d' → field k d' = v.
Proof. destruct d; try done. intros [= <-]. unfold field. cbn [idx]. by rewrite assoc_set_eq. Qed.

Lemma field_hide b d d' k : hide b d = Ok d' → k ≠ "hidden" → field k d' = field k d.
Proof. unfold hide. destruct b; [|by intros [= ->]]. intros H Hk. by eapply field_set_item_ne. Qed.

(** ** Disks of a machine *)

Lemma disk_spec name cfg di x y n dc i node edge n' :
  build_disk_node_and_edge fresh name cfg di x y n = Ok ((dc, i, node, edge), n') →
  (n ≤ n')%nat ∧ drawn n n' [nid node] ∧ field "source" edge = nid node.
Proof.
  unfold build_disk_node_and_edge. intros H. gpures H.
  gstep H as dc_id k1 H1. apply id_drawn in H1 as [-> ->]. gpures H.
  gstep H as disk_id k2 H2. apply id_drawn in H2 as [-> ->]. gpures H.
  gstep H as edge_id k3 H3. apply id_drawn in H3 as [-> ->]. apply gret_Ok in H as [[= -> -> -> ->] ->].
  split; [lia|]. split; [|done]. apply drawn_one. lia.
Qed.

Lemma disks_spec name di cfgs x y b first n l first' n' :
  build_vm_disks fresh name di cfgs x y b first n = Ok ((l, first'), n') →
  (n ≤ n')%nat ∧ drawn n n' (map (λ d, nid d.1.2) l) ∧ Forall (λ d, field "source" d.2 = nid d.1.2) l.
Proof.
  revert di first n l first'. induction cfgs as [|cfg cfgs IH]; intros di first n l first' H; cbn [build_vm_disks] in H.
  { apply gret_Ok in H as [[= -> ->] ->]. split; [done|]. split; [apply drawn_nil|constructor]. }
  gstep H as [[[dc i] node] edge] k1 H1. apply disk_spec in H1 as (Hle1 & Hd1 & Hs1).
  gpure H as bo Hbo. gpure H as node' Hn. gpure H as edge' He. gstep H as [rest f2] k2 H2.
  apply gret_Ok in H as [[= -> ->] ->]. apply IH in H2 as (Hle2 & Hd2 & Hs2).
  apply (field_hide _ _ _ "id") in Hn; [|done]. apply (field_hide _ _ _ "source") in He; [|done].
  split; [lia|]. cbn [map fst snd]. rewrite Hn. split; [by eapply drawn_cons|].
  constructor; [cbn [fst snd]; congruence|done].
Qed.

Lemma disk_set_spec name cfgs x y b n l boot n' :
  build_vm_disk_set fresh name cfgs x y b n = Ok ((l, boot), n') →
  (n ≤ n')%nat ∧ drawn n n' (map (λ d, nid d.1.2) l) ∧ Forall (λ d, field "source" d.2 = nid d.1.2) l.
Proof.
  unfold build_vm_disk_set. intros H. gpures H. gstep H as [l' f] k H1. apply gret_Ok in H as [[= -> ->] ->].
  by eapply disks_spec.
Qed.

(** ** Interfaces and images *)

Lemma mac_mono p n m n' : mac_with octets p n = Ok (m, n') → n' = S n.
Proof. unfold mac_with. destruct (octets n) as [[? ?] ?]. by intros [= _ <-]. Qed.

Lemma nics_mono cfgs nets n l n' : build_vm_nics fresh octets cfgs nets n = Ok (l, n') → (n ≤ n')%nat.
Proof.
  intros H. apply (gmap_i_spec (λ _ _ _ _ _, True)) in H as [Hle _]; [done|]. clear. intros i x n y n' H.
  gpures H. gstep H as nic_id k1 H1. apply id_drawn in H1 as [_ ->]. gstep H as mac k2 H2.
  assert (k2 = S (S n)) as -> by (case_bools; by apply mac_mono in H2). gpures H.
  apply gret_Ok in H as [-> ->]. split; [lia|done].
Qed.

Lemma net_edge_spec net vm i h n e n' :
  net_edge fresh net vm i h n = Ok (e, n') → (n ≤ n')%nat ∧ field "source" e = net ∧ field "target" e = nid vm.
Proof.
  unfold net_edge, workload_net_edge. intros H. gpure H as data Hd. gpure H as nics Hn. gpure H as nic Hnic.
  gpure H as vm_id Hv. gpure H as nic_id Hi. gstep H as e_id k H1. apply id_drawn in H1 as [-> ->].
  apply gret_Ok in H as [-> ->]. split; [lia|]. split; [done|]. unfold field at 2. by rewrite Hv.
Qed.

(** The networks the interfaces of a machine name are declared. *)
Definition nics_declared (net_ids : ids) (nics : list val) : Prop :=
  ∀ nic net, nic ∈ nics → get nic "network" vstr_empty = Ok net → truthy net = true →
    ∃ s, net = VStr s ∧ is_Some (assoc s net_ids).

Lemma declared_id net_ids nics nic ident net :
  nics_declared net_ids nics → nic ∈ nics → get nic "network" vstr_empty = Ok ident →
  id_of net_ids ident ident = Ok net → truthy net = true → net ∈ net_ids.*2.
Proof.
  intros Hd Hin Hi Hn Ht. unfold id_of in Hn.
  assert (Hc : (∃ s v, ident = VStr s ∧ assoc s net_ids = Some v ∧ net = v) ∨ net = ident).
  { destruct ident; cbn in Hn; bind_inv; try (by right). destruct (assoc s net_ids) eqn:E; [left; eauto|by right]. }
  destruct Hc as [(s & v & -> & Hv & ->)| -> ].
  - apply assoc_Some_elem in Hv. by apply (list_elem_of_fmap_2 snd) in Hv.
  - destruct (Hd nic ident Hin Hi Ht) as (s & -> & v & Hv). cbn in Hn. rewrite Hv in Hn. injection Hn as <-.
    apply assoc_Some_elem in Hv. by apply (list_elem_of_fmap_2 snd) in Hv.
Qed.

Lemma nic_edges_spec nics net_ids vm b n es n' :
  build_vm_nic_edges fresh nics net_ids vm b n = Ok (es, n') → nics_declared net_ids nics →
  (n ≤ n')%nat ∧ Forall (λ e, field "source" e ∈ net_ids.*2 ∧ field "target" e = nid vm) es.
Proof.
  unfold build_vm_nic_edges. intros H Hd. gstep H as l k H1. apply gret_Ok in H as [-> ->].
  assert (Hg : (n ≤ k)%nat ∧ Forall2 (λ nic e, nic ∈ nics → Forall (λ e, field "source" e ∈ net_ids.*2 ∧
    field "target" e = nid vm) e) nics l).
  { pose proof H1 as H2. eapply (gmap_i_spec (λ _ _ _ nic e, nic ∈ nics → Forall (λ e, field "source" e ∈ net_ids.*2 ∧
      field "target" e = nid vm) e)) in H2 as [Hle HF].
    - split; [done|]. eapply Forall2_impl; [exact HF|]. by intros ?? (? & ? & ? & _ & ?).
    - clear -Hd. intros i nic n e n' H. gpure H as ident Hi. gpure H as net Hn.
      destruct (truthy net) eqn:Ht; [|apply gret_Ok in H as [-> ->]; split; [done|constructor]].
      gstep H as edge k He. gpure H as edge' Hh. apply gret_Ok in H as [-> ->].
      apply net_edge_spec in He as (Hle & Hs & Hta). split; [done|]. intros Hin. constructor; [|constructor].
      rewrite (field_hide _ _ _ "source" Hh), (field_hide _ _ _ "target" Hh), Hs, Hta by done. split; [|done].
      by eapply declared_id. }
  destruct Hg as [Hle HF]. split; [done|]. apply Forall_concat, Forall_forall. intros e He.
  apply list_elem_of_lookup in He as [i Hi]. destruct (Forall2_lookup_r _ _ _ _ _ HF Hi) as (nic & Hnic & Hf).
  apply Hf. by eapply list_elem_of_lookup_2.
Qed.
Lemma gmap_drawn {A B} (own : B → list val) (Q : A → B → Prop) i (l : list A) (f : nat → A → gen B) n ys n' :
  gmap_i i l f n = Ok (ys, n') →
  (∀ i x n y n', f i x n = Ok (y, n') → (n ≤ n')%nat ∧ drawn n n' (own y) ∧ Q x y) →
  (n ≤ n')%nat ∧ drawn n n' (concat (map own ys)) ∧ Forall2 Q l ys.
Proof.
  intros H Hf. revert i n ys H. induction l as [|x l IH]; intros i n ys H; cbn [gmap_i] in H.
  { apply gret_Ok in H as [-> ->]. split; [done|]. split; [apply drawn_nil|constructor]. }
  gstep H as y k Hy. gstep H as ys' k' Hys. apply gret_Ok in H as [-> ->].
  apply Hf in Hy as (Hle & Hd & HQ). apply IH in Hys as (Hle' & Hd' & HF). split; [lia|].
  split; [by eapply drawn_app|by constructor].
Qed.

Lemma isos_spec cfg name vm_id dcs disks x y n l n' :
  build_vm_iso_nodes fresh cfg name vm_id dcs disks x y n = Ok (l, n') →
  (n ≤ n')%nat ∧ drawn n n' (map (λ p, nid p.1) l) ∧
  Forall (λ p, field "source" p.2 = nid p.1 ∧ field "target" p.2 = vm_id) l.
Proof.
  unfold build_vm_iso_nodes. intros H. gpure H as cdrom _. gpure H as isos0 _. gpure H as isos _.
  destruct cdrom as [dc|]; [|apply gret_Ok in H as [-> ->]; split; [done|split; [apply drawn_nil|constructor]]].
  apply (gmap_drawn (λ p, [nid p.1])
    (λ _ p, field "source" p.2 = nid p.1 ∧ field "target" p.2 = vm_id)) in H as (Hle & Hd & HF).
  - split; [done|]. split.
    + replace (map _ l) with (concat (map (λ p, [nid p.1]) l)); [done|].
      clear. induction l as [|p l IH]; [done|]. cbn. by rewrite IH.
    + clear -HF. induction HF; by constructor.
  - clear. intros i c n p n' H. gstep H as iso_id k1 H1. apply id_drawn in H1 as [-> ->]. gpures H.
    gstep H as edge_id k2 H2. apply id_drawn in H2 as [-> ->]. gpures H. apply gret_Ok in H as [-> ->].
    split; [lia|]. split; [|done]. apply drawn_one. lia.
Qed.

(** ** A machine *)

Definition cfg_declared (net_ids : ids) (cfg : val) : Prop :=
  ∀ nics l, get cfg "nics" empty_list = Ok nics → iter nics = Ok l → nics_declared net_ids l.

Lemma targets_set (disks : list (val * val * val)) t es :
  map_res (λ d, set_item d.2 "target" t) disks = Ok es → Forall (λ d, field "source" d.2 = nid d.1.2) disks →
  Forall (λ e, field "source" e ∈ map (λ d, nid d.1.2) disks ∧ field "target" e = t) es.
Proof.
  intros H%map_res_Forall2 Hs. revert Hs. induction H as [|d e disks es He _ IH]; [constructor|].
  intros [Hd Hs]%Forall_cons. cbn beta in He. constructor.
  - rewrite (field_set_item_ne d.2 "target" t e "source" ltac:(done) He), (field_set_item _ _ _ _ He), Hd.
    split; [left|done].
  - eapply Forall_impl; [exact (IH Hs)|]. intros e' [H1 H2]. split; [by right|done].
Qed.

Lemma vm_spec name cfg nets net_ids x y forced n node dn de isos ne n' :
  build_vm_data fresh octets name cfg nets net_ids x y forced n = Ok ((node, dn, de, isos, ne), n') →
  cfg_declared net_ids cfg →
  let own := nid node :: map nid (dn ++ isos.*1) in
  (n ≤ n')%nat ∧ drawn n n' own ∧ wired (own ++ net_ids.*2) (de ++ isos.*2 ++ ne).
Proof.
  intros H Hdecl own. unfold build_vm_data in H.
  do 5 (gpure H as ? _). gpure H as disks_cfg0 _. gpure H as nics0 Hn0. gpure H as nics Hn.
  gstep H as vnics k1 H1. apply nics_mono in H1. gpure H as disks_cfg _.
  gstep H as [disks boot] k2 H2. apply disk_set_spec in H2 as (Hle2 & Hd2 & Hs2). gpure H as isos_cfg _.
  gstep H as cdrom k3 H3.
  assert (Hle3 : (k2 ≤ k3)%nat).
  { destruct (negb _ || _); [|by apply gret_Ok in H3 as [_ ->]].
    gstep H3 as ci kc Hc. apply id_drawn in Hc as [-> ->]. apply gret_Ok in H3 as [_ ->]. lia. }
  gpures H. gstep H as vm_id k4 H4. apply id_drawn in H4 as [-> ->]. gpure H as de' Hde.
  gstep H as isos' k5 H5. apply isos_spec in H5 as (Hle5 & Hd5 & Hs5).
  gstep H as ne' k6 H6. apply nic_edges_spec in H6 as [Hle6 Hs6]; [|by eapply Hdecl].
  apply gret_Ok in H as [[= -> -> -> -> ->] ->].
  assert (Hdn : map nid (map (λ d : val * val * val, d.1.2) disks) = map (λ d, nid d.1.2) disks)
    by apply map_map.
  assert (Hiso : map nid isos'.*1 = map (λ p, nid p.1) isos') by apply map_map.
  assert (Hown : own ≡ₚ map (λ d, nid d.1.2) disks ++ [VStr (fresh k3)] ++ map (λ p, nid p.1) isos').
  { unfold own. rewrite map_app, Hdn, Hiso. cbn [app]. by rewrite <-Permutation_middle. }
  split; [lia|]. split.
  - eapply drawn_perm; [|by symmetry]. eapply drawn_app; [by eapply (drawn_weaken _ _ n k2); [exact Hd2|lia..]| |].
    + eapply (drawn_app k2 (S k3) k6); [by apply drawn_one; lia|by eapply drawn_weaken; [exact Hd5|lia..]|lia].
    + lia.
  - pose proof (targets_set _ _ _ Hde Hs2) as Ht. rewrite !wired_app. unfold wired. split; [|split].
    + eapply Forall_impl; [exact Ht|]. intros e [He1 He2]. rewrite He2. split; [|by left].
      apply elem_of_app. left. rewrite Hown. apply elem_of_app. by left.
    + rewrite Forall_forall in Hs5. apply Forall_forall. intros e (p & -> & Hp)%list_elem_of_fmap.
      destruct (Hs5 p Hp) as [Hp1 Hp2]. rewrite Hp1, Hp2. split; [|by left]. apply elem_of_app. left. rewrite Hown.
      apply elem_of_app. right. apply elem_of_app. right. apply list_elem_of_In, in_map_iff. exists p. split; [done|].
      by apply list_elem_of_In.
    + eapply Forall_impl; [exact Hs6|]. intros e [He1 He2]. rewrite He2. split; [|by left].
      apply elem_of_app. by right.
Qed.
Lemma stamp_id node m name node' : stamp_cluster_membership node m name = Ok node' → nid node' = nid node.
Proof.
  unfold stamp_cluster_membership. destruct (negb _); [by intros [= ->]|]. intros H.
  apply bind_Ok in H as (d & _ & H). apply bind_Ok in H as (d' & _ & H).
  apply bind_Ok in H as (n1 & H1 & H). apply bind_Ok in H as (n2 & H2 & H). apply bind_Ok in H as (n3 & H3 & H4).
  apply (field_set_item_ne _ _ _ _ "id") in H1, H2, H3, H4; [|done..]. congruence.
Qed.

(** ** The machines *)

Lemma names_assoc_set (k : string) (v : val) (m : ids) (known : list val) :
  v ∈ known → Forall (λ v, v ∈ known) m.*2 → Forall (λ v, v ∈ known) (assoc_set k v m).*2.
Proof.
  intros Hv. induction m as [|[k' v'] m IH]; csimpl; [by repeat constructor|].
  intros [? ?]%Forall_cons. case_decide; csimpl; constructor; auto.
Qed.

Lemma vms_spec vms nets net_ids owner kv x y sp m n nodes edges m' x' n' known :
  materialize_vm_nodes fresh octets vms nets net_ids owner kv x y sp m n = Ok ((nodes, edges, m', x'), n') →
  Forall (λ p, cfg_declared net_ids p.2) vms → Forall (λ v, v ∈ known) m.*2 →
  (n ≤ n')%nat ∧ drawn n n' (map nid nodes) ∧ wired (map nid nodes ++ net_ids.*2) edges ∧
  Forall (λ v, v ∈ known ++ map nid nodes) m'.*2.
Proof.
  revert x m n nodes edges m' x' known. induction vms as [|[name cfg] vms IH];
    intros x m n nodes edges m' x' known H Hdecl Hm; cbn [materialize_vm_nodes] in H.
  { apply gret_Ok in H as [[= -> -> -> _] ->]. split; [done|]. split; [apply drawn_nil|]. split; [constructor|].
    by rewrite app_nil_r. }
  apply Forall_cons in Hdecl as [Hc Hdecl].
  gstep H as [[[[node dn] de] isos] ne] k1 H1. apply vm_spec in H1 as (Hle1 & Hd1 & Hw1); [|done].
  gpure H as node' Hst. apply stamp_id in Hst. gpure H as vm_id Hid.
  assert (Hvid : vm_id = nid node) by (rewrite <-Hst; unfold field; by rewrite Hid).
  gstep H as [[[nodes2 edges2] m2] x2] k2 H2. apply gret_Ok in H as [[= -> -> -> ->] ->].
  apply (IH _ _ _ _ _ _ _ (known ++ [nid node])) in H2 as (Hle2 & Hd2 & Hw2 & Hm2); [|done|].
  2: { apply names_assoc_set; [rewrite Hvid; apply elem_of_app; right; by left|]. eapply Forall_impl; [exact Hm|].
       intros v Hv. apply elem_of_app. by left. }
  assert (Hmap : map nid (node' :: dn ++ isos.*1 ++ nodes2) = (nid node :: map nid (dn ++ isos.*1)) ++ map nid nodes2).
  { cbn [map app]. rewrite Hst. f_equal. by rewrite app_assoc, map_app. }
  rewrite Hmap. split; [lia|]. split; [by eapply drawn_app|]. split.
  - rewrite !app_assoc. apply wired_app. split; [|eapply wired_weaken; [exact Hw2|set_solver]].
    eapply wired_weaken; [rewrite <-app_assoc; exact Hw1|set_solver].
  - eapply Forall_impl; [exact Hm2|]. set_solver.
Qed.

(** ** Containers *)

Lemma ctr_nics_spec ctr_id cfg net_ids n l n' :
  build_container_nics_and_edges fresh octets ctr_id cfg net_ids n = Ok (l, n') →
  (n ≤ n')%nat ∧ Forall (λ e, field "source" e ∈ net_ids.*2 ∧ field "target" e = ctr_id) (concat l.*2).
Proof.
  unfold build_container_nics_and_edges. intros H. gpure H as nics0 _. gpure H as nics _.
  apply (gmap_drawn (λ _, []) (λ _ p, Forall (λ e, field "source" e ∈ net_ids.*2 ∧ field "target" e = ctr_id) p.2))
    in H as (Hle & _ & HF).
  - split; [done|]. apply Forall_concat. clear -HF. induction HF; csimpl; by constructor.
  - clear. intros i c n [nic es] n' H. gstep H as nid k1 H1. apply id_drawn in H1 as [_ ->].
    gstep H as mac k2 H2. apply mac_mono in H2 as ->. do 3 (gpure H as ? _). gpure H as ident _. gpure H as net Hnet.
    destruct (truthy net) eqn:Ht.
    + gstep H as e k3 He. apply gret_Ok in H as [[= -> ->] ->]. unfold workload_net_edge in He.
      gstep He as ei k4 H4. apply id_drawn in H4 as [_ ->]. apply gret_Ok in He as [-> ->].
      split; [lia|]. split; [apply drawn_nil|]. cbn [snd]. constructor; [|constructor]. split; [|done].
      unfold field. cbn. unfold id_of in Hnet. destruct ident as [| | |s| |]; cbn in Hnet; bind_inv; try done.
      destruct (assoc s net_ids) eqn:E; cbn in *; [|done]. apply assoc_Some_elem in E.
      by apply (list_elem_of_fmap_2 snd) in E.
    + apply gret_Ok in H as [[= -> ->] ->]. split; [lia|]. split; [apply drawn_nil|constructor].
Qed.
Definition cd_node (d : string * val * val * val * val) : val := let '(_, _, n, _, _) := d in n.
Definition cd_edge (d : string * val * val * val * val) : val := let '(_, _, _, _, e) := d in e.

Lemma concat_singletons {A} (f : A → val) l : concat (map (λ x, [f x]) l) = map f l.
Proof. induction l as [|x l IH]; [done|]. cbn. by rewrite IH. Qed.

Lemma ctr_disks_spec key ctr_id x y cfgs n l n' :
  gmap_i 0 cfgs (build_container_disk fresh key ctr_id x y) n = Ok (l, n') →
  (n ≤ n')%nat ∧ drawn n n' (map nid (map cd_node l)) ∧
  Forall (λ e, field "source" e ∈ map nid (map cd_node l) ∧ field "target" e = ctr_id) (map cd_edge l).
Proof.
  intros H. apply (gmap_drawn (λ d, [nid (cd_node d)])
    (λ _ d, field "source" (cd_edge d) = nid (cd_node d) ∧ field "target" (cd_edge d) = ctr_id)) in H as (Hle & Hd & HF).
  - rewrite concat_singletons in Hd. rewrite map_map. split; [done|]. split; [done|].
    assert (Hall : Forall (λ d, field "source" (cd_edge d) = nid (cd_node d) ∧ field "target" (cd_edge d) = ctr_id) l)
      by (clear -HF; induction HF; by constructor).
    rewrite Forall_forall in Hall. apply Forall_forall. intros e He%list_elem_of_In.
    apply in_map_iff in He as (d & <- & Hd'%list_elem_of_In). destruct (Hall d Hd') as [-> ->]. split; [|done].
    apply list_elem_of_In, in_map_iff. exists d. split; [done|by apply list_elem_of_In].
  - clear. intros i c n d n' H. unfold build_container_disk in H.
    gstep H as di k1 H1. apply id_drawn in H1 as [-> ->]. gpures H. gstep H as ei k2 H2.
    apply id_drawn in H2 as [-> ->]. apply gret_Ok in H as [-> ->]. split; [lia|]. split; [|done].
    apply drawn_one. lia.
Qed.

Lemma ctr_spec key cfg net_ids x y n node dn de ne n' :
  build_container_node fresh octets key cfg net_ids x y n = Ok ((node, dn, de, ne), n') →
  let own := nid node :: map nid dn in
  (n ≤ n')%nat ∧ drawn n n' own ∧ wired (own ++ net_ids.*2) (de ++ ne).
Proof.
  intros H own. unfold build_container_node in H. gstep H as id k1 H1. apply id_drawn in H1 as [-> ->].
  gpure H as ? _. gstep H as nics k2 H2. apply ctr_nics_spec in H2 as [Hle2 Hn2].
  gpure H as disks0 _. gpure H as disks_cfg _. gstep H as disks k3 H3. apply ctr_disks_spec in H3 as (Hle3 & Hd3 & Hs3).
  gpures H. apply gret_Ok in H as [[= -> -> -> ->] ->].
  change (map (λ '(_, _, n, _, _), n) disks) with (map cd_node disks) in own.
  change (map (λ '(_, _, _, _, e), e) disks) with (map cd_edge disks).
  split; [lia|]. split.
  - eapply (drawn_cons n (S n)); [apply drawn_one; lia| |lia]. eapply drawn_weaken; [exact Hd3|lia..].
  - apply wired_app. split.
    + eapply Forall_impl; [exact Hs3|]. intros e [He1 He2]. rewrite He2. split; [|by left].
      apply elem_of_app. left. by right.
    + eapply Forall_impl; [exact Hn2|]. intros e [He1 He2]. rewrite He2. split; [|by left].
      apply elem_of_app. by right.
Qed.

Lemma ctrs_spec ctrs net_ids x y sp m n nodes edges m' n' known :
  materialize_container_nodes fresh octets ctrs net_ids x y sp m n = Ok ((nodes, edges, m'), n') →
  Forall (λ v, v ∈ known) m.*2 →
  (n ≤ n')%nat ∧ drawn n n' (map nid nodes) ∧ wired (map nid nodes ++ net_ids.*2) edges ∧
  Forall (λ v, v ∈ known ++ map nid nodes) m'.*2.
Proof.
  revert x m n nodes edges m' known. induction ctrs as [|[key cfg] ctrs IH];
    intros x m n nodes edges m' known H Hm; cbn [materialize_container_nodes] in H.
  { apply gret_Ok in H as [[= -> -> ->] ->]. split; [done|]. split; [apply drawn_nil|]. split; [constructor|].
    by rewrite app_nil_r. }
  gstep H as [[[node dn] de] ne] k1 H1. apply ctr_spec in H1 as (Hle1 & Hd1 & Hw1).
  gpure H as id Hid. assert (Hvid : id = nid node) by (unfold field; by rewrite Hid).
  gstep H as [[nodes2 edges2] m2] k2 H2. apply gret_Ok in H as [[= -> -> ->] ->].
  apply (IH _ _ _ _ _ _ (known ++ [nid node])) in H2 as (Hle2 & Hd2 & Hw2 & Hm2).
  2: { apply names_assoc_set; [rewrite Hvid; apply elem_of_app; right; by left|]. eapply Forall_impl; [exact Hm|].
       intros v Hv. apply elem_of_app. by left. }
  assert (Hmap : map nid (node :: dn ++ nodes2) = (nid node :: map nid dn) ++ map nid nodes2)
    by (cbn [map app]; by rewrite map_app).
  rewrite Hmap. split; [lia|]. split; [by eapply drawn_app|]. split.
  - rewrite app_assoc. apply wired_app. split; [|eapply wired_weaken; [exact Hw2|set_solver]].
    eapply wired_weaken; [exact Hw1|set_solver].
  - eapply Forall_impl; [exact Hm2|]. set_solver.
Qed.

(** ** Networks, gateway and boundaries *)

Lemma foldl_ids l (m : ids) :
  (foldl (λ m '(name, _, id), assoc_set name id m) m l : ids).*2 ⊆ m.*2 ++ map (λ d : string * val * val, d.2) l.
Proof.
  revert m. induction l as [|[[name node] id] l IH]; intros m; cbn [foldl map]; [by rewrite app_nil_r|].
  etrans; [apply IH|]. intros v. rewrite !elem_of_app, elem_of_cons. cbn [snd].
  intros [Hv|Hv]; [|by right; right].
  assert (Forall (λ v, v ∈ id :: m.*2) (assoc_set name id m).*2) as HF.
  { apply names_assoc_set; [by left|]. apply Forall_forall. set_solver. }
  rewrite Forall_forall in HF. apply HF in Hv. set_solver.
Qed.

Lemma networks_spec nets pw y sp n nodes net_ids n' :
  create_network_nodes fresh nets pw y sp n = Ok ((nodes, net_ids), n') →
  (n ≤ n')%nat ∧ drawn n n' (map nid nodes) ∧ net_ids.*2 ⊆ map nid nodes.
Proof.
  unfold create_network_nodes. intros H. gpure H as kvs _. gstep H as l k H1.
  apply gret_Ok in H as [[= -> ->] ->].
  apply (gmap_drawn (λ d, [nid d.1.2]) (λ _ d, d.2 = nid d.1.2)) in H1 as (Hle & Hd & HF).
  - rewrite concat_singletons in Hd. split; [done|].
    assert (Hm : map nid (map (λ '(_, n, _), n) l) = map (λ d : string * val * val, nid d.1.2) l).
    { rewrite map_map. apply map_ext. by intros [[? ?] ?]. }
    rewrite Hm. split; [done|]. etrans; [apply foldl_ids|]. cbn [app].
    assert (Hall : map (λ d : string * val * val, d.2) l = map (λ d, nid d.1.2) l)
      by (clear -HF; induction HF; cbn; by f_equal). by rewrite Hall.
  - clear. intros i [name cfg] n d n' H. gpure H as data _. gstep H as id k H1. apply id_drawn in H1 as [-> ->].
    apply gret_Ok in H as [-> ->]. split; [lia|]. split; [|done]. apply drawn_one. lia.
Qed.

Lemma gateway_spec gw vms tmpl ext y nets n node ips net n' :
  create_gateway_node fresh gw vms tmpl ext y nets n = Ok ((node, ips, net), n') →
  (n ≤ n')%nat ∧ drawn n n' [nid node].
Proof.
  unfold create_gateway_node. intros H. gpure H as ? _. gpure H as ? _. gstep H as [ips' pfs] k1 H1.
  assert (Hle : (n ≤ k1)%nat).
  { destruct (ext || _); [|by apply gret_Ok in H1 as [_ ->]]. gstep H1 as eip k2 H2.
    apply id_drawn in H2 as [-> ->]. gpures H1. apply gret_Ok in H1 as [_ ->]. lia. }
  gstep H as gid k2 H2. apply id_drawn in H2 as [-> ->]. gpures H. apply gret_Ok in H as [[= -> -> ->] ->].
  split; [lia|]. apply drawn_one. lia.
Qed.

Lemma vlookup_key {A} v (m : list (val * A)) a : vlookup v m = Some a → ∃ k, k ∈ m.*1 ∧ py_eq v k = true.
Proof.
  induction m as [|[k b] m IH]; cbn; [done|]. destruct (py_eq v k) eqn:E.
  - intros _. exists k. split; [by left|done].
  - intros (k' & Hk & He)%IH. exists k'. split; [by right|done].
Qed.

Lemma vinsert_keys_sub {A} k (a : A) m : (vinsert k a m).*1 ⊆ k :: m.*1.
Proof.
  induction m as [|[k' b] m IH]; csimpl; [done|]. destruct (py_eq k k'); csimpl; [set_solver|].
  intros x [->|Hx]%elem_of_cons; [set_solver|]. apply IH in Hx. set_solver.
Qed.

Lemma py_eq_str_r v s : py_eq v (VStr s) = true → v = VStr s.
Proof. destruct v; cbn; try done. by intros ->%String.eqb_eq. Qed.

(** A table of nodes by id. *)
Lemma nodes_by_id_spec nodes m s v :
  nodes_by_id_of nodes = Ok m → vlookup v m = Some s → Forall (λ n, ∃ i, nid n = VStr i) nodes →
  v ∈ map nid nodes.
Proof.
  unfold nodes_by_id_of. intros H Hl Hids.
  assert (Hk : Forall (λ k, k ∈ map nid nodes) m.*1).
  { refine (for_each_inv (λ m : list (val * val), Forall (λ k, k ∈ map nid nodes) m.*1) _ _ _ _ _ _ H); [|constructor].
    intros n s0 s1 Hin Hs Hb. apply bind_Ok in Hb as (i & Hi & Hb). unfold vset in Hb.
    apply bind_Ok in Hb as (k & Hk & [= <-]). unfold hkey in Hk. destruct (hashable i); [|done]. injection Hk as <-.
    apply Forall_forall. intros x Hx%vinsert_keys_sub. rewrite Forall_forall in Hs.
    apply elem_of_cons in Hx as [->|Hx]; [|by apply Hs]. apply list_elem_of_In, in_map_iff. exists n.
    split; [unfold field; by rewrite Hi|by apply list_elem_of_In]. }
  apply vlookup_key in Hl as (k & Hin & Heq). rewrite Forall_forall in Hk. apply Hk in Hin.
  pose proof Hin as Hin'. apply list_elem_of_In, in_map_iff in Hin' as (n & <- & Hn%list_elem_of_In).
  rewrite Forall_forall in Hids. destruct (Hids n Hn) as [i Hi]. rewrite Hi in *. by apply py_eq_str_r in Heq as ->.
Qed.

Lemma append_boundary_spec i networks b m linked edges n linked' edges' n' known :
  append_boundary_edges fresh i networks b m linked edges n = Ok ((linked', edges'), n') →
  (∀ v s, vlookup v m = Some s → v ∈ known) → b ∈ known → wired known edges →
  (n ≤ n')%nat ∧ wired known edges'.
Proof.
  intros H Hm Hb. revert i linked edges n H. induction networks as [|net networks IH];
    intros i linked edges n H Hw; cbn [append_boundary_edges] in H; [by apply gret_Ok in H as [[= -> ->] ->]|].
  gpure H as o Ho. destruct o as [node|]; [|by eapply IH]. destruct (is_linked _ _ _); [by eapply IH|].
  gpure H as ? _. gpure H as ? _. gstep H as e k He. unfold cluster_boundary_anchor_edge in He.
  gstep He as ei k1 H1. apply id_drawn in H1 as [-> ->]. apply gret_Ok in He as [-> ->].
  apply IH in H as [Hle Hw']; [split; [lia|done]|]. apply wired_app. split; [done|]. constructor; [|constructor].
  split; [|done]. change (net ∈ known). unfold vget in Ho. apply bind_Ok in Ho as (k & Hk & [= Ho]).
  unfold hkey in Hk. destruct (hashable net); [|done]. injection Hk as <-. by eapply Hm.
Qed.

Lemma add_boundary_spec clusters m linked edges n edges' n' known :
  add_boundary_edges fresh clusters m linked edges n = Ok (edges', n') →
  (∀ v s, vlookup v m = Some s → v ∈ known) → wired known edges → (n ≤ n')%nat ∧ wired known edges'.
Proof.
  intros H Hm. revert linked edges n H. induction clusters as [|c clusters IH]; intros linked edges n H Hw;
    cbn [add_boundary_edges] in H; [by apply gret_Ok in H as [-> ->]|].
  gpure H as id _. gpure H as o Ho. destruct o as [node|]; [|by eapply IH].
  gpure H as ? _. gpure H as ? _. gstep H as [l2 e2] k H1.
  assert (Hb : VStr ("cluster-" +:+ py_str id) ∈ known).
  { unfold vget in Ho. cbn [hkey hashable bind] in Ho. injection Ho as Ho. by eapply Hm. }
  apply (append_boundary_spec _ _ _ _ _ _ _ _ _ _ known) in H1 as [Hle1 Hw1]; [|done..].
  apply IH in H as [Hle2 Hw2]; [|done]. split; [lia|done].
Qed.

Lemma boundary_edges_spec clusters nodes edges n edges' n' :
  add_cluster_boundary_network_edges fresh clusters nodes edges n = Ok (edges', n') →
  Forall (λ n, ∃ i, nid n = VStr i) nodes → wired (map nid nodes) edges →
  (n ≤ n')%nat ∧ wired (map nid nodes) edges'.
Proof.
  unfold add_cluster_boundary_network_edges. intros H Hids Hw. gpure H as m Hm. gpure H as linked _.
  eapply add_boundary_spec; [exact H| |done]. intros v s Hl. by eapply nodes_by_id_spec.
Qed.

(** The id of a cluster's node. *)
Definition boundary_id (c : val) : val := VStr ("cluster-" +:+ py_str (field "id" c)).

Lemma boundaries_spec clusters nodes :
  build_cluster_boundary_nodes clusters = Ok nodes → map nid nodes = map boundary_id clusters.
Proof.
  unfold build_cluster_boundary_nodes. generalize 0%nat. revert nodes.
  induction clusters as [|c clusters IH]; intros nodes i H; [by injection H as <-|].
  cbn [length seq zip zip_with map_res] in H. apply bind_Ok in H as (n & Hn & H).
  apply bind_Ok in H as (ns & Hns & [= <-]). cbn [map]. f_equal; [|by eapply IH].
  apply bind_Ok in Hn as (id & Hid & Hn). repeat (apply bind_Ok in Hn as (? & _ & Hn)). injection Hn as <-.
  unfold boundary_id, field. by rewrite Hid.
Qed.
(** ** Ceph *)

Lemma vinsert_values {A} k (a : A) m : (vinsert k a m).*2 ⊆ a :: m.*2.
Proof.
  induction m as [|[k' b] m IH]; csimpl; [done|]. destruct (py_eq k k'); csimpl; [set_solver|].
  intros x [->|Hx]%elem_of_cons; [set_solver|]. apply IH in Hx. set_solver.
Qed.

Lemma vlookup_value {A} v (m : list (val * A)) a : vlookup v m = Some a → a ∈ m.*2.
Proof.
  induction m as [|[k b] m IH]; cbn; [done|]. destruct (py_eq v k); [intros [= ->]; by left|].
  intros H%IH. by right.
Qed.

Lemma name_table_values (clusters : list val) (m : list (val * val)) :
  for_each clusters [] (λ c m,
    name <- get c "name" VNone;;
    if truthy name then i <- idx c "id";; vset name (VStr ("cluster-" +:+ py_str i)) m else Ok m) = Ok m →
  m.*2 ⊆ map boundary_id clusters.
Proof.
  intros H. refine (for_each_inv (λ m : list (val * val), m.*2 ⊆ map boundary_id clusters) _ _ _ _ _ _ H); [|set_solver].
  intros c s s' Hin Hs Hb. apply bind_Ok in Hb as (name & _ & Hb). destruct (truthy name); [|by injection Hb as <-].
  apply bind_Ok in Hb as (i & Hi & Hb). unfold vset in Hb. apply bind_Ok in Hb as (k & _ & [= <-]).
  etrans; [apply vinsert_values|]. intros x [->|Hx]%elem_of_cons; [|by apply Hs].
  apply list_elem_of_In, in_map_iff. exists c. split; [unfold boundary_id, field; by rewrite Hi|by apply list_elem_of_In].
Qed.

Lemma ceph_edges_spec node_id names m es :
  ceph_cluster_edges node_id names m = Ok es →
  Forall (λ e, field "source" e = VStr node_id ∧ field "target" e ∈ m.*2) es.
Proof.
  unfold ceph_cluster_edges. intros H. apply bind_Ok in H as (l & Hl & [= <-]). apply Forall_concat.
  apply map_res_Forall2 in Hl. induction Hl as [|[i name] es l ls He _ IH]; [constructor|]. constructor; [|done].
  apply bind_Ok in He as (o & Ho & He). destruct o as [cid|]; [|injection He as <-; constructor].
  destruct (truthy cid); injection He as <-; constructor; [|constructor]. split; [done|].
  unfold vget in Ho. apply bind_Ok in Ho as (k & _ & [= Ho]). by apply vlookup_value in Ho.
Qed.

Lemma ceph_spec tmpl clusters net_ids nets n nodes edges n' :
  maybe_append_ceph_scaffold fresh tmpl clusters net_ids nets n = Ok ((nodes, edges), n') →
  (n ≤ n')%nat ∧ wired (map nid nodes ++ map boundary_id clusters) edges ∧
  (nodes = [] ∨ ∃ node k, nodes = [node] ∧ nid node = VStr ("ceph-" +:+ str_take 8 (fresh k))).
Proof.
  unfold maybe_append_ceph_scaffold. intros H. gpure H as ? _. gpure H as ? _. gpure H as wanted _.
  destruct (negb wanted); [apply gret_Ok in H as [[= -> ->] ->]; split; [done|split; [constructor|by left]]|].
  gpure H as m Hm. apply name_table_values in Hm. gstep H as [node es] k H1.
  apply gret_Ok in H as [[= -> ->] ->]. unfold build_ceph_from_config in H1.
  do 4 (gpure H1 as ? _). gpure H1 as [osd cap] _. gpures H1. gstep H1 as i k2 H2. apply id_drawn in H2 as [-> ->].
  gpure H1 as ? _. gpure H1 as ? _. gpure H1 as linked _. destruct (ceph_position_for_cluster_count _) as [px py].
  gpure H1 as ? _. gpure H1 as es' He. apply gret_Ok in H1 as [[= -> ->] ->]. apply ceph_edges_spec in He.
  split; [lia|]. split; [|by right; eexists _, _].
  eapply Forall_impl; [exact He|]. intros e [He1 He2]. rewrite He1. split; [by left|].
  apply elem_of_app. right. by apply Hm.
Qed.

(** ** What is done to the nodes afterwards *)

Lemma dns_network_id node top ips node' : merge_dns_to_network node top ips = Ok node' → nid node' = nid node.
Proof.
  unfold merge_dns_to_network. intros H. apply bind_Ok in H as (d & _ & H). apply bind_Ok in H as (e & _ & H).
  apply bind_Ok in H as (l & _ & H). apply bind_Ok in H as (names & _ & H). apply bind_Ok in H as (l' & _ & H).
  destruct l'; [by injection H as <-|]. apply bind_Ok in H as (d' & _ & H).
  by apply (field_set_item_ne _ _ _ _ "id") in H.
Qed.

Lemma update_first_ids p f l l' :
  update_first p f l = Ok l' → (∀ x y, f x = Ok y → nid y = nid x) → map nid l' = map nid l.
Proof.
  intros H Hf. revert l' H. induction l as [|x l IH]; intros l' H; cbn [update_first] in H; [by injection H as <-|].
  apply bind_Ok in H as (b & _ & H). destruct b; apply bind_Ok in H as (y & Hy & [= <-]); cbn [map];
    [by rewrite (Hf _ _ Hy)|by rewrite (IH _ Hy)].
Qed.

Lemma map_res_ids f l l' : map_res f l = Ok l' → (∀ x y, f x = Ok y → nid y = nid x) → map nid l' = map nid l.
Proof. intros H%map_res_Forall2 Hf. induction H as [|x y l l' Hxy _ IH]; [done|]. cbn. by rewrite (Hf _ _ Hxy), IH. Qed.

Lemma apply_dns_ids tmpl nodes nodes' : apply_dns_records tmpl nodes = Ok nodes' → map nid nodes' = map nid nodes.
Proof.
  unfold apply_dns_records. intros H. apply bind_Ok in H as (? & _ & H). apply bind_Ok in H as (? & _ & H).
  apply bind_Ok in H as (? & _ & H). apply bind_Ok in H as (top & _ & H). destruct top; [by injection H as <-|].
  apply bind_Ok in H as (ips & _ & H). eapply update_first_ids; [exact H|]. intros ? ?. apply dns_network_id.
Qed.

Lemma resolve_dns_ids nodes nodes' : resolve_dns_records_on_networks nodes = Ok nodes' → map nid nodes' = map nid nodes.
Proof.
  unfold resolve_dns_records_on_networks. intros H. apply bind_Ok in H as (ips & _ & H).
  eapply map_res_ids; [exact H|]. clear. intros x y H. unfold resolve_dns_records_on_network in H.
  apply bind_Ok in H as (t & _ & H). destruct (negb t); [by injection H as <-|].
  do 4 (apply bind_Ok in H as (? & _ & H)). destruct (_ || _); [by injection H as <-|].
  do 3 (apply bind_Ok in H as (? & _ & H)). by apply (field_set_item_ne _ _ _ _ "id") in H.
Qed.

Lemma setdefault_id d d' v w : setdefault d "data" v = Ok (d', w) → nid d' = nid d.
Proof. intros H. unfold field. by rewrite (idx_setdefault_ne _ "data" _ _ _ "id" ltac:(done) H). Qed.

Lemma bmc_ids nodes nets nodes' : assign_bmc_ips nodes nets = Ok nodes' → map nid nodes' = map nid nodes.
Proof.
  unfold assign_bmc_ips. intros H. apply bind_Ok in H as (cidr & _ & H). apply bind_Ok in H as (used & _ & H).
  apply bind_Ok in H as ([out u] & H & [= <-]). revert H.
  assert (Hgen : ∀ done used, for_each nodes (done, used) (λ node '(done, used),
    t <- has_type node "vmNode";;
    if negb t then Ok (done ++ [node], used)
    else
      '(node, data) <- setdefault node "data" empty_dict;;
      enabled <- get data "bmcEnabled" VNone;;
      ip <- get data "bmcIp" VNone;;
      if negb (truthy enabled) || truthy ip then Ok (done ++ [node], used)
      else
        let ip := next_free_bmc_ip used cidr in
        data <- set_item data "bmcIp" (VStr ip);;
        node <- set_item node "data" data;;
        Ok (done ++ [node], used ++ [ip])) = Ok (out, u) → map nid out = map nid done ++ map nid nodes).
  { clear. induction nodes as [|node nodes IH]; intros done_ used H; cbn [for_each] in H.
    { injection H as <- _. by rewrite app_nil_r. }
    apply bind_Ok in H as ([done2 used2] & Hb & H). apply IH in H. rewrite H. cbn [map]. clear IH H.
    assert (∃ node', done2 = done_ ++ [node'] ∧ nid node' = nid node) as (node' & -> & <-).
    { apply bind_Ok in Hb as (t & _ & Hb). destruct (negb t); [injection Hb as <- _; eauto|].
      apply bind_Ok in Hb as ([n1 data] & H1 & Hb). apply setdefault_id in H1.
      apply bind_Ok in Hb as (? & _ & Hb). apply bind_Ok in Hb as (? & _ & Hb).
      destruct (_ || _); [injection Hb as <- _; eauto|]. apply bind_Ok in Hb as (? & _ & Hb).
      apply bind_Ok in Hb as (n2 & H2 & [= <- _]). exists n2. split; [done|]. rewrite <-H1.
      by apply (field_set_item_ne _ _ _ _ "id") in H2. }
    rewrite map_app, <-app_assoc. done. }
  intros H. by apply (Hgen [] used) in H.
Qed.

(** ** References by name *)

Lemma id_of_known m k dflt v : id_of m k dflt = Ok v → v = dflt ∨ v ∈ m.*2.
Proof.
  unfold id_of. destruct k as [| | |s| |]; cbn; intros H; bind_inv; try (by left).
  destruct (assoc s m) eqn:E; [|by left]. right. apply assoc_Some_elem in E. by apply (list_elem_of_fmap_2 snd) in E.
Qed.

(** An entry of the start order refers to workloads. *)
Definition order_refs (known : list val) (e : val) : Prop :=
  field "vmId" e ∈ known ∧ (field "waitForVm" e = VNone ∨ field "waitForVm" e ∈ known).

Lemma start_order_spec tmpl vms ctrs order known :
  build_start_order tmpl vms ctrs = Ok order → Forall (λ v, v ∈ known) vms.*2 → Forall (λ v, v ∈ known) ctrs.*2 →
  Forall (order_refs known) order.
Proof.
  unfold build_start_order. intros H Hv Hc. rewrite Forall_forall in Hv, Hc.
  apply bind_Ok in H as (? & _ & H). apply bind_Ok in H as (entries & _ & H). apply bind_Ok in H as (l & Hl & [= <-]).
  apply Forall_forall. intros e (o & Ho & Hid)%list_elem_of_omap. cbn in Hid. subst o.
  apply map_res_Forall2 in Hl. apply list_elem_of_lookup in Ho as [i Hi].
  destruct (Forall2_lookup_r _ _ _ _ _ Hl Hi) as (entry & _ & He). cbn beta in He. clear -Hv Hc He.
  apply bind_Ok in He as (c & _ & He). destruct c.
  - unfold build_container_start_entry in He. apply bind_Ok in He as (name & _ & He).
    apply bind_Ok in He as (id & Hid & He). destruct (truthy id) eqn:Ht; [|done]. apply bind_Ok in He as (d & _ & [= <-]).
    apply id_of_known in Hid as [->|Hid]; [done|]. split; [by apply Hc|by left].
  - apply bind_Ok in He as (v & _ & He). destruct v; [|done]. unfold build_vm_start_entry in He.
    apply bind_Ok in He as (name & _ & He). apply bind_Ok in He as (id & Hid & He).
    destruct (truthy id) eqn:Ht; [|done]. apply bind_Ok in He as (auto & _ & He). apply bind_Ok in He as (w & _ & He).
    apply bind_Ok in He as (waits & Hw & He). apply bind_Ok in He as (d & _ & [= <-]).
    apply id_of_known in Hid as [->|Hid]; [done|]. split; [by apply Hv|].
    destruct (truthy w); [|injection Hw as <-; left; by destruct (truthy d)].
    apply bind_Ok in Hw as (wv & Hwv & [= <-]). apply id_of_known in Hwv as [->|Hwv]; [left; by destruct (truthy d)|].
    destruct (decide (wv = VNone)) as [->|Hne]; [left; by destruct (truthy d)|].
    right. replace (field _ _) with wv; [by apply Hv|]. by destruct wv.
Qed.

Lemma merge_values (a b : ids) : (merge_ids a b).*2 ⊆ a.*2 ++ b.*2.
Proof.
  unfold merge_ids. revert a. induction b as [|[k v] b IH]; intros a; cbn [foldl]; [by rewrite app_nil_r|].
  etrans; [apply IH|]. csimpl. intros x [Hx|Hx]%elem_of_app; [|set_solver].
  assert (Forall (λ x, x ∈ v :: a.*2) (assoc_set k v a).*2) as HF
    by (apply names_assoc_set; [by left|]; apply Forall_forall; set_solver).
  rewrite Forall_forall in HF. apply HF in Hx. set_solver.
Qed.

Lemma hidden_spec tmpl m hidden known :
  collect_hidden_node_ids tmpl m = Ok hidden → m.*2 ⊆ known → Forall (λ v, v ∈ known) hidden.
Proof.
  unfold collect_hidden_node_ids. intros H Hm. apply bind_Ok in H as (? & _ & H). apply bind_Ok in H as (names & _ & H).
  apply bind_Ok in H as (l & Hl & [= <-]). apply Forall_concat. apply map_res_Forall2 in Hl.
  induction Hl as [|n vs names l Hn _ IH]; [constructor|]. constructor; [|done].
  apply bind_Ok in Hn as (v & Hv & [= <-]). destruct (truthy v) eqn:Ht; constructor; [|constructor].
  apply id_of_known in Hv as [->|Hv]; [done|by apply Hm].
Qed.
(** ** The showroom *)

Lemma tabs_mono raws vms nets clusters n tabs n' :
  parse_template_tabs fresh raws vms nets clusters n = Ok (tabs, n') → (n ≤ n')%nat.
Proof.
  intros H. apply (gmap_drawn (λ _, []) (λ _ _, True)) in H as [Hle _]; [done|]. clear. intros i x n y n' H.
  gstep H as ti k H1. apply id_drawn in H1 as [_ ->]. gpure H as tab _. apply gret_Ok in H as [_ ->].
  split; [lia|]. split; [apply drawn_nil|done].
Qed.


Lemma showroom_spec tmpl nets gwn vm_ids vms net_ids gx gy clusters n o n' :
  append_showroom_scaffold fresh tmpl nets gwn vm_ids vms net_ids gx gy clusters n = Ok (o, n') →
  (n ≤ n')%nat ∧ match o with
  | Some (nodes, edges, i, _) => drawn n n' (map nid nodes) ∧ wired (map nid nodes) edges ∧ i ∈ map nid nodes
  | None => True
  end.
Proof.
  unfold append_showroom_scaffold. intros H. do 3 (gpure H as ? _). gpure H as wanted _.
  destruct (negb wanted); [by apply gret_Ok in H as [-> ->]|]. gpure H as resolvers _.
  gstep H as [[[ctr disk] edge] meta] k1 H1. gpure H as ci Hci. gpure H as [meta' ctr'] He.
  apply gret_Ok in H as [-> ->]. unfold build_showroom_from_config in H1.
  do 8 (gpure H1 as ? _). gstep H1 as tabs k2 H2. apply tabs_mono in H2.
  gstep H1 as a ka Ha. apply id_drawn in Ha as [-> ->]. gstep H1 as b kb Hb. apply id_drawn in Hb as [-> ->].
  gstep H1 as c kc Hc. apply id_drawn in Hc as [-> ->]. gpure H1 as [ic pc] _. gpure H1 as ? _.
  apply gret_Ok in H1 as [[= -> -> -> ->] ->].
  assert (Hctr : nid ctr' = VStr (fresh k2)).
  { unfold ensure_showroom_dns_network in He. apply bind_Ok in He as (d & _ & He). destruct (truthy d); [by simplify_eq|].
    apply bind_Ok in He as (dd & _ & He). destruct (String.eqb dd ""); [by simplify_eq|].
    apply bind_Ok in He as (? & _ & He). apply bind_Ok in He as (? & _ & He). apply bind_Ok in He as (? & _ & He).
    apply bind_Ok in He as (c3 & Hc3 & [= _ <-]). by apply (field_set_item_ne _ _ _ _ "id") in Hc3. }
  cbn [map]. rewrite Hctr. cbn [idx] in Hci. injection Hci as <-. split; [lia|]. split; [|split].
  - eapply (drawn_cons n (S k2)); [apply drawn_one; lia|apply drawn_one; lia|lia].
  - constructor; [|constructor]. split; [right; left|left].
  - by left.
Qed.

(** ** The whole canvas *)

(** The interfaces of a machine name networks of the template, or none. *)
Definition networks_declared (nets : list (string * val)) (cfg : val) : Prop :=
  ∀ nics l nic net, get cfg "nics" empty_list = Ok nics → iter nics = Ok l → nic ∈ l →
    get nic "network" vstr_empty = Ok net → truthy net = true → ∃ s, net = VStr s ∧ s ∈ nets.*1.

Lemma network_names nets pw y sp n nodes net_ids n' :
  create_network_nodes fresh (VDict nets) pw y sp n = Ok ((nodes, net_ids), n') →
  ∀ s, s ∈ nets.*1 → is_Some (assoc s net_ids).
Proof.
  unfold create_network_nodes. intros H. gpure H as kvs Hkvs. injection Hkvs as <-. gstep H as l k H1.
  apply gret_Ok in H as [[= _ ->] ->]. apply (gmap_drawn (λ _, []) (λ x y, y.1.1 = x.1)) in H1 as (_ & _ & HF).
  - assert (Hk : nets.*1 = map (λ d : string * val * val, d.1.1) l) by (clear -HF; induction HF; csimpl; by f_equal).
    rewrite Hk. clear. intros s.
    assert (Hgen : ∀ m : ids, s ∈ map (λ d : string * val * val, d.1.1) l ∨ is_Some (assoc s m) →
      is_Some (assoc s (foldl (λ m '(name, _, id), assoc_set name id m) m l))).
    { induction l as [|[[name node] id] l IH]; intros m Hm; cbn [foldl]; [destruct Hm as [Hm|]; [by apply elem_of_nil in Hm|done]|].
      apply IH. cbn [map fst] in Hm. destruct (decide (s = name)) as [->|Hne]; [right; rewrite assoc_set_eq; by eexists|].
      destruct Hm as [Hm|Hm]; [left; set_solver|right; by rewrite assoc_set_ne]. }
    intros Hs. apply (Hgen []). by left.
  - clear. intros i [name cfg] n d n' H. gpure H as data _. gstep H as id k H1. apply id_drawn in H1 as [-> ->].
    apply gret_Ok in H as [-> ->]. split; [lia|]. split; [apply drawn_nil|done].
Qed.

Lemma field_pop_item_ne d k d' k' : k ≠ k' → pop_item d k = Ok d' → field k' d' = field k' d.
Proof. intros Hk. destruct d; try done. intros [= <-]. unfold field. cbn [idx]. by rewrite assoc_del_ne. Qed.

Lemma clusters_keep_ids clusters net_ids vms owner nets c1 c2 :
  resolve_cluster_network_names clusters net_ids = Ok c1 → infer_cluster_network_ids c1 vms owner net_ids nets = Ok c2 →
  map boundary_id c2 = map boundary_id clusters.
Proof.
  intros H1 H2. assert (Hm : map nid c2 = map nid clusters).
  { etrans; [eapply map_res_ids; [exact H2|]|eapply map_res_ids; [exact H1|]]; clear; intros c c' H.
    - apply bind_Ok in H as (have & _ & H). destruct (truthy have); [by injection H as <-|].
      apply bind_Ok in H as (? & _ & H). apply bind_Ok in H as (found & _ & H).
      destruct found; [by injection H as <-|]. by apply (field_set_item_ne _ _ _ _ "id") in H.
    - apply bind_Ok in H as (b & _ & H). destruct (negb b); [by injection H as <-|].
      do 3 (apply bind_Ok in H as (? & _ & H)). apply bind_Ok in H as (c1 & Hc & H).
      apply (field_pop_item_ne _ _ _ "id") in H; [|done]. rewrite H.
      destruct x1; [by injection Hc as <-|]. by apply (field_set_item_ne _ _ _ _ "id") in Hc. }
  unfold boundary_id. set (b := λ i, VStr ("cluster-" +:+ py_str i)).
  change (map (λ c, b (nid c)) c2 = map (λ c, b (nid c)) clusters). by rewrite <-(map_map nid b c2), <-(map_map nid b clusters), Hm.
Qed.

Lemma assemble_fields nodes edges ips order hidden clusters meta tmpl topo :
  assemble_topology_result nodes edges ips order hidden clusters meta tmpl = Ok topo →
  field "nodes" topo = VList nodes ∧ field "edges" topo = VList edges ∧ field "startOrder" topo = VList order ∧
  field "hiddenNodeIds" topo = VList hidden.
Proof.
  unfold assemble_topology_result. intros H. apply bind_Ok in H as (r1 & H1 & H).
  apply bind_Ok in H as (r2 & H2 & H). apply bind_Ok in H as (r3 & H3 & H). apply bind_Ok in H as (r4 & H4 & H5).
  assert (Hk : ∀ k, k ∈ ["nodes"; "edges"; "startOrder"; "hiddenNodeIds"] → field k topo = field k r1).
  { intros k Hk. unfold field. apply list_elem_of_In in Hk.
    destruct Hk as [<-|[<-|[<-|[<-|[]]]]];
      rewrite (idx_carry_ne tmpl "workloadsDone" r4 topo), (idx_carry_ne tmpl "requirements_content" r3 r4),
        (idx_carry_ne tmpl "workloads" r2 r3), (idx_carry_ne tmpl "placement" r1 r2) by done; done. }
  rewrite !Hk by set_solver. clear -H1.
  destruct meta; [by injection H1 as <-|]. unfold carry in H1. apply bind_Ok in H1 as (v & _ & H1).
  destruct (truthy v); by injection H1 as <-.
Qed.
(** The ids are distinct whatever the order their builders run in. *)
Context (fresh_inj : ∀ i j, fresh i = fresh j → i = j)
  (fresh_cluster : ∀ k s, fresh k ≠ "cluster-" +:+ s) (fresh_ceph : ∀ k s, fresh k ≠ "ceph-" +:+ s).

Lemma drawn_NoDup n n' vs : drawn n n' vs → NoDup vs.
Proof.
  intros (ks & -> & Hn & _). apply NoDup_fmap_2_strong; [|done]. intros i j _ _ [= H]. by apply fresh_inj.
Qed.

(** Ids drawn, ids of cluster nodes and the id of Ceph. *)
Definition distinct_parts (n n' : nat) (all : list val) : Prop :=
  ∃ ds bs cs, all ≡ₚ ds ++ bs ++ cs ∧ drawn n n' ds ∧ NoDup bs ∧ (∀ v, v ∈ bs → ∃ s, v = VStr ("cluster-" +:+ s)) ∧
    (cs = [] ∨ ∃ s, cs = [VStr ("ceph-" +:+ s)]).

Lemma distinct_parts_NoDup n n' all : distinct_parts n n' all → NoDup all.
Proof.
  intros (ds & bs & cs & -> & Hd & Hb & Hbs & Hcs). apply NoDup_app. split; [by eapply drawn_NoDup|].
  destruct Hd as (ks & -> & _ & _).
  assert (Hcase : ∀ v, v ∈ cs → ∃ s, v = VStr ("ceph-" +:+ s)) by (intros v; destruct Hcs as [->|[s ->]]; set_solver).
  split.
  - intros v Hv [Hin|Hin]%elem_of_app; apply list_elem_of_In, in_map_iff in Hv as (k & <- & _).
    + apply Hbs in Hin as (s & Hs). by injection Hs as Hs%fresh_cluster.
    + apply Hcase in Hin as (s & Hs). by injection Hs as Hs%fresh_ceph.
  - apply NoDup_app. split; [done|]. split.
    + intros v Hv Hin. apply Hbs in Hv as (s & ->). apply Hcase in Hin as (t & [=]).
    + destruct Hcs as [->|[s ->]]; [constructor|apply NoDup_singleton].
Qed.

Lemma distinct_parts_more n m n' all more :
  distinct_parts n m all → drawn m n' more → (n ≤ m ≤ n')%nat → distinct_parts n n' (all ++ more).
Proof.
  intros (ds & bs & cs & Hp & Hd & Hb) Hm Hle. exists (ds ++ more), bs, cs. split; [|split; [by eapply drawn_app|done]].
  rewrite Hp. by rewrite <- !app_assoc, (Permutation_app_comm more), <- !app_assoc.
Qed.

(** What a finished canvas is. *)
Definition well_wired (topo : val) : Prop :=
  ∃ nodes edges order hidden, field "nodes" topo = VList nodes ∧ field "edges" topo = VList edges ∧
    field "startOrder" topo = VList order ∧ field "hiddenNodeIds" topo = VList hidden ∧
    NoDup (map nid nodes) ∧ wired (map nid nodes) edges ∧ Forall (order_refs (map nid nodes)) order ∧
    Forall (λ v, v ∈ map nid nodes) hidden.

Lemma finish_spec tmpl nets net_ids vm_ids ctr_ids x nodes edges ips clusters meta n0 n topo n' :
  finish_topology fresh octets tmpl nets net_ids vm_ids ctr_ids x nodes edges ips clusters meta n = Ok (topo, n') →
  distinct_parts n0 n (map nid nodes) → (n0 ≤ n)%nat → wired (map nid nodes) edges → net_ids.*2 ⊆ map nid nodes →
  Forall (λ v, v ∈ map nid nodes) vm_ids.*2 → Forall (λ v, v ∈ map nid nodes) ctr_ids.*2 → well_wired topo.
Proof.
  intros H Hdist Hn Hw Hnet Hvm Hctr. unfold finish_topology in H. gpure H as ? _. gpure H as ctrs _.
  gstep H as [[cn ce] cids] k H1. apply (ctrs_spec _ _ _ _ _ _ _ _ _ _ _ (map nid nodes)) in H1 as (Hle & Hd & Hcw & Hcm); [|done].
  gpure H as order Ho. gpure H as nodes1 Hn1. gpure H as nodes2 Hn2. gpure H as ? _. gpure H as nodes3 Hn3.
  gpure H as hidden Hh. apply glift_Ok in H as [H ->]. apply assemble_fields in H as (F1 & F2 & F3 & F4).
  apply apply_dns_ids in Hn1. apply resolve_dns_ids in Hn2. apply bmc_ids in Hn3.
  assert (Hall : map nid nodes3 = map nid nodes ++ map nid cn) by (by rewrite Hn3, Hn2, Hn1, map_app).
  assert (Hvm' : Forall (λ v, v ∈ map nid nodes3) vm_ids.*2)
    by (eapply Forall_impl; [exact Hvm|]; intros v Hv; rewrite Hall; set_solver).
  rewrite <-Hall in Hcm.
  exists nodes3, (edges ++ ce), order, hidden. do 4 (split; [done|]). rewrite Hall. split; [|split; [|split]].
  - eapply distinct_parts_NoDup, distinct_parts_more; [exact Hdist|exact Hd|lia].
  - apply wired_app. split; [eapply wired_weaken; [exact Hw|set_solver]|eapply wired_weaken; [exact Hcw|set_solver]].
  - rewrite <-Hall. by eapply start_order_spec.
  - rewrite <-Hall. eapply hidden_spec; [exact Hh|]. intros v Hv%merge_values.
    apply elem_of_app in Hv as [Hv%merge_values|Hv]; [|rewrite Hall; set_solver].
    rewrite Forall_forall in Hvm', Hcm. apply elem_of_app in Hv as [Hv|Hv]; auto.
Qed.
Lemma drawn_string n n' nodes : drawn n n' (map nid nodes) → Forall (λ n, ∃ i, nid n = VStr i) nodes.
Proof.
  intros (ks & Hk & _). apply Forall_forall. intros node Hin%list_elem_of_In.
  apply (in_map nid) in Hin. rewrite Hk in Hin. apply in_map_iff in Hin as (k & <- & _). by eexists.
Qed.

Lemma gateway_edges_spec gid gnet n es n' known :
  match gnet with VNone => gret [] | _ => e <-' gw_net_edge fresh gid gnet;; gret [e] end n = Ok (es, n') →
  gid ∈ known → (gnet ≠ VNone → gnet ∈ known) → (n ≤ n')%nat ∧ wired known es.
Proof.
  intros H Hg Hn. destruct (decide (gnet = VNone)) as [->|Hne].
  { apply gret_Ok in H as [-> ->]. split; [done|constructor]. }
  assert (He : gbind (gw_net_edge fresh gid gnet) (λ e, gret [e]) n = Ok (es, n')) by (by destruct gnet).
  gstep He as e ke Hge. apply gret_Ok in He as [-> ->]. unfold gw_net_edge in Hge.
  gstep Hge as ei kk Hi. apply id_drawn in Hi as [-> ->]. apply gret_Ok in Hge as [-> ->].
  split; [lia|]. constructor; [|constructor]. split; [exact Hg|by apply Hn].
Qed.

(** The nodes and edges made before the showroom, put together. *)
Lemma parts_join n k1 k2 k5 k6 nn gw bn cn vn clusters es ce ve (net_ids vids : ids) :
  drawn n k1 (map nid nn) → drawn k1 k2 [nid gw] → drawn k5 k6 (map nid vn) → (n ≤ k1 ≤ k2 ≤ k5)%nat → (k5 ≤ k6)%nat →
  map nid bn = map boundary_id clusters → NoDup (map boundary_id clusters) →
  (cn = [] ∨ ∃ node k, cn = [node] ∧ nid node = VStr ("ceph-" +:+ str_take 8 (fresh k))) →
  net_ids.*2 ⊆ map nid nn → wired (map nid (nn ++ [gw] ++ bn)) es → wired (map nid cn ++ map boundary_id clusters) ce →
  wired (map nid vn ++ net_ids.*2) ve → Forall (λ v, v ∈ map nid vn) vids.*2 →
  let nodes := (nn ++ [gw] ++ bn) ++ cn ++ vn in
  distinct_parts n k6 (map nid nodes) ∧ wired (map nid nodes) (es ++ ce ++ ve) ∧ net_ids.*2 ⊆ map nid nodes ∧
  Forall (λ v, v ∈ map nid nodes) vids.*2.
Proof.
  intros Hd1 Hd2 Hd6 Hle Hle6 Hb Hbids Hcn Hsub Hw Hcw Hvw Hm nodes.
  assert (Hnodes : map nid nodes = (map nid nn ++ [nid gw] ++ map boundary_id clusters) ++ map nid cn ++ map nid vn)
    by (unfold nodes; by rewrite !map_app, Hb).
  rewrite !map_app, Hb in Hw. rewrite Hnodes. split; [|split; [|split]].
  - exists (map nid nn ++ [nid gw] ++ map nid vn), (map boundary_id clusters), (map nid cn).
    split; [|split; [|split; [done|split]]].
    + rewrite <- !app_assoc. do 2 f_equiv. rewrite (app_assoc (map nid vn)), (Permutation_app_comm (map nid vn)).
      rewrite <-app_assoc. f_equiv. apply Permutation_app_comm.
    + eapply drawn_app; [exact Hd1| |lia]. eapply drawn_app; [exact Hd2| |lia]. eapply drawn_weaken; [exact Hd6|lia..].
    + intros v Hv%list_elem_of_In. apply in_map_iff in Hv as (c & <- & _). by eexists.
    + destruct Hcn as [->|(node & k & -> & Hk)]; [by left|right; eexists; cbn; by rewrite Hk].
  - rewrite !wired_app. split; [|split]; (eapply wired_weaken; [eassumption|]).
    + clear. intros v. rewrite !elem_of_app. tauto.
    + clear. intros v. rewrite !elem_of_app. tauto.
    + clear -Hsub. intros v. rewrite !elem_of_app. specialize (Hsub v). tauto.
  - clear -Hsub. intros v. rewrite !elem_of_app. specialize (Hsub v). tauto.
  - eapply Forall_impl; [exact Hm|]. intros v. rewrite !elem_of_app. tauto.
Qed.

(** C13: a canvas generated from a template is well wired: ids of nodes are distinct; both ends of
    every edge, every machine and container of the start order, what they wait for, and every
    hidden node are nodes of the canvas.  Asked: [uuid4] repeats no id and makes none of the two
    prefixes the code uses, machines name networks the template declares, clusters have
    distinct ids. *)
Theorem template_canvas_wired gib tmpl pw ext n topo n' vms0 nets vms clusters owner :
  generate_topology_from_vms fresh octets gib tmpl pw ext n = Ok (topo, n') →
  get tmpl "vms" empty_dict = Ok vms0 → get tmpl "networks" empty_dict = Ok (VDict nets) →
  prepare_ocp_clusters gib tmpl vms0 = Ok (VDict vms, clusters, owner) →
  Forall (λ p, networks_declared nets p.2) vms → NoDup (map boundary_id clusters) →
  well_wired topo.
Proof.
  intros H Hvms0 Hnets Hprep Hdecl Hbids. unfold generate_topology_from_vms in H.
  gpure H as ? E1. rewrite Hvms0 in E1. injection E1 as <-. gpure H as ? E2. rewrite Hnets in E2. injection E2 as <-.
  gpure H as ? _. gpure H as [[vd cs0] ow] E3. rewrite Hprep in E3. injection E3 as <- <- <-.
  gstep H as [nn net_ids] k1 Hnet. pose proof (network_names _ _ _ _ _ _ _ _ Hnet) as Hnames.
  apply networks_spec in Hnet as (Hle1 & Hd1 & Hsub). gpure H as c1 Hc1. gpure H as c2 Hc2.
  pose proof (clusters_keep_ids _ _ _ _ _ _ _ Hc1 Hc2) as Hb.
  gstep H as [[gw ips] gwn] k2 Hgw. apply gateway_spec in Hgw as (Hle2 & Hd2). gpure H as gid Hgid.
  assert (Hg : gid = nid gw) by (unfold field; by rewrite Hgid). gpure H as gnet Hgnet. gstep H as es1 k3 Hes1.
  apply (gateway_edges_spec _ _ _ _ _ (map nid (nn ++ [gw]))) in Hes1 as [Hle3 Hw1].
  2: { rewrite map_app, Hg. apply elem_of_app. right. by left. }
  2: { intros Hne. rewrite map_app. apply elem_of_app. left. destruct (truthy gwn); [|by injection Hgnet as <-].
       apply id_of_known in Hgnet as [?|?]; [done|by apply Hsub]. }
  gpure H as bn Hbn. apply boundaries_spec in Hbn.
  gstep H as es2 k4 Hes2. apply boundary_edges_spec in Hes2 as [Hle4 Hw2].
  2: { rewrite !Forall_app. split; [by eapply drawn_string|]. split; [by eapply (drawn_string _ _ [gw])|].
       apply Forall_forall. intros b Hin%list_elem_of_In. apply (in_map nid) in Hin. rewrite Hbn in Hin.
       apply in_map_iff in Hin as (c & <- & _). by eexists. }
  2: { eapply wired_weaken; [exact Hw1|]. rewrite !map_app. clear. intros v. rewrite !elem_of_app. tauto. }
  gstep H as [cn ce] k5 Hceph. apply ceph_spec in Hceph as (Hle5 & Hcw & Hcn). gpure H as ? _. gpure H as vl Hvl.
  injection Hvl as <-. gstep H as [[[vn ve] vids] vx] k6 Hvm.
  assert (Hdecl' : Forall (λ p, cfg_declared net_ids p.2) vms).
  { eapply Forall_impl; [exact Hdecl|]. intros p Hp nics l Hn Hi nic net Hin Hg' Ht.
    destruct (Hp nics l nic net Hn Hi Hin Hg' Ht) as (s & -> & Hs). exists s. split; [done|by apply Hnames]. }
  apply (vms_spec _ _ _ _ _ _ _ _ _ _ _ _ _ _ _ []) in Hvm as (Hle6 & Hd6 & Hw6 & Hm6); [|done|constructor].
  rewrite Hb in Hbn, Hcw.
  destruct (parts_join _ _ _ _ _ _ _ _ _ _ _ _ _ _ _ _ Hd1 Hd2 Hd6 ltac:(lia) Hle6 Hbn Hbids Hcn Hsub Hw2 Hcw Hw6 Hm6)
    as (Hdist & Hwired & Hnet' & Hvids).
  set (made := (nn ++ [gw] ++ bn) ++ cn ++ vn) in *. clearbody made.
  gstep H as o k7 Hsr. apply showroom_spec in Hsr as [Hle7 Hsr]. destruct o as [[[[sn se] ci] meta]|].
  - destruct Hsr as (Hd7 & Hw7 & Hci). eapply (finish_spec _ _ _ _ _ _ _ _ _ _ _ n); [exact H|..]; rewrite ?map_app.
    + eapply distinct_parts_more; [exact Hdist|exact Hd7|lia].
    + lia.
    + apply wired_app. split; (eapply wired_weaken; [eassumption|]); clear; intros v; rewrite elem_of_app; tauto.
    + clear -Hnet'. intros v Hv. apply elem_of_app. left. by apply Hnet'.
    + eapply Forall_impl; [exact Hvids|]. intros v Hv. apply elem_of_app. by left.
    + constructor; [apply elem_of_app; by right|constructor].
  - eapply (finish_spec _ _ _ _ _ _ _ _ _ _ _ n); [exact H| |lia|done|done|done|constructor].
    destruct Hdist as (ds & bs & cs & Hp & Hd & Hrest). exists ds, bs, cs. split; [done|].
    split; [by eapply drawn_weaken|done].
Qed.
End Wired.

(** ** On a template *)

(** Identifiers for running the definitions: [u0], [u1], … *)
Definition some_fresh (n : nat) : string := "u" +:+ pretty (N.of_nat n).

Lemma some_fresh_inj i j : some_fresh i = some_fresh j → i = j.
Proof. unfold some_fresh. intros [= H%(inj pretty)]. lia. Qed.

Definition some_octets (n : nat) : Z * Z * Z := (0, 0, Z.of_nat n).
Definition whole_gib (mib : Z) : val := VInt (mib / 1024).

(** A lab with a bastion, a compact cluster and a showroom. *)
Definition lab_networks : list (string * val) :=
  [("lab", {{ "cidr" ::= VStr "10.0.0.0/24"; "dns" ::= VBool true }}%py); ("bmc", {{ "type" ::= VStr "bmc" }}%py)].
Definition lab_vms (net : string) : val :=
  {{ "bastion" ::= {{ "role" ::= VStr "bastion"; "os" ::= VStr "rhel";
       "nics" ::= VList [ {{ "network" ::= VStr net; "ip" ::= VStr "10.0.0.9" }} ];
       "disks" ::= VList [ {{ "size_gb" ::= VInt 10 }}; {{ "size_gb" ::= VInt 20; "bootable" ::= VBool true }} ] }} }}%py.
Definition lab_template (net : string) : val :=
  {{ "networks" ::= VDict lab_networks; "vms" ::= lab_vms net;
     "ocp" ::= VList [ {{ "name" ::= VStr "hub"; "type" ::= VStr "compact"; "networks" ::= VList [VStr "lab"] }} ];
     "gateway" ::= {{ "external_access" ::= VBool true }};
     "placement" ::= {{ "requires_kubevirt" ::= VBool true }};
     "cephCluster" ::= {{ "network" ::= VStr "lab"; "clusters" ::= VList [VStr "hub"] }};
     "showroom" ::= {{ "enabled" ::= VBool true; "tabs" ::= VList [ {{ "target" ::= VStr "clusters" }} ] }};
     "start_order" ::= VList [ {{ "vm" ::= VStr "bastion" }} ] }}%py.
Definition lab_canvas (net : string) : res (val * nat) :=
  generate_topology_from_vms some_fresh some_octets  whole_gib (lab_template net) (VStr "pw") false 0%nat.

(** The ends of edges that are no node of the canvas. *)
Definition dangling (topo : val) : list val :=
  match field "nodes" topo, field "edges" topo with
  | VList nodes, VList edges =>
      filter (λ v, v ∉ map (field "id") nodes) (concat (map (λ e, [field "source" e; field "target" e]) edges))
  | _, _ => []
  end.

(** A machine whose network the template does not declare is wired to a node that does not
    exist (a container in its place is left without the edge). *)
Example undeclared_network_dangles :
  (λ r, dangling r.1) <$> (match lab_canvas "lan" with Ok r => Some r | Raise _ => None end) = Some [VStr "lan"].
Proof. vm_compute. reflexivity. Qed.
Example declared_network_wired :
  (λ r, dangling r.1) <$> (match lab_canvas "lab" with Ok r => Some r | Raise _ => None end) = Some [].
Proof. vm_compute. reflexivity. Qed.

(** On the lab: every hypothesis of [template_canvas_wired] holds. *)
Definition lab_prepared : val * list val * list (string * val) :=
  match prepare_ocp_clusters whole_gib (lab_template "lab") (lab_vms "lab") with
  | Ok r => r
  | Raise _ => (VNone, [], [])
  end.

Definition prepared_vms : list (string * val) :=
  match lab_prepared.1.1 with VDict d => d | _ => [] end.
Definition lab_topo : val * nat := match lab_canvas "lab" with Ok r => r | Raise _ => (VNone, 0%nat) end.

(** [networks_declared] as a test. *)
Definition networks_declared_test (nets : list (string * val)) (cfg : val) : bool :=
  match get cfg "nics" empty_list with
  | Ok nics => match iter nics with
    | Ok l => forallb (λ nic, match get nic "network" vstr_empty with
        | Ok (VStr s) => bool_decide (s ∈ nets.*1)
        | Ok v => negb (truthy v)
        | Raise _ => true end) l
    | Raise _ => true end
  | Raise _ => true
  end.

Lemma networks_declared_tested nets cfg : networks_declared_test nets cfg = true → networks_declared nets cfg.
Proof.
  unfold networks_declared_test, networks_declared. intros H nics l nic net Hn Hi Hin Hg Ht. rewrite Hn, Hi in H.
  rewrite forallb_forall in H. apply list_elem_of_In, H in Hin. rewrite Hg in Hin.
  destruct net; try (by rewrite Ht in Hin). by apply bool_decide_eq_true_1 in Hin; eauto.
Qed.

Lemma template_canvas_wired_witness : well_wired lab_topo.1.
Proof.
  apply (template_canvas_wired some_fresh some_octets  some_fresh_inj
    (λ k s, ltac:(done)) (λ k s, ltac:(done)) whole_gib (lab_template "lab") (VStr "pw") false 0 lab_topo.1 lab_topo.2
    (lab_vms "lab") lab_networks prepared_vms lab_prepared.1.2 lab_prepared.2).
  - vm_compute. reflexivity.
  - reflexivity.
  - reflexivity.
  - vm_compute. reflexivity.
  - apply Forall_forall. intros p Hp. apply networks_declared_tested.
    assert (Hall : forallb (λ p, networks_declared_test lab_networks p.2) prepared_vms = true) by (vm_compute; reflexivity).
    rewrite forallb_forall in Hall. by apply Hall, list_elem_of_In.
  - vm_compute. repeat constructor. set_solver.
Defined.

(** The export of a showroom leaves [target] and the hosts of proxies out: the tab of a cluster
    terminal, exported, is refused when the template is read again. *)
Example cluster_terminal_not_read_back :
  ∃ tab entry,
    parse_one_template_tab "t1" {{ "type" ::= VStr "terminal"; "target" ::= VStr "clusters" }}%py [] [] [] = Ok tab ∧
    export_showroom_tab tab [] [] [] = Ok entry ∧ parse_one_template_tab "t2" entry [] [] [] = Raise ValueError.
Proof. do 2 eexists. split; [vm_compute; reflexivity|]. split; vm_compute; reflexivity. Qed.
