(* ===== verification/Vxlan.v ===== *)
(** * VXLAN mesh service: [vxlan.py]

    VNI allocation with its high-water mark, transit addressing, DHCP
    reservations and the network configuration a host agent applies. *)
From stdpp Require Import prelude strings.
From Stdlib Require Import Ascii.
From S2P Require Import Prelude PyStr StrLemmas PyVal PyLemmas Ipv4 Interfaces Db TopoNodes DnsRecords.

Definition VNI_MIN : Z := 1000.
Definition VNI_MAX : Z := 16777000.

(** [vxlan._transit_subnet] *)
Record transit := mkTransit { t_host_ip : string; t_ns_ip : string; t_cidr : string }.

(** [vxlan._transit_subnet] *)
Definition transit_subnet (vni : Z) : transit :=
  let octet3 := Z.land (Z.shiftr vni 2) 255 in
  let octet4_base := Z.land vni 3 * 4 in
  mkTransit (transit_ip octet3 (octet4_base + 1)) (transit_ip octet3 (octet4_base + 2))
            (transit_ip octet3 octet4_base +:+ "/30").

(** ** VNI allocation *)

(** [vxlan._get_all_used_vnis] *)
Definition get_all_used_vnis (db : DB) : list Z :=
  concat (map (λ p, match p_vni_map p with Some m => m.*2 | None => [] end) (db_projects db)).

(** The [.vni_hwm] file: its text when it exists, and whether it can be written. *)
Record hwm_file := mkHwm { hwm_text : option string; hwm_writable : bool }.

(** [vxlan.allocate_vnis_for_project:73-84] reading the file. *)
Definition read_hwm (f : hwm_file) : Z :=
  match hwm_text f with
  | Some s => default (VNI_MIN - 1) (int_of_string s)
  | None => VNI_MIN - 1
  end.

(** [vxlan.allocate_vnis_for_project:101-107] writing it. *)
Definition write_hwm (f : hwm_file) (hwm : Z) : hwm_file :=
  if hwm_writable f then mkHwm (Some (str_of_Z hwm)) true else f.

(** [vxlan.allocate_vnis_for_project:60-67] the networks that get a VNI. *)
Definition is_allocatable_network (n : val) : res bool :=
  has_type n "networkNode" <&&>
  (d <- data_of n;; st <- get d "subtype" VNone;; Ok (eq_str st "network")) <&&>
  (d <- data_of n;; nt <- get d "networkType" VNone;; Ok (negb (eq_str nt "bmc"))).

(** [vxlan.allocate_vnis_for_project:88-99] the loop: the map so far and the
    next VNI. *)
Definition allocate_one (node : val) (s : vnis * Z) : res (vnis * Z) :=
  let '(vni_map, next_vni) := s in
  if VNI_MAX <? next_vni then Raise ValueError
  else
    i <- idx node "id";;
    m <- vset i next_vni vni_map;;
    d <- idx node "data";;
    _ <- get d "name" VNone;;
    Ok (m, next_vni + 1).

(** [vxlan.allocate_vnis_for_project] (held under [_vni_lock], so atomic within a
    process): the map and the file afterwards. *)
Definition allocate_vnis_for_project (db : DB) (f : hwm_file) (topology : val)
    : res (vnis * hwm_file) :=
  nodes <- nodes_of topology;;
  network_nodes <- filter_res is_allocatable_network nodes;;
  let used_vnis := get_all_used_vnis db in
  let db_max := default (VNI_MIN - 1) (zmax used_vnis) in
  let next_vni := Z.max db_max (read_hwm f) + 1 in
  '(vni_map, _) <- for_each network_nodes ([], next_vni) allocate_one;;
  Ok (vni_map, match zmax vni_map.*2 with Some hwm => write_hwm f hwm | None => f end).

(** ** NICs, DHCP hosts and PXE *)

(** [vxlan._is_nic_on_network] *)
Definition is_nic_on_network (vm_node_id network_node_id nic_id : val) (edges : list val)
    : res bool :=
  let handle_top := "nic-" +:+ py_str nic_id +:+ "-top" in
  let handle_bottom := "nic-" +:+ py_str nic_id +:+ "-bottom" in
  let hit (h : val) := eq_str h handle_top || eq_str h handle_bottom in
  any_res (λ e,
    src <- get e "source" VNone;;
    tgt <- get e "target" VNone;;
    if py_eq src vm_node_id && py_eq tgt network_node_id
    then sh <- get e "sourceHandle" VNone;; Ok (hit sh)
    else if py_eq tgt vm_node_id && py_eq src network_node_id
    then th <- get e "targetHandle" VNone;; Ok (hit th)
    else Ok false) edges.

Definition pxe_fields : list string :=
  ["pxeMethod"; "pxeNextServer"; "pxeBootFile"; "ipxeScriptUrl"; "uefiBootUrl"].

(** [vxlan._extract_pxe_boot_config] *)
Definition extract_pxe_boot_config (vm_data : val) : res (list (string * val)) :=
  for_each pxe_fields [] (λ field config,
    v <- get vm_data field VNone;;
    if truthy v then Ok (assoc_set field v config) else Ok config).

(** One [dhcp_hosts] entry: a [dhcp-host] line of dnsmasq. *)
Definition dhcp_host (mac ip name : val) : val :=
  VDict [("mac", mac); ("ip", ip); ("name", name)].

(** [vxlan._collect_dhcp_hosts_for_vm] *)
Definition collect_dhcp_hosts_for_vm (vm_node vm_data network_node_id : val) (edges : list val)
    : res (list val) :=
  nics <- get vm_data "nics" empty_list;;
  nics <- iter nics;;
  for_each nics [] (λ vm_nic hosts,
    ip <- get vm_nic "ip" VNone;;
    if negb (truthy ip) then Ok hosts
    else
      mac <- get vm_nic "mac" VNone;;
      if negb (truthy mac) then Ok hosts
      else
        vm_id <- idx vm_node "id";;
        nic_id <- idx vm_nic "id";;
        on_net <- is_nic_on_network vm_id network_node_id nic_id edges;;
        if on_net then name <- get vm_data "name" vstr_empty;; Ok (hosts ++ [dhcp_host mac ip name])
        else Ok hosts).

(** [vxlan._edge_peer_id] *)
Definition edge_peer_id (edge node_id : val) : res (option val) :=
  src <- idx edge "source";;
  if py_eq src node_id then t <- idx edge "target";; Ok (Some t)
  else
    tgt <- idx edge "target";;
    if py_eq tgt node_id then Ok (Some src) else Ok None.

(** [vxlan._find_connected_workloads:172-177] and
    [vxlan._build_router_configs:614-619] the ids at the other end of a node's
    edges. *)
Definition connected_ids (node_id : val) (edges : list val) : res (list val) :=
  for_each edges [] (λ edge ids,
    p <- edge_peer_id edge node_id;;
    match p with Some i => vadd i ids | None => Ok ids end).

Record workloads := mkWorkloads {
  w_vms : list val;
  w_dhcp_hosts : list val;
  w_pxe_iso_ids : list val;
  w_pxe_config : list (string * val)
}.

(** [vxlan._find_connected_workloads:183-195] one node of the scan. *)
Definition scan_workload (node_id : val) (edges connected : list val) (vm_node : val)
    (w : workloads) : res workloads :=
  vm_id <- idx vm_node "id";;
  c <- vin vm_id connected;;
  if negb c then Ok w
  else
    t <- has_type_in vm_node ["vmNode"; "containerNode"];;
    if negb t then Ok w
    else
      vm_data <- data_of vm_node;;
      name <- get vm_data "name" VNone;;
      pxe_iso_id <- get vm_data "pxeBootIsoId" VNone;;
      isos <- (if truthy pxe_iso_id then vadd pxe_iso_id (w_pxe_iso_ids w)
               else Ok (w_pxe_iso_ids w));;
      cfg <- (match w_pxe_config w with
              | [] => extract_pxe_boot_config vm_data
              | c => Ok c
              end);;
      dh <- collect_dhcp_hosts_for_vm vm_node vm_data node_id edges;;
      Ok (mkWorkloads (w_vms w ++ [VDict [("vm_id", vm_id); ("name", name)]])
                      (w_dhcp_hosts w ++ dh) isos cfg).

(** [vxlan._find_connected_workloads] *)
Definition find_connected_workloads (node_id : val) (nodes edges : list val) : res workloads :=
  connected <- connected_ids node_id edges;;
  for_each nodes (mkWorkloads [] [] [] []) (scan_workload node_id edges connected).

(** ** DHCP reservations *)

(** [vxlan._bogus_mac_for_ip] *)
Definition bogus_mac_for_ip (ip : string) : res string :=
  parts <- map_res (λ p, match int_of_string p with
                         | Some z => Ok (Z.land z 255)
                         | None => Raise ValueError
                         end) (split "." ip);;
  match parts with
  | a :: b :: c :: d :: _ =>
      Ok ("02:00:" +:+ hex2 a +:+ ":" +:+ hex2 b +:+ ":" +:+ hex2 c +:+ ":" +:+ hex2 d)
  | _ => Raise IndexError
  end.

(** [vxlan._cluster_boundary_vips] *)
Definition cluster_boundary_vips (boundary : val) : res (list (string * string)) :=
  d <- data_of boundary;;
  api <- text_field d "apiVip";;
  ingress <- text_field d "ingressVip";;
  Ok ((if String.eqb api "" then [] else [("api", api)]) ++
      (if String.eqb ingress "" then [] else [("ingress", ingress)])).

(** [vxlan._cluster_member_ids] *)
Definition cluster_member_ids (nodes : list val) (boundary_id : val) : res (list val) :=
  for_each nodes [] (λ n ids,
    t <- has_type n "vmNode";;
    if negb t then Ok ids
    else
      pid <- get n "parentId" VNone;;
      if py_eq pid boundary_id then i <- idx n "id";; vadd i ids else Ok ids).

(** [vxlan._members_on_network] *)
Definition members_on_network (net_node_id : val) (members edges : list val) : res bool :=
  any_res (λ e,
    src <- get e "source" VNone;;
    tgt <- get e "target" VNone;;
    a <- (if py_eq src net_node_id then vin tgt members else Ok false);;
    if a then Ok true
    else if py_eq tgt net_node_id then vin src members else Ok false) edges.

(** [ip in reserved_ips] for a text [ip] and a set of values. *)
Definition reserved (ip : string) (reserved_ips : list val) : bool := vmem (VStr ip) reserved_ips.

(** [vxlan._vip_reservations_for_cluster] *)
Definition vip_reservations_for_cluster (name : string) (vips : list (string * string))
    (reserved_ips : list val) : res (list val) :=
  '(rs, _) <- for_each vips ([], []) (λ '(label, vip) '(reservations, seen),
    if bool_decide (vip ∈ seen) || reserved vip reserved_ips then Ok (reservations, seen)
    else
      mac <- bogus_mac_for_ip vip;;
      Ok (reservations ++ [dhcp_host (VStr mac) (VStr vip) (VStr (name +:+ "-" +:+ label))],
          seen ++ [vip]));;
  Ok rs.

(** [vxlan._cluster_vip_reservations] *)
Definition cluster_vip_reservations (net_node_id : val) (nodes edges : list val)
    (reserved_ips : list val) : res (list val) :=
  for_each nodes [] (λ boundary reservations,
    t <- has_type boundary "clusterNode";;
    if negb t then Ok reservations
    else
      vips <- cluster_boundary_vips boundary;;
      match vips with
      | [] => Ok reservations
      | _ =>
          bid <- idx boundary "id";;
          members <- cluster_member_ids nodes bid;;
          on_net <- members_on_network net_node_id members edges;;
          if negb on_net then Ok reservations
          else
            d <- data_of boundary;;
            name <- get d "name" (VStr "cluster");;
            rs <- vip_reservations_for_cluster (py_str name) vips reserved_ips;;
            Ok (reservations ++ rs)
      end).

Definition infra_offsets : list (Z * string) :=
  [(1, "gateway"); (2, "dnsmasq"); (3, "exec"); (9, "showroom")].

(** [vxlan._infra_ip_reservations:318-323] the reservation of one address. *)
Definition infra_reservation (net : network) (reserved_ips : list val) (o : Z * string)
    (reservations : list val) : res (list val) :=
  a <- addr_add (net_addr net) o.1;;
  let ip := ip_str a in
  if reserved ip reserved_ips then Ok reservations
  else
    mac <- bogus_mac_for_ip ip;;
    Ok (reservations ++ [dhcp_host (VStr mac) (VStr ip) (VStr ("infra-" +:+ o.2))]).

(** [vxlan._infra_ip_reservations] *)
Definition infra_ip_reservations (net_data : val) (reserved_ips : list val) : res (list val) :=
  cidr <- get net_data "cidr" vstr_empty;;
  if negb (truthy cidr) then Ok []
  else
    match ip_network cidr with
    | Raise ValueError => Ok []
    | Raise e => Raise e
    | Ok net => for_each infra_offsets [] (infra_reservation net reserved_ips)
    end.

(** [hosts\[i\]] with Python's negative indices. *)
Definition host_at (hs : list Z) (i : Z) : res Z :=
  let j := if i <? 0 then Z.of_nat (length hs) + i else i in
  if (0 <=? j) then match hs !! Z.to_nat j with Some a => Ok a | None => Raise IndexError end
  else Raise IndexError.

(** [vxlan._build_dhcp_config:337-347] the range and gateway filled in from the
    CIDR; [ValueError] and [IndexError] leave what was set so far. *)
Definition fill_dhcp_from_cidr (cidr range_start range_end gateway : val)
    : res (val * val * val) :=
  match ip_network cidr with
  | Raise ValueError => Ok (range_start, range_end, gateway)
  | Raise e => Raise e
  | Ok net =>
      let hs := hosts net in
      let fallible (m : res Z) (old : val) (k : val → res (val * val * val))
          (stop : res (val * val * val)) :=
        if truthy old then k old
        else match m with Ok a => k (VStr (ip_str a)) | Raise _ => stop end in
      fallible (host_at hs 0) gateway (λ g,
        fallible (host_at hs (Z.min 9 (Z.of_nat (length hs) - 2))) range_start (λ s,
          fallible (host_at hs (-1)) range_end (λ e, Ok (s, e, g)) (Ok (s, range_end, g)))
          (Ok (range_start, range_end, g)))
        (Ok (range_start, range_end, gateway))
  end.

(** [vxlan._build_dhcp_config] *)
Definition build_dhcp_config (data : val) : res val :=
  range_start <- get data "dhcpRangeStart" vstr_empty;;
  range_end <- get data "dhcpRangeEnd" vstr_empty;;
  gateway <- get data "dhcpGateway" vstr_empty;;
  net_cidr <- get data "cidr" vstr_empty;;
  '(s, e, g) <-
    (if truthy net_cidr &&
        (negb (truthy range_start) || negb (truthy range_end) || negb (truthy gateway))
     then fill_dhcp_from_cidr net_cidr range_start range_end gateway
     else Ok (range_start, range_end, gateway));;
  lease <- get data "dhcpLeaseTime" (VStr "24h");;
  Ok (VDict [("range_start", s); ("range_end", e); ("gateway", g); ("lease_time", lease)]).

(** [{h.get("ip") for h in hosts}] *)
Definition host_ips (hs : list val) : res (list val) :=
  for_each hs [] (λ h s, ip <- get h "ip" VNone;; vadd ip s).

(** [vxlan._apply_dhcp_reservations] *)
Definition apply_dhcp_reservations (net_config data node_id : val) (nodes edges : list val)
    : res val :=
  enabled <- idx net_config "dhcp_enabled";;
  if negb (truthy enabled) then Ok net_config
  else
    dhcp <- build_dhcp_config data;;
    net_config <- set_item net_config "dhcp_config" dhcp;;
    dh <- idx net_config "dhcp_hosts";; dh <- iter dh;;
    existing_ips <- host_ips dh;;
    vip <- cluster_vip_reservations node_id nodes edges existing_ips;;
    let dh := dh ++ vip in
    existing_ips <- host_ips dh;;
    infra <- infra_ip_reservations data existing_ips;;
    set_item net_config "dhcp_hosts" (VList (dh ++ infra)).

(** ** VNI allocation *)

(** The state of the allocation loop that started at VNI [start]. *)
Definition alloc_inv (start : Z) (s : vnis * Z) : Prop :=
  start ≤ s.2 ∧ NoDup s.1.*2 ∧ (∀ v, v ∈ s.1.*2 → start ≤ v < s.2 ∧ v ≤ VNI_MAX) ∧
  NoDup s.1.*1.

Lemma elem_of_vinsert_vals {A} k (a : A) m x : x ∈ (vinsert k a m).*2 → x = a ∨ x ∈ m.*2.
Proof.
  induction m as [|[k' b] m IH]; csimpl; [set_solver|].
  destruct (py_eq k k'); csimpl; set_solver.
Qed.

Lemma vinsert_vals_NoDup k (a : Z) m : a ∉ m.*2 → NoDup m.*2 → NoDup (vinsert k a m).*2.
Proof.
  induction m as [|[k' b] m IH]; csimpl; [intros; apply NoDup_singleton|].
  intros Ha Hn. apply NoDup_cons in Hn as [Hb Hn]. destruct (py_eq k k'); csimpl.
  - apply NoDup_cons. split; [set_solver|done].
  - apply NoDup_cons. split; [|apply IH; set_solver].
    intros [->|?]%elem_of_vinsert_vals; set_solver.
Qed.

(** The key a [vinsert] writes under: the one it finds, or the new one. *)
Lemma vinsert_keys {A} k (a : A) m :
  (vinsert k a m).*1 = m.*1 ∨ ((∀ k', k' ∈ m.*1 → py_eq k k' = false) ∧ (vinsert k a m).*1 = m.*1 ++ [k]).
Proof.
  induction m as [|[k' b] m IH]; csimpl; [right; set_solver|].
  destruct (py_eq k k') eqn:E; csimpl; [by left|].
  destruct IH as [->|[Hn ->]]; [by left|]. right. split; [|done]. set_solver.
Qed.

Lemma vinsert_keys_NoDup {A} k (a : A) m : hashable k = true → NoDup m.*1 → NoDup (vinsert k a m).*1.
Proof.
  intros Hh Hn. destruct (vinsert_keys k a m) as [->|[Hk ->]]; [done|].
  apply NoDup_app. split_and!; [done| |apply NoDup_singleton].
  intros k' Hk' ->%list_elem_of_singleton. specialize (Hk k Hk').
  by rewrite hashable_py_eq_refl in Hk.
Qed.

Lemma vset_inv {A} k (a : A) m m' : vset k a m = Ok m' → hashable k = true ∧ m' = vinsert k a m.
Proof. unfold vset, hkey. destruct (hashable k); simpl; [by intros [= <-]|done]. Qed.

Lemma allocate_one_inv start node s s' :
  alloc_inv start s → allocate_one node s = Ok s' → alloc_inv start s'.
Proof.
  destruct s as [m next]. intros (Hle & Hn & Hb & Hk) H. unfold allocate_one in H.
  destruct (VNI_MAX <? next) eqn:E; [done|]. bool_lia. bind_inv.
  destruct (vset_inv _ _ _ _ H1) as [Hh ->]. simplify_eq/=. unfold alloc_inv; simpl in *.
  split_and!; [lia| | |by apply vinsert_keys_NoDup].
  - apply vinsert_vals_NoDup; [|done]. intros [? ?]%Hb. lia.
  - intros v [->|Hv]%elem_of_vinsert_vals; [lia|]. specialize (Hb v Hv). lia.
Qed.

(** What one allocation starts from. *)
Definition next_vni (db : DB) (f : hwm_file) : Z :=
  Z.max (default (VNI_MIN - 1) (zmax (get_all_used_vnis db))) (read_hwm f) + 1.

Lemma allocate_inv db f topology m f' :
  allocate_vnis_for_project db f topology = Ok (m, f') →
  NoDup m.*2 ∧ NoDup m.*1 ∧ (∀ v, v ∈ m.*2 → next_vni db f ≤ v ≤ VNI_MAX) ∧
  f' = match zmax m.*2 with Some hwm => write_hwm f hwm | None => f end.
Proof.
  unfold allocate_vnis_for_project. fold (next_vni db f). intros H. bind_inv. destruct x1 as [m' n].
  simplify_eq/=.
  assert (Hi : alloc_inv (next_vni db f) (m, n)).
  { eapply (for_each_inv (alloc_inv (next_vni db f))); [| |exact H2].
    - intros node s s' _ Hi Hs. by eapply allocate_one_inv.
    - unfold alloc_inv; simpl. split_and!; [done|constructor| |constructor].
      by intros v ?%elem_of_nil. }
  destruct Hi as (Hle & Hn & Hb & Hk). simpl in *. split_and!; try done.
  intros v Hv. specialize (Hb v Hv). lia.
Qed.

Lemma next_vni_above db f :
  (∀ u, u ∈ get_all_used_vnis db → u < next_vni db f) ∧ read_hwm f < next_vni db f.
Proof.
  unfold next_vni. split; [|lia]. intros u Hu.
  destruct (zmax (get_all_used_vnis db)) as [k|] eqn:E; simpl.
  - pose proof (zmax_ge _ _ _ E Hu). lia.
  - apply zmax_None in E. rewrite E in Hu. by apply elem_of_nil in Hu.
Qed.

(** The file after a successful write reads back what was written. *)
Lemma read_write_hwm f v : 0 ≤ v → hwm_writable f = true → read_hwm (write_hwm f v) = v.
Proof.
  intros Hv Hw. unfold write_hwm, read_hwm. rewrite Hw. simpl.
  by rewrite int_of_string_str_of_Z.
Qed.

(** What [place_project] relies on. *)
#[export] Instance vni_allocator :
  Allocator get_all_used_vnis read_hwm VNI_MAX write_hwm allocate_vnis_for_project.
Proof.
  split; intros *.
  - by intros (? & _)%allocate_inv.
  - intros (_ & _ & Hb & _)%allocate_inv Hv. specialize (Hb v Hv).
    destruct (next_vni_above d f) as [Hu Hf]. split; [|lia]. intros Hin%Hu. lia.
  - by intros (_ & _ & _ & ?)%allocate_inv.
Qed.

(** Fresh VNIs: the VNIs allocated to a project are pairwise distinct, one per network,
    greater than every VNI any project uses and than the high-water mark, and never above
    [VNI_MAX]; with a high-water mark the service wrote they are at least [VNI_MIN]. *)
Theorem allocated_vnis_fresh db f topology m f' :
  allocate_vnis_for_project db f topology = Ok (m, f') →
  NoDup m.*2 ∧ NoDup m.*1 ∧
  ∀ v, v ∈ m.*2 → v ∉ get_all_used_vnis db ∧ read_hwm f < v ≤ VNI_MAX ∧
    (VNI_MIN - 1 ≤ read_hwm f → VNI_MIN ≤ v).
Proof.
  intros H. apply allocate_inv in H as Ha.
  destruct Ha as (Hn & Hk & Hb & _). split_and!; try done. intros v Hv.
  destruct (alloc_fresh _ _ _ _ _ _ H Hv) as [Hu Hm]. split_and!; try done || lia.
Qed.

Definition vxlan_sample : val := VDict [("nodes", VList [
  VDict [("id", VStr "n1"); ("type", VStr "networkNode"); ("data", VDict [("subtype", VStr "network")])];
  VDict [("id", VStr "gw"); ("type", VStr "networkNode"); ("data", VDict [("subtype", VStr "gateway")])];
  VDict [("id", VStr "n2"); ("type", VStr "networkNode"); ("data", VDict [("subtype", VStr "network")])]])].

Definition vxlan_sample_db : DB :=
  mkDB [] [mkProject "p0" None None "active" VNone (Some [(VStr "x", 1004)]) None] [] [] [] [].

Lemma allocated_vnis_fresh_witness :
  let f := mkHwm (Some "1002") true in
  let m := [(VStr "n1", 1005); (VStr "n2", 1006)] in
  allocate_vnis_for_project vxlan_sample_db f vxlan_sample = Ok (m, mkHwm (Some "1006") true) ∧
  NoDup m.*2 ∧ NoDup m.*1 ∧
  ∀ v, v ∈ m.*2 → v ∉ get_all_used_vnis vxlan_sample_db ∧ read_hwm f < v ≤ VNI_MAX ∧
    (VNI_MIN - 1 ≤ read_hwm f → VNI_MIN ≤ v).
Proof.
  split; [vm_compute; reflexivity|].
  apply (allocated_vnis_fresh vxlan_sample_db _ vxlan_sample _ (mkHwm (Some "1006") true)).
  vm_compute. reflexivity.
Defined.

(** The high-water mark keeps allocations apart: when the file can be written, a later
    allocation gives only VNIs above all of the earlier one, whatever the database holds by
    then, even if the earlier project was never saved or has been deleted. *)
Theorem successive_allocations_disjoint db1 db2 f t1 t2 m1 m2 f1 f2 :
  hwm_writable f = true → VNI_MIN - 1 ≤ read_hwm f →
  allocate_vnis_for_project db1 f t1 = Ok (m1, f1) →
  allocate_vnis_for_project db2 f1 t2 = Ok (m2, f2) →
  ∀ v1 v2, v1 ∈ m1.*2 → v2 ∈ m2.*2 → v1 < v2.
Proof.
  intros Hw Hf H1 H2 v1 v2 Hv1 Hv2.
  apply allocate_inv in H1 as (_ & _ & Hb1 & ->). apply allocate_inv in H2 as (_ & _ & Hb2 & _).
  destruct (zmax m1.*2) as [h|] eqn:Eh.
  2: { apply zmax_None in Eh. rewrite Eh in Hv1. by apply elem_of_nil in Hv1. }
  pose proof (zmax_ge _ _ _ Eh Hv1). pose proof (Hb1 h (zmax_Some_elem _ _ Eh)) as Hh.
  pose proof (next_vni_above db1 f) as [_ Hn1]. unfold VNI_MIN in Hf.
  specialize (Hb2 v2 Hv2). pose proof (next_vni_above db2 (write_hwm f h)) as [_ Hn2].
  rewrite read_write_hwm in Hn2 by (done || lia). lia.
Qed.

Lemma successive_allocations_disjoint_witness :
  let f := mkHwm None true in
  let m1 := [(VStr "n1", 1005); (VStr "n2", 1006)] in
  let m2 := [(VStr "n1", 1007); (VStr "n2", 1008)] in
  hwm_writable f = true ∧ VNI_MIN - 1 ≤ read_hwm f ∧
  allocate_vnis_for_project vxlan_sample_db f vxlan_sample = Ok (m1, mkHwm (Some "1006") true) ∧
  allocate_vnis_for_project vxlan_sample_db (mkHwm (Some "1006") true) vxlan_sample =
    Ok (m2, mkHwm (Some "1008") true) ∧
  ∀ v1 v2, v1 ∈ m1.*2 → v2 ∈ m2.*2 → v1 < v2.
Proof.
  split; [reflexivity|]. split; [vm_compute; discriminate|].
  split; [vm_compute; reflexivity|]. split; [vm_compute; reflexivity|].
  apply (successive_allocations_disjoint vxlan_sample_db vxlan_sample_db (mkHwm None true)
    vxlan_sample vxlan_sample _ _ (mkHwm (Some "1006") true) (mkHwm (Some "1008") true)).
  - reflexivity.
  - vm_compute; discriminate.
  - vm_compute; reflexivity.
  - vm_compute; reflexivity.
Defined.

(** ** Transit addressing *)

(** The first address of the transit link of the VNIs congruent to [r] modulo 1024: link
    [r mod 4] of the four in 172.30.[r / 4].0/28. *)
Definition transit_base (r : Z) : Z := 172 * 2 ^ 24 + 30 * 2 ^ 16 + 256 * (r / 4) + 4 * (r mod 4).

Lemma transit_subnet_mod vni : transit_subnet vni = transit_subnet (vni mod 1024).
Proof.
  unfold transit_subnet. change 255 with (Z.ones 8). change 3 with (Z.ones 2).
  rewrite !Z.land_ones, !Z.shiftr_div_pow2 by lia. change (2 ^ 8) with 256. change (2 ^ 2) with 4.
  replace ((vni mod 1024) mod 4) with (vni mod 4) by (Z.div_mod_to_equations; lia).
  replace ((vni mod 1024 / 4) mod 256) with ((vni / 4) mod 256); [done|].
  Z.div_mod_to_equations; lia.
Qed.

Definition transit_residue_ok (r : Z) : bool :=
  let t := transit_subnet r in
  bool_decide (ip_int_from_string (t_host_ip t) = Some (transit_base r + 1)) &&
  bool_decide (ip_int_from_string (t_ns_ip t) = Some (transit_base r + 2)) &&
  match ip_network_of_string (t_cidr t) with
  | Some n => (net_addr n =? transit_base r) && (net_prefix n =? 30)
  | None => false
  end.

Lemma transit_residues r : 0 ≤ r < 1024 → transit_residue_ok r = true.
Proof.
  intros Hr. assert (H : forallb transit_residue_ok (zrange 0 1023) = true) by (vm_compute; done).
  rewrite forallb_forall in H. apply H. apply list_elem_of_In, elem_of_zrange. lia.
Qed.

(** The transit link of a VNI is a /30 of 172.30.0.0/16 whose two hosts are the host's and
    the namespace's addresses; two VNIs share a link exactly when they agree modulo 1024. *)
Theorem transit_subnet_spec v1 v2 :
  let t := transit_subnet v1 in
  let n := Net (transit_base (v1 mod 1024)) 30 in
  ip_network_of_string (t_cidr t) = Some n ∧
  (ip_int_from_string (t_host_ip t) = Some (net_addr n + 1) ∧
   ip_int_from_string (t_ns_ip t) = Some (net_addr n + 2) ∧
   hosts n = [net_addr n + 1; net_addr n + 2]) ∧
  (transit_subnet v1 = transit_subnet v2 ↔ v1 mod 1024 = v2 mod 1024).
Proof.
  assert (Hs : ∀ v, let r := v mod 1024 in let t := transit_subnet v in
    ip_int_from_string (t_host_ip t) = Some (transit_base r + 1) ∧
    ip_int_from_string (t_ns_ip t) = Some (transit_base r + 2) ∧
    ip_network_of_string (t_cidr t) = Some (Net (transit_base r) 30)).
  { intros v r t. assert (Hr : 0 ≤ r < 1024) by (apply Z.mod_pos_bound; lia).
    subst t. rewrite transit_subnet_mod. fold r. apply transit_residues in Hr.
    unfold transit_residue_ok in Hr. apply andb_prop in Hr as [Hr Hn].
    apply andb_prop in Hr as [H1%bool_decide_eq_true H2%bool_decide_eq_true].
    destruct (ip_network_of_string _) as [[a p]|]; [|done]. simpl in Hn. bool_lia. subst. done. }
  intros t n. destruct (Hs v1) as (H1 & H2 & H3). split; [done|]. split.
  - split; [done|]. split; [done|]. unfold n, hosts, broadcast; simpl net_prefix; simpl net_addr.
    unfold zrange. change (2 ^ (32 - 30)) with 4. generalize (transit_base (v1 mod 1024)).
    intros a. simpl. replace (a + 4 - 1 - 1 - (a + 1) + 1) with 2 by lia. unfold seqZ; simpl.
    do 2 f_equal; lia.
  - split; [|by intros E; rewrite (transit_subnet_mod v1), (transit_subnet_mod v2), E].
    intros E. destruct (Hs v2) as (_ & _ & H3'). fold t in H3. subst t. rewrite E, H3' in H3. rename H3 into H4.
    injection H4. intros E'.
    pose proof (Z.mod_pos_bound v1 1024 ltac:(lia)). pose proof (Z.mod_pos_bound v2 1024 ltac:(lia)).
    unfold transit_base in E'. Z.div_mod_to_equations. lia.
Qed.

(** ** Infrastructure reservations *)

(** The MAC [bogus_mac_for_ip] derives from an address. *)
Definition mac_of_addr (a : Z) : string :=
  "02:00:" +:+ hex2 (a / 2 ^ 24 mod 256) +:+ ":" +:+ hex2 (a / 2 ^ 16 mod 256) +:+ ":" +:+
  hex2 (a / 2 ^ 8 mod 256) +:+ ":" +:+ hex2 (a mod 256).

Lemma bogus_mac_of_addr a : bogus_mac_for_ip (ip_str a) = Ok (mac_of_addr a).
Proof.
  unfold bogus_mac_for_ip, ip_str, mac_of_addr.
  assert (∀ x, 0 ≤ x mod 256 < 256) by (intros; apply Z.mod_pos_bound; lia).
  rewrite split_dotted by auto using octet_no_dot.
  assert (Hl : ∀ x, Z.land (x mod 256) 255 = x mod 256).
  { intros x. change 255 with (Z.ones 8). rewrite Z.land_ones by lia. apply Z.mod_small. apply H. }
  cbn [map_res]. rewrite !int_of_string_str_of_Z by apply H. simpl. by rewrite !Hl.
Qed.

Lemma mac_of_addr_inj a b :
  0 ≤ a < 2 ^ 32 → 0 ≤ b < 2 ^ 32 → mac_of_addr a = mac_of_addr b → a = b.
Proof.
  intros Ha Hb. unfold mac_of_addr, hex2. intros [= H1 H2 H3 H4 H5 H6 H7 H8].
  assert (Hx : ∀ x, 0 ≤ x mod 256 < 256) by (intros; apply Z.mod_pos_bound; lia).
  assert (Hj : ∀ x y, hex_digit (x mod 256 / 16) = hex_digit (y mod 256 / 16) →
    hex_digit ((x mod 256) mod 16) = hex_digit ((y mod 256) mod 16) → x mod 256 = y mod 256).
  { intros x y E1 E2. apply hex2_inj; [done..|]. unfold hex2. by rewrite E1, E2. }
  pose proof (Hj _ _ H1 H2). pose proof (Hj _ _ H3 H4). pose proof (Hj _ _ H5 H6).
  pose proof (Hj _ _ H7 H8). clear -Ha Hb H H0 H9 H10.
  change (2 ^ 24) with 16777216 in *. change (2 ^ 16) with 65536 in *. change (2 ^ 8) with 256 in *.
  change (2 ^ 32) with 4294967296 in *. Z.div_mod_to_equations. lia.
Qed.

(** The entry [infra_ip_reservations] adds for an offset. *)
Definition infra_entry (net : network) (o : Z * string) : val :=
  let a := net_addr net + o.1 in
  dhcp_host (VStr (mac_of_addr a)) (VStr (ip_str a)) (VStr ("infra-" +:+ o.2)).

Definition infra_free (net : network) (reserved_ips : list val) (o : Z * string) : bool :=
  negb (reserved (ip_str (net_addr net + o.1)) reserved_ips).

Lemma infra_reservation_ok net reserved_ips o out :
  0 ≤ net_addr net + o.1 < 2 ^ 32 →
  infra_reservation net reserved_ips o out =
  Ok (out ++ if infra_free net reserved_ips o then [infra_entry net o] else []).
Proof.
  intros Hr. unfold infra_reservation, infra_free, addr_add, valid_addr.
  replace ((0 <=? net_addr net + o.1) && (net_addr net + o.1 <? 2 ^ 32)) with true by lia.
  cbn [bind]. destruct (reserved _ _); [by rewrite app_nil_r|].
  rewrite bogus_mac_of_addr. done.
Qed.

Lemma foldl_append_filter {A B} (p : A → bool) (f : A → B) l acc :
  foldl (λ out x, out ++ if p x then [f x] else []) acc l = acc ++ map f (List.filter p l).
Proof.
  revert acc; induction l as [|x l IH]; intros acc; simpl; [by rewrite app_nil_r|].
  rewrite IH, <-app_assoc. by destruct (p x).
Qed.

Lemma infra_ip_reservations_eq data cidr net reserved_ips :
  get data "cidr" vstr_empty = Ok cidr → truthy cidr = true → ip_network cidr = Ok net →
  net_addr net + 9 < 2 ^ 32 →
  infra_ip_reservations data reserved_ips =
  Ok (map (infra_entry net) (List.filter (infra_free net reserved_ips) infra_offsets)).
Proof.
  intros Hg Ht Hn Hb. unfold infra_ip_reservations. rewrite Hg. cbn [bind].
  rewrite Ht, Hn. cbn [negb]. etrans; [apply (for_each_foldl (λ out o, out ++ if infra_free net reserved_ips o
    then [infra_entry net o] else []))|by rewrite foldl_append_filter].
  intros o out Ho. apply infra_reservation_ok. apply ip_network_wf in Hn as (_ & ? & _).
  unfold infra_offsets in Ho. set_unfold in Ho. destruct Ho as [->|[->|[->|[->|[]]]]]; simpl; lia.
Qed.

(** Infrastructure reservations: for a network with a valid CIDR every one of the four
    infrastructure addresses that no DHCP host or VIP already holds gets exactly one
    reservation, the others none; the addresses and the generated MACs are pairwise
    distinct, and no reservation repeats an address that is taken. *)
Theorem infra_reservations_exact data cidr net reserved_ips :
  get data "cidr" vstr_empty = Ok cidr → truthy cidr = true → ip_network cidr = Ok net →
  net_addr net + 9 < 2 ^ 32 →
  ∃ addrs, infra_ip_reservations data reserved_ips =
      Ok (map (λ o, infra_entry net o) addrs) ∧
    (∀ o, o ∈ addrs ↔ o ∈ infra_offsets ∧ VStr (ip_str (net_addr net + o.1)) ∉ reserved_ips) ∧
    NoDup (map (λ o, ip_str (net_addr net + o.1)) addrs) ∧
    NoDup (map (λ o, mac_of_addr (net_addr net + o.1)) addrs).
Proof.
  intros Hg Ht Hn Hb. exists (List.filter (infra_free net reserved_ips) infra_offsets).
  split; [by erewrite infra_ip_reservations_eq|].
  apply ip_network_wf in Hn as (_ & Ha & _).
  assert (Hin : ∀ o, o ∈ List.filter (infra_free net reserved_ips) infra_offsets ↔
    o ∈ infra_offsets ∧ VStr (ip_str (net_addr net + o.1)) ∉ reserved_ips).
  { intros o. rewrite list_elem_of_In, filter_In, <-list_elem_of_In. unfold infra_free, reserved.
    rewrite vmem_str, negb_true_iff, bool_decide_eq_false. done. }
  assert (Hr : ∀ o, o ∈ infra_offsets → 0 ≤ net_addr net + o.1 < 2 ^ 32).
  { intros o Ho. unfold infra_offsets in Ho. set_unfold in Ho.
    destruct Ho as [->|[->|[->|[->|[]]]]]; simpl; lia. }
  assert (Hnd : NoDup (List.filter (infra_free net reserved_ips) infra_offsets)).
  { apply NoDup_ListNoDup, List.NoDup_filter, NoDup_ListNoDup. apply (bool_decide_unpack _). vm_compute. done. }
  assert (Hof : ∀ o o', o ∈ infra_offsets → o' ∈ infra_offsets → o.1 = o'.1 → o = o').
  { intros o o' Ho Ho'. unfold infra_offsets in Ho, Ho'. set_unfold.
    destruct Ho as [->|[->|[->|[->|[]]]]], Ho' as [->|[->|[->|[->|[]]]]]; simpl; congruence. }
  split; [done|].
  split; apply NoDup_fmap_2_strong; try done; intros o o' [Ho _]%Hin [Ho' _]%Hin E;
    apply Hof; auto.
  - apply ip_str_inj in E; auto; lia.
  - apply mac_of_addr_inj in E; auto; lia.
Qed.

Definition infra_sample : val := VDict [("cidr", VStr "10.0.0.0/24")].

Lemma infra_reservations_exact_witness :
  let net := Net 167772160 24 in
  infra_ip_reservations infra_sample [VStr "10.0.0.2"; VStr "10.0.0.50"] =
    Ok (map (infra_entry net) [(1, "gateway"); (3, "exec"); (9, "showroom")]) ∧
  ∃ addrs, infra_ip_reservations infra_sample [VStr "10.0.0.2"; VStr "10.0.0.50"] =
      Ok (map (λ o, infra_entry net o) addrs) ∧
    (∀ o, o ∈ addrs ↔ o ∈ infra_offsets ∧
       VStr (ip_str (net_addr net + o.1)) ∉ [VStr "10.0.0.2"; VStr "10.0.0.50"]) ∧
    NoDup (map (λ o, ip_str (net_addr net + o.1)) addrs) ∧
    NoDup (map (λ o, mac_of_addr (net_addr net + o.1)) addrs).
Proof.
  split; [vm_compute; reflexivity|].
  apply (infra_reservations_exact infra_sample (VStr "10.0.0.0/24"));
    [reflexivity|reflexivity|vm_compute; reflexivity|vm_compute; reflexivity].
Defined.
