(* ===== verification/HostNetwork.v ===== *)
(** * Host network configuration: the second half of [vxlan.py]

    Networks, gateway, routers and load balancer of the configuration an agent
    applies ([build_host_network_config]), with the managed showroom forward.
    The iteration order of a Python [set] is unspecified, so the functions that
    iterate one take the order as an argument, [set_iter]. *)
From stdpp Require Import prelude strings.
From Stdlib Require Import Ascii.
From S2P Require Import Prelude PyStr PyVal PyLemmas Ipv4 Db TopoNodes DnsRecords Vxlan.

(** [vni_map.get(node_id)]; a missing or zero VNI is falsy. *)
Definition vni_of (vni_map : vnis) (node_id : val) : res (option Z) :=
  o <- vget node_id vni_map;;
  Ok (match o with Some v => if v =? 0 then None else Some v | None => None end).

Definition kv_get (m : list (string * val)) (k : string) (d : val) : val := default d (assoc k m).

Section SetOrder.
Context (set_iter : list val → list val).

(** [vxlan._build_pxe_config] *)
Definition build_pxe_config (data : val) (pxe_vm_boot_config : list (string * val))
    (pxe_boot_iso_ids : list val) (vni : Z) : res (option val) :=
  enabled <- get data "pxeEnabled" VNone;;
  if negb (truthy enabled) then Ok None
  else
    server_mode <- get data "pxeServerMode" (VStr "builtin");;
    let g k d := kv_get pxe_vm_boot_config k (VStr d) in
    let base :=
      [("method", g "pxeMethod" "legacy"); ("server_mode", server_mode);
       ("next_server", g "pxeNextServer" ""); ("boot_file", g "pxeBootFile" "");
       ("ipxe_script_url", g "ipxeScriptUrl" ""); ("uefi_boot_url", g "uefiBootUrl" "")] in
    Ok (Some (VDict (base ++
      match set_iter pxe_boot_iso_ids with
      | iso_id :: _ =>
          if eq_str server_mode "builtin" then
            [("iso_path", VStr ("/var/lib/troshka/images/" +:+ py_str iso_id +:+ ".iso"));
             ("tftp_root", VStr ("/var/lib/troshka/pxe/" +:+ str_of_Z vni +:+ "/tftpboot"));
             ("http_port", VInt (8080 + vni mod 1000))]
          else []
      | [] => []
      end))).

(** [vxlan._resolved_dns_records_for_network] *)
Definition resolved_dns_records_for_network (net_data : val) (nodes : list val) (vni_map : vnis)
    : res (list val) :=
  workload_ips <- collect_workload_ips nodes;;
  has_showroom <- any_res is_showroom_node nodes;;
  let infra_ip := showroom_infra_ip vni_map in
  let workload_ips :=
    if has_showroom && negb (String.eqb infra_ip "")
    then vinsert (VStr "showroom") (VStr infra_ip) workload_ips else workload_ips in
  recs <- get net_data "dnsRecords" empty_list;;
  recs <- iter recs;;
  for_each recs [] (λ rec out,
    resolved <- resolve_dns_record_entry rec workload_ips;;
    name <- get resolved "name" vstr_empty;;
    ip <- get resolved "ip" vstr_empty;;
    if truthy name && truthy ip
    then Ok (out ++ [VDict [("name", name); ("ip", ip)]]) else Ok out).

(** [vxlan._one_network_config] *)
Definition one_network_config (node : val) (nodes edges : list val) (vni_map : vnis)
    (peer_ips : list val) : res (option val) :=
  data <- data_of node;;
  subtype <- get data "subtype" (VStr "network");;
  if negb (eq_str subtype "network") then Ok None
  else
    node_id <- idx node "id";;
    v <- vni_of vni_map node_id;;
    match v with
    | None => Ok None
    | Some vni =>
        w <- find_connected_workloads node_id nodes edges;;
        name <- get data "name" VNone;;
        cidr <- get data "cidr" VNone;;
        dhcp <- get data "dhcp" (VBool false);;
        dns <- get data "dns" (VBool false);;
        dns_domain <- get data "dnsDomain" vstr_empty;;
        records <- resolved_dns_records_for_network data nodes vni_map;;
        mtu <- get data "mtu" VNone;;
        let net_config := VDict
          [("node_id", node_id); ("name", name); ("cidr", cidr); ("vni", VInt vni);
           ("bridge_name", VStr ("br-" +:+ str_of_Z vni));
           ("vxlan_name", VStr ("vxlan-" +:+ str_of_Z vni));
           ("dhcp_enabled", dhcp); ("dns_enabled", dns); ("dns_domain", dns_domain);
           ("dns_records", VList records); ("connected_vms", VList (w_vms w));
           ("dhcp_hosts", VList (w_dhcp_hosts w)); ("peers", VList peer_ips); ("mtu", mtu)] in
        net_config <- apply_dhcp_reservations net_config data node_id nodes edges;;
        pxe <- build_pxe_config data (w_pxe_config w) (w_pxe_iso_ids w) vni;;
        match pxe with
        | None => Ok (Some net_config)
        | Some p => c <- set_item net_config "pxe_config" p;; Ok (Some c)
        end
    end.

(** [vxlan._build_network_configs] *)
Definition build_network_configs (nodes edges : list val) (vni_map : vnis) (peer_ips : list val)
    : res (list val) :=
  for_each nodes [] (λ node networks,
    t <- has_type node "networkNode";;
    if negb t then Ok networks
    else
      cfg <- one_network_config node nodes edges vni_map peer_ips;;
      match cfg with Some c => Ok (networks ++ [c]) | None => Ok networks end).

(** [vxlan._topology_has_showroom] *)
Definition topology_has_showroom (topology : val) : res bool :=
  ns <- nodes_of topology;; any_res is_showroom_node ns.

(** [vxlan._is_showroom_infra_forward] *)
Definition is_showroom_infra_forward (pf : val) : res bool :=
  int_ip <- get pf "intIp" VNone;;
  int_ip <- as_str (v_or int_ip vstr_empty);;
  let int_ip := strip int_ip in
  ext_port <- get pf "extPort" VNone;;
  int_port <- get pf "intPort" VNone;;
  let ext_port := py_str ext_port in
  let int_port := py_str int_port in
  Ok (String.eqb ext_port "443" && startswith "172.30." int_ip &&
      (endswith ".2" int_ip && String.eqb int_port "443" ||
       endswith ".1" int_ip && String.eqb int_port "443" ||
       endswith ".3" int_ip && String.eqb int_port "80")).

(** The managed forward [vxlan._inject_showroom_port_forward] appends. *)
Definition showroom_forward (first_vni : Z) (route_web : bool) : val :=
  let octet3 := Z.land first_vni 255 in
  VDict [("extPort", VStr "443");
         ("intIp", VStr (transit_ip octet3 (if route_web then 3 else 2)));
         ("intPort", VStr (if route_web then "80" else "443"));
         ("proto", VStr "tcp"); ("extIpId", VStr ""); ("managedByShowroom", VBool true)].

(** [str(pf.get("extPort"))] *)
Definition ext_port_text (pf : val) : res string :=
  p <- get pf "extPort" VNone;; Ok (py_str p).

(** [vxlan._inject_showroom_port_forward] *)
Definition inject_showroom_port_forward (port_forwards : list val) (topology : val)
    (first_vni : option Z) (route_web : bool) : res (list val) :=
  match first_vni with
  | None | Some 0 => Ok port_forwards
  | Some vni =>
      has <- topology_has_showroom topology;;
      if negb has then Ok port_forwards
      else
        out <- filter_res (λ pf, p <- ext_port_text pf;; Ok (negb (String.eqb p "443")))
                 port_forwards;;
        Ok (out ++ [showroom_forward vni route_web])
  end.

(** [vxlan._enrich_gateway_port_forwards]: one entry. *)
Definition enrich_forward (eip_map : list (val * val)) (pf : val) : res val :=
  entry <- copy_dict pf;;
  ref <- get pf "extIpId" vstr_empty;;
  o <- vget ref eip_map;;
  let ext_ip := default empty_dict o in
  priv <- get ext_ip "_private_ip" vstr_empty;;
  entry <- set_item entry "_private_ip" priv;;
  transit_map <- get ext_ip "_transit_port_map" VNone;;
  if negb (truthy transit_map) then Ok entry
  else
    p <- get pf "extPort" vstr_empty;;
    tp <- get transit_map (py_str p) VNone;;
    set_item entry "_transit_port" tp.

(** [vxlan._enrich_gateway_port_forwards] *)
Definition enrich_gateway_port_forwards (raw_forwards : list val) (eip_map : list (val * val))
    : res (list val) :=
  map_res (enrich_forward eip_map) raw_forwards.

(** [vxlan._bind_showroom_private_ip] *)
Definition bind_showroom_private_ip (port_forwards external_ips : list val) : res (list val) :=
  o <- first_some (λ eip,
         p <- get eip "_private_ip" VNone;; Ok (if truthy p then Some p else None)) external_ips;;
  match o with
  | None => Ok port_forwards
  | Some first_priv =>
      map_res (λ pf,
        m <- get pf "managedByShowroom" VNone;;
        if negb (truthy m) then Ok pf
        else
          p <- get pf "_private_ip" VNone;;
          if truthy p then Ok pf else set_item pf "_private_ip" first_priv) port_forwards
  end.

(** [\[eip.get("_private_ip", "") for eip in external_ips if eip.get("_private_ip")\]] *)
Definition eip_private_ips (external_ips : list val) : res (list val) :=
  for_each external_ips [] (λ eip out,
    p <- get eip "_private_ip" VNone;; Ok (if truthy p then out ++ [p] else out)).

(** [vxlan._gateway_config_from_node] *)
Definition gateway_config_from_node (data topology : val) (networks : list val) : res val :=
  external_ips <- get topology "externalIps" empty_list;;
  external_ips <- iter external_ips;;
  eip_map <- nodes_by_id_of external_ips;;
  pfs <- get data "portForwards" empty_list;;
  pfs <- iter pfs;;
  pfs <- enrich_gateway_port_forwards pfs eip_map;;
  first_vni <- (match networks with
                | [] => Ok None
                | n :: _ => v <- idx n "vni";; z <- num v;; Ok (Some z)
                end);;
  pfs <- inject_showroom_port_forward pfs topology first_vni false;;
  pfs <- bind_showroom_private_ip pfs external_ips;;
  name <- get data "name" VNone;;
  mode <- get data "gatewayMode" (VStr "nat");;
  policy <- get data "outboundPolicy" (VStr "allow-all");;
  ports <- get data "outboundPorts" vstr_empty;;
  privs <- eip_private_ips external_ips;;
  Ok (VDict ([("name", name); ("mode", mode); ("outbound_policy", policy);
              ("outbound_ports", ports); ("port_forwards", VList pfs);
              ("eip_private_ips", VList privs)] ++
             match first_vni with
             | None | Some 0 => []
             | Some vni => [("transit_ns_ip", VStr (t_ns_ip (transit_subnet vni)))]
             end)).

(** [vxlan._is_gateway_network_node] *)
Definition is_gateway_network_node (node : val) : res bool :=
  has_type node "networkNode" <&&>
  (d <- data_of node;; st <- get d "subtype" VNone;; Ok (eq_str st "gateway")).

(** [vxlan._build_gateway_config] *)
Definition build_gateway_config (nodes : list val) (topology : val) (networks : list val)
    : res (option val) :=
  o <- find_res is_gateway_network_node nodes;;
  match o with
  | None => Ok None
  | Some node =>
      d <- data_of node;; c <- gateway_config_from_node d topology networks;; Ok (Some c)
  end.

(** [vxlan._build_router_configs] *)
Definition build_router_configs (nodes edges : list val) (vni_map : vnis) : res (list val) :=
  for_each nodes [] (λ node router_configs,
    t <- has_type node "networkNode";;
    d <- data_of node;;
    st <- (if t then get d "subtype" VNone else Ok VNone);;
    if negb (t && eq_str st "router") then Ok router_configs
    else
      node_id <- (match edges with [] => Ok VNone | _ => idx node "id" end);;
      connected <- connected_ids node_id edges;;
      let connected_vnis := omap (λ nid, vlookup nid vni_map) (set_iter connected) in
      name <- get d "name" VNone;;
      routes <- get d "staticRoutes" empty_list;;
      Ok (router_configs ++
          [VDict [("name", name); ("connected_vnis", VList (map VInt connected_vnis));
                  ("static_routes", routes)]])).

(** [vxlan._lb_backend_id_for_node] *)
Definition lb_backend_id_for_node (other_node other_id : val) : res (option val) :=
  vm <- has_type other_node "vmNode";;
  if vm then Ok (Some other_id)
  else
    ctr <- has_type other_node "containerNode";;
    if negb ctr then Ok None
    else
      data <- data_of other_node;;
      s <- get data "isShowroom" VNone;;
      if truthy s then Ok None
      else
        name <- get data "name" VNone;;
        if eq_str name "showroom" then Ok None
        else pod <- get data "isPod" VNone;; Ok (if truthy pod then Some other_id else None).

(** [vxlan._find_connected_lb_backend_ids] *)
Definition find_connected_lb_backend_ids (node_id : val) (nodes edges : list val)
    : res (list val) :=
  nodes_by_id <- nodes_by_id_of nodes;;
  for_each edges [] (λ edge ids,
    o <- edge_peer_id edge node_id;;
    match o with
    | Some other_id =>
        if negb (truthy other_id) then Ok ids
        else
          other <- vget other_id nodes_by_id;;
          match other with
          | Some other_node =>
              if negb (truthy other_node) then Ok ids
              else
                b <- lb_backend_id_for_node other_node other_id;;
                match b with
                | Some i => if truthy i then vadd i ids else Ok ids
                | None => Ok ids
                end
          | None => Ok ids
          end
    | None => Ok ids
    end).

(** [vxlan._build_lb_backends] *)
Definition build_lb_backends (backend_ids nodes : list val) : res (list val) :=
  for_each (set_iter backend_ids) [] (λ node_id backends,
    o <- find_res (λ n, i <- idx n "id";; Ok (py_eq i node_id)) nodes;;
    match o with
    | Some node =>
        if negb (truthy node) then Ok backends
        else
          data <- data_of node;;
          short <- slice8 node_id;;
          name <- get data "name" short;;
          nics <- get data "nics" empty_list;;
          nics <- iter nics;;
          ip <- first_some (λ nic,
                  ip <- get nic "ip" VNone;; Ok (if truthy ip then Some ip else None)) nics;;
          Ok (match ip with
              | Some ip => backends ++ [VDict [("name", name); ("ip", ip)]]
              | None => backends
              end)
    | None => Ok backends
    end).

Definition is_lb_node (node : val) : res bool :=
  has_type node "networkNode" <&&>
  (d <- data_of node;; nt <- get d "networkType" VNone;; Ok (eq_str nt "loadbalancer")).

(** [vxlan._build_lb_config] *)
Definition build_lb_config (nodes edges : list val) : res (option val) :=
  o <- find_res is_lb_node nodes;;
  match o with
  | None => Ok None
  | Some node =>
      data <- data_of node;;
      node_id <- idx node "id";;
      ids <- find_connected_lb_backend_ids node_id nodes edges;;
      backends <- build_lb_backends ids nodes;;
      name <- get data "name" VNone;;
      frontends <- get data "frontends" empty_list;;
      lb_ip <- get data "lbIp" vstr_empty;;
      external <- get data "external" (VBool true);;
      ext_ip_id <- get data "extIpId" vstr_empty;;
      records <- get data "dnsRecords" empty_list;;
      ttl <- get data "dnsTtl" (VInt 30);;
      Ok (Some (VDict [("name", name); ("frontends", frontends); ("lb_ip", lb_ip);
                       ("external", external); ("ext_ip_id", ext_ip_id);
                       ("backends", VList backends); ("dns_records", records);
                       ("dns_ttl", ttl)]))
  end.

Definition opt_val (o : option val) : val := default VNone o.

(** The result of [build_host_network_config]. *)
Record host_network := mkHostNetwork {
  hn_networks : list val;
  hn_gateway : option val;
  hn_routers : list val;
  hn_loadbalancer : option val;
  hn_vni_map : vnis
}.

(** [vxlan.build_host_network_config] *)
Definition build_host_network_config (topology : val) (vni_map : vnis) (peer_ips : list val)
    : res host_network :=
  nodes <- nodes_of topology;;
  edges <- edges_of topology;;
  networks <- build_network_configs nodes edges vni_map peer_ips;;
  gateway <- build_gateway_config nodes topology networks;;
  routers <- build_router_configs nodes edges vni_map;;
  lb <- build_lb_config nodes edges;;
  Ok (mkHostNetwork networks gateway routers lb vni_map).
End SetOrder.

(** ** The managed showroom forward *)


(** The external port of an object, as text. *)
Definition port_text_of (pf : val) : string :=
  match pf with VDict d => py_str (default VNone (assoc "extPort" d)) | _ => "" end.

Definition is_dict (v : val) : bool := match v with VDict _ => true | _ => false end.

Lemma ext_port_text_dict pf : is_dict pf = true → ext_port_text pf = Ok (port_text_of pf).
Proof. by destruct pf. Qed.

Lemma inject_forward_eq pfs topology vni route_web :
  topology_has_showroom topology = Ok true → vni ≠ 0 → (∀ pf, pf ∈ pfs → is_dict pf = true) →
  inject_showroom_port_forward pfs topology (Some vni) route_web =
  Ok (List.filter (λ pf, negb (String.eqb (port_text_of pf) "443")) pfs
      ++ [showroom_forward vni route_web]).
Proof.
  intros Hs Hv Hd. unfold inject_showroom_port_forward. rewrite Hs. cbn [bind negb].
  rewrite (filter_res_ok (λ pf, negb (String.eqb (port_text_of pf) "443"))).
  - by destruct vni.
  - intros pf Hpf. by rewrite ext_port_text_dict by auto.
Qed.

Definition managed_forward_ok (octet3 : Z) : bool :=
  forallb (λ rw, match is_showroom_infra_forward (showroom_forward octet3 rw) with
                 | Ok b => b | Raise _ => false end) [true; false].

Lemma showroom_forward_mod vni rw : showroom_forward vni rw = showroom_forward (vni mod 256) rw.
Proof.
  unfold showroom_forward. change 255 with (Z.ones 8). rewrite !Z.land_ones by lia.
  change (2 ^ 8) with 256. by rewrite Z.mod_mod.
Qed.

Lemma showroom_forward_recognised vni rw :
  is_showroom_infra_forward (showroom_forward vni rw) = Ok true.
Proof.
  rewrite showroom_forward_mod. pose proof (Z.mod_pos_bound vni 256 ltac:(lia)) as Hr.
  revert Hr. generalize (vni mod 256). intros o Hr.
  assert (H : forallb managed_forward_ok (zrange 0 255) = true) by (vm_compute; reflexivity).
  rewrite forallb_forall in H. specialize (H o).
  rewrite <-list_elem_of_In, elem_of_zrange in H. specialize (H ltac:(lia)).
  unfold managed_forward_ok in H. cbn [forallb] in H. apply andb_prop in H as [H1 H].
  apply andb_prop in H as [H2 _].
  destruct rw; [clear H2|clear H1]; by destruct (is_showroom_infra_forward _) as [[]|].
Qed.

(** The managed showroom forward: with a showroom on the canvas, external port 443
    belongs to the one managed entry at the end, which the later strip recognises; every
    other forward is kept, in order; and injecting again, even for another VNI or another
    target, replaces the entry instead of adding one. *)
Theorem showroom_forward_unique pfs topology vni route_web :
  topology_has_showroom topology = Ok true → vni ≠ 0 → (∀ pf, pf ∈ pfs → is_dict pf = true) →
  ∃ kept out, inject_showroom_port_forward pfs topology (Some vni) route_web = Ok out ∧
    out = kept ++ [showroom_forward vni route_web] ∧
    kept `sublist_of` pfs ∧
    (∀ pf, pf ∈ kept ↔ pf ∈ pfs ∧ port_text_of pf ≠ "443") ∧
    is_showroom_infra_forward (showroom_forward vni route_web) = Ok true ∧
    ∀ vni' rw', vni' ≠ 0 →
      inject_showroom_port_forward out topology (Some vni') rw' =
      Ok (kept ++ [showroom_forward vni' rw']).
Proof.
  intros Hs Hv Hd. set (p := λ pf, negb (String.eqb (port_text_of pf) "443")).
  exists (List.filter p pfs), (List.filter p pfs ++ [showroom_forward vni route_web]).
  assert (Hin : ∀ pf, pf ∈ List.filter p pfs ↔ pf ∈ pfs ∧ port_text_of pf ≠ "443").
  { intros pf. rewrite list_elem_of_In, filter_In, <-list_elem_of_In. unfold p.
    by rewrite negb_true_iff, String.eqb_neq. }
  split; [by apply inject_forward_eq|]. split; [done|]. split.
  { apply (filter_res_sublist (λ x, Ok (p x))). by apply filter_res_ok. }
  split; [done|]. split; [apply showroom_forward_recognised|].
  intros vni' rw' Hv'. rewrite inject_forward_eq; try done.
  - do 2 f_equal. fold p. rewrite List.filter_app. simpl. rewrite app_nil_r.
    clear. induction pfs as [|x l IH]; simpl; [done|]. destruct (p x) eqn:E; simpl; [|done].
    by rewrite E, IH.
  - intros pf [Hpf|Hpf]%elem_of_app; [apply Hd; by apply Hin|].
    by apply list_elem_of_singleton in Hpf as ->.
Qed.

Definition showroom_topology : val := VDict [("nodes", VList [
  VDict [("id", VStr "s1"); ("type", VStr "containerNode");
         ("data", VDict [("name", VStr "showroom"); ("isShowroom", VBool true)])]])].

Lemma showroom_forward_unique_witness :
  let pfs := [VDict [("extPort", VStr "443"); ("intIp", VStr "10.0.0.5")];
              VDict [("extPort", VInt 8443); ("intIp", VStr "10.0.0.6")]] in
  inject_showroom_port_forward pfs showroom_topology (Some 1003) false =
    Ok [VDict [("extPort", VInt 8443); ("intIp", VStr "10.0.0.6")]; showroom_forward 1003 false] ∧
  ∃ kept out, inject_showroom_port_forward pfs showroom_topology (Some 1003) false = Ok out ∧
    out = kept ++ [showroom_forward 1003 false] ∧
    kept `sublist_of` pfs ∧
    (∀ pf, pf ∈ kept ↔ pf ∈ pfs ∧ port_text_of pf ≠ "443") ∧
    is_showroom_infra_forward (showroom_forward 1003 false) = Ok true ∧
    ∀ vni' rw', vni' ≠ 0 →
      inject_showroom_port_forward out showroom_topology (Some vni') rw' =
      Ok (kept ++ [showroom_forward vni' rw']).
Proof.
  split; [vm_compute; reflexivity|].
  apply (showroom_forward_unique _ showroom_topology 1003 false);
    [vm_compute; reflexivity|lia|].
  intros pf Hpf. set_unfold in Hpf. destruct Hpf as [->|[->|[]]]; reflexivity.
Defined.
