(* ===== verification/GatewaySync.v ===== *)
(** * The managed showroom forward on the gateway: [deploy_topology.py]

    Deploying a project with a showroom gives its gateway an external address, a
    443 forward to the showroom pod, the outbound ports the pod needs and the
    right gateway mode; removing the showroom takes them away again.  The Python
    code changes the topology in place and returns whether it changed; the
    functions here return that flag with the topology (or the gateway's data)
    afterwards. *)
From stdpp Require Import prelude strings.
From Stdlib Require Import Ascii.
From S2P Require Import Prelude PyStr StrLemmas PyVal PyLemmas TopoNodes Vxlan HostNetwork IpAssign.

(** [list(d.get(k) or \[\])]. *)
Definition list_field (d : val) (k : string) : res (list val) :=
  v <- get d k VNone;; iter (v_or v empty_list).

(** [str(d.get(k) or "")]. *)
Definition str_field (d : val) (k : string) : res string :=
  v <- get d k VNone;; Ok (py_str (v_or v vstr_empty)).

Definition val_ne (a b : list val) : bool := negb (py_eq (VList a) (VList b)).

(** ** Outbound ports *)

Definition SHOWROOM_MANAGED_OUTBOUND_PORTS : list string := ["53"; "443"].

(** [deploy_topology._parse_outbound_port_entries] *)
Definition parse_outbound_port_entries (outbound_ports : string) : list string :=
  List.filter (λ p, negb (String.eqb p "")) (map strip (split "," outbound_ports)).

(** An entry is the port itself or [port/protocol]. *)
Definition entry_is_port (port entry : string) : bool :=
  String.eqb entry port || (contains "/" entry && String.eqb (split_head "/" entry) port).

(** [deploy_topology._outbound_entries_include_port] *)
Definition outbound_entries_include_port (entries : list string) (port : string) : bool :=
  existsb (entry_is_port port) entries.

(** [deploy_topology._gateway_allows_dns_upstream] *)
Definition gateway_allows_dns_upstream (gateway_data : val) : res bool :=
  policy <- get gateway_data "outboundPolicy" (VStr "allow-all");;
  if negb (eq_str policy "restrict") then Ok true
  else
    ports <- str_field gateway_data "outboundPorts";;
    Ok (outbound_entries_include_port (parse_outbound_port_entries ports) "53").

(** [deploy_topology._inject_showroom_outbound_ports]: the ports and what was added. *)
Definition inject_showroom_outbound_ports (outbound_ports : string) : string * list string :=
  let '(entries, added) :=
    foldl (λ '(entries, added) port,
      if outbound_entries_include_port entries port then (entries, added)
      else (entries ++ [port], added ++ [port]))
      (parse_outbound_port_entries outbound_ports, []) SHOWROOM_MANAGED_OUTBOUND_PORTS in
  (join "," entries, added).

(** [deploy_topology._strip_showroom_outbound_ports] *)
Definition strip_showroom_outbound_ports (outbound_ports : string) (managed : list val)
    : res string :=
  match managed with
  | [] => Ok outbound_ports
  | _ =>
      managed_set <- map_res hkey managed;;
      Ok (join "," (List.filter (λ entry,
            negb (vmem (VStr entry) managed_set) &&
            negb (contains "/" entry && vmem (VStr (split_head "/" entry)) managed_set))
          (parse_outbound_port_entries outbound_ports)))
  end.

(** [deploy_topology._ensure_showroom_restrict_outbound] *)
Definition ensure_showroom_restrict_outbound (data : val) : res (bool * val) :=
  policy <- get data "outboundPolicy" VNone;;
  if negb (eq_str policy "restrict") then Ok (false, data)
  else
    ports <- str_field data "outboundPorts";;
    let '(new_ports, added) := inject_showroom_outbound_ports ports in
    match added with
    | [] => Ok (false, data)
    | _ =>
        data <- set_item data "outboundPorts" (VStr new_ports);;
        managed <- list_field data "showroomManagedOutbound";;
        keys <- for_each (managed ++ map VStr added) [] vadd;;
        data <- set_item data "showroomManagedOutbound" (VList keys);;
        Ok (true, data)
    end.

(** ** Removing the managed access *)

(** [deploy_topology._strip_gateway_showroom_forwards:551-559] *)
Definition strip_forwards (data : val) : res (bool * list val * val) :=
  existing <- list_field data "portForwards";;
  stripped <- filter_res (λ pf, b <- is_showroom_infra_forward pf;; Ok (negb b)) existing;;
  if negb (val_ne stripped existing) then Ok (false, existing, data)
  else
    data <- set_item data "portForwards" (VList stripped);;
    mode <- get data "gatewayMode" VNone;;
    data <- (match stripped with
             | [] => if eq_str mode "nat-portforward"
                     then set_item data "gatewayMode" (VStr "nat") else Ok data
             | _ => Ok data
             end);;
    Ok (true, stripped, data).

(** [deploy_topology._strip_gateway_showroom_forwards:561-570] *)
Definition strip_outbound (data : val) : res (bool * val) :=
  policy <- get data "outboundPolicy" VNone;;
  if negb (eq_str policy "restrict") then Ok (false, data)
  else
    managed <- list_field data "showroomManagedOutbound";;
    match managed with
    | [] => Ok (false, data)
    | _ =>
        ports <- str_field data "outboundPorts";;
        new_ports <- strip_showroom_outbound_ports ports managed;;
        data' <- (if String.eqb new_ports ports then Ok data
                  else set_item data "outboundPorts" (VStr new_ports));;
        data' <- pop_item data' "showroomManagedOutbound";;
        Ok (negb (String.eqb new_ports ports), data')
    end.

(** [deploy_topology._strip_gateway_showroom_forwards]: whether it changed, the forwards left
    and the gateway node. *)
Definition strip_gateway_showroom_forwards (gateway : val) : res (bool * list val * val) :=
  '(gateway, data) <- setdefault gateway "data" empty_dict;;
  '(changed, pfs, data) <- strip_forwards data;;
  '(changed', data) <- strip_outbound data;;
  gateway <- set_item gateway "data" data;;
  Ok (changed || changed', pfs, gateway).

(** [deploy_topology._is_user_added_external_ip] *)
Definition is_user_added_external_ip (eip : val) : res bool :=
  a <- get eip "auto" VNone;; Ok (bool_decide (a = VBool false)).

(** [topology.get("externalIps") or \[\]] *)
Definition external_ips_of (topology : val) : res val :=
  e <- get topology "externalIps" VNone;; Ok (v_or e empty_list).

(** [deploy_topology._maybe_strip_unused_auto_external_ip] *)
Definition maybe_strip_unused_auto_external_ip (topology : val) (gateway_pfs : list val)
    : res (bool * val) :=
  ext_ips <- external_ips_of topology;;
  n <- py_len ext_ips;;
  unused <- Ok (n =? 1) <&&>
    (e <- nth_item ext_ips 0;; b <- is_user_added_external_ip e;; Ok (negb b)) <&&>
    (e <- nth_item ext_ips 0;; ip <- get e "ip" VNone;; Ok (negb (truthy ip))) <&&>
    (e <- nth_item ext_ips 0;; name <- get e "name" VNone;; Ok (eq_str name "IP-1")) <&&>
    (used <- any_res (λ pf,
       x <- get pf "extIpId" VNone;;
       e <- nth_item ext_ips 0;; i <- get e "id" VNone;; Ok (py_eq x i)) gateway_pfs;;
     Ok (negb used));;
  if unused then t <- set_item topology "externalIps" empty_list;; Ok (true, t)
  else Ok (false, topology).

(** The gateway node with what is before and after it in the node list. *)
Definition split_gateway (topology : val) : res (option (list val * val * list val)) :=
  ns <- nodes_of topology;; find_split is_gateway_node ns.

(** [deploy_topology.strip_showroom_gateway_access] *)
Definition strip_showroom_gateway_access (topology : val) : res (bool * val) :=
  o <- split_gateway topology;;
  '(changed, pfs, topology) <-
    (match o with
     | Some (pre, gateway, post) =>
         '(changed, pfs, gateway) <- strip_gateway_showroom_forwards gateway;;
         Ok (changed, pfs, update_list topology "nodes" (pre ++ gateway :: post))
     | None => Ok (false, [], topology)
     end);;
  '(changed', topology) <- maybe_strip_unused_auto_external_ip topology pfs;;
  Ok (changed || changed', topology).

(** ** External addresses *)

(** [deploy_topology.ensure_showroom_external_ips]; [fresh_id] is the new uuid. *)
Definition ensure_showroom_external_ips (fresh_id : string) (topology : val) : res (bool * val) :=
  has <- topology_has_showroom topology;;
  if negb has then Ok (false, topology)
  else
    gateway <- find_gateway_node topology;;
    match gateway with
    | None => Ok (false, topology)
    | Some _ =>
        e <- get topology "externalIps" VNone;;
        if truthy e then Ok (false, topology)
        else
          t <- set_item topology "externalIps"
                 (VList [VDict [("id", VStr fresh_id); ("name", VStr "IP-1"); ("ip", VStr "");
                                ("auto", VBool true)]]);;
          Ok (true, t)
    end.

(** [deploy_topology._strip_auto_showroom_external_ip] *)
Definition strip_auto_showroom_external_ip (topology : val) : res (bool * val) :=
  ext <- external_ips_of topology;;
  n <- py_len ext;;
  strip <- Ok (n =? 1) <&&>
    (e <- nth_item ext 0;; b <- is_user_added_external_ip e;; Ok (negb b)) <&&>
    (e <- nth_item ext 0;; name <- get e "name" VNone;; Ok (eq_str name "IP-1")) <&&>
    (e <- nth_item ext 0;; vm <- get e "vmId" VNone;; Ok (negb (truthy vm)));;
  if strip then t <- set_item topology "externalIps" empty_list;; Ok (true, t)
  else Ok (false, topology).

(** [str(pf.get(k)) in (...)]. *)
Definition port_in (pf : val) (k : string) (ports : list string) : res bool :=
  p <- get pf k VNone;; Ok (bool_decide (py_str p ∈ ports)).

(** [deploy_topology._showroom_needs_eip] *)
Definition showroom_needs_eip (gateway : option val) (route_web : bool) : res bool :=
  if negb route_web then Ok true
  else
    pfs <- (match gateway with
            | Some g => d <- data_of g;; get d "portForwards" VNone
            | None => Ok VNone
            end);;
    pfs <- iter (v_or pfs empty_list);;
    any_res (λ pf, b <- port_in pf "extPort" ["443"; "80"];; Ok (negb b)) pfs.

(** ** Merging the managed forward *)

(** [(pf.get("intIp") or "").strip()] *)
Definition int_ip_text (pf : val) : res string :=
  ip <- get pf "intIp" VNone;; s <- as_str (v_or ip vstr_empty);; Ok (strip s).

(** [deploy_topology._is_showroom_managed_forward] *)
Definition is_showroom_managed_forward (pf : val) : res bool :=
  (m <- get pf "managedByShowroom" VNone;; Ok (truthy m)) <||>
  (port_in pf "extPort" ["443"] <&&> port_in pf "intPort" ["80"] <&&>
   (ip <- int_ip_text pf;; Ok (startswith "172.30." ip)) <&&>
   (ip <- int_ip_text pf;; Ok (endswith ".3" ip))).

(** [deploy_topology._filter_non_showroom_web_forwards:702-704] the test of one forward. *)
Definition keeps_forward (pf : val) : res bool :=
  (ip <- get pf "intIp" vstr_empty;; s <- as_str (v_or ip vstr_empty);;
   Ok (is_showroom_infra_ip s)) <||>
  (m <- get pf "managedByShowroom" VNone;; Ok (truthy m)) <||>
  (b <- port_in pf "extPort" ["443"; "80"];; Ok (negb b)).

(** [deploy_topology._filter_non_showroom_web_forwards] *)
Definition filter_non_showroom_web_forwards (merged : list val) : res (list val) :=
  filter_res keeps_forward merged.

(** [deploy_topology._bind_one_forward_eip:714-717] the forwards a Route serves. *)
Definition is_route_forward (pf : val) : res bool :=
  port_in pf "extPort" ["443"; "80"; "6443"] <||>
  (p <- get pf "intPort" VNone;;
   Ok (String.eqb (strip (py_str (v_or p vstr_empty))) "6443")).

(** [deploy_topology._bind_one_forward_eip] *)
Definition bind_one_forward_eip (pf : val) (eip_id : string) (route_web : bool) : res val :=
  entry <- copy_dict pf;;
  m <- is_showroom_managed_forward pf;;
  entry <- (if m then set_item entry "managedByShowroom" (VBool true) else Ok entry);;
  route <- (if route_web then is_route_forward pf else Ok false);;
  if route then pop_item entry "extIpId"
  else if negb (String.eqb eip_id "") then
    x <- get pf "extIpId" VNone;; set_item entry "extIpId" (v_or x (VStr eip_id))
  else Ok entry.

(** [deploy_topology._bind_showroom_forwards_to_eip] *)
Definition bind_showroom_forwards_to_eip (merged : list val) (eip_id : string) (route_web : bool)
    : res (list val) :=
  if negb (negb (String.eqb eip_id "") || route_web) then Ok merged
  else map_res (λ pf, bind_one_forward_eip pf eip_id route_web) merged.

(** [deploy_topology._desired_showroom_gateway_mode] *)
Definition desired_showroom_gateway_mode (merged : list val) : res string :=
  any <- any_res (λ pf,
    (x <- get pf "extIpId" VNone;; Ok (truthy x)) <||>
    (m <- get pf "managedByShowroom" VNone;; Ok (truthy m))) merged;;
  Ok (if any then "nat-portforward" else "nat").

(** [deploy_topology._apply_showroom_gateway_mode] *)
Definition apply_showroom_gateway_mode (data : val) (merged : list val) : res (bool * val) :=
  desired <- desired_showroom_gateway_mode merged;;
  mode <- get data "gatewayMode" VNone;;
  if eq_str mode desired then Ok (false, data)
  else d <- set_item data "gatewayMode" (VStr desired);; Ok (true, d).

(** [min(vni_map.values()) if vni_map else None] *)
Definition min_vni (vni_map : vnis) : option Z :=
  match vni_map with [] => None | (_, v) :: m => Some (foldl Z.min v m.*2) end.

(** [deploy_topology._sync_showroom_gateway_forwards:771-781] the forwards the gateway ends
    with. *)
Definition merge_forwards (existing : list val) (topology : val) (first_vni : option Z)
    (eip_id : string) (route_web : bool) : res (list val) :=
  merged <- inject_showroom_port_forward existing topology first_vni route_web;;
  merged <- filter_non_showroom_web_forwards merged;;
  bind_showroom_forwards_to_eip merged eip_id route_web.

(** [deploy_topology._sync_showroom_gateway_forwards:779-780] *)
Definition first_eip_id (topology : val) : res string :=
  ext_ips <- external_ips_of topology;;
  if negb (truthy ext_ips) then Ok ""
  else e <- nth_item ext_ips 0;; i <- get e "id" vstr_empty;; Ok (py_str i).

(** [deploy_topology._sync_showroom_gateway_forwards] *)
Definition sync_showroom_gateway_forwards (topology gateway : val) (vni_map : vnis)
    (route_web : bool) : res (bool * val) :=
  '(gateway, data) <- setdefault gateway "data" empty_dict;;
  existing <- list_field data "portForwards";;
  eip_id <- first_eip_id topology;;
  merged <- merge_forwards existing topology (min_vni vni_map) eip_id route_web;;
  let changed := val_ne merged existing in
  data <- (if changed then set_item data "portForwards" (VList merged) else Ok data);;
  '(changed1, data) <- apply_showroom_gateway_mode data merged;;
  '(changed2, data) <- ensure_showroom_restrict_outbound data;;
  gateway <- set_item gateway "data" data;;
  Ok (changed || changed1 || changed2, gateway).

Definition ROUTE_PROVIDERS : list string := ["ocpvirt"; "kubevirt"].

(** [deploy_topology.inject_showroom_gateway_port_forwards] *)
Definition inject_showroom_gateway_port_forwards (fresh_id : string) (topology : val)
    (vni_map : vnis) (provider_type : option string) : res (bool * val) :=
  has <- topology_has_showroom topology;;
  if negb has then strip_showroom_gateway_access topology
  else
    gateway <- find_gateway_node topology;;
    let route_web := match provider_type with
                     | Some p => bool_decide (p ∈ ROUTE_PROVIDERS) | None => false end in
    needs <- showroom_needs_eip gateway route_web;;
    '(changed, topology) <- (if needs then ensure_showroom_external_ips fresh_id topology
                             else strip_auto_showroom_external_ip topology);;
    o <- split_gateway topology;;
    match o with
    | None => Ok (changed, topology)
    | Some (pre, gateway, post) =>
        '(changed', gateway) <- sync_showroom_gateway_forwards topology gateway vni_map route_web;;
        Ok (changed || changed', update_list topology "nodes" (pre ++ gateway :: post))
    end.

(** ** Outbound ports: round trip of the managed entries *)

(** An entry as [parse_outbound_port_entries] returns it. *)
Definition clean_entry (e : string) : Prop := e ≠ "" ∧ strip e = e ∧ no_char "," e = true.

Lemma parse_entries_clean s : Forall clean_entry (parse_outbound_port_entries s).
Proof.
  apply Forall_forall. intros e. unfold parse_outbound_port_entries.
  rewrite list_elem_of_In, filter_In, <-list_elem_of_In, negb_true_iff, String.eqb_neq.
  intros [(x & -> & Hx)%list_elem_of_fmap Hne]. split_and!; [done|apply strip_idem|].
  apply split_forallb in Hx. rewrite no_char_forallb in *. by apply str_forallb_strip.
Qed.

Lemma parse_join es : Forall clean_entry es → parse_outbound_port_entries (join "," es) = es.
Proof.
  intros Hes. unfold parse_outbound_port_entries.
  destruct es as [|e es]; [reflexivity|]. rewrite split_join.
  - clear -Hes. induction Hes as [|x l (Hne & Hs & _) _ IH]; simpl; [done|].
    rewrite Hs, IH. apply String.eqb_neq in Hne. by rewrite Hne.
  - done.
  - eapply Forall_impl; [exact Hes|]. by intros x (_ & _ & ?).
Qed.

Lemma managed_ports_clean p : p ∈ SHOWROOM_MANAGED_OUTBOUND_PORTS → clean_entry p.
Proof.
  unfold SHOWROOM_MANAGED_OUTBOUND_PORTS. intros Hp. set_unfold in Hp.
  destruct Hp as [->|[->|[]]]; vm_compute; done.
Qed.

Lemma include_port_app es es' p :
  outbound_entries_include_port (es ++ es') p =
  outbound_entries_include_port es p || outbound_entries_include_port es' p.
Proof. apply existsb_app. Qed.

(** The managed ports missing from some entries. *)
Definition missing_ports (es : list string) : list string :=
  List.filter (λ p, negb (outbound_entries_include_port es p)) SHOWROOM_MANAGED_OUTBOUND_PORTS.

Lemma inject_outbound_eq s :
  inject_showroom_outbound_ports s =
  (join "," (parse_outbound_port_entries s ++ missing_ports (parse_outbound_port_entries s)),
   missing_ports (parse_outbound_port_entries s)).
Proof.
  unfold inject_showroom_outbound_ports, missing_ports, SHOWROOM_MANAGED_OUTBOUND_PORTS.
  generalize (parse_outbound_port_entries s). intros es. simpl.
  destruct (outbound_entries_include_port es "53") eqn:E53; simpl;
    rewrite ?include_port_app; simpl; rewrite ?orb_false_r;
    destruct (outbound_entries_include_port es "443"); simpl; by rewrite ?app_nil_r, <-?app_assoc.
Qed.

Lemma missing_ports_clean es : Forall clean_entry (missing_ports es).
Proof.
  apply Forall_forall. intros p. unfold missing_ports.
  rewrite list_elem_of_In, filter_In, <-list_elem_of_In. intros [? _].
  by apply managed_ports_clean.
Qed.

(** Entries that already cover no managed port survive the strip of those ports. *)
Lemma strip_keeps es ps :
  (∀ p, p ∈ ps → outbound_entries_include_port es p = false) →
  List.filter (λ e, negb (vmem (VStr e) (map VStr ps)) &&
    negb (contains "/" e && vmem (VStr (split_head "/" e)) (map VStr ps))) es = es.
Proof.
  intros Hps. assert (Hm : ∀ x, vmem (VStr x) (map VStr ps) = bool_decide (x ∈ ps)).
  { intros x. rewrite vmem_str. apply bool_decide_ext. rewrite list_elem_of_fmap. naive_solver. }
  assert (He : ∀ e p, e ∈ es → p ∈ ps → entry_is_port p e = false).
  { intros e p He Hp. destruct (entry_is_port p e) eqn:E; [|done].
    rewrite <-(Hps p Hp). symmetry. apply existsb_exists. exists e. by rewrite <-list_elem_of_In. }
  clear Hps. induction es as [|e es IH]; simpl; [done|]. rewrite !Hm.
  rewrite IH by set_solver. rewrite (bool_decide_eq_false_2 (e ∈ ps)).
  2: { intros Hp. specialize (He e e ltac:(left) Hp). unfold entry_is_port in He.
       by rewrite String.eqb_refl in He. }
  simpl. destruct (contains "/" e) eqn:Ec; simpl; [|done].
  rewrite bool_decide_eq_false_2; [done|]. intros Hp.
  specialize (He e _ ltac:(left) Hp). unfold entry_is_port in He.
  by rewrite Ec, String.eqb_refl, orb_true_r in He.
Qed.

Lemma strip_removes ps :
  List.filter (λ e, negb (vmem (VStr e) (map VStr ps)) &&
    negb (contains "/" e && vmem (VStr (split_head "/" e)) (map VStr ps))) ps = [].
Proof.
  assert (∀ l, l ⊆ ps → List.filter (λ e, negb (vmem (VStr e) (map VStr ps)) &&
    negb (contains "/" e && vmem (VStr (split_head "/" e)) (map VStr ps))) l = []) as H.
  { induction l as [|x l IH]; intros Hl; simpl; [done|].
    rewrite vmem_str, bool_decide_eq_true_2; [apply IH; set_solver|].
    apply list_elem_of_fmap. exists x. set_solver. }
  by apply H.
Qed.

(** Outbound ports of a restricted gateway: injecting the showroom's ports keeps every
    entry and appends exactly the managed ports no entry covers; DNS and HTTPS are then both
    allowed, injecting again changes nothing, and stripping what was added gives back the
    entries the user had. *)
Theorem outbound_ports_roundtrip s :
  let es := parse_outbound_port_entries s in
  let '(s', added) := inject_showroom_outbound_ports s in
  parse_outbound_port_entries s' = es ++ added ∧
  (∀ p, p ∈ added ↔ p ∈ SHOWROOM_MANAGED_OUTBOUND_PORTS ∧
                    outbound_entries_include_port es p = false) ∧
  (∀ p, p ∈ SHOWROOM_MANAGED_OUTBOUND_PORTS →
        outbound_entries_include_port (parse_outbound_port_entries s') p = true) ∧
  inject_showroom_outbound_ports s' = (s', []) ∧
  strip_showroom_outbound_ports s' (map VStr added) = Ok (join "," es).
Proof.
  intros es. rewrite inject_outbound_eq. fold es.
  assert (Hp : parse_outbound_port_entries (join "," (es ++ missing_ports es)) = es ++ missing_ports es).
  { apply parse_join, Forall_app. split; [apply parse_entries_clean|apply missing_ports_clean]. }
  assert (Hin : ∀ p, p ∈ missing_ports es ↔ p ∈ SHOWROOM_MANAGED_OUTBOUND_PORTS ∧
                    outbound_entries_include_port es p = false).
  { intros p. unfold missing_ports.
    by rewrite list_elem_of_In, filter_In, <-list_elem_of_In, negb_true_iff. }
  assert (Hall : ∀ p, p ∈ SHOWROOM_MANAGED_OUTBOUND_PORTS →
    outbound_entries_include_port (es ++ missing_ports es) p = true).
  { intros p Hpm. rewrite include_port_app.
    destruct (outbound_entries_include_port es p) eqn:E; [done|]. simpl.
    apply existsb_exists. exists p. rewrite <-list_elem_of_In, Hin.
    split; [done|]. unfold entry_is_port. by rewrite String.eqb_refl. }
  split; [done|]. split; [done|]. rewrite Hp. split; [done|]. split.
  - rewrite inject_outbound_eq, Hp.
    assert (missing_ports (es ++ missing_ports es) = []) as ->; [|by rewrite app_nil_r].
    unfold missing_ports at 1. simpl. rewrite !Hall by (unfold SHOWROOM_MANAGED_OUTBOUND_PORTS; set_solver).
    done.
  - unfold strip_showroom_outbound_ports.
    assert (Hh : ∀ l, map_res hkey (map VStr l) = Ok (map VStr l)).
    { induction l as [|x l IH]; simpl; [done|]. by rewrite IH. }
    destruct (missing_ports es) as [|m ms] eqn:Em; [by rewrite app_nil_r|].
    rewrite <-Em in *. simpl map. 
    destruct (map VStr (missing_ports es)) as [|v vs] eqn:Ev; [by rewrite Em in Ev|].
    rewrite <-Ev, Hh. cbn [bind]. rewrite Hp, List.filter_app, strip_keeps, strip_removes.
    + by rewrite app_nil_r.
    + intros p Hpm. by apply Hin.
Qed.

(** ** The merge of the managed forward is stable *)

(** Any key but the two [bind_one_forward_eip] writes. *)
Definition other_key (k : string) : Prop := k ≠ "managedByShowroom" ∧ k ≠ "extIpId".

(** Two forwards that agree on what the predicates below read, up to the flag. *)
Definition same_forward (a b : val) : Prop :=
  (∀ k d, other_key k → get a k d = get b k d) ∧ is_dict a = true ∧ is_dict b = true.

Ltac other_keys := unfold other_key; split; discriminate.

Lemma same_port_text a b : same_forward a b → ext_port_text a = ext_port_text b.
Proof. intros [H _]. unfold ext_port_text. by rewrite H by other_keys. Qed.

Lemma same_route a b : same_forward a b → is_route_forward a = is_route_forward b.
Proof. intros [H _]. unfold is_route_forward, port_in. by rewrite !H by other_keys. Qed.

(** The flag of an entry, read as the code reads it. *)
Definition managed_flag (a : val) : bool :=
  match a with VDict d => truthy (default VNone (assoc "managedByShowroom" d)) | _ => false end.

Lemma managed_flag_spec a :
  is_dict a = true → (m <- get a "managedByShowroom" VNone;; Ok (truthy m)) = Ok (managed_flag a).
Proof. by destruct a. Qed.

Lemma same_managed a b :
  same_forward a b → managed_flag a = managed_flag b →
  is_showroom_managed_forward a = is_showroom_managed_forward b.
Proof.
  intros (H & Ha & Hb) Hm. unfold is_showroom_managed_forward, port_in, int_ip_text.
  rewrite !managed_flag_spec, Hm by done. by rewrite !H by other_keys.
Qed.

Lemma managed_forward_flag a :
  is_dict a = true → managed_flag a = true → is_showroom_managed_forward a = Ok true.
Proof. intros Ha Hm. unfold is_showroom_managed_forward. by rewrite managed_flag_spec, Hm. Qed.

(** The flag only helps a forward to stay. *)
Lemma same_keeps a b :
  same_forward a b → (managed_flag a = true → managed_flag b = true) →
  keeps_forward a = Ok true → keeps_forward b = Ok true.
Proof.
  intros (H & Ha & Hb) Hm. unfold keeps_forward, port_in.
  rewrite !managed_flag_spec by done. rewrite !H by other_keys.
  destruct (bind (get b "intIp" vstr_empty) _) as [[]|]; simpl; try done.
  destruct (managed_flag a); [by rewrite Hm|]. destruct (managed_flag b); done.
Qed.

(** What binding one forward leaves. *)
Lemma bind_one_inv pf eip rw out :
  bind_one_forward_eip pf eip rw = Ok out →
  same_forward pf out ∧ bind_one_forward_eip out eip rw = Ok out ∧
  (managed_flag pf = true → managed_flag out = true).
Proof.
  intros Hb. pose proof Hb as Hb0. unfold bind_one_forward_eip in Hb. bind_inv.
  destruct pf as [| | | | |d]; try done. simpl in H. injection H as <-.
  rename x0 into m, x2 into route.
  set (d1 := if m then assoc_set "managedByShowroom" (VBool true) d else d).
  assert (x1 = VDict d1) as -> by (unfold d1; destruct m; simpl in H1; congruence). clear H1.
  set (d2 := if route then assoc_del "extIpId" d1
             else if negb (String.eqb eip "") then
               assoc_set "extIpId" (v_or (default VNone (assoc "extIpId" d)) (VStr eip)) d1
             else d1).
  assert (out = VDict d2) as -> by (unfold d2; destruct route; simpl in Hb; [congruence|];
    destruct (negb _); simpl in Hb; congruence). clear Hb.
  assert (Hg1 : ∀ k, k ≠ "managedByShowroom" → assoc k d1 = assoc k d).
  { intros k Hk. unfold d1. destruct m; [by apply assoc_set_ne|done]. }
  assert (Hg2 : ∀ k, k ≠ "extIpId" → assoc k d2 = assoc k d1).
  { intros k Hk. unfold d2. destruct route; [by apply assoc_del_ne|].
    destruct (negb _); [by apply assoc_set_ne|done]. }
  assert (Hs : same_forward (VDict d) (VDict d2)).
  { split; [|done]. intros k dflt [Hk1 Hk2]. simpl. by rewrite Hg2, Hg1. }
  assert (Hmf : managed_flag (VDict d2) = if m then true else managed_flag (VDict d)).
  { simpl. rewrite Hg2 by done. unfold d1. destruct m; [by rewrite assoc_set_eq|done]. }
  assert (Hmm : is_showroom_managed_forward (VDict d2) = Ok m).
  { destruct m; [by apply managed_forward_flag|]. by rewrite <-(same_managed (VDict d)). }
  split; [done|]. split.
  2: { intros Hf. rewrite Hmf. by destruct m. }
  unfold bind_one_forward_eip. rewrite Hmm, <-(same_route _ _ Hs), H2. simpl.
  assert (Hset : (if m then Ok (VDict (assoc_set "managedByShowroom" (VBool true) d2))
                  else Ok (VDict d2)) = Ok (VDict d2)).
  { destruct m; [|done]. rewrite assoc_set_id; [done|]. rewrite Hg2 by done.
    unfold d1. apply assoc_set_eq. }
  rewrite Hset. simpl. unfold d2. destruct route; simpl.
  - rewrite (assoc_del_id _ (assoc_del _ _)) by apply assoc_del_eq. done.
  - destruct (negb (String.eqb eip "")) eqn:E; simpl; [|done].
    rewrite assoc_set_eq, assoc_set_set. simpl. do 3 f_equal.
    unfold v_or. destruct (truthy (default _ _)) eqn:Et; [by rewrite Et|].
    case_bools; done.
Qed.

(** The forwards bound one by one. *)
Definition bind_forward (eip : string) (rw : bool) (pf : val) : res val :=
  if negb (negb (String.eqb eip "") || rw) then Ok pf else bind_one_forward_eip pf eip rw.

Lemma bind_forwards_eq l eip rw :
  bind_showroom_forwards_to_eip l eip rw = map_res (bind_forward eip rw) l.
Proof.
  unfold bind_showroom_forwards_to_eip, bind_forward. destruct (negb _); [|done].
  symmetry. apply Forall2_map_res. induction l; by constructor.
Qed.

Lemma bind_forward_inv pf eip rw out :
  is_dict pf = true → bind_forward eip rw pf = Ok out →
  same_forward pf out ∧ bind_forward eip rw out = Ok out ∧
  (managed_flag pf = true → managed_flag out = true).
Proof.
  unfold bind_forward. destruct (negb _); [intros Hd [= <-]; by split_and!|].
  intros _. apply bind_one_inv.
Qed.

Lemma keeps_forward_dict pf : is_Ok (keeps_forward pf) → is_dict pf = true.
Proof. intros [b Hb]. by destruct pf. Qed.

(** Binding kept forwards leaves kept forwards, and binding them again nothing to do. *)
Lemma bind_forwards_kept l eip rw ms :
  Forall (λ pf, keeps_forward pf = Ok true) l → map_res (bind_forward eip rw) l = Ok ms →
  Forall2 (λ pf m, ext_port_text pf = ext_port_text m) l ms ∧
  Forall (λ m, keeps_forward m = Ok true) ms ∧ map_res (bind_forward eip rw) ms = Ok ms.
Proof.
  intros Hk Hm%map_res_Forall2.
  assert (H : Forall2 (λ pf m, ext_port_text pf = ext_port_text m ∧ keeps_forward m = Ok true ∧
    bind_forward eip rw m = Ok m) l ms).
  { induction Hm as [|pf m l ms Hb _ IH]; constructor; inversion Hk as [|? ? H1 H2]; subst; auto.
    destruct (bind_forward_inv pf eip rw m) as (Hs & Hi & Hf); [|done|].
    - apply keeps_forward_dict. rewrite H1. apply Ok_is_Ok.
    - split_and!; [by apply same_port_text|by eapply same_keeps|done]. }
  split; [eapply Forall2_impl; [exact H|]; by intros ? ? (? & _)|]. split.
  - apply (Forall2_Forall_r _ _ _ _ H). apply Forall_true. by intros x y (_ & ? & _).
  - apply Forall2_map_res. clear -H. induction H as [|? ? ? ? (_ & _ & ?)]; by constructor.
Qed.

(** What injection leaves: everything, or the other ports and the managed forward. *)
Lemma inject_forward_inv pfs topology vni rw out :
  inject_showroom_port_forward pfs topology vni rw = Ok out →
  (∀ l, inject_showroom_port_forward l topology vni rw = Ok l) ∨
  ∃ kept v, out = kept ++ [showroom_forward v rw] ∧
    Forall (λ pf, ∃ p, ext_port_text pf = Ok p ∧ p ≠ "443") kept ∧
    ∀ l, inject_showroom_port_forward l topology vni rw =
      bind (filter_res (λ pf, p <- ext_port_text pf;; Ok (negb (String.eqb p "443"))) l)
           (λ k, Ok (k ++ [showroom_forward v rw])).
Proof.
  unfold inject_showroom_port_forward. destruct vni as [v|]; [|by left].
  destruct (decide (v = 0)) as [->|Hv]; [by left|].
  destruct (topology_has_showroom topology) as [[]|]; [| |by destruct v].
  2: { left. by destruct v. }
  intros H. right. assert (Ha : bind (filter_res (λ pf, p <- ext_port_text pf;;
    Ok (negb (String.eqb p "443"))) pfs) (λ k, Ok (k ++ [showroom_forward v rw])) = Ok out)
    by (destruct v; done). clear H. bind_inv. exists x, v. split; [done|].
  split; [|intros l; by destruct v]. apply Forall_forall. intros pf Hpf.
  apply (elem_of_filter_res _ _ _ _ H) in Hpf as [_ Hp]. bind_inv.
  exists x0. split; [done|]. by apply negb_true_iff, String.eqb_neq in Hp.
Qed.

(** Synchronising the gateway's forwards is stable: the forwards the merge leaves merge to
    themselves, so a second deployment of the same topology leaves the list as it is. *)
Theorem merge_forwards_idempotent existing topology vni eip rw merged :
  merge_forwards existing topology vni eip rw = Ok merged →
  merge_forwards merged topology vni eip rw = Ok merged.
Proof.
  intros H. unfold merge_forwards in *. bind_inv.
  rename x into inj, x0 into kept. rewrite bind_forwards_eq in H. unfold filter_non_showroom_web_forwards in *.
  assert (Hk : Forall (λ pf, keeps_forward pf = Ok true) kept).
  { apply Forall_forall. intros pf Hpf. by apply (elem_of_filter_res _ _ _ _ H1) in Hpf as [_ ?]. }
  destruct (bind_forwards_kept _ _ _ _ Hk H) as (Ht & Hm & Hb).
  destruct (inject_forward_inv _ _ _ _ _ H0) as [Hid|(ks & v & -> & Hks & Hinj)].
  { rewrite Hid. cbn [bind]. rewrite filter_res_all by (by apply Forall_forall).
    cbn [bind]. by rewrite bind_forwards_eq. }
  assert (Hsf : keeps_forward (showroom_forward v rw) = Ok true).
  { unfold keeps_forward. simpl. by destruct (is_showroom_infra_ip _). }
  destruct (filter_res keeps_forward ks) as [ks'|e] eqn:Ek.
  2: { by rewrite (filter_res_app_raise _ _ _ e) in H1. }
  rewrite (filter_res_app _ ks [showroom_forward v rw] ks' [showroom_forward v rw]) in H1
    by (done || by apply filter_res_all; intros ? Hx; apply list_elem_of_singleton in Hx as ->).
  injection H1 as <-. apply Forall2_app_inv_l in Ht as (ms & bs & Ht1 & Ht2 & ->).
  apply Forall2_cons_inv_l in Ht2 as (b & ? & Ht2 & ->%Forall2_nil_inv_l & ->).
  rewrite Hinj, (filter_res_app _ ms [b] ms []); cbn [bind].
  - rewrite app_nil_r. apply Forall_app in Hm as [Hm _]. rewrite filter_res_all.
    2: { intros x Hx. apply elem_of_app in Hx as [Hx|Hx];
           [by eapply Forall_forall in Hm|by apply list_elem_of_singleton in Hx as ->]. }
    cbn [bind]. rewrite bind_forwards_eq. apply Forall2_map_res.
    apply map_res_Forall2 in Hb. apply map_res_Forall2 in H.
    apply Forall2_app_inv in H as [_ H]; [|by apply Forall2_length in Ht1].
    apply Forall2_app_inv in Hb as [Hb _]; [|done]. by apply Forall2_app.
  - apply filter_res_all. intros m [i Hi]%list_elem_of_lookup.
    destruct (Forall2_lookup_r _ _ _ _ _ Ht1 Hi) as (k & Hki & <-).
    apply list_elem_of_lookup_2, (elem_of_filter_res _ _ _ _ Ek) in Hki as [Hki _].
    eapply Forall_forall in Hks as (p & -> & Hp%String.eqb_neq); [|exact Hki]. simpl. by rewrite Hp.
  - simpl. rewrite <-Ht2. done.
Qed.

Definition forwards_sample : list val :=
  [VDict [("extPort", VStr "443"); ("intIp", VStr "10.0.0.5"); ("intPort", VStr "443")];
   VDict [("extPort", VStr "80"); ("intIp", VStr "10.0.0.5"); ("intPort", VStr "80")];
   VDict [("extPort", VStr "2222"); ("intIp", VStr "10.0.0.5"); ("intPort", VStr "22")]].

Definition merged_sample : list val :=
  [VDict [("extPort", VStr "2222"); ("intIp", VStr "10.0.0.5"); ("intPort", VStr "22");
          ("extIpId", VStr "e1")];
   VDict [("extPort", VStr "443"); ("intIp", VStr "172.30.235.3"); ("intPort", VStr "80");
          ("proto", VStr "tcp"); ("managedByShowroom", VBool true)]].

Lemma merge_forwards_idempotent_witness :
  merge_forwards forwards_sample showroom_topology (Some 1003) "e1" true = Ok merged_sample ∧
  merge_forwards merged_sample showroom_topology (Some 1003) "e1" true = Ok merged_sample.
Proof.
  split; [vm_compute; reflexivity|].
  apply (merge_forwards_idempotent forwards_sample). vm_compute. reflexivity.
Defined.

(** ** Removing the managed forwards *)

Lemma py_eq_list_length l1 l2 : py_eq (VList l1) (VList l2) = true → length l1 = length l2.
Proof.
  cbn. revert l2. induction l1 as [|x l1 IH]; intros [|y l2]; try done.
  intros [_ H]%andb_prop. cbn. f_equal. by apply IH.
Qed.

Lemma list_field_set d k l : list_field (VDict (assoc_set k (VList l) d)) k = Ok l.
Proof. unfold list_field. cbn. rewrite assoc_set_eq. cbn. by destruct l. Qed.

Lemma list_field_other d k k' v : k ≠ k' → list_field (VDict (assoc_set k v d)) k' = list_field (VDict d) k'.
Proof. intros Hne. unfold list_field. cbn. by rewrite assoc_set_ne. Qed.

(** Removing a showroom removes its access: the forwards left on the gateway are exactly
    the ones that do not lead to the showroom, in order, the returned list is what the gateway
    then holds, the change flag is set exactly when one was removed, and a gateway left
    without forwards stops forwarding. *)
Theorem strip_forwards_complete data existing changed pfs data' :
  list_field data "portForwards" = Ok existing →
  strip_forwards data = Ok (changed, pfs, data') →
  list_field data' "portForwards" = Ok pfs ∧ pfs `sublist_of` existing ∧
  (∀ pf, pf ∈ pfs ↔ pf ∈ existing ∧ is_showroom_infra_forward pf = Ok false) ∧
  (changed = false → pfs = existing ∧ data' = data) ∧
  (changed = true → pfs = [] → get data "gatewayMode" VNone = Ok (VStr "nat-portforward") →
     get data' "gatewayMode" VNone = Ok (VStr "nat")).
Proof.
  intros Hex H. unfold strip_forwards in H. rewrite Hex in H. cbn [bind] in H.
  apply bind_Ok in H as (stripped & Hs & H). pose proof (filter_res_sublist _ _ _ Hs) as Hsub.
  assert (Hin : ∀ pf, pf ∈ stripped ↔ pf ∈ existing ∧ is_showroom_infra_forward pf = Ok false).
  { intros pf. rewrite (elem_of_filter_res _ _ _ _ Hs).
    destruct (is_showroom_infra_forward pf) as [[]|]; cbn; naive_solver. }
  destruct (val_ne stripped existing) eqn:Ev; cbn [negb] in H.
  - destruct data as [| | | | |d]; try done. cbn [set_item get bind] in H.
    set (mode := default VNone (assoc "gatewayMode" (assoc_set "portForwards" (VList stripped) d))) in H.
    assert (Hmode : mode = default VNone (assoc "gatewayMode" d)) by (unfold mode; by rewrite assoc_set_ne).
    destruct stripped as [|pf rest]; [destruct (eq_str mode "nat-portforward") eqn:Em|];
      cbn [bind set_item] in H; injection H as <- <- <-.
    + split; [by rewrite list_field_other, list_field_set|]. split_and!; try done.
      intros _ _ _. cbn. by rewrite assoc_set_eq.
    + split; [by rewrite list_field_set|]. split_and!; try done.
      intros _ _ [= Hm]. rewrite Hmode, Hm in Em. done.
    + split; [by rewrite list_field_set|]. by split_and!.
  - injection H as <- <- <-.
    assert (stripped = existing) as ->.
    { unfold val_ne in Ev. apply negb_false_iff, py_eq_list_length in Ev.
      by apply sublist_length_eq. }
    by split_and!.
Qed.

Definition strip_sample : val := VDict
  [("gatewayMode", VStr "nat-portforward");
   ("portForwards", VList [showroom_forward 1003 true])].

Lemma strip_forwards_complete_witness :
  let data' := VDict [("gatewayMode", VStr "nat"); ("portForwards", VList [])] in
  strip_forwards strip_sample = Ok (true, [], data') ∧
  list_field data' "portForwards" = Ok [] ∧ [] `sublist_of` [showroom_forward 1003 true] ∧
  (∀ pf, pf ∈ [] ↔ pf ∈ [showroom_forward 1003 true] ∧ is_showroom_infra_forward pf = Ok false) ∧
  (true = false → [] = [showroom_forward 1003 true] ∧ data' = strip_sample) ∧
  (true = true → @nil val = [] → get strip_sample "gatewayMode" VNone = Ok (VStr "nat-portforward") →
     get data' "gatewayMode" VNone = Ok (VStr "nat")).
Proof.
  split; [vm_compute; reflexivity|].
  apply (strip_forwards_complete strip_sample); vm_compute; reflexivity.
Defined.
