(* ===== verification/DhcpRange.v ===== *)
(** * The two DHCP range computations

    [deploy_topology._get_dhcp_range] (where container addresses are taken from) repeats
    [vxlan._build_dhcp_config] (what dnsmasq serves).  They agree on every network with more
    than ten hosts; below that the first one derives no range. *)
From stdpp Require Import prelude strings.
From S2P Require Import Prelude PyStr PyVal PyLemmas Ipv4 TopoNodes Vxlan IpAssign.

Lemma host_at_nth hs i :
  0 ≤ i < Z.of_nat (length hs) → host_at hs i = Ok (nth (Z.to_nat i) hs 0).
Proof.
  intros Hi. unfold host_at. replace (i <? 0) with false by (symmetry; apply Z.ltb_ge; lia).
  replace (0 <=? i) with true by (symmetry; apply Z.leb_le; lia).
  destruct (nth_lookup_or_length hs (Z.to_nat i) 0) as [->|?]; [done|lia].
Qed.

Lemma host_at_last hs :
  0 < Z.of_nat (length hs) →
  host_at hs (-1) = Ok (nth (Z.to_nat (Z.of_nat (length hs) - 1)) hs 0).
Proof.
  intros Hl. rewrite <-host_at_nth by lia. unfold host_at. simpl (-1 <? 0).
  replace (Z.of_nat (length hs) - 1 <? 0) with false by (symmetry; apply Z.ltb_ge; lia).
  by replace (Z.of_nat (length hs) + -1) with (Z.of_nat (length hs) - 1) by lia.
Qed.

(** The range both computations take from a network with enough hosts. *)
Definition default_range (net : network) : val * val :=
  let hs := hosts net in
  (VStr (ip_str (nth 9 hs 0)), VStr (ip_str (nth (Z.to_nat (Z.of_nat (length hs) - 1)) hs 0))).

Lemma fill_dhcp_large cidr net s e g :
  ip_network cidr = Ok net → 10 < Z.of_nat (length (hosts net)) →
  ∃ g', fill_dhcp_from_cidr cidr s e g =
    Ok (v_or s (default_range net).1, v_or e (default_range net).2, g').
Proof.
  intros Hn Hl. unfold fill_dhcp_from_cidr. rewrite Hn. cbn zeta. unfold default_range. cbn [fst snd].
  rewrite (Z.min_l 9) by lia. rewrite (host_at_nth _ 0), (host_at_nth _ 9), host_at_last by lia. unfold v_or.
  destruct (truthy g), (truthy s), (truthy e); by eexists.
Qed.

Lemma compute_bounds_large cidr net s e :
  truthy cidr = true → ip_network cidr = Ok net → 10 < Z.of_nat (length (hosts net)) →
  compute_dhcp_bounds cidr s e = Ok (v_or s (default_range net).1, v_or e (default_range net).2).
Proof.
  intros Ht Hn Hl. unfold compute_dhcp_bounds. rewrite Ht, Hn. cbn [negb]. cbn zeta.
  replace (10 <? _) with true by (symmetry; by apply Z.ltb_lt).
  rewrite (Z.min_l 9) by lia. done.
Qed.

(** Container addresses come from the range dnsmasq serves: on a network with more than ten
    hosts the two computations of the DHCP range give the same bounds, both present, whatever
    the canvas sets by hand. *)
Theorem dhcp_ranges_agree data cidr net cfg :
  get data "cidr" vstr_empty = Ok cidr → truthy cidr = true → ip_network cidr = Ok net →
  10 < Z.of_nat (length (hosts net)) → build_dhcp_config data = Ok cfg →
  ∃ s e, idx cfg "range_start" = Ok s ∧ idx cfg "range_end" = Ok e ∧
    truthy s = true ∧ truthy e = true ∧
    get_dhcp_range data =
      except_value_error (a <- ip_address s;; b <- ip_address e;; Ok (Some (a, b))) (Ok None).
Proof.
  intros Hc Ht Hn Hl H. destruct data as [| | | | |d]; try done.
  unfold build_dhcp_config in H. rewrite Hc in H. cbn [get bind] in H.
  set (s0 := default vstr_empty (assoc "dhcpRangeStart" d)) in *.
  set (e0 := default vstr_empty (assoc "dhcpRangeEnd" d)) in *.
  set (g0 := default vstr_empty (assoc "dhcpGateway" d)) in *.
  set (s := v_or s0 (default_range net).1). set (e := v_or e0 (default_range net).2).
  assert (Hse : truthy s = true ∧ truthy e = true).
  { unfold s, e, v_or. split; [destruct (truthy s0) eqn:E|destruct (truthy e0) eqn:E];
      try done; unfold default_range; cbn [fst snd]; by apply ip_str_truthy. }
  destruct Hse as [Hs He]. exists s, e.
  destruct (fill_dhcp_large cidr net s0 e0 g0 Hn Hl) as [g' Hf].
  assert (Hcfg : idx cfg "range_start" = Ok s ∧ idx cfg "range_end" = Ok e).
  { rewrite Ht, Hf in H. cbn [andb] in H.
    destruct (negb (truthy s0) || negb (truthy e0) || negb (truthy g0)) eqn:E;
      cbn [bind] in H; injection H as <-; [done|].
    apply orb_false_elim in E as [[Es Ee]%orb_false_elim _].
    apply negb_false_iff in Es, Ee. unfold s, e, v_or. by rewrite Es, Ee. }
  destruct Hcfg as [-> ->]. split_and!; try done.
  unfold get_dhcp_range. rewrite Hc. cbn [get bind]. fold s0 e0.
  destruct (negb (truthy s0) || negb (truthy e0)) eqn:E.
  - rewrite (compute_bounds_large _ net) by done. cbn [bind]. fold s e. by rewrite Hs, He.
  - apply orb_false_elim in E as [Es Ee]. apply negb_false_iff in Es, Ee. cbn [bind].
    rewrite Es, Ee. unfold s, e, v_or. by rewrite Es, Ee.
Qed.

Definition dhcp_sample : val :=
  VDict [("cidr", VStr "10.0.0.0/28"); ("dhcpRangeEnd", VStr "10.0.0.12")].

Lemma dhcp_ranges_agree_witness :
  get_dhcp_range dhcp_sample = Ok (Some (167772170, 167772172)) ∧
  ∃ cfg, build_dhcp_config dhcp_sample = Ok cfg ∧
  ∃ s e, idx cfg "range_start" = Ok s ∧ idx cfg "range_end" = Ok e ∧
    truthy s = true ∧ truthy e = true ∧
    get_dhcp_range dhcp_sample =
      except_value_error (a <- ip_address s;; b <- ip_address e;; Ok (Some (a, b))) (Ok None).
Proof.
  split; [vm_compute; reflexivity|]. eexists. split; [vm_compute; reflexivity|].
  apply (dhcp_ranges_agree dhcp_sample (VStr "10.0.0.0/28") (Net 167772160 28));
    vm_compute; reflexivity.
Defined.

(** Below eleven hosts only dnsmasq's range exists: a /29 has one, and containers on it get no
    address. *)
Lemma small_network_ranges_differ :
  let data := VDict [("cidr", VStr "10.0.0.0/29")] in
  get_dhcp_range data = Ok None ∧
  ∃ cfg, build_dhcp_config data = Ok cfg ∧
    idx cfg "range_start" = Ok (VStr "10.0.0.5") ∧ idx cfg "range_end" = Ok (VStr "10.0.0.6").
Proof. split; [vm_compute; reflexivity|]. eexists. split; vm_compute; [reflexivity|done]. Qed.
