(* ===== verification/EgressRank.v ===== *)
(** * Gateway-connected networks: [deploy_topology.py]

    Which lab networks reach the gateway, the ranking of a cluster's egress
    networks, the DNS network of a showroom and the showroom's validation.  A
    Python set is a list without repetition; the one function that iterates a set
    takes its order as an argument, [set_iter]. *)
From stdpp Require Import prelude strings.
From Stdlib Require Import Ascii.
From S2P Require Import Prelude PyStr PyVal PyLemmas Ipv4 TopoNodes TopologyValidate GatewaySync.

(** [(d.get(k) or {})] *)
Definition dict_field (d : val) (k : string) : res val :=
  v <- get d k VNone;; Ok (v_or v empty_dict).

(** A test of an optional node: [None] and an empty node fail it. *)
Definition node_is (test : val → res bool) (o : option val) : res bool :=
  match o with None => Ok false | Some n => test n end.

(** [deploy_topology._peer_lab_network_on_gateway_edge] *)
Definition peer_lab_network_on_gateway_edge (edge gateway_id : val) (nodes_by_id : list (val * val))
    : res (option val) :=
  src <- get edge "source" vstr_empty;;
  tgt <- get edge "target" vstr_empty;;
  peer <- (if py_eq src gateway_id then vget tgt nodes_by_id
           else if py_eq tgt gateway_id then vget src nodes_by_id
           else Ok None);;
  b <- node_is is_plain_network peer;;
  Ok (if b then peer else None).

(** [deploy_topology._topology_nodes_by_id] *)
Definition topology_nodes_by_id (topology : val) : res (list (val * val)) :=
  ns <- nodes_of topology;;
  for_each ns [] (λ node m,
    i <- get node "id" VNone;;
    nid <- (if truthy i then Ok i else d <- dict_field node "data";; get d "id" VNone);;
    if truthy nid then vset (VStr (py_str nid)) node m else Ok m).

(** [deploy_topology.gateway_connected_network_ids] *)
Definition gateway_connected_network_ids (topology : val) : res (list val) :=
  gateway <- find_gateway_node topology;;
  match gateway with
  | None => Ok []
  | Some g =>
      nodes_by_id <- topology_nodes_by_id topology;;
      gateway_id <- idx g "id";;
      es <- edges_of topology;;
      for_each es [] (λ edge connected,
        peer <- peer_lab_network_on_gateway_edge edge gateway_id nodes_by_id;;
        match peer with
        | Some p => i <- idx p "id";; vadd i connected
        | None => Ok connected
        end)
  end.

(** [deploy_topology._is_network_gateway_connected] *)
Definition is_network_gateway_connected (topology network_id : val) : res bool :=
  ids <- gateway_connected_network_ids topology;; vin network_id ids.

(** ** Ranking a cluster's egress networks *)

(** [deploy_topology._is_post_install_auxiliary_network] *)
Definition is_post_install_auxiliary_network (node : val) : res bool :=
  if negb (truthy node) then Ok false
  else
    t <- has_type node "networkNode";;
    if negb t then Ok false
    else
      data <- dict_field node "data";;
      nt <- get data "networkType" VNone;;
      if eq_str nt "migration" then Ok true
      else name <- str_field data "name";; Ok (String.eqb (lower name) "migration").

(** [deploy_topology._eligible_egress_network_node] *)
Definition eligible_egress_network_node (nodes_by_id : list (val * val)) (net_id : val)
    : res (option val) :=
  o <- vget net_id nodes_by_id;;
  match o with
  | None => Ok None
  | Some node =>
      if negb (truthy node) then Ok None
      else
        aux <- is_post_install_auxiliary_network node;;
        if aux then Ok None
        else plain <- is_plain_network node;; Ok (if plain then Some node else None)
  end.

(** [deploy_topology._is_control_plane_vm] *)
Definition is_control_plane_vm (data cluster_id : val) : res bool :=
  c <- get data "clusterId" VNone;;
  if negb (py_eq c cluster_id) then Ok false
  else
    role <- get data "clusterRole" VNone;;
    if eq_str role "control-plane" then Ok true
    else
      tags <- dict_field data "tags";;
      g <- get tags "AnsibleGroup" VNone;;
      Ok (eq_str g "controllers").

(** [deploy_topology._find_control_plane_vm] *)
Definition find_control_plane_vm (cluster_id topology : val) : res (option val) :=
  ns <- nodes_of topology;;
  find_res (λ node,
    t <- has_type node "vmNode";;
    if negb t then Ok false
    else d <- dict_field node "data";; is_control_plane_vm d cluster_id) ns.

(** [deploy_topology._cp_primary_ip] *)
Definition cp_primary_ip (cp_node : val) : res string :=
  d <- dict_field cp_node "data";;
  nics <- get d "nics" VNone;;
  if negb (truthy nics) then Ok ""
  else
    nic <- nth_item nics 0;;
    ip <- str_field (v_or nic empty_dict) "ip";;
    Ok (strip ip).

Section SetOrder.
Context (set_iter : list val → list val).

(** [deploy_topology._network_containing_ip] *)
Definition network_containing_ip (gw_ids : list val) (nodes_by_id : list (val * val)) (addr : Z)
    : res (option val) :=
  first_some (λ net_id,
    o <- eligible_egress_network_node nodes_by_id net_id;;
    match o with
    | None => Ok None
    | Some node =>
        d <- dict_field node "data";;
        cidr <- get d "cidr" vstr_empty;;
        match ip_network cidr with
        | Raise ValueError => Ok None
        | Raise e => Raise e
        | Ok net => Ok (if in_network addr net then Some node else None)
        end
    end) (set_iter gw_ids).

(** [deploy_topology._control_plane_network_for_cluster] *)
Definition control_plane_network_for_cluster (cluster topology : val) (gw_ids : list val)
    (nodes_by_id : list (val * val)) : res (option val) :=
  cid <- get cluster "id" VNone;;
  cp <- find_control_plane_vm cid topology;;
  match cp with
  | None => Ok None
  | Some cp_node =>
      cp_ip <- cp_primary_ip cp_node;;
      match ip_int_from_string cp_ip with
      | None => Ok None
      | Some addr => network_containing_ip gw_ids nodes_by_id addr
      end
  end.

(** The networks ranked so far, with their ids. *)
Notation ranking := (list val * list val)%type.

(** [deploy_topology._append_ranked_network] *)
Definition append_ranked_network (node : option val) (s : list val * list val)
    : res (list val * list val) :=
  match node with
  | None => Ok s
  | Some n =>
      let '(seen, ranked) := s in
      net_id <- get n "id" vstr_empty;;
      if negb (truthy net_id) then Ok s
      else
        known <- vin net_id seen;;
        if known then Ok s
        else seen' <- vadd net_id seen;; Ok (seen', ranked ++ [n])
  end.

(** [deploy_topology._rank_dns_egress_networks] *)
Definition rank_dns_egress_networks (cluster : val) (gw_ids : list val)
    (nodes_by_id : list (val * val)) (s : list val * list val) : res (list val * list val) :=
  ids <- list_field cluster "networkIds";;
  for_each ids s (λ net_id s,
    gw <- vin net_id gw_ids;;
    if negb gw then Ok s
    else
      o <- eligible_egress_network_node nodes_by_id net_id;;
      match o with
      | None => Ok s
      | Some node =>
          d <- dict_field node "data";;
          dns <- network_dns_enabled d;;
          if dns then append_ranked_network (Some node) s else Ok s
      end).

(** [deploy_topology._rank_cluster_network_ids] *)
Definition rank_cluster_network_ids (cluster : val) (gw_ids : list val)
    (nodes_by_id : list (val * val)) (s : list val * list val) : res (list val * list val) :=
  ids <- list_field cluster "networkIds";;
  for_each ids s (λ net_id s,
    gw <- vin net_id gw_ids;;
    if negb gw then Ok s
    else o <- eligible_egress_network_node nodes_by_id net_id;; append_ranked_network o s).

(** [sorted(ids)] *)
Definition sort_ids (ids : list val) : res (list val) := sort_keyed (map (λ i, (i, i)) ids).

(** [deploy_topology._rank_remaining_gw_networks] *)
Definition rank_remaining_gw_networks (gw_ids : list val) (nodes_by_id : list (val * val))
    (s : list val * list val) : res (list val) :=
  let '(seen, ranked) := s in
  ids <- sort_ids gw_ids;;
  remaining <- for_each ids [] (λ net_id remaining,
    o <- eligible_egress_network_node nodes_by_id net_id;;
    match o with
    | None => Ok remaining
    | Some node =>
        i <- get node "id" VNone;;
        known <- vin i seen;;
        if known then Ok remaining
        else k <- get node "id" vstr_empty;; Ok (remaining ++ [(py_str k, node)])
    end);;
  Ok (ranked ++ (sort_by (λ a b, str_leb a.1 b.1) remaining).*2).

(** [deploy_topology.rank_cluster_egress_network_nodes] *)
Definition rank_cluster_egress_network_nodes (cluster topology : val) : res (list val) :=
  gw_ids <- gateway_connected_network_ids topology;;
  match gw_ids with
  | [] => Ok []
  | _ =>
      nodes_by_id <- topology_nodes_by_id topology;;
      s <- rank_dns_egress_networks cluster gw_ids nodes_by_id ([], []);;
      s <- rank_cluster_network_ids cluster gw_ids nodes_by_id s;;
      cp <- control_plane_network_for_cluster cluster topology gw_ids nodes_by_id;;
      s <- append_ranked_network cp s;;
      rank_remaining_gw_networks gw_ids nodes_by_id s
  end.

(** [deploy_topology.cluster_egress_network_node] *)
Definition cluster_egress_network_node (cluster topology : val) : res (option val) :=
  ranked <- rank_cluster_egress_network_nodes cluster topology;; Ok (head ranked).

(** [deploy_topology.cluster_egress_network_id] *)
Definition cluster_egress_network_id (cluster topology : val) : res string :=
  o <- cluster_egress_network_node cluster topology;;
  match o with
  | None => Ok ""
  | Some node =>
      if negb (truthy node) then Ok ""
      else
        d <- dict_field node "data";;
        i <- get d "id" vstr_empty;;
        i <- get node "id" i;;
        Ok (py_str i)
  end.
End SetOrder.

(** [s.index(k)] of a substring. *)
Fixpoint str_index (k s : string) : nat :=
  if startswith k s then 0
  else match s with EmptyString => 0 | String _ s' => S (str_index k s') end.

(** [xs.index(k)] for a text [k] that is in [xs]. *)
Definition index_of (k : string) (xs : val) : res nat :=
  match xs with
  | VList l => match list_find (λ v, eq_str v k = true) l with
               | Some (i, _) => Ok i | None => Raise ValueError end
  | VStr s => Ok (str_index k s)
  | _ => Raise AttributeError
  end.

(** [deploy_topology.vm_nic_for_network] *)
Definition vm_nic_for_network (vm_node : val) (network_id : string) (cluster topology : val)
    : res (option (nat * val)) :=
  data <- dict_field vm_node "data";;
  nics <- get data "nics" VNone;;
  if negb (truthy nics) || String.eqb network_id "" then Ok None
  else
    nodes_by_id <- topology_nodes_by_id topology;;
    nic_map <- build_nic_to_network_map topology nodes_by_id;;
    l <- iter nics;;
    o <- first_some (λ '(i, nic),
      nic_id <- get nic "id" vstr_empty;;
      if negb (truthy nic_id) then Ok None
      else
        n <- vget nic_id nic_map;;
        Ok (if eq_str (default VNone n) network_id then Some (i, nic) else None))
      (imap pair l);;
    match o with
    | Some r => Ok (Some r)
    | None =>
        ids <- get cluster "networkIds" VNone;;
        let net_ids := v_or ids empty_list in
        b <- has_key network_id net_ids;;
        if negb b then Ok None
        else
          i <- index_of network_id net_ids;;
          Ok (match l !! i with Some nic => Some (i, nic) | None => None end)
    end.

(** ** The showroom's DNS network *)

(** [deploy_topology._gateway_connected_dns_network_name] *)
Definition gateway_connected_dns_network_name (topology : val) : res string :=
  gateway <- find_gateway_node topology;;
  match gateway with
  | None => Ok ""
  | Some g =>
      gd <- data_of g;;
      allows <- gateway_allows_dns_upstream gd;;
      if negb allows then Ok ""
      else
        ns <- nodes_of topology;;
        nodes_by_id <- nodes_by_id_of ns;;
        gateway_id <- idx g "id";;
        es <- edges_of topology;;
        o <- first_some (λ edge,
          peer <- peer_lab_network_on_gateway_edge edge gateway_id nodes_by_id;;
          match peer with
          | None => Ok None
          | Some p =>
              data <- data_of p;;
              dns <- network_dns_enabled data;;
              if negb dns then Ok None
              else
                name <- get data "name" VNone;;
                label <- get data "label" VNone;;
                let name := strip (py_str (v_or (v_or name label) vstr_empty)) in
                Ok (if String.eqb name "" then None else Some name)
          end) es;;
        Ok (default "" o)
  end.

(** [deploy_topology._showroom_dns_network_name] *)
Definition showroom_dns_network_name (topology : val) : res string :=
  cfg <- dict_field topology "showroom";;
  name <- text_field cfg "dns_network";;
  if negb (String.eqb name "") then Ok name
  else
    ns <- nodes_of topology;;
    o <- first_some (λ node,
      b <- is_showroom_node node;;
      if negb b then Ok None
      else
        d <- data_of node;;
        name <- text_field d "dnsNetwork";;
        Ok (if String.eqb name "" then None else Some name)) ns;;
    match o with
    | Some name => Ok name
    | None => gateway_connected_dns_network_name topology
    end.

(** [deploy_topology._find_lab_network_by_name] *)
Definition find_lab_network_by_name (topology : val) (name : string) : res (option val) :=
  let name := strip name in
  if String.eqb name "" then Ok None
  else
    ns <- nodes_of topology;;
    find_res (λ node,
      p <- is_plain_network node;;
      if negb p then Ok false
      else
        data <- data_of node;;
        n <- get data "name" VNone;;
        l <- get data "label" VNone;;
        Ok (eq_str n name || eq_str l name)) ns.

(** [deploy_topology._resolve_network_gateway]: a [TypeError] on a /32 escapes the
    [except] clause. *)
Definition resolve_network_gateway (net_data cidr : val) : res val :=
  gateway <- get (v_or net_data empty_dict) "dhcpGateway" vstr_empty;;
  if truthy gateway then Ok gateway
  else if negb (truthy cidr) then Ok vstr_empty
  else
    match (net <- ip_network cidr;; next_host net) with
    | Ok a => Ok (VStr (ip_str a))
    | Raise ValueError | Raise StopIteration => Ok vstr_empty
    | Raise e => Raise e
    end.

(** [deploy_topology._resolve_network_dns_nameserver] *)
Definition resolve_network_dns_nameserver (net_data cidr : val) : res val :=
  server <- text_field (v_or net_data empty_dict) "dnsServerIp";;
  if negb (String.eqb server "") then Ok (VStr server)
  else resolve_network_gateway net_data cidr.

(** [deploy_topology._nameserver_for_lab_network] *)
Definition nameserver_for_lab_network (node : option val) : res val :=
  match node with
  | None => Ok vstr_empty
  | Some n =>
      if negb (truthy n) then Ok vstr_empty
      else
        data <- data_of n;;
        cidr <- get data "cidr" vstr_empty;;
        if negb (truthy cidr) then Ok vstr_empty
        else resolve_network_dns_nameserver data cidr
  end.

(** [deploy_topology._gateway_connected_dns_nameserver] *)
Definition gateway_connected_dns_nameserver (topology : val) : res val :=
  name <- gateway_connected_dns_network_name topology;;
  if String.eqb name "" then Ok vstr_empty
  else n <- find_lab_network_by_name topology name;; nameserver_for_lab_network n.

(** [deploy_topology._showroom_dns_nameserver] *)
Definition showroom_dns_nameserver (topology : val) : res val :=
  name <- showroom_dns_network_name topology;;
  if negb (String.eqb name "")
  then n <- find_lab_network_by_name topology name;; nameserver_for_lab_network n
  else gateway_connected_dns_nameserver topology.

(** [deploy_topology.showroom_infra_network] *)
Definition showroom_infra_network (vni_map : vnis) (mac dns_nameserver : val) : list val :=
  match showroom_transit_octet3 vni_map with
  | None => []
  | Some o =>
      [VDict ([("bridge", VStr ""); ("mac", mac); ("ip", VStr (transit_ip o 3));
               ("cidr", VStr (transit_ip o 0 +:+ "/24")); ("gateway", VStr (transit_ip o 2));
               ("infra_transit", VBool true)] ++
              (if truthy dns_nameserver then [("dns_nameserver", dns_nameserver)] else []))]
  end.

(** ** Showroom validation *)

(** [deploy_topology._showroom_content_repo] *)
Definition showroom_content_repo (topology showroom_node : val) : res string :=
  cfg <- dict_field topology "showroom";;
  repo <- text_field cfg "content_repo";;
  if negb (String.eqb repo "") then Ok repo
  else d <- data_of showroom_node;; text_field d "contentRepo".

(** [deploy_topology._validate_showroom_dns_config] *)
Definition validate_showroom_dns_config (topology : val) : res (list string) :=
  name <- showroom_dns_network_name topology;;
  let err what := Ok ["Showroom DNS network '" +:+ name +:+ "' " +:+ what] in
  if String.eqb name ""
  then Ok ["Enable DNS on at least one network connected to the gateway"]
  else
    dns_net <- find_lab_network_by_name topology name;;
    match dns_net with
    | None => err "was not found on the canvas"
    | Some n =>
        data <- data_of n;;
        dns <- network_dns_enabled data;;
        if negb dns then err "must have DNS enabled"
        else
          cidr <- get data "cidr" VNone;;
          if negb (truthy cidr) then err "must have a CIDR"
          else
            i <- idx n "id";;
            c <- is_network_gateway_connected topology i;;
            if negb c then err "must be connected to the gateway" else Ok []
    end.

(** [deploy_topology.validate_showroom_topology] *)
Definition validate_showroom_topology (topology : val) : res (list string) :=
  ns <- nodes_of topology;;
  showrooms <- filter_res is_showroom_node ns;;
  match showrooms with
  | [] => Ok []
  | _ :: _ :: _ => Ok ["Only one showroom is allowed per project"]
  | [showroom] =>
      gateway <- find_gateway_node topology;;
      let e1 := match gateway with
                | None => ["A gateway is required for external showroom access"] | Some _ => [] end in
      cfg <- dict_field topology "showroom";;
      enabled <- get cfg "enabled" (VBool true);;
      if negb (truthy enabled) then Ok e1
      else
        repo <- showroom_content_repo topology showroom;;
        let e2 := if String.eqb repo "" then ["Showroom content repo URL is required"] else [] in
        e3 <- validate_showroom_dns_config topology;;
        e4 <- (match gateway with
               | None => Ok []
               | Some g =>
                   gd <- data_of g;;
                   ok <- gateway_allows_dns_upstream gd;;
                   Ok (if ok then []
                       else ["Gateway outbound must allow DNS (port 53) so showroom can resolve external names"])
               end);;
        Ok (e1 ++ e2 ++ e3 ++ e4)
  end.

(** ** The egress ranking *)

Lemma sort_ids_elem ids l i : sort_ids ids = Ok l → i ∈ l → i ∈ ids.
Proof.
  unfold sort_ids. intros ->%sort_keyed_perm Hi. rewrite <-list_fmap_compose in Hi.
  by apply list_elem_of_fmap in Hi as (j & -> & Hj).
Qed.

(** [vmem] for what a set holds. *)
Lemma vmem_elem v s : hashable v = true → v ∈ s → vmem v s = true.
Proof.
  intros Hh Hin. unfold vmem. apply existsb_exists. exists v.
  split; [by apply list_elem_of_In|]. by apply hashable_py_eq_refl.
Qed.

Lemma vadd_hashable v s s' :
  vadd v s = Ok s' → Forall (λ x, hashable x = true) s → Forall (λ x, hashable x = true) s'.
Proof.
  unfold vadd, hkey. destruct (hashable v) eqn:E; cbn; [|done]. intros [= <-] Hs.
  destruct (vmem v s); [done|]. apply Forall_app. split; [done|by constructor].
Qed.

Lemma gateway_ids_hashable topology gw :
  gateway_connected_network_ids topology = Ok gw → Forall (λ x, hashable x = true) gw.
Proof.
  unfold gateway_connected_network_ids. intros H. apply bind_Ok in H as ([g|] & _ & H).
  2: { injection H as <-. constructor. }
  apply bind_Ok in H as (nbi & _ & H). apply bind_Ok in H as (gid & _ & H).
  apply bind_Ok in H as (es & _ & H).
  eapply (for_each_inv (Forall (λ x, hashable x = true))); [|constructor|exact H].
  intros e s s' _ Hs Hb. apply bind_Ok in Hb as ([p|] & _ & Hb); [|by injection Hb as <-].
  apply bind_Ok in Hb as (i & _ & Hb). by eapply vadd_hashable.
Qed.

Section Ranking.
Context (gw : list val) (nbi : list (val * val)).

(** A network a cluster may leave by: wired to the gateway, a plain lab network, not the
    migration network. *)
Definition egress_ok (n : val) : Prop :=
  ∃ i, vmem i gw = true ∧ eligible_egress_network_node nbi i = Ok (Some n).

Definition dns_network (n : val) : Prop :=
  ∃ d, dict_field n "data" = Ok d ∧ network_dns_enabled d = Ok true.

(** Ranking steps only append, and remember a network only when they append it. *)
Definition extends (s s' : list val * list val) (P : val → Prop) : Prop :=
  (∃ t, s'.2 = s.2 ++ t ∧ Forall P t) ∧ ((s.1 = [] ↔ s.2 = []) → (s'.1 = [] ↔ s'.2 = [])).

Lemma extends_refl s P : extends s s P.
Proof. split; [exists []; by rewrite app_nil_r|done]. Qed.

Lemma extends_trans s1 s2 s3 P : extends s1 s2 P → extends s2 s3 P → extends s1 s3 P.
Proof.
  intros [(t1 & H1 & F1) E1] [(t2 & H2 & F2) E2]. split; [|auto].
  exists (t1 ++ t2). rewrite H2, H1, app_assoc. split; [done|by apply Forall_app].
Qed.

Lemma append_ranked_extends n s s' (P : val → Prop) :
  append_ranked_network (Some n) s = Ok s' → P n →
  extends s s' P ∧ (∀ i, get n "id" vstr_empty = Ok i → truthy i = true → (s.1 = [] ↔ s.2 = []) → s'.2 ≠ []).
Proof.
  destruct s as [seen ranked]. unfold append_ranked_network. intros H HP.
  apply bind_Ok in H as (i & Hi & H). rewrite Hi. destruct (truthy i) eqn:Et; cbn [negb] in H.
  2: { injection H as <-. split; [apply extends_refl|]. intros ? [= <-]. congruence. }
  unfold vin, vadd, hkey in H. destruct (hashable i) eqn:Eh; cbn [bind] in H; [|done].
  destruct (vmem i seen) eqn:Em; injection H as <-; cbn [fst snd].
  - split; [apply extends_refl|]. intros _ _ _ Heq ->. destruct Heq as [_ Heq].
    rewrite Heq in Em by done. done.
  - split; [|intros _ _ _ _; by destruct ranked]. split; cbn [fst snd].
    + exists [n]. split; [done|by constructor].
    + intros _. by destruct seen, ranked.
Qed.

(** A loop of ranking steps. *)
Lemma rank_loop (body : val → list val * list val → res (list val * list val)) P ids s s' :
  (∀ i s s', i ∈ ids → body i s = Ok s' → extends s s' P) →
  for_each ids s body = Ok s' → extends s s' P.
Proof.
  revert s; induction ids as [|i ids IH]; intros s Hb; cbn; [intros [= <-]; apply extends_refl|].
  intros H. apply bind_Ok in H as (s1 & H1 & H). eapply extends_trans.
  - eapply Hb; [left|done].
  - eapply IH; [|done]. intros j s2 s3 Hj. apply Hb. by right.
Qed.

Lemma rank_dns_extends cluster s s' :
  rank_dns_egress_networks cluster gw nbi s = Ok s' →
  extends s s' (λ n, egress_ok n ∧ dns_network n).
Proof.
  unfold rank_dns_egress_networks. intros H. apply bind_Ok in H as (ids & _ & H).
  eapply rank_loop; [|exact H]. clear H s s'. intros i s s' _ H.
  apply bind_Ok in H as (b & Hb & H). destruct b; cbn [negb] in H; [|injection H as <-; apply extends_refl].
  unfold vin in Hb. apply bind_Ok in Hb as (i' & Hk & [= Hm]). unfold hkey in Hk.
  destruct (hashable i); [|done]. injection Hk as <-.
  apply bind_Ok in H as ([n|] & He & H); [|injection H as <-; apply extends_refl].
  apply bind_Ok in H as (d & Hd & H). apply bind_Ok in H as ([] & Hdns & H);
    [|injection H as <-; apply extends_refl].
  eapply append_ranked_extends; [exact H|]. split; [by exists i|by exists d].
Qed.

Lemma rank_cluster_extends cluster s s' :
  rank_cluster_network_ids cluster gw nbi s = Ok s' → extends s s' egress_ok.
Proof.
  unfold rank_cluster_network_ids. intros H. apply bind_Ok in H as (ids & _ & H).
  eapply rank_loop; [|exact H]. clear H s s'. intros i s s' _ H.
  apply bind_Ok in H as (b & Hb & H). destruct b; cbn [negb] in H; [|injection H as <-; apply extends_refl].
  unfold vin in Hb. apply bind_Ok in Hb as (i' & Hk & [= Hm]). unfold hkey in Hk.
  destruct (hashable i); [|done]. injection Hk as <-.
  apply bind_Ok in H as ([n|] & He & H); [|injection H as <-; apply extends_refl].
  eapply append_ranked_extends; [exact H|]. by exists i.
Qed.

(** A cluster network with DNS makes the first phase rank something. *)
Lemma rank_dns_nonempty cluster ids i n k s' :
  list_field cluster "networkIds" = Ok ids → i ∈ ids → vmem i gw = true →
  eligible_egress_network_node nbi i = Ok (Some n) → dns_network n →
  get n "id" vstr_empty = Ok k → truthy k = true →
  rank_dns_egress_networks cluster gw nbi ([], []) = Ok s' → s'.2 ≠ [].
Proof.
  intros Hids Hin Hm He (d & Hd & Hdns) Hk Ht H. pose proof H as Hall.
  unfold rank_dns_egress_networks in H. rewrite Hids in H. cbn [bind] in H.
  apply list_elem_of_split in Hin as (l1 & l2 & ->). rewrite for_each_app in H.
  apply bind_Ok in H as (s1 & H1 & H). cbn [for_each] in H. apply bind_Ok in H as (s2 & H2 & H3).
  match type of H1 with for_each _ _ ?f = _ => set (body := f) in * end.
  assert (Hstep : ∀ j s s', body j s = Ok s' → extends s s' (λ _, True)).
  { intros j s s2' Hj. unfold body in Hj.
    apply bind_Ok in Hj as (b & _ & Hj). destruct b; cbn [negb] in Hj; [|injection Hj as <-; apply extends_refl].
    apply bind_Ok in Hj as ([m|] & _ & Hj); [|injection Hj as <-; apply extends_refl].
    apply bind_Ok in Hj as (d' & _ & Hj). apply bind_Ok in Hj as ([] & _ & Hj);
      [|injection Hj as <-; apply extends_refl]. by eapply append_ranked_extends. }
  assert (E1 : extends ([], []) s1 (λ _, True)) by (eapply rank_loop; [|exact H1]; intros; by eapply Hstep).
  assert (E3 : extends s2 s' (λ _, True)) by (eapply rank_loop; [|exact H3]; intros; by eapply Hstep).
  destruct E1 as [_ E1]. specialize (E1 ltac:(done)).
  unfold body in H2. apply bind_Ok in H2 as (b & Hb & H2). unfold vin in Hb.
  apply bind_Ok in Hb as (i' & Hk' & [= <-]). unfold hkey in Hk'. destruct (hashable i); [|done].
  injection Hk' as <-. rewrite Hm in H2. cbn [negb] in H2. rewrite He in H2. cbn [bind] in H2.
  rewrite Hd in H2. cbn [bind] in H2. rewrite Hdns in H2. cbn [bind] in H2.
  apply (append_ranked_extends _ _ _ (λ _, True)) in H2 as [_ Hne]; [|done].
  specialize (Hne _ Hk Ht E1). destruct E3 as [(t & -> & _) _]. intros Happ.
  by apply app_eq_nil in Happ as [? _].
Qed.

Lemma rank_remaining_spec s l :
  rank_remaining_gw_networks gw nbi s = Ok l → Forall (λ x, hashable x = true) gw →
  ∃ t, l = s.2 ++ t ∧ Forall egress_ok t.
Proof.
  destruct s as [seen ranked]. unfold rank_remaining_gw_networks. intros H Hh.
  apply bind_Ok in H as (ids & Hids & H). apply bind_Ok in H as (rem & Hrem & [= <-]).
  exists (sort_by (λ a b, str_leb a.1 b.1) rem).*2. split; [done|].
  assert (Hsub : ∀ i, i ∈ ids → i ∈ gw) by (intros i Hi; by eapply sort_ids_elem).
  assert (HF : Forall (λ p : string * val, egress_ok p.2) rem).
  { eapply (for_each_inv (Forall (λ p : string * val, egress_ok p.2))); [|constructor|exact Hrem].
    intros i s s' Hi Hs Hb. apply bind_Ok in Hb as ([n|] & He & Hb); [|by injection Hb as <-].
    apply bind_Ok in Hb as (k & _ & Hb). apply bind_Ok in Hb as ([] & _ & Hb); [by injection Hb as <-|].
    apply bind_Ok in Hb as (k' & _ & [= <-]). apply Forall_app. split; [done|].
    constructor; [|done]. exists i. split; [|done]. apply vmem_elem; [|by apply Hsub].
    rewrite Forall_forall in Hh. by apply Hh, Hsub. }
  apply Forall_fmap. apply Forall_forall. intros p Hp%elem_of_sort_by.
  rewrite Forall_forall in HF. by apply HF.
Qed.
End Ranking.

Lemma containing_ip_ok set_iter gw nbi addr n :
  (∀ l, set_iter l ≡ₚ l) → Forall (λ x, hashable x = true) gw →
  network_containing_ip set_iter gw nbi addr = Ok (Some n) → egress_ok gw nbi n.
Proof.
  intros Hset Hh H. unfold network_containing_ip in H.
  apply first_some_Some in H as (i & Hi & H). rewrite Hset in Hi.
  apply bind_Ok in H as ([m|] & He & H); [|done].
  apply bind_Ok in H as (d & _ & H). apply bind_Ok in H as (c & _ & H).
  destruct (ip_network c) as [net|[]]; try done.
  destruct (in_network addr net); [|done]. injection H as <-.
  exists i. split; [|done]. apply vmem_elem; [|done]. rewrite Forall_forall in Hh. by apply Hh.
Qed.

(** A cluster leaves by the right network: every ranked network is wired to the gateway, a
    plain lab network and not the migration network; and when one of the cluster's own such
    networks has DNS, the network the cluster leaves by has DNS. *)
Theorem egress_ranking_sound set_iter cluster topology gw nbi l :
  (∀ s, set_iter s ≡ₚ s) →
  gateway_connected_network_ids topology = Ok gw → topology_nodes_by_id topology = Ok nbi →
  rank_cluster_egress_network_nodes set_iter cluster topology = Ok l →
  Forall (egress_ok gw nbi) l ∧
  ∀ ids i n k, list_field cluster "networkIds" = Ok ids → i ∈ ids → vmem i gw = true →
    eligible_egress_network_node nbi i = Ok (Some n) → dns_network n →
    get n "id" vstr_empty = Ok k → truthy k = true →
    ∃ h, cluster_egress_network_node set_iter cluster topology = Ok (Some h) ∧ dns_network h.
Proof.
  intros Hset Hgw Hnbi H. pose proof (gateway_ids_hashable _ _ Hgw) as Hh. pose proof H as Hl.
  unfold rank_cluster_egress_network_nodes in H. rewrite Hgw in H. cbn [bind] in H.
  destruct gw as [|g gw'] eqn:Eg.
  { injection H as <-. split; [constructor|]. intros ids i n k _ _ Hm. done. }
  rewrite <-Eg in *. rewrite Hnbi in H. cbn [bind] in H.
  apply bind_Ok in H as (s1 & H1 & H). apply bind_Ok in H as (s2 & H2 & H).
  apply bind_Ok in H as (cp & Hcp & H). apply bind_Ok in H as (s3 & H3 & H).
  destruct (rank_dns_extends _ _ _ _ _ H1) as [(t1 & E1 & F1) _].
  destruct (rank_cluster_extends _ _ _ _ _ H2) as [(t2 & E2 & F2) _].
  destruct (rank_remaining_spec _ _ _ _ H Hh) as (t4 & E4 & F4).
  assert (∃ t3, s3.2 = s2.2 ++ t3 ∧ Forall (egress_ok gw nbi) t3) as (t3 & E3 & F3).
  { destruct cp as [n|]; [|injection H3 as <-; exists []; by rewrite app_nil_r].
    destruct (append_ranked_extends _ _ _ (egress_ok gw nbi) H3) as [[? _] _]; [|done].
    unfold control_plane_network_for_cluster in Hcp. apply bind_Ok in Hcp as (cid & _ & Hcp).
    apply bind_Ok in Hcp as ([c|] & _ & Hcp); [|done]. apply bind_Ok in Hcp as (ip & _ & Hcp).
    destruct (ip_int_from_string ip); [|done]. by eapply containing_ip_ok. }
  cbn in E1. assert (El : l = t1 ++ t2 ++ t3 ++ t4) by (rewrite E4, E3, E2, E1, <-!app_assoc; done).
  split.
  - rewrite El, !Forall_app. split_and!; try done. eapply Forall_impl; [exact F1|]. by intros n [? _].
  - intros ids i n k Hids Hi Hm He Hd Hk Ht. unfold cluster_egress_network_node. rewrite Hl. cbn [bind].
    pose proof (rank_dns_nonempty _ _ _ _ _ _ _ _ Hids Hi Hm He Hd Hk Ht H1) as Hne.
    rewrite E1 in Hne. destruct t1 as [|h t1]; [done|]. exists h. split; [by rewrite El|].
    apply Forall_cons in F1 as [[_ ?] _]. done.
Qed.

Definition egress_network (id name : string) (dns : bool) : val :=
  VDict [("id", VStr id); ("type", VStr "networkNode"); ("data", VDict
    [("subtype", VStr "network"); ("name", VStr name); ("dns", VBool dns); ("cidr", VStr "10.0.0.0/24")])].

Definition egress_sample : val := VDict
  [("nodes", VList
     [VDict [("id", VStr "gw"); ("type", VStr "networkNode"); ("data", VDict [("subtype", VStr "gateway")])];
      egress_network "n1" "lab" false; egress_network "n2" "dns" true; egress_network "n3" "migration" true]);
   ("edges", VList (map (λ n, VDict [("source", VStr "gw"); ("target", VStr n)]) ["n1"; "n2"; "n3"]))].

Definition egress_cluster : val :=
  VDict [("id", VStr "c"); ("networkIds", VList [VStr "n1"; VStr "n2"; VStr "n3"])].

Lemma egress_ranking_sound_witness :
  let gw := [VStr "n1"; VStr "n2"; VStr "n3"] in
  ∃ nbi l, topology_nodes_by_id egress_sample = Ok nbi ∧
  rank_cluster_egress_network_nodes id egress_cluster egress_sample = Ok l ∧
  l = [egress_network "n2" "dns" true; egress_network "n1" "lab" false] ∧
  Forall (egress_ok gw nbi) l ∧
  ∀ ids i n k, list_field egress_cluster "networkIds" = Ok ids → i ∈ ids → vmem i gw = true →
    eligible_egress_network_node nbi i = Ok (Some n) → dns_network n →
    get n "id" vstr_empty = Ok k → truthy k = true →
    ∃ h, cluster_egress_network_node id egress_cluster egress_sample = Ok (Some h) ∧ dns_network h.
Proof.
  intros gw. eexists _, _. split; [vm_compute; reflexivity|]. split; [vm_compute; reflexivity|].
  split; [reflexivity|].
  apply (egress_ranking_sound id egress_cluster egress_sample); [done|vm_compute; reflexivity..].
Defined.

(** ** The showroom's name server *)

(** A CIDR from which a gateway address can be derived. *)
Definition cidr_has_hosts (cidr : val) : Prop :=
  ∃ net, ip_network cidr = Ok net ∧ net_prefix net < 32.

Lemma hosts_nonempty net : wf_network net → net_prefix net < 32 → hosts net ≠ [].
Proof.
  intros (Hp & _ & _) Hlt. unfold hosts, broadcast, zrange.
  destruct (net_prefix net =? 32) eqn:E; [done|].
  assert (Hlen : ∀ a n, 0 < n → seqZ a n ≠ []).
  { intros a n Hn. rewrite seqZ_cons by done. done. }
  destruct (net_prefix net =? 31) eqn:E31; apply Hlen.
  - apply Z.eqb_eq in E31. rewrite E31. change (2 ^ (32 - 31)) with 2. lia.
  - apply Z.eqb_neq in E31. assert (4 ≤ 2 ^ (32 - net_prefix net)); [|lia].
    change 4 with (2 ^ 2). apply Z.pow_le_mono_r; lia.
Qed.

Lemma network_gateway_truthy data cidr :
  is_Ok (get (v_or data empty_dict) "dhcpGateway" vstr_empty) → truthy cidr = true →
  cidr_has_hosts cidr → ∃ v, resolve_network_gateway data cidr = Ok v ∧ truthy v = true.
Proof.
  intros [g Hg] Ht (net & Hn & Hp). unfold resolve_network_gateway. rewrite Hg. cbn [bind].
  destruct (truthy g) eqn:Eg; [by exists g|]. rewrite Ht. cbn [negb]. rewrite Hn. cbn [bind].
  unfold next_host. replace (net_prefix net =? 32) with false by (symmetry; apply Z.eqb_neq; lia).
  pose proof (hosts_nonempty net (ip_network_wf _ _ Hn) Hp) as Hne.
  destruct (hosts net) as [|a l]; [done|]. exists (VStr (ip_str a)). split; [done|apply ip_str_truthy].
Qed.

(** A showroom whose DNS configuration is accepted resolves names: the network validation
    accepted has DNS, a CIDR and a link to the gateway, and as soon as that CIDR has host
    addresses the showroom is given a non-empty name server. *)
Theorem validated_showroom_has_nameserver topology :
  validate_showroom_dns_config topology = Ok [] →
  ∃ name net data cidr, showroom_dns_network_name topology = Ok name ∧ name ≠ "" ∧
    find_lab_network_by_name topology name = Ok (Some net) ∧ data_of net = Ok data ∧
    network_dns_enabled data = Ok true ∧ get data "cidr" VNone = Ok cidr ∧ truthy cidr = true ∧
    (∃ i, idx net "id" = Ok i ∧ is_network_gateway_connected topology i = Ok true) ∧
    (cidr_has_hosts cidr →
     ∀ s, text_field (v_or data empty_dict) "dnsServerIp" = Ok s →
     ∃ v, showroom_dns_nameserver topology = Ok v ∧ truthy v = true).
Proof.
  unfold validate_showroom_dns_config. intros H. apply bind_Ok in H as (name & Hname & H).
  cbv zeta in H. destruct (String.eqb_spec name "") as [|Hne]; [done|].
  apply bind_Ok in H as ([net|] & Hnet & H); [|done].
  apply bind_Ok in H as (data & Hdata & H). apply bind_Ok in H as ([] & Hdns & H); [|done].
  apply bind_Ok in H as (cidr & Hcidr & H). destruct (truthy cidr) eqn:Ht; [|done]. cbn [negb] in H.
  apply bind_Ok in H as (i & Hi & H). apply bind_Ok in H as ([] & Hgw & H); [|done].
  exists name, net, data, cidr. split_and!; try done; [by exists i|].
  intros Hhosts s Hs. unfold showroom_dns_nameserver. rewrite Hname. cbn [bind].
  apply String.eqb_neq in Hne. rewrite Hne. cbn [negb]. rewrite Hnet. cbn [bind].
  unfold nameserver_for_lab_network. destruct net as [| | | | |kvs]; try done.
  destruct kvs as [|kv kvs]; [done|]. cbn [truthy negb]. rewrite Hdata. cbn [bind].
  assert (Hc : get data "cidr" vstr_empty = Ok cidr).
  { destruct data as [| | | | |d]; try done. cbn in Hcidr |- *. injection Hcidr as <-.
    destruct (assoc "cidr" d); [done|]. cbn in Ht. done. }
  rewrite Hc. cbn [bind]. rewrite Ht. cbn [negb]. unfold resolve_network_dns_nameserver.
  rewrite Hs. cbn [bind]. destruct (String.eqb_spec s "") as [->|Hse]; cbn [negb].
  - apply network_gateway_truthy; [|done|done].
    destruct data as [| | | | |d]; try done. unfold v_or. destruct (truthy (VDict d)); eexists; reflexivity.
  - exists (VStr s). split; [done|]. by destruct s.
Qed.

Definition dns_sample : val := VDict
  [("nodes", VList
     [VDict [("id", VStr "gw"); ("type", VStr "networkNode"); ("data", VDict [("subtype", VStr "gateway")])];
      egress_network "n2" "dns" true]);
   ("edges", VList [VDict [("source", VStr "gw"); ("target", VStr "n2")]])].

Lemma validated_showroom_has_nameserver_witness :
  validate_showroom_dns_config dns_sample = Ok [] ∧
  showroom_dns_nameserver dns_sample = Ok (VStr "10.0.0.1") ∧
  ∃ name net data cidr, showroom_dns_network_name dns_sample = Ok name ∧ name ≠ "" ∧
    find_lab_network_by_name dns_sample name = Ok (Some net) ∧ data_of net = Ok data ∧
    network_dns_enabled data = Ok true ∧ get data "cidr" VNone = Ok cidr ∧ truthy cidr = true ∧
    (∃ i, idx net "id" = Ok i ∧ is_network_gateway_connected dns_sample i = Ok true) ∧
    (cidr_has_hosts cidr →
     ∀ s, text_field (v_or data empty_dict) "dnsServerIp" = Ok s →
     ∃ v, showroom_dns_nameserver dns_sample = Ok v ∧ truthy v = true).
Proof.
  split; [vm_compute; reflexivity|]. split; [vm_compute; reflexivity|].
  apply (validated_showroom_has_nameserver dns_sample). vm_compute. reflexivity.
Defined.

(** On a single-address network the derivation fails with an exception nothing catches. *)
Lemma single_address_gateway_raises :
  resolve_network_gateway empty_dict (VStr "10.0.0.7/32") = Raise TypeError.
Proof. vm_compute. reflexivity. Qed.
