(* ===== verification/TopologyExtract.v ===== *)
(** * What a deployment extracts from a topology: [deploy_topology.py]

    VMs, containers and their networks, the NIC edges of the canvas and the BMC
    configuration. *)
From stdpp Require Import prelude strings.
From Stdlib Require Import Ascii.
From S2P Require Import Prelude PyStr PyVal PyLemmas Ipv4 TopoNodes TopologyValidate GatewaySync.
From S2P Require Import EgressRank.

(** [d.get(k, dflt)] under the name the entry gives it. *)
Definition field (d : val) (out k : string) (dflt : val) : res (string * val) :=
  v <- get d k dflt;; Ok (out, v).

(** [d.get(k) or dflt]. *)
Definition field_or (d : val) (out k : string) (dflt : val) : res (string * val) :=
  v <- get d k VNone;; Ok (out, v_or v dflt).

(** A record built field by field. *)
Definition record (fs : list (res (string * val))) : res val :=
  kvs <- map_res (λ f, f) fs;; Ok (VDict kvs).

(** [deploy_topology._filter_topology_for_host] *)
Definition filter_topology_for_host (topology : val) (vm_node_ids : list val) : res val :=
  ns <- nodes_of topology;;
  nodes <- filter_res (λ n,
    t <- has_type n "vmNode";;
    if negb t then Ok true else i <- idx n "id";; vin i vm_node_ids) ns;;
  so <- get topology "startOrder" empty_list;;
  so <- iter so;;
  start_order <- filter_res (λ e, i <- get e "vmId" VNone;; vin i vm_node_ids) so;;
  t <- copy_dict topology;;
  t <- set_item t "nodes" (VList nodes);;
  set_item t "startOrder" (VList start_order).

(** [deploy_topology._extract_vms:1260-1284] one VM. *)
Definition extract_vm (node : val) : res val :=
  data <- data_of node;;
  i <- idx node "id";;
  smbios <- get data "smbiosUuid" VNone;;
  uuid <- get data "uuid" VNone;;
  record
    [Ok ("node_id", i);
     field data "name" "name" (VStr "vm");
     field data "vcpus" "vcpus" (VInt 2);
     field data "ram_gb" "ram" (VInt 4);
     field data "os" "os" vstr_empty;
     field data "nics" "nics" empty_list;
     field data "disk_controllers" "diskControllers" empty_list;
     field data "boot_devices" "bootDevices" (VList [VStr "hd"]);
     field data "cloud_init" "cloudInit" (VBool false);
     field data "firmware" "firmware" (VStr "bios");
     field data "secure_boot" "secureBoot" (VBool false);
     field_or data "machine_type" "machineType" vstr_empty;
     field data "video_model" "videoModel" (VStr "virtio");
     field data "input_model" "inputModel" (VStr "virtio");
     field_or data "serial_exec_type" "serialExecType" vstr_empty;
     field data "headless" "headless" VNone;
     Ok ("uuid", v_or smbios uuid);
     field data "recertEnabled" "recertEnabled" (VBool false);
     field data "ocpMonitor" "ocpMonitor" (VBool false);
     field data "configureBastionBrowser" "configureBastionBrowser" (VBool false)].

(** The nodes of one type, in canvas order. *)
Definition nodes_of_type (t : string) (topology : val) : res (list val) :=
  ns <- nodes_of topology;; filter_res (λ n, has_type n t) ns.

(** [deploy_topology._extract_vms] *)
Definition extract_vms (topology : val) : res (list val) :=
  ns <- nodes_of_type "vmNode" topology;; map_res extract_vm ns.

(** [deploy_topology._network_names_by_id] *)
Definition network_names_by_id (topology : val) : res (list (val * string)) :=
  ns <- nodes_of topology;;
  for_each ns [] (λ node names,
    t <- has_type node "networkNode";;
    if negb t then Ok names
    else
      d <- data_of node;;
      name <- get d "name" VNone;;
      if truthy name then i <- idx node "id";; vset i (py_str name) names else Ok names).

(** [deploy_topology._nic_edges_by_vm] *)
Definition nic_edges_by_vm (topology : val) (net_names : list (val * string))
    : res (list (val * list (string * string))) :=
  es <- edges_of topology;;
  for_each es [] (λ edge result,
    h <- get edge "targetHandle" VNone;;
    handle <- as_str (v_or h vstr_empty);;
    if negb (startswith "nic-" handle) then Ok result
    else
      src <- get edge "source" vstr_empty;;
      o <- vget src net_names;;
      match o with
      | None | Some "" => Ok result
      | Some net_name =>
          tgt <- get edge "target" vstr_empty;;
          l <- vget tgt result;;
          vset tgt (default [] l ++ [(handle, net_name)]) result
      end).

(** [deploy_topology._nic_network_name] *)
Definition nic_network_name (nic_id : val) (vm_nic_edges : list (string * string)) : res string :=
  if negb (truthy nic_id) then Ok ""
  else
    o <- first_some (λ '(handle, net_name),
      b <- substr_in nic_id handle;; Ok (if b then Some net_name else None)) vm_nic_edges;;
    Ok (default "" o).

(** [deploy_topology.build_vms_def_from_topology] *)
Definition build_vms_def_from_topology (topology : val)
    : res (list (val * val) * list (val * val)) :=
  net_names <- network_names_by_id topology;;
  nic_edges <- nic_edges_by_vm topology net_names;;
  ns <- nodes_of_type "vmNode" topology;;
  for_each ns ([], []) (λ node '(vms_def, vm_name_to_id),
    data <- data_of node;;
    name <- get data "name" (VStr "vm");;
    i <- idx node "id";;
    vm_name_to_id <- vset name i vm_name_to_id;;
    edges <- vget i nic_edges;;
    nics <- get data "nics" empty_list;;
    nics <- iter nics;;
    nics <- map_res (λ nic,
      nid <- get nic "id" vstr_empty;;
      net_name <- nic_network_name nid (default [] edges);;
      ip <- get nic "ip" vstr_empty;;
      Ok (VDict [("network", VStr net_name); ("ip", ip)])) nics;;
    d <- record [Ok ("nics", VList nics);
                 field_or data "login_user" "loginUser" (VStr "cloud-user");
                 field_or data "cloud_user_password" "cloudUserPassword" vstr_empty];;
    vms_def <- vset name d vms_def;;
    Ok (vms_def, vm_name_to_id)).

(** [deploy_topology._extract_containers:1365-1387] one container. *)
Definition extract_container (node : val) : res val :=
  data <- data_of node;;
  i <- idx node "id";;
  record
    [Ok ("node_id", i);
     field data "name" "name" (VStr "container");
     field data "image" "image" vstr_empty;
     field data "registry_credential_id" "registryCredentialId" VNone;
     field data "registry_credential_name" "registryCredentialName" VNone;
     field data "cpus" "cpus" (VInt 1);
     field data "memory_mb" "memory" (VInt 512);
     field data "nics" "nics" empty_list;
     field data "env_vars" "envVars" empty_list;
     field data "ports" "ports" empty_list;
     field data "command" "command" VNone;
     field data "restart_policy" "restartPolicy" (VStr "always");
     field data "privileged" "privileged" (VBool false);
     field data "mounts" "mounts" empty_list;
     field data "is_pod" "isPod" (VBool false);
     field data "init_containers" "initContainers" empty_list;
     field data "pod_containers" "podContainers" empty_list;
     field data "build_content" "buildContent" (VBool true)].

(** [deploy_topology._extract_containers] *)
Definition extract_containers (topology : val) : res (list val) :=
  ns <- nodes_of_type "containerNode" topology;; map_res extract_container ns.

Definition bridge_name (vni : Z) : string := "br-" +:+ str_of_Z vni.

(** [deploy_topology.metadata_bridges_for_topology] *)
Definition metadata_bridges_for_topology (topology : val) (vni_map : vnis) : res (list string) :=
  match vni_map with
  | [] => Ok []
  | (_, first_vni) :: _ =>
      ns <- nodes_of topology;;
      o <- first_some (λ node,
        t <- has_type node "networkNode";;
        if negb t then Ok None else i <- idx node "id";; vget i vni_map) ns;;
      Ok [bridge_name (default first_vni o)]
  end.

(** ** The networks of a VM *)

(** [deploy_topology._extract_nic_edge]: the handle and the node at the other end. *)
Definition edge_handle (prefix : string) (edge vm_node_id : val) : res (option (string * val)) :=
  src <- get edge "source" VNone;;
  tgt <- get edge "target" VNone;;
  r <- (if py_eq src vm_node_id then h <- get edge "sourceHandle" vstr_empty;; Ok (Some (h, tgt))
        else if py_eq tgt vm_node_id
        then h <- get edge "targetHandle" vstr_empty;; Ok (Some (h, src))
        else Ok None);;
  match r with
  | None => Ok None
  | Some (h, other) =>
      if negb (truthy h) then Ok None
      else s <- as_str h;; Ok (if startswith prefix s then Some (s, other) else None)
  end.

(** [deploy_topology._extract_nic_edge] *)
Definition extract_nic_edge : val → val → res (option (string * val)) := edge_handle "nic-".

(** [next((n for n in nodes if n\["id"\] == i), None)] *)
Definition node_with_id (i : val) (nodes : list val) : res (option val) :=
  find_res (λ n, j <- idx n "id";; Ok (py_eq j i)) nodes.

(** [deploy_topology._resolve_nic_mac_model] *)
Definition resolve_nic_mac_model (vm_node_id : val) (handle : string) (nodes : list val)
    : res (val * val) :=
  vm_node <- node_with_id vm_node_id nodes;;
  match vm_node with
  | None => Ok (vstr_empty, VStr "virtio")
  | Some vm =>
      d <- data_of vm;;
      nics <- get d "nics" empty_list;;
      nics <- iter nics;;
      o <- find_res (λ nic, i <- idx nic "id";; substr_in i handle) nics;;
      match o with
      | None => Ok (vstr_empty, VStr "virtio")
      | Some nic =>
          mac <- get nic "mac" vstr_empty;;
          model <- get nic "model" (VStr "virtio");;
          Ok (mac, model)
      end
  end.

(** [deploy_topology._network_allows_nested_macs] *)
Definition network_allows_nested_macs (net_data : val) : res bool :=
  has <- has_key "allowNestedMacs" net_data;;
  v <- (if has then get net_data "allowNestedMacs" VNone else Ok VNone);;
  nt <- get net_data "networkType" VNone;;
  Ok (truthy v || eq_str nt "migration").

(** [deploy_topology._build_bmc_network_entry]: [rnd] are the three random octets of a
    generated address. *)
Definition build_bmc_network_entry (rnd : Z * Z * Z) (mac model : val) (handle project_id : string)
    : val :=
  let '(a, b, c) := rnd in
  let bmc_mac := if truthy mac then mac
                 else VStr ("52:54:01:" +:+ hex2 a +:+ ":" +:+ hex2 b +:+ ":" +:+ hex2 c) in
  VDict [("bridge", VStr ("br-bmc-" +:+ str_take 8 project_id)); ("mac", bmc_mac);
         ("nic_id", VStr handle); ("model", model)].

(** [deploy_topology._resolve_vm_network_entry] *)
Definition resolve_vm_network_entry (rnd : Z * Z * Z) (edge vm_node_id : val) (nodes : list val)
    (vni_map : vnis) (project_id : string) (mtu_map : vnis) : res (option val) :=
  o <- extract_nic_edge edge vm_node_id;;
  match o with
  | None => Ok None
  | Some (handle, network_node_id) =>
      '(mac, model) <- resolve_nic_mac_model vm_node_id handle nodes;;
      net_node <- node_with_id network_node_id nodes;;
      bmc <- (match net_node with
              | Some n => d <- data_of n;; nt <- get d "networkType" VNone;; Ok (eq_str nt "bmc")
              | None => Ok false
              end);;
      if bmc then Ok (Some (build_bmc_network_entry rnd mac model handle project_id))
      else
        v <- vget network_node_id vni_map;;
        match v with
        | None => Ok None
        | Some vni =>
            mtu <- vget network_node_id mtu_map;;
            net_data <- dict_field (default empty_dict net_node) "data";;
            nested <- network_allows_nested_macs net_data;;
            Ok (Some (VDict
              ([("bridge", VStr (bridge_name vni)); ("mac", mac); ("nic_id", VStr handle);
                ("model", model)] ++
               (match mtu with Some m => [("mtu", VInt m)] | None => [] end) ++
               (if nested then [("allow_nested_macs", VBool true)] else []))))
        end
  end.

(** [deploy_topology._find_vm_networks]: an absent MTU map is the empty one. *)
Definition find_vm_networks (rnd : Z * Z * Z) (vm_node_id topology : val) (vni_map : vnis)
    (project_id : string) (mtu_map : vnis) : res (list val) :=
  edges <- edges_of topology;;
  nodes <- nodes_of topology;;
  for_each edges [] (λ edge networks,
    o <- resolve_vm_network_entry rnd edge vm_node_id nodes vni_map project_id mtu_map;;
    Ok (match o with Some e => networks ++ [e] | None => networks end)).

(** ** The networks of a container *)

(** The first of the suffixes a text ends with, removed. *)
Fixpoint drop_suffix (suffixes : list string) (s : string) : string :=
  match suffixes with
  | [] => s
  | x :: xs => if endswith x s then str_drop_last (String.length x) s else drop_suffix xs s
  end.

(** [deploy_topology._extract_nic_id] *)
Definition extract_nic_id (handle : string) : string :=
  if negb (contains "nic-" handle) then ""
  else
    let h := drop_suffix ["-top"; "-bottom"; "-left"; "-right"] handle in
    if startswith "nic-" h then str_drop 4 h else h.

(** [deploy_topology._edge_container_nic_binding] *)
Definition edge_container_nic_binding (edge container_node_id : val)
    : res (option (string * val)) :=
  src <- get edge "source" VNone;;
  tgt <- get edge "target" VNone;;
  src_h <- get edge "sourceHandle" vstr_empty;;
  tgt_h <- get edge "targetHandle" vstr_empty;;
  a <- (if py_eq src container_node_id then h <- as_str src_h;; Ok (startswith "nic-" h)
        else Ok false);;
  if a then h <- as_str src_h;; Ok (Some (extract_nic_id h, tgt))
  else
    b <- (if py_eq tgt container_node_id then h <- as_str tgt_h;; Ok (startswith "nic-" h)
          else Ok false);;
    if b then h <- as_str tgt_h;; Ok (Some (extract_nic_id h, src)) else Ok None.

(** [deploy_topology._container_lab_network_entry] *)
Definition container_lab_network_entry (nic : val) (nic_id : string) (vni : Z) (net_data : val)
    : res val :=
  cidr <- get net_data "cidr" vstr_empty;;
  gateway <- resolve_network_gateway net_data cidr;;
  record
    [Ok ("bridge", VStr (bridge_name vni));
     field nic "mac" "mac" vstr_empty;
     Ok ("nic_id", VStr nic_id);
     field nic "model" "model" (VStr "virtio");
     field nic "ip" "ip" vstr_empty;
     Ok ("cidr", cidr);
     Ok ("gateway", gateway)].

(** [{nic\["id"\]: nic for nic in node.get("data", {}).get("nics", \[\])}] *)
Definition nics_by_id_of (node : val) : res (list (val * val)) :=
  d <- data_of node;;
  nics <- get d "nics" empty_list;;
  nics <- iter nics;;
  nodes_by_id_of nics.

(** [deploy_topology._lab_networks_for_container] *)
Definition lab_networks_for_container (container_node container_node_id topology : val)
    (vni_map : vnis) : res (list val) :=
  nics_by_id <- nics_by_id_of container_node;;
  ns <- nodes_of topology;;
  nodes_by_id <- nodes_by_id_of ns;;
  es <- edges_of topology;;
  for_each es [] (λ edge results,
    o <- edge_container_nic_binding edge container_node_id;;
    match o with
    | None => Ok results
    | Some (nic_id, net_node_id) =>
        if String.eqb nic_id "" || negb (truthy net_node_id) then Ok results
        else
          v <- vget net_node_id vni_map;;
          match v with
          | None | Some 0 => Ok results
          | Some vni =>
              nic <- vget (VStr nic_id) nics_by_id;;
              net_node <- vget net_node_id nodes_by_id;;
              net_data <- (match net_node with
                           | Some n => if truthy n then data_of n else Ok empty_dict
                           | None => Ok empty_dict
                           end);;
              e <- container_lab_network_entry (default empty_dict nic) nic_id vni net_data;;
              Ok (results ++ [e])
          end
    end).

(** [deploy_topology._find_container_networks] *)
Definition find_container_networks (container_node_id topology : val) (vni_map : vnis)
    : res (list val) :=
  ns <- nodes_of topology;;
  o <- node_with_id container_node_id ns;;
  match o with
  | None => Ok []
  | Some container_node =>
      showroom <- is_showroom_node container_node;;
      if showroom then
        d <- data_of container_node;;
        nics <- get d "nics" empty_list;;
        mac <- (if truthy nics then n <- nth_item nics 0;; get n "mac" vstr_empty
                else Ok vstr_empty);;
        dns <- showroom_dns_nameserver topology;;
        Ok (showroom_infra_network vni_map mac dns)
      else lab_networks_for_container container_node container_node_id topology vni_map
  end.

(** [deploy_topology._find_vm_name_by_ip] *)
Definition find_vm_name_by_ip (topology : val) (ip : string) : res val :=
  if is_ops_infra_ip ip then Ok (VStr "ops")
  else
    ns <- nodes_of topology;;
    showroom <- (if is_showroom_infra_ip ip then find_res is_showroom_node ns else Ok None);;
    match showroom with
    | Some node => d <- data_of node;; get d "name" (VStr "showroom")
    | None =>
        o <- first_some (λ node,
          t <- has_type node "vmNode";;
          if negb t then Ok None
          else
            data <- data_of node;;
            nics <- get data "nics" empty_list;;
            nics <- iter nics;;
            first_some (λ nic,
              x <- get nic "ip" VNone;;
              if negb (eq_str x ip) then Ok None
              else
                i <- idx node "id";;
                short <- slice8 i;;
                name <- get data "name" short;;
                Ok (Some name)) nics) ns;;
        Ok (default (VStr (replace "." "-" ip)) o)
    end.

(** ** The BMC network *)

(** [deploy_topology._find_bmc_network] *)
Definition find_bmc_network (topology : val) : res (option val) :=
  ns <- nodes_of topology;;
  find_res (λ node,
    has_type node "networkNode" <&&>
    (d <- data_of node;; nt <- get d "networkType" VNone;; Ok (eq_str nt "bmc"))) ns.

(** [deploy_topology._collect_vm_bmc_dhcp_entries] *)
Definition collect_vm_bmc_dhcp_entries (node : val) (edges : list val) (bmc_net_id : val)
    : res (list val) :=
  vm_id <- idx node "id";;
  for_each edges [] (λ edge entries,
    o <- extract_nic_edge edge vm_id;;
    match o with
    | None => Ok entries
    | Some (handle, net_id) =>
        if negb (py_eq net_id bmc_net_id) then Ok entries
        else
          d <- data_of node;;
          nics <- get d "nics" empty_list;;
          nics <- iter nics;;
          for_each nics entries (λ nic entries,
            hit <- (i <- idx nic "id";; substr_in i handle) <&&>
                   (ip <- get nic "ip" VNone;; Ok (truthy ip)) <&&>
                   (mac <- get nic "mac" VNone;; Ok (truthy mac));;
            if negb hit then Ok entries
            else
              mac <- idx nic "mac";;
              ip <- idx nic "ip";;
              d <- idx node "data";;
              name <- get d "name" vstr_empty;;
              Ok (entries ++ [VDict [("mac", mac); ("ip", ip); ("name", name)]]))
    end).

(** [deploy_topology._collect_bmc_dhcp_hosts] *)
Definition collect_bmc_dhcp_hosts (topology bmc_net_id : val) : res (list val) :=
  edges <- edges_of topology;;
  vms <- nodes_of_type "vmNode" topology;;
  es <- map_res (λ node, collect_vm_bmc_dhcp_entries node edges bmc_net_id) vms;;
  Ok (concat es).

Section Names.
(** [hashlib.sha256(...).hexdigest()]. *)
Context (sha256_hex : string → string).

Definition is_hex (a : ascii) : bool :=
  let n := N_of_ascii a in
  ((48 <=? n) && (n <=? 57) || (97 <=? n) && (n <=? 102))%N.

(** The match of [_DOMAIN_SEGMENT_RE] on lower-case text. *)
Fixpoint all_hex (s : string) : bool :=
  match s with EmptyString => true | String a s' => is_hex a && all_hex s' end.

(** [deploy_topology._domain_id_segment] *)
Definition domain_id_segment (identifier : string) : string :=
  let prefix := lower (str_take 8 identifier) in
  if (String.length prefix =? 8)%nat && all_hex prefix then prefix
  else str_take 8 (sha256_hex identifier).

(** [deploy_topology._vm_domain_name] *)
Definition vm_domain_name (project_id node_id : string) : string :=
  "troshka-" +:+ domain_id_segment project_id +:+ "-" +:+ domain_id_segment node_id.

(** [deploy_topology._find_bmc_vms] *)
Definition find_bmc_vms (topology : val) (project_id : string) : res (list val) :=
  ns <- nodes_of_type "vmNode" topology;;
  for_each ns [] (λ node bmc_vms,
    d <- data_of node;;
    enabled <- get d "bmcEnabled" VNone;;
    if negb (truthy enabled) then Ok bmc_vms
    else
      d <- idx node "data";;
      bmc_ip <- get d "bmcIp" vstr_empty;;
      if negb (truthy bmc_ip) then Ok bmc_vms
      else
        i <- idx node "id";;
        s <- (match i with VStr s => Ok s | _ => Raise TypeError end);;
        Ok (bmc_vms ++ [VDict [("node_id", i);
                               ("domain_name", VStr (vm_domain_name project_id s));
                               ("bmc_ip", bmc_ip)]])).

(** [deploy_topology._extract_bmc_config] *)
Definition extract_bmc_config (topology : val) (project_id : string) : res (option val) :=
  o <- find_bmc_network topology;;
  match o with
  | None => Ok None
  | Some bmc_network =>
      bmc_vms <- find_bmc_vms topology project_id;;
      match bmc_vms with
      | [] => Ok None
      | _ =>
          i <- idx bmc_network "id";;
          dhcp_hosts <- collect_bmc_dhcp_hosts topology i;;
          d <- idx bmc_network "data";;
          Ok (Some (VDict [("bmc_network", d); ("vms", VList bmc_vms);
                           ("dhcp_hosts", VList dhcp_hosts)]))
      end
  end.
End Names.
