(* ===== verification/DeployCanvas.v ===== *)
(** * What a deployment reads from and writes to its canvas

    The helpers of [services/deploy_service.py] that only look at or change the canvas: the
    kind of deployment, the flags of an OpenShift pattern, the gateway's forwards, guest access,
    the checks of the BMC network, the name servers shown to the user. *)
From stdpp Require Import prelude strings.
From Stdlib Require Import Ascii.
From S2P Require Import Prelude PyStr PyVal PyLemmas Ipv4 TopoNodes OcpFlags TopologyExtract ClusterMembers.

Open Scope list_scope.

(** A loop that changes the nodes of the canvas one by one. *)
Definition map_nodes (f : val → res val) (topology : val) : res val :=
  ns <- nodes_of topology;;
  ns <- map_res f ns;;
  Ok (update_list topology "nodes" ns).

(** The test of a field of the data of the nodes of one type. *)
Definition any_node (t : string) (p : val → res bool) (topology : val) : res bool :=
  ns <- nodes_of topology;;
  any_res (λ n, has_type n t <&&> p n) ns.

(** ** The kind of deployment *)

(** [deploy_service._is_ocp_topology] *)
Definition is_ocp_topology (topology : val) : res bool :=
  any_node "vmNode" (λ n, o <- OcpFlags.field n "os";; Ok (eq_str o "rhcos")) topology.

(** [deploy_service._has_ocp_monitor] *)
Definition has_ocp_monitor (topology : val) : res bool :=
  any_node "vmNode" (λ n,
    m <- OcpFlags.field n "ocpMonitor";;
    if truthy m then Ok true else b <- OcpFlags.field n "configureBastionBrowser";; Ok (truthy b)) topology.

(** [deploy_service._is_pattern_deploy] *)
Definition is_pattern_deploy (topology : val) : res bool :=
  any_node "storageNode" (λ n, p <- OcpFlags.field n "patternId";; Ok (truthy p)) topology.

(** [deploy_service._ocp_clusters] *)
Definition ocp_clusters (topology : val) : res (list val) :=
  c <- get (v_or topology empty_dict) "clusters" VNone;; iter (v_or c empty_list).

(** [deploy_service._cluster_install_on_deploy] *)
Definition cluster_install_on_deploy (cluster : val) : res bool :=
  i <- get cluster "installOnDeploy" (VBool true);; Ok (negb (bool_decide (i = VBool false))).

(** [deploy_service._clusters_for_ocp_install] *)
Definition clusters_for_ocp_install (clusters : list val) : res (list val) :=
  filter_res cluster_install_on_deploy clusters.

(** [deploy_service._cluster_has_deferred_workers] *)
Definition cluster_has_deferred_workers (cluster : val) : res bool :=
  t <- get cluster "type" VNone;;
  if negb (eq_str t "sno") then Ok false
  else w <- get cluster "workers" VNone;; z <- py_int (v_or w (VInt 0));; Ok (0 <? z).

(** [deploy_service._should_use_ops_pod] *)
Definition should_use_ops_pod (install_via_default : string) (topology : val) : res bool :=
  clusters <- ocp_clusters topology;;
  if bool_decide (clusters = []) then Ok false
  else via <- ocp_install_via install_via_default topology;; Ok (String.eqb via "pod").

(** ** OpenShift patterns *)

Definition RECERT_COMMANDS : list string :=
  ["rm-rf /var/lib/kubelet/pki"; "rm-f /var/lib/kubelet/kubeconfig"].

(** [deploy_service._auto_enable_recert_on_rhcos:9313-9325] one node. *)
Definition wipe_kubelet_pki (vm : val) : res val :=
  '(vm, data) <- setdefault vm "data" empty_dict;;
  existing <- get data "guestfishCommands" VNone;;
  existing <- copy_list (v_or existing empty_list);;
  let commands := foldl (λ l cmd, if vmem (VStr cmd) l then l else l ++ [VStr cmd]) existing RECERT_COMMANDS in
  data <- set_item data "guestfishCommands" (VList commands);;
  old <- get data "recertEnabled" VNone;;
  data <- (if truthy old then set_item data "recertEnabled" (VBool false) else Ok data);;
  set_item vm "data" data.

(** [deploy_service._auto_enable_recert_on_rhcos]; its log line is the only use of [deploy_recert]. *)
Definition auto_enable_recert_on_rhcos (topology : val) : res val :=
  ns <- nodes_of topology;;
  rhcos <- filter_res is_rhcos_vm ns;;
  topology <- (match rhcos with [_] => apply_sno_ocp_vm_flags topology false | _ => Ok topology end);;
  map_nodes (λ n, b <- is_rhcos_vm n;; if b then wipe_kubelet_pki n else Ok n) topology.

(** ** The gateway *)

(** [deploy_service._gateway_eip_id_for_forwards] *)
Definition gateway_eip_id_for_forwards (topology node_data : val) : res string :=
  let first k l := first_some (λ x, t <- text_field x k;; Ok (if String.eqb t "" then None else Some t)) l in
  pfs <- get node_data "portForwards" VNone;;
  pfs <- iter (v_or pfs empty_list);;
  o <- first "extIpId" pfs;;
  match o with
  | Some eip => Ok eip
  | None =>
      eips <- get topology "externalIps" VNone;;
      eips <- iter (v_or eips empty_list);;
      o <- first "id" eips;;
      Ok (default "route-api" o)
  end.

(** [deploy_service._ensure_topology_ocp_api_port_forwards:8977-8988] one node. *)
Definition ensure_gateway_api_forwards (topology : val) (clusters : list val) (node : val) : res (val * bool) :=
  data <- data_of node;;
  subtype <- get data "subtype" VNone;;
  if negb (eq_str subtype "gateway") then Ok (node, false)
  else
    eip_id <- gateway_eip_id_for_forwards topology data;;
    if String.eqb eip_id "" then Ok (node, false)
    else
      pfs <- get data "portForwards" VNone;;
      pfs <- copy_list (v_or pfs empty_list);;
      pfs' <- ensure_ocp_api_port_forwards pfs eip_id clusters;;
      if bool_decide (length pfs' = length pfs) then Ok (node, false)
      else
        data <- set_item data "portForwards" (VList pfs');;
        node <- set_item node "data" data;;
        Ok (node, true).

(** [deploy_service._ensure_topology_ocp_api_port_forwards] *)
Definition ensure_topology_ocp_api_port_forwards (topology : val) : res (val * bool) :=
  clusters <- get topology "clusters" VNone;;
  clusters <- iter (v_or clusters empty_list);;
  if bool_decide (clusters = []) then Ok (topology, false)
  else
    ns <- nodes_of topology;;
    nodes <- map_res (ensure_gateway_api_forwards topology clusters) ns;;
    Ok (update_list topology "nodes" nodes.*1, existsb snd nodes).

(** [deploy_service._find_gateway_connected_network] *)
Definition find_gateway_connected_network (topology gateway_id : val) : res (option val) :=
  ns <- nodes_of topology;;
  nodes_by_id <- nodes_by_id_of ns;;
  es <- edges_of topology;;
  first_some (λ edge,
    s <- get edge "source" VNone;;
    if negb (py_eq s gateway_id) then Ok None
    else
      t <- get edge "target" vstr_empty;;
      target <- vget t nodes_by_id;;
      match target with
      | Some n => b <- Ok (truthy n) <&&> has_type n "networkNode";; Ok (if b then Some n else None)
      | None => Ok None
      end) es.

(** [deploy_service._find_gateway_ip] *)
Definition find_gateway_ip (topology : val) : res (option string) :=
  ns <- nodes_of topology;;
  gateway <- find_res (λ n, has_type n "gatewayNode") ns;;
  match gateway with
  | None => Ok None
  | Some gateway =>
      if negb (truthy gateway) then Ok None
      else
        gid <- idx gateway "id";;
        net_node <- find_gateway_connected_network topology gid;;
        match net_node with
        | None => Ok None
        | Some net_node =>
            data <- data_of net_node;;
            cidr <- get data "cidr" (VStr "192.168.1.0/24");;
            network <- ip_network cidr;;
            a <- addr_add (net_addr network) 1;;
            Ok (Some (ip_str a))
        end
  end.

(** A VM with cloud-init. *)
Definition cloud_init_vm (node : val) : res bool :=
  has_type node "vmNode" <&&> (c <- OcpFlags.field node "cloudInit";; Ok (truthy c)).

(** [node\["data"\]\[key\] = v]. *)
Definition set_data (key : string) (v : val) (node : val) : res val :=
  data <- idx node "data";; data <- set_item data key v;; set_item node "data" data.

(** [deploy_service._deploy_inject_gateway_ip] *)
Definition deploy_inject_gateway_ip (topology : val) : res val :=
  gateway_ip <- find_gateway_ip topology;;
  match gateway_ip with
  | Some (String _ _ as ip) =>
      map_nodes (λ n, b <- cloud_init_vm n;; if b then set_data "gateway_ip" (VStr ip) n else Ok n) topology
  | _ => Ok topology
  end.

(** [deploy_service._deploy_disable_guest_exec] *)
Definition deploy_disable_guest_exec (guest_exec_enabled : bool) (topology : val) : res val :=
  if guest_exec_enabled then Ok topology
  else
    map_nodes (λ n, b <- cloud_init_vm n;; if b then set_data "guestExecEnabled" (VBool false) n else Ok n)
      topology.

(** [deploy_service._collect_gateway_sg_rules] the ports opened for the gateway's forwards. *)
Definition collect_gateway_sg_rules (gateway_node : option val) : res (list Z) :=
  match gateway_node with
  | None => Ok []
  | Some g =>
      if negb (truthy g) then Ok []
      else
        mode <- OcpFlags.field g "gatewayMode";;
        if negb (eq_str mode "nat-portforward") then Ok []
        else
          data <- data_of g;;
          pfs <- get data "portForwards" empty_list;;
          pfs <- iter pfs;;
          for_each pfs [] (λ pf rules,
            p <- get pf "extPort" VNone;;
            if truthy p then p <- idx pf "extPort";; z <- py_int p;; Ok (rules ++ [z]) else Ok rules)
  end.

(** ** The BMC network *)

(** [deploy_service._deploy_validate_bmc] *)
Definition deploy_validate_bmc (topology : val) : res (option string) :=
  bmc_network_exists <- any_node "networkNode" (λ n,
    t <- OcpFlags.field n "networkType";; Ok (eq_str t "bmc")) topology;;
  if negb bmc_network_exists then Ok None
  else
    ns <- nodes_of topology;;
    missing <- for_each ns [] (λ n missing,
      b <- has_type n "vmNode"
           <&&> (e <- OcpFlags.field n "bmcEnabled";; Ok (truthy e))
           <&&> (ip <- OcpFlags.field n "bmcIp";; Ok (negb (truthy ip)));;
      if negb b then Ok missing
      else
        data <- idx n "data";;
        i <- idx n "id";;
        short <- slice8 i;;
        name <- get data "name" short;;
        Ok (missing ++ [name]));;
    match missing with
    | [] => Ok None
    | _ =>
        names <- map_res (λ v, match v with VStr s => Ok s | _ => Raise TypeError end) missing;;
        Ok (Some ("BMC-enabled VMs missing BMC IP: " +:+ join ", " names))
    end.

(** The endpoints of a VM's BMC. *)
Definition redfish_entry (ip : val) (system_id : string) : val :=
  let system := "/redfish/v1/Systems/" +:+ system_id in
  VDict
    [("ip", ip);
     ("redfish_url", VStr ("redfish-virtualmedia://" +:+ py_str ip +:+ ":8000" +:+ system));
     ("redfish_url_ssl", VStr ("redfish-virtualmedia+https://" +:+ py_str ip +:+ ":8443" +:+ system));
     ("ipmi_address", VStr (py_str ip +:+ ":623"))].

(** The object under [bmc], from the system identifier of each VM. *)
Definition bmc_object (system_id : val → res string) (bmc_config : val) : res val :=
  net <- idx bmc_config "bmc_network";;
  username <- get net "bmcUsername" (VStr "admin");;
  password <- get net "bmcPassword" (VStr "password");;
  vms <- idx bmc_config "vms";;
  vms <- iter vms;;
  entries <- for_each vms [] (λ vm m,
    node_id <- idx vm "node_id";;
    ip <- idx vm "bmc_ip";;
    i <- system_id vm;;
    key <- as_str node_id;;
    Ok (assoc_set key (redfish_entry ip i) m));;
  Ok (VDict [("username", username); ("password", password); ("vms", VDict entries)]).

(** [deploy_service._deploy_store_bmc_topology] the object stored under [bmc]. *)
Definition bmc_topology (topology bmc_config : val) : res val :=
  ns <- nodes_of topology;;
  node_map <- nodes_by_id_of ns;;
  bmc_object (λ vm,
    node_id <- idx vm "node_id";;
    node <- vget node_id node_map;;
    data <- data_of (default empty_dict node);;
    name <- idx vm "domain_name";;
    uuid <- get data "domainUuid" name;;
    Ok (py_str uuid)) bmc_config.

(** [deploy_service._finalize_kubevirt_deploy:7280-7285] the identifier read from the cluster. *)
Definition stamp_domain_uuid (uuids : list (string * string)) (node : val) : res val :=
  vm <- has_type node "vmNode";;
  if negb vm then Ok node
  else
    data <- data_of node;;
    i <- get node "id" vstr_empty;;
    vm_id <- get data "id" i;;
    vm_id <- hkey vm_id;;
    match vm_id with
    | VStr s =>
        has <- has_key "data" node;;
        match assoc s uuids with
        | Some u => if has then set_data "domainUuid" (VStr u) node else Ok node
        | None => Ok node
        end
    | _ => Ok node
    end.

(** [deploy_service._finalize_kubevirt_deploy:7287-7302] the BMC endpoints. *)
Definition kubevirt_bmc (uuids : list (string * string)) (bmc_config : option val) (topology : val) : res val :=
  match bmc_config with
  | None => Ok topology
  | Some cfg =>
      bmc <- bmc_object (λ vm,
        node_id <- idx vm "node_id";;
        node_id <- as_str node_id;;
        Ok (default ("troshka-vm-" +:+ str_take 8 node_id) (assoc node_id uuids))) cfg;;
      set_item topology "bmc" bmc
  end.

(** ** Name servers and addresses shown to the user *)

(** [deploy_service._effective_dns_ip_for_network] *)
Definition effective_dns_ip_for_network (data : val) (kubevirt : bool) : res (option string) :=
  cidr <- get data "cidr" VNone;;
  if negb (truthy cidr) then Ok None
  else
    explicit <- text_field data "dnsServerIp";;
    if negb (String.eqb explicit "") then Ok (Some explicit)
    else
      except_value_error
        (net <- ip_network cidr;;
         let octet := if kubevirt then "2" else "1" in
         Ok (Some (join "." (take 3 (split "." (ip_str (net_addr net))) ++ [octet]))))
        (Ok None).

(** [deploy_service._stamp_effective_dns_ips] one node. *)
Definition stamp_effective_dns_ip (kubevirt : bool) (node : val) : res val :=
  net <- has_type node "networkNode";;
  if negb net then Ok node
  else
    data <- get node "data" VNone;;
    let data := v_or data empty_dict in
    subtype <- get data "subtype" VNone;;
    plain <- Ok (eq_str subtype "network") <&&> (t <- get data "networkType" VNone;; Ok (negb (eq_str t "bmc")));;
    if negb plain then Ok node
    else
      effective <- effective_dns_ip_for_network data kubevirt;;
      match effective with
      | Some (String _ _ as ip) =>
          data <- set_item data "effectiveDnsIp" (VStr ip);; set_item node "data" data
      | _ => Ok node
      end.

(** [deploy_service._stamp_effective_dns_ips] *)
Definition stamp_effective_dns_ips (topology : val) (kubevirt : bool) : res val :=
  ns <- get topology "nodes" empty_list;;
  ns <- iter (v_or ns empty_list);;
  ns <- map_res (stamp_effective_dns_ip kubevirt) ns;;
  Ok (update_list topology "nodes" ns).

(** A gateway's endpoint of the showroom. *)
Definition showroom_endpoint (ep : val) : res bool :=
  n <- get ep "vmName" VNone;; Ok (eq_str n "showroom").

(** [deploy_service._showroom_route_hostname] *)
Definition showroom_route_hostname (topology : val) : res (option val) :=
  ns <- nodes_of topology;;
  first_some (λ node,
    data <- data_of node;;
    subtype <- get data "subtype" VNone;;
    if negb (eq_str subtype "gateway") then Ok None
    else
      eps <- get data "externalEndpoints" VNone;;
      eps <- iter (v_or eps empty_list);;
      first_some (λ ep,
        b <- showroom_endpoint ep <&&> (h <- get ep "hostname" VNone;; Ok (truthy h));;
        if b then h <- idx ep "hostname";; Ok (Some h) else Ok None) eps) ns.

(** [deploy_service._showroom_public_base_url:261-271] the port of the last gateway that has the
    endpoint. *)
Definition showroom_port (topology hostname : val) : res val :=
  ns <- nodes_of topology;;
  for_each ns VNone (λ node port,
    data <- get node "data" VNone;;
    let data := v_or data empty_dict in
    subtype <- get data "subtype" VNone;;
    if negb (eq_str subtype "gateway") then Ok port
    else
      eps <- get data "externalEndpoints" VNone;;
      eps <- iter (v_or eps empty_list);;
      o <- find_res (λ ep,
        showroom_endpoint ep <&&> (h <- get ep "hostname" VNone;; Ok (py_eq h hostname))) eps;;
      match o with Some ep => get ep "port" VNone | None => Ok port end).

(** [deploy_service._showroom_public_base_url] *)
Definition showroom_public_base_url (topology : val) : res string :=
  hostname <- showroom_route_hostname topology;;
  match hostname with
  | None => Ok ""
  | Some hostname =>
      port <- showroom_port topology hostname;;
      let scheme := if String.eqb (py_str (v_or port vstr_empty)) "80" then "http://" else "https://" in
      Ok (scheme +:+ py_str hostname)
  end.
