(* ===== verification/Disks.v ===== *)
(** * Disks, paths and boot order: [deploy_topology.py]

    The disks of a VM and the volumes of a container, the file names they get on
    a host, and the boot devices. *)
From stdpp Require Import prelude strings.
From Stdlib Require Import Ascii.
From S2P Require Import Prelude PyStr PyVal PyLemmas TopoNodes GatewaySync EgressRank.
From S2P Require Import TopologyExtract.

(** ** Paths

    A storage pool is its [mode]. *)
Definition shared_pool (pool : option string) : bool :=
  match pool with Some mode => startswith "shared" mode | None => false end.

(** [deploy_topology._vm_dir] *)
Definition vm_dir (project_id : string) (pool : option string) : string :=
  if shared_pool pool then "/var/lib/troshka/shared/vms/" +:+ project_id
  else "/var/lib/troshka/vms/" +:+ project_id.

(** The digits after a final [-disk-], if the text ends so. *)
Fixpoint disk_suffix (s : string) : option string :=
  if startswith "-disk-" s && isdigit (str_drop 6 s) then Some (str_drop 6 s)
  else match s with EmptyString => None | String _ s' => disk_suffix s' end.

(** [deploy_topology._short_disk_id] *)
Definition short_disk_id (disk_id : string) : string :=
  match disk_suffix disk_id with
  | Some digits => "d" +:+ digits
  | None => str_take 8 disk_id
  end.

(** [deploy_topology._disk_path] *)
Definition disk_path (project_id vm_node_id disk_node_id fmt : string) (pool : option string)
    : string :=
  let vm_part := str_take 8 vm_node_id in
  let disk_part := short_disk_id disk_node_id in
  let disk_part := if String.eqb disk_part vm_part then str_last 8 disk_node_id else disk_part in
  vm_dir project_id pool +:+ "/" +:+ vm_part +:+ "-" +:+ disk_part +:+ "." +:+ fmt.

(** [deploy_topology._seed_path] *)
Definition seed_path (project_id vm_node_id : string) (pool : option string) : string :=
  vm_dir project_id pool +:+ "/" +:+ str_take 8 vm_node_id +:+ "-seed.iso".

(** [deploy_topology._image_cache_path] *)
Definition image_cache_path (item_id fmt : string) (pool : option string) : string :=
  (if shared_pool pool then "/var/lib/troshka/shared/images/" else "/var/lib/troshka/images/")
  +:+ item_id +:+ "." +:+ fmt.

(** [deploy_topology._pattern_cache_path] *)
Definition pattern_cache_path (pattern_id disk_id fmt : string) : string :=
  "/var/lib/troshka/local/cache/patterns/" +:+ pattern_id +:+ "/" +:+ disk_id +:+ "." +:+ fmt.

(** [deploy_topology._snapshot_cache_path] *)
Definition snapshot_cache_path (item_id disk_id fmt : string) : string :=
  "/var/lib/troshka/cache/snapshots/" +:+ item_id +:+ "/" +:+ disk_id +:+ "." +:+ fmt.

(** What follows the last occurrence of a character: [s.rsplit(c, 1)\[-1\]]. *)
Definition after_last (c : ascii) (s : string) : string := List.last (split c s) "".

(** [deploy_topology._ext_from_s3_key] *)
Definition ext_from_s3_key (s3_key dflt : string) : string :=
  let tail := after_last "/" s3_key in
  if contains "." tail then after_last "." tail else dflt.

(** ** The disks of a VM *)

(** [deploy_topology._normalize_disk_port_id] *)
Definition normalize_disk_port_id (handle : string) : option string :=
  if negb (startswith "dp-" handle) then None
  else
    let body := drop_suffix ["-left"; "-right"] (str_drop 3 handle) in
    if String.eqb body "" then None
    else if startswith "dp-" body then Some body else Some ("dp-" +:+ body).

(** [deploy_topology._extract_disk_edge] *)
Definition extract_disk_edge : val → val → res (option (string * val)) := edge_handle "dp-".

(** [deploy_topology._resolve_disk_bus] *)
Definition resolve_disk_bus (vm_node_id : val) (handle : string) (nodes : list val)
    : res (val * val) :=
  vm_node <- node_with_id vm_node_id nodes;;
  match vm_node, normalize_disk_port_id handle with
  | Some vm, Some port_id =>
      d <- data_of vm;;
      dcs <- get d "diskControllers" empty_list;;
      dcs <- iter dcs;;
      o <- find_res (λ dc, i <- idx dc "id";; Ok (eq_str i port_id)) dcs;;
      match o with
      | None => Ok (VStr "virtio", VNone)
      | Some dc =>
          bus <- get dc "bus" (VStr "virtio");;
          rate <- get dc "rotationRate" VNone;;
          Ok (bus, rate)
      end
  | _, _ => Ok (VStr "virtio", VNone)
  end.

(** The storage node with an id. *)
Definition storage_node_by_id (i : val) (nodes : list val) : res (option val) :=
  find_res (λ n, j <- idx n "id";; if py_eq j i then has_type n "storageNode" else Ok false) nodes.

(** [deploy_topology._find_vm_disks:1654-1673] the entry of one disk. *)
Definition vm_disk_entry (storage_node_id sdata bus rotation_rate : val) : res val :=
  fmt <- get sdata "format" VNone;;
  iso <- get sdata "bootableIso" (VBool false);;
  record
    ([Ok ("node_id", storage_node_id);
      field sdata "name" "name" (VStr "disk");
      field sdata "size_gb" "size" (VInt 10);
      field sdata "format" "format" (VStr "qcow2");
      Ok ("bus", bus);
      field sdata "source" "source" (VStr "blank");
      field sdata "library_item_id" "libraryItemId" VNone;
      field sdata "patternId" "patternId" VNone;
      field sdata "patternDiskId" "patternDiskId" VNone;
      field sdata "snapshotItemId" "snapshotItemId" VNone] ++
     (match rotation_rate with VNone => [] | r => [Ok ("rotation_rate", r)] end) ++
     (if eq_str fmt "iso" then [Ok ("bootable_iso", VBool (truthy iso))] else [])).

(** [deploy_topology._find_vm_disks] *)
Definition find_vm_disks (vm_node_id topology : val) : res (list val) :=
  edges <- edges_of topology;;
  nodes <- nodes_of topology;;
  for_each edges [] (λ edge disks,
    o <- extract_disk_edge edge vm_node_id;;
    match o with
    | None => Ok disks
    | Some (handle, storage_node_id) =>
        s <- storage_node_by_id storage_node_id nodes;;
        match s with
        | None => Ok disks
        | Some storage_node =>
            sdata <- data_of storage_node;;
            '(bus, rotation_rate) <- resolve_disk_bus vm_node_id handle nodes;;
            e <- vm_disk_entry storage_node_id sdata bus rotation_rate;;
            Ok (disks ++ [e])
        end
    end).

(** ** Boot order *)

(** [deploy_topology._order_vm_disks_by_boot:1692-1694] the first disk of each id. *)
Definition disks_by_id (vm_disks : list val) : res (list (val * val)) :=
  for_each vm_disks [] (λ d m,
    i <- idx d "node_id";;
    o <- vget i m;;
    match o with Some _ => Ok m | None => vset i d m end).

(** [deploy_topology._order_vm_disks_by_boot:1699-1701] append a disk unless its id was seen. *)
Definition append_disk (d : val) (s : list val * list val) : res (list val * list val) :=
  let '(ordered, seen) := s in
  i <- idx d "node_id";;
  known <- vin i seen;;
  if known then Ok s
  else seen' <- vadd i seen;; Ok (ordered ++ [d], seen').

(** [deploy_topology._order_vm_disks_by_boot] *)
Definition order_vm_disks_by_boot (vm_disks : list val) (boot_devices : list val)
    : res (list val) :=
  match boot_devices with
  | [] => Ok vm_disks
  | _ =>
      by_id <- disks_by_id vm_disks;;
      s <- for_each boot_devices ([], []) (λ dev s,
        o <- vget dev by_id;;
        match o with Some d => append_disk d s | None => Ok s end);;
      '(ordered, _) <- for_each vm_disks s append_disk;;
      Ok ordered
  end.

(** [deploy_topology._auto_detect_boot_devs] *)
Definition auto_detect_boot_devs (has_iso has_disk : bool) : list string :=
  if has_iso && has_disk then ["cdrom"; "hd"]
  else if has_iso then ["cdrom"]
  else if has_disk then ["hd"]
  else ["network"].

(** [deploy_topology._map_boot_dev_entries:2039-2048] the device class of an entry. *)
Definition boot_dev_of (d : val) (storage_nodes : list (val * val)) : res (option string) :=
  _ <- hkey d;;
  if in_strs d ["hd"; "disk"] then Ok (Some "hd")
  else if in_strs d ["network"] then Ok (Some "network")
  else if in_strs d ["cdrom"] then Ok (Some "cdrom")
  else
    o <- vget d storage_nodes;;
    match o with
    | None => Ok None
    | Some n =>
        data <- data_of n;;
        fmt <- get data "format" VNone;;
        Ok (Some (if eq_str fmt "iso" then "cdrom" else "hd"))
    end.

(** [deploy_topology._map_boot_dev_entries] *)
Definition map_boot_dev_entries (raw_boot_devs : list val) (storage_nodes : list (val * val))
    (has_cdrom_controller has_bootable_iso : bool) : res (list string) :=
  boot_devs <- for_each raw_boot_devs [] (λ d boot_devs,
    o <- boot_dev_of d storage_nodes;;
    Ok (match o with
        | Some dev => if bool_decide (dev ∈ boot_devs) then boot_devs else boot_devs ++ [dev]
        | None => boot_devs
        end));;
  let boot_devs :=
    if has_cdrom_controller && has_bootable_iso && negb (bool_decide ("cdrom" ∈ boot_devs))
    then boot_devs ++ ["cdrom"] else boot_devs in
  Ok (match boot_devs with [] => ["hd"] | _ => boot_devs end).

(** [deploy_topology._resolve_boot_devs:2002-2009] what the disks and controllers offer. *)
Definition boot_media (vm : val) (vm_disks : list val) : res (bool * bool * bool) :=
  has_bootable_iso <- any_res (λ d,
    (f <- idx d "format";; Ok (eq_str f "iso")) <&&>
    (b <- get d "bootable_iso" (VBool false);; Ok (truthy b))) vm_disks;;
  has_disk <- any_res (λ d, f <- idx d "format";; Ok (negb (eq_str f "iso"))) vm_disks;;
  dcs <- get vm "disk_controllers" empty_list;;
  dcs <- iter dcs;;
  has_cdrom_controller <- any_res (λ dc,
    (b <- get dc "bus" VNone;; Ok (eq_str b "sata")) <&&>
    (n <- get dc "name" vstr_empty;; has_key "cdrom" n)) dcs;;
  Ok (has_bootable_iso, has_disk, has_cdrom_controller).

(** [deploy_topology._resolve_boot_devs] *)
Definition resolve_boot_devs (vm : val) (vm_disks : list val) (topology : val)
    : res (list string) :=
  ns <- nodes_of_type "storageNode" topology;;
  storage_nodes <- nodes_by_id_of ns;;
  raw <- get vm "boot_devices" VNone;;
  '(iso, disk, cdrom) <- boot_media vm vm_disks;;
  if negb (truthy raw) || (py_eq raw (VList [VStr "hd"]) && iso)
  then Ok (auto_detect_boot_devs iso disk)
  else l <- iter raw;; map_boot_dev_entries l storage_nodes cdrom iso.

(** ** The volumes of a container *)

(** [deploy_topology._resolve_mount_edge] *)
Definition resolve_mount_edge (edge container_node_id : val) : res (option val) :=
  src <- get edge "source" VNone;;
  tgt <- get edge "target" VNone;;
  src_h <- get edge "sourceHandle" vstr_empty;;
  tgt_h <- get edge "targetHandle" vstr_empty;;
  let mount (at_container : val) (h : val) : res bool :=
    if py_eq at_container container_node_id
    then s <- as_str (v_or h vstr_empty);; Ok (startswith "mnt-" s) else Ok false in
  a <- mount src tgt_h;;
  if a then Ok (Some tgt)
  else
    b <- mount tgt src_h;;
    if b then Ok (Some src)
    else
      c <- mount tgt tgt_h;;
      if c then Ok (Some src)
      else d <- mount src src_h;; Ok (if d then Some tgt else None).

(** The text of an id used in a path. *)
Definition id_text (v : val) : res string :=
  match v with VStr s => Ok s | _ => Raise TypeError end.

(** [deploy_topology._find_container_volumes:1803-1815] the entry of one volume. *)
Definition volume_entry (project_id : string) (container_node_id disk_node_id mount_info disk_node : val)
    (pool : option string) : res val :=
  dd <- data_of disk_node;;
  cid <- id_text container_node_id;;
  did <- id_text disk_node_id;;
  record
    [Ok ("disk_path", VStr (disk_path project_id cid did "raw" pool));
     Ok ("mount_dir", VStr (vm_dir project_id pool +:+ "/mnt-" +:+ str_take 8 did));
     field mount_info "mount_path" "mountPath" (VStr "/data");
     field dd "size_gb" "size" (VInt 10);
     Ok ("node_id", disk_node_id)].

(** [deploy_topology._find_container_volumes] *)
Definition find_container_volumes (container_node_id topology : val) (project_id : string)
    (pool : option string) : res (list val) :=
  nodes <- nodes_of topology;;
  o <- node_with_id container_node_id nodes;;
  match o with
  | None => Ok []
  | Some container_node =>
      d <- data_of container_node;;
      mounts <- get d "mounts" empty_list;;
      mounts <- iter mounts;;
      mounts_by_disk <- for_each mounts [] (λ m acc, i <- idx m "diskNodeId";; vset i m acc);;
      edges <- edges_of topology;;
      for_each edges [] (λ edge results,
        m <- resolve_mount_edge edge container_node_id;;
        match m with
        | None => Ok results
        | Some disk_node_id =>
            if negb (truthy disk_node_id) then Ok results
            else
              s <- storage_node_by_id disk_node_id nodes;;
              match s with
              | None => Ok results
              | Some disk_node =>
                  mi <- vget disk_node_id mounts_by_disk;;
                  e <- volume_entry project_id container_node_id disk_node_id
                         (default empty_dict mi) disk_node pool;;
                  Ok (results ++ [e])
              end
        end)
  end.

(** ** Boot devices *)

Definition BOOT_CLASSES : list string := ["hd"; "cdrom"; "network"].

Lemma boot_dev_class d nodes dev : boot_dev_of d nodes = Ok (Some dev) → dev ∈ BOOT_CLASSES.
Proof.
  unfold boot_dev_of. intros H. bind_inv. unfold BOOT_CLASSES.
  destruct (in_strs d ["hd"; "disk"]); [injection H as <-; set_solver|].
  destruct (in_strs d ["network"]); [injection H as <-; set_solver|].
  destruct (in_strs d ["cdrom"]); [injection H as <-; set_solver|].
  apply bind_Ok in H as ([n|] & _ & H); [|done].
  apply bind_Ok in H as (data & _ & H). apply bind_Ok in H as (fmt & _ & H).
  destruct (eq_str fmt "iso"); injection H as <-; set_solver.
Qed.

(** A list of boot devices a domain can use: none twice, known classes only. *)
Definition boot_list_ok (l : list string) : Prop := NoDup l ∧ ∀ d, d ∈ l → d ∈ BOOT_CLASSES.

Lemma boot_list_snoc l d :
  boot_list_ok l → d ∈ BOOT_CLASSES → boot_list_ok (if bool_decide (d ∈ l) then l else l ++ [d]).
Proof.
  intros [Hn Hc] Hd. case_bool_decide as Hin; [done|]. split.
  - apply NoDup_app. split_and!; [done| |apply NoDup_singleton].
    intros x Hx ->%list_elem_of_singleton. done.
  - intros x [?|?%list_elem_of_singleton]%elem_of_app; subst; auto.
Qed.

Lemma map_boot_devs_ok raw nodes cd iso devs :
  map_boot_dev_entries raw nodes cd iso = Ok devs →
  devs ≠ [] ∧ boot_list_ok devs ∧ (cd = true → iso = true → "cdrom" ∈ devs).
Proof.
  unfold map_boot_dev_entries. intros H. bind_inv. rename x into l.
  assert (Hl : boot_list_ok l).
  { eapply (for_each_inv boot_list_ok); [|split; [constructor|set_solver]|exact H0].
    intros d s s' _ Hs Hb. apply bind_Ok in Hb as ([dev|] & Hd & Hb); injection Hb as <-; [|done].
    apply boot_list_snoc; [done|]. by eapply boot_dev_class. }
  set (l' := if cd && iso && negb (bool_decide ("cdrom" ∈ l)) then l ++ ["cdrom"] else l).
  assert (Hl' : boot_list_ok l' ∧ (cd = true → iso = true → "cdrom" ∈ l')).
  { unfold l'. pose proof (boot_list_snoc l "cdrom" Hl ltac:(unfold BOOT_CLASSES; set_solver)) as Hs.
    case_bool_decide; rewrite ?andb_false_r; [done|]. destruct cd, iso; cbn; try done.
    split; [done|]. set_solver. }
  fold l'. destruct Hl' as [Hok Hcd]. destruct l' as [|d l']; [|done].
  split; [done|]. split; [|intros ? ?; by apply not_elem_of_nil in Hcd].
  split; [apply NoDup_singleton|]. intros x ->%list_elem_of_singleton. unfold BOOT_CLASSES. set_solver.
Qed.

(** Every VM gets bootable devices: the list is never empty, names no device class twice and
    only classes libvirt knows, and a VM with a bootable ISO boots from its CD-ROM whenever the
    devices are detected or a CD-ROM controller is present. *)
Theorem boot_devs_sound vm vm_disks topology devs raw iso disk cd :
  resolve_boot_devs vm vm_disks topology = Ok devs →
  get vm "boot_devices" VNone = Ok raw → boot_media vm vm_disks = Ok (iso, disk, cd) →
  devs ≠ [] ∧ NoDup devs ∧ (∀ d, d ∈ devs → d ∈ BOOT_CLASSES) ∧
  (iso = true → truthy raw = false ∨ cd = true → "cdrom" ∈ devs).
Proof.
  intros H Hraw Hm. unfold resolve_boot_devs in H. rewrite Hraw, Hm in H.
  apply bind_Ok in H as (ns & _ & H). apply bind_Ok in H as (sn & _ & H). cbn [bind] in H.
  destruct (negb (truthy raw) || (py_eq raw (VList [VStr "hd"]) && iso)) eqn:E.
  - injection H as <-. unfold auto_detect_boot_devs, BOOT_CLASSES.
    destruct iso, disk; cbn [andb]; (split; [done|]); (split; [by apply (bool_decide_unpack _)|]);
      (split; [set_solver|]); intros; try done; set_solver.
  - apply bind_Ok in H as (l & _ & H). apply map_boot_devs_ok in H as (Hne & [Hn Hc] & Hcd).
    split_and!; try done. intros Hi [Ht|Hc']; [by rewrite Ht in E|by apply Hcd].
Qed.

Definition boot_sample_disks : list val :=
  [VDict [("node_id", VStr "d1"); ("format", VStr "iso"); ("bootable_iso", VBool true)];
   VDict [("node_id", VStr "d2"); ("format", VStr "qcow2")]].

Definition boot_sample_vm : val := VDict [("boot_devices", VList [VStr "d2"; VStr "network"]);
  ("disk_controllers", VList [VDict [("bus", VStr "sata"); ("name", VStr "cdrom0")]])].

Definition boot_sample_topology : val := VDict [("nodes", VList
  [VDict [("id", VStr "d2"); ("type", VStr "storageNode"); ("data", VDict [])]])].

Lemma boot_devs_sound_witness :
  let devs := ["hd"; "network"; "cdrom"] in
  let raw := VList [VStr "d2"; VStr "network"] in
  resolve_boot_devs boot_sample_vm boot_sample_disks boot_sample_topology = Ok devs ∧
  devs ≠ [] ∧ NoDup devs ∧ (∀ d, d ∈ devs → d ∈ BOOT_CLASSES) ∧
  (true = true → truthy raw = false ∨ true = true → "cdrom" ∈ devs).
Proof.
  split; [vm_compute; reflexivity|].
  apply (boot_devs_sound boot_sample_vm boot_sample_disks boot_sample_topology _ _ true true true);
    vm_compute; reflexivity.
Defined.

(** ** Boot order *)

(** The id of a disk entry. *)
Definition disk_id (d : val) : string :=
  match idx d "node_id" with Ok (VStr s) => s | _ => "" end.

Definition has_disk_id (d : val) : Prop := idx d "node_id" = Ok (VStr (disk_id d)).

(** The disk a boot device names. *)
Definition disk_named (vm_disks : list val) (b : string) : option val :=
  List.find (λ d, String.eqb (disk_id d) b) vm_disks.

Definition ids_of (ds : list val) : list val := map (λ d, VStr (disk_id d)) ds.

Lemma elem_of_ids_of d ds : VStr (disk_id d) ∈ ids_of ds ↔ disk_id d ∈ map disk_id ds.
Proof.
  unfold ids_of. rewrite !list_elem_of_fmap. split; intros (y & Hy & Hin); exists y; split; try done;
    congruence.
Qed.

Lemma disks_by_id_spec vm_disks :
  Forall has_disk_id vm_disks →
  ∃ m, disks_by_id vm_disks = Ok m ∧ ∀ b, vlookup (VStr b) m = disk_named vm_disks b.
Proof.
  intros Hids. unfold disks_by_id.
  match goal with |- context [for_each _ _ ?f] => set (body := f) end.
  assert (Hbody : ∀ d m, has_disk_id d → body d m =
    Ok (match vlookup (VStr (disk_id d)) m with Some _ => m
        | None => vinsert (VStr (disk_id d)) d m end)).
  { intros d m Hd. unfold body. rewrite Hd. cbn. by destruct (vlookup _ _). }
  clearbody body.
  assert (H : ∀ m0, ∃ m, for_each vm_disks m0 body = Ok m ∧
    ∀ b, vlookup (VStr b) m = match vlookup (VStr b) m0 with
      Some d => Some d | None => disk_named vm_disks b end).
  2: { destruct (H []) as (m & ? & ?). by exists m. }
  induction Hids as [|d ds Hd _ IH]; intros m0.
  { exists m0. split; [done|]. intros b. by destruct (vlookup _ _). }
  cbn [for_each]. rewrite (Hbody d m0 Hd). cbn [bind].
  destruct (vlookup (VStr (disk_id d)) m0) as [d'|] eqn:E.
  - destruct (IH m0) as (m & -> & Hm). exists m. split; [done|]. intros b. rewrite Hm.
    destruct (vlookup (VStr b) m0) eqn:Eb; [done|]. unfold disk_named. simpl.
    destruct (String.eqb_spec (disk_id d) b) as [<-|]; [congruence|done].
  - destruct (IH (vinsert (VStr (disk_id d)) d m0)) as (m & Hf & Hm). exists m. split; [done|].
    intros b. rewrite Hm. unfold disk_named. simpl.
    destruct (String.eqb_spec (disk_id d) b) as [<-|Hne].
    + by rewrite vlookup_insert_eq, E.
    + rewrite vlookup_insert_ne by done. by destruct (vlookup _ _).
Qed.

Lemma append_disk_spec all d ordered :
  has_disk_id d → NoDup (map disk_id all) → d ∈ all → ordered ⊆ all →
  append_disk d (ordered, ids_of ordered) =
  let ordered' := if decide (d ∈ ordered) then ordered else ordered ++ [d] in
  Ok (ordered', ids_of ordered').
Proof.
  intros Hd Hn Hin Hsub. unfold append_disk. rewrite Hd. cbn [bind]. unfold vin, vadd.
  cbn [hkey hashable bind]. rewrite vmem_str.
  assert (Hiff : VStr (disk_id d) ∈ ids_of ordered ↔ d ∈ ordered).
  { rewrite elem_of_ids_of. split; [|apply list_elem_of_fmap_2].
    intros (d' & Heq & Hd')%list_elem_of_fmap. assert (d = d') as ->; [|done].
    apply list_elem_of_lookup in Hin as [i Hi]. apply Hsub, list_elem_of_lookup in Hd' as [j Hj].
    assert (i = j); [|congruence].
    apply (NoDup_lookup _ i j (disk_id d) Hn); rewrite list_lookup_fmap; [by rewrite Hi|].
    by rewrite Hj, Heq. }
  destruct (decide (d ∈ ordered)) as [Ho|Ho].
  - by rewrite bool_decide_eq_true_2 by by apply Hiff.
  - rewrite bool_decide_eq_false_2 by by rewrite Hiff. cbn [bind]. unfold ids_of. by rewrite map_app.
Qed.

Lemma append_disks_spec all ds ordered :
  Forall has_disk_id ds → NoDup (map disk_id all) → ds ⊆ all → ordered ⊆ all →
  for_each ds (ordered, ids_of ordered) append_disk =
  let o := foldl (λ acc x, if decide (x ∈ acc) then acc else acc ++ [x]) ordered ds in
  Ok (o, ids_of o).
Proof.
  intros Hds Hn. revert ordered. induction Hds as [|d ds Hd _ IH]; intros ordered Hs Ho; [done|].
  cbn [for_each foldl]. rewrite (append_disk_spec all) by (done || set_solver). cbn [bind].
  apply IH; [set_solver|]. case_decide; set_solver.
Qed.

Lemma named_in vm_disks b d : disk_named vm_disks b = Some d → d ∈ vm_disks.
Proof. intros [H _]%find_some. by apply list_elem_of_In. Qed.

(** Boot order only reorders disks: with distinct disk ids the ordering always succeeds and
    is a permutation of the VM's disks - the disks the boot devices name first, in boot order
    and without repetition, then all the others in their original order. *)
Theorem order_disks_by_boot_spec vm_disks boots :
  Forall has_disk_id vm_disks → NoDup (map disk_id vm_disks) →
  ∃ out, order_vm_disks_by_boot vm_disks (map VStr boots) = Ok out ∧
    out = dedup_first (omap (disk_named vm_disks) boots ++ vm_disks) ∧ out ≡ₚ vm_disks.
Proof.
  intros Hids Hn. assert (Hnd : NoDup vm_disks) by by apply NoDup_fmap_1 in Hn.
  set (out := dedup_first (omap (disk_named vm_disks) boots ++ vm_disks)).
  assert (Hsub : omap (disk_named vm_disks) boots ⊆ vm_disks).
  { intros d (b & _ & Hb)%list_elem_of_omap. by eapply named_in. }
  assert (Hperm : out ≡ₚ vm_disks).
  { apply NoDup_Permutation; [apply dedup_first_NoDup|done|]. intros d. unfold out.
    rewrite elem_of_dedup_first. set_solver. }
  exists out. split; [|done]. unfold order_vm_disks_by_boot.
  destruct boots as [|b boots]; [unfold out; cbn [omap list_omap app map]; by rewrite dedup_first_id|].
  cbn [map]. destruct (disks_by_id_spec vm_disks Hids) as (m & -> & Hm). cbn [bind].
  change (VStr b :: map VStr boots) with (map VStr (b :: boots)).
  assert (Hloop : ∀ bs ordered, ordered ⊆ vm_disks →
    for_each (map VStr bs) (ordered, ids_of ordered) (λ dev s,
      o <- vget dev m;; match o with Some d => append_disk d s | None => Ok s end) =
    for_each (omap (disk_named vm_disks) bs) (ordered, ids_of ordered) append_disk).
  { clear -Hm Hids Hn. induction bs as [|b bs IH]; intros ordered Ho; [done|].
    cbn [map for_each omap list_omap]. unfold vget. cbn [hkey hashable bind]. rewrite Hm.
    destruct (disk_named vm_disks b) as [d|] eqn:E; [|cbn [bind]; by apply IH].
    cbn [for_each]. pose proof (named_in _ _ _ E) as Hd.
    rewrite (append_disk_spec vm_disks) by (done || by eapply Forall_forall in Hids).
    cbn [bind]. apply IH. case_decide; set_solver. }
  change (@nil val, @nil val) with (@nil val, ids_of []).
  rewrite (Hloop (b :: boots) []) by set_solver.
  assert (Hnamed : Forall has_disk_id (omap (disk_named vm_disks) (b :: boots))).
  { apply Forall_forall. intros d Hd%Hsub. by eapply Forall_forall in Hids. }
  rewrite (append_disks_spec vm_disks) by (done || set_solver). cbn [bind].
  rewrite (append_disks_spec vm_disks).
  - cbn [bind]. unfold out, dedup_first. by rewrite foldl_app.
  - done.
  - done.
  - done.
  - intros d Hd. apply (dedup_first_acc _ []) in Hd as [?|?]; [set_solver|by apply Hsub].
Qed.

Definition order_sample : list val :=
  [VDict [("node_id", VStr "d1")]; VDict [("node_id", VStr "d2")]; VDict [("node_id", VStr "d3")]].

Lemma order_disks_by_boot_spec_witness :
  order_vm_disks_by_boot order_sample (map VStr ["network"; "d3"; "d3"]) =
    Ok [VDict [("node_id", VStr "d3")]; VDict [("node_id", VStr "d1")]; VDict [("node_id", VStr "d2")]] ∧
  ∃ out, order_vm_disks_by_boot order_sample (map VStr ["network"; "d3"; "d3"]) = Ok out ∧
    out = dedup_first (omap (disk_named order_sample) ["network"; "d3"; "d3"] ++ order_sample) ∧
    out ≡ₚ order_sample.
Proof.
  split; [vm_compute; reflexivity|]. apply order_disks_by_boot_spec.
  - repeat constructor.
  - apply (bool_decide_unpack _). vm_compute. exact I.
Defined.

(** The members of a cluster on the canvas share their first eight characters, so their first
    disks get the same file and their seed images too. *)
Lemma cluster_member_disks_collide :
  disk_path "p" "ocp-5423-cp-0" "ocp-5423-cp-0-disk-0" "qcow2" None =
  disk_path "p" "ocp-5423-cp-1" "ocp-5423-cp-1-disk-0" "qcow2" None ∧
  seed_path "p" "ocp-5423-cp-0" None = seed_path "p" "ocp-5423-cp-1" None.
Proof. split; vm_compute; reflexivity. Qed.
