(* ===== verification/DiffTopology.v ===== *)
(** * Differences between topologies and TroshkaVM specs: [deploy_topology.py]

    What changed between the canvas and the deployed topology, which VMs must be
    redeployed, and the TroshkaVM custom resource built for a VM. *)
From stdpp Require Import prelude strings.
From S2P Require Import Prelude PyStr PyVal PyLemmas TopoNodes TopologyValidate GatewaySync.
From S2P Require Import EgressRank TopologyExtract Disks.

(** ** Differences *)

(** [deploy_topology._find_ceph_node] *)
Definition find_ceph_node (topology : val) : res (option val) :=
  ns <- get topology "nodes" VNone;;
  ns <- iter (v_or ns empty_list);;
  find_res (λ n, has_type n "cephClusterNode") ns.

(** Equality of [json.dumps(..., sort_keys=True)]: as Python's equality, except
    that [true] is not [1]. *)
Fixpoint json_eq (a b : val) {struct a} : bool :=
  match a, b with
  | VNone, VNone => true
  | VBool x, VBool y => Bool.eqb x y
  | VInt x, VInt y => x =? y
  | VStr x, VStr y => String.eqb x y
  | VList l1, VList l2 =>
      (fix go l1 l2 := match l1, l2 with
       | [], [] => true
       | x :: l1', y :: l2' => json_eq x y && go l1' l2'
       | _, _ => false
       end) l1 l2
  | VDict d1, VDict d2 =>
      (length d1 =? length d2)%nat &&
      (fix go d := match d with
       | [] => true
       | (k, v) :: d' =>
           match assoc k d2 with Some w => json_eq v w | None => false end && go d'
       end) d1
  | _, _ => false
  end.

(** [deploy_topology._ceph_data_changed] *)
Definition ceph_data_changed (current deployed : val) : res bool :=
  cur <- find_ceph_node current;;
  dep <- find_ceph_node deployed;;
  match cur, dep with
  | None, None => Ok false
  | Some c, Some d =>
      cd <- dict_field c "data";;
      dd <- dict_field d "data";;
      Ok (negb (json_eq cd dd))
  | _, _ => Ok true
  end.

(** [deploy_topology._categorize_new_nodes] *)
Definition categorize_new_nodes (source reference : list (val * val))
    : res (list val * list val) :=
  for_each source ([], []) (λ '(nid, node) '(vms, networks),
    if bool_decide (is_Some (vlookup nid reference)) then Ok (vms, networks)
    else
      ntype <- type_of node;;
      Ok (if eq_str ntype "vmNode" then (vms ++ [node], networks)
          else if eq_str ntype "networkNode" then (vms, networks ++ [node])
          else (vms, networks))).

(** The display state of a VM, not compared. *)
Definition skip_keys : list string := ["status"; "redeployStep"; "redeployDetail"; "liveBootDevs"].

Definition compared_data (node : val) : res val :=
  d <- data_of node;;
  kvs <- items d;;
  Ok (VDict (List.filter (λ p, negb (bool_decide (p.1 ∈ skip_keys))) kvs)).

(** [deploy_topology._find_changed_vms] *)
Definition find_changed_vms (cur_nodes dep_nodes : list (val * val)) : res (list val) :=
  for_each cur_nodes [] (λ '(nid, node) changed,
    match vlookup nid dep_nodes with
    | None => Ok changed
    | Some dep =>
        t <- has_type node "vmNode";;
        if negb t then Ok changed
        else
          cur_data <- compared_data node;;
          dep_data <- compared_data dep;;
          Ok (if py_eq cur_data dep_data then changed else changed ++ [node])
    end).

(** The result of [diff_topologies]; the two Ceph flags by their truth value. *)
Record topology_diff := mkDiff {
  added_vms : list val;
  removed_vms : list val;
  changed_vms : list val;
  added_networks : list val;
  removed_networks : list val;
  ceph_added : bool;
  ceph_removed : bool;
  ceph_changed : bool
}.

Definition nonempty {A} (l : list A) : bool := match l with [] => false | _ => true end.

(** [deploy_topology.diff_topologies:2099-2108] *)
Definition has_changes (d : topology_diff) : bool :=
  nonempty (added_vms d) || nonempty (removed_vms d) || nonempty (changed_vms d) ||
  nonempty (added_networks d) || nonempty (removed_networks d) ||
  ceph_added d || ceph_removed d || ceph_changed d.

Definition is_some {A} (o : option A) : bool := match o with Some _ => true | None => false end.

(** [deploy_topology.diff_topologies] *)
Definition diff_topologies (current deployed : val) : res topology_diff :=
  cn <- nodes_of current;;
  cur_nodes <- nodes_by_id_of cn;;
  dn <- nodes_of deployed;;
  dep_nodes <- nodes_by_id_of dn;;
  '(add_vms, add_nets) <- categorize_new_nodes cur_nodes dep_nodes;;
  '(rem_vms, rem_nets) <- categorize_new_nodes dep_nodes cur_nodes;;
  changed <- find_changed_vms cur_nodes dep_nodes;;
  cc <- find_ceph_node current;;
  dc <- find_ceph_node deployed;;
  ceph <- ceph_data_changed current deployed;;
  Ok (mkDiff add_vms rem_vms changed add_nets rem_nets
        (is_some cc && negb (is_some dc)) (is_some dc && negb (is_some cc)) ceph).

(** ** Redeployment *)

(** [deploy_topology._normalize_disk_controllers] *)
Definition normalize_disk_controllers (controllers : val) : res val :=
  l <- iter (v_or controllers empty_list);;
  ks <- map_res (λ dc,
    i <- get dc "id" VNone;;
    r <- record [Ok ("id", i); field dc "bus" "bus" (VStr "virtio");
                 field dc "rotationRate" "rotationRate" VNone];;
    Ok (v_or i vstr_empty, r)) l;;
  l' <- sort_keyed ks;;
  Ok (VList l').

(** [deploy_topology._vm_redeploy_spec] *)
Definition vm_redeploy_spec (data : val) : res val :=
  smbios <- get data "smbiosUuid" VNone;;
  uuid <- get data "uuid" VNone;;
  domain <- get data "domainUuid" VNone;;
  dcs <- get data "diskControllers" VNone;;
  dcs <- normalize_disk_controllers dcs;;
  record
    [field data "firmware" "firmware" (VStr "bios");
     field data "secureBoot" "secureBoot" (VBool false);
     field data "videoModel" "videoModel" (VStr "virtio");
     field data "inputModel" "inputModel" (VStr "virtio");
     Ok ("smbiosUuid", v_or (v_or smbios uuid) domain);
     Ok ("diskControllers", dcs);
     field data "pxeBootIsoId" "pxeBootIsoId" VNone;
     field data "pxeBootIsoName" "pxeBootIsoName" VNone].

(** [deploy_topology.vm_ids_needing_redeploy] *)
Definition vm_ids_needing_redeploy (current deployed : val) : res (list val) :=
  cn <- nodes_of_type "vmNode" current;;
  cur_nodes <- nodes_by_id_of cn;;
  dn <- nodes_of_type "vmNode" deployed;;
  dep_nodes <- nodes_by_id_of dn;;
  for_each cur_nodes [] (λ '(nid, node) need,
    match vlookup nid dep_nodes with
    | None => Ok need
    | Some dep =>
        cur <- data_of node;;
        d <- data_of dep;;
        a <- vm_redeploy_spec cur;;
        b <- vm_redeploy_spec d;;
        if py_eq a b then Ok need else vadd nid need
    end).

(** ** TroshkaVM specs *)

(** [deploy_topology._storage_node_data] *)
Definition storage_node_data (topology storage_id : val) : res val :=
  ns <- nodes_of topology;;
  o <- find_res (λ n,
    i <- get n "id" VNone;;
    if py_eq i storage_id then has_type n "storageNode" else Ok false) ns;;
  match o with Some n => data_of n | None => Ok empty_dict end.

(** [deploy_topology._merge_disk_storage_data] *)
Definition merge_disk_storage_data (disk topology : val) : res val :=
  storage_id <- get disk "node_id" vstr_empty;;
  d <- storage_node_data topology storage_id;;
  sd <- copy_dict d;;
  p <- get disk "resolvedS3Path" VNone;;
  q <- get sd "resolvedS3Path" VNone;;
  sd <- (if truthy p && negb (truthy q) then set_item sd "resolvedS3Path" p else Ok sd);;
  c <- get disk "centralSource" VNone;;
  hc <- has_key "centralSource" sd;;
  sd <- (if bool_decide (c ≠ VNone) && negb hc then set_item sd "centralSource" c else Ok sd);;
  s <- get disk "diskSource" VNone;;
  hs <- has_key "diskSource" sd;;
  if truthy s && negb hs then set_item sd "diskSource" s else Ok sd.

(** [spec\["sourceSizeGb"\] = n] when positive. *)
Definition with_source_size (spec : val) (source_size_gb : Z) : res val :=
  if 0 <? source_size_gb then set_item spec "sourceSizeGb" (VInt source_size_gb) else Ok spec.

(** [deploy_topology._apply_pattern_disk_image]: [None] when it does not apply. *)
Definition apply_pattern_disk_image (spec disk sd central : val) (source_size_gb : Z)
    : res (option val) :=
  a <- get disk "patternId" VNone;;
  b <- get sd "patternId" VNone;;
  if negb (truthy a || truthy b) then Ok None
  else
    let pattern_id := v_or a b in
    did <- get sd "patternDiskId" vstr_empty;;
    p <- get sd "resolvedS3Path" VNone;;
    src <- get sd "diskSource" (VStr "central");;
    let path := v_or p (VStr ("patterns/" +:+ py_str pattern_id +:+ "/" +:+ py_str did +:+ ".qcow2")) in
    spec <- set_item spec "patternImage"
              (VDict [("s3Path", path); ("format", VStr "qcow2"); ("central", central);
                      ("source", src)]);;
    spec <- with_source_size spec source_size_gb;;
    Ok (Some spec).

(** [deploy_topology._apply_library_disk_image] *)
Definition apply_library_disk_image (spec disk sd fmt central : val) (source_size_gb : Z)
    : res (option val) :=
  a <- get disk "library_item_id" VNone;;
  b <- get disk "libraryItemId" VNone;;
  c <- get sd "libraryItemId" VNone;;
  let lib_id := v_or (v_or a b) c in
  if negb (truthy lib_id) then Ok None
  else
    p <- get sd "resolvedS3Path" VNone;;
    let path := v_or p (VStr ("library/" +:+ py_str lib_id +:+ "." +:+ py_str fmt)) in
    spec <- set_item spec "libraryImage"
              (VDict [("s3Path", path); ("format", fmt); ("central", central)]);;
    spec <- with_source_size spec source_size_gb;;
    Ok (Some spec).

(** [deploy_topology._apply_disk_image_source] *)
Definition apply_disk_image_source (spec disk sd source fmt central : val) : res val :=
  n <- get sd "sourceSizeGb" (VInt 0);;
  source_size_gb <- py_int (v_or n (VInt 0));;
  o <- (if eq_str source "pattern"
        then apply_pattern_disk_image spec disk sd central source_size_gb else Ok None);;
  match o with
  | Some spec => Ok spec
  | None =>
      o <- (if eq_str source "library"
            then apply_library_disk_image spec disk sd fmt central source_size_gb else Ok None);;
      match o with
      | Some spec => Ok spec
      | None =>
          p <- get sd "resolvedS3Path" VNone;;
          if eq_str source "snapshot" && truthy p
          then set_item spec "libraryImage"
                 (VDict [("s3Path", p); ("format", fmt); ("central", central)])
          else set_item spec "blank" (VBool true)
      end
  end.

(** [deploy_topology.build_troshkavm_disk_spec] *)
Definition build_troshkavm_disk_spec (disk topology : val) : res val :=
  storage_id <- get disk "node_id" vstr_empty;;
  sd <- merge_disk_storage_data disk topology;;
  sd_fmt <- get sd "format" (VStr "qcow2");;
  fmt <- get disk "format" sd_fmt;;
  sd_size <- get sd "size" (VInt 20);;
  size <- get disk "size" sd_size;;
  size_gb <- get disk "size_gb" size;;
  a <- get disk "source" VNone;;
  b <- get sd "source" (VStr "blank");;
  central <- get sd "centralSource" (VBool false);;
  n <- (if truthy size_gb then py_int size_gb else Ok 20);;
  bus <- get disk "bus" (VStr "virtio");;
  rate <- get disk "rotation_rate" VNone;;
  let spec := VDict ([("id", storage_id); ("sizeGb", VInt n); ("bus", bus); ("format", fmt)] ++
                     match rate with VNone => [] | r => [("rotationRate", r)] end) in
  apply_disk_image_source spec disk sd (v_or a b) fmt central.

(** [deploy_topology._nic_network_ref] *)
Definition nic_network_ref (nic_id topology : val) : res string :=
  ns <- nodes_of topology;;
  nodes_by_id <- nodes_by_id_of ns;;
  nic_map <- build_nic_to_network_map topology nodes_by_id;;
  o <- vget nic_id nic_map;;
  let net_node_id := default vstr_empty o in
  if negb (truthy net_node_id) then Ok ""
  else s <- slice8 net_node_id;; Ok ("net-" +:+ py_str s).

(** [deploy_topology.build_troshkavm_nic_specs] *)
Definition build_troshkavm_nic_specs (vm_data topology : val) : res (list val) :=
  nics <- get vm_data "nics" empty_list;;
  nics <- iter nics;;
  map_res (λ nic,
    i <- get nic "id" vstr_empty;;
    entry <- record [Ok ("id", i); field nic "mac" "mac" vstr_empty;
                     field nic "model" "model" (VStr "virtio")];;
    if negb (truthy topology) then Ok entry
    else
      net_ref <- nic_network_ref i topology;;
      if String.eqb net_ref "" then Ok entry
      else set_item entry "networkRef" (VStr net_ref)) nics.

(** [deploy_topology._resolve_vm_firmware] *)
Definition resolve_vm_firmware (vm vm_data : val) : res val :=
  a <- get vm "firmware" VNone;;
  b <- get vm_data "firmware" (VStr "bios");;
  let firmware := v_or a b in
  secure <- get vm_data "secureBoot" VNone;;
  Ok (if eq_str firmware "uefi" && truthy secure then VStr "uefi-secure" else firmware).

(** [deploy_topology.build_troshkavm_vm_spec:2311-2326] the optional fields. *)
Definition optional_vm_fields (vm_data : val) : res (list (string * val)) :=
  headless <- get vm_data "headless" VNone;;
  bmc_ip <- get vm_data "bmcIp" VNone;;
  guestfish <- get vm_data "guestfishCommands" VNone;;
  legacy <- get vm_data "legacyRootBus" VNone;;
  nested <- get vm_data "nestedVirt" VNone;;
  p <- get vm_data "pxeBootIsoS3Path" VNone;;
  q <- get vm_data "pxeBootIsoResolvedPath" VNone;;
  iso <- get vm_data "pxeBootIsoId" VNone;;
  let pxe_path := v_or p q in
  Ok ((match headless with VNone => [] | h => [("headless", VBool (truthy h))] end) ++
      (if truthy bmc_ip then [("bmcIp", bmc_ip)] else []) ++
      (if truthy guestfish then [("guestfishCommands", guestfish)] else []) ++
      (if truthy legacy then [("legacyRootBus", VBool true)] else []) ++
      (if truthy nested then [("nestedVirt", VBool true)] else []) ++
      (if truthy iso && truthy pxe_path
       then [("cdrom", VDict [("libraryIsoId", iso); ("s3Path", pxe_path)])] else [])).

(** [deploy_topology.build_troshkavm_vm_spec] *)
Definition build_troshkavm_vm_spec (vm_id vm topology : val) : res val :=
  ns <- nodes_of topology;;
  o <- find_res (λ n,
    i <- get n "id" VNone;;
    if py_eq i vm_id then has_type n "vmNode" else Ok false) ns;;
  vm_data <- (match o with Some n => data_of n | None => Ok empty_dict end);;
  disks <- find_vm_disks vm_id topology;;
  boot <- get vm_data "bootDevices" empty_list;;
  boot_devices <- (if truthy boot then iter boot else Ok []);;
  disks <- order_vm_disks_by_boot disks boot_devices;;
  disk_specs <- map_res (λ d, build_troshkavm_disk_spec d topology) disks;;
  ram <- get vm "ram_gb" (VInt 4);;
  ram <- num ram;;
  firmware <- resolve_vm_firmware vm vm_data;;
  smbios <- get vm_data "smbiosUuid" VNone;;
  domain <- get vm_data "domainUuid" vstr_empty;;
  nic_specs <- build_troshkavm_nic_specs vm_data topology;;
  ci_gen <- get vm_data "ciGeneratedUserData" vstr_empty;;
  ci_user <- get vm_data "ciUserData" vstr_empty;;
  ci_net <- get vm_data "ciNetworkConfig" vstr_empty;;
  spec <- record
    [field vm_data "vmId" "id" vm_id;
     field vm "name" "name" (VStr "vm");
     field vm "cpus" "vcpus" (VInt 2);
     Ok ("memory", VInt (ram * 1024));
     Ok ("firmware", firmware);
     Ok ("smbiosUuid", v_or smbios domain);
     field vm "os" "os" vstr_empty;
     field vm_data "powerOnAtDeploy" "powerOnAtDeploy" (VBool true);
     field vm_data "recertEnabled" "recertEnabled" (VBool false);
     field vm_data "ocpMonitor" "ocpMonitor" (VBool false);
     field vm_data "configureBastionBrowser" "configureBastionBrowser" (VBool false);
     field vm_data "bmcEnabled" "bmcEnabled" (VBool false);
     field vm_data "videoModel" "videoModel" (VStr "virtio");
     field vm_data "inputModel" "inputModel" (VStr "virtio");
     field vm_data "serialModel" "serialModel" (VStr "isa");
     field vm_data "serialConsole" "serialConsole" (VBool true);
     field vm_data "serialExecType" "serialExecType" vstr_empty;
     Ok ("disks", VList disk_specs);
     Ok ("nics", VList nic_specs);
     field vm_data "bootOrder" "bootDevices" empty_list;
     Ok ("cloudInit", VDict [("userData", v_or ci_gen ci_user); ("networkConfig", ci_net)])];;
  extra <- optional_vm_fields vm_data;;
  kvs <- items spec;;
  Ok (VDict (kvs ++ extra)).

Definition KUBEVIRT_UNSUPPORTED_DISK_BUSES : list string := ["ide"].

(** [deploy_topology.validate_kubevirt_vm_disk_buses:2346-2359] the check without a
    capability report. *)
Definition validate_kubevirt_vm_disk_buses (current : val) (vm_ids : list val)
    : res (option string) :=
  l <- extract_vms current;;
  vms <- for_each l [] (λ v m, i <- idx v "node_id";; vset i v m);;
  first_some (λ vm_id,
    o <- vget vm_id vms;;
    match o with
    | None => Ok None
    | Some vm =>
        spec <- build_troshkavm_vm_spec vm_id vm current;;
        disks <- get spec "disks" empty_list;;
        disks <- iter disks;;
        first_some (λ disk,
          bus <- get disk "bus" (VStr "virtio");;
          bus <- hkey bus;;
          if negb (in_strs bus KUBEVIRT_UNSUPPORTED_DISK_BUSES) then Ok None
          else
            short <- slice8 vm_id;;
            name <- get vm "name" short;;
            Ok (Some ("VM " +:+ py_str name +:+ ": " +:+ upper (py_str bus) +:+
                      " disk bus is not supported on KubeVirt"))) disks
    end) vm_ids.

(** ** The difference is exact *)

Notation keyed := (map (λ n, (VStr (node_key n), n))).

(** Nodes of a type whose id the other topology does not have. *)
Definition only_in (t : string) (ns other : list val) : list val :=
  List.filter (λ n, is_of_type t n && negb (bool_decide (node_key n ∈ map node_key other))) ns.

Lemma keyed_missing ns s :
  bool_decide (is_Some (vlookup (VStr s) (keyed ns))) = bool_decide (s ∈ map node_key ns).
Proof.
  rewrite vlookup_keyed. apply bool_decide_ext.
  destruct (List.find _ ns) as [n|] eqn:E.
  - apply find_keyed_Some in E as [Hin <-]. split; [intros _|by eexists].
    by apply (list_elem_of_fmap_2 node_key).
  - apply find_keyed_None in E. split; [by intros [? ?]|done].
Qed.

Lemma type_exclusive n a b : a ≠ b → is_of_type a n = true → is_of_type b n = false.
Proof.
  unfold is_of_type, has_type. intros Hne. destruct (type_of n) as [ty|]; cbn; [|done].
  intros ->%eq_str_true. rewrite eq_str_str. by apply bool_decide_eq_false.
Qed.

Lemma categorize_spec ns other :
  Forall wf_node ns →
  categorize_new_nodes (keyed ns) (keyed other) =
  Ok (only_in "vmNode" ns other, only_in "networkNode" ns other).
Proof.
  intros Hwf. unfold categorize_new_nodes.
  match goal with |- for_each _ _ ?f = _ => set (body := f) end.
  assert (Hb : ∀ n s, wf_node n → body (VStr (node_key n), n) s =
    Ok (s.1 ++ only_in "vmNode" [n] other, s.2 ++ only_in "networkNode" [n] other)).
  { intros n [vms nets] Hn. unfold body, only_in. cbn [List.filter fst snd].
    rewrite keyed_missing. pose proof (wf_node_is_of_type n "vmNode" Hn) as Hv.
    pose proof (wf_node_is_of_type n "networkNode" Hn) as Hw. unfold has_type in Hv, Hw.
    destruct (bool_decide _); [by rewrite !andb_false_r, !app_nil_r|]. rewrite !andb_true_r.
    destruct (type_of n) as [ty|]; [|done]. cbn in *. injection Hv as ->. injection Hw as ->.
    pose proof (type_exclusive n "vmNode" "networkNode" ltac:(done)).
    destruct (is_of_type "vmNode" n); [rewrite H by done; by rewrite app_nil_r|].
    destruct (is_of_type "networkNode" n); by rewrite ?app_nil_r. }
  clearbody body.
  assert (H : ∀ s, for_each (keyed ns) s body =
    Ok (s.1 ++ only_in "vmNode" ns other, s.2 ++ only_in "networkNode" ns other)).
  2: { apply (H ([], [])). }
  induction Hwf as [|n ns Hn _ IH]; intros s; [cbn; rewrite !app_nil_r; by destruct s|].
  cbn [map for_each]. rewrite Hb by done. cbn [bind]. rewrite IH. cbn [fst snd].
  unfold only_in. cbn [List.filter]. rewrite <-!app_assoc.
  destruct (is_of_type "vmNode" n && _), (is_of_type "networkNode" n && _); done.
Qed.

Lemma wf_compared_data n : wf_node n → ∃ d, data_of n = Ok (VDict d) ∧ compared_data n =
  Ok (VDict (List.filter (λ p, negb (bool_decide (p.1 ∈ skip_keys))) d)).
Proof. intros [d Hd]%wf_node_data. exists d. unfold compared_data. by rewrite Hd. Qed.

(** The VM node [n] differs from the deployed one. *)
Definition vm_differs (deployed : list val) (n : val) : Prop :=
  is_of_type "vmNode" n = true ∧ ∃ n' a b, n' ∈ deployed ∧ node_key n' = node_key n ∧
    compared_data n = Ok a ∧ compared_data n' = Ok b ∧ py_eq a b = false.

Lemma find_changed_spec ns other :
  Forall wf_node ns → Forall wf_node other → NoDup (map node_key other) →
  ∃ ch, find_changed_vms (keyed ns) (keyed other) = Ok ch ∧
    ∀ n, n ∈ ch ↔ n ∈ ns ∧ vm_differs other n.
Proof.
  intros Hwf Hwo Hnd. unfold find_changed_vms.
  match goal with |- context [for_each _ _ ?f] => set (body := f) end.
  assert (Hb : ∀ n s, wf_node n → (body (VStr (node_key n), n) s = Ok s ∧ ¬ vm_differs other n) ∨
    (body (VStr (node_key n), n) s = Ok (s ++ [n]) ∧ vm_differs other n)).
  { intros n s Hn. unfold body, vm_differs. rewrite vlookup_keyed.
    rewrite (wf_node_is_of_type n "vmNode" Hn). cbn [bind].
    destruct (List.find _ other) as [n'|] eqn:E.
    - apply find_keyed_Some in E as [Hin Hk]. destruct (is_of_type "vmNode" n); cbn [negb];
        [|left; split; [done|by intros [? _]]].
      assert (Hn' : wf_node n') by by eapply Forall_forall in Hwo.
      destruct (wf_compared_data n Hn) as (d & _ & Hd). destruct (wf_compared_data n' Hn') as (d' & _ & Hd').
      rewrite Hd, Hd'. cbn [bind]. destruct (py_eq _ _) eqn:Ep; [left|right]; (split; [done|]).
      + intros (_ & n2 & a & b & Hin2 & Hk2 & Ha & Hb & Hne). assert (n2 = n') as ->.
        { pose proof (find_keyed_unique _ _ Hnd Hin) as F1. pose proof (find_keyed_unique _ _ Hnd Hin2) as F2.
          rewrite Hk2, <-Hk in F2. congruence. }
        rewrite Hd' in Hb. simplify_eq. by rewrite Ep in Hne.
      + split; [done|]. by eexists n', _, _.
    - left. split; [done|]. apply find_keyed_None in E. intros (_ & n' & _ & _ & Hin & Hk & _).
      apply E. rewrite <-Hk. by apply (list_elem_of_fmap_2 node_key). }
  clearbody body.
  assert (H : ∀ s, ∃ ch, for_each (keyed ns) s body = Ok ch ∧
    ∀ n, n ∈ ch ↔ n ∈ s ∨ n ∈ ns ∧ vm_differs other n).
  2: { destruct (H []) as (ch & ? & Hc). exists ch. split; [done|]. intros n. rewrite Hc. set_solver. }
  induction Hwf as [|n ns Hn _ IH]; intros s; [exists s; set_solver|].
  cbn [map for_each]. destruct (Hb n s Hn) as [[-> Hd]|[-> Hd]]; cbn [bind].
  - destruct (IH s) as (ch & ? & Hc). exists ch. split; [done|]. intros m. rewrite Hc. set_solver.
  - destruct (IH (s ++ [n])) as (ch & ? & Hc). exists ch. split; [done|]. intros m. rewrite Hc. set_solver.
Qed.

(** On a well-formed topology the Ceph comparison never fails. *)
Lemma find_ceph_ok t kvs ns :
  t = VDict kvs → default empty_list (assoc "nodes" kvs) = VList ns → Forall wf_node ns →
  find_ceph_node t = Ok (List.find (is_of_type "cephClusterNode") ns).
Proof.
  intros -> Hns Hwf. unfold find_ceph_node. cbn.
  assert (iter (v_or (default VNone (assoc "nodes" kvs)) empty_list) = Ok ns) as ->.
  { destruct (assoc "nodes" kvs) as [v|]; cbn in Hns |- *; unfold empty_list in *; simplify_eq; [|done].
    by destruct ns. }
  cbn. clear Hns. induction Hwf as [|n ns Hn _ IH]; [done|]. cbn.
  rewrite (wf_node_is_of_type n _ Hn). cbn. by destruct (is_of_type _ n).
Qed.

Lemma wf_dict_field n : wf_node n → ∃ d, dict_field n "data" = Ok (VDict d) ∧
  (data_of n = Ok (VDict d)).
Proof.
  intros (kvs & i & -> & _ & d & Hd). unfold dict_field, data_of. cbn.
  destruct (assoc "data" kvs) as [v|]; cbn in *; subst; [|by exists []].
  exists d. split; [|done]. by destruct d.
Qed.

(** C40: The difference of two well-formed topologies is always computed and exact: the added
    and removed VMs and networks are those only one side has, in canvas order; a VM is
    changed exactly when both sides have it and its data differ outside the display state;
    and when no change is reported neither a VM nor the Ceph data differ. *)
Theorem diff_topologies_exact current deployed cn dn :
  wf_topology current → wf_topology deployed →
  nodes_of current = Ok cn → nodes_of deployed = Ok dn →
  NoDup (map node_key cn) → NoDup (map node_key dn) →
  ∃ d, diff_topologies current deployed = Ok d ∧
    added_vms d = only_in "vmNode" cn dn ∧ removed_vms d = only_in "vmNode" dn cn ∧
    added_networks d = only_in "networkNode" cn dn ∧
    removed_networks d = only_in "networkNode" dn cn ∧
    (∀ n, n ∈ changed_vms d ↔ n ∈ cn ∧ vm_differs dn n) ∧
    (has_changes d = false → ceph_data_changed current deployed = Ok false ∧
       ∀ n, n ∈ cn → ¬ vm_differs dn n).
Proof.
  intros (kc & cns & ces & Hc & Hcn & _ & Fc & _) (kd & dns & des & Hd & Hdn & _ & Fd & _) Hnc Hnd Uc Ud.
  pose proof (find_ceph_ok _ _ _ Hc Hcn Fc) as Hcc. pose proof (find_ceph_ok _ _ _ Hd Hdn Fd) as Hdc.
  assert (cns = cn) as -> by (subst; unfold nodes_of in Hnc; cbn in Hnc; rewrite Hcn in Hnc; by injection Hnc).
  assert (dns = dn) as -> by (subst; unfold nodes_of in Hnd; cbn in Hnd; rewrite Hdn in Hnd; by injection Hnd).
  destruct (find_changed_spec cn dn Fc Fd Ud) as (ch & Hch & Hspec).
  assert (Hceph : ∃ c, ceph_data_changed current deployed = Ok c).
  { unfold ceph_data_changed. rewrite Hcc, Hdc. cbn [bind].
    destruct (List.find _ cn) as [n|] eqn:E1, (List.find _ dn) as [m|] eqn:E2; try by eexists.
    apply find_some in E1 as [H1%list_elem_of_In _], E2 as [H2%list_elem_of_In _].
    rewrite Forall_forall in Fc, Fd.
    destruct (wf_dict_field n (Fc _ H1)) as (? & -> & _), (wf_dict_field m (Fd _ H2)) as (? & -> & _).
    by eexists. }
  destruct Hceph as [c Hc'].
  eexists. split.
  { unfold diff_topologies. rewrite Hnc, Hnd. cbn [bind].
    rewrite !nodes_by_id_keyed by done. cbn [bind]. rewrite !categorize_spec by done. cbn [bind].
    rewrite Hch, Hcc, Hdc, Hc'. cbn [bind]. reflexivity. }
  cbn. split_and!; try done. rewrite Hc'.
  unfold has_changes. cbn. rewrite !orb_false_iff. intros [[[[[[[_ _] Hn] _] _] _] _] ->].
  split; [done|]. intros n Hn1 Hn2. assert (Hin : n ∈ ch) by (by apply Hspec).
  destruct ch; [by apply elem_of_nil in Hin|done].
Qed.

Definition diff_node (id ty : string) (data : list (string * val)) : val :=
  VDict [("id", VStr id); ("type", VStr ty); ("data", VDict data)].

Definition diff_sample (nodes : list val) : val := VDict [("nodes", VList nodes)].

Definition diff_current : list val :=
  [diff_node "v1" "vmNode" [("vcpus", VInt 4); ("status", VStr "running")];
   diff_node "n1" "networkNode" []; diff_node "v3" "vmNode" []].

Definition diff_deployed : list val :=
  [diff_node "v1" "vmNode" [("vcpus", VInt 2)]; diff_node "v2" "vmNode" [];
   diff_node "n1" "networkNode" []].

(** Nodes and topologies of the samples are well formed. *)
Lemma diff_node_wf id ty data : wf_node (diff_node id ty data).
Proof. eexists _, id. split; [reflexivity|]. split; [reflexivity|]. by exists data. Qed.

Lemma diff_sample_wf nodes : Forall wf_node nodes → wf_topology (diff_sample nodes).
Proof. intros H. eexists _, nodes, []. split_and!; try reflexivity; [done|constructor]. Qed.

Lemma diff_topologies_exact_witness :
  ∃ d, diff_topologies (diff_sample diff_current) (diff_sample diff_deployed) = Ok d ∧
    added_vms d = only_in "vmNode" diff_current diff_deployed ∧
    removed_vms d = only_in "vmNode" diff_deployed diff_current ∧
    added_networks d = only_in "networkNode" diff_current diff_deployed ∧
    removed_networks d = only_in "networkNode" diff_deployed diff_current ∧
    (∀ n, n ∈ changed_vms d ↔ n ∈ diff_current ∧ vm_differs diff_deployed n) ∧
    (has_changes d = false →
       ceph_data_changed (diff_sample diff_current) (diff_sample diff_deployed) = Ok false ∧
       ∀ n, n ∈ diff_current → ¬ vm_differs diff_deployed n).
Proof.
  apply diff_topologies_exact.
  - apply diff_sample_wf. repeat constructor; apply diff_node_wf.
  - apply diff_sample_wf. repeat constructor; apply diff_node_wf.
  - reflexivity.
  - reflexivity.
  - apply (bool_decide_unpack _). vm_compute. exact I.
  - apply (bool_decide_unpack _). vm_compute. exact I.
Defined.

(** ** No spurious difference *)

Lemma json_eq_refl v : unique_keys v = true → json_eq v v = true.
Proof.
  induction v as [|b|z|s|l IH|d IH] using val_nested_ind; intros Hu; cbn; try done.
  - by destruct b.
  - apply Z.eqb_refl.
  - apply String.eqb_refl.
  - cbn in Hu. induction IH as [|x l Hx _ IHl]; [done|]. cbn in Hu.
    apply andb_prop in Hu as [Hux Hul]. rewrite Hx by done. cbn. by apply IHl.
  - cbn in Hu. apply andb_prop in Hu as [Hn%bool_decide_eq_true Hu].
    rewrite Nat.eqb_refl. cbn. apply dict_entries_eq; [done|done|].
    apply forallb_Forall in Hu. apply Forall_forall. intros p Hp.
    rewrite Forall_forall in IH, Hu. auto.
Qed.

Lemma unique_keys_filter (f : string * val → bool) d :
  unique_keys (VDict d) = true → unique_keys (VDict (List.filter f d)) = true.
Proof.
  cbn. intros [Hn%bool_decide_eq_true Hu]%andb_prop. apply andb_true_intro. split.
  - apply bool_decide_eq_true. clear Hu. induction d as [|p d IH]; [constructor|]. csimpl in *.
    apply NoDup_cons in Hn as [Hp Hn]. destruct (f p); csimpl; [|auto]. apply NoDup_cons.
    split; [|auto]. intros (q & Heq & Hq)%list_elem_of_fmap. apply Hp. rewrite Heq.
    apply (list_elem_of_fmap_2 fst). by apply list_elem_of_In, filter_In, proj1, list_elem_of_In in Hq.
  - rewrite forallb_forall in Hu |- *. intros p [Hp _]%filter_In. auto.
Qed.

Lemma data_unique n d : wf_node n → unique_keys n = true → data_of n = Ok (VDict d) →
  unique_keys (VDict d) = true.
Proof.
  intros (kvs & i & -> & _) Hu. unfold data_of. cbn [get]. intros [= Hd].
  destruct (assoc "data" kvs) as [v|] eqn:E; cbn in Hd; [subst|unfold empty_dict in Hd; by injection Hd as <-].
  cbn [unique_keys] in Hu. apply andb_prop in Hu as [_ Hu]. rewrite forallb_forall in Hu.
  apply (Hu ("data", VDict d)). by apply list_elem_of_In, assoc_Some_elem.
Qed.

Lemma only_in_self t ns : only_in t ns ns = [].
Proof.
  unfold only_in. assert (H : ∀ l, l ⊆ ns → List.filter (λ n, is_of_type t n &&
    negb (bool_decide (node_key n ∈ map node_key ns))) l = []); [|by apply H].
  induction l as [|n l IH]; intros Hl; [done|]. cbn. rewrite bool_decide_eq_true_2.
  - rewrite andb_false_r. apply IH. set_solver.
  - apply (list_elem_of_fmap_2 node_key). set_solver.
Qed.

(** A topology never differs from itself: on a well-formed canvas whose objects hold each
    key once, a reload compared with what was deployed reports no change. *)
Theorem diff_self_empty topology ns :
  wf_topology topology → nodes_of topology = Ok ns → NoDup (map node_key ns) →
  (∀ n, n ∈ ns → unique_keys n = true) →
  ∃ d, diff_topologies topology topology = Ok d ∧ has_changes d = false.
Proof.
  intros (kvs & ns' & es & Ht & Hns & _ & Fn & _) Hnodes Un Huk.
  pose proof (find_ceph_ok _ _ _ Ht Hns Fn) as Hcc.
  assert (ns' = ns) as -> by (subst; unfold nodes_of in Hnodes; cbn in Hnodes; rewrite Hns in Hnodes; by injection Hnodes).
  destruct (find_changed_spec ns ns Fn Fn Un) as (ch & Hch & Hspec).
  assert (ch = []) as ->.
  { destruct ch as [|n ch]; [done|]. destruct (proj1 (Hspec n) ltac:(left)) as (Hin & _ & n' & a & b & Hin' & Hk & Ha & Hb & Hne).
    assert (n' = n) as ->.
    { pose proof (find_keyed_unique _ _ Un Hin) as F1. pose proof (find_keyed_unique _ _ Un Hin') as F2.
      rewrite Hk in F2. congruence. }
    rewrite Ha in Hb. injection Hb as <-. assert (Hw : wf_node n) by by eapply Forall_forall in Fn.
    destruct (wf_compared_data n Hw) as (d & Hd & Hc). rewrite Ha in Hc. injection Hc as ->.
    rewrite py_eq_refl in Hne; [done|]. apply unique_keys_filter.
    eapply data_unique; [exact Hw|by apply Huk|exact Hd]. }
  assert (Hceph : ceph_data_changed topology topology = Ok false).
  { unfold ceph_data_changed. rewrite Hcc. cbn [bind].
    destruct (List.find _ ns) as [n|] eqn:E; [|done].
    apply find_some in E as [Hin%list_elem_of_In _].
    assert (Hw : wf_node n) by by eapply Forall_forall in Fn.
    destruct (wf_dict_field n Hw) as (d & Hd & Hdo). rewrite Hd. cbn [bind].
    rewrite json_eq_refl; [done|]. eapply data_unique; [exact Hw|by apply Huk|exact Hdo]. }
  eexists. split.
  { unfold diff_topologies. rewrite Hnodes. cbn [bind].
    rewrite !nodes_by_id_keyed by done. cbn [bind]. rewrite !categorize_spec by done. cbn [bind].
    rewrite Hch, Hcc, Hceph. cbn [bind]. reflexivity. }
  unfold has_changes. cbn. rewrite !only_in_self. cbn. by destruct (List.find _ ns).
Qed.

Lemma diff_self_empty_witness :
  ∃ d, diff_topologies (diff_sample diff_current) (diff_sample diff_current) = Ok d ∧
    has_changes d = false.
Proof.
  apply (diff_self_empty _ diff_current).
  - apply diff_sample_wf. repeat constructor; apply diff_node_wf.
  - reflexivity.
  - apply (bool_decide_unpack _). vm_compute. exact I.
  - intros n Hn. set_unfold in Hn. destruct Hn as [->|[->|[->|[]]]]; vm_compute; reflexivity.
Defined.
