(* ===== verification/PatternLocations.v ===== *)
(** * Pattern disk locations: [pattern_locations.py]

    Where a pattern disk can be sourced from on a provider, and whether every
    disk of a deployment is ready there. *)
From stdpp Require Import prelude strings.
From S2P Require Import Prelude PyStr PyVal PyLemmas Db TopoNodes.

(** [pattern_locations.pattern_disk_ids_from_topology] *)
Definition pattern_disk_ids_from_topology (topology : val) : res (list val) :=
  ns <- nodes_of (v_or topology empty_dict);;
  for_each ns [] (λ node ids,
    t <- has_type node "storageNode";;
    if negb t then Ok ids
    else
      data <- data_of node;;
      source <- get data "source" VNone;;
      did <- get data "patternDiskId" VNone;;
      if eq_str source "pattern" && truthy did then Ok (ids ++ [did]) else Ok ids).

(** The row filters of [pattern_disk_source_for_cluster].  A disk id read from a
    topology is compared with a text column. *)
Definition obc_row (did : val) (provider_id : string) (r : PatternLocation) : bool :=
  eq_str did (l_pattern_disk_id r) && col_is (l_provider_id r) provider_id &&
  streq (l_location_type r) "obc" && streq (l_state r) "synced".

Definition shared_row (did : val) (location_type : string) (r : PatternLocation) : bool :=
  eq_str did (l_pattern_disk_id r) && streq (l_location_type r) location_type &&
  streq (l_state r) "synced" && bool_decide (l_provider_id r = None).

(** An absent or empty text is falsy. *)
Definition text_opt (o : option string) : option string :=
  match o with Some "" => None | _ => o end.

(** [pattern_locations.pattern_disk_source_for_cluster] *)
Definition pattern_disk_source_for_cluster (db : DB) (did : val)
    (target_provider_id : option string) : option string :=
  let obc := match text_opt target_provider_id with
             | Some p => existsb (obc_row did p) (db_locations db)
             | None => false
             end in
  if obc then Some "obc"
  else List.find (λ lt, existsb (shared_row did lt) (db_locations db)) ["central"; "gold"].

(** [pattern_locations.pattern_disks_ready_on_provider] *)
Definition pattern_disks_ready_on_provider (db : DB) (dids : list val)
    (target_provider_id : option string) : bool :=
  match dids with
  | [] => true
  | _ => forallb (λ did, bool_decide
           (is_Some (pattern_disk_source_for_cluster db did target_provider_id))) dids
  end.

(** ** Readiness *)

(** A synced copy of a disk a provider can read: one in its own object bucket, or a central
    or gold copy, which belong to no provider. *)
Definition usable_copy (did : val) (target_provider_id : option string) (r : PatternLocation)
    : Prop :=
  did = VStr (l_pattern_disk_id r) ∧ l_state r = "synced" ∧
  ((l_location_type r = "obc" ∧ ∃ p, text_opt target_provider_id = Some p ∧ l_provider_id r = Some p) ∨
   (l_location_type r ∈ ["central"; "gold"] ∧ l_provider_id r = None)).

Lemma obc_row_spec did p r :
  obc_row did p r = true ↔ did = VStr (l_pattern_disk_id r) ∧ l_state r = "synced" ∧
    l_location_type r = "obc" ∧ l_provider_id r = Some p.
Proof.
  unfold obc_row. rewrite !andb_true_iff, eq_str_true, col_is_true, !streq_true. naive_solver.
Qed.

Lemma shared_row_spec did lt r :
  shared_row did lt r = true ↔ did = VStr (l_pattern_disk_id r) ∧ l_state r = "synced" ∧
    l_location_type r = lt ∧ l_provider_id r = None.
Proof.
  unfold shared_row. rewrite !andb_true_iff, eq_str_true, !streq_true, bool_decide_eq_true.
  naive_solver.
Qed.

Lemma existsb_row (f : PatternLocation → bool) l : existsb f l = true ↔ ∃ r, r ∈ l ∧ f r = true.
Proof. rewrite existsb_exists. by setoid_rewrite list_elem_of_In. Qed.

(** A source is found exactly when a usable copy exists. *)
Lemma disk_source_spec db did tp :
  is_Some (pattern_disk_source_for_cluster db did tp) ↔
  ∃ r, r ∈ db_locations db ∧ usable_copy did tp r.
Proof.
  unfold pattern_disk_source_for_cluster.
  set (obc := match text_opt tp with Some p => _ | None => false end).
  assert (Hobc : obc = true ↔ ∃ r, r ∈ db_locations db ∧ did = VStr (l_pattern_disk_id r) ∧
    l_state r = "synced" ∧ l_location_type r = "obc" ∧
    ∃ p, text_opt tp = Some p ∧ l_provider_id r = Some p).
  { unfold obc. destruct (text_opt tp) as [p|]; [|naive_solver].
    rewrite existsb_row. setoid_rewrite obc_row_spec. naive_solver. }
  assert (Hsh : ∀ lt, existsb (shared_row did lt) (db_locations db) = true ↔
    ∃ r, r ∈ db_locations db ∧ did = VStr (l_pattern_disk_id r) ∧ l_state r = "synced" ∧
      l_location_type r = lt ∧ l_provider_id r = None).
  { intros lt. rewrite existsb_row. by setoid_rewrite shared_row_spec. }
  unfold usable_copy. destruct obc.
  - split; [intros _|by eexists]. destruct Hobc as [Hobc _].
    destruct (Hobc eq_refl) as (r & ? & ? & ? & ? & ?). exists r. naive_solver.
  - cbn [List.find]. split.
    + intros [lt H].
      destruct (existsb (shared_row did "central") _) eqn:Ec;
        [|destruct (existsb (shared_row did "gold") _) eqn:Eg; [|done]];
        [apply Hsh in Ec as (r & ? & ? & ? & Hlt & ?)|apply Hsh in Eg as (r & ? & ? & ? & Hlt & ?)];
        exists r; split_and!; try done; right; rewrite Hlt; split; [set_solver|done|set_solver|done].
    + intros (r & Hr & Hd & Hst & [[Hlt Hp]|[Hlt Hp]]).
      * destruct Hobc as [_ Hobc]. discriminate Hobc. by exists r.
      * set_unfold in Hlt. destruct Hlt as [Hlt|[Hlt|[]]].
        -- rewrite (proj2 (Hsh "central")) by by exists r. by eexists.
        -- destruct (existsb (shared_row did "central") _); [by eexists|].
           rewrite (proj2 (Hsh "gold")) by by exists r. by eexists.
Qed.

(** Pattern storage readiness means what a deployment needs: a provider is ready for a list
    of pattern disks exactly when each of them has a synced copy that provider can read, in
    its own bucket or in a store shared by all; one disk without a copy makes it not ready. *)
Theorem pattern_disks_ready_spec db dids target_provider_id :
  pattern_disks_ready_on_provider db dids target_provider_id = true ↔
  ∀ did, did ∈ dids → ∃ r, r ∈ db_locations db ∧ usable_copy did target_provider_id r.
Proof.
  assert (H : pattern_disks_ready_on_provider db dids target_provider_id =
    forallb (λ did, bool_decide (is_Some (pattern_disk_source_for_cluster db did target_provider_id))) dids)
    by by destruct dids.
  rewrite H, forallb_forall. setoid_rewrite <-list_elem_of_In.
  setoid_rewrite bool_decide_eq_true. by setoid_rewrite disk_source_spec.
Qed.
