(* ===== verification/EipService.v ===== *)
(** * Elastic addresses: [services/eip_service.py]

    The life of an elastic address ([allocated], [associated], [reattach_pending]), the transit
    ports of its forwards, and the security group rules of EC2.  The cloud is an oracle: its
    answer to a call, or the exception, may depend on all calls made before. *)
From stdpp Require Import prelude strings sorting.
From S2P Require Import Prelude PyStr PyVal PyLemmas Db.

Open Scope list_scope.

(** ** The cloud and the session *)

Inductive cloud_call :=
| CAllocate (provider_id eip_id project_id : string)
| CAssociate (provider_id host_id allocation_id : string)
| CDisassociate (association_id : string)
| CNics (host_id : string)
| CUnassign (nic private_ip : string)
| CAssociateTo (allocation_id nic private_ip : string)
| CRelease (provider_id allocation_id : string) (namespace : option string)
| CDescribeGroup (group_id : string)
| CAuthorize (group_id : string) (permissions : list val)
| CRevoke (group_id : string) (permissions : list val).

(** Answers of the cloud. *)
Inductive reply :=
| RDone
| RAddress (allocation_id public_ip : string)
| RAssociated (private_ip association_id : option string)
| RNics (nics : list (Z * string))
| RAssociation (association_id : string)
| RPermissions (permissions : list val).

(** The session: the address rows, and the calls made so far. *)
Record session := mkSession { s_eips : list ElasticIp; s_calls : list cloud_call }.

Definition M (A : Type) : Type := session → session * res A.
Definition ret {A} (a : A) : M A := λ s, (s, Ok a).
Definition raise {A} (e : exn) : M A := λ s, (s, Raise e).
Definition mbind_ {A B} (m : M A) (f : A → M B) : M B :=
  λ s, let '(s, r) := m s in match r with Ok a => f a s | Raise e => (s, Raise e) end.
Declare Scope eip_scope.
Notation "x <-! m ;; k" := (mbind_ m (λ x, k)) (at level 100, m at next level, right associativity) : eip_scope.
Open Scope eip_scope.

Fixpoint loop {A} (l : list A) (f : A → M unit) : M unit :=
  match l with
  | [] => ret tt
  | x :: l' => _ <-! f x;; loop l' f
  end.

Section Eip.
Context (cloud : list cloud_call → cloud_call → res reply).

Definition call (c : cloud_call) : M reply :=
  λ s, (mkSession (s_eips s) (s_calls s ++ [c]), cloud (s_calls s) c).

(** Write a row back, and commit. *)
Definition save_eip (e : ElasticIp) : M unit :=
  λ s, (mkSession (map (λ x, if streq (e_id x) (e_id e) then e else x) (s_eips s)) (s_calls s), Ok tt).
Definition add_eip (e : ElasticIp) : M unit := λ s, (mkSession (s_eips s ++ [e]) (s_calls s), Ok tt).
Definition delete_eip (id : string) : M unit :=
  λ s, (mkSession (List.filter (λ x, negb (streq (e_id x) id)) (s_eips s)) (s_calls s), Ok tt).
(** The current row with an id. *)
Definition load_eip (id : string) : M ElasticIp :=
  λ s, (s, match List.find (λ x, streq (e_id x) id) (s_eips s) with
           | Some e => Ok e
           | None => Raise (RuntimeError "row deleted")
           end).
Definition select_eips (q : ElasticIp → bool) : M (list ElasticIp) := λ s, (s, Ok (List.filter q (s_eips s))).

(** Columns of a row. *)
Definition set_link (e : ElasticIp) (private : option string) (host assoc : option string) (state : string)
    (ports : option (list (string * Z))) : ElasticIp :=
  mkEip (e_id e) (e_provider_id e) (e_project_id e) (e_canvas_eip_id e) (e_allocation_id e) (e_public_ip e)
    private host assoc state ports.

(** Text that is neither null nor empty. *)
Definition given (o : option string) : option string :=
  match o with Some EmptyString | None => None | Some s => Some s end.

(** [eip_service.allocate_eip]; [eip_id] is the fresh identifier. *)
Definition allocate_eip (provider : Provider) (eip_id project_id canvas_eip_id : string) : M ElasticIp :=
  r <-! call (CAllocate (pr_id provider) eip_id project_id);;
  match r with
  | RAddress alloc ip =>
      let eip := mkEip eip_id (pr_id provider) (Some project_id) canvas_eip_id alloc ip None None None
                   "allocated" None in
      _ <-! add_eip eip;; ret eip
  | _ => raise KeyError
  end.

Context (providers : list Provider).

(** [db.query(Provider).filter_by(id=...).first()], or [ValueError]. *)
Definition provider_of (e : ElasticIp) : option Provider :=
  List.find (λ p, streq (pr_id p) (e_provider_id e)) providers.
Definition require_provider (e : ElasticIp) : M Provider :=
  match provider_of e with Some p => ret p | None => raise ValueError end.

(** [eip_service.associate_eip] *)
Definition associate_eip (eip : ElasticIp) (host : Host) : M unit :=
  p <-! require_provider eip;;
  r <-! call (CAssociate (pr_id p) (h_id host) (e_allocation_id eip));;
  match r with
  | RAssociated private assoc =>
      save_eip (set_link eip private (Some (h_id host)) assoc "associated" (e_port_map eip))
  | _ => raise AttributeError
  end.

(** The identifier of the interface with device index 0. *)
Definition primary_nic (nics : list (Z * string)) : option string :=
  snd <$> List.find (λ n, n.1 =? 0) nics.
Definition nics_of (host : Host) : M (list (Z * string)) :=
  r <-! call (CNics (h_id host));;
  match r with RNics nics => ret nics | _ => raise KeyError end.

(** [eip_service.disassociate_eip] *)
Definition disassociate_eip (eip : ElasticIp) (host : Host) : M unit :=
  if negb (streq (e_state eip) "associated") then ret tt
  else
    p <-! require_provider eip;;
    _ <-! (if streq (pr_type p) "ec2" then
             match given (e_association_id eip) with
             | None => ret tt
             | Some a =>
                 _ <-! call (CDisassociate a);;
                 match given (e_private_ip eip) with
                 | None => ret tt
                 | Some ip =>
                     nics <-! nics_of host;;
                     match primary_nic nics with
                     | Some nic => _ <-! call (CUnassign nic ip);; ret tt
                     | None => ret tt
                     end
                 end
             end
           else ret tt);;
    save_eip (set_link eip None None None "allocated" None).

(** The hosts, and the name space a provider releases an address in. *)
Context (hosts : list Host) (credentials_namespace : Provider → string)
  (project_ns : Provider → string → string).

(** [eip_service.release_eip] *)
Definition release_eip (eip : ElasticIp) : M unit :=
  _ <-! (match given (e_host_id eip) with
         | Some hid =>
             if streq (e_state eip) "associated" then
               match List.find (λ h, streq (h_id h) hid) hosts with
               | Some host => disassociate_eip eip host
               | None => ret tt
               end
             else ret tt
         | None => ret tt
         end);;
  p <-! require_provider eip;;
  let ns := if streq (pr_type p) "ocpvirt" then Some (credentials_namespace p)
            else if streq (pr_type p) "kubevirt"
            then project_ns p <$> given (e_project_id eip) else None in
  _ <-! call (CRelease (pr_id p) (e_allocation_id eip) ns);;
  delete_eip (e_id eip).

(** The addresses of a host in a state. *)
Definition host_eips (host : Host) (state : string) : M (list ElasticIp) :=
  select_eips (λ e, col_is (e_host_id e) (h_id host) && streq (e_state e) state).

Definition is_ec2 (e : ElasticIp) : bool :=
  match provider_of e with Some p => streq (pr_type p) "ec2" | None => false end.

(** [eip_service.detach_host_eips_preserve_ip:164-179] one address. *)
Definition detach_one (eip : ElasticIp) : M unit :=
  _ <-! (match given (e_association_id eip) with
         | Some a => if is_ec2 eip then _ <-! call (CDisassociate a);; ret tt else ret tt
         | None => ret tt
         end);;
  save_eip (set_link eip (e_private_ip eip) (e_host_id eip) None "reattach_pending" (e_port_map eip)).

(** [eip_service.detach_host_eips_preserve_ip] *)
Definition detach_host_eips_preserve_ip (host : Host) : M unit :=
  eips <-! host_eips host "associated";; loop eips detach_one.

(** [eip_service.reattach_host_eips:196-221] one address. *)
Definition reattach_one (host : Host) (eip : ElasticIp) : M unit :=
  assoc <-! (match given (e_private_ip eip) with
             | Some ip =>
                 if is_ec2 eip then
                   nics <-! nics_of host;;
                   match given (primary_nic nics) with
                   | Some nic =>
                       r <-! call (CAssociateTo (e_allocation_id eip) nic ip);;
                       match r with RAssociation a => ret (Some a) | _ => raise KeyError end
                   | None => ret (e_association_id eip)
                   end
                 else ret (e_association_id eip)
             | None => ret (e_association_id eip)
             end);;
  save_eip (set_link eip (e_private_ip eip) (e_host_id eip) assoc "associated" (e_port_map eip)).

(** [eip_service.reattach_host_eips] *)
Definition reattach_host_eips (host : Host) : M unit :=
  eips <-! host_eips host "reattach_pending";; loop eips (reattach_one host).

(** [eip_service.migrate_eip]; the object is read again after it is disassociated. *)
Definition migrate_eip (eip : ElasticIp) (from_host to_host : Host) : M unit :=
  _ <-! disassociate_eip eip from_host;;
  eip <-! load_eip (e_id eip);;
  associate_eip eip to_host.

(** ** Transit ports *)

(** [eip_service.TRANSIT_PORT_START:18-18] *)
Definition TRANSIT_PORT_START : Z := 40000.
(** [eip_service.TRANSIT_PORT_END:19-19] *)
Definition TRANSIT_PORT_END : Z := 49999.

Definition ports_of (o : option (list (string * Z))) : list Z := (default [] o).*2.

(** [eip_service._used_transit_ports_on_host] *)
Definition used_transit_ports_on_host (eips : list ElasticIp) (host : Host) : list Z :=
  flat_map (λ e, if col_is (e_host_id e) (h_id host) then ports_of (e_port_map e) else []) eips.

Definition exhausted : exn := RuntimeError "Transit port range exhausted".

(** [eip_service.allocate_transit_ports:263-270] the loop over the forwards; the inner loop is
    [next_free]. *)
Fixpoint assign_ports (forwards : list val) (used : list Z) (next_port : Z) (port_map : list (string * Z))
    : res (list (string * Z)) :=
  match forwards with
  | [] => Ok port_map
  | pf :: forwards' =>
      (p <- next_free used next_port;;
       if TRANSIT_PORT_END <? p then Raise exhausted
       else
         ext <- idx pf "extPort";;
         assign_ports forwards' (p :: used) (p + 1) (assoc_set (py_str ext) p port_map))%py
  end.

(** [eip_service.allocate_transit_ports] *)
Definition allocate_transit_ports (eip : ElasticIp) (host : Host) (forwards : list val)
    : M (list (string * Z)) :=
  λ s, match assign_ports forwards (used_transit_ports_on_host (s_eips s) host) TRANSIT_PORT_START [] with
       | Raise e => (s, Raise e)
       | Ok m =>
           (_ <-! save_eip (set_link eip (e_private_ip eip) (e_host_id eip) (e_association_id eip)
                              (e_state eip) (Some m));;
            ret m) s
       end.

(** [eip_service.allocate_standalone_transit_port] *)
Definition allocate_standalone_transit_port (eips : list ElasticIp) (host : Host) (extra_used : list val)
    : res Z :=
  (extra <- map_res py_int extra_used;;
   p <- next_free (used_transit_ports_on_host eips host ++ extra) TRANSIT_PORT_START;;
   if TRANSIT_PORT_END <? p then Raise exhausted else Ok p)%py.

(** ** Security group rules *)

(** A rule: protocol, port, description. *)
Record sg_rule := mkRule { rl_protocol : val; rl_port : val; rl_description : val }.

(** [f"{protocol}:{port}"]. *)
Definition rule_key (protocol port : val) : string := py_str protocol +:+ ":" +:+ py_str port.

(** [eip_service._extract_pf_rules] *)
Definition extract_pf_rules (ip_permissions : list val) : res (list (string * sg_rule)) :=
  for_each ip_permissions [] (λ perm rules,
    (rs <- get perm "IpRanges" (VList []);;
     rs <- iter rs;;
     for_each rs rules (λ ip_range rules,
       (d <- get ip_range "Description" (VStr "");;
        desc <- as_str d;;
        if startswith "troshka-pf:" desc then
          (proto <- idx perm "IpProtocol";;
           port <- idx perm "FromPort";;
           Ok (assoc_set (rule_key proto port) (mkRule proto port d) rules))%py
        else Ok rules)%py))%py).

(** [eip_service._sg_ip_permission] *)
Definition sg_ip_permission (r : sg_rule) : val :=
  VDict [("IpProtocol", rl_protocol r); ("FromPort", rl_port r); ("ToPort", rl_port r);
         ("IpRanges", VList [VDict [("CidrIp", VStr "0.0.0.0/0"); ("Description", rl_description r)]])].

(** An exception whose text says a rule exists already. *)
Definition is_duplicate (e : exn) : bool :=
  match e with RuntimeError m => contains "InvalidPermission.Duplicate" m | _ => false end.

(** [eip_service._authorize_sg_rules] *)
Definition authorize_sg_rules (sg_id : string) (to_add : list (string * sg_rule)) : M unit :=
  match to_add with
  | [] => ret tt
  | _ => λ s,
      let '(s, r) := call (CAuthorize sg_id (map (λ p, sg_ip_permission p.2) to_add)) s in
      match r with
      | Ok _ => (s, Ok tt)
      | Raise e => if is_duplicate e then (s, Ok tt) else (s, Raise e)
      end
  end.

(** [eip_service._revoke_sg_rules] *)
Definition revoke_sg_rules (sg_id : string) (to_remove : list (string * sg_rule)) : M unit :=
  match to_remove with
  | [] => ret tt
  | _ => _ <-! call (CRevoke sg_id (map (λ p, sg_ip_permission p.2) to_remove));; ret tt
  end.

(** [eip_service.sync_security_group_rules:379-386] what the rules should be. *)
Definition desired_pf_rules (desired_rules : list val) : res (list (string * sg_rule)) :=
  for_each desired_rules [] (λ rule m,
    (proto <- get rule "protocol" (VStr "tcp");;
     port <- idx rule "ext_port";;
     project <- idx rule "project_id";;
     Ok (assoc_set (rule_key proto port)
           (mkRule proto port (VStr ("troshka-pf:" +:+ py_str project +:+ ":" +:+ py_str port))) m))%py).

(** [{k: v for k, v in a.items() if k not in b}]. *)
Definition rules_minus (a b : list (string * sg_rule)) : list (string * sg_rule) :=
  List.filter (λ p, negb (bool_decide (p.1 ∈ b.*1))) a.

Definition lift {A} (r : res A) : M A := λ s, (s, r).

(** [eip_service.sync_security_group_rules]: rules added, removed, and whether the group is missing. *)
Definition sync_security_group_rules (provider_type : string) (group : option string)
    (desired_rules : list val) : M (nat * nat * bool) :=
  if negb (streq provider_type "ec2") then ret (0%nat, 0%nat, false)
  else
    match given group with
    | None => ret (0%nat, 0%nat, true)
    | Some sg_id =>
        r <-! call (CDescribeGroup sg_id);;
        perms <-! lift (match r with RPermissions l => Ok l | _ => Raise KeyError end);;
        current <-! lift (extract_pf_rules perms);;
        desired <-! lift (desired_pf_rules desired_rules);;
        let to_add := rules_minus desired current in
        let to_remove := rules_minus current desired in
        _ <-! authorize_sg_rules sg_id to_add;;
        _ <-! revoke_sg_rules sg_id to_remove;;
        ret (length to_add, length to_remove, false)
    end.
End Eip.

(** ** Transit ports: the first free ones *)

(** The free ports from [p] on, in order. *)
Definition free_ports (used : list Z) (p : Z) : list Z :=
  List.filter (λ q, negb (bool_decide (q ∈ used))) (zrange p TRANSIT_PORT_END).

Lemma free_ports_next used p q :
  p ≤ q → q ∉ used → (∀ x, p ≤ x < q → x ∈ used) →
  free_ports used p = if TRANSIT_PORT_END <? q then [] else q :: free_ports (q :: used) (q + 1).
Proof.
  intros Hpq Hq Hbelow. unfold free_ports.
  assert (Hskip : ∀ b, p ≤ b → b ≤ q → List.filter (λ q, negb (bool_decide (q ∈ used))) (seqZ p (b - p)) = []).
  { intros b Hb1 Hb2. destruct (List.filter _ (seqZ p (b - p))) as [|x l] eqn:E; [done|].
    assert (Hx : In x (x :: l)) by by left. rewrite <-E in Hx. apply filter_In in Hx as [Hx Hu].
    apply list_elem_of_In, elem_of_seqZ in Hx. rewrite bool_decide_eq_true_2 in Hu; [done|]. apply Hbelow. lia. }
  destruct (TRANSIT_PORT_END <? q) eqn:E; bool_lia.
  - unfold zrange. destruct (Z.le_gt_cases p TRANSIT_PORT_END).
    + replace (TRANSIT_PORT_END - p + 1) with ((TRANSIT_PORT_END + 1) - p) by lia. apply Hskip; lia.
    + by rewrite seqZ_nil by lia.
  - unfold zrange. replace (TRANSIT_PORT_END - p + 1) with ((q - p) + (TRANSIT_PORT_END - q + 1)) by lia.
    rewrite seqZ_app, List.filter_app by lia. rewrite Hskip by lia. replace (p + (q - p)) with q by lia.
    rewrite seqZ_cons by lia. cbn. rewrite bool_decide_eq_false_2 by done. cbn. f_equal.
    replace (Z.pred (TRANSIT_PORT_END - q + 1)) with (TRANSIT_PORT_END - (q + 1) + 1) by lia.
    replace (Z.succ q) with (q + 1) by lia.
    apply filter_ext_in. intros x Hx%list_elem_of_In%elem_of_seqZ. f_equal. apply bool_decide_ext.
    rewrite elem_of_cons. naive_solver lia.
Qed.

(** The [extPort] of a forward, as a key. *)
Definition ext_key (pf : val) : res string := (ext <- idx pf "extPort";; Ok (py_str ext))%py.

Lemma assign_ports_spec forwards exts used p m :
  map_res ext_key forwards = Ok exts →
  assign_ports forwards used p m =
    if (length forwards <=? length (free_ports used p))%nat
    then Ok (foldl (λ m x, assoc_set x.1 x.2 m) m (zip exts (free_ports used p)))
    else Raise exhausted.
Proof.
  revert exts used p m. induction forwards as [|pf forwards IH]; intros exts used p m; cbn [map_res].
  { by intros [= <-]. }
  intros (ext & Hext & (exts' & Hexts & [= <-])%bind_Ok)%bind_Ok. cbn [assign_ports length].
  destruct (next_free_spec used p) as (q & -> & H1 & H2 & H3). cbn [bind].
  rewrite (free_ports_next used p q H1 H2 H3).
  destruct (TRANSIT_PORT_END <? q) eqn:E; [done|].
  unfold ext_key in Hext. apply bind_Ok in Hext as (v & Hv & [= <-]). rewrite Hv. cbn [bind].
  by rewrite (IH exts').
Qed.

Lemma zip_values {A} (exts : list string) (l : list A) (m : list (string * A)) :
  (length exts ≤ length l)%nat → NoDup exts → (∀ e, e ∈ exts → e ∉ m.*1) →
  foldl (λ m x, assoc_set x.1 x.2 m) m (zip exts l) = m ++ zip exts l.
Proof.
  revert l m. induction exts as [|e exts IH]; intros l m Hl Hn Hm; cbn; [by rewrite app_nil_r|].
  destruct l as [|x l]; cbn in *; [lia|]. apply NoDup_cons in Hn as [He Hn].
  rewrite assoc_set_new by (apply Hm; by left). rewrite IH; [by rewrite <-app_assoc|lia|done|].
  intros e' He' Hin. rewrite fmap_app in Hin. apply elem_of_app in Hin as [Hin|Hin].
  - by apply (Hm e'); [right|].
  - cbn in Hin. apply elem_of_cons in Hin as [->|Hin]; [done|by apply not_elem_of_nil in Hin].
Qed.

Lemma free_ports_spec used q : q ∈ free_ports used TRANSIT_PORT_START ↔
  q ∉ used ∧ TRANSIT_PORT_START ≤ q ≤ TRANSIT_PORT_END.
Proof.
  unfold free_ports. rewrite list_elem_of_In, filter_In, <-list_elem_of_In. unfold zrange.
  rewrite elem_of_seqZ, negb_true_iff, bool_decide_eq_false. unfold TRANSIT_PORT_START, TRANSIT_PORT_END. naive_solver lia.
Qed.

Lemma free_ports_NoDup used p : NoDup (free_ports used p).
Proof.
  unfold free_ports. rewrite <-(map_id (List.filter _ _)). apply NoDup_map_filter. rewrite map_id. apply NoDup_seqZ.
Qed.

Lemma map_res_length {A B} (g : A → res B) l r : map_res g l = Ok r → length r = length l.
Proof.
  revert r. induction l as [|x l IH]; intros r; cbn [map_res]; [by intros [= <-]|].
  intros (y & _ & (r' & Hr & [= <-])%bind_Ok)%bind_Ok. cbn. f_equal. by apply IH.
Qed.

(** Transit ports are the first free ones: forwards with distinct external ports get, in
    order, the lowest ports of 40000-49999 no address of the host uses; the allocation fails
    with the range exhausted exactly when there are fewer free ports than forwards, and then
    changes nothing; the search always ends. *)
Theorem transit_ports_first_free (eip : ElasticIp) (host : Host) forwards exts s :
  map_res ext_key forwards = Ok exts → NoDup exts →
  let used := used_transit_ports_on_host (s_eips s) host in
  let free := free_ports used TRANSIT_PORT_START in
  let r := allocate_transit_ports eip host forwards s in
  ((length free < length forwards)%nat → r = (s, Raise exhausted)) ∧
  ((length forwards ≤ length free)%nat →
     r.2 = Ok (zip exts (take (length forwards) free)) ∧
     r.1 = (save_eip (set_link eip (e_private_ip eip) (e_host_id eip) (e_association_id eip) (e_state eip)
              (Some (zip exts (take (length forwards) free)))) s).1) ∧
  ∀ q, q ∈ free ↔ q ∉ used ∧ TRANSIT_PORT_START ≤ q ≤ TRANSIT_PORT_END.
Proof.
  intros Hexts Hn used free r. assert (Hlen : length exts = length forwards) by (by eapply map_res_length).
  unfold r, allocate_transit_ports. rewrite (assign_ports_spec _ exts) by done. fold used free. split_and!.
  - intros Hlt. by rewrite (proj2 (Nat.leb_gt _ _)).
  - intros Hle. rewrite (proj2 (Nat.leb_le _ _)) by done. rewrite zip_values; [|lia|done|].
    + cbn [app]. by rewrite <-Hlen, zip_with_take_r.
    + intros e _. cbn. apply not_elem_of_nil.
  - intros q. apply free_ports_spec.
Qed.

(** ** The rows over their life *)

Section Rows.
(** The addresses that were given, with their ports, to another host than the one the ports were
    allocated on. *)
Context (moved : list string).

(** A row in a consistent state. *)
Definition eip_ok (e : ElasticIp) : Prop :=
  (e_state e = "allocated" ∧ e_host_id e = None ∧ e_private_ip e = None ∧ e_association_id e = None ∧
   (e_id e ∉ moved → e_port_map e = None)) ∨
  (e_state e = "associated" ∧ is_Some (e_host_id e)) ∨
  (e_state e = "reattach_pending" ∧ is_Some (e_host_id e) ∧ e_association_id e = None).

(** No two addresses of a host use the same transit port, those of [moved] aside. *)
Definition ports_apart (eips : list ElasticIp) : Prop :=
  ∀ a b, a ∈ eips → b ∈ eips → e_id a ≠ e_id b → e_id a ∉ moved → e_id b ∉ moved →
  is_Some (e_host_id a) → e_host_id a = e_host_id b →
  ∀ p, p ∈ ports_of (e_port_map a) → p ∉ ports_of (e_port_map b).

Definition eips_ok (eips : list ElasticIp) : Prop :=
  NoDup (map e_id eips) ∧ Forall eip_ok eips ∧ ports_apart eips.

(** A row whose ports are kept on its host, or dropped. *)
Definition quieter (x x' : ElasticIp) : Prop :=
  e_id x' = e_id x ∧ eip_ok x' ∧
  (e_id x ∈ moved ∨ ports_of (e_port_map x') = [] ∨
   e_port_map x' = e_port_map x ∧ e_host_id x' = e_host_id x).

(** Row by row, nothing new. *)
Lemma eips_ok_quieter eips eips' :
  Forall2 (λ x x', x' = x ∨ quieter x x') eips eips' → eips_ok eips → eips_ok eips'.
Proof.
  intros HF (Hn & Hok & Hp). split_and!.
  - replace (map e_id eips') with (map e_id eips); [done|]. clear Hn Hok Hp.
    induction HF as [|x x' l l' [->|(H & _)] _ IH]; cbn; congruence.
  - clear Hn Hp. induction HF as [|x x' l l' Hx _ IH]; [done|]. apply Forall_cons in Hok as [H1 H2].
    constructor; [|auto]. by destruct Hx as [->|(_ & H & _)].
  - assert (Hback : ∀ a', a' ∈ eips' → ∃ a, a ∈ eips ∧ (a' = a ∨ quieter a a')).
    { clear -HF. induction HF as [|x x' l l' Hx _ IH]; [by intros ? ?%elem_of_nil|].
      intros a' [->|Ha]%elem_of_cons; [exists x; split; [by left|done]|].
      destruct (IH a' Ha) as (a & ? & ?). exists a. split; [by right|done]. }
    intros a' b' Ha Hb Hne Hma Hmb Hs Hh p Hpa Hpb.
    destruct (Hback a' Ha) as (a & Hain & Hqa), (Hback b' Hb) as (b & Hbin & Hqb).
    assert (He : ∀ x x', x' = x ∨ quieter x x' → e_id x' ∉ moved → p ∈ ports_of (e_port_map x') →
      e_id x' = e_id x ∧ e_port_map x' = e_port_map x ∧ e_host_id x' = e_host_id x).
    { intros x x' [->|(H1 & _ & [H2|[H2|[H2 H3]]])]; [done| | |done].
      - rewrite H1. by intros ?.
      - rewrite H2. intros _ Hin. by apply not_elem_of_nil in Hin. }
    destruct (He _ _ Hqa Hma Hpa) as (A1 & A2 & A3), (He _ _ Hqb Hmb Hpb) as (B1 & B2 & B3).
    rewrite A2 in Hpa. rewrite B2 in Hpb. rewrite A3 in Hs. apply (Hp a b Hain Hbin) with p; congruence.
Qed.
End Rows.

(** More addresses moved ask less. *)
Lemma eips_ok_mono moved moved' eips : moved ⊆ moved' → eips_ok moved eips → eips_ok moved' eips.
Proof.
  intros Hsub (Hn & Hf & Hp). split_and!; [done| |].
  - eapply Forall_impl; [exact Hf|]. intros e [(? & ? & ? & ? & H)|He]; [left|by right].
    split_and!; try done. intros Hm. apply H. intros Hin. by apply Hm, Hsub.
  - intros a b Ha Hb Hne Hma Hmb. apply Hp; try done; intros Hin; [by apply Hma, Hsub|by apply Hmb, Hsub].
Qed.

(** Writing one row back, as a change row by row. *)
Lemma save_rows (P : ElasticIp → ElasticIp → Prop) e e' eips :
  NoDup (map e_id eips) → e ∈ eips → e_id e' = e_id e → P e e' →
  Forall2 (λ x x', x' = x ∧ x ≠ e ∨ x = e ∧ x' = e' ∧ P x x') eips
    (map (λ x, if streq (e_id x) (e_id e') then e' else x) eips).
Proof.
  intros Hn Hin Hid HP. assert (H : ∀ x, x ∈ eips → (e_id x = e_id e' ↔ x = e)).
  { intros x Hx. rewrite Hid. split; [intros; by eapply (NoDup_fmap_elem e_id)|by intros ->]. }
  clear Hn Hin. induction eips as [|x eips IH]; [constructor|]. cbn [map]. constructor.
  - specialize (H x ltac:(by left)). destruct (streq (e_id x) (e_id e')) eqn:E.
    + apply streq_true in E. right. apply H in E as ->. done.
    + left. split; [done|]. intros ->. rewrite Hid, streq_refl in E. done.
  - apply IH. intros y Hy. apply H. by right.
Qed.

Lemma save_quieter moved e e' eips :
  eips_ok moved eips → e ∈ eips → quieter moved e e' →
  eips_ok moved (map (λ x, if streq (e_id x) (e_id e') then e' else x) eips).
Proof.
  intros Hok Hin Hq. destruct (Hq) as [Hid _]. eapply eips_ok_quieter; [|done].
  eapply Forall2_impl; [apply (save_rows (quieter moved) e e'); try done; apply Hok|]. cbn. naive_solver.
Qed.

(** ** What the operations write *)

(** [m] writes no row. *)
Definition quiet {A} (m : M A) : Prop := ∀ s, s_eips (m s).1 = s_eips s.
(** [m] raises and writes nothing, or ends by writing a row that satisfies [P]. *)
Definition saves (P : ElasticIp → Prop) (m : M unit) : Prop :=
  ∀ s, (∃ x, (m s).2 = Raise x ∧ s_eips (m s).1 = s_eips s) ∨
       (∃ e', P e' ∧ (m s).2 = Ok tt ∧
          s_eips (m s).1 = map (λ x, if streq (e_id x) (e_id e') then e' else x) (s_eips s)).

Lemma quiet_ret {A} (a : A) : quiet (ret a).
Proof. done. Qed.
Lemma quiet_raise {A} e : quiet (@raise A e).
Proof. done. Qed.
Lemma quiet_call cloud c : quiet (call cloud c).
Proof. done. Qed.
Lemma quiet_bind {A B} (m : M A) (f : A → M B) : quiet m → (∀ a, quiet (f a)) → quiet (mbind_ m f).
Proof.
  intros Hm Hf s. unfold mbind_. specialize (Hm s). destruct (m s) as [s1 [a|e]]; cbn [fst] in *; [|done].
  by rewrite Hf.
Qed.
Lemma quiet_provider providers e : quiet (require_provider providers e).
Proof. unfold require_provider. by destruct (provider_of providers e). Qed.
Lemma quiet_nics cloud host : quiet (nics_of cloud host).
Proof. apply quiet_bind; [apply quiet_call|]. by intros []. Qed.

Lemma saves_save (P : ElasticIp → Prop) e : P e → saves P (save_eip e).
Proof. intros He s. right. by exists e. Qed.
Lemma saves_raise P e : saves P (raise e).
Proof. intros s. left. by exists e. Qed.
Lemma saves_bind {A} P (m : M A) (f : A → M unit) : quiet m → (∀ a, saves P (f a)) → saves P (mbind_ m f).
Proof.
  intros Hm Hf s. unfold mbind_. specialize (Hm s). destruct (m s) as [s1 [a|e]]; cbn [fst] in *.
  - rewrite <-Hm. apply Hf.
  - left. by exists e.
Qed.

#[local] Hint Resolve quiet_ret quiet_raise quiet_call quiet_provider quiet_nics saves_raise : core.

Section Writes.
Context (cloud : list cloud_call → cloud_call → res reply) (providers : list Provider) (hosts : list Host).
Context (credentials_namespace : Provider → string) (project_ns : Provider → string → string).

Lemma associate_saves e host :
  saves (λ e', ∃ private assoc, e' = set_link e private (Some (h_id host)) assoc "associated" (e_port_map e))
    (associate_eip cloud providers e host).
Proof.
  apply saves_bind; [done|]. intros p. apply saves_bind; [done|]. intros [| |private assoc| | |]; try done.
  apply saves_save. eauto.
Qed.

Definition released_link (e : ElasticIp) : ElasticIp := set_link e None None None "allocated" None.

Lemma disassociate_saves e host :
  e_state e = "associated" → saves (eq (released_link e)) (disassociate_eip cloud providers e host).
Proof.
  intros Hs. unfold disassociate_eip. rewrite Hs. cbn [negb streq]. rewrite streq_refl. cbn [negb].
  apply saves_bind; [done|]. intros p. apply saves_bind; [|intros _; by apply saves_save].
  destruct (streq (pr_type p) "ec2"); [|done]. destruct (given (e_association_id e)); [|done].
  apply quiet_bind; [done|]. intros _. destruct (given (e_private_ip e)); [|done].
  apply quiet_bind; [done|]. intros nics. destruct (primary_nic nics); [|done]. by apply quiet_bind.
Qed.

Definition detached (e : ElasticIp) : ElasticIp :=
  set_link e (e_private_ip e) (e_host_id e) None "reattach_pending" (e_port_map e).

Lemma detach_saves e : saves (eq (detached e)) (detach_one cloud providers e).
Proof.
  apply saves_bind; [|intros _; by apply saves_save]. destruct (given (e_association_id e)); [|done].
  destruct (is_ec2 providers e); [|done]. by apply quiet_bind.
Qed.

(** The same link as before, associated again. *)
Definition reattached (e e' : ElasticIp) : Prop :=
  ∃ assoc, e' = set_link e (e_private_ip e) (e_host_id e) assoc "associated" (e_port_map e).

Lemma reattach_saves host e : saves (reattached e) (reattach_one cloud providers host e).
Proof.
  apply saves_bind; [|intros assoc; apply saves_save; by exists assoc].
  destruct (given (e_private_ip e)); [|done]. destruct (is_ec2 providers e); [|done].
  apply quiet_bind; [done|]. intros nics. destruct (given (primary_nic nics)); [|done].
  apply quiet_bind; [done|]. by intros [].
Qed.

Lemma Forall2_same {A} (R : A → A → Prop) l : (∀ x, R x x) → Forall2 R l l.
Proof. intros H. induction l; by constructor. Qed.

(** A loop that writes each row of a list once. *)
Lemma loop_rows (P : ElasticIp → ElasticIp → Prop) (f : ElasticIp → M unit) l s :
  (∀ e, e ∈ l → saves (P e) (f e)) → (∀ e e', P e e' → e_id e' = e_id e) →
  NoDup (map e_id (s_eips s)) → NoDup l → (∀ e, e ∈ l → e ∈ s_eips s) →
  Forall2 (λ x x', x' = x ∧ ((loop l f s).2 = Ok tt → x ∉ l) ∨ x ∈ l ∧ P x x')
    (s_eips s) (s_eips (loop l f s).1).
Proof.
  intros Hf HP. revert s. induction l as [|e l IH]; intros s Hn Hl Hin; cbn [loop].
  { cbn. apply Forall2_same. intros x. left. split; [done|]. intros _. by apply not_elem_of_nil. }
  apply NoDup_cons in Hl as [He Hl]. unfold mbind_. pose proof (Hf e ltac:(by left) s) as Hsv.
  destruct (f e s) as [s1 r]. cbn [fst snd] in *.
  destruct Hsv as [(x & -> & Heq)|(e' & HPe & -> & Heq)].
  { cbn. rewrite Heq. apply Forall2_same. intros y. by left. }
  pose proof (save_rows P e e' (s_eips s) Hn (Hin e ltac:(by left)) (HP _ _ HPe) HPe) as HF. rewrite <-Heq in HF.
  assert (Hids : map e_id (s_eips s1) = map e_id (s_eips s)).
  { clear -HF HP. induction HF as [|x x' xs xs' [[-> _]|(_ & _ & Hx)] _ IHF]; cbn; [done|congruence|].
    f_equal; [by apply HP|done]. }
  specialize (IH ltac:(intros y Hy; apply Hf; by right) s1 ltac:(by rewrite Hids) Hl).
  assert (Hin1 : ∀ y, y ∈ l → y ∈ s_eips s1).
  { intros y Hy. specialize (Hin y ltac:(by right)).
    clear -HF Hin Hy He. revert Hin. induction HF as [|x x' xs xs' Hx _ IHF]; [done|].
    intros [->|Hxs]%elem_of_cons; [|right; auto]. destruct Hx as [[-> _]|(-> & _)]; [by left|done]. }
  assert (Hne : ∀ y, y ∈ l → e_id y ≠ e_id e).
  { intros y Hy Hid. destruct He. replace e with y; [done|].
    eapply (NoDup_fmap_elem e_id); [exact Hn|apply Hin; by right|apply Hin; by left|done]. }
  specialize (IH Hin1). destruct (loop l f s1) as [s2 r2]. cbn [fst snd] in *.
  assert (Hid' : e_id e' = e_id e) by (by apply HP). clear -HF IH He Hne Hid'. revert IH. generalize (s_eips s2) as ys. induction HF as [|x x' xs xs' Hx _ IHF]; intros ys IH.
  { apply Forall2_nil_inv_l in IH as ->. constructor. }
  apply Forall2_cons_inv_l in IH as (y & ys' & Hy & Hys & ->). constructor; [|by apply IHF].
  destruct Hx as [[-> Hxe]|(-> & -> & Hp)].
  - destruct Hy as [[-> Hr]|[Hl Hp]]; [left; split; [done|]|right; split; [by right|done]].
    intros Hok [->|Hin]%elem_of_cons; [done|by apply Hr].
  - right. split; [by left|]. destruct Hy as [[-> _]|[Hl _]]; [done|]. by destruct (Hne _ Hl).
Qed.

(** One operation of the service, with the row it is called on.  The callers read the row, look at
    its state only for [associated] ([deploy_service.py:7380], [deploy_service.py:8438],
    [projects.py:5333], [eips.py:60]) and clear its ports before they allocate others
    ([projects.py:5247]). *)
Inductive eip_op :=
| OpAllocate (p : Provider) (eip_id project canvas : string)
| OpAssociate (e : ElasticIp) (host : Host)
| OpDisassociate (e : ElasticIp) (host : Host)
| OpRelease (e : ElasticIp)
| OpDetach (host : Host)
| OpReattach (host : Host)
| OpMigrate (e : ElasticIp) (from_host to_host : Host)
| OpClearPorts (e : ElasticIp)
| OpPorts (e : ElasticIp) (host : Host) (forwards : list val).

(** The session after the operation, which may have raised. *)
Definition eip_run (op : eip_op) (s : session) : session :=
  match op with
  | OpAllocate p eip_id project canvas => (allocate_eip cloud p eip_id project canvas s).1
  | OpAssociate e host => (associate_eip cloud providers e host s).1
  | OpDisassociate e host => (disassociate_eip cloud providers e host s).1
  | OpRelease e => (release_eip cloud providers hosts credentials_namespace project_ns e s).1
  | OpDetach host => (detach_host_eips_preserve_ip cloud providers host s).1
  | OpReattach host => (reattach_host_eips cloud providers host s).1
  | OpMigrate e from_host to_host => (migrate_eip cloud providers e from_host to_host s).1
  | OpClearPorts e =>
      (save_eip (set_link e (e_private_ip e) (e_host_id e) (e_association_id e) (e_state e) None) s).1
  | OpPorts e host forwards => (allocate_transit_ports e host forwards s).1
  end.

(** The operation is called on a row as it stands; a new row has an identifier of its own. *)
Definition eip_called (op : eip_op) (s : session) : Prop :=
  match op with
  | OpAllocate _ eip_id _ _ => eip_id ∉ map e_id (s_eips s)
  | OpAssociate e _ | OpDisassociate e _ | OpRelease e | OpMigrate e _ _ | OpClearPorts e | OpPorts e _ _ =>
      e ∈ s_eips s
  | OpDetach _ | OpReattach _ => True
  end.

(** The address an operation takes, with its ports, to another host than the one it is linked to,
    or gives ports that are free on another host. *)
Definition moves_ports (op : eip_op) : list string :=
  let carried e host := match ports_of (e_port_map e) with
                        | [] => []
                        | _ => if col_is (e_host_id e) (h_id host) then [] else [e_id e]
                        end in
  match op with
  | OpAssociate e host => carried e host
  | OpMigrate e _ to_host => if streq (e_state e) "associated" then [] else carried e to_host
  | OpPorts e host _ => if col_is (e_host_id e) (h_id host) then [] else [e_id e]
  | _ => []
  end.

(** Operations one after another. *)
Inductive eip_history : list eip_op → session → session → Prop :=
| HistoryNil s : eip_history [] s s
| HistoryCons op ops s s' :
    eip_called op s → eip_history ops (eip_run op s) s' → eip_history (op :: ops) s s'.

(** The addresses moved before. *)
Section Moved.
Context (moved : list string).
Notation ok s := (eips_ok moved (s_eips s)).

Lemma row_ok e s : e ∈ s_eips s → ok s → eip_ok moved e.
Proof. intros Hin (_ & Hf & _). by eapply Forall_forall in Hf. Qed.

Lemma saves_ok P m s e :
  saves P m → e ∈ s_eips s → (∀ e', P e' → quieter moved e e') → ok s → ok (m s).1.
Proof.
  intros Hm Hin HP Hok. destruct (Hm s) as [(x & _ & ->)|(e' & He' & _ & ->)]; [done|].
  eapply save_quieter; eauto.
Qed.

Lemma disassociate_ok e host s : e ∈ s_eips s → ok s → ok (disassociate_eip cloud providers e host s).1.
Proof.
  intros Hin Hok. destruct (decide (e_state e = "associated")) as [Hs|Hs].
  - eapply saves_ok; [by apply disassociate_saves|done| |done]. intros e' <-.
    split; [done|]. split; [by left|by right; left].
  - unfold disassociate_eip. destruct (streq (e_state e) "associated") eqn:E; [|done]. by apply streq_true in E.
Qed.

Lemma associate_ok e host s :
  e ∈ s_eips s → moves_ports (OpAssociate e host) ⊆ moved → ok s → ok (associate_eip cloud providers e host s).1.
Proof.
  intros Hin Hm Hok. eapply saves_ok; [apply associate_saves|done| |done].
  intros e' (private & assoc & ->). split; [done|]. split; [by right; left|]. cbn [moves_ports] in Hm. unfold set_link; cbn [e_port_map e_host_id].
  destruct (ports_of (e_port_map e)); [by right; left|]. destruct (col_is _ _) eqn:Ec.
  - apply col_is_true in Ec. right; right. by rewrite Ec.
  - left. apply Hm. by left.
Qed.

Lemma Forall2_weaken {A} (R S : A → A → Prop) l l' :
  (∀ x x', x ∈ l → R x x' → S x x') → Forall2 R l l' → Forall2 S l l'.
Proof. intros H HF. induction HF; constructor; [apply H; [by left|done]|]. apply IHHF. intros; apply H; [by right|done]. Qed.

(** A pass over the addresses a query selects. *)
Lemma select_loop_each (P : ElasticIp → ElasticIp → Prop) q f s :
  (∀ e, saves (P e) (f e)) → (∀ e e', P e e' → e_id e' = e_id e) → NoDup (map e_id (s_eips s)) →
  Forall2 (λ x x', x' = x ∨ q x = true ∧ P x x') (s_eips s)
    (s_eips (mbind_ (select_eips q) (λ l, loop l f) s).1).
Proof.
  intros Hf HP Hn. unfold mbind_, select_eips. eapply Forall2_weaken; [|apply (loop_rows P); try done].
  - intros x x' _ [[-> _]|[[_ Hx]%list_elem_of_In%filter_In HPx]]; [by left|by right].
  - apply NoDup_fmap_1 with e_id. by apply NoDup_map_filter.
  - intros e [H _]%list_elem_of_In%filter_In. by apply list_elem_of_In.
Qed.

Lemma select_loop_ok (P : ElasticIp → ElasticIp → Prop) q f s :
  (∀ e, saves (P e) (f e)) → (∀ e e', P e e' → e_id e' = e_id e) →
  (∀ e e', q e = true → P e e' → quieter moved e e') → ok s →
  ok (mbind_ (select_eips q) (λ l, loop l f) s).1.
Proof.
  intros Hf HP Hq Hok. eapply eips_ok_quieter; [|exact Hok].
  eapply Forall2_weaken; [|apply (select_loop_each P); [done|done|apply Hok]].
  intros x x' _ [->|[Hx HPx]]; [by left|right; by apply Hq].
Qed.

Lemma assign_ports_fresh forwards used p m m' :
  assign_ports forwards used p m = Ok m' →
  ∀ v, v ∈ m'.*2 → v ∈ m.*2 ∨ v ∉ used.
Proof.
  revert used p m. induction forwards as [|pf forwards IH]; intros used p m; cbn [assign_ports].
  { intros [= ->]. by left. }
  intros (q & Hq & H)%bind_Ok v Hv. destruct (TRANSIT_PORT_END <? q); [done|].
  apply bind_Ok in H as (ext & _ & H). destruct (IH _ _ _ H v Hv) as [Hm|Hu]; [|right; intros Hin; apply Hu; by right].
  destruct (next_free_spec used p) as (q' & Hq' & _ & Hnot & _). rewrite Hq in Hq'. injection Hq' as <-.
  clear -Hm Hnot. assert (Hset : ∀ x, x ∈ (assoc_set (py_str ext) q m).*2 → x = q ∨ x ∈ m.*2).
  { clear. induction m as [|[k w] m IHm]; csimpl; intros x.
    - intros ->%list_elem_of_singleton. by left.
    - case_decide; csimpl; intros [->|Hx]%elem_of_cons.
      + by left.
      + right. by right.
      + right. by left.
      + destruct (IHm x Hx); [by left|right; by right]. }
  destruct (Hset v Hm) as [->|]; [by right|by left].
Qed.

Lemma allocate_ok p eip_id project canvas s :
  eip_id ∉ map e_id (s_eips s) → ok s → ok (allocate_eip cloud p eip_id project canvas s).1.
Proof.
  intros Hnew Hok.
  unfold allocate_eip, mbind_, call. cbn [fst]. destruct (cloud _ _) as [[| alloc ip| | | |]|]; try done.
  set (e := mkEip _ _ _ _ _ _ _ _ _ _ _). change (eips_ok moved (s_eips s ++ [e])).
  destruct Hok as (Hn & Hf & Hp). split_and!.
  + rewrite map_app. apply NoDup_app. split_and!; [done| |apply NoDup_singleton].
    intros i Hi ->%list_elem_of_singleton. done.
  + apply Forall_app. split; [done|]. repeat constructor.
  + intros a b Ha Hb Hne Hma Hmb Hsome Hh.
    apply elem_of_app in Ha as [Ha|Ha]; [|apply list_elem_of_singleton in Ha as ->; by destruct Hsome].
    apply elem_of_app in Hb as [Hb|Hb]; [by apply Hp|]. apply list_elem_of_singleton in Hb as ->. cbn in Hh.
    rewrite Hh in Hsome. by destruct Hsome.
Qed.

Lemma release_ok e s :
  e ∈ s_eips s → ok s → ok (release_eip cloud providers hosts credentials_namespace project_ns e s).1.
Proof.
  intros Hin Hok.
  unfold release_eip. set (part1 := match given (e_host_id e) with Some _ => _ | None => _ end).
  assert (H1 : ok (part1 s).1).
  { unfold part1. destruct (given (e_host_id e)) as [hid|]; [|done]. destruct (streq _ _); [|done].
    destruct (List.find _ hosts); [|done]. by apply disassociate_ok. }
  unfold mbind_ at 1. destruct (part1 s) as [s1 [u|x]]; cbn [fst] in *; [|done].
  assert (Hdel : ∀ s2, ok s2 → ok (delete_eip (e_id e) s2).1).
  { intros s2 (Hn & Hf & Hp). cbn. split_and!; [by apply NoDup_map_filter| |].
    - apply Forall_forall. intros x [Hx _]%list_elem_of_In%filter_In. rewrite Forall_forall in Hf.
      by apply Hf, list_elem_of_In.
    - intros a b [Ha _]%list_elem_of_In%filter_In [Hb _]%list_elem_of_In%filter_In.
      apply list_elem_of_In in Ha, Hb. by apply Hp. }
  unfold require_provider. destruct (provider_of providers e); [|done]. unfold mbind_, ret, call.
  cbn. destruct (cloud _ _); [|done]. by apply Hdel.
Qed.

Lemma migrate_ok e from to s :
  e ∈ s_eips s → moves_ports (OpMigrate e from to) ⊆ moved → ok s →
  ok (migrate_eip cloud providers e from to s).1.
Proof.
  intros Hin Hm Hok.
  unfold migrate_eip, mbind_. pose proof (disassociate_ok e from s Hin Hok) as H1.
  destruct (disassociate_eip _ _ e from s) as [s1 [u|x]] eqn:E; cbn [fst] in *; [|done].
  unfold load_eip. destruct (List.find _ (s_eips s1)) as [e1|] eqn:Ef; [|done].
  apply find_some in Ef as [Hin1 Hid%streq_true]. apply list_elem_of_In in Hin1.
  apply associate_ok; [done| |done]. cbn [moves_ports] in Hm.
  destruct (streq (e_state e) "associated") eqn:Ha.
  + apply streq_true in Ha. destruct (disassociate_saves e from Ha s) as [(x & Hx & _)|(e' & <- & _ & Heq)]; rewrite E in *; [done|].
    cbn [fst] in Heq. rewrite Heq in Hin1. apply list_elem_of_fmap in Hin1 as (x & -> & Hx).
    destruct (streq (e_id x) _) eqn:Ex; [by intros y Hy%elem_of_nil|].
    cbn in Hid. rewrite Hid in Ex. by rewrite streq_refl in Ex.
  + unfold disassociate_eip in E. rewrite Ha in E. injection E as <- _. destruct Hok as (Hn & Hf & _).
    assert (e1 = e) as -> by (by eapply (NoDup_fmap_elem e_id)). done.
Qed.

Lemma clear_ok e s : e ∈ s_eips s → ok s → ok (eip_run (OpClearPorts e) s).
Proof.
  intros Hin Hok. eapply (saves_ok (eq _)); [by apply saves_save|done| |done]. intros e' <-.
  split; [done|]. split; [|by right; left]. destruct (row_ok e s Hin Hok) as [H|H]; [left|right; done].
  naive_solver.
Qed.

Lemma ports_ok e host forwards s :
  e ∈ s_eips s → moves_ports (OpPorts e host forwards) ⊆ moved → ok s →
  ok (allocate_transit_ports e host forwards s).1.
Proof.
  intros Hin Hm Hok. pose proof (row_ok e s Hin Hok) as Hrow.
  unfold allocate_transit_ports. destruct (assign_ports _ _ _ _) as [m|x] eqn:E; [|done].
  cbn [moves_ports] in Hm. destruct (col_is (e_host_id e) (h_id host)) eqn:Ec.
  2: { change (ok (save_eip (set_link e (e_private_ip e) (e_host_id e) (e_association_id e) (e_state e) (Some m)) s).1).
       eapply (saves_ok (eq _)); [by apply saves_save|done| |done]. intros e' <-.
       assert (e_id e ∈ moved) by (apply Hm; by left).
       split; [done|]. split; [|by left]. destruct Hrow as [H'|H']; [left|right; done]. naive_solver. }
  apply col_is_true in Ec as Hh. unfold mbind_. cbn [fst save_eip s_eips ret].
  set (e' := set_link e _ _ _ _ (Some m)). destruct (Hok) as (Hn & Hf & Hp).
  assert (Hfresh : ∀ x, x ∈ s_eips s → e_host_id x = Some (h_id host) → ∀ v, v ∈ m.*2 → v ∉ ports_of (e_port_map x)).
  { intros x Hx Hxh v Hv Hin'. destruct (assign_ports_fresh _ _ _ _ _ E v Hv) as [H|H]; [by apply not_elem_of_nil in H|].
    apply H. unfold used_transit_ports_on_host. apply list_elem_of_In, in_flat_map. exists x.
    split; [by apply list_elem_of_In|]. rewrite Hxh. cbn [col_is]. rewrite streq_refl. by apply list_elem_of_In. }
  pose proof (save_rows (λ _ _, True) e e' (s_eips s) Hn Hin eq_refl I) as HF.
  set (eips' := map (λ x, if streq (e_id x) (e_id e') then e' else x) (s_eips s)) in *.
  assert (Hmem : ∀ x', x' ∈ eips' → x' ∈ s_eips s ∧ x' ≠ e ∨ x' = e').
  { clear -HF. induction HF as [|x x' l l' Hx _ IH]; [intros y Hy; by apply not_elem_of_nil in Hy|].
    intros y [->|Hy]%elem_of_cons.
    - destruct Hx as [[-> H]|(-> & -> & _)]; [left; split; [by left|done]|by right].
    - destruct (IH y Hy) as [[? ?]|?]; [left; split; [by right|done]|by right]. }
  split_and!.
  + unfold eips'. rewrite map_map. erewrite map_ext; [exact Hn|]. intros x. cbn.
    destruct (streq (e_id x) (e_id e)) eqn:Ex; [|done]. by apply streq_true in Ex.
  + apply Forall_forall. intros x' [[Hx _]| ->]%Hmem; [by apply (row_ok x' s)|].
    destruct Hrow as [(_ & H & _)|[[H ?]|(H & ? & ?)]]; [congruence|right; by left|right; by right].
  + intros a b [[Ha Hae]| ->]%Hmem [[Hb Hbe]| ->]%Hmem Hne Hma Hmb Hsome Hhab v Hva; [by apply (Hp a b Ha Hb Hne Hma Hmb Hsome Hhab v Hva)| | |done].
    * cbn in Hhab. rewrite Hh in Hhab. intros Hv. by apply (Hfresh a Ha Hhab v).
    * cbn in Hhab, Hva. rewrite Hh in Hhab. by apply (Hfresh b Hb (eq_sym Hhab) v).
Qed.

Lemma detach_ok host s : ok s → ok (detach_host_eips_preserve_ip cloud providers host s).1.
Proof.
  intros Hok. apply (select_loop_ok (λ x, eq (detached x))); try done; [apply detach_saves|by intros e e' <-|].
  intros e e' [Hcol _]%andb_true_iff <-. apply col_is_true in Hcol. split; [done|]. split; [|by right; right].
  right; right. split_and!; [done|by eexists|done].
Qed.

Lemma reattach_ok host s : ok s → ok (reattach_host_eips cloud providers host s).1.
Proof.
  intros Hok. apply (select_loop_ok reattached); try done; [apply reattach_saves|by intros e e' [a ->]|].
  intros e e' [Hcol _]%andb_true_iff [a ->]. apply col_is_true in Hcol. split; [done|]. split; [|by right; right].
  right; left. split; [done|by eexists].
Qed.

Lemma eip_run_ok op s : eip_called op s → moves_ports op ⊆ moved → ok s → ok (eip_run op s).
Proof.
  destruct op; cbn [eip_called eip_run]; intros Hc Hm Hok.
  - by apply allocate_ok.
  - by apply associate_ok.
  - by apply disassociate_ok.
  - by apply release_ok.
  - by apply detach_ok.
  - by apply reattach_ok.
  - by apply migrate_ok.
  - by apply clear_ok.
  - by apply ports_ok.
Qed.
End Moved.

(** C24: Elastic addresses stay consistent: from a consistent table, after any sequence of the
    service's operations, each on a row as it stands (a new row with an identifier of its own), from
    any state and for any hosts, whatever the cloud answers, and also when an operation
    stops half way with an exception, identifiers are unique, an [allocated] address has no host,
    private address or association, an [associated] or [reattach_pending] one has a host, and one
    that waits has no association.  Transit ports: an [allocated] address has none, and no two
    addresses of a host share one, with one exception, which [moves_ports] names: an address that an
    operation took, with its ports, to another host than the one it was linked to, or for which
    it allocated ports that are free on another host.  (Nothing in the code rules that out:
    [reassociated_ports_collide].) *)
Theorem eips_invariant ops s s' :
  eip_history ops s s' → eips_ok [] (s_eips s) → eips_ok (flat_map moves_ports ops) (s_eips s').
Proof.
  assert (H : ∀ moved, eip_history ops s s' → eips_ok moved (s_eips s) →
    eips_ok (moved ++ flat_map moves_ports ops) (s_eips s')); [|by apply H].
  intros moved Hh. revert moved. induction Hh as [s|op ops s s' Hc _ IH]; intros moved Hok; cbn [flat_map].
  - by rewrite app_nil_r.
  - rewrite app_assoc. apply IH, eip_run_ok; [done| |].
    + intros i Hi. apply elem_of_app. by right.
    + eapply eips_ok_mono; [|exact Hok]. intros i Hi. apply elem_of_app. by left.
Qed.

Definition on_host (host : Host) (state : string) (e : ElasticIp) : bool :=
  col_is (e_host_id e) (h_id host) && streq (e_state e) state.

Lemma detach_ids host s :
  NoDup (map e_id (s_eips s)) → NoDup (map e_id (s_eips (detach_host_eips_preserve_ip cloud providers host s).1)).
Proof.
  intros Hn. pose proof (select_loop_each (λ x, eq (detached x)) (on_host host "associated")
    (detach_one cloud providers) s detach_saves ltac:(by intros e e' <-) Hn) as HF.
  change (s_eips (detach_host_eips_preserve_ip cloud providers host s).1)
    with (s_eips (mbind_ (select_eips (on_host host "associated")) (λ l, loop l (detach_one cloud providers)) s).1).
  replace (map e_id (s_eips (mbind_ _ _ _).1)) with (map e_id (s_eips s)); [done|]. clear Hn.
  induction HF as [|x x' l l' [->|[_ <-]] _ IH]; cbn; congruence.
Qed.

(** A complete pass over the addresses of a host. *)
Lemma select_loop_rows (P : ElasticIp → ElasticIp → Prop) q f s s' :
  (∀ e, saves (P e) (f e)) → (∀ e e', P e e' → e_id e' = e_id e) → NoDup (map e_id (s_eips s)) →
  mbind_ (select_eips q) (λ l, loop l f) s = (s', Ok tt) →
  Forall2 (λ x x', if q x then P x x' else x' = x) (s_eips s) (s_eips s').
Proof.
  intros Hf HP Hn H. unfold mbind_, select_eips in H.
  pose proof (loop_rows P f (List.filter q (s_eips s)) s) as HF. rewrite H in HF. cbn [fst snd] in HF.
  eapply Forall2_weaken; [|apply HF; try done].
  - intros x x' Hx [[-> Hno]|[[_ Hq]%list_elem_of_In%filter_In HPx]].
    + destruct (q x) eqn:E; [|done]. destruct (Hno eq_refl). apply list_elem_of_In, filter_In.
      split; [by apply list_elem_of_In|done].
    + by rewrite Hq.
  - apply NoDup_fmap_1 with e_id. by apply NoDup_map_filter.
  - intros e [Hin _]%list_elem_of_In%filter_In. by apply list_elem_of_In.
Qed.

Lemma Forall2_compose {A} (R S T : A → A → Prop) l l1 l2 :
  (∀ x y z, R x y → S y z → T x z) → Forall2 R l l1 → Forall2 S l1 l2 → Forall2 T l l2.
Proof.
  intros HT HR. revert l2. induction HR as [|x y l l1 Hxy _ IH]; intros l2 HS.
  - apply Forall2_nil_inv_l in HS as ->. constructor.
  - apply Forall2_cons_inv_l in HS as (z & l2' & Hyz & HS & ->). constructor; [by eapply HT|by apply IH].
Qed.

(** C25: A power cycle gives every address back: when a host's addresses are detached and later
    reattached without an exception, each address of the host is [associated] again with the
    private address, host and transit ports it had before, and no other address changes. *)
Theorem power_cycle_restores host s s1 s2 :
  NoDup (map e_id (s_eips s)) →
  detach_host_eips_preserve_ip cloud providers host s = (s1, Ok tt) →
  reattach_host_eips cloud providers host s1 = (s2, Ok tt) →
  Forall2 (λ x x', if on_host host "associated" x || on_host host "reattach_pending" x
                   then reattached x x' else x' = x) (s_eips s) (s_eips s2).
Proof.
  intros Hn Hd Hr. pose proof (detach_ids host s Hn) as Hn1. rewrite Hd in Hn1. cbn [fst] in Hn1.
  apply (select_loop_rows (λ x, eq (detached x))) in Hd; [|apply detach_saves|by intros e e' <-|done].
  apply (select_loop_rows reattached) in Hr; [|apply reattach_saves|by intros e e' [a ->]|done].
  eapply Forall2_compose; [|exact Hd|exact Hr]. intros x y z. cbn. unfold on_host.
  destruct (col_is (e_host_id x) (h_id host)) eqn:Ec; cbn [andb].
  - destruct (streq (e_state x) "associated") eqn:Ea; cbn [orb].
    + intros <-. cbn. rewrite Ec. cbn. intros [a ->]. by exists a.
    + intros ->. by rewrite Ec.
  - intros ->. by rewrite Ec.
Qed.
End Writes.

(** ** A worked example *)

Definition sample_cloud (_ : list cloud_call) (c : cloud_call) : res reply :=
  match c with
  | CAllocate _ _ _ => Ok (RAddress "eipalloc-1" "203.0.113.7")
  | CAssociate _ _ _ => Ok (RAssociated (Some "10.0.0.5") (Some "eipassoc-1"))
  | CNics _ => Ok (RNics [(1, "eni-b"); (0, "eni-a")])
  | CAssociateTo _ _ _ => Ok (RAssociation "eipassoc-2")
  | _ => Ok RDone
  end.

Definition sample_provider : Provider := mkProvider "prov1" "ec2" None.
Definition sample_host : Host :=
  mkHost "h1" (Some "prov1") "active" "shared" 8 32768 0 0 None None "connected" 5 None None true.

Definition sample_eip : ElasticIp :=
  mkEip "e1" "prov1" (Some "p1") "c1" "eipalloc-1" "203.0.113.7" (Some "10.0.0.5") (Some "h1")
    (Some "eipassoc-1") "associated" (Some [("443", 40000); ("80", 40001)]).
Definition other_eip : ElasticIp :=
  mkEip "e2" "prov1" (Some "p2") "c1" "eipalloc-2" "203.0.113.8" (Some "10.0.0.6") (Some "h1")
    (Some "eipassoc-3") "associated" None.

Definition sample_session : session := mkSession [sample_eip; other_eip] [].

Lemma sample_eips_ok : eips_ok [] (s_eips sample_session).
Proof.
  split_and!.
  - apply (bool_decide_unpack _). vm_compute. exact I.
  - constructor; [right; left; by split|]. constructor; [right; left; by split|]. constructor.
  - intros a b Ha Hb Hne _ _ _ _ p Hpa Hpb. cbn in Ha, Hb.
    apply elem_of_cons in Ha as [->|Ha]; apply elem_of_cons in Hb as [->|Hb]; [done|..].
    + apply list_elem_of_singleton in Hb as ->. cbn in Hpb. by apply not_elem_of_nil in Hpb.
    + apply list_elem_of_singleton in Ha as ->. cbn in Hpa. by apply not_elem_of_nil in Hpa.
    + apply list_elem_of_singleton in Ha as ->, Hb as ->. done.
Qed.

Definition sample_forwards : list val :=
  [VDict [("extPort", VInt 8443)]; VDict [("extPort", VInt 8080)]].

Lemma transit_ports_first_free_witness :
  (allocate_transit_ports other_eip sample_host sample_forwards sample_session).2 =
    Ok [("8443", 40002); ("8080", 40003)].
Proof.
  destruct (transit_ports_first_free other_eip sample_host sample_forwards ["8443"; "8080"] sample_session)
    as (_ & H & _); [reflexivity|apply (bool_decide_unpack _); vm_compute; exact I|].
  destruct H as [H _]; [apply Nat.leb_le; vm_compute; reflexivity|]. rewrite H. lazy. reflexivity.
Defined.

(** The service in the sample cloud. *)
Definition sample_run : eip_op → session → session :=
  eip_run sample_cloud [sample_provider] [sample_host] (λ _, "troshka") (λ _ p, p).
Definition sample_history : list eip_op → session → session → Prop :=
  eip_history sample_cloud [sample_provider] [sample_host] (λ _, "troshka") (λ _ p, p).

Definition second_host : Host :=
  mkHost "h2" (Some "prov1") "active" "shared" 8 32768 0 0 None None "connected" 5 None None true.

(** The address waits on its host, is given to a second one, and a third address gets ports there. *)
Definition waiting_eip : ElasticIp :=
  mkEip "e1" "prov1" (Some "p1") "c1" "eipalloc-1" "203.0.113.7" (Some "10.0.0.5") (Some "h1")
    None "reattach_pending" (Some [("443", 40000); ("80", 40001)]).
Definition away_eip : ElasticIp :=
  mkEip "e3" "prov1" (Some "p3") "c1" "eipalloc-3" "203.0.113.9" (Some "10.0.0.7") (Some "h2")
    (Some "eipassoc-4") "associated" None.
Definition split_session : session := mkSession [waiting_eip; away_eip] [].
Definition split_ops : list eip_op :=
  [OpPorts away_eip second_host sample_forwards; OpAssociate waiting_eip second_host].
Definition split_after : session := foldl (λ s op, sample_run op s) split_session split_ops.

(** The collision: both addresses are on the second host, with the ports 40000 and 40001. *)
Example reassociated_ports_collide :
  map (λ e, (e_host_id e, e_state e, ports_of (e_port_map e))) (s_eips split_after) =
    [(Some "h2", "associated", [40000; 40001]); (Some "h2", "associated", [40000; 40001])].
Proof. reflexivity. Qed.

Lemma split_eips_ok : eips_ok [] (s_eips split_session).
Proof.
  split_and!.
  - apply (bool_decide_unpack _). vm_compute. exact I.
  - constructor; [right; right; by split|]. constructor; [right; left; by split|]. constructor.
  - intros a b Ha Hb Hne _ _ _ Hh. cbn in Ha, Hb.
    apply elem_of_cons in Ha as [->|Ha]; apply elem_of_cons in Hb as [->|Hb]; [done|..].
    + by apply list_elem_of_singleton in Hb as ->.
    + by apply list_elem_of_singleton in Ha as ->.
    + by apply list_elem_of_singleton in Ha as ->, Hb as ->.
Qed.

(** An address of the host gets ports, and nothing is moved; then the history above, where the
    address [e1] alone is. *)
Lemma eips_invariant_witness :
  eips_ok [] (s_eips (sample_run (OpPorts other_eip sample_host sample_forwards) sample_session)) ∧
  eips_ok ["e1"] (s_eips split_after).
Proof.
  split.
  - apply (eips_invariant sample_cloud [sample_provider] [sample_host] (λ _, "troshka") (λ _ p, p)
      [OpPorts other_eip sample_host sample_forwards] sample_session); [|exact sample_eips_ok].
    apply HistoryCons; [right; left|apply HistoryNil].
  - apply (eips_invariant sample_cloud [sample_provider] [sample_host] (λ _, "troshka") (λ _ p, p)
      split_ops split_session); [|exact split_eips_ok].
    apply HistoryCons; [right; left|]. apply HistoryCons; [left|apply HistoryNil].
Defined.

Lemma power_cycle_restores_witness :
  let s1 := (detach_host_eips_preserve_ip sample_cloud [sample_provider] sample_host sample_session).1 in
  let s2 := (reattach_host_eips sample_cloud [sample_provider] sample_host s1).1 in
  map e_state (s_eips s1) = ["reattach_pending"; "reattach_pending"] ∧
  Forall2 (λ x x', if on_host sample_host "associated" x || on_host sample_host "reattach_pending" x
                   then reattached x x' else x' = x) (s_eips sample_session) (s_eips s2).
Proof.
  split; [reflexivity|].
  eapply (power_cycle_restores sample_cloud [sample_provider] sample_host sample_session);
    [apply (bool_decide_unpack _); vm_compute; exact I|reflexivity|reflexivity].
Defined.
