(* ===== verification/Placement.v ===== *)
(** * Placement service: [placement.py]

    Requirements of a topology, capacity with overcommit, host selection,
    anti-affinity bin-packing across hosts, and the placement of a project with
    its effects on the database, the counters and the VNI high-water mark. *)
From stdpp Require Import prelude strings gmap.
From Stdlib Require Import Ascii QArith.QArith_base.
From S2P Require Import Prelude PyStr PyVal PyLemmas Interfaces Db TopoNodes Vxlan HostNetwork.
From S2P Require Import PatternLocations.
Open Scope Z_scope.

(** [_PLACEMENT_HOST_FILTERS] *)
Definition placement_host_filter (h : Host) : bool :=
  streq (h_state h) "active" && streq (h_agent_status h) "connected" && h_accepting_work h.

(** ** Requirements *)

Record reqs := mkReqs {
  r_vm_count : Z;
  r_container_count : Z;
  r_total_vcpus : Z;
  r_total_ram_mb : Z;
  r_requested_eips : Z
}.

(** [placement.calculate_project_requirements:40-44]: one VM. *)
Definition add_vm (vm : val) (s : Z * Z * Z) : res (Z * Z * Z) :=
  let '(vcpus, ram, n) := s in
  data <- data_of vm;;
  v <- get data "vcpus" (VInt 2);; v <- num v;;
  m <- get data "ram" (VInt 4);; m <- num m;;
  Ok (vcpus + v, ram + m * 1024, n + 1).

(** [placement.calculate_project_requirements:46-50]: one container. *)
Definition add_container (ctr : val) (s : Z * Z * Z) : res (Z * Z * Z) :=
  let '(vcpus, ram, n) := s in
  data <- data_of ctr;;
  v <- get data "cpus" (VInt 1);; v <- num v;;
  m <- get data "memory" (VInt 512);; m <- num m;;
  Ok (vcpus + v, ram + m, n + 1).

(** [placement.calculate_project_requirements] *)
Definition calculate_project_requirements (topology : val) : res reqs :=
  nodes <- nodes_of topology;;
  vms <- filter_res (λ n, has_type n "vmNode") nodes;;
  containers <- filter_res (λ n, has_type n "containerNode") nodes;;
  '(vcpus, ram, vm_count) <- for_each vms (0, 0, 0) add_vm;;
  '(vcpus, ram, container_count) <- for_each containers (vcpus, ram, 0) add_container;;
  external_ips <- get topology "externalIps" empty_list;;
  eips <- py_len external_ips;;
  Ok (mkReqs vm_count container_count vcpus ram eips).

(** ** Capacity *)

(** The [overcommit] section of the configuration; a missing or zero ratio takes
    the default. *)
Record config := mkConfig { cfg_cpu_ratio : option Q; cfg_ram_ratio : option Q }.

Definition ratio_or (o : option Q) (d : Q) : Q :=
  match o with Some q => if Qeq_bool q 0 then d else q | None => d end.

(** [placement._get_overcommit_ratios] *)
Definition get_overcommit_ratios (c : config) : Q * Q :=
  (ratio_or (cfg_cpu_ratio c) 4, ratio_or (cfg_ram_ratio c) (3 # 2)).

(** [int(n * ratio)]: truncation towards zero.  The float product is exact for
    the column's 32-bit integers and ratios with few fraction bits. *)
Definition int_mul (n : Z) (q : Q) : Z := Z.quot (n * Qnum q) (Zpos (Qden q)).

(** [placement.get_allocatable] *)
Definition get_allocatable (c : config) (h : Host) : Z * Z :=
  let '(cpu, ram) := get_overcommit_ratios c in
  (int_mul (h_total_vcpus h) cpu, int_mul (h_total_ram_mb h) ram).

Definition committed_states : list string :=
  ["active"; "stopped"; "deploying"; "reconfiguring"; "starting"; "stopping"].

Definition set_used (h : Host) (vcpus ram : Z) : Host :=
  mkHost (h_id h) (h_provider_id h) (h_state h) (h_host_type h) (h_total_vcpus h)
    (h_total_ram_mb h) vcpus ram (h_ip_address h) (h_private_ip h) (h_agent_status h)
    (h_max_eips h) (h_uplink_mtu h) (h_storage_pool_id h) (h_accepting_work h).

(** The projects whose resources a host carries. *)
Definition host_projects (db : DB) (hid : string) : list Project :=
  List.filter (λ p, col_is (p_host_id p) hid && in_list (p_state p) committed_states)
    (db_projects db).

(** [placement.sync_host_capacity]: the host with its usage recomputed. *)
Definition sync_host_capacity (db : DB) (h : Host) : res Host :=
  '(v, m) <- for_each (host_projects db (h_id h)) (0, 0) (λ p '(v, m),
    r <- calculate_project_requirements (v_or (p_topology p) empty_dict);;
    Ok (v + r_total_vcpus r, m + r_total_ram_mb r));;
  Ok (set_used h v m).

(** [for host in hosts: sync_host_capacity(db, host)]: the hosts afterwards and
    the database holding them. *)
Definition sync_hosts (db : DB) (hosts : list Host) : res (list Host * DB) :=
  hs <- map_res (sync_host_capacity db) hosts;;
  Ok (hs, foldl save_host db hs).

(** [placement.required_network_mtu] *)
Definition required_network_mtu (topology : val) : res (option Z) :=
  ns <- nodes_of (v_or topology empty_dict);;
  vals <- for_each ns [] (λ n vals,
    t <- has_type n "networkNode";;
    if negb t then Ok vals
    else
      d <- get n "data" VNone;;
      m <- get (v_or d empty_dict) "mtu" VNone;;
      match as_int m with
      | Some z => if 0 <? z then Ok (vals ++ [z]) else Ok vals
      | None => Ok vals
      end);;
  Ok (zmax vals).

(** [placement._host_mtu_ok] *)
Definition host_mtu_ok (h : Host) (required_mtu : option Z) : bool :=
  match required_mtu with
  | None => true
  | Some r => match h_uplink_mtu h with Some u => r <=? u | None => false end
  end.

(** [placement._get_inflight_deploys]; the counter functions absorb their own
    connection errors. *)
Definition inflight_key (host_id : string) : string := "inflight:deploys:" +:+ host_id.
Definition get_inflight_deploys (c : counters) (host_id : string) : Z :=
  get_counter c (inflight_key host_id).

(** [placement.record_deploy_start] *)
Definition record_deploy_start (c : counters) (host_id : string) : counters :=
  increment_counter c (inflight_key host_id).

(** [placement.record_deploy_end] *)
Definition record_deploy_end (c : counters) (host_id : string) : counters :=
  decrement_counter c (inflight_key host_id).

(** [eip_service.get_host_eip_usage] *)
Definition get_host_eip_usage (db : DB) (host_id : string) : Z :=
  Z.of_nat (length (List.filter
    (λ e, col_is (e_host_id e) host_id && streq (e_state e) "associated") (db_eips db))).

Definition provider_eip_usage (db : DB) (pid : string) : Z :=
  Z.of_nat (length (List.filter
    (λ e, streq (e_provider_id e) pid && streq (e_state e) "associated") (db_eips db))).

(** [placement._check_eip_capacity] *)
Definition check_eip_capacity (db : DB) (h : Host) (required_eips : Z) : bool :=
  if h_max_eips h - get_host_eip_usage db (h_id h) <? required_eips then false
  else
    match text_opt (h_provider_id h) with
    | None => true
    | Some pid =>
        match find_provider db pid with
        | Some prov =>
            match pr_max_eips prov with
            | Some mx => negb (mx <? provider_eip_usage db (pr_id prov) + required_eips)
            | None => true
            end
        | None => true
        end
    end.

(** [placement._storage_ready_anywhere] *)
Definition storage_ready_anywhere (db : DB) (dids : list val) : bool :=
  match dids with
  | [] => true
  | _ => existsb (λ h, pattern_disks_ready_on_provider db dids (h_provider_id h))
           (List.filter placement_host_filter (db_hosts db))
  end.

(** [placement._host_has_pattern_storage] *)
Definition host_has_pattern_storage (db : DB) (h : Host) (dids : list val) : bool :=
  match dids with
  | [] => true
  | _ => pattern_disks_ready_on_provider db dids (h_provider_id h)
  end.

(** [placement.topology_requires_kubevirt] *)
Definition topology_requires_kubevirt (topology : val) : res bool :=
  if negb (truthy topology) then Ok false
  else
    p <- get topology "placement" VNone;;
    let placement := v_or p empty_dict in
    a <- get placement "requires_kubevirt" VNone;;
    if truthy a then Ok true
    else b <- get placement "requiresKubevirt" VNone;; Ok (truthy b).

(** ** Single-host selection *)

Record demand := mkDemand {
  d_vcpus : Z;
  d_ram_mb : Z;
  d_eips : Z;
  d_disks : list val;
  d_mtu : option Z
}.

Record candidate := mkCand { c_host : Host; c_free_vcpus : Z; c_free_ram : Z; c_inflight : Z }.

(** [placement._host_fits_requirements] *)
Definition host_fits_requirements (cfg : config) (db : DB) (c : counters) (d : demand)
    (h : Host) : option candidate :=
  let '(alloc_vcpus, alloc_ram) := get_allocatable cfg h in
  let free_vcpus := alloc_vcpus - h_used_vcpus h in
  let free_ram := alloc_ram - h_used_ram_mb h in
  if (free_vcpus <? d_vcpus d) || (free_ram <? d_ram_mb d) then None
  else if (0 <? d_eips d) && negb (check_eip_capacity db h (d_eips d)) then None
  else if negb (host_has_pattern_storage db h (d_disks d)) then None
  else if negb (host_mtu_ok h (d_mtu d)) then None
  else Some (mkCand h free_vcpus free_ram (get_inflight_deploys c (h_id h))).

(** The optional filters of a host query: a falsy argument filters nothing. *)
Definition opt_filter (want : option string) (col : option string) : bool :=
  match text_opt want with Some w => col_is col w | None => true end.

Definition host_query (storage_pool_id provider_id : option string) (requires_kubevirt : bool)
    (h : Host) : bool :=
  negb (streq (h_host_type h) "pattern_buffer") &&
  opt_filter storage_pool_id (h_storage_pool_id h) &&
  opt_filter provider_id (h_provider_id h) &&
  (if requires_kubevirt then streq (h_host_type h) "kubevirt-cluster" else true).

(** The sort key [(inflight, -free_ram)]. *)
Definition cand_le (a b : candidate) : bool :=
  (c_inflight a <? c_inflight b) ||
  ((c_inflight a =? c_inflight b) && (- c_free_ram a <=? - c_free_ram b)).

(** [placement.find_available_host]: the host and the database with the synced
    capacities. *)
Definition find_available_host (cfg : config) (db : DB) (c : counters) (d : demand)
    (storage_pool_id provider_id : option string) (requires_kubevirt : bool)
    : res (option Host * DB) :=
  let hosts := List.filter (λ h, placement_host_filter h &&
                 host_query storage_pool_id provider_id requires_kubevirt h) (db_hosts db) in
  '(hosts, db) <- sync_hosts db hosts;;
  let candidates := omap (host_fits_requirements cfg db c d) hosts in
  match sort_by cand_le candidates with
  | [] => Ok (None, db)
  | best :: _ => Ok (Some (c_host best), db)
  end.

(** ** Why no host was found *)

(** [str(round(n / 1024, 1))]: the quotient is exact, ties go to the even digit. *)
Definition round_gb (n : Z) : Z :=
  let q := 10 * n / 1024 in
  let r := 10 * n mod 1024 in
  if (512 <? r) || ((r =? 512) && Z.odd q) then q + 1 else q.
Definition gb_text (n : Z) : string :=
  let t := round_gb (Z.abs n) in
  (if n <? 0 then "-" else "") +:+ str_of_Z (t / 10) +:+ "." +:+ str_of_Z (t mod 10).

(** [placement._capacity_shortfall_reason:310-315] the best free CPU and memory of any host. *)
Definition best_free (cfg : config) (hosts : list Host) : Z * Z :=
  foldl (λ '(c, m) h,
    let '(alloc_vcpus, alloc_ram) := get_allocatable cfg h in
    (Z.max c (alloc_vcpus - h_used_vcpus h), Z.max m (alloc_ram - h_used_ram_mb h))) (0, 0) hosts.

(** [placement._capacity_shortfall_reason] *)
Definition capacity_shortfall_reason (cfg : config) (hosts : list Host)
    (required_vcpus required_ram_mb : Z) : string :=
  let '(best_cpu, best_ram) := best_free cfg hosts in
  let req_ram_gb := gb_text required_ram_mb in
  let best_ram_gb := gb_text best_ram in
  let cpu_short := best_cpu <? required_vcpus in
  let ram_short := best_ram <? required_ram_mb in
  if cpu_short && ram_short then
    "Not enough CPU or RAM — need " +:+ str_of_Z required_vcpus +:+ " vCPUs and " +:+ req_ram_gb +:+
    " GB RAM, but the best host has " +:+ str_of_Z best_cpu +:+ " vCPUs and " +:+ best_ram_gb +:+
    " GB free. Free up resources or add a host."
  else if ram_short then
    "Not enough RAM — need " +:+ req_ram_gb +:+ " GB but the best host has only " +:+ best_ram_gb +:+
    " GB free. Free up RAM or add a host."
  else if cpu_short then
    "Not enough CPU — need " +:+ str_of_Z required_vcpus +:+ " vCPUs but the best host has only " +:+
    str_of_Z best_cpu +:+ " free. Free up CPU or add a host."
  else
    "No single host can fit all VMs together — capacity is fragmented across hosts. " +:+
    "Free up resources or add a host.".

(** [placement.diagnose_placement_failure:359-370] the query, which does not ask for hosts
    accepting work. *)
Definition diagnosis_query (storage_pool_id provider_id : option string) (requires_kubevirt : bool)
    (h : Host) : bool :=
  streq (h_state h) "active" && streq (h_agent_status h) "connected" &&
  host_query storage_pool_id provider_id requires_kubevirt h.

(** [placement.diagnose_placement_failure]: the reason and the database with the synced
    capacities. *)
Definition diagnose_placement_failure (cfg : config) (db : DB) (required_vcpus required_ram_mb : Z)
    (storage_pool_id provider_id : option string) (pattern_disk_ids : list val)
    (requires_kubevirt : bool) : res (string * DB) :=
  match List.filter (diagnosis_query storage_pool_id provider_id requires_kubevirt) (db_hosts db) with
  | [] =>
      Ok (if requires_kubevirt
          then "No active KubeVirt cluster hosts are available. " +:+
               "This template requires a kubevirt-cluster host."
          else "No active, connected hosts are available. Add a host.", db)
  | hosts =>
      match List.filter h_accepting_work hosts with
      | [] =>
          Ok ("All available hosts are removed from the provision pool. " +:+
              "Re-enable a host's 'In pool' switch to accept new deployments.", db)
      | accepting =>
          '(hosts, db) <- sync_hosts db accepting;;
          let storage_ok := List.filter (λ h, host_has_pattern_storage db h pattern_disk_ids) hosts in
          match pattern_disk_ids, storage_ok with
          | _ :: _, [] =>
              Ok ("Pattern disks are not available on any host — they may still be syncing to " +:+
                  "storage, or their location records are missing. Try again shortly; if it " +:+
                  "persists, re-capture or re-sync the pattern.", db)
          | _, _ =>
              Ok (capacity_shortfall_reason cfg (match storage_ok with [] => hosts | l => l end)
                    required_vcpus required_ram_mb, db)
          end
      end
  end.

(** [placement._auto_select_pool] *)
Definition pool_free_ram (cfg : config) (db : DB) (pool : StoragePool) : Z :=
  zsum (map (λ h, (get_allocatable cfg h).2 - h_used_ram_mb h)
    (List.filter (λ h, col_is (h_storage_pool_id h) (sp_id pool) && placement_host_filter h)
      (db_hosts db))).

(** [placement._auto_select_pool] *)
Definition auto_select_pool (cfg : config) (db : DB) : option string :=
  match List.filter (λ p, streq (sp_status p) "available") (db_pools db) with
  | [] => None
  | [p] => Some (sp_id p)
  | pools =>
      (foldl (λ '(best, best_free) p,
         let total_free := pool_free_ram cfg db p in
         if best_free <? total_free then (Some (sp_id p), total_free) else (best, best_free))
       (None, -1) pools).1
  end.

(** ** Multi-host bin-packing *)

(** [placement._parse_affinity_groups:445-448]: [separateHost] when it is a
    non-empty text. *)
Definition separate_host (node : val) : res (option string) :=
  d <- data_of node;;
  aa <- get d "separateHost" VNone;;
  Ok (match aa with VStr "" => None | VStr s => Some s | _ => None end).

Record affinity := mkAffinity {
  a_groups : list (val * list val);
  a_ungrouped : list val;
  a_anti : list (val * string)
}.

(** [groups.setdefault(ag, \[\]).append(node)] *)
Definition group_append (ag node : val) (groups : list (val * list val))
    : res (list (val * list val)) :=
  o <- vget ag groups;;
  vset ag (default [] o ++ [node]) groups.

(** [placement._parse_affinity_groups] *)
Definition parse_affinity_groups (vm_nodes : list val) : res affinity :=
  for_each vm_nodes (mkAffinity [] [] []) (λ node a,
    aa <- separate_host node;;
    anti <- (match aa with
             | Some g => i <- idx node "id";; vset i g (a_anti a)
             | None => Ok (a_anti a)
             end);;
    d <- data_of node;;
    ag <- get d "affinityGroup" VNone;;
    if truthy ag
    then gs <- group_append ag node (a_groups a);; Ok (mkAffinity gs (a_ungrouped a) anti)
    else Ok (mkAffinity (a_groups a) (a_ungrouped a ++ [node]) anti)).

(** [placement._build_placement_units._node_ram_mb] *)
Definition node_ram_mb (node : val) : res Z :=
  data <- data_of node;;
  ctr <- has_type node "containerNode";;
  if ctr then m <- get data "memory" (VInt 512);; num m
  else m <- get data "ram" (VInt 4);; z <- num m;; Ok (z * 1024).

(** [placement._build_placement_units._node_vcpus] *)
Definition node_vcpus (node : val) : res Z :=
  data <- data_of node;;
  ctr <- has_type node "containerNode";;
  if ctr then v <- get data "cpus" (VInt 1);; num v
  else v <- get data "vcpus" (VInt 2);; num v.

Record unit_ := mkUnit { u_vm_ids : list val; u_ram_mb : Z; u_vcpus : Z }.

Definition group_unit (nodes : list val) : res unit_ :=
  ids <- map_res (λ n, idx n "id") nodes;;
  rams <- map_res node_ram_mb nodes;;
  cpus <- map_res node_vcpus nodes;;
  Ok (mkUnit ids (zsum rams) (zsum cpus)).

(** [placement._build_placement_units]: a single node is a group of one;
    descending by RAM, stable. *)
Definition build_placement_units (groups : list (val * list val)) (ungrouped : list val)
    : res (list unit_) :=
  gs <- map_res (λ g, group_unit g.2) groups;;
  us <- map_res (λ n, group_unit [n]) ungrouped;;
  Ok (sort_by (λ a b, u_ram_mb b <=? u_ram_mb a) (gs ++ us)).

(** What is left on a host while units are packed. *)
Record slot := mkSlot { s_ram_mb : Z; s_vcpus : Z }.

Definition multihost_query (pool_id provider_id : option string) (h : Host) : bool :=
  placement_host_filter h && negb (streq (h_host_type h) "pattern_buffer") &&
  negb (streq (h_host_type h) "kubevirt-cluster") &&
  opt_filter pool_id (h_storage_pool_id h) && opt_filter provider_id (h_provider_id h).

(** The fixed overcommit of [_prepare_hosts]: [int(n * 2.0)]. *)
Definition host_slot (h : Host) : slot :=
  mkSlot (h_total_ram_mb h - h_used_ram_mb h) (h_total_vcpus h * 2 - h_used_vcpus h).

(** [placement._prepare_hosts] *)
Definition prepare_hosts (db : DB) (pool_id provider_id : option string)
    (required_mtu : option Z) : res (option (list Host * list (string * slot)) * DB) :=
  match List.filter (multihost_query pool_id provider_id) (db_hosts db) with
  | [] => Ok (None, db)
  | available =>
      match List.filter (λ h, host_mtu_ok h required_mtu) available with
      | [] => Ok (None, db)
      | available =>
          '(hosts, db) <- sync_hosts db available;;
          Ok (Some (hosts,
                foldl (λ m h, assoc_set (h_id h) (host_slot h) m) [] hosts), db)
      end
  end.

(** Anti-affinity groups of a list of VM ids. *)
Definition aa_groups (anti : list (val * string)) (vm_ids : list val) : list string :=
  omap (λ v, vlookup v anti) vm_ids.

Definition intersects (a b : list string) : bool := existsb (λ x, in_list x b) a.

(** [placement._can_place_on_host] *)
Definition can_place_on_host (u : unit_) (hid : string) (remaining : slot)
    (assignments : list (string * list val)) (anti : list (val * string)) : bool :=
  if (s_ram_mb remaining <? u_ram_mb u) || (s_vcpus remaining <? u_vcpus u) then false
  else negb (intersects (aa_groups anti (u_vm_ids u))
                        (aa_groups anti (default [] (assoc hid assignments)))).

(** State of the packing loop. *)
Record packing := mkPacking {
  pk_assign : list (string * list val);
  pk_remaining : list (string * slot)
}.

(** Hosts by remaining RAM, most first. *)
Definition sorted_hosts (rem : list (string * slot)) : list (string * slot) :=
  sort_by (λ a b, s_ram_mb b.2 <=? s_ram_mb a.2) rem.

(** [placement._bin_pack_units:588-605]: one unit. *)
Definition place_unit (anti : list (val * string)) (u : unit_) (p : packing) : option packing :=
  match List.find (λ '(hid, s), can_place_on_host u hid s (pk_assign p) anti)
          (sorted_hosts (pk_remaining p)) with
  | None => None
  | Some (hid, s) =>
      Some (mkPacking
        (assoc_set hid (default [] (assoc hid (pk_assign p)) ++ u_vm_ids u) (pk_assign p))
        (assoc_set hid (mkSlot (s_ram_mb s - u_ram_mb u) (s_vcpus s - u_vcpus u))
          (pk_remaining p)))
  end.

Fixpoint place_units (anti : list (val * string)) (us : list unit_) (p : packing)
    : option packing :=
  match us with
  | [] => Some p
  | u :: us' => p' ← place_unit anti u p; place_units anti us' p'
  end.

Definition initial_packing (hids : list string) (rem : list (string * slot)) : packing :=
  mkPacking (foldl (λ m hid, assoc_set hid [] m) [] hids) rem.

(** [placement._bin_pack_units] *)
Definition bin_pack_units (units : list unit_) (hids : list string) (rem : list (string * slot))
    (anti : list (val * string)) : option (list (string * list val)) :=
  p ← place_units anti units (initial_packing hids rem);
  Some (List.filter (λ '(_, vms), match vms with [] => false | _ => true end) (pk_assign p)).

(** [placement.find_multihost_placement] *)
Definition find_multihost_placement (db : DB) (topology : val)
    (pool_id provider_id : option string) (required_mtu : option Z)
    : res (option (list (string * list val)) * DB) :=
  nodes <- nodes_of topology;;
  vm_nodes <- filter_res (λ n, has_type_in n ["vmNode"; "containerNode"]) nodes;;
  match vm_nodes with
  | [] => Ok (None, db)
  | _ =>
      a <- parse_affinity_groups vm_nodes;;
      units <- build_placement_units (a_groups a) (a_ungrouped a);;
      '(prep, db) <- prepare_hosts db pool_id provider_id required_mtu;;
      match prep with
      | None => Ok (None, db)
      | Some (hosts, rem) => Ok (bin_pack_units units (map h_id hosts) rem (a_anti a), db)
      end
  end.

(** [placement.select_network_host:640-643] *)
Definition gateway_vm_ids (topology : val) : res (list val) :=
  nodes <- nodes_of topology;;
  for_each nodes [] (λ node ids,
    t <- has_type node "vmNode";;
    if negb t then Ok ids
    else
      d <- data_of node;;
      g <- get d "isGateway" VNone;;
      if truthy g then i <- idx node "id";; vadd i ids else Ok ids).

(** The first key with the greatest value: Python's [max(d, key=...)]. *)
Fixpoint max_by {A} (key : A → Z) (best : A) (l : list A) : A :=
  match l with
  | [] => best
  | x :: l' => max_by key (if key best <? key x then x else best) l'
  end.

(** [placement.select_network_host]: an empty assignment raises. *)
Definition select_network_host (host_assignments : list (string * list val)) (topology : val)
    : res string :=
  gw <- gateway_vm_ids topology;;
  match (match gw with
         | [] => None
         | _ => List.find (λ '(_, vms), existsb (λ v, vmem v gw) vms) host_assignments
         end) with
  | Some (hid, _) => Ok hid
  | None =>
      match host_assignments with
      | [] => Raise ValueError
      | a :: l => Ok (max_by (λ p, Z.of_nat (length p.2)) a l).1
      end
  end.

(** [placement._has_anti_affinity] *)
Definition has_anti_affinity (topology : val) : res bool :=
  nodes <- nodes_of topology;;
  groups <- for_each nodes [] (λ n groups,
    t <- has_type_in n ["vmNode"; "containerNode"];;
    if negb t then Ok groups
    else
      aa <- separate_host n;;
      Ok (match aa with
          | Some g => assoc_set g (default 0 (assoc g groups) + 1) groups
          | None => groups
          end));;
  Ok (existsb (λ p, 1 <? p.2) groups).

(** ** Host selection *)

#[export] Instance cand_le_order : TotalPreorder cand_le.
Proof. split; unfold cand_le; lia. Qed.

(** What fitting means. *)
Lemma host_fits_inv cfg db c d h cand :
  host_fits_requirements cfg db c d h = Some cand →
  c_host cand = h ∧ c_inflight cand = get_inflight_deploys c (h_id h) ∧
  c_free_ram cand = (get_allocatable cfg h).2 - h_used_ram_mb h ∧
  h_used_vcpus h + d_vcpus d ≤ (get_allocatable cfg h).1 ∧
  h_used_ram_mb h + d_ram_mb d ≤ (get_allocatable cfg h).2 ∧
  (0 < d_eips d → check_eip_capacity db h (d_eips d) = true) ∧
  host_has_pattern_storage db h (d_disks d) = true ∧ host_mtu_ok h (d_mtu d) = true.
Proof.
  unfold host_fits_requirements. destruct (get_allocatable cfg h) as [v m]. cbn [fst snd].
  destruct ((v - h_used_vcpus h <? d_vcpus d) || (m - h_used_ram_mb h <? d_ram_mb d)) eqn:E1; [done|].
  destruct ((0 <? d_eips d) && negb (check_eip_capacity db h (d_eips d))) eqn:E2; [done|].
  destruct (host_has_pattern_storage db h (d_disks d)) eqn:E3; [|done].
  destruct (host_mtu_ok h (d_mtu d)) eqn:E4; [|done].
  intros [= <-]. cbn. apply orb_false_elim in E1 as [?%Z.ltb_ge ?%Z.ltb_ge].
  split_and!; try done; try lia. intros Hd. apply Z.ltb_lt in Hd. rewrite Hd in E2.
  by destruct (check_eip_capacity db h (d_eips d)).
Qed.

(** The hosts a search considers, with their usage recomputed. *)
Definition search_scope (db : DB) (pool prov : option string) (kv : bool) : list Host :=
  List.filter (λ h, placement_host_filter h && host_query pool prov kv h) (db_hosts db).

(** Host selection is optimal and complete: the chosen host was in scope, has room for the
    project within the overcommitted capacity, addresses, pattern disks and MTU, and no host
    that fits has fewer deployments in flight, nor as few and more free memory; and no host is
    chosen only when none fits. *)
Theorem find_available_host_best cfg db c d pool prov kv r db' :
  find_available_host cfg db c d pool prov kv = Ok (r, db') →
  ∃ hosts, sync_hosts db (search_scope db pool prov kv) = Ok (hosts, db') ∧
  match r with
  | None => ∀ h, h ∈ hosts → host_fits_requirements cfg db' c d h = None
  | Some h =>
      h ∈ hosts ∧
      h_used_vcpus h + d_vcpus d ≤ (get_allocatable cfg h).1 ∧
      h_used_ram_mb h + d_ram_mb d ≤ (get_allocatable cfg h).2 ∧
      (0 < d_eips d → check_eip_capacity db' h (d_eips d) = true) ∧
      host_has_pattern_storage db' h (d_disks d) = true ∧ host_mtu_ok h (d_mtu d) = true ∧
      ∀ h', h' ∈ hosts → host_fits_requirements cfg db' c d h' ≠ None →
        let load x := get_inflight_deploys c (h_id x) in
        let free x := (get_allocatable cfg x).2 - h_used_ram_mb x in
        load h < load h' ∨ (load h = load h' ∧ free h' ≤ free h)
  end.
Proof.
  unfold find_available_host. intros H. bind_inv. destruct x as [hosts db1].
  exists hosts. destruct (sort_by cand_le _) as [|best rest] eqn:E; simplify_eq.
  - split; [done|]. apply sort_by_nil_inv in E. intros h Hh.
    destruct (host_fits_requirements cfg db' c d h) as [cand|] eqn:Ef; [|done].
    exfalso. apply (not_elem_of_nil cand). rewrite <-E. apply list_elem_of_omap. eauto.
  - split; [done|]. apply sort_by_head in E as [Hin Hmin]; [|apply _].
    apply list_elem_of_omap in Hin as (h & Hh & Hf).
    destruct (host_fits_inv _ _ _ _ _ _ Hf) as (-> & Hi & Hr & H1 & H2 & H3 & H4 & H5).
    split_and!; try done. intros h' Hh' Hf'.
    destruct (host_fits_requirements cfg db' c d h') as [cand|] eqn:Ef; [|done].
    destruct (host_fits_inv _ _ _ _ _ _ Ef) as (_ & Hi' & Hr' & _).
    cbv zeta. rewrite <-Hi, <-Hi', <-Hr, <-Hr'.
    destruct (Hmin cand) as [->|Hle]; [apply list_elem_of_omap; eauto|lia|].
    unfold cand_le in Hle. lia.
Qed.

Definition placement_host (hid : string) (vcpus ram : Z) : Host :=
  mkHost hid (Some "prov") "active" "shared" vcpus ram 0 0 (Some "192.0.2.1") None
    "connected" 4 (Some 9000) None true.

Definition placement_vm (id : string) (extra : list (string * val)) : val :=
  VDict [("id", VStr id); ("type", VStr "vmNode");
         ("data", VDict ([("vcpus", VInt 2); ("ram", VInt 8)] ++ extra))].

(** Two hosts, the larger one carrying a project of one VM. *)
Definition placement_db : DB :=
  mkDB [placement_host "h1" 4 32768; placement_host "h2" 16 65536]
    [mkProject "p1" (Some "prov") (Some "h2") "active"
       (VDict [("nodes", VList [placement_vm "v0" []])]) None None] [] [] [] [].

Definition no_counters : counters := mkCounters false ∅ ∅.

Definition placement_cfg : config := mkConfig None None.

Lemma find_available_host_best_witness :
  let d := mkDemand 2 8192 0 [] None in
  let busy := increment_counter no_counters (inflight_key "h2") in
  let h1 := placement_host "h1" 4 32768 in
  ∃ db', find_available_host placement_cfg placement_db busy d None None false = Ok (Some h1, db') ∧
  ∃ hosts, sync_hosts placement_db (search_scope placement_db None None false) = Ok (hosts, db') ∧
      h1 ∈ hosts ∧
      h_used_vcpus h1 + d_vcpus d ≤ (get_allocatable placement_cfg h1).1 ∧
      h_used_ram_mb h1 + d_ram_mb d ≤ (get_allocatable placement_cfg h1).2 ∧
      (0 < d_eips d → check_eip_capacity db' h1 (d_eips d) = true) ∧
      host_has_pattern_storage db' h1 (d_disks d) = true ∧ host_mtu_ok h1 (d_mtu d) = true ∧
      ∀ h', h' ∈ hosts → host_fits_requirements placement_cfg db' busy d h' ≠ None →
        let load x := get_inflight_deploys busy (h_id x) in
        let free x := (get_allocatable placement_cfg x).2 - h_used_ram_mb x in
        load h1 < load h' ∨ (load h1 = load h' ∧ free h' ≤ free h1).
Proof.
  intros d busy h1. eexists. split; [vm_compute; reflexivity|].
  apply (find_available_host_best placement_cfg placement_db busy d None None false (Some h1)).
  vm_compute. reflexivity.
Defined.

(** ** Bin-packing *)

(** The units placed on each host so far, in order. *)
Definition placed := list (string * list unit_).

Definition unit_ids (us : list unit_) : list val := concat (map u_vm_ids us).

Definition units_fit (us : list unit_) (s : slot) : Prop :=
  us ≠ [] → zsum (map u_ram_mb us) ≤ s_ram_mb s ∧ zsum (map u_vcpus us) ≤ s_vcpus s.

(** No two units on a host have an anti-affinity group in common. *)
Inductive separated (anti : list (val * string)) : list unit_ → Prop :=
| sep_nil : separated anti []
| sep_snoc us u :
    separated anti us →
    (∀ g, g ∈ aa_groups anti (u_vm_ids u) → g ∉ aa_groups anti (unit_ids us)) →
    separated anti (us ++ [u]).

Lemma unit_ids_app us us' : unit_ids (us ++ us') = unit_ids us ++ unit_ids us'.
Proof. unfold unit_ids. by rewrite map_app, concat_app. Qed.

(** The packing state and the units it stands for. *)
Definition pack_inv (anti : list (val * string)) (rem0 : list (string * slot)) (pl : placed)
    (p : packing) : Prop :=
  NoDup pl.*1 ∧ pk_assign p = map (λ e, (e.1, unit_ids e.2)) pl ∧
  (pk_remaining p).*1 = rem0.*1 ∧ NoDup rem0.*1 ∧ (∀ h, h ∈ rem0.*1 → h ∈ pl.*1) ∧
  ∀ h us, assoc h pl = Some us → separated anti us ∧
    ∀ s0, assoc h rem0 = Some s0 → units_fit us s0 ∧
      assoc h (pk_remaining p) = Some (mkSlot (s_ram_mb s0 - zsum (map u_ram_mb us))
                                              (s_vcpus s0 - zsum (map u_vcpus us))).

Lemma intersects_false a b g : intersects a b = false → g ∈ a → g ∉ b.
Proof.
  unfold intersects. intros H Ha Hb. apply not_true_iff_false in H. apply H.
  apply existsb_exists. exists g. split; [by apply list_elem_of_In|].
  by apply bool_decide_eq_true.
Qed.

Lemma can_place_inv u hid s asg anti :
  can_place_on_host u hid s asg anti = true →
  u_ram_mb u ≤ s_ram_mb s ∧ u_vcpus u ≤ s_vcpus s ∧
  ∀ g, g ∈ aa_groups anti (u_vm_ids u) → g ∉ aa_groups anti (default [] (assoc hid asg)).
Proof.
  unfold can_place_on_host. destruct (_ || _) eqn:E; [done|].
  apply orb_false_elim in E as [?%Z.ltb_ge ?%Z.ltb_ge]. intros Hi%negb_true_iff.
  split_and!; try done. intros g. by apply intersects_false.
Qed.

(** One unit goes to a host with room for it. *)
Lemma place_unit_inv anti rem0 pl p u p' :
  pack_inv anti rem0 pl p → place_unit anti u p = Some p' →
  ∃ h us, assoc h pl = Some us ∧ h ∈ rem0.*1 ∧
    pack_inv anti rem0 (assoc_set h (us ++ [u]) pl) p'.
Proof.
  intros (Hnd & Ha & Hk & Hnr & Hsub & Hinv). unfold place_unit.
  destruct (List.find _ _) as [[h s]|] eqn:Ef; [|done]. intros [= <-].
  apply find_some in Ef as [Hin Hc]. apply list_elem_of_In, elem_of_sort_by in Hin.
  assert (Hr : assoc h (pk_remaining p) = Some s) by (apply elem_of_assoc; [by rewrite Hk|done]).
  assert (Hh : h ∈ rem0.*1) by (rewrite <-Hk; by eapply assoc_Some_key).
  destruct (key_assoc h pl) as [us Hus]; [auto|]. destruct (key_assoc h rem0 Hh) as [s0 Hs0].
  exists h, us. split; [done|]. split; [done|].
  destruct (Hinv h us Hus) as [Hsep Hcap]. destruct (Hcap s0 Hs0) as [Hfit Hrem].
  rewrite Hr in Hrem. injection Hrem as ->. apply can_place_inv in Hc as (Hram & Hcpu & Hanti).
  rewrite Ha, assoc_map, Hus in Hanti |- *. cbn in Hanti, Hram, Hcpu |- *.
  split; [by apply assoc_set_NoDup|]. split.
  { cbn. rewrite <-(assoc_set_map unit_ids). unfold unit_ids at 3. rewrite map_app, concat_app. cbn. by rewrite app_nil_r. }
  assert (Hhk : h ∈ (pk_remaining p).*1) by (by rewrite Hk). cbn [pk_remaining].
  split; [by rewrite assoc_set_keys|]. split; [done|]. split.
  { intros h' Hh'. rewrite assoc_set_keys; [auto|]. by eapply assoc_Some_key. }
  intros h' us' Hus'. destruct (decide (h = h')) as [<-|Hne].
  - rewrite assoc_set_eq in Hus'. injection Hus' as <-. split; [by constructor|].
    intros s1 Hs1. rewrite Hs0 in Hs1. injection Hs1 as <-. rewrite assoc_set_eq, !map_app, !zsum_app.
    cbn. split; [|do 2 f_equal; lia]. intros _. rewrite !map_app, !zsum_app. cbn. lia.
  - rewrite assoc_set_ne in Hus' by done. rewrite assoc_set_ne by done. by apply Hinv.
Qed.

Lemma place_units_inv anti rem0 us pl p p' :
  pack_inv anti rem0 pl p → place_units anti us p = Some p' →
  ∃ pl', pl'.*1 = pl.*1 ∧ pack_inv anti rem0 pl' p' ∧ concat pl'.*2 ≡ₚ us ++ concat pl.*2.
Proof.
  revert pl p. induction us as [|u us IH]; intros pl p Hp; cbn [place_units].
  { intros [= <-]. by exists pl. }
  intros (p1 & Hu & Hus)%bind_Some.
  destruct (place_unit_inv _ _ _ _ _ _ Hp Hu) as (h & l & Hl & _ & Hp1).
  destruct (IH _ _ Hp1 Hus) as (pl' & Hk & Hp' & Hperm). exists pl'. split_and!; [|done|].
  - rewrite Hk. apply assoc_set_keys. by eapply assoc_Some_key.
  - rewrite Hperm, (assoc_set_concat _ _ _ _ Hl). by rewrite <-Permutation_middle.
Qed.

Lemma initial_assign (hids : list string) :
  NoDup hids → foldl (λ m hid, assoc_set hid (@nil val) m) [] hids = map (λ h, (h, [])) hids.
Proof.
  assert (H : ∀ done, NoDup (done ++ hids) →
    foldl (λ m hid, assoc_set hid (@nil val) m) (map (λ h, (h, [])) done) hids =
    map (λ h, (h, [])) (done ++ hids)).
  { induction hids as [|h hids IH]; intros dn Hn; simpl; [by rewrite app_nil_r|].
    assert (Hh : h ∉ (map (λ h, (h, @nil val)) dn).*1).
    { rewrite <-list_fmap_compose. intros (h' & Heq & Hin)%list_elem_of_fmap. cbn in Heq. subst h'.
      apply NoDup_app in Hn as (_ & Hd & _). apply (Hd h Hin). left. }
    assert (assoc_set h [] (map (λ h, (h, @nil val)) dn) = map (λ h, (h, [])) (dn ++ [h])) as ->.
    { by rewrite map_app, assoc_set_new. }
    rewrite IH; by rewrite <-?app_assoc. }
  intros Hn. by apply (H []).
Qed.

Lemma initial_pack_inv anti (hids : list string) rem :
  NoDup hids → rem.*1 = hids →
  pack_inv anti rem (map (λ h, (h, [])) hids) (initial_packing hids rem).
Proof.
  intros Hn Hr. assert (Hk : (map (λ h, (h, @nil unit_)) hids).*1 = hids).
  { rewrite <-list_fmap_compose. by apply list_fmap_id. }
  split; [by rewrite Hk|]. split.
  { cbn. rewrite initial_assign by done. by rewrite map_map. }
  split; [done|]. split; [by rewrite Hr|]. split; [by rewrite Hk, Hr|].
  intros h us Hus. apply assoc_Some_elem, list_elem_of_fmap in Hus as (? & [= -> ->] & _).
  split; [constructor|]. intros s0 Hs0. split; [done|]. cbn. rewrite !Z.sub_0_r. by destruct s0.
Qed.

Lemma concat_filter_nonempty (m : list (string * list val)) :
  concat (List.filter (λ '(_, vms), match vms with [] => false | _ => true end) m).*2 = concat m.*2.
Proof. induction m as [|[h [|v vs]] m IH]; csimpl; [done|done|by rewrite IH]. Qed.

(** C19: Bin-packing is sound: every unit goes to exactly one of the hosts, no host gets more
    memory or CPU than it had left, units sharing an anti-affinity group never share a host,
    and the result lists, for the hosts that got any, the VMs of their units. *)
Theorem bin_pack_sound units hids rem anti assign :
  NoDup hids → rem.*1 = hids → bin_pack_units units hids rem anti = Some assign →
  ∃ pl : placed, pl.*1 = hids ∧ concat pl.*2 ≡ₚ units ∧
    assign = List.filter (λ '(_, vms), match vms with [] => false | _ => true end)
               (map (λ e, (e.1, unit_ids e.2)) pl) ∧
    ∀ h us s, assoc h pl = Some us → assoc h rem = Some s →
      units_fit us s ∧ separated anti us.
Proof.
  intros Hn Hr H. unfold bin_pack_units in H. apply bind_Some in H as (p & Hp & [= <-]).
  destruct (place_units_inv _ _ _ _ _ _ (initial_pack_inv anti hids rem Hn Hr) Hp)
    as (pl & Hk & (_ & Ha & _ & _ & _ & Hinv) & Hperm).
  exists pl. split_and!.
  - rewrite Hk, <-list_fmap_compose. by apply list_fmap_id.
  - rewrite Hperm. assert (concat (map (λ h, (h, @nil unit_)) hids).*2 = []) as ->; [|by rewrite app_nil_r].
    clear. induction hids; csimpl; done.
  - by rewrite Ha.
  - intros h us s Hus Hs. destruct (Hinv h us Hus) as [Hsep Hcap]. by destruct (Hcap s Hs).
Qed.

Definition sample_units : list unit_ :=
  [mkUnit [VStr "a"] 8192 4; mkUnit [VStr "b"; VStr "c"] 6144 2; mkUnit [VStr "d"] 1024 1].

Lemma bin_pack_sound_witness :
  let rem := [("h1", mkSlot 10000 8); ("h2", mkSlot 9000 8)] in
  let anti := [(VStr "a", "g"); (VStr "d", "g")] in
  let assign := [("h1", [VStr "a"]); ("h2", [VStr "b"; VStr "c"; VStr "d"])] in
  bin_pack_units sample_units ["h1"; "h2"] rem anti = Some assign ∧
  ∃ pl : placed, pl.*1 = ["h1"; "h2"] ∧ concat pl.*2 ≡ₚ sample_units ∧
    assign = List.filter (λ '(_, vms), match vms with [] => false | _ => true end)
               (map (λ e, (e.1, unit_ids e.2)) pl) ∧
    ∀ h us s, assoc h pl = Some us → assoc h rem = Some s →
      units_fit us s ∧ separated anti us.
Proof.
  split; [vm_compute; reflexivity|].
  apply (bin_pack_sound sample_units ["h1"; "h2"]); [|reflexivity|vm_compute; reflexivity].
  apply NoDup_cons; split; [|apply NoDup_singleton]. intros H%list_elem_of_singleton. discriminate.
Defined.

(** ** Multi-host placement *)

(** The id of a node. *)
Definition id_of (n : val) : val := match idx n "id" with Ok v => v | Raise _ => VNone end.

Lemma map_res_id_of l ids : map_res (λ n, idx n "id") l = Ok ids → ids = map id_of l.
Proof.
  intros H%map_res_Forall2. induction H as [|n i l ids Hi _ IH]; [done|]. simpl.
  unfold id_of at 1. by rewrite Hi, IH.
Qed.

Lemma group_unit_ids l u : group_unit l = Ok u → u_vm_ids u = map id_of l.
Proof. unfold group_unit. intros H. bind_inv. by apply map_res_id_of in H0. Qed.

Lemma units_ids_groups {A} (nodes : A → list val) l us :
  map_res (λ x, group_unit (nodes x)) l = Ok us →
  unit_ids us = map id_of (concat (map nodes l)).
Proof.
  intros H%map_res_Forall2. induction H as [|x u l us Hu _ IH]; [done|].
  apply group_unit_ids in Hu. unfold unit_ids in *. simpl. by rewrite Hu, IH, map_app.
Qed.

#[export] Instance unit_ids_perm : Proper ((≡ₚ) ==> (≡ₚ)) unit_ids.
Proof.
  intros us us'.
  unfold unit_ids. induction 1 as [|u l l' _ IH|u v l|]; simpl; [done|by rewrite IH| |by etrans].
  rewrite !app_assoc. by rewrite (Permutation_app_comm (u_vm_ids v)).
Qed.

(** Appending a node to its group adds it to the grouped nodes. *)
Lemma group_append_perm ag n gs gs' :
  group_append ag n gs = Ok gs' → concat gs'.*2 ≡ₚ n :: concat gs.*2.
Proof.
  unfold group_append, vget, vset, hkey. destruct (hashable ag); [|done]. cbn. intros [= <-].
  induction gs as [|[k l] gs IH]; cbn; [done|]. destruct (py_eq ag k) eqn:E; csimpl.
  - rewrite <-app_assoc. simpl. by rewrite <-Permutation_middle.
  - rewrite IH. by rewrite Permutation_middle.
Qed.

(** Grouping partitions the nodes. *)
Lemma parse_affinity_partition l a :
  parse_affinity_groups l = Ok a → concat (a_groups a).*2 ++ a_ungrouped a ≡ₚ l.
Proof.
  unfold parse_affinity_groups.
  assert (Hg : ∀ l a0 a, for_each l a0 (λ node a,
    aa <- separate_host node;;
    anti <- (match aa with
             | Some g => i <- idx node "id";; vset i g (a_anti a)
             | None => Ok (a_anti a)
             end);;
    d <- data_of node;;
    ag <- get d "affinityGroup" VNone;;
    if truthy ag
    then gs <- group_append ag node (a_groups a);; Ok (mkAffinity gs (a_ungrouped a) anti)
    else Ok (mkAffinity (a_groups a) (a_ungrouped a ++ [node]) anti)) = Ok a →
    concat (a_groups a).*2 ++ a_ungrouped a ≡ₚ l ++ (concat (a_groups a0).*2 ++ a_ungrouped a0)).
  2: { intros H%Hg. rewrite H. cbn. by rewrite app_nil_r. }
  clear. induction l as [|n l IH]; intros a0 a; simpl; [by intros [= ->]|].
  intros H. apply bind_Ok in H as (a1 & H1 & H). rewrite (IH _ _ H). bind_inv.
  rewrite Permutation_middle. apply Permutation_app_head. destruct (truthy _); bind_inv; cbn.
  - match goal with H : group_append _ _ _ = Ok _ |- _ => rewrite (group_append_perm _ _ _ _ H) end.
    done.
  - rewrite app_assoc. by rewrite <-Permutation_cons_append.
Qed.

Lemma build_units_ids groups ungrouped us :
  build_placement_units groups ungrouped = Ok us →
  unit_ids us ≡ₚ map id_of (concat groups.*2 ++ ungrouped).
Proof.
  unfold build_placement_units. intros H. bind_inv.
  rewrite sort_by_perm, unit_ids_app.
  apply units_ids_groups in H0, H1. rewrite H0, H1, <-map_app.
  assert (concat (map (λ n : val, [n]) ungrouped) = ungrouped) as ->; [|done].
  clear. induction ungrouped; simpl; congruence.
Qed.

Lemma sync_host_id db h h' :
  sync_host_capacity db h = Ok h' → ∃ v m, h' = set_used h v m.
Proof. unfold sync_host_capacity. intros H. bind_inv. destruct x. injection H as <-. eauto. Qed.

Lemma sync_hosts_ids db hs hs' db' :
  sync_hosts db hs = Ok (hs', db') → Forall2 (λ h h', ∃ v m, h' = set_used h v m) hs hs'.
Proof.
  unfold sync_hosts. intros H. bind_inv. apply map_res_Forall2 in H0.
  eapply Forall2_impl; [exact H0|]. intros h h'. apply sync_host_id.
Qed.

Lemma slots_of_hosts (hs : list Host) :
  NoDup (map h_id hs) →
  foldl (λ m h, assoc_set (h_id h) (host_slot h) m) [] hs = map (λ h, (h_id h, host_slot h)) hs.
Proof.
  assert (H : ∀ dn, NoDup (map h_id (dn ++ hs)) →
    foldl (λ m h, assoc_set (h_id h) (host_slot h) m) (map (λ h, (h_id h, host_slot h)) dn) hs =
    map (λ h, (h_id h, host_slot h)) (dn ++ hs)).
  { induction hs as [|h hs IH]; intros dn Hn; simpl; [by rewrite app_nil_r|].
    rewrite assoc_set_new.
    - change [(h_id h, host_slot h)] with (map (λ h, (h_id h, host_slot h)) [h]).
      rewrite <-map_app, IH; by rewrite <-app_assoc.
    - rewrite <-list_fmap_compose. intros (h' & Heq & Hin)%list_elem_of_fmap.
      rewrite map_app in Hn. apply NoDup_app in Hn as (_ & Hd & _).
      apply (Hd (h_id h)); [|left]. rewrite Heq. by apply (list_elem_of_fmap_2 h_id). }
  intros Hn. by apply (H []).
Qed.

(** The hosts multi-host placement may use. *)
Definition mesh_host (pool prov : option string) (mtu : option Z) (h : Host) : Prop :=
  multihost_query pool prov h = true ∧ host_mtu_ok h mtu = true.

Lemma prepare_hosts_inv db pool prov mtu hosts rem db' :
  NoDup (map h_id (db_hosts db)) →
  prepare_hosts db pool prov mtu = Ok (Some (hosts, rem), db') →
  NoDup (map h_id hosts) ∧ rem = map (λ h, (h_id h, host_slot h)) hosts ∧
  ∀ h', h' ∈ hosts → ∃ h v m, h ∈ db_hosts db ∧ mesh_host pool prov mtu h ∧ h' = set_used h v m.
Proof.
  intros Hn. unfold prepare_hosts.
  destruct (List.filter (multihost_query pool prov) (db_hosts db)) as [|a av] eqn:E1; [done|].
  destruct (List.filter (λ h, host_mtu_ok h mtu) (a :: av)) as [|b bv] eqn:E2; [done|].
  rewrite <-E1 in E2. clear E1. intros H. bind_inv. destruct x as [hs db1]. simplify_eq.
  apply sync_hosts_ids in H0.
  assert (Hid : map h_id hosts = map h_id (b :: bv)).
  { clear -H0. induction H0 as [|h h' l l' (v & m & ->) _ IH]; [done|]. simpl. by rewrite IH. }
  assert (Hnd : NoDup (map h_id hosts)).
  { rewrite Hid, <-E2. assert (Hs : ∀ (p : Host → bool) l, NoDup (map h_id l) → NoDup (map h_id (List.filter p l))).
    { clear. intros p l Hn. induction l as [|h l IH]; [constructor|]. simpl in *.
      apply NoDup_cons in Hn as [Hh Hn]. destruct (p h); [|auto]. simpl. apply NoDup_cons.
      split; [|auto]. intros (h' & Heq & Hin)%list_elem_of_fmap. apply Hh. rewrite Heq.
      apply (list_elem_of_fmap_2 h_id). by apply list_elem_of_In, filter_In, proj1, list_elem_of_In in Hin. }
    by apply Hs, Hs. }
  split; [done|]. split; [by apply slots_of_hosts|]. intros h' Hh'.
  apply list_elem_of_lookup in Hh' as [i Hi].
  destruct (Forall2_lookup_r _ _ _ _ _ H0 Hi) as (h & Hhi & v & m & ->).
  apply list_elem_of_lookup_2 in Hhi. rewrite <-E2 in Hhi.
  apply list_elem_of_In, filter_In in Hhi as [Hhi Hmtu]. apply filter_In in Hhi as [Hin Hq].
  exists h, v, m. split; [by apply list_elem_of_In|]. done.
Qed.

(** Multi-host placement is a partition: when a packing is found every VM and container
    of the topology is on exactly one host, every host of the result has at least one, and
    every host is an active, connected, accepting mesh host of the requested pool and
    provider with enough MTU. *)
Theorem multihost_places_every_vm db topology pool prov mtu assign db' nodes vms :
  NoDup (map h_id (db_hosts db)) →
  find_multihost_placement db topology pool prov mtu = Ok (Some assign, db') →
  nodes_of topology = Ok nodes →
  filter_res (λ n, has_type_in n ["vmNode"; "containerNode"]) nodes = Ok vms →
  concat assign.*2 ≡ₚ map id_of vms ∧
  ∀ hid ids, (hid, ids) ∈ assign →
    ids ≠ [] ∧ ∃ h, h ∈ db_hosts db ∧ h_id h = hid ∧ mesh_host pool prov mtu h.
Proof.
  intros Hn H Hnodes Hvms. unfold find_multihost_placement in H. rewrite Hnodes in H. cbn [bind] in H.
  rewrite Hvms in H. cbn [bind] in H. destruct vms as [|v vs] eqn:Ev; [done|]. rewrite <-Ev in *.
  apply bind_Ok in H as (a & Ha & H). apply bind_Ok in H as (units & Hu & H).
  apply bind_Ok in H as ([prep db1] & Hp & H). destruct prep as [[hosts rem]|]; [|done].
  injection H as H <-. apply prepare_hosts_inv in Hp as (Hnd & -> & Hhosts); [|done].
  unfold bin_pack_units in H. apply bind_Some in H as (p & Hpl & [= <-]).
  assert (Hk : (map (λ h, (h_id h, host_slot h)) hosts).*1 = map h_id hosts)
    by by rewrite <-list_fmap_compose.
  destruct (place_units_inv _ _ _ _ _ _ (initial_pack_inv _ _ _ Hnd Hk) Hpl)
    as (pl & Hkeys & (_ & Hasg & _) & Hperm).
  split.
  - rewrite concat_filter_nonempty, Hasg.
    assert (concat (map (λ e, (e.1, unit_ids e.2)) pl).*2 = unit_ids (concat pl.*2)) as ->.
    { clear. induction pl as [|[h us] pl IH]; csimpl; [done|]. by rewrite IH, unit_ids_app. }
    rewrite Hperm, unit_ids_app.
    assert (unit_ids (concat (map (λ h, (h, @nil unit_)) (map h_id hosts)).*2) = []) as ->.
    { clear. induction hosts; csimpl; done. }
    rewrite app_nil_r, (build_units_ids _ _ _ Hu). by rewrite (parse_affinity_partition _ _ Ha).
  - intros hid ids Hin. apply list_elem_of_In, filter_In in Hin as [Hin Hne].
    split; [by destruct ids|]. rewrite Hasg in Hin. apply list_elem_of_In in Hin.
    apply list_elem_of_fmap in Hin as ([h us] & Heq & Hin). cbn in Heq. injection Heq as -> ->.
    apply (list_elem_of_fmap_2 fst) in Hin. rewrite Hkeys, <-list_fmap_compose in Hin.
    apply list_elem_of_fmap in Hin as (hid & Heq & Hin). cbn in Heq. subst hid.
    apply list_elem_of_fmap in Hin as (h' & -> & Hin). destruct (Hhosts h' Hin) as (h & ? & ? & ? & Hm & ->). by exists h.
Qed.

Definition multihost_sample : val := VDict [("nodes", VList
  [placement_vm "v1" [("separateHost", VStr "g")]; placement_vm "v2" [("separateHost", VStr "g")];
   VDict [("id", VStr "n1"); ("type", VStr "networkNode"); ("data", VDict [])]])].

Lemma multihost_places_every_vm_witness :
  let vms := [placement_vm "v1" [("separateHost", VStr "g")];
              placement_vm "v2" [("separateHost", VStr "g")]] in
  ∃ assign db', find_multihost_placement placement_db multihost_sample None (Some "prov") None =
    Ok (Some assign, db') ∧ length assign = 2%nat ∧
  concat assign.*2 ≡ₚ map id_of vms ∧
  ∀ hid ids, (hid, ids) ∈ assign →
    ids ≠ [] ∧ ∃ h, h ∈ db_hosts placement_db ∧ h_id h = hid ∧ mesh_host None (Some "prov") None h.
Proof.
  intros vms. eexists _, _. split; [vm_compute; reflexivity|]. split; [reflexivity|].
  eapply (multihost_places_every_vm placement_db multihost_sample); [|vm_compute; reflexivity|reflexivity|
    vm_compute; reflexivity].
  apply NoDup_cons; split; [|apply NoDup_singleton]. intros H%list_elem_of_singleton. discriminate.
Defined.

(** ** The network host *)

Lemma max_by_spec {A} (key : A → Z) best l :
  let m := max_by key best l in m ∈ best :: l ∧ ∀ x, x ∈ best :: l → key x ≤ key m.
Proof.
  revert best. induction l as [|y l IH]; intros best; cbn.
  - split; [left|]. by intros x ->%list_elem_of_singleton.
  - destruct (IH (if key best <? key y then y else best)) as [H1 H2].
    destruct (key best <? key y) eqn:E; [apply Z.ltb_lt in E|apply Z.ltb_ge in E].
    + split; [set_solver|]. intros x [->|Hx]%elem_of_cons; [|by apply H2].
      specialize (H2 y ltac:(left)). lia.
    + split; [set_solver|]. intros x [->|[->|Hx]%elem_of_cons]%elem_of_cons.
      * apply H2. left.
      * specialize (H2 best ltac:(left)). lia.
      * apply H2. by right.
Qed.

(** The network host of a multi-host deployment is one of its hosts: a host with a gateway
    VM when any host has one, and otherwise a host with as many VMs as any other. *)
Theorem network_host_choice assign topology gw :
  assign ≠ [] → gateway_vm_ids topology = Ok gw →
  ∃ hid vms, select_network_host assign topology = Ok hid ∧ (hid, vms) ∈ assign ∧
    let has_gateway l := existsb (λ v, vmem v gw) l in
    (gw ≠ [] → (∃ e, e ∈ assign ∧ has_gateway e.2 = true) → has_gateway vms = true) ∧
    ((∀ e, e ∈ assign → has_gateway e.2 = false) →
      ∀ e, e ∈ assign → (length e.2 ≤ length vms)%nat).
Proof.
  intros Hne Hgw. unfold select_network_host. rewrite Hgw. cbn [bind].
  set (has_gateway := λ l, existsb (λ v, vmem v gw) l).
  set (pick := match gw with [] => None | _ => _ end).
  destruct pick as [[hid vms]|] eqn:E.
  - exists hid, vms. split; [done|]. unfold pick in E. destruct gw as [|g gw']; [done|].
    apply find_some in E as [Hin%list_elem_of_In Hg]. split; [done|]. split; [done|].
    intros Hall. assert (Hf : true = false); [|done].
    etrans; [symmetry; exact Hg|exact (Hall _ Hin)].
  - destruct assign as [|a l]; [done|].
    destruct (max_by_spec (λ p : string * list val, Z.of_nat (length p.2)) a l) as [Hin Hmax].
    destruct (max_by _ a l) as [hid vms]. exists hid, vms. split; [done|]. split; [done|]. split.
    + intros Hg (e & He & Hge). exfalso. unfold pick in E. destruct gw as [|g gw']; [done|].
      eapply find_none in E; [|by apply list_elem_of_In]. destruct e as [h l'].
      assert (Hf : true = false); [|done]. etrans; [symmetry; exact Hge|exact E].
    + intros _ e He. specialize (Hmax e He). cbn in Hmax. lia.
Qed.

Definition gateway_sample : val := VDict [("nodes", VList
  [placement_vm "v1" []; placement_vm "v2" [("isGateway", VBool true)]])].

Lemma network_host_choice_witness :
  let assign := [("h1", [VStr "v1"; VStr "v3"]); ("h2", [VStr "v2"])] in
  select_network_host assign gateway_sample = Ok "h2" ∧
  ∃ hid vms, select_network_host assign gateway_sample = Ok hid ∧ (hid, vms) ∈ assign ∧
    let has_gateway l := existsb (λ v, vmem v [VStr "v2"]) l in
    ([VStr "v2"] ≠ [] → (∃ e, e ∈ assign ∧ has_gateway e.2 = true) → has_gateway vms = true) ∧
    ((∀ e, e ∈ assign → has_gateway e.2 = false) →
      ∀ e, e ∈ assign → (length e.2 ≤ length vms)%nat).
Proof.
  split; [vm_compute; reflexivity|].
  apply network_host_choice; [discriminate|vm_compute; reflexivity].
Defined.

(** ** Deployments in flight *)

(** A deployment starting or ending on a host. *)
Inductive deploy_event := Started (hid : string) | Ended (hid : string).

Definition deploy_step (c : counters) (e : deploy_event) : counters :=
  match e with Started h => record_deploy_start c h | Ended h => record_deploy_end c h end.

(** Deployments started less deployments ended on one host. *)
Definition in_flight (hid : string) (es : list deploy_event) : Z :=
  zsum (map (λ e, match e with
                  | Started h => if streq h hid then 1 else 0
                  | Ended h => if streq h hid then -1 else 0
                  end) es).

Lemma inflight_key_inj a b : inflight_key a = inflight_key b → a = b.
Proof. apply str_app_inj_l. Qed.

(** A deployment event as an event of the host's counter. *)
Definition counter_of (e : deploy_event) : counter_event :=
  match e with Started h => Up (inflight_key h) | Ended h => Down (inflight_key h) end.

Lemma deploy_steps_counters c es : foldl deploy_step c es = foldl counter_step c (map counter_of es).
Proof. revert c. induction es as [|[h|h] es IH]; intros c; cbn; [done|apply IH..]. Qed.

Lemma net_in_flight hid es : net (inflight_key hid) (map counter_of es) = in_flight hid es.
Proof.
  unfold net, in_flight. rewrite map_map. f_equal. apply map_ext. intros [h|h]; cbn; unfold streq;
    case_bool_decide as Hk; case_decide as Hd; try done; first [congruence|by apply inflight_key_inj in Hd].
Qed.

(** In-flight accounting is exact: whatever the interleaving of deployments over the hosts,
    with Redis or without, a host's counter is the number of deployments started on it less
    the number ended, as long as none ends before it started; the other hosts' counters do
    not move. *)
Theorem inflight_accounting c es hid :
  (∀ pre e post, es = pre ++ e :: post → e = Ended hid →
     0 < get_inflight_deploys c hid + in_flight hid pre) →
  get_inflight_deploys (foldl deploy_step c es) hid = get_inflight_deploys c hid + in_flight hid es.
Proof.
  intros Hpre. rewrite deploy_steps_counters, <-net_in_flight.
  refine (counter_accounting c (map counter_of es) (inflight_key hid) _).
  intros pre post Hes. apply map_eq_app in Hes as (es1 & es2 & -> & <- & Hes).
  apply map_eq_cons in Hes as ([h|h] & tl & -> & [= ->] & _).
  rewrite net_in_flight. by eapply Hpre.
Qed.

Lemma inflight_accounting_witness :
  let es := [Started "h1"; Started "h2"; Started "h1"; Ended "h1"; Ended "h2"] in
  in_flight "h1" es = 1 ∧
  get_inflight_deploys (foldl deploy_step no_counters es) "h1" =
    get_inflight_deploys no_counters "h1" + in_flight "h1" es.
Proof.
  intros es. split; [reflexivity|]. apply (inflight_accounting no_counters es "h1").
  intros pre e post Heq ->. unfold es in Heq.
  destruct pre as [|e1 [|e2 [|e3 [|e4 [|e5 [|e6 pre]]]]]]; cbn in Heq; simplify_eq.
  vm_compute. reflexivity.
Defined.

(** ** The diagnosis of a failed search *)

Lemma best_free_spec cfg hosts :
  let b := best_free cfg hosts in
  (0 ≤ b.1 ∧ 0 ≤ b.2) ∧
  (∀ v, 0 < v → b.1 < v ↔ ∀ h, h ∈ hosts → (get_allocatable cfg h).1 - h_used_vcpus h < v) ∧
  (∀ m, 0 < m → b.2 < m ↔ ∀ h, h ∈ hosts → (get_allocatable cfg h).2 - h_used_ram_mb h < m).
Proof.
  unfold best_free. assert (H : ∀ c m0, 0 ≤ c → 0 ≤ m0 →
    let b := foldl (λ '(c, m) h,
      let '(alloc_vcpus, alloc_ram) := get_allocatable cfg h in
      (Z.max c (alloc_vcpus - h_used_vcpus h), Z.max m (alloc_ram - h_used_ram_mb h))) (c, m0) hosts in
    (0 ≤ b.1 ∧ 0 ≤ b.2) ∧
    (∀ v, b.1 < v ↔ c < v ∧ ∀ h, h ∈ hosts → (get_allocatable cfg h).1 - h_used_vcpus h < v) ∧
    (∀ m, b.2 < m ↔ m0 < m ∧ ∀ h, h ∈ hosts → (get_allocatable cfg h).2 - h_used_ram_mb h < m)).
  { induction hosts as [|h hosts IH]; intros c m0 Hc Hm; cbv zeta; cbn [foldl];
      [cbn; split_and!; try done; set_solver|].
    destruct (get_allocatable cfg h) as [av ar] eqn:E.
    destruct (IH (Z.max c (av - h_used_vcpus h)) (Z.max m0 (ar - h_used_ram_mb h))) as (Hp & H1 & H2);
      [lia..|]. split; [exact Hp|].
    split; [intros v; rewrite H1|intros m; rewrite H2]; setoid_rewrite elem_of_cons; split.
    - intros [Hv Hr]. split; [lia|]. intros h' [->|Hh']; [rewrite E; cbn; lia|by apply Hr].
    - intros [Hv Hr]. split; [|auto]. specialize (Hr h (or_introl eq_refl)). rewrite E in Hr. cbn in Hr. lia.
    - intros [Hv Hr]. split; [lia|]. intros h' [->|Hh']; [rewrite E; cbn; lia|by apply Hr].
    - intros [Hv Hr]. split; [|auto]. specialize (Hr h (or_introl eq_refl)). rewrite E in Hr. cbn in Hr. lia. }
  destruct (H 0 0) as (Hp & H1 & H2); [lia..|]. split; [done|].
  split; [intros v Hv; rewrite H1|intros m Hm; rewrite H2]; naive_solver.
Qed.

Definition fragmented_reason : string :=
  "No single host can fit all VMs together — capacity is fragmented across hosts. " +:+
  "Free up resources or add a host.".

(** The diagnosis tells shortage from fragmentation: fragmentation is reported exactly when
    some host has the CPU and some host has the memory; then, when none of these hosts fits a
    demand of CPU and memory alone, it is because no host has both. *)
Theorem fragmentation_diagnosis cfg db c hosts d :
  0 < d_vcpus d → 0 < d_ram_mb d → d_eips d = 0 → d_disks d = [] → d_mtu d = None →
  (∀ h, h ∈ hosts → host_fits_requirements cfg db c d h = None) →
  let cpu_ok h := d_vcpus d ≤ (get_allocatable cfg h).1 - h_used_vcpus h in
  let ram_ok h := d_ram_mb d ≤ (get_allocatable cfg h).2 - h_used_ram_mb h in
  (∀ h, h ∈ hosts → ¬ (cpu_ok h ∧ ram_ok h)) ∧
  (capacity_shortfall_reason cfg hosts (d_vcpus d) (d_ram_mb d) = fragmented_reason ↔
   (∃ h, h ∈ hosts ∧ cpu_ok h) ∧ (∃ h, h ∈ hosts ∧ ram_ok h)).
Proof.
  intros Hv Hm He Hd Hmtu Hnone cpu_ok ram_ok. split.
  - intros h Hh [Hc Hr]. specialize (Hnone h Hh). unfold host_fits_requirements in Hnone.
    unfold cpu_ok, ram_ok in *. destruct (get_allocatable cfg h) as [av ar]. cbn in Hc, Hr.
    apply Z.ltb_ge in Hc, Hr. rewrite Hc, Hr, He, Hd, Hmtu in Hnone.
    cbn in Hnone. discriminate Hnone.
  - destruct (best_free_spec cfg hosts) as (_ & H1 & H2).
    specialize (H1 _ Hv). specialize (H2 _ Hm). unfold capacity_shortfall_reason.
    destruct (best_free cfg hosts) as [bc br]. cbn [fst snd] in H1, H2.
    assert (Hex : ∀ (P : Host → Z) v, (∀ h, h ∈ hosts → P h < v) ∨ ∃ h, h ∈ hosts ∧ v ≤ P h).
    { clear. intros P v. induction hosts as [|h hosts [IH|(h' & ? & ?)]]; [left; set_solver| |].
      - destruct (decide (P h < v)); [left; set_solver|]. right. exists h. split; [left|lia].
      - right. exists h'. split; [by right|done]. }
    destruct (Z.ltb_spec bc (d_vcpus d)) as [Hbc|Hbc], (Z.ltb_spec br (d_ram_mb d)) as [Hbr|Hbr];
      cbn [andb]; (split; [|intros [(h1 & Hh1 & Hc1) (h2 & Hh2 & Hc2)]]);
      try reflexivity; try (unfold fragmented_reason; cbn; discriminate);
      try (pose proof (proj1 H1 Hbc h1 Hh1); cbv beta delta [cpu_ok] in Hc1; lia);
      try (pose proof (proj1 H2 Hbr h2 Hh2); cbv beta delta [ram_ok] in Hc2; lia).
    intros _. split.
    + destruct (Hex (λ h, (get_allocatable cfg h).1 - h_used_vcpus h) (d_vcpus d)) as [Hall|?]; [|done].
      pose proof (proj2 H1 Hall). lia.
    + destruct (Hex (λ h, (get_allocatable cfg h).2 - h_used_ram_mb h) (d_ram_mb d)) as [Hall|?]; [|done].
      pose proof (proj2 H2 Hall). lia.
Qed.

Lemma fragmentation_diagnosis_witness :
  let hosts := [placement_host "h1" 1 65536; placement_host "h2" 32 1024] in
  let d := mkDemand 16 32768 0 [] None in
  let cpu_ok h := d_vcpus d ≤ (get_allocatable placement_cfg h).1 - h_used_vcpus h in
  let ram_ok h := d_ram_mb d ≤ (get_allocatable placement_cfg h).2 - h_used_ram_mb h in
  capacity_shortfall_reason placement_cfg hosts 16 32768 = fragmented_reason ∧
  (∀ h, h ∈ hosts → ¬ (cpu_ok h ∧ ram_ok h)) ∧
  (capacity_shortfall_reason placement_cfg hosts (d_vcpus d) (d_ram_mb d) = fragmented_reason ↔
   (∃ h, h ∈ hosts ∧ cpu_ok h) ∧ (∃ h, h ∈ hosts ∧ ram_ok h)).
Proof.
  intros hosts d cpu_ok ram_ok. split; [vm_compute; reflexivity|].
  apply (fragmentation_diagnosis placement_cfg placement_db no_counters hosts d);
    [reflexivity|reflexivity|reflexivity|reflexivity|reflexivity|].
  intros h Hh. unfold hosts in Hh. set_unfold in Hh. destruct Hh as [->|[->|[]]]; vm_compute; reflexivity.
Defined.
