(* ===== verification/PlaceProject.v ===== *)
(** * Placing a project: the entry point of [placement.py]

    [place_project] and the handlers it composes, over the state it changes:
    the database, the in-flight counters and the VNI high-water mark.  The cloud
    call of [provisioner.provision_host] and the clock are arguments. *)
From stdpp Require Import prelude strings gmap.
From Stdlib Require Import Ascii.
From S2P Require Import Prelude PyStr PyVal PyLemmas Interfaces Db TopoNodes Vxlan HostNetwork.
From S2P Require Import PatternLocations Placement.

Record world := mkWorld { w_db : DB; w_counters : counters; w_hwm : hwm_file }.

Definition with_db (w : world) (db : DB) : world := mkWorld db (w_counters w) (w_hwm w).

(** The single-host and multi-host placement results, and the error results. *)
Inductive placement_result :=
| PlaceError (msg : string) (required : option reqs)
| MultiHost (host_assignments : list (string * list val)) (network_host_id : string)
    (host_ips : list (string * option string)) (vni_map : vnis)
| SingleHost (host_id : string) (host_ip : option string) (requirements : reqs)
    (vni_map : vnis) (network_config : host_network).

Definition short (s : string) : string := str_take 8 s.

(** [placement._resolve_specified_host] *)
Definition resolve_specified_host (db : DB) (host_id : string) : Host + string :=
  match find_host db host_id with
  | None => inr ("Host " +:+ short host_id +:+ " not found")
  | Some h =>
      if negb (streq (h_state h) "active") || negb (streq (h_agent_status h) "connected")
      then inr ("Host " +:+ short host_id +:+ " is not available")
      else if negb (h_accepting_work h)
      then inr ("Host " +:+ short host_id +:+ " is removed from the provision pool")
      else inl h
  end.

Definition opt_text (o : option Z) : string :=
  match o with Some z => str_of_Z z | None => "None" end.

(** [placement._validate_specified_host_for_select]: the storage pool to use, or
    the error. *)
Definition validate_specified_host (h : Host) (storage_pool_id : option string)
    (required_mtu : option Z) (requires_kubevirt : bool) : option string + string :=
  if requires_kubevirt && negb (streq (h_host_type h) "kubevirt-cluster")
  then inr ("Host " +:+ short (h_id h) +:+ " is not a KubeVirt cluster — " +:+
            "this template requires kubevirt-cluster placement")
  else if negb (host_mtu_ok h required_mtu)
  then inr ("Host " +:+ short (h_id h) +:+ " (cluster MTU " +:+ opt_text (h_uplink_mtu h) +:+
            ") cannot run this deployment which requires MTU " +:+ opt_text required_mtu)
  else inl (match text_opt storage_pool_id with
            | Some p => Some p
            | None => match text_opt (h_storage_pool_id h) with
                      | Some p => Some p
                      | None => storage_pool_id
                      end
            end).

(** [placement._find_pool_for_anti_affinity] *)
Definition find_pool_for_anti_affinity (db : DB) : option string :=
  sp_id <$> List.find (λ pool,
    (2 <=? Z.of_nat (length (List.filter (λ h,
       col_is (h_storage_pool_id h) (sp_id pool) && placement_host_filter h &&
       negb (streq (h_host_type h) "pattern_buffer")) (db_hosts db)))))
    (List.filter (λ p, streq (sp_status p) "available") (db_pools db)).

(** The entries of the dictionary [provision_host] returns that the caller reads. *)
Record provision_result := mkProvisioned {
  pv_host_id : string;
  pv_total_vcpus : Z;
  pv_total_ram_mb : Z;
  pv_max_eips : option Z;
  pv_public_ip : option string
}.

(** [placement._auto_provision_host:861-872] the new host's row, the columns not given taking
    their defaults. *)
Definition provisioned_host (r : provision_result) : Host :=
  mkHost (pv_host_id r) None "active" "shared" (pv_total_vcpus r) (pv_total_ram_mb r) 0 0
    (pv_public_ip r) None "disconnected" (default 0 (pv_max_eips r)) None None true.

Section Place.
Context (cfg : config).
Context (set_iter : list val → list val).

(** What [provisioner.provision_host] returned, or [None] when it raised. *)
Context (provisioned : option provision_result).
Context (now : Z).

(** [placement._select_host:740-767] the search without an explicit host: the
    auto-selected pool first, then any pool. *)
Definition search_host (w : world) (p : Project) (d : demand) (has_aa : bool)
    (storage_pool_id : option string) (requires_kubevirt : bool)
    : res (option Host * option string * world) :=
  let db := w_db w in
  let pool := match text_opt storage_pool_id with
              | Some s => Some s | None => auto_select_pool cfg db end in
  if has_aa then Ok (None, pool, w)
  else
    '(h, db) <- find_available_host cfg db (w_counters w) d pool (p_provider_id p)
                  requires_kubevirt;;
    match h, text_opt pool with
    | None, Some _ =>
        '(h, db) <- find_available_host cfg db (w_counters w) d None (p_provider_id p)
                      requires_kubevirt;;
        Ok (h, pool, with_db w db)
    | _, _ => Ok (h, pool, with_db w db)
    end.

(** [placement._select_host]: the host if any, the pool, the error if any. *)
Definition select_host (w : world) (p : Project) (d : demand) (has_aa : bool)
    (storage_pool_id host_id : option string) (requires_kubevirt : bool)
    : res ((option Host * option string + string) * world) :=
  match text_opt host_id with
  | Some hid =>
      Ok (match resolve_specified_host (w_db w) hid with
          | inr err => inr err
          | inl h =>
              match validate_specified_host h storage_pool_id (d_mtu d) requires_kubevirt with
              | inr err => inr err
              | inl pool => inl (Some h, pool)
              end
          end, w)
  | None =>
      '(h, pool, w) <- search_host w p d has_aa storage_pool_id requires_kubevirt;;
      Ok (inl (h, pool), w)
  end.

(** [placement._build_multihost_result:795-807] the address each host is reached at. *)
Definition mesh_ips (db : DB) (hids : list string) : list (string * option string) :=
  let hosts := omap (find_host db) hids in
  let same_pool := (length (dedup_first (omap (λ h, text_opt (h_storage_pool_id h)) hosts)) <=? 1)%nat in
  map (λ h, (h_id h,
        match text_opt (h_private_ip h) with
        | Some ip => if same_pool then Some ip else h_ip_address h
        | None => h_ip_address h
        end)) hosts.

(** [placement._build_multihost_result] *)
Definition build_multihost_result (w : world) (assign : list (string * list val))
    (topology : val) : res (placement_result * world) :=
  net_host <- select_network_host assign topology;;
  let ips := mesh_ips (w_db w) assign.*1 in
  '(m, f) <- allocate_vnis_for_project (w_db w) (w_hwm w) topology;;
  Ok (MultiHost assign net_host ips m, mkWorld (w_db w) (w_counters w) f).

(** [placement._try_multihost_placement]: [None] when no packing was found. *)
Definition try_multihost_placement (w : world) (p : Project) (storage_pool_id : option string)
    (has_aa : bool) (required_mtu : option Z) : res (option placement_result * world) :=
  let provider := p_provider_id p in
  let needs_pool := has_aa && bool_decide (text_opt provider = None) &&
                    bool_decide (text_opt storage_pool_id = None) in
  let pool := if needs_pool then find_pool_for_anti_affinity (w_db w) else storage_pool_id in
  if needs_pool && bool_decide (text_opt pool = None)
  then Ok (Some (PlaceError
         ("Anti-affinity requires a provider with multiple hosts. " +:+
          "Select a provider with 2+ hosts or remove anti-affinity.") None), w)
  else
    '(assign, db) <- find_multihost_placement (w_db w) (p_topology p) pool provider required_mtu;;
    let w := with_db w db in
    match assign with
    | None | Some [] => Ok (None, w)
    | Some a => '(r, w) <- build_multihost_result w a (p_topology p);; Ok (Some r, w)
    end.

(** [placement._auto_provision_host] *)
Definition auto_provision_host (w : world) (r : reqs) : (Host + placement_result) * world :=
  match provisioned with
  | Some result =>
      let db := w_db w in
      let h := provisioned_host result in
      (inl h, with_db w (mkDB (db_hosts db ++ [h]) (db_projects db) (db_eips db)
                           (db_providers db) (db_pools db) (db_locations db)))
  | None =>
      (inr (PlaceError ("No host has enough capacity (need " +:+ str_of_Z (r_total_vcpus r) +:+
              " vCPUs, " +:+ str_of_Z (r_total_ram_mb r) +:+
              "MB RAM) and auto-provisioning failed. Check server logs or contact an admin.")
              (Some r)), w)
  end.

Definition deploying (p : Project) (hid : string) : Project :=
  mkProject (p_id p) (p_provider_id p) (Some hid) "deploying" (p_topology p) (p_vni_map p)
    (Some now).

(** [placement._finalize_single_host] *)
Definition finalize_single_host (w : world) (p : Project) (h : Host) (r : reqs)
    : res (placement_result * world) :=
  '(m, f) <- allocate_vnis_for_project (w_db w) (w_hwm w) (p_topology p);;
  let peer_ips := omap (λ h, text_opt (h_ip_address h))
                    (List.filter (λ h, streq (h_state h) "active") (db_hosts (w_db w))) in
  net <- build_host_network_config set_iter (p_topology p) m (map VStr peer_ips);;
  h' <- sync_host_capacity (w_db w) h;;
  let db := save_project (save_host (w_db w) h') (deploying p (h_id h)) in
  Ok (SingleHost (h_id h) (h_ip_address h) r m net,
      mkWorld db (record_deploy_start (w_counters w) (h_id h)) f).

(** [placement.place_project:966-988] after host selection found none. *)
Definition place_without_host (w : world) (p : Project) (r : reqs)
    (storage_pool_id : option string) (has_aa requires_kubevirt : bool) (required_mtu : option Z)
    : res (placement_result * world) :=
  if requires_kubevirt
  then Ok (PlaceError ("No KubeVirt cluster host is available — " +:+
                       "this template requires kubevirt-cluster placement") None, w)
  else
    '(mh, w) <- try_multihost_placement w p storage_pool_id has_aa required_mtu;;
    match mh with
    | Some result => Ok (result, w)
    | None =>
        match auto_provision_host w r with
        | (inr err, w) => Ok (err, w)
        | (inl h, w) => finalize_single_host w p h r
        end
    end.

(** [placement.place_project] *)
Definition place_project (w : world) (p : Project) (storage_pool_id host_id : option string)
    : res (placement_result * world) :=
  let topology := p_topology p in
  if negb (truthy topology) then Ok (PlaceError "Project has no topology" None, w)
  else
    r <- calculate_project_requirements topology;;
    if r_vm_count r =? 0 then Ok (PlaceError "Project has no VMs" None, w)
    else
      dids <- pattern_disk_ids_from_topology topology;;
      if bool_decide (dids ≠ []) && bool_decide (text_opt host_id = None) &&
         negb (storage_ready_anywhere (w_db w) dids)
      then Ok (PlaceError "pattern storage still syncing to central S4 — try again shortly" None, w)
      else
        has_aa <- has_anti_affinity topology;;
        required_mtu <- required_network_mtu topology;;
        requires_kubevirt <- topology_requires_kubevirt topology;;
        let d := mkDemand (r_total_vcpus r) (r_total_ram_mb r) (r_requested_eips r) dids
                   required_mtu in
        '(sel, w) <- select_host w p d has_aa storage_pool_id host_id requires_kubevirt;;
        match sel with
        | inr err => Ok (PlaceError err None, w)
        | inl (Some h, _) => finalize_single_host w p h r
        | inl (None, pool) =>
            place_without_host w p r pool has_aa requires_kubevirt required_mtu
        end.
End Place.

(** ** Effects and eligibility *)

(** The rows [hs'] are the rows [hs] with some usages recomputed. *)
Definition hosts_kept (hs hs' : list Host) : Prop :=
  map h_id hs' = map h_id hs ∧ ∀ r, r ∈ hs' → ∃ h v m, h ∈ hs ∧ r = set_used h v m.

(** The tables a placement never writes. *)
Definition tables_kept (db db' : DB) : Prop :=
  db_eips db' = db_eips db ∧ db_providers db' = db_providers db ∧ db_pools db' = db_pools db ∧
  db_locations db' = db_locations db.

(** Two databases that differ in the usages of hosts only; two states that do. *)
Definition db_kept (db db' : DB) : Prop :=
  db_projects db' = db_projects db ∧ tables_kept db db' ∧ hosts_kept (db_hosts db) (db_hosts db').
Definition same_but_usage (w w' : world) : Prop :=
  db_kept (w_db w) (w_db w') ∧ w_counters w' = w_counters w ∧ w_hwm w' = w_hwm w.

Lemma hosts_kept_refl hs : hosts_kept hs hs.
Proof. split; [done|]. intros r Hr. exists r, (h_used_vcpus r), (h_used_ram_mb r). split; [done|]. by destruct r. Qed.

Lemma hosts_kept_trans hs1 hs2 hs3 : hosts_kept hs1 hs2 → hosts_kept hs2 hs3 → hosts_kept hs1 hs3.
Proof.
  intros [I1 R1] [I2 R2]. split; [congruence|]. intros r (h2 & v & m & Hh2 & ->)%R2.
  destruct (R1 h2 Hh2) as (h1 & v1 & m1 & Hh1 & ->). by exists h1, v, m.
Qed.

Lemma db_kept_refl db : db_kept db db.
Proof. split; [done|]. split; [by split_and!|apply hosts_kept_refl]. Qed.

Lemma db_kept_trans db1 db2 db3 : db_kept db1 db2 → db_kept db2 db3 → db_kept db1 db3.
Proof.
  intros (P1 & (E1 & V1 & L1 & S1) & H1) (P2 & (E2 & V2 & L2 & S2) & H2).
  split; [congruence|]. split; [split_and!; congruence|]. by eapply hosts_kept_trans.
Qed.

Lemma usage_refl w : same_but_usage w w.
Proof. split; [apply db_kept_refl|done]. Qed.

(** Saving a row whose usage was recomputed. *)
Lemma hosts_kept_save hs db h v m :
  hosts_kept hs (db_hosts db) → h ∈ hs → hosts_kept hs (db_hosts (save_host db (set_used h v m))).
Proof.
  intros [Hi Hr] Hh. split.
  - rewrite <-Hi. cbn. clear. induction (db_hosts db) as [|r rs IH]; [done|]. cbn. f_equal; [|exact IH].
    destruct (streq (h_id r) (h_id h)) eqn:E; [|done]. apply streq_true in E. by rewrite E.
  - intros r Hin. cbn in Hin. apply list_elem_of_fmap in Hin as (r' & -> & Hin).
    destruct (streq _ _); [by exists h, v, m|by apply Hr].
Qed.

Lemma save_hosts_kept hs db0 db :
  db_kept db0 db → (∀ h', h' ∈ hs → ∃ h v m, h ∈ db_hosts db0 ∧ h' = set_used h v m) → db_kept db0 (foldl save_host db hs).
Proof.
  revert db. induction hs as [|h' hs IH]; intros db Hk Hs; [done|]. cbn [foldl]. apply IH.
  - destruct (Hs h' ltac:(by left)) as (h & v & m & Hh & ->). destruct Hk as (P & T & H).
    split; [done|]. split; [done|]. by apply hosts_kept_save.
  - intros h Hh. apply Hs. by right.
Qed.

Lemma sync_hosts_kept db hs hs' db' :
  hs ⊆ db_hosts db → sync_hosts db hs = Ok (hs', db') →
  db_kept db db' ∧ ∀ h', h' ∈ hs' → ∃ h v m, h ∈ hs ∧ h' = set_used h v m.
Proof.
  intros Hsub H. pose proof (sync_hosts_ids _ _ _ _ H) as HF. unfold sync_hosts in H. bind_inv. simplify_eq.
  assert (Hu : ∀ h', h' ∈ hs' → ∃ h v m, h ∈ hs ∧ h' = set_used h v m).
  { intros h' Hh'. apply list_elem_of_lookup in Hh' as [i Hi].
    destruct (Forall2_lookup_r _ _ _ _ _ HF Hi) as (h & Hhi & v & m & ->). exists h, v, m. split; [|done].
    by eapply list_elem_of_lookup_2. }
  split; [|exact Hu]. apply save_hosts_kept; [apply db_kept_refl|]. intros h' Hh'.
  destruct (Hu h' Hh') as (h & v & m & Hh & ->). exists h, v, m. split; [by apply Hsub|done].
Qed.

Lemma filter_sub {A} (f : A → bool) (l : list A) : List.filter f l ⊆ l.
Proof. intros x Hx. by apply list_elem_of_In, filter_In, proj1, list_elem_of_In in Hx. Qed.

Lemma find_available_kept cfg db c d pool prov kv r db' :
  find_available_host cfg db c d pool prov kv = Ok (r, db') →
  db_kept db db' ∧ ∀ h', r = Some h' → ∃ h v m, h ∈ db_hosts db ∧ h' = set_used h v m.
Proof.
  unfold find_available_host. intros H. bind_inv. destruct x as [hs db1].
  apply sync_hosts_kept in H0 as [Hk Hu]; [|intros h Hh; by apply filter_sub in Hh].
  destruct (sort_by cand_le _) as [|best rest] eqn:E; simplify_eq; (split; [done|]); [done|].
  intros h' [= <-]. apply sort_by_head in E as [Hin _]; [|apply _].
  apply list_elem_of_omap in Hin as (h' & Hh' & Hf). destruct (host_fits_inv _ _ _ _ _ _ Hf) as (-> & _).
  destruct (Hu h' Hh') as (h & v & m & Hh & ->). exists h, v, m. split; [by apply filter_sub in Hh|done].
Qed.

Lemma multihost_kept db t pool prov mtu r db' :
  find_multihost_placement db t pool prov mtu = Ok (r, db') → db_kept db db'.
Proof.
  unfold find_multihost_placement. intros H. apply bind_Ok in H as (nodes & _ & H).
  apply bind_Ok in H as (vms & _ & H). destruct vms as [|v vs]; [simplify_eq; apply db_kept_refl|].
  apply bind_Ok in H as (a & _ & H). apply bind_Ok in H as (units & _ & H).
  apply bind_Ok in H as ([prep db1] & Hp & H).
  assert (db_kept db db1).
  { unfold prepare_hosts in Hp. destruct (List.filter (multihost_query _ _) _) as [|b bs] eqn:E1; [simplify_eq; apply db_kept_refl|].
    destruct (List.filter _ (_ :: _)) as [|c cs] eqn:E2; [simplify_eq; apply db_kept_refl|]. bind_inv. destruct x. simplify_eq.
    eapply sync_hosts_kept; [|exact H0]. rewrite <-E2, <-E1. intros h Hh. by do 2 apply filter_sub in Hh. }
  destruct prep as [[hosts rem]|]; by simplify_eq.
Qed.

(** A host row that may carry the project, with its usage recomputed or not. *)
Definition eligible (kv : bool) (mtu : option Z) (db : DB) (hid : string) : Prop :=
  ∃ h, h ∈ db_hosts db ∧ h_id h = hid ∧ placement_host_filter h = true ∧
    host_mtu_ok h mtu = true ∧ (kv = true → h_host_type h = "kubevirt-cluster").

(** What a search finds is a synced row of the scope. *)
Lemma find_available_eligible cfg db c d pool prov kv h db' :
  find_available_host cfg db c d pool prov kv = Ok (Some h, db') →
  eligible kv (d_mtu d) db (h_id h).
Proof.
  unfold find_available_host. intros H. bind_inv. destruct x as [hs db1].
  destruct (sort_by cand_le _) as [|best rest] eqn:E; simplify_eq.
  apply sort_by_head in E as [Hin _]; [|apply _].
  apply list_elem_of_omap in Hin as (h' & Hh' & Hf).
  destruct (host_fits_inv _ _ _ _ _ _ Hf) as (-> & _ & _ & _ & _ & _ & _ & Hmtu).
  apply sync_hosts_ids in H0. apply list_elem_of_lookup in Hh' as [i Hi].
  destruct (Forall2_lookup_r _ _ _ _ _ H0 Hi) as (h & Hhi & v & m & ->).
  apply list_elem_of_lookup_2, list_elem_of_In, filter_In in Hhi as [Hh Hq].
  apply andb_prop in Hq as [Hp Hq]. unfold host_query in Hq. apply andb_prop in Hq as [_ Hkv].
  exists h. split_and!; [by apply list_elem_of_In|done..|]. intros ->. by apply streq_true in Hkv.
Qed.

Lemma save_hosts_rows hs db r :
  r ∈ db_hosts (foldl save_host db hs) → r ∈ db_hosts db ∨ r ∈ hs.
Proof.
  revert db. induction hs as [|h hs IH]; intros db; simpl; [by left|].
  intros [Hr|Hr]%IH; [|right; by right]. unfold save_host in Hr. cbn in Hr.
  apply list_elem_of_fmap in Hr as (r' & -> & Hr'). destruct (streq _ _); [right; left|by left].
Qed.

(** Recomputing usages makes no host eligible. *)
Lemma eligible_synced kv mtu db hs hs' db' hid :
  sync_hosts db hs = Ok (hs', db') → hs ⊆ db_hosts db →
  eligible kv mtu db' hid → eligible kv mtu db hid.
Proof.
  intros Hs Hsub (r & Hr & Hid & Hf & Hm & Hk). pose proof (sync_hosts_ids _ _ _ _ Hs) as HF.
  unfold sync_hosts in Hs. bind_inv. simplify_eq.
  apply save_hosts_rows in Hr as [Hr|Hr]; [by exists r|].
  apply list_elem_of_lookup in Hr as [i Hi].
  destruct (Forall2_lookup_r _ _ _ _ _ HF Hi) as (h & Hhi & v & m & ->).
  exists h. apply list_elem_of_lookup_2 in Hhi. split; [by apply Hsub|done].
Qed.

Lemma find_available_synced cfg db c d pool prov kv r db' kv' mtu hid :
  find_available_host cfg db c d pool prov kv = Ok (r, db') →
  eligible kv' mtu db' hid → eligible kv' mtu db hid.
Proof.
  unfold find_available_host. intros H. bind_inv. destruct x as [hs db1].
  assert (db1 = db') as -> by (destruct (sort_by _ _); by simplify_eq).
  eapply eligible_synced; [exact H0|]. intros h Hh.
  by apply list_elem_of_In, filter_In, proj1, list_elem_of_In in Hh.
Qed.

Section PlaceFacts.
Context (cfg : config) (set_iter : list val → list val).
Context (provisioned : option provision_result) (now : Z).

(** A row of the database with its usage recomputed. *)
Definition row_of (db : DB) (r : Host) : Prop := ∃ h v m, h ∈ db_hosts db ∧ r = set_used h v m.

Lemma row_of_kept db db' r : db_kept db db' → row_of db' r → row_of db r.
Proof.
  intros (_ & _ & _ & Hr) (h & v & m & Hh & ->). destruct (Hr h Hh) as (h0 & v0 & m0 & Hh0 & ->). by exists h0, v, m.
Qed.

Lemma search_host_inv w p d aa pool kv h pool' w' :
  search_host cfg w p d aa pool kv = Ok (h, pool', w') →
  same_but_usage w w' ∧
  match h with Some h => eligible kv (d_mtu d) (w_db w) (h_id h) ∧ row_of (w_db w) h | None => True end.
Proof.
  unfold search_host. destruct aa; [intros [= <- _ <-]; split; [apply usage_refl|done]|].
  intros H. apply bind_Ok in H as ([h1 db1] & H1 & H). cbn in H.
  destruct (find_available_kept _ _ _ _ _ _ _ _ _ H1) as [Hk1 Hu1].
  set (chosen := match text_opt pool with Some s => Some s | None => auto_select_pool cfg (w_db w) end) in *.
  destruct h1 as [h1|]; [|destruct (text_opt chosen)].
  - simplify_eq. split; [done|]. split; [by eapply find_available_eligible|by apply Hu1].
  - apply bind_Ok in H as ([h2 db2] & H2 & H). cbn in H. simplify_eq.
    destruct (find_available_kept _ _ _ _ _ _ _ _ _ H2) as [Hk2 Hu2].
    split; [split; [by eapply db_kept_trans|done]|]. destruct h as [h|]; [|done]. split.
    + apply find_available_eligible in H2. by eapply find_available_synced.
    + eapply row_of_kept; [exact Hk1|]. by apply Hu2.
  - simplify_eq. done.
Qed.

Lemma resolve_specified_inv db hid h :
  resolve_specified_host db hid = inl h →
  h ∈ db_hosts db ∧ h_id h = hid ∧ placement_host_filter h = true.
Proof.
  unfold resolve_specified_host, find_host, placement_host_filter.
  destruct (List.find _ _) as [h'|] eqn:E; [|done]. apply find_some in E as [Hin Hid].
  destruct (negb (streq (h_state h') "active") || _) eqn:E1; [done|].
  destruct (negb (h_accepting_work h')) eqn:E2; [done|]. intros [= <-].
  apply orb_false_elim in E1 as [E1 E1']. apply negb_false_iff in E1, E1', E2.
  split; [by apply list_elem_of_In|]. rewrite E1, E1', E2. by apply streq_true in Hid.
Qed.

Lemma select_host_inv w p d aa pool hid kv sel w' :
  select_host cfg w p d aa pool hid kv = Ok (sel, w') →
  same_but_usage w w' ∧
  match sel with
  | inl (Some h, _) => eligible kv (d_mtu d) (w_db w) (h_id h) ∧ row_of (w_db w) h
  | _ => True
  end.
Proof.
  unfold select_host. destruct (text_opt hid) as [hid'|].
  - intros [= <- <-]. split; [apply usage_refl|]. destruct (resolve_specified_host _ _) as [h|] eqn:E; [|done].
    apply resolve_specified_inv in E as (Hin & Hid & Hf). unfold validate_specified_host.
    destruct (kv && _) eqn:Ek; [done|]. destruct (negb (host_mtu_ok h (d_mtu d))) eqn:Em; [done|].
    apply negb_false_iff in Em. split.
    + exists h. split_and!; try done. intros ->. by apply negb_false_iff, streq_true in Ek.
    + by apply (hosts_kept_refl (db_hosts (w_db w))).
  - intros H. apply bind_Ok in H as ([[h pool'] w1] & H1 & H). simplify_eq.
    apply search_host_inv in H1 as [Hs He]. split; [done|]. by destruct h.
Qed.

(** The VNIs a placement hands out, and the mark it leaves. *)
Definition fresh_vnis (w w' : world) (m : vnis) : Prop :=
  NoDup m.*2 ∧
  (∀ v, v ∈ m.*2 → v ∉ get_all_used_vnis (w_db w) ∧ read_hwm (w_hwm w) < v ≤ VNI_MAX) ∧
  w_hwm w' = match zmax m.*2 with Some hwm => write_hwm (w_hwm w) hwm | None => w_hwm w end.

Lemma allocate_fresh_vnis w w1 db f t m w' :
  same_but_usage w w1 → db_projects db = db_projects (w_db w1) →
  allocate_vnis_for_project db (w_hwm w1) t = Ok (m, f) → w_hwm w' = f → fresh_vnis w w' m.
Proof.
  intros ((Hp & _) & _ & Hh) Hdb Ha Hf.
  assert (Hu : get_all_used_vnis (w_db w) = get_all_used_vnis db)
    by (unfold get_all_used_vnis; by rewrite Hdb, Hp).
  unfold fresh_vnis. rewrite Hu, <-Hh, Hf. split_and!.
  - by eapply alloc_distinct.
  - intros v Hv. by eapply alloc_fresh.
  - by eapply alloc_marks.
Qed.

(** What a placement may change, by its result. *)
Definition placement_effects (w : world) (p : Project) (r : placement_result) (w' : world) : Prop :=
  tables_kept (w_db w) (w_db w') ∧
  match r with
  | PlaceError _ _ =>
      db_projects (w_db w') = db_projects (w_db w) ∧ hosts_kept (db_hosts (w_db w)) (db_hosts (w_db w')) ∧
      w_counters w' = w_counters w ∧ w_hwm w' = w_hwm w
  | MultiHost _ _ _ m =>
      db_projects (w_db w') = db_projects (w_db w) ∧ hosts_kept (db_hosts (w_db w)) (db_hosts (w_db w')) ∧
      w_counters w' = w_counters w ∧ fresh_vnis w w' m
  | SingleHost hid _ _ m _ =>
      db_projects (w_db w') =
        map (λ p', if streq (p_id p') (p_id p) then deploying now p hid else p')
            (db_projects (w_db w)) ∧
      (∃ new, hosts_kept (db_hosts (w_db w) ++ new) (db_hosts (w_db w')) ∧
         (new = [] ∨ ∃ pr, provisioned = Some pr ∧ new = [provisioned_host pr] ∧ hid = pv_host_id pr)) ∧
      w_counters w' = record_deploy_start (w_counters w) hid ∧ fresh_vnis w w' m
  end.

Lemma same_effects w p msg q w' : same_but_usage w w' → placement_effects w p (PlaceError msg q) w'.
Proof. intros ((Hp & Ht & Hh) & Hc & Hm). by split. Qed.

(** The row that is used, and the rows added for it. *)
Lemma finalize_effects w w1 p h r res w' new :
  db_projects (w_db w1) = db_projects (w_db w) → tables_kept (w_db w) (w_db w1) →
  hosts_kept (db_hosts (w_db w) ++ new) (db_hosts (w_db w1)) →
  w_counters w1 = w_counters w → w_hwm w1 = w_hwm w →
  (∃ h0 v m, h0 ∈ db_hosts (w_db w) ++ new ∧ h = set_used h0 v m) →
  (new = [] ∨ ∃ pr, provisioned = Some pr ∧ new = [provisioned_host pr] ∧ h_id h = pv_host_id pr) →
  finalize_single_host set_iter now w1 p h r = Ok (res, w') →
  placement_effects w p res w' ∧ ∃ ip m net, res = SingleHost (h_id h) ip r m net.
Proof.
  intros Hp Ht Hh Hc Hm (h0 & v0 & m0 & Hh0 & ->) Hnew H. unfold finalize_single_host in H.
  apply bind_Ok in H as ([m f] & Ha & H). cbn in H. bind_inv. simplify_eq.
  split; [|by eauto]. split; [exact Ht|]. cbn [w_db w_counters w_hwm db_projects db_hosts save_project save_host].
  match goal with Hs : sync_host_capacity _ _ = Ok _ |- _ => apply sync_host_id in Hs as (v & m1 & ->) end.
  split_and!.
  - by rewrite Hp.
  - exists new. split; [|done]. change (set_used (set_used h0 v0 m0) v m1) with (set_used h0 v m1).
    exact (hosts_kept_save _ (w_db w1) h0 v m1 Hh Hh0).
  - cbn. by rewrite Hc.
  - assert (Hu : get_all_used_vnis (w_db w) = get_all_used_vnis (w_db w1)) by (unfold get_all_used_vnis; by rewrite Hp).
    unfold fresh_vnis. rewrite Hu, <-Hm. split_and!.
    + by eapply alloc_distinct.
    + intros vni Hv. by eapply alloc_fresh.
    + cbn. by eapply alloc_marks.
Qed.

(** The hosts of a mesh, over rows whose identifiers differ. *)
Definition mesh_eligible (mtu : option Z) (db : DB) (hid : string) : Prop :=
  ∃ row, row ∈ db_hosts db ∧ h_id row = hid ∧ placement_host_filter row = true ∧ host_mtu_ok row mtu = true ∧
         h_host_type row ∉ ["kubevirt-cluster"; "pattern_buffer"].

Lemma mesh_eligible_kept mtu db db' hid : db_kept db db' → mesh_eligible mtu db' hid → mesh_eligible mtu db hid.
Proof.
  intros (_ & _ & _ & Hr) (row & Hin & Hid & Hf & Hm & Ht). destruct (Hr row Hin) as (h & v & m & Hh & ->).
  by exists h.
Qed.

Lemma multihost_eligible db t pool prov mtu assign db' :
  NoDup (map h_id (db_hosts db)) → find_multihost_placement db t pool prov mtu = Ok (Some assign, db') →
  ∀ hid, hid ∈ assign.*1 → mesh_eligible mtu db hid.
Proof.
  intros Hn H hid Hin. pose proof H as H0. unfold find_multihost_placement in H0.
  apply bind_Ok in H0 as (nodes & Hnodes & H0). apply bind_Ok in H0 as (vms & Hvms & _).
  destruct (multihost_places_every_vm _ _ _ _ _ _ _ _ _ Hn H Hnodes Hvms) as [_ Hall].
  apply list_elem_of_fmap in Hin as ([h ids] & -> & Hin). destruct (Hall h ids Hin) as (_ & row & Hr & Hid & Hq & Hm).
  unfold multihost_query in Hq. do 4 apply andb_prop in Hq as [Hq ?].
  exists row. split_and!; try done. intros [E|[E|[]%elem_of_nil]%elem_of_cons]%elem_of_cons;
    rewrite E in *; by match goal with H : negb (streq _ _) = true |- _ => vm_compute in H end.
Qed.

Lemma network_host_in assign t net : select_network_host assign t = Ok net → net ∈ assign.*1.
Proof.
  unfold select_network_host. intros H. apply bind_Ok in H as (gw & _ & H).
  set (pick := match gw with [] => None | _ => _ end) in H. destruct pick as [[hid vms]|] eqn:E.
  - injection H as <-. unfold pick in E. destruct gw; [done|]. apply find_some in E as [Hin%list_elem_of_In _].
    by apply (list_elem_of_fmap_2 fst) in Hin.
  - destruct assign as [|a l]; [done|]. injection H as <-.
    destruct (max_by_spec (λ p : string * list val, Z.of_nat (length p.2)) a l) as [Hin _].
    by apply (list_elem_of_fmap_2 fst) in Hin.
Qed.

Lemma multihost_effects w w1 p pool aa mtu res w' :
  same_but_usage w w1 → try_multihost_placement w1 p pool aa mtu = Ok (res, w') →
  match res with
  | Some r => placement_effects w p r w' ∧ (∀ h ip q m net, r ≠ SingleHost h ip q m net) ∧
      ∀ assign net ips m, r = MultiHost assign net ips m → NoDup (map h_id (db_hosts (w_db w))) →
        net ∈ assign.*1 ∧ ∀ hid, hid ∈ assign.*1 → mesh_eligible mtu (w_db w) hid
  | None => same_but_usage w w'
  end.
Proof.
  intros Hs. unfold try_multihost_placement.
  set (needs := aa && _ && _). set (pool' := if needs then find_pool_for_anti_affinity _ else pool).
  destruct (needs && bool_decide (text_opt pool' = None)).
  { intros [= <- <-]. split; [by apply same_effects|]. split; done. }
  intros H. apply bind_Ok in H as ([asg db] & Hm & H). cbn in H. pose proof (multihost_kept _ _ _ _ _ _ _ Hm) as Hk.
  assert (Hs' : same_but_usage w (with_db w1 db)).
  { destruct Hs as (? & ? & ?). split_and!; [by eapply db_kept_trans|done..]. }
  destruct asg as [[|a asg]|]; [by simplify_eq| |by simplify_eq].
  apply bind_Ok in H as ([r w2] & Hr & H). cbn in H. simplify_eq.
  unfold build_multihost_result in Hr. apply bind_Ok in Hr as (nh & Hnh & Hr).
  apply bind_Ok in Hr as ([m f] & Ha & Hr). simplify_eq. pose proof Hs' as ((Hp & Ht & Hh) & Hc & Hw).
  split; [|split; [done|]].
  - split; [exact Ht|]. split; [exact Hp|]. split; [exact Hh|]. split; [exact Hc|].
    by eapply (allocate_fresh_vnis _ (with_db w1 db) (w_db (with_db w1 db))).
  - intros assign net ips m' [= <- <- _ _] Hn. split; [by eapply network_host_in|]. intros hid Hin.
    destruct Hs as (Hk1 & _). eapply mesh_eligible_kept; [exact Hk1|].
    eapply multihost_eligible; [|exact Hm|exact Hin]. destruct Hk1 as (_ & _ & -> & _). exact Hn.
Qed.

(** The steps of [place_project] once the requirements are known. *)
Lemma place_without_host_inv w w1 p r pool aa kv mtu res w' :
  same_but_usage w w1 →
  place_without_host set_iter provisioned now w1 p r pool aa kv mtu = Ok (res, w') →
  placement_effects w p res w' ∧
  (kv = true → ∃ msg q, res = PlaceError msg q) ∧
  (∀ hid ip q m net, res = SingleHost hid ip q m net →
    kv = false ∧ ∃ pr, provisioned = Some pr ∧ hid = pv_host_id pr) ∧
  ∀ assign net ips m, res = MultiHost assign net ips m → NoDup (map h_id (db_hosts (w_db w))) →
    net ∈ assign.*1 ∧ ∀ hid, hid ∈ assign.*1 → mesh_eligible mtu (w_db w) hid.
Proof.
  intros Hs. unfold place_without_host. destruct kv.
  { intros [= <- <-]. split; [by apply same_effects|]. split; [by eauto|done]. }
  intros H. apply bind_Ok in H as ([mh w2] & Hm & H). cbn in H.
  apply (multihost_effects w) in Hm; [|done]. destruct mh as [res'|].
  { simplify_eq. destruct Hm as (He & Hn & Hel). split; [exact He|]. split; [done|]. split; [|exact Hel].
    intros hid ip q m net ->. by destruct (Hn hid ip q m net). }
  unfold auto_provision_host in H. destruct provisioned as [pr|] eqn:Epr.
  2:{ simplify_eq. split; [by apply same_effects|]. by split_and!. }
  destruct Hm as ((Hp & Ht & Hh) & Hc & Hw).
  eapply (finalize_effects w _ _ _ _ _ _ [provisioned_host pr]) in H; [|exact Hp|exact Ht| |exact Hc|exact Hw| |].
  - destruct H as [He (ip & m & net & ->)]. split; [exact He|]. split; [done|]. split; [|done].
    intros hid ip' q m' net' [= <- _ _ _ _]. split; [done|]. by exists pr.
  - cbn. destruct Hh as [Hi Hr]. split; [by rewrite !map_app, Hi|]. intros x [Hx|Hx]%elem_of_app.
    + destruct (Hr x Hx) as (h & v & m & Hin & ->). exists h, v, m. split; [apply elem_of_app; by left|done].
    + apply list_elem_of_singleton in Hx as ->. exists (provisioned_host pr), 0, 0.
      split; [apply elem_of_app; right; apply list_elem_of_here|done].
  - exists (provisioned_host pr), 0, 0. split; [apply elem_of_app; right; apply list_elem_of_here|done].
  - right. by exists pr.
Qed.

(** Everything [place_project] can do, by its result. *)
Lemma place_project_inv w p pool hid res w' :
  place_project cfg set_iter provisioned now w p pool hid = Ok (res, w') →
  placement_effects w p res w' ∧
  ∀ mtu kv, required_network_mtu (p_topology p) = Ok mtu →
    topology_requires_kubevirt (p_topology p) = Ok kv →
    match res with
    | SingleHost h _ _ _ _ => eligible kv mtu (w_db w) h ∨
        (kv = false ∧ ∃ pr, provisioned = Some pr ∧ h = pv_host_id pr)
    | MultiHost assign net _ _ => kv = false ∧ (NoDup (map h_id (db_hosts (w_db w))) →
        net ∈ assign.*1 ∧ ∀ hid, hid ∈ assign.*1 → mesh_eligible mtu (w_db w) hid)
    | PlaceError _ _ => True
    end.
Proof.
  pose proof (usage_refl w) as Hrefl.
  unfold place_project. destruct (negb (truthy _)); [intros [= <- <-]; split; [by apply same_effects|done]|].
  intros H. apply bind_Ok in H as (r & _ & H). destruct (_ =? 0); [simplify_eq; split; [by apply same_effects|done]|].
  apply bind_Ok in H as (dids & _ & H). destruct (_ && _ && _); [simplify_eq; split; [by apply same_effects|done]|].
  apply bind_Ok in H as (aa & _ & H). apply bind_Ok in H as (mtu & Hmtu & H).
  apply bind_Ok in H as (kv & Hkv & H). cbv zeta in H.
  apply bind_Ok in H as ([sel w1] & Hsel & H). cbn in H.
  apply select_host_inv in Hsel as [Hs Hel].
  destruct sel as [[[h|] pool']|err]; [| |simplify_eq; split; [by apply same_effects|done]].
  - destruct Hel as [Hel Hrow]. pose proof Hs as ((Hp & Ht & Hh) & Hc & Hw).
    apply (finalize_effects w _ _ _ _ _ _ []) in H as [He (ip & m & net & ->)];
      [|exact Hp|exact Ht|by rewrite app_nil_r|exact Hc|exact Hw|by rewrite app_nil_r|by left].
    split; [done|]. intros mtu' kv' Hm Hk. rewrite Hmtu in Hm. rewrite Hkv in Hk. simplify_eq. by left.
  - apply (place_without_host_inv w) in H as (He & Hk & Hsh & Hmh); [|done]. split; [done|].
    intros mtu' kv' Hm' Hk'. rewrite Hkv in Hk'. rewrite Hmtu in Hm'. simplify_eq. destruct res; [done| |].
    + destruct kv'; [by destruct Hk as (? & ? & ?)|]. split; [done|]. by eapply Hmh.
    + right. by eapply Hsh.
Qed.
End PlaceFacts.

(** C17: Placement changes what its result says and nothing else.  Whatever the result, addresses,
    providers, pools and pattern locations are as they were, and a row of a host only has its usage
    recomputed.  An error leaves every project, every in-flight counter and the VNI high-water mark
    as they were; a multi-host placement only consumes fresh VNIs; a single-host placement records
    the host and the state on that project alone, adds no row but that of the host provisioned for
    it, counts one deployment in flight on that host, and consumes fresh VNIs. *)
Theorem place_project_effects cfg set_iter provisioned now w p pool hid res w' :
  place_project cfg set_iter provisioned now w p pool hid = Ok (res, w') →
  tables_kept (w_db w) (w_db w') ∧
  match res with
  | PlaceError _ _ =>
      db_projects (w_db w') = db_projects (w_db w) ∧ hosts_kept (db_hosts (w_db w)) (db_hosts (w_db w')) ∧
      w_counters w' = w_counters w ∧ w_hwm w' = w_hwm w
  | MultiHost _ _ _ m =>
      db_projects (w_db w') = db_projects (w_db w) ∧ hosts_kept (db_hosts (w_db w)) (db_hosts (w_db w')) ∧
      w_counters w' = w_counters w ∧ fresh_vnis w w' m
  | SingleHost h _ _ m _ =>
      db_projects (w_db w') =
        map (λ p', if streq (p_id p') (p_id p) then deploying now p h else p')
            (db_projects (w_db w)) ∧
      (∃ new, hosts_kept (db_hosts (w_db w) ++ new) (db_hosts (w_db w')) ∧
         (new = [] ∨ ∃ pr, provisioned = Some pr ∧ new = [provisioned_host pr] ∧ h = pv_host_id pr)) ∧
      w_counters w' = record_deploy_start (w_counters w) h ∧ fresh_vnis w w' m
  end.
Proof. intros H. by apply place_project_inv in H as [H _]. Qed.

Definition place_sample_project (placement : list (string * val)) : Project :=
  mkProject "p2" None None "draft"
    (VDict ([("nodes", VList [placement_vm "v1" [];
       VDict [("id", VStr "n1"); ("type", VStr "networkNode");
              ("data", VDict [("subtype", VStr "network"); ("mtu", VInt 1500)])]])] ++ placement))
    None None.

Definition place_sample_world : world :=
  mkWorld (mkDB (db_hosts placement_db) (place_sample_project [] :: db_projects placement_db)
             [] [] [] []) no_counters (mkHwm None true).

Lemma place_project_effects_witness :
  let w := place_sample_world in
  let p := place_sample_project [] in
  ∃ ip r m net w', place_project placement_cfg id None 7 w p None None =
      Ok (SingleHost "h2" ip r m net, w') ∧ m = [(VStr "n1", 1000)] ∧
    tables_kept (w_db w) (w_db w') ∧
    db_projects (w_db w') =
      map (λ p', if streq (p_id p') (p_id p) then deploying 7 p "h2" else p')
          (db_projects (w_db w)) ∧
    (∃ new, hosts_kept (db_hosts (w_db w) ++ new) (db_hosts (w_db w')) ∧
       (new = [] ∨ ∃ pr, @None provision_result = Some pr ∧ new = [provisioned_host pr] ∧ "h2" = pv_host_id pr)) ∧
    w_counters w' = record_deploy_start (w_counters w) "h2" ∧ fresh_vnis w w' m.
Proof.
  intros w p. eexists _, _, _, _, _. split; [vm_compute; reflexivity|]. split; [reflexivity|].
  eapply (place_project_effects placement_cfg id None 7 w p None None (SingleHost _ _ _ _ _)).
  vm_compute. reflexivity.
Defined.

(** C15: Placement is safe, on hosts with identifiers of their own: a project only ever runs on host
    rows that are active, connected, accepting work and of enough MTU, or on the host that was
    provisioned for it.  Spread over several hosts, each of them is such a row, none a cluster or a
    pattern buffer, and the network host is one of them.  And a template restricted to KubeVirt is
    never spread over a mesh, never put on a provisioned host and never on a host of another type,
    whatever host the caller names. *)
Theorem placement_host_eligible cfg set_iter provisioned now w p pool hid res w' mtu kv :
  NoDup (map h_id (db_hosts (w_db w))) →
  place_project cfg set_iter provisioned now w p pool hid = Ok (res, w') →
  required_network_mtu (p_topology p) = Ok mtu →
  topology_requires_kubevirt (p_topology p) = Ok kv →
  match res with
  | SingleHost h _ _ _ _ =>
      (∃ row, row ∈ db_hosts (w_db w) ∧ h_id row = h ∧ placement_host_filter row = true ∧
         host_mtu_ok row mtu = true ∧ (kv = true → h_host_type row = "kubevirt-cluster")) ∨
      (kv = false ∧ ∃ pr, provisioned = Some pr ∧ h = pv_host_id pr)
  | MultiHost assign net _ _ =>
      kv = false ∧ net ∈ assign.*1 ∧
      ∀ h, h ∈ assign.*1 →
        ∃ row, row ∈ db_hosts (w_db w) ∧ h_id row = h ∧ placement_host_filter row = true ∧
          host_mtu_ok row mtu = true ∧ h_host_type row ∉ ["kubevirt-cluster"; "pattern_buffer"]
  | PlaceError _ _ => True
  end.
Proof.
  intros Hn H Hm Hk. apply place_project_inv in H as [_ H]. specialize (H mtu kv Hm Hk).
  destruct res; [done| |exact H]. destruct H as [Hkv H]. split; [exact Hkv|]. by apply H.
Qed.

Lemma placement_host_eligible_witness :
  let kv_host := mkHost "k1" None "active" "kubevirt-cluster" 64 262144 0 0 None None
                   "connected" 0 (Some 9000) None true in
  let db := mkDB (kv_host :: db_hosts placement_db) [] [] [] [] [] in
  let w := mkWorld db no_counters (mkHwm None true) in
  let p := place_sample_project [("placement", VDict [("requires_kubevirt", VBool true)])] in
  ∃ ip r m net w', place_project placement_cfg id None 7 w p None None =
      Ok (SingleHost "k1" ip r m net, w') ∧
  ((∃ row, row ∈ db_hosts (w_db w) ∧ h_id row = "k1" ∧ placement_host_filter row = true ∧
      host_mtu_ok row (Some 1500) = true ∧ (true = true → h_host_type row = "kubevirt-cluster")) ∨
   (true = false ∧ ∃ pr, @None provision_result = Some pr ∧ "k1" = pv_host_id pr)).
Proof.
  intros kv_host db w p. eexists _, _, _, _, _. split; [vm_compute; reflexivity|].
  eapply (placement_host_eligible placement_cfg id None 7 w p None None (SingleHost "k1" _ _ _ _));
    [apply (bool_decide_unpack _); vm_compute; exact I|vm_compute; reflexivity..].
Defined.

(** ** Capacity *)

(** What the committed projects of a host demand. *)
Definition host_load (db : DB) (hid : string) : res (Z * Z) :=
  for_each (host_projects db hid) (0, 0) (λ p '(v, m),
    r <- calculate_project_requirements (v_or (p_topology p) empty_dict);;
    Ok (v + r_total_vcpus r, m + r_total_ram_mb r)).

(** A host of the database on which the demand fits next to the committed projects. *)
Definition fits_next_to (cfg : config) (db : DB) (d : demand) (hid : string) : Prop :=
  ∃ row v m, row ∈ db_hosts db ∧ h_id row = hid ∧ host_load db hid = Ok (v, m) ∧
    v + d_vcpus d ≤ (get_allocatable cfg row).1 ∧ m + d_ram_mb d ≤ (get_allocatable cfg row).2.

Lemma sync_host_load db row h :
  sync_host_capacity db row = Ok h →
  ∃ v m, host_load db (h_id row) = Ok (v, m) ∧ h = set_used row v m.
Proof.
  unfold sync_host_capacity, host_load. intros H. apply bind_Ok in H as ([v m] & Hl & [= <-]).
  by exists v, m.
Qed.

Lemma find_available_fits cfg db c d pool prov kv h db' :
  find_available_host cfg db c d pool prov kv = Ok (Some h, db') → fits_next_to cfg db d (h_id h).
Proof.
  unfold find_available_host. intros H. apply bind_Ok in H as ([hs db1] & Hs & H).
  destruct (sort_by cand_le _) as [|best rest] eqn:E; simplify_eq.
  apply sort_by_head in E as [Hin _]; [|apply _].
  apply list_elem_of_omap in Hin as (h' & Hh' & Hf).
  destruct (host_fits_inv _ _ _ _ _ _ Hf) as (-> & _ & _ & Hv & Hm & _).
  unfold sync_hosts in Hs. apply bind_Ok in Hs as (hs' & Hs & [= <- <-]).
  apply map_res_Forall2 in Hs. apply list_elem_of_lookup in Hh' as [i Hi].
  destruct (Forall2_lookup_r _ _ _ _ _ Hs Hi) as (row & Hrow & Hsync).
  apply list_elem_of_lookup_2, list_elem_of_In, filter_In, proj1, list_elem_of_In in Hrow.
  destruct (sync_host_load _ _ _ Hsync) as (v & m & Hl & ->). by exists row, v, m.
Qed.

(** Recomputing usages changes neither the demand nor the capacity of a host. *)
Lemma fits_synced cfg db db' d hs hs' hid :
  sync_hosts db hs = Ok (hs', db') → hs ⊆ db_hosts db →
  fits_next_to cfg db' d hid → fits_next_to cfg db d hid.
Proof.
  intros Hs Hsub (row & v & m & Hrow & Hid & Hl & Hv & Hm).
  destruct (sync_hosts_kept _ _ _ _ Hsub Hs) as [[Hp _] _]. pose proof (sync_hosts_ids _ _ _ _ Hs) as HF.
  unfold host_load, host_projects in Hl. rewrite Hp in Hl.
  unfold sync_hosts in Hs. apply bind_Ok in Hs as (hs2 & _ & [= <- <-]).
  apply save_hosts_rows in Hrow as [Hrow|Hrow]; [by exists row, v, m|].
  apply list_elem_of_lookup in Hrow as [i Hi].
  destruct (Forall2_lookup_r _ _ _ _ _ HF Hi) as (h & Hhi & v' & m' & ->).
  apply list_elem_of_lookup_2 in Hhi. exists h, v, m. by split_and!; [apply Hsub|..].
Qed.

Lemma search_host_fits cfg w p d pool kv h pool' w' :
  search_host cfg w p d false pool kv = Ok (Some h, pool', w') →
  fits_next_to cfg (w_db w) d (h_id h).
Proof.
  unfold search_host. set (chosen := match text_opt pool with Some s => Some s | None => _ end).
  intros H. apply bind_Ok in H as ([h1 db1] & H1 & H). cbn in H.
  destruct h1 as [h1|]; [simplify_eq; by eapply find_available_fits|].
  destruct (text_opt chosen); [|done]. apply bind_Ok in H as ([h2 db2] & H2 & H). cbn in H. simplify_eq.
  apply find_available_fits in H2. unfold find_available_host in H1.
  apply bind_Ok in H1 as ([hs db'] & Hs & H1).
  assert (db' = db1) as -> by (destruct (sort_by _ _); by simplify_eq).
  eapply fits_synced; [exact Hs| |done]. intros x Hx.
  by apply list_elem_of_In, filter_In, proj1, list_elem_of_In in Hx.
Qed.

(** C16: Capacity is respected: a project placed by the automatic search fits, next to everything
    already committed to the chosen host, within the host's CPU and memory times the configured
    overcommit ratios. *)
Theorem placement_within_capacity cfg set_iter now w p pool hid h ip r m net w' :
  text_opt hid = None →
  place_project cfg set_iter None now w p pool hid = Ok (SingleHost h ip r m net, w') →
  ∃ row v mem, row ∈ db_hosts (w_db w) ∧ h_id row = h ∧ host_load (w_db w) h = Ok (v, mem) ∧
    calculate_project_requirements (p_topology p) = Ok r ∧
    v + r_total_vcpus r ≤ (get_allocatable cfg row).1 ∧
    mem + r_total_ram_mb r ≤ (get_allocatable cfg row).2.
Proof.
  intros Hhid H. unfold place_project in H. destruct (negb (truthy _)); [done|].
  apply bind_Ok in H as (q & Hq & H). destruct (_ =? 0); [done|].
  apply bind_Ok in H as (dids & _ & H). destruct (_ && _ && _); [done|].
  apply bind_Ok in H as (aa & _ & H). apply bind_Ok in H as (mtu & _ & H).
  apply bind_Ok in H as (kv & _ & H). cbv zeta in H.
  apply bind_Ok in H as ([sel w1] & Hsel & H). cbn in H.
  unfold select_host in Hsel. rewrite Hhid in Hsel.
  apply bind_Ok in Hsel as ([[ho pool'] w2] & Hs & Hsel). injection Hsel as <- <-.
  pose proof (search_host_inv _ _ _ _ _ _ _ _ _ _ Hs) as [Hsame _].
  destruct ho as [h0|].
  - destruct aa; [by unfold search_host in Hs|]. apply search_host_fits in Hs.
    unfold finalize_single_host in H. apply bind_Ok in H as ([m' f] & _ & H). cbn in H. bind_inv.
    simplify_eq. destruct Hs as (row & v & mem & ? & ? & ? & ? & ?). by exists row, v, mem.
  - apply (place_without_host_inv set_iter None now w) in H as (_ & _ & Hsh & _); [|done].
    destruct (Hsh _ _ _ _ _ eq_refl) as (_ & pr & ? & _). done.
Qed.

Lemma placement_within_capacity_witness :
  let w := place_sample_world in
  let p := place_sample_project [] in
  ∃ ip r m net w', place_project placement_cfg id None 7 w p None None =
      Ok (SingleHost "h2" ip r m net, w') ∧
  ∃ row v mem, row ∈ db_hosts (w_db w) ∧ h_id row = "h2" ∧ host_load (w_db w) "h2" = Ok (v, mem) ∧
    calculate_project_requirements (p_topology p) = Ok r ∧
    v + r_total_vcpus r ≤ (get_allocatable placement_cfg row).1 ∧
    mem + r_total_ram_mb r ≤ (get_allocatable placement_cfg row).2.
Proof.
  intros w p. eexists _, _, _, _, _. split; [vm_compute; reflexivity|].
  eapply (placement_within_capacity placement_cfg id 7 w p None None); [reflexivity|].
  vm_compute. reflexivity.
Defined.
