(* ===== verification/MtuGate.v ===== *)
(** * The MTU gate of placement and the MTU resolution of the deployment

    [placement._host_mtu_ok] admits a host for the largest MTU the topology asks for;
    [network_mtu.resolve_network_mtu] later clamps every network to the host's uplink.  The
    gate is exactly what makes the clamp do nothing. *)
From stdpp Require Import prelude strings.
From S2P Require Import Prelude PyStr PyVal PyLemmas Db TopoNodes NetworkMtu Placement.

(** The concrete MTUs of one node. *)
Definition node_mtus (n : val) : res (list Z) :=
  t <- has_type n "networkNode";;
  if negb t then Ok []
  else
    d <- get n "data" VNone;;
    m <- get (v_or d empty_dict) "mtu" VNone;;
    match as_int m with
    | Some z => if 0 <? z then Ok [z] else Ok []
    | None => Ok []
    end.

Lemma required_mtu_values topology mtu :
  required_network_mtu topology = Ok mtu →
  ∃ ns mss, nodes_of (v_or topology empty_dict) = Ok ns ∧ map_res node_mtus ns = Ok mss ∧
    mtu = zmax (concat mss).
Proof.
  unfold required_network_mtu. intros H. bind_inv.
  apply (for_each_collect node_mtus) in H1 as (mss & Hm & ->); [by exists x, mss|].
  intros n s. unfold node_mtus. destruct (has_type n "networkNode") as [[]|]; simpl; try done.
  2: { by rewrite app_nil_r. }
  destruct (get n "data" VNone) as [d|]; simpl; [|done].
  destruct (get (v_or d empty_dict) "mtu" VNone) as [m|]; simpl; [|done].
  destruct (as_int m) as [z|]; simpl; [|by rewrite app_nil_r].
  destruct (0 <? z); simpl; [done|by rewrite app_nil_r].
Qed.

Lemma elem_of_node_mtus ns mss n z :
  map_res node_mtus ns = Ok mss → n ∈ ns → (∃ zs, node_mtus n = Ok zs ∧ z ∈ zs) → z ∈ concat mss.
Proof.
  intros H%map_res_Forall2 [i Hi]%list_elem_of_lookup (zs & Hz & Hin).
  destruct (Forall2_lookup_l _ _ _ _ _ H Hi) as (zs' & Hzs & Hn). simplify_eq.
  assert (zs' = zs) as -> by congruence.
  apply list_elem_of_In, in_concat. exists zs. split; apply list_elem_of_In; [|done].
  by eapply list_elem_of_lookup_2.
Qed.

Lemma node_mtus_elem ns mss z :
  map_res node_mtus ns = Ok mss → z ∈ concat mss → ∃ n zs, n ∈ ns ∧ node_mtus n = Ok zs ∧ z ∈ zs.
Proof.
  intros H%map_res_Forall2. induction H as [|n zs ns mss Hn _ IH]; simpl; [set_solver|].
  intros [?|Hz]%elem_of_app; [exists n, zs; set_solver|].
  destruct (IH Hz) as (n' & zs' & ? & ? & ?). exists n', zs'. set_solver.
Qed.

(** The placement gate is exact: a host with a known uplink passes it exactly when no
    network of the topology asks for a larger MTU, and then a single-host deployment gives
    every network that asks for a supported MTU just that MTU, with no warning. *)
Theorem mtu_gate_exact topology mtu h u ns :
  required_network_mtu topology = Ok mtu → h_uplink_mtu h = Some u →
  nodes_of (v_or topology empty_dict) = Ok ns →
  let asks n d z := n ∈ ns ∧ has_type n "networkNode" = Ok true ∧
    get n "data" VNone = Ok d ∧ get (v_or d empty_dict) "mtu" VNone = Ok (VInt z) ∧ 0 < z in
  (host_mtu_ok h mtu = true → ∀ n d z, asks n d z → z ≤ u) ∧
  (host_mtu_ok h mtu = false → ∃ n zs z, n ∈ ns ∧ node_mtus n = Ok zs ∧ z ∈ zs ∧ u < z) ∧
  (host_mtu_ok h mtu = true → ∀ n d z, asks n d z → MTU_FLOOR ≤ z →
     resolve_network_mtu d (Some u) false = Ok (z, None)).
Proof.
  intros Hm Hu Hns asks. destruct (required_mtu_values _ _ Hm) as (ns' & mss & Hns' & Hmss & ->).
  rewrite Hns in Hns'. injection Hns' as <-.
  assert (Hgate : host_mtu_ok h (zmax (concat mss)) = true → ∀ n d z, asks n d z → z ≤ u).
  { intros Hok n d z (Hn & Ht & Hd & Hz & Hpos).
    assert (Hin : z ∈ concat mss).
    { apply (elem_of_node_mtus ns _ n); [done|done|]. exists [z]. split; [|left].
      unfold node_mtus. rewrite Ht. simpl. rewrite Hd. simpl. rewrite Hz. simpl.
      by replace (0 <? z) with true by (symmetry; by apply Z.ltb_lt). }
    unfold host_mtu_ok in Hok. destruct (zmax (concat mss)) as [r|] eqn:Er.
    - rewrite Hu in Hok. apply Z.leb_le in Hok. pose proof (zmax_ge _ _ _ Er Hin). lia.
    - apply zmax_None in Er. rewrite Er in Hin. by apply elem_of_nil in Hin. }
  split; [done|]. split.
  - unfold host_mtu_ok. destruct (zmax (concat mss)) as [r|] eqn:Er; [|done]. rewrite Hu.
    intros Hlt%Z.leb_gt. apply zmax_Some_elem in Er.
    destruct (node_mtus_elem _ _ _ Hmss Er) as (n & zs & ? & ? & ?). by exists n, zs, r.
  - intros Hok n d z Ha Hfl. pose proof (Hgate Hok n d z Ha) as Hle.
    destruct Ha as (_ & _ & _ & Hz & _).
    destruct (resolve_known_uplink d u false (VInt z) z Hz eq_refl) as (w & Hr & Hw).
    rewrite Hr. unfold mtu_ceiling in *. destruct w as [w|].
    + destruct Hw as [_ Hw]. discriminate Hw. lia.
    + do 2 f_equal. lia.
Qed.

Definition mtu_gate_node : val :=
  VDict [("id", VStr "n1"); ("type", VStr "networkNode"); ("data", VDict [("mtu", VInt 9000)])].

Definition mtu_gate_sample : val := VDict [("nodes", VList [mtu_gate_node])].

Lemma mtu_gate_exact_witness :
  let h := placement_host "h1" 4 32768 in
  let asks n d z := n ∈ [mtu_gate_node] ∧ has_type n "networkNode" = Ok true ∧
    get n "data" VNone = Ok d ∧ get (v_or d empty_dict) "mtu" VNone = Ok (VInt z) ∧ 0 < z in
  host_mtu_ok h (Some 9000) = true ∧
  (host_mtu_ok h (Some 9000) = true → ∀ n d z, asks n d z → z ≤ 9000) ∧
  (host_mtu_ok h (Some 9000) = false →
     ∃ n zs z, n ∈ [mtu_gate_node] ∧ node_mtus n = Ok zs ∧ z ∈ zs ∧ 9000 < z) ∧
  (host_mtu_ok h (Some 9000) = true → ∀ n d z, asks n d z → MTU_FLOOR ≤ z →
     resolve_network_mtu d (Some 9000) false = Ok (z, None)).
Proof.
  split; [reflexivity|].
  apply (mtu_gate_exact mtu_gate_sample (Some 9000) (placement_host "h1" 4 32768)); reflexivity.
Defined.
