(* ===== verification/Tunnel.v ===== *)
(** * Tunnel service: [tunnel/framing.py] and [tunnel/limits.py]

    The binary multiplex framing and the session caps.  A byte is an integer in
    [0, 256). *)
From stdpp Require Import prelude strings gmap.
From S2P Require Import Prelude PyStr PyVal.

(** ** Framing *)

Definition bytes := list Z.
Definition is_byte (b : Z) : Prop := 0 ≤ b < 256.

(** [struct.Struct(">I").pack]: 32-bit big-endian. *)
Definition be32 (n : Z) : bytes :=
  [Z.land (Z.shiftr n 24) 255; Z.land (Z.shiftr n 16) 255; Z.land (Z.shiftr n 8) 255;
   Z.land n 255].

(** [framing.pack_frame] *)
Definition pack_frame (stream_id : Z) (payload : bytes) : res bytes :=
  if (stream_id <? 0) || (4294967295 <? stream_id) then Raise ValueError
  else Ok (be32 stream_id ++ payload).

(** [framing.unpack_frame] *)
Definition unpack_frame (data : bytes) : res (Z * bytes) :=
  match data with
  | a :: b :: c :: d :: payload =>
      Ok (Z.lor (Z.lor (Z.lor (Z.shiftl a 24) (Z.shiftl b 16)) (Z.shiftl c 8)) d, payload)
  | _ => Raise ValueError
  end.

(** ** Session caps *)

(** The caps of the process environment. *)
Record limits := mkLimits {
  max_sessions_per_pod : Z;
  max_streams_per_session : Z;
  max_sessions_per_user : Z;
  max_sessions_per_project : Z
}.

(** [limits._int_env]: the value of an environment variable, if any. *)
Definition int_env (raw : option string) (dflt : Z) : Z :=
  match raw with
  | None | Some "" => dflt
  | Some s => match int_of_string s with Some z => z | None => dflt end
  end.

(** [limits.SessionRegistry] *)
Record registry := mkRegistry {
  by_user : gmap string Z;
  by_project : gmap string Z;
  total : Z
}.

(** [limits.SessionRegistry.__init__] *)
Definition empty_registry : registry := mkRegistry ∅ ∅ 0.

Definition count_of (m : gmap string Z) (k : string) : Z := default 0 (m !! k).

(** [limits.SessionRegistry.try_acquire]: the reason if the session cannot start. *)
Definition try_acquire (lim : limits) (r : registry) (user_id project_id : string)
    : option string * registry :=
  if max_sessions_per_pod lim <=? total r then (Some "tunnel pod at capacity", r)
  else if max_sessions_per_user lim <=? count_of (by_user r) user_id
  then (Some "too many tunnels for user", r)
  else if max_sessions_per_project lim <=? count_of (by_project r) project_id
  then (Some "too many tunnels for project", r)
  else (None, mkRegistry (<[user_id := count_of (by_user r) user_id + 1]> (by_user r))
                (<[project_id := count_of (by_project r) project_id + 1]> (by_project r))
                (total r + 1)).

(** [limits.SessionRegistry.release:55-59] and [limits.SessionRegistry.release:60-64]:
    one counter, dropped when it reaches zero. *)
Definition drop_one (m : gmap string Z) (k : string) : gmap string Z :=
  let n := count_of m k - 1 in
  if n <=? 0 then delete k m else <[k := n]> m.

(** [limits.SessionRegistry.release] *)
Definition release (r : registry) (user_id project_id : string) : registry :=
  mkRegistry (drop_one (by_user r) user_id) (drop_one (by_project r) project_id)
    (Z.max 0 (total r - 1)).

(** ** The sessions a registry stands for

    [live] is the multiset of running sessions, as (user, project). *)
Notation sessions := (list (string * string)).

Definition user_count (live : sessions) (u : string) : Z :=
  Z.of_nat (length (List.filter (λ s, bool_decide (s.1 = u)) live)).
Definition project_count (live : sessions) (p : string) : Z :=
  Z.of_nat (length (List.filter (λ s, bool_decide (s.2 = p)) live)).

Definition represents (r : registry) (live : sessions) : Prop :=
  total r = Z.of_nat (length live) ∧
  (∀ u, count_of (by_user r) u = user_count live u) ∧
  (∀ p, count_of (by_project r) p = project_count live p).

Definition within_caps (lim : limits) (live : sessions) : Prop :=
  Z.of_nat (length live) ≤ max_sessions_per_pod lim ∧
  (∀ u, user_count live u ≤ max_sessions_per_user lim) ∧
  (∀ p, project_count live p ≤ max_sessions_per_project lim).

Definition nonneg_limits (lim : limits) : Prop :=
  0 ≤ max_sessions_per_pod lim ∧ 0 ≤ max_sessions_per_user lim ∧
  0 ≤ max_sessions_per_project lim.

(** What the pod does with its registry: start a session, or end a running one. *)
Inductive registry_step (lim : limits) : registry * sessions → registry * sessions → Prop :=
| start_session r live u p r' :
    try_acquire lim r u p = (None, r') →
    registry_step lim (r, live) (r', (u, p) :: live)
| refused_session r live u p why r' :
    try_acquire lim r u p = (Some why, r') →
    registry_step lim (r, live) (r', live)
| end_session r pre u p post :
    registry_step lim (r, pre ++ (u, p) :: post) (release r u p, pre ++ post).

(** ** Lemmas *)

Lemma shift_land_disjoint a b k : 0 ≤ k → 0 ≤ b < 2 ^ k → Z.land (Z.shiftl a k) b = 0.
Proof.
  intros Hk Hb. apply Z.bits_inj'. intros n Hn. rewrite Z.land_spec, Z.bits_0.
  destruct (decide (n < k)); [by rewrite Z.shiftl_spec_low|].
  rewrite (Z.testbit_eqb b n) by lia. rewrite (Z.div_small b (2 ^ n)), andb_comm; [done|].
  assert (2 ^ k ≤ 2 ^ n) by (apply Z.pow_le_mono_r; lia). lia.
Qed.

(** Packing a digit below a shifted number. *)
Lemma shift_or_add a b k :
  0 ≤ k → 0 ≤ b < 2 ^ k → Z.lor (Z.shiftl a k) b = a * 2 ^ k + b.
Proof.
  intros Hk Hb. pose proof (Z.add_lor_land (Z.shiftl a k) b) as H.
  rewrite shift_land_disjoint in H by done. rewrite <-Z.shiftl_mul_pow2 by done. lia.
Qed.

Lemma shiftr_byte n k : 0 ≤ k → Z.land (Z.shiftr n k) 255 = n / 2 ^ k mod 256.
Proof.
  intros Hk. rewrite Z.shiftr_div_pow2 by done. change 255 with (Z.ones 8).
  by rewrite Z.land_ones by lia.
Qed.

Lemma be32_digits n : be32 n = [n / 2 ^ 24 mod 256; n / 2 ^ 16 mod 256; n / 2 ^ 8 mod 256; n mod 256].
Proof.
  unfold be32. rewrite !shiftr_byte by lia. change 255 with (Z.ones 8).
  by rewrite Z.land_ones by lia.
Qed.

Lemma unpack_digits a b c d payload :
  is_byte a → is_byte b → is_byte c → is_byte d →
  unpack_frame (a :: b :: c :: d :: payload) =
    Ok (((a * 256 + b) * 256 + c) * 256 + d, payload).
Proof.
  unfold is_byte. intros. simpl. f_equal. f_equal.
  rewrite <-!Z.lor_assoc, (shift_or_add c d 8), (shift_or_add b _ 16), (shift_or_add a _ 24) by lia.
  lia.
Qed.

Lemma be32_value n : 0 ≤ n < 2 ^ 32 →
  ((n / 2 ^ 24 mod 256 * 256 + n / 2 ^ 16 mod 256) * 256 + n / 2 ^ 8 mod 256) * 256 + n mod 256 = n.
Proof. intros H. Z.to_euclidean_division_equations. lia. Qed.

Lemma be32_of_digits a b c d :
  is_byte a → is_byte b → is_byte c → is_byte d →
  be32 (((a * 256 + b) * 256 + c) * 256 + d) = [a; b; c; d].
Proof.
  unfold is_byte. intros. rewrite be32_digits.
  repeat f_equal; Z.to_euclidean_division_equations; lia.
Qed.

(** C35: Tunnel frames round-trip both ways: unpacking what [pack_frame] built gives back the
    stream id and the payload, and packing what [unpack_frame] read from any byte string of
    at least four bytes gives back that byte string. *)
Theorem frame_roundtrip sid payload data :
  Forall is_byte data →
  (∀ frame, pack_frame sid payload = Ok frame → unpack_frame frame = Ok (sid, payload)) ∧
  (unpack_frame data = Ok (sid, payload) → pack_frame sid payload = Ok data) ∧
  (is_Ok (unpack_frame data) ↔ (4 ≤ length data)%nat).
Proof.
  intros Hd. unfold pack_frame. split_and!.
  - intros frame. destruct (_ || _) eqn:E; [done|]. bool_lia. intros Hf.
    assert (frame = be32 sid ++ payload) as -> by congruence. rewrite be32_digits. simpl app. rewrite unpack_digits by (apply Z.mod_pos_bound; lia).
    by rewrite be32_value by lia.
  - destruct data as [|a [|b [|c [|d data]]]]; try done.
    repeat match goal with H : Forall _ (_ :: _) |- _ => apply Forall_cons in H as [? H] end.
    rewrite unpack_digits by done. intros Hu. injection Hu as <- <-.
    rewrite be32_of_digits by done. unfold is_byte in *.
    destruct (_ || _) eqn:E; [|done]. apply orb_prop in E as [E|E]; bool_lia.
  - destruct data as [|a [|b [|c [|d data]]]]; simpl; split; try lia;
      try (by intros [? ?]); intros _; try lia. by eexists.
Qed.

Lemma frame_roundtrip_witness :
  Forall is_byte [0; 0; 1; 2; 65] ∧
  (∀ frame, pack_frame 258 [65] = Ok frame → unpack_frame frame = Ok (258, [65])) ∧
  (unpack_frame [0; 0; 1; 2; 65] = Ok (258, [65]) → pack_frame 258 [65] = Ok [0; 0; 1; 2; 65]) ∧
  (is_Ok (unpack_frame [0; 0; 1; 2; 65]) ↔ (4 ≤ length [0%Z; 0%Z; 1%Z; 2%Z; 65%Z])%nat).
Proof.
  assert (H : Forall is_byte [0; 0; 1; 2; 65]) by (repeat constructor; done).
  split; [exact H|]. apply (frame_roundtrip 258 [65] [0; 0; 1; 2; 65] H).
Defined.

(** ** The registry counts the running sessions *)

Lemma count_insert m k v k' :
  count_of (<[k := v]> m) k' = if decide (k = k') then v else count_of m k'.
Proof.
  unfold count_of. case_decide; subst; [by rewrite lookup_insert_eq|by rewrite lookup_insert_ne].
Qed.

Lemma count_drop_one m k k' :
  0 ≤ count_of m k →
  count_of (drop_one m k) k' =
    if decide (k = k') then Z.max 0 (count_of m k - 1) else count_of m k'.
Proof.
  intros H. unfold drop_one. destruct (_ <=? 0) eqn:E.
  - unfold count_of at 1. case_decide; subst.
    + rewrite lookup_delete_eq. simpl. bool_lia.
    + by rewrite lookup_delete_ne.
  - rewrite count_insert. case_decide; bool_lia.
Qed.

Lemma user_count_cons s live u :
  user_count (s :: live) u = (if decide (s.1 = u) then 1 else 0) + user_count live u.
Proof. unfold user_count; simpl. case_decide; [rewrite bool_decide_eq_true_2|rewrite bool_decide_eq_false_2]; simpl; done || lia. Qed.

Lemma project_count_cons s live u :
  project_count (s :: live) u = (if decide (s.2 = u) then 1 else 0) + project_count live u.
Proof. unfold project_count; simpl. case_decide; [rewrite bool_decide_eq_true_2|rewrite bool_decide_eq_false_2]; simpl; done || lia. Qed.

Lemma filter_length_perm {A} (f : A → bool) l1 l2 :
  l1 ≡ₚ l2 → length (List.filter f l1) = length (List.filter f l2).
Proof.
  induction 1 as [|x l1 l2 _ IH|x y l|]; simpl; try done.
  - destruct (f x); simpl; by rewrite IH.
  - by destruct (f x), (f y).
  - congruence.
Qed.

Lemma sessions_perm l1 l2 : l1 ≡ₚ l2 →
  length l1 = length l2 ∧ (∀ u, user_count l1 u = user_count l2 u) ∧
  (∀ p, project_count l1 p = project_count l2 p).
Proof.
  intros H. split; [by apply Permutation_length|]. unfold user_count, project_count.
  split; intros; f_equal; by apply filter_length_perm.
Qed.

Lemma counts_nonneg live u : 0 ≤ user_count live u ∧ 0 ≤ project_count live u.
Proof. unfold user_count, project_count. lia. Qed.

(** Ending a running session leaves a registry that counts the others. *)
Lemma release_represents r u p live :
  represents r ((u, p) :: live) → represents (release r u p) live.
Proof.
  intros (Ht & Hu & Hp). simpl in Ht. unfold represents, release; simpl.
  split; [lia|]. split; intros k.
  - pose proof (Hu u) as Hk. rewrite user_count_cons in Hk. pose proof (counts_nonneg live u).
    specialize (Hu k). rewrite user_count_cons in Hu. simpl in *. rewrite decide_True in Hk by done.
    rewrite count_drop_one by lia. case_decide; subst; lia.
  - pose proof (Hp p) as Hk. rewrite project_count_cons in Hk. pose proof (counts_nonneg live p).
    specialize (Hp k). rewrite project_count_cons in Hp. simpl in *. rewrite decide_True in Hk by done.
    rewrite count_drop_one by lia. case_decide; subst; lia.
Qed.

Lemma registry_step_inv lim r live r' live' :
  registry_step lim (r, live) (r', live') →
  represents r live → within_caps lim live → represents r' live' ∧ within_caps lim live'.
Proof.
  intros Hs Hr Hc. inversion Hs; subst; unfold try_acquire in *; case_bools; simplify_eq/=.
  - destruct Hr as (Ht & Hu & Hp), Hc as (Ct & Cu & Cp). bool_lia.
    pose proof (Hu u) as Hu'. pose proof (Hp p) as Hp'.
    unfold represents, within_caps; simpl. split_and!; try lia; intros k.
    + rewrite count_insert, user_count_cons, Hu. simpl. case_decide; simplify_eq/=; [lia|by rewrite Hu].
    + rewrite count_insert, project_count_cons, Hp. simpl. case_decide; simplify_eq/=; [lia|by rewrite Hp].
    + rewrite user_count_cons. simpl. specialize (Cu k). case_decide; subst; lia.
    + rewrite project_count_cons. simpl. specialize (Cp k). case_decide; subst; lia.
  - done.
  - done.
  - done.
  - assert (Hperm : pre ++ (u, p) :: post ≡ₚ (u, p) :: (pre ++ post)) by (by rewrite Permutation_middle).
    destruct (sessions_perm _ _ Hperm) as (Hl & Hlu & Hlp). split.
    + apply release_represents. destruct Hr as (Ht & Hu & Hp). unfold represents.
      rewrite <-Hl. split_and!; [done| |]; intros; by rewrite <-?Hlu, <-?Hlp.
    + destruct Hc as (Ct & Cu & Cp). rewrite Hl in Ct. simpl in Ct.
      split_and!; [lia| |]; intros k.
      * specialize (Cu k). rewrite Hlu, user_count_cons in Cu. case_decide; lia.
      * specialize (Cp k). rewrite Hlp, project_count_cons in Cp. case_decide; lia.
Qed.

Lemma reachable_registry lim r live :
  nonneg_limits lim →
  rtc (registry_step lim) (empty_registry, []) (r, live) →
  represents r live ∧ within_caps lim live.
Proof.
  intros (H1 & H2 & H3) Hrtc.
  assert (Hinv : ∀ s s', rtc (registry_step lim) s s' →
    represents s.1 s.2 → within_caps lim s.2 → represents s'.1 s'.2 ∧ within_caps lim s'.2).
  { induction 1 as [|[r1 l1] [r2 l2] s3 Hstep _ IH]; simpl; [done|]. intros Hr Hc.
    destruct (registry_step_inv _ _ _ _ _ Hstep Hr Hc). by apply IH. }
  apply (Hinv _ _ Hrtc); [|split_and!; intros; done].
  split_and!; [done|intros; unfold count_of; simpl; by rewrite lookup_empty..].
Qed.

(** In every state reachable from an empty registry by starting, refusing and ending
    sessions in any order, the registry's three counters are exactly the numbers of running
    sessions (in the pod, per user, per project), no cap is exceeded, and a new session is
    admitted exactly when none of its three caps is reached. *)
Theorem registry_counts_sessions lim r live :
  nonneg_limits lim →
  rtc (registry_step lim) (empty_registry, []) (r, live) →
  represents r live ∧ within_caps lim live ∧
  ∀ u p, (try_acquire lim r u p).1 = None ↔
    Z.of_nat (length live) < max_sessions_per_pod lim ∧
    user_count live u < max_sessions_per_user lim ∧
    project_count live p < max_sessions_per_project lim.
Proof.
  intros Hl Hrtc. destruct (reachable_registry _ _ _ Hl Hrtc) as [Hr Hc].
  split_and!; [done|done|]. intros u p. destruct Hr as (Ht & Hu & Hp).
  unfold try_acquire. rewrite Ht, Hu, Hp. case_bools; simpl; bool_lia; (split; [done|lia]) || done.
Qed.

Definition one_session : registry := mkRegistry {["alice" := 1]} {["lab" := 1]} 1.

Lemma registry_counts_sessions_witness :
  let lim := mkLimits 100 32 20 10 in
  nonneg_limits lim ∧
  rtc (registry_step lim) (empty_registry, []) (one_session, [("alice", "lab")]) ∧
  represents one_session [("alice", "lab")] ∧ within_caps lim [("alice", "lab")] ∧
  ∀ u p, (try_acquire lim one_session u p).1 = None ↔
    Z.of_nat (length [("alice", "lab")]) < max_sessions_per_pod lim ∧
    user_count [("alice", "lab")] u < max_sessions_per_user lim ∧
    project_count [("alice", "lab")] p < max_sessions_per_project lim.
Proof.
  assert (Hl : nonneg_limits (mkLimits 100 32 20 10)) by (unfold nonneg_limits; simpl; lia).
  assert (Hr : rtc (registry_step (mkLimits 100 32 20 10)) (empty_registry, [])
                 (one_session, [("alice", "lab")])).
  { eapply rtc_l; [|apply rtc_refl]. by apply start_session. }
  split; [exact Hl|]. split; [exact Hr|].
  apply (registry_counts_sessions (mkLimits 100 32 20 10) one_session [("alice", "lab")] Hl Hr).
Defined.
