(* ===== verification/TunnelSession.v ===== *)
(** * Multiplexed tunnel sessions: [tunnel/session.py]

    One WebSocket carries many TCP streams.  The session runs a receive loop and
    one reader task per stream; they interleave at every [await].  The state is
    what the object holds plus the sockets and tasks that exist, and each event
    is what happens between two awaits of one coroutine.  Connecting a socket is
    an event that succeeds, fails or times out; its result is not modelled. *)
From stdpp Require Import prelude strings gmap.
From S2P Require Import Prelude PyStr PyVal Tunnel.

(** ** Dialling *)

(** A target: the fields of it the session reads. *)
Record target := mkTarget { tg_via : string; tg_tls_server_name : string; tg_force_insecure : bool }.

Definition per_stream_vias : list string := ["kubevirt-exec"; "troshkad"; "direct"].

(** [session.MultiplexSession._dial:57-98]: the first target that can be used.  [open_pf] is
    [open_kubevirt_portforward_handle] of the provider API: whether it returns a
    handle within the dial timeout. *)
Fixpoint dial (open_pf : target → bool) (has_provider : bool) (targets : list target)
    : res target :=
  match targets with
  | [] => Raise (RuntimeError "All dial paths failed")
  | c :: cs =>
      let usable :=
        if String.eqb (tg_via c) "kubevirt-pf" then has_provider && open_pf c
        else bool_decide (tg_via c ∈ per_stream_vias) in
      if usable then Ok c else dial open_pf has_provider cs
  end.

(** ** State *)

(** A reader task, [_sock_to_ws]. *)
Record task := mkTask { t_id : nat; t_sid : Z; t_sock : nat; t_cancelled : bool }.

(** Messages sent to the WebSocket. *)
Inductive out_msg :=
| MError (stream_id : Z) (error : string)
| MOpened (stream_id : Z)
| MClose (stream_id : Z)
| MBytes (frame : bytes).

(** [session.MultiplexSession.__init__], with the sockets and tasks of the
    session.  [ms_dialing] is the stream [_open_stream] is connecting; [ms_orphans]
    are the sockets a connection attempt opened after it had been given up,
    [ms_late] the number of such attempts still running;
    [ms_written] logs what was written to each socket. *)
Record session := mkSession {
  ms_streams : gmap Z nat;
  ms_stream_socks : gmap Z nat;
  ms_closed : bool;
  ms_dialing : option Z;
  ms_tasks : list task;
  ms_open : gset nat;
  ms_orphans : gset nat;
  ms_late : nat;
  ms_next : nat;
  ms_sent : list out_msg;
  ms_written : list (nat * bytes)
}.

Definition new_session : session := mkSession ∅ ∅ false None [] ∅ ∅ 0 0 [] [].

Definition send (m : out_msg) (s : session) : session :=
  mkSession (ms_streams s) (ms_stream_socks s) (ms_closed s) (ms_dialing s) (ms_tasks s)
    (ms_open s) (ms_orphans s) (ms_late s) (ms_next s) (ms_sent s ++ [m]) (ms_written s).

Definition set_dialing (d : option Z) (s : session) : session :=
  mkSession (ms_streams s) (ms_stream_socks s) (ms_closed s) d (ms_tasks s)
    (ms_open s) (ms_orphans s) (ms_late s) (ms_next s) (ms_sent s) (ms_written s).

Definition add_late (n : nat) (s : session) : session :=
  mkSession (ms_streams s) (ms_stream_socks s) (ms_closed s) (ms_dialing s) (ms_tasks s)
    (ms_open s) (ms_orphans s) (n + ms_late s) (ms_next s) (ms_sent s) (ms_written s).

Definition drop_task (t : nat) (s : session) : session :=
  mkSession (ms_streams s) (ms_stream_socks s) (ms_closed s) (ms_dialing s)
    (List.filter (λ x, negb (t_id x =? t)%nat) (ms_tasks s))
    (ms_open s) (ms_orphans s) (ms_late s) (ms_next s) (ms_sent s) (ms_written s).

Definition cancel_task (t : nat) (l : list task) : list task :=
  map (λ x, if (t_id x =? t)%nat then mkTask (t_id x) (t_sid x) (t_sock x) true else x) l.

(** [session.MultiplexSession._close_stream]: [current] is the task that runs it, if a reader
    task does. *)
Definition close_stream (stream_id : Z) (notify : bool) (current : option nat) (s : session)
    : session :=
  let t := ms_streams s !! stream_id in
  let sock := ms_stream_socks s !! stream_id in
  let opened := match sock with Some k => ms_open s ∖ {[ k ]} | None => ms_open s end in
  let tasks := match t with
               | Some k => if bool_decide (current = Some k) then ms_tasks s
                           else cancel_task k (ms_tasks s)
               | None => ms_tasks s
               end in
  mkSession (delete stream_id (ms_streams s)) (delete stream_id (ms_stream_socks s))
    (ms_closed s) (ms_dialing s) tasks opened (ms_orphans s) (ms_late s) (ms_next s)
    (ms_sent s ++ (if notify then [MClose stream_id] else [])) (ms_written s).

(** [session.MultiplexSession._open_stream:156-169] up to the connection. *)
Definition begin_open (max_streams : Z) (stream_id : Z) (s : session) : session :=
  if bool_decide (is_Some (ms_streams s !! stream_id))
  then send (MError stream_id "stream exists") s
  else if max_streams <=? Z.of_nat (size (ms_streams s))
  then send (MError stream_id "too many streams") s
  else set_dialing (Some stream_id) s.

(** [session.MultiplexSession._open_stream:184-187] once the socket is connected. *)
Definition finish_open (stream_id : Z) (s : session) : session :=
  let k := ms_next s in
  mkSession (<[stream_id := S k]> (ms_streams s)) (<[stream_id := k]> (ms_stream_socks s))
    (ms_closed s) None (ms_tasks s ++ [mkTask (S k) stream_id k false])
    (ms_open s ∪ {[ k ]}) (ms_orphans s) (ms_late s) (S (S k)) (ms_sent s ++ [MOpened stream_id])
    (ms_written s).

(** A connection attempt that had been given up connects after all. *)
Definition orphan_socket (s : session) : session :=
  let k := ms_next s in
  mkSession (ms_streams s) (ms_stream_socks s) (ms_closed s) (ms_dialing s) (ms_tasks s)
    (ms_open s ∪ {[ k ]}) (ms_orphans s ∪ {[ k ]}) (pred (ms_late s)) (S k) (ms_sent s) (ms_written s).

(** [session.MultiplexSession._forward_frame]: [write_ok] is whether the socket write
    succeeds. *)
Definition forward_frame (data : bytes) (write_ok : bool) (s : session) : session :=
  match unpack_frame data with
  | Raise _ => s
  | Ok (stream_id, payload) =>
      match ms_stream_socks s !! stream_id with
      | None => s
      | Some k =>
          if write_ok
          then mkSession (ms_streams s) (ms_stream_socks s) (ms_closed s) (ms_dialing s)
                 (ms_tasks s) (ms_open s) (ms_orphans s) (ms_late s) (ms_next s) (ms_sent s)
                 (ms_written s ++ [(k, payload)])
          else close_stream stream_id false None s
      end
  end.

(** [session.MultiplexSession._shutdown] *)
Definition shutdown (s : session) : session :=
  let s := foldl (λ s sid, close_stream sid false None s) s (map fst (map_to_list (ms_streams s))) in
  mkSession (ms_streams s) (ms_stream_socks s) true None (ms_tasks s)
    (ms_open s) (ms_orphans s) (ms_late s) (ms_next s) (ms_sent s) (ms_written s).

(** [session.MultiplexSession._handle_control]: [msg] is the decoded text, or [None] when it
    is not JSON.  A malformed message raises out of the loop. *)
Definition handle_control (max_streams : Z) (msg : option val) (s : session) : res session :=
  match msg with
  | None => Ok s
  | Some msg =>
      typ <- get msg "type" VNone;;
      sid <- get msg "stream_id" VNone;;
      stream_id <- py_int (v_or sid (VInt 0));;
      Ok (if eq_str typ "open" then begin_open max_streams stream_id s
          else if eq_str typ "close" then close_stream stream_id false None s
          else s)
  end.

(** ** Events *)

Inductive event :=
| RecvText (msg : option val)          (** a control message *)
| RecvBytes (data : bytes) (write_ok : bool)
| RecvTimeout                          (** nothing received for the idle time *)
| Disconnect                           (** disconnect, receive error or cancellation *)
| DialOk                               (** the socket connected in time *)
| DialFailed (error : string) (late : bool) (** it failed; [late]: it timed out and may still connect *)
| LateSocket                           (** an abandoned attempt connects *)
| TaskRead (t : nat) (data : bytes)    (** a reader task read data *)
| TaskEnd (t : nat)                    (** a reader task ends *)
| TaskSkip (t : nat).                  (** a reader cancelled before its first step never runs *)

(** The receive loop waits for a message: it is neither closed nor connecting. *)
Definition receiving (s : session) : bool :=
  negb (ms_closed s) && match ms_dialing s with None => true | Some _ => false end.

Definition find_task (t : nat) (s : session) : option task :=
  List.find (λ x, (t_id x =? t)%nat) (ms_tasks s).

(** [session.MultiplexSession._sock_to_ws:225-226] the end of a reader task. *)
Definition end_task (x : task) (s : session) : session :=
  drop_task (t_id x) (close_stream (t_sid x) true (Some (t_id x)) s).

(** [session.MultiplexSession._loop] and [session.MultiplexSession._sock_to_ws]: one event;
    [None] when the event cannot happen in the state.  A cancelled reader runs its
    last step on the next turn of the event loop, before the result of a connection
    thread is delivered, so [DialOk] waits for the cancelled readers. *)
Definition step (max_streams : Z) (s : session) (ev : event) : option session :=
  match ev with
  | RecvText msg =>
      if receiving s
      then Some (match handle_control max_streams msg s with Ok s' => s' | Raise _ => shutdown s end)
      else None
  | RecvBytes data write_ok =>
      if receiving s then Some (match data with [] => s | _ => forward_frame data write_ok s end)
      else None
  | RecvTimeout =>
      if receiving s
      then Some (if bool_decide (ms_streams s = ∅) then shutdown s else s)
      else None
  | Disconnect =>
      if ms_closed s then None
      else Some (shutdown (add_late (match ms_dialing s with Some _ => 1 | None => 0 end)%nat s))
  | DialOk =>
      if existsb t_cancelled (ms_tasks s) then None
      else sid ← ms_dialing s; Some (finish_open sid s)
  | DialFailed error late =>
      sid ← ms_dialing s;
      Some (send (MError sid (str_take 200 error))
              (add_late (if late then 1 else 0)%nat (set_dialing None s)))
  | LateSocket => match ms_late s with O => None | S _ => Some (orphan_socket s) end
  | TaskRead t data =>
      x ← find_task t s;
      if t_cancelled x then None
      else match data with
           | [] => None
           | _ => Some (match pack_frame (t_sid x) data with
                        | Ok frame => send (MBytes frame) s
                        | Raise _ => end_task x s
                        end)
           end
  | TaskEnd t => x ← find_task t s; Some (end_task x s)
  | TaskSkip t => x ← find_task t s; if t_cancelled x then Some (drop_task t s) else None
  end.

Fixpoint run (max_streams : Z) (s : session) (evs : list event) : option session :=
  match evs with
  | [] => Some s
  | ev :: evs' => s' ← step max_streams s ev; run max_streams s' evs'
  end.

(** ** The invariant *)

(** A reader task that has not been cancelled reads the socket of its stream; a
    cancelled one belongs to a stream that is gone. *)
Definition task_ok (streams socks : gmap Z nat) (x : task) : Prop :=
  if t_cancelled x then streams !! t_sid x = None
  else streams !! t_sid x = Some (t_id x) ∧ socks !! t_sid x = Some (t_sock x).

Definition map_inj (m : gmap Z nat) : Prop :=
  ∀ i j k, m !! i = Some k → m !! j = Some k → i = j.

(** [skip] is a task that is about to disappear. *)
Record inv (max_streams : Z) (skip : option nat) (s : session) : Prop := {
  inv_dom : ∀ sid, is_Some (ms_streams s !! sid) ↔ is_Some (ms_stream_socks s !! sid);
  inv_cap : Z.of_nat (size (ms_streams s)) ≤ max_streams;
  inv_dialing : ∀ sid, ms_dialing s = Some sid →
    ms_streams s !! sid = None ∧ Z.of_nat (size (ms_streams s)) < max_streams ∧ ms_closed s = false;
  inv_open : ∀ k, k ∈ ms_open s ↔ (∃ sid, ms_stream_socks s !! sid = Some k) ∨ k ∈ ms_orphans s;
  inv_socks_inj : map_inj (ms_stream_socks s);
  inv_streams_inj : map_inj (ms_streams s);
  inv_orphans : ∀ sid k, ms_stream_socks s !! sid = Some k → k ∉ ms_orphans s;
  inv_fresh_socks : ∀ sid k, ms_stream_socks s !! sid = Some k → (k < ms_next s)%nat;
  inv_fresh_streams : ∀ sid k, ms_streams s !! sid = Some k → (k < ms_next s)%nat;
  inv_fresh_orphans : ∀ k, k ∈ ms_orphans s → (k < ms_next s)%nat;
  inv_tasks : ∀ x, x ∈ ms_tasks s → skip = Some (t_id x) ∨ task_ok (ms_streams s) (ms_stream_socks s) x;
  inv_closed : ms_closed s = true → ms_streams s = ∅
}.

Lemma elem_of_cancel k l x :
  x ∈ cancel_task k l →
  (x ∈ l ∧ t_id x ≠ k) ∨ (t_cancelled x = true ∧ t_id x = k ∧ ∃ y, y ∈ l ∧ t_sid y = t_sid x ∧ t_id y = k).
Proof.
  unfold cancel_task. intros (y & -> & Hy)%list_elem_of_fmap.
  destruct (t_id y =? k)%nat eqn:E; [right|left].
  - apply Nat.eqb_eq in E. simpl. eauto 6.
  - by apply Nat.eqb_neq in E.
Qed.

Lemma delete_some (m : gmap Z nat) i j k : delete i m !! j = Some k → i ≠ j ∧ m !! j = Some k.
Proof. intros H. by apply lookup_delete_Some in H. Qed.

(** Closing another stream than a task's own leaves the task as it was. *)
Lemma task_ok_delete M s sid x :
  inv M None s → x ∈ ms_tasks s → ms_streams s !! sid ≠ Some (t_id x) →
  task_ok (delete sid (ms_streams s)) (delete sid (ms_stream_socks s)) x.
Proof.
  intros Hi Hx Hne. destruct (inv_tasks _ _ _ Hi x Hx) as [?|Hok]; [done|]. unfold task_ok in *.
  destruct (t_cancelled x); [apply lookup_delete_None; by right|].
  assert (sid ≠ t_sid x) by (intros ->; naive_solver congruence).
  by rewrite !lookup_delete_ne.
Qed.

(** Closing a stream keeps the invariant, the task that runs it apart. *)
Lemma close_stream_inv M sid notify cur s :
  inv M None s → inv M cur (close_stream sid notify cur s).
Proof.
  intros Hinv. pose proof Hinv as [Hdom Hcap Hdial Hopen Hsi Hti Horph Hfs Hft Hfo Htasks Hcl].
  assert (Hsize : (size (delete sid (ms_streams s)) ≤ size (ms_streams s))%nat).
  { destruct (ms_streams s !! sid) eqn:E; [rewrite map_size_delete_Some by eauto; lia|].
    by rewrite delete_id by done. }
  constructor; simpl.
  - intros j. destruct (decide (sid = j)) as [->|Hne];
      [rewrite !lookup_delete_eq|rewrite !lookup_delete_ne by done]; auto.
  - lia.
  - intros j Hj. destruct (Hdial j Hj) as (? & ? & ?). split_and!; [|lia|done].
    destruct (decide (sid = j)) as [->|]; [by rewrite lookup_delete_eq|by rewrite lookup_delete_ne].
  - intros k. destruct (ms_stream_socks s !! sid) as [q|] eqn:Eq.
    + rewrite elem_of_difference, elem_of_singleton, Hopen. split.
      * intros [[(j & Hj)|Ho] Hne]; [left|by right]. exists j.
        rewrite lookup_delete_ne; [done|]. intros ->. congruence.
      * intros [(j & [Hne Hj]%delete_some)|Ho].
        { split; [eauto|]. intros ->. apply Hne. by eapply Hsi. }
        { split; [by right|]. intros ->. by eapply Horph. }
    + rewrite Hopen. rewrite delete_id by done. done.
  - intros i j k [_ Hi]%delete_some [_ Hj]%delete_some. by eapply Hsi.
  - intros i j k [_ Hi]%delete_some [_ Hj]%delete_some. by eapply Hti.
  - intros j k [_ Hj]%delete_some. by eapply Horph.
  - intros j k [_ Hj]%delete_some. by eapply Hfs.
  - intros j k [_ Hj]%delete_some. by eapply Hft.
  - done.
  - intros x Hx. destruct (ms_streams s !! sid) as [k|] eqn:Ek.
    2: { right. eapply task_ok_delete; [done..|congruence]. }
    assert (Hother : ∀ y, y ∈ ms_tasks s → t_id y ≠ k →
      task_ok (delete sid (ms_streams s)) (delete sid (ms_stream_socks s)) y).
    { intros y Hy Hne. eapply task_ok_delete; [done..|congruence]. }
    case_bool_decide as Hc.
    + destruct (decide (t_id x = k)) as [->|Hne]; [by left|right; by apply Hother].
    + right. apply elem_of_cancel in Hx as [[Hx Hne]|(Hcx & Hk & y & Hy & Hsid & Hyk)];
        [by apply Hother|].
      unfold task_ok. rewrite Hcx. destruct (Htasks y Hy) as [?|Hok]; [done|].
      unfold task_ok in Hok. rewrite <-Hsid. destruct (t_cancelled y).
      * apply lookup_delete_None. by right.
      * destruct Hok as [Hok _]. rewrite Hyk in Hok. assert (t_sid y = sid) as -> by (by eapply Hti).
        by rewrite lookup_delete_eq.
  - intros Hc. rewrite (Hcl Hc). by rewrite delete_empty.
Qed.

Lemma drop_task_inv M t s : inv M (Some t) s → inv M None (drop_task t s).
Proof.
  intros [Hdom Hcap Hdial Hopen Hsi Hti Horph Hfs Hft Hfo Htasks Hcl].
  constructor; simpl; try done.
  intros x Hx. apply list_elem_of_In, filter_In in Hx as [Hx Hne].
  apply list_elem_of_In in Hx. apply negb_true_iff, Nat.eqb_neq in Hne.
  destruct (Htasks x Hx) as [[= ?]|?]; [by subst|by right].
Qed.

Lemma weaken_skip_inv M skip s : inv M None s → inv M skip s.
Proof. intros []. constructor; try done. intros x Hx. right. by destruct (inv_tasks0 x Hx). Qed.

Lemma send_inv M skip m s : inv M skip s → inv M skip (send m s).
Proof. intros []. by constructor. Qed.

Lemma add_late_inv M skip n s : inv M skip s → inv M skip (add_late n s).
Proof. intros []. by constructor. Qed.

Lemma stop_dialing_inv M skip s : inv M skip s → inv M skip (set_dialing None s).
Proof. intros []. by constructor. Qed.

Lemma begin_open_inv M sid s :
  inv M None s → ms_closed s = false → inv M None (begin_open M sid s).
Proof.
  intros Hi Hc. unfold begin_open. case_bool_decide as Hs; [by apply send_inv|].
  destruct (_ <=? _) eqn:E; [by apply send_inv|]. bool_lia.
  destruct Hi. constructor; try done. simpl. intros j [= <-].
  split_and!; [|lia|done]. by apply eq_None_not_Some.
Qed.

(** A fresh number keeps a map injective. *)
Lemma insert_fresh_inj (m : gmap Z nat) sid n :
  (∀ i k, m !! i = Some k → (k < n)%nat) → map_inj m → ∀ k, (n ≤ k)%nat → map_inj (<[sid := k]> m).
Proof.
  intros Hf Hi k Hk i j q [[<- <-]|[Hne Hiq]]%lookup_insert_Some [[<- Hj]|[Hnj Hjq]]%lookup_insert_Some;
    try done; subst.
  - apply Hf in Hjq. lia.
  - apply Hf in Hiq. lia.
  - by eapply Hi.
Qed.

Lemma finish_open_inv M sid s :
  inv M None s → ms_dialing s = Some sid → existsb t_cancelled (ms_tasks s) = false →
  inv M None (finish_open sid s).
Proof.
  intros [Hdom Hcap Hdial Hopen Hsi Hti Horph Hfs Hft Hfo Htasks Hcl] Hd Hnc.
  destruct (Hdial sid Hd) as (Hnone & Hlt & Hcf).
  assert (Hsnone : ms_stream_socks s !! sid = None).
  { apply eq_None_not_Some. rewrite <-Hdom, Hnone. by intros [? ?]. }
  constructor; simpl.
  - intros j. destruct (decide (sid = j)) as [->|]; [by rewrite !lookup_insert_eq|].
    by rewrite !lookup_insert_ne.
  - rewrite map_size_insert_None by done. lia.
  - done.
  - intros k. rewrite elem_of_union, elem_of_singleton, Hopen. split.
    + intros [[(j & Hj)|Ho]| ->].
      * left. exists j. rewrite lookup_insert_ne; [done|]. intros ->. congruence.
      * by right.
      * left. exists sid. by rewrite lookup_insert_eq.
    + intros [(j & Hj)|Ho]; [|by left; right].
      apply lookup_insert_Some in Hj as [[_ <-]|[_ Hj]]; [by right|left; left; eauto].
  - by eapply insert_fresh_inj.
  - by eapply insert_fresh_inj; [| |apply Nat.le_succ_diag_r].
  - intros j k [[<- <-]|[_ Hj]]%lookup_insert_Some; [|by eapply Horph].
    intros Ho%Hfo. lia.
  - intros j k [[<- <-]|[_ Hj]]%lookup_insert_Some; [lia|]. apply Hfs in Hj. lia.
  - intros j k [[<- <-]|[_ Hj]]%lookup_insert_Some; [lia|]. apply Hft in Hj. lia.
  - intros k Ho%Hfo. lia.
  - intros x [Hx|Hx%list_elem_of_singleton]%elem_of_app; right; unfold task_ok.
    + destruct (Htasks x Hx) as [?|Hok]; [done|]. unfold task_ok in Hok.
      destruct (t_cancelled x) eqn:Ec.
      * exfalso. assert (existsb t_cancelled (ms_tasks s) = true); [|congruence].
        apply existsb_exists. exists x. split; [by apply list_elem_of_In|done].
      * assert (sid ≠ t_sid x) by (intros ->; naive_solver congruence).
        by rewrite !lookup_insert_ne.
    + subst x. simpl. by rewrite !lookup_insert_eq.
  - congruence.
Qed.

Lemma orphan_socket_inv M s : inv M None s → inv M None (orphan_socket s).
Proof.
  intros [Hdom Hcap Hdial Hopen Hsi Hti Horph Hfs Hft Hfo Htasks Hcl].
  constructor; simpl; try done.
  - intros k. rewrite !elem_of_union, elem_of_singleton, Hopen. tauto.
  - intros j k Hj [Ho|Ho%elem_of_singleton]%elem_of_union; [by eapply Horph|].
    apply Hfs in Hj. lia.
  - intros j k Hj%Hfs. lia.
  - intros j k Hj%Hft. lia.
  - intros k [Ho%Hfo|Ho%elem_of_singleton]%elem_of_union; lia.
Qed.

Lemma forward_frame_inv M data ok s : inv M None s → inv M None (forward_frame data ok s).
Proof.
  intros Hi. unfold forward_frame. destruct (unpack_frame data) as [[sid payload]|]; [|done].
  destruct (ms_stream_socks s !! sid); [|done].
  destruct ok; [destruct Hi; by constructor|by apply close_stream_inv].
Qed.

Definition close_all (sids : list Z) (s : session) : session :=
  foldl (λ s sid, close_stream sid false None s) s sids.

Lemma close_all_inv M sids s : inv M None s → inv M None (close_all sids s).
Proof.
  revert s; induction sids as [|sid sids IH]; intros s Hi; simpl; [done|].
  by apply IH, close_stream_inv.
Qed.

Lemma close_all_streams sids s j :
  (j ∈ sids → ms_streams (close_all sids s) !! j = None) ∧
  (ms_streams s !! j = None → ms_streams (close_all sids s) !! j = None).
Proof.
  revert s; induction sids as [|sid sids IH]; intros s; simpl; [split; [by intros ?%elem_of_nil|done]|].
  destruct (IH (close_stream sid false None s)) as [IH1 IH2]. split.
  - intros [->|?]%elem_of_cons; [apply IH2; simpl; by rewrite lookup_delete_eq|auto].
  - intros Hn. apply IH2. simpl. apply lookup_delete_None. by right.
Qed.

Lemma shutdown_inv M s : inv M None s → inv M None (shutdown s).
Proof.
  intros Hi. unfold shutdown. fold (close_all (map fst (map_to_list (ms_streams s))) s).
  assert (He : ms_streams (close_all (map fst (map_to_list (ms_streams s))) s) = ∅).
  { apply map_eq. intros j. rewrite lookup_empty.
    destruct (close_all_streams (map fst (map_to_list (ms_streams s))) s j) as [H1 H2].
    destruct (ms_streams s !! j) as [k|] eqn:E; [apply H1|by apply H2].
    apply list_elem_of_fmap. exists (j, k). split; [done|]. by apply elem_of_map_to_list. }
  destruct (close_all_inv M (map fst (map_to_list (ms_streams s))) s Hi).
  by constructor.
Qed.

Lemma end_task_inv M x s : inv M None s → inv M None (end_task x s).
Proof. intros Hi. by apply drop_task_inv, close_stream_inv. Qed.

Lemma step_inv M s ev s' : inv M None s → step M s ev = Some s' → inv M None s'.
Proof.
  intros Hi. destruct ev as [msg|data ok| | | |err late| |t data|t|t]; simpl.
  - destruct (receiving s) eqn:Er; [|done]. intros [= <-].
    destruct (handle_control M msg s) as [s1|] eqn:E; [|by apply shutdown_inv].
    unfold handle_control in E. destruct msg as [msg|]; [|congruence].
    destruct (get msg "type" VNone); simpl in E; [|done].
    destruct (get msg "stream_id" VNone); simpl in E; [|done].
    destruct (py_int _); simpl in E; [|done]. injection E as <-.
    unfold receiving in Er. apply andb_prop in Er as [Er%negb_true_iff _].
    case_bools; auto using begin_open_inv, close_stream_inv.
  - destruct (receiving s); [|done]. intros [= <-]. destruct data; auto using forward_frame_inv.
  - destruct (receiving s); [|done]. intros [= <-]. case_bool_decide; auto using shutdown_inv.
  - destruct (ms_closed s); [done|]. intros [= <-]. by apply shutdown_inv, add_late_inv.
  - destruct (existsb _ _) eqn:E; [done|]. destruct (ms_dialing s) eqn:Ed; [|done].
    simpl. intros [= <-]. by apply finish_open_inv.
  - destruct (ms_dialing s) eqn:Ed; [|done]. simpl. intros [= <-].
    by apply send_inv, add_late_inv, stop_dialing_inv.
  - destruct (ms_late s); [done|]. intros [= <-]. by apply orphan_socket_inv.
  - destruct (find_task t s); [|done]. simpl. destruct (t_cancelled _); [done|].
    destruct data; [done|]. intros [= <-].
    destruct (pack_frame _ _); auto using send_inv, end_task_inv.
  - destruct (find_task t s); [|done]. simpl. intros [= <-]. by apply end_task_inv.
  - destruct (find_task t s); [|done]. simpl. destruct (t_cancelled _); [|done]. intros [= <-].
    by apply drop_task_inv, weaken_skip_inv.
Qed.

Lemma new_session_inv M : 0 ≤ M → inv M None new_session.
Proof.
  intros HM. constructor; simpl; try done; try (intros; set_solver).
Qed.

Lemma run_inv M evs s s' : inv M None s → run M s evs = Some s' → inv M None s'.
Proof.
  revert s; induction evs as [|ev evs IH]; intros s Hi; simpl; [by intros [= <-]|].
  intros (s1 & Hs & Hr)%bind_Some. eapply IH; [|exact Hr]. by eapply step_inv.
Qed.

(** C34: Whatever messages, connection results, reads and task ends interleave, a tunnel
    session never has more streams than its cap, has exactly one socket per stream, keeps
    open exactly the sockets of its streams and those of abandoned connection attempts, and
    once closed has no stream left, so nothing else leaks. *)
Theorem session_sockets_accounted max_streams evs s :
  0 ≤ max_streams → run max_streams new_session evs = Some s →
  Z.of_nat (size (ms_streams s)) ≤ max_streams ∧
  (∀ sid, is_Some (ms_streams s !! sid) ↔ is_Some (ms_stream_socks s !! sid)) ∧
  (∀ k, k ∈ ms_open s ↔ (∃ sid, ms_stream_socks s !! sid = Some k) ∨ k ∈ ms_orphans s) ∧
  (ms_closed s = true → ms_streams s = ∅ ∧ ms_open s = ms_orphans s).
Proof.
  intros HM Hr. destruct (run_inv _ _ _ _ (new_session_inv _ HM) Hr).
  split_and!; try done. intros Hc. specialize (inv_closed0 Hc). split; [done|].
  apply leibniz_equiv. intros k. rewrite inv_open0. split; [|by right].
  intros [(sid & Hk)|?]; [|done]. exfalso.
  assert (is_Some (ms_streams s !! sid)) as [? Hs] by (apply inv_dom0; eauto).
  by rewrite inv_closed0, lookup_empty in Hs.
Qed.

Definition open_msg (sid : Z) : event :=
  RecvText (Some (VDict [("type", VStr "open"); ("stream_id", VInt sid)])).
Definition close_msg (sid : Z) : event :=
  RecvText (Some (VDict [("type", VStr "close"); ("stream_id", VInt sid)])).

(** Two streams, a late connection attempt, a read, a close from the peer and a shutdown. *)
Definition sample_events : list event :=
  [open_msg 1; DialOk; open_msg 2; DialFailed "timed out" true; open_msg 2; DialOk;
   TaskRead 1 [65]; LateSocket; RecvBytes [0; 0; 0; 2; 66] true; close_msg 1; TaskEnd 1;
   Disconnect].

Definition session_after (evs : list event) : session :=
  default new_session (run 32 new_session evs).

Lemma session_sockets_accounted_witness :
  let s := session_after sample_events in
  0 ≤ 32 ∧ run 32 new_session sample_events = Some s ∧
  length (ms_written s) = 1%nat ∧ size (ms_orphans s) = 1%nat ∧
  Z.of_nat (size (ms_streams s)) ≤ 32 ∧
  (∀ sid, is_Some (ms_streams s !! sid) ↔ is_Some (ms_stream_socks s !! sid)) ∧
  (∀ k, k ∈ ms_open s ↔ (∃ sid, ms_stream_socks s !! sid = Some k) ∨ k ∈ ms_orphans s) ∧
  (ms_closed s = true → ms_streams s = ∅ ∧ ms_open s = ms_orphans s).
Proof.
  assert (H : run 32 new_session sample_events = Some (session_after sample_events))
    by (vm_compute; reflexivity).
  split; [lia|]. split; [exact H|]. split; [vm_compute; reflexivity|].
  split; [vm_compute; reflexivity|].
  apply (session_sockets_accounted 32 sample_events); [lia|exact H].
Defined.

(** A reader task that ends closes the socket it was reading and no other: a stream id
    reopened after a close is never torn down by the reader of the previous stream. *)
Theorem reader_closes_own_socket max_streams evs s t x s' sid k :
  0 ≤ max_streams → run max_streams new_session evs = Some s →
  find_task t s = Some x → step max_streams s (TaskEnd t) = Some s' →
  ms_stream_socks s !! sid = Some k → ms_stream_socks s' !! sid = None →
  sid = t_sid x ∧ k = t_sock x ∧ t_cancelled x = false.
Proof.
  intros HM Hr Hf Hstep Hk Hk'. pose proof (run_inv _ _ _ _ (new_session_inv _ HM) Hr) as Hi.
  simpl in Hstep. rewrite Hf in Hstep. simpl in Hstep. injection Hstep as <-. simpl in Hk'.
  apply lookup_delete_None in Hk' as [<-|?]; [|congruence].
  apply List.find_some in Hf as [Hx%list_elem_of_In _].
  destruct (inv_tasks _ _ _ Hi x Hx) as [?|Hok]; [done|]. unfold task_ok in Hok.
  destruct (t_cancelled x); [|naive_solver congruence].
  assert (is_Some (ms_streams s !! t_sid x)) as [? ?] by (apply (inv_dom _ _ _ Hi); eauto).
  congruence.
Qed.

(** Stream 1 is closed and opened again; then the first reader ends. *)
Definition reopen_events : list event :=
  [open_msg 1; DialOk; close_msg 1; open_msg 1; TaskEnd 1; DialOk].

Lemma reader_closes_own_socket_witness :
  let s := session_after reopen_events in
  let s' := default new_session (step 32 s (TaskEnd 3)) in
  run 32 new_session (reopen_events) = Some s ∧ find_task 3 s = Some (mkTask 3 1 2 false) ∧
  ms_stream_socks s !! 1 = Some 2%nat ∧ ms_stream_socks s' !! 1 = None ∧
  (1 = t_sid (mkTask 3 1 2 false) ∧ 2%nat = t_sock (mkTask 3 1 2 false) ∧
   t_cancelled (mkTask 3 1 2 false) = false).
Proof.
  split; [vm_compute; reflexivity|]. split; [vm_compute; reflexivity|].
  split; [vm_compute; reflexivity|]. split; [vm_compute; reflexivity|].
  apply (reader_closes_own_socket 32 reopen_events (session_after reopen_events) 3
           (mkTask 3 1 2 false) (default new_session (step 32 (session_after reopen_events) (TaskEnd 3))) 1 2).
  - lia.
  - vm_compute; reflexivity.
  - vm_compute; reflexivity.
  - vm_compute; reflexivity.
  - vm_compute; reflexivity.
  - vm_compute; reflexivity.
Defined.
