(* ===== verification/RedisSync.v ===== *)
(** * Distributed lock and semaphore: [core/redis.py]

    Several workers run [RedisLock] and [RedisSemaphore] against one Redis
    server.  Each Redis command (or pipeline) is one atomic step and the steps of
    the workers interleave freely; time advances between steps.  An acquisition
    attempt is named by its token, a fresh uuid.  The semaphore's path through
    Redis is modelled; its in-process fallback is [threading.Semaphore].  The clock is
    read at the instant of the command that uses the reading. *)
From stdpp Require Import prelude gmap.
From S2P Require Import Prelude.

(** ** The semaphore *)

(** Where an attempt is in [RedisSemaphore.acquire]. *)
Inductive sem_pc :=
| Trying                (** at the head of the loop *)
| Counted (count : Z)   (** the pipeline returned the cardinality *)
| Added                 (** its token was added *)
| Crowded               (** the second count was above the limit *)
| Held                  (** [acquire] returned true *)
| Failed.               (** it timed out, or released *)

#[export] Instance sem_pc_eq_dec : EqDecision sem_pc.
Proof. solve_decision. Defined.

Record attempt := mkAttempt { at_pc : sem_pc; at_now : Z; at_deadline : Z; at_score : Z }.

Definition set_pc (pc : sem_pc) (a : attempt) : attempt :=
  mkAttempt pc (at_now a) (at_deadline a) (at_score a).

(** [redis.RedisSemaphore.__init__]: the sorted set of the semaphore (token to
    score), the attempts, and the clock. *)
Record sem := mkSem { sem_zset : gmap nat Z; sem_attempts : gmap nat attempt; sem_clock : Z }.

(** [zremrangebyscore(name, 0, cutoff)]. *)
Definition zremrangebyscore (cutoff : Z) (z : gmap nat Z) : gmap nat Z :=
  base.filter (λ p, ¬ (0 ≤ p.2 ≤ cutoff)) z.

Definition set_attempt (tok : nat) (a : attempt) (z : gmap nat Z) (s : sem) : sem :=
  mkSem z (<[tok := a]> (sem_attempts s)) (sem_clock s).

(** The steps of an attempt; [SemCount] is [count()] of any worker. *)
Inductive sem_event :=
| SemStart (tok : nat) (timeout : Z)
| SemStep (tok : nat)
| SemRelease (tok : nat)
| SemCount
| SemTick (d : Z).

(** [redis.RedisSemaphore.acquire:705-725]: the next Redis command of an attempt. *)
Definition sem_advance (limit ttl : Z) (tok : nat) (a : attempt) (s : sem) : option sem :=
  match at_pc a with
  | Trying =>
      if sem_clock s <? at_deadline a then
        let z := zremrangebyscore (at_now a - ttl) (sem_zset s) in
        Some (set_attempt tok (set_pc (Counted (Z.of_nat (size z))) a) z s)
      else Some (set_attempt tok (set_pc Failed a) (sem_zset s) s)
  | Counted n =>
      if n <? limit then
        match sem_zset s !! tok with
        | Some _ => Some (set_attempt tok (set_pc Trying a) (sem_zset s) s)
        | None =>
            Some (set_attempt tok (mkAttempt Added (at_now a) (at_deadline a) (sem_clock s))
                    (<[tok := sem_clock s]> (sem_zset s)) s)
        end
      else Some (set_attempt tok (set_pc Trying a) (sem_zset s) s)
  | Added =>
      if Z.of_nat (size (sem_zset s)) <=? limit
      then Some (set_attempt tok (set_pc Held a) (sem_zset s) s)
      else Some (set_attempt tok (set_pc Crowded a) (sem_zset s) s)
  | Crowded => Some (set_attempt tok (set_pc Trying a) (delete tok (sem_zset s)) s)
  | Held | Failed => None
  end.

(** [redis.RedisSemaphore]: one event of one worker. *)
Definition sem_step (limit ttl : Z) (s : sem) (ev : sem_event) : option sem :=
  match ev with
  | SemStart tok timeout =>
      match sem_attempts s !! tok with
      | Some _ => None
      | None => Some (set_attempt tok
                  (mkAttempt Trying (sem_clock s) (sem_clock s + timeout) 0) (sem_zset s) s)
      end
  | SemStep tok => a ← sem_attempts s !! tok; sem_advance limit ttl tok a s
  | SemRelease tok =>
      a ← sem_attempts s !! tok;
      if decide (at_pc a = Held)
      then Some (set_attempt tok (set_pc Failed a) (delete tok (sem_zset s)) s)
      else None
  | SemCount =>
      Some (mkSem (zremrangebyscore (sem_clock s - ttl) (sem_zset s)) (sem_attempts s) (sem_clock s))
  | SemTick d =>
      if 0 <=? d then Some (mkSem (sem_zset s) (sem_attempts s) (sem_clock s + d)) else None
  end.

Fixpoint sem_run (limit ttl : Z) (s : sem) (evs : list sem_event) : option sem :=
  match evs with
  | [] => Some s
  | ev :: evs' => s' ← sem_step limit ttl s ev; sem_run limit ttl s' evs'
  end.

Definition sem_init (clock : Z) : sem := mkSem ∅ ∅ clock.

(** The permits in use: held, and younger than the time to live. *)
Definition in_use (ttl : Z) (s : sem) : gmap nat attempt :=
  base.filter (λ p, at_pc p.2 = Held ∧ sem_clock s < at_score p.2 + ttl) (sem_attempts s).

(** ** The lock *)

(** The lock's key: the owner's token and when it expires.  [lk_owners] are the
    attempts whose [acquire] returned true and that have not released, with the
    time they acquired. *)
Record lock := mkLock { lk_key : option (nat * Z); lk_owners : gmap nat Z; lk_clock : Z }.

Inductive lock_event :=
| LockSet (tok : nat)       (** [SET name token NX EX timeout] *)
| LockRelease (tok : nat)   (** the compare-and-delete script *)
| LockForce                 (** [_release_stale_lock] *)
| LockTick (d : Z).

(** The value of the key unless it has expired. *)
Definition lk_current (l : lock) : option (nat * Z) :=
  match lk_key l with
  | Some (tok, expiry) => if lk_clock l <? expiry then Some (tok, expiry) else None
  | None => None
  end.

(** [redis.RedisLock.acquire:516-524]: one [SET NX EX]; the poll loop repeats it.
    The boolean is what the command returns. *)
Definition lock_set (timeout : Z) (tok : nat) (l : lock) : bool * lock :=
  match lk_current l with
  | Some _ => (false, l)
  | None => (true, mkLock (Some (tok, lk_clock l + timeout))
                     (<[tok := lk_clock l]> (lk_owners l)) (lk_clock l))
  end.

(** [redis.RedisLock.release] *)
Definition lock_release (tok : nat) (l : lock) : lock :=
  mkLock (match lk_current l with
          | Some (owner, _) => if decide (owner = tok) then None else lk_key l
          | None => lk_key l
          end) (delete tok (lk_owners l)) (lk_clock l).

(** [redis._release_stale_lock] *)
Definition lock_force (l : lock) : lock := mkLock None (lk_owners l) (lk_clock l).

Definition lock_step (timeout : Z) (l : lock) (ev : lock_event) : option lock :=
  match ev with
  | LockSet tok => Some (lock_set timeout tok l).2
  | LockRelease tok => Some (lock_release tok l)
  | LockForce => Some (lock_force l)
  | LockTick d => if 0 <=? d then Some (mkLock (lk_key l) (lk_owners l) (lk_clock l + d)) else None
  end.

Fixpoint lock_run (timeout : Z) (l : lock) (evs : list lock_event) : option lock :=
  match evs with
  | [] => Some l
  | ev :: evs' => l' ← lock_step timeout l ev; lock_run timeout l' evs'
  end.

Definition lock_init (clock : Z) : lock := mkLock None ∅ clock.

(** [tok] acquired the lock less than [timeout] ago and has not released it. *)
Definition owns (timeout : Z) (l : lock) (tok : nat) : Prop :=
  ∃ t, lk_owners l !! tok = Some t ∧ lk_clock l < t + timeout.

(** ** The semaphore's invariant *)

Definition has_token (pc : sem_pc) : Prop := pc = Added ∨ pc = Crowded ∨ pc = Held.

(** The permits in use that the sorted set still holds. *)
Definition counted_permits (s : sem) : gmap nat attempt :=
  base.filter (λ p, at_pc p.2 = Held ∧ is_Some (sem_zset s !! p.1)) (sem_attempts s).

Record sem_inv (limit ttl : Z) (s : sem) : Prop := {
  si_cap : Z.of_nat (size (counted_permits s)) ≤ Z.max 0 limit;
  si_present : ∀ tok a, sem_attempts s !! tok = Some a → has_token (at_pc a) →
    sem_clock s < at_score a + ttl → is_Some (sem_zset s !! tok);
  si_score : ∀ tok a z, sem_attempts s !! tok = Some a → sem_zset s !! tok = Some z →
    has_token (at_pc a) ∧ z = at_score a;
  si_known : ∀ tok z, sem_zset s !! tok = Some z → is_Some (sem_attempts s !! tok);
  si_now : ∀ tok a, sem_attempts s !! tok = Some a → at_now a ≤ sem_clock s
}.

Lemma zrem_lookup c z tok v :
  zremrangebyscore c z !! tok = Some v ↔ z !! tok = Some v ∧ ¬ (0 ≤ v ≤ c).
Proof. unfold zremrangebyscore. by rewrite map_lookup_filter_Some. Qed.

Lemma size_filter_mono {A} (P Q : nat * A → Prop) `{∀ x, Decision (P x), ∀ x, Decision (Q x)}
    (m m' : gmap nat A) :
  (∀ i x, m !! i = Some x → P (i, x) → ∃ y, m' !! i = Some y ∧ Q (i, y)) →
  (size (base.filter P m) ≤ size (base.filter Q m'))%nat.
Proof.
  intros Hsub. rewrite <-!size_dom. apply subseteq_size. intros i.
  rewrite !elem_of_dom. intros [x Hx%map_lookup_filter_Some].
  destruct Hx as [Hx HP]. destruct (Hsub i x Hx HP) as (y & Hy & HQ).
  exists y. by apply map_lookup_filter_Some.
Qed.

(** Nothing but the check that returns true adds a permit. *)
Lemma counted_permits_mono s s' :
  (∀ i x, sem_attempts s' !! i = Some x → at_pc x = Held → is_Some (sem_zset s' !! i) →
     ∃ y, sem_attempts s !! i = Some y ∧ at_pc y = Held ∧ is_Some (sem_zset s !! i)) →
  (size (counted_permits s') ≤ size (counted_permits s))%nat.
Proof. intros H. apply size_filter_mono. simpl. intros i x Hx [? ?]. by apply (H i x). Qed.

(** The permits in the sorted set are no more than its tokens. *)
Lemma counted_permits_zset s :
  (size (counted_permits s) ≤ size (sem_zset s))%nat.
Proof.
  unfold counted_permits. rewrite <-!size_dom. apply subseteq_size. intros i.
  rewrite !elem_of_dom. by intros [x [_ [_ ?]]%map_lookup_filter_Some].
Qed.

Lemma purge_inv limit ttl c s :
  c ≤ sem_clock s - ttl → sem_inv limit ttl s →
  sem_inv limit ttl (mkSem (zremrangebyscore c (sem_zset s)) (sem_attempts s) (sem_clock s)).
Proof.
  intros Hc [Hcap Hpres Hscore Hknown Hnow]. constructor; simpl.
  - etrans; [|exact Hcap]. apply inj_le, counted_permits_mono. simpl.
    intros i x Hx Hh [v [Hv _]%zrem_lookup]. eauto.
  - intros tok a Ha Ht Hlt. destruct (Hpres tok a Ha Ht Hlt) as [v Hv]. exists v.
    apply zrem_lookup. split; [done|]. destruct (Hscore tok a v Ha Hv) as [_ ->]. lia.
  - intros tok a z Ha [Hz _]%zrem_lookup. by eapply Hscore.
  - intros tok z [Hz _]%zrem_lookup. by eapply Hknown.
  - done.
Qed.

Lemma set_attempt_inv limit ttl tok a z s :
  sem_inv limit ttl s →
  (∀ i, i ≠ tok → z !! i = sem_zset s !! i) →
  (has_token (at_pc a) → sem_clock s < at_score a + ttl → is_Some (z !! tok)) →
  (∀ v, z !! tok = Some v → has_token (at_pc a) ∧ v = at_score a) →
  at_now a ≤ sem_clock s →
  Z.of_nat (size (counted_permits (set_attempt tok a z s))) ≤ Z.max 0 limit →
  sem_inv limit ttl (set_attempt tok a z s).
Proof.
  intros [Hcap Hpres Hscore Hknown Hnow] Hz Hp Hs Hn Hc. constructor; simpl; [done|..].
  - intros i b [[<- <-]|[Hne Hb]]%lookup_insert_Some Ht Hlt; [by apply Hp|].
    rewrite Hz by done. by eapply Hpres.
  - intros i b v [[<- <-]|[Hne Hb]]%lookup_insert_Some Hv; [by apply Hs|].
    rewrite Hz in Hv by done. by eapply Hscore.
  - intros i v Hv. destruct (decide (tok = i)) as [->|Hne]; [rewrite lookup_insert_eq; by eexists|].
    rewrite lookup_insert_ne by done. rewrite Hz in Hv by done. by eapply Hknown.
  - intros i b [[<- <-]|[Hne Hb]]%lookup_insert_Some; [done|by eapply Hnow].
Qed.

(** Moving an attempt that does not end up holding adds no permit. *)
Lemma set_attempt_cap limit ttl tok a z s :
  sem_inv limit ttl s →
  (∀ i, i ≠ tok → z !! i = sem_zset s !! i) → at_pc a ≠ Held →
  Z.of_nat (size (counted_permits (set_attempt tok a z s))) ≤ Z.max 0 limit.
Proof.
  intros Hi Hz Ha. etrans; [|apply (si_cap _ _ _ Hi)]. apply inj_le, counted_permits_mono.
  simpl. intros i x [[<- <-]|[Hne Hx]]%lookup_insert_Some Hh Hs; [done|].
  rewrite Hz in Hs by done. eauto.
Qed.

Lemma not_has_token_absent limit ttl tok a s :
  sem_inv limit ttl s → sem_attempts s !! tok = Some a → ¬ has_token (at_pc a) →
  sem_zset s !! tok = None.
Proof.
  intros Hi Ha Ht. destruct (sem_zset s !! tok) as [v|] eqn:E; [|done].
  by destruct (si_score _ _ _ Hi tok a v Ha E).
Qed.

Lemma not_token_pcs : ¬ has_token Trying ∧ (∀ n, ¬ has_token (Counted n)) ∧ ¬ has_token Failed.
Proof. unfold has_token. naive_solver. Qed.

(** An attempt that ends up without its token in the set. *)
Lemma set_tokenless_inv limit ttl tok a pc z s :
  sem_inv limit ttl s → sem_attempts s !! tok = Some a → ¬ has_token pc →
  (∀ i, i ≠ tok → z !! i = sem_zset s !! i) → z !! tok = None →
  sem_inv limit ttl (set_attempt tok (set_pc pc a) z s).
Proof.
  intros Hi Ha Hpc Hz Hn. apply set_attempt_inv; simpl; try done; [congruence| |].
  - by eapply si_now.
  - eapply set_attempt_cap; [done|done|]. simpl. intros ->. apply Hpc. unfold has_token. auto.
Qed.

Lemma sem_advance_inv limit ttl tok a s s' :
  sem_inv limit ttl s → sem_attempts s !! tok = Some a →
  sem_advance limit ttl tok a s = Some s' → sem_inv limit ttl s'.
Proof.
  intros Hi Ha. pose proof (si_now _ _ _ Hi tok a Ha) as Hnow.
  destruct not_token_pcs as (HT & HC & HF). unfold sem_advance.
  destruct (at_pc a) as [|n| | | |] eqn:Epc; [| | | |done|done].
  - assert (Habs : sem_zset s !! tok = None) by (eapply not_has_token_absent; [done..|by rewrite Epc]).
    case_bools; intros [= <-]; [|by apply set_tokenless_inv].
    pose proof (purge_inv limit ttl (at_now a - ttl) s ltac:(lia) Hi) as Hi'.
    refine (set_tokenless_inv limit ttl tok a _ _ _ Hi' Ha (HC _) _ _); [done|]. simpl.
    destruct (zremrangebyscore _ _ !! tok) eqn:E; [|done].
    apply zrem_lookup in E as [E _]. congruence.
  - assert (Habs : sem_zset s !! tok = None) by (eapply not_has_token_absent; [done..|by rewrite Epc]).
    rewrite Habs. case_bools; intros [= <-]; [|by apply set_tokenless_inv].
    apply set_attempt_inv; simpl; try done.
    + intros i Hne. by rewrite lookup_insert_ne.
    + intros _ _. rewrite lookup_insert_eq. by eexists.
    + intros v. rewrite lookup_insert_eq. intros [= <-]. split; [|done]. by left.
    + eapply set_attempt_cap; [done| |done]. intros i Hne. by rewrite lookup_insert_ne.
  - case_bools; intros [= <-]; bool_lia.
    + apply set_attempt_inv; simpl; try done.
      * intros _ Hlt. eapply (si_present _ _ _ Hi); [done| |done]. rewrite Epc. by left.
      * intros v Hv. destruct (si_score _ _ _ Hi tok a v Ha Hv) as [_ ->].
        split; [by right; right|done].
      * pose proof (counted_permits_zset (set_attempt tok (set_pc Held a) (sem_zset s) s)) as H.
        simpl in H. lia.
    + apply set_attempt_inv; simpl; try done.
      * intros _ Hlt. eapply (si_present _ _ _ Hi); [done| |done]. rewrite Epc. by left.
      * intros v Hv. destruct (si_score _ _ _ Hi tok a v Ha Hv) as [_ ->].
        split; [by right; left|done].
      * by eapply set_attempt_cap.
  - intros [= <-]. apply set_tokenless_inv; try done; [|by rewrite lookup_delete_eq].
    intros i Hne. by rewrite lookup_delete_ne.
Qed.

Lemma sem_step_inv limit ttl s ev s' :
  sem_inv limit ttl s → sem_step limit ttl s ev = Some s' → sem_inv limit ttl s'.
Proof.
  intros Hi. destruct not_token_pcs as (HT & HC & HF).
  destruct ev as [tok timeout|tok|tok| |d]; simpl.
  - destruct (sem_attempts s !! tok) eqn:E; [done|]. intros [= <-].
    assert (sem_zset s !! tok = None) as Habs.
    { destruct (sem_zset s !! tok) eqn:Ez; [|done].
      destruct (si_known _ _ _ Hi _ _ Ez) as [? ?]. congruence. }
    apply set_attempt_inv; simpl; try done; [congruence|by eapply set_attempt_cap].
  - intros (a & Ha & Hs)%bind_Some. by eapply sem_advance_inv.
  - intros (a & Ha & Hs)%bind_Some. case_decide; [|done]. injection Hs as <-.
    apply set_tokenless_inv; try done; [|by rewrite lookup_delete_eq].
    intros i Hne. by rewrite lookup_delete_ne.
  - intros [= <-]. apply purge_inv; [lia|done].
  - case_bools; [|done]. intros [= <-]. bool_lia.
    destruct Hi as [Hcap Hpres Hscore Hknown Hnow]. constructor; simpl; try done.
    + intros tok a Ha Ht Hlt. eapply Hpres; [done|done|lia].
    + intros tok a Ha. specialize (Hnow tok a Ha). lia.
Qed.

Lemma sem_run_inv limit ttl evs s s' :
  sem_inv limit ttl s → sem_run limit ttl s evs = Some s' → sem_inv limit ttl s'.
Proof.
  revert s; induction evs as [|ev evs IH]; intros s Hi; simpl; [by intros [= <-]|].
  intros (s1 & Hs & Hr)%bind_Some. eapply IH; [|exact Hr]. by eapply sem_step_inv.
Qed.

Lemma sem_init_inv limit ttl clock : sem_inv limit ttl (sem_init clock).
Proof.
  constructor; simpl; try (intros; by rewrite lookup_empty in *).
  unfold counted_permits. simpl. rewrite map_filter_empty, map_size_empty. lia.
Qed.

(** C8: However the Redis commands of any number of workers interleave, the semaphore never
    has more permits in use than its limit, a permit being in use while it is held and
    younger than the time to live: the count before the add can be stale, and the count
    after it is what keeps the bound. *)
Theorem semaphore_never_exceeds_limit limit ttl clock evs s :
  0 ≤ limit → sem_run limit ttl (sem_init clock) evs = Some s →
  Z.of_nat (size (in_use ttl s)) ≤ limit.
Proof.
  intros Hl Hr. pose proof (sem_run_inv _ _ _ _ _ (sem_init_inv limit ttl clock) Hr) as Hi.
  assert (size (in_use ttl s) ≤ size (counted_permits s))%nat; [|pose proof (si_cap _ _ _ Hi); lia].
  apply size_filter_mono. simpl. intros i x Hx [Hh Hlt]. exists x. split; [done|]. split; [done|].
  eapply (si_present _ _ _ Hi); [done| |done]. rewrite Hh. by right; right.
Qed.

(** Two workers race for the one permit of a semaphore: both count zero, both add, the
    first check sees two tokens and withdraws, the second gets the permit. *)
Definition race_events : list sem_event :=
  [SemStart 1 60; SemStart 2 60; SemStep 1; SemStep 2; SemStep 1; SemStep 2;
   SemStep 1; SemStep 1; SemTick 5; SemStep 2; SemStep 1; SemStep 1].

Lemma semaphore_never_exceeds_limit_witness :
  let s := default (sem_init 0) (sem_run 1 7200 (sem_init 0) race_events) in
  0 ≤ 1 ∧ sem_run 1 7200 (sem_init 0) race_events = Some s ∧
  size (in_use 7200 s) = 1%nat ∧ Z.of_nat (size (in_use 7200 s)) ≤ 1.
Proof.
  split; [lia|]. split; [vm_compute; reflexivity|]. split; [vm_compute; reflexivity|].
  apply (semaphore_never_exceeds_limit 1 7200 0 race_events); [lia|vm_compute; reflexivity].
Defined.

(** ** The lock's invariant *)

Definition lock_inv (timeout : Z) (l : lock) : Prop :=
  ∀ tok, owns timeout l tok → ∃ t, lk_owners l !! tok = Some t ∧ lk_key l = Some (tok, t + timeout).

Definition no_force (evs : list lock_event) : Prop := Forall (λ ev, ev ≠ LockForce) evs.

Lemma lock_step_inv timeout l ev l' :
  ev ≠ LockForce → lock_inv timeout l → lock_step timeout l ev = Some l' → lock_inv timeout l'.
Proof.
  intros Hf Hi. destruct ev as [tok|tok| |d]; simpl; [| |done|].
  - unfold lock_set. intros [= <-]. destruct (lk_current l) eqn:Ec; simpl; [done|].
    intros j (t & Ht & Hlt). simpl in *. apply lookup_insert_Some in Ht as [[<- <-]|[Hne Ht]].
    + exists (lk_clock l). by rewrite lookup_insert_eq.
    + exfalso. destruct (Hi j) as (t' & Ht' & Hk); [by exists t|].
      unfold lk_current in Ec. rewrite Hk in Ec. case_bools; [done|]. bool_lia. simplify_eq. lia.
  - intros [= <-]. intros j (t & Ht & Hlt). simpl in *.
    apply lookup_delete_Some in Ht as [Hne Ht].
    destruct (Hi j) as (t' & Ht' & Hk); [by exists t|]. exists t'.
    rewrite lookup_delete_ne by done. split; [done|].
    unfold lk_current. rewrite Hk. case_bools; by simplify_eq.
  - case_bools; [|done]. intros [= <-]. bool_lia. intros j (t & Ht & Hlt). simpl in *.
    apply Hi. exists t. split; [done|lia].
Qed.

Lemma lock_run_inv timeout evs l l' :
  no_force evs → lock_inv timeout l → lock_run timeout l evs = Some l' → lock_inv timeout l'.
Proof.
  intros Hf. revert l; induction Hf as [|ev evs Hev _ IH]; intros l Hi; simpl; [by intros [= <-]|].
  intros (l1 & Hs & Hr)%bind_Some. eapply IH; [|exact Hr]. by eapply lock_step_inv.
Qed.

(** C9: Mutual exclusion of the distributed lock: as long as nobody force-deletes the key, two
    workers that acquired the lock less than its timeout ago and have not released it are
    the same worker, the key names it, and the release of any other attempt, however late,
    leaves the key as it is. *)
Theorem lock_mutual_exclusion timeout clock evs l a :
  no_force evs → lock_run timeout (lock_init clock) evs = Some l → owns timeout l a →
  (∀ b, owns timeout l b → a = b) ∧
  (∀ b, b ≠ a → lk_key (lock_release b l) = lk_key l) ∧
  (∀ b, (lock_set timeout b l).1 = false).
Proof.
  intros Hf Hr Ha. assert (Hi : lock_inv timeout l).
  { eapply lock_run_inv; [done| |exact Hr]. intros tok (t & Ht & _). simpl in Ht.
    by rewrite lookup_empty in Ht. }
  destruct Ha as (t & Ht & Hlt). destruct (Hi a) as (ta & Hta & Hka); [by exists t|].
  simplify_eq. split_and!.
  - intros b Hb. destruct (Hi b Hb) as (tb & Htb & Hkb). congruence.
  - intros b Hne. simpl. unfold lk_current. rewrite Hka. case_bools; by simplify_eq.
  - intros b. unfold lock_set, lk_current. rewrite Hka. destruct (_ <? _) eqn:E; [done|]. exfalso. bool_lia.
Qed.

(** Worker 1's lock expires, worker 2 acquires it, then worker 1 releases late. *)
Definition late_release : list lock_event :=
  [LockSet 1; LockSet 2; LockTick 301; LockSet 2; LockRelease 1].

Lemma lock_mutual_exclusion_witness :
  let l := default (lock_init 0) (lock_run 300 (lock_init 0) late_release) in
  no_force late_release ∧ lock_run 300 (lock_init 0) late_release = Some l ∧ owns 300 l 2 ∧
  (∀ b, owns 300 l b → 2%nat = b) ∧
  (∀ b, b ≠ 2%nat → lk_key (lock_release b l) = lk_key l) ∧
  (∀ b, (lock_set 300 b l).1 = false).
Proof.
  assert (Hf : no_force late_release) by (repeat constructor; discriminate).
  assert (Hr : lock_run 300 (lock_init 0) late_release =
    Some (default (lock_init 0) (lock_run 300 (lock_init 0) late_release)))
    by (vm_compute; reflexivity).
  assert (Ho : owns 300 (default (lock_init 0) (lock_run 300 (lock_init 0) late_release)) 2)
    by (exists 301; split; vm_compute; reflexivity).
  split; [exact Hf|]. split; [exact Hr|]. split; [exact Ho|].
  exact (lock_mutual_exclusion 300 0 late_release _ 2 Hf Hr Ho).
Defined.
