(* ===== verification/RateLimit.v ===== *)
(** * Abuse controls: [core/rate_limit.py] and the sliding window of [core/redis.py]

    The Redis keys the rate limiter uses, the sliding-window counter, the bans of
    cold attacker addresses and the middleware.  Clock readings are integers, in
    microseconds; the text of a reading is only used as a member of a sorted set.
    When Redis cannot be reached every check lets the request through. *)
From stdpp Require Import prelude strings gmap sorting.
From Stdlib Require Import Ascii.
From S2P Require Import Prelude PyStr PyVal PyLemmas Interfaces Db.

Definition seconds (n : Z) : Z := n * 1000000.

(** ** The Redis keys *)

(** [rs_strings]: value-less flags with the time they expire; [rs_zsets]: sorted
    sets (member and score) with the time they expire. *)
Record rstore := mkStore {
  rs_up : bool;
  rs_strings : gmap string Z;
  rs_zsets : gmap string (list (string * Z) * Z)
}.

Definition live_flag (st : rstore) (now : Z) (key : string) : bool :=
  match rs_strings st !! key with Some e => now <? e | None => false end.

Definition live_zset (st : rstore) (now : Z) (key : string) : list (string * Z) :=
  match rs_zsets st !! key with
  | Some (z, e) => if now <? e then z else []
  | None => []
  end.

Definition set_flag (key : string) (expiry : Z) (st : rstore) : rstore :=
  mkStore (rs_up st) (<[key := expiry]> (rs_strings st)) (rs_zsets st).
Definition set_zset (key : string) (z : list (string * Z)) (expiry : Z) (st : rstore) : rstore :=
  mkStore (rs_up st) (rs_strings st) (<[key := (z, expiry)]> (rs_zsets st)).
Definition del_zset (key : string) (st : rstore) : rstore :=
  mkStore (rs_up st) (rs_strings st) (delete key (rs_zsets st)).

(** [zremrangebyscore(key, 0, cutoff)]. *)
Definition zrem_old (cutoff : Z) (z : list (string * Z)) : list (string * Z) :=
  List.filter (λ p, negb ((0 <=? p.2) && (p.2 <=? cutoff))) z.

(** [redis.sliding_window_rate:671-673] the sorted set after one request. *)
Definition window_add (window now : Z) (member : string) (z : list (string * Z))
    : list (string * Z) :=
  assoc_set member now (zrem_old (now - window) z).

(** [redis.sliding_window_rate]: whether the request is allowed and how many
    requests the window holds; [member] is [now] with a random suffix. *)
Definition sliding_window_rate (st : rstore) (now : Z) (member key : string) (window limit : Z)
    : (bool * Z) * rstore :=
  if rs_up st then
    let z := window_add (seconds window) now member (live_zset st now key) in
    let count := Z.of_nat (length z) in
    ((count <=? limit, count), set_zset key z (now + seconds (window + 1)) st)
  else ((true, 0), st).

(** ** The rate limiter *)

Definition BAN_WINDOW : Z := 60.
Definition BAN_THRESHOLD : Z := 100.
Definition BAN_DURATION : Z := 300.
Definition MAX_REQUESTS_PER_MINUTE : Z := 100.
Definition MAX_UNAUTH_REQUESTS_PER_IP_PER_MINUTE : Z := 3000.
Definition MAX_TUNNEL_OPENS_PER_IP_PER_MINUTE : Z := 2000.
Definition MAX_CONCURRENT_DEPLOYS_PER_USER : Z := 20.
Definition EXEMPT_PATHS : list string := ["/api/v1/health"; "/api/v1/ws"].

(** The environment variables of [_enforcement_enabled]. *)
Record environ := mkEnviron {
  env_disabled : option string;
  env_pytest : option string;
  env_in_tests : option string
}.

Definition env_is (v : option string) (s : string) : bool := bool_decide (v = Some s).
Definition env_set (v : option string) : bool :=
  match v with None | Some "" => false | Some _ => true end.

(** [rate_limit._enforcement_enabled] *)
Definition enforcement_enabled (env : environ) : bool :=
  if env_is (env_disabled env) "1" then false
  else if env_set (env_pytest env) && negb (env_is (env_in_tests env) "1") then false
  else true.

Record request := mkRequest {
  rq_path : string;
  rq_forwarded : option string;
  rq_client : option string;
  rq_authorization : option string
}.

(** [rate_limit._get_client_ip] *)
Definition get_client_ip (r : request) : string :=
  match rq_forwarded r with
  | Some f => if env_set (Some f) then strip (split_head "," f)
              else default "unknown" (rq_client r)
  | None => default "unknown" (rq_client r)
  end.

(** [rate_limit.client_ip_from_headers]: the two spellings of the header. *)
Definition client_ip_from_headers (lower_case title_case : option string) (fallback : string)
    : string :=
  let forwarded := if env_set lower_case then lower_case else title_case in
  match forwarded with
  | Some f => if env_set forwarded then strip (split_head "," f) else fallback
  | None => fallback
  end.

(** What follows the first occurrence of a character. *)
Fixpoint after_char (c : ascii) (s : string) : option string :=
  match s with
  | EmptyString => None
  | String a s' => if decide (a = c) then Some s' else after_char c s'
  end.

Section Limiter.
(** [hashlib.sha256(...).hexdigest()]. *)
Context (sha256_hex : string → string).

(** [rate_limit._credential_fingerprint] *)
Definition credential_fingerprint (authorization : option string) : option string :=
  match authorization with
  | None | Some "" => None
  | Some a =>
      if negb (startswith "bearer " (lower a)) then None
      else
        let token := strip (default "" (after_char " " a)) in
        if String.eqb token "" then None else Some (str_take 32 (sha256_hex token))
  end.

Definition auth_ok_key (ip : string) : string := "ratelimit:auth_ok:" +:+ ip.
Definition auth_fail_key (ip : string) : string := "ratelimit:auth_fail:" +:+ ip.
Definition banned_key (ip : string) : string := "ratelimit:banned:" +:+ ip.

Definition no_ip (ip : string) : bool := String.eqb ip "" || String.eqb ip "unknown".

(** [rate_limit.record_auth_success] *)
Definition record_auth_success (st : rstore) (now : Z) (ip : string) : rstore :=
  if no_ip ip || negb (rs_up st) then st
  else set_flag (auth_ok_key ip) (now + seconds (BAN_WINDOW * 5)) st.

(** [rate_limit.record_auth_failure:105-113] the failures of the window. *)
Definition failures (st : rstore) (now : Z) (ip : string) : list (string * Z) :=
  zrem_old (now - seconds BAN_WINDOW) (assoc_set (str_of_Z now) now (live_zset st now (auth_fail_key ip))).

(** [rate_limit.record_auth_failure] *)
Definition record_auth_failure (st : rstore) (now : Z) (ip : string) : rstore :=
  if no_ip ip || negb (rs_up st) then st
  else if live_flag st now (auth_ok_key ip) then st
  else
    let key := auth_fail_key ip in
    let z := failures st now ip in
    let st := set_zset key z (now + seconds (BAN_WINDOW + 1)) st in
    if BAN_THRESHOLD <=? Z.of_nat (length z)
    then del_zset key (set_flag (banned_key ip) (now + seconds BAN_DURATION) st)
    else st.

(** [rate_limit.is_banned] *)
Definition is_banned (st : rstore) (now : Z) (ip : string) : bool :=
  rs_up st && live_flag st now (banned_key ip).

(** [rate_limit.check_request_rate] *)
Definition check_request_rate (env : environ) (st : rstore) (now : Z) (member : string)
    (authorization : option string) (ip : string) : (bool * string) * rstore :=
  if negb (enforcement_enabled env) then ((true, ""), st)
  else
    match credential_fingerprint authorization with
    | Some fp =>
        let '((allowed, _), st) := sliding_window_rate st now member ("ratelimit:cred:" +:+ fp)
                                     60 MAX_REQUESTS_PER_MINUTE in
        ((allowed, if allowed then "" else "credential rate limit"), st)
    | None =>
        let '((allowed, _), st) := sliding_window_rate st now member ("ratelimit:unauth_ip:" +:+ ip)
                                     60 MAX_UNAUTH_REQUESTS_PER_IP_PER_MINUTE in
        ((allowed, if allowed then "" else "unauthenticated IP rate limit"), st)
    end.

(** [rate_limit.check_tunnel_open_rate] *)
Definition check_tunnel_open_rate (env : environ) (st : rstore) (now : Z) (member ip : string)
    : bool * rstore :=
  if negb (enforcement_enabled env) then (true, st)
  else
    let '((allowed, _), st) := sliding_window_rate st now member ("ratelimit:tunnel_open:" +:+ ip)
                                 60 MAX_TUNNEL_OPENS_PER_IP_PER_MINUTE in
    (allowed, st).

(** [rate_limit.RateLimitMiddleware.dispatch]: the status, and whether the
    application was called.  [call_next] is the status the application answers
    with. *)
Definition dispatch (env : environ) (st : rstore) (now : Z) (member : string) (r : request)
    (call_next : Z) : (Z * bool) * rstore :=
  if in_list (rq_path r) EXEMPT_PATHS then ((call_next, true), st)
  else if negb (enforcement_enabled env) then ((call_next, true), st)
  else
    let ip := get_client_ip r in
    if is_banned st now ip then ((403, false), st)
    else
      let '((allowed, _), st) := check_request_rate env st now member (rq_authorization r) ip in
      if negb allowed then ((429, false), st)
      else
        let st :=
          if call_next =? 401 then record_auth_failure st now ip
          else if (200 <=? call_next) && (call_next <? 400) &&
                  bool_decide (is_Some (credential_fingerprint (rq_authorization r)))
          then record_auth_success st now ip
          else st in
        ((call_next, true), st).
End Limiter.

Definition deploys_key (user_id : string) : string := "ratelimit:deploys:" +:+ user_id.

(** [rate_limit.check_deploy_rate]: read from Redis only. *)
Definition check_deploy_rate (c : counters) (user_id : string) : bool * Z :=
  if redis_up c then
    let count := default 0 (redis_counters c !! deploys_key user_id) in
    (count <? MAX_CONCURRENT_DEPLOYS_PER_USER, count)
  else (true, 0).

(** [rate_limit.increment_deploy_count] *)
Definition increment_deploy_count (c : counters) (user_id : string) : counters :=
  increment_counter c (deploys_key user_id).

(** [rate_limit.decrement_deploy_count] *)
Definition decrement_deploy_count (c : counters) (user_id : string) : counters :=
  decrement_counter c (deploys_key user_id).

(** ** The sliding window over a history of requests *)

(** The requests one key gets: when, and under which member. *)
Fixpoint window_run (key : string) (window limit : Z) (st : rstore) (reqs : list (Z * string))
    : list (Z * bool) * rstore :=
  match reqs with
  | [] => ([], st)
  | (now, member) :: reqs' =>
      let '((allowed, _), st) := sliding_window_rate st now member key window limit in
      let '(outs, st) := window_run key window limit st reqs' in
      ((now, allowed) :: outs, st)
  end.

(** The requests of a history allowed in the window that ends at [t]. *)
Definition allowed_in (window t : Z) (outs : list (Z * bool)) : list (Z * bool) :=
  List.filter (λ o, o.2 && (t - seconds window <? o.1) && (o.1 <=? t)) outs.

(** Clock readings do not go back, and members are not repeated. *)
Definition good_history (reqs : list (Z * string)) : Prop :=
  StronglySorted Z.le reqs.*1 ∧ Forall (λ t, 0 ≤ t) reqs.*1 ∧ NoDup reqs.*2.

(** ** Lemmas *)

Lemma zrem_old_app c l1 l2 : zrem_old c (l1 ++ l2) = zrem_old c l1 ++ zrem_old c l2.
Proof. apply List.filter_app. Qed.

Lemma elem_of_zrem_old c l p : p ∈ zrem_old c l ↔ p ∈ l ∧ ¬ (0 ≤ p.2 ≤ c).
Proof.
  unfold zrem_old. rewrite !list_elem_of_In, filter_In, negb_true_iff, andb_false_iff.
  rewrite Z.leb_gt, Z.leb_gt. intuition lia.
Qed.

(** Dropping up to a later cutoff subsumes an earlier drop. *)
Lemma zrem_old_later c c' l : c ≤ c' → zrem_old c' (zrem_old c l) = zrem_old c' l.
Proof.
  intros Hc. unfold zrem_old. induction l as [|p l IH]; simpl; [done|].
  destruct (0 <=? p.2) eqn:E0, (p.2 <=? c) eqn:E1; simpl; rewrite ?E0; simpl; try by rewrite IH.
  bool_lia. assert ((p.2 <=? c') = true) as -> by (apply Z.leb_le; lia). done.
Qed.

Lemma zrem_old_all c l : Forall (λ p, 0 ≤ p.2 ≤ c) l → zrem_old c l = [].
Proof.
  unfold zrem_old. induction 1 as [|p l Hp _ IH]; simpl; [done|].
  assert ((0 <=? p.2) = true) as -> by (apply Z.leb_le; lia).
  assert ((p.2 <=? c) = true) as -> by (apply Z.leb_le; lia). done.
Qed.

(** The sorted set stands for the requests so far, from any later reading on. *)
Definition tracks (window : Z) (key : string) (st : rstore) (last : Z) (hist : list (string * Z))
    : Prop :=
  rs_up st = true ∧ Forall (λ p, 0 ≤ p.2 ≤ last) hist ∧
  ∀ now, last ≤ now → zrem_old (now - seconds window) (live_zset st now key) =
    zrem_old (now - seconds window) hist.

Lemma sliding_window_step window key st last hist now member limit :
  0 < window → tracks window key st last hist → last ≤ now → 0 ≤ now → member ∉ hist.*1 →
  let hist' := hist ++ [(member, now)] in
  let r := sliding_window_rate st now member key window limit in
  tracks window key r.2 now hist' ∧
  r.1.1 = (Z.of_nat (length (zrem_old (now - seconds window) hist')) <=? limit).
Proof.
  intros Hw (Hup & Hall & Ht) Hlast Hnow Hm hist' r.
  assert (Hadd : window_add (seconds window) now member (live_zset st now key) =
                 zrem_old (now - seconds window) hist').
  { unfold window_add. rewrite Ht by done. unfold hist'. rewrite assoc_set_new.
    - rewrite zrem_old_app. f_equal. unfold zrem_old; simpl.
      assert ((now <=? now - seconds window) = false) as -> by (apply Z.leb_gt; unfold seconds; lia).
      by rewrite andb_false_r.
    - intros ([k v] & Hk & [Hin _]%elem_of_zrem_old)%list_elem_of_fmap. simpl in Hk. subst.
      apply Hm, list_elem_of_fmap. by exists (k, v). }
  assert (Hall' : Forall (λ p, 0 ≤ p.2 ≤ now) hist').
  { apply Forall_app. split; [eapply Forall_impl; [exact Hall|simpl; lia]|repeat constructor; simpl; lia]. }
  unfold r, sliding_window_rate. rewrite Hup, Hadd. simpl. split; [|done].
  split_and!; [done|done|]. intros later Hlater. unfold live_zset; simpl.
  rewrite lookup_insert_eq. destruct (later <? _) eqn:E.
  - apply zrem_old_later. lia.
  - bool_lia. simpl. symmetry. apply zrem_old_all. eapply Forall_impl; [exact Hall'|].
    simpl. unfold seconds in *. lia.
Qed.

Lemma filter_le_Forall2 {A B} (R : A → B → Prop) (f : A → bool) (g : B → bool) l k :
  Forall2 R l k → (∀ x y, R x y → f x = true → g y = true) →
  (length (List.filter f l) ≤ length (List.filter g k))%nat.
Proof.
  intros H Himp. induction H as [|x y l k HR _ IH]; simpl; [lia|].
  destruct (f x) eqn:E; [rewrite (Himp x y HR E); simpl; lia|].
  destruct (g y); simpl; lia.
Qed.

(** The outcomes and the requests they answer. *)
Definition answers (outs : list (Z * bool)) (hist : list (string * Z)) : Prop :=
  Forall2 (λ o p, o.1 = p.2) outs hist.

Lemma allowed_in_app window t l1 l2 :
  allowed_in window t (l1 ++ l2) = allowed_in window t l1 ++ allowed_in window t l2.
Proof. apply List.filter_app. Qed.

Lemma allowed_in_snoc_bound window limit outs hist member now ok t :
  answers outs hist → Forall (λ p, 0 ≤ p.2 ≤ now) hist →
  Z.of_nat (length (allowed_in window t outs)) ≤ limit →
  (ok = true → Z.of_nat (length (zrem_old (now - seconds window) (hist ++ [(member, now)]))) ≤ limit) →
  0 ≤ now →
  Z.of_nat (length (allowed_in window t (outs ++ [(now, ok)]))) ≤ limit.
Proof.
  intros Ha Hh Hprev Hok Hnow. destruct (ok && (t - seconds window <? now) && (now <=? t)) eqn:E.
  - bool_lia. destruct ok; [|done]. etrans; [|by apply Hok]. apply inj_le.
    apply (filter_le_Forall2 (λ o p, o.1 = p.2)).
    + apply Forall2_app; [done|by repeat constructor].
    + simpl. intros [t' b] [m s] Heq Hf. simpl in *. subst. bool_lia.
  - rewrite allowed_in_app, length_app. unfold allowed_in at 2. simpl. rewrite E. simpl. lia.
Qed.

Lemma window_run_bound key window limit reqs st last hist outs t :
  0 < window → tracks window key st last hist → answers outs hist →
  StronglySorted Z.le (last :: reqs.*1) → Forall (λ t, 0 ≤ t) reqs.*1 →
  NoDup (hist.*1 ++ reqs.*2) →
  (∀ t, Z.of_nat (length (allowed_in window t outs)) ≤ limit) →
  Z.of_nat (length (allowed_in window t (outs ++ (window_run key window limit st reqs).1))) ≤ limit.
Proof.
  intros Hw. revert st last hist outs.
  induction reqs as [|[now member] reqs IH]; intros st last hist outs Htr Hans Hs Hp Hnd Hb.
  { simpl. rewrite app_nil_r. apply Hb. }
  csimpl in Hs. csimpl in Hp. csimpl in Hnd. csimpl. apply Forall_cons in Hp as [Hnow Hp].
  inversion Hs as [|? ? Hs' Hle]; subst. apply Forall_cons in Hle as [Hle _].
  assert (Hm : member ∉ hist.*1).
  { apply NoDup_app in Hnd as (_ & Hd & _). intros Hin. apply (Hd member Hin). left. }
  destruct (sliding_window_step window key st last hist now member limit Hw Htr Hle Hnow Hm)
    as [Htr' Hok].
  destruct (sliding_window_rate st now member key window limit) as [[ok count] st'].
  simpl in Htr', Hok. destruct (window_run key window limit st' reqs) as [outs' st''] eqn:Er. simpl.
  replace (outs ++ (now, ok) :: outs') with ((outs ++ [(now, ok)]) ++ outs')
    by (by rewrite <-(assoc_L (++))).
  change outs' with (outs', st'').1. rewrite <-Er.
  apply (IH st' now (hist ++ [(member, now)]) (outs ++ [(now, ok)])); try done.
  - apply Forall2_app; [done|by repeat constructor].
  - rewrite fmap_app, <-(assoc_L (++)). csimpl. done.
  - intros t'. eapply allowed_in_snoc_bound; try done.
    + destruct Htr as (_ & Hall & _). eapply Forall_impl; [exact Hall|]. simpl. lia.
    + intros ->. symmetry in Hok. by apply Z.leb_le in Hok.
Qed.

(** The sliding window enforces its rate: whatever requests one key gets, at readings that
    do not go back, at most [limit] of them are allowed in any window of [window] seconds. *)
Theorem sliding_window_limits_rate key window limit strings reqs t :
  0 < window → 0 ≤ limit → good_history reqs →
  Z.of_nat (length (allowed_in window t
    (window_run key window limit (mkStore true strings ∅) reqs).1)) ≤ limit.
Proof.
  intros Hw Hl (Hs & Hp & Hn).
  apply (window_run_bound key window limit reqs (mkStore true strings ∅) 0 [] []); try done.
  - constructor.
  - by constructor.
Qed.

(** Four requests, the third too soon, the fourth once the first has left the window. *)
Definition sample_history : list (Z * string) :=
  [(1, "a"); (2, "b"); (3, "c"); (seconds 60 + 2, "d")].

Lemma sliding_window_limits_rate_witness :
  0 < 60 ∧ 0 ≤ 2 ∧ good_history sample_history ∧
  (window_run "k" 60 2 (mkStore true ∅ ∅) sample_history).1 =
    [(1, true); (2, true); (3, false); (seconds 60 + 2, true)] ∧
  Z.of_nat (length (allowed_in 60 3
    (window_run "k" 60 2 (mkStore true ∅ ∅) sample_history).1)) ≤ 2.
Proof.
  assert (H : good_history sample_history).
  { unfold good_history, sample_history, seconds. simpl. split_and!.
    - repeat constructor; lia.
    - repeat constructor; lia.
    - repeat (constructor; [set_solver|]). constructor. }
  split; [lia|]. split; [lia|]. split; [exact H|]. split; [vm_compute; reflexivity|].
  apply (sliding_window_limits_rate "k" 60 2 ∅ sample_history 3); [lia|lia|exact H].
Defined.

(** ** Bans *)

Lemma banned_key_inj a b : banned_key a = banned_key b → a = b.
Proof. apply str_app_inj_l. Qed.

Lemma banned_key_not_auth_ok a b : banned_key a ≠ auth_ok_key b.
Proof. unfold banned_key, auth_ok_key. intros H. by simplify_eq/=. Qed.

Lemma sliding_window_keeps_bans st now member key window limit t ip :
  is_banned (sliding_window_rate st now member key window limit).2 t ip = is_banned st t ip.
Proof. unfold sliding_window_rate, is_banned. by destruct (rs_up st) eqn:E; simpl; rewrite ?E. Qed.

Lemma check_request_rate_keeps_bans sha env st now member auth ip t ip' :
  is_banned (check_request_rate sha env st now member auth ip).2 t ip' = is_banned st t ip'.
Proof.
  unfold check_request_rate. destruct (negb _); [done|].
  destruct (credential_fingerprint sha auth) as [fp|].
  - pose proof (sliding_window_keeps_bans st now member ("ratelimit:cred:" +:+ fp) 60
      MAX_REQUESTS_PER_MINUTE t ip') as H.
    by destruct (sliding_window_rate _ _ _ _ _ _) as [[? ?] ?].
  - pose proof (sliding_window_keeps_bans st now member ("ratelimit:unauth_ip:" +:+ ip) 60
      MAX_UNAUTH_REQUESTS_PER_IP_PER_MINUTE t ip') as H.
    by destruct (sliding_window_rate _ _ _ _ _ _) as [[? ?] ?].
Qed.

Lemma record_auth_success_keeps_bans st now ip t ip' :
  is_banned (record_auth_success st now ip) t ip' = is_banned st t ip'.
Proof.
  unfold record_auth_success. destruct (_ || _); [done|]. unfold is_banned, live_flag; simpl.
  rewrite lookup_insert_ne; [done|]. intros H. symmetry in H. by apply banned_key_not_auth_ok in H.
Qed.

Lemma record_auth_failure_bans st now ip t ip' :
  is_banned st t ip' = false → is_banned (record_auth_failure st now ip) t ip' = true →
  ip' = ip ∧ no_ip ip = false ∧ live_flag st now (auth_ok_key ip) = false ∧
  BAN_THRESHOLD ≤ Z.of_nat (length (failures st now ip)) ∧ t < now + seconds BAN_DURATION.
Proof.
  intros Hb. unfold record_auth_failure. destruct (_ || _) eqn:E0; [congruence|].
  destruct (live_flag st now (auth_ok_key ip)) eqn:E1; [congruence|].
  destruct (_ <=? _) eqn:E2.
  - bool_lia. unfold is_banned, live_flag in *. simpl in *. rewrite H0 in *. simpl in *.
    destruct (decide (ip' = ip)) as [->|Hne].
    + rewrite lookup_insert_eq. intros Hlt. bool_lia. done.
    + rewrite lookup_insert_ne; [congruence|]. intros Heq. by apply banned_key_inj in Heq.
  - unfold is_banned, live_flag in *. simpl in *. congruence.
Qed.

Lemma check_request_rate_keeps_failures sha env st now member auth ip ip' :
  rs_strings (check_request_rate sha env st now member auth ip).2 = rs_strings st ∧
  failures (check_request_rate sha env st now member auth ip).2 now ip' = failures st now ip'.
Proof.
  unfold check_request_rate, sliding_window_rate.
  destruct (negb _); [done|].
  destruct (credential_fingerprint sha auth) as [fp|], (rs_up st); try done; simpl; (split; [done|]);
    unfold failures, live_zset; simpl; rewrite lookup_insert_ne; try done;
    unfold auth_fail_key; intros H; by simplify_eq/=.
Qed.

(** C36: The middleware bans only cold attacker addresses: if handling a request makes an
    address banned, that address sent the request, the application was called and
    answered 401, the address has no recent successful login, and it has at least
    [BAN_THRESHOLD] (100) failures in the ban window.  And where the limits are enforced
    ([enforcement_enabled]: not switched off by [TROSHKA_RATE_LIMIT_DISABLED] nor by a test run), a
    request from a banned address for a path that is not exempt ([EXEMPT_PATHS]: the health check and
    the web socket) is refused with 403 without the application being called or any key being touched. *)
Theorem middleware_bans_cold_attackers sha env st now member r call_next ip :
  let '(resp, st') := dispatch sha env st now member r call_next in
  (is_banned st now ip = false → is_banned st' now ip = true →
     ip = get_client_ip r ∧ resp = (401, true) ∧ call_next = 401 ∧
     live_flag st now (auth_ok_key ip) = false ∧
     BAN_THRESHOLD ≤ Z.of_nat (length (failures st now ip))) ∧
  (rq_path r ∉ EXEMPT_PATHS → enforcement_enabled env = true →
   is_banned st now (get_client_ip r) = true → resp = (403, false) ∧ st' = st).
Proof.
  unfold dispatch, in_list. case_bool_decide as Hp; [split; [congruence|done]|].
  destruct (enforcement_enabled env); simpl; [|split; [congruence|done]].
  destruct (is_banned st now (get_client_ip r)) eqn:Eb; [split; [congruence|done]|].
  pose proof (check_request_rate_keeps_bans sha env st now member (rq_authorization r)
    (get_client_ip r) now ip) as Hk.
  pose proof (check_request_rate_keeps_failures sha env st now member (rq_authorization r)
    (get_client_ip r) (get_client_ip r)) as [Hs Hf'].
  destruct (check_request_rate _ _ _ _ _ _ _) as [[allowed why] st1]. simpl in Hk, Hs, Hf'.
  destruct allowed; simpl; [|split; [congruence|done]].
  split; [|done]. intros Hb. rewrite Hb in Hk. destruct (call_next =? 401) eqn:E401.
  - intros Hb'. destruct (record_auth_failure_bans _ _ _ _ _ Hk Hb') as (-> & _ & Hl & Hf & _).
    bool_lia. subst. unfold live_flag in *. rewrite Hs in Hl. rewrite Hf' in Hf. done.
  - destruct (_ && bool_decide _); [rewrite record_auth_success_keeps_bans|]; congruence.
Qed.
