(* ===== verification/JobMonad.v ===== *)
(** * Background jobs: the world a deployment job acts on

    The jobs of [services/deploy_service.py] read and write the project's row through a
    SQLAlchemy session, call functions that reach agents and clouds, report progress through
    Redis, and raise.  This file holds their world and the operations they are written with.

    The session is the one of [core/database.py]: [sessionmaker] with its defaults.  Attributes
    of the project object load on first access and expire on commit; assignments stay in the
    session until a query of the same session flushes them, which takes the row's lock, or a
    commit writes them, which releases it.  An update of the row by another session waits while
    the lock is held; when it comes from the same thread the thread waits for itself: [Blocked].

    A call of a function that acts outside the row is an event of the log, answered by an
    environment that may depend on all events before, may change the canvas, which such
    functions share, and may let other processes change the project table. *)
From stdpp Require Import prelude strings gmap.
From S2P Require Import Prelude PyStr PyVal PyLemmas Db TopoNodes Vxlan.

Open Scope list_scope.

(** ** Exceptions and outcomes *)

Inductive jexn := XTroshkad (msg : string) | XDeploy (msg : string) | XOther (msg : string).

(** [str(e)]. *)
Definition exn_str (e : jexn) : string :=
  match e with XTroshkad m | XDeploy m | XOther m => m end.

Inductive outcome (A : Type) := Ret (a : A) | Exc (e : jexn) | Blocked.
Arguments Ret {_} _.
Arguments Exc {_} _.
Arguments Blocked {_}.

(** ** The project row *)

(** What the progress store holds for a deployment. *)
Record progress := mkProgress { g_step : string; g_detail : string; g_percent : option string }.
#[export] Instance progress_eq_dec : EqDecision progress.
Proof. solve_decision. Defined.

(** [project.Project:38-55] the timers. *)
Record timers := mkTimers {
  t_stop_minutes : option Z;
  t_stop_started : option Z;
  t_stop_expires : option Z;
  t_stop_warned : bool;
  t_delete_minutes : option Z;
  t_delete_started : option Z;
  t_delete_warned : bool;
  t_lifetime : option Z
}.

#[export] Instance timers_eq_dec : EqDecision timers.
Proof. solve_decision. Defined.

(** [project.Project:56-96] the columns the jobs read and write, next to those of [Db]. *)
Record dproject := mkDProject {
  d_row : Project;
  d_error : option string;
  d_step : option string;
  d_progress : option progress;
  d_mesh_host : option string;
  d_mesh_subnet : option Z;
  d_assignments : list (string * string);
  d_timers : timers;
  d_auto_stopped : bool;
  d_off_action : string;
  d_ocp_status : option string;
  d_ocp_started : option Z;
  d_deployed : option val;
  d_dns : option string * option string * option string;
  d_clock_target : option Z;
  d_guest_exec : bool;
  d_owner : string;
  d_elapsed : option Z
}.

Definition d_id (p : dproject) : string := p_id (d_row p).
Definition d_state (p : dproject) : string := p_state (d_row p).

(** An assignment to a column. *)
Inductive write :=
| WState (s : string)
| WError (o : option string)
| WStep (o : option string)
| WProgress (o : option progress)
| WHost (o : option string)
| WTopology (v : val)
| WVni (m : vnis)
| WDeployed (v : val)
| WTimers (t : timers)
| WAutoStopped (b : bool)
| WOcp (status : option string) (started : option Z)
| WElapsed (o : option Z)
| WNoVni
| WStarted (o : option Z)
| WProvider (o : option string)
| WOffAction (s : string)
| WClock (o : option Z)
| WGuestExec (b : bool)
| WMesh (subnet : option Z) (host : option string) (assignments : list (string * string)).

Definition with_row (p : dproject) (r : Project) : dproject :=
  mkDProject r (d_error p) (d_step p) (d_progress p) (d_mesh_host p) (d_mesh_subnet p) (d_assignments p)
    (d_timers p) (d_auto_stopped p) (d_off_action p) (d_ocp_status p) (d_ocp_started p) (d_deployed p)
    (d_dns p) (d_clock_target p) (d_guest_exec p) (d_owner p) (d_elapsed p).

Definition apply_write (w : write) (p : dproject) : dproject :=
  let r := d_row p in
  match w with
  | WState s =>
      with_row p (mkProject (p_id r) (p_provider_id r) (p_host_id r) s (p_topology r) (p_vni_map r)
                    (p_deploy_started_at r))
  | WHost o =>
      with_row p (mkProject (p_id r) (p_provider_id r) o (p_state r) (p_topology r) (p_vni_map r)
                    (p_deploy_started_at r))
  | WTopology v =>
      with_row p (mkProject (p_id r) (p_provider_id r) (p_host_id r) (p_state r) v (p_vni_map r)
                    (p_deploy_started_at r))
  | WVni m =>
      with_row p (mkProject (p_id r) (p_provider_id r) (p_host_id r) (p_state r) (p_topology r) (Some m)
                    (p_deploy_started_at r))
  | WNoVni =>
      with_row p (mkProject (p_id r) (p_provider_id r) (p_host_id r) (p_state r) (p_topology r) None
                    (p_deploy_started_at r))
  | WStarted o =>
      with_row p (mkProject (p_id r) (p_provider_id r) (p_host_id r) (p_state r) (p_topology r) (p_vni_map r) o)
  | WProvider o =>
      with_row p (mkProject (p_id r) o (p_host_id r) (p_state r) (p_topology r) (p_vni_map r)
                    (p_deploy_started_at r))
  | WOffAction a =>
      mkDProject r (d_error p) (d_step p) (d_progress p) (d_mesh_host p) (d_mesh_subnet p) (d_assignments p)
        (d_timers p) (d_auto_stopped p) a (d_ocp_status p) (d_ocp_started p) (d_deployed p)
        (d_dns p) (d_clock_target p) (d_guest_exec p) (d_owner p) (d_elapsed p)
  | WClock o =>
      mkDProject r (d_error p) (d_step p) (d_progress p) (d_mesh_host p) (d_mesh_subnet p) (d_assignments p)
        (d_timers p) (d_auto_stopped p) (d_off_action p) (d_ocp_status p) (d_ocp_started p) (d_deployed p)
        (d_dns p) o (d_guest_exec p) (d_owner p) (d_elapsed p)
  | WGuestExec b =>
      mkDProject r (d_error p) (d_step p) (d_progress p) (d_mesh_host p) (d_mesh_subnet p) (d_assignments p)
        (d_timers p) (d_auto_stopped p) (d_off_action p) (d_ocp_status p) (d_ocp_started p) (d_deployed p)
        (d_dns p) (d_clock_target p) b (d_owner p) (d_elapsed p)
  | WElapsed o =>
      mkDProject r (d_error p) (d_step p) (d_progress p) (d_mesh_host p) (d_mesh_subnet p) (d_assignments p)
        (d_timers p) (d_auto_stopped p) (d_off_action p) (d_ocp_status p) (d_ocp_started p) (d_deployed p)
        (d_dns p) (d_clock_target p) (d_guest_exec p) (d_owner p) o
  | WError o =>
      mkDProject r o (d_step p) (d_progress p) (d_mesh_host p) (d_mesh_subnet p) (d_assignments p)
        (d_timers p) (d_auto_stopped p) (d_off_action p) (d_ocp_status p) (d_ocp_started p) (d_deployed p)
        (d_dns p) (d_clock_target p) (d_guest_exec p) (d_owner p) (d_elapsed p)
  | WStep o =>
      mkDProject r (d_error p) o (d_progress p) (d_mesh_host p) (d_mesh_subnet p) (d_assignments p)
        (d_timers p) (d_auto_stopped p) (d_off_action p) (d_ocp_status p) (d_ocp_started p) (d_deployed p)
        (d_dns p) (d_clock_target p) (d_guest_exec p) (d_owner p) (d_elapsed p)
  | WProgress o =>
      mkDProject r (d_error p) (d_step p) o (d_mesh_host p) (d_mesh_subnet p) (d_assignments p)
        (d_timers p) (d_auto_stopped p) (d_off_action p) (d_ocp_status p) (d_ocp_started p) (d_deployed p)
        (d_dns p) (d_clock_target p) (d_guest_exec p) (d_owner p) (d_elapsed p)
  | WDeployed v =>
      mkDProject r (d_error p) (d_step p) (d_progress p) (d_mesh_host p) (d_mesh_subnet p) (d_assignments p)
        (d_timers p) (d_auto_stopped p) (d_off_action p) (d_ocp_status p) (d_ocp_started p) (Some v)
        (d_dns p) (d_clock_target p) (d_guest_exec p) (d_owner p) (d_elapsed p)
  | WTimers t =>
      mkDProject r (d_error p) (d_step p) (d_progress p) (d_mesh_host p) (d_mesh_subnet p) (d_assignments p)
        t (d_auto_stopped p) (d_off_action p) (d_ocp_status p) (d_ocp_started p) (d_deployed p)
        (d_dns p) (d_clock_target p) (d_guest_exec p) (d_owner p) (d_elapsed p)
  | WAutoStopped b =>
      mkDProject r (d_error p) (d_step p) (d_progress p) (d_mesh_host p) (d_mesh_subnet p) (d_assignments p)
        (d_timers p) b (d_off_action p) (d_ocp_status p) (d_ocp_started p) (d_deployed p)
        (d_dns p) (d_clock_target p) (d_guest_exec p) (d_owner p) (d_elapsed p)
  | WOcp status started =>
      mkDProject r (d_error p) (d_step p) (d_progress p) (d_mesh_host p) (d_mesh_subnet p) (d_assignments p)
        (d_timers p) (d_auto_stopped p) (d_off_action p) status started (d_deployed p)
        (d_dns p) (d_clock_target p) (d_guest_exec p) (d_owner p) (d_elapsed p)
  | WMesh subnet host assignments =>
      mkDProject r (d_error p) (d_step p) (d_progress p) host subnet assignments
        (d_timers p) (d_auto_stopped p) (d_off_action p) (d_ocp_status p) (d_ocp_started p) (d_deployed p)
        (d_dns p) (d_clock_target p) (d_guest_exec p) (d_owner p) (d_elapsed p)
  end.

Definition apply_writes (ws : list write) (p : dproject) : dproject := foldl (λ p w, apply_write w p) p ws.

(** ** The world *)

Inductive event :=
| Call (function : string) (args : list string)
| Progress (step detail : string)
| ProgressDeleted
| Notify (kind detail : string)
| Committed (ws : list write)
| RecordDeleted.

(** What a called function brings: nothing, an error it returns, a boolean, an integer or none,
    a text, several texts, or an exception. *)
Inductive answer :=
| Done
| Failed (msg : string)
| Flag (b : bool)
| Num (o : option Z)
| Text (s : string)
| Texts (l : list string)
| Raises (e : jexn).

(** [s_alias]: the [topology] attribute of the project is the job's canvas object itself.  Such an
    object changed in place and assigned again is equal to what was loaded, so no update of the
    column follows. *)
Record sess := mkSess {
  s_obj : option dproject;
  s_dirty : list write;
  s_locked : bool;
  s_alias : bool
}.
Definition new_session : sess := mkSess None [] false false.

Record jobw := mkJobw {
  jw_rows : list dproject;
  jw_db : DB;
  jw_counters : counters;
  jw_hwm : hwm_file;
  jw_permits : Z;
  jw_progress : option progress;
  jw_topo : val;
  jw_sess : sess;
  jw_log : list event
}.

Definition set_rows (w : jobw) (rows : list dproject) : jobw :=
  mkJobw rows (jw_db w) (jw_counters w) (jw_hwm w) (jw_permits w) (jw_progress w) (jw_topo w)
    (jw_sess w) (jw_log w).
Definition set_db (w : jobw) (db : DB) : jobw :=
  mkJobw (jw_rows w) db (jw_counters w) (jw_hwm w) (jw_permits w) (jw_progress w) (jw_topo w)
    (jw_sess w) (jw_log w).
Definition set_counters (w : jobw) (c : counters) : jobw :=
  mkJobw (jw_rows w) (jw_db w) c (jw_hwm w) (jw_permits w) (jw_progress w) (jw_topo w)
    (jw_sess w) (jw_log w).
Definition set_hwm (w : jobw) (f : hwm_file) : jobw :=
  mkJobw (jw_rows w) (jw_db w) (jw_counters w) f (jw_permits w) (jw_progress w) (jw_topo w)
    (jw_sess w) (jw_log w).
Definition set_permits (w : jobw) (n : Z) : jobw :=
  mkJobw (jw_rows w) (jw_db w) (jw_counters w) (jw_hwm w) n (jw_progress w) (jw_topo w)
    (jw_sess w) (jw_log w).
Definition set_progress (w : jobw) (p : option progress) : jobw :=
  mkJobw (jw_rows w) (jw_db w) (jw_counters w) (jw_hwm w) (jw_permits w) p (jw_topo w)
    (jw_sess w) (jw_log w).
Definition set_topo (w : jobw) (t : val) : jobw :=
  mkJobw (jw_rows w) (jw_db w) (jw_counters w) (jw_hwm w) (jw_permits w) (jw_progress w) t
    (jw_sess w) (jw_log w).
Definition set_sess (w : jobw) (s : sess) : jobw :=
  mkJobw (jw_rows w) (jw_db w) (jw_counters w) (jw_hwm w) (jw_permits w) (jw_progress w)
    (jw_topo w) s (jw_log w).
Definition add_event (w : jobw) (e : event) : jobw :=
  mkJobw (jw_rows w) (jw_db w) (jw_counters w) (jw_hwm w) (jw_permits w) (jw_progress w)
    (jw_topo w) (jw_sess w) (jw_log w ++ [e]).

(** The whole database, for the placement queries. *)
Definition full_db (w : jobw) : DB :=
  mkDB (db_hosts (jw_db w)) (map d_row (jw_rows w)) (db_eips (jw_db w)) (db_providers (jw_db w))
    (db_pools (jw_db w)) (db_locations (jw_db w)).

Record environment := mkEnv {
  env_answer : list event → event → val → answer * val;
  env_others : list event → list dproject → list dproject;
  env_clock : list event → Z;
  env_commits : list event → bool
}.

(** ** The monad *)

Definition J (A : Type) : Type := jobw → jobw * outcome A.
Definition jret {A} (a : A) : J A := λ w, (w, Ret a).
Definition jexc {A} (e : jexn) : J A := λ w, (w, Exc e).
Definition jblock {A} : J A := λ w, (w, Blocked).
Definition jbind {A B} (m : J A) (f : A → J B) : J B :=
  λ w, let '(w, o) := m w in
       match o with Ret a => f a w | Exc e => (w, Exc e) | Blocked => (w, Blocked) end.
(** [try: m except Exception as e: h e]. *)
Definition jcatch {A} (m : J A) (h : jexn → J A) : J A :=
  λ w, let '(w, o) := m w in match o with Exc e => h e w | o => (w, o) end.
(** [try: m finally: f], for an [f] that does not raise. *)
Definition jfinally {A} (m : J A) (f : jobw → jobw) : J A :=
  λ w, let '(w, o) := m w in match o with Blocked => (w, Blocked) | o => (f w, o) end.

Declare Scope job_scope.
Notation "x <-' m ;; k" := (jbind m (λ x, k)) (at level 100, m at next level, right associativity) : job_scope.
Notation "m ;;; k" := (jbind m (λ _, k)) (at level 100, right associativity) : job_scope.
Open Scope job_scope.

Definition jget {A} (f : jobw → A) : J A := λ w, (w, Ret (f w)).
Definition jmod (f : jobw → jobw) : J unit := λ w, (f w, Ret tt).
Definition emit (e : event) : J unit := jmod (λ w, add_event w e).

(** [try: m except TroshkadError as e: h e]. *)
Definition catch_troshkad {A} (m : J A) (h : string → J A) : J A :=
  jcatch m (λ e, match e with XTroshkad msg => h msg | _ => jexc e end).

Fixpoint jeach {A} (l : list A) (f : A → J unit) : J unit :=
  match l with [] => jret tt | x :: l' => f x;;; jeach l' f end.

(** A loop that threads a value. *)
Fixpoint jfold {A B} (f : B → A → J B) (b : B) (l : list A) : J B :=
  match l with [] => jret b | x :: l' => b <-' f b x;; jfold f b l' end.

Section Job.
Context (env : environment) (exn_text : exn → string) (pid : string).

Definition jlift {A} (r : res A) : J A :=
  match r with Ok a => jret a | Raise e => jexc (XOther (exn_text e)) end.

Definition now : J Z := jget (λ w, env_clock env (jw_log w)).
Definition topology : J val := jget jw_topo.

(** A call of a function of the repository or of a client library. *)
Definition ask (function : string) (args : list string) : J answer :=
  λ w, let e := Call function args in
       let '(a, t) := env_answer env (jw_log w) e (jw_topo w) in
       let w := mkJobw (env_others env (jw_log w) (jw_rows w)) (jw_db w) (jw_counters w) (jw_hwm w) (jw_permits w)
                  (jw_progress w) t (jw_sess w) (jw_log w ++ [e]) in
       (w, match a with Raises x => Exc x | a => Ret a end).

Definition unexpected {A} : J A := jexc (XOther "unexpected value").
Definition do_ (f : string) (args : list string) : J unit := ask f args;;; jret tt.
(** The error a function returns, or [None]. *)
Definition error_of (f : string) (args : list string) : J (option string) :=
  a <-' ask f args;; match a with Failed m => jret (Some m) | _ => jret None end.
Definition flag_of (f : string) (args : list string) : J bool :=
  a <-' ask f args;; match a with Flag b => jret b | _ => unexpected end.
Definition num_of (f : string) (args : list string) : J (option Z) :=
  a <-' ask f args;; match a with Num o => jret o | _ => unexpected end.
Definition text_of (f : string) (args : list string) : J string :=
  a <-' ask f args;; match a with Text s => jret s | _ => unexpected end.
Definition texts_of (f : string) (args : list string) : J (list string) :=
  a <-' ask f args;; match a with Texts l => jret l | _ => unexpected end.

(** ** The session *)

Definition is_pid (p : dproject) : bool := String.eqb (d_id p) pid.
Definition current (w : jobw) : option dproject := List.find is_pid (jw_rows w).
Definition update_row (f : dproject → dproject) (w : jobw) : jobw :=
  set_rows w (map (λ p, if is_pid p then f p else p) (jw_rows w)).

Definition stale : jexn := XOther "row deleted".

(** The session meets a query: pending assignments are flushed, which locks the row. *)
Definition flush : J unit := λ w,
  match s_dirty (jw_sess w) with
  | [] => (w, Ret tt)
  | ws =>
      match current w with
      | None => (w, Exc stale)
      | Some _ => (set_sess w (mkSess (s_obj (jw_sess w)) ws true (s_alias (jw_sess w))), Ret tt)
      end
  end.

(** [s.query(...)] of another table. *)
Definition query : J unit := flush.

(** [s.query(Project).filter_by(id=project_id).first()]. *)
Definition query_project : J bool :=
  flush;;;
  λ w, match current w with
       | None => (w, Ret false)
       | Some p =>
           (set_sess w (mkSess (Some (default (apply_writes (s_dirty (jw_sess w)) p) (s_obj (jw_sess w))))
                          (s_dirty (jw_sess w)) (s_locked (jw_sess w)) (s_alias (jw_sess w))), Ret true)
       end.

(** An attribute access on the project object. *)
Definition project : J dproject := λ w,
  match s_obj (jw_sess w) with
  | Some p => (w, Ret p)
  | None =>
      match current w with
      | None => (w, Exc stale)
      | Some p =>
          let p := apply_writes (s_dirty (jw_sess w)) p in
          (set_sess w (mkSess (Some p) (s_dirty (jw_sess w)) (s_locked (jw_sess w)) (s_alias (jw_sess w))), Ret p)
      end
  end.

(** [project.column = value]. *)
Definition assign (x : write) : J unit := jmod (λ w,
  set_sess w (mkSess (apply_write x <$> s_obj (jw_sess w)) (s_dirty (jw_sess w) ++ [x]) (s_locked (jw_sess w))
                (s_alias (jw_sess w)))).

(** The value of an attribute changed in place: the loaded object shows it, the session sees no
    change. *)
Definition touch (x : write) : J unit := jmod (λ w,
  set_sess w (mkSess (apply_write x <$> s_obj (jw_sess w)) (s_dirty (jw_sess w)) (s_locked (jw_sess w))
                (s_alias (jw_sess w)))).

(** [topology = project.topology or {}]. *)
Definition load_topology : J unit :=
  p <-' project;;
  let t := p_topology (d_row p) in
  alias <-' jget (λ w, s_alias (jw_sess w));;
  if alias then jret tt
  else jmod (λ w, set_topo (set_sess w (mkSess (s_obj (jw_sess w)) (s_dirty (jw_sess w)) (s_locked (jw_sess w)) (truthy t)))
               (v_or t (VDict []))).

(** The canvas attribute of the project object, read. *)
Definition project_topology : J val :=
  p <-' project;; jget (λ w, if s_alias (jw_sess w) then jw_topo w else p_topology (d_row p)).

(** The assignment of [topology] to the attribute. *)
Definition save_topology : J unit :=
  alias <-' jget (λ w, s_alias (jw_sess w));;
  if alias then jret tt else topo <-' topology;; assign (WTopology topo).

(** [s.commit()]. *)
Definition commit : J unit := λ w,
  match s_dirty (jw_sess w) with
  | [] => (set_sess w new_session, Ret tt)
  | ws =>
      match current w with
      | None => (w, Exc stale)
      | Some _ => (add_event (set_sess (update_row (apply_writes ws) w) new_session) (Committed ws), Ret tt)
      end
  end.

(** A called function that is given the session: it queries, and it may have committed. *)
Definition in_session {A} (m : J A) : J A :=
  flush;;;
  λ w, match m w with
       | (w, Blocked) => (w, Blocked)
       | (w, o) =>
           if env_commits env (jw_log w) then
             let '(w, c) := commit w in
             match c with Ret _ => (w, o) | Exc e => (w, Exc e) | Blocked => (w, Blocked) end
           else (w, o)
       end.

(** [s.close()]: what was not committed is rolled back. *)
Definition close_session (w : jobw) : jobw := set_sess w new_session.

(** An update of the row by another session of the same thread. *)
Definition elsewhere (x : write) : J unit := λ w,
  if s_locked (jw_sess w) then (w, Blocked)
  else (update_row (apply_write x) w, Ret tt).

(** ** Progress *)

(** [deploy_service._update_deploy_progress]: Redis, the clients, then the row, in a session of
    its own; an exception there is dropped. *)
Definition update_deploy_progress (step detail : string) : J unit :=
  jmod (λ w, set_progress w (Some (mkProgress step detail None)));;;
  emit (Progress step detail);;;
  elsewhere (WProgress (Some (mkProgress step detail None))).

(** [deploy_service._delete_deploy_progress] *)
Definition delete_deploy_progress : J unit :=
  jmod (λ w, set_progress w None);;; emit ProgressDeleted.

(** [deploy_service._checkpoint] *)
Definition checkpoint (step : string) : J unit :=
  b <-' query_project;;
  if negb b then jret tt
  else
    assign (WStep (Some step));;;
    o <-' jget jw_progress;;
    match o with Some p => assign (WProgress (Some p)) | None => jret tt end;;;
    commit.

(** [deploy_service._project_deleted]: a session of its own reads the committed row. *)
Definition project_deleted : J bool :=
  jget (λ w, match current w with None => true | Some p => String.eqb (d_state p) "deleting" end).

(** [deploy_service._set_deploy_error] *)
Definition set_deploy_error (msg : string) : J unit :=
  assign (WState "error");;; assign (WError (Some msg));;; commit.

(** [deploy_service._set_deploy_error_and_notify] *)
Definition set_deploy_error_and_notify (msg : string) : J unit :=
  set_deploy_error msg;;; emit (Notify "error" msg).
End Job.

(** [deploy_service.DEPLOY_STEPS] *)
Definition DEPLOY_STEPS : list string :=
  ["eips"; "networks"; "seeds"; "images"; "container_pull"; "disks"; "vms"; "containers"; "starting"; "dns"; "done"].

(** The [index] method of a list. *)
Fixpoint index_of (x : string) (l : list string) : option nat :=
  match l with
  | [] => None
  | y :: l' => if String.eqb x y then Some 0%nat else S <$> index_of x l'
  end.

(** [deploy_service._should_skip] *)
Definition should_skip (resume_from : option string) (step : string) : bool :=
  match resume_from with
  | Some (String _ _ as r) =>
      match index_of step DEPLOY_STEPS, index_of r DEPLOY_STEPS with
      | Some i, Some j => (i <? j)%nat
      | _, _ => false
      end
  | _ => false
  end.

(** ** Steps of a job *)

Lemma jbind_Ret {A B} (m : J A) (f : A → J B) w w' a : m w = (w', Ret a) → jbind m f w = f a w'.
Proof. unfold jbind. by intros ->. Qed.

Lemma jbind_Exc {A B} (m : J A) (f : A → J B) w w' e : m w = (w', Exc e) → jbind m f w = (w', Exc e).
Proof. unfold jbind. by intros ->. Qed.

Lemma jbind_lift {A B} exn_text (r : res A) (f : A → J B) w a :
  r = Ok a → jbind (jlift exn_text r) f w = f a w.
Proof. by intros ->. Qed.

Lemma jbind_get {A B} (g : jobw → A) (f : A → J B) w : jbind (jget g) f w = f (g w) w.
Proof. done. Qed.

Lemma jbind_ret {A B} (a : A) (f : A → J B) w : jbind (jret a) f w = f a w.
Proof. done. Qed.
