(* ===== verification/VmStart.v ===== *)
(** * Starting VMs and containers: [services/deploy_service.py]

    The order in which a deployment starts its VMs - the entries of [startOrder] one after the
    other, then the others together - and its containers. *)
From stdpp Require Import prelude strings gmap.
From S2P Require Import Prelude PyStr PyVal PyLemmas Db TopoNodes Vxlan TopologyExtract JobMonad.

Open Scope list_scope.

Definition VMS_START_PATH : string := "/vms/start".

Definition as_text (v : val) : res string := match v with VStr s => Ok s | _ => Raise TypeError end.

Section Start.
Context (env : environment) (exn_text : exn → string) (pid : string).
Context (sha256_hex : string → string).

Notation lift := (jlift exn_text).
Notation domain := (vm_domain_name sha256_hex pid).

(** [start_job] and [wait_for_job] of the agent client: the job's id, its final status and error. *)
Definition agent_start (host : Host) (path name : string) : J string :=
  text_of env "start_job" [h_id host; path; name].
Definition agent_wait (host : Host) (job_id : string) (timeout : Z) : J (string * string) :=
  a <-' ask env "wait_for_job" [h_id host; job_id; str_of_Z timeout];;
  match a with Texts [status; error] => jret (status, error) | _ => unexpected end.

Definition vm_with_id (vms : list val) (vm_id : val) : res (option val) :=
  find_res (λ v, i <- idx v "node_id";; Ok (py_eq i vm_id)) vms.

Definition pause (delay : val) : J unit :=
  seconds <-' lift (num delay);;
  if 0 <? seconds then emit (Call "sleep" [str_of_Z seconds]) else jret tt.

(** [deploy_service._start_ordered_vms:1969-1990] one entry. *)
Definition start_ordered_vm (host : Host) (vms : list val) (st : list val * list (val * string)) (entry : val)
    : J (list val * list (val * string)) :=
  let '(ordered_vm_ids, failed) := st in
  vm_id <-' lift (get entry "vmId" vstr_empty);;
  o <-' lift (vm_with_id vms vm_id);;
  match o with
  | None => jret st
  | Some vm =>
      ordered_vm_ids <-' lift (vadd vm_id ordered_vm_ids);;
      auto <-' lift (get entry "autoStart" (VBool true));;
      name <-' lift (idx vm "name");;
      if bool_decide (auto = VBool false) then jret (ordered_vm_ids, failed)
      else
        delay <-' lift (get entry "delaySeconds" (VInt 0));;
        pause delay;;;
        node_id <-' lift (i <- idx vm "node_id";; as_text i);;
        catch_troshkad
          (job_id <-' agent_start host VMS_START_PATH (domain node_id);;
           agent_wait host job_id 120;;;
           jret (ordered_vm_ids, failed))
          (λ msg, jret (ordered_vm_ids, failed ++ [(name, msg)]))
  end.

(** [deploy_service._start_ordered_vms] *)
Definition start_ordered_vms (host : Host) (vms start_order : list val)
    : J (list val * list (val * string)) :=
  jfold (start_ordered_vm host vms) ([], []) start_order.

(** [deploy_service._start_unordered_vms:1999-2002] *)
Definition power_on_map (topology : val) : res (list (val * val)) :=
  ns <- nodes_of topology;;
  for_each ns [] (λ node m,
    t <- has_type node "vmNode";;
    if negb t then Ok m
    else
      i <- idx node "id";;
      data <- data_of node;;
      on <- get data "powerOnAtDeploy" (VBool true);;
      vset i on m).

(** [deploy_service._start_unordered_vms:2006-2022] one VM: its start is requested, not awaited. *)
Definition request_vm (host : Host) (ordered_vm_ids : list val) (power : list (val * val))
    (st : list (val * string) * list (val * string)) (vm : val)
    : J (list (val * string) * list (val * string)) :=
  let '(jobs, failed) := st in
  node_id <-' lift (idx vm "node_id");;
  ordered <-' lift (vin node_id ordered_vm_ids);;
  if ordered then jret st
  else
    on <-' lift (vget node_id power);;
    name <-' lift (idx vm "name");;
    if negb (truthy (default (VBool true) on)) then jret st
    else
      node_id <-' lift (as_text node_id);;
      catch_troshkad
        (job_id <-' agent_start host VMS_START_PATH (domain node_id);;
         jret (jobs ++ [(name, job_id)], failed))
        (λ msg, jret (jobs, failed ++ [(name, msg)])).

(** [deploy_service._start_unordered_vms] *)
Definition start_unordered_vms (host : Host) (vms : list val) (ordered_vm_ids : list val) (topology : val)
    : J (list (val * string)) :=
  power <-' lift (power_on_map topology);;
  st <-' jfold (request_vm host ordered_vm_ids power) ([], []) vms;;
  let '(jobs, failed) := st in
  jfold (λ failed job,
    catch_troshkad (agent_wait host job.2 120;;; jret failed)
      (λ msg, jret (failed ++ [(job.1, msg)]))) failed jobs.

(** [deploy_service._start_vms_via_troshkad]: the VMs that failed, with their errors. *)
Definition start_vms_via_troshkad (host : Host) (topology : val) : J (list (val * string)) :=
  vms <-' lift (extract_vms topology);;
  start_order <-' lift (get topology "startOrder" empty_list);;
  st <-' (if truthy start_order
          then entries <-' lift (iter start_order);; start_ordered_vms host vms entries
          else jret ([], []));;
  let '(ordered_vm_ids, failed) := st in
  unordered_failed <-' start_unordered_vms host vms ordered_vm_ids topology;;
  jret (failed ++ unordered_failed).

(** ** Containers *)

(** [deploy_service._wait_troshkad_job]: a failed job raises. *)
Definition wait_troshkad_job (host : Host) (job_id : string) (timeout : Z) (what : string) : J unit :=
  job <-' agent_wait host job_id timeout;;
  if String.eqb job.1 "failed" then jexc (XTroshkad (what +:+ " failed: " +:+ job.2)) else jret tt.

(** [deploy_service._start_container] *)
Definition start_container (host : Host) (container_name : string) : J unit :=
  job_id <-' agent_start host "/containers/start" container_name;;
  wait_troshkad_job host job_id 30 "Container start".

(** [deploy_service._start_pod] *)
Definition start_pod (host : Host) (full_pod_name : string) (timeout : Z) : J unit :=
  job_id <-' agent_start host "/pods/start" full_pod_name;;
  wait_troshkad_job host job_id timeout "Pod start".

Definition project_prefix : string := "troshka-" +:+ str_take 8 pid +:+ "-".

(** [deploy_service._start_unordered_container] *)
Definition start_unordered_container (host : Host) (ctr : val) : J unit :=
  is_pod <-' lift (get ctr "is_pod" VNone);;
  if truthy is_pod then
    name <-' lift (idx ctr "name");;
    build <-' lift (get ctr "build_content" (VBool true));;
    start_pod host (project_prefix +:+ py_str name) (if truthy build then 900 else 120)
  else
    i <-' lift (i <- idx ctr "node_id";; slice8 i);;
    start_container host (project_prefix +:+ py_str i).

(** [deploy_service._mark_container_node_running] on the list of nodes. *)
Fixpoint mark_running (node_id : val) (nodes : list val) : res (list val) :=
  match nodes with
  | [] => Ok []
  | node :: nodes' =>
      i <- idx node "id";;
      if py_eq i node_id then
        '(node, data) <- setdefault node "data" empty_dict;;
        data <- set_item data "status" (VStr "running");;
        node <- set_item node "data" data;;
        Ok (node :: nodes')
      else rest <- mark_running node_id nodes';; Ok (node :: rest)
  end.

(** [deploy_service._mark_container_node_running] *)
Definition mark_container_node_running (node_id : val) : J unit :=
  topo <-' jget jw_topo;;
  ns <-' lift (nodes_of topo);;
  ns <-' lift (mark_running node_id ns);;
  jmod (λ w, set_topo w (update_list (jw_topo w) "nodes" ns)).

(** [deploy_service._start_ordered_containers:9688-9701] one entry. *)
Definition start_ordered_container (host : Host) (containers : list val) (auto_start : bool)
    (started_ids : list val) (entry : val) : J (list val) :=
  type <-' lift (get entry "entryType" VNone);;
  if negb (eq_str type "container") then jret started_ids
  else
    auto <-' lift (get entry "autoStart" (VBool true));;
    if negb auto_start || bool_decide (auto = VBool false) then jret started_ids
    else
      vm_id <-' lift (get entry "vmId" vstr_empty);;
      ctr_id <-' lift (get entry "containerId" vm_id);;
      o <-' lift (vm_with_id containers ctr_id);;
      match o with
      | None => jret started_ids
      | Some ctr =>
          started_ids <-' lift (vadd ctr_id started_ids);;
          delay <-' lift (get entry "delaySeconds" (VInt 0));;
          pause delay;;;
          start_unordered_container host ctr;;;
          mark_container_node_running ctr_id;;;
          jret started_ids
      end.

(** [deploy_service._start_ordered_containers] *)
Definition start_ordered_containers (host : Host) (containers start_order : list val) (auto_start : bool)
    : J (list val) :=
  jfold (start_ordered_container host containers auto_start) [] start_order.

(** [deploy_service._deploy_start_containers] *)
Definition deploy_start_containers (host : Host) (auto_start : bool) : J unit :=
  topo <-' jget jw_topo;;
  containers <-' lift (extract_containers topo);;
  if bool_decide (containers = []) || negb auto_start then jret tt
  else
    start_order <-' lift (o <- get topo "startOrder" empty_list;; iter o);;
    started_ids <-' start_ordered_containers host containers start_order auto_start;;
    jeach containers (λ ctr,
      node_id <-' lift (idx ctr "node_id");;
      started <-' lift (vin node_id started_ids);;
      if started then jret tt
      else start_unordered_container host ctr;;; mark_container_node_running node_id).
End Start.

(** ** What is started *)

Section StartFacts.
Context (env : environment) (exn_text : exn → string) (pid : string) (sha256_hex : string → string).
Notation domain := (vm_domain_name sha256_hex pid).

(** An agent answers as the client promises: an id or a finished job, or [TroshkadError]. *)
Definition agent_answers : Prop := ∀ log args t,
  ((∃ s, (env_answer env log (Call "start_job" args) t).1 = Text s) ∨
   ∃ m, (env_answer env log (Call "start_job" args) t).1 = Raises (XTroshkad m)) ∧
  ((∃ st er, (env_answer env log (Call "wait_for_job" args) t).1 = Texts [st; er]) ∨
   ∃ m, (env_answer env log (Call "wait_for_job" args) t).1 = Raises (XTroshkad m)).

(** No call of an agent raises, whatever becomes of the job. *)
Definition agent_reachable : Prop := ∀ log args t,
  (∃ s, (env_answer env log (Call "start_job" args) t).1 = Text s) ∧
  (∃ st er, (env_answer env log (Call "wait_for_job" args) t).1 = Texts [st; er]).

(** The answer to a call made after [log]. *)
Definition says (log : list event) (e : event) (a : answer) : Prop := ∃ t, (env_answer env log e t).1 = a.

(** ** The calls of a start *)

Section Calls.
Context (host : Host).

Definition start_call (i : string) : event := Call "start_job" [h_id host; VMS_START_PATH; domain i].
Definition wait_call (job : string) : event := Call "wait_for_job" [h_id host; job; str_of_Z 120].
Definition sleep_calls (delay : Z) : list event := if 0 <? delay then [Call "sleep" [str_of_Z delay]] else [].

(** A VM started and awaited: the calls after [log], and what is reported of them. *)
Inductive started (name : val) (i : string) (log : list event) : list event → list (val * string) → Prop :=
| StartRefused m :
    says log (start_call i) (Raises (XTroshkad m)) → started name i log [start_call i] [(name, m)]
| WaitRefused job m :
    says log (start_call i) (Text job) →
    says (log ++ [start_call i]) (wait_call job) (Raises (XTroshkad m)) →
    started name i log [start_call i; wait_call job] [(name, m)]
| Finished job status error :
    says log (start_call i) (Text job) →
    says (log ++ [start_call i]) (wait_call job) (Texts [status; error]) →
    started name i log [start_call i; wait_call job] [].

(** VMs, each with its delay and its name, one after the other: the next one's delay begins when
    the wait for this one is over. *)
Inductive in_turn : list (Z * val * string) → list event → list event → list (val * string) → Prop :=
| TurnsNil log : in_turn [] log [] []
| TurnsCons delay name i turns log evs fs evs' fs' :
    started name i (log ++ sleep_calls delay) evs fs →
    in_turn turns (log ++ sleep_calls delay ++ evs) evs' fs' →
    in_turn ((delay, name, i) :: turns) log (sleep_calls delay ++ evs ++ evs') (fs ++ fs').

(** VMs requested together: the calls, the jobs in the same order, and what is reported. *)
Inductive requested : list (val * string) → list event → list event → list (val * string) →
    list (val * string) → Prop :=
| RequestedNil log : requested [] log [] [] []
| RequestedJob name i vms log job evs jobs fs :
    says log (start_call i) (Text job) → requested vms (log ++ [start_call i]) evs jobs fs →
    requested ((name, i) :: vms) log (start_call i :: evs) ((name, job) :: jobs) fs
| RequestRefused name i vms log m evs jobs fs :
    says log (start_call i) (Raises (XTroshkad m)) → requested vms (log ++ [start_call i]) evs jobs fs →
    requested ((name, i) :: vms) log (start_call i :: evs) jobs ((name, m) :: fs).

(** Jobs awaited one after the other. *)
Inductive awaited : list (val * string) → list event → list event → list (val * string) → Prop :=
| AwaitedNil log : awaited [] log [] []
| AwaitedJob name job jobs log status error evs fs :
    says log (wait_call job) (Texts [status; error]) → awaited jobs (log ++ [wait_call job]) evs fs →
    awaited ((name, job) :: jobs) log (wait_call job :: evs) fs
| AwaitRefused name job jobs log m evs fs :
    says log (wait_call job) (Raises (XTroshkad m)) → awaited jobs (log ++ [wait_call job]) evs fs →
    awaited ((name, job) :: jobs) log (wait_call job :: evs) ((name, m) :: fs).

(** Nothing is reported of calls that are answered. *)
Lemma reachable_says log f args m :
  agent_reachable → says log (Call f args) (Raises (XTroshkad m)) → f ≠ "start_job" ∧ f ≠ "wait_for_job".
Proof.
  intros Hr [t Ht]. split; intros ->; destruct (Hr log args t) as [(s & Hs) (st & er & Hw)]; congruence.
Qed.

Lemma in_turn_reported turns log evs fs : agent_reachable → in_turn turns log evs fs → fs = [].
Proof.
  intros Hr. induction 1 as [|delay name i turns log evs fs evs' fs' Hst _ ->]; [done|]. rewrite app_nil_r.
  destruct Hst as [m H|job m _ H|]; [by apply reachable_says in H as [[] _]|by apply reachable_says in H as [_ []]|done].
Qed.
Lemma requested_reported vms log evs jobs fs : agent_reachable → requested vms log evs jobs fs → fs = [].
Proof. intros Hr. induction 1 as [|? ? ? ? ? ? ? ? _ _ IH|? ? ? ? ? ? ? ? H _ _]; [done..|]. by apply reachable_says in H as [[] _]. Qed.
Lemma awaited_reported jobs log evs fs : agent_reachable → awaited jobs log evs fs → fs = [].
Proof. intros Hr. induction 1 as [|? ? ? ? ? ? ? ? _ _ IH|? ? ? ? ? ? ? H _ _]; [done..|]. by apply reachable_says in H as [_ []]. Qed.

(** ** The VMs and the entries *)

(** The fields of a VM and of an entry. *)
Definition vm_key (v : val) : string := match idx v "node_id" with Ok (VStr s) => s | _ => "" end.
Definition vm_label (v : val) : val := match idx v "name" with Ok n => n | Raise _ => VNone end.
Definition wf_vm (v : val) : Prop := idx v "node_id" = Ok (VStr (vm_key v)) ∧ idx v "name" = Ok (vm_label v).

Definition entry_vm (e : val) : string := match get e "vmId" vstr_empty with Ok (VStr s) => s | _ => "" end.
Definition entry_auto (e : val) : bool :=
  match get e "autoStart" (VBool true) with Ok v => negb (bool_decide (v = VBool false)) | _ => false end.
Definition entry_delay (e : val) : Z :=
  match (d <- get e "delaySeconds" (VInt 0);; num d)%py with Ok z => z | Raise _ => 0 end.
Definition wf_entry (e : val) : Prop :=
  get e "vmId" vstr_empty = Ok (VStr (entry_vm e)) ∧ is_Ok (get e "autoStart" (VBool true)) ∧
  (d <- get e "delaySeconds" (VInt 0);; num d)%py = Ok (entry_delay e).

(** The first VM with an id. *)
Definition vm_at (vms : list val) (i : string) : option val := List.find (λ v, streq i (vm_key v)) vms.

Lemma vm_with_id_spec vms i : Forall wf_vm vms → vm_with_id vms (VStr i) = Ok (vm_at vms i).
Proof.
  unfold vm_with_id, vm_at. induction 1 as [|v vms [Hk _] Hall IH]; [done|].
  cbn [find_res List.find]. rewrite Hk. cbn [bind]. rewrite py_eq_str.
  change (streq i (vm_key v)) with (bool_decide (i = vm_key v)).
  rewrite (bool_decide_ext (vm_key v = i) (i = vm_key v)) by (split; congruence).
  by case_bool_decide.
Qed.

(** What the start order starts: delay, name and id. *)
Definition ordered_turn (vms : list val) (e : val) : option (Z * val * string) :=
  match vm_at vms (entry_vm e) with
  | Some v => if entry_auto e then Some (entry_delay e, vm_label v, entry_vm e) else None
  | None => None
  end.
Definition ordered_turns (entries vms : list val) : list (Z * val * string) := omap (ordered_turn vms) entries.

(** What is left to the end and powered on with the deployment: name and id. *)
Definition powered (power : list (val * val)) (i : string) : bool :=
  truthy (default (VBool true) (vlookup (VStr i) power)).
Definition unordered_vms (entries : list val) (power : list (val * val)) (vms : list val) : list (val * string) :=
  map (λ v, (vm_label v, vm_key v))
    (List.filter (λ v, negb (bool_decide (vm_key v ∈ map entry_vm entries)) && powered power (vm_key v)) vms).

(** ** What the code does *)

(** A call adds itself to the log; its answer is the one for that log. *)
Lemma ask_says f args w w' o :
  ask env f args w = (w', o) →
  jw_log w' = jw_log w ++ [Call f args] ∧
  ∃ a, says (jw_log w) (Call f args) a ∧ o = match a with Raises x => Exc x | a => Ret a end.
Proof.
  unfold ask. destruct (env_answer env _ _ _) as [a t] eqn:E. intros [= <- <-]. split; [done|].
  exists a. split; [|done]. exists (jw_topo w). by rewrite E.
Qed.

Lemma agent_start_spec i w :
  agent_answers →
  ∃ w', jw_log w' = jw_log w ++ [start_call i] ∧
    ((∃ job, agent_start env host VMS_START_PATH (domain i) w = (w', Ret job) ∧
        says (jw_log w) (start_call i) (Text job)) ∨
     ∃ m, agent_start env host VMS_START_PATH (domain i) w = (w', Exc (XTroshkad m)) ∧
        says (jw_log w) (start_call i) (Raises (XTroshkad m))).
Proof.
  intros Ha. unfold agent_start, text_of, jbind.
  destruct (ask env "start_job" [h_id host; VMS_START_PATH; domain i] w) as [w' o] eqn:E. exists w'.
  apply ask_says in E as (Hlog & a & [t Hsay] & ->). split; [done|].
  destruct (Ha (jw_log w) [h_id host; VMS_START_PATH; domain i] t) as [[[s Hs]|[m Hm]] _].
  - left. exists s. rewrite Hs in Hsay. subst a. split; [done|]. by exists t.
  - right. exists m. rewrite Hm in Hsay. subst a. split; [done|]. by exists t.
Qed.

Lemma agent_wait_spec job w :
  agent_answers →
  ∃ w', jw_log w' = jw_log w ++ [wait_call job] ∧
    ((∃ r st er, agent_wait env host job 120 w = (w', Ret r) ∧ says (jw_log w) (wait_call job) (Texts [st; er])) ∨
     ∃ m, agent_wait env host job 120 w = (w', Exc (XTroshkad m)) ∧
        says (jw_log w) (wait_call job) (Raises (XTroshkad m))).
Proof.
  intros Ha. unfold agent_wait, jbind.
  destruct (ask env "wait_for_job" [h_id host; job; str_of_Z 120] w) as [w' o] eqn:E. exists w'.
  apply ask_says in E as (Hlog & a & [t Hsay] & ->). split; [done|].
  destruct (Ha (jw_log w) [h_id host; job; str_of_Z 120] t) as [_ [(st & er & Hs)|[m Hm]]].
  - left. exists (st, er), st, er. rewrite Hs in Hsay. subst a. split; [done|]. by exists t.
  - right. exists m. rewrite Hm in Hsay. subst a. split; [done|]. by exists t.
Qed.

Lemma pause_spec d z w :
  num d = Ok z → ∃ w', pause exn_text d w = (w', Ret tt) ∧ jw_log w' = jw_log w ++ sleep_calls z.
Proof.
  intros Hd. unfold pause, sleep_calls. rewrite (jbind_lift _ _ _ _ _ Hd).
  destruct (0 <? z); eexists; (split; [reflexivity|]); [done|by rewrite app_nil_r].
Qed.

(** Starting a VM and waiting for it, an error of the agent being noted. *)
Lemma start_and_wait_spec {A} (ids : A) failed name i w :
  agent_answers →
  ∃ w' evs fs, catch_troshkad (job_id <-' agent_start env host VMS_START_PATH (domain i);;
                  agent_wait env host job_id 120;;; jret (ids, failed))
                 (λ msg, jret (ids, failed ++ [(name, msg)])) w = (w', Ret (ids, failed ++ fs)) ∧
    jw_log w' = jw_log w ++ evs ∧ started name i (jw_log w) evs fs.
Proof.
  intros Ha. unfold catch_troshkad, jcatch, jbind, jret.
  destruct (agent_start_spec i w Ha) as (w1 & Hl1 & [(job & H1 & Hs1)|(m & H1 & Hs1)]); rewrite H1.
  - destruct (agent_wait_spec job w1 Ha) as (w2 & Hl2 & [(r & st & er & H2 & Hs2)|(m & H2 & Hs2)]); rewrite H2;
      exists w2, [start_call i; wait_call job]; rewrite Hl2, Hl1, <-app_assoc; rewrite Hl1 in Hs2.
    + exists []. rewrite app_nil_r. split_and!; [done..|]. by eapply Finished.
    + exists [(name, m)]. split_and!; [done..|]. by apply WaitRefused.
  - exists w1, [start_call i], [(name, m)]. split_and!; [done..|]. by apply StartRefused.
Qed.

Lemma start_ordered_vm_spec vms ids failed e w :
  agent_answers → Forall wf_vm vms → wf_entry e →
  ∃ w' ids' evs fs,
    start_ordered_vm env exn_text pid sha256_hex host vms (ids, failed) e w = (w', Ret (ids', failed ++ fs)) ∧
    (∀ i, VStr i ∈ ids' ↔ VStr i ∈ ids ∨ i = entry_vm e ∧ is_Some (vm_at vms i)) ∧
    jw_log w' = jw_log w ++ evs ∧
    match ordered_turn vms e with
    | Some (delay, name, i) => ∃ evs', evs = sleep_calls delay ++ evs' ∧
                                 started name i (jw_log w ++ sleep_calls delay) evs' fs
    | None => evs = [] ∧ fs = []
    end.
Proof.
  intros Ha Hv (Hid & [auto Hauto] & Hz). unfold start_ordered_vm, ordered_turn.
  rewrite (jbind_lift _ _ _ _ _ Hid), (jbind_lift _ _ _ _ _ (vm_with_id_spec vms (entry_vm e) Hv)).
  destruct (vm_at vms (entry_vm e)) as [v|] eqn:Hat.
  2: { exists w, ids, [], []. rewrite !app_nil_r. split_and!; try done. intros i. split; [by left|].
       intros [H|[-> [x Hx]]]; [done|congruence]. }
  assert (Hwf : wf_vm v ∧ vm_key v = entry_vm e).
  { apply find_some in Hat as [Hin Hk%streq_true]. split; [|done].
    eapply Forall_forall; [exact Hv|by apply list_elem_of_In]. }
  destruct Hwf as [[Hi Hn] Hk].
  destruct (vadd (VStr (entry_vm e)) ids) as [ids'|] eqn:Hadd; [|done].
  pose proof (vadd_str _ _ _ Hadd) as Hids. rewrite (jbind_lift _ _ _ _ _ eq_refl), (jbind_lift _ _ _ _ _ Hauto).
  rewrite (jbind_lift _ _ _ _ _ Hn). unfold entry_auto. rewrite Hauto.
  assert (Hset : ∀ i, VStr i ∈ ids' ↔ VStr i ∈ ids ∨ i = entry_vm e ∧ is_Some (vm_at vms i)).
  { intros i. rewrite Hids. split; [|intros [H|[-> _]]; auto]. intros [[= ->]|H]; [right|by left]. by rewrite Hat. }
  case_bool_decide; cbn [negb].
  { exists w, ids', [], []. rewrite !app_nil_r. by split_and!. }
  apply bind_Ok in Hz as (d & Hd & Hz). rewrite (jbind_lift _ _ _ _ _ Hd).
  destruct (pause_spec d (entry_delay e) w Hz) as (w1 & Hp & Hl1). rewrite (jbind_Ret _ _ _ _ _ Hp).
  rewrite (jbind_lift _ _ _ _ (entry_vm e)) by (by rewrite Hi, Hk).
  destruct (start_and_wait_spec ids' failed (vm_label v) (entry_vm e) w1 Ha) as (w2 & evs & fs & Heq & Hl2 & Hst).
  exists w2, ids', (sleep_calls (entry_delay e) ++ evs), fs. rewrite Heq, Hl2, Hl1, <-app_assoc. rewrite Hl1 in Hst.
  split_and!; [done..|]. by exists evs.
Qed.

Lemma start_ordered_vms_spec vms entries w :
  agent_answers → Forall wf_vm vms → Forall wf_entry entries →
  ∃ w' ids evs fs,
    start_ordered_vms env exn_text pid sha256_hex host vms entries w = (w', Ret (ids, fs)) ∧
    (∀ i, VStr i ∈ ids ↔ i ∈ map entry_vm entries ∧ is_Some (vm_at vms i)) ∧
    jw_log w' = jw_log w ++ evs ∧ in_turn (ordered_turns entries vms) (jw_log w) evs fs.
Proof.
  intros Ha Hv He. unfold start_ordered_vms.
  enough (H : ∀ ids failed, ∃ w' ids' evs fs,
    jfold (start_ordered_vm env exn_text pid sha256_hex host vms) (ids, failed) entries w = (w', Ret (ids', failed ++ fs)) ∧
    (∀ i, VStr i ∈ ids' ↔ VStr i ∈ ids ∨ i ∈ map entry_vm entries ∧ is_Some (vm_at vms i)) ∧
    jw_log w' = jw_log w ++ evs ∧ in_turn (ordered_turns entries vms) (jw_log w) evs fs).
  { destruct (H [] []) as (w' & ids & evs & fs & Heq & Hids & Hs & Hf). exists w', ids, evs, fs.
    split_and!; [done| |done|done]. intros i. rewrite Hids, elem_of_nil. tauto. }
  revert w. induction He as [|e entries He Hall IH]; intros w ids failed; cbn [jfold map].
  { exists w, ids, [], []. rewrite !app_nil_r. split_and!; [done| |done|constructor].
    intros i. rewrite elem_of_nil. tauto. }
  destruct (start_ordered_vm_spec vms ids failed e w Ha Hv He) as (w1 & ids1 & evs1 & fs1 & H1 & Hi1 & Hl1 & Ht1).
  rewrite (jbind_Ret _ _ _ _ _ H1).
  destruct (IH w1 ids1 (failed ++ fs1)) as (w2 & ids2 & evs2 & fs2 & H2 & Hi2 & Hl2 & Ht2). rewrite H2.
  exists w2, ids2, (evs1 ++ evs2), (fs1 ++ fs2). rewrite (app_assoc failed), Hl2, Hl1, <-(app_assoc (jw_log w)). split_and!; [done| |done|].
  - intros i. rewrite Hi2, Hi1, elem_of_cons. naive_solver.
  - unfold ordered_turns. cbn [omap list_omap]. rewrite Hl1 in Ht2.
    destruct (ordered_turn vms e) as [[[delay name] i]|].
    + destruct Ht1 as (evs' & -> & Hst). rewrite <-app_assoc. by apply TurnsCons.
    + destruct Ht1 as [-> ->]. by rewrite app_nil_r in Ht2.
Qed.

(** Whether a VM is left to the end and powered on. *)
Definition wanted (ordered : list val) (power : list (val * val)) (v : val) : bool :=
  negb (bool_decide (VStr (vm_key v) ∈ ordered)) && powered power (vm_key v).

Lemma request_vm_spec ordered power jobs failed vm w :
  agent_answers → wf_vm vm →
  request_vm env exn_text pid sha256_hex host ordered power (jobs, failed) vm w =
    if wanted ordered power vm
    then catch_troshkad (job_id <-' agent_start env host VMS_START_PATH (domain (vm_key vm));;
                         jret (jobs ++ [(vm_label vm, job_id)], failed))
           (λ msg, jret (jobs, failed ++ [(vm_label vm, msg)])) w
    else (w, Ret (jobs, failed)).
Proof.
  intros Ha [Hi Hn]. unfold request_vm, wanted. rewrite (jbind_lift _ _ _ _ _ Hi).
  assert (Hv : vin (VStr (vm_key vm)) ordered = Ok (bool_decide (VStr (vm_key vm) ∈ ordered))).
  { unfold vin. cbn [hkey hashable bind]. by rewrite vmem_str. }
  rewrite (jbind_lift _ _ _ _ _ Hv). case_bool_decide; cbn [negb andb]; [done|].
  rewrite (jbind_lift _ _ _ _ _ (eq_refl : vget (VStr (vm_key vm)) power = Ok (vlookup (VStr (vm_key vm)) power))).
  rewrite (jbind_lift _ _ _ _ _ Hn). fold (powered power (vm_key vm)).
  destruct (powered power (vm_key vm)); cbn [negb]; [|done].
  by rewrite (jbind_lift _ _ _ _ _ (eq_refl : as_text (VStr (vm_key vm)) = Ok (vm_key vm))).
Qed.

Lemma request_vms_spec ordered power vms jobs failed w :
  agent_answers → Forall wf_vm vms →
  ∃ w' evs jobs' fs,
    jfold (request_vm env exn_text pid sha256_hex host ordered power) (jobs, failed) vms w
      = (w', Ret (jobs ++ jobs', failed ++ fs)) ∧
    jw_log w' = jw_log w ++ evs ∧
    requested (map (λ v, (vm_label v, vm_key v)) (List.filter (wanted ordered power) vms)) (jw_log w) evs jobs' fs.
Proof.
  intros Ha Hv. revert jobs failed w. induction Hv as [|vm vms Hvm Hall IH]; intros jobs failed w; cbn [jfold map List.filter].
  { exists w, [], [], []. rewrite !app_nil_r. split_and!; [done..|constructor]. }
  pose proof (request_vm_spec ordered power jobs failed vm w Ha Hvm) as H1.
  destruct (wanted ordered power vm) eqn:Ew; cbn [map]; [|rewrite (jbind_Ret _ _ _ _ _ H1); apply IH].
  unfold catch_troshkad, jcatch, jbind, jret in H1.
  destruct (agent_start_spec (vm_key vm) w Ha) as (w1 & Hl1 & [(job & Hr & Hs)|(m & Hr & Hs)]); rewrite Hr in H1;
    rewrite (jbind_Ret _ _ _ _ _ H1).
  - destruct (IH (jobs ++ [(vm_label vm, job)]) failed w1) as (w2 & evs & jobs' & fs & H2 & Hl2 & Hq). rewrite H2.
    exists w2, (start_call (vm_key vm) :: evs), ((vm_label vm, job) :: jobs'), fs. rewrite <-!app_assoc, Hl2, Hl1, <-(app_assoc (jw_log w)).
    split_and!; [done..|]. apply RequestedJob; [done|]. by rewrite <-Hl1.
  - destruct (IH jobs (failed ++ [(vm_label vm, m)]) w1) as (w2 & evs & jobs' & fs & H2 & Hl2 & Hq). rewrite H2.
    exists w2, (start_call (vm_key vm) :: evs), jobs', ((vm_label vm, m) :: fs). rewrite <-!app_assoc, Hl2, Hl1, <-(app_assoc (jw_log w)).
    split_and!; [done..|]. apply RequestRefused; [done|]. by rewrite <-Hl1.
Qed.

Lemma await_jobs_spec (jobs : list (val * string)) failed w :
  agent_answers →
  ∃ w' evs fs,
    jfold (λ failed job, catch_troshkad (agent_wait env host job.2 120;;; jret failed)
             (λ msg, jret (failed ++ [(job.1, msg)]))) failed jobs w = (w', Ret (failed ++ fs)) ∧
    jw_log w' = jw_log w ++ evs ∧ awaited jobs (jw_log w) evs fs.
Proof.
  intros Ha. revert failed w. induction jobs as [|[name job] jobs IH]; intros failed w; cbn [jfold].
  { exists w, [], []. rewrite !app_nil_r. split_and!; [done..|constructor]. }
  set (body := λ failed job, catch_troshkad _ _) in *.
  destruct (agent_wait_spec job w Ha) as (w1 & Hl1 & [(r & st & er & Hr & Hs)|(m & Hr & Hs)]).
  - assert (H1 : body failed (name, job) w = (w1, Ret failed)).
    { unfold body, catch_troshkad, jcatch, jbind, jret. cbn [fst snd]. by rewrite Hr. }
    rewrite (jbind_Ret _ _ _ _ _ H1). destruct (IH failed w1) as (w2 & evs & fs & H2 & Hl2 & Hq). rewrite H2.
    exists w2, (wait_call job :: evs), fs. rewrite Hl2, Hl1, <-(app_assoc (jw_log w)). split_and!; [done..|].
    eapply AwaitedJob; [done|]. by rewrite <-Hl1.
  - assert (H1 : body failed (name, job) w = (w1, Ret (failed ++ [(name, m)]))).
    { unfold body, catch_troshkad, jcatch, jbind, jret. cbn [fst snd]. by rewrite Hr. }
    rewrite (jbind_Ret _ _ _ _ _ H1).
    destruct (IH (failed ++ [(name, m)]) w1) as (w2 & evs & fs & H2 & Hl2 & Hq). rewrite H2.
    exists w2, (wait_call job :: evs), ((name, m) :: fs). rewrite Hl2, Hl1, <-!app_assoc. split_and!; [done..|].
    apply AwaitRefused; [done|]. by rewrite <-Hl1.
Qed.
End Calls.

(** A canvas whose VMs and start order are well formed - a VM has an id and a name, an entry text
    for its VM and a number for its delay: its VMs, the entries, the power map. *)
Definition startable (topology : val) (vms entries : list val) (power : list (val * val)) : Prop :=
  extract_vms topology = Ok vms ∧ get topology "startOrder" empty_list = Ok (VList entries) ∧
  power_on_map topology = Ok power ∧ Forall wf_vm vms ∧ Forall wf_entry entries.

(** The ids started, in order. *)
Definition start_plan (entries vms : list val) (power : list (val * val)) : list string :=
  map snd (ordered_turns entries vms) ++ map snd (unordered_vms entries power vms).

Lemma start_plan_NoDup entries vms power :
  NoDup (map vm_key vms) → NoDup (map entry_vm entries) → NoDup (start_plan entries vms power).
Proof.
  intros Hn Hne. assert (Hturn : ∀ e t, ordered_turn vms e = Some t → t.2 = entry_vm e).
  { intros e t. unfold ordered_turn. destruct (vm_at _ _); [|done]. destruct (entry_auto e); [|done]. by intros [= <-]. }
  assert (Hsub : ∀ es i, i ∈ map snd (ordered_turns es vms) → i ∈ map entry_vm es).
  { intros es i Hi. apply list_elem_of_fmap in Hi as (t & -> & Ht).
    apply list_elem_of_omap in Ht as (e & He & Ht). rewrite (Hturn e t Ht). by apply list_elem_of_fmap_2. }
  unfold start_plan. apply NoDup_app. split_and!.
  - induction entries as [|e es IH]; [constructor|]. cbn in Hne. apply NoDup_cons in Hne as [He Hne].
    unfold ordered_turns in *. cbn [omap list_omap]. destruct (ordered_turn vms e) as [t|] eqn:Et; [|by apply IH].
    cbn. apply NoDup_cons. split; [|by apply IH]. rewrite (Hturn e t Et). intros Hin. apply He.
    by apply (Hsub es).
  - intros i Hi Hu. apply Hsub in Hi. unfold unordered_vms in Hu. rewrite map_map in Hu. cbn in Hu.
    apply list_elem_of_fmap in Hu as (v & -> & Hv). apply list_elem_of_In, filter_In in Hv as [_ Hv].
    apply andb_prop in Hv as [Hv _]. by apply negb_true_iff, bool_decide_eq_false in Hv.
  - unfold unordered_vms. rewrite map_map. cbn. by apply NoDup_map_filter.
Qed.

(** C30: Which VMs a deployment starts, in which order, and what it reports, for a canvas whose VMs
    and start order are well formed ([startable]) and an agent that answers as its client promises
    (an id or a finished job, or [TroshkadError]).  The calls it makes are exactly these: first, for
    each entry of the start order that names an existing VM and does not switch it off, in its
    order, the entry's delay, the start, and the wait for its job before the next entry's turn; then
    the starts of every VM that the start order does not name and the canvas does not keep off, all
    of them; then the waits for the jobs of these, in the same order.  A VM is reported, under its
    name, exactly for each call for it that raised, and with that error: so when no call raises no VM is
    reported, even if all the jobs failed.  With distinct ids and entries no VM is started twice. *)
Theorem vm_starts_exact host topology vms entries power w :
  agent_answers → startable topology vms entries power →
  (∃ w' turns fs starts jobs fs' waits fs'',
    start_vms_via_troshkad env exn_text pid sha256_hex host topology w = (w', Ret (fs ++ fs' ++ fs'')) ∧
    jw_log w' = jw_log w ++ turns ++ starts ++ waits ∧
    in_turn host (ordered_turns entries vms) (jw_log w) turns fs ∧
    requested host (unordered_vms entries power vms) (jw_log w ++ turns) starts jobs fs' ∧
    awaited host jobs (jw_log w ++ turns ++ starts) waits fs'' ∧
    (agent_reachable → fs ++ fs' ++ fs'' = [])) ∧
  (NoDup (map vm_key vms) → NoDup (map entry_vm entries) → NoDup (start_plan entries vms power)).
Proof.
  intros Ha (Hx & Hso & Hp & Hv & He). split; [|apply start_plan_NoDup]. unfold start_vms_via_troshkad.
  rewrite (jbind_lift _ _ _ _ _ Hx), (jbind_lift _ _ _ _ _ Hso).
  assert (H1 : ∃ w1 oids evs fs,
    (if truthy (VList entries)
     then entries <-' jlift exn_text (iter (VList entries));; start_ordered_vms env exn_text pid sha256_hex host vms entries
     else jret ([], [])) w = (w1, Ret (oids, fs)) ∧
    (∀ i, VStr i ∈ oids ↔ i ∈ map entry_vm entries ∧ is_Some (vm_at vms i)) ∧
    jw_log w1 = jw_log w ++ evs ∧ in_turn host (ordered_turns entries vms) (jw_log w) evs fs).
  { destruct entries as [|e es].
    - exists w, [], [], []. cbn. rewrite app_nil_r. split_and!; [done| |done|constructor].
      intros i. split; [by intros ?%elem_of_nil|by intros [?%elem_of_nil _]].
    - cbn [truthy]. rewrite (jbind_lift _ _ _ _ _ (eq_refl : iter (VList (e :: es)) = Ok (e :: es))).
      by apply start_ordered_vms_spec. }
  destruct H1 as (w1 & oids & turns & fs & H1 & Hids & Hl1 & Ht). rewrite (jbind_Ret _ _ _ _ _ H1).
  unfold start_unordered_vms.
  destruct (request_vms_spec host oids power vms [] [] w1 Ha Hv) as (w2 & starts & jobs & fs' & H2 & Hl2 & Hq).
  destruct (await_jobs_spec host jobs fs' w2 Ha) as (w3 & waits & fs'' & H3 & Hl3 & Hw).
  assert (Hun : (power <-' jlift exn_text (power_on_map topology);;
    st <-' jfold (request_vm env exn_text pid sha256_hex host oids power) ([], []) vms;;
    let '(jobs, failed) := st in
    jfold (λ failed job, catch_troshkad (agent_wait env host job.2 120;;; jret failed)
      (λ msg, jret (failed ++ [(job.1, msg)]))) failed jobs) w1 = (w3, Ret (fs' ++ fs''))).
  { rewrite (jbind_lift _ _ _ _ _ Hp), (jbind_Ret _ _ _ _ _ H2). exact H3. }
  rewrite (jbind_Ret _ _ _ _ _ Hun).
  assert (Hsel : List.filter (wanted oids power) vms = List.filter
    (λ v, negb (bool_decide (vm_key v ∈ map entry_vm entries)) && powered power (vm_key v)) vms).
  { apply filter_ext_in. intros v Hin. unfold wanted. do 2 f_equal. apply bool_decide_ext. rewrite Hids.
    split; [by intros [? _]|]. intros Hk. split; [done|]. unfold vm_at.
    destruct (List.find _ vms) as [x|] eqn:Ef; [by eexists|].
    pose proof (find_none _ _ Ef v Hin) as Hno. cbn in Hno. by rewrite streq_refl in Hno. }
  rewrite Hsel in Hq. exists w3, turns, fs, starts, jobs, fs', waits, fs''.
  rewrite Hl2, Hl1 in Hw. rewrite <-app_assoc in Hw. rewrite Hl1 in Hq.
  split; [done|]. split; [by rewrite Hl3, Hl2, Hl1, <-!app_assoc|]. split; [done|]. split; [done|]. split; [done|].
  intros Hr. rewrite (in_turn_reported _ _ _ _ _ Hr Ht), (requested_reported _ _ _ _ _ _ Hr Hq).
  by rewrite (awaited_reported _ _ _ _ _ Hr Hw).
Qed.
End StartFacts.

(** ** Worked examples *)

(** An agent that answers every call; every job it runs fails. *)
Definition failing_agent : environment :=
  mkEnv (λ _ e t, (match e with
                   | Call "start_job" _ => Text "job"
                   | Call _ _ => Texts ["failed"; "no such domain"]
                   | _ => Done
                   end, t))
    (λ _ rows, rows) (λ _, 0) (λ _, false).

Definition start_node (id name : string) (extra : list (string * val)) : val :=
  VDict [("id", VStr id); ("type", VStr "vmNode"); ("data", VDict (("name", VStr name) :: extra))].

Definition start_topology : val :=
  VDict [("nodes", VList [start_node "aaaaaaaa" "bastion" []; start_node "bbbbbbbb" "node" [];
                          start_node "cccccccc" "spare" [("powerOnAtDeploy", VBool false)];
                          start_node "dddddddd" "off" []]);
         ("startOrder", VList [VDict [("vmId", VStr "bbbbbbbb"); ("delaySeconds", VInt 5)];
                               VDict [("vmId", VStr "dddddddd"); ("autoStart", VBool false)];
                               VDict [("vmId", VStr "eeeeeeee")]])].

Definition start_host : Host :=
  mkHost "h1" None "active" "shared" 16 65536 0 0 (Some "10.0.0.5") None "connected" 1 None None true.

Definition empty_jobw (t : val) : jobw :=
  mkJobw [] (mkDB [] [] [] [] [] []) (mkCounters true ∅ ∅) (mkHwm None true) 100 None t new_session [].

Definition no_text (e : exn) : string := "".
Definition start_vms_of (t : val) : list val := match extract_vms t with Ok l => l | Raise _ => [] end.
Definition start_power_of (t : val) : list (val * val) := match power_on_map t with Ok l => l | Raise _ => [] end.
Definition start_entries_of (t : val) : list val := match get t "startOrder" empty_list with Ok (VList l) => l | _ => [] end.

Lemma failing_agent_reachable : agent_reachable failing_agent.
Proof. intros log args t. split; [by eexists|by do 2 eexists]. Qed.

Lemma failing_agent_answers : agent_answers failing_agent.
Proof. intros log args t. split; left; [by eexists|by do 2 eexists]. Qed.

(** Two VMs are started, in the order asked for, the second once the first is awaited; both jobs
    fail and neither is reported. *)
Lemma vm_starts_exact_witness :
  startable start_topology (start_vms_of start_topology) (start_entries_of start_topology)
    (start_power_of start_topology) ∧
  ordered_turns (start_entries_of start_topology) (start_vms_of start_topology) = [(5, VStr "node", "bbbbbbbb")] ∧
  unordered_vms (start_entries_of start_topology) (start_power_of start_topology) (start_vms_of start_topology)
    = [(VStr "bastion", "aaaaaaaa")] ∧
  ∃ w', start_vms_via_troshkad failing_agent no_text "12345678" (λ s, s) start_host start_topology
           (empty_jobw start_topology) = (w', Ret []) ∧
    jw_log w' = [Call "sleep" ["5"]; Call "start_job" ["h1"; "/vms/start"; "troshka-12345678-bbbbbbbb"];
                 Call "wait_for_job" ["h1"; "job"; "120"];
                 Call "start_job" ["h1"; "/vms/start"; "troshka-12345678-aaaaaaaa"];
                 Call "wait_for_job" ["h1"; "job"; "120"]].
Proof.
  assert (Hs : startable start_topology (start_vms_of start_topology) (start_entries_of start_topology)
    (start_power_of start_topology)).
  { split_and!; [reflexivity|reflexivity|reflexivity| |].
    - repeat constructor.
    - repeat constructor; by eexists. }
  destruct (vm_starts_exact failing_agent no_text "12345678" (λ s, s) start_host start_topology
    (start_vms_of start_topology) (start_entries_of start_topology) (start_power_of start_topology)
    (empty_jobw start_topology) failing_agent_answers Hs)
    as [(w' & turns & fs & starts & jobs & fs' & waits & fs'' & Hrun & _ & _ & _ & _ & Hnone) _].
  split; [exact Hs|]. split; [reflexivity|]. split; [reflexivity|]. exists w'.
  rewrite (Hnone failing_agent_reachable) in Hrun. split; [exact Hrun|].
  assert (Hw : w' = (start_vms_via_troshkad failing_agent no_text "12345678" (λ s, s) start_host start_topology
           (empty_jobw start_topology)).1) by (by rewrite Hrun).
  rewrite Hw. vm_compute. reflexivity.
Defined.

(** An agent that cannot be reached for its second start, nor for a wait. *)
Definition flaky_agent : environment :=
  mkEnv (λ _ e t, (match e with
                   | Call "start_job" [_; _; "troshka-12345678-aaaaaaaa"] => Raises (XTroshkad "refused")
                   | Call "start_job" _ => Text "job"
                   | Call _ _ => Raises (XTroshkad "timed out")
                   | _ => Done
                   end, t))
    (λ _ rows, rows) (λ _, 0) (λ _, false).
Example failures_reported :
  (start_vms_via_troshkad flaky_agent no_text "12345678" (λ s, s) start_host start_topology
     (empty_jobw start_topology)).2 = Ret [(VStr "node", "timed out"); (VStr "bastion", "refused")].
Proof. vm_compute. reflexivity. Qed.

(** A container whose start order entry says not to start it is started with the rest. *)
Definition ctr_topology : val :=
  VDict [("nodes", VList [VDict [("id", VStr "ffffffff"); ("type", VStr "containerNode"); ("data", VDict [])]]);
         ("startOrder", VList [VDict [("entryType", VStr "container"); ("containerId", VStr "ffffffff");
                                      ("autoStart", VBool false)]])].

Definition container_starts (w : jobw) : list string :=
  omap (λ e, match e with
             | Call "start_job" [_; "/containers/start"; d] => Some d
             | _ => None
             end) (jw_log w).

Example container_autostart_ignored :
  container_starts (deploy_start_containers
    (mkEnv (λ _ e t, (match e with Call "start_job" _ => Text "job" | _ => Texts ["completed"; ""] end, t))
       (λ _ rows, rows) (λ _, 0) (λ _, false))
    no_text "12345678" start_host true (empty_jobw ctr_topology)).1 = ["troshka-12345678-ffffffff"].
Proof. vm_compute. reflexivity. Qed.
