(* ===== verification/DeployHost.v ===== *)
(** * Bringing a project up on one host

    [_deploy_single_host_setup] and [_deploy_single_host_execute] of
    [services/deploy_service.py]: addresses, networks, seeds, images, disks, VMs, containers and
    their start, each a step that a resumed deployment may skip.

    What a step asks of the host's agent, of a cloud or of the showroom generator is an event of
    the log; the decisions, the project's row, the progress and the canvas are computed. *)
From stdpp Require Import prelude strings gmap.
From S2P Require Import Prelude PyStr PyVal PyLemmas Db TopoNodes Vxlan OcpFlags TopologyExtract IpAssign.
From S2P Require Import HostNetwork Placement JobMonad VmStart DeployCanvas.

Open Scope list_scope.

(** How a step that may stop the deployment ends. *)
Inductive continue_or_stop (A : Type) := Go (a : A) | Stop.
Arguments Go {_} _.
Arguments Stop {_}.

(** What the job was started with, and what it computed before it reached the host. *)
Record deploy_context := mkContext {
  c_host : Host;
  c_vni_map : vnis;
  c_mtu_map : list (val * Z);
  c_clock_offset : option Z;
  c_auto_start : bool;
  c_resume_from : option string
}.

Section DeployHost.
Context (env : environment) (exn_text : exn → string) (pid : string).
Context (sha256_hex : string → string) (set_iter : list val → list val) (install_via_default : string).

Notation lift := (jlift exn_text).
Notation progress := (update_deploy_progress pid).
Notation save := save_topology.

(** A function of the canvas that returns the canvas afterwards. *)
Definition canvas (f : val → res val) : J unit :=
  t <-' topology;; t <-' lift (f t);; jmod (λ w, set_topo w t).
(** A function of the canvas that only looks at it. *)
Definition look {A} (f : val → res A) : J A := t <-' topology;; lift (f t).

(** [if _project_deleted(project_id): _delete_deploy_progress(project_id); return]. *)
Definition unless_deleted {A} (m : J (continue_or_stop A)) : J (continue_or_stop A) :=
  deleted <-' project_deleted pid;;
  if deleted then delete_deploy_progress;;; jret Stop else m.

(** [with _get_network_lock(host.id): m]. *)
Definition with_network_lock {A} (hid : string) (m : J A) : J A :=
  do_ env "network_lock" [hid];;;
  jfinally m (λ w, add_event w (Call "network_unlock" [hid])).

(** ** Addresses and networks *)

(** The provider of the project, or else of the host. *)
Definition provider_of (host : Host) : J (option Provider) :=
  query pid;;;
  p <-' project pid;;
  jget (λ w,
    let row o := match o with Some (String _ _ as i) => find_provider (jw_db w) i | _ => None end in
    match row (p_provider_id (d_row p)) with
    | Some pr => Some pr
    | None => row (h_provider_id host)
    end).

(** [deploy_service._deploy_allocate_eips:8483-8488] one address of the canvas. *)
Definition allocate_canvas_eip (ext_ip : val) : J unit :=
  i <-' lift (get ext_ip "id" vstr_empty);;
  skip <-' in_session env pid (flag_of env "should_skip_route_eip" [py_str i]);;
  if skip then in_session env pid (do_ env "clear_route_only_eip" [py_str i])
  else in_session env pid (do_ env "allocate_single_eip" [py_str i]).

(** [deploy_service._deploy_allocate_eips] *)
Definition deploy_allocate_eips (host : Host) (external_ips : list val) : J (option string) :=
  checkpoint pid "eips";;;
  progress "eips" "allocating elastic IPs";;;
  provider <-' provider_of host;;
  match provider with
  | None => jret (Some "No provider configured for EIP allocation")
  | Some _ =>
      jeach external_ips allocate_canvas_eip;;;
      save;;; commit pid;;;
      emit (Notify "external-ips-updated" "");;;
      jret None
  end.

(** [deploy_service._deploy_setup_lb:8511-8522] the address the balancer listens on. *)
Definition lb_address (net : host_network) (lb_config : val) : res val :=
  lb_ip <- get lb_config "lb_ip" vstr_empty;;
  if truthy lb_ip then Ok lb_ip
  else
    match hn_networks net with
    | [] => Ok lb_ip
    | first :: _ =>
        dhcp <- get first "dhcp_config" empty_dict;;
        gateway <- get dhcp "gateway" vstr_empty;;
        if negb (truthy gateway) then Ok lb_ip
        else
          except_value_error
            (a <- Ipv4.ip_address gateway;; b <- Ipv4.addr_add a 1;; Ok (VStr (Ipv4.ip_str b)))
            (Ok lb_ip)
    end.

(** [deploy_service._deploy_setup_lb] *)
Definition deploy_setup_lb (host : Host) (vni_map : vnis) : J (option val) :=
  net <-' look (λ t, build_host_network_config set_iter t vni_map []);;
  match hn_loadbalancer net with
  | None => jret None
  | Some lb_config =>
      balanced <-' lift (Ok (truthy lb_config) <&&> (f <- get lb_config "frontends" VNone;; Ok (truthy f)));;
      if negb balanced then jret (Some lb_config)
      else
        progress "load balancer" "starting HAProxy";;;
        lb_ip <-' lift (lb_address net lb_config);;
        _ <-' lift (idx lb_config "backends");;
        catch_troshkad
          (job_id <-' agent_start env host "/lb/setup" (py_str lb_ip);;
           agent_wait env host job_id 30;;; jret tt)
          (λ _, jret tt);;;
        jret (Some lb_config)
  end.

(** [deploy_service._deploy_sync_sg_rules:8580-8588] the ports of the balancer's frontends. *)
Definition frontend_ports (lb_config : option val) : res (list Z) :=
  match lb_config with
  | None => Ok []
  | Some lb =>
      if negb (truthy lb) then Ok []
      else
        frontends <- get lb "frontends" VNone;;
        if negb (truthy frontends) then Ok []
        else
          external <- get lb "external" (VBool true);;
          if negb (truthy external) then Ok []
          else fes <- iter frontends;; map_res (λ fe, p <- idx fe "bindPort";; py_int p) fes
  end.

(** [deploy_service._deploy_sync_sg_rules] *)
Definition deploy_sync_sg_rules (host : Host) (lb_config : option val) : J unit :=
  provider <-' provider_of host;;
  match provider with
  | None => jret tt
  | Some _ =>
      gateway <-' look find_gateway_node;;
      rules <-' lift (collect_gateway_sg_rules gateway);;
      ports <-' lift (frontend_ports lb_config);;
      match rules ++ ports with
      | [] => jret tt
      | desired => in_session env pid (do_ env "sync_security_group_rules" (map str_of_Z desired))
      end
  end.

(** [deploy_service._deploy_setup_networks_phase] *)
Definition deploy_setup_networks_phase (host : Host) (vni_map : vnis) (external_ips : list val)
    : J (continue_or_stop (option val)) :=
  checkpoint pid "networks";;;
  progress "networking" "waiting for lock";;;
  failed <-' with_network_lock (h_id host)
    (progress "networking" "configuring VXLAN";;;
     in_session env pid (error_of env "setup_networks" [h_id host]));;
  match failed with
  | Some msg => set_deploy_error pid msg;;; delete_deploy_progress;;; jret Stop
  | None =>
      lb_config <-' deploy_setup_lb host vni_map;;
      (if bool_decide (external_ips = []) then jret tt else deploy_sync_sg_rules host lb_config);;;
      unless_deleted
        (canvas deploy_inject_gateway_ip;;;
         p <-' project pid;;
         canvas (deploy_disable_guest_exec (d_guest_exec p));;;
         in_session env pid (do_ env "create_provider_routes" [h_id host]);;;
         jret (Go lb_config))
  end.

(** ** Seeds, images, containers to pull *)

(** [deploy_service._deploy_single_host_setup:10249-10260] *)
Definition deploy_seeds (host : Host) : J (continue_or_stop unit) :=
  checkpoint pid "seeds";;;
  progress "cloud-init" "creating seed ISOs";;;
  do_ env "create_seed_isos" [h_id host];;;
  progress "cloud-init" "deploying metadata service";;;
  do_ env "setup_metadata" [h_id host];;;
  unless_deleted (jret (Go tt)).

(** [deploy_service._prepare_topology_library_refs]; the references are looked up in the
    library's tables. *)
Definition prepare_topology_library_refs : J unit :=
  changed <-' in_session env pid (flag_of env "ensure_storage_library_refs" []);;
  if changed then save;;; commit pid else jret tt.

(** [deploy_service.cache_library_images:1283-1354] as the callers see it: what it reports on the
    way, and the items that could not be cached. *)
Definition cache_library_images (host : Host) (report : string → J unit) : J (list string) :=
  details <-' texts_of env "poll_download_jobs" [h_id host];;
  jeach details report;;;
  in_session env pid (texts_of env "cache_library_images" [h_id host]).

Definition caching_failed (failed : list string) : string :=
  "image caching failed: " +:+ join ", " failed +:+ " — disk/pattern source not reachable".

(** [deploy_service._deploy_cache_images_and_pxe] *)
Definition deploy_cache_images_and_pxe (host : Host) : J unit :=
  checkpoint pid "images";;;
  progress "downloading images" "0%";;;
  prepare_topology_library_refs;;;
  failed <-' cache_library_images host (progress "downloading images");;
  match failed with
  | [] => do_ env "setup_pxe" [h_id host]
  | _ => jexc (XTroshkad (caching_failed failed))
  end.

(** [deploy_service._detect_pattern_id] *)
Definition detect_pattern_id (topology : val) : res (option val) :=
  ns <- nodes_of topology;;
  first_some (λ n,
    b <- has_type n "storageNode";;
    if negb b then Ok None
    else p <- OcpFlags.field n "patternId";; Ok (if truthy p then Some p else None)) ns.

(** [deploy_service._deploy_pull_container_images] *)
Definition deploy_pull_container_images (host : Host) : J unit :=
  containers <-' look extract_containers;;
  match containers with
  | [] => jret tt
  | _ =>
      pattern <-' look is_pattern_deploy;;
      pattern_id <-' (if pattern then look detect_pattern_id else jret None);;
      progress "container_pull" "Pulling container images...";;;
      jeach containers (λ ctr,
        is_pod <-' lift (get ctr "is_pod" VNone);;
        if truthy is_pod then in_session env pid (do_ env "pull_pod_images" [h_id host])
        else
          image <-' lift (idx ctr "image");;
          if negb (truthy image) then jret tt
          else
            match pattern_id with
            | Some p => do_ env "load_container_from_pattern" [h_id host; py_str image; py_str p]
            | None => in_session env pid (do_ env "pull_container_image" [h_id host; py_str image])
            end)
  end.

(** [deploy_service._deploy_create_bmc_bridge] *)
Definition deploy_create_bmc_bridge (host : Host) : J unit :=
  bmc_config <-' look (λ t, extract_bmc_config sha256_hex t pid);;
  match bmc_config with
  | None => jret tt
  | Some cfg =>
      net <-' lift (idx cfg "bmc_network");;
      cidr <-' lift (c <- get net "cidr" (VStr "192.168.100.0/24");; as_str c);;
      job_id <-' agent_start env host "/bmc/create-bridge" cidr;;
      agent_wait env host job_id 30;;; jret tt
  end.

(** A step, unless the deployment resumes after it. *)
Definition step (resume_from : option string) (name : string) {A} (dflt : A) (m : J (continue_or_stop A))
    : J (continue_or_stop A) :=
  if should_skip resume_from name then jret (Go dflt) else m.

(** Go on with the value of a step, or stop. *)
Definition and_then {A B} (m : J (continue_or_stop A)) (k : A → J (continue_or_stop B))
    : J (continue_or_stop B) :=
  r <-' m;; match r with Go a => k a | Stop => jret Stop end.

Definition always (m : J unit) : J (continue_or_stop unit) := m;;; jret (Go tt).

(** [deploy_service._deploy_single_host_setup:10229-10236] *)
Definition deploy_eips_step (host : Host) (external_ips : list val) : J (continue_or_stop unit) :=
  if bool_decide (external_ips = []) then jret (Go tt)
  else
    err <-' deploy_allocate_eips host external_ips;;
    match err with
    | Some msg => set_deploy_error pid msg;;; delete_deploy_progress;;; jret Stop
    | None => jret (Go tt)
    end.

(** [deploy_service._deploy_single_host_setup:10273-10278] *)
Definition deploy_bmc_check : J (continue_or_stop unit) :=
  bmc_err <-' look deploy_validate_bmc;;
  match bmc_err with
  | Some msg => set_deploy_error_and_notify pid msg;;; delete_deploy_progress;;; jret Stop
  | None => jret (Go tt)
  end.

(** The external addresses of the canvas; a step that fills them in changes them there. *)
Definition external_ips_on_canvas (t : val) : res (list val) :=
  e <- get t "externalIps" empty_list;; iter (v_or e empty_list).

(** [deploy_service._deploy_single_host_setup]: the balancer's configuration. *)
Definition deploy_single_host_setup (c : deploy_context) : J (continue_or_stop (option val)) :=
  let host := c_host c in
  let resume_from := c_resume_from c in
  external_ips <-' look external_ips_on_canvas;;
  and_then (step resume_from "eips" tt (deploy_eips_step host external_ips)) (λ _,
  canvas auto_assign_container_ips;;;
  and_then (step resume_from "networks" None (deploy_setup_networks_phase host (c_vni_map c) external_ips))
    (λ lb_config,
  and_then (step resume_from "seeds" tt (deploy_seeds host)) (λ _,
  and_then (step resume_from "images" tt (always (deploy_cache_images_and_pxe host))) (λ _,
  and_then (step resume_from "container_pull" tt
              (always (checkpoint pid "container_pull";;; deploy_pull_container_images host))) (λ _,
  unless_deleted
    (and_then deploy_bmc_check (λ _,
     deploy_create_bmc_bridge host;;;
     unless_deleted (jret (Go lb_config))))))))).

(** ** Disks *)

(** [deploy_service._wait_disk_create_jobs:9226-9237] one job. *)
Definition wait_disk_job (host : Host) (total : nat) (di : nat) (jid : string) : J unit :=
  progress "creating disks" (str_of_Z (Z.of_nat di) +:+ "/" +:+ str_of_Z (Z.of_nat total));;;
  job <-' agent_wait env host jid 900;;
  if String.eqb job.1 "failed" then jexc (XTroshkad ("Disk creation failed: " +:+ job.2)) else jret tt.

(** [deploy_service._wait_disk_create_jobs] *)
Definition wait_disk_create_jobs (host : Host) (disk_jobs : list string) : J unit :=
  jeach (combine (seq 0 (length disk_jobs)) disk_jobs)
    (λ j, wait_disk_job host (length disk_jobs) j.1 j.2).

(** [deploy_service._deploy_create_disks] *)
Definition deploy_create_disks (host : Host) : J (list val) :=
  vms <-' look extract_vms;;
  progress "creating disks" "preparing VM disks";;;
  disk_jobs <-' jfold (λ jobs vm,
    i <-' lift (idx vm "node_id");;
    more <-' texts_of env "create_vm_disks" [h_id host; py_str i];;
    jret (jobs ++ more)) [] vms;;
  volume_jobs <-' texts_of env "enqueue_container_volume_disk_jobs" [h_id host];;
  wait_disk_create_jobs host (disk_jobs ++ volume_jobs);;;
  jret vms.

(** [deploy_service._deploy_handle_recert]: the markers are taken off the canvas, and the kubelet
    certificates wiped. *)
Definition deploy_handle_recert (host : Host) : J unit :=
  pattern <-' look is_pattern_deploy;;
  ocp <-' (if pattern then look is_ocp_topology else jret false);;
  if negb ocp then jret tt
  else
    progress "certs" "wiping kubelet PKI";;;
    canvas (λ t, pop_item t "_deploy_recert");;;
    canvas (λ t, pop_item t "_deploy_common_password");;;
    in_session env pid (do_ env "clean_kubelet_certs" [h_id host]).

(** ** VMs *)

(** [deploy_service._clean_stale_domain] *)
Definition clean_stale_domain (host : Host) (domain_name : string) : J unit :=
  catch_troshkad
    (dom_check <-' agent_start env host "/vm/info" domain_name;;
     job <-' agent_wait env host dom_check 10;;
     if String.eqb job.2 "" then jret tt
     else
       catch_troshkad
         (j <-' agent_start env host "/vms/destroy" domain_name;; agent_wait env host j 60;;; jret tt)
         (λ _, jret tt))
    (λ _, jret tt).

(** [deploy_service._define_single_vm:9426-9429] the identifier of the domain kept on the VM's node. *)
Fixpoint set_domain_uuid (node_id : val) (uuid : string) (nodes : list val) : res (list val) :=
  match nodes with
  | [] => Ok []
  | n :: nodes' =>
      i <- idx n "id";;
      if py_eq i node_id then
        '(n, data) <- setdefault n "data" empty_dict;;
        data <- set_item data "domainUuid" (VStr uuid);;
        n <- set_item n "data" data;; Ok (n :: nodes')
      else rest <- set_domain_uuid node_id uuid nodes';; Ok (n :: rest)
  end.

(** [deploy_service._define_single_vm] *)
Definition define_single_vm (host : Host) (vm : val) : J unit :=
  node_id <-' lift (idx vm "node_id");;
  short <-' lift (slice8 node_id);;
  clean_stale_domain host ("troshka-" +:+ str_take 8 pid +:+ "-" +:+ py_str short);;;
  job_id <-' text_of env "create_vm" [h_id host; py_str node_id];;
  if String.eqb job_id "" then jret tt
  else
    result <-' texts_of env "wait_define_job" [h_id host; job_id];;
    match result with
    | [status; error; uuid] =>
        if String.eqb status "failed" then jexc (XTroshkad ("VM definition failed: " +:+ error))
        else if String.eqb uuid "" then jret tt
        else canvas (λ t, ns <- nodes_of t;; ns <- set_domain_uuid node_id uuid ns;;
                          Ok (update_list t "nodes" ns))
    | _ => unexpected
    end.

(** [deploy_service._deploy_define_vms] *)
Definition deploy_define_vms (host : Host) (vms : list val) : J unit :=
  jeach (combine (seq 0 (length vms)) vms) (λ v,
    progress "creating VMs" (str_of_Z (Z.of_nat v.1) +:+ "/" +:+ str_of_Z (Z.of_nat (length vms)));;;
    define_single_vm host v.2).

(** [deploy_service._deploy_setup_bmc]: an error, or the configuration. *)
Definition deploy_setup_bmc (host : Host) : J (string + option val) :=
  has_bmc_vms <-' look (any_node "vmNode" (λ n, b <- OcpFlags.field n "bmcEnabled";; Ok (truthy b)));;
  bmc_config <-' look (λ t, extract_bmc_config sha256_hex t pid);;
  match bmc_config with
  | None =>
      jret (if has_bmc_vms
            then inl "VMs have BMC enabled but no BMC network (type: bmc) is defined" else inr None)
  | Some cfg =>
      progress "bmc" "starting BMC endpoints";;;
      emit (Notify "deploy-progress" "bmc");;;
      failed <-' error_of env "setup_bmc" [h_id host];;
      jret (match failed with Some msg => inl ("BMC setup failed: " +:+ msg) | None => inr (Some cfg) end)
  end.

(** [deploy_service._deploy_single_host_execute:10318-10338] the VMs are defined, saved, and their
    BMC endpoints started. *)
Definition deploy_vms_step (host : Host) (vms : list val) : J (continue_or_stop (option val)) :=
  checkpoint pid "vms";;;
  deploy_define_vms host vms;;;
  save;;; commit pid;;;
  r <-' deploy_setup_bmc host;;
  match r with
  | inl msg => set_deploy_error pid msg;;; delete_deploy_progress;;; jret Stop
  | inr cfg => jret (Go cfg)
  end.

(** ** Containers *)

Definition create_container (host : Host) (ctr : val) : J unit :=
  is_pod <-' lift (get ctr "is_pod" VNone);;
  i <-' lift (idx ctr "node_id");;
  do_ env (if truthy is_pod then "create_pod" else "create_container") [h_id host; py_str i].

(** [deploy_service._create_ordered_containers] *)
Definition create_ordered_containers (host : Host) (containers start_order : list val) : J (list val) :=
  jfold (λ ordered_ids entry,
    type <-' lift (get entry "entryType" VNone);;
    if negb (eq_str type "container") then jret ordered_ids
    else
      vm_id <-' lift (get entry "vmId" vstr_empty);;
      ctr_id <-' lift (get entry "containerId" vm_id);;
      o <-' lift (vm_with_id containers ctr_id);;
      match o with
      | None => jret ordered_ids
      | Some ctr =>
          ordered_ids <-' lift (vadd ctr_id ordered_ids);;
          create_container host ctr;;; jret ordered_ids
      end) [] start_order.

(** [deploy_service._deploy_create_containers] *)
Definition deploy_create_containers (host : Host) : J unit :=
  do_ env "refresh_showroom_spec" [];;;
  containers <-' look extract_containers;;
  match containers with
  | [] => jret tt
  | _ =>
      progress "containers" "Creating containers...";;;
      start_order <-' look (λ t, o <- get t "startOrder" empty_list;; iter o);;
      ordered_ids <-' create_ordered_containers host containers start_order;;
      jeach containers (λ ctr,
        i <-' lift (idx ctr "node_id");;
        ordered <-' lift (vin i ordered_ids);;
        if ordered then jret tt else create_container host ctr)
  end.

(** ** Start *)

(** [deploy_service._deploy_start_vms]: whether the deployment goes on. *)
Definition deploy_start_vms (host : Host) (auto_start : bool) : J bool :=
  if negb auto_start then jret true
  else
    progress "starting" "VMs";;;
    emit (Notify "deploy-progress" "starting");;;
    topo <-' topology;;
    start_failures <-' start_vms_via_troshkad env exn_text pid sha256_hex host topo;;
    match start_failures with
    | [] => jret true
    | _ =>
        names <-' lift (map_res (λ f, match f.1 with VStr s => Ok s | _ => Raise TypeError end) start_failures);;
        let error_msg := "Failed to start VMs: " +:+ join ", " names in
        assign (WState "error");;;
        assign (WError (Some error_msg));;;
        query pid;;;
        db <-' jget full_db;;
        synced <-' lift (sync_host_capacity db host);;
        jmod (λ w, set_db w (save_host (jw_db w) synced));;;
        commit pid;;;
        emit (Notify "error" error_msg);;;
        delete_deploy_progress;;;
        jret false
    end.

(** [deploy_service._maybe_deploy_ops_pod] *)
Definition maybe_deploy_ops_pod (host : Host) : J unit :=
  b <-' look (should_use_ops_pod install_via_default);;
  if b then in_session env pid (do_ env "deploy_ops_pod" [h_id host]) else jret tt.

(** [deploy_service._deploy_single_host_execute:10349-10357] *)
Definition deploy_starting_step (host : Host) (auto_start : bool) : J (continue_or_stop unit) :=
  checkpoint pid "starting";;;
  started <-' deploy_start_vms host auto_start;;
  if negb started then jret Stop
  else
    deploy_start_containers env exn_text pid host auto_start;;;
    save;;; commit pid;;;
    maybe_deploy_ops_pod host;;;
    jret (Go tt).

(** [deploy_service._deploy_single_host_execute:10311-10315] *)
Definition deploy_disks_step (host : Host) : J (list val) :=
  checkpoint pid "disks";;;
  progress "creating" "VMs";;;
  vms <-' deploy_create_disks host;;
  deploy_handle_recert host;;;
  jret vms.

(** [deploy_service._deploy_single_host_execute:10305-10357], up to the completion: the VMs and the
    BMC configuration. *)
Definition deploy_single_host_execute (c : deploy_context) : J (continue_or_stop (list val * option val)) :=
  let host := c_host c in
  let resume_from := c_resume_from c in
  vms <-' look extract_vms;;
  and_then (step resume_from "disks" vms (vms <-' deploy_disks_step host;; jret (Go vms))) (λ vms,
  and_then (step resume_from "vms" None (deploy_vms_step host vms)) (λ bmc_config,
  and_then (step resume_from "containers" tt
              (always (checkpoint pid "containers";;; deploy_create_containers host))) (λ _,
  unless_deleted
    (and_then (step resume_from "starting" tt (deploy_starting_step host (c_auto_start c))) (λ _,
     jret (Go (vms, bmc_config))))))).
End DeployHost.
