(* ===== verification/DeployTargets.v ===== *)
(** * Bringing a project up on several hosts, or on a KubeVirt cluster

    [_deploy_multihost] and [_deploy_kubevirt_native] of [services/deploy_service.py].  The
    KubeVirt operator does the work there: the job writes a resource and polls its status, for at
    most 1440 turns. *)
From stdpp Require Import prelude strings gmap.
From S2P Require Import Prelude PyStr PyVal PyLemmas Db TopoNodes GatewaySync Vxlan OcpFlags TopologyExtract.
From S2P Require Import PatternLocations Placement JobMonad VmStart DeployCanvas DeployHost.

Open Scope list_scope.

Section Targets.
Context (env : environment) (exn_text : exn → string) (pid : string).
Context (sha256_hex : string → string) (fresh_id : string).

Notation lift := (jlift exn_text).
Notation progress := (update_deploy_progress pid).
Notation canvas := (canvas exn_text).
Notation look := (look exn_text).

(** A function that loads its own [topology = project.topology or {}] and leaves the caller's
    canvas as it was, unless it is the same object. *)
Definition with_own_canvas {A} (m : J A) : J A :=
  alias <-' jget (λ w, s_alias (jw_sess w));;
  outer <-' topology;;
  jfinally m (λ w, if alias then w else set_topo w outer).

(** ** Several hosts *)

(** [deploy_service._build_multihost_assignments] *)
Definition build_multihost_assignments (p : dproject) : list (string * list string) :=
  foldl (λ m a, assoc_set a.2 (default [] (assoc a.2 m) ++ [a.1]) m) [] (d_assignments p).

(** [deploy_service._resolve_multihost_ips] *)
Definition resolve_multihost_ips (db : DB) (host_ids : list string) : list (string * option string) :=
  let hosts_in_mesh := omap (find_host db) host_ids in
  let pools := omap (λ h, text_opt (h_storage_pool_id h)) hosts_in_mesh in
  let same_pool := (length (dedup_first pools) <=? 1)%nat in
  foldl (λ m h,
    assoc_set (h_id h)
      (match text_opt (h_private_ip h) with
       | Some ip => if same_pool then Some ip else h_ip_address h
       | None => h_ip_address h
       end) m) [] hosts_in_mesh.

(** [deploy_service._multihost_fail] *)
Definition multihost_fail (msg : string) : J unit :=
  assign (WState "error");;; assign (WError (Some msg));;; commit pid;;; delete_deploy_progress.

(** [mesh_service.create_mesh_peers:67-77] the host of each VM, from the VMs of each host. *)
Definition flat_assignments (host_assignments : list (string * list string)) : list (string * string) :=
  foldl (λ m ha, foldl (λ m vm, assoc_set vm ha.1 m) m ha.2) [] host_assignments.

(** [deploy_service._setup_mesh]: the peers are written with the subnet's number, each host is
    given its configuration, and any error takes the mesh down again. *)
Definition setup_mesh (host_assignments : list (string * list string)) : J bool :=
  p <-' project pid;;
  found <-' query_project pid;;
  if negb found then jexc (XOther ("Project " +:+ pid +:+ " not found"))
  else
    max_id <-' num_of env "max_mesh_subnet_id" [];;
    assign (WMesh (Some (default 0 max_id + 1)) (d_mesh_host p) (flat_assignments host_assignments));;;
    query pid;;;
    do_ env "create_mesh_peers" host_assignments.*1;;;
    commit pid;;;
    errors <-' jfold (λ errors hid,
      e <-' error_of env "push_mesh_config" [hid];;
      jret (errors ++ option_list e)) [] (sort_by String.leb host_assignments.*1);;
    match errors with
    | [] => jret true
    | _ =>
        do_ env "delete_mesh_peers" [];;;
        found <-' query_project pid;;
        (if found then assign (WMesh None None []) else jret tt);;;
        commit pid;;;
        jret false
    end.

(** [deploy_service._deploy_multihost_networks] *)
Definition deploy_multihost_networks (network_host : Host) (host_ids : list string) : J bool :=
  progress "networks" "setting up networks on network host";;;
  failed <-' with_network_lock env (h_id network_host)
    (in_session env pid (error_of env "setup_networks" [h_id network_host]));;
  match failed with
  | Some msg => multihost_fail ("Network setup failed: " +:+ msg);;; jret false
  | None =>
      progress "remote-networks" "setting up VXLAN on remote hosts";;;
      ok <-' in_session env pid (flag_of env "setup_remote_networks" host_ids);;
      if ok then jret true else multihost_fail "Remote network setup failed";;; jret false
  end.

(** [deploy_service._create_multihost_disks:8131-8136] *)
Fixpoint wait_multihost_disks (host : Host) (label : string) (jobs : list string) : J (option string) :=
  match jobs with
  | [] => jret None
  | jid :: jobs' =>
      job <-' agent_wait env host jid 900;;
      if String.eqb job.1 "failed"
      then jret (Some ("Disk creation failed on " +:+ label +:+ ": " +:+ job.2))
      else wait_multihost_disks host label jobs'
  end.

(** [deploy_service._create_multihost_disks] *)
Definition create_multihost_disks (host : Host) (label : string) (host_vms : list val) : J (option string) :=
  progress "disks" ("creating disks on " +:+ label);;;
  jobs <-' jfold (λ jobs vm,
    i <-' lift (idx vm "node_id");;
    more <-' texts_of env "create_vm_disks" [h_id host; py_str i];;
    jret (jobs ++ more)) [] host_vms;;
  wait_multihost_disks host label jobs.

(** [deploy_service._clean_stale_domains] *)
Definition clean_stale_domains (host : Host) (label : string) (host_vms : list val) : J unit :=
  progress "vms" ("defining VMs on " +:+ label);;;
  jeach host_vms (λ vm,
    i <-' lift (i <- idx vm "node_id";; as_text i);;
    clean_stale_domain env host (vm_domain_name sha256_hex pid i)).

(** [deploy_service._define_multihost_vms] *)
Fixpoint define_multihost_vms (host : Host) (label : string) (host_vms : list val) : J (option string) :=
  match host_vms with
  | [] => jret None
  | vm :: host_vms' =>
      node_id <-' lift (idx vm "node_id");;
      job_id <-' text_of env "create_vm" [h_id host; py_str node_id];;
      if String.eqb job_id "" then define_multihost_vms host label host_vms'
      else
        result <-' texts_of env "wait_define_job" [h_id host; job_id];;
        match result with
        | [status; error; uuid] =>
            if String.eqb status "failed"
            then jret (Some ("VM creation failed on " +:+ label +:+ ": " +:+ error))
            else
              (if String.eqb uuid "" then jret tt
               else canvas (λ t, ns <- nodes_of t;; ns <- set_domain_uuid node_id uuid ns;;
                                 Ok (update_list t "nodes" ns)));;;
              define_multihost_vms host label host_vms'
        | _ => unexpected
        end
  end.

(** [deploy_service._deploy_vms_on_host]; the clock offset it computes goes to the agent. *)
Definition deploy_vms_on_host (host : Host) (host_vms : list val) : J (option string) :=
  let label := default "None" (h_ip_address host) +:+ " (" +:+ str_of_Z (Z.of_nat (length host_vms)) +:+ " VMs)" in
  vm_node_ids <-' lift (for_each host_vms [] (λ vm ids, i <- idx vm "node_id";; vadd i ids));;
  progress "images" ("caching images on " +:+ label);;;
  prepare_topology_library_refs env pid;;;
  failed <-' cache_library_images env pid host (λ _, jret tt);;
  match failed with
  | _ :: _ =>
      jret (Some ("image caching failed on " +:+ label +:+ ": " +:+ join ", " failed +:+
                  " — disk/pattern source not reachable"))
  | [] =>
      progress "seeds" ("creating seed ISOs on " +:+ label);;;
      look (λ t, filter_topology_for_host t vm_node_ids);;;
      do_ env "create_seed_isos" [h_id host];;;
      err <-' create_multihost_disks host label host_vms;;
      match err with
      | Some msg => jret (Some msg)
      | None =>
          clean_stale_domains host label host_vms;;;
          project pid;;;
          define_multihost_vms host label host_vms
      end
  end.

(** [deploy_service._deploy_multihost_vms] the hosts that remain. *)
Fixpoint deploy_multihost_vms (all_vms : list val) (by_host : list (string * list string)) : J bool :=
  match by_host with
  | [] => jret true
  | (host_id, vm_ids) :: by_host' =>
      query pid;;;
      host <-' jget (λ w, find_host (jw_db w) host_id);;
      match host with
      | None => deploy_multihost_vms all_vms by_host'
      | Some host =>
          host_vms <-' lift (filter_res (λ v, i <- idx v "node_id";; vin i (map VStr vm_ids)) all_vms);;
          err <-' deploy_vms_on_host host host_vms;;
          match err with
          | Some (String _ _ as msg) => multihost_fail msg;;; jret false
          | _ => deploy_multihost_vms all_vms by_host'
          end
      end
  end.

(** [deploy_service._start_multihost_vms]: a VM that does not start is only logged. *)
Definition start_multihost_vms (by_host : list (string * list string)) : J unit :=
  progress "starting" "starting VMs";;;
  jeach by_host (λ hv,
    query pid;;;
    host <-' jget (λ w, find_host (jw_db w) hv.1);;
    match host with
    | None => jret tt
    | Some host =>
        host_topo <-' look (λ t, filter_topology_for_host t (map VStr hv.2));;
        start_vms_via_troshkad env exn_text pid sha256_hex host host_topo;;; jret tt
    end).

(** [deploy_service._deploy_multihost:8305-8341] once the mesh is up. *)
Definition deploy_multihost_meshed (host_assignments : list (string * list string)) : J unit :=
  p <-' project pid;;
  query pid;;;
  network_host <-' jget (λ w, i ← d_mesh_host p; find_host (jw_db w) i);;
  match network_host with
  | None => multihost_fail "Network host not found"
  | Some network_host =>
      ok <-' deploy_multihost_networks network_host host_assignments.*1;;
      if negb ok then jret tt
      else
        all_vms <-' look extract_vms;;
        p <-' project pid;;
        let by_host := build_multihost_assignments p in
        ok <-' deploy_multihost_vms all_vms by_host;;
        if negb ok then jret tt
        else
          save_topology;;; commit pid;;;
          start_multihost_vms by_host;;;
          assign (WState "active");;;
          assign (WError None);;;
          canvas (λ t, stamp_effective_dns_ips t false);;;
          t <-' topology;;
          assign (WDeployed t);;;
          commit pid;;;
          delete_deploy_progress;;;
          emit (Notify "active" "")
  end.

(** [deploy_service._deploy_multihost] *)
Definition deploy_multihost : J unit :=
  p <-' project pid;;
  match build_multihost_assignments p with
  | [] =>
      assign (WState "error");;;
      assign (WError (Some "No host assignments found for multi-host deploy"));;;
      commit pid
  | host_assignments =>
      query pid;;;
      with_own_canvas
        (load_topology pid;;;
         progress "mesh" "setting up WireGuard mesh";;;
         ok <-' setup_mesh host_assignments;;
         if negb ok then multihost_fail "Mesh setup failed"
         else deploy_multihost_meshed host_assignments)
  end.

(** ** A KubeVirt cluster *)

(** [deploy_service._wait_for_namespace_termination]: a namespace that is not terminating, or
    cannot be read, ends the wait. *)
Fixpoint wait_for_namespace_termination (turns : nat) : J unit :=
  match turns with
  | O => jret tt
  | S turns' =>
      phase <-' jcatch (text_of env "read_namespace" [pid]) (λ _, jret "");;
      if String.eqb phase "Terminating"
      then emit (Call "sleep" ["3"]);;; wait_for_namespace_termination turns'
      else jret tt
  end.

(** [deploy_service._wait_for_old_kubevirt_resources]: an error of a listing ends the wait. *)
Fixpoint wait_for_old_kubevirt_resources (turns : nat) : J unit :=
  match turns with
  | O => jret tt
  | S turns' =>
      gone <-' jcatch
        (cr_gone <-' jcatch (do_ env "get_project_cr" [pid];;; jret false) (λ _, jret true);;
         left <-' flag_of env "old_vms_or_pods" [pid];;
         jret (cr_gone && negb left)) (λ _, jret true);;
      if gone then jret tt
      else emit (Call "sleep" ["2"]);;; wait_for_old_kubevirt_resources turns'
  end.

(** [deploy_service._replace_stale_kubevirt_cr] *)
Definition replace_stale_kubevirt_cr : J unit :=
  jcatch (do_ env "delete_project_cr" [pid]) (λ _, jret tt);;;
  do_ env "k8s_clients" [];;;
  jcatch (do_ env "delete_project_jobs" [pid]) (λ _, jret tt);;;
  wait_for_old_kubevirt_resources 45.

(** [deploy_service._regenerate_kubevirt_cloud_init] one node, but for the user data, which
    [cloud_init.generate_userdata] derives from the other fields. *)
Definition exec_key_node (guest_exec_enabled : bool) (exec_pubkey : string) (node : val) : res val :=
  vm <- has_type node "vmNode";;
  if negb vm then Ok node
  else
    data <- data_of node;;
    ci <- get data "cloudInit" VNone;;
    if negb (truthy ci) then Ok node
    else
      data <- (if guest_exec_enabled then Ok data else set_item data "guestExecEnabled" (VBool false));;
      keys <- get data "ciSshKeys" empty_list;;
      keys <- iter keys;;
      keys <- filter_res (λ k, b <- ClusterMembers.in_val (VStr "troshka-exec") k;; Ok (negb b)) keys;;
      data <- set_item data "ciSshKeys" (VList (keys ++ [VStr exec_pubkey]));;
      set_item node "data" data.

(** [deploy_service._regenerate_kubevirt_cloud_init] *)
Definition regenerate_kubevirt_cloud_init (exec_pubkey : string) : J unit :=
  p <-' project pid;;
  canvas (map_nodes (exec_key_node (d_guest_exec p) exec_pubkey));;;
  do_ env "generate_userdata" [].

(** [deploy_service._kubevirt_create_or_resume_cr:7909-7955] the resource is written anew. *)
Definition kubevirt_create_cr (cr_name : string) : J (option string) :=
  do_ env "kubevirt_prebake_showroom" [pid];;;
  token <-' look (λ t, get t "_showroom_access_token" VNone);;
  (if truthy token then
     p <-' project pid;;
     t <-' topology;;
     let deployed := v_or (default VNone (d_deployed p)) t in
     deployed <-' lift (set_item deployed "_showroom_access_token" token);;
     assign (WDeployed deployed)
   else jret tt);;;
  p <-' project pid;;
  t <-' topology;;
  showroom <-' lift (inject_showroom_gateway_port_forwards fresh_id t (default [] (p_vni_map (d_row p)))
                       (Some "kubevirt"));;
  api <-' lift (ensure_topology_ocp_api_port_forwards showroom.2);;
  jmod (λ w, set_topo w api.1);;;
  (if showroom.1 || api.2 || truthy token then save_topology;;; commit pid else jret tt);;;
  jcatch
    (n <-' in_session env pid (text_of env "deploy_project" [pid]);; jret (Some n))
    (λ e, if contains "AlreadyExists" (exn_str e) then jret (Some cr_name)
          else set_deploy_error pid ("Failed to create TroshkaProject CR: " +:+ exn_str e);;; jret None).

(** [deploy_service._kubevirt_create_or_resume_cr]: the resource's name, or nothing when the
    deployment has failed. *)
Definition kubevirt_create_or_resume_cr : J (option string) :=
  let cr_name := "project-" +:+ str_take 8 pid in
  phase <-' jcatch (text_of env "get_project_phase" [pid]) (λ _, jret "");;
  if String.eqb phase "Deploying" then jret (Some cr_name)
  else
    (if String.eqb phase "" then jret tt else replace_stale_kubevirt_cr);;;
    kubevirt_create_cr cr_name.

(** [deploy_service._finalize_kubevirt_deploy:7264-7270] a node of the deployed canvas. *)
Definition clean_node (node : val) : res val :=
  data <- data_of node;;
  data <- pop_item data "resolvedS3Path";;
  data <- pop_item data "presignedUrl";;
  data <- pop_item data "ciGeneratedUserData";;
  vm <- has_type node "vmNode";;
  bare <- Ok vm <&&> (ip <- get data "bmcIp" VNone;; Ok (negb (truthy ip)));;
  data <- (if bare then set_item data "bmcIp" (VStr "") else Ok data);;
  has <- has_key "data" node;;
  if has then set_item node "data" data else Ok node.

(** [deploy_service._read_kubevirt_domain_uuids]: identifiers of VMs and of their domains, in turn. *)
Fixpoint uuid_pairs (l : list string) : list (string * string) :=
  match l with i :: u :: l' => (i, u) :: uuid_pairs l' | _ => [] end.

(** [deploy_service._finalize_kubevirt_deploy:7278-7302]. *)
Definition stamp_kubevirt_facts : J unit :=
  uuids <-' in_session env pid (texts_of env "read_kubevirt_domain_uuids" [pid]);;
  canvas (map_nodes (stamp_domain_uuid (uuid_pairs uuids)));;;
  bmc_config <-' look (λ t, extract_bmc_config sha256_hex t pid);;
  canvas (kubevirt_bmc (uuid_pairs uuids) bmc_config).

(** [db.refresh(project)]. *)
Definition refresh_project : J unit :=
  flush pid;;; jmod (λ w, set_sess w (mkSess None (s_dirty (jw_sess w)) (s_locked (jw_sess w)) false));;;
  project pid;;; jret tt.

(** [deploy_service._finalize_kubevirt_deploy]; the canvas it finishes is a copy of the job's. *)
Definition finalize_kubevirt_deploy (host : option Host) : J unit :=
  refresh_project;;;
  p <-' project pid;;
  t <-' topology;;
  showroom <-' lift (inject_showroom_gateway_port_forwards fresh_id t (default [] (p_vni_map (d_row p)))
                       (Some "kubevirt"));;
  api <-' lift (ensure_topology_ocp_api_port_forwards showroom.2);;
  jmod (λ w, set_topo w api.1);;;
  assign (WState "active");;;
  with_own_canvas
    (canvas (map_nodes clean_node);;;
     in_session env pid (do_ env "create_provider_routes" (option_list (h_id <$> host)));;;
     in_session env pid (do_ env "allocate_kubevirt_eips" [pid]);;;
     stamp_kubevirt_facts;;;
     canvas (λ t, stamp_effective_dns_ips t true);;;
     clean_topo <-' topology;;
     assign (WDeployed clean_topo);;;
     assign (WTopology clean_topo));;;
  assign (WError None);;;
  monitor <-' look has_ocp_monitor;;
  now <-' now env;;
  (if monitor then assign (WOcp (Some "monitoring") (Some now)) else jret tt);;;
  assign (WProgress None);;;
  commit pid;;;
  delete_deploy_progress;;;
  in_session env pid (do_ env "notify_client_topology_update" []);;;
  emit (Notify "active" "").

(** [deploy_service._handle_kubevirt_deploy_error] *)
Definition handle_kubevirt_deploy_error (msg : string) : J unit :=
  set_deploy_error pid msg;;; delete_deploy_progress;;; emit (Notify "error" msg).

(** [deploy_service._push_kubevirt_deploy_progress] *)
Definition push_kubevirt_deploy_progress (step detail percent : string) (dv_lines : list string) : J unit :=
  if String.eqb detail "" && bool_decide (dv_lines = []) then jret tt
  else
    last <-' jget jw_progress;;
    let new_progress := mkProgress step detail (Some percent) in
    if bool_decide (last = Some new_progress) then jret tt
    else
      jmod (λ w, set_progress w (Some new_progress));;;
      assign (WProgress (Some new_progress));;;
      commit pid;;;
      emit (Notify "deploy-progress" detail).

Inductive poll_outcome := PollDone | PollContinue | PollCancelled.

(** [deploy_service._poll_kubevirt_once] *)
Definition poll_kubevirt_once : J poll_outcome :=
  cancelled <-' flag_of env "is_cancelled" [pid];;
  if cancelled then emit (Call "clear_cancelled" [pid]);;; jret PollCancelled
  else
    deleted <-' project_deleted pid;;
    if deleted then jret PollCancelled
    else
      status <-' jcatch (texts_of env "get_project_status" [pid]) (λ _, jret ["Pending"; ""]);;
      report <-' texts_of env "compute_deploy_step" [pid];;
      match status with
      | phase :: msg :: _ =>
          if String.eqb phase "Running" then
            p <-' project pid;;
            query pid;;;
            host <-' jget (λ w, i ← text_opt (p_host_id (d_row p)); find_host (jw_db w) i);;
            finalize_kubevirt_deploy host;;; jret PollDone
          else if String.eqb phase "Error" then
            handle_kubevirt_deploy_error (if String.eqb msg "" then "Operator reported an error" else msg);;;
            jret PollDone
          else
            match report with
            | step :: detail :: percent :: dv_lines =>
                push_kubevirt_deploy_progress step detail percent dv_lines;;; jret PollContinue
            | _ => unexpected
            end
      | _ => unexpected
      end.

(** [deploy_service._poll_kubevirt_deploy:7675-7686] the state after the last turn. *)
Definition kubevirt_timed_out : J unit :=
  set_deploy_error pid "Deploy timed out waiting for operator (2 hours)";;;
  delete_deploy_progress;;;
  project pid;;;
  emit (Notify "error" "Deploy timed out waiting for operator (2 hours)").

(** [deploy_service._poll_kubevirt_deploy:7664-7673] the turns that remain. *)
Fixpoint poll_turns (turns : nat) (deadline : Z) : J unit :=
  match turns with
  | O => kubevirt_timed_out
  | S turns' =>
      now <-' now env;;
      if deadline <? now then kubevirt_timed_out
      else
        outcome <-' poll_kubevirt_once;;
        match outcome with
        | PollContinue => emit (Call "sleep" ["5"]);;; poll_turns turns' deadline
        | _ => jret tt
        end
  end.

(** [deploy_service._poll_kubevirt_deploy] *)
Definition poll_kubevirt_deploy : J unit :=
  emit (Call "clear_cancelled" [pid]);;;
  now <-' now env;;
  poll_turns 1440 (now + 7200000000).

(** [deploy_service._deploy_kubevirt_native:7984-8001]: a disk that is not there fails the
    deployment with its reason; any other exception goes on. *)
Definition kubevirt_preflight : J (option string) :=
  jcatch (in_session env pid (do_ env "kubevirt_preflight_disks" [pid]);;; jret None)
    (λ e, match e with XDeploy msg => jret (Some msg) | _ => jexc e end).

(** [deploy_service._deploy_kubevirt_native] *)
Definition deploy_kubevirt_native (host : Host) : J unit :=
  query pid;;;
  provider <-' jget (λ w, i ← h_provider_id host; find_provider (jw_db w) i);;
  match provider with
  | None => set_deploy_error pid "No provider found for kubevirt host"
  | Some _ =>
      do_ env "setup_kubevirt_s3_clients" [];;;
      aborted <-' kubevirt_preflight;;
      match aborted with
      | Some msg => set_deploy_error pid msg
      | None =>
          exec_pubkey <-' text_of env "generate_exec_ssh_keypair" [pid];;
          regenerate_kubevirt_cloud_init exec_pubkey;;;
          progress "networks" "creating operator resources";;;
          emit (Notify "deploy-progress" "creating operator resources");;;
          do_ env "k8s_clients" [];;;
          wait_for_namespace_termination 60;;;
          cr <-' kubevirt_create_or_resume_cr;;
          match cr with
          | None => jret tt
          | Some _ => poll_kubevirt_deploy
          end
      end
  end.
End Targets.
