(* ===== verification/JobTriples.v ===== *)
(** * What a job leaves behind: triples for [JobMonad]

    A job takes a project out of a transient state, [limbo]: ["deploying"], ["starting"],
    ["stopping"].  The project is settled when it is gone or in another state.  Every operation of
    [JobMonad], and the steps several jobs share, are classed by what they do to a project in
    limbo, to pending assignments, and to the counters and the semaphore; the tactics [calm],
    [waits] and [settles] follow the shape of a program. *)
From stdpp Require Import prelude strings gmap.
From S2P Require Import Prelude PyStr PyVal PyLemmas Db TopoNodes Vxlan Placement TopologyExtract JobMonad VmStart.
From S2P Require Import DeployHost.

Open Scope list_scope.

(** A state that every job may leave for ["error"], and a deletion for ["deleting"]. *)
Class Limbo (limbo : string) : Prop := mkLimbo {
  limbo_error : "error" ≠ limbo;
  limbo_deleting : "deleting" ≠ limbo
}.
#[export] Instance limbo_deploying : Limbo "deploying".
Proof. by split. Qed.
#[export] Instance limbo_starting : Limbo "starting".
Proof. by split. Qed.
#[export] Instance limbo_stopping : Limbo "stopping".
Proof. by split. Qed.

(** Where a job may wait for itself: the worlds in which its thread may ask for a lock its own
    session holds. *)
Class Blocking := may_block : jobw → Prop.

(** ** The states between two steps *)

Section States.
Context (limbo pid : string) (c0 : counters) (n0 : Z) {HB : Blocking}.

(** The project is not waiting for its job: it is gone, or in another state. *)
Definition settled_rows (rows : list dproject) : Prop :=
  match List.find (is_pid pid) rows with Some p => d_state p ≠ limbo | None => True end.
Definition settled (w : jobw) : Prop := settled_rows (jw_rows w).

Definition state_write (x : write) : bool := match x with WState _ => true | _ => false end.
Definition leaves (x : write) : Prop := x ≠ WState limbo.

Definition base (w : jobw) : Prop := jw_counters w = c0 ∧ jw_permits w = n0.

(** Nothing pending; [b]: the project is settled. *)
Definition good (b : bool) (w : jobw) : Prop :=
  base w ∧ s_locked (jw_sess w) = false ∧ s_dirty (jw_sess w) = [] ∧ (b = true → settled w).
(** After an exception. *)
Definition bad (w : jobw) : Prop := base w ∧ Forall leaves (s_dirty (jw_sess w)).
(** A new state is pending, or the project is settled. *)
Definition pending (w : jobw) : Prop :=
  bad w ∧ (Exists (λ x, state_write x = true) (s_dirty (jw_sess w)) ∨ settled w).
(** Only columns other than the state are pending. *)
Definition draft (b : bool) (w : jobw) : Prop :=
  base w ∧ Forall (λ x, state_write x = false) (s_dirty (jw_sess w)) ∧ (b = true → settled w).
(** The job may end here. *)
Definition fin (w : jobw) : Prop := base w ∧ settled w.
(** A fresh session. *)
Definition fresh (w : jobw) : Prop := base w ∧ jw_sess w = new_session.

Definition triple {A} (P : jobw → Prop) (m : J A) (Q : A → jobw → Prop) (E : jobw → Prop) : Prop :=
  ∀ w, P w → match m w with (w', Ret a) => Q a w' | (w', Exc _) => E w' | (w', Blocked) => may_block w' end.

(** A computation that ends with nothing pending, exceptions included. *)
Definition calm {A} (m : J A) : Prop := ∀ b, triple (good b) m (λ _, good b) (good b).
(** One that ends with nothing pending, and with the project settled when it answers [stop]. *)
Definition settles {A} (stop : A → bool) (m : J A) : Prop :=
  ∀ b, triple (good b) m (λ a, good (b || stop a)) bad.
Definition keeps {A} (m : J A) : Prop := settles (λ _, false) m.
(** One that runs while a state is pending. *)
Definition waits {A} (m : J A) : Prop := triple pending m (λ _, pending) pending.
(** One that assigns columns other than the state. *)
Definition drafts {A} (m : J A) : Prop := ∀ b, triple (draft b) m (λ _, draft b) bad.
Definition settles_draft {A} (stop : A → bool) (m : J A) : Prop :=
  ∀ b, triple (draft b) m (λ a, good (b || stop a)) bad.

(** One that runs while a state is pending, and commits it. *)
Definition finishes {A} (m : J A) : Prop := triple pending m (λ _, good true) bad.
(** What runs while a state is pending, and fails only because the project is gone. *)
Definition firm {A} (m : J A) : Prop := triple pending m (λ _, pending) fin.
End States.

(** The other processes do not put the project back in limbo: only a new job of its kind would. *)
Class Peers (limbo pid : string) (env : environment) : Prop :=
  others_settled : ∀ log rows, settled_rows limbo pid rows → settled_rows limbo pid (env_others env log rows).

(** How a step that may stop its job ends. *)
Definition stopped {A} (r : continue_or_stop A) : bool := match r with Stop => true | Go _ => false end.
(** The answer with which a step leaves the project settled. *)
Definition none_left {A} (o : option A) : bool := match o with None => true | Some _ => false end.

Section Laws.
Context (env : environment) (exn_text : exn → string) (limbo pid : string) (c0 : counters) (n0 : Z).
Context {HB : Blocking} `{HL : !Limbo limbo} `{HP : !Peers limbo pid env}.
Notation settled_rows := (settled_rows limbo pid).
Notation settled := (settled limbo pid).
Notation leaves := (leaves limbo).
Notation base := (base c0 n0).
Notation good := (good limbo pid c0 n0).
Notation bad := (bad limbo c0 n0).
Notation pending := (pending limbo pid c0 n0).
Notation draft := (draft limbo pid c0 n0).
Notation fin := (fin limbo pid c0 n0).
Notation calm := (calm limbo pid c0 n0).
Notation settles := (settles limbo pid c0 n0).
Notation keeps := (keeps limbo pid c0 n0).
Notation waits := (waits limbo pid c0 n0).
Notation drafts := (drafts limbo pid c0 n0).
Notation settles_draft := (settles_draft limbo pid c0 n0).
Notation finishes := (finishes limbo pid c0 n0).
Notation firm := (firm limbo pid c0 n0).

(** ** The rules of the triples *)

Lemma good_bad b w : good b w → bad w.
Proof. intros (Hb & _ & Hd & _). split; [done|]. by rewrite Hd. Qed.

Lemma good_pending w : good true w → pending w.
Proof. intros H. split; [by eapply good_bad|]. right. by apply H. Qed.

Lemma good_false b w : good b w → good false w.
Proof. intros (? & ? & ? & _). by split_and!. Qed.

Lemma settles_keeps {A} stop (m : J A) : settles stop m → keeps m.
Proof.
  intros H b w Hw. specialize (H b w Hw). destruct (m w) as [w' [a|e|]]; [|done..].
  destruct H as (? & ? & ? & Hs). split_and!; try done. rewrite orb_false_r. intros ->. by apply Hs.
Qed.

Lemma calm_keeps {A} (m : J A) : calm m → keeps m.
Proof.
  intros H b w Hw. specialize (H b w Hw). destruct (m w) as [w' [a|e|]]; [|by eapply good_bad|done].
  by rewrite orb_false_r.
Qed.

Lemma keeps_settles {A} stop (m : J A) : keeps m → (∀ a, stop a = false) → settles stop m.
Proof.
  intros H Hs b w Hw. specialize (H b w Hw). destruct (m w) as [w' [a|e|]]; [|done..]. by rewrite Hs.
Qed.

(** *** Closure *)

Lemma calm_ret {A} (a : A) : calm (jret a).
Proof. by intros b w H. Qed.

Lemma calm_exc {A} e : calm (@jexc A e).
Proof. by intros b w H. Qed.

Lemma calm_get {A} (f : jobw → A) : calm (jget f).
Proof. by intros b w H. Qed.

Lemma calm_bind {A B} (m : J A) (f : A → J B) : calm m → (∀ a, calm (f a)) → calm (jbind m f).
Proof.
  intros Hm Hf b w Hw. unfold jbind. specialize (Hm b w Hw).
  destruct (m w) as [w' [a|e|]]; [by apply Hf|done..].
Qed.

Lemma calm_catch {A} (m : J A) h : calm m → (∀ e, calm (h e)) → calm (jcatch m h).
Proof.
  intros Hm Hh b w Hw. unfold jcatch. specialize (Hm b w Hw).
  destruct (m w) as [w' [a|e|]]; [done|by apply Hh|done].
Qed.

Lemma calm_lift {A} (r : res A) : calm (jlift exn_text r).
Proof. destruct r; [apply calm_ret|apply calm_exc]. Qed.

(** A change that leaves the rows, the counters and the session alone. *)
Definition harmless (f : jobw → jobw) : Prop := ∀ w,
  jw_rows (f w) = jw_rows w ∧ jw_counters (f w) = jw_counters w ∧ jw_permits (f w) = jw_permits w ∧
  s_dirty (jw_sess (f w)) = s_dirty (jw_sess w) ∧ s_locked (jw_sess (f w)) = s_locked (jw_sess w).

Lemma harmless_good f b w : harmless f → good b w → good b (f w).
Proof.
  intros Hf ([Hc Hn] & Hl & Hd & Hs). destruct (Hf w) as (H1 & H2 & H3 & H4 & H5).
  unfold good, base, settled. rewrite H1, H2, H3, H4, H5. by split_and!.
Qed.

Lemma harmless_pending f w : harmless f → pending w → pending (f w).
Proof.
  intros Hf [[[Hc Hn] Hd] Hs]. destruct (Hf w) as (H1 & H2 & H3 & H4 & H5).
  unfold pending, bad, base, settled. by rewrite H1, H2, H3, H4.
Qed.

Lemma calm_mod f : harmless f → calm (jmod f).
Proof. intros Hf b w Hw. by apply harmless_good. Qed.

Lemma settles_bind {A B} (s1 : A → bool) (s2 : B → bool) (m : J A) (f : A → J B) :
  settles s1 m → (∀ a, if s1 a then keeps (f a) else settles s2 (f a)) → settles s2 (jbind m f).
Proof.
  intros Hm Hf b w Hw. unfold jbind. specialize (Hm b w Hw).
  destruct (m w) as [w' [a|e|]]; [|done..].
  specialize (Hf a). destruct (s1 a); cbn [orb] in *.
  - rewrite orb_true_r in Hm. specialize (Hf true w' Hm). destruct (f a w') as [w2 [x|e|]]; [|done..].
    cbn [orb] in Hf. destruct Hf as (? & ? & ? & Hs). split_and!; try done. intros _. by apply Hs.
  - rewrite orb_false_r in Hm. exact (Hf b w' Hm).
Qed.

Lemma keeps_bind {A B} (s : B → bool) (m : J A) (f : A → J B) :
  keeps m → (∀ a, settles s (f a)) → settles s (jbind m f).
Proof. intros Hm Hf. by eapply (settles_bind (λ _, false)). Qed.

Lemma settles_catch {A} s (m : J A) h : calm m → (∀ e, settles s (h e)) → (∀ a, s a = false) → settles s (jcatch m h).
Proof.
  intros Hm Hh Hs b w Hw. unfold jcatch. specialize (Hm b w Hw).
  destruct (m w) as [w' [a|e|]]; [by rewrite Hs, orb_false_r|by apply Hh|done].
Qed.

(** ** The operations of a job *)

Lemma settled_set_sess w s : settled (set_sess w s) = settled w.
Proof. done. Qed.

Lemma find_update f w :
  (∀ p, d_id (f p) = d_id p) →
  List.find (is_pid pid) (jw_rows (update_row pid f w)) = f <$> current pid w.
Proof.
  intros Hf. unfold update_row, current. cbn. induction (jw_rows w) as [|p rows IH]; [done|].
  cbn [map List.find]. destruct (is_pid pid p) eqn:E.
  - unfold is_pid in *. by rewrite Hf, E.
  - by rewrite E.
Qed.

Lemma apply_write_id x p : d_id (apply_write x p) = d_id p.
Proof. by destruct x, p as [[]]. Qed.

Lemma apply_writes_id ws p : d_id (apply_writes ws p) = d_id p.
Proof.
  unfold apply_writes. revert p. induction ws as [|x ws IH]; intros p; [done|].
  cbn [foldl]. by rewrite IH, apply_write_id.
Qed.

Lemma apply_write_state x p :
  d_state (apply_write x p) = match x with WState s => s | _ => d_state p end.
Proof. by destruct x, p as [[]]. Qed.

(** Writes none of which sets [limbo], and one of which sets a state, or which start from
    another state. *)
Lemma apply_writes_settled ws p :
  Forall leaves ws → Exists (λ x, state_write x = true) ws ∨ d_state p ≠ limbo →
  d_state (apply_writes ws p) ≠ limbo.
Proof.
  unfold apply_writes. revert p. induction ws as [|x ws IH]; intros p Hl [H|H]; [by inversion H|exact H|..];
    apply Forall_cons in Hl as [Hx Hl]; cbn [foldl]; apply IH; try done.
  - apply Exists_cons in H as [H|H]; [right|by left]. rewrite apply_write_state. unfold leaves in Hx.
    destruct x; try done. congruence.
  - right. rewrite apply_write_state. unfold leaves in Hx. destruct x; congruence.
Qed.

(** The rows after a commit of writes that leave the project in another state. *)
Lemma settled_update ws w p s e :
  current pid w = Some p → Forall leaves ws → Exists (λ x, state_write x = true) ws ∨ settled w →
  settled (add_event (set_sess (update_row pid (apply_writes ws) w) s) e).
Proof.
  intros Ec Hl Hs. unfold settled, settled_rows. cbn [jw_rows add_event set_sess].
  rewrite find_update by (intros; apply apply_writes_id). rewrite Ec.
  change (d_state (apply_writes ws p) ≠ limbo). apply apply_writes_settled; [exact Hl|].
  destruct Hs as [Hs|Hs]; [by left|right]. revert Hs. unfold settled, settled_rows. unfold current in Ec. by rewrite Ec.
Qed.

Lemma calm_ask f args : calm (ask env f args).
Proof.
  intros b w (Hb & Hl & Hd & Hs). unfold ask. destruct (env_answer env _ _ _) as [a t].
  assert (good b (mkJobw (env_others env (jw_log w) (jw_rows w)) (jw_db w) (jw_counters w) (jw_hwm w) (jw_permits w)
    (jw_progress w) t (jw_sess w) (jw_log w ++ [Call f args]))).
  { split_and!; try done. intros Hb'. apply others_settled. by apply Hs. }
  by destruct a.
Qed.

Lemma waits_ask f args : waits (ask env f args).
Proof.
  intros w [[Hb Hd] Hs]. unfold ask. destruct (env_answer env _ _ _) as [a t].
  assert (pending (mkJobw (env_others env (jw_log w) (jw_rows w)) (jw_db w) (jw_counters w) (jw_hwm w) (jw_permits w)
    (jw_progress w) t (jw_sess w) (jw_log w ++ [Call f args]))).
  { split_and!; try done. destruct Hs as [Hs|Hs]; [by left|right]. by apply others_settled. }
  by destruct a.
Qed.

Lemma calm_flush : calm (flush pid).
Proof. intros b w Hw. unfold flush. destruct Hw as (Hb & Hl & Hd & Hs). rewrite Hd. by split_and!. Qed.

Lemma calm_commit : calm (commit pid).
Proof. intros b w Hw. unfold commit. destruct Hw as (Hb & Hl & Hd & Hs). rewrite Hd. by split_and!. Qed.

(** A commit after assignments that leave the state alone. *)
Lemma commit_plain b w :
  base w → Forall (λ x, state_write x = false) (s_dirty (jw_sess w)) → (b = true → settled w) →
  match commit pid w with (w', Ret _) => good b w' | (w', Exc _) => bad w' | (_, Blocked) => False end.
Proof.
  intros Hb Hd Hs. unfold commit. destruct (s_dirty (jw_sess w)) as [|x ws] eqn:E; [by split_and!|].
  assert (Hl : Forall leaves (x :: ws)) by (eapply Forall_impl; [exact Hd|]; by intros [] ? ?).
  destruct (current pid w) as [p|] eqn:Ec; [|by rewrite <-E in Hl].
  split_and!; try done. intros Hb'. eapply settled_update; [exact Ec|exact Hl|]. right. by apply Hs.
Qed.

(** A commit while a state is pending settles the project. *)
Lemma commit_pending : triple pending (commit pid) (λ _, good true) pending.
Proof.
  intros w [[Hb Hd] Hs]. unfold commit. destruct (s_dirty (jw_sess w)) as [|x ws] eqn:E.
  - split_and!; try done. intros _. destruct Hs as [Hs|Hs]; [by inversion Hs|done].
  - destruct (current pid w) as [p|] eqn:Ec.
    + split_and!; try done. intros _. eapply settled_update; [exact Ec|exact Hd|exact Hs].
    + split; [by rewrite <-E in Hd|]. right. unfold settled, settled_rows. unfold current in Ec. by rewrite Ec.
Qed.

Lemma waits_commit : waits (commit pid).
Proof.
  intros w Hw. pose proof (commit_pending w Hw) as H. destruct (commit pid w) as [w' [u|e|]]; [|done..].
  by apply good_pending.
Qed.

Lemma waits_flush : waits (flush pid).
Proof.
  intros w Hw. unfold flush. destruct (s_dirty (jw_sess w)) as [|x ws] eqn:E; [done|].
  destruct (current pid w); [|done]. destruct Hw as [[Hb Hd] Hs]. rewrite E in Hd, Hs. by split_and!.
Qed.

Lemma calm_in_session {A} (m : J A) : calm m → calm (in_session env pid m).
Proof.
  intros Hm. apply calm_bind; [apply calm_flush|]. intros _ b w Hw. specialize (Hm b w Hw).
  destruct (m w) as [w' [a|e|]]; [| |done]; (destruct (env_commits env (jw_log w')); [|done]);
    pose proof (calm_commit b w' Hm) as Hc; destruct (commit pid w') as [w2 [u|e'|]]; done.
Qed.

Lemma waits_bind {A B} (m : J A) (f : A → J B) : waits m → (∀ a, waits (f a)) → waits (jbind m f).
Proof.
  intros Hm Hf w Hw. unfold jbind. specialize (Hm w Hw). destruct (m w) as [w' [a|e|]]; [by apply Hf|done..].
Qed.

Lemma waits_catch {A} (m : J A) h : waits m → (∀ e, waits (h e)) → waits (jcatch m h).
Proof.
  intros Hm Hh w Hw. unfold jcatch. specialize (Hm w Hw). destruct (m w) as [w' [a|e|]]; [done|by apply Hh|done].
Qed.

Lemma waits_in_session {A} (m : J A) : waits m → waits (in_session env pid m).
Proof.
  intros Hm. apply waits_bind; [apply waits_flush|]. intros _ w Hw. specialize (Hm w Hw).
  destruct (m w) as [w' [a|e|]]; [| |done]; (destruct (env_commits env (jw_log w')); [|done]);
    pose proof (waits_commit w' Hm) as Hc; destruct (commit pid w') as [w2 [u|e'|]]; done.
Qed.

Lemma waits_ret {A} (a : A) : waits (jret a).
Proof. by intros w H. Qed.

Lemma waits_exc {A} e : waits (@jexc A e).
Proof. by intros w H. Qed.

Lemma waits_get {A} (f : jobw → A) : waits (jget f).
Proof. by intros w H. Qed.

Lemma waits_lift {A} (r : res A) : waits (jlift exn_text r).
Proof. destruct r; [apply waits_ret|apply waits_exc]. Qed.

Lemma waits_mod f : harmless f → waits (jmod f).
Proof. intros Hf w Hw. by apply harmless_pending. Qed.

(** An assignment while a state is pending. *)
Lemma waits_assign x : leaves x → waits (assign x).
Proof.
  intros Hx w [[Hb Hd] Hs]. split; [split; [done|]|]; cbn.
  - apply Forall_app; split; [done|]. by apply Forall_singleton.
  - destruct Hs as [Hs|Hs]; [left|by right]. apply Exists_app. by left.
Qed.

(** The assignment of a state makes it pending. *)
Lemma assign_state b s : s ≠ limbo → triple (good b) (assign (WState s)) (λ _, pending) bad.
Proof.
  intros Hs w (Hb & Hl & Hd & _). split; [split; [done|]|]; cbn; rewrite Hd; cbn.
  - apply Forall_singleton. unfold leaves. congruence.
  - left. by constructor.
Qed.

Lemma bad_assign_state s : s ≠ limbo → triple bad (assign (WState s)) (λ _, pending) bad.
Proof.
  intros Hs w [Hb Hd]. split; [split; [done|]|]; cbn.
  - apply Forall_app; split; [done|]. apply Forall_singleton. unfold leaves. congruence.
  - left. apply Exists_app. right. by constructor.
Qed.

(** *** Assignments of other columns, then a commit *)
Lemma good_draft b w : good b w → draft b w.
Proof. intros (Hb & Hl & Hd & Hs). split_and!; [apply Hb..| |done]. by rewrite Hd. Qed.

Lemma draft_bad b w : draft b w → bad w.
Proof.
  intros (Hb & Hd & _). split; [done|]. eapply Forall_impl; [exact Hd|]. by intros [] ? ?.
Qed.

Lemma from_draft {A} s (m : J A) : settles_draft s m → settles s m.
Proof. intros H b w Hw. by apply H, good_draft. Qed.

Lemma draft_bind {A B} s (m : J A) (f : A → J B) :
  drafts m → (∀ a, settles_draft s (f a)) → settles_draft s (jbind m f).
Proof.
  intros Hm Hf b w Hw. unfold jbind. specialize (Hm b w Hw).
  destruct (m w) as [w' [a|e|]]; [by apply Hf|done..].
Qed.

Lemma drafts_bind {A B} (m : J A) (f : A → J B) : drafts m → (∀ a, drafts (f a)) → drafts (jbind m f).
Proof.
  intros Hm Hf b w Hw. unfold jbind. specialize (Hm b w Hw).
  destruct (m w) as [w' [a|e|]]; [by apply Hf|done..].
Qed.

Lemma drafts_ret {A} (a : A) : drafts (jret a).
Proof. by intros b w H. Qed.

Lemma drafts_get {A} (f : jobw → A) : drafts (jget f).
Proof. by intros b w H. Qed.

Lemma drafts_lift {A} (r : res A) : drafts (jlift exn_text r).
Proof. destruct r; intros b w H; [done|by eapply draft_bad]. Qed.

Lemma drafts_mod f : harmless f → drafts (jmod f).
Proof.
  intros Hf b w ([Hc Hn] & Hd & Hs). destruct (Hf w) as (H1 & H2 & H3 & H4 & H5).
  unfold jmod, draft, base, settled. rewrite H1, H2, H3, H4. by split_and!.
Qed.

Lemma drafts_assign x : state_write x = false → drafts (assign x).
Proof.
  intros Hx b w (Hb & Hd & Hs). split_and!; [apply Hb..| |done]. cbn.
  apply Forall_app; split; [done|]. by apply Forall_singleton.
Qed.

Lemma drafts_flush : drafts (flush pid).
Proof.
  intros b w Hw. unfold flush. destruct (s_dirty (jw_sess w)) as [|x ws] eqn:E; [done|].
  destruct (current pid w); [|by eapply draft_bad]. destruct Hw as (Hb & Hd & Hs). rewrite E in Hd. by split_and!.
Qed.

Lemma drafts_ask f args : drafts (ask env f args).
Proof.
  intros b w (Hb & Hd & Hs). unfold ask. destruct (env_answer env _ _ _) as [a t].
  assert (draft b (mkJobw (env_others env (jw_log w) (jw_rows w)) (jw_db w) (jw_counters w) (jw_hwm w) (jw_permits w)
    (jw_progress w) t (jw_sess w) (jw_log w ++ [Call f args]))).
  { split_and!; [apply Hb..|done|]. intros Hb'. apply others_settled. by apply Hs. }
  destruct a; [done..|]. by eapply draft_bad.
Qed.

Lemma drafts_project : drafts (project pid).
Proof.
  intros b w Hw. unfold project. destruct (s_obj (jw_sess w)); [done|].
  destruct (current pid w); [|by eapply draft_bad]. by destruct Hw as (Hb & Hd & Hs).
Qed.

Lemma settles_draft_commit : settles_draft (λ _, false) (commit pid).
Proof.
  intros b w (Hb & Hd & Hs). pose proof (commit_plain b w Hb Hd Hs) as H.
  destruct (commit pid w) as [w' [u|e|]]; [by rewrite orb_false_r|done..].
Qed.

Lemma draft_commit {B} s (k : unit → J B) :
  settles s (k tt) → settles_draft s (jbind (commit pid) k).
Proof.
  intros Hk b w Hw. unfold jbind. pose proof (settles_draft_commit b w Hw) as Hc.
  destruct (commit pid w) as [w' [[]|e|]]; [|done..]. rewrite orb_false_r in Hc. by apply Hk.
Qed.

(** *** A new state, then a commit *)
(** A step that assigns a state, works while it is pending and commits settles the project. *)
Lemma settles_finishes {A} stop s (k : unit → J A) :
  s ≠ limbo → finishes (k tt) → settles stop (jbind (assign (WState s)) k).
Proof.
  intros Hs Hk b w Hw. unfold jbind. pose proof (assign_state b s Hs w Hw) as Ha.
  destruct (assign (WState s) w) as [w' [[]|e|]] eqn:E; [|done..]. specialize (Hk w' Ha).
  destruct (k tt w') as [w2 [a|e|]]; [|done..]. destruct Hk as (? & ? & ? & Hset). split_and!; try done.
  intros _. by apply Hset.
Qed.

Lemma finishes_bind {A B} (m : J A) (f : A → J B) : waits m → (∀ a, finishes (f a)) → finishes (jbind m f).
Proof.
  intros Hm Hf w Hw. unfold jbind. specialize (Hm w Hw).
  destruct (m w) as [w' [a|e|]]; [by apply Hf|by destruct Hm|done].
Qed.

Lemma finishes_commit_bind {B} (k : unit → J B) : keeps (k tt) → finishes (jbind (commit pid) k).
Proof.
  intros Hk w Hw. unfold jbind. pose proof (commit_pending w Hw) as Hc.
  destruct (commit pid w) as [w' [[]|e|]]; [|by destruct Hc|done].
  specialize (Hk true w' Hc). by destruct (k tt w') as [w2 [x|e|]].
Qed.

Lemma finishes_commit : finishes (commit pid).
Proof.
  intros w Hw. pose proof (commit_pending w Hw) as Hc.
  by destruct (commit pid w) as [w' [[]|e|]]; [|destruct Hc|].
Qed.

Lemma waits_project : waits (project pid).
Proof.
  intros w Hw. unfold project. destruct (s_obj (jw_sess w)); [done|].
  destruct (current pid w); [|done]. by destruct Hw as [[Hb Hd] Hs].
Qed.

(** ** Calm operations *)

Lemma calm_emit e : calm (emit e).
Proof. by apply calm_mod. Qed.

Lemma calm_project : calm (project pid).
Proof.
  intros b w Hw. unfold project. destruct (s_obj (jw_sess w)); [done|].
  destruct (current pid w); [|done]. by destruct Hw as (Hb & Hl & Hd & Hs).
Qed.

Lemma calm_query_project : calm (query_project pid).
Proof.
  apply calm_bind; [apply calm_flush|]. intros _ b w Hw. destruct (current pid w); [|done].
  by destruct Hw as (Hb & Hl & Hd & Hs).
Qed.

Lemma calm_elsewhere x : state_write x = false → calm (elsewhere pid x).
Proof.
  intros Hx b w (Hb & Hl & Hd & Hs). unfold elsewhere. rewrite Hl. split_and!; try done.
  intros Hb'. specialize (Hs Hb'). unfold settled, settled_rows in *.
  rewrite find_update by (intros; apply apply_write_id). unfold current.
  destruct (List.find _ _) as [p|]; [|done]. cbn. rewrite apply_write_state. by destruct x.
Qed.
Lemma calm_each {A} (l : list A) f : (∀ x, calm (f x)) → calm (jeach l f).
Proof. intros Hf. induction l as [|x l IH]; cbn [jeach]; [apply calm_ret|]. by apply calm_bind. Qed.

Lemma calm_fold {A B} (f : B → A → J B) b l : (∀ b x, calm (f b x)) → calm (jfold f b l).
Proof. intros Hf. revert b. induction l as [|x l IH]; intros b; cbn [jfold]; [apply calm_ret|]. by apply calm_bind. Qed.

Lemma calm_finally {A} (m : J A) f : harmless f → calm m → calm (jfinally m f).
Proof.
  intros Hf Hm b w Hw. unfold jfinally. specialize (Hm b w Hw).
  destruct (m w) as [w' [a|e|]]; [by apply harmless_good..|done].
Qed.

Lemma settles_finally {A} s (m : J A) f : harmless f → settles s m → settles s (jfinally m f).
Proof.
  intros Hf Hm b w Hw. unfold jfinally. specialize (Hm b w Hw).
  destruct (m w) as [w' [a|e|]]; [by apply harmless_good| |done].
  destruct Hm as [[Hc Hn] Hd]. destruct (Hf w') as (H1 & H2 & H3 & H4 & H5).
  unfold bad, base. by rewrite H2, H3, H4.
Qed.
Lemma good_fin w : good true w → fin w.
Proof. intros (Hb & _ & _ & Hs). split; [done|]. by apply Hs. Qed.

Lemma gone_fin w : base w → current pid w = None → fin w.
Proof. intros Hb Hc. split; [done|]. unfold settled, settled_rows. unfold current in Hc. by rewrite Hc. Qed.

Lemma firm_bind {A B} (m : J A) (f : A → J B) : firm m → (∀ a, firm (f a)) → firm (jbind m f).
Proof.
  intros Hm Hf w Hw. unfold jbind. specialize (Hm w Hw).
  destruct (m w) as [w' [a|e|]]; [by apply Hf|done..].
Qed.

Lemma firm_total {A} (m : J A) : waits m → (∀ w, ∃ w' a, m w = (w', Ret a)) → firm m.
Proof. intros Hm Ht w Hw. specialize (Hm w Hw). destruct (Ht w) as (w' & a & E). by rewrite E in *. Qed.

Lemma firm_project : firm (project pid).
Proof.
  intros w Hw. pose proof (waits_project w Hw) as H. unfold project in *. destruct (s_obj (jw_sess w)); [done|].
  destruct (current pid w) eqn:E; [done|]. apply gone_fin; [apply Hw|done].
Qed.

Lemma firm_flush : firm (flush pid).
Proof.
  intros w Hw. pose proof (waits_flush w Hw) as H. unfold flush in *. destruct (s_dirty (jw_sess w)); [done|].
  destruct (current pid w) eqn:E; [done|]. apply gone_fin; [apply Hw|done].
Qed.

Lemma triple_bind {A B} P (m : J A) Q (f : A → J B) R E :
  triple P m Q E → (∀ a, triple (Q a) (f a) R E) → triple P (jbind m f) R E.
Proof.
  intros Hm Hf w Hw. unfold jbind. specialize (Hm w Hw). destruct (m w) as [w' [a|e|]]; [by apply Hf|done..].
Qed.

Lemma waits_finally {A} (m : J A) f : harmless f → waits m → waits (jfinally m f).
Proof.
  intros Hf Hm w Hw. unfold jfinally. specialize (Hm w Hw).
  destruct (m w) as [w' [a|e|]]; [by apply harmless_pending..|done].
Qed.

Lemma keeps_ret {A} (a : A) : keeps (jret a).
Proof. apply calm_keeps, calm_ret. Qed.

Lemma settles_ret {A} (s : A → bool) a : s a = false → settles s (jret a).
Proof. intros Hs b w Hw. cbn. by rewrite Hs, orb_false_r. Qed.

Lemma settles_exc {A} (s : A → bool) e : settles s (@jexc A e).
Proof. intros b w Hw. by eapply good_bad. Qed.

Lemma calm_settles {A} (s : A → bool) (m : J A) : calm m → (∀ a, s a = false) → settles s m.
Proof. intros Hm Hs. by apply keeps_settles; [apply calm_keeps|]. Qed.

Lemma calm_bind_settles {A B} (s : B → bool) (m : J A) f :
  calm m → (∀ a, settles s (f a)) → settles s (jbind m f).
Proof. intros Hm Hf. apply keeps_bind; [by apply calm_keeps|done]. Qed.
Lemma settles_catch_answer {A B} (s : B → bool) (m : J A) (g : A → B) h :
  calm m → (∀ a, s (g a) = false) → (∀ e, settles s (h e)) → settles s (jcatch (jbind m (λ a, jret (g a))) h).
Proof.
  intros Hm Hg Hh b w Hw. unfold jcatch, jbind. specialize (Hm b w Hw).
  destruct (m w) as [w' [a|e|]]; cbn; [by rewrite Hg, orb_false_r|by apply Hh|done].
Qed.
(** With its handler, each part of the job ends and leaves the project settled. *)
Lemma part_handled {A} P (m : J A) (Q : A → jobw → Prop) (h : jexn → J A) :
  triple P m Q bad → (∀ e, triple bad (h e) Q (λ _, False)) → triple P (jcatch m h) Q (λ _, False).
Proof.
  intros Hm Hh w Hw. unfold jcatch. specialize (Hm w Hw). destruct (m w) as [w' [a|e|]]; [done|by apply Hh|done].
Qed.
Lemma query_bad : triple bad (query_project pid) (λ found w, if found : bool then bad w else fin w) fin.
Proof.
  eapply (triple_bind _ _ (λ _, bad)).
  - intros w Hw. unfold flush. destruct (s_dirty (jw_sess w)) as [|x ws] eqn:Ed; [done|].
    destruct (current pid w) eqn:E; [|apply gone_fin; [apply Hw|done]].
    destruct Hw as [Hb Hd]. rewrite Ed in Hd. by split.
  - intros _ w Hw. destruct (current pid w) eqn:E; [|apply gone_fin; [apply Hw|done]]. exact Hw.
Qed.


(** A commit of a pending state fails only because the row is gone. *)
Lemma commit_firm : triple pending (commit pid) (λ _, good true) fin.
Proof.
  intros w Hw. pose proof (commit_pending w Hw) as Hc. unfold commit in *. destruct (s_dirty (jw_sess w)); [done|].
  destruct (current pid w) eqn:E; [done|]. apply gone_fin; [apply Hw|done].
Qed.

(** What stops a job is dropped once the project is settled. *)
Lemma dropped {A} P (m : J A) (h : jexn → J A) :
  triple P m (λ _, fin) fin → (∀ e w, fin w → ∃ a, h e w = (w, Ret a)) → triple P (jcatch m h) (λ _, fin) (λ _, False).
Proof.
  intros Hm Hh w Hw. unfold jcatch. specialize (Hm w Hw). destruct (m w) as [w' [a|e|]]; [done| |done].
  destruct (Hh e w' Hm) as [a ->]. done.
Qed.
End Laws.

(** ** Automation *)

Create HintDb job.
Create HintDb wait.
Create HintDb keep.
#[export] Hint Constants Opaque : job wait keep.
#[export] Hint Extern 0 (Peers _ _ _) => assumption : job wait keep.
#[export] Hint Extern 0 (Limbo _) => solve [typeclasses eauto] : job wait keep.

#[export] Hint Resolve calm_ret calm_exc calm_get calm_lift calm_ask calm_flush calm_commit calm_emit
  calm_project calm_query_project : job.
#[export] Hint Resolve waits_ret waits_exc waits_get waits_lift waits_ask waits_flush waits_commit waits_project : wait.
#[export] Hint Resolve keeps_ret : keep.

(** Follows the shape of a computation whose operations are calm. *)
Ltac calm_step :=
  match goal with
  | |- Peers _ _ _ => assumption
  | |- Limbo _ => solve [typeclasses eauto]
  | |- forall _, _ => intros ?
  | |- _ = false => reflexivity
  | |- calm _ _ _ _ (jbind _ _) => apply calm_bind
  | |- calm _ _ _ _ (jcatch _ _) => apply calm_catch
  | |- calm _ _ _ _ (catch_troshkad _ _) => apply calm_catch
  | |- calm _ _ _ _ (in_session _ _ _) => apply calm_in_session
  | |- calm _ _ _ _ (jmod _) => apply calm_mod; intros ?; repeat case_match; done
  | |- calm _ _ _ _ (elsewhere _ _) => apply calm_elsewhere; reflexivity
  | |- calm _ _ _ _ (jeach _ _) => apply calm_each
  | |- calm _ _ _ _ (jfold _ _ _) => apply calm_fold
  | |- calm _ _ _ _ (jfinally _ _) => apply calm_finally; [intros ?; repeat case_match; done|]
  | |- calm _ _ _ _ (match ?x with _ => _ end) => destruct x
  | |- calm _ _ _ _ _ => solve [eauto with job nocore]
  end.
Ltac calm := repeat calm_step.

(** Follows the shape of a computation that runs while a state is pending. *)
Ltac waits_step :=
  match goal with
  | |- Peers _ _ _ => assumption
  | |- Limbo _ => solve [typeclasses eauto]
  | |- forall _, _ => intros ?
  | |- waits _ _ _ _ (jbind _ _) => apply waits_bind
  | |- waits _ _ _ _ (jcatch _ _) => apply waits_catch
  | |- waits _ _ _ _ (in_session _ _ _) => apply waits_in_session
  | |- waits _ _ _ _ (jmod _) => apply waits_mod; intros ?; repeat case_match; done
  | |- waits _ _ _ _ (assign _) => apply waits_assign; discriminate
  | |- waits _ _ _ _ (match ?x with _ => _ end) => destruct x
  | |- waits _ _ _ _ _ => solve [eauto with wait nocore]
  end.
Ltac waits := repeat waits_step.

Section Operations.
Context (env : environment) (exn_text : exn → string) (limbo pid : string) (c0 : counters) (n0 : Z).
Context {HB : Blocking} `{HL : !Limbo limbo} `{HP : !Peers limbo pid env}.
Notation settled_rows := (settled_rows limbo pid).
Notation settled := (settled limbo pid).
Notation leaves := (leaves limbo).
Notation base := (base c0 n0).
Notation good := (good limbo pid c0 n0).
Notation bad := (bad limbo c0 n0).
Notation pending := (pending limbo pid c0 n0).
Notation draft := (draft limbo pid c0 n0).
Notation fin := (fin limbo pid c0 n0).
Notation calm := (calm limbo pid c0 n0).
Notation settles := (settles limbo pid c0 n0).
Notation keeps := (keeps limbo pid c0 n0).
Notation waits := (waits limbo pid c0 n0).
Notation drafts := (drafts limbo pid c0 n0).
Notation settles_draft := (settles_draft limbo pid c0 n0).
Notation finishes := (finishes limbo pid c0 n0).
Notation firm := (firm limbo pid c0 n0).

Lemma calm_do f args : calm (do_ env f args).
Proof. unfold do_. calm. Qed.
Lemma calm_error_of f args : calm (error_of env f args).
Proof. unfold error_of. calm. Qed.
Lemma calm_flag_of f args : calm (flag_of env f args).
Proof. unfold flag_of, unexpected. calm. Qed.
Lemma calm_num_of f args : calm (num_of env f args).
Proof. unfold num_of, unexpected. calm. Qed.
Lemma calm_text_of f args : calm (text_of env f args).
Proof. unfold text_of, unexpected. calm. Qed.
Lemma calm_texts_of f args : calm (texts_of env f args).
Proof. unfold texts_of, unexpected. calm. Qed.
Lemma calm_unexpected {A} : calm (@unexpected A).
Proof. apply calm_exc. Qed.
Lemma calm_query : calm (query pid).
Proof. apply calm_flush. Qed.
Lemma calm_progress s d : calm (update_deploy_progress pid s d).
Proof. unfold update_deploy_progress. calm. Qed.
Lemma calm_delete_progress : calm delete_deploy_progress.
Proof. unfold delete_deploy_progress. calm. Qed.
Lemma calm_deleted : calm (project_deleted pid).
Proof. apply calm_get. Qed.
Lemma calm_topology : calm topology.
Proof. apply calm_get. Qed.
Lemma calm_now : calm (now env).
Proof. apply calm_get. Qed.
#[local] Hint Resolve calm_do calm_error_of calm_flag_of calm_num_of calm_text_of calm_texts_of calm_unexpected
  calm_query calm_progress calm_delete_progress calm_deleted calm_topology : job.

Lemma calm_canvas f : calm (canvas exn_text f).
Proof. unfold canvas. calm. Qed.
Lemma calm_look {A} (f : val → res A) : calm (look exn_text f).
Proof. unfold look. calm. Qed.
Lemma calm_load_topology : calm (load_topology pid).
Proof. unfold load_topology. calm. Qed.
Lemma calm_project_topology : calm (project_topology pid).
Proof. unfold project_topology. calm. Qed.
Lemma calm_agent_start h p n : calm (agent_start env h p n).
Proof. unfold agent_start. calm. Qed.
Lemma calm_agent_wait h j t : calm (agent_wait env h j t).
Proof. unfold agent_wait. calm. Qed.
#[local] Hint Resolve calm_canvas calm_look calm_load_topology calm_project_topology calm_agent_start calm_agent_wait : job.

Lemma calm_network_lock {A} hid (m : J A) : calm m → calm (with_network_lock env hid m).
Proof. intros Hm. unfold with_network_lock. calm. Qed.

(** ** Starting VMs and containers *)

Section Start.
Context (sha256_hex : string → string).

Lemma calm_pause d : calm (pause exn_text d).
Proof. unfold pause. calm. Qed.
#[local] Hint Resolve calm_pause : job.

Lemma calm_start_vms host t : calm (start_vms_via_troshkad env exn_text pid sha256_hex host t).
Proof.
  unfold start_vms_via_troshkad, start_ordered_vms, start_ordered_vm, start_unordered_vms, request_vm. calm.
Qed.

Lemma calm_start_container host i : calm (start_container env host i).
Proof. unfold start_container, wait_troshkad_job. calm. Qed.
Lemma calm_start_pod host i t : calm (start_pod env host i t).
Proof. unfold start_pod, wait_troshkad_job. calm. Qed.
#[local] Hint Resolve calm_start_container calm_start_pod : job.

Lemma calm_start_unordered_container host ctr : calm (start_unordered_container env exn_text pid host ctr).
Proof. unfold start_unordered_container. calm. Qed.
Lemma calm_mark_running i : calm (mark_container_node_running exn_text i).
Proof. unfold mark_container_node_running. calm. Qed.
#[local] Hint Resolve calm_start_unordered_container calm_mark_running : job.

Lemma calm_start_containers host auto : calm (deploy_start_containers env exn_text pid host auto).
Proof. unfold deploy_start_containers, start_ordered_containers, start_ordered_container. calm. Qed.
End Start.
#[local] Hint Resolve calm_start_vms calm_start_containers : job.

(** ** Steps *)

(** The deployment was found deleted: it is settled. *)
Lemma settles_deleted : settles (λ d : bool, d) (project_deleted pid).
Proof.
  intros b w Hw. unfold project_deleted, jget. destruct Hw as (Hb & Hl & Hd & Hs). split_and!; try done.
  intros [Hb'|Hdel]%orb_true_iff; [by apply Hs|]. unfold settled, settled_rows. unfold current in Hdel.
  destruct (List.find _ _) as [p|]; [|done]. apply String.eqb_eq in Hdel. rewrite Hdel. apply limbo_deleting.
Qed.

Lemma settles_unless_deleted {A} (m : J (continue_or_stop A)) :
  settles stopped m → settles stopped (unless_deleted pid m).
Proof.
  intros Hm. eapply settles_bind with (s1 := λ d : bool, d); [apply settles_deleted|]. intros []; [|done].
  apply calm_keeps. calm.
Qed.

Lemma settles_and_then {A B} (m : J (continue_or_stop A)) (k : A → J (continue_or_stop B)) :
  settles stopped m → (∀ a, settles stopped (k a)) → settles stopped (and_then m k).
Proof.
  intros Hm Hk. eapply settles_bind with (s1 := stopped); [done|]. intros [a|]; cbn [stopped]; [apply Hk|apply keeps_ret].
Qed.

Lemma settles_step {A} resume name (d : A) m : settles stopped m → settles stopped (step resume name d m).
Proof. intros Hm. unfold step. destruct (should_skip _ _); [by apply settles_ret|done]. Qed.

Lemma settles_always m : keeps m → settles stopped (always m).
Proof. intros Hm. apply keeps_bind; [done|]. intros _. by apply settles_ret. Qed.

(** *** The row *)

Lemma keeps_assign_commit x : state_write x = false → keeps (assign x;;; commit pid).
Proof. intros Hx. apply from_draft, draft_bind; [by apply drafts_assign|]. intros _. apply settles_draft_commit. Qed.

Lemma settles_assign_commit {B} s x (k : J B) :
  state_write x = false → settles s k → settles s (assign x;;; commit pid;;; k).
Proof.
  intros Hx Hk. apply from_draft, draft_bind; [by apply drafts_assign|]. intros _.
  by apply (draft_commit _ _ _ _ s (λ _, k)).
Qed.

Lemma drafts_save : drafts save_topology.
Proof.
  unfold save_topology. apply drafts_bind; [apply drafts_get|]. intros []; [apply drafts_ret|].
  apply drafts_bind; [apply drafts_get|]. intros t. by apply drafts_assign.
Qed.

Lemma keeps_save_commit : keeps (save_topology;;; commit pid).
Proof. apply from_draft, draft_bind; [apply drafts_save|]. intros _. apply settles_draft_commit. Qed.

Lemma settles_save_commit {B} s (k : J B) : settles s k → settles s (save_topology;;; commit pid;;; k).
Proof.
  intros Hk. apply from_draft, draft_bind; [apply drafts_save|]. intros _.
  by apply (draft_commit _ _ _ _ s (λ _, k)).
Qed.

Lemma keeps_checkpoint s : keeps (checkpoint pid s).
Proof.
  unfold checkpoint. apply calm_bind_settles; [apply calm_query_project|]. intros [|]; cbn [negb]; [|apply keeps_ret].
  apply from_draft, draft_bind; [by apply drafts_assign|]. intros _.
  apply draft_bind; [apply drafts_get|]. intros o.
  apply draft_bind; [|intros _; apply settles_draft_commit].
  destruct o; [by apply drafts_assign|apply drafts_ret].
Qed.

Lemma finishes_error msg : finishes (assign (WError msg);;; commit pid).
Proof. apply finishes_bind; [by apply waits_assign|]. intros _. apply finishes_commit. Qed.

Lemma settles_set_error {A} (s : A → bool) msg (k : unit → J A) :
  keeps (k tt) → settles s (jbind (set_deploy_error pid msg) k).
Proof.
  intros Hk b w Hw.
  assert (He : settles (λ _, true) (set_deploy_error pid msg)).
  { apply settles_finishes; [apply limbo_error|]. apply finishes_error. }
  unfold jbind. specialize (He b w Hw). destruct (set_deploy_error pid msg w) as [w' [[]|e|]]; [|done..].
  rewrite orb_true_r in He. specialize (Hk true w' He). destruct (k tt w') as [w2 [a|e|]]; [|done..].
  destruct Hk as (? & ? & ? & Hs). split_and!; try done. intros _. by apply Hs.
Qed.

(** The error alone, or with its notification. *)
Lemma settles_set_error_end s msg : settles s (set_deploy_error pid msg).
Proof. apply settles_finishes; [apply limbo_error|]. apply finishes_error. Qed.

Lemma settles_error_notify msg : settles (λ _ : unit, true) (set_deploy_error_and_notify pid msg).
Proof. apply settles_set_error, calm_keeps. calm. Qed.
Lemma keeps_each {A} (l : list A) f : (∀ x, keeps (f x)) → keeps (jeach l f).
Proof. intros Hf. induction l as [|x l IH]; cbn [jeach]; [apply keeps_ret|]. by apply keeps_bind. Qed.

(** ** While a state is pending *)

Lemma waits_emit e : waits (emit e).
Proof. by apply waits_mod. Qed.
#[local] Hint Resolve waits_emit : wait.
Lemma waits_do f args : waits (do_ env f args).
Proof. unfold do_. waits. Qed.
Lemma waits_text_of f args : waits (text_of env f args).
Proof. unfold text_of, unexpected. waits. Qed.
Lemma waits_topology : waits topology.
Proof. apply waits_get. Qed.
Lemma waits_now : waits (now env).
Proof. apply waits_get. Qed.
#[local] Hint Resolve waits_do waits_text_of waits_topology : wait.
Lemma waits_canvas f : waits (canvas exn_text f).
Proof. unfold canvas. waits. Qed.
Lemma waits_look {A} (f : val → res A) : waits (look exn_text f).
Proof. unfold look. waits. Qed.
#[local] Hint Resolve waits_canvas waits_look : wait.
Lemma waits_project_topology : waits (project_topology pid).
Proof. unfold project_topology. waits. Qed.
#[local] Hint Resolve waits_project_topology : wait.
End Operations.

#[export] Hint Resolve calm_do calm_error_of calm_flag_of calm_num_of calm_text_of calm_texts_of calm_unexpected
  calm_query calm_progress calm_delete_progress calm_deleted calm_topology calm_now : job.
#[export] Hint Resolve calm_canvas calm_look calm_load_topology calm_project_topology calm_agent_start calm_agent_wait : job.
#[export] Hint Resolve calm_start_vms calm_start_containers : job.
#[export] Hint Resolve waits_emit waits_do waits_text_of waits_topology waits_now waits_canvas waits_look
  waits_project_topology : wait.
#[export] Hint Resolve keeps_checkpoint keeps_save_commit : keep.

(** Follows the shape of a step: the calm parts by [calm], the others by the hints of [keep]. *)
Ltac settles_shape :=
  match goal with
  | |- Peers _ _ _ => assumption
  | |- Limbo _ => solve [typeclasses eauto]
  | |- forall _, _ => intros ?
  | |- keeps ?l ?p ?c ?n ?m => change (settles l p c n (λ _, false) m)
  | |- settles _ _ _ _ _ (jbind (set_deploy_error _ _) _) => apply settles_set_error
  | |- settles _ _ _ _ _ (set_deploy_error _ _) => apply settles_set_error_end
  | |- settles _ _ _ _ _ (jbind save_topology _) => apply settles_save_commit
  | |- settles _ _ _ _ _ (jbind (assign _) _) => apply settles_assign_commit; [reflexivity|]
  | |- settles _ _ _ _ _ (jbind (assign _) _) => apply keeps_assign_commit; reflexivity
  | |- settles _ _ _ _ _ (unless_deleted _ _) => apply settles_unless_deleted
  | |- settles _ _ _ _ _ (and_then _ _) => apply settles_and_then
  | |- settles _ _ _ _ _ (step _ _ _ _) => apply settles_step
  | |- settles _ _ _ _ _ (always _) => apply settles_always
  | |- settles _ _ _ _ _ (jfinally _ _) => apply settles_finally; [done|]
  | |- settles _ _ _ _ _ (jret _) => apply settles_ret; reflexivity
  | |- settles _ _ _ _ _ (jexc _) => apply settles_exc
  | |- settles _ _ _ _ _ (match ?x with _ => _ end) => destruct x
  | |- settles _ _ _ _ _ ?m => solve [eauto with keep nocore | apply keeps_settles; [solve [eauto with keep nocore]|reflexivity]]
  | |- settles _ _ _ _ _ (jbind ?m _) => apply calm_bind_settles; [solve [calm]|]
  | |- settles _ _ _ _ _ (jbind ?m _) => apply keeps_bind; [solve [eauto with keep nocore]|]
  | |- settles _ _ _ _ _ (jbind (match ?x with _ => _ end) _) => destruct x
  | |- settles _ _ _ _ _ _ => apply calm_settles; [solve [calm]|reflexivity]
  end.
Ltac settles := repeat settles_shape.

(** ** Steps of several jobs *)

Section Steps.
Context (env : environment) (exn_text : exn → string) (limbo pid : string) (c0 : counters) (n0 : Z).
Context {HB : Blocking} `{HL : !Limbo limbo} `{HP : !Peers limbo pid env}.
Notation calm := (calm limbo pid c0 n0).
Notation keeps := (keeps limbo pid c0 n0).

Lemma calm_provider_of host : calm (provider_of pid host).
Proof. unfold provider_of. calm. Qed.

Lemma keeps_library_refs : keeps (prepare_topology_library_refs env pid).
Proof. unfold prepare_topology_library_refs. settles. Qed.

Lemma calm_cache host r : (∀ s, calm (r s)) → calm (cache_library_images env pid host r).
Proof. intros Hr. unfold cache_library_images. calm. Qed.

End Steps.

#[export] Hint Resolve calm_provider_of : job.
#[export] Hint Resolve keeps_library_refs : keep.
