(* ===== verification/DeployFlow.v ===== *)
(** * A deployment: [deploy_project_async] of [services/deploy_service.py]

    From the semaphore to the last notification: the host is resolved, or chosen by placement;
    the canvas is prepared; the uplink MTU is required; then the project comes up on one host
    ([DeployHost]), on several hosts or on a KubeVirt cluster ([DeployTargets]), and whatever
    happens the in-flight counter and the semaphore are given back. *)
From stdpp Require Import prelude strings gmap.
From S2P Require Import Prelude PyStr PyVal PyLemmas Db TopoNodes NetworkMtu OcpFlags GatewaySync Vxlan.
From S2P Require Import PatternLocations Placement TopologyExtract JobMonad VmStart ClusterMembers.
From S2P Require Import DeployCanvas DeployHost DeployTargets.

Open Scope list_scope.

Section DeployFlow.
Context (env : environment) (exn_text : exn → string) (cfg : config).
Context (sha256_hex : string → string) (set_iter : list val → list val) (install_via_default : string).
Context (fresh_id : string) (member_id : nat → string).
Context (pid : string).

Notation lift := (jlift exn_text).
Notation progress := (update_deploy_progress pid).
Notation canvas := (canvas exn_text).
Notation look := (look exn_text).

(** ** The host *)

Definition find_host_row (hid : option string) : J (option Host) :=
  query pid;;;
  jget (λ w, match hid with Some i => find_host (jw_db w) i | None => None end).

(** [deploy_service._deploy_host_error_msg] *)
Definition deploy_host_error_msg (host : option Host) : J string :=
  p <-' project pid;;
  match text_opt (p_host_id (d_row p)) with
  | None =>
      t <-' project_topology pid;;
      let t := v_or t empty_dict in
      reqs <-' lift (calculate_project_requirements t);;
      disks <-' lift (pattern_disk_ids_from_topology t);;
      kv <-' lift (topology_requires_kubevirt t);;
      query pid;;;
      db <-' jget full_db;;
      r <-' lift (diagnose_placement_failure cfg db (r_total_vcpus reqs) (r_total_ram_mb reqs) None None disks kv);;
      jmod (λ w, set_db w (mkDB (db_hosts r.2) (db_projects (jw_db w)) (db_eips (jw_db w)) (db_providers (jw_db w))
                             (db_pools (jw_db w)) (db_locations (jw_db w))));;;
      jret r.1
  | Some _ =>
      jret (match host with
            | None => "Assigned host no longer exists"
            | Some _ => "Assigned host has no IP address — it may still be provisioning"
            end)
  end.

(** [deploy_service._deploy_resolve_host:9993-10005] placement of a project that has no host. *)
Definition auto_place : J (option Host) :=
  t <-' project_topology pid;;
  let t := v_or t empty_dict in
  reqs <-' lift (calculate_project_requirements t);;
  disks <-' lift (pattern_disk_ids_from_topology t);;
  mtu <-' lift (required_network_mtu t);;
  query pid;;;
  db <-' jget full_db;;
  counters <-' jget jw_counters;;
  r <-' lift (find_available_host cfg db counters
                (mkDemand (r_total_vcpus reqs) (r_total_ram_mb reqs) 0 disks mtu) None None false);;
  jmod (λ w, set_db w (mkDB (db_hosts r.2) (db_projects (jw_db w)) (db_eips (jw_db w)) (db_providers (jw_db w))
                         (db_pools (jw_db w)) (db_locations (jw_db w))));;;
  match r.1 with
  | None => jret None
  | Some host => assign (WHost (Some (h_id host)));;; commit pid;;; jret (Some host)
  end.

(** [deploy_service._deploy_resolve_host] *)
Definition deploy_resolve_host : J (option Host * option string) :=
  p <-' project pid;;
  let hid := text_opt (p_host_id (d_row p)) in
  host <-' (match hid with Some _ => find_host_row hid | None => auto_place end);;
  match host with
  | Some h =>
      match text_opt (h_ip_address h) with
      | Some _ => jret (host, None)
      | None => msg <-' deploy_host_error_msg host;; jret (host, Some msg)
      end
  | None => msg <-' deploy_host_error_msg None;; jret (None, Some msg)
  end.

(** ** The canvas *)

(** [deploy_service._deploy_normalize_topology_flags]: whether this is an OpenShift pattern.  The
    comparison of the JSON texts is on sorted keys: on the values. *)
Definition deploy_normalize_topology_flags : J bool :=
  t <-' topology;;
  flagged <-' lift (apply_cluster_ocp_flags t);;
  normalized <-' lift (normalize_cluster_member_fields member_id flagged.1);;
  jmod (λ w, set_topo w normalized);;;
  let changed := flagged.2 || negb (py_eq flagged.1 normalized) in
  pattern <-' look is_pattern_deploy;;
  is_ocp_pattern <-' (if pattern then look is_ocp_topology else jret false);;
  (if is_ocp_pattern then canvas auto_enable_recert_on_rhcos else jret tt);;;
  (if changed || is_ocp_pattern then save_topology;;; commit pid else jret tt);;;
  jret is_ocp_pattern.

(** [clock_service.compute_clock_offset] in [deploy_service._deploy_resolve_clock_offset]; instants
    are in microseconds. *)
Definition deploy_resolve_clock_offset (is_ocp_pattern : bool) : J (option Z) :=
  p <-' project pid;;
  now <-' now env;;
  jret (match d_clock_target p with
        | Some target => if is_ocp_pattern then None else Some (Z.quot (target - now) 1000000)
        | None => None
        end).

(** [deploy_service._deploy_ensure_vni_map] *)
Definition deploy_ensure_vni_map : J vnis :=
  p <-' project pid;;
  match p_vni_map (d_row p) with
  | Some (_ :: _ as m) => jret m
  | _ =>
      query pid;;;
      t <-' topology;;
      db <-' jget full_db;;
      hwm <-' jget jw_hwm;;
      r <-' lift (allocate_vnis_for_project db hwm t);;
      jmod (λ w, set_hwm w r.2);;;
      assign (WVni r.1);;;
      commit pid;;;
      jret r.1
  end.

(** [deploy_service._deploy_init_context:10108-10116] the type of the host's provider. *)
Definition host_provider_type : J (option string) :=
  p <-' project pid;;
  host <-' find_host_row (text_opt (p_host_id (d_row p)));;
  jget (λ w,
    h ← host; i ← text_opt (h_provider_id h); pr ← find_provider (jw_db w) i; Some (pr_type pr)).

(** [deploy_service._deploy_init_context]: the clock offset and the VNIs. *)
Definition deploy_init_context : J (option Z * vnis) :=
  load_topology pid;;;
  is_ocp_pattern <-' deploy_normalize_topology_flags;;
  clock_offset <-' deploy_resolve_clock_offset is_ocp_pattern;;
  vni_map <-' deploy_ensure_vni_map;;
  provider_type <-' host_provider_type;;
  t <-' topology;;
  showroom <-' lift (inject_showroom_gateway_port_forwards fresh_id t vni_map provider_type);;
  api <-' lift (ensure_topology_ocp_api_port_forwards showroom.2);;
  jmod (λ w, set_topo w api.1);;;
  (if showroom.1 || api.2 then save_topology;;; commit pid else jret tt);;;
  jret (clock_offset, vni_map).

(** ** The uplink MTU *)

Definition with_uplink (h : Host) (mtu : option Z) : Host :=
  mkHost (h_id h) (h_provider_id h) (h_state h) (h_host_type h) (h_total_vcpus h) (h_total_ram_mb h)
    (h_used_vcpus h) (h_used_ram_mb h) (h_ip_address h) (h_private_ip h) (h_agent_status h) (h_max_eips h)
    mtu (h_storage_pool_id h) (h_accepting_work h).

(** [deploy_service._kubevirt_uplink_mtu] and [deploy_service._troshkad_uplink_mtu]: what is read is
    kept when it is a positive number, and an exception leaves the MTU unknown. *)
Definition read_uplink_mtu (source : string) (host : Host) : J (option Z) :=
  mtu <-' jcatch (num_of env source [h_id host]) (λ _, jret None);;
  match mtu with
  | Some m =>
      if 0 <? m then
        jmod (λ w, set_db w (save_host (jw_db w) (with_uplink host (Some m))));;;
        commit pid;;; jret (Some m)
      else jret None
  | None => jret None
  end.

(** [deploy_service._ensure_host_uplink_mtu] *)
Definition ensure_host_uplink_mtu (host : Host) : J (option Z) :=
  match h_uplink_mtu host with
  | Some m => jret (Some m)
  | None =>
      read_uplink_mtu (if String.eqb (h_host_type host) "kubevirt-cluster" then "read_cluster_network_mtu"
                       else "check_health") host
  end.

(** [deploy_service._deploy_resolve_mtu_map] *)
Definition deploy_resolve_mtu_map (uplink_mtu : Z) : J (list (val * Z)) :=
  p <-' project pid;;
  let spans_hosts := bool_decide (is_Some (text_opt (d_mesh_host p))) in
  t <-' topology;;
  r <-' lift (resolve_topology_mtus t (Some uplink_mtu) spans_hosts);;
  jmod (λ w, set_topo w r.1);;;
  jeach r.2 (λ warning, progress "networks" warning);;;
  look (λ t, network_mtu_map t (Some uplink_mtu) spans_hosts).

(** ** Completion *)

(** [deploy_service._deploy_finalize_timers] *)
Definition deploy_finalize_timers : J unit :=
  p <-' project pid;;
  let t := d_timers p in
  now <-' now env;;
  let stop := match t_stop_minutes t with
              | Some m => if String.eqb (d_state p) "active" && negb (m =? 0) then Some m else None
              | None => None end in
  let delete := match t_delete_minutes t, t_delete_started t with
                | Some m, None => if m =? 0 then None else Some m
                | _, _ => None end in
  let t1 := match stop with
            | Some m => mkTimers (t_stop_minutes t) (Some now) (Some (now + m * 60000000)) false
                          (t_delete_minutes t) (t_delete_started t) (t_delete_warned t) (t_lifetime t)
            | None => t end in
  let t2 := match delete with
            | Some m => mkTimers (t_stop_minutes t1) (t_stop_started t1) (t_stop_expires t1) (t_stop_warned t1)
                          (t_delete_minutes t1) (Some now) false (Some (now + m * 60000000))
            | None => t1 end in
  if bool_decide (t2 = t) then jret tt else assign (WTimers t2).

Definition deployed_topology : J val :=
  p <-' project pid;; jret (v_or (default VNone (d_deployed p)) empty_dict).

(** [project.deployed_topology = deployed_topo] for the object the attribute holds, changed in
    place: once it has been flushed, the assignment is not seen as a change. *)
Definition reassign_deployed (v : val) : J unit :=
  p <-' project pid;;
  flushed <-' jget (λ w, s_locked (jw_sess w));;
  if flushed && truthy (default VNone (d_deployed p)) then touch (WDeployed v) else assign (WDeployed v).

(** [deploy_service._deploy_create_dns_records:9808-9813] the address the records point to. *)
Definition external_address (external_ips : list val) : res (option val) :=
  first_some (λ ext_ip,
    a <- get ext_ip "ip" VNone;;
    pub <- (if truthy a then Ok a else get ext_ip "_public_ip" VNone);;
    Ok (if truthy pub then Some pub else None)) external_ips.

(** [deploy_service._deploy_create_dns_records]; the records are resolved and created by
    [dns_service], which answers with those that have a value. *)
Definition deploy_create_dns_records (lb_config : option val) (external_ips : list val) : J unit :=
  p <-' project pid;;
  match d_dns p with
  | (Some (String _ _), Some (String _ _ as guid), Some (String _ _ as domain)) =>
      query pid;;;
      found <-' flag_of env "dns_provider" [pid];;
      match lb_config with
      | Some lb =>
          if negb found || negb (truthy lb) then jret tt
          else
            progress "dns" ("creating records for " +:+ guid +:+ "." +:+ domain);;;
            eip <-' lift (external_address external_ips);;
            templates <-' lift (get lb "dns_records" empty_list);;
            if negb (truthy templates) then jret tt
            else
              records <-' texts_of env "create_dns_records" [guid; domain; py_str (default VNone eip)];;
              deployed <-' deployed_topology;;
              deployed <-' lift (set_item deployed "_dns_records" (VList (map VStr records)));;
              reassign_deployed deployed
      | None => jret tt
      end
  | _ => jret tt
  end.

(** [deploy_service._deploy_store_bmc_topology] *)
Definition deploy_store_bmc_topology (bmc_config : option val) : J unit :=
  match bmc_config with
  | None => jret tt
  | Some cfg =>
      bmc <-' look (λ t, bmc_topology t cfg);;
      deployed <-' deployed_topology;;
      deployed <-' lift (set_item deployed "bmc" bmc);;
      reassign_deployed deployed
  end.

(** [deploy_service._maybe_setup_showroom_tls]: whatever goes wrong in it is dropped. *)
Definition maybe_setup_showroom_tls (host : Host) : J unit :=
  jcatch (in_session env pid (do_ env "setup_showroom_tls" [h_id host])) (λ _, jret tt).

(** [deploy_service._resolve_showroom_access_token]: the token stored, or a new one. *)
Definition resolve_showroom_access_token : J string :=
  p <-' project pid;;
  t <-' topology;;
  let stored v := match v with VDict _ => text_field v "_showroom_access_token" | _ => Ok "" end in
  a <-' lift (stored (default VNone (d_deployed p)));;
  b <-' lift (stored t);;
  if negb (String.eqb a "") then jret a
  else if negb (String.eqb b "") then jret b
  else text_of env "mint_showroom_access_token" [].

(** [deploy_service._stamp_showroom_access_url] *)
Definition stamp_showroom_access_url (base_url : string) : J unit :=
  let base_url := strip base_url in
  if String.eqb base_url "" then jret tt
  else
    token <-' resolve_showroom_access_token;;
    t <-' topology;;
    (match t with
     | VDict _ => canvas (λ t, set_item t "_showroom_access_token" (VStr token))
     | _ => jret tt
     end);;;
    p <-' project pid;;
    t <-' topology;;
    let deployed := v_or (v_or (default VNone (d_deployed p)) t) empty_dict in
    deployed <-' lift (set_item deployed "_showroom_access_token" (VStr token));;
    url <-' text_of env "showroom_url_with_token" [base_url; token];;
    deployed <-' lift (set_item deployed "_showroom_url" (VStr url));;
    assign (WDeployed deployed).

(** [deploy_service._maybe_stamp_showroom_url_from_route] *)
Definition maybe_stamp_showroom_url_from_route : J unit :=
  route_base <-' look showroom_public_base_url;;
  if String.eqb route_base "" then jret tt
  else
    deployed <-' deployed_topology;;
    current <-' lift (field_text deployed "_showroom_url");;
    if String.eqb current "" || negb (contains "token=" current) then stamp_showroom_access_url route_base
    else jret tt.

(** [deploy_service._emit_deploy_complete_notifications] *)
Definition emit_deploy_complete_notifications (vms external_ips : list val) : J unit :=
  project pid;;;
  emit (Notify "active" "");;;
  (if bool_decide (external_ips = []) then jret tt else emit (Notify "external-ips-updated" ""));;;
  ids <-' lift (map_res (λ vm, i <- idx vm "node_id";; Ok (py_str i)) vms);;
  emit (Notify "vm-state running" (join "," ids)).

(** [deploy_service._deploy_complete_and_notify] *)
Definition deploy_complete_and_notify (c : deploy_context) (vms : list val) (lb_config bmc_config : option val)
    : J unit :=
  assign (WState (if c_auto_start c then "active" else "stopped"));;;
  assign (WError None);;;
  assign (WStep None);;;
  assign (WProgress None);;;
  t <-' project_topology pid;;
  t <-' lift (stamp_effective_dns_ips t false);;
  jmod (λ w, if s_alias (jw_sess w) then set_topo w t else w);;;
  assign (WDeployed t);;;
  deploy_finalize_timers;;;
  external_ips <-' look external_ips_on_canvas;;
  deploy_create_dns_records lb_config external_ips;;;
  deploy_store_bmc_topology bmc_config;;;
  (if bool_decide (c_vni_map c = []) then jret tt else maybe_setup_showroom_tls (c_host c));;;
  maybe_stamp_showroom_url_from_route;;;
  commit pid;;;
  in_session env pid (do_ env "notify_client_topology_update" []);;;
  emit_deploy_complete_notifications vms external_ips;;;
  delete_deploy_progress;;;
  monitor <-' look has_ocp_monitor;;
  if c_auto_start c && monitor then
    now <-' now env;;
    assign (WOcp (Some "monitoring") (Some now));;; commit pid
  else jret tt.

(** ** Failure *)

(** [deploy_service._cleanup_stale_shared_cache]: only a shared pool has entries to delete. *)
Definition cleanup_stale_shared_cache : J unit :=
  p <-' project pid;;
  match text_opt (p_host_id (d_row p)) with
  | None => jret tt
  | Some hid =>
      query pid;;;
      pool <-' jget (λ w,
        h ← find_host (jw_db w) hid; i ← text_opt (h_storage_pool_id h);
        List.find (λ sp, String.eqb (sp_id sp) i) (db_pools (jw_db w)));;
      match pool with
      | Some sp =>
          if startswith "shared" (sp_mode sp) then emit (Call "delete_stale_shared_cache_entries" [sp_id sp])
          else jret tt
      | None => jret tt
      end
  end.

(** [deploy_service._deploy_handle_failure]: the outer [try] drops whatever goes wrong in it. *)
Definition deploy_handle_failure (e : jexn) : J unit :=
  delete_deploy_progress;;;
  jcatch
    (found <-' query_project pid;;
     if negb found then jret tt
     else
       assign (WState "error");;;
       assign (WError (Some (exn_str e)));;;
       cleanup_stale_shared_cache;;;
       commit pid;;;
       emit (Notify "error" (exn_str e)))
    (λ _, jret tt).

(** ** The job *)

(** [deploy_service._deploy_after_special_host] *)
Definition deploy_after_special_host (host : Host) : J unit :=
  p <-' project pid;;
  if String.eqb (d_state p) "error" then jret tt
  else maybe_deploy_ops_pod env exn_text pid install_via_default host.

(** [deploy_service._deploy_project_inner:10579-10602] one host. *)
Definition deploy_single_host (c : deploy_context) : J unit :=
  query pid;;;
  setup <-' deploy_single_host_setup env exn_text pid sha256_hex set_iter c;;
  match setup with
  | Stop => jret tt
  | Go lb_config =>
      done <-' deploy_single_host_execute env exn_text pid sha256_hex install_via_default c;;
      match done with
      | Stop => jret tt
      | Go (vms, bmc_config) => deploy_complete_and_notify c vms lb_config bmc_config
      end
  end.

(** [deploy_service._deploy_project_inner:10550-10602] once the host is known. *)
Definition deploy_on_host (host : Host) (auto_start : bool) (resume_from : option string) : J unit :=
  init <-' deploy_init_context;;
  uplink_mtu <-' ensure_host_uplink_mtu host;;
  match uplink_mtu with
  | None =>
      set_deploy_error_and_notify pid
        "Cannot determine host uplink MTU — refusing to deploy at an unknown MTU"
  | Some mtu =>
      mtu_map <-' deploy_resolve_mtu_map mtu;;
      p <-' project pid;;
      let c := mkContext host init.2 mtu_map init.1 auto_start resume_from in
      match text_opt (d_mesh_host p) with
      | Some _ => deploy_multihost env exn_text pid sha256_hex;;; deploy_after_special_host host
      | None =>
          if String.eqb (h_host_type host) "kubevirt-cluster"
          then deploy_kubevirt_native env exn_text pid sha256_hex fresh_id host;;; deploy_after_special_host host
          else deploy_single_host c
      end
  end.

(** [deploy_service._deploy_project_inner:10521-10541] up to the host: [None] when the job ends
    before it has one. *)
Definition deploy_find_host : J (option (option Host * option string)) :=
  found <-' query_project pid;;
  if negb found then jret None
  else
    p <-' project pid;;
    if negb (String.eqb (d_state p) "deploying") then jret None
    else
      (match d_error p with
       | Some (String _ _) => assign (WError None);;; commit pid
       | _ => jret tt
       end);;;
      project pid;;;
      ptr_err <-' in_session env pid (error_of env "check_pull_through_registry" []);;
      match ptr_err with
      | Some msg => set_deploy_error_and_notify pid msg;;; jret None
      | None => r <-' deploy_resolve_host;; jret (Some r)
      end.

(** [deploy_service._deploy_project_inner:10545-10550] the host is counted before its error, if any,
    is reported. *)
Definition deploy_with_host (r : option Host * option string) (auto_start : bool) (resume_from : option string)
    : J unit :=
  match r with
  | (_, Some msg) => set_deploy_error_and_notify pid msg
  | (None, None) => jexc (XOther "Deploy host resolution returned no host")
  | (Some host, None) => deploy_on_host host auto_start resume_from
  end.

(** [deploy_service._deploy_project_inner]: [except Exception] handles a failure of either part; the
    [finally] takes the host counted from the counter and closes the session. *)
Definition deploy_project_inner (auto_start : bool) (resume_from : option string) : J unit :=
  emit (Call "clear_cancelled" [pid]);;;
  jmod close_session;;;
  jfinally
    (r <-' jcatch deploy_find_host (λ e, deploy_handle_failure e;;; jret None);;
     match r with
     | None => jret tt
     | Some (host, err) =>
         let body := jcatch (deploy_with_host (host, err) auto_start resume_from) deploy_handle_failure in
         match host with
         | None => body
         | Some h =>
             jmod (λ w, set_counters w (record_deploy_start (jw_counters w) (h_id h)));;;
             jfinally body (λ w, set_counters w (record_deploy_end (jw_counters w) (h_id h)))
         end
     end)
    close_session.

(** [deploy_service.deploy_project_async]: whether a permit was had is up to the other deployments. *)
Definition deploy_project_async (auto_start : bool) (resume_from : option string) : J unit :=
  acquired <-' flag_of env "semaphore.acquire" ["1800"];;
  if negb acquired then
    jmod close_session;;;
    jfinally
      (found <-' query_project pid;;
       if negb found then jret tt
       else
         assign (WState "error");;;
         assign (WError (Some "Too many concurrent deploys — try again shortly"));;;
         commit pid;;;
         emit (Notify "error" ""))
      close_session
  else
    jmod (λ w, set_permits w (jw_permits w - 1));;;
    jfinally (deploy_project_inner auto_start resume_from) (λ w, set_permits w (jw_permits w + 1)).
End DeployFlow.
