(* ===== verification/DeploySafe.v ===== *)
(** * What a deployment leaves behind

    However the agents, the clouds and the other processes behave: the job ends, the in-flight
    counter of its host and the semaphore are as before, and the project is no longer
    ["deploying"]. *)
From stdpp Require Import prelude strings gmap.
From S2P Require Import Prelude PyStr PyVal PyLemmas Db TopoNodes Vxlan Placement PatternLocations TopologyExtract.
From S2P Require Import JobMonad VmStart DeployCanvas DeployHost DeployTargets DeployFlow JobTriples.

Open Scope list_scope.

(** A deployment waits for itself at one place only: it has just found the DNS provider of its
    project, and reports that it creates the records of its balancer. *)
Definition dns_found {env : environment} : Blocking := λ w, ∃ log args t detail,
  jw_log w = log ++ [Call "dns_provider" args; Progress "dns" detail] ∧
  (env_answer env log (Call "dns_provider" args) t).1 = Flag true.

Section Safe.
Context (env : environment) (exn_text : exn → string) (pid : string) (c0 : counters) (n0 : Z).
Context `{HP : !Peers "deploying" pid env}.
#[local] Instance blocking : Blocking := dns_found (env := env).
Notation settled_rows := (settled_rows "deploying" pid).
Notation settled := (settled "deploying" pid).
Notation leaves := (leaves "deploying").
Notation base := (base c0 n0).
Notation good := (good "deploying" pid c0 n0).
Notation bad := (bad "deploying" c0 n0).
Notation pending := (pending "deploying" pid c0 n0).
Notation draft := (draft "deploying" pid c0 n0).
Notation fin := (fin "deploying" pid c0 n0).
Notation calm := (calm "deploying" pid c0 n0).
Notation settles := (settles "deploying" pid c0 n0).
Notation keeps := (keeps "deploying" pid c0 n0).
Notation waits := (waits "deploying" pid c0 n0).
Notation drafts := (drafts "deploying" pid c0 n0).
Notation settles_draft := (settles_draft "deploying" pid c0 n0).
Notation finishes := (finishes "deploying" pid c0 n0).
Notation firm := (firm "deploying" pid c0 n0).

Notation settles_error_notify := (settles_error_notify "deploying" pid c0 n0).
Notation settles_set_error := (settles_set_error "deploying" pid c0 n0).
Notation settles_set_error_end := (settles_set_error_end "deploying" pid c0 n0).
Notation settles_deleted := (settles_deleted "deploying" pid c0 n0).
Notation calm_network_lock := (calm_network_lock env "deploying" pid c0 n0).
Notation calm_flag_of := (calm_flag_of env "deploying" pid c0 n0).
Notation waits_ask := (waits_ask env "deploying" pid c0 n0).
Notation draft_commit := (draft_commit "deploying" pid c0 n0).
Notation settles_draft_commit := (settles_draft_commit "deploying" pid c0 n0).
Notation bad_assign_state := (bad_assign_state "deploying" pid c0 n0).
Notation commit_pending := (commit_pending "deploying" pid c0 n0).
Notation good_fin := (good_fin "deploying" pid c0 n0).
Notation drafts_ask := (drafts_ask env "deploying" pid c0 n0).

(** ** One host *)

Section Host.
Context (sha256_hex : string → string) (set_iter : list val → list val) (install_via_default : string).

Lemma calm_allocate_canvas_eip e : calm (allocate_canvas_eip env exn_text pid e).
Proof. unfold allocate_canvas_eip. calm. Qed.
#[local] Hint Resolve calm_allocate_canvas_eip : job.

Lemma keeps_allocate_eips host l : keeps (deploy_allocate_eips env exn_text pid host l).
Proof. unfold deploy_allocate_eips. settles. Qed.
#[local] Hint Resolve keeps_allocate_eips : keep.

Lemma calm_setup_lb host m : calm (deploy_setup_lb env exn_text pid set_iter host m).
Proof. unfold deploy_setup_lb. calm. Qed.
Lemma calm_sync_sg host lb : calm (deploy_sync_sg_rules env exn_text pid host lb).
Proof. unfold deploy_sync_sg_rules. calm. Qed.
#[local] Hint Resolve calm_setup_lb calm_sync_sg : job.

Lemma settles_networks host m l :
  settles stopped (deploy_setup_networks_phase env exn_text pid set_iter host m l).
Proof.
  unfold deploy_setup_networks_phase. do 4 settles_shape.
  apply calm_bind_settles; [apply calm_network_lock; calm|]. settles.
Qed.

Lemma settles_seeds host : settles stopped (deploy_seeds env pid host).
Proof. unfold deploy_seeds. settles. Qed.



Lemma keeps_cache_and_pxe host : keeps (deploy_cache_images_and_pxe env pid host).
Proof.
  unfold deploy_cache_images_and_pxe. do 7 settles_shape.
  apply calm_bind_settles; [apply calm_cache; calm|]. settles.
Qed.

Lemma calm_pull host : calm (deploy_pull_container_images env exn_text pid host).
Proof. unfold deploy_pull_container_images. calm. Qed.
Lemma calm_bmc_bridge host : calm (deploy_create_bmc_bridge env exn_text pid sha256_hex host).
Proof. unfold deploy_create_bmc_bridge. calm. Qed.
#[local] Hint Resolve calm_pull calm_bmc_bridge : job.

Lemma settles_eips host l : settles stopped (deploy_eips_step env exn_text pid host l).
Proof. unfold deploy_eips_step. settles. Qed.

Lemma settles_bmc_check : settles stopped (deploy_bmc_check exn_text pid).
Proof.
  unfold deploy_bmc_check. settles_shape. intros [msg|]; settles.
  eapply settles_bind; [apply settles_error_notify|]. intros []. cbv beta iota. settles.
Qed.
#[local] Hint Resolve settles_networks settles_seeds keeps_cache_and_pxe settles_eips settles_bmc_check : keep.

Lemma settles_setup c :
  settles stopped (deploy_single_host_setup env exn_text pid sha256_hex set_iter c).
Proof. unfold deploy_single_host_setup. settles. Qed.

Lemma calm_create_disks host : calm (deploy_create_disks env exn_text pid host).
Proof. unfold deploy_create_disks, wait_disk_create_jobs, wait_disk_job. calm. Qed.
Lemma calm_handle_recert host : calm (deploy_handle_recert env exn_text pid host).
Proof. unfold deploy_handle_recert. calm. Qed.
Lemma calm_clean_stale host d : calm (clean_stale_domain env host d).
Proof. unfold clean_stale_domain. calm. Qed.
#[local] Hint Resolve calm_create_disks calm_handle_recert calm_clean_stale : job.
Lemma calm_define_vms host vms : calm (deploy_define_vms env exn_text pid host vms).
Proof. unfold deploy_define_vms, define_single_vm. calm. Qed.
Lemma calm_setup_bmc host : calm (deploy_setup_bmc env exn_text pid sha256_hex host).
Proof. unfold deploy_setup_bmc. calm. Qed.
Lemma calm_create_containers host : calm (deploy_create_containers env exn_text pid host).
Proof. unfold deploy_create_containers, create_ordered_containers, create_container. calm. Qed.
Lemma calm_ops_pod host : calm (maybe_deploy_ops_pod env exn_text pid install_via_default host).
Proof. unfold maybe_deploy_ops_pod. calm. Qed.
#[local] Hint Resolve calm_define_vms calm_setup_bmc calm_create_containers calm_ops_pod : job.

Lemma keeps_disks host : keeps (deploy_disks_step env exn_text pid host).
Proof. unfold deploy_disks_step. settles. Qed.

Lemma settles_vms host vms : settles stopped (deploy_vms_step env exn_text pid sha256_hex host vms).
Proof. unfold deploy_vms_step. settles. Qed.

(** A VM that did not start puts the project in error. *)
Lemma settles_start_vms host auto :
  settles negb (deploy_start_vms env exn_text pid sha256_hex host auto).
Proof.
  unfold deploy_start_vms. settles.
  apply settles_finishes; [done|]. apply finishes_bind; [by apply waits_assign|]. intros _.
  apply finishes_bind; [apply waits_flush|]. intros _.
  apply finishes_bind; [apply waits_get|]. intros db.
  apply finishes_bind; [apply waits_lift|]. intros h.
  apply finishes_bind; [by apply waits_mod|]. intros _.
  apply finishes_commit_bind, calm_keeps. calm.
Qed.
#[local] Hint Resolve keeps_disks settles_vms settles_start_vms : keep.

Lemma settles_starting host auto :
  settles stopped (deploy_starting_step env exn_text pid sha256_hex install_via_default host auto).
Proof.
  unfold deploy_starting_step. settles_shape. intros _. eapply settles_bind; [apply settles_start_vms|].
  intros []; cbn [negb]; settles.
Qed.
#[local] Hint Resolve settles_starting : keep.

Lemma settles_execute c :
  settles stopped (deploy_single_host_execute env exn_text pid sha256_hex install_via_default c).
Proof. unfold deploy_single_host_execute. settles. Qed.

#[local] Hint Resolve settles_setup settles_execute : keep.

(** ** Completion *)

Lemma waits_deployed : waits (deployed_topology pid).
Proof. unfold deployed_topology. waits. Qed.
Lemma waits_reassign v : waits (reassign_deployed pid v).
Proof. unfold reassign_deployed, touch. waits. Qed.
#[local] Hint Resolve waits_deployed waits_reassign : wait.
Lemma waits_timers : waits (deploy_finalize_timers env pid).
Proof. unfold deploy_finalize_timers. waits. Qed.
Lemma waits_bmc cfg : waits (deploy_store_bmc_topology exn_text pid cfg).
Proof. unfold deploy_store_bmc_topology. waits. Qed.
Lemma waits_tls host : waits (maybe_setup_showroom_tls env pid host).
Proof. unfold maybe_setup_showroom_tls. waits. Qed.
Lemma waits_stamp_url : waits (maybe_stamp_showroom_url_from_route env exn_text pid).
Proof.
  unfold maybe_stamp_showroom_url_from_route, stamp_showroom_access_url, resolve_showroom_access_token. waits.
Qed.
#[local] Hint Resolve waits_timers waits_bmc waits_tls waits_stamp_url : wait.

(** The report of a step while a state is pending: without the lock of the row it goes through. *)
Lemma waits_elsewhere x w :
  state_write x = false → s_locked (jw_sess w) = false → pending w →
  match elsewhere pid x w with (w', Ret _) => pending w' | (_, Exc _) => False | (_, Blocked) => False end.
Proof.
  intros Hx Hl [[Hb Hd] Hs]. unfold elsewhere. rewrite Hl. split; [by split|].
  destruct Hs as [Hs|Hs]; [by left|right]. unfold JobTriples.settled, JobTriples.settled_rows in *.
  rewrite find_update by (intros; apply apply_write_id). unfold current.
  destruct (List.find _ _) as [p|]; [|done]. cbn. rewrite apply_write_state. by destruct x.
Qed.

(** The report of the step [dns], once the provider is found. *)
Lemma waits_report {A} w log args t detail (k : unit → J A) :
  jw_log w = log ++ [Call "dns_provider" args] →
  (env_answer env log (Call "dns_provider" args) t).1 = Flag true → (∀ u, waits (k u)) → pending w →
  match jbind (update_deploy_progress pid "dns" detail) k w with
  | (w', Ret _) => pending w' | (w', Exc _) => pending w' | (w', Blocked) => may_block w' end.
Proof.
  intros Hlog Hfound Hk Hw. unfold update_deploy_progress, jbind at 1 2 3, emit, jmod at 1 2. cbn.
  set (w1 := add_event _ _). assert (H1 : pending w1) by done.
  destruct (s_locked (jw_sess w1)) eqn:El.
  - unfold elsewhere. rewrite El. exists log, args, t, detail. split; [|done]. cbn. by rewrite Hlog, <-app_assoc.
  - pose proof (waits_elsewhere (WProgress (Some (mkProgress "dns" detail None))) w1 eq_refl El H1) as He.
    destruct (elsewhere _ _ w1) as [w2 [[]|e|]]; [|done..]. by apply Hk.
Qed.

Lemma waits_dns lb l : waits (deploy_create_dns_records env exn_text pid lb l).
Proof.
  unfold deploy_create_dns_records. apply waits_bind; [apply waits_project|]. intros p.
  destruct (d_dns p) as [[[[]|] [[]|]] [[]|]]; try apply waits_ret.
  apply waits_bind; [apply waits_flush|]. intros _ w Hw. pose proof (waits_ask "dns_provider" [pid] w Hw) as Ha.
  unfold flag_of, jbind at 1 2. unfold ask in *. destruct (env_answer env _ _ _) as [x topo] eqn:E.
  destruct x; try exact Ha. cbn [jret]. destruct lb as [lb|]; [|exact Ha].
  destruct b; cbn [negb orb]; [|exact Ha]. destruct (truthy lb); cbn [negb]; [|exact Ha].
  eapply waits_report; [reflexivity|by rewrite E| |exact Ha]. intros _. unfold texts_of, unexpected. waits.
Qed.
#[local] Hint Resolve waits_dns : wait.

Lemma settles_complete c vms lb cfg : settles (λ _, true) (deploy_complete_and_notify env exn_text pid c vms lb cfg).
Proof.
  unfold deploy_complete_and_notify.
  apply settles_finishes; [by destruct (c_auto_start c)|].
  do 13 (apply finishes_bind; [solve [waits]|intros ?]). apply finishes_commit_bind.
  unfold emit_deploy_complete_notifications. settles.
Qed.

(** ** Before the host is known *)

Context (cfg : config) (fresh_id : string) (member_id : nat → string).

Lemma calm_find_host_row hid : calm (find_host_row pid hid).
Proof. unfold find_host_row. calm. Qed.
#[local] Hint Resolve calm_find_host_row : job.

Lemma calm_host_error_msg h : calm (deploy_host_error_msg exn_text cfg pid h).
Proof. unfold deploy_host_error_msg. calm. Qed.
#[local] Hint Resolve calm_host_error_msg : job.

Lemma keeps_auto_place : keeps (auto_place exn_text cfg pid).
Proof. unfold auto_place. settles. Qed.
#[local] Hint Resolve keeps_auto_place : keep.

Lemma keeps_resolve_host : keeps (deploy_resolve_host exn_text cfg pid).
Proof. unfold deploy_resolve_host. settles. Qed.

Lemma keeps_normalize : keeps (deploy_normalize_topology_flags exn_text member_id pid).
Proof. unfold deploy_normalize_topology_flags. settles. Qed.
Lemma calm_clock_offset b : calm (deploy_resolve_clock_offset env pid b).
Proof. unfold deploy_resolve_clock_offset. calm. Qed.
Lemma keeps_vni_map : keeps (deploy_ensure_vni_map exn_text pid).
Proof. unfold deploy_ensure_vni_map. settles. Qed.
Lemma calm_host_provider_type : calm (host_provider_type pid).
Proof. unfold host_provider_type. calm. Qed.
#[local] Hint Resolve keeps_resolve_host keeps_normalize keeps_vni_map : keep.
#[local] Hint Resolve calm_clock_offset calm_host_provider_type : job.

Lemma keeps_init_context : keeps (deploy_init_context env exn_text fresh_id member_id pid).
Proof. unfold deploy_init_context. settles. Qed.

Lemma calm_uplink_mtu h : calm (ensure_host_uplink_mtu env pid h).
Proof. unfold ensure_host_uplink_mtu, read_uplink_mtu. calm. Qed.
Lemma calm_mtu_map m : calm (deploy_resolve_mtu_map exn_text pid m).
Proof. unfold deploy_resolve_mtu_map. calm. Qed.
#[local] Hint Resolve keeps_init_context : keep.
#[local] Hint Resolve calm_uplink_mtu calm_mtu_map : job.

(** ** Several hosts *)

Lemma settles_own_canvas {A} s (m : J A) : settles s m → settles s (with_own_canvas m).
Proof.
  intros Hm. unfold with_own_canvas. do 2 (apply calm_bind_settles; [calm|intros ?]).
  apply settles_finally; [|done]. intros w. by case_match.
Qed.

Lemma waits_own_canvas {A} (m : J A) : waits m → waits (with_own_canvas m).
Proof.
  intros Hm. unfold with_own_canvas. apply waits_bind; [apply waits_get|]. intros alias.
  apply waits_bind; [apply waits_get|]. intros outer. apply waits_finally; [|done]. by destruct alias.
Qed.

Lemma settles_fail {A} (s : A → bool) msg (k : unit → J A) :
  keeps (k tt) → settles s (jbind (multihost_fail pid msg) k).
Proof.
  intros Hk. eapply settles_bind with (s1 := λ _, true).
  - apply settles_finishes; [done|]. apply finishes_bind; [by apply waits_assign|]. intros _.
    apply finishes_commit_bind, calm_keeps. calm.
  - by intros [].
Qed.

Lemma settles_fail_end s msg : settles s (multihost_fail pid msg).
Proof.
  apply settles_finishes; [done|]. apply finishes_bind; [by apply waits_assign|]. intros _.
  apply finishes_commit_bind, calm_keeps. calm.
Qed.

Lemma drafts_do f args : drafts (do_ env f args).
Proof. unfold do_. apply drafts_bind; [apply drafts_ask|]. intros _. apply drafts_ret. Qed.

Lemma keeps_setup_mesh l : keeps (setup_mesh env pid l).
Proof.
  unfold setup_mesh. do 6 settles_shape.
  - settles.
  - apply calm_bind_settles; [calm|]. intros o. apply from_draft.
    apply draft_bind; [by apply drafts_assign|]. intros _.
    apply draft_bind; [apply drafts_flush|]. intros _.
    apply draft_bind; [apply drafts_do|]. intros _. apply (draft_commit _ (λ _, _)).
    apply calm_bind_settles; [calm|]. intros [|e errors]; [settles|].
    apply calm_bind_settles; [calm|]. intros _. apply calm_bind_settles; [calm|]. intros found.
    apply from_draft, draft_bind; [destruct found; [by apply drafts_assign|apply drafts_ret]|].
    intros _. apply (draft_commit _ (λ _, _)). settles.
Qed.

Lemma settles_mesh_networks h ids : settles negb (deploy_multihost_networks env pid h ids).
Proof.
  unfold deploy_multihost_networks. apply calm_bind_settles; [calm|]. intros _.
  apply calm_bind_settles; [apply calm_network_lock; calm|]. intros [msg|].
  - apply settles_fail, keeps_ret.
  - do 2 (apply calm_bind_settles; [calm|]; intros ?). case_match; [by apply settles_ret|].
    apply settles_fail, keeps_ret.
Qed.

Lemma calm_wait_disks h label jobs : calm (wait_multihost_disks env h label jobs).
Proof. induction jobs as [|j jobs IH]; cbn [wait_multihost_disks]; calm. Qed.
#[local] Hint Resolve calm_wait_disks : job.
Lemma calm_multihost_disks h label vms : calm (create_multihost_disks env exn_text pid h label vms).
Proof. unfold create_multihost_disks. calm. Qed.
Lemma calm_stale_domains h label vms : calm (clean_stale_domains env exn_text pid sha256_hex h label vms).
Proof. unfold clean_stale_domains. calm. Qed.
Lemma calm_define_multihost h label vms : calm (define_multihost_vms env exn_text h label vms).
Proof. induction vms as [|vm vms IH]; cbn [define_multihost_vms]; calm. Qed.
#[local] Hint Resolve calm_multihost_disks calm_stale_domains calm_define_multihost : job.

Lemma keeps_vms_on_host h vms : keeps (deploy_vms_on_host env exn_text pid sha256_hex h vms).
Proof.
  unfold deploy_vms_on_host. do 7 settles_shape. apply calm_bind_settles; [apply calm_cache; calm|]. settles.
Qed.
#[local] Hint Resolve keeps_vms_on_host : keep.

Lemma settles_multihost_vms vms by_host : settles negb (deploy_multihost_vms env exn_text pid sha256_hex vms by_host).
Proof.
  induction by_host as [|[hid ids] by_host IH]; cbn [deploy_multihost_vms]; [by apply settles_ret|].
  do 2 (apply calm_bind_settles; [calm|]; intros ?). case_match; [|done].
  apply calm_bind_settles; [calm|]. intros host_vms. apply keeps_bind; [apply keeps_vms_on_host|].
  intros [[]|]; [done| |done]. apply settles_fail, keeps_ret.
Qed.

Lemma calm_start_multihost by_host : calm (start_multihost_vms env exn_text pid sha256_hex by_host).
Proof. unfold start_multihost_vms. calm. Qed.

Lemma settles_meshed l : settles (λ _, true) (deploy_multihost_meshed env exn_text pid sha256_hex l).
Proof.
  unfold deploy_multihost_meshed. do 3 (apply calm_bind_settles; [calm|]; intros ?).
  case_match; [|apply settles_fail_end].
  eapply settles_bind; [apply settles_mesh_networks|]. intros []; cbn [negb]; [|apply keeps_ret].
  do 2 (apply calm_bind_settles; [calm|]; intros ?).
  eapply settles_bind; [apply settles_multihost_vms|]. intros []; cbn [negb]; [|apply keeps_ret].
  apply settles_save_commit. apply calm_bind_settles; [apply calm_start_multihost|]. intros _.
  apply settles_finishes; [done|]. do 4 (apply finishes_bind; [solve [waits]|intros ?]).
  apply finishes_commit_bind. settles.
Qed.

Lemma settles_multihost : settles (λ _, true) (deploy_multihost env exn_text pid sha256_hex).
Proof.
  unfold deploy_multihost. apply calm_bind_settles; [calm|]. intros p. case_match.
  - apply settles_finishes; [done|]. apply finishes_error.
  - apply calm_bind_settles; [calm|]. intros _. apply settles_own_canvas.
    do 2 (apply calm_bind_settles; [calm|]; intros ?). apply keeps_bind; [apply keeps_setup_mesh|].
    intros []; [apply settles_meshed|apply settles_fail_end].
Qed.

(** ** A KubeVirt cluster *)

(** A cancelled deployment is one another job has taken out of ["deploying"]. *)
Hypothesis cancelled_settled : ∀ log args t rows,
  (env_answer env log (Call "is_cancelled" args) t).1 = Flag true → settled_rows (env_others env log rows).

Lemma calm_namespace n : calm (wait_for_namespace_termination env pid n).
Proof. induction n as [|n IH]; cbn [wait_for_namespace_termination]; calm. Qed.
Lemma calm_old_resources n : calm (wait_for_old_kubevirt_resources env pid n).
Proof. induction n as [|n IH]; cbn [wait_for_old_kubevirt_resources]; calm. Qed.
#[local] Hint Resolve calm_namespace calm_old_resources : job.
Lemma calm_replace_cr : calm (replace_stale_kubevirt_cr env pid).
Proof. unfold replace_stale_kubevirt_cr. calm. Qed.
Lemma calm_cloud_init key : calm (regenerate_kubevirt_cloud_init env exn_text pid key).
Proof. unfold regenerate_kubevirt_cloud_init. calm. Qed.
Lemma calm_preflight : calm (kubevirt_preflight env pid).
Proof. unfold kubevirt_preflight. calm. Qed.
#[local] Hint Resolve calm_replace_cr calm_cloud_init calm_preflight : job.

Lemma settles_create_cr name : settles none_left (kubevirt_create_cr env exn_text pid fresh_id name).
Proof.
  unfold kubevirt_create_cr. do 2 (apply calm_bind_settles; [calm|]; intros ?).
  assert (Hend : settles none_left (jcatch
    (n <-' in_session env pid (text_of env "deploy_project" [pid]);; jret (Some n))
    (λ e, if contains "AlreadyExists" (exn_str e) then jret (Some name)
          else set_deploy_error pid ("Failed to create TroshkaProject CR: " +:+ exn_str e);;; jret None))).
  { apply settles_catch_answer; [calm|done|]. intros e. case_match; [by apply settles_ret|settles]. }
  destruct (truthy _) eqn:Et.
  - apply from_draft. apply draft_bind.
    { repeat (apply drafts_bind; [first [apply drafts_project|apply drafts_get|apply drafts_lift]|intros ?]).
      by apply drafts_assign. }
    intros _. apply draft_bind; [apply drafts_project|]. intros p.
    apply draft_bind; [apply drafts_get|]. intros t.
    do 2 (apply draft_bind; [apply drafts_lift|]; intros ?).
    apply draft_bind; [by apply drafts_mod|]. intros _. rewrite !orb_true_r.
    intros b w Hw. unfold jbind at 1.
    assert (Hs : settles_draft (λ _, false) (save_topology;;; commit pid)).
    { apply draft_bind; [apply drafts_save|]. intros _. apply settles_draft_commit. }
    specialize (Hs b w Hw). destruct ((save_topology;;; commit pid) w) as [w' [[]|e|]]; [|done..].
    rewrite orb_false_r in Hs. by apply Hend.
  - do 6 (apply calm_bind_settles; [calm|]; intros ?). apply keeps_bind; [|intros _; exact Hend].
    case_match; [apply keeps_save_commit|apply keeps_ret].
Qed.

Lemma settles_create_or_resume : settles none_left (kubevirt_create_or_resume_cr env exn_text pid fresh_id).
Proof.
  unfold kubevirt_create_or_resume_cr. apply calm_bind_settles; [calm|]. intros phase.
  case_match; [by apply settles_ret|]. apply calm_bind_settles; [calm|]. intros _. apply settles_create_cr.
Qed.

Lemma calm_refresh : calm (refresh_project pid).
Proof. unfold refresh_project. calm. Qed.
#[local] Hint Resolve calm_refresh : job.

Lemma waits_stamp_facts : waits (stamp_kubevirt_facts env exn_text pid sha256_hex).
Proof. unfold stamp_kubevirt_facts, texts_of, unexpected. waits. Qed.

Lemma settles_finalize host :
  settles (λ _, true) (finalize_kubevirt_deploy env exn_text pid sha256_hex fresh_id host).
Proof.
  unfold finalize_kubevirt_deploy. do 6 (apply calm_bind_settles; [calm|]; intros ?).
  apply settles_finishes; [done|].
  apply finishes_bind.
  { apply waits_own_canvas. repeat first [apply waits_stamp_facts|waits_step]. }
  intros _. do 5 (apply finishes_bind; [solve [waits]|intros ?]). apply finishes_commit_bind. settles.
Qed.

Lemma settles_kubevirt_error msg : settles (λ _ : unit, true) (handle_kubevirt_deploy_error pid msg).
Proof. apply settles_set_error, calm_keeps. calm. Qed.

Lemma keeps_push_progress a b c l : keeps (push_kubevirt_deploy_progress pid a b c l).
Proof. unfold push_kubevirt_deploy_progress. settles. Qed.

Definition over (o : poll_outcome) : bool := match o with PollContinue => false | _ => true end.

Lemma settles_cancelled args : settles (λ b : bool, b) (flag_of env "is_cancelled" args).
Proof.
  intros b w Hw. pose proof (calm_flag_of "is_cancelled" args b w Hw) as H.
  pose proof (cancelled_settled (jw_log w) args (jw_topo w) (jw_rows w)) as Hc.
  unfold flag_of, ask, jbind in *. destruct (env_answer env _ _ _) as [[| |[]| | | |] t]; cbn in *;
    try (by eapply good_bad).
  - destruct H as (Hb & Hl & Hd & _). split_and!; [apply Hb..|done|done|]. intros _. by apply Hc.
  - by rewrite orb_false_r.
Qed.

Lemma settles_poll_once : settles over (poll_kubevirt_once env exn_text pid sha256_hex fresh_id).
Proof.
  unfold poll_kubevirt_once. eapply settles_bind; [apply settles_cancelled|]. intros []; cbv beta iota.
  { apply calm_keeps. calm. }
  eapply settles_bind; [apply settles_deleted|]. intros []; cbv beta iota; [apply keeps_ret|].
  do 2 (apply calm_bind_settles; [calm|]; intros ?).
  destruct a as [|phase [|msg rest]]; [apply settles_exc..|].
  case_match; [|case_match].
  - do 3 (apply calm_bind_settles; [calm|]; intros ?).
    eapply settles_bind; [apply settles_finalize|]. intros []. apply keeps_ret.
  - eapply settles_bind; [apply settles_kubevirt_error|]. intros []. apply keeps_ret.
  - repeat case_match; try apply settles_exc. apply keeps_bind; [apply keeps_push_progress|].
    intros _. by apply settles_ret.
Qed.

Lemma settles_timed_out : settles (λ _ : unit, true) (kubevirt_timed_out pid).
Proof. apply settles_set_error, calm_keeps. calm. Qed.

Lemma settles_poll turns deadline :
  settles (λ _, true) (poll_turns env exn_text pid sha256_hex fresh_id turns deadline).
Proof.
  induction turns as [|turns IH]; cbn [poll_turns]; [apply settles_timed_out|].
  apply calm_bind_settles; [calm|]. intros t. case_match; [apply settles_timed_out|].
  eapply settles_bind; [apply settles_poll_once|]. intros []; cbn [over]; [apply keeps_ret| |apply keeps_ret].
  by apply calm_bind_settles; [calm|]; intros _.
Qed.

Lemma settles_kubevirt host :
  settles (λ _, true) (deploy_kubevirt_native env exn_text pid sha256_hex fresh_id host).
Proof.
  unfold deploy_kubevirt_native. do 2 (apply calm_bind_settles; [calm|]; intros ?).
  case_match; [|apply settles_set_error_end].
  do 2 (apply calm_bind_settles; [calm|]; intros ?). case_match; [apply settles_set_error_end|].
  do 6 (apply calm_bind_settles; [calm|]; intros ?).
  eapply settles_bind; [apply settles_create_or_resume|]. intros [n|]; cbn [none_left]; [|apply keeps_ret].
  unfold poll_kubevirt_deploy. do 2 (apply calm_bind_settles; [calm|]; intros ?). apply settles_poll.
Qed.

(** ** Failure *)

Lemma firm_cleanup : firm (cleanup_stale_shared_cache pid).
Proof.
  unfold cleanup_stale_shared_cache. apply firm_bind; [apply firm_project|]. intros p.
  case_match; [|apply firm_total; [apply waits_ret|by eauto]].
  apply firm_bind; [apply firm_flush|]. intros _.
  apply firm_total; [waits|]. intros w. rewrite jbind_get. repeat case_match; by eauto.
Qed.

(** The error reaches the row, unless the row is gone. *)
Lemma report_failure e :
  triple bad (assign (WState "error");;; assign (WError (Some (exn_str e)));;; cleanup_stale_shared_cache pid;;;
              commit pid;;; emit (Notify "error" (exn_str e))) (λ _, fin) fin.
Proof.
  eapply (triple_bind _ _ (λ _, pending)).
  { intros w Hw. exact (bad_assign_state "error" ltac:(done) w Hw). }
  intros _. eapply (triple_bind _ _ (λ _, pending)).
  { apply firm_total; [by apply waits_assign|]. intros w. by eexists _, _. }
  intros _. eapply (triple_bind _ _ (λ _, pending)); [apply firm_cleanup|]. intros _.
  eapply (triple_bind _ _ (λ _, good true)).
  - apply commit_firm.
  - intros _ w Hw. exact (good_fin w Hw).
Qed.

(** The handler of a failed deployment never raises, and leaves the project settled. *)
Lemma handled e : triple bad (deploy_handle_failure pid e) (λ _, fin) (λ _, False).
Proof.
  eapply (triple_bind _ _ (λ _, bad)); [by intros w [Hb Hd]|]. intros _.
  apply dropped; [|by intros _ w Hw; exists tt].
  eapply triple_bind; [apply query_bad|]. intros []; [apply report_failure|by intros w' Hw'].
Qed.

(** ** The job *)

Lemma keeps_special host : keeps (deploy_after_special_host env exn_text install_via_default pid host).
Proof. unfold deploy_after_special_host. settles. Qed.
#[local] Hint Resolve keeps_special : keep.

Lemma settles_single c :
  settles (λ _, true) (deploy_single_host env exn_text sha256_hex set_iter install_via_default pid c).
Proof.
  unfold deploy_single_host. apply calm_bind_settles; [calm|]. intros _.
  eapply settles_bind; [apply settles_setup|]. intros [lb|]; cbn [stopped]; [|apply keeps_ret].
  eapply settles_bind; [apply settles_execute|]. intros [[vms bmc]|]; cbn [stopped]; [|apply keeps_ret].
  apply settles_complete.
Qed.

Lemma settles_on_host host auto resume :
  settles (λ _, true) (deploy_on_host env exn_text sha256_hex set_iter install_via_default fresh_id member_id pid
                         host auto resume).
Proof.
  unfold deploy_on_host. apply keeps_bind; [apply keeps_init_context|]. intros init.
  apply calm_bind_settles; [calm|]. intros [mtu|]; [|apply settles_error_notify].
  do 2 (apply calm_bind_settles; [calm|]; intros ?). case_match; [|case_match].
  - eapply settles_bind; [apply settles_multihost|]. intros []. apply keeps_special.
  - eapply settles_bind; [apply settles_kubevirt|]. intros []. apply keeps_special.
  - apply settles_single.
Qed.

Lemma settles_with_host r auto resume :
  settles (λ _, true) (deploy_with_host env exn_text sha256_hex set_iter install_via_default fresh_id member_id pid
                         r auto resume).
Proof.
  destruct r as [[host|] [msg|]]; cbn; [apply settles_error_notify|apply settles_on_host|
    apply settles_error_notify|apply settles_exc].
Qed.

Lemma settles_rest p :
  settles none_left
    ((match d_error p with
      | Some (String _ _) => assign (WError None);;; commit pid
      | _ => jret tt
      end);;;
     project pid;;;
     ptr_err <-' in_session env pid (error_of env "check_pull_through_registry" []);;
     match ptr_err with
     | Some msg => set_deploy_error_and_notify pid msg;;; jret None
     | None => r <-' deploy_resolve_host exn_text cfg pid;; jret (Some r)
     end).
Proof.
  apply keeps_bind; [settles|]. intros _. do 2 (apply calm_bind_settles; [calm|]; intros ?).
  case_match.
  - eapply settles_bind; [apply settles_error_notify|]. intros []. apply keeps_ret.
  - apply keeps_bind; [apply keeps_resolve_host|]. intros r. by apply settles_ret.
Qed.

Lemma finds_host :
  triple (fresh c0 n0) (deploy_find_host env exn_text cfg pid) (λ r, good (none_left r)) bad.
Proof.
  intros w [Hb Hs]. unfold deploy_find_host, query_project, jbind at 1 2, flush. rewrite Hs. cbn.
  destruct (current pid w) as [p|] eqn:E; cbn [negb]; cycle 1.
  { split_and!; [apply Hb..|by rewrite Hs|by rewrite Hs|]. intros _. by apply (gone_fin "deploying" pid c0 n0 w). }
  rewrite Hs. cbn [s_dirty s_obj s_locked s_alias new_session apply_writes default foldl].
  set (w1 := set_sess _ _). assert (Hw1 : good false w1) by (split_and!; [exact Hb|done..]).
  unfold jbind at 1, project at 1. cbn. destruct (String.eqb_spec (d_state p) "deploying") as [Ed|Ed]; cbn [negb].
  - exact (settles_rest p false w1 Hw1).
  - split_and!; [apply Hb..|done|done|]. intros _. unfold settled, settled_rows. unfold current in E. cbn.
    by rewrite E.
Qed.

Lemma part_find :
  triple (fresh c0 n0) (jcatch (deploy_find_host env exn_text cfg pid) (λ e, deploy_handle_failure pid e;;; jret None))
    (λ r w, base w ∧ match r with None => settled w | Some _ => good false w end) (λ _, False).
Proof.
  eapply part_handled.
  - intros w Hw. pose proof (finds_host w Hw) as H. destruct (deploy_find_host _ _ _ _ w) as [w' [[r|]|e|]]; try done.
    + by split; [apply H|].
    + by apply good_fin.
  - intros e. eapply triple_bind; [apply handled|]. by intros [] w Hw.
Qed.

Lemma part_host r auto resume :
  triple (good false)
    (jcatch (deploy_with_host env exn_text sha256_hex set_iter install_via_default fresh_id member_id pid r auto resume)
       (deploy_handle_failure pid)) (λ _, fin) (λ _, False).
Proof.
  eapply part_handled; [|apply handled]. intros w Hw. pose proof (settles_with_host r auto resume false w Hw) as H.
  destruct (deploy_with_host _ _ _ _ _ _ _ _ _ _ _ w) as [w' [[]|e|]]; [by apply good_fin|done..].
Qed.
End Host.
End Safe.

(** ** The whole job *)

(** What is counted on a host while a deployment runs is taken back when it ends. *)
Lemma counted_once c h k :
  (∀ x, 0 ≤ get_inflight_deploys c x)%Z →
  get_inflight_deploys (record_deploy_end (record_deploy_start c h) h) k = get_inflight_deploys c k.
Proof.
  intros Hc. specialize (Hc k). unfold get_inflight_deploys, record_deploy_end, record_deploy_start, get_counter,
    increment_counter, decrement_counter in *.
  destruct (redis_up c); cbn [redis_up redis_counters mem_counters] in *; rewrite insert_insert_eq, lookup_insert_eq;
    cbn [default]; (destruct (decide (inflight_key h = inflight_key k)) as [->|Hk];
      [rewrite lookup_insert_eq; cbn [default id]; lia|by rewrite lookup_insert_ne]).
Qed.

(** What the rest of the system keeps to while the job runs: nobody puts the project back to
    ["deploying"], and a cancelled deployment has been taken out of that state. *)
Record well_behaved (env : environment) (pid : string) : Prop := mkWell {
  wb_others : Peers "deploying" pid env;
  wb_cancelled : ∀ log args t rows,
    (env_answer env log (Call "is_cancelled" args) t).1 = Flag true → settled_rows "deploying" pid (env_others env log rows)
}.

Section Job.
Context (env : environment) (exn_text : exn → string) (cfg : config).
Context (sha256_hex : string → string) (set_iter : list val → list val) (install_via_default : string).
Context (fresh_id : string) (member_id : nat → string) (pid : string).
Context (Henv : well_behaved env pid).

Notation inner := (deploy_project_inner env exn_text cfg sha256_hex set_iter install_via_default fresh_id member_id pid).
Notation job := (deploy_project_async env exn_text cfg sha256_hex set_iter install_via_default fresh_id member_id pid).

(** The counters of a world in which each host has as many deployments in flight as in another. *)
Definition same_inflight (c c' : counters) : Prop := ∀ h, get_inflight_deploys c h = get_inflight_deploys c' h.

(** The job ends with the project settled and nothing held, or it waits for itself where it has
    found a DNS provider. *)
Definition ends (r : jobw * outcome unit) (w : jobw) : Prop :=
  match r with
  | (w', Ret tt) => settled_rows "deploying" pid (jw_rows w') ∧ jw_permits w' = jw_permits w ∧
                    same_inflight (jw_counters w') (jw_counters w)
  | (_, Exc _) => False
  | (w', Blocked) => dns_found (env := env) w'
  end.

Lemma inner_settles auto resume w :
  (∀ h, 0 ≤ get_inflight_deploys (jw_counters w) h)%Z →
  ends (inner auto resume w) w.
Proof.
  intros Hc. destruct Henv as [H1 H2]. unfold deploy_project_inner, jbind at 1 2, emit, jmod at 1 2. cbn.
  set (w1 := close_session _). unfold jfinally at 1, jbind at 1.
  pose proof (part_find env exn_text pid (jw_counters w) (jw_permits w) cfg w1) as Hf.
  specialize (Hf (conj (conj eq_refl eq_refl) eq_refl)).
  destruct (jcatch _ _ w1) as [w2 [[[[h|] err]|]|e|]]; [| | |done|exact Hf].
  - destruct Hf as [[Hc2 Hn2] (_ & Hl & Hd & _)]. unfold jbind, jmod at 1.
    set (w3 := set_counters w2 _).
    pose proof (part_host env exn_text pid (record_deploy_start (jw_counters w) (h_id h)) (jw_permits w) sha256_hex
      set_iter install_via_default fresh_id member_id H2 (Some h, err) auto resume w3) as Hp.
    ospecialize (Hp _).
    { split_and!; [split; [by subst w3; cbn; rewrite Hc2|done]|done..]. }
    unfold jfinally at 1. destruct (jcatch _ _ w3) as [w4 [[]|e|]]; [|done|exact Hp]. destruct Hp as [[Hc4 Hn4] Hs4].
    split_and!; [exact Hs4|exact Hn4|]. intros k. cbn. rewrite Hc4. by apply counted_once.
  - destruct Hf as [[Hc2 Hn2] Hg].
    pose proof (part_host env exn_text pid (jw_counters w) (jw_permits w) sha256_hex
      set_iter install_via_default fresh_id member_id H2 (None, err) auto resume w2 Hg) as Hp.
    destruct (jcatch _ _ w2) as [w4 [[]|e|]]; [|done|exact Hp]. destruct Hp as [[Hc4 Hn4] Hs4].
    split_and!; [exact Hs4|exact Hn4|]. intros k. cbn. by rewrite Hc4.
  - destruct Hf as [[Hc2 Hn2] Hs]. split_and!; [exact Hs|exact Hn2|]. intros k. cbn. by rewrite Hc2.
Qed.

Lemma refused w :
  jw_sess w = new_session →
  ∃ w', (found <-' query_project pid;;
         if negb found then jret tt
         else
           assign (WState "error");;;
           assign (WError (Some "Too many concurrent deploys — try again shortly"));;;
           commit pid;;; emit (Notify "error" "")) w = (w', Ret tt) ∧
        settled_rows "deploying" pid (jw_rows w') ∧ jw_permits w' = jw_permits w ∧ jw_counters w' = jw_counters w.
Proof.
  intros Hs. unfold query_project, jbind at 1 2, flush. rewrite Hs. cbn.
  destruct (current pid w) as [p|] eqn:E; cbn [negb].
  - unfold jbind, assign, jmod, commit, emit. cbn. rewrite Hs. cbn.
    unfold current in *. cbn. rewrite E. eexists. split; [reflexivity|]. split_and!; [|done..].
    unfold settled_rows. cbn. pose proof (find_update pid (apply_writes [WState "error";
      WError (Some "Too many concurrent deploys — try again shortly")]) w (apply_writes_id _)) as Hu.
    unfold current in Hu. cbn in Hu. rewrite Hu, E. by destruct p as [[]].
  - eexists. split; [reflexivity|]. split_and!; [|done..]. unfold settled_rows. unfold current in E. by rewrite E.
Qed.

(** C1: However the agents, the clouds and the operator answer, whatever exceptions are raised, and on
    whatever host or hosts, from counts of deployments that are not negative: a deployment job ends
    without an exception, the project is gone or is no longer ["deploying"], the semaphore has its
    permit back, and every host has as many deployments in flight as before; or the job has found
    the DNS provider of the project, reports that it creates the records of its balancer, and waits
    for itself there, nowhere else.  The other processes do not put the project back to
    ["deploying"], and have taken a cancelled deployment out of it. *)
Theorem deploy_settles auto resume w b :
  (env_answer env (jw_log w) (Call "semaphore.acquire" ["1800"]) (jw_topo w)).1 = Flag b →
  (∀ h, 0 ≤ get_inflight_deploys (jw_counters w) h)%Z →
  ends (job auto resume w) w.
Proof.
  intros Ha Hc. unfold deploy_project_async, flag_of, jbind at 1 2, ask.
  destruct (env_answer env _ _ _) as [a t]. cbn [fst] in Ha. subst a. cbn [jret].
  set (w1 := mkJobw _ _ _ _ _ _ _ _ _). destruct b; cbn [negb].
  - unfold jbind at 1, jmod at 1, jfinally at 1.
    pose proof (inner_settles auto resume (set_permits w1 (jw_permits w1 - 1)) Hc) as H.
    destruct (inner _ _ _) as [w2 [[]|e|]]; [|done|exact H]. destruct H as (Hs & Hn & Hi).
    split_and!; [exact Hs| |exact Hi]. cbn in *. lia.
  - unfold jbind at 1, jmod at 1, jfinally at 1.
    destruct (refused (close_session w1) eq_refl) as (w2 & E & Hs & Hn & Hi).
    rewrite E. split_and!; [exact Hs|exact Hn|]. intros h. cbn. by rewrite Hi.
Qed.
End Job.

(** ** A deployment that waits for itself *)

(** The thread waits for a lock it holds itself. *)
Definition waits_for_itself {A} (m : J A) (w : jobw) : Prop := (m w).2 = Blocked.

(** The session has changes pending when the records are created: looking up the provider writes
    them, which locks the project's row, and the progress of the step is written by another
    session of the same thread. *)
Theorem dns_records_block env exn_text pid lb external_ips w p i guid domain :
  s_obj (jw_sess w) = Some p → current pid w = Some p → s_dirty (jw_sess w) ≠ [] →
  d_dns p = (Some i, Some guid, Some domain) → i ≠ "" → guid ≠ "" → domain ≠ "" → truthy lb = true →
  (∀ log args t, (env_answer env log (Call "dns_provider" args) t).1 = Flag true) →
  waits_for_itself (deploy_create_dns_records env exn_text pid (Some lb) external_ips) w.
Proof.
  intros Ho Hc Hd Hdns Hi Hg Hdom Hlb Hfound. unfold waits_for_itself, deploy_create_dns_records.
  unfold jbind at 1, project. rewrite Ho, Hdns. destruct i, guid, domain; try done.
  unfold query, flush, jbind at 1. destruct (s_dirty (jw_sess w)); [done|]. rewrite Hc.
  unfold flag_of, ask, jbind at 1 2. cbn [jw_log set_sess jw_topo].
  specialize (Hfound (jw_log w) [pid] (jw_topo w)). destruct (env_answer env _ _ _) as [x t]. cbn [fst] in Hfound.
  subst x. cbn [jret negb orb]. rewrite Hlb. reflexivity.
Qed.

(** ** Worked examples *)

(** Agents that do what they are asked, and nobody else around. *)
Definition working_agents (dns : bool) : environment :=
  mkEnv (λ _ e t,
    (match e with
     | Call "semaphore.acquire" _ => Flag true
     | Call "dns_provider" _ => Flag dns
     | Call "ensure_storage_library_refs" _ => Flag false
     | Call "start_job" _ => Text "job"
     | Call "create_vm" _ => Text "job"
     | Call "wait_define_job" _ => Texts ["completed"; ""; "uuid-1"]
     | Call "wait_for_job" _ => Texts ["completed"; ""]
     | Call "create_vm_disks" _ => Texts ["disk-job"]
     | Call "poll_download_jobs" _ | Call "cache_library_images" _
     | Call "enqueue_container_volume_disk_jobs" _ => Texts []
     | Call "create_dns_records" _ => Texts ["api"]
     | _ => Done
     end, t))
    (λ _ rows, rows) (λ _, 0) (λ _, false).

Definition no_timers : timers := mkTimers None None None false None None false None.
Definition deploying_project (topo : val) (dns : option string * option string * option string) : dproject :=
  mkDProject (mkProject "12345678" None (Some "h1") "deploying" topo None None) None None None None None [] no_timers
    false "" None None None dns None true "owner" None.

Definition deploy_host : Host :=
  mkHost "h1" None "active" "shared" 16 65536 0 0 (Some "10.0.0.5") None "connected" 1 (Some 1500) None true.

Definition deploy_world (topo : val) (dns : option string * option string * option string) : jobw :=
  mkJobw [deploying_project topo dns] (mkDB [deploy_host] [] [] [] [] []) (mkCounters true ∅ ∅) (mkHwm None true)
    100 None VNone new_session [].

Definition vm_canvas : val :=
  VDict [("nodes", VList [start_node "aaaaaaaa" "bastion" [("vcpus", VInt 2)]]); ("edges", VList [])].

Definition sample_job (dns : bool) (w : jobw) : jobw * outcome unit :=
  deploy_project_async (working_agents dns) no_text (mkConfig None None) (λ s, s) (λ l, l) "" "fresh" (λ _, "member")
    "12345678" true None w.

Definition checkpoints (w : jobw) : list string :=
  omap (λ e, match e with
             | Committed ws => last (omap (λ x, match x with WStep (Some s) => Some s | _ => None end) ws)
             | _ => None
             end) (jw_log w).

Lemma working_well_behaved dns : well_behaved (working_agents dns) "12345678".
Proof. split; [by intros log rows|done]. Qed.

(** A VM deployed and started: every step up to the start is checkpointed, and the project is active. *)
Lemma deploy_settles_witness :
  let w := deploy_world vm_canvas (None, None, None) in
  (map d_state (jw_rows (sample_job false w).1) = ["active"] ∧
   checkpoints (sample_job false w).1 =
     ["networks"; "seeds"; "images"; "container_pull"; "disks"; "vms"; "containers"; "starting"]) ∧
  ends (working_agents false) "12345678" (sample_job false w) w ∧
  ends (working_agents true) "12345678" (sample_job true w) w.
Proof.
  intros w. split; [vm_compute; by split|].
  assert (Hcount : ∀ h, (0 ≤ get_inflight_deploys (jw_counters w) h)%Z).
  { intros h. unfold get_inflight_deploys, get_counter. cbn. by rewrite lookup_empty. }
  split.
  - unfold sample_job.
    apply (deploy_settles (working_agents false) no_text (mkConfig None None) (λ s, s) (λ l, l) "" "fresh" (λ _, "member")
      "12345678" (working_well_behaved false) true None w true); [reflexivity|exact Hcount].
  - unfold sample_job.
    apply (deploy_settles (working_agents true) no_text (mkConfig None None) (λ s, s) (λ l, l) "" "fresh" (λ _, "member")
      "12345678" (working_well_behaved true) true None w true); [reflexivity|exact Hcount].
Defined.

Definition dns_project : option string * option string * option string := (Some "dns1", Some "abcde", Some "example.com").

Definition dns_world : jobw :=
  set_sess (deploy_world vm_canvas dns_project)
    (mkSess (Some (deploying_project vm_canvas dns_project)) [WState "active"] false true).

Lemma dns_records_block_witness :
  waits_for_itself (deploy_create_dns_records (working_agents true) no_text "12345678"
     (Some (VDict [("dns_records", VList [VStr "api"])])) []) dns_world.
Proof.
  apply (dns_records_block (working_agents true) no_text "12345678"
    (VDict [("dns_records", VList [VStr "api"])]) [] dns_world (deploying_project vm_canvas dns_project)
    "dns1" "abcde" "example.com"); done.
Defined.

(** The same deployment with a balancer and a DNS provider never ends. *)
Definition lb_canvas : val :=
  VDict [("nodes", VList [start_node "aaaaaaaa" "bastion" [("vcpus", VInt 2)];
                          VDict [("id", VStr "bbbbbbbb"); ("type", VStr "networkNode");
                                 ("data", VDict [("name", VStr "lb"); ("networkType", VStr "loadbalancer");
                                                 ("dnsRecords", VList [VStr "api"])])]]); ("edges", VList [])].

Example balanced_deployment_blocks : waits_for_itself (sample_job true) (deploy_world lb_canvas dns_project).
Proof. vm_compute. reflexivity. Qed.
