(* ===== verification/PowerFlow.v ===== *)
(** * Stopping and starting a project

    [stop_project_async] and [start_project_async] of [services/deploy_service.py] with the power
    helpers of [services/vm_power.py]: the off action of a project (stop, pause, hibernate), the
    way back with its addresses, networks, images and VMs, and the state each ends in. *)
From stdpp Require Import prelude strings gmap.
From S2P Require Import Prelude PyStr PyVal PyLemmas Db TopoNodes Vxlan Placement PatternLocations TopologyExtract JobMonad VmStart.
From S2P Require Import DeployCanvas DeployHost DeployTargets DeployFlow.

Open Scope list_scope.

(** [vm_power.supports_hibernate] *)
Definition supports_hibernate (host : Host) : bool := negb (String.eqb (h_host_type host) "kubevirt-cluster").

Section Power.
Context (env : environment) (exn_text : exn → string) (sha256_hex : string → string) (pid : string).

Notation lift := (jlift exn_text).
Notation look := (look exn_text).

(** ** The power state of a VM *)

(** [vm_power._kv_name] *)
Definition kv_name (vm_id : val) : res string := s <- slice8 vm_id;; Ok ("troshka-vm-" +:+ py_str s).

(** [vm_power._kubevirt_vmi_subresource] *)
Definition kubevirt_vmi_subresource (vm_id : val) (action : string) : J unit :=
  name <-' lift (kv_name vm_id);; do_ env "kubevirt_vmi_subresource" [name; action].

(** A job of the host's agent on one VM, awaited. *)
Definition vm_job (host : Host) (path : string) (timeout : Z) (vm_id : val) : J unit :=
  i <-' lift (as_text vm_id);;
  job_id <-' agent_start env host path (vm_domain_name sha256_hex pid i);;
  agent_wait env host job_id timeout;;; jret tt.

(** [vm_power.pause_vm_on_host] *)
Definition pause_vm_on_host (host : Host) (vm_id : val) : J unit :=
  if String.eqb (h_host_type host) "kubevirt-cluster" then kubevirt_vmi_subresource vm_id "pause"
  else vm_job host "/vms/pause" 60 vm_id.

(** [vm_power.unpause_vm_on_host] *)
Definition unpause_vm_on_host (host : Host) (vm_id : val) : J unit :=
  if String.eqb (h_host_type host) "kubevirt-cluster" then kubevirt_vmi_subresource vm_id "unpause"
  else vm_job host "/vms/resume" 60 vm_id.

(** [vm_power.hibernate_vm_on_host] *)
Definition hibernate_vm_on_host (host : Host) (vm_id : val) : J unit :=
  if negb (supports_hibernate host) then jexc (XOther "Hibernate is not supported on this host type")
  else vm_job host "/vms/hibernate" 300 vm_id.

(** [deploy_service._cached_vm_states]: the states the poller last saw, by VM. *)
Definition cached_vm_states : J (list (val * val)) :=
  l <-' texts_of env "get_cached_vm_states" [pid];;
  jret (map (λ p, (VStr p.1, VStr p.2)) (uuid_pairs l)).

(** The VMs whose cached state passes a test. *)
Definition vms_in_state (states : list (val * val)) (f : val → bool) (vms : list val) : res (list val) :=
  filter_res (λ v, i <- idx v "node_id";; s <- vget i states;; Ok (f (default VNone s))) vms.

(** [deploy_service._filter_running_vms] *)
Definition filter_running_vms (vms : list val) : J (list val) :=
  states <-' cached_vm_states;; lift (vms_in_state states (λ s, eq_str s "running") vms).

(** ** Errors *)

(** [deploy_service._set_project_error:13427-13434] a project that is there. *)
Definition fail_project (msg : string) : J unit :=
  assign (WState "error");;; assign (WError (Some msg));;; commit pid;;; emit (Notify "error" msg).

(** [deploy_service._set_project_error] without the project: it is looked up. *)
Definition set_project_error (msg : string) : J unit :=
  found <-' query_project pid;; if found then fail_project msg else jret tt.

(** [deploy_service.stop_project_async:13627-13637] and the same lines of [start_project_async]: what
    goes wrong in the report is dropped. *)
Definition handle_power_failure (msg : string) (e : jexn) : J unit := jcatch (set_project_error msg) (λ _, jret tt).

(** ** Stopping *)

(** Each VM, with the VMs whose step did not raise. *)
Definition each_vm (step : val → J unit) (vms : list val) : J (list val) :=
  jfold (λ succeeded vm,
    jcatch (i <-' lift (idx vm "node_id");; step i;;; jret (succeeded ++ [i]))
           (λ _, lift (idx vm "node_id");;; jret succeeded)) [] vms.

(** [deploy_service._stop_troshkad_vms] *)
Definition stop_troshkad_vms (host : Host) (vms : list val) : J unit :=
  jeach vms (λ vm,
    i <-' lift (i <- idx vm "node_id";; as_text i);;
    catch_troshkad
      (job_id <-' agent_start env host "/vms/stop" (vm_domain_name sha256_hex pid i);;
       agent_wait env host job_id 90;;; jret tt) (λ _, jret tt)).

(** The provider of the host. *)
Definition host_provider (host : Host) : J (option Provider) :=
  query pid;;; jget (λ w, i ← h_provider_id host; find_provider (jw_db w) i).

(** [deploy_service._stop_kubevirt_vms] with [force] False, as the stop of a project calls it. *)
Definition stop_kubevirt_vms (host : Host) (vms : list val) : J unit :=
  provider <-' host_provider host;;
  match provider with
  | None => jret tt
  | Some _ =>
      do_ env "k8s_clients" [];;;
      jeach vms (λ vm,
        name <-' lift (i <- idx vm "node_id";; kv_name i);;
        jcatch (do_ env "patch_kubevirt_run_strategy" [name; "Halted"]) (λ _, jret tt))
  end.

(** [deploy_service._apply_off_action_troshkad] *)
Definition apply_off_action_troshkad (host : Host) (vms : list val) (off_action : string) : J (list val) :=
  if String.eqb off_action "pause" then each_vm (pause_vm_on_host host) vms
  else if String.eqb off_action "hibernate" then each_vm (hibernate_vm_on_host host) vms
  else stop_troshkad_vms host vms;;; jret [].

(** [deploy_service._apply_off_action_kubevirt] *)
Definition apply_off_action_kubevirt (host : Host) (vms : list val) (off_action : string) : J (list val) :=
  if String.eqb off_action "pause" then each_vm (pause_vm_on_host host) vms
  else stop_kubevirt_vms host vms;;; jret [].

(** The timers of a stopped project: the stop timer is consumed. *)
Definition consumed (t : timers) : timers :=
  mkTimers (t_stop_minutes t) None None false (t_delete_minutes t) (t_delete_started t) (t_delete_warned t)
    (t_lifetime t).

(** [deploy_service._finalize_project_stopped] *)
Definition finalize_project_stopped : J unit :=
  assign (WState "stopped");;;
  assign (WError None);;;
  p <-' project pid;;
  assign (WTimers (consumed (d_timers p)));;;
  commit pid;;;
  in_session env pid (do_ env "touch_metering" []);;;
  project pid;;;
  emit (Notify "stopped" "").

(** [deploy_service._finalize_project_paused] *)
Definition finalize_project_paused (vms : list val) : J unit :=
  assign (WState "active");;;
  assign (WError None);;;
  commit pid;;;
  in_session env pid (do_ env "touch_metering" []);;;
  emit (Notify "active" "");;;
  ids <-' lift (map_res (λ vm, i <- idx vm "node_id";; Ok (py_str i)) vms);;
  emit (Notify "vm-state paused" (join "," ids)).

Definition no_host_message (verb : string) : string :=
  "Host is disconnected or unavailable — cannot " +:+ verb +:+ " VMs".

(** [deploy_service.stop_project_async:13591-13625] once the action is known to be possible. *)
Definition stop_on_host (host : Host) (off_action : string) : J unit :=
  t <-' project_topology pid;;
  all_vms <-' lift (extract_vms (v_or t empty_dict));;
  vms <-' (if String.eqb off_action "pause" || String.eqb off_action "hibernate"
           then filter_running_vms all_vms else jret all_vms);;
  if negb (String.eqb (h_host_type host) "kubevirt-cluster") && bool_decide (text_opt (h_ip_address host) = None)
  then fail_project (no_host_message "stop")
  else
    succeeded <-' (if String.eqb (h_host_type host) "kubevirt-cluster"
                   then apply_off_action_kubevirt host vms off_action
                   else apply_off_action_troshkad host vms off_action);;
    if String.eqb off_action "pause" then
      paused <-' lift (filter_res (λ v, i <- idx v "node_id";; vin i succeeded) vms);;
      finalize_project_paused paused
    else finalize_project_stopped.

(** [deploy_service.stop_project_async:13562-13625] *)
Definition stop_body : J unit :=
  found <-' query_project pid;;
  if negb found then jret tt
  else
    p <-' project pid;;
    query pid;;;
    host <-' jget (λ w, i ← p_host_id (d_row p); find_host (jw_db w) i);;
    match host with
    | None => fail_project (no_host_message "stop")
    | Some host =>
        let off_action := if String.eqb (d_off_action p) "" then "stop" else d_off_action p in
        if String.eqb off_action "hibernate" && negb (supports_hibernate host)
        then fail_project "Hibernate is not supported on this host type"
        else stop_on_host host off_action
    end.

(** [deploy_service.stop_project_async] *)
Definition stop_project_async : J unit :=
  jmod close_session;;;
  jfinally (jcatch stop_body (handle_power_failure "Stop failed unexpectedly. Check server logs.")) close_session.

(** ** Starting *)

(** [deploy_service._start_kubevirt_vms] *)
Definition start_kubevirt_vms (host : Host) (vms : list val) : J unit :=
  provider <-' host_provider host;;
  match provider with
  | None => jret tt
  | Some _ =>
      do_ env "k8s_clients" [];;;
      states <-' cached_vm_states;;
      jeach vms (λ vm,
        name <-' lift (i <- idx vm "node_id";; kv_name i);;
        jcatch
          (i <-' lift (idx vm "node_id");;
           s <-' lift (vget i states);;
           if eq_str (default VNone s) "paused" then unpause_vm_on_host host i
           else do_ env "patch_kubevirt_run_strategy" [name; "Always"]) (λ _, jret tt))
  end.

(** [deploy_service._reassociate_eips_on_start:13714-13717] the addresses of one elastic address on the
    canvas. *)
Definition stamp_eip (canvas_eip_id : string) (private public : val) (topology : val) : res val :=
  ips <- get topology "externalIps" empty_list;;
  ips <- iter ips;;
  ips <- map_res (λ e,
    i <- get e "id" VNone;;
    if eq_str i canvas_eip_id then
      e <- set_item e "_private_ip" private;; set_item e "ip" public
    else Ok e) ips;;
  has <- has_key "externalIps" topology;;
  Ok (if has then update_list topology "externalIps" ips else topology).

(** [deploy_service._sync_sg_rules_for_start] *)
Definition sync_sg_rules_for_start (host : Host) : J unit :=
  provider <-' provider_of pid host;;
  match provider with
  | None => jret tt
  | Some _ =>
      gw <-' look (λ t,
        ns <- nodes_of t;;
        find_res (λ n,
          has_type n "networkNode" <&&> (s <- OcpFlags.field n "subtype";; Ok (eq_str s "gateway")) <&&>
          (m <- OcpFlags.field n "gatewayMode";; Ok (eq_str m "nat-portforward"))) ns);;
      match gw with
      | None => jret tt
      | Some _ =>
          ports <-' lift (collect_gateway_sg_rules gw);;
          in_session env pid (do_ env "sync_security_group_rules" (map str_of_Z ports))
      end
  end.

(** The elastic addresses of the project that have no host. *)
Definition allocated_eips (db : DB) : list ElasticIp :=
  List.filter (λ e, bool_decide (e_project_id e = Some pid) && String.eqb (e_state e) "allocated") (db_eips db).

(** [deploy_service._reassociate_eips_on_start]: the service answers with the addresses; the canvas is
    written back by a statement of its own, then loaded again. *)
Definition reassociate_eips_on_start (host : Host) : J unit :=
  query pid;;;
  eips <-' jget (λ w, allocated_eips (jw_db w));;
  jeach eips (λ e,
    jcatch
      (a <-' in_session env pid (texts_of env "associate_eip" [e_id e; h_id host]);;
       match a with
       | private :: public :: _ => canvas exn_text (stamp_eip (e_canvas_eip_id e) (VStr private) (VStr public))
       | _ => unexpected
       end) (λ _, jret tt));;;
  match eips with
  | [] => jret tt
  | _ =>
      t <-' topology;;
      assign (WTopology t);;;
      commit pid;;;
      found <-' query_project pid;;
      if negb found then jexc stale
      else load_topology pid;;; sync_sg_rules_for_start host
  end.

(** [deploy_service._resume_paused_vms] *)
Definition resume_paused_vms (host : Host) (vms : list val) : J (list (val * string)) :=
  jfold (λ failed vm,
    jcatch (i <-' lift (idx vm "node_id");; unpause_vm_on_host host i;;; jret failed)
      (λ e, i <-' lift (i <- idx vm "node_id";; as_text i);;
            jret (failed ++ [(VStr (vm_domain_name sha256_hex pid i), exn_str e)]))) [] vms.

(** [deploy_service._start_vms_respecting_pause] *)
Definition start_vms_respecting_pause (host : Host) : J (list (val * string)) :=
  t <-' topology;;
  vms <-' lift (extract_vms t);;
  states <-' cached_vm_states;;
  paused_vms <-' lift (vms_in_state states (λ s, eq_str s "paused") vms);;
  other_vms <-' lift (vms_in_state states (λ s, negb (eq_str s "paused")) vms);;
  failed <-' resume_paused_vms host paused_vms;;
  match other_vms with
  | [] => jret failed
  | _ =>
      other_ids <-' lift (for_each other_vms [] (λ v ids, i <- idx v "node_id";; vadd i ids));;
      remaining <-' lift
        (ns <- nodes_of t;;
         ns <- filter_res (λ n,
           vm <- has_type n "vmNode";;
           if negb vm then Ok true else i <- get n "id" VNone;; vin i other_ids) ns;;
         set_item t "nodes" (VList ns));;
      more <-' start_vms_via_troshkad env exn_text pid sha256_hex host remaining;;
      jret (failed ++ more)
  end.

(** The timers of a project that is active again. *)
Definition restarted (now : Z) (t : timers) : timers :=
  match t_stop_minutes t with
  | Some m =>
      if m =? 0 then t
      else mkTimers (t_stop_minutes t) (Some now) (Some (now + m * 60000000)) false (t_delete_minutes t)
             (t_delete_started t) (t_delete_warned t) (t_lifetime t)
  | None => t
  end.

(** [deploy_service._finalize_project_active] *)
Definition finalize_project_active : J unit :=
  assign (WState "active");;;
  assign (WError None);;;
  assign (WAutoStopped false);;;
  p <-' project pid;;
  now <-' now env;;
  assign (WTimers (restarted now (d_timers p)));;;
  monitor <-' look has_ocp_monitor;;
  (if monitor then assign (WOcp (Some "monitoring") (Some now)) else jret tt);;;
  commit pid;;;
  in_session env pid (do_ env "touch_metering" []);;;
  project pid;;;
  emit (Notify "active" "").

(** [deploy_service._start_troshkad_host_project] *)
Definition start_troshkad_host_project (host : Host) : J bool :=
  load_topology pid;;;
  p <-' project pid;;
  let vni_map := default [] (p_vni_map (d_row p)) in
  reassociate_eips_on_start host;;;
  net_result <-' (if bool_decide (vni_map = []) then jret None
                  else with_network_lock env (h_id host) (in_session env pid (error_of env "setup_networks" [h_id host])));;
  match net_result with
  | Some msg =>
      assign (WState "error");;;
      assign (WError (Some ("Network setup failed on restart: " +:+ msg)));;;
      commit pid;;; jret false
  | None =>
      prepare_topology_library_refs env pid;;;
      failed <-' cache_library_images env pid host (λ _, jret tt);;
      match failed with
      | _ :: _ =>
          fail_project ("image caching failed: " +:+ join ", " failed +:+ " — disk/pattern source not reachable");;;
          jret false
      | [] =>
          do_ env "setup_pxe" [h_id host];;;
          start_failures <-' start_vms_respecting_pause host;;
          match start_failures with
          | _ :: _ =>
              names <-' lift (map_res (λ f, match f.1 with VStr s => Ok s | _ => Raise TypeError end) start_failures);;
              fail_project ("Failed to start VMs: " +:+ join ", " names);;; jret false
          | [] =>
              bmc_config <-' look (λ t, extract_bmc_config sha256_hex t pid);;
              match bmc_config with
              | Some _ => jcatch (error_of env "setup_bmc" [h_id host];;; jret tt) (λ _, jret tt)
              | None => jret tt
              end;;;
              finalize_project_active;;; jret true
          end
      end
  end.

(** [deploy_service.start_project_async:13927-13959] *)
Definition start_body : J unit :=
  found <-' query_project pid;;
  if negb found then jret tt
  else
    p <-' project pid;;
    query pid;;;
    host <-' jget (λ w, i ← p_host_id (d_row p); find_host (jw_db w) i);;
    match host with
    | None => fail_project (no_host_message "start")
    | Some host =>
        if String.eqb (h_host_type host) "kubevirt-cluster" then
          load_topology pid;;;
          vms <-' look extract_vms;;
          start_kubevirt_vms host vms;;;
          finalize_project_active
        else
          match text_opt (h_ip_address host) with
          | None => fail_project (no_host_message "start")
          | Some _ => start_troshkad_host_project host;;; jret tt
          end
    end.

(** [deploy_service.start_project_async] *)
Definition start_project_async : J unit :=
  jmod close_session;;;
  jfinally (jcatch start_body (handle_power_failure "Start failed unexpectedly. Check server logs.")) close_session.
End Power.
