(* ===== verification/PowerSafe.v ===== *)
(** * Stopping and starting end, and leave the project in a state of rest

    With the triples of [JobTriples], at ["stopping"] and ["starting"]. *)
From stdpp Require Import prelude strings gmap.
From S2P Require Import Prelude PyStr PyVal PyLemmas Db TopoNodes Vxlan Placement PatternLocations TopologyExtract.
From S2P Require Import JobMonad VmStart DeployCanvas DeployHost DeployTargets DeployFlow JobTriples PowerFlow.

Open Scope list_scope.

(** Neither job asks for a lock its own session holds. *)
#[local] Instance never_blocks : Blocking := λ _, False.

Section Power.
Context (env : environment) (exn_text : exn → string) (sha256_hex : string → string) (limbo pid : string).
Context (c0 : counters) (n0 : Z) `{HL : !Limbo limbo} `{HP : !Peers limbo pid env}.
Notation calm := (calm limbo pid c0 n0).
Notation settles := (settles limbo pid c0 n0).
Notation keeps := (keeps limbo pid c0 n0).
Notation bad := (bad limbo c0 n0).
Notation fin := (fin limbo pid c0 n0).

Lemma calm_subresource i a : calm (kubevirt_vmi_subresource env exn_text i a).
Proof. unfold kubevirt_vmi_subresource. calm. Qed.
Lemma calm_vm_job h p t i : calm (vm_job env exn_text sha256_hex pid h p t i).
Proof. unfold vm_job. calm. Qed.
#[local] Hint Resolve calm_subresource calm_vm_job : job.
Lemma calm_pause_vm h i : calm (pause_vm_on_host env exn_text sha256_hex pid h i).
Proof. unfold pause_vm_on_host. calm. Qed.
Lemma calm_unpause_vm h i : calm (unpause_vm_on_host env exn_text sha256_hex pid h i).
Proof. unfold unpause_vm_on_host. calm. Qed.
Lemma calm_hibernate_vm h i : calm (hibernate_vm_on_host env exn_text sha256_hex pid h i).
Proof. unfold hibernate_vm_on_host. calm. Qed.
Lemma calm_cached : calm (cached_vm_states env pid).
Proof. unfold cached_vm_states. calm. Qed.
#[local] Hint Resolve calm_pause_vm calm_unpause_vm calm_hibernate_vm calm_cached : job.
Lemma calm_filter_running l : calm (filter_running_vms env exn_text pid l).
Proof. unfold filter_running_vms. calm. Qed.
Lemma calm_each_vm step l : (∀ i, calm (step i)) → calm (each_vm exn_text step l).
Proof. intros Hs. unfold each_vm. calm. Qed.
Lemma calm_stop_troshkad h l : calm (stop_troshkad_vms env exn_text sha256_hex pid h l).
Proof. unfold stop_troshkad_vms. calm. Qed.
Lemma calm_host_provider h : calm (host_provider pid h).
Proof. unfold host_provider. calm. Qed.
#[local] Hint Resolve calm_filter_running calm_each_vm calm_stop_troshkad calm_host_provider : job.
Lemma calm_stop_kubevirt h l : calm (stop_kubevirt_vms env exn_text pid h l).
Proof. unfold stop_kubevirt_vms. calm. Qed.
Lemma calm_start_kubevirt h l : calm (start_kubevirt_vms env exn_text sha256_hex pid h l).
Proof. unfold start_kubevirt_vms. calm. Qed.
#[local] Hint Resolve calm_stop_kubevirt calm_start_kubevirt : job.
Lemma calm_off_troshkad h l a : calm (apply_off_action_troshkad env exn_text sha256_hex pid h l a).
Proof. unfold apply_off_action_troshkad. calm. Qed.
Lemma calm_off_kubevirt h l a : calm (apply_off_action_kubevirt env exn_text sha256_hex pid h l a).
Proof. unfold apply_off_action_kubevirt. calm. Qed.
#[local] Hint Resolve calm_off_troshkad calm_off_kubevirt : job.
Lemma calm_sync_sg_start h : calm (sync_sg_rules_for_start env exn_text pid h).
Proof. unfold sync_sg_rules_for_start. calm. Qed.
Lemma calm_resume h l : calm (resume_paused_vms env exn_text sha256_hex pid h l).
Proof. unfold resume_paused_vms. calm. Qed.
#[local] Hint Resolve calm_sync_sg_start calm_resume : job.
Lemma calm_start_respecting h : calm (start_vms_respecting_pause env exn_text sha256_hex pid h).
Proof. unfold start_vms_respecting_pause. calm. Qed.
#[local] Hint Resolve calm_start_respecting : job.

Lemma settles_fail_project {A} (s : A → bool) msg (k : unit → J A) :
  keeps (k tt) → settles s (jbind (fail_project pid msg) k).
Proof.
  intros Hk. eapply settles_bind with (s1 := λ _, true); [|by intros []].
  apply settles_finishes; [apply limbo_error|]. apply finishes_bind; [by apply waits_assign|]. intros _.
  apply finishes_commit_bind, calm_keeps. calm.
Qed.

Lemma settles_power_fail (s : unit → bool) msg : settles s (fail_project pid msg).
Proof.
  apply settles_finishes; [apply limbo_error|]. apply finishes_bind; [by apply waits_assign|]. intros _.
  apply finishes_commit_bind, calm_keeps. calm.
Qed.

(** The error of the project reaches its row, unless the row is gone. *)
Lemma fail_reported msg : triple bad (fail_project pid msg) (λ _, fin) fin.
Proof.
  eapply (triple_bind _ _ (λ _, pending limbo pid c0 n0)).
  { intros w Hw. exact (bad_assign_state limbo pid c0 n0 "error" limbo_error w Hw). }
  intros _. eapply (triple_bind _ _ (λ _, pending limbo pid c0 n0)).
  { apply firm_total; [by apply waits_assign|]. intros w. by eexists _, _. }
  intros _. eapply (triple_bind _ _ (λ _, good limbo pid c0 n0 true)); [apply commit_firm|].
  intros _ w Hw. exact (good_fin _ _ _ _ w Hw).
Qed.

Lemma power_handled msg e : triple bad (handle_power_failure pid msg e) (λ _, fin) (λ _, False).
Proof.
  apply dropped; [|by intros _ w Hw; exists tt].
  eapply triple_bind; [apply query_bad|]. intros []; [apply fail_reported|by intros w' Hw'].
Qed.

(** ** Stop *)

Hypothesis stopped_leaves : "stopped" ≠ limbo.
Hypothesis active_leaves : "active" ≠ limbo.

Lemma settles_stopped : settles (λ _, true) (finalize_project_stopped env pid).
Proof.
  apply settles_finishes; [done|]. apply finishes_bind; [by apply waits_assign|]. intros _.
  apply finishes_bind; [apply waits_project|]. intros p.
  apply finishes_bind; [by apply waits_assign|]. intros _. apply finishes_commit_bind, calm_keeps. calm.
Qed.

Lemma settles_paused vms : settles (λ _, true) (finalize_project_paused env exn_text pid vms).
Proof.
  apply settles_finishes; [done|]. apply finishes_bind; [by apply waits_assign|]. intros _.
  apply finishes_commit_bind, calm_keeps. calm.
Qed.

Lemma settles_stop_on_host host a : settles (λ _, true) (stop_on_host env exn_text sha256_hex pid host a).
Proof.
  unfold stop_on_host. do 3 (apply calm_bind_settles; [calm|]; intros ?). case_match; [apply settles_power_fail|].
  apply calm_bind_settles; [calm|]. intros succeeded. case_match; [|apply settles_stopped].
  apply calm_bind_settles; [calm|]. intros paused. apply settles_paused.
Qed.

(** A project that is gone has nothing to settle. *)
Lemma settles_found {A} (k : J A) (dflt : J A) :
  settles (λ _, true) k → keeps dflt →
  settles (λ _, true) (found <-' query_project pid;; if negb found then dflt else k).
Proof.
  intros Hk Hd. eapply settles_bind with (s1 := λ found : bool, negb found); [|by intros []].
  intros b w Hw. pose proof (calm_query_project limbo pid c0 n0 b w Hw) as Hq.
  unfold query_project, jbind, flush in *. destruct Hw as (Hb & Hl & Hd' & Hs). rewrite Hd' in *.
  destruct (current pid w) eqn:E; cbn [negb]; [by rewrite orb_false_r|].
  split_and!; try done. intros _. by apply (gone_fin limbo pid c0 n0 w).
Qed.

Lemma settles_stop_body : settles (λ _, true) (stop_body env exn_text sha256_hex pid).
Proof.
  apply settles_found; [|apply keeps_ret]. do 3 (apply calm_bind_settles; [calm|]; intros ?).
  case_match; [|apply settles_power_fail]. cbv zeta.
  destruct (_ && negb _); [apply settles_power_fail|apply settles_stop_on_host].
Qed.

(** ** Start *)

Lemma settles_active : settles (λ _, true) (finalize_project_active env exn_text pid).
Proof.
  apply settles_finishes; [done|]. do 6 (apply finishes_bind; [solve [waits]|intros ?]).
  apply finishes_bind; [case_match; waits|intros _]. apply finishes_commit_bind, calm_keeps. calm.
Qed.

Lemma keeps_reassociate host : keeps (reassociate_eips_on_start env exn_text pid host).
Proof. unfold reassociate_eips_on_start. settles. Qed.

Lemma settles_start_troshkad host :
  settles (λ _, true) (start_troshkad_host_project env exn_text sha256_hex pid host).
Proof.
  unfold start_troshkad_host_project. do 2 (apply calm_bind_settles; [calm|]; intros ?).
  apply keeps_bind; [apply keeps_reassociate|]. intros _.
  apply calm_bind_settles; [case_match; [calm|apply calm_network_lock; calm]|]. intros [msg|].
  { apply settles_finishes; [apply limbo_error|]. apply finishes_bind; [by apply waits_assign|]. intros _.
    apply finishes_commit_bind, keeps_ret. }
  apply keeps_bind; [solve [eauto with keep nocore]|]. intros _.
  apply calm_bind_settles; [apply calm_cache; calm|]. intros [|].
  2: { apply settles_fail_project, keeps_ret. }
  do 2 (apply calm_bind_settles; [calm|]; intros ?). case_match.
  2: { apply calm_bind_settles; [calm|]. intros names. apply settles_fail_project, keeps_ret. }
  do 2 (apply calm_bind_settles; [calm|]; intros ?).
  eapply settles_bind; [apply settles_active|]. intros []. apply keeps_ret.
Qed.

Lemma settles_start_body : settles (λ _, true) (start_body env exn_text sha256_hex pid).
Proof.
  apply settles_found; [|apply keeps_ret]. do 3 (apply calm_bind_settles; [calm|]; intros ?).
  case_match; [|apply settles_power_fail]. case_match.
  - do 3 (apply calm_bind_settles; [calm|]; intros ?). apply settles_active.
  - case_match; [|apply settles_power_fail].
    eapply settles_bind; [apply settles_start_troshkad|]. intros []; apply keeps_ret.
Qed.
End Power.

(** ** The jobs *)

Lemma power_job_settles limbo pid (body : J unit) msg w :
  Limbo limbo → (∀ c0 n0, settles limbo pid c0 n0 (λ _, true) body) →
  ∃ w', (jmod close_session;;; jfinally (jcatch body (handle_power_failure pid msg)) close_session) w = (w', Ret tt) ∧
        settled_rows limbo pid (jw_rows w') ∧ jw_counters w' = jw_counters w ∧ jw_permits w' = jw_permits w.
Proof.
  intros HL Hbody. set (w1 := close_session w).
  pose proof (part_handled limbo (jw_counters w) (jw_permits w) (good limbo pid (jw_counters w) (jw_permits w) false)
    body (λ _, fin limbo pid (jw_counters w) (jw_permits w)) (handle_power_failure pid msg)) as H.
  ospecialize (H _ _).
  - intros w2 Hw2. specialize (Hbody (jw_counters w) (jw_permits w) false w2 Hw2).
    destruct (body w2) as [w3 [a|e|]]; [by apply good_fin|done..].
  - intros e. by apply power_handled.
  - specialize (H w1). unfold jbind, jmod, jfinally. fold w1. destruct (jcatch body _ w1) as [w2 [[]|e|]];
      (ospecialize (H _); [by split_and!|]); [|done..].
    eexists. split; [reflexivity|]. destruct H as [[Hc Hn] Hs]. by split_and!.
Qed.

(** However the agents, the cluster and the clouds answer and whatever they raise: a stop ends
    without an exception, with the project gone or no longer ["stopping"], and a start with the
    project gone or no longer ["starting"]; neither touches the counters or the semaphore. *)
Theorem power_jobs_settle env exn_text sha256_hex pid w :
  Peers "stopping" pid env → Peers "starting" pid env →
  (∃ w', stop_project_async env exn_text sha256_hex pid w = (w', Ret tt) ∧
     settled_rows "stopping" pid (jw_rows w') ∧ jw_counters w' = jw_counters w ∧ jw_permits w' = jw_permits w) ∧
  (∃ w', start_project_async env exn_text sha256_hex pid w = (w', Ret tt) ∧
     settled_rows "starting" pid (jw_rows w') ∧ jw_counters w' = jw_counters w ∧ jw_permits w' = jw_permits w).
Proof.
  intros H1 H2. split.
  - apply (power_job_settles "stopping"); [apply _|]. intros c0 n0. by apply settles_stop_body.
  - apply (power_job_settles "starting"); [apply _|]. intros c0 n0. by apply settles_start_body.
Qed.

(** ** Worked examples *)

(** Agents that do what they are asked; [running] are the VMs the poller last saw running. *)
Definition power_agents (running : list string) : environment :=
  mkEnv (λ _ e t,
    (match e with
     | Call "get_cached_vm_states" _ => Texts (concat (map (λ i, [i; "running"]) running))
     | Call "start_job" _ => Text "job"
     | Call "wait_for_job" _ => Texts ["completed"; ""]
     | Call "ensure_storage_library_refs" _ => Flag false
     | Call "poll_download_jobs" _ | Call "cache_library_images" _ => Texts []
     | _ => Done
     end, t))
    (λ _ rows, rows) (λ _, 1000) (λ _, false).

Definition power_canvas : val :=
  VDict [("nodes", VList [start_node "aaaaaaaa" "bastion" []; start_node "bbbbbbbb" "spare" []]); ("edges", VList [])].

Definition power_project (state off_action : string) : dproject :=
  mkDProject (mkProject "12345678" None (Some "h1") state power_canvas None None) None None None None None []
    (mkTimers (Some 60) (Some 0) (Some 500) true None None false None) false off_action None None None
    (None, None, None) None true "owner" None.

Definition power_world (state off_action host_type : string) : jobw :=
  mkJobw [power_project state off_action]
    (mkDB [mkHost "h1" None "active" host_type 16 65536 0 0 (Some "10.0.0.5") None "connected" 1 (Some 1500) None true]
       [] [] [] [] [])
    (mkCounters true ∅ ∅) (mkHwm None true) 100 None VNone new_session [].

Definition outcome_of (r : jobw * outcome unit) : list (string * option string) * list (string * string) :=
  (map (λ p, (d_state p, d_error p)) (jw_rows r.1),
   omap (λ e, match e with Notify k d => Some (k, d) | _ => None end) (jw_log r.1)).

Notation stop_sample running w := (stop_project_async (power_agents running) (λ _, "") (λ s, s) "12345678" w).

(** Only the VM that runs is paused, and the project is active again. *)
Example pause_running :
  outcome_of (stop_sample ["aaaaaaaa"] (power_world "stopping" "pause" "shared")) =
    ([("active", None)], [("active", ""); ("vm-state paused", "aaaaaaaa")]).
Proof. vm_compute. reflexivity. Qed.

(** A cluster has no hibernation. *)
Example hibernate_unsupported :
  outcome_of (stop_sample ["aaaaaaaa"] (power_world "stopping" "hibernate" "kubevirt-cluster")) =
    ([("error", Some "Hibernate is not supported on this host type")],
     [("error", "Hibernate is not supported on this host type")]).
Proof. vm_compute. reflexivity. Qed.

Lemma power_peers limbo running : Peers limbo "12345678" (power_agents running).
Proof. by intros log rows. Qed.

Lemma power_jobs_settle_witness :
  let w := power_world "stopping" "" "shared" in
  outcome_of (stop_sample [] w) = ([("stopped", None)], [("stopped", "")]) ∧
  ((∃ w', stop_sample [] w = (w', Ret tt) ∧ settled_rows "stopping" "12345678" (jw_rows w') ∧
     jw_counters w' = jw_counters w ∧ jw_permits w' = jw_permits w) ∧
   (∃ w', start_project_async (power_agents []) (λ _, "") (λ s, s) "12345678" w = (w', Ret tt) ∧
     settled_rows "starting" "12345678" (jw_rows w') ∧ jw_counters w' = jw_counters w ∧ jw_permits w' = jw_permits w)).
Proof.
  intros w. split; [vm_compute; reflexivity|].
  apply (power_jobs_settle (power_agents []) (λ _, "") (λ s, s) "12345678" w); apply power_peers.
Defined.

(** A project that was stopped comes back, with its stop timer running again. *)
Example start_restarts_timer :
  map (λ p, (d_state p, t_stop_expires (d_timers p)))
    (jw_rows (start_project_async (power_agents []) (λ _, "") (λ s, s) "12345678"
       (power_world "starting" "" "shared")).1) = [("active", Some 3600001000)].
Proof. vm_compute. reflexivity. Qed.
