(* ===== verification/DestroyFlow.v ===== *)
(** * Destroying a project

    [destroy_project_sync] of [services/deploy_service.py]: the ops-pod key, the hosts or the
    cluster, the addresses and the DNS records go, then the project's row, unless the cluster could
    not be seen to have let go of the namespace. *)
From stdpp Require Import prelude strings gmap.
From S2P Require Import Prelude PyStr PyVal PyLemmas Db TopoNodes Vxlan HostNetwork Placement PatternLocations.
From S2P Require Import TopologyExtract Disks JobMonad VmStart DeployCanvas DeployHost DeployTargets.

Open Scope list_scope.

(** The context captured when the destruction was asked for. *)
Record destroy_ctx := mkCtx {
  x_host_id : option string;
  x_vni_map : vnis;
  x_topology : val;
  x_dns_provider_id : option string
}.

Section Destroy.
Context (env : environment) (exn_text : exn → string) (sha256_hex : string → string).
Context (install_via_default : string) (set_order : list string → list string) (pid : string).

Notation lift := (jlift exn_text).

(** ** The row, from a session of its own *)

(** [deploy_service._delete_project_record] *)
Definition delete_project_record : J unit := λ w,
  if s_locked (jw_sess w) then (w, Blocked)
  else
    match current pid w with
    | None => (w, Ret tt)
    | Some _ =>
        (add_event (add_event (set_rows w (List.filter (λ p, negb (is_pid pid p)) (jw_rows w))) RecordDeleted)
           (Notify "project-deleted" ""), Ret tt)
    end.

(** [deploy_service._set_destroy_error] *)
Definition set_destroy_error (error : string) : J unit := λ w,
  if s_locked (jw_sess w) then (w, Blocked)
  else
    match current pid w with
    | None => (w, Ret tt)
    | Some _ =>
        let msg := "Delete failed: " +:+ error in
        (add_event (update_row pid (apply_writes [WState "error"; WError (Some msg)]) w) (Notify "error" msg), Ret tt)
    end.

(** ** The namespace of a cluster

    A read answers that the namespace is there, with the status of an error of the cluster's API,
    or raises anything else. *)

(** [deploy_service._namespace_gone_cleanup] *)
Definition namespace_gone_cleanup : J bool :=
  jcatch (do_ env "cleanup_project_persistent_volumes" [pid]) (λ _, jret tt);;; jret true.

Inductive ns_read := NsPresent | NsGone | NsOther | NsUnknown.

Definition read_namespace : J ns_read :=
  jcatch
    (o <-' num_of env "read_namespace_status" [pid];;
     jret (match o with None => NsPresent | Some s => if s =? 404 then NsGone else NsOther end))
    (λ _, jret NsUnknown).

(** [deploy_service._poll_namespace_until_gone] *)
Fixpoint poll_namespace_until_gone (rounds : nat) : J (option bool) :=
  match rounds with
  | O => jret None
  | S rounds' =>
      r <-' read_namespace;;
      match r with
      | NsGone => b <-' namespace_gone_cleanup;; jret (Some b)
      | NsUnknown => jret (Some false)
      | _ => emit (Call "sleep" ["5"]);;; poll_namespace_until_gone rounds'
      end
  end.

(** [deploy_service._try_clear_rook_finalizers] *)
Definition try_clear_rook_finalizers : J bool :=
  jcatch (do_ env "force_clear_rook_finalizers" [pid];;; jret true) (λ _, jret false).

(** [deploy_service._namespace_deletion_timeout] *)
Definition namespace_deletion_timeout : J bool :=
  jcatch (do_ env "cleanup_project_persistent_volumes" [pid]) (λ _, jret tt);;; jret false.

(** [deploy_service._try_retry_network_cleanup] *)
Definition try_retry_network_cleanup : J unit :=
  jcatch (do_ env "retry_network_cleanup" [pid]) (λ _, jret tt).

(** [deploy_service._wait_for_namespace_deletion:14116-14134] the turns that remain, from turn [i]: what
    is known of the namespace, or whether the finalizers were cleared. *)
Fixpoint namespace_turns (turns : nat) (i : Z) (cleared : bool) : J (bool + bool) :=
  match turns with
  | O => jret (inr cleared)
  | S turns' =>
      r <-' read_namespace;;
      match r with
      | NsGone => b <-' namespace_gone_cleanup;; jret (inl b)
      | NsUnknown => jret (inl false)
      | NsOther => emit (Call "sleep" ["5"]);;; namespace_turns turns' (i + 1) cleared
      | NsPresent =>
          (if (i =? 12) || (i =? 36) then try_retry_network_cleanup else jret tt);;;
          cleared <-' (if negb cleared && (i =? 12) then try_clear_rook_finalizers else jret cleared);;
          emit (Call "sleep" ["5"]);;;
          namespace_turns turns' (i + 1) cleared
      end
  end.

(** [deploy_service._wait_for_namespace_deletion] *)
Definition wait_for_namespace_deletion : J bool :=
  do_ env "k8s_clients" [];;;
  r <-' namespace_turns 60 0 false;;
  match r with
  | inl b => jret b
  | inr true => namespace_deletion_timeout
  | inr false =>
      try_clear_rook_finalizers;;;
      result <-' poll_namespace_until_gone 24;;
      match result with Some b => jret b | None => namespace_deletion_timeout end
  end.

(** The elastic addresses of the project. *)
Definition project_eips (db : DB) : list ElasticIp :=
  List.filter (λ e, bool_decide (e_project_id e = Some pid)) (db_eips db).

(** [deploy_service._destroy_cleanup_eips] *)
Definition destroy_cleanup_eips : J unit :=
  query pid;;;
  eips <-' jget (λ w, project_eips (jw_db w));;
  jeach eips (λ e, jcatch (in_session env pid (do_ env "release_eip" [e_id e])) (λ _, jret tt)).

Definition stuck_message : string :=
  "Namespace stuck terminating; cluster storage may remain. Retry destroy or let GC reconcile.".

(** [deploy_service._destroy_kubevirt_native] *)
Definition destroy_kubevirt_native (host : Host) (delete_record : bool) : J unit :=
  query pid;;;
  provider <-' jget (λ w, i ← h_provider_id host; find_provider (jw_db w) i);;
  match provider with
  | None => if delete_record then delete_project_record else jret tt
  | Some _ =>
      destroy_cleanup_eips;;;
      failed <-' jcatch (do_ env "destroy_project" [pid];;; jret None) (λ e, jret (Some (exn_str e)));;
      match failed with
      | Some msg => set_destroy_error msg
      | None =>
          terminated <-' wait_for_namespace_deletion;;
          if negb delete_record then jret tt
          else if terminated then delete_project_record else set_destroy_error stuck_message
      end
  end.

(** ** One host *)

(** A job of the host's agent, awaited; an error of the agent is dropped. *)
Definition agent_job (host : Host) (path payload : string) (timeout : Z) : J unit :=
  catch_troshkad
    (job_id <-' agent_start env host path payload;; agent_wait env host job_id timeout;;; jret tt) (λ _, jret tt).

(** [deploy_service._get_host_pool] *)
Definition get_host_pool (host : Host) : J (option StoragePool) :=
  query pid;;;
  jget (λ w, i ← text_opt (h_storage_pool_id host); List.find (λ sp, String.eqb (sp_id sp) i) (db_pools (jw_db w))).

(** [deploy_service._destroy_container] *)
Definition destroy_container (host : Host) (topo : val) (pool : option StoragePool) (ctr : val) : J unit :=
  lift (i <- idx ctr "node_id";; find_container_volumes i topo pid (sp_mode <$> pool));;;
  is_pod <-' lift (get ctr "is_pod" VNone);;
  if truthy is_pod then
    name <-' lift (idx ctr "name");;
    agent_job host "/pods/destroy" ("troshka-" +:+ str_take 8 pid +:+ "-" +:+ py_str name) 30
  else
    i <-' lift (i <- idx ctr "node_id";; slice8 i);;
    agent_job host "/containers/destroy" ("troshka-" +:+ str_take 8 pid +:+ "-" +:+ py_str i) 30.

(** [deploy_service._destroy_topology_vms]: the names of the domains. *)
Definition destroy_topology_vms (host : Host) (topo : val) : J (list string) :=
  vms <-' lift (extract_vms topo);;
  jfold (λ destroyed vm,
    i <-' lift (i <- idx vm "node_id";; as_text i);;
    let name := vm_domain_name sha256_hex pid i in
    agent_job host "/vms/destroy" name 60;;; jret (destroyed ++ [name])) [] vms.

(** [deploy_service._reap_orphan_project_domains] *)
Definition reap_orphan_project_domains (host : Host) (destroyed : list string) : J unit :=
  let prefix := "troshka-" +:+ str_take 8 pid +:+ "-" in
  jcatch
    (domains <-' texts_of env "get_all_vm_states" [h_id host];;
     jeach domains (λ domain,
       if negb (startswith prefix domain) || bool_decide (domain ∈ destroyed) then jret tt
       else agent_job host "/vms/destroy" domain 60)) (λ _, jret tt).

(** [deploy_service._destroy_troshkad_resources] *)
Definition destroy_troshkad_resources (host : Host) (topo : val) (vni_map : vnis) : J unit :=
  pool <-' get_host_pool host;;
  containers <-' lift (extract_containers topo);;
  jeach containers (destroy_container host topo pool);;;
  destroyed <-' destroy_topology_vms host topo;;
  reap_orphan_project_domains host destroyed;;;
  pool <-' get_host_pool host;;
  let dir := vm_dir pid (sp_mode <$> pool) in
  agent_job host "/pools/cleanup" dir 20;;;
  let paths := dir :: match pool with
                      | Some sp => if startswith "shared" (sp_mode sp) then ["/var/lib/troshka/seeds/" +:+ pid] else []
                      | None => []
                      end in
  agent_job host "/files/remove" (join " " paths) 30;;;
  agent_job host "/files/remove"
    (join " " ["/opt/troshka/metadata-" +:+ str_take 8 pid +:+ ".py";
               "/var/log/troshka-metadata-" +:+ str_take 8 pid +:+ ".log"]) 15;;;
  jcatch (do_ env "teardown_bmc" [h_id host]) (λ _, jret tt);;;
  with_network_lock env (h_id host) (do_ env "teardown_networks" (h_id host :: map (λ v, str_of_Z v.2) vni_map));;;
  query pid;;;
  db <-' jget full_db;;
  synced <-' lift (sync_host_capacity db host);;
  jmod (λ w, set_db w (save_host (jw_db w) synced));;;
  commit pid.

(** [deploy_service._destroy_cleanup_sg_rules]: the rules of the security group, by description, none
    when the provider has no group. *)
Definition destroy_cleanup_sg_rules (host : Host) : J unit :=
  jcatch
    (query pid;;;
     provider <-' jget (λ w, i ← text_opt (h_provider_id host); find_provider (jw_db w) i);;
     match provider with
     | None => jret tt
     | Some pr =>
         rules <-' texts_of env "describe_security_group" [pr_id pr];;
         jeach rules (λ desc,
           if startswith ("troshka-pf:" +:+ pid +:+ ":") desc
           then jcatch (do_ env "revoke_security_group_ingress" [desc]) (λ _, jret tt)
           else jret tt)
     end) (λ _, jret tt).

(** [deploy_service._destroy_cleanup_route_access] *)
Definition destroy_cleanup_route_access (host : Host) : J unit :=
  jcatch
    (query pid;;;
     provider <-' jget (λ w, i ← text_opt (h_provider_id host); find_provider (jw_db w) i);;
     match provider with
     | None => jret tt
     | Some pr =>
         if String.eqb (pr_type pr) "ocpvirt" || String.eqb (pr_type pr) "kubevirt"
         then do_ env "delete_route_access" [pid] else jret tt
     end) (λ _, jret tt).

(** [deploy_service._destroy_single_host_resources]: whether the rest of the destruction follows. *)
Definition destroy_single_host_resources (ctx : destroy_ctx) (delete_record : bool) : J bool :=
  query pid;;;
  host <-' jget (λ w, i ← x_host_id ctx; find_host (jw_db w) i);;
  match host with
  | None => (if delete_record then delete_project_record else jret tt);;; jret false
  | Some host =>
      match text_opt (h_ip_address host) with
      | None => (if delete_record then delete_project_record else jret tt);;; jret false
      | Some _ =>
          if String.eqb (h_host_type host) "kubevirt-cluster"
          then destroy_kubevirt_native host delete_record;;; jret false
          else
            let topo := x_topology ctx in
            destroy_troshkad_resources host topo (x_vni_map ctx);;;
            ops <-' lift (should_use_ops_pod install_via_default topo);;
            (if ops then do_ env "cancel_ops_pod_install" [h_id host] else jret tt);;;
            destroy_cleanup_sg_rules host;;;
            destroy_cleanup_route_access host;;;
            showroom <-' lift (topology_has_showroom topo);;
            if negb showroom then jret true
            else
              query pid;;;
              eips <-' jget (λ w, project_eips (jw_db w));;
              match eips with
              | e :: _ => do_ env "teardown_showroom_tls" [h_id host; e_public_ip e];;; jret true
              | [] => jret true
              end
      end
  end.

(** ** Several hosts *)

(** [deploy_service._get_connected_host] *)
Definition get_connected_host (host_id : string) : J (option Host) :=
  query pid;;;
  jget (λ w, h ← find_host (jw_db w) host_id; if String.eqb (h_agent_status h) "connected" then Some h else None).

(** On every connected host, whatever it raises. *)
Definition on_connected_hosts (host_ids : list string) (step : Host → J unit) : J unit :=
  jeach host_ids (λ hid,
    host <-' get_connected_host hid;;
    match host with None => jret tt | Some h => jcatch (step h) (λ _, jret tt) end).

(** [deploy_service._destroy_stop_all_vms] *)
Definition destroy_stop_all_vms (host_ids : list string) : J unit :=
  on_connected_hosts host_ids (λ h,
    job_id <-' agent_start env h "/vms/stop-all" pid;; agent_wait env h job_id 120;;; jret tt).

(** [deploy_service._destroy_remote_networks] *)
Definition destroy_remote_networks (host_ids : list string) (network_host_id : option string) : J unit :=
  on_connected_hosts (List.filter (λ h, negb (bool_decide (Some h = network_host_id))) host_ids) (λ h,
    job_id <-' agent_start env h "/networks/full-teardown" pid;; agent_wait env h job_id 120;;; jret tt).

(** [deploy_service._destroy_mesh_on_all_hosts] *)
Definition destroy_mesh_on_all_hosts (host_ids : list string) : J unit :=
  on_connected_hosts host_ids (λ h, do_ env "mesh_teardown" [h_id h; pid]).

(** [deploy_service._destroy_multihost]; the hosts are a set. *)
Definition destroy_multihost : J unit :=
  p <-' project pid;;
  let network_host_id := d_mesh_host p in
  let vni_map := default [] (p_vni_map (d_row p)) in
  let host_ids := set_order (dedup_first ((d_assignments p).*2 ++ option_list (text_opt (p_host_id (d_row p))))) in
  destroy_stop_all_vms host_ids;;;
  destroy_remote_networks host_ids network_host_id;;;
  match text_opt network_host_id with
  | None => jret tt
  | Some hid =>
      host <-' get_connected_host hid;;
      match host with
      | None => jret tt
      | Some h =>
          with_network_lock env (h_id h) (do_ env "teardown_networks" (h_id h :: map (λ v, str_of_Z v.2) vni_map))
      end
  end;;;
  destroy_mesh_on_all_hosts host_ids;;;
  in_session env pid (do_ env "delete_mesh_peers" [pid]).

(** ** The job *)

(** [deploy_service._destroy_cleanup_dns] *)
Definition destroy_cleanup_dns (ctx : destroy_ctx) : J unit :=
  match text_opt (x_dns_provider_id ctx) with
  | None => jret tt
  | Some i =>
      query pid;;;
      found <-' flag_of env "dns_provider" [i];;
      records <-' lift (get (x_topology ctx) "_dns_records" empty_list);;
      if found && truthy records then do_ env "delete_dns_records" [i] else jret tt
  end.

(** [deploy_service._destroy_revoke_ops_pod_key] *)
Definition destroy_revoke_ops_pod_key : J unit :=
  jcatch (in_session env pid (do_ env "revoke_ops_pod_key" [pid])) (λ _, jret tt).

(** [deploy_service._destroy_project_inner:14577-14599] *)
Definition destroy_body (ctx : destroy_ctx) (delete_record : bool) : J unit :=
  found <-' query_project pid;;
  if negb found then if delete_record then delete_project_record else jret tt
  else
    destroy_revoke_ops_pod_key;;;
    p <-' project pid;;
    follow <-' (if negb (default 0 (d_mesh_subnet p) =? 0) then destroy_multihost;;; jret true
                else destroy_single_host_resources ctx delete_record);;
    if negb follow then jret tt
    else
      destroy_cleanup_dns ctx;;;
      destroy_cleanup_eips;;;
      jmod close_session;;;
      if delete_record then delete_project_record else jret tt.

(** [deploy_service._destroy_project_inner] *)
Definition destroy_project_inner (ctx : destroy_ctx) (delete_record : bool) : J unit :=
  jmod close_session;;;
  jfinally (jcatch (destroy_body ctx delete_record) (λ e, set_destroy_error (exn_str e))) close_session.

(** [deploy_service.destroy_project_sync]: the permit is waited for; without one the destruction goes
    on, and a permit is released all the same. *)
Definition destroy_project_sync (ctx : destroy_ctx) (delete_record : bool) : J unit :=
  acquired <-' flag_of env "semaphore.acquire" [];;
  (if acquired then jmod (λ w, set_permits w (jw_permits w - 1)) else jret tt);;;
  jfinally (destroy_project_inner ctx delete_record) (λ w, set_permits w (jw_permits w + 1)).
End Destroy.
