(* ===== verification/DestroySafe.v ===== *)
(** * Destruction ends, and gives up the record only with the resources

    A relation between the worlds before and after the quiet part of a destruction: the counters,
    the semaphore and the session are as before, and the record is still there. *)
From stdpp Require Import prelude strings gmap.
From S2P Require Import Prelude PyStr PyVal PyLemmas Db TopoNodes Vxlan HostNetwork Placement PatternLocations.
From S2P Require Import TopologyExtract Disks JobMonad VmStart DeployCanvas DeployHost DeployTargets JobTriples DestroyFlow.

Open Scope list_scope.

(** The session has nothing pending. *)
Definition clean (w : jobw) : Prop := s_locked (jw_sess w) = false ∧ s_dirty (jw_sess w) = [].

(** With [k], the other tables are as before too. *)
Definition tame (k : bool) (w w' : jobw) : Prop :=
  (k = true → jw_db w' = jw_db w) ∧ jw_counters w' = jw_counters w ∧ jw_permits w' = jw_permits w ∧ clean w' ∧
  ∃ es, jw_log w' = jw_log w ++ es ∧ RecordDeleted ∉ es.

(** A computation that only does such steps, whether or not it raises. *)
Definition gentle {A} (k : bool) (m : J A) : Prop :=
  ∀ w, clean w → match m w with (_, Blocked) => False | (w', _) => tame k w w' end.

Section Gentle.
Context (env : environment) (exn_text : exn → string) (pid : string) (k : bool).
Notation tame := (tame k).
Notation gentle := (gentle k).

Lemma tame_refl w : clean w → tame w w.
Proof. intros H. split_and!; try done. exists []. rewrite app_nil_r. split; [done|]. apply not_elem_of_nil. Qed.

Lemma tame_trans w1 w2 w3 : tame w1 w2 → tame w2 w3 → tame w1 w3.
Proof.
  intros (H1 & H2 & H3 & _ & es & H4 & H5) (G1 & G2 & G3 & G & fs & G4 & G5). split_and!; try congruence; try apply G.
  - intros Hk. by rewrite (G1 Hk), (H1 Hk).
  - exists (es ++ fs). split; [by rewrite G4, H4, app_assoc|]. rewrite elem_of_app. tauto.
Qed.

(** A step that only adds events. *)
Lemma tame_step w w' es :
  jw_db w' = jw_db w → jw_counters w' = jw_counters w → jw_permits w' = jw_permits w → clean w' →
  jw_log w' = jw_log w ++ es → RecordDeleted ∉ es → tame w w'.
Proof. intros ? ? ? ? ? ?. split_and!; [done..|]. by exists es. Qed.

Lemma tame_same w w' :
  jw_db w' = jw_db w → jw_counters w' = jw_counters w → jw_permits w' = jw_permits w → clean w' →
  jw_log w' = jw_log w → tame w w'.
Proof.
  intros ? ? ? ? Hl. apply (tame_step _ _ []); try done; [by rewrite app_nil_r|]. apply not_elem_of_nil.
Qed.

Lemma gentle_ret {A} (a : A) : gentle (jret a).
Proof. intros w Hw. by apply tame_refl. Qed.

Lemma gentle_exc {A} e : gentle (@jexc A e).
Proof. intros w Hw. by apply tame_refl. Qed.

Lemma gentle_get {A} (f : jobw → A) : gentle (jget f).
Proof. intros w Hw. by apply tame_refl. Qed.

Lemma gentle_lift {A} (r : res A) : gentle (jlift exn_text r).
Proof. destruct r; [apply gentle_ret|apply gentle_exc]. Qed.

Lemma gentle_bind {A B} (m : J A) (f : A → J B) : gentle m → (∀ a, gentle (f a)) → gentle (jbind m f).
Proof.
  intros Hm Hf w Hw. unfold jbind. specialize (Hm w Hw). destruct (m w) as [w1 [a|e|]]; [|done..].
  specialize (Hf a w1 ltac:(apply Hm)). destruct (f a w1) as [w2 [b|e|]]; [..|done]; by eapply tame_trans.
Qed.

Lemma gentle_catch {A} (m : J A) h : gentle m → (∀ e, gentle (h e)) → gentle (jcatch m h).
Proof.
  intros Hm Hh w Hw. unfold jcatch. specialize (Hm w Hw). destruct (m w) as [w1 [a|e|]]; [done| |done].
  specialize (Hh e w1 ltac:(apply Hm)). destruct (h e w1) as [w2 [b|e'|]]; [..|done]; by eapply tame_trans.
Qed.

Lemma gentle_emit e : e ≠ RecordDeleted → gentle (emit e).
Proof. intros He w Hw. apply (tame_step _ _ [e]); try done. by intros ?%list_elem_of_singleton. Qed.

Lemma gentle_ask f args : gentle (ask env f args).
Proof.
  intros w Hw. unfold ask. destruct (env_answer env _ _ _) as [a t].
  assert (tame w (mkJobw (env_others env (jw_log w) (jw_rows w)) (jw_db w) (jw_counters w) (jw_hwm w) (jw_permits w)
    (jw_progress w) t (jw_sess w) (jw_log w ++ [Call f args]))).
  { apply (tame_step _ _ [Call f args]); try done. by intros ?%list_elem_of_singleton. }
  by destruct a.
Qed.

Lemma gentle_flush : gentle (flush pid).
Proof. intros w Hw. unfold flush. destruct Hw as [Hl Hd] eqn:E. rewrite Hd. by apply tame_refl. Qed.

Lemma gentle_commit : gentle (commit pid).
Proof. intros w [Hl Hd]. unfold commit. rewrite Hd. by apply tame_same. Qed.

Lemma gentle_project : gentle (project pid).
Proof.
  intros w Hw. unfold project. destruct (s_obj (jw_sess w)); [by apply tame_refl|].
  destruct (current pid w); [|by apply tame_refl]. destruct Hw.
  by apply tame_same.
Qed.

Lemma gentle_query_project : gentle (query_project pid).
Proof.
  apply gentle_bind; [apply gentle_flush|]. intros _ w Hw. destruct (current pid w); [|by apply tame_refl].
  destruct Hw. by apply tame_same.
Qed.

Lemma gentle_in_session {A} (m : J A) : gentle m → gentle (in_session env pid m).
Proof.
  intros Hm. apply gentle_bind; [apply gentle_flush|]. intros _ w Hw. specialize (Hm w Hw).
  destruct (m w) as [w1 [a|e|]]; [| |done]; (destruct (env_commits env (jw_log w1)); [|done]);
    pose proof (gentle_commit w1 ltac:(apply Hm)) as Hc; destruct (commit pid w1) as [w2 [u|e'|]];
    first [done|by eapply tame_trans].
Qed.

Lemma gentle_close : gentle (jmod close_session).
Proof. intros w Hw. by apply tame_same. Qed.

Lemma gentle_each {A} (l : list A) f : (∀ x, gentle (f x)) → gentle (jeach l f).
Proof. intros Hf. induction l as [|x l IH]; cbn [jeach]; [apply gentle_ret|]. by apply gentle_bind. Qed.

Lemma gentle_fold {A B} (f : B → A → J B) b l : (∀ b x, gentle (f b x)) → gentle (jfold f b l).
Proof.
  intros Hf. revert b. induction l as [|x l IH]; intros b; cbn [jfold]; [apply gentle_ret|]. by apply gentle_bind.
Qed.

Lemma gentle_unlock {A} (m : J A) f args : gentle m → gentle (jfinally m (λ w, add_event w (Call f args))).
Proof.
  intros Hm w Hw. unfold jfinally. specialize (Hm w Hw).
  destruct (m w) as [w1 [a|e|]]; [..|done]; (eapply tame_trans; [exact Hm|]);
    (apply (tame_step _ _ [Call f args]); try done; [apply Hm|by intros ?%list_elem_of_singleton]).
Qed.
End Gentle.

Create HintDb gentle.
#[export] Hint Resolve gentle_ret gentle_exc gentle_get gentle_lift gentle_ask gentle_flush gentle_commit gentle_project
  gentle_query_project gentle_close : gentle.

Ltac gentle_step :=
  match goal with
  | |- forall _, _ => intros ?
  | |- gentle _ (jbind _ _) => apply gentle_bind
  | |- gentle _ (jcatch _ _) => apply gentle_catch
  | |- gentle _ (catch_troshkad _ _) => apply gentle_catch
  | |- gentle _ (in_session _ _ _) => apply gentle_in_session
  | |- gentle _ (emit _) => apply gentle_emit; discriminate
  | |- gentle _ (jeach _ _) => apply gentle_each
  | |- gentle _ (jfold _ _ _) => apply gentle_fold
  | |- gentle _ (jfinally _ _) => apply gentle_unlock
  | |- gentle _ (query _) => unfold query
  | |- gentle _ (match ?x with _ => _ end) => destruct x
  | |- gentle _ _ => solve [eauto with gentle nocore]
  end.
Ltac gentle := repeat gentle_step.

(** ** The quiet part of a destruction *)

Section Quiet.
Context (env : environment) (exn_text : exn → string) (sha256_hex : string → string) (pid : string).
Notation gentle := (gentle true).

Lemma gentle_do f args : gentle (do_ env f args).
Proof. unfold do_. gentle. Qed.
Lemma gentle_num f args : gentle (num_of env f args).
Proof. unfold num_of, unexpected. gentle. Qed.
Lemma gentle_flag f args : gentle (flag_of env f args).
Proof. unfold flag_of, unexpected. gentle. Qed.
Lemma gentle_texts f args : gentle (texts_of env f args).
Proof. unfold texts_of, unexpected. gentle. Qed.
#[local] Hint Resolve gentle_do gentle_num gentle_flag gentle_texts : gentle.
Lemma gentle_start h p n : gentle (agent_start env h p n).
Proof. unfold agent_start, text_of, unexpected. gentle. Qed.
Lemma gentle_wait h j t : gentle (agent_wait env h j t).
Proof. unfold agent_wait, unexpected. gentle. Qed.
#[local] Hint Resolve gentle_start gentle_wait : gentle.

Lemma gentle_job h p d t : gentle (agent_job env h p d t).
Proof. unfold agent_job. gentle. Qed.
Lemma gentle_read : gentle (read_namespace env pid).
Proof. unfold read_namespace. gentle. Qed.
Lemma gentle_gone : gentle (namespace_gone_cleanup env pid).
Proof. unfold namespace_gone_cleanup. gentle. Qed.
Lemma gentle_rook : gentle (try_clear_rook_finalizers env pid).
Proof. unfold try_clear_rook_finalizers. gentle. Qed.
Lemma gentle_timeout : gentle (namespace_deletion_timeout env pid).
Proof. unfold namespace_deletion_timeout. gentle. Qed.
Lemma gentle_retry : gentle (try_retry_network_cleanup env pid).
Proof. unfold try_retry_network_cleanup. gentle. Qed.
#[local] Hint Resolve gentle_job gentle_read gentle_gone gentle_rook gentle_timeout gentle_retry : gentle.

Lemma gentle_poll n : gentle (poll_namespace_until_gone env pid n).
Proof. induction n as [|n IH]; cbn [poll_namespace_until_gone]; gentle. Qed.
Lemma gentle_turns n i c : gentle (namespace_turns env pid n i c).
Proof. revert i c. induction n as [|n IH]; intros i c; cbn [namespace_turns]; gentle. Qed.
#[local] Hint Resolve gentle_poll gentle_turns : gentle.
Lemma gentle_namespace : gentle (wait_for_namespace_deletion env pid).
Proof. unfold wait_for_namespace_deletion. gentle. Qed.
Lemma gentle_eips : gentle (destroy_cleanup_eips env pid).
Proof. unfold destroy_cleanup_eips. gentle. Qed.
Lemma gentle_pool host : gentle (get_host_pool pid host).
Proof. unfold get_host_pool. gentle. Qed.
Lemma gentle_container host topo pool ctr : gentle (destroy_container env exn_text pid host topo pool ctr).
Proof. unfold destroy_container. gentle. Qed.
Lemma gentle_vms host topo : gentle (destroy_topology_vms env exn_text sha256_hex pid host topo).
Proof. unfold destroy_topology_vms. gentle. Qed.
Lemma gentle_reap host l : gentle (reap_orphan_project_domains env pid host l).
Proof. unfold reap_orphan_project_domains. gentle. Qed.
Lemma gentle_sg host : gentle (destroy_cleanup_sg_rules env pid host).
Proof. unfold destroy_cleanup_sg_rules. gentle. Qed.
Lemma gentle_route host : gentle (destroy_cleanup_route_access env pid host).
Proof. unfold destroy_cleanup_route_access. gentle. Qed.
Lemma gentle_connected i : gentle (get_connected_host pid i).
Proof. unfold get_connected_host. gentle. Qed.
#[local] Hint Resolve gentle_connected : gentle.
Lemma gentle_on_connected l step : (∀ h, gentle (step h)) → gentle (on_connected_hosts pid l step).
Proof. intros Hs. unfold on_connected_hosts. gentle. Qed.
Lemma gentle_multihost set_order : gentle (destroy_multihost env set_order pid).
Proof.
  unfold destroy_multihost, destroy_stop_all_vms, destroy_remote_networks, destroy_mesh_on_all_hosts, with_network_lock.
  repeat first [gentle_step|apply gentle_on_connected].
Qed.
Lemma gentle_dns ctx : gentle (destroy_cleanup_dns env exn_text pid ctx).
Proof. unfold destroy_cleanup_dns. gentle. Qed.
Lemma gentle_revoke : gentle (destroy_revoke_ops_pod_key env pid).
Proof. unfold destroy_revoke_ops_pod_key. gentle. Qed.
End Quiet.

#[export] Hint Resolve gentle_do gentle_namespace gentle_eips gentle_pool gentle_container gentle_vms gentle_reap gentle_sg
  gentle_route gentle_multihost gentle_dns gentle_revoke gentle_job : gentle.

(** ** The namespace guards the record *)

(** Nothing in limbo: the record is gone, or in error. *)
Definition ended (pid : string) (w : jobw) : Prop :=
  match current pid w with Some p => d_state p = "error" | None => True end.

Section Guard.
Context (env : environment) (exn_text : exn → string) (pid : string).

(** The cluster never says that the namespace is gone. *)
Hypothesis never_gone : ∀ log args t, (env_answer env log (Call "read_namespace_status" args) t).1 ≠ Num (Some 404).

(** A computation that never answers [a]. *)
Definition avoids {A} (P : A → Prop) (m : J A) : Prop :=
  ∀ w, match m w with (_, Ret x) => ¬ P x | _ => True end.

Lemma avoids_ret {A} (P : A → Prop) x : ¬ P x → avoids P (jret x).
Proof. by intros H w. Qed.

Lemma avoids_bind {A B} (R : A → Prop) (P : B → Prop) (m : J A) (f : A → J B) :
  avoids R m → (∀ a, ¬ R a → avoids P (f a)) → avoids P (jbind m f).
Proof.
  intros Hm Hf w. unfold jbind. specialize (Hm w). destruct (m w) as [w1 [a|e|]]; [|done..]. by apply Hf.
Qed.

Lemma avoids_any {A B} (P : B → Prop) (m : J A) (f : A → J B) : (∀ a, avoids P (f a)) → avoids P (jbind m f).
Proof.
  intros Hf. apply (avoids_bind (λ _, False)); [|by intros a _]. intros w. destruct (m w) as [? []]; [by intros []|done..].
Qed.

Lemma read_never_gone : avoids (λ r, r = NsGone) (read_namespace env pid).
Proof.
  intros w. unfold read_namespace, jcatch, num_of, ask, jbind, unexpected.
  pose proof (never_gone (jw_log w) [pid] (jw_topo w)) as H. destruct (env_answer env _ _ _) as [[| | |[s|]| | |] t];
    cbn in *; try done. destruct (Z.eqb_spec s 404) as [->|]; [done|by destruct (s =? 404)%Z].
Qed.

Lemma poll_never_gone n : avoids (λ r, r = Some true) (poll_namespace_until_gone env pid n).
Proof.
  induction n as [|n IH]; cbn [poll_namespace_until_gone]; [by apply avoids_ret|].
  eapply avoids_bind; [apply read_never_gone|]. intros r Hr.
  destruct r; [by apply avoids_any|done|by apply avoids_any|by apply avoids_ret].
Qed.

Lemma turns_never_gone n i c : avoids (λ r, r = inl true) (namespace_turns env pid n i c).
Proof.
  revert i c. induction n as [|n IH]; intros i c; cbn [namespace_turns]; [by apply avoids_ret|].
  eapply avoids_bind; [apply read_never_gone|]. intros r Hr. destruct r; [|done| |by apply avoids_ret].
  - apply avoids_any. intros _. apply avoids_any. intros cleared. by apply avoids_any.
  - by apply avoids_any.
Qed.

Lemma namespace_never_gone : avoids (λ b, b = true) (wait_for_namespace_deletion env pid).
Proof.
  assert (Ht : avoids (λ b, b = true) (namespace_deletion_timeout env pid)).
  { apply avoids_any. intros _. by apply avoids_ret. }
  unfold wait_for_namespace_deletion. apply avoids_any. intros _.
  eapply avoids_bind; [apply turns_never_gone|]. intros [b|[]] Hr; [|done|].
  - apply avoids_ret. congruence.
  - apply avoids_any. intros _. eapply avoids_bind; [apply poll_never_gone|]. intros [b|] Hb; [|done].
    apply avoids_ret. congruence.
Qed.
End Guard.

(** *** The last steps *)

Section Ends.
Context (env : environment) (exn_text : exn → string) (sha256_hex : string → string).
Context (install_via_default : string) (set_order : list string → list string) (pid : string).

(** A computation that leaves the counters, the permits and the session alone; when it answers with
    [stop], the project has ended. *)
Definition concludes {A} (stop : A → bool) (m : J A) : Prop :=
  ∀ w, clean w →
    match m w with
    | (_, Blocked) => False
    | (w', Exc _) => jw_counters w' = jw_counters w ∧ jw_permits w' = jw_permits w ∧ clean w'
    | (w', Ret a) =>
        jw_counters w' = jw_counters w ∧ jw_permits w' = jw_permits w ∧ clean w' ∧ (stop a = true → ended pid w')
    end.

Lemma gentle_concludes {A} k stop (m : J A) : gentle k m → (∀ a, stop a = false) → concludes stop m.
Proof.
  intros Hm Hs w Hw. specialize (Hm w Hw). destruct (m w) as [w' [a|e|]]; [..|done];
    destruct Hm as (_ & ? & ? & ? & _); split_and!; try done. by rewrite Hs.
Qed.

Lemma gentle_then {A B} k stop (m : J A) (f : A → J B) :
  gentle k m → (∀ a, concludes stop (f a)) → concludes stop (jbind m f).
Proof.
  intros Hm Hf w Hw. unfold jbind. specialize (Hm w Hw). destruct (m w) as [w1 [a|e|]]; [..|done];
    destruct Hm as (_ & H1 & H2 & H3 & _); [|done].
  specialize (Hf a w1 H3). destruct (f a w1) as [w2 [b|e|]]; [..|done];
    destruct Hf as (-> & -> & Hf); (split; [done|split; [done|exact Hf]]).
Qed.

Lemma concludes_then {A} stop (m : J unit) (a : A) :
  concludes (λ _, true) m → concludes stop (m;;; jret a).
Proof.
  intros Hm w Hw. unfold jbind. specialize (Hm w Hw). destruct (m w) as [w1 [u|e|]]; [..|done]; [|done].
  destruct Hm as (? & ? & ? & He). split_and!; try done. intros _. by apply He.
Qed.

Lemma gentle_error_set msg : gentle true (set_destroy_error pid msg).
Proof.
  intros w [Hl Hd]. unfold set_destroy_error. rewrite Hl. destruct (current pid w); [|by apply tame_refl].
  apply (tame_step _ _ _ [Notify "error" ("Delete failed: " +:+ msg)]); try done. by intros ?%list_elem_of_singleton.
Qed.

Lemma error_ends msg w : clean w → ended pid (set_destroy_error pid msg w).1.
Proof.
  intros [Hl _]. unfold set_destroy_error, ended. rewrite Hl. destruct (current pid w) eqn:Ec; [|cbn; by rewrite Ec].
  unfold current. cbn [fst add_event jw_rows]. rewrite find_update by done. by rewrite Ec.
Qed.

Lemma concludes_error msg : concludes (λ _, true) (set_destroy_error pid msg).
Proof.
  intros w Hw. pose proof (error_ends msg w Hw) as He. pose proof (gentle_error_set msg w Hw) as Hg.
  destruct (set_destroy_error pid msg w) as [w' [u|e|]]; [..|done]; by destruct Hg as (_ & ? & ? & ? & _).
Qed.

Lemma filter_gone rows : List.find (is_pid pid) (List.filter (λ p, negb (is_pid pid p)) rows) = None.
Proof. induction rows as [|p rows IH]; [done|]. cbn. destruct (is_pid pid p) eqn:E; cbn; [done|by rewrite E]. Qed.

Lemma concludes_delete : concludes (λ _, true) (delete_project_record pid).
Proof.
  intros w [Hl Hd]. unfold delete_project_record. rewrite Hl. destruct (current pid w) eqn:Ec.
  - split_and!; try done. intros _. unfold ended, current. cbn. by rewrite filter_gone.
  - split_and!; try done. intros _. unfold ended. by rewrite Ec.
Qed.

(** ** The cluster *)

(** The record does not go; with [asked], it ends in error unless the computation raises. *)
Definition retains (asked : bool) (m : J unit) : Prop :=
  ∀ w, clean w →
    match m w with
    | (_, Blocked) => False
    | (w', o) => tame true w w' ∧ (asked = true → o = Ret tt → ended pid w')
    end.

Lemma gentle_retains m : gentle true m → retains false m.
Proof. intros Hm w Hw. specialize (Hm w Hw). destruct (m w) as [w' [a|e|]]; [..|done]; by split. Qed.

Lemma retains_bind {A} asked (P : A → Prop) (m : J A) f :
  gentle true m → avoids P m → (∀ a, ¬ P a → retains asked (f a)) → retains asked (jbind m f).
Proof.
  intros Hm Ha Hf w Hw. unfold jbind. specialize (Hm w Hw). specialize (Ha w). destruct (m w) as [w1 [a|e|]]; [..|done].
  - specialize (Hf a Ha w1 ltac:(apply Hm)). destruct (f a w1) as [w2 [b|e|]]; [..|done];
      (split; [eapply tame_trans; [exact Hm|apply Hf]|apply Hf]).
  - by split.
Qed.

Lemma retains_any {A} asked (m : J A) f : gentle true m → (∀ a, retains asked (f a)) → retains asked (jbind m f).
Proof.
  intros Hm Hf. apply (retains_bind _ (λ _, False)); [done| |by intros a _]. intros w. destruct (m w) as [? []]; [by intros []|done..].
Qed.

Lemma retains_error asked msg : retains asked (set_destroy_error pid msg).
Proof.
  intros w Hw. pose proof (error_ends msg w Hw) as He. pose proof (gentle_error_set msg w Hw) as Hg.
  destruct (set_destroy_error pid msg w) as [w' [u|e|]]; [..|done]; by split.
Qed.

Lemma retains_cluster host delete_record w pr :
  (∀ log args t, (env_answer env log (Call "read_namespace_status" args) t).1 ≠ Num (Some 404)) →
  clean w → (h_provider_id host ≫= find_provider (jw_db w)) = Some pr →
  match destroy_kubevirt_native env pid host delete_record w with
  | (_, Blocked) => False
  | (w', o) => tame true w w' ∧ (delete_record = true → o = Ret tt → ended pid w')
  end.
Proof.
  intros Hgone Hw Hpr. unfold destroy_kubevirt_native, query, flush, jget. unfold jbind at 1 2.
  rewrite (proj2 Hw). cbv beta iota. change (λ i : string, find_provider (jw_db w) i) with (find_provider (jw_db w)). rewrite Hpr.
  match goal with |- match ?m w with _ => _ end => assert (Hm : retains delete_record m); [|exact (Hm w Hw)] end.
  destruct delete_record; cbn [negb]; [|apply gentle_retains; repeat first [gentle_step|apply gentle_error_set]].
  apply retains_any; [apply gentle_eips|]. intros _. apply retains_any; [gentle|]. intros [msg|]; [apply retains_error|].
  apply (retains_bind _ (λ b, b = true)); [apply gentle_namespace|by apply namespace_never_gone|].
  intros [|] Hb; [done|]. apply retains_error.
Qed.

Lemma concludes_cluster host : concludes (λ _, true) (destroy_kubevirt_native env pid host true).
Proof.
  unfold destroy_kubevirt_native. apply (gentle_then true); [unfold query; gentle|]. intros _.
  apply (gentle_then true); [apply (gentle_get true)|]. intros [pr|]; [|apply concludes_delete].
  apply (gentle_then true); [apply gentle_eips|]. intros _. apply (gentle_then true); [by gentle|].
  intros [msg|]; [apply concludes_error|]. apply (gentle_then true); [apply gentle_namespace|]. cbn.
  intros [|]; [apply concludes_delete|apply concludes_error].
Qed.

(** ** One host, and the job *)

Lemma gentle_weaken {A} (m : J A) : gentle true m → gentle false m.
Proof.
  intros Hm w Hw. specialize (Hm w Hw). destruct (m w) as [w' [a|e|]]; [..|done]; destruct Hm as [_ Hm]; by split.
Qed.

Lemma gentle_set_db f : gentle false (jmod (λ w, set_db w (f w))).
Proof. intros w [Hl Hd]. split_and!; try done. exists []. rewrite app_nil_r. split; [done|]. apply not_elem_of_nil. Qed.

Lemma gentle_host host topo vni_map :
  gentle false (destroy_troshkad_resources env exn_text sha256_hex pid host topo vni_map).
Proof.
  unfold destroy_troshkad_resources, with_network_lock, query.
  repeat first [apply gentle_weaken; solve [eauto with gentle nocore]|apply gentle_set_db|gentle_step].
Qed.

Lemma concludes_follow : concludes negb (jret true).
Proof. intros w [Hl Hd]. by split_and!. Qed.

Lemma concludes_single ctx :
  concludes negb (destroy_single_host_resources env exn_text sha256_hex install_via_default pid ctx true).
Proof.
  unfold destroy_single_host_resources.
  apply (gentle_then true); [unfold query; by gentle|]. intros _.
  apply (gentle_then true); [apply (gentle_get true)|]. intros [host|]; [|apply concludes_then, concludes_delete].
  destruct (text_opt (h_ip_address host)); [|apply concludes_then, concludes_delete].
  destruct (String.eqb _ _); [apply concludes_then, concludes_cluster|].
  apply (gentle_then false); [apply gentle_host|]. intros _.
  apply (gentle_then true); [apply (gentle_lift exn_text true)|]. intros ops.
  apply (gentle_then true); [by gentle|]. intros _.
  apply (gentle_then true); [apply gentle_sg|]. intros _. apply (gentle_then true); [apply gentle_route|]. intros _.
  apply (gentle_then true); [apply (gentle_lift exn_text true)|]. intros showroom.
  destruct (negb showroom); [apply concludes_follow|].
  apply (gentle_then true); [unfold query; by gentle|]. intros _.
  apply (gentle_then true); [apply (gentle_get true)|]. intros [|e es]; [apply concludes_follow|].
  apply (gentle_then true); [by gentle|]. intros _. apply concludes_follow.
Qed.

Lemma concludes_and {A B} (s1 : A → bool) stop (m : J A) (f : A → J B) :
  concludes s1 m → (∀ a, s1 a = false → concludes stop (f a)) → (∀ a, s1 a = true → ∃ b, f a = jret b) →
  concludes stop (jbind m f).
Proof.
  intros Hm Hf Hr w Hw. unfold jbind. specialize (Hm w Hw). destruct (m w) as [w1 [a|e|]]; [..|done]; [|done].
  destruct Hm as (H1 & H2 & H3 & He). destruct (s1 a) eqn:Ea.
  - destruct (Hr a Ea) as [b ->]. cbn. split_and!; try done. intros _. by apply He.
  - specialize (Hf a Ea w1 H3). destruct (f a w1) as [w2 [b|e|]]; [..|done];
      destruct Hf as (-> & -> & Hf); (split; [done|split; [done|exact Hf]]).
Qed.

Lemma concludes_body ctx :
  concludes (λ _, true) (destroy_body env exn_text sha256_hex install_via_default set_order pid ctx true).
Proof.
  unfold destroy_body. apply (gentle_then true); [apply (gentle_query_project pid true)|]. intros [|]; [|apply concludes_delete].
  cbn [negb]. apply (gentle_then true); [apply gentle_revoke|]. intros _.
  apply (gentle_then true); [apply (gentle_project pid true)|]. intros p.
  eapply (concludes_and negb).
  - destruct (negb _); [|apply concludes_single]. apply (gentle_then true); [apply gentle_multihost|]. intros _.
    apply concludes_follow.
  - intros [|]; [|done]. intros _. cbn [negb]. apply (gentle_then true); [apply gentle_dns|]. intros _.
    apply (gentle_then true); [apply gentle_eips|]. intros _.
    apply (gentle_then true); [apply (gentle_close true)|]. intros _. apply concludes_delete.
  - intros [|]; [done|]. intros _. cbn [negb]. by exists tt.
Qed.
End Ends.

(** Asked to keep the record, a destruction keeps it. *)
Lemma gentle_body_kept env exn_text sha256_hex install_via_default set_order pid ctx :
  gentle false (destroy_body env exn_text sha256_hex install_via_default set_order pid ctx false).
Proof.
  unfold destroy_body, destroy_single_host_resources, destroy_kubevirt_native. cbn [negb]. cbv match.
  repeat first [apply gentle_weaken; solve [eauto with gentle nocore]|apply gentle_weaken, gentle_error_set
               |apply gentle_host|gentle_step].
Qed.

(** What a destruction leaves, with a permit or without. *)
Definition destroyed (pid : string) (delete_record : bool) (w w' : jobw) : Prop :=
  jw_counters w' = jw_counters w ∧ jw_permits w' = jw_permits w ∧ (delete_record = true → ended pid w') ∧
  (delete_record = false → ∃ es, jw_log w' = jw_log w ++ es ∧ RecordDeleted ∉ es).

Lemma inner_destroys env exn_text sha256_hex install_via_default set_order pid ctx delete_record w :
  ∃ w', destroy_project_inner env exn_text sha256_hex install_via_default set_order pid ctx delete_record w = (w', Ret tt) ∧
        destroyed pid delete_record w w'.
Proof.
  unfold destroy_project_inner, jbind, jmod, jfinally, jcatch. cbn.
  set (w0 := close_session w). assert (Hw0 : clean w0) by done.
  assert (Hraised : ∀ w1 e, clean w1 → jw_counters w1 = jw_counters w → jw_permits w1 = jw_permits w →
    (delete_record = false → ∃ es, jw_log w1 = jw_log w ++ es ∧ RecordDeleted ∉ es) →
    ∃ w2, set_destroy_error pid (exn_str e) w1 = (w2, Ret tt) ∧ destroyed pid delete_record w w2).
  { intros w1 e H1 Hc Hn Hlog. pose proof (error_ends pid (exn_str e) w1 H1) as He.
    pose proof (gentle_error_set pid (exn_str e) w1 H1) as Hg.
    destruct (set_destroy_error pid (exn_str e) w1) as [w2 [[]|e'|]] eqn:Es; [| |done].
    - destruct Hg as (_ & G1 & G2 & _ & es & G3 & G4). exists w2. split; [done|]. split_and!; try congruence; [done|].
      intros Hd. destruct (Hlog Hd) as (fs & F1 & F2). exists (fs ++ es). split; [by rewrite G3, F1, app_assoc|].
      rewrite elem_of_app. tauto.
    - exfalso. revert Es. unfold set_destroy_error. rewrite (proj1 H1). by destruct (current pid w1). }
  destruct delete_record.
  - pose proof (concludes_body env exn_text sha256_hex install_via_default set_order pid ctx w0 Hw0) as Hb.
    destruct (destroy_body _ _ _ _ _ _ _ _ w0) as [w1 [[]|e|]]; [..|done].
    + destruct Hb as (Hb1 & Hb2 & _ & He). eexists. split; [done|]. split_and!; [exact Hb1|exact Hb2|exact He|done].
    + destruct Hb as (Hb1 & Hb2 & Hb). destruct (Hraised w1 e Hb Hb1 Hb2) as (w2 & -> & Hd); [done|].
      eexists. split; [done|exact Hd].
  - pose proof (gentle_body_kept env exn_text sha256_hex install_via_default set_order pid ctx w0 Hw0) as Hb.
    destruct (destroy_body _ _ _ _ _ _ _ _ w0) as [w1 [[]|e|]]; [..|done];
      destruct Hb as (_ & Hb1 & Hb2 & Hb3 & Hlog).
    + eexists. split; [done|]. split_and!; [exact Hb1|exact Hb2|done|by intros _].
    + destruct (Hraised w1 e Hb3 Hb1 Hb2) as (w2 & -> & Hd); [done|]. eexists. split; [done|exact Hd].
Qed.

(** C3: Whatever the agents, the cluster and the other processes do, a destruction returns without an
    exception, with the counters as they were.  Asked to delete the record, it leaves no project in
    ["deleting"]: the record is gone or in error; asked to keep it, it deletes none.  When the
    semaphore granted a permit, it has it back; when the wait for one ran out, the destruction goes
    on all the same, and the semaphore ends with a permit it never gave. *)
Theorem destroy_ends env exn_text sha256_hex install_via_default set_order pid ctx delete_record w granted :
  (env_answer env (jw_log w) (Call "semaphore.acquire" []) (jw_topo w)).1 = Flag granted →
  ∃ w', destroy_project_sync env exn_text sha256_hex install_via_default set_order pid ctx delete_record w = (w', Ret tt) ∧
    jw_counters w' = jw_counters w ∧ jw_permits w' = jw_permits w + (if granted then 0 else 1) ∧
    (delete_record = true → ended pid w') ∧
    (delete_record = false → ∃ es, jw_log w' = jw_log w ++ es ∧ RecordDeleted ∉ es).
Proof.
  intros Ha. unfold destroy_project_sync, flag_of, ask, jbind at 1 2.
  destruct (env_answer env _ _ _) as [a t]. cbn [fst] in Ha. subst a. cbn [jret].
  set (w1 := mkJobw _ _ _ _ _ _ _ _ _). set (w2 := if granted then set_permits w1 (jw_permits w1 - 1) else w1).
  assert (E : jbind (if granted then jmod (λ w, set_permits w (jw_permits w - 1)) else jret tt) (λ _,
      jfinally (destroy_project_inner env exn_text sha256_hex install_via_default set_order pid ctx delete_record)
        (λ w, set_permits w (jw_permits w + 1))) w1
    = jfinally (destroy_project_inner env exn_text sha256_hex install_via_default set_order pid ctx delete_record)
        (λ w, set_permits w (jw_permits w + 1)) w2) by (unfold w2; by destruct granted).
  rewrite E. unfold jfinally.
  destruct (inner_destroys env exn_text sha256_hex install_via_default set_order pid ctx delete_record w2)
    as (w3 & -> & Hc & Hn & He & Hk).
  assert (Hw2 : jw_counters w2 = jw_counters w ∧ jw_permits w2 = jw_permits w - (if granted then 1 else 0) ∧
                jw_log w2 = jw_log w ++ [Call "semaphore.acquire" []]).
  { unfold w2, w1. destruct granted; cbn; split_and!; try done; lia. }
  destruct Hw2 as (Hc2 & Hn2 & Hl2). eexists. split; [reflexivity|]. split_and!; [| |exact He|].
  - change (jw_counters w3 = jw_counters w). congruence.
  - change (jw_permits w3 + 1 = jw_permits w + (if granted then 0 else 1)). rewrite Hn, Hn2. destruct granted; lia.
  - intros Hd. destruct (Hk Hd) as (es & Hl & Hes). exists (Call "semaphore.acquire" [] :: es).
    split; [change (jw_log w3 = jw_log w ++ Call "semaphore.acquire" [] :: es); by rewrite Hl, Hl2, <-app_assoc|].
    by intros [?|?]%elem_of_cons.
Qed.

(** C4: On a cluster whose provider has a row, as long as the cluster does not say that the namespace
    is gone, the project's record is not deleted: asked to delete it, the destruction of the project
    on the cluster leaves it in error.  (Without a provider's row the record goes at once,
    [lost_provider_deletes].) *)
Theorem namespace_guards_record env pid host delete_record w pr :
  (∀ log args t, (env_answer env log (Call "read_namespace_status" args) t).1 ≠ Num (Some 404)) →
  clean w → (h_provider_id host ≫= find_provider (jw_db w)) = Some pr →
  ∃ w' o es, destroy_kubevirt_native env pid host delete_record w = (w', o) ∧
    jw_log w' = jw_log w ++ es ∧ RecordDeleted ∉ es ∧ jw_db w' = jw_db w ∧
    (delete_record = true → o = Ret tt → ended pid w').
Proof.
  intros Hgone Hw Hpr. pose proof (retains_cluster env pid host delete_record w pr Hgone Hw Hpr) as H.
  destruct (destroy_kubevirt_native _ _ _ _ w) as [w' [[]|e|]]; [..|done];
    destruct H as [(Hdb & _ & _ & _ & es & Hl & Hes) He]; (exists w'; eexists _, es); split_and!; try done; by apply Hdb.
Qed.

(** ** Worked examples *)

(** A cluster whose namespace answers [status]. *)
Definition cluster_agents (status : option Z) : environment :=
  mkEnv (λ _ e t,
    (match e with
     | Call "semaphore.acquire" _ => Flag true
     | Call "read_namespace_status" _ => Num status
     | Call "get_all_vm_states" _ => Texts ["troshka-12345678-stray"; "other"]
     | Call "start_job" _ => Text "job"
     | Call "wait_for_job" _ => Texts ["completed"; ""]
     | _ => Done
     end, t))
    (λ _ rows, rows) (λ _, 1000) (λ _, false).

Definition deleting_project : dproject :=
  mkDProject (mkProject "12345678" None (Some "h1") "deleting" (VDict []) None None) None None None None None []
    (mkTimers None None None false None None false None) false "" None None None (None, None, None) None true "owner" None.

Definition deleting_host (host_type : string) : Host :=
  mkHost "h1" (Some "p1") "active" host_type 16 65536 0 0 (Some "10.0.0.5") None "connected" 1 (Some 1500) None true.

Definition deleting_world (host_type : string) : jobw :=
  mkJobw [deleting_project] (mkDB [deleting_host host_type] [] [] [mkProvider "p1" "kubevirt" None] [] [])
    (mkCounters true ∅ ∅) (mkHwm None true) 100 None VNone new_session [].

Definition deleting_canvas : val :=
  VDict [("nodes", VList [start_node "aaaaaaaa" "bastion" []]); ("edges", VList [])].

Notation destroy_sample status host_type :=
  (destroy_project_sync (cluster_agents status) (λ _, "") (λ s, s) "" (λ l, l) "12345678"
     (mkCtx (Some "h1") [] deleting_canvas None) true (deleting_world host_type)).

Definition remaining (r : jobw * outcome unit) : list (string * option string) :=
  map (λ p, (d_state p, d_error p)) (jw_rows r.1).

(** On a host, the domain of the canvas and the stray one of the project are destroyed. *)
Example host_is_cleared :
  (remaining (destroy_sample None "shared"),
   omap (λ e, match e with Call "start_job" [_; "/vms/destroy"; d] => Some d | _ => None end)
     (jw_log (destroy_sample None "shared").1)) = ([], ["troshka-12345678-aaaaaaaa"; "troshka-12345678-stray"]).
Proof. vm_compute. reflexivity. Qed.

(** On a cluster, the record goes with the namespace. *)
Example cluster_is_cleared : remaining (destroy_sample (Some 404) "kubevirt-cluster") = [].
Proof. vm_compute. reflexivity. Qed.

Lemma namespace_guards_record_witness :
  let w := deleting_world "kubevirt-cluster" in
  remaining (destroy_sample None "kubevirt-cluster") = [("error", Some ("Delete failed: " +:+ stuck_message))] ∧
  ∃ w' o es, destroy_kubevirt_native (cluster_agents None) "12345678" (deleting_host "kubevirt-cluster") true w = (w', o) ∧
    jw_log w' = jw_log w ++ es ∧ RecordDeleted ∉ es ∧ jw_db w' = jw_db w ∧
    (true = true → o = Ret tt → ended "12345678" w').
Proof.
  intros w. split; [vm_compute; reflexivity|].
  apply (namespace_guards_record (cluster_agents None) "12345678" (deleting_host "kubevirt-cluster") true w
           (mkProvider "p1" "kubevirt" None)); [|by split|reflexivity].
  by intros log args t.
Defined.

Lemma destroy_ends_witness :
  let w := deleting_world "shared" in
  let job := destroy_project_sync (cluster_agents None) (λ _, "") (λ s, s) "" (λ l, l) "12345678"
               (mkCtx (Some "h1") [] deleting_canvas None) true in
  (env_answer (cluster_agents None) (jw_log w) (Call "semaphore.acquire" []) (jw_topo w)).1 = Flag true ∧
  jw_permits (job w).1 = 100 ∧
  ∃ w', job w = (w', Ret tt) ∧ jw_counters w' = jw_counters w ∧ jw_permits w' = jw_permits w + 0 ∧
    (true = true → ended "12345678" w') ∧
    (true = false → ∃ es, jw_log w' = jw_log w ++ es ∧ RecordDeleted ∉ es).
Proof.
  intros w job. split; [reflexivity|]. split; [vm_compute; reflexivity|].
  apply (destroy_ends (cluster_agents None) (λ _, "") (λ s, s) "" (λ l, l) "12345678"
           (mkCtx (Some "h1") [] deleting_canvas None) true w true).
  reflexivity.
Defined.

(** The wait for a permit ran out: the project is destroyed, and a permit is given back that was
    never taken. *)
Definition refusing_agents : environment :=
  mkEnv (λ log e t, match e with Call "semaphore.acquire" _ => (Flag false, t)
                    | _ => env_answer (cluster_agents None) log e t end) (λ _ rows, rows) (λ _, 1000) (λ _, false).

Example permit_given_back_twice :
  let r := destroy_project_sync refusing_agents (λ _, "") (λ s, s) "" (λ l, l) "12345678"
             (mkCtx (Some "h1") [] deleting_canvas None) true (deleting_world "shared") in
  remaining r = [] ∧ jw_permits r.1 = 101.
Proof. vm_compute. by split. Qed.

(** When the row of its provider is lost, the record of a cluster's project is deleted without a word
    to the cluster, whose namespace stays. *)
Lemma lost_provider_deletes env pid host w :
  clean w → (h_provider_id host ≫= find_provider (jw_db w)) = None → current pid w ≠ None →
  ∃ w', destroy_kubevirt_native env pid host true w = (w', Ret tt) ∧
        (∀ f args, Call f args ∈ jw_log w' → Call f args ∈ jw_log w) ∧ current pid w' = None.
Proof.
  intros [Hl Hd] Hpr Hc. unfold destroy_kubevirt_native, query, flush, jget. unfold jbind at 1 2. rewrite Hd.
  cbv beta iota. change (λ i : string, find_provider (jw_db w) i) with (find_provider (jw_db w)). rewrite Hpr.
  unfold delete_project_record. rewrite Hl. destruct (current pid w); [|done].
  eexists. split; [reflexivity|]. split; [|unfold current; cbn; apply filter_gone].
  intros f args. cbn. rewrite !elem_of_app, !list_elem_of_singleton. intuition congruence.
Qed.
