(* ===== verification/ProjectCanvas.v ===== *)
(** * What the project handlers read from and write to a canvas

    The helpers of [api/projects.py] that look at or change a canvas without the session, and those
    of [services/redeploy_ocp.py]: the VNIs of networks added to a canvas, what a save keeps and
    drops, the checks before a deployment, the marks a rebuild clears.  The theorems say what the
    VNIs of added networks are and what a rebuild leaves. *)
From stdpp Require Import prelude strings.
From S2P Require Import Prelude PyStr PyVal PyLemmas Db TopoNodes Vxlan GatewaySync DiffTopology DeployCanvas.

Open Scope list_scope.

(** ** The VNIs of networks added to a canvas *)

(** [projects._allocate_vnis_for_new_networks:4271-4276] the test of a network. *)
Definition needs_vni (vni_map : vnis) (net_node : val) : res bool :=
  data <- get net_node "data" empty_dict;;
  (st <- get data "subtype" VNone;; Ok (eq_str st "network")) <&&>
  (nt <- get data "networkType" VNone;; Ok (negb (eq_str nt "bmc"))) <&&>
  (i <- idx net_node "id";; o <- vget i vni_map;; Ok (negb (is_some o))).

(** What the loop threads: the map, the VNIs in use, the next to try. *)
Record vni_state := mkVnis { v_map : vnis; v_used : list Z; v_next : Z }.

(** [projects._allocate_vnis_for_new_networks:4269-4283] one network; [Return] is the 507. *)
Definition allocate_new (net_node : val) (s : vni_state) : res (ctl vni_state unit) :=
  needed <- needs_vni (v_map s) net_node;;
  if negb needed then Ok (Next s)
  else
    n <- next_free (v_used s) (v_next s);;
    if VNI_MAX <? n then Ok (Return tt)
    else
      i <- idx net_node "id";;
      m <- vset i n (v_map s);;
      Ok (Next (mkVnis m (n :: v_used s) (n + 1))).

(** [projects._allocate_vnis_for_new_networks]: the map, or [None] when the VNIs are exhausted. *)
Definition allocate_vnis_for_new_networks (db : DB) (added_networks : list val) (vni_map : vnis) : res (option vnis) :=
  if bool_decide (added_networks = []) then Ok (Some vni_map)
  else
    r <- for_ctl added_networks (mkVnis vni_map (get_all_used_vnis db ++ vni_map.*2) VNI_MIN) allocate_new;;
    Ok (match r with inl s => Some (v_map s) | inr tt => None end).

(** ** What a save of the canvas keeps and drops *)

(** [projects._TOPOLOGY_METADATA_KEYS] *)
Definition TOPOLOGY_METADATA_KEYS : list string :=
  ["placement"; "ocpInstallVia"; "workloads"; "requirements_content"; "workloadsDone"].

(** [projects._preserve_topology_import_metadata] *)
Definition preserve_topology_import_metadata (previous topo : val) : res val :=
  for_each TOPOLOGY_METADATA_KEYS topo (λ key topo,
    p <- get previous key VNone;;
    if negb (truthy p) then Ok topo
    else t <- get topo key VNone;; if truthy t then Ok topo else set_item topo key p).

(** [projects._enforce_single_bastion_browser]: whether the canvas is refused. *)
Definition many_bastion_browsers (topology : val) : res bool :=
  match topology with
  | VDict (_ :: _) =>
      ns <- nodes_of topology;;
      l <- filter_res (λ n,
        has_type n "vmNode" <&&> (d <- data_of n;; b <- get d "configureBastionBrowser" VNone;; Ok (truthy b))) ns;;
      Ok (1 <? Z.of_nat (length l))
  | _ => Ok false
  end.

(** [projects._apply_topology_update_fields:2000-2004] what only the runtime knows. *)
Definition strip_external_ip (ext_ip : val) : res val :=
  for_each ["ip"; "_private_ip"; "_transit_port_map"; "state"] ext_ip (λ k v, pop_item v k).

(** The external addresses of a canvas, changed one by one in place. *)
Definition map_external_ips (f : val → res val) (topology : val) : res val :=
  ips <- get topology "externalIps" empty_list;;
  l <- iter ips;;
  l <- map_res f l;;
  Ok (update_list topology "externalIps" l).

(** [projects._strip_topology_runtime_node_fields] *)
Definition strip_topology_runtime_node_fields (topology : val) : res val :=
  map_nodes (λ node,
    data <- get node "data" empty_dict;;
    st <- get data "subtype" VNone;;
    if eq_str st "gateway" then
      data <- pop_item data "externalEndpoints";;
      has <- has_key "data" node;; if has then set_item node "data" data else Ok node
    else Ok node) topology.

(** [projects._apply_eip_runtime_to_topology:5294-5304] one external address; the last of several rows
    of one address counts. *)
Definition apply_eip_runtime (eips : list ElasticIp) (ext_ip : val) : res val :=
  i <- get ext_ip "id" vstr_empty;;
  let match_id e := eq_str i (e_canvas_eip_id e) in
  match last (List.filter match_id eips) with
  | None => Ok ext_ip
  | Some e =>
      ext_ip <- set_item ext_ip "ip" (VStr (e_public_ip e));;
      ext_ip <- set_item ext_ip "_private_ip" (match e_private_ip e with Some p => VStr p | None => VNone end);;
      match e_port_map e with
      | Some ((_ :: _) as m) => set_item ext_ip "_transit_port_map" (VDict (map (λ kv, (kv.1, VInt kv.2)) m))
      | _ => pop_item ext_ip "_transit_port_map"
      end
  end.

(** [projects._apply_eip_runtime_to_topology] *)
Definition apply_eip_runtime_to_topology (eips : list ElasticIp) (topology : val) : res val :=
  ips <- get topology "externalIps" empty_list;;
  if negb (truthy ips) then Ok topology else map_external_ips (apply_eip_runtime eips) topology.

(** [projects._sync_showroom_topology_on_save:337-345] the map without the networks that left the
    canvas, and whether any had. *)
Definition drop_stale_vnis (topology : val) (vni_map : vnis) : res (vnis * bool) :=
  ns <- nodes_of topology;;
  ids <- map_res (λ n, idx n "id") ns;;
  stale <- filter_res (λ kv, b <- vin kv.1 ids;; Ok (negb b)) vni_map;;
  kept <- filter_res (λ kv, vin kv.1 ids) vni_map;;
  Ok (kept, bool_decide (stale ≠ [])).

(** [projects._sync_showroom_topology_on_save:347-354] *)
Definition networks_needing_vni (topology : val) (vni_map : vnis) : res (list val) :=
  ns <- nodes_of topology;;
  filter_res (λ n, has_type n "networkNode" <&&> needs_vni vni_map n) ns.

(** [projects._sync_showroom_topology_on_save:337-357] the VNIs of the canvas that is saved, and whether
    they differ; [None] when they are exhausted. *)
Definition vnis_on_save (db : DB) (topology : val) (vni_map : vnis) : res (option (vnis * bool)) :=
  '(kept, changed) <- drop_stale_vnis topology vni_map;;
  needing <- networks_needing_vni topology kept;;
  if bool_decide (needing = []) then Ok (Some (kept, changed))
  else
    o <- allocate_vnis_for_new_networks db needing kept;;
    Ok ((λ m, (m, true)) <$> o).

(** ** Checks before a deployment *)

Definition bmc_network_message : string :=
  "BMC network requires at least one connected VM to act as a provisioner".

(** [projects._validate_bmc_network]: the refusal, if any. *)
Definition validate_bmc_network (install_via_default : string) (topology : val) : res (option string) :=
  ops <- should_use_ops_pod install_via_default topology;;
  if ops then Ok None
  else
    ns <- nodes_of topology;;
    bmc <- find_res (λ n,
      has_type n "networkNode" <&&> (d <- data_of n;; t <- get d "networkType" VNone;; Ok (eq_str t "bmc"))) ns;;
    match bmc with
    | None => Ok None
    | Some n =>
        es <- edges_of topology;;
        b <- any_res (λ e,
          i <- idx n "id";;
          (s <- get e "source" VNone;; Ok (py_eq s i)) <||> (t <- get e "target" VNone;; Ok (py_eq t i))) es;;
        Ok (if b then None else Some bmc_network_message)
    end.

(** [projects._setup_multi_host_placement:2196-2200] [{host: [vms]}] as [{vm: host}]. *)
Definition flatten_assignments (host_assignments : list (string * list val)) : list (string * string) :=
  foldl (λ flat a, foldl (λ flat vid, assoc_set (py_str vid) a.1 flat) flat a.2) [] host_assignments.

(** ** Rebuilding OpenShift *)

(** [redeploy_ocp.topology_has_ocp_clusters] *)
Definition topology_has_ocp_clusters (topology : val) : res bool :=
  if negb (truthy topology) then Ok false
  else
    c <- get topology "clusters" VNone;;
    if truthy c then Ok true
    else
      ns <- get topology "nodes" VNone;;
      ns <- iter (v_or ns empty_list);;
      any_res (λ n, t <- type_of n;; Ok (eq_str t "clusterNode")) ns.

(** [redeploy_ocp.all_ocp_clusters_ready] *)
Definition all_ocp_clusters_ready (topology : val) : res bool :=
  c <- get (v_or topology empty_dict) "clusters" VNone;;
  if negb (truthy c) then Ok false
  else cs <- iter c;; all_res (λ c, s <- get c "ocpInstallStatus" VNone;; Ok (eq_str s "ready")) cs.

(** [redeploy_ocp._VM_OCP_CRED_KEYS] *)
Definition VM_OCP_CRED_KEYS : list string :=
  ["ocpKubeconfig"; "ocpKubeadminPassword"; "recertEnabled"; "guestfishCommands"].

(** [redeploy_ocp._CLUSTER_INSTALL_KEYS] *)
Definition CLUSTER_INSTALL_KEYS : list string := ["ocpInstallStatus"; "ocpInstallElapsed"; "ocpInstallStartedAt"].

(** [redeploy_ocp._STORAGE_PATTERN_KEYS] *)
Definition STORAGE_PATTERN_KEYS : list string := ["source"; "patternId"; "patternDiskId"].

(** The keys of the data of a node of each type. *)
Definition rebuild_keys (ntype : val) : option (list string) :=
  if eq_str ntype "vmNode" then Some VM_OCP_CRED_KEYS
  else if eq_str ntype "storageNode" then Some STORAGE_PATTERN_KEYS
  else None.

(** [redeploy_ocp._clear_node_ocp_rebuild_markers] *)
Definition clear_node_ocp_rebuild_markers (node : val) : res val :=
  data <- get node "data" VNone;;
  match data with
  | VDict _ =>
      t <- type_of node;;
      match rebuild_keys t with
      | None => Ok node
      | Some keys => data <- for_each keys data (λ k d, pop_item d k);; set_item node "data" data
      end
  | _ => Ok node
  end.

(** [redeploy_ocp.clear_topology_ocp_for_rebuild:74-77] one cluster. *)
Definition clear_cluster (cluster : val) : res val :=
  cluster <- for_each CLUSTER_INSTALL_KEYS cluster (λ k c, pop_item c k);;
  set_item cluster "ocpInstallStatus" (VStr "monitoring").

(** The items of a list of the canvas, changed in place; a missing or empty list stays as it is. *)
Definition map_items (key : string) (f : val → res val) (topology : val) : res val :=
  v <- get topology key VNone;;
  if negb (truthy v) then Ok topology
  else l <- iter v;; l <- map_res f l;; set_item topology key (VList l).

(** [redeploy_ocp.clear_topology_ocp_for_rebuild] *)
Definition clear_topology_ocp_for_rebuild (topology : val) : res val :=
  topology <- map_items "clusters" clear_cluster topology;;
  map_items "nodes" clear_node_ocp_rebuild_markers topology.

(** ** What the new networks get *)

Lemma vlookup_None {A} k (m : list (val * A)) : vlookup k m = None ↔ ∀ k', k' ∈ m.*1 → py_eq k k' = false.
Proof.
  induction m as [|[k' a] m IH]; csimpl; [split; [intros _ k' Hk; by apply not_elem_of_nil in Hk|done]|].
  destruct (py_eq k k') eqn:E.
  - split; [done|]. intros H. rewrite (H k') in E by left. done.
  - rewrite IH. split; [intros H k'' [->|Hk]%elem_of_cons; [done|by apply H]|intros H k'' Hk; apply H; by right].
Qed.

Section NewNetworks.
Context (db : DB) (m0 : vnis).
Notation used0 := (get_all_used_vnis db ++ m0.*2).

(** A VNI that nothing used before. *)
Definition new_vni (v : Z) : Prop := VNI_MIN ≤ v ≤ VNI_MAX ∧ v ∉ get_all_used_vnis db ∧ v ∉ m0.*2.

(** The loop has added [new]; below the next VNI to try all are taken. *)
Definition adding (s : vni_state) : Prop :=
  ∃ new, v_map s = m0 ++ new ∧ NoDup new.*2 ∧ (∀ v, v ∈ new.*2 → new_vni v ∧ v < v_next s) ∧
    (∀ v, v ∈ v_used s ↔ v ∈ new.*2 ∨ v ∈ used0) ∧
    VNI_MIN ≤ v_next s ∧ (∀ v, VNI_MIN ≤ v < v_next s → v ∈ v_used s).

Lemma needs_vni_true m n : needs_vni m n = Ok true → ∃ i, idx n "id" = Ok i ∧ hashable i = true ∧ vlookup i m = None.
Proof.
  unfold needs_vni. intros H. apply bind_Ok in H as (d & _ & H). apply py_and_true in H as [_ H].
  apply bind_Ok in H as (i & Hi & H). apply bind_Ok in H as (o & Ho & H). unfold vget, hkey in Ho.
  destruct (hashable i) eqn:Hh; cbn in Ho; [|discriminate]. injection Ho as <-. exists i.
  by destruct (vlookup i m).
Qed.

(** One network more: nothing changed, the next free VNI taken, or none left. *)
Lemma allocate_new_step n s c :
  adding s → allocate_new n s = Ok c →
  match c with
  | Next s' => adding s' ∧ (s' = s ∨ ∃ i v, idx n "id" = Ok i ∧ v_map s' = v_map s ++ [(i, v)])
  | Break _ => False
  | Return _ => ∀ v, VNI_MIN ≤ v ≤ VNI_MAX → v ∈ v_used s
  end.
Proof.
  intros Ha H. unfold allocate_new in H. apply bind_Ok in H as ([|] & Hn & H); cbn [negb] in H; [|simplify_eq; split; auto].
  destruct (next_free_spec (v_used s) (v_next s)) as (q & Hq & Hle & Hfree & Hbelow). rewrite Hq in H. cbn [bind] in H.
  destruct Ha as (new & Hm & Hd & Hnew & Hu & Hmin & Hall).
  assert (Hall' : ∀ v, VNI_MIN ≤ v < q → v ∈ v_used s).
  { intros v Hv. destruct (decide (v < v_next s)); [apply Hall|apply Hbelow]; lia. }
  destruct (VNI_MAX <? q) eqn:E; bool_lia.
  { simplify_eq. intros v Hv. apply Hall'. lia. }
  destruct (needs_vni_true _ _ Hn) as (i & Hi & Hh & Hl). rewrite Hi in H. cbn [bind] in H.
  unfold vset, hkey in H. rewrite Hh in H.
  cbn [bind] in H. simplify_eq. rewrite (vinsert_new i q (v_map s)) by by apply vlookup_None. cbn [v_map v_used v_next].
  split; [|right; by exists i, q]. exists (new ++ [(i, q)]). cbn [v_map v_used v_next]. rewrite Hm, fmap_app, <-app_assoc. cbn.
  assert (Hfresh : q ∉ new.*2 ∧ q ∉ used0) by (rewrite Hu in Hfree; tauto).
  assert (Hq' : new_vni q). { split; [lia|]. set_solver. }
  split_and!; [done| | | |lia|].
  - apply NoDup_app. split_and!; [done|set_solver|apply NoDup_singleton].
  - intros v [Hv| ->%list_elem_of_singleton]%elem_of_app; [|split; [done|lia]].
    destruct (Hnew v Hv). split; [done|lia].
  - intros v. rewrite elem_of_cons, Hu. set_solver.
  - intros v Hv. destruct (decide (v = q)) as [->|]; [by left|right; apply Hall'; lia].
Qed.

(** A network that has a VNI under its id. *)
Definition has_vni (m : vnis) (n : val) : Prop := ∃ i, idx n "id" = Ok i ∧ is_Some (vlookup i m).

Lemma vlookup_app_some {A} k (m m' : list (val * A)) : is_Some (vlookup k m) → is_Some (vlookup k (m ++ m')).
Proof. induction m as [|[k' a] m IH]; cbn; [by intros []|]. by destruct (py_eq k k'). Qed.

Lemma vlookup_app_new {A} k a (m : list (val * A)) : hashable k = true → is_Some (vlookup k (m ++ [(k, a)])).
Proof.
  intros Hk. induction m as [|[k' b] m IH]; cbn; [by rewrite hashable_py_eq_refl|]. by destruct (py_eq k k').
Qed.

(** A network that needed one and needs none any more has it. *)
Lemma needs_no_more m m' n : needs_vni m n = Ok true → needs_vni m' n = Ok false → has_vni m' n.
Proof.
  unfold needs_vni. destruct (get n "data" empty_dict) as [d|]; [|done]. cbn [bind].
  intros [Ha H]%py_and_true [H'|[_ H']]%py_and_false; [by rewrite Ha in H'|].
  apply bind_Ok in H as (i & Hi & H). rewrite Hi in H'. cbn [bind] in H'.
  unfold vget, hkey in *. destruct (hashable i); [|done]. cbn in H, H'. exists i. split; [done|].
  by destruct (vlookup i m').
Qed.

(** The whole loop. *)
Lemma allocate_new_loop l s r :
  adding s → for_ctl l s allocate_new = Ok r →
  match r with
  | inl s' => adding s' ∧ (∃ ext, v_map s' = v_map s ++ ext) ∧
              ∀ n, n ∈ l → needs_vni m0 n = Ok true → has_vni (v_map s') n
  | inr _ => ∃ s', adding s' ∧ (length (v_map s') ≤ length (v_map s) + length l)%nat ∧
               ∀ v, VNI_MIN ≤ v ≤ VNI_MAX → v ∈ v_used s'
  end.
Proof.
  revert s. induction l as [|n l IH]; intros s Hs H; cbn [for_ctl] in H.
  { simplify_eq. split_and!; [done|exists []; by rewrite app_nil_r|]. by intros n ?%not_elem_of_nil. }
  apply bind_Ok in H as (c & Hc & H). pose proof (allocate_new_step n s c Hs Hc) as Hstep.
  destruct c as [s'|s'|[]]; [|done|simplify_eq; exists s; split_and!; [done|cbn; lia|done]].
  destruct Hstep as [Hs' Hor]. specialize (IH s' Hs' H). destruct r as [sf|]; cycle 1.
  { destruct IH as (sf & Hsf & Hlen & Hall). exists sf. split_and!; [done| |done]. cbn.
    destruct Hor as [->|(i & v & _ & Hm)]; [lia|]. rewrite Hm, length_app in Hlen. cbn in Hlen. lia. }
  destruct IH as (Hsf & (ext & Hext) & Hall). split_and!; [done| |].
  - destruct Hor as [->|(i & v & _ & Hm)]; [by exists ext|]. exists ([(i, v)] ++ ext). by rewrite Hext, Hm, app_assoc.
  - intros n' [->|Hn']%elem_of_cons Hneed; [|by apply Hall].
    enough (has_vni (v_map s') n) as (i & Hi & Hl).
    { exists i. split; [done|]. rewrite Hext. by apply vlookup_app_some. }
    unfold allocate_new in Hc. apply bind_Ok in Hc as ([|] & Hb & Hc); cbn [negb] in Hc.
    + destruct (needs_vni_true _ _ Hb) as (i & Hi & Hh & Hl). exists i. split; [done|].
      apply bind_Ok in Hc as (q & _ & Hc). destruct (_ <? _); [done|]. rewrite Hi in Hc. cbn [bind] in Hc.
      unfold vset, hkey in Hc. rewrite Hh in Hc. cbn [bind] in Hc. simplify_eq/=.
      rewrite vinsert_new by by apply vlookup_None. by apply vlookup_app_new.
    + simplify_eq. by eapply needs_no_more.
Qed.
End NewNetworks.

(** C18: The VNIs of networks added to a deployed canvas.  The map only grows: what the project had
    stays; every network that asks for a VNI has one; the new ones are pairwise distinct, between
    [VNI_MIN] and [VNI_MAX], and no project uses them, nor this one.  When the answer is that there
    is none left, every VNI of the range is in use or was about to be handed out. *)
Theorem new_network_vnis db added m o :
  allocate_vnis_for_new_networks db added m = Ok o →
  match o with
  | Some m' =>
      (∃ new : vnis, m' = m ++ new ∧ NoDup new.*2 ∧ ∀ v, v ∈ new.*2 → new_vni db m v) ∧
      (∀ n, n ∈ added → needs_vni m n = Ok true → has_vni m' n)
  | None =>
      ∃ new : vnis, NoDup new.*2 ∧ (length new.*2 ≤ length added)%nat ∧
             ∀ v, VNI_MIN ≤ v ≤ VNI_MAX → v ∈ new.*2 ∨ v ∈ get_all_used_vnis db ∨ v ∈ m.*2
  end.
Proof.
  unfold allocate_vnis_for_new_networks. case_bool_decide as Hn.
  { intros [= <-]. subst. split; [|by intros n ?%not_elem_of_nil]. exists [].
    rewrite app_nil_r. split_and!; [done|constructor|by intros v ?%not_elem_of_nil]. }
  intros H. apply bind_Ok in H as (r & Hr & H).
  apply (allocate_new_loop db m) in Hr; cycle 1.
  { exists []. cbn. rewrite app_nil_r. split_and!; [done|constructor|set_solver|set_solver|done|]. lia. }
  destruct r as [s|[]]; simplify_eq.
  - destruct Hr as ((new & Hm & Hd & Hnew & _) & _ & Hall). split; [|done]. exists new.
    split_and!; [done..|]. intros v Hv. by apply Hnew.
  - destruct Hr as (s & (new & Hm & Hd & _ & Hu & _) & Hlen & Hall). exists new. split_and!; [done| |].
    + rewrite Hm, length_app in Hlen. cbn in Hlen. rewrite length_fmap. lia.
    + intros v [[H|[H|H]%elem_of_app]%Hu _]%(λ h, conj (Hall v h) h); auto.
Qed.

Definition lab_network (i : string) : val :=
  VDict [("id", VStr i); ("type", VStr "networkNode"); ("data", VDict [("subtype", VStr "network"); ("name", VStr i)])].

Definition vni_project (i : string) (m : vnis) : Project := mkProject i None (Some "h1") "active" (VDict []) (Some m) None.

Definition vni_db : DB :=
  mkDB [] [vni_project "p1" [(VStr "a", 1000); (VStr "b", 1002)]; vni_project "p2" [(VStr "c", 1004)]] [] [] [] [].

(** Two networks join a project: the holes are filled. *)
Lemma new_network_vnis_witness :
  allocate_vnis_for_new_networks vni_db [lab_network "x"; lab_network "y"] [(VStr "c", 1004)] =
    Ok (Some [(VStr "c", 1004); (VStr "x", 1001); (VStr "y", 1003)]) ∧
  (∃ new, [(VStr "c", 1004); (VStr "x", 1001); (VStr "y", 1003)] = [(VStr "c", 1004)] ++ new ∧ NoDup new.*2 ∧
     ∀ v, v ∈ new.*2 → new_vni vni_db [(VStr "c", 1004)] v) ∧
  (∀ n, n ∈ [lab_network "x"; lab_network "y"] → needs_vni [(VStr "c", 1004)] n = Ok true →
     has_vni [(VStr "c", 1004); (VStr "x", 1001); (VStr "y", 1003)] n).
Proof.
  assert (H : allocate_vnis_for_new_networks vni_db [lab_network "x"; lab_network "y"] [(VStr "c", 1004)] =
    Ok (Some [(VStr "c", 1004); (VStr "x", 1001); (VStr "y", 1003)])) by (vm_compute; reflexivity).
  split; [exact H|]. apply (new_network_vnis vni_db _ _ _ H).
Defined.

(** ** A saved canvas and the networks that are deployed

    A network dropped from the canvas loses its VNI when the canvas is saved, although it stays
    deployed until the changes are applied. *)

(** What is deployed: [b] is running under 1002; the canvas saved no longer shows it. *)
Example saved_canvas_releases_live_vni :
  vnis_on_save vni_db (VDict [("nodes", VList [lab_network "a"])]) [(VStr "a", 1000); (VStr "b", 1002)] =
    Ok (Some ([(VStr "a", 1000)], true)) ∧
  allocate_vnis_for_new_networks
    (mkDB [] [vni_project "p1" [(VStr "a", 1000)]; vni_project "p2" [(VStr "c", 1001)]] [] [] [] [])
    [lab_network "x"] [(VStr "c", 1001)] = Ok (Some [(VStr "c", 1001); (VStr "x", 1002)]).
Proof. vm_compute. by split. Qed.
