(* ===== verification/ProjectApi.v ===== *)
(** * The handlers of a project's life

    The routes of [api/projects.py] that take a project from one state to the next: save, deploy,
    stop, force-stop, start, reconfigure, redeploy, undeploy, delete, extend a timer.  A handler
    checks who asks and in what state the project is, then changes the row and hands a job to a
    worker ([workers/jobs.py]).

    A request has a session of its own ([core/database.get_db]) over the world of [JobMonad].  A
    refusal ([HTTPException]) is a value; any other exception is an exception of the job monad, the
    status 500.  What a handler hands over is the job in its reply. *)
From stdpp Require Import prelude strings gmap.
From S2P Require Import Prelude PyStr PyVal PyLemmas Db TopoNodes Vxlan GatewaySync TopologyValidate EgressRank DiffTopology.
From S2P Require Import PatternLocations Placement PlaceProject TopologyExtract JobMonad VmStart DeployCanvas DeployHost DeployTargets DeployFlow.
From S2P Require Import PowerFlow DestroyFlow ProjectCanvas.

Open Scope list_scope.

(** ** Requests and replies *)

(** Who asks. *)
Record user := mkUser { u_id : string; u_role : string }.

(** An [HTTPException]. *)
Record refusal := mkRefusal { f_code : Z; f_detail : string }.

(** What a worker is given to do. *)
Inductive job :=
| DeployJob
| StopJob
| StartJob
| ReconfigureJob (host_id : string) (restart_vm_ids : list string)
| RedeployJob (ctx : option destroy_ctx) (old_host_id : option string) (ocp_mode : option string)
| DestroyJob (ctx : destroy_ctx).

Record reply := mkReply { r_status : string; r_job : option job }.

(** A computation of a handler. *)
Definition H (A : Type) : Type := J (A + refusal).
Definition hret {A} (a : A) : H A := jret (inl a).
Definition refuse {A} (code : Z) (detail : string) : H A := jret (inr (mkRefusal code detail)).
Definition hbind {A B} (m : H A) (f : A → H B) : H B :=
  jbind m (λ r, match r with inl a => f a | inr e => jret (inr e) end).
Definition run {A} (m : J A) : H A := jbind m hret.

Declare Scope handler_scope.
Notation "x <-! m ;; k" := (hbind m (λ x, k)) (at level 100, m at next level, right associativity) : handler_scope.
Notation "m ;!; k" := (hbind m (λ _, k)) (at level 100, right associativity) : handler_scope.
Open Scope handler_scope.

(** A refusal unless the test holds. *)
Definition require (b : bool) (code : Z) (detail : string) : H unit := if b then hret tt else refuse code detail.

Definition PROJECT_NOT_FOUND : string := "Project not found".
Definition ACCESS_DENIED : string := "Access denied".
Definition HOST_NOT_AVAILABLE : string := "Host not available".

(** [library.LibraryItem] as the handlers read it. *)
Record library_item := mkLibraryItem { li_name : string; li_state : string }.

Section Api.
Context (env : environment) (exn_text : exn → string) (cfg : config) (sha256_hex : string → string).
Context (set_iter : list val → list val) (install_via_default fresh_id : string).

(** The table of the library, what [provision_host] returned, if it is called, whether a host has a
    private key, and the order of a set. *)
Context (library : string → option library_item) (provisioned : option provision_result).
Context (has_private_key : Host → bool) (set_order : list string → list string).
Context (pid : string) (who : user).

Notation lift := (jlift exn_text).
Notation look := (look exn_text).

(** [database.get_db] a handler in a session of its own, closed in the end. *)
Definition request (m : H reply) : J (reply + refusal) :=
  jmod close_session;;; jfinally m close_session.

(** [projects._owned_project_or_404:1812-1816] the row with its owner: the first lines of every handler. *)
Definition check_owner (found : bool) : H dproject :=
  require found 404 PROJECT_NOT_FOUND;!;
  p <-! run (project pid);;
  require (String.eqb (d_owner p) (u_id who) || String.eqb (u_role who) "admin") 403 ACCESS_DENIED;!;
  hret p.

(** [projects._owned_project_or_404] *)
Definition owned_project : H dproject := found <-! run (query_project pid);; check_owner found.

(** The host of the project. *)
Definition project_host : H (option Host) :=
  p <-! run (project pid);; run (find_host_row pid (p_host_id (d_row p))).

Definition state_text (p : dproject) (expected : string) : string := "Project is " +:+ d_state p +:+ ", " +:+ expected.

(** The canvas that is deployed, or else the editable one. *)
Definition running_topology (p : dproject) : val :=
  v_or (v_or (default VNone (d_deployed p)) (p_topology (d_row p))) empty_dict.

(** ** Checks before a deployment *)

(** [projects._check_library_items_ready] *)
Definition check_library_items_ready (topology : val) : H unit :=
  ns <-! run (lift (nodes_of topology));;
  foldr (λ node rest,
    storage <-! run (lift (has_type node "storageNode"));;
    if negb storage then rest
    else
      data <-! run (lift (data_of node));;
      lib_id <-! run (lift (get data "libraryItemId" VNone));;
      if negb (truthy lib_id) then rest
      else
        run (query pid);!;
        match library (py_str lib_id) with
        | None =>
            name <-! run (lift (data <- idx node "data";; get data "name" (VStr "storage")));;
            refuse 400 ("Library item not found for '" +:+ py_str name +:+ "'")
        | Some item =>
            require (String.eqb (li_state item) "ready") 400
              ("'" +:+ li_name item +:+ "' is still " +:+ li_state item +:+ ". Wait for it to finish.");!;
            rest
        end) (hret tt) ns.

(** [projects._validate_deploy_pool_and_host] *)
Definition validate_deploy_pool_and_host (storage_pool_id host_id : option string) : H unit :=
  require (bool_decide (text_opt storage_pool_id = None ∧ text_opt host_id = None) || String.eqb (u_role who) "admin")
    403 "Only admins can select a storage pool or host";!;
  match text_opt storage_pool_id with
  | None => hret tt
  | Some i =>
      run (query pid);!;
      pool <-! run (jget (λ w, List.find (λ sp, String.eqb (sp_id sp) i) (db_pools (jw_db w))));;
      match pool with
      | None => refuse 404 "Storage pool not found"
      | Some sp =>
          require (negb (startswith "shared" (sp_mode sp)) || String.eqb (sp_status sp) "available") 400
            ("Pool is not available (status: " +:+ sp_status sp +:+ ")")
      end
  end;!;
  match text_opt host_id with
  | None => hret tt
  | Some i =>
      host <-! run (find_host_row pid (Some i));;
      match host with
      | None => refuse 404 "Host not found"
      | Some h =>
          require (String.eqb (h_state h) "active" && String.eqb (h_agent_status h) "connected") 400
            ("Host is not available (state=" +:+ h_state h +:+ ", agent=" +:+ h_agent_status h +:+ ")")
      end
  end.

(** [projects._resolve_provider_type] *)
Definition resolve_provider_type : J (option string) := host_provider_type pid.

(** [projects._collect_deploy_topology_errors] *)
Definition collect_deploy_topology_errors (topology : val) : res (list string) :=
  a <- validate_topology_names topology;;
  b <- validate_topology_ips topology;;
  c <- validate_showroom_topology topology;;
  Ok (a ++ b ++ c).

(** ** Deploy *)

(** [placement.place_project] in the session of the request. *)
Definition place (storage_pool_id host_id : option string) : J placement_result :=
  flush pid;;;
  p <-' project pid;;
  now <-' now env;;
  w <-' jget id;;
  r <-' lift (place_project cfg set_iter provisioned now (mkWorld (full_db w) (jw_counters w) (jw_hwm w)) (d_row p)
                storage_pool_id host_id);;
  let w' := r.2 in
  jmod (λ w, set_hwm (set_counters (set_db w (mkDB (db_hosts (w_db w')) (db_projects (jw_db w)) (db_eips (jw_db w))
                (db_providers (jw_db w)) (db_pools (jw_db w)) (db_locations (jw_db w)))) (w_counters w')) (w_hwm w'));;;
  match r.1 with
  | SingleHost hid _ _ _ _ =>
      assign (WHost (Some hid));;; assign (WState "deploying");;; assign (WStarted (Some now));;; commit pid;;; jret r.1
  | _ => jret r.1
  end.

(** [projects._setup_multi_host_placement] *)
Definition setup_multi_host_placement (assignments : list (string * list val)) (network_host_id : string) (m : vnis)
    : J unit :=
  p <-' project pid;;
  assign (WState "deploying");;;
  assign (WMesh (d_mesh_subnet p) (Some network_host_id) (flatten_assignments assignments));;;
  assign (WHost (Some network_host_id));;;
  assign (WVni m);;;
  commit pid;;;
  project pid;;; jret tt.

Definition disk_full_message (used_pct : Z) : string :=
  "Host storage is " +:+ str_of_Z used_pct +:+ "% full. Free space or resize the volume before deploying.".

(** [projects._check_single_host_disk]: the share in use, a whole number here, or nothing known; any
    exception but the refusal is dropped.  The text of the refusal also has the gigabytes that are free. *)
Definition check_single_host_disk (host_id : string) : H unit :=
  host <-! run (find_host_row pid (Some host_id));;
  match host with
  | None => hret tt
  | Some h =>
      match text_opt (h_ip_address h) with
      | None => hret tt
      | Some _ =>
          jcatch
            (used <-! run (num_of env "check_disk_usage" [h_id h]);;
             match used with
             | None => hret tt
             | Some pct =>
                 run (project pid);!;
                 if 90 <=? pct then
                   run (assign (WState "draft");;; commit pid);!; refuse 507 (disk_full_message pct)
                 else hret tt
             end) (λ _, hret tt)
      end
  end.

(** [redis.enqueue_job]: it never raises; without Redis the job runs in a thread. *)
Definition enqueue_job (name : string) : J unit := emit (Call "enqueue_job" [name; pid]).

(** [projects._persist_placement_and_enqueue] *)
Definition persist_placement_and_enqueue (result : placement_result) : H reply :=
  match result with
  | PlaceError msg _ => refuse 503 msg
  | MultiHost assignments network_host_id _ m =>
      run (setup_multi_host_placement assignments network_host_id m);!;
      run (project pid;;; enqueue_job "deploy_project_async");!;
      hret (mkReply "deploying" (Some DeployJob))
  | SingleHost host_id _ _ m _ =>
      check_single_host_disk host_id;!;
      run (assign (WVni m);;; commit pid);!;
      run (project pid;;; enqueue_job "deploy_project_async");!;
      hret (mkReply "deploying" (Some DeployJob))
  end.

(** [projects.deploy_project:2302-2345] the checks: those that need only the row and the canvas. *)
Definition check_deployable (p : dproject) : H val :=
  require (String.eqb (d_state p) "draft") 409 (state_text p "not draft");!;
  let topology := p_topology (d_row p) in
  require (truthy topology) 400 "Project has no topology";!;
  provider_type <-! run resolve_provider_type;;
  injected <-! run (lift (inject_showroom_gateway_port_forwards fresh_id topology (default [] (p_vni_map (d_row p))) provider_type));;
  errors <-! run (lift (collect_deploy_topology_errors injected.2));;
  require (bool_decide (errors = [])) 400 ("Topology has errors: " +:+ join "; " errors);!;
  reqs <-! run (lift (calculate_project_requirements topology));;
  require (negb (r_vm_count reqs =? 0)) 400 "Project has no VMs";!;
  bmc <-! run (lift (validate_bmc_network install_via_default topology));;
  match bmc with Some msg => refuse 400 msg | None => hret injected.2 end.

(** [projects.deploy_project] *)
Definition deploy_project (storage_pool_id host_id provider_id : option string) : H reply :=
  p <-! owned_project;;
  check_deployable p;!;
  check_library_items_ready (p_topology (d_row p));!;
  validate_deploy_pool_and_host storage_pool_id host_id;!;
  ptr_err <-! run (in_session env pid (error_of env "check_pull_through_registry_for_project" [pid]));;
  match ptr_err with
  | Some msg => refuse 400 msg
  | None =>
      p <-! run (project pid);;
      (match text_opt provider_id, text_opt (p_provider_id (d_row p)) with
       | Some i, None => run (assign (WProvider (Some i));;; commit pid)
       | _, _ => hret tt
       end);!;
      result <-! run (place storage_pool_id host_id);;
      persist_placement_and_enqueue result
  end.

(** ** Stop and start *)

(** [projects._reject_unsupported_hibernate] *)
Definition reject_unsupported_hibernate (off_action : option string) : H unit :=
  p <-! run (project pid);;
  match text_opt (p_host_id (d_row p)) with
  | None => hret tt
  | Some i =>
      if bool_decide (off_action = Some "hibernate") then
        host <-! run (find_host_row pid (Some i));;
        match host with
        | None => hret tt
        | Some h => require (supports_hibernate h) 409 "Hibernate is not supported on this host type"
        end
      else hret tt
  end.

(** [projects.stop_project:2361-2380] from the row it has read. *)
Definition stop_owned (p : dproject) : H reply :=
  require (String.eqb (d_state p) "active") 409 (state_text p "not active");!;
  reject_unsupported_hibernate (Some (d_off_action p));!;
  run (assign (WState "stopping");;; commit pid;;; emit (Notify "stopping" "");;;
       project pid;;; enqueue_job "stop_project_async");!;
  hret (mkReply "stopping" (Some StopJob)).

(** [projects.stop_project] *)
Definition stop_project : H reply := p <-! owned_project;; stop_owned p.

(** [projects.start_project] *)
Definition start_project : H reply :=
  p <-! owned_project;;
  require (String.eqb (d_state p) "stopped" || String.eqb (d_state p) "error") 409 (state_text p "not stopped");!;
  run (t <-' now env;;
       assign (WState "starting");;; assign (WStarted (Some t));;; commit pid;;; emit (Notify "starting" "");;;
       project pid;;; enqueue_job "start_project_async");!;
  hret (mkReply "starting" (Some StartJob)).

(** ** Force-stop *)

(** [projects._force_stop_kubevirt_vms] *)
Definition force_stop_kubevirt_vms (host : Host) (vms : list val) : J unit :=
  provider <-' host_provider pid host;;
  match provider with
  | None => jret tt
  | Some _ =>
      do_ env "k8s_clients" [];;;
      jeach vms (λ vm,
        name <-' lift (i <- idx vm "id";; kv_name i);;
        jcatch (do_ env "patch_kubevirt_run_strategy" [name; "Halted"]) (λ _, jret tt))
  end.

(** [projects._force_stop_troshkad_vms] *)
Definition force_stop_troshkad_vms (host : Host) (vms : list val) : H unit :=
  require (bool_decide (is_Some (text_opt (h_ip_address host)))) 503 HOST_NOT_AVAILABLE;!;
  run (jeach vms (λ vm,
    i <-' lift (i <- idx vm "id";; as_text i);;
    catch_troshkad
      (job_id <-' agent_start env host "/vms/force-off" (vm_domain_name sha256_hex pid i);;
       agent_wait env host job_id 30;;; jret tt) (λ _, jret tt))).

(** [projects.force_stop_project] *)
Definition force_stop_project : H reply :=
  p <-! owned_project;;
  host <-! project_host;;
  match host with
  | None => refuse 503 HOST_NOT_AVAILABLE
  | Some h =>
      vms <-! run (lift (ns <- nodes_of (running_topology p);; filter_res (λ n, has_type n "vmNode") ns));;
      (if String.eqb (h_host_type h) "kubevirt-cluster" then run (force_stop_kubevirt_vms h vms)
       else force_stop_troshkad_vms h vms);!;
      run (assign (WState "stopped");;; commit pid;;; emit (Notify "stopped" ""));!;
      hret (mkReply "stopped" None)
  end.

(** ** Reconfigure *)

(** [projects._require_reconfigure_host] *)
Definition require_reconfigure_host (host : option Host) : H Host :=
  match host with
  | None => refuse 503 HOST_NOT_AVAILABLE
  | Some h =>
      require (String.eqb (h_host_type h) "kubevirt-cluster" ||
               has_private_key h && bool_decide (is_Some (text_opt (h_ip_address h)))) 503 HOST_NOT_AVAILABLE;!;
      hret h
  end.

(** [projects._maybe_validate_bmc_for_reconfigure] *)
Definition maybe_validate_bmc_for_reconfigure (p : dproject) (current : val) : res (option string) :=
  ops <- should_use_ops_pod install_via_default (v_or (default VNone (d_deployed p)) current);;
  if ops then Ok None else validate_bmc_network install_via_default current.

(** [projects._reconfigure_diff]: the networks that are new. *)
Definition reconfigure_added_networks (current deployed : val) : res (list val) :=
  if truthy deployed then d <- diff_topologies current deployed;; Ok (added_networks d) else Ok [].

(** [projects.reconfigure_project] *)
Definition reconfigure_project (restart_vm_ids : list string) : H reply :=
  p <-! owned_project;;
  require (String.eqb (d_state p) "active" || String.eqb (d_state p) "stopped") 409 (state_text p "cannot reconfigure");!;
  require (bool_decide (is_Some (text_opt (p_host_id (d_row p))))) 400 "Project has no active deployment";!;
  host <-! project_host;;
  host <-! require_reconfigure_host host;;
  let current := v_or (p_topology (d_row p)) empty_dict in
  bmc <-! run (lift (maybe_validate_bmc_for_reconfigure p current));;
  match bmc with
  | Some msg => refuse 400 msg
  | None =>
      added <-! run (lift (reconfigure_added_networks current (default VNone (d_deployed p))));;
      (if bool_decide (added = []) then hret tt else run (query pid));!;
      db <-! run (jget full_db);;
      vni_map <-! run (lift (allocate_vnis_for_new_networks db added (default [] (p_vni_map (d_row p)))));;
      match vni_map with
      | None => refuse 507 "VNI pool exhausted"
      | Some m =>
          run (assign (WVni m);;; assign (WState "reconfiguring");;; commit pid;;;
               project pid;;; enqueue_job "job_reconfigure_bg");!;
          hret (mkReply "reconfiguring" (Some (ReconfigureJob (h_id host) (set_order (dedup_first restart_vm_ids)))))
      end
  end.

(** ** Redeploy *)

(** [projects.redeploy_project:7001-7001] the row is queried [with_for_update]: it is locked from here to the
    commit. *)
Definition query_project_for_update : J bool :=
  found <-' query_project pid;;
  (if found : bool then
     jmod (λ w, set_sess w (mkSess (s_obj (jw_sess w)) (s_dirty (jw_sess w)) true (s_alias (jw_sess w))))
   else jret tt);;;
  jret found.

(** [projects._resolve_redeploy_ocp_mode] *)
Definition resolve_redeploy_ocp_mode (p : dproject) (ocp_mode : option string) : H (option string) :=
  let topo := running_topology p in
  has <-! run (lift (topology_has_ocp_clusters topo));;
  if negb has then hret None
  else
    require (bool_decide (ocp_mode = Some "rebuild" ∨ ocp_mode = Some "recert")) 400
      "ocp_mode is required for projects with OpenShift clusters (rebuild or recert)";!;
    (if bool_decide (ocp_mode = Some "recert") then
       ready <-! run (lift (all_ocp_clusters_ready topo));;
       require ready 409 ("Re-cert requires all OpenShift clusters to be ready. " +:+
                          "Use rebuild to wipe disks and reinstall from scratch.")
     else hret tt);!;
    hret ocp_mode.

(** [projects._build_destroy_context] *)
Definition build_destroy_context (p : dproject) : destroy_ctx :=
  mkCtx (p_host_id (d_row p)) (default [] (p_vni_map (d_row p))) (running_topology p) (d_dns p).1.1.

(** [projects._redeploy_destroy_context] *)
Definition redeploy_destroy_context (p : dproject) (ocp_mode : option string) : H (option destroy_ctx) :=
  if bool_decide (ocp_mode = Some "recert") || bool_decide (text_opt (p_host_id (d_row p)) = None) then hret None
  else
    host <-! project_host;;
    require (bool_decide (is_Some (h ← host; text_opt (h_ip_address h)))) 503
      ("Host not reachable — cannot destroy existing VMs. Stop the project first or wait for the host to come online.");!;
    hret (Some (build_destroy_context p)).

(** [redeploy_ocp.apply_ocp_rebuild_to_project]; the detail of the status and the times of the control
    plane are no columns of the row here. *)
Definition apply_ocp_rebuild_to_project (p : dproject) : J unit :=
  (if truthy (p_topology (d_row p)) then
     t <-' lift (clear_topology_ocp_for_rebuild (p_topology (d_row p)));; assign (WTopology t)
   else jret tt);;;
  (let deployed := default VNone (d_deployed p) in
   if truthy deployed then t <-' lift (clear_topology_ocp_for_rebuild deployed);; assign (WDeployed t) else jret tt);;;
  assign (WOcp None None);;; assign (WElapsed None).

(** [projects._apply_redeploy_project_state] *)
Definition apply_redeploy_project_state (old_host_id ocp_mode : option string) : J unit :=
  p <-' project pid;;
  t <-' now env;;
  assign (WState "deploying");;; assign (WHost old_host_id);;;
  (if bool_decide (ocp_mode = Some "recert") then assign (WOcp (Some "monitoring") (d_ocp_started p))
   else assign WNoVni;;; assign (WOcp None (d_ocp_started p));;; assign (WElapsed None));;;
  assign (WError None);;; assign (WProgress None);;; assign (WStarted (Some t)).

(** [template_workloads.clear_workloads_done] *)
Definition clear_workloads_done (topology : val) : res (val * bool) :=
  match topology with
  | VDict _ => has <- has_key "workloadsDone" topology;; if has then t <- pop_item topology "workloadsDone";; Ok (t, true) else Ok (topology, false)
  | _ => Ok (topology, false)
  end.

(** [template_workloads.reset_template_workloads_for_redeploy]; the runs still active are cancelled in
    their table. *)
Definition reset_template_workloads_for_redeploy : J unit :=
  p <-' project pid;;
  r <-' lift (clear_workloads_done (p_topology (d_row p)));;
  (if r.2 then assign (WTopology r.1) else jret tt);;;
  r <-' lift (clear_workloads_done (default VNone (d_deployed p)));;
  (if r.2 then assign (WDeployed r.1) else jret tt);;;
  query pid;;;
  emit (Call "cancel_workload_runs" [pid]).

(** [projects.redeploy_project:7002-7059] from the row it has locked, or from none. *)
Definition redeploy_found (ocp_mode : option string) (found : bool) : H reply :=
  p <-! check_owner found;;
  require (String.eqb (d_state p) "active" || String.eqb (d_state p) "stopped" || String.eqb (d_state p) "error") 409
    (state_text p "cannot redeploy");!;
  let topology := p_topology (d_row p) in
  check_library_items_ready (v_or topology empty_dict);!;
  require (truthy topology) 400 "Project has no topology";!;
  reqs <-! run (lift (calculate_project_requirements topology));;
  require (negb (r_vm_count reqs =? 0)) 400 "Project has no VMs";!;
  ocp_mode <-! resolve_redeploy_ocp_mode p ocp_mode;;
  destroy_ctx <-! redeploy_destroy_context p ocp_mode;;
  let old_host_id := p_host_id (d_row p) in
  run (emit (Call "mark_cancelled" [pid]);;;
       (if bool_decide (ocp_mode = Some "rebuild") then apply_ocp_rebuild_to_project p else jret tt);;;
       apply_redeploy_project_state old_host_id ocp_mode;;;
       reset_template_workloads_for_redeploy;;;
       commit pid;;;
       project pid;;;
       delete_deploy_progress;;;
       enqueue_job "job_redeploy_bg");!;
  hret (mkReply "deploying" (Some (RedeployJob destroy_ctx old_host_id ocp_mode))).

(** [projects.redeploy_project] *)
Definition redeploy_project (ocp_mode : option string) : H reply :=
  found <-! run query_project_for_update;; redeploy_found ocp_mode found.

(** ** Undeploy and delete *)

(** A job run within the request: it has sessions of its own. *)
Definition inline {A} (m : J A) : J A := λ w,
  let '(w', o) := m (set_sess w new_session) in (set_sess w' (jw_sess w), o).

(** [projects.undeploy_project]; an error the session has not loaded is not cleared: an attribute assigned the
    value it has is not written. *)
Definition undeploy_project : H reply :=
  p <-! owned_project;;
  (match text_opt (p_host_id (d_row p)) with
   | Some _ => run (inline (destroy_project_sync env exn_text sha256_hex install_via_default set_order pid
                              (build_destroy_context p) false))
   | None => hret tt
   end);!;
  run (assign (WState "draft");;; assign (WHost None);;; assign WNoVni;;;
       (if bool_decide (d_error p = None) then jret tt else assign (WError None));;;
       commit pid;;;
       in_session env pid (do_ env "touch_metering" []));!;
  hret (mkReply "draft" None).

(** [projects.delete_project]; the last reply has no body. *)
Definition delete_project : H reply :=
  p <-! owned_project;;
  run (in_session env pid (do_ env "safe_freeze_invoice" [pid]));!;
  run (query pid);!;
  eips <-! run (jget (λ w, project_eips pid (jw_db w)));;
  run (jeach eips (λ e, jcatch (in_session env pid (do_ env "release_eip" [e_id e])) (λ _, jret tt)));!;
  p <-! run (project pid);;
  if bool_decide (is_Some (text_opt (p_host_id (d_row p)))) && negb (String.eqb (d_state p) "draft") then
    run (assign (WState "deleting");;; assign (WError None);;; commit pid;;; emit (Notify "deleting" "");;;
         emit (Call "mark_cancelled" [pid]));!;
    p <-! run (project pid);;
    run (enqueue_job "destroy_project_sync");!;
    hret (mkReply "deleting" (Some (DestroyJob (build_destroy_context p))))
  else
    run (λ w, match current pid w with
              | None => (w, Exc stale)
              | Some _ =>
                  (add_event (add_event (set_sess (set_rows w (List.filter (λ p, negb (is_pid pid p)) (jw_rows w))) new_session)
                     RecordDeleted) (Notify "project-deleted" ""), Ret tt)
              end);!;
    hret (mkReply "deleted" None).

(** ** Timers *)

Definition minutes (m : Z) : Z := m * 60000000.

(** [projects._recompute_auto_stop_timer], the minutes being set. *)
Definition recompute_auto_stop (now : Z) (state : string) (t : timers) : timers :=
  match t_stop_minutes t with
  | None =>
      mkTimers None None None false (t_delete_minutes t) (t_delete_started t) (t_delete_warned t) (t_lifetime t)
  | Some m =>
      let started := match t_stop_started t with
                     | None => if String.eqb state "active" then Some now else None | s => s end in
      let expires := match started with Some s => Some (s + minutes m) | None => t_stop_expires t end in
      mkTimers (Some m) started expires false (t_delete_minutes t) (t_delete_started t) (t_delete_warned t) (t_lifetime t)
  end.

(** [projects._recompute_auto_delete_timer], the minutes being set. *)
Definition recompute_auto_delete (now : Z) (state : string) (t : timers) : timers :=
  match t_delete_minutes t with
  | None =>
      mkTimers (t_stop_minutes t) (t_stop_started t) (t_stop_expires t) (t_stop_warned t) None None false None
  | Some m =>
      let started := match t_delete_started t with
                     | None => if String.eqb state "draft" then None else Some now | s => s end in
      let expires := match started with Some s => Some (s + minutes m) | None => t_lifetime t end in
      mkTimers (t_stop_minutes t) (t_stop_started t) (t_stop_expires t) (t_stop_warned t) (Some m) started false expires
  end.

(** The columns with other minutes. *)
Definition with_stop_minutes (t : timers) (m : option Z) : timers :=
  mkTimers m (t_stop_started t) (t_stop_expires t) (t_stop_warned t) (t_delete_minutes t) (t_delete_started t)
    (t_delete_warned t) (t_lifetime t).
Definition with_delete_minutes (t : timers) (m : option Z) : timers :=
  mkTimers (t_stop_minutes t) (t_stop_started t) (t_stop_expires t) (t_stop_warned t) m (t_delete_started t)
    (t_delete_warned t) (t_lifetime t).

(** [projects.extend_timer:2105-2121]: the timers, or the refusal. *)
Definition extended (timer : string) (add_minutes : Z) (t : timers) : timers + string :=
  if String.eqb timer "auto_stop" then
    match t_stop_expires t with
    | None => inr "Auto-stop timer is not active"
    | Some e =>
        inl (mkTimers (t_stop_minutes t) (t_stop_started t) (Some (e + minutes add_minutes)) false (t_delete_minutes t)
               (t_delete_started t) (t_delete_warned t) (t_lifetime t))
    end
  else if String.eqb timer "auto_delete" then
    match t_lifetime t with
    | None => inr "Auto-delete timer is not active"
    | Some e =>
        inl (mkTimers (t_stop_minutes t) (t_stop_started t) (t_stop_expires t) (t_stop_warned t) (t_delete_minutes t)
               (t_delete_started t) false (Some (e + minutes add_minutes)))
    end
  else inr "timer must be 'auto_stop' or 'auto_delete'".

(** [projects.extend_timer] *)
Definition extend_timer (timer : string) (add_minutes : Z) : H reply :=
  p <-! owned_project;;
  match extended timer add_minutes (d_timers p) with
  | inr msg => refuse 400 msg
  | inl t => run (assign (WTimers t);;; commit pid;;; project pid);!; hret (mkReply "project" None)
  end.

(** ** Save *)

(** [project_schema.ProjectUpdate]: the fields that are columns of the row here; [None] is a field that is
    not set.  A null for a column that has none is outside the model. *)
Record project_update := mkUpdate {
  up_stop_minutes : option (option Z);
  up_delete_minutes : option (option Z);
  up_off_action : option string;
  up_state : option string;
  up_topology : option val;
  up_clock_target : option (option Z);
  up_guest_exec : option bool
}.

(** An assignment when the field is set. *)
Definition set_field {A} (o : option A) (f : A → write) : J unit :=
  match o with Some a => assign (f a) | None => jret tt end.

(** [projects._sync_showroom_topology_on_save]: the canvas is the job's. *)
Definition sync_showroom_topology_on_save : H unit :=
  p <-! run (project pid);;
  t <-! run topology;;
  r <-! run (db <-' jget full_db;; lift (vnis_on_save db t (default [] (p_vni_map (d_row p)))));;
  match r with
  | None => refuse 507 "VNI pool exhausted"
  | Some (m, changed) =>
      run ((if changed : bool then assign (WVni m) else jret tt);;;
           provider_type <-' resolve_provider_type;;
           injected <-' lift (inject_showroom_gateway_port_forwards fresh_id t m provider_type);;
           jmod (λ w, set_topo w injected.2))
  end.

(** [projects._apply_topology_update_fields]: what heals the clusters of the canvas and what copies the flags
    of joined workers change the canvas. *)
Definition apply_topology_update_fields (previous topo : val) : H unit :=
  run (jmod (λ w, set_topo w topo);;;
       do_ env "heal_cluster_topology" [];;;
       t <-' topology;; t <-' lift (preserve_topology_import_metadata previous t);; jmod (λ w, set_topo w t);;;
       do_ env "sync_joined_worker_flags_from_deployed" []);!;
  t <-! run topology;;
  many <-! run (lift (many_bastion_browsers t));;
  require (negb many) 400 "Only one VM can have 'Configure bastion browser' enabled per project";!;
  run (t <-' lift (t <- map_external_ips strip_external_ip t;; strip_topology_runtime_node_fields t);;
       eips <-' (query pid;;; jget (λ w, project_eips pid (jw_db w)));;
       t <-' lift (apply_eip_runtime_to_topology eips t);;
       jmod (λ w, set_topo w t));!;
  sync_showroom_topology_on_save;!;
  run (t <-' topology;; assign (WTopology t)).

(** [projects.update_project] *)
Definition update_project (u : project_update) : H reply :=
  p <-! owned_project;;
  reject_unsupported_hibernate (up_off_action u);!;
  let previous := v_or (p_topology (d_row p)) empty_dict in
  run (set_field (up_stop_minutes u) (λ m, WTimers (with_stop_minutes (d_timers p) m));;;
       p <-' project pid;;
       set_field (up_delete_minutes u) (λ m, WTimers (with_delete_minutes (d_timers p) m));;;
       set_field (up_off_action u) WOffAction;;;
       set_field (up_state u) WState;;;
       set_field (up_topology u) WTopology;;;
       set_field (up_clock_target u) WClock;;;
       set_field (up_guest_exec u) WGuestExec);!;
  run (p <-' project pid;; t <-' now env;;
       set_field (up_stop_minutes u) (λ _, WTimers (recompute_auto_stop t (d_state p) (d_timers p)));;;
       p <-' project pid;;
       set_field (up_delete_minutes u) (λ _, WTimers (recompute_auto_delete t (d_state p) (d_timers p))));!;
  p <-! run (project pid);;
  run (if bool_decide (is_Some (up_clock_target u)) && String.eqb (d_state p) "active"
       then emit (Call "adjust_clocks_async" [pid]) else jret tt);!;
  (match up_topology u with
   | Some _ => apply_topology_update_fields previous (v_or (p_topology (d_row p)) empty_dict)
   | None => hret tt
   end);!;
  run (commit pid;;; project pid);!;
  run (match up_topology u with Some _ => emit (Notify "topology-update" "") | None => jret tt end);!;
  hret (mkReply "project" None).

(** ** Workers *)

(** [redeploy_ocp.run_inplace_ocp_recert:133-150] the host is there: the pod runs the installation again. *)
Definition recert_on_host (host : Host) : J unit :=
  p <-' project pid;;
  let topology := running_topology p in
  ops <-' lift (should_use_ops_pod install_via_default topology);;
  if negb ops then
    assign (WState "error");;;
    assign (WError (Some "Cannot re-cert in place: project is not ops-pod (bastionless) OCP"));;; commit pid
  else
    assign (WOcp (Some "monitoring") (d_ocp_started p));;; assign (WError None);;; commit pid;;;
    jcatch
      (project pid;;; in_session env pid (do_ env "deploy_ops_pod" [h_id host]);;; assign (WState "active");;; commit pid)
      (λ e, p <-' project pid;;
            assign (WState "error");;; assign (WError (Some ("Re-cert failed: " +:+ exn_str e)));;;
            assign (WOcp (Some "error") (d_ocp_started p));;; commit pid).

(** [redeploy_ocp.run_inplace_ocp_recert] *)
Definition run_inplace_ocp_recert : J unit :=
  emit (Call "clear_cancelled" [pid]);;;
  jmod close_session;;;
  jfinally
    (found <-' query_project pid;;
     if negb found then jret tt
     else
       p <-' project pid;;
       match text_opt (p_host_id (d_row p)) with
       | None => assign (WState "error");;; assign (WError (Some "Cannot re-cert: project has no host"));;; commit pid
       | Some i =>
           host <-' find_host_row pid (Some i);;
           match host with
           | Some h =>
               match text_opt (h_ip_address h) with
               | Some _ => recert_on_host h
               | None => assign (WState "error");;; assign (WError (Some "Cannot re-cert: host not reachable"));;; commit pid
               end
           | None => assign (WState "error");;; assign (WError (Some "Cannot re-cert: host not reachable"));;; commit pid
           end
       end) close_session.

(** [jobs.job_redeploy_bg:218-228] the project is destroyed, its host's capacity counted again; whether the
    project is still there. *)
Definition redeploy_destroy (ctx : destroy_ctx) : J bool :=
  inline (destroy_project_sync env exn_text sha256_hex install_via_default set_order pid ctx false);;;
  found <-' query_project pid;;
  if negb found then jret false
  else
    assign (WHost None);;; commit pid;;;
    host <-' find_host_row pid (x_host_id ctx);;
    match host with
    | None => jret true
    | Some h =>
        db <-' jget full_db;;
        synced <-' lift (sync_host_capacity db h);;
        jmod (λ w, set_db w (save_host (jw_db w) synced));;; commit pid;;; jret true
    end.

(** [jobs.job_redeploy_bg:217-243] destroyed and placed: whether to deploy. *)
Definition redeploy_place (ctx : option destroy_ctx) (old_host_id : option string) : J bool :=
  there <-' (match ctx with Some c => redeploy_destroy c | None => jret true end);;
  if negb there then jret false
  else
    found <-' query_project pid;;
    if negb found then jret false
    else
      result <-' place None old_host_id;;
      match result with
      | PlaceError msg _ => assign (WState "error");;; assign (WError (Some msg));;; commit pid;;; jret false
      | SingleHost _ _ _ m _ | MultiHost _ _ _ m => assign (WVni m);;; commit pid;;; jret true
      end.

(** [jobs.job_redeploy_bg]; [member_id] as for a deployment. *)
Definition job_redeploy_bg (member_id : nat → string) (ctx : option destroy_ctx) (old_host_id ocp_mode : option string)
    : J unit :=
  if bool_decide (ocp_mode = Some "recert") then run_inplace_ocp_recert
  else
    jmod close_session;;;
    go <-' jfinally (redeploy_place ctx old_host_id) close_session;;
    if go : bool then
      emit (Call "clear_cancelled" [pid]);;;
      deploy_project_async env exn_text cfg sha256_hex set_iter install_via_default fresh_id member_id pid true None
    else jret tt.

(** What the worker runs; the reconfiguration is a call. *)
Definition run_job (member_id : nat → string) (j : job) : J unit :=
  match j with
  | DeployJob =>
      deploy_project_async env exn_text cfg sha256_hex set_iter install_via_default fresh_id member_id pid true None
  | StopJob => stop_project_async env exn_text sha256_hex pid
  | StartJob => start_project_async env exn_text sha256_hex pid
  | ReconfigureJob host_id ids => jmod close_session;;; do_ env "job_reconfigure_bg" (host_id :: ids)
  | RedeployJob ctx old_host_id ocp_mode => job_redeploy_bg member_id ctx old_host_id ocp_mode
  | DestroyJob ctx => destroy_project_sync env exn_text sha256_hex install_via_default set_order pid ctx true
  end.

(** The host a job is enqueued for. *)
Definition job_host (j : job) : option string :=
  match j with
  | ReconfigureJob host_id _ => Some host_id
  | RedeployJob _ old_host_id _ => text_opt old_host_id
  | _ => None
  end.

(** [redis._on_job_success]: a job that names a host is taken off the host's count. *)
Definition on_job_success (j : job) (w : jobw) : jobw :=
  match job_host j with
  | Some h => set_counters w (record_deploy_end (jw_counters w) h)
  | None => w
  end.
End Api.
