(* ===== verification/ApiSafe.v ===== *)
(** * A request is refused without effect, or hands over exactly one job

    What the handlers of [ProjectApi] promise: a refusal leaves the rows and the queue as they were;
    an accepted request comes from someone who may act, found the project in a state its job starts
    from, leaves it in the transitional state of that job and enqueues the job once, after the
    commit.  Then the jobs themselves: what an accepted request starts ends. *)
From stdpp Require Import prelude strings gmap.
From S2P Require Import Prelude PyStr PyVal PyLemmas Db TopoNodes Vxlan Placement PlaceProject PatternLocations.
From S2P Require Import JobMonad VmStart DeployHost DeployTargets DeployFlow JobTriples DeploySafe PowerFlow PowerSafe DestroyFlow ProjectCanvas ProjectApi.

Open Scope list_scope.
Open Scope handler_scope.

(** ** What a job starts from *)

Definition job_sources (j : job) : list string :=
  match j with
  | DeployJob => ["draft"]
  | StopJob => ["active"]
  | StartJob => ["stopped"; "error"]
  | ReconfigureJob _ _ => ["active"; "stopped"]
  | RedeployJob _ _ _ => ["active"; "stopped"; "error"]
  | DestroyJob _ => []
  end.

(** The state in which a project waits for its job. *)
Definition job_limbo (j : job) : string :=
  match j with
  | DeployJob | RedeployJob _ _ _ => "deploying"
  | StopJob => "stopping"
  | StartJob => "starting"
  | ReconfigureJob _ _ => "reconfiguring"
  | DestroyJob _ => "deleting"
  end.

(** The function the worker is told to call. *)
Definition job_entry (j : job) : string :=
  match j with
  | DeployJob => "deploy_project_async"
  | StopJob => "stop_project_async"
  | StartJob => "start_project_async"
  | ReconfigureJob _ _ => "job_reconfigure_bg"
  | RedeployJob _ _ _ => "job_redeploy_bg"
  | DestroyJob _ => "destroy_project_sync"
  end.

(** Who may act on a project. *)
Definition may_act (who : user) (p : dproject) : Prop := d_owner p = u_id who ∨ u_role who = "admin".

(** Events that neither write the row nor enqueue a job. *)
Definition enqueues (e : event) : bool := match e with Call f _ => String.eqb f "enqueue_job" | _ => false end.
Definition writes_row (e : event) : bool := match e with Committed _ | RecordDeleted => true | _ => false end.
Definition quiet_event (e : event) : bool := negb (enqueues e || writes_row e).

(** The world but for the session and for quiet events. *)
Definition still (w w' : jobw) : Prop :=
  jw_rows w' = jw_rows w ∧ jw_db w' = jw_db w ∧ jw_counters w' = jw_counters w ∧ jw_hwm w' = jw_hwm w ∧
  jw_permits w' = jw_permits w ∧ ∃ es, jw_log w' = jw_log w ++ es ∧ Forall (λ e, quiet_event e = true) es.

Lemma still_refl w : still w w.
Proof. split_and!; try done. exists []. by rewrite app_nil_r. Qed.

Lemma still_trans w1 w2 w3 : still w1 w2 → still w2 w3 → still w1 w3.
Proof.
  intros (? & ? & ? & ? & ? & es & He & Hq) (? & ? & ? & ? & ? & es' & He' & Hq').
  split_and!; try congruence. exists (es ++ es'). rewrite He', He, app_assoc. split; [done|by apply Forall_app].
Qed.

Lemma still_sess w s : still w (set_sess w s).
Proof. split_and!; try done. exists []. by rewrite app_nil_r. Qed.

Lemma still_emit w e : quiet_event e = true → still w (add_event w e).
Proof. intros He. split_and!; try done. exists [e]. split; [done|]. by constructor. Qed.

Section Requests.
Context (pid : string).

(** The project is loaded. *)
Definition loaded (p : dproject) (w : jobw) : Prop := current pid w = Some p ∧ is_Some (s_obj (jw_sess w)).

(** A computation that only reads and prepares assignments to columns other than the state. *)
Definition edits {A} (m : J A) : Prop := ∀ p w, loaded p w →
  match m w with
  | (_, Blocked) => False
  | (w', _) => still w w' ∧ is_Some (s_obj (jw_sess w')) ∧
      ∃ ws, s_dirty (jw_sess w') = s_dirty (jw_sess w) ++ ws ∧ Forall (λ x, state_write x = false) ws
  end.

(** What an accepted request leaves: the project in the limbo of its job, the job enqueued once, after
    the commit. *)
Definition handed_over (p : dproject) (j : job) (w w' : jobw) : Prop :=
  ∃ ws es1 es2 es3,
    jw_rows w' = jw_rows (update_row pid (apply_writes ws) w) ∧ d_state (apply_writes ws p) = job_limbo j ∧
    jw_counters w' = jw_counters w ∧ jw_hwm w' = jw_hwm w ∧ jw_permits w' = jw_permits w ∧
    jw_log w' = jw_log w ++ es1 ++ Committed ws :: es2 ++ Call "enqueue_job" [job_entry j; pid] :: es3 ∧
    Forall (λ e, quiet_event e = true) (es1 ++ es2 ++ es3).

(** A handler, from the project it has loaded: refused without effect, or the job handed over. *)
Definition transits (p : dproject) (ok : job → Prop) (m : H reply) : Prop := ∀ w, loaded p w →
  match m w with
  | (w', Ret (inl r)) => ∃ j, r_job r = Some j ∧ ok j ∧ handed_over p j w w'
  | (w', Ret (inr _)) | (w', Exc _) => still w w'
  | (_, Blocked) => False
  end.

(** ** Rules *)

Lemma loaded_still p w w' : loaded p w → still w w' → is_Some (s_obj (jw_sess w')) → loaded p w'.
Proof. intros [Hc _] Hs Ho. split; [|done]. unfold current in *. by destruct Hs as [-> _]. Qed.

Lemma edits_ret {A} (a : A) : edits (jret a).
Proof. intros p w [_ Ho]. cbn. split_and!; [apply still_refl|done|]. exists []. by rewrite app_nil_r. Qed.

Lemma edits_exc {A} e : edits (@jexc A e).
Proof. intros p w [_ Ho]. cbn. split_and!; [apply still_refl|done|]. exists []. by rewrite app_nil_r. Qed.

Lemma edits_get {A} (f : jobw → A) : edits (jget f).
Proof. intros p w [_ Ho]. cbn. split_and!; [apply still_refl|done|]. exists []. by rewrite app_nil_r. Qed.

Lemma edits_bind {A B} (m : J A) (f : A → J B) : edits m → (∀ a, edits (f a)) → edits (jbind m f).
Proof.
  intros Hm Hf p w Hw. unfold jbind. specialize (Hm p w Hw). destruct (m w) as [w1 [a|e|]]; [|done|done].
  destruct Hm as (Hs & Ho & ws & Hd & Hws). pose proof (Hf a p w1 (loaded_still _ _ _ Hw Hs Ho)) as H1.
  destruct (f a w1) as [w2 [b|e|]]; [| |done]; destruct H1 as (Hs' & Ho' & ws' & Hd' & Hws');
    (split_and!; [by eapply still_trans|done|]; exists (ws ++ ws'); rewrite Hd', Hd, app_assoc; split; [done|by apply Forall_app]).
Qed.

Lemma edits_lift {A} exn_text (r : res A) : edits (jlift exn_text r).
Proof. destruct r; [apply edits_ret|apply edits_exc]. Qed.

Lemma edits_assign x : state_write x = false → edits (assign x).
Proof.
  intros Hx p w [_ [o Ho]]. unfold assign, jmod. cbn. rewrite Ho. cbn. split_and!; [apply still_sess|done|].
  exists [x]. split; [done|]. by constructor.
Qed.

Lemma edits_flush : edits (flush pid).
Proof.
  intros p w [Hc Ho]. unfold flush. destruct (s_dirty (jw_sess w)) as [|x ws] eqn:Hd.
  - split_and!; [apply still_refl|done|]. exists []. by rewrite Hd.
  - rewrite Hc. cbn. split_and!; [apply still_sess|done|]. exists []. by rewrite app_nil_r.
Qed.

Lemma edits_project : edits (project pid).
Proof.
  intros p w [Hc [o Ho]]. unfold project. rewrite Ho. split_and!; [apply still_refl|by exists o|]. exists [].
  by rewrite app_nil_r.
Qed.

Lemma edits_emit e : quiet_event e = true → edits (emit e).
Proof.
  intros He p w [_ Ho]. cbn. split_and!; [by apply still_emit|done|]. exists []. by rewrite app_nil_r.
Qed.

(** In handlers, a refusal is a value. *)
Lemma edits_refuse {A} c d : edits (@refuse A c d).
Proof. apply edits_ret. Qed.

Lemma edits_hret {A} (a : A) : edits (hret a).
Proof. apply edits_ret. Qed.

Lemma edits_hbind {A B} (m : H A) (f : A → H B) : edits m → (∀ a, edits (f a)) → edits (hbind m f).
Proof. intros Hm Hf. apply edits_bind; [done|]. intros [a|e]; [apply Hf|apply edits_ret]. Qed.

Lemma edits_run {A} (m : J A) : edits m → edits (run m).
Proof. intros Hm. apply edits_bind; [done|]. intros a. apply edits_ret. Qed.

Lemma edits_require b c d : edits (require b c d).
Proof. destruct b; [apply edits_ret|apply edits_refuse]. Qed.

Lemma edits_find_host i : edits (find_host_row pid i).
Proof. apply edits_bind; [apply edits_flush|]. intros _. apply edits_get. Qed.

Lemma handed_still p j w w1 w2 : still w w1 → handed_over p j w1 w2 → handed_over p j w w2.
Proof.
  intros (Hr1 & _ & Hc1 & Hh1 & Hp1 & es & He & Hes) (ws & es1 & es2 & es3 & Hr & Hst & Hc & Hh & Hp & Hl & Hq).
  exists ws, (es ++ es1), es2, es3. split_and!; try congruence.
  - rewrite Hr. unfold update_row. cbn. by rewrite Hr1.
  - rewrite Hl, He. by rewrite !app_assoc.
  - rewrite <-app_assoc. by apply Forall_app.
Qed.

(** After a step whose answers are known. *)
Lemma transits_answer {A} p ok (m : H A) (R : A → Prop) (f : A → H reply) :
  edits m → (∀ w w' a, m w = (w', Ret (inl a)) → R a) → (∀ a, R a → transits p ok (f a)) → transits p ok (hbind m f).
Proof.
  intros Hm HR Hf w Hw. unfold hbind, jbind. pose proof (Hm p w Hw) as H. destruct (m w) as [w1 [[a|e]|e|]] eqn:E;
    [|by apply H..|done]. destruct H as (Hs & Ho & _).
  pose proof (Hf a (HR _ _ _ E) w1 (loaded_still _ _ _ Hw Hs Ho)) as H1. destruct (f a w1) as [w2 [[r|e]|e|]];
    [|by eapply still_trans..|done]. destruct H1 as (j & Hj & Hok & Hh). exists j. split_and!; [done..|].
  by eapply handed_still.
Qed.

Lemma transits_bind {A} p ok (m : H A) (f : A → H reply) :
  edits m → (∀ a, transits p ok (f a)) → transits p ok (hbind m f).
Proof. intros Hm Hf. by apply (transits_answer p ok m (λ _, True)). Qed.

Lemma transits_require p ok b c d (m : H reply) :
  (b = true → transits p ok m) → transits p ok (require b c d;!; m).
Proof.
  intros H. destruct b; [|intros w Hw; apply still_refl]. intros w Hw. exact (H eq_refl w Hw).
Qed.

Lemma transits_refuse p ok c d : transits p ok (refuse c d).
Proof. intros w Hw. apply still_refl. Qed.

(** *** The state is assigned, then committed *)

(** The new state is pending. *)
Definition staged (p : dproject) (to : string) (w : jobw) : Prop :=
  loaded p w ∧ s_dirty (jw_sess w) ≠ [] ∧ d_state (apply_writes (s_dirty (jw_sess w)) p) = to.

Definition stages {A} (p : dproject) (to : string) (m : J A) : Prop := ∀ w, loaded p w →
  match m w with
  | (w', Ret _) => still w w' ∧ staged p to w'
  | (w', Exc _) => still w w'
  | (_, Blocked) => False
  end.

(** From a pending state, or from a loaded project, to the job handed over. *)
Definition ends {A} (p : dproject) (j : job) (m : J A) : Prop := ∀ w, staged p (job_limbo j) w →
  match m w with (w', Ret _) => handed_over p j w w' | (w', Exc _) => still w w' | (_, Blocked) => False end.
Definition hands {A} (p : dproject) (j : job) (m : J A) : Prop := ∀ w, loaded p w →
  match m w with (w', Ret _) => handed_over p j w w' | (w', Exc _) => still w w' | (_, Blocked) => False end.

(** After the commit: the job is enqueued. *)
Definition announces {A} (j : job) (m : J A) : Prop := ∀ w, is_Some (current pid w) →
  ∃ w' a es1 es2, m w = (w', Ret a) ∧ jw_rows w' = jw_rows w ∧ jw_counters w' = jw_counters w ∧ jw_hwm w' = jw_hwm w ∧
    jw_permits w' = jw_permits w ∧ jw_log w' = jw_log w ++ es1 ++ Call "enqueue_job" [job_entry j; pid] :: es2 ∧
    Forall (λ e, quiet_event e = true) (es1 ++ es2).

(** One that goes on without a word to the queue. *)
Definition silent {A} (m : J A) : Prop := ∀ w, is_Some (current pid w) → ∃ w' a, m w = (w', Ret a) ∧ still w w'.

Lemma apply_writes_app ws ws' p : apply_writes (ws ++ ws') p = apply_writes ws' (apply_writes ws p).
Proof. apply foldl_app. Qed.

Lemma other_writes_state ws p : Forall (λ x, state_write x = false) ws → d_state (apply_writes ws p) = d_state p.
Proof.
  revert p. induction ws as [|x ws IH]; intros p; [done|]. intros [Hx Hws]%Forall_cons.
  change (d_state (apply_writes ws (apply_write x p)) = d_state p). rewrite IH by done. by destruct x.
Qed.

Lemma staged_edit p to w w' ws :
  staged p to w → still w w' → is_Some (s_obj (jw_sess w')) → s_dirty (jw_sess w') = s_dirty (jw_sess w) ++ ws →
  Forall (λ x, state_write x = false) ws → staged p to w'.
Proof.
  intros (Hl & Hne & Hst) Hs Ho Hd Hws. split_and!; [by eapply loaded_still| |].
  - rewrite Hd. by destruct (s_dirty (jw_sess w)).
  - rewrite Hd, apply_writes_app, other_writes_state by done. exact Hst.
Qed.

Lemma stages_assign p to : stages p to (assign (WState to)).
Proof.
  intros w [Hc [o Ho]]. unfold assign, jmod. cbn. rewrite Ho. cbn. split; [apply still_sess|].
  split_and!; [split; [done|by eexists]|by destruct (s_dirty (jw_sess w))|].
  change (d_state (apply_writes (s_dirty (jw_sess w) ++ [WState to]) p) = to). by rewrite apply_writes_app.
Qed.

Lemma stages_edit {A B} p to (m : J A) (f : A → J B) : edits m → (∀ a, stages p to (f a)) → stages p to (jbind m f).
Proof.
  intros Hm Hf w Hw. unfold jbind. specialize (Hm p w Hw). destruct (m w) as [w1 [a|e|]]; [| |done].
  - destruct Hm as (Hs & Ho & _). specialize (Hf a w1 (loaded_still _ _ _ Hw Hs Ho)).
    destruct (f a w1) as [w2 [b|e|]]; [|by eapply still_trans|done].
    destruct Hf. split; [by eapply still_trans|done].
  - apply Hm.
Qed.

Lemma stages_then {A B} p to (m : J A) (f : A → J B) : stages p to m → (∀ a, edits (f a)) → stages p to (jbind m f).
Proof.
  intros Hm Hf w Hw. unfold jbind. specialize (Hm w Hw). destruct (m w) as [w1 [a|e|]]; [|done..].
  destruct Hm as [Hs Hst]. specialize (Hf a p w1 (proj1 Hst)). destruct (f a w1) as [w2 [b|e|]]; [| |done];
    destruct Hf as (Hs' & Ho & ws & Hd & Hws).
  - split; [by eapply still_trans|by eapply staged_edit].
  - by eapply still_trans.
Qed.

Lemma hands_edit {A B} p j (m : J A) (f : A → J B) : edits m → (∀ a, hands p j (f a)) → hands p j (jbind m f).
Proof.
  intros Hm Hf w Hw. unfold jbind. specialize (Hm p w Hw). destruct (m w) as [w1 [a|e|]]; [|by apply Hm|done].
  destruct Hm as (Hs & Ho & _). specialize (Hf a w1 (loaded_still _ _ _ Hw Hs Ho)).
  destruct (f a w1) as [w2 [b|e|]]; [by eapply handed_still|by eapply still_trans|done].
Qed.

Lemma hands_stage {A B} p j (m : J A) (f : A → J B) :
  stages p (job_limbo j) m → (∀ a, ends p j (f a)) → hands p j (jbind m f).
Proof.
  intros Hm Hf w Hw. unfold jbind. specialize (Hm w Hw). destruct (m w) as [w1 [a|e|]]; [|done..].
  destruct Hm as [Hs Hst]. specialize (Hf a w1 Hst). destruct (f a w1) as [w2 [b|e|]];
    [by eapply handed_still|by eapply still_trans|done].
Qed.

Lemma ends_edit {A B} p j (m : J A) (f : A → J B) : edits m → (∀ a, ends p j (f a)) → ends p j (jbind m f).
Proof.
  intros Hm Hf w Hw. unfold jbind. pose proof (Hm p w (proj1 Hw)) as H. destruct (m w) as [w1 [a|e|]]; [|by apply H|done].
  destruct H as (Hs & Ho & ws & Hd & Hws).
  pose proof (Hf a w1 (staged_edit _ _ _ _ _ Hw Hs Ho Hd Hws)) as H. destruct (f a w1) as [w2 [b|e|]];
    [by eapply handed_still|by eapply still_trans|done].
Qed.

Lemma ends_commit {A} p j (k : unit → J A) : announces j (k tt) → ends p j (jbind (commit pid) k).
Proof.
  intros Hk w ((Hc & _) & Hne & Hst). unfold jbind, commit. destruct (s_dirty (jw_sess w)) as [|x ws] eqn:Hd; [done|].
  rewrite Hc. set (w1 := add_event _ _). destruct (Hk w1) as (w2 & a & es1 & es2 & E & Hr & Hcn & Hh & Hp & Hl & Hq).
  { unfold current. cbn. pose proof (find_update pid (apply_writes (x :: ws)) w (apply_writes_id _)) as Hu.
    unfold current in Hu, Hc. cbn in Hu. rewrite Hu, Hc. by eexists. }
  rewrite E. exists (x :: ws), [], es1, es2. split_and!; try done. rewrite Hl. cbn. by rewrite <-app_assoc.
Qed.

Lemma announces_bind {A B} j (m : J A) (f : A → J B) : silent m → (∀ a, announces j (f a)) → announces j (jbind m f).
Proof.
  intros Hm Hf w Hc. destruct (Hm w Hc) as (w1 & a & E & Hr & _ & Hcn & Hh & Hp & es & He & Hes). unfold jbind. rewrite E.
  destruct (Hf a w1) as (w2 & b & es1 & es2 & E' & Hr' & Hcn' & Hh' & Hp' & Hl & Hq).
  { unfold current in *. by rewrite Hr. }
  rewrite E'. exists w2, b, (es ++ es1), es2. split_and!; try congruence.
  - rewrite Hl, He. by rewrite !app_assoc.
  - rewrite <-app_assoc. by apply Forall_app.
Qed.

Lemma announces_enqueue j : announces j (enqueue_job pid (job_entry j)).
Proof. intros w _. eexists _, tt, [], []. split; [reflexivity|]. by split_and!. Qed.

Lemma silent_emit e : quiet_event e = true → silent (emit e).
Proof. intros He w _. eexists _, tt. split; [reflexivity|]. by apply still_emit. Qed.

Lemma silent_project : silent (project pid).
Proof.
  intros w [p Hp]. unfold project. destruct (s_obj (jw_sess w)) as [o|].
  - exists w, o. split; [done|apply still_refl].
  - rewrite Hp. eexists _, _. split; [reflexivity|apply still_sess].
Qed.

Lemma silent_bind {A B} (m : J A) (f : A → J B) : silent m → (∀ a, silent (f a)) → silent (jbind m f).
Proof.
  intros Hm Hf w Hw. destruct (Hm w Hw) as (w1 & a & E & Hs). unfold jbind. rewrite E.
  destruct (Hf a w1) as (w2 & b & E2 & Hs2). { unfold current in *. by destruct Hs as [-> _]. }
  exists w2, b. split; [done|by eapply still_trans].
Qed.

Lemma silent_delete_progress : silent delete_deploy_progress.
Proof.
  apply silent_bind; [|intros _; by apply silent_emit]. intros w _. eexists _, tt. split; [reflexivity|].
  split_and!; try done. exists []. by rewrite app_nil_r.
Qed.

Lemma transits_hand {A} p (ok : job → Prop) j (m : J A) status :
  hands p j m → ok j → transits p ok (run m;!; hret (mkReply status (Some j))).
Proof.
  intros Hm Hok w Hw. unfold hbind, run, jbind. specialize (Hm w Hw). destruct (m w) as [w1 [a|e|]]; [|done..].
  exists j. by split_and!.
Qed.
End Requests.

#[local] Hint Constants Opaque : edit.
#[local] Hint Resolve edits_ret edits_exc edits_get edits_lift edits_flush edits_project edits_refuse edits_hret edits_require
  edits_find_host : edit.

Ltac edit_step :=
  match goal with
  | |- edits _ (jbind _ _) => apply edits_bind; [|intros ?]
  | |- edits _ (hbind _ _) => apply edits_hbind; [|intros ?]
  | |- edits _ (run _) => apply edits_run
  | |- edits _ (assign _) => apply edits_assign; reflexivity
  | |- edits _ (emit _) => apply edits_emit; reflexivity
  | |- edits _ (let _ := _ in _) => cbv zeta
  | |- edits _ (match ?x with _ => _ end) => destruct x
  | |- edits _ _ => solve [eauto with edit]
  end.
Ltac edits := repeat edit_step.

Section Handlers.
Context (env : environment) (exn_text : exn → string) (cfg : config) (sha256_hex : string → string).
Context (set_iter : list val → list val) (install_via_default fresh_id : string).
Context (library : string → option library_item) (provisioned : option provision_result).
Context (has_private_key : Host → bool) (set_order : list string → list string).
Context (pid : string) (who : user).

Lemma edits_query : edits pid (query pid).
Proof. apply edits_flush. Qed.
Lemma edits_project_host : edits pid (project_host pid).
Proof. unfold project_host. edits. Qed.
#[local] Hint Resolve edits_query edits_project_host : edit.

Lemma edits_library t : edits pid (check_library_items_ready exn_text library pid t).
Proof.
  unfold check_library_items_ready. edits. match goal with |- edits _ (foldr _ _ ?l) => induction l as [|n l IH] end.
  - cbn. edits.
  - cbn [foldr]. edits.
Qed.
Lemma edits_hibernate o : edits pid (reject_unsupported_hibernate pid o).
Proof. unfold reject_unsupported_hibernate. edits. Qed.
Lemma edits_require_host h : edits pid (require_reconfigure_host has_private_key h).
Proof. unfold require_reconfigure_host. edits. Qed.
Lemma edits_ocp_mode p m : edits pid (resolve_redeploy_ocp_mode exn_text p m).
Proof. unfold resolve_redeploy_ocp_mode. edits. Qed.
Lemma edits_destroy_context p m : edits pid (redeploy_destroy_context pid p m).
Proof. unfold redeploy_destroy_context. edits. Qed.
Lemma edits_rebuild p : edits pid (apply_ocp_rebuild_to_project exn_text p).
Proof. unfold apply_ocp_rebuild_to_project. edits. Qed.
Lemma edits_reset : edits pid (reset_template_workloads_for_redeploy exn_text pid).
Proof. unfold reset_template_workloads_for_redeploy. edits. Qed.
Lemma edits_now : edits pid (now env).
Proof. apply edits_get. Qed.
#[local] Hint Resolve edits_library edits_hibernate edits_require_host edits_ocp_mode edits_destroy_context edits_rebuild
  edits_reset edits_now : edit.

(** *** The project and its owner *)

Definition allowed (p : dproject) : bool := String.eqb (d_owner p) (u_id who) || String.eqb (u_role who) "admin".

Lemma allowed_may_act p : allowed p = true → may_act who p.
Proof. intros [H|H]%orb_prop; [left|right]; by apply String.eqb_eq. Qed.

Lemma check_owner_at {A} p w (f : dproject → H A) :
  s_obj (jw_sess w) = Some p →
  hbind (check_owner pid who true) f w = if allowed p then f p w else refuse 403 ACCESS_DENIED w.
Proof.
  intros Ho. unfold check_owner, hbind, run, require, jbind, hret, jret, project, refuse. cbn. rewrite Ho. cbn.
  unfold allowed. by destruct (_ || _).
Qed.

Lemma check_owner_missing {A} w (f : dproject → H A) :
  hbind (check_owner pid who false) f w = refuse 404 PROJECT_NOT_FOUND w.
Proof. done. Qed.

(** What a request answers, from the world it arrives in. *)
Definition answered (ok : job → Prop) (w : jobw) (r : jobw * outcome (reply + refusal)) : Prop :=
  match r with
  | (w', Ret (inl r)) =>
      ∃ p j, current pid w = Some p ∧ may_act who p ∧ d_state p ∈ job_sources j ∧ r_job r = Some j ∧ ok j ∧
             handed_over pid p j w w'
  | (w', Ret (inr _)) | (w', Exc _) => still w w'
  | (_, Blocked) => False
  end.

(** The query loads the row, when it is there. *)
Definition loads (q : J bool) : Prop := ∀ w, jw_sess w = new_session →
  match current pid w with
  | Some p => ∃ w', q w = (w', Ret true) ∧ still w w' ∧ s_obj (jw_sess w') = Some p
  | None => ∃ w', q w = (w', Ret false) ∧ still w w'
  end.

Lemma loads_query : loads (query_project pid).
Proof.
  intros w Hs. unfold query_project, jbind, flush. rewrite Hs. cbn. destruct (current pid w) as [p|].
  - eexists. split; [reflexivity|]. split; [apply still_sess|]. cbn. by rewrite Hs.
  - exists w. split; [done|apply still_refl].
Qed.

Lemma loads_for_update : loads (query_project_for_update pid).
Proof.
  intros w Hs. pose proof (loads_query w Hs) as H. unfold query_project_for_update.
  destruct (current pid w) as [p|]; destruct H as (w' & E & H); unfold jbind at 1; rewrite E.
  - destruct H as [Hst Ho]. eexists. split; [reflexivity|]. split; [|done]. eapply still_trans; [done|apply still_sess].
  - exists w'. by split.
Qed.

Lemma still_close w w' : still w w' → still w (close_session w').
Proof. intros H. eapply still_trans; [done|apply still_sess]. Qed.

Lemma handed_close p j w w' : handed_over pid p j w w' → handed_over pid p j w (close_session w').
Proof. done. Qed.

Lemma request_owned ok (q : J bool) (f : dproject → H reply) w :
  loads q →
  (∀ p, may_act who p → transits pid p (λ j, ok j ∧ d_state p ∈ job_sources j) (f p)) →
  answered ok w (request (found <-! run q;; p <-! check_owner pid who found;; f p) w).
Proof.
  intros Hq Hf. unfold request, jbind at 1, jmod, jfinally. pose proof (Hq (close_session w) eq_refl) as H0.
  change (current pid (close_session w)) with (current pid w) in H0.
  destruct (current pid w) as [p|] eqn:Hc.
  - destruct H0 as (w1 & E & Hst & Ho). unfold hbind at 1, run at 1, jbind at 1, jbind at 1. rewrite E.
    cbn [hret jret]. rewrite (check_owner_at p) by done.
    assert (Hs1 : still w w1) by (eapply still_trans; [apply still_sess|exact Hst]).
    destruct (allowed p) eqn:Ha; [|by apply still_close].
    pose proof (Hf p (allowed_may_act p Ha) w1) as H1. ospecialize (H1 _).
    { split; [|by eexists]. unfold current in *. by destruct Hs1 as [-> _]. }
    destruct (f p w1) as [w2 [[r|e]|e|]]; [| | |done].
    + destruct H1 as (j & Hj & [Hok Hsrc] & Hh). exists p, j. split_and!; try done; [by apply allowed_may_act|].
      apply handed_close. by eapply handed_still.
    + apply still_close. by eapply still_trans.
    + apply still_close. by eapply still_trans.
  - destruct H0 as (w1 & E & Hst). unfold hbind at 1, run at 1, jbind at 1, jbind at 1. rewrite E.
    cbn [hret jret]. rewrite check_owner_missing. apply still_close. eapply still_trans; [apply still_sess|exact Hst].
Qed.

Lemma hbind_assoc {A B C} (m : H A) (f : A → H B) (g : B → H C) w :
  hbind (hbind m f) g w = hbind m (λ a, hbind (f a) g) w.
Proof. unfold hbind, jbind. by destruct (m w) as [w1 [[a|e]|e|]]. Qed.

Lemma request_ext (m m' : H reply) w : (∀ w, m w = m' w) → request m w = request m' w.
Proof. intros Hm. unfold request, jbind, jmod, jfinally. by rewrite Hm. Qed.

Lemma request_owned_project ok (f : dproject → H reply) w :
  (∀ p, may_act who p → transits pid p (λ j, ok j ∧ d_state p ∈ job_sources j) (f p)) →
  answered ok w (request (p <-! owned_project pid who;; f p) w).
Proof.
  intros Hf. rewrite (request_ext _ (found <-! run (query_project pid);; p <-! check_owner pid who found;; f p)).
  - by apply request_owned; [apply loads_query|].
  - intros w'. apply hbind_assoc.
Qed.

(** *** The four requests that hand a job over from a row at rest *)

Inductive ask := AskStop | AskStart | AskReconfigure (restart_vm_ids : list string) | AskRedeploy (ocp_mode : option string).

Definition handler_of (a : ask) : H reply :=
  match a with
  | AskStop => stop_project pid who
  | AskStart => start_project env pid who
  | AskReconfigure ids => reconfigure_project exn_text install_via_default has_private_key set_order pid who ids
  | AskRedeploy m => redeploy_project env exn_text library pid who m
  end.

(** The job that answers a request. *)
Definition answers (a : ask) (j : job) : Prop :=
  match a, j with
  | AskStop, StopJob | AskStart, StartJob => True
  | AskReconfigure ids, ReconfigureJob _ ids' => ids' = set_order (dedup_first ids)
  | AskRedeploy m, RedeployJob ctx _ m' => (m' = m ∨ m' = None) ∧ (m' = Some "recert" → ctx = None)
  | _, _ => False
  end.

Lemma transits_stop p : transits pid p (λ j, answers AskStop j ∧ d_state p ∈ job_sources j)
  (require (String.eqb (d_state p) "active") 409 (state_text p "not active");!;
   reject_unsupported_hibernate pid (Some (d_off_action p));!;
   run (assign (WState "stopping");;; commit pid;;; emit (Notify "stopping" "");;;
        project pid;;; enqueue_job pid "stop_project_async");!;
   hret (mkReply "stopping" (Some StopJob))).
Proof.
  apply transits_require. intros Hst%String.eqb_eq. apply transits_bind; [apply edits_hibernate|]. intros _.
  apply transits_hand; [|split; [done|rewrite Hst; by left]].
  apply hands_stage; [apply stages_assign|]. intros _. apply ends_commit.
  apply announces_bind; [by apply silent_emit|]. intros _. apply announces_bind; [apply silent_project|]. intros _.
  apply (announces_enqueue pid StopJob).
Qed.

Lemma transits_start p : transits pid p (λ j, answers AskStart j ∧ d_state p ∈ job_sources j)
  (require (String.eqb (d_state p) "stopped" || String.eqb (d_state p) "error") 409 (state_text p "not stopped");!;
   run (t <-' now env;;
        assign (WState "starting");;; assign (WStarted (Some t));;; commit pid;;; emit (Notify "starting" "");;;
        project pid;;; enqueue_job pid "start_project_async");!;
   hret (mkReply "starting" (Some StartJob))).
Proof.
  apply transits_require. intros Hst.
  apply transits_hand; [|split; [done|]].
  - apply hands_edit; [apply edits_now|]. intros t. apply hands_stage; [apply stages_assign|]. intros _.
    apply ends_edit; [by apply edits_assign|]. intros _. apply ends_commit.
    apply announces_bind; [by apply silent_emit|]. intros _. apply announces_bind; [apply silent_project|]. intros _.
    apply (announces_enqueue pid StartJob).
  - apply orb_prop in Hst as [Hst|Hst]; apply String.eqb_eq in Hst; rewrite Hst; cbn; set_solver.
Qed.

Lemma transits_reconfigure ids p : transits pid p (λ j, answers (AskReconfigure ids) j ∧ d_state p ∈ job_sources j)
  (require (String.eqb (d_state p) "active" || String.eqb (d_state p) "stopped") 409 (state_text p "cannot reconfigure");!;
   require (bool_decide (is_Some (text_opt (p_host_id (d_row p))))) 400 "Project has no active deployment";!;
   host <-! project_host pid;;
   host <-! require_reconfigure_host has_private_key host;;
   let current := v_or (p_topology (d_row p)) empty_dict in
   bmc <-! run (jlift exn_text (maybe_validate_bmc_for_reconfigure install_via_default p current));;
   match bmc with
   | Some msg => refuse 400 msg
   | None =>
       added <-! run (jlift exn_text (reconfigure_added_networks current (default VNone (d_deployed p))));;
       (if bool_decide (added = []) then hret tt else run (query pid));!;
       db <-! run (jget full_db);;
       vni_map <-! run (jlift exn_text (allocate_vnis_for_new_networks db added (default [] (p_vni_map (d_row p)))));;
       match vni_map with
       | None => refuse 507 "VNI pool exhausted"
       | Some m =>
           run (assign (WVni m);;; assign (WState "reconfiguring");;; commit pid;;;
                project pid;;; enqueue_job pid "job_reconfigure_bg");!;
           hret (mkReply "reconfiguring" (Some (ReconfigureJob (h_id host) (set_order (dedup_first ids)))))
       end
   end).
Proof.
  apply transits_require. intros Hst. apply transits_require. intros _.
  do 3 (apply transits_bind; [edits|]; intros ?). case_match; [apply transits_refuse|].
  do 4 (apply transits_bind; [edits|]; intros ?). case_match; [|apply transits_refuse].
  apply transits_hand.
  - apply hands_edit; [by apply edits_assign|]. intros _. apply hands_stage; [apply stages_assign|]. intros _.
    apply ends_commit. apply announces_bind; [apply silent_project|]. intros _.
    apply (announces_enqueue pid (ReconfigureJob _ _)).
  - split; [done|]. apply orb_prop in Hst as [Hst|Hst]; apply String.eqb_eq in Hst; rewrite Hst; cbn; set_solver.
Qed.

Lemma stages_redeploy p old m : stages pid p "deploying" (apply_redeploy_project_state env pid old m).
Proof.
  unfold apply_redeploy_project_state. do 2 (apply stages_edit; [edits|]; intros ?).
  apply stages_then; [apply stages_assign|]. intros _. edits.
Qed.

(** The mode of a redeployment: what was asked for, or none without a cluster. *)
Lemma ocp_mode_answer q m w w' m' :
  resolve_redeploy_ocp_mode exn_text q m w = (w', Ret (inl m')) → m' = m ∨ m' = None.
Proof.
  unfold resolve_redeploy_ocp_mode, hbind, run, jlift, require, jbind, hret, jret, refuse, jexc. intros E.
  destruct (topology_has_ocp_clusters _) as [[|]|]; cbn in E; [|injection E; auto|done].
  destruct (bool_decide (_ ∨ _)); cbn in E; [|done]. destruct (bool_decide _); cbn in E; [|injection E; auto].
  destruct (all_ocp_clusters_ready _) as [[|]|]; cbn in E; [injection E; auto|done..].
Qed.

(** A certificate renewal destroys nothing; otherwise what is destroyed is what was deployed. *)
Lemma destroy_context_answer q m w w' ctx :
  redeploy_destroy_context pid q m w = (w', Ret (inl ctx)) →
  match ctx with None => m = Some "recert" ∨ text_opt (p_host_id (d_row q)) = None
               | Some c => m ≠ Some "recert" ∧ c = build_destroy_context q end.
Proof.
  unfold redeploy_destroy_context. destruct (bool_decide (m = _)) eqn:E1; cbn [orb].
  { intros [= _ <-]. left. by apply bool_decide_eq_true in E1. }
  apply bool_decide_eq_false in E1. destruct (bool_decide _) eqn:E2.
  { intros [= _ <-]. right. by apply bool_decide_eq_true in E2. }
  unfold hbind, jbind. intros E. destruct (project_host pid w) as [w1 [[h|e]|e|]]; [|done..].
  unfold require, hret, refuse, jret in E. destruct (bool_decide (is_Some _)); [|done]. by injection E as _ <-.
Qed.

Lemma transits_redeploy m p : transits pid p (λ j, answers (AskRedeploy m) j ∧ d_state p ∈ job_sources j)
  (require (String.eqb (d_state p) "active" || String.eqb (d_state p) "stopped" || String.eqb (d_state p) "error") 409
     (state_text p "cannot redeploy");!;
   let topology := p_topology (d_row p) in
   check_library_items_ready exn_text library pid (v_or topology empty_dict);!;
   require (truthy topology) 400 "Project has no topology";!;
   reqs <-! run (jlift exn_text (calculate_project_requirements topology));;
   require (negb (r_vm_count reqs =? 0)) 400 "Project has no VMs";!;
   ocp_mode <-! resolve_redeploy_ocp_mode exn_text p m;;
   destroy_ctx <-! redeploy_destroy_context pid p ocp_mode;;
   let old_host_id := p_host_id (d_row p) in
   run (emit (Call "mark_cancelled" [pid]);;;
        (if bool_decide (ocp_mode = Some "rebuild") then apply_ocp_rebuild_to_project exn_text p else jret tt);;;
        apply_redeploy_project_state env pid old_host_id ocp_mode;;;
        reset_template_workloads_for_redeploy exn_text pid;;;
        commit pid;;;
        project pid;;;
        delete_deploy_progress;;;
        enqueue_job pid "job_redeploy_bg");!;
   hret (mkReply "deploying" (Some (RedeployJob destroy_ctx old_host_id ocp_mode)))).
Proof.
  apply transits_require. intros Hst. cbv zeta. apply transits_bind; [edits|]. intros _.
  apply transits_require. intros _. apply transits_bind; [edits|]. intros reqs. apply transits_require. intros _.
  eapply transits_answer; [edits|apply ocp_mode_answer|]. intros m' Hm'.
  eapply transits_answer; [edits|apply destroy_context_answer|]. intros ctx Hctx.
  apply transits_hand.
  - apply hands_edit; [edits|]. intros _. apply hands_edit; [edits|]. intros _.
    apply hands_stage; [apply stages_redeploy|]. intros _. apply ends_edit; [edits|]. intros _.
    apply ends_commit. apply announces_bind; [apply silent_project|]. intros _.
    apply announces_bind; [apply silent_delete_progress|]. intros _. apply (announces_enqueue pid (RedeployJob _ _ _)).
  - split.
    + split; [done|]. intros ->. destruct ctx as [c|]; [|done]. by destruct Hctx.
    + repeat (apply orb_prop in Hst as [Hst|Hst]); apply String.eqb_eq in Hst; rewrite Hst; cbn; set_solver.
Qed.

Lemma request_answered (a : ask) w : answered (answers a) w (request (handler_of a) w).
Proof.
  destruct a as [| |ids|m]; cbn [handler_of].
  - apply request_owned_project. intros p _. apply transits_stop.
  - apply request_owned_project. intros p _. apply transits_start.
  - apply request_owned_project. intros p _. apply transits_reconfigure.
  - apply request_owned; [apply loads_for_update|]. intros p _. apply transits_redeploy.
Qed.

(** C22: A request to stop, start, reconfigure or redeploy a project is refused without effect: no row, no
    counter and no host changes, nothing is enqueued.  Or it is accepted: the project was there, who
    asks owns it or is an administrator, its state was one the job starts from; it waits for the job
    afterwards, in one commit that changed no other project; and the job was enqueued once, after the
    commit.  No request waits for a lock its own session holds. *)
Theorem requests_hand_over (a : ask) w : answered (answers a) w (request (handler_of a) w).
Proof. apply request_answered. Qed.

(** ** From the request to the end of its job *)

Lemma handed_state p j w w' : current pid w = Some p → handed_over pid p j w w' →
  ∃ p', current pid w' = Some p' ∧ d_state p' = job_limbo j.
Proof.
  intros Hc (ws & es1 & es2 & es3 & Hr & Hst & _). exists (apply_writes ws p). split; [|done].
  unfold current in *. rewrite Hr, find_update by apply apply_writes_id. unfold current. by rewrite Hc.
Qed.

Context (member_id : nat → string).
Notation run_job := (run_job env exn_text cfg sha256_hex set_iter install_via_default fresh_id provisioned set_order pid member_id).

(** C2: A request to stop or to start a project that is accepted, and the job it hands to a worker: the
    project waits in the transitional state; the job ends without an exception, with the project gone
    or no longer waiting, whatever the agents and the cluster answer; the in-flight counters and the
    semaphore are as before the request. *)
Theorem power_requests_complete (a : ask) w w1 r :
  Peers "stopping" pid env → Peers "starting" pid env → a = AskStop ∨ a = AskStart →
  request (handler_of a) w = (w1, Ret (inl r)) →
  ∃ j p w2, r_job r = Some j ∧ current pid w1 = Some p ∧ d_state p = job_limbo j ∧
    run_job j w1 = (w2, Ret tt) ∧ settled_rows (job_limbo j) pid (jw_rows w2) ∧
    jw_counters w2 = jw_counters w ∧ jw_permits w2 = jw_permits w.
Proof.
  intros H1 H2 Ha E. pose proof (request_answered a w) as H. rewrite E in H.
  destruct H as (p & j & Hc & _ & _ & Hj & Hans & Hh). destruct (handed_state _ _ _ _ Hc Hh) as (p' & Hc' & Hst).
  destruct Hh as (_ & _ & _ & _ & _ & _ & Hcn & _ & Hp & _).
  assert (Hrun : ∃ w2, run_job j w1 = (w2, Ret tt) ∧ settled_rows (job_limbo j) pid (jw_rows w2) ∧
                       jw_counters w2 = jw_counters w1 ∧ jw_permits w2 = jw_permits w1).
  { destruct Ha as [->| ->], j; try done; cbn [job_limbo ProjectApi.run_job].
    - apply (power_job_settles "stopping"); [apply _|]. intros c0 n0. by apply settles_stop_body.
    - apply (power_job_settles "starting"); [apply _|]. intros c0 n0. by apply settles_start_body. }
  destruct Hrun as (w2 & Hr & Hs & Hc2 & Hp2). exists j, p', w2. split_and!; try done; congruence.
Qed.
End Handlers.

(** ** Worked examples *)

Definition the_owner : user := mkUser "owner" "user".

Notation power_request running a w :=
  (request (handler_of (power_agents running) (λ _, "") "" (λ _, None) (λ _, true) (λ l, l) "12345678" the_owner a) w).
Notation power_run running j w :=
  (run_job (power_agents running) (λ _, "") (mkConfig None None) (λ s, s) (λ l, l) "" "fresh" None (λ l, l) "12345678"
     (λ _, "member") j w).

(** A project is stopped: asked by its owner, then done. *)
Lemma power_requests_complete_witness :
  let w := power_world "active" "" "shared" in
  ∃ w1 r, power_request [] AskStop w = (w1, Ret (inl r)) ∧
  ∃ j p w2, r_job r = Some j ∧ current "12345678" w1 = Some p ∧ d_state p = job_limbo j ∧
    power_run [] j w1 = (w2, Ret tt) ∧ settled_rows (job_limbo j) "12345678" (jw_rows w2) ∧
    jw_counters w2 = jw_counters w ∧ jw_permits w2 = jw_permits w.
Proof.
  intros w. assert (Hr : ∃ w1 r, power_request [] AskStop w = (w1, Ret (inl r))) by (eexists _, _; vm_compute; reflexivity).
  destruct Hr as (w1 & r & Hr). exists w1, r. split; [exact Hr|].
  apply (power_requests_complete (power_agents []) (λ _, "") (mkConfig None None) (λ s, s) (λ l, l) "" "fresh" (λ _, None)
    None (λ _, true) (λ l, l) "12345678" the_owner (λ _, "member") AskStop w w1 r); [apply power_peers..|by left|exact Hr].
Defined.

(** Who does not own the project is refused; so is a stop of a project that is stopped. *)
Example refusals :
  let ask who a w := (request (handler_of (power_agents []) (λ _, "") "" (λ _, None) (λ _, true) (λ l, l) "12345678" who a) w).2 in
  ask (mkUser "other" "user") AskStop (power_world "active" "" "shared") = Ret (inr (mkRefusal 403 "Access denied")) ∧
  ask the_owner AskStop (power_world "stopped" "" "shared") = Ret (inr (mkRefusal 409 "Project is stopped, not active")) ∧
  ask the_owner AskStop (power_world "active" "hibernate" "kubevirt-cluster") =
    Ret (inr (mkRefusal 409 "Hibernate is not supported on this host type")).
Proof. vm_compute. by split_and!. Qed.

Definition draft_world : jobw :=
  set_rows (deploy_world vm_canvas (None, None, None))
    [with_row (deploying_project vm_canvas (None, None, None)) (mkProject "12345678" None None "draft" vm_canvas None None)].

(** Agents that do what they are asked, on a host whose disk is in use at [used] percent. *)
Definition deploy_agents (used : Z) : environment :=
  mkEnv (λ log e t,
    match e with
    | Call "check_disk_usage" _ => (Num (Some used), t)
    | _ => env_answer (working_agents false) log e t
    end) (λ _ rows, rows) (λ _, 1000) (λ _, false).

Definition deploy_request (used : Z) (w : jobw) : jobw * outcome (reply + refusal) :=
  request (deploy_project (deploy_agents used) no_text (mkConfig None None) (λ l, l) "" "fresh" (λ _, None) None
             "12345678" the_owner None None None) w.

Definition deploy_run (w : jobw) : jobw * outcome unit :=
  run_job (deploy_agents 10) no_text (mkConfig None None) (λ s, s) (λ l, l) "" "fresh" None (λ l, l) "12345678"
    (λ _, "member") DeployJob w.

Definition states_of (w : jobw) : list (string * option string * option string) :=
  map (λ p, (d_state p, p_host_id (d_row p), d_error p)) (jw_rows w).

(** A deployment is counted when it is placed and again while it runs; only the second count is taken
    back: neither the job nor its callback, which is told no host, takes back the first. *)
Example deployment_stays_counted :
  let w1 := (deploy_request 10 draft_world).1 in
  let w2 := on_job_success DeployJob (deploy_run w1).1 in
  (get_inflight_deploys (jw_counters draft_world) "h1", get_inflight_deploys (jw_counters w1) "h1",
   get_inflight_deploys (jw_counters w2) "h1") = (0, 1, 1) ∧
  states_of w2 = [("active", Some "h1", None)].
Proof. vm_compute. by split. Qed.

(** A deployment refused for want of disk stays counted, and its project keeps the host. *)
Example refused_deployment_stays_counted :
  let r := deploy_request 95 draft_world in
  (match r.2 with Ret (inr f) => f_code f | _ => 0 end, get_inflight_deploys (jw_counters r.1) "h1", states_of r.1) =
    (507, 1, [("draft", Some "h1", None)]).
Proof. vm_compute. reflexivity. Qed.

(** The state is a field of the update: an active project is declared a draft by a save. *)
Example state_is_writable :
  states_of (request (update_project (power_agents []) no_text "fresh" "12345678" the_owner
                        (mkUpdate None None None (Some "draft") None None None)) (power_world "active" "" "shared")).1 =
    [("draft", Some "h1", None)].
Proof. vm_compute. reflexivity. Qed.

(** Agents that answer nothing. *)
Definition dead_agents : environment :=
  mkEnv (λ _ e t, (match e with
                   | Call "semaphore.acquire" _ => Flag true
                   | Call "start_job" _ => Raises (XTroshkad "down")
                   | Call "teardown_networks" _ => Raises (XOther "down")
                   | _ => Done
                   end, t)) (λ _ rows, rows) (λ _, 0) (λ _, false).

(** A project whose destruction failed is undeployed all the same: it forgets its host and its VNIs; it may
    be in any state, a deployment that runs is not told. *)
Example undeploy_forgets_failure :
  let r := request (undeploy_project dead_agents no_text (λ s, s) "" (λ l, l) "12345678" the_owner)
             (power_world "deploying" "" "shared") in
  r.2 = Ret (inl (mkReply "draft" None)) ∧ states_of r.1 = [("draft", None, Some "Delete failed: down")] ∧
  existsb (λ e, match e with Call f _ => String.eqb f "mark_cancelled" | _ => false end) (jw_log r.1) = false.
Proof. vm_compute. by split_and!. Qed.
