(* ===== verification/RaceSafe.v ===== *)
(** * Requests for one project that race

    The handlers of [ProjectApi] cut where another request may come between: a handler reads the row
    of the project, then does the rest.  The rest is taken in one step, since what it does to others is
    one commit and what follows it.  PostgreSQL's row lock is the [s_locked] the model of the handler
    sets: a reader that locks, and a commit, wait while another session holds it.  Meanwhile other
    processes may change anything but a row that is locked. *)
From stdpp Require Import prelude strings gmap.
From S2P Require Import Prelude PyStr PyVal Db TopoNodes Placement PlaceProject JobMonad JobTriples PowerFlow PowerSafe DestroyFlow ProjectCanvas ProjectApi ApiSafe.

Open Scope list_scope.
Open Scope handler_scope.

(** Where a request is: it has read the row, or found none, and holds a session; or it is answered. *)
Inductive phase :=
| Waiting
| Reading (s : sess) (found : bool)
| Answered (answer : outcome (reply + refusal)).

Definition holds (ph : phase) : bool := match ph with Reading s _ => s_locked s | _ => false end.
Definition accepts (ph : phase) : bool := match ph with Answered (Ret (inl _)) => true | _ => false end.

(** The world the requests share, and the requests. *)
Record race (A : Type) := mkRace { rc_world : jobw; rc_requests : list (A * phase) }.
Arguments mkRace {_} _ _.
Arguments rc_world {_} _.
Arguments rc_requests {_} _.

Section Race.
Context {A : Type} (pid : string) (read : J bool) (rest : A → bool → H reply).
Implicit Types w : race A.

(** No other request holds the lock of the row. *)
Definition lock_free (i : nat) (w : race A) : bool :=
  forallb (λ '(k, r), (k =? i)%nat || negb (holds r.2)) (imap pair (rc_requests w)).

(** Request [i] reads the row, in a session of its own. *)
Definition step_read (i : nat) (w : race A) : option (race A) :=
  match rc_requests w !! i with
  | Some (a, Waiting) =>
      match read (close_session (rc_world w)) with
      | (v, Ret found) =>
          if s_locked (jw_sess v) && negb (lock_free i w) then None
          else Some (mkRace (close_session v) (<[i := (a, Reading (jw_sess v) found)]> (rc_requests w)))
      | _ => None
      end
  | _ => None
  end.

(** Request [i] does the rest, with the row as it has read it. *)
Definition step_rest (i : nat) (w : race A) : option (race A) :=
  match rc_requests w !! i with
  | Some (a, Reading s found) =>
      if lock_free i w then
        let '(v, answer) := rest a found (set_sess (rc_world w) s) in
        Some (mkRace (close_session v) (<[i := (a, Answered answer)]> (rc_requests w)))
      else None
  | _ => None
  end.

(** What the other processes may do: not change the row while it is locked, and not take a project
    out of ["deploying"], as only the end of its job does. *)
Definition others_may (w : race A) (v : jobw) : Prop :=
  (existsb (λ r, holds r.2) (rc_requests w) = true → current pid v = current pid (rc_world w)) ∧
  ((∀ p, current pid (rc_world w) = Some p → d_state p = "deploying") →
   ∀ p, current pid v = Some p → d_state p = "deploying").

Inductive race_step (w : race A) : race A → Prop :=
| race_read i w' : step_read i w = Some w' → race_step w w'
| race_rest i w' : step_rest i w = Some w' → race_step w w'
| race_others v : others_may w v → race_step w (mkRace v (rc_requests w)).

(** The requests that were accepted. *)
Definition accepted (w : race A) : nat := length (List.filter (λ r, accepts r.2) (rc_requests w)).
Definition fresh_race (v : jobw) (l : list A) : race A := mkRace v (map (λ a, (a, Waiting)) l).

(** A schedule of steps, as far as it goes. *)
Fixpoint run_race (steps : list (bool * nat)) (w : race A) : option (race A) :=
  match steps with
  | [] => Some w
  | (reads, i) :: steps' => w' ← (if reads then step_read i w else step_rest i w); run_race steps' w'
  end.

Lemma run_race_steps steps w w' : run_race steps w = Some w' → rtc race_step w w'.
Proof.
  revert w. induction steps as [|[b i] steps IH]; intros w H; cbn in H; [injection H as <-; apply rtc_refl|].
  destruct b; (destruct (_ i w) as [w1|] eqn:E in H; [|done]); (eapply rtc_l; [|by apply IH]).
  - by eapply race_read.
  - by eapply race_rest.
Qed.

Lemma lock_free_other i w k r : lock_free i w = true → rc_requests w !! k = Some r → k ≠ i → holds r.2 = false.
Proof.
  intros Hf Hk Hne. unfold lock_free in Hf. rewrite forallb_forall in Hf.
  specialize (Hf (k, r)). cbn in Hf. ospecialize (Hf _).
  { apply list_elem_of_In, list_elem_of_lookup. exists k. by rewrite list_lookup_imap, Hk. }
  apply orb_true_iff in Hf as [Hf|Hf]; [by apply Nat.eqb_eq in Hf|]. by apply negb_true_iff in Hf.
Qed.

Lemma accepted_insert (l : list (A * phase)) i a ph ph' :
  l !! i = Some (a, ph) → accepts ph = false →
  length (List.filter (λ r, accepts r.2) (<[i := (a, ph')]> l)) =
    (length (List.filter (λ r, accepts r.2) l) + if accepts ph' then 1 else 0)%nat.
Proof.
  revert i. induction l as [|x l IH]; intros [|i] Hi Hr; [done|done| |].
  - injection Hi as ->. change (<[0%nat:=(a, ph')]> ((a, ph) :: l)) with ((a, ph') :: l). cbn. rewrite Hr.
    destruct (accepts ph'); cbn [length]; lia.
  - specialize (IH i Hi Hr). change (<[S i:=(a, ph')]> (x :: l)) with (x :: <[i:=(a, ph')]> l). cbn [List.filter].
    destruct (accepts x.2); cbn [length]; rewrite IH; lia.
Qed.
End Race.

(** ** Redeployments *)

Section Redeploys.
Context (env : environment) (exn_text : exn → string) (library : string → option library_item) (pid : string).

(** A request to redeploy: who asks, and the mode. *)
Definition redeploy_ask : Type := user * option string.
Definition redeploy_rest (a : redeploy_ask) : bool → H reply := redeploy_found env exn_text library pid a.1 a.2.
Notation read := (query_project_for_update pid).
Notation step := (race_step pid read redeploy_rest).

(** The two steps are the handler. *)
Lemma redeploy_cut (a : redeploy_ask) :
  redeploy_project env exn_text library pid a.1 a.2 = (found <-! run read;; redeploy_rest a found).
Proof. reflexivity. Qed.

(** The session that holds the row. *)
Definition opened (p : dproject) : sess := mkSess (Some p) [] true false.

Lemma read_opens w :
  read (close_session w) = match current pid w with
                           | Some p => (set_sess w (opened p), Ret true)
                           | None => (close_session w, Ret false)
                           end.
Proof.
  unfold query_project_for_update, query_project, jbind, flush, close_session, current. cbn.
  by destruct (List.find _ _).
Qed.

(** Whoever has read a row holds its lock, and the row is as read; one who has it at most; after a
    request is accepted, the project is deploying. *)
Definition race_inv (w : race redeploy_ask) : Prop :=
  (∀ i a s, rc_requests w !! i = Some (a, Reading s true) →
     ∃ p, current pid (rc_world w) = Some p ∧ s = opened p ∧ ∀ k r, k ≠ i → rc_requests w !! k = Some r → holds r.2 = false) ∧
  (accepted w = 0%nat ∨ accepted w = 1%nat ∧ ∀ p, current pid (rc_world w) = Some p → d_state p = "deploying").

(** What the rest of a request does with the row it has locked. *)
Lemma rest_answered (a : redeploy_ask) p w :
  current pid w = Some p →
  let '(v, answer) := redeploy_rest a true (set_sess w (opened p)) in
  match answer with
  | Ret (inl _) => d_state p ≠ "deploying" ∧ ∃ p', current pid v = Some p' ∧ d_state p' = "deploying"
  | _ => current pid v = current pid w
  end.
Proof.
  intros Hc. pose proof (request_answered env exn_text (λ s, s) (λ l, l) "" library (λ _, true) (λ l, l) pid a.1 (AskRedeploy a.2) w) as H.
  unfold request, jbind at 1, jmod, jfinally in H. cbn [handler_of] in H. rewrite (redeploy_cut a) in H.
  unfold hbind at 1, run at 1, jbind at 1 2 in H. rewrite read_opens, Hc in H. cbn [hret jret] in H.
  destruct (redeploy_rest a true (set_sess w (opened p))) as [v [[r|e]|e|]]; [| | |done].
  - destruct H as (q & j & Hq & _ & Hsrc & _ & Hj & Hh). rewrite Hc in Hq. injection Hq as <-.
    destruct j; try done. split; [intros Hd; rewrite Hd in Hsrc; cbn in Hsrc; set_solver|].
    destruct (handed_state _ _ _ _ _ Hc Hh) as (p' & Hp' & Hst). by exists p'.
  - destruct H as [Hr _]. unfold current. by rewrite <-Hr.
  - destruct H as [Hr _]. unfold current. by rewrite <-Hr.
Qed.

Lemma rest_missing (a : redeploy_ask) w :
  redeploy_rest a false w = (w, Ret (inr (mkRefusal 404 PROJECT_NOT_FOUND))).
Proof. reflexivity. Qed.

Lemma read_inv i w w' : race_inv w → step_read read i w = Some w' → race_inv w'.
Proof.
  intros [Hr Hacc]. unfold step_read. destruct (rc_requests w !! i) as [[a ph]|] eqn:Ei; [|done].
  destruct ph; try done. rewrite read_opens. destruct (current pid (rc_world w)) as [p|] eqn:Hc; cbn.
  - destruct (lock_free i w) eqn:Hf; [|done]. intros [= <-]. split; cbn [rc_requests rc_world].
    + intros k b s Hk. apply list_lookup_insert_Some in Hk as [(<- & [= <- <-] & _)|[Hne Hk]].
      * exists p. split_and!; [exact Hc|done|]. intros k r Hne Hk. rewrite list_lookup_insert_ne in Hk by done.
        by eapply lock_free_other.
      * destruct (Hr k b s Hk) as (q & _ & -> & _). pose proof (lock_free_other _ _ _ _ Hf Hk (not_eq_sym Hne)). done.
    + unfold accepted in *. cbn [rc_requests rc_world]. rewrite (accepted_insert _ _ _ _ _ Ei) by done. cbn [accepts]. rewrite Nat.add_0_r. rewrite <-Hc in Hacc. exact Hacc.
  - intros [= <-]. split; cbn [rc_requests rc_world].
    + intros k b s Hk. apply list_lookup_insert_Some in Hk as [(<- & [= <-] & _)|[Hne Hk]].
      destruct (Hr k b s Hk) as (q & Hq & _). congruence.
    + unfold accepted in *. cbn [rc_requests rc_world]. rewrite (accepted_insert _ _ _ _ _ Ei) by done. cbn [accepts]. rewrite Nat.add_0_r. rewrite <-Hc in Hacc. exact Hacc.
Qed.

Lemma rest_inv i w w' : race_inv w → step_rest redeploy_rest i w = Some w' → race_inv w'.
Proof.
  intros [Hr Hacc]. unfold step_rest. destruct (rc_requests w !! i) as [[a ph]|] eqn:Ei; [|done].
  destruct ph as [|s found|]; try done. destruct (lock_free i w) eqn:Hf; [|done].
  (* Nobody else has read the row. *)
  assert (Hnone : ∀ ph k b t, <[i := (a, Answered ph)]> (rc_requests w) !! k = Some (b, Reading t true) → False).
  { intros ph k b t Hk. apply list_lookup_insert_Some in Hk as [(_ & [=] & _)|[Hne Hk]].
    destruct (Hr k b t Hk) as (q & _ & -> & _). pose proof (lock_free_other _ _ _ _ Hf Hk (not_eq_sym Hne)). done. }
  destruct found.
  - destruct (Hr i a s Ei) as (p & Hc & -> & _). pose proof (rest_answered a p (rc_world w) Hc) as Ha.
    destruct (redeploy_rest a true _) as [v ans]. intros [= <-]. split; cbn [rc_requests rc_world].
    { intros k b t Hk. by apply Hnone in Hk. }
    unfold accepted in *. cbn [rc_requests rc_world]. rewrite (accepted_insert _ _ _ _ _ Ei) by done. cbn [accepts].
    destruct ans as [[r|e]|e|].
    + destruct Ha as (Hne & p' & Hp' & Hst). destruct Hacc as [->|[_ Hd]]; [|by destruct (Hne (Hd p Hc))].
      right. split; [done|]. intros q Hq. change (current pid v = Some q) in Hq. congruence.
    + change (current pid (close_session v)) with (current pid v). rewrite Ha, Nat.add_0_r. exact Hacc.
    + change (current pid (close_session v)) with (current pid v). rewrite Ha, Nat.add_0_r. exact Hacc.
    + change (current pid (close_session v)) with (current pid v). rewrite Ha, Nat.add_0_r. exact Hacc.
  - rewrite rest_missing. intros [= <-]. split; cbn [rc_requests rc_world].
    { intros k b t Hk. by apply Hnone in Hk. }
    unfold accepted in *. cbn [rc_requests rc_world]. rewrite (accepted_insert _ _ _ _ _ Ei) by done. cbn [accepts].
    rewrite Nat.add_0_r. exact Hacc.
Qed.

Lemma others_inv w v : race_inv w → others_may pid w v → race_inv (mkRace v (rc_requests w)).
Proof.
  intros [Hr Hacc] [Hlock Hdep]. split; cbn [rc_requests rc_world].
  - intros i a s Hi. destruct (Hr i a s Hi) as (p & Hc & -> & Hn). exists p. split_and!; [|done..].
    rewrite Hlock; [done|]. apply existsb_exists. exists (a, Reading (opened p) true). split; [|done].
    apply list_elem_of_In. by eapply list_elem_of_lookup_2.
  - unfold accepted in *. cbn [rc_requests]. destruct Hacc as [->|[-> Hd]]; [by left|]. right. split; [done|]. by apply Hdep.
Qed.

Lemma reachable_inv w w' : race_inv w → rtc step w w' → race_inv w'.
Proof.
  intros Hw H. induction H as [w|w w1 w2 Hs _ IH]; [done|]. apply IH.
  destruct Hs; [by eapply read_inv|by eapply rest_inv|by apply others_inv].
Qed.

(** C38: However requests to redeploy one project interleave, with each other and with other processes
    that respect the lock of its row and leave a project that is deploying to its job: at most one is
    accepted, and then the project is gone or ["deploying"] for it.  The steps are those of
    [redeploy_project]: the query with the lock it takes, then the rest of the handler. *)
Theorem redeploys_exclusive v l w :
  rtc step (fresh_race v l) w →
  (accepted w ≤ 1)%nat ∧ (accepted w = 1%nat → ∀ p, current pid (rc_world w) = Some p → d_state p = "deploying").
Proof.
  intros Hr. assert (Hinv : race_inv w).
  { eapply reachable_inv; [|exact Hr]. split.
    - intros i a s H. cbn in H. by apply list_lookup_fmap_Some in H as (b & Heq & _).
    - left. unfold accepted. cbn. clear. by induction l. }
  destruct Hinv as [_ [->|[-> Hd]]]; split; (lia || done).
Qed.
End Redeploys.

(** ** Races *)

Notation sample_redeploys steps :=
  (run_race (query_project_for_update "12345678") (redeploy_rest (power_agents []) (λ _, "") (λ _, None) "12345678") steps
     (fresh_race (power_world "active" "" "shared") [(mkUser "owner" "user", None); (mkUser "root" "admin", None)])).

(** Where each request of a race is. *)
Definition shown {A} (w : option (race A)) : option (list (option bool) * list string) :=
  (λ w, (map (λ r, match r.2 with Answered (Ret (inl _)) => Some true | Answered _ => Some false | _ => None end) (rc_requests w),
         map d_state (jw_rows (rc_world w)))) <$> w.

(** The second reader waits for the first. *)
Example second_reader_waits : shown (sample_redeploys [(true, 0%nat); (true, 1%nat)]) = None.
Proof. vm_compute. reflexivity. Qed.

Lemma redeploys_exclusive_witness :
  let steps := [(true, 0%nat); (false, 0%nat); (true, 1%nat); (false, 1%nat)] in
  shown (sample_redeploys steps) = Some ([Some true; Some false], ["deploying"]) ∧
  ∃ w, sample_redeploys steps = Some w ∧ (accepted w ≤ 1)%nat ∧
       (accepted w = 1%nat → ∀ p, current "12345678" (rc_world w) = Some p → d_state p = "deploying").
Proof.
  intros steps. split; [vm_compute; reflexivity|].
  destruct (sample_redeploys steps) as [w|] eqn:E; [|vm_compute in E; discriminate].
  exists w. split; [reflexivity|].
  apply (redeploys_exclusive (power_agents []) (λ _, "") (λ _, None) "12345678" (power_world "active" "" "shared")
           [(mkUser "owner" "user", None); (mkUser "root" "admin", None)] w).
  exact (run_race_steps "12345678" _ _ steps _ w E).
Defined.

(** Two requests to stop are both accepted: they read the row without its lock. *)
Example stops_race :
  shown (run_race (query_project "12345678")
           (λ who found, p <-! check_owner "12345678" who found;; stop_owned "12345678" p)
           [(true, 0%nat); (true, 1%nat); (false, 0%nat); (false, 1%nat)]
           (fresh_race (power_world "active" "" "shared") [mkUser "owner" "user"; mkUser "root" "admin"]))
  = Some ([Some true; Some true], ["stopping"]).
Proof. vm_compute. reflexivity. Qed.
