(* ===== verification/HostGc.v ===== *)
(** * The sweep of a host

    The handlers [gc/discover] and [gc/clean] of [troshkad/troshkad.py]: the first lists what a
    host holds of projects the backend does not name, the second removes what it is told to.

    A machine is its directory entries, libvirt domains and pools, podman containers, bridges and
    network namespaces.  Commands and file operations answer through an oracle; a removal that
    fails may have removed a part.  Paths hold no symbolic links. *)
From stdpp Require Import prelude strings.
From Stdlib Require Import Ascii.
From S2P Require Import Prelude PyStr.

Open Scope list_scope.

(** An entry of a directory, with the seconds of its last change. *)
Record file := mkFile { f_dir : string; f_name : string; f_isdir : bool; f_mtime : Z }.
#[export] Instance file_eq_dec : EqDecision file.
Proof. solve_decision. Defined.

Definition f_path (f : file) : string := f_dir f +:+ "/" +:+ f_name f.

Record domain := mkDomain { dm_name : string; dm_running : bool; dm_bridges : list string }.
Record container := mkContainer { ct_name : string; ct_pod : string; ct_running : bool }.
#[export] Instance container_eq_dec : EqDecision container.
Proof. solve_decision. Defined.

Record machine := mkMachine {
  m_files : list file;
  m_domains : list domain;
  m_pools : list (string * string);
  m_containers : list container;
  m_bridges : list string;
  m_netns : list string;
  m_dangling : list string;
  m_job_tmpdirs : list string
}.

Definition set_files (m : machine) (l : list file) : machine :=
  mkMachine l (m_domains m) (m_pools m) (m_containers m) (m_bridges m) (m_netns m) (m_dangling m) (m_job_tmpdirs m).
Definition set_domains (m : machine) (l : list domain) : machine :=
  mkMachine (m_files m) l (m_pools m) (m_containers m) (m_bridges m) (m_netns m) (m_dangling m) (m_job_tmpdirs m).
Definition set_pools (m : machine) (l : list (string * string)) : machine :=
  mkMachine (m_files m) (m_domains m) l (m_containers m) (m_bridges m) (m_netns m) (m_dangling m) (m_job_tmpdirs m).
Definition set_containers (m : machine) (l : list container) : machine :=
  mkMachine (m_files m) (m_domains m) (m_pools m) l (m_bridges m) (m_netns m) (m_dangling m) (m_job_tmpdirs m).
Definition set_bridges (m : machine) (l : list string) : machine :=
  mkMachine (m_files m) (m_domains m) (m_pools m) (m_containers m) l (m_netns m) (m_dangling m) (m_job_tmpdirs m).
Definition set_netns (m : machine) (l : list string) : machine :=
  mkMachine (m_files m) (m_domains m) (m_pools m) (m_containers m) (m_bridges m) l (m_dangling m) (m_job_tmpdirs m).
Definition set_dangling (m : machine) (l : list string) : machine :=
  mkMachine (m_files m) (m_domains m) (m_pools m) (m_containers m) (m_bridges m) (m_netns m) l (m_job_tmpdirs m).

(** How a command or a file operation ends: it succeeds; it exits with an error or raises
    [OSError]; or running it raises, as a time-out does. *)
Inductive ran := RanOk | RanFailed | RanRaised.

(** The oracle, and what a failed removal of a tree leaves. *)
Record platform := mkPlatform {
  run : list string → ran;
  leftover : string → file → bool;
  local_mount : string;
  shared_mount : string;
  shared_mode : bool;
  clock_s : Z
}.

Definition ran_ok (r : ran) : bool := match r with RanOk => true | _ => false end.

(** ** Names and paths *)

(** The libvirt names, a pair of eight hexadecimal digits after the prefix. *)
Definition is_hex (a : ascii) : bool :=
  let n := N_of_ascii a in ((48 <=? n)%N && (n <=? 57)%N) || ((97 <=? n)%N && (n <=? 102)%N).
Fixpoint all_hex (s : string) : bool :=
  match s with EmptyString => true | String a s' => is_hex a && all_hex s' end.

(** [troshkad._validate_domain_name] the pattern is ["troshka-"], eight digits, a dash, eight digits. *)
Definition valid_domain_name (name : string) : bool :=
  startswith "troshka-" name && (String.length name =? 25)%nat && all_hex (str_take 8 (str_drop 8 name))
    && String.eqb (str_take 1 (str_drop 16 name)) "-" && all_hex (str_drop 17 name).

(** [troshkad._validate_bridge_name] the pattern is ["br-"], maybe ["troshka-"] or ["bmc-"], then digits. *)
Definition valid_bridge_name (name : string) : bool :=
  let digits s := negb (String.eqb s "") && all_hex s in
  (startswith "br-" name && digits (str_drop 3 name))
  || (startswith "br-troshka-" name && digits (str_drop 11 name))
  || (startswith "br-bmc-" name && digits (str_drop 7 name)).

Definition components (path : string) : list string :=
  foldl (λ acc c,
    if String.eqb c "" || String.eqb c "." then acc
    else if String.eqb c ".." then removelast acc else acc ++ [c]) [] (split "/"%char path).
(** Python: [os.path.normpath] of an absolute path with one slash at its head. *)
Definition normpath (path : string) : string :=
  "/" +:+ join "/" (components path).

(** The entries of a directory, and the tree below a path. *)
Definition listdir (m : machine) (d : string) : list file := List.filter (λ f, String.eqb (f_dir f) d) (m_files m).
Definition in_tree (path : string) (f : file) : bool :=
  String.eqb (f_path f) path || startswith (path +:+ "/") (f_path f).
Definition isdir (m : machine) (path : string) : bool :=
  existsb (λ f, String.eqb (f_path f) path && f_isdir f) (m_files m).
Definition isfile (m : machine) (path : string) : bool :=
  existsb (λ f, String.eqb (f_path f) path && negb (f_isdir f)) (m_files m).
Definition exists_path (m : machine) (path : string) : bool :=
  existsb (λ f, String.eqb (f_path f) path) (m_files m).

(** [s.strip(c)] for one character. *)
Fixpoint lstrip_char (c : ascii) (s : string) : string :=
  match s with String a s' => if Ascii.eqb a c then lstrip_char c s' else s | EmptyString => s end.
Definition strip_char (c : ascii) (s : string) : string := String.rev (lstrip_char c (String.rev (lstrip_char c s))).

(** Places of the agent. *)
Definition TROSHKA_DIR : string := "/var/lib/troshka".
Definition VMS_DIR : string := "/var/lib/troshka/vms".
Definition SHARED_DIR : string := "/var/lib/troshka/shared".
Definition LOCAL_DIR : string := "/var/lib/troshka/local".
Definition BMC_DIR : string := "/var/lib/troshka/bmc".
(** [troshkad._discover_orphan_dirs:7107-7111] the directories of the projects' disks. *)
Definition vms_dirs : list string := [VMS_DIR; SHARED_DIR +:+ "/vms"; LOCAL_DIR +:+ "/vms"].
Definition AGENT_ISO_NAME : string := "agent.x86_64.iso".
Definition STALE_AGENT_ISO_AGE : Z := 6 * 3600.
Definition AGENT_ISO_SCAN_ROOT : string := "/tmp".

Section HostGc.
Context (pf : platform).

(** ** What [gc/discover] lists *)

(** [troshkad._discover_orphan_dirs] *)
Definition discover_orphan_dirs (m : machine) (known : list string) : list string :=
  flat_map (λ d,
    if ran_ok (run pf ["listdir"; d]) then
      omap (λ f, if bool_decide (f_name f ∉ known) && f_isdir f then Some (f_path f +:+ "/") else None) (listdir m d)
    else []) vms_dirs.

(** [ctr_name.split("-", 2)[1]], for a name with a dash. *)
Definition project_prefix (name : string) : string := split_head "-" (str_drop 1 (str_drop (String.length (split_head "-" name)) name)).

(** [troshkad._discover_orphan_containers] *)
Definition discover_orphan_containers (m : machine) (known : list string) : list string :=
  if ran_ok (run pf ["podman"; "ps"]) then
    omap (λ c,
      let name := strip (ct_name c) in
      if String.eqb name "" || negb (startswith "troshka-" name) then None
      else if existsb (startswith (project_prefix name)) known then None else Some name) (m_containers m)
  else [].

(** [troshkad._discover_orphan_domains] *)
Definition discover_orphan_domains (m : machine) (known_domains : list string) : list string :=
  if ran_ok (run pf ["virsh"; "list"]) then
    omap (λ d,
      let name := strip (dm_name d) in
      if negb (startswith "troshka-" name) then None
      else if existsb (λ p, startswith p name) known_domains then None else Some name) (m_domains m)
  else [].

(** [troshkad._collect_vm_bridges]: the exit status of the listing is not looked at; [None] when
    a command raises. *)
Definition collect_vm_bridges (m : machine) : option (list string) :=
  match run pf ["virsh"; "list"] with
  | RanRaised => None
  | RanFailed => Some []
  | RanOk =>
      foldl (λ (acc : option (list string)) d, acc ← acc;
        if String.eqb (strip (dm_name d)) "" then Some acc
        else match run pf ["virsh"; "dumpxml"; strip (dm_name d)] with
             | RanRaised => None
             | RanFailed => Some acc
             | RanOk => Some (acc ++ dm_bridges d)
             end) (Some []) (m_domains m)
  end.

(** [troshkad._check_bridge_is_orphan] *)
Definition check_bridge_is_orphan (m : machine) (name : string) (vm_bridges : list string) : option bool :=
  if negb (startswith "br-" name) || bool_decide (name ∈ vm_bridges) then Some false
  else if startswith "br-bmc-" name then Some false
  else match run pf ["ip"; "link"; "show"; name] with
       | RanRaised => None
       | RanFailed => Some false
       | RanOk => Some (bool_decide (name ∈ m_bridges m))
       end.

(** [troshkad._find_orphan_host_bridges] *)
Definition find_orphan_host_bridges (m : machine) (vm_bridges : list string) : option (list string) :=
  match run pf ["ip"; "link"; "bridges"] with
  | RanRaised => None
  | RanFailed => Some []
  | RanOk =>
      foldl (λ (acc : option (list string)) b, acc ← acc; orphan ← check_bridge_is_orphan m b vm_bridges;
        Some (if (orphan : bool) then acc ++ [b] else acc)) (Some []) (m_bridges m)
  end.

(** [troshkad._discover_orphan_bridges] *)
Definition discover_orphan_bridges (m : machine) : list string :=
  default [] (collect_vm_bridges m ≫= find_orphan_host_bridges m).

(** [troshkad._discover_orphan_namespaces] *)
Definition discover_orphan_namespaces (m : machine) (known : list string) : list string :=
  let known_ns := map (λ p, "troshka-" +:+ str_take 8 p) known in
  if ran_ok (run pf ["ip"; "netns"; "list"])
  then List.filter (λ ns, startswith "troshka-" ns && bool_decide (ns ∉ known_ns)) (m_netns m) else [].

(** [troshkad._discover_cache_items:7287-7299] the directories of the caches. *)
Definition cache_dirs : list string :=
  [local_mount pf +:+ "/cache/patterns"; TROSHKA_DIR +:+ "/cache/patterns"; TROSHKA_DIR +:+ "/cache/snapshots";
   TROSHKA_DIR +:+ "/images"; LOCAL_DIR +:+ "/cache/patterns"; LOCAL_DIR +:+ "/cache/snapshots";
   SHARED_DIR +:+ "/images"; SHARED_DIR +:+ "/cache/patterns"; SHARED_DIR +:+ "/cache/snapshots"].

(** [troshkad._discover_cache_items]: the paths. *)
Definition discover_cache_items (m : machine) : list string :=
  flat_map (λ d,
    if ran_ok (run pf ["listdir"; d]) then
      omap (λ f, if ran_ok (run pf ["stat"; f_path f]) then Some (f_path f) else None) (listdir m d)
    else []) cache_dirs.

(** [troshkad._discover_orphan_leases]: the files are removed at once. *)
Definition is_stale_lease (known : list string) (f : file) : bool :=
  String.eqb (f_dir f) TROSHKA_DIR && startswith "dnsmasq-" (f_name f) && endswith ".leases" (f_name f)
  && bool_decide (split_head "-" (replace "dnsmasq-" "" (f_name f)) ∉ map (str_take 8) known)
  && ran_ok (run pf ["remove"; f_path f]).
Definition discover_orphan_leases (m : machine) (known : list string) : machine :=
  set_files m (List.filter (λ f, negb (is_stale_lease known f)) (m_files m)).

(** [troshkad._discover_orphan_bmc] *)
Definition discover_orphan_bmc (m : machine) (known_bmc : list string) : list string :=
  omap (λ f, if f_isdir f && bool_decide (f_name f ∉ known_bmc) then Some (f_name f) else None) (listdir m BMC_DIR).

(** [troshkad._get_active_tmpdirs], and [troshkad._discover_stale_temps] *)
Definition tmp_dir : string := local_mount pf +:+ "/tmp".
Definition discover_stale_temps (m : machine) : list string :=
  if ran_ok (run pf ["listdir"; tmp_dir])
  then List.filter (λ p, bool_decide (p ∉ m_job_tmpdirs m)) (map f_path (listdir m tmp_dir)) else [].

(** [troshkad._discover_orphan_metadata] *)
Definition discover_orphan_metadata (m : machine) (known : list string) : list string :=
  omap (λ f,
    if startswith "metadata-" (f_name f) && endswith ".py" (f_name f) && (12 <=? String.length (f_name f))%nat then
      let prefix := replace ".py" "" (replace "metadata-" "" (f_name f)) in
      if bool_decide (prefix ∉ map (str_take 8) known) then Some prefix else None
    else None) (listdir m "/opt/troshka").

(** [troshkad._discover_stale_agent_isos] *)
Definition discover_stale_agent_isos (m : machine) : list string :=
  if ran_ok (run pf ["listdir"; AGENT_ISO_SCAN_ROOT]) then
    omap (λ d,
      if negb (f_isdir d) then None
      else
        match List.find (λ f, String.eqb (f_dir f) (f_path d) && String.eqb (f_name f) AGENT_ISO_NAME && negb (f_isdir f))
                (m_files m) with
        | None => None
        | Some iso =>
            if negb (ran_ok (run pf ["getmtime"; f_path iso])) then None
            else if clock_s pf - f_mtime iso <? STALE_AGENT_ISO_AGE then None else Some (f_path d)
        end) (listdir m AGENT_ISO_SCAN_ROOT)
  else [].

(** [troshkad._discover_dangling_images] *)
Definition discover_dangling_images (m : machine) : bool :=
  ran_ok (run pf ["podman"; "images"]) && negb (bool_decide (m_dangling m = [])).

(** [troshkad._list_all_pool_names] and [troshkad._pool_target_path] *)
Definition list_all_pool_names (m : machine) : list string :=
  if ran_ok (run pf ["virsh"; "pool-list"]) then (m_pools m).*1 else [].
Definition pool_target_path (m : machine) (name : string) : string :=
  if ran_ok (run pf ["virsh"; "pool-dumpxml"; name])
  then match List.find (λ p, String.eqb p.1 name) (m_pools m) with Some p => strip p.2 | None => "" end else "".

(** [troshkad._project_from_vms_target] *)
Definition VMS_POOL_PREFIXES : list string := [SHARED_DIR +:+ "/vms/"; TROSHKA_DIR +:+ "/vms/"].
Definition project_from_vms_target (target : string) : string :=
  match List.find (λ p, startswith p target) VMS_POOL_PREFIXES with
  | Some p => split_head "/" (strip_char "/" (str_drop (String.length p) target))
  | None => ""
  end.

(** [troshkad._discover_orphan_pools] *)
Definition discover_orphan_pools (m : machine) (known : list string) : list string :=
  List.filter (λ name,
    let proj := project_from_vms_target (pool_target_path m name) in
    negb (String.eqb proj "") && bool_decide (proj ∉ known)) (list_all_pool_names m).

(** What the backend names, and what it is answered. *)
Record discover_request := mkDiscover {
  known_project_ids : list string; known_domains : list string; known_bmc_project_ids : list string
}.

Record orphans := mkOrphans {
  orphan_dirs : list string; orphan_domains : list string; orphan_pools : list string;
  orphan_containers : list string; orphan_bridges : list string; orphan_namespaces : list string;
  cache_items : list string; orphaned_bmc_project_ids : list string; orphaned_metadata_ids : list string;
  stale_temps : list string; stale_agent_isos : list string; dangling_images : bool
}.

(** [troshkad._handle_gc_discover] *)
Definition handle_gc_discover (m : machine) (q : discover_request) : machine * orphans :=
  let known := known_project_ids q in
  let dirs := discover_orphan_dirs m known in
  let containers := discover_orphan_containers m known in
  let domains := discover_orphan_domains m (known_domains q) in
  let pools := discover_orphan_pools m known in
  let bridges := discover_orphan_bridges m in
  let namespaces := discover_orphan_namespaces m known in
  let cache := discover_cache_items m in
  let m := discover_orphan_leases m known in
  (m, mkOrphans dirs domains pools containers bridges namespaces cache (discover_orphan_bmc m (known_bmc_project_ids q))
        (discover_orphan_metadata m known) (discover_stale_temps m) (discover_stale_agent_isos m)
        (discover_dangling_images m)).

(** ** What [gc/clean] removes

    A step removes something and counts it, or raises. *)

(** [for x in l: removed += step(x)] *)
Fixpoint sweep {A} (step : machine → A → machine * option Z) (l : list A) (m : machine) : machine * option Z :=
  match l with
  | [] => (m, Some 0)
  | x :: l' =>
      let '(m, n) := step m x in
      match n with
      | None => (m, None)
      | Some n => let '(m, k) := sweep step l' m in (m, (λ k, n + k) <$> k)
      end
  end.

(** [troshkad._validate_path], for a tree without symbolic links. *)
Definition allowed_prefixes : list string :=
  [TROSHKA_DIR +:+ "/"; "/opt/troshka/"; "/var/log/troshka-"] ++
  (if shared_mode pf then [shared_mount pf +:+ "/"; local_mount pf +:+ "/"; TROSHKA_DIR +:+ "/seeds/"] else []).
Definition validate_path (path : string) : option string :=
  let normalized := normpath path in
  if existsb (λ p, startswith p normalized) allowed_prefixes then Some normalized else None.

(** Python: [shutil.rmtree] and [os.remove]. *)
Definition rmtree (m : machine) (path : string) : machine := set_files m (List.filter (λ f, negb (in_tree path f)) (m_files m)).
Definition rmtree_failed (m : machine) (path : string) : machine :=
  set_files m (List.filter (λ f, negb (in_tree path f) || leftover pf path f) (m_files m)).
Definition unlink (m : machine) (path : string) : machine :=
  set_files m (List.filter (λ f, negb (String.eqb (f_path f) path && negb (f_isdir f))) (m_files m)).

(** [troshkad._clean_orphan_dirs:7490-7508] one path: a second attempt deletes the files, then the directory. *)
Definition clean_dir (m : machine) (path : string) : machine * option Z :=
  match validate_path path with
  | None => (m, None)
  | Some p =>
      if negb (isdir m p) then (m, Some 0)
      else
        match run pf ["rmtree"; p] with
        | RanOk => (rmtree m p, Some 1)
        | RanRaised => (rmtree_failed m p, None)
        | RanFailed =>
            let m := rmtree_failed m p in
            if negb (ran_ok (run pf ["listdir"; p])) then (m, Some 0)
            else
              let m := set_files m (List.filter (λ f,
                negb (String.eqb (f_dir f) p && negb (f_isdir f) && ran_ok (run pf ["remove"; f_path f]))) (m_files m)) in
              if ran_ok (run pf ["rmdir"; p]) && bool_decide (listdir m p = []) then (rmtree m p, Some 1) else (m, Some 0)
        end
  end.

(** [troshkad._clean_orphan_dirs] *)
Definition clean_orphan_dirs : list string → machine → machine * option Z := sweep clean_dir.

(** [troshkad._clean_orphan_domains] *)
Definition clean_orphan_domains : list string → machine → machine * option Z := sweep (λ m name,
  if negb (valid_domain_name name) then (m, Some 0)
  else
    let m := if ran_ok (run pf ["virsh"; "destroy"; name])
             then set_domains m (map (λ d, if String.eqb (dm_name d) name then mkDomain name false (dm_bridges d) else d)
                                  (m_domains m)) else m in
    if ran_ok (run pf ["virsh"; "undefine"; name])
    then (set_domains m (List.filter (λ d, negb (String.eqb (dm_name d) name)) (m_domains m)), Some 1)
    else (m, Some 0)).

(** [troshkad._container_pod]: whether the container is there, and its pod. *)
Definition container_pod (m : machine) (name : string) : bool * string :=
  match run pf ["podman"; "container"; "inspect"; name] with
  | RanRaised => (true, "")
  | RanFailed => (false, "")
  | RanOk => match List.find (λ c, String.eqb (ct_name c) name) (m_containers m) with
             | Some c => (true, strip (ct_pod c))
             | None => (false, "")
             end
  end.

(** [troshkad._clean_orphan_containers] *)
Fixpoint clean_orphan_containers (removed_pods l : list string) (m : machine) : machine * Z :=
  match l with
  | [] => (m, 0)
  | name :: l' =>
      if negb (startswith "troshka-" name) then clean_orphan_containers removed_pods l' m
      else
        match container_pod m name with
        | (false, _) => clean_orphan_containers removed_pods l' m
        | (true, "") =>
            let m := if ran_ok (run pf ["podman"; "stop"; name])
                     then set_containers m (map (λ c, if String.eqb (ct_name c) name
                                                      then mkContainer name (ct_pod c) false else c) (m_containers m))
                     else m in
            if ran_ok (run pf ["podman"; "rm"; name]) then
              let m := set_containers m (List.filter (λ c, negb (String.eqb (ct_name c) name)) (m_containers m)) in
              let '(m, n) := clean_orphan_containers removed_pods l' m in (m, n + 1)
            else clean_orphan_containers removed_pods l' m
        | (true, pod) =>
            if bool_decide (pod ∈ removed_pods) || negb (ran_ok (run pf ["podman"; "pod"; "rm"; pod]))
            then clean_orphan_containers removed_pods l' m
            else
              let m := set_containers m (List.filter (λ c, negb (String.eqb (strip (ct_pod c)) pod)) (m_containers m)) in
              let '(m, n) := clean_orphan_containers (pod :: removed_pods) l' m in (m, n + 1)
        end
  end.

(** [troshkad._undefine_pool] *)
Definition undefine_pool (m : machine) (name : string) : machine * bool :=
  if ran_ok (run pf ["virsh"; "pool-undefine"; name])
  then (set_pools m (List.filter (λ p, negb (String.eqb p.1 name)) (m_pools m)), true) else (m, false).

(** [troshkad._clean_orphan_pools] *)
Definition clean_orphan_pools : list string → machine → machine * option Z := sweep (λ m name,
  if String.eqb (project_from_vms_target (pool_target_path m name)) "" then (m, Some 0)
  else match run pf ["virsh"; "pool-destroy"; name], run pf ["virsh"; "pool-undefine"; name] with
       | RanRaised, _ | _, RanRaised => (m, None)
       | _, _ => let '(m, undefined) := undefine_pool m name in (m, Some (if undefined then 1 else 0))
       end).

(** [troshkad._remove_bmc_bridge]: the bridge of the host. *)
Definition remove_bmc_bridge (m : machine) (project_id : string) : machine :=
  let bridge := "br-bmc-" +:+ str_take 8 project_id in
  if ran_ok (run pf ["ip"; "link"; "del"; bridge])
  then set_bridges m (List.filter (λ b, negb (String.eqb b bridge)) (m_bridges m)) else m.

(** [troshkad._clean_orphan_bmc]; a removal of the directory that fails is ignored. *)
Definition clean_orphan_bmc : list string → machine → machine * option Z := sweep (λ m project_id,
  let dir := BMC_DIR +:+ "/" +:+ project_id in
  if negb (isdir m dir) then (remove_bmc_bridge m project_id, Some 0)
  else
    let pool := "troshka-vmedia-" +:+ str_take 8 project_id in
    match run pf ["virsh"; "pool-destroy"; pool], run pf ["virsh"; "pool-undefine"; pool] with
    | RanRaised, _ | _, RanRaised => (m, None)
    | _, _ =>
        let m := (undefine_pool m pool).1 in
        let m := if ran_ok (run pf ["rmtree"; dir]) then rmtree m dir else rmtree_failed m dir in
        (remove_bmc_bridge m project_id, Some 1)
    end).

(** [troshkad._clean_stale_temps] *)
Definition clean_stale_temps : list string → machine → machine * option Z := sweep (λ m path,
  if negb (startswith (tmp_dir +:+ "/") path) then (m, Some 0)
  else if isdir m path then
    match run pf ["rmtree"; path] with
    | RanOk => (rmtree m path, Some 1)
    | RanFailed => (rmtree_failed m path, Some 0)
    | RanRaised => (rmtree_failed m path, None)
    end
  else match run pf ["remove"; path] with
       | RanOk => if exists_path m path then (unlink m path, Some 1) else (m, Some 0)
       | RanFailed => (m, Some 0)
       | RanRaised => (m, None)
       end).

(** [troshkad._clean_orphan_bridges] *)
Definition clean_orphan_bridges : list string → machine → machine * option Z := sweep (λ m bridge,
  if valid_bridge_name bridge && ran_ok (run pf ["ip"; "link"; "delete"; bridge])
  then (set_bridges m (List.filter (λ b, negb (String.eqb b bridge)) (m_bridges m)), Some 1) else (m, Some 0)).

(** [troshkad._clean_orphan_namespaces] *)
Definition clean_orphan_namespaces : list string → machine → machine * option Z := sweep (λ m ns,
  if startswith "troshka-" ns && ran_ok (run pf ["ip"; "netns"; "delete"; ns])
  then (set_netns m (List.filter (λ n, negb (String.eqb n ns)) (m_netns m)), Some 1) else (m, Some 0)).

(** [troshkad._clean_cache_items] *)
Definition clean_cache_items : list string → machine → machine * option Z := sweep (λ m path,
  match validate_path path with
  | None => (m, Some 0)
  | Some p =>
      if isdir m p then
        if ran_ok (run pf ["rmtree"; p]) then (rmtree m p, Some 1) else (rmtree_failed m p, Some 0)
      else if exists_path m p && ran_ok (run pf ["remove"; p]) then (unlink m p, Some 1) else (m, Some 0)
  end).

(** [troshkad._clean_orphan_metadata]: a file that is missing is passed over. *)
Definition clean_orphan_metadata (ids : list string) : machine → machine * option Z :=
  sweep (λ m path,
    if negb (exists_path m path) then (m, Some 0)
    else if ran_ok (run pf ["remove"; path]) then (unlink m path, Some 1) else (m, None))
    (flat_map (λ i, ["/opt/troshka/metadata-" +:+ str_take 8 i +:+ ".py";
                     "/var/log/troshka-metadata-" +:+ str_take 8 i +:+ ".log"]) ids).

(** [troshkad._clean_stale_agent_isos] *)
Definition clean_stale_agent_isos : list string → machine → machine * option Z := sweep (λ m path,
  if String.eqb path AGENT_ISO_SCAN_ROOT || negb (startswith (AGENT_ISO_SCAN_ROOT +:+ "/") path) then (m, Some 0)
  else match run pf ["rmtree"; path] with
       | RanOk => if exists_path m path then (rmtree m path, Some 1) else (m, Some 0)
       | RanFailed => (rmtree_failed m path, Some 0)
       | RanRaised => (rmtree_failed m path, None)
       end).

(** [troshkad._clean_dangling_images] *)
Definition clean_dangling_images (prune : bool) (m : machine) : machine * Z :=
  if prune && ran_ok (run pf ["podman"; "image"; "prune"])
  then (set_dangling m [], Z.of_nat (length (m_dangling m))) else (m, 0).

(** What the backend asks to remove. *)
Record clean_request := mkClean {
  q_dirs : list string; q_domains : list string; q_pools : list string; q_containers : list string;
  q_bridges : list string; q_namespaces : list string; q_cache : list string; q_bmc : list string;
  q_metadata : list string; q_temps : list string; q_agent_isos : list string; q_prune : bool
}.

Notation "x <== c ;; k" := (let '(m, r) := c in match r with None => (m, None) | Some x => k m end)
  (at level 100, c at next level, right associativity, only parsing).

(** [troshkad._handle_gc_clean]: the counts of the agent ISOs and of the images, which the backend reads. *)
Definition handle_gc_clean (m : machine) (q : clean_request) : machine * option (Z * Z) :=
  _ <== clean_orphan_domains (q_domains q) m;; λ m,
  _ <== clean_orphan_pools (q_pools q) m;; λ m,
  _ <== clean_orphan_dirs (q_dirs q) m;; λ m,
  let '(m, _) := clean_orphan_containers [] (q_containers q) m in
  _ <== clean_orphan_bridges (q_bridges q) m;; λ m,
  _ <== clean_orphan_namespaces (q_namespaces q) m;; λ m,
  _ <== clean_cache_items (q_cache q) m;; λ m,
  _ <== clean_orphan_bmc (q_bmc q) m;; λ m,
  _ <== clean_orphan_metadata (q_metadata q) m;; λ m,
  _ <== clean_stale_temps (q_temps q) m;; λ m,
  isos <== clean_stale_agent_isos (q_agent_isos q) m;; λ m,
  let '(m, images) := clean_dangling_images (q_prune q) m in
  (m, Some (isos, images)).
End HostGc.
