(* ===== verification/GcService.v ===== *)
(** * Garbage collection: [services/gc_service.py] and [services/provider_gc_service.py]

    The reconciliation of a host, of a storage pool, of the object store and of a provider's
    addresses and rules with the database.  The agent of a host runs the handlers of [HostGc] on
    its machine; the transport may refuse a job, or lose the answer of one that ran. *)
From stdpp Require Import prelude strings gmap.
From Stdlib Require Import Ascii.
From S2P Require Import Prelude PyStr PyVal PyLemmas Db TopoNodes PatternLocations TopologyExtract JobMonad HostGc.

Open Scope list_scope.

(** [storage_pool.SharedCacheEntry:98-115] *)
Record cache_entry := mkEntry {
  ce_id : string; ce_pool : string; ce_item : string; ce_status : string; ce_path : string; ce_created : Z
}.

(** The rows the collector reads: projects with their columns, hosts, ids of patterns and of
    library items, shared cache entries. *)
Record gdb := mkGdb {
  g_hosts : list Host;
  g_projects : list dproject;
  g_patterns : list string;
  g_library : list string;
  g_entries : list cache_entry;
  g_providers : list Provider;
  g_pools : list StoragePool
}.

Definition g_find_host (db : gdb) (hid : string) : option Host := List.find (λ h, streq (h_id h) hid) (g_hosts db).
Definition g_save_host (db : gdb) (h : Host) : gdb :=
  mkGdb (map (λ h', if streq (h_id h') (h_id h) then h else h') (g_hosts db)) (g_projects db) (g_patterns db)
    (g_library db) (g_entries db) (g_providers db) (g_pools db).
Definition g_set_entries (db : gdb) (l : list cache_entry) : gdb :=
  mkGdb (g_hosts db) (g_projects db) (g_patterns db) (g_library db) l (g_providers db) (g_pools db).

(** [p.deployed_topology or p.topology or {}] *)
Definition deployed_or_drawn (p : dproject) : val :=
  v_or (v_or (default VNone (d_deployed p)) (p_topology (d_row p))) empty_dict.

(** Projects on one of some hosts, in one of some states. *)
Definition on_hosts (hids : list string) (p : dproject) : bool :=
  match p_host_id (d_row p) with Some h => in_list h hids | None => false end.

(** ** Capacity *)

(** [gc_service.sync_host_capacity:27-37] *)
Definition deployed_load (topo : val) : res (Z * Z) :=
  ns <- nodes_of topo;;
  for_each ns (0, 0) (λ n '(v, m),
    vm <- has_type n "vmNode";;
    if vm then
      d <- data_of n;;
      c <- get d "vcpus" (VInt 0);; c <- num c;;
      r <- get d "ram" (VInt 0);; r <- num r;;
      Ok (v + c, m + r * 1024)
    else
      ctr <- has_type n "containerNode";;
      if ctr then
        d <- data_of n;;
        c <- get d "cpus" (VInt 0);; c <- num c;;
        r <- get d "memory" (VInt 0);; r <- num r;;
        Ok (v + c, m + r)
      else Ok (v, m)).

(** A host with another usage. *)
Definition with_used (h : Host) (vcpus ram : Z) : Host :=
  mkHost (h_id h) (h_provider_id h) (h_state h) (h_host_type h) (h_total_vcpus h)
    (h_total_ram_mb h) vcpus ram (h_ip_address h) (h_private_ip h) (h_agent_status h)
    (h_max_eips h) (h_uplink_mtu h) (h_storage_pool_id h) (h_accepting_work h).

(** [gc_service.sync_host_capacity]: the database afterwards, the usage before and after. *)
Definition sync_host_capacity (db : gdb) (h : Host) : res (gdb * ((Z * Z) * (Z * Z))) :=
  '(v, m) <- for_each
    (List.filter (λ p, on_hosts [h_id h] p && in_list (d_state p) ["active"; "stopped"]) (g_projects db)) (0, 0)
    (λ p '(v, m), '(c, r) <- deployed_load (deployed_or_drawn p);; Ok (v + c, m + r));;
  Ok (g_save_host db (with_used h v m), ((h_used_vcpus h, h_used_ram_mb h), (v, m))).

(** ** What the agent is told to keep *)

(** [gc_service._get_pool_host_ids] *)
Definition get_pool_host_ids (db : gdb) (h : Host) : list string :=
  match text_opt (h_storage_pool_id h) with
  | None => [h_id h]
  | Some pool => map h_id (List.filter (λ x, col_is (h_storage_pool_id x) pool) (g_hosts db))
  end.

(** [gc_service._collect_known_projects_and_domains:129-136] *)
Definition kept_states : list string := ["deploying"; "reconfiguring"; "active"; "stopped"].
Definition kept_projects (db : gdb) (hids : list string) : list dproject :=
  List.filter (λ p, on_hosts hids p && in_list (d_state p) kept_states) (g_projects db).

(** [gc_service._collect_known_projects_and_domains] *)
Definition collect_known (db : gdb) (hids : list string) : list string * list string :=
  let kept := kept_projects db hids in
  (map d_id kept, map (λ p, "troshka-" +:+ str_take 8 (d_id p)) kept).

(** [gc_service._collect_bmc_project_ids] *)
Definition has_bmc_network (p : dproject) : res bool :=
  ns <- nodes_of (deployed_or_drawn p);;
  any_res (λ n, net <- has_type n "networkNode";;
                if negb net then Ok false
                else d <- data_of n;; t <- get d "networkType" VNone;; Ok (eq_str t "bmc")) ns.
Definition collect_bmc_project_ids (db : gdb) (hids : list string) : res (list string) :=
  ps <- filter_res has_bmc_network (List.filter (on_hosts hids) (g_projects db));;
  Ok (dedup_first (map d_id ps)).

(** [gc_service.discover_orphans:165-186] the request. *)
Definition discover_request_of (db : gdb) (h : Host) : res discover_request :=
  let hids := get_pool_host_ids db h in
  bmc <- collect_bmc_project_ids db hids;;
  let '(ids, domains) := collect_known db hids in
  Ok (mkDiscover ids domains bmc).

(** [gc_service._find_orphaned_cache:207-209] the id an entry of a cache is named after. *)
Definition rsplit_last (c : ascii) (s : string) : string := String.rev (split_head c (String.rev s)).
Definition rsplit_first (c : ascii) (s : string) : string :=
  if no_char c s then s else str_take (String.length s - String.length (rsplit_last c s) - 1) s.
Definition cache_entry_id (path : string) : string :=
  rsplit_first "."%char (rsplit_last "/"%char (String.rev (lstrip_char "/"%char (String.rev path)))).

(** [gc_service._find_orphaned_cache] *)
Definition find_orphaned_cache (db : gdb) (paths : list string) : list string :=
  List.filter (λ p, negb (in_list (cache_entry_id p) (g_patterns db ++ g_library db))) paths.

(** [gc_service.clean_orphans:221-256] the request; [set_order] is the order of a set. *)
Definition clean_request_of (set_order : list string → list string) (db : gdb) (o : orphans) : clean_request :=
  let as_set l := set_order (dedup_first l) in
  mkClean (as_set (orphan_dirs o)) (as_set (orphan_domains o)) (as_set (orphan_pools o))
    (as_set (orphan_containers o)) (as_set (orphan_bridges o)) (as_set (orphan_namespaces o))
    (as_set (find_orphaned_cache db (cache_items o) ++ stale_temps o)) (orphaned_bmc_project_ids o)
    (orphaned_metadata_ids o) [] (as_set (stale_agent_isos o)) (dangling_images o).

(** [gc_service._count_total_orphans] *)
Definition count_total_orphans (o : orphans) : Z :=
  Z.of_nat (length (orphan_dirs o) + length (orphan_domains o) + length (orphan_containers o) +
            length (orphan_bridges o) + length (orphan_namespaces o) + length (orphaned_bmc_project_ids o)).

(** ** The world of a collection *)

Inductive gc_event :=
| AgentJob (host path : string)
| SetupNetworks (host project : string)
| SetupMesh (host project : string)
| SetupBmc (host project : string)
| ReconnectTaps (project : string) (domains : list string)
| S3Call (operation key : string)
| K8sCall (operation name : string).

(** An exception, of the agent client or another one. *)
Inductive gexn := GTroshkad (msg : string) | GOther (msg : string).
Definition gexn_str (e : gexn) : string := match e with GTroshkad m | GOther m => m end.

(** What becomes of a job sent to an agent: it runs and ends; it is refused; it runs and the wait
    for it raises; it ends in error without doing anything. *)
Inductive delivery := Delivered | Refused (e : gexn) | Lost (e : gexn) | Broken (msg : string).

Record s3_object := mkObject { s3_key : string; s3_size : Z }.
#[export] Instance s3_object_eq_dec : EqDecision s3_object.
Proof. solve_decision. Defined.

(** A cluster: its namespaces with their phases, data volumes with the source they clone,
    persistent volumes with their phase, the namespace of their claim and their image, services
    with their namespace and project label. *)
Record data_volume := mkDv { dv_ns : string; dv_name : string; dv_src_ns : string; dv_src_name : string }.
Record volume := mkPv { pv_name : string; pv_phase : string; pv_claim_ns : option string; pv_image : string }.
Record service := mkSvc { sv_ns : string; sv_name : string; sv_project : string }.
Record cluster := mkCluster {
  k_namespaces : list (string * string);
  k_volumes : list data_volume;
  k_pvs : list volume;
  k_services : list service
}.
Definition no_cluster : cluster := mkCluster [] [] [] [].

(** What a cleaning reports: whether it succeeded, and its counts. *)
Record cleanup := mkCleanup { cl_success : bool; cl_cleaned : Z; cl_cache : Z; cl_isos : Z; cl_images : Z }.

(** The lines of a report. *)
Inductive report_line :=
| RSkipped (deploying : Z)
| RCapacity (old new : Z * Z)
| ROrphans (r : orphans + string)
| RFound (orphans cache temps isos images : Z)
| RCleanup (c : cleanup + string)
| RWouldClean (n : Z)
| RRepaired (n : Z)
| RS3 (deleted aborted bytes : Z)
| RRoutes (n : Z)
| RCapacityAfter (old new : Z * Z)
| RCacheEntriesCleaned (n : Z)
| RNamespaces (l : list string)
| RGoldens (l : list string)
| REntries (total stale evictable : Z)
| REvicted (n : Z)
| RHostsSynced (n : Z)
| RPvs (l : list string)
| RPvsWouldDelete (n : Z)
| RPvsDeleted (deleted total : Z)
| RReclaimed (images : list string)
| ROrphanServices (n : Z)
| RError (msg : string).

Record gworld := mkGw {
  gw_db : gdb;
  gw_machines : gmap string machine;
  gw_bucket : list s3_object;
  gw_uploads : list (string * string);
  gw_clusters : gmap string cluster;
  gw_log : list gc_event;
  gw_report : list report_line
}.
Definition no_machine : machine := mkMachine [] [] [] [] [] [] [] [].
Definition machine_of (w : gworld) (hid : string) : machine := default no_machine (gw_machines w !! hid).

(** A call to a cluster's API: it succeeds, the API answers an error, or it raises. *)
Inductive k8s_outcome := K8sOk | K8sApi (status : Z) | K8sRaised.

(** The agents' platforms, what becomes of a job, whether the networks of a project come up, the
    bridges an agent lists, the calls to the object store and to a cluster, the clock, the exceptions' texts. *)
Record gc_env := mkGcEnv {
  ge_platform : list gc_event → string → platform;
  ge_delivery : list gc_event → string → delivery;
  ge_setup : list gc_event → string → bool + gexn;
  ge_bridges : list gc_event → string → list string;
  ge_s3 : list gc_event → string → option gexn;
  ge_k8s : list gc_event → string → k8s_outcome;
  ge_now : Z;
  ge_exn_text : exn → string;
  ge_set_order : list string → list string
}.

Inductive gres (A : Type) := GRet (a : A) | GExc (e : gexn).
Arguments GRet {_} _.
Arguments GExc {_} _.
Definition G (A : Type) : Type := gworld → gworld * gres A.
Definition gret {A} (a : A) : G A := λ w, (w, GRet a).
Definition graise {A} (e : gexn) : G A := λ w, (w, GExc e).
Definition gbind {A B} (m : G A) (f : A → G B) : G B :=
  λ w, let '(w, r) := m w in match r with GRet a => f a w | GExc e => (w, GExc e) end.
Definition gcatch {A} (m : G A) (h : gexn → G A) : G A :=
  λ w, let '(w, r) := m w in match r with GRet a => (w, GRet a) | GExc e => h e w end.
Definition gget {A} (f : gworld → A) : G A := λ w, (w, GRet (f w)).
Declare Scope gc_scope.
Notation "x <~' m ;; k" := (gbind m (λ x, k)) (at level 100, m at next level, right associativity) : gc_scope.
Notation "m ;;~ k" := (gbind m (λ _, k)) (at level 100, right associativity) : gc_scope.
Open Scope gc_scope.

Definition gdb_ : G gdb := gget gw_db.
Definition gset_db (db : gdb) : G unit :=
  λ w, (mkGw db (gw_machines w) (gw_bucket w) (gw_uploads w) (gw_clusters w) (gw_log w) (gw_report w), GRet tt).
Definition gemit (e : gc_event) : G unit :=
  λ w, (mkGw (gw_db w) (gw_machines w) (gw_bucket w) (gw_uploads w) (gw_clusters w) (gw_log w ++ [e]) (gw_report w), GRet tt).

Definition greport (l : report_line) : G unit :=
  λ w, (mkGw (gw_db w) (gw_machines w) (gw_bucket w) (gw_uploads w) (gw_clusters w) (gw_log w) (gw_report w ++ [l]),
        GRet tt).

Fixpoint geach {A} (l : list A) (f : A → G unit) : G unit :=
  match l with [] => gret tt | x :: l' => f x;;~ geach l' f end.
(** A sum over a list. *)
Fixpoint gsum {A} (l : list A) (f : A → G Z) : G Z :=
  match l with [] => gret 0 | x :: l' => n <~' f x;; k <~' gsum l' f;; gret (n + k) end.

Section Gc.
Context (env : gc_env).

Definition glift {A} (r : res A) : G A :=
  match r with Ok a => gret a | Raise e => graise (GOther (ge_exn_text env e)) end.

(** [start_job] and [wait_for_job] of one job: its result, or the message of its failure. *)
Definition agent_job {A} (hid path : string) (handler : platform → machine → machine * option A) : G (A + string) :=
  λ w,
    let log := gw_log w in
    let w1 := mkGw (gw_db w) (gw_machines w) (gw_bucket w) (gw_uploads w) (gw_clusters w) (log ++ [AgentJob hid path]) (gw_report w) in
    let ran :=
      let '(m, r) := handler (ge_platform env log hid) (machine_of w hid) in
      (mkGw (gw_db w) (<[hid := m]> (gw_machines w)) (gw_bucket w) (gw_uploads w) (gw_clusters w) (log ++ [AgentJob hid path]) (gw_report w), r) in
    match ge_delivery env log path with
    | Refused e => (w1, GExc e)
    | Broken msg => (w1, GRet (inr msg))
    | Lost e => (ran.1, GExc e)
    | Delivered => (ran.1, GRet (match ran.2 with Some a => inl a | None => inr "job failed" end))
    end.

(** ** The sweep of a host *)

Definition HOST_NOT_REACHABLE : string := "Host not reachable".
Definition reachable (h : Host) : bool :=
  match text_opt (h_ip_address h) with Some _ => String.eqb (h_agent_status h) "connected" | None => false end.

(** [gc_service.discover_orphans]: the orphans, or an error. *)
Definition discover_orphans (h : Host) : G (orphans + string) :=
  if negb (reachable h) then gret (inr HOST_NOT_REACHABLE)
  else
    db <~' gdb_;;
    q <~' glift (discover_request_of db h);;
    r <~' agent_job (h_id h) "/gc/discover" (λ pf m, let '(m, o) := handle_gc_discover pf m q in (m, Some o));;
    gret r.

(** [gc_service.clean_orphans] *)
Definition clean_orphans (h : Host) (o : orphans) : G (cleanup + string) :=
  if negb (reachable h) then gret (inr HOST_NOT_REACHABLE)
  else
    db <~' gdb_;;
    let q := clean_request_of (ge_set_order env) db o in
    r <~' agent_job (h_id h) "/gc/clean" (λ pf m, handle_gc_clean pf m q);;
    let isos := Z.of_nat (length (q_agent_isos q)) in
    let cleaned := Z.of_nat (length (q_dirs q) + length (q_domains q) + length (q_containers q) + length (q_bridges q) +
                             length (q_namespaces q) + length (q_bmc q) + length (q_cache q)) + isos in
    let cache := Z.of_nat (length (q_cache q)) in
    gret (inl (match r with
               | inl (removed, images) => mkCleanup true cleaned cache removed images
               | inr _ => mkCleanup false cleaned cache isos 0
               end)).

(** [gc_service._reconcile_clean_orphans]: the cleaning, when there was one. *)
Definition reconcile_clean_orphans (h : Host) (o : orphans) (dry_run : bool) : G (option cleanup) :=
  let total := count_total_orphans o in
  db <~' gdb_;;
  let cache := find_orphaned_cache db (cache_items o) in
  let temps := Z.of_nat (length (stale_temps o)) in
  let isos := Z.of_nat (length (stale_agent_isos o)) in
  let images := if dangling_images o then 1 else 0 in
  let found := total + Z.of_nat (length cache) + temps + (isos + images) in
  greport (RFound found (Z.of_nat (length cache)) temps isos images);;~
  if (0 <? found) && negb dry_run then
    c <~' clean_orphans h o;;
    greport (RCleanup c);;~
    gret (match c with inl c => Some c | inr _ => None end)
  else if 0 <? found then greport (RWouldClean found);;~ gret None
  else greport (RCleanup (inl (mkCleanup true 0 0 0 0)));;~ gret None.

(** [gc_service._get_existing_bridges] *)
Definition get_existing_bridges (h : Host) : G (list string) :=
  gcatch (r <~' agent_job (h_id h) "/networks/list-bridges" (λ pf m, (m, Some tt));;
          match r with
          | inl _ => gget (λ w, ge_bridges env (gw_log w) (h_id h))
          | inr _ => gret []
          end)
    (λ e, match e with GTroshkad _ => gret [] | GOther _ => graise e end).

(** [gc_service._missing_project_bridges] *)
Definition missing_project_bridges (p : dproject) (existing : list string) : list string :=
  List.filter (λ v, negb (in_list ("br-" +:+ v) existing))
    (dedup_first (map (λ v, str_of_Z v.2) (default [] (p_vni_map (d_row p))))).

(** [gc_service._repair_one_project_networks] *)
Definition repair_one_project_networks (h : Host) (existing : list string) (p : dproject) : G Z :=
  match missing_project_bridges p existing with
  | [] => gret 0
  | missing =>
      done <~' gget (λ w, ge_setup env (gw_log w) (d_id p));;
      gemit (SetupNetworks (h_id h) (d_id p));;~
      match done with
      | inl true => gret (Z.of_nat (length missing))
      | inl false => gret 0
      | inr e => graise e
      end
  end.

(** [gc_service.repair_networks] *)
Definition repair_networks (h : Host) : G Z :=
  if negb (reachable h) then gret 0
  else
    db <~' gdb_;;
    match List.filter (λ p, on_hosts [h_id h] p && in_list (d_state p) ["active"; "stopped"]) (g_projects db) with
    | [] => gret 0
    | projects =>
        existing <~' get_existing_bridges h;;
        gsum projects (repair_one_project_networks h existing)
    end.

(** ** The object store *)

Definition set_bucket (objs : list s3_object) : G unit :=
  λ w, (mkGw (gw_db w) (gw_machines w) objs (gw_uploads w) (gw_clusters w) (gw_log w) (gw_report w), GRet tt).
Definition set_uploads (l : list (string * string)) : G unit :=
  λ w, (mkGw (gw_db w) (gw_machines w) (gw_bucket w) l (gw_clusters w) (gw_log w) (gw_report w), GRet tt).
Definition s3_call (operation key : string) : G unit :=
  e <~' gget (λ w, ge_s3 env (gw_log w) operation);;
  gemit (S3Call operation key);;~
  match e with Some e => graise e | None => gret tt end.

(** [paginate(Prefix=prefix, Delimiter="/")]: the common prefixes of the keys below a prefix. *)
Definition common_prefixes (prefix : string) (objs : list s3_object) : list string :=
  dedup_first (omap (λ o,
    if startswith prefix (s3_key o) then
      let rest := str_drop (String.length prefix) (s3_key o) in
      if no_char "/" rest then None else Some (prefix +:+ split_head "/" rest +:+ "/")
    else None) objs).

(** [gc_service._delete_s3_prefix_objects] *)
Definition delete_s3_prefix_objects (prefix : string) : G (Z * Z) :=
  s3_call "list" prefix;;~
  objs <~' gget (λ w, List.filter (λ o, startswith prefix (s3_key o)) (gw_bucket w));;
  match objs with
  | [] => gret (0, 0)
  | _ =>
      s3_call "delete_objects" prefix;;~
      rest <~' gget (λ w, List.filter (λ o, negb (startswith prefix (s3_key o))) (gw_bucket w));;
      set_bucket rest;;~
      gret (Z.of_nat (length objs), zsum (map s3_size objs))
  end.

(** [prefix.strip("/").split("/")[-1]] *)
Definition prefix_item (prefix : string) : string := rsplit_last "/" (strip_char "/" prefix).

Fixpoint gsum2 {A} (l : list A) (f : A → G (Z * Z)) : G (Z * Z) :=
  match l with
  | [] => gret (0, 0)
  | x :: l' => a <~' f x;; b <~' gsum2 l' f;; gret (a.1 + b.1, a.2 + b.2)
  end.

(** [gc_service._scan_flat_prefix_orphans] and [gc_service._scan_library_user_items] *)
Definition scan_flat_prefix_orphans (s3_prefix : string) (active_ids : list string) (dry_run : bool) : G (Z * Z) :=
  s3_call "list" s3_prefix;;~
  prefixes <~' gget (λ w, common_prefixes s3_prefix (gw_bucket w));;
  gsum2 prefixes (λ prefix,
    if in_list (prefix_item prefix) active_ids || dry_run then gret (0, 0) else delete_s3_prefix_objects prefix).

(** [gc_service._scan_library_prefix_orphans] *)
Definition scan_library_prefix_orphans (active_ids : list string) (dry_run : bool) : G (Z * Z) :=
  s3_call "list" "library/";;~
  users <~' gget (λ w, common_prefixes "library/" (gw_bucket w));;
  gsum2 users (λ user, scan_flat_prefix_orphans user active_ids dry_run).

(** [gc_service._abort_stale_multipart_uploads:587-596] an error ends the loop. *)
Fixpoint abort_uploads (uploads : list (string * string)) (active : list string) (dry_run : bool) : G Z :=
  match uploads with
  | [] => gret 0
  | (key, id) :: l =>
      let item := nth 1 (split "/" key) "" in
      if negb (String.eqb item "") && negb (in_list item active) && negb dry_run then
        aborted <~' gcatch
          (s3_call "abort_multipart_upload" key;;~
           rest <~' gget (λ w, List.filter (λ u, negb (bool_decide (u = (key, id)))) (gw_uploads w));;
           set_uploads rest;;~ gret true) (λ _, gret false);;
        if (aborted : bool) then n <~' abort_uploads l active dry_run;; gret (n + 1) else gret 0
      else abort_uploads l active dry_run
  end.

(** [gc_service._abort_stale_multipart_uploads] *)
Definition abort_stale_multipart_uploads (active : list string) (dry_run : bool) : G Z :=
  listed <~' gcatch (s3_call "list_multipart_uploads" "";;~ gret true) (λ _, gret false);;
  if (listed : bool) then uploads <~' gget gw_uploads;; abort_uploads uploads active dry_run else gret 0.

(** [gc_service.clean_s3_orphans]: the objects deleted, the uploads aborted, the bytes; or the
    error of a store that is not configured. *)
Definition clean_s3_orphans (dry_run : bool) : G ((Z * Z * Z) + string) :=
  configured <~' gcatch (s3_call "configure" "";;~ gret None) (λ e, gret (Some (gexn_str e)));;
  match configured with
  | Some msg => gret (inr ("S3 not configured: " +:+ msg))
  | None =>
      db <~' gdb_;;
      a <~' scan_flat_prefix_orphans "patterns/" (g_patterns db) dry_run;;
      b <~' scan_flat_prefix_orphans "snapshots/" (g_library db) dry_run;;
      c <~' scan_library_prefix_orphans (g_library db) dry_run;;
      n <~' abort_stale_multipart_uploads (g_patterns db ++ g_library db) dry_run;;
      gret (inl (a.1 + b.1 + c.1, n, a.2 + b.2 + c.2))
  end.

(** ** Clusters *)

Definition k8s (operation name : string) : G k8s_outcome :=
  o <~' gget (λ w, ge_k8s env (gw_log w) operation);; gemit (K8sCall operation name);;~ gret o.
Definition cluster_of (provider : string) : G cluster := gget (λ w, default no_cluster (gw_clusters w !! provider)).
Definition set_cluster (provider : string) (k : cluster) : G unit :=
  λ w, (mkGw (gw_db w) (gw_machines w) (gw_bucket w) (gw_uploads w) (<[provider := k]> (gw_clusters w)) (gw_log w)
          (gw_report w), GRet tt).
(** A listing: an error of any kind is an exception. *)
Definition k8s_list (operation : string) : G unit :=
  o <~' k8s operation "";; match o with K8sOk => gret tt | _ => graise (GOther "cluster") end.
Definition project_prefixes (db : gdb) : list string := map (λ p, str_take 8 (d_id p)) (g_projects db).

(** [gc_service._clean_orphaned_routes]: the services left without a project, with their routes. *)
Definition clean_orphaned_routes (provider : string) : G unit :=
  listed <~' gcatch (k8s_list "clients";;~ k8s_list "list_services";;~ gret true) (λ _, gret false);;
  if negb listed then gret tt
  else
    db <~' gdb_;;
    let active := map (λ p, str_take 8 (d_id p))
      (List.filter (λ p, in_list (d_state p) ["active"; "stopped"; "deploying"; "draft"]) (g_projects db)) in
    k <~' cluster_of provider;;
    orphaned <~' gsum (k_services k) (λ sv,
      if String.eqb (sv_project sv) "" || in_list (sv_project sv) active then gret 0
      else
        o <~' k8s "delete_service" (sv_name sv);;
        n <~' match o with
              | K8sOk =>
                  k <~' cluster_of provider;;
                  set_cluster provider (mkCluster (k_namespaces k) (k_volumes k) (k_pvs k)
                    (List.filter (λ s, negb (String.eqb (sv_name s) (sv_name sv))) (k_services k)));;~ gret 1
              | _ => gret 0
              end;;
        k8s "delete_route" (sv_name sv);;~ gret n);;
    if 0 <? orphaned then greport (RRoutes orphaned) else gret tt.

(** [gc_service._reconcile_ocp_routes] *)
Definition reconcile_ocp_routes (h : Host) : G unit :=
  db <~' gdb_;;
  match i ← text_opt (h_provider_id h); List.find (λ p, streq (pr_id p) i) (g_providers db) with
  | Some pr => if String.eqb (pr_type pr) "ocpvirt"
               then gcatch (clean_orphaned_routes (pr_id pr)) (λ _, gret tt) else gret tt
  | None => gret tt
  end.

(** [gc_service._is_kubevirt_project_ns] *)
Definition is_kubevirt_project_ns (name : string) : bool :=
  startswith "troshka-" name && (String.length (str_drop 8 name) =? 8)%nat && all_hex (str_drop 8 name).

(** [gc_service._detect_orphan_kubevirt_namespaces] *)
Definition detect_orphan_kubevirt_namespaces (provider : string) : G (list string) :=
  k8s_list "list_namespaces";;~
  db <~' gdb_;;
  k <~' cluster_of provider;;
  gret (omap (λ '(name, phase),
    if String.eqb name "troshka-cache" || negb (is_kubevirt_project_ns name) then None
    else if String.eqb phase "Terminating" then None
    else if in_list (str_drop 8 name) (project_prefixes db) then None else Some name) (k_namespaces k)).

(** [gc_service._detect_unreferenced_goldens] *)
Definition detect_unreferenced_goldens (provider : string) : G (list string) :=
  k8s_list "list_datavolumes";;~
  k <~' cluster_of provider;;
  let goldens := omap (λ d, if String.eqb (dv_ns d) "troshka-cache" then Some (dv_name d) else None) (k_volumes k) in
  let referenced := omap (λ d,
    if String.eqb (dv_ns d) "troshka-cache" then None
    else if startswith "troshka-" (dv_ns d) && String.eqb (dv_src_ns d) "troshka-cache"
    then Some (dv_src_name d) else None) (k_volumes k) in
  gret (sort_by str_leb (dedup_first (List.filter (λ g, negb (in_list g referenced) && negb (String.eqb g "")) goldens))).

(** [kubevirt._troshka_orphan_ns_suffix] and [kubevirt.list_orphan_troshka_pvs] *)
Definition troshka_orphan_ns_suffix (claim_ns : option string) : option string :=
  match claim_ns with
  | Some ns => if is_kubevirt_project_ns ns then Some (str_drop 8 ns) else None
  | None => None
  end.
Definition list_orphan_troshka_pvs (known : list string) (pvs : list volume) : list volume :=
  List.filter (λ v,
    in_list (pv_phase v) ["Released"; "Failed"] &&
    match troshka_orphan_ns_suffix (pv_claim_ns v) with Some s => negb (in_list s known) | None => false end) pvs.

(** [kubevirt._delete_persistent_volume] *)
Definition delete_persistent_volume (provider name : string) : G bool :=
  patched <~' k8s "patch_pv" name;;
  match patched with
  | K8sRaised => graise (GOther "cluster")
  | K8sApi 404 => gret true
  | _ =>
      deleted <~' k8s "delete_pv" name;;
      match deleted with
      | K8sRaised => graise (GOther "cluster")
      | K8sApi s => gret (s =? 404)
      | K8sOk =>
          k <~' cluster_of provider;;
          set_cluster provider (mkCluster (k_namespaces k) (k_volumes k)
            (List.filter (λ v, negb (String.eqb (pv_name v) name)) (k_pvs k)) (k_services k));;~
          gret true
      end
  end.

(** The images of some volumes. *)
Definition rbd_targets (pvs : list volume) : list string :=
  List.filter (λ i, negb (String.eqb i "")) (map pv_image pvs).

(** [gc_service._delete_orphan_pvs_and_reclaim] *)
Definition delete_orphan_pvs_and_reclaim (provider : string) (pvs : list volume) (reclaim_rbd : bool) : G unit :=
  deleted <~' gsum pvs (λ v,
    if String.eqb (pv_name v) "" then gret 0
    else gone <~' delete_persistent_volume provider (pv_name v);; gret (if (gone : bool) then 1 else 0));;
  greport (RPvsDeleted deleted (Z.of_nat (length pvs)));;~
  if negb reclaim_rbd then gret tt
  else geach (rbd_targets pvs) (λ i, k8s "rbd_rm" i;;~ gret tt);;~ greport (RReclaimed (rbd_targets pvs)).

(** A listing of the volumes: none when the API answers an error. *)
Definition list_pvs (provider : string) : G (list volume) :=
  listed <~' k8s "list_pvs" "";;
  match listed with
  | K8sRaised => graise (GOther "cluster")
  | K8sApi _ => gret []
  | K8sOk => k <~' cluster_of provider;; gret (k_pvs k)
  end.

(** [gc_service._reconcile_orphan_pvs]: every error is logged. *)
Definition reconcile_orphan_pvs (provider : string) (dry_run reclaim_rbd : bool) : G unit :=
  gcatch
    (k8s_list "clients";;~
     db <~' gdb_;;
     pvs <~' list_pvs provider;;
     let orphan_pvs := list_orphan_troshka_pvs (project_prefixes db) pvs in
     greport (RPvs (map pv_name orphan_pvs));;~
     list_pvs provider;;~
     match orphan_pvs with
     | [] => gret tt
     | _ =>
         if dry_run then
           greport (RPvsWouldDelete (Z.of_nat (length orphan_pvs)));;~
           if reclaim_rbd then greport (RReclaimed (rbd_targets orphan_pvs)) else gret tt
         else delete_orphan_pvs_and_reclaim provider orphan_pvs reclaim_rbd
     end) (λ _, gret tt).

(** [kubevirt.list_orphan_troshka_namespaced_services:548-558] the services whose namespace is missing;
    [cache] holds the answers so far. *)
Fixpoint orphan_services (l : list service) (cache : list (string * bool)) : G (list service) :=
  match l with
  | [] => gret []
  | sv :: l' =>
      if negb (startswith "troshka-" (sv_ns sv)) || String.eqb (sv_name sv) "" then orphan_services l' cache
      else
        missing <~' match assoc (sv_ns sv) cache with
                    | Some b => gret b
                    | None => o <~' k8s "read_namespace" (sv_ns sv);;
                              gret (match o with K8sApi s => s =? 404 | _ => false end)
                    end;;
        rest <~' orphan_services l' (assoc_set (sv_ns sv) missing cache);;
        gret (if (missing : bool) then sv :: rest else rest)
  end.

(** [kubevirt.list_orphan_troshka_namespaced_services] *)
Definition list_orphan_troshka_namespaced_services (provider : string) : G (list service) :=
  listed <~' k8s "list_all_services" "";;
  match listed with
  | K8sOk => k <~' cluster_of provider;; orphan_services (k_services k) []
  | _ => gret []
  end.

(** [kubevirt.gc_orphan_troshka_namespaced_services] *)
Definition gc_orphan_troshka_namespaced_services (provider : string) : G Z :=
  l <~' list_orphan_troshka_namespaced_services provider;;
  gsum l (λ sv,
    o <~' k8s "delete_orphan_service" (sv_name sv);;
    match o with
    | K8sOk =>
        k <~' cluster_of provider;;
        set_cluster provider (mkCluster (k_namespaces k) (k_volumes k) (k_pvs k)
          (List.filter (λ x, negb (String.eqb (sv_ns x) (sv_ns sv) && String.eqb (sv_name x) (sv_name sv)))
             (k_services k)));;~ gret 1
    | _ => gret 0
    end).

(** [gc_service._reconcile_orphan_troshka_services] *)
Definition reconcile_orphan_troshka_services (provider : string) (dry_run : bool) : G unit :=
  gcatch
    (k8s_list "clients";;~
     if dry_run then
       l <~' list_orphan_troshka_namespaced_services provider;; greport (ROrphanServices (Z.of_nat (length l)))
     else n <~' gc_orphan_troshka_namespaced_services provider;; greport (ROrphanServices n)) (λ _, gret tt).

(** [gc_service._reconcile_kubevirt_cluster] with [_report_orphan_namespaces] and
    [_report_unreferenced_goldens]: nothing of the first two is deleted. *)
Definition reconcile_kubevirt_cluster (h : Host) (dry_run reclaim_rbd : bool) : G unit :=
  db <~' gdb_;;
  match i ← text_opt (h_provider_id h); List.find (λ p, streq (pr_id p) i) (g_providers db) with
  | Some pr =>
      if negb (String.eqb (pr_type pr) "kubevirt") then gret tt
      else
        gcatch (l <~' detect_orphan_kubevirt_namespaces (pr_id pr);; greport (RNamespaces l)) (λ _, gret tt);;~
        gcatch (l <~' detect_unreferenced_goldens (pr_id pr);; greport (RGoldens l)) (λ _, gret tt);;~
        reconcile_orphan_pvs (pr_id pr) dry_run reclaim_rbd;;~
        reconcile_orphan_troshka_services (pr_id pr) dry_run
  | None => gret tt
  end.

(** ** A host *)

(** [gc_service._reconcile_shared_cache_entries] *)
Definition reconcile_shared_cache_entries (h : Host) : G unit :=
  match text_opt (h_storage_pool_id h) with
  | None => gret tt
  | Some pool =>
      db <~' gdb_;;
      let orphaned e := streq (ce_pool e) pool && negb (in_list (ce_item e) (g_patterns db ++ g_library db)) in
      match List.filter orphaned (g_entries db) with
      | [] => gret tt
      | l => gset_db (g_set_entries db (List.filter (λ e, negb (orphaned e)) (g_entries db)));;~
             greport (RCacheEntriesCleaned (Z.of_nat (length l)))
      end
  end.

(** [gc_service._gc_skip_while_deploying] *)
Definition gc_skip_while_deploying (db : gdb) (host_id : string) : Z :=
  Z.of_nat (length (List.filter (λ p, on_hosts [host_id] p && in_list (d_state p) ["deploying"; "reconfiguring"])
                      (g_projects db))).

(** [gc_service._gc_append_remote_reports]; the stores of clusters are cleaned by another service. *)
Definition gc_append_remote_reports (h : Host) (dry_run : bool) : G unit :=
  r <~' clean_s3_orphans dry_run;;
  match r with
  | inl (deleted, aborted, bytes) =>
      if (0 <? deleted) || (0 <? aborted) then greport (RS3 deleted aborted bytes) else gret tt
  | inr _ => gret tt
  end;;~
  s3_call "clean_cluster_rgw_orphans" "";;~
  if dry_run then gret tt else reconcile_ocp_routes h.

Definition no_orphans : orphans := mkOrphans [] [] [] [] [] [] [] [] [] [] [] false.

(** The row of a host, recomputed and saved. *)
Definition sync_capacity (host_id : string) : G ((Z * Z) * (Z * Z)) :=
  db <~' gdb_;;
  match g_find_host db host_id with
  | None => gret ((0, 0), (0, 0))
  | Some h => r <~' glift (sync_host_capacity db h);; gset_db r.1;;~ gret r.2
  end.

(** [gc_service.reconcile_host:1122-1168], for a host that is there. *)
Definition reconcile_found_host (h : Host) (dry_run reclaim_rbd : bool) : G unit :=
  db <~' gdb_;;
  let deploying := gc_skip_while_deploying db (h_id h) in
  if 0 <? deploying then greport (RSkipped deploying)
  else
    c <~' sync_capacity (h_id h);;
    greport (RCapacity c.1 c.2);;~
    if String.eqb (h_host_type h) "kubevirt-cluster" then reconcile_kubevirt_cluster h dry_run reclaim_rbd
    else if negb (reachable h) then greport (ROrphans (inr "Host not reachable — skipping orphan scan"))
    else
      r <~' discover_orphans h;;
      greport (ROrphans r);;~
      match r with
      | inr (String _ _) => gret tt
      | _ =>
          cleanup <~' reconcile_clean_orphans h (match r with inl o => o | inr _ => no_orphans end) dry_run;;
          (if dry_run then gret tt else n <~' repair_networks h;; greport (RRepaired n));;~
          gc_append_remote_reports h dry_run;;~
          (match cleanup with
           | Some c => if negb dry_run && (0 <? cl_cache c)
                       then a <~' sync_capacity (h_id h);; greport (RCapacityAfter a.1 a.2) else gret tt
           | None => gret tt
           end);;~
          if dry_run then gret tt else reconcile_shared_cache_entries h
      end.

(** [gc_service.reconcile_host] *)
Definition reconcile_host (host_id : string) (dry_run reclaim_rbd : bool) : G unit :=
  gcatch
    (db <~' gdb_;;
     match g_find_host db host_id with
     | None => greport (RError "Host not found")
     | Some h => reconcile_found_host h dry_run reclaim_rbd
     end)
    (λ e, greport (RError (gexn_str e))).

(** ** A storage pool *)

(** [gc_service._extract_node_item_ids] *)
Definition extract_node_item_ids (n : val) : res (list val) :=
  storage <- has_type n "storageNode";;
  if storage then
    d <- data_of n;; lib <- get d "libraryItemId" VNone;; disk <- get d "patternDiskId" VNone;;
    Ok (List.filter truthy [lib; disk])
  else
    vm <- has_type n "vmNode";;
    if vm then d <- data_of n;; pxe <- get d "pxeBootIsoId" VNone;; Ok (List.filter truthy [pxe]) else Ok [].

(** [gc_service._collect_referenced_items] *)
Definition collect_referenced_items (ps : list dproject) : res (list val) :=
  for_each ps [] (λ p acc,
    ns <- nodes_of (deployed_or_drawn p);;
    for_each ns acc (λ n acc, ids <- extract_node_item_ids n;; Ok (acc ++ ids))).

Definition STALE_US : Z := 168 * 3600 * 1000000.

(** [gc_service._evict_stale_cache_entries]: an entry whose job raises stays. *)
Definition evict_stale_cache_entries (scan_host : Host) (evictable : list cache_entry) (dry_run : bool) : G unit :=
  match evictable with
  | [] => gret tt
  | _ =>
      if dry_run then greport (REvicted 0)
      else
        geach evictable (λ e,
          done <~' gcatch
            (agent_job (h_id scan_host) "/gc/clean" (λ pf m,
               handle_gc_clean pf m (mkClean [] [] [] [] [] [] ["/var/lib/troshka/shared/" +:+ ce_path e] [] [] [] [] false));;~
             gret true) (λ _, gret false);;
          if (done : bool) then
            db <~' gdb_;; gset_db (g_set_entries db (List.filter (λ x, negb (streq (ce_id x) (ce_id e))) (g_entries db)))
          else gret tt);;~
        greport (REvicted (Z.of_nat (length evictable)))
  end.

(** [gc_service._pool_cache_eviction:1254-1277] the entries of a pool that may go. *)
Definition evictable_entries (db : gdb) (pool_id : string) (hids : list string) : res (list cache_entry * list cache_entry) :=
  referenced <- collect_referenced_items
    (List.filter (λ p, on_hosts hids p && in_list (d_state p) ["active"; "stopped"]) (g_projects db));;
  let stale := List.filter (λ e, streq (ce_pool e) pool_id && streq (ce_status e) "ready" &&
                                 (ce_created e <? ge_now env - STALE_US)) (g_entries db) in
  Ok (stale, List.filter (λ e, negb (existsb (λ v, eq_str v (ce_item e)) referenced)) stale).

(** [gc_service._pool_cache_eviction] *)
Definition pool_cache_eviction (pool_id : string) (hosts : list Host) (scan_host : Host) (dry_run : bool) : G unit :=
  db <~' gdb_;;
  r <~' glift (evictable_entries db pool_id (map h_id hosts));;
  let '(stale, evictable) := r in
  greport (REntries (Z.of_nat (length (List.filter (λ e, streq (ce_pool e) pool_id) (g_entries db))))
             (Z.of_nat (length stale)) (Z.of_nat (length evictable)));;~
  evict_stale_cache_entries scan_host evictable dry_run.

(** [gc_service._pool_orphan_cleanup] *)
Definition pool_orphan_cleanup (scan_host : Host) (dry_run : bool) : G unit :=
  if negb (String.eqb (h_agent_status scan_host) "connected") then gret tt
  else
    r <~' discover_orphans scan_host;;
    greport (ROrphans r);;~
    let o := match r with inl o => o | inr _ => no_orphans end in
    let cleanable := count_total_orphans o + Z.of_nat (length (cache_items o) + length (stale_temps o)) in
    if (0 <? cleanable) && negb dry_run then c <~' clean_orphans scan_host o;; greport (RCleanup c)
    else if 0 <? cleanable then greport (RWouldClean cleanable) else gret tt.

(** [gc_service.reconcile_pool] *)
Definition reconcile_pool (pool_id : string) (dry_run : bool) : G unit :=
  gcatch
    (db <~' gdb_;;
     match List.find (λ sp, streq (sp_id sp) pool_id) (g_pools db) with
     | None => greport (RError "Pool not found")
     | Some pool =>
         if streq (sp_mode pool) "local" then greport (RError "Pool-level GC only applies to shared storage pools")
         else
           let in_pool h := col_is (h_storage_pool_id h) pool_id && streq (h_state h) "active" in
           match List.find (λ h, in_pool h && streq (h_agent_status h) "connected") (g_hosts db) with
           | None => greport (RError "No connected host available in pool")
           | Some scan_host =>
               agent_job (h_id scan_host) "check_disk_usage" (λ pf m, (m, Some tt));;~
               let hosts := List.filter in_pool (g_hosts db) in
               geach hosts (λ h, sync_capacity (h_id h);;~ gret tt);;~
               greport (RHostsSynced (Z.of_nat (length hosts)));;~
               pool_cache_eviction pool_id hosts scan_host dry_run;;~
               (if dry_run then gret tt
                else geach hosts (λ h, if streq (h_agent_status h) "connected"
                                       then repair_networks h;;~ gret tt else gret tt));;~
               pool_orphan_cleanup scan_host dry_run
           end
     end)
    (λ e, greport (RError (gexn_str e))).

(** ** Recovery of a host that came back *)

(** [gc_service._recover_mesh_peers]: a peer that fails is passed over. *)
Definition recover_mesh_peers (h : Host) (peers : list string) : G unit :=
  geach peers (λ project,
    gcatch (gemit (SetupMesh (h_id h) project);;~ agent_job (h_id h) "/mesh/setup" (λ pf m, (m, Some tt));;~ gret tt)
      (λ _, gret tt)).

(** [gc_service._reconnect_project_taps] *)
Definition running_domains (i : string) (states : list (string * string)) : list string :=
  omap (λ '(d, s), if String.eqb s "running" && startswith ("troshka-" +:+ str_take 8 i +:+ "-") d then Some d else None)
    states.
Definition reconnect_project_taps (h : Host) (projects : list dproject) (states : list (string * string)) : G unit :=
  geach projects (λ p,
    match running_domains (d_id p) states with
    | [] => gret tt
    | domains =>
        gcatch (gemit (ReconnectTaps (d_id p) domains);;~
                agent_job (h_id h) "/networks/reconnect-taps" (λ pf m, (m, Some tt));;~ gret tt) (λ _, gret tt)
    end).

(** [gc_service._restore_project_bmc]: a configuration that cannot be extracted raises. *)
Definition restore_project_bmc (sha256_hex : string → string) (h : Host) (projects : list dproject) : G Z :=
  gsum projects (λ p,
    config <~' glift (extract_bmc_config sha256_hex (deployed_or_drawn p) (d_id p));;
    if negb (truthy (default VNone config)) then gret 0
    else gcatch (gemit (SetupBmc (h_id h) (d_id p));;~ agent_job (h_id h) "/bmc/setup" (λ pf m, (m, Some tt));;~ gret 1)
           (λ _, gret 0)).

(** [gc_service.recover_host_services]: the hosts being recovered afterwards. *)
Definition recover_host_services (sha256_hex : string → string) (peers : list string) (states : list (string * string))
    (recovering : list string) (host_id : string) : G (list string) :=
  if in_list host_id recovering then gret recovering
  else
    gcatch
      (db <~' gdb_;;
       match g_find_host db host_id with
       | None => gret tt
       | Some h =>
           if negb (String.eqb (h_agent_status h) "connected") then gret tt
           else
             match List.filter (λ p, on_hosts [host_id] p && in_list (d_state p) ["active"; "stopped"]) (g_projects db) with
             | [] => gret tt
             | projects =>
                 if existsb (λ p, in_list (d_state p) ["deploying"; "reconfiguring"]) projects then gret tt
                 else
                   recover_mesh_peers h peers;;~
                   repair_networks h;;~
                   agent_job (h_id h) "get_all_vm_states" (λ pf m, (m, Some tt));;~
                   reconnect_project_taps h projects states;;~
                   restore_project_bmc sha256_hex h projects;;~
                   gret tt
             end
       end)
      (λ _, gret tt);;~
    gret recovering.
End Gc.

(** * A provider's addresses and rules: [services/provider_gc_service.py] *)

Record address := mkAddress { ad_allocation : string; ad_project : string; ad_associated : bool }.
Record sg_rule := mkRule { ru_description : string; ru_port : Z }.

Record pworld := mkPw {
  pw_projects : list dproject;
  pw_eips : list ElasticIp;
  pw_addresses : list address;
  pw_rules : list sg_rule
}.

Section ProviderGc.
(** Whether the release of an allocation succeeds. *)
Context (release_ok : string → bool).

Definition project_exists (db : list dproject) (i : string) : bool := existsb (λ p, streq (d_id p) i) db.

(** [provider_gc_service._find_orphan_addresses] *)
Definition find_orphan_addresses (db : list dproject) (l : list address) : list address :=
  List.filter (λ a, String.eqb (ad_project a) "" || negb (project_exists db (ad_project a))) l.

(** [provider_gc_service._release_orphan_address]: [None] when the cloud refuses the release. *)
Definition release_orphan_address (w : pworld) (a : address) : option pworld :=
  if release_ok (ad_allocation a)
  then Some (mkPw (pw_projects w)
               (match List.find (λ e, streq (e_allocation_id e) (ad_allocation a)) (pw_eips w) with
                | Some e => List.filter (λ x, negb (streq (e_id x) (e_id e))) (pw_eips w)
                | None => pw_eips w
                end)
               (List.filter (λ x, negb (streq (ad_allocation x) (ad_allocation a))) (pw_addresses w)) (pw_rules w))
  else None.

Fixpoint release_all (w : pworld) (l : list address) : pworld * bool :=
  match l with
  | [] => (w, true)
  | a :: l' => match release_orphan_address w a with Some w => release_all w l' | None => (w, false) end
  end.

(** [provider_gc_service._gc_orphan_eips]: the world, and whether it went to its end; a release that
    is refused ends it before the rows are committed. *)
Definition gc_orphan_eips (provider_id : string) (w : pworld) (dry_run : bool) : pworld * bool :=
  let listed := pw_addresses w in
  if dry_run then (w, true)
  else
    let '(w', done) := release_all w (find_orphan_addresses (pw_projects w) listed) in
    if negb done then (mkPw (pw_projects w) (pw_eips w) (pw_addresses w') (pw_rules w), false)
    else
      let stale e := streq (e_provider_id e) provider_id &&
        match map ad_allocation listed with
        | [] => true
        | ids => negb (in_list (e_allocation_id e) ids)
        end in
      (mkPw (pw_projects w') (List.filter (λ e, negb (stale e)) (pw_eips w')) (pw_addresses w') (pw_rules w'), true).

(** [provider_gc_service._find_stale_pf_rules] *)
Definition is_stale_rule (db : list dproject) (r : sg_rule) : bool :=
  startswith "troshka-pf:" (ru_description r) &&
  negb (existsb (λ p, streq (d_id p) (nth 1 (split ":" (ru_description r)) "") &&
                      in_list (d_state p) ["active"; "deploying"]) db).

(** [provider_gc_service._gc_stale_sg_rules] *)
Definition gc_stale_sg_rules (w : pworld) (dry_run : bool) : pworld :=
  if dry_run then w
  else mkPw (pw_projects w) (pw_eips w) (pw_addresses w) (List.filter (λ r, negb (is_stale_rule (pw_projects w) r)) (pw_rules w)).

(** [provider_gc_service.reconcile_provider] *)
Definition reconcile_provider (provider_id : string) (w : pworld) (dry_run : bool) : pworld :=
  let '(w, done) := gc_orphan_eips provider_id w dry_run in
  if done then gc_stale_sg_rules w dry_run else w.
End ProviderGc.
