(* ===== verification/GcSafe.v ===== *)
(** * What a collection spares

    The sweep of a host is composed of two programs: the backend names the projects it keeps, the
    agent lists what is not theirs, the backend asks to remove it.  The theorems follow a
    project's files, domains, containers, pools and namespace through both. *)
From stdpp Require Import prelude strings gmap.
From Stdlib Require Import Ascii.
From S2P Require Import Prelude PyStr StrLemmas PyVal PyLemmas Db TopoNodes PatternLocations JobMonad HostGc GcService.

Open Scope list_scope.

(** ** Paths *)

(** Directories none of which holds the other. *)
Definition apart (d d' : string) : bool := negb (startswith (d +:+ "/") (d' +:+ "/")) && negb (startswith (d' +:+ "/") (d +:+ "/")).

Lemma apart_no_common d d' x y : apart d d' = true → (d +:+ "/") +:+ x ≠ (d' +:+ "/") +:+ y.
Proof.
  unfold apart. intros [H1 H2]%andb_prop Heq. apply prefixes_comparable in Heq as [H|H]; [by rewrite H in H1|by rewrite H in H2].
Qed.

Lemma split_head_app c e r : no_char c e = true → split_head c (e +:+ String c r) = e.
Proof.
  induction e as [|a e IH]; cbn; [by rewrite decide_True|]. case_decide; [done|]. intros Hn. by rewrite IH.
Qed.

(** A file below [d/e]. *)
Lemma tree_child d e f : in_tree (d +:+ "/" +:+ e) f = true → ∃ r, f_path f +:+ "/" = (d +:+ "/") +:+ (e +:+ String "/" r).
Proof.
  unfold in_tree. intros [H|H]%orb_prop.
  - apply String.eqb_eq in H. exists "". by rewrite H, !str_app_assoc.
  - apply startswith_spec in H as [r H]. exists (r +:+ "/"). rewrite H, <-!str_app_assoc. done.
Qed.

Lemma same_child d e e' f :
  no_char "/" e = true → no_char "/" e' = true →
  in_tree (d +:+ "/" +:+ e) f = true → in_tree (d +:+ "/" +:+ e') f = true → e = e'.
Proof.
  intros He He' [r H]%tree_child [r' H']%tree_child. rewrite H in H'. apply str_app_inj_l in H'.
  by rewrite <-(split_head_app "/" e r He), H', split_head_app.
Qed.

Lemma apart_trees d d' e e' f :
  apart d d' = true → in_tree (d +:+ "/" +:+ e) f = true → in_tree (d' +:+ "/" +:+ e') f = false.
Proof.
  intros Ha [r H]%tree_child. apply not_true_iff_false. intros [r' H']%tree_child. rewrite H in H'.
  by apply (apart_no_common _ _ _ _ Ha) in H'.
Qed.

(** A path that starts elsewhere. *)
Lemma apart_path d s e f :
  startswith s (d +:+ "/") = false → startswith (d +:+ "/") s = false →
  in_tree (d +:+ "/" +:+ e) f = true → ∀ x, f_path f ≠ s +:+ x.
Proof.
  intros H1 H2 [r H]%tree_child x Hx. rewrite Hx, <-str_app_assoc in H.
  apply prefixes_comparable in H as [H|H]; congruence.
Qed.

(** Names the file system has. *)
Definition plain_name (n : string) : bool :=
  no_char "/" n && negb (String.eqb n "") && negb (String.eqb n ".") && negb (String.eqb n "..").

Lemma split_join2 c a s : split c (a +:+ String c s) = split c a ++ split c s.
Proof.
  induction a as [|x a IH]; cbn; [by rewrite decide_True|].
  case_decide; [by rewrite IH|]. rewrite IH. by destruct (split c a) eqn:E; [apply split_nonempty in E|].
Qed.

Lemma components_child d e : plain_name e = true → components (d +:+ "/" +:+ e) = components d ++ [e].
Proof.
  unfold plain_name, components. intros [[[He H1]%andb_prop H2]%andb_prop H3]%andb_prop.
  change (d +:+ "/" +:+ e) with (d +:+ String "/" e). rewrite split_join2, (split_no_char _ e He), foldl_app. cbn.
  apply negb_true_iff in H1, H2, H3. by rewrite H1, H2, H3.
Qed.

Lemma components_slash d : components (d +:+ "/") = components d.
Proof. unfold components. change (d +:+ "/") with (d +:+ String "/" ""). by rewrite split_join2, foldl_app. Qed.

(** The normal form of a path of a normal directory. *)
Lemma normpath_child d e : normpath d = d → d ≠ "/" → plain_name e = true → normpath (d +:+ "/" +:+ e) = d +:+ "/" +:+ e.
Proof.
  intros Hd Hne He. unfold normpath in *. rewrite components_child by done.
  assert (components d ≠ []) by (intros E; rewrite E in Hd; by apply Hne).
  by rewrite join_snoc, !str_app_assoc, Hd.
Qed.

Lemma normpath_child_slash d e :
  normpath d = d → d ≠ "/" → plain_name e = true → normpath ((d +:+ "/" +:+ e) +:+ "/") = d +:+ "/" +:+ e.
Proof. intros. unfold normpath. rewrite components_slash. by apply normpath_child. Qed.

(** ** One project through a sweep *)

Section Spared.
Context (pid : string) (m0 : machine).
Hypothesis plain_pid : plain_name pid = true.

Notation ns := ("troshka-" +:+ str_take 8 pid).

(** What a project owns on a machine. *)
Definition own_file (f : file) : Prop := ∃ d, d ∈ vms_dirs ∧ in_tree (d +:+ "/" +:+ pid) f = true.
Definition own_domain (d : domain) : Prop := startswith ns (dm_name d) = true.
Definition own_container (c : container) : Prop := startswith (ns +:+ "-") (ct_name c) = true.
Definition own_pool (p : string * string) : Prop := project_from_vms_target (strip p.2) = pid.

(** Everything the project owned on the machine at the start is there. *)
Record spares (m : machine) : Prop := {
  spared_files : ∀ f, own_file f → f ∈ m_files m0 → f ∈ m_files m;
  spared_domains : ∀ d, own_domain d → d ∈ m_domains m0 → d ∈ m_domains m;
  spared_containers : ∀ c, own_container c → c ∈ m_containers m0 → c ∈ m_containers m;
  spared_pools : ∀ p, own_pool p → p ∈ m_pools m0 → p ∈ m_pools m;
  spared_netns : ns ∈ m_netns m0 → ns ∈ m_netns m;
  origin_containers : ∀ c, c ∈ m_containers m → ∃ c0, c0 ∈ m_containers m0 ∧ ct_name c0 = ct_name c ∧ ct_pod c0 = ct_pod c
}.

Lemma spares_refl : spares m0.
Proof. constructor; auto. eauto. Qed.

(** Paths whose trees hold nothing of the project. *)
Definition harmless (path : string) : Prop := ∀ f, own_file f → in_tree path f = false.

Lemma spares_files keep m :
  (∀ f, own_file f → keep f = true) → spares m → spares (set_files m (List.filter keep (m_files m))).
Proof.
  intros Hk []. constructor; auto. intros f Hf H. cbn. apply list_elem_of_In, filter_In.
  split; [by apply list_elem_of_In, spared_files0|by apply Hk].
Qed.

Lemma spares_rmtree path m : harmless path → spares m → spares (rmtree m path).
Proof. intros Hp. apply spares_files. intros f Hf. by rewrite Hp. Qed.

Lemma spares_rmtree_failed pf path m : harmless path → spares m → spares (rmtree_failed pf m path).
Proof. intros Hp. apply spares_files. intros f Hf. by rewrite Hp. Qed.

Lemma spares_unlink path m : harmless path → spares m → spares (unlink m path).
Proof.
  intros Hp. apply spares_files. intros f Hf. specialize (Hp f Hf). unfold in_tree in Hp.
  apply orb_false_elim in Hp as [Hp _]. by rewrite Hp.
Qed.

Lemma spares_domains (keep : list domain → list domain) m :
  (∀ l d, own_domain d → d ∈ l → d ∈ keep l) → spares m → spares (set_domains m (keep (m_domains m))).
Proof. intros Hk []. constructor; auto. intros d Hd H. cbn. auto. Qed.

Lemma spares_pools keep m :
  (∀ p, own_pool p → p ∈ m_pools m0 → keep p = true) → spares m → spares (set_pools m (List.filter keep (m_pools m))).
Proof.
  intros Hk []. constructor; auto. intros p Hp H. cbn. apply list_elem_of_In, filter_In.
  split; [by apply list_elem_of_In, spared_pools0|by apply Hk].
Qed.

Lemma spares_netns keep m : keep ns = true → spares m → spares (set_netns m (List.filter keep (m_netns m))).
Proof.
  intros Hk []. constructor; auto. intros H. cbn. apply list_elem_of_In, filter_In.
  split; [by apply list_elem_of_In, spared_netns0|done].
Qed.

Lemma spares_bridges l m : spares m → spares (set_bridges m l).
Proof. intros []. by constructor. Qed.

Lemma spares_dangling l m : spares m → spares (set_dangling m l).
Proof. intros []. by constructor. Qed.

(** A sweep keeps what each of its steps keeps. *)
Lemma sweep_keeps {A} (P : machine → Prop) (step : machine → A → machine * option Z) l m :
  (∀ x m, x ∈ l → P m → P (step m x).1) → P m → P (sweep step l m).1.
Proof.
  revert m. induction l as [|x l IH]; intros m Hs Hm; [done|]. cbn.
  pose proof (Hs x m ltac:(left) Hm) as H1. destruct (step m x) as [m1 [n|]]; [|done].
  specialize (IH m1 ltac:(intros; apply Hs; [by right|done]) H1). by destruct (sweep step l m1) as [m2 [k|]].
Qed.

(** ** Each kind of resource *)

Section Kinds.
Context (pf : platform).

Lemma spares_clean_orphan_dirs l m :
  (∀ x p, x ∈ l → validate_path pf x = Some p → harmless p) → spares m → spares (clean_orphan_dirs pf l m).1.
Proof.
  intros Hl. apply sweep_keeps. intros x m' Hx Hm. unfold clean_dir.
  destruct (validate_path pf x) as [p|] eqn:E; [|done]. specialize (Hl x p Hx E).
  destruct (negb (isdir m' p)); [done|]. destruct (run pf _); [by apply spares_rmtree| |by apply spares_rmtree_failed].
  destruct (negb _); [by apply spares_rmtree_failed|].
  assert (Hs : spares (set_files (rmtree_failed pf m' p) (List.filter (λ f,
    negb (String.eqb (f_dir f) p && negb (f_isdir f) && ran_ok (run pf ["remove"; f_path f]))) (m_files (rmtree_failed pf m' p))))).
  { apply spares_files; [|by apply spares_rmtree_failed]. intros f Hf. specialize (Hl f Hf).
    destruct (String.eqb (f_dir f) p) eqn:Ed; [|done]. exfalso. apply String.eqb_eq in Ed. unfold in_tree, f_path in Hl.
    apply orb_false_elim in Hl as [_ Hl]. by rewrite Ed, str_app_assoc, startswith_app in Hl. }
  destruct (_ && _); [by apply spares_rmtree|done].
Qed.

Lemma spares_clean_orphan_domains l m :
  (∀ d, own_domain d → dm_name d ∉ l) → spares m → spares (clean_orphan_domains pf l m).1.
Proof.
  intros Hl. apply sweep_keeps. intros x m' Hx Hm. destruct (negb _); [done|].
  assert (Hne : ∀ d, own_domain d → String.eqb (dm_name d) x = false).
  { intros d Hd. apply String.eqb_neq. intros <-. by apply (Hl d Hd). }
  assert (H1 : spares (if ran_ok (run pf ["virsh"; "destroy"; x])
             then set_domains m' (map (λ d, if String.eqb (dm_name d) x then mkDomain x false (dm_bridges d) else d)
                                  (m_domains m')) else m')).
  { destruct (ran_ok _); [|done].
    apply (spares_domains (map (λ d, if String.eqb (dm_name d) x then mkDomain x false (dm_bridges d) else d))); [|done].
    intros ds d Hd Hin. apply list_elem_of_fmap. exists d. by rewrite (Hne d Hd). }
  destruct (ran_ok (run pf ["virsh"; "undefine"; x])); [|done].
  apply (spares_domains (List.filter (λ d, negb (String.eqb (dm_name d) x)))); [|done].
  intros ds d Hd Hin. apply list_elem_of_In, filter_In. rewrite (Hne d Hd). by rewrite <-list_elem_of_In.
Qed.

Lemma spares_clean_orphan_namespaces l m : ns ∉ l → spares m → spares (clean_orphan_namespaces pf l m).1.
Proof.
  intros Hl. apply sweep_keeps. intros x m' Hx Hm. destruct (_ && _); [|done].
  apply spares_netns; [|done]. apply negb_true_iff, String.eqb_neq. by intros <-.
Qed.

Lemma spares_clean_orphan_bridges l m : spares m → spares (clean_orphan_bridges pf l m).1.
Proof. apply sweep_keeps. intros x m' _ Hm. destruct (_ && _); [by apply spares_bridges|done]. Qed.

Lemma spares_undefine_pool name m :
  (∀ p, own_pool p → p ∈ m_pools m0 → p.1 ≠ name) → spares m → spares (undefine_pool pf m name).1.
Proof.
  intros Hn Hm. unfold undefine_pool. destruct (ran_ok _); [|done]. apply spares_pools; [|done].
  intros p Hp Hin. by apply negb_true_iff, String.eqb_neq, Hn.
Qed.

Lemma spares_clean_orphan_pools l m :
  (∀ p, own_pool p → p ∈ m_pools m0 → p.1 ∉ l) → spares m → spares (clean_orphan_pools pf l m).1.
Proof.
  intros Hl. apply sweep_keeps. intros x m' Hx Hm. destruct (String.eqb _ _); [done|].
  assert (Hu : spares (undefine_pool pf m' x).1).
  { apply spares_undefine_pool; [|done]. intros p Hp Hin <-. by apply (Hl p Hp Hin). }
  destruct (undefine_pool pf m' x) as [m1 b]. by destruct (run pf ["virsh"; "pool-destroy"; x]), (run pf ["virsh"; "pool-undefine"; x]).
Qed.

Lemma spares_clean_cache_items l m :
  (∀ x p, x ∈ l → validate_path pf x = Some p → harmless p) → spares m → spares (clean_cache_items pf l m).1.
Proof.
  intros Hl. apply sweep_keeps. intros x m' Hx Hm. destruct (validate_path pf x) as [p|] eqn:E; [|done].
  specialize (Hl x p Hx E). destruct (isdir m' p).
  - destruct (ran_ok _); [by apply spares_rmtree|by apply spares_rmtree_failed].
  - destruct (_ && _); [by apply spares_unlink|done].
Qed.

Lemma spares_clean_orphan_bmc l m :
  (∀ q, q ∈ l → harmless (BMC_DIR +:+ "/" +:+ q)) →
  (∀ p, own_pool p → p ∈ m_pools m0 → startswith "troshka-vmedia-" p.1 = false) →
  spares m → spares (clean_orphan_bmc pf l m).1.
Proof.
  intros Hl Hp. apply sweep_keeps. intros q m' Hq Hm.
  assert (Hb : ∀ m, spares m → spares (remove_bmc_bridge pf m q)).
  { intros m1 H1. unfold remove_bmc_bridge. destruct (ran_ok _); [by apply spares_bridges|done]. }
  cbv beta zeta. destruct (negb _); [by apply Hb|].
  assert (Hu : spares (undefine_pool pf m' ("troshka-vmedia-" +:+ str_take 8 q)).1).
  { apply spares_undefine_pool; [|done]. intros p H1 H2 H3. specialize (Hp p H1 H2). by rewrite H3, startswith_app in Hp. }
  assert (Hr : spares (remove_bmc_bridge pf
    (if ran_ok (run pf ["rmtree"; BMC_DIR +:+ "/" +:+ q])
     then rmtree (undefine_pool pf m' ("troshka-vmedia-" +:+ str_take 8 q)).1 (BMC_DIR +:+ "/" +:+ q)
     else rmtree_failed pf (undefine_pool pf m' ("troshka-vmedia-" +:+ str_take 8 q)).1 (BMC_DIR +:+ "/" +:+ q)) q)).
  { apply Hb. specialize (Hl q Hq). destruct (ran_ok _); [by apply spares_rmtree|by apply spares_rmtree_failed]. }
  repeat case_match; done.
Qed.

(** Paths with one start. *)
Definition harmless_prefix (s : string) : Prop := ∀ f x, own_file f → f_path f ≠ s +:+ x.

Lemma spares_clean_orphan_metadata l m :
  harmless_prefix "/opt/troshka/metadata-" → harmless_prefix "/var/log/troshka-metadata-" →
  spares m → spares (clean_orphan_metadata pf l m).1.
Proof.
  intros H1 H2. apply sweep_keeps. intros x m' Hx Hm. destruct (negb _); [done|].
  assert (Hu : spares (unlink m' x)).
  { apply spares_files; [|done]. intros f Hf. apply list_elem_of_In, in_flat_map in Hx as (i & _ & [<-|[<-|[]]]);
      (destruct (String.eqb (f_path f) _) eqn:E; [|done]); apply String.eqb_eq in E; exfalso;
      [eapply H1|eapply H2]; eauto. }
  by destruct (ran_ok _).
Qed.

Lemma spares_clean_stale_agent_isos l m :
  harmless_prefix "/tmp/" → spares m → spares (clean_stale_agent_isos pf l m).1.
Proof.
  intros Ht. apply sweep_keeps. intros x m' _ Hm. destruct (String.eqb x _ || negb (startswith _ x)) eqn:E; [done|].
  apply orb_false_elim in E as [_ E]. apply negb_false_iff, startswith_spec in E as [r ->].
  assert (Hh : harmless ((AGENT_ISO_SCAN_ROOT +:+ "/") +:+ r)).
  { intros f Hf. unfold in_tree. apply orb_false_intro.
    - apply String.eqb_neq. by apply (Ht f r).
    - apply not_true_iff_false. intros [t H]%startswith_spec. apply (Ht f (r +:+ "/" +:+ t) Hf).
      rewrite H, <-!str_app_assoc. done. }
  destruct (run pf _); [|by apply spares_rmtree_failed..]. destruct (exists_path _ _); [by apply spares_rmtree|done].
Qed.

Lemma spares_clean_dangling_images b m : spares m → spares (clean_dangling_images pf b m).1.
Proof. intros Hm. unfold clean_dangling_images. destruct (_ && _); [by apply spares_dangling|done]. Qed.

(** A container goes by its name, or with its pod. *)
Lemma spares_containers (keep : container → bool) m :
  (∀ c, own_container c → c ∈ m_containers m0 → keep c = true) → spares m →
  spares (set_containers m (List.filter keep (m_containers m))).
Proof.
  intros Hk []. constructor; auto; cbn.
  - intros c Hc H. apply list_elem_of_In, filter_In. split; [by apply list_elem_of_In, spared_containers0|by apply Hk].
  - intros c [H _]%list_elem_of_In%filter_In. by apply origin_containers0, list_elem_of_In.
Qed.

Lemma spares_stopped name m :
  (∀ c, own_container c → ct_name c ≠ name) → spares m →
  spares (set_containers m (map (λ c, if String.eqb (ct_name c) name then mkContainer name (ct_pod c) false else c)
                              (m_containers m))).
Proof.
  intros Hn []. constructor; auto; cbn.
  - intros c Hc H. apply list_elem_of_fmap. exists c. split; [|by apply spared_containers0].
    by rewrite (proj2 (String.eqb_neq _ _) (Hn c Hc)).
  - intros c (c1 & -> & H)%list_elem_of_fmap. apply origin_containers0 in H as (c0 & H0 & H1 & H2).
    exists c0. destruct (String.eqb (ct_name c1) name) eqn:E; [|done]. apply String.eqb_eq in E. by rewrite <-E.
Qed.

Lemma spares_clean_orphan_containers pods l m :
  (∀ c, own_container c → ct_name c ∉ l) →
  (∀ c c', c ∈ m_containers m0 → c' ∈ m_containers m0 → own_container c → strip (ct_pod c) = strip (ct_pod c') →
     strip (ct_pod c) ≠ "" → own_container c') →
  spares m → spares (clean_orphan_containers pf pods l m).1.
Proof.
  intros Hl Hpods. revert pods m. induction l as [|x l IH]; intros pods m Hm; [done|]. cbn [clean_orphan_containers].
  assert (IH' : ∀ pods m, spares m → spares (clean_orphan_containers pf pods l m).1).
  { intros. apply IH; [|done]. intros c Hc Hin. apply (Hl c Hc). by right. }
  assert (Hx : ∀ c, own_container c → ct_name c ≠ x) by (intros c Hc <-; apply (Hl c Hc); left).
  assert (Hcount : ∀ r : machine * Z, spares r.1 → spares (let '(m, n) := r in (m, n + 1)).1) by (by intros [? ?]).
  destruct (negb _); [by apply IH'|]. destruct (container_pod pf m x) as [[|] pod] eqn:Ep; [|by apply IH'].
  destruct pod as [|a pod].
  - assert (Hs : spares (if ran_ok (run pf ["podman"; "stop"; x])
      then set_containers m (map (λ c, if String.eqb (ct_name c) x then mkContainer x (ct_pod c) false else c)
             (m_containers m)) else m)) by (destruct (ran_ok _); [by apply spares_stopped|done]).
    cbv zeta. destruct (ran_ok (run pf ["podman"; "rm"; x])); [|by apply IH']. apply Hcount, IH', spares_containers; [|done].
    intros c Hc _. by apply negb_true_iff, String.eqb_neq, Hx.
  - destruct (_ || _); [by apply IH'|]. cbv zeta. apply Hcount, IH', spares_containers; [|done].
    intros c Hc Hin. apply negb_true_iff, String.eqb_neq. intros Heq.
    unfold container_pod in Ep. destruct (run pf _); [|done..].
    destruct (List.find _ _) as [c1|] eqn:Ef; [|done]. injection Ep as Ep.
    apply find_some in Ef as [Hc1 Hn1]. apply String.eqb_eq in Hn1.
    destruct (origin_containers _ Hm c1) as (c0 & H0 & H1 & H2); [by apply list_elem_of_In|].
    apply (Hx c0); [|congruence]. apply (Hpods c c0 Hin H0 Hc); [|by rewrite Heq]. by rewrite H2, Heq, Ep.
Qed.
End Kinds.
End Spared.

(** ** The two programs together *)

(** A mount for local data that does not hold the project directories. *)
Definition ordinary_mount (pf : platform) : Prop :=
  ∀ c, c ∈ cache_dirs pf ++ [tmp_dir pf] → normpath c = c ∧ c ≠ "/" ∧ forallb (apart c) vms_dirs = true.

(** What the host guarantees: names are names, a pool has one name, the pools of virtual media are
    not those of disks, and a pod holds containers of one project. *)
Record wf_machine (pid : string) (m : machine) : Prop := {
  wf_names : ∀ f, f ∈ m_files m → plain_name (f_name f) = true;
  wf_pools : NoDup (m_pools m).*1;
  wf_vmedia : ∀ p, p ∈ m_pools m → startswith "troshka-vmedia-" p.1 = true → project_from_vms_target (strip p.2) = "";
  wf_pods : ∀ c c', c ∈ m_containers m → c' ∈ m_containers m → own_container pid c →
    strip (ct_pod c) = strip (ct_pod c') → strip (ct_pod c) ≠ "" → own_container pid c'
}.

(** An id whose first eight characters hold no dash, as those of a UUID. *)
Definition project_id (pid : string) : bool := plain_name pid && no_char "-" (str_take 8 pid).

Lemma startswith_take n s : startswith (str_take n s) s = true.
Proof. revert s. induction n as [|n IH]; intros [|a s]; cbn; try done. by rewrite decide_True. Qed.

Lemma own_harmless_prefix pid s :
  forallb (λ d, negb (startswith s (d +:+ "/")) && negb (startswith (d +:+ "/") s)) vms_dirs = true → harmless_prefix pid s.
Proof.
  intros Hs f x (d & Hd & Hf). rewrite forallb_forall in Hs. specialize (Hs d ltac:(by apply list_elem_of_In)).
  apply andb_prop in Hs as [H1 H2]. apply negb_true_iff in H1, H2. by apply (apart_path d s pid).
Qed.

Lemma harmless_apart pid d e : forallb (apart d) vms_dirs = true → harmless pid (d +:+ "/" +:+ e).
Proof.
  intros Hd f (d' & Hd' & Hf). rewrite forallb_forall in Hd. specialize (Hd d' ltac:(by apply list_elem_of_In)).
  eapply apart_trees; [|exact Hf]. unfold apart in *. by rewrite andb_comm.
Qed.

Lemma vms_dirs_apart d d' : d ∈ vms_dirs → d' ∈ vms_dirs → d = d' ∨ apart d d' = true.
Proof.
  rewrite !list_elem_of_In. unfold vms_dirs. cbn.
  intros [<-|[<-|[<-|[]]]] [<-|[<-|[<-|[]]]]; first [by left|right; vm_compute; reflexivity].
Qed.

Lemma harmless_other pid d e :
  plain_name pid = true → plain_name e = true → d ∈ vms_dirs → e ≠ pid → harmless pid (d +:+ "/" +:+ e).
Proof.
  intros Hp He Hd Hne f (d' & Hd' & Hf). destruct (vms_dirs_apart d' d Hd' Hd) as [->|Ha]; [|by eapply apart_trees].
  apply not_true_iff_false. intros Hf'. apply Hne. symmetry. unfold plain_name in *.
  repeat match goal with H : _ && _ = true |- _ => apply andb_prop in H as [? ?] end. by eapply (same_child d).
Qed.

Lemma validate_normpath pf x p : validate_path pf x = Some p → p = normpath x.
Proof. unfold validate_path. destruct (existsb _ _); congruence. Qed.

Lemma NoDup_map_inj {A B} (f : A → B) l x y : NoDup (map f l) → x ∈ l → y ∈ l → f x = f y → x = y.
Proof.
  induction l as [|z l IH]; [by intros _ ?%elem_of_nil|]. cbn. rewrite NoDup_cons. intros [Hz Hl].
  intros [->|Hx]%elem_of_cons [->|Hy]%elem_of_cons Heq; [done|..|by apply IH].
  - exfalso. apply Hz. rewrite Heq. by apply list_elem_of_fmap_2.
  - exfalso. apply Hz. rewrite <-Heq. by apply list_elem_of_fmap_2.
Qed.

Section Together.
Context (pf pf' : platform) (q : discover_request) (pid : string) (m0 : machine).
Context (set_order : list string → list string).
Hypothesis id_ok : project_id pid = true.
Hypothesis known_id : pid ∈ known_project_ids q.
Hypothesis known_domain : ("troshka-" +:+ str_take 8 pid) ∈ known_domains q.
Hypothesis machine_ok : wf_machine pid m0.
Hypothesis mount_ok : ordinary_mount pf.
Hypothesis order_ok : ∀ l x, x ∈ set_order l → x ∈ l.

Lemma plain_pid : plain_name pid = true.
Proof. by apply andb_prop in id_ok as [? _]. Qed.

Lemma discovery_spares : spares pid m0 (discover_orphan_leases pf m0 (known_project_ids q)).
Proof.
  apply (spares_files pid m0 (λ f, negb (is_stale_lease pf (known_project_ids q) f))); [|apply spares_refl].
  intros f Hf. apply negb_true_iff, not_true_iff_false. unfold is_stale_lease.
  intros Hl. do 3 (apply andb_prop in Hl as [Hl _]). apply andb_prop in Hl as [H1 H2]. apply String.eqb_eq in H1.
  apply startswith_spec in H2 as [r H2].
  refine (own_harmless_prefix pid "/var/lib/troshka/dnsmasq-" _ f r Hf _); [vm_compute; reflexivity|].
  unfold f_path. rewrite H1, H2. done.
Qed.

Lemma dirs_harmless m x p :
  (∀ f, f ∈ m_files m → plain_name (f_name f) = true) →
  x ∈ discover_orphan_dirs pf m (known_project_ids q) → validate_path pf' x = Some p → harmless pid p.
Proof.
  intros Hn Hx ->%validate_normpath. apply list_elem_of_In, in_flat_map in Hx as (d & Hd%list_elem_of_In & Hx).
  destruct (ran_ok _); [|done]. apply list_elem_of_In, list_elem_of_omap in Hx as (f & Hf & Hx).
  apply list_elem_of_In, filter_In in Hf as [Hf%list_elem_of_In Hdir%String.eqb_eq].
  destruct (bool_decide _ && _) eqn:E; [|done]. injection Hx as <-. apply andb_prop in E as [E%bool_decide_eq_true _].
  unfold f_path. rewrite Hdir, normpath_child_slash; [|..|by apply Hn].
  - apply harmless_other; [apply plain_pid|by apply Hn|done|]. intros Heq. apply E. by rewrite Heq.
  - revert Hd. rewrite list_elem_of_In. intros [<-|[<-|[<-|[]]]]; vm_compute; reflexivity.
  - revert Hd. rewrite list_elem_of_In. intros [<-|[<-|[<-|[]]]]; discriminate.
Qed.

Lemma cache_harmless m m' x p :
  (∀ f, f ∈ m_files m ++ m_files m' → plain_name (f_name f) = true) →
  x ∈ discover_cache_items pf m ++ discover_stale_temps pf m' → validate_path pf' x = Some p → harmless pid p.
Proof.
  intros Hn Hx ->%validate_normpath.
  assert (∃ c f, c ∈ cache_dirs pf ++ [tmp_dir pf] ∧ f ∈ m_files m ++ m_files m' ∧ f_dir f = c ∧ x = f_path f) as (c & f & Hc & Hf & <- & ->).
  { apply elem_of_app in Hx as [Hx|Hx].
    - apply list_elem_of_In, in_flat_map in Hx as (d & Hd%list_elem_of_In & Hx). destruct (ran_ok _); [|done].
      apply list_elem_of_In, list_elem_of_omap in Hx as (f & Hf & Hx). destruct (ran_ok _); [|done]. injection Hx as <-.
      apply list_elem_of_In, filter_In in Hf as [Hf%list_elem_of_In Hd'%String.eqb_eq]. exists d, f.
      split_and!; try done; apply elem_of_app; by left.
    - unfold discover_stale_temps in Hx. destruct (ran_ok _); [|by apply elem_of_nil in Hx].
      apply list_elem_of_In, filter_In in Hx as [Hx _]. apply list_elem_of_In, list_elem_of_fmap in Hx as (f & -> & Hf).
      apply list_elem_of_In, filter_In in Hf as [Hf%list_elem_of_In Hd'%String.eqb_eq]. exists (tmp_dir pf), f.
      split_and!; try done; apply elem_of_app; right; [by left|done]. }
  destruct (mount_ok _ Hc) as (H1 & H2 & H3). unfold f_path. rewrite normpath_child by auto. by apply harmless_apart.
Qed.

Lemma domains_known d : own_domain pid d → dm_name d ∉ discover_orphan_domains pf m0 (known_domains q).
Proof.
  intros Hd Hin. unfold discover_orphan_domains in Hin. destruct (ran_ok _); [|by apply elem_of_nil in Hin].
  apply list_elem_of_omap in Hin as (d' & _ & H). destruct (negb _); [done|]. destruct (existsb _ _) eqn:E; [done|].
  injection H as H. apply not_true_iff_false in E. apply E. apply existsb_exists.
  exists ("troshka-" +:+ str_take 8 pid). split; [by apply list_elem_of_In|]. by rewrite H.
Qed.

Lemma project_prefix_own r : project_prefix (("troshka-" +:+ str_take 8 pid) +:+ "-" +:+ r) = str_take 8 pid.
Proof.
  apply andb_prop in id_ok as [_ Hd]. unfold project_prefix.
  change (("troshka-" +:+ str_take 8 pid) +:+ "-" +:+ r) with ("troshka-" +:+ (str_take 8 pid +:+ String "-" r)).
  change (split_head "-" ("troshka-" +:+ str_take 8 pid +:+ String "-" r)) with "troshka". cbn [String.length str_drop String.append].
  by rewrite split_head_app.
Qed.

Lemma containers_known c : own_container pid c → ct_name c ∉ discover_orphan_containers pf m0 (known_project_ids q).
Proof.
  intros Hc Hin. unfold discover_orphan_containers in Hin. destruct (ran_ok _); [|by apply elem_of_nil in Hin].
  apply list_elem_of_omap in Hin as (c' & _ & H). cbv zeta in H. destruct (_ || _); [done|].
  destruct (existsb _ _) eqn:E; [done|]. injection H as H. apply not_true_iff_false in E. apply E. apply existsb_exists.
  exists pid. split; [by apply list_elem_of_In|]. rewrite H.
  apply startswith_spec in Hc as [r ->]. rewrite <-str_app_assoc, project_prefix_own. apply startswith_take.
Qed.

Lemma pools_known p :
  own_pool pid p → p ∈ m_pools m0 → p.1 ∉ discover_orphan_pools pf m0 (known_project_ids q).
Proof.
  intros Hp Hin Ho. unfold discover_orphan_pools in Ho. apply list_elem_of_In, filter_In in Ho as [_ Ho].
  apply andb_prop in Ho as [Hne Hk%bool_decide_eq_true]. apply Hk. clear Hk.
  unfold pool_target_path in *. destruct (ran_ok _); [|done].
  destruct (List.find (λ p0, String.eqb p0.1 p.1) (m_pools m0)) as [p'|] eqn:Ef; [|done].
  apply find_some in Ef as [Hp' Hn%String.eqb_eq]. apply list_elem_of_In in Hp'.
  assert (p' = p) as ->; [|by rewrite Hp].
  by apply (NoDup_map_inj fst (m_pools m0)); [apply (wf_pools _ _ machine_ok)|..].
Qed.

Lemma own_pool_not_vmedia p : own_pool pid p → p ∈ m_pools m0 → startswith "troshka-vmedia-" p.1 = false.
Proof.
  intros Hp Hin. apply not_true_iff_false. intros Hs. pose proof (wf_vmedia _ _ machine_ok p Hin Hs) as H.
  unfold own_pool in Hp. rewrite H in Hp. pose proof plain_pid as Hpl. by rewrite <-Hp in Hpl.
Qed.

Lemma netns_known : ("troshka-" +:+ str_take 8 pid) ∉ discover_orphan_namespaces pf m0 (known_project_ids q).
Proof.
  intros Hin. unfold discover_orphan_namespaces in Hin. destruct (ran_ok _); [|by apply elem_of_nil in Hin].
  apply list_elem_of_In, filter_In in Hin as [_ [_ H%bool_decide_eq_true]%andb_prop]. apply H, list_elem_of_fmap. by exists pid.
Qed.

Lemma then_keeps {A} (P : machine → Prop) (c : machine * option Z) (k : Z → machine → machine * option A) :
  P c.1 → (∀ n m, P m → P (k n m).1) → P (let '(m, r) := c in match r with None => (m, None) | Some n => k n m end).1.
Proof. destruct c as [m [n|]]; cbn; auto. Qed.

Lemma as_set_subset l x : x ∈ set_order (dedup_first l) → x ∈ l.
Proof. intros Hx%order_ok. by apply elem_of_dedup_first. Qed.

Lemma sweep_spares db :
  let '(m1, o) := handle_gc_discover pf m0 q in
  spares pid m0 m1 ∧
  ∀ m, spares pid m0 m → spares pid m0 (handle_gc_clean pf' m (clean_request_of set_order db o)).1.
Proof.
  unfold handle_gc_discover. split; [exact discovery_spares|]. intros m H1.
  set (m1 := discover_orphan_leases pf m0 (known_project_ids q)).
  assert (Hn : ∀ f, f ∈ m_files m1 → plain_name (f_name f) = true).
  { intros f [Hf _]%list_elem_of_In%filter_In. apply (wf_names _ _ machine_ok). by apply list_elem_of_In. }
  unfold handle_gc_clean. cbn [q_domains q_pools q_dirs q_containers q_bridges q_namespaces q_cache q_bmc q_metadata
    q_temps q_agent_isos q_prune clean_request_of orphan_dirs orphan_domains orphan_pools orphan_containers orphan_bridges
    orphan_namespaces cache_items orphaned_bmc_project_ids orphaned_metadata_ids stale_temps stale_agent_isos dangling_images].
  apply then_keeps; [apply spares_clean_orphan_domains; [|done]; intros d Hd Hin; by apply (domains_known d Hd), as_set_subset|].
  intros _ m2 H2. apply then_keeps; [apply spares_clean_orphan_pools; [|done]; intros p Hp Hin Ho;
    by apply (pools_known p Hp Hin), as_set_subset|].
  intros _ m3 H3. apply then_keeps; [apply spares_clean_orphan_dirs; [|done]; intros x p Hx;
    eapply (dirs_harmless m0); [apply (wf_names _ _ machine_ok)|by apply as_set_subset]|].
  intros _ m4 H4.
  assert (H5 : spares pid m0 (clean_orphan_containers pf' [] (set_order (dedup_first (discover_orphan_containers pf m0
    (known_project_ids q)))) m4).1).
  { apply spares_clean_orphan_containers; [|apply (wf_pods _ _ machine_ok)|done]. intros c Hc Hin.
    by apply (containers_known c Hc), as_set_subset. }
  destruct (clean_orphan_containers _ _ _ m4) as [m5 n5]. cbn [fst] in H5.
  apply then_keeps; [by apply spares_clean_orphan_bridges|]. intros _ m6 H6.
  apply then_keeps; [apply spares_clean_orphan_namespaces; [|done]; intros Hin; by apply netns_known, as_set_subset|].
  intros _ m7 H7. apply then_keeps; [apply spares_clean_cache_items; [|done]; intros x p Hx|].
  { apply (cache_harmless m0 m1 x p).
    { intros f [Hf|Hf]%elem_of_app; [by apply (wf_names _ _ machine_ok)|by apply Hn]. }
    apply as_set_subset, elem_of_app in Hx as [Hx|Hx]; apply elem_of_app; [left|by right].
    apply list_elem_of_In, filter_In in Hx as [Hx _]. by apply list_elem_of_In. }
  intros _ m8 H8. apply then_keeps; [apply spares_clean_orphan_bmc; [..|done]|].
  { intros b _. apply harmless_apart. vm_compute. reflexivity. }
  { apply own_pool_not_vmedia. }
  intros _ m9 H9. apply then_keeps; [apply spares_clean_orphan_metadata; [..|done]; apply own_harmless_prefix; vm_compute; reflexivity|].
  intros _ m10 H10. apply then_keeps; [done|]. intros _ m11 H11.
  apply then_keeps; [apply spares_clean_stale_agent_isos; [|done]; apply own_harmless_prefix; vm_compute; reflexivity|].
  intros n12 m12 H12. pose proof (spares_clean_dangling_images pid m0 pf' (discover_dangling_images pf m1) m12 H12) as H13.
  by destruct (clean_dangling_images _ _ m12) as [m13 n13].
Qed.
End Together.

(** ** The reconciliation of a host *)

Section Reconcile.
Context (env : gc_env) (hid pid : string) (m0 : machine).

(** A computation that touches no machine. *)
Definition quiet {A} (c : G A) : Prop := ∀ w h, machine_of (c w).1 h = machine_of w h.

Lemma gquiet_ret {A} (a : A) : quiet (gret a).
Proof. done. Qed.
Lemma gquiet_raise {A} e : quiet (@graise A e).
Proof. done. Qed.
Lemma quiet_get {A} (f : gworld → A) : quiet (gget f).
Proof. done. Qed.
Lemma quiet_lift {A} (r : res A) : quiet (glift env r).
Proof. by destruct r. Qed.
Lemma quiet_emit e : quiet (gemit e).
Proof. done. Qed.
Lemma quiet_report l : quiet (greport l).
Proof. done. Qed.
Lemma quiet_set_db db : quiet (gset_db db).
Proof. done. Qed.
Lemma gquiet_bind {A B} (c : G A) (f : A → G B) : quiet c → (∀ a, quiet (f a)) → quiet (gbind c f).
Proof.
  intros Hc Hf w h. unfold gbind. specialize (Hc w h). destruct (c w) as [w1 [a|e]]; cbn in *; [|done].
  by rewrite (Hf a w1 h).
Qed.
Lemma quiet_catch {A} (c : G A) k : quiet c → (∀ e, quiet (k e)) → quiet (gcatch c k).
Proof.
  intros Hc Hk w h. unfold gcatch. specialize (Hc w h). destruct (c w) as [w1 [a|e]]; cbn in *; [done|].
  by rewrite (Hk e w1 h).
Qed.
Lemma quiet_each {A} (l : list A) f : (∀ x, quiet (f x)) → quiet (geach l f).
Proof. intros Hf. induction l as [|x l IH]; [done|]. by apply gquiet_bind. Qed.
Lemma quiet_sum {A} (l : list A) f : (∀ x, quiet (f x)) → quiet (gsum l f).
Proof. intros Hf. induction l as [|x l IH]; [done|]. apply gquiet_bind; [done|]. intros n. by apply gquiet_bind. Qed.
Lemma quiet_sum2 {A} (l : list A) f : (∀ x, quiet (f x)) → quiet (gsum2 l f).
Proof. intros Hf. induction l as [|x l IH]; [done|]. apply gquiet_bind; [done|]. intros n. by apply gquiet_bind. Qed.
Lemma quiet_db : quiet gdb_.
Proof. done. Qed.
Lemma quiet_bucket l : quiet (set_bucket l).
Proof. done. Qed.
Lemma quiet_uploads l : quiet (set_uploads l).
Proof. done. Qed.
Lemma quiet_cluster p k : quiet (set_cluster p k).
Proof. done. Qed.
End Reconcile.

Create HintDb gc.
#[export] Hint Resolve quiet_db gquiet_ret gquiet_raise quiet_get quiet_lift quiet_emit quiet_report quiet_set_db quiet_bucket
  quiet_uploads quiet_cluster : gc.
Ltac quiet_step :=
  match goal with
  | |- forall _, _ => intros ?
  | |- quiet (gbind _ _) => apply gquiet_bind
  | |- quiet (gcatch _ _) => apply quiet_catch
  | |- quiet (geach _ _) => apply quiet_each
  | |- quiet (gsum _ _) => apply quiet_sum
  | |- quiet (gsum2 _ _) => apply quiet_sum2
  | |- quiet (match ?x with _ => _ end) => destruct x
  | |- quiet _ => solve [eauto with gc nocore]
  end.
Ltac quiet := repeat quiet_step.

Section Quiet.
Context (env : gc_env).

Lemma quiet_s3_call o k : quiet (s3_call env o k).
Proof. unfold s3_call. quiet. Qed.
Lemma quiet_k8s o k : quiet (k8s env o k).
Proof. unfold k8s. quiet. Qed.
#[local] Hint Resolve quiet_s3_call quiet_k8s : gc.
Lemma quiet_k8s_list o : quiet (k8s_list env o).
Proof. unfold k8s_list. quiet. Qed.
Lemma quiet_delete_prefix p : quiet (delete_s3_prefix_objects env p).
Proof. unfold delete_s3_prefix_objects. quiet. Qed.
#[local] Hint Resolve quiet_k8s_list quiet_delete_prefix : gc.
Lemma quiet_scan_flat p ids d : quiet (scan_flat_prefix_orphans env p ids d).
Proof. unfold scan_flat_prefix_orphans. quiet. Qed.
#[local] Hint Resolve quiet_scan_flat : gc.
Lemma quiet_abort l ids d : quiet (abort_uploads env l ids d).
Proof. induction l as [|[key i] l IH]; cbn [abort_uploads]; quiet. Qed.
#[local] Hint Resolve quiet_abort : gc.
Lemma quiet_s3 d : quiet (clean_s3_orphans env d).
Proof. unfold clean_s3_orphans, gdb_, scan_library_prefix_orphans, abort_stale_multipart_uploads. quiet. Qed.
Lemma quiet_routes h : quiet (reconcile_ocp_routes env h).
Proof. unfold reconcile_ocp_routes, clean_orphaned_routes, gdb_, cluster_of. quiet. Qed.
#[local] Hint Resolve quiet_s3 quiet_routes : gc.
Lemma quiet_remote h d : quiet (gc_append_remote_reports env h d).
Proof. unfold gc_append_remote_reports. quiet. Qed.
Lemma quiet_pvs p : quiet (list_pvs env p).
Proof. unfold list_pvs, cluster_of. quiet. Qed.
Lemma quiet_delete_pv p n : quiet (delete_persistent_volume env p n).
Proof. unfold delete_persistent_volume, cluster_of. quiet. Qed.
#[local] Hint Resolve quiet_pvs quiet_delete_pv : gc.
Lemma quiet_orphan_services l c : quiet (orphan_services env l c).
Proof. revert c. induction l as [|x l IH]; intros c; cbn [orphan_services]; quiet. Qed.
#[local] Hint Resolve quiet_orphan_services : gc.
Lemma quiet_services p : quiet (list_orphan_troshka_namespaced_services env p).
Proof. unfold list_orphan_troshka_namespaced_services, cluster_of. quiet. Qed.
#[local] Hint Resolve quiet_services : gc.
Lemma quiet_cluster_host h d r : quiet (reconcile_kubevirt_cluster env h d r).
Proof.
  unfold reconcile_kubevirt_cluster, detect_orphan_kubevirt_namespaces, detect_unreferenced_goldens, reconcile_orphan_pvs,
    delete_orphan_pvs_and_reclaim, reconcile_orphan_troshka_services, gc_orphan_troshka_namespaced_services, gdb_, cluster_of.
  quiet.
Qed.
Lemma quiet_capacity h : quiet (sync_capacity env h).
Proof. unfold sync_capacity, gdb_. quiet. Qed.
Lemma quiet_entries h : quiet (reconcile_shared_cache_entries h).
Proof. unfold reconcile_shared_cache_entries, gdb_. quiet. Qed.
Lemma same_machine w w' h h' :
  gw_machines w' = <[h := machine_of w h]> (gw_machines w) → machine_of w' h' = machine_of w h'.
Proof.
  intros Hw. unfold machine_of. rewrite Hw. destruct (decide (h = h')) as [<-|Hne].
  - by rewrite lookup_insert_eq.
  - by rewrite lookup_insert_ne.
Qed.
Lemma quiet_bridges_job h : quiet (agent_job env h "/networks/list-bridges" (λ pf m, (m, Some tt))).
Proof. intros w h1. unfold agent_job. destruct (ge_delivery _ _ _); first [reflexivity|apply (same_machine w _ h); reflexivity]. Qed.
#[local] Hint Resolve quiet_bridges_job : gc.
Lemma quiet_repair h : quiet (repair_networks env h).
Proof. unfold repair_networks, gdb_, get_existing_bridges, repair_one_project_networks. quiet. Qed.
End Quiet.

#[export] Hint Resolve quiet_remote quiet_cluster_host quiet_capacity quiet_entries quiet_repair : gc.

Section Host.
Context (env : gc_env) (h : Host) (p : dproject) (m0 : machine).
Notation pid := (d_id p).
Notation hid := (h_id h).
Hypothesis order_ok : ∀ l x, x ∈ ge_set_order env l → x ∈ l.
Hypothesis mounts_ok : ∀ log i, ordinary_mount (ge_platform env log i).
Hypothesis id_ok : project_id pid = true.
Hypothesis state_ok : d_state p ∈ kept_states.
Hypothesis machine_ok : wf_machine pid m0.

(** The project is in the database, on a host of the pool. *)
Definition known (db : gdb) : Prop := p ∈ g_projects db ∧ on_hosts (get_pool_host_ids db h) p = true.

Lemma known_request db q :
  known db → discover_request_of db h = Ok q →
  pid ∈ known_project_ids q ∧ ("troshka-" +:+ str_take 8 pid) ∈ known_domains q.
Proof.
  intros [Hp Hh] Hq. unfold discover_request_of in Hq. destruct (collect_bmc_project_ids _ _); [|done]. injection Hq as <-.
  assert (Hk : p ∈ kept_projects db (get_pool_host_ids db h)).
  { apply list_elem_of_In, filter_In. split; [by apply list_elem_of_In|]. rewrite Hh. unfold in_list. by apply bool_decide_eq_true. }
  cbn. split; apply list_elem_of_fmap; by exists p.
Qed.

Lemma known_saved db v m : known db → known (g_save_host db (with_used h v m)).
Proof.
  intros [Hp Hh]. split; [done|]. revert Hh. unfold get_pool_host_ids, on_hosts. destruct (text_opt _) as [pool|] eqn:Ep; [|done].
  destruct (p_host_id _) as [i|]; [|done]. unfold in_list. rewrite !bool_decide_eq_true, !list_elem_of_fmap.
  intros (x & Hx & Hin). apply list_elem_of_In, filter_In in Hin as [Hin Hc].
  exists (if streq (h_id x) hid then with_used h v m else x). split.
  - unfold streq. case_bool_decide; [by rewrite Hx|done].
  - apply list_elem_of_In, filter_In. split; [apply in_map_iff; by exists x|].
    unfold streq. case_bool_decide; [|done]. cbn. unfold text_opt in Ep. unfold col_is, streq.
    destruct (h_storage_pool_id h) as [[]|]; try done. injection Ep as <-. by apply bool_decide_eq_true.
Qed.

(** A request the project survives. *)
Definition mild (o : orphans) : Prop :=
  ∀ pf db m, spares pid m0 m → spares pid m0 (handle_gc_clean pf m (clean_request_of (ge_set_order env) db o)).1.

Lemma discovery w :
  machine_of w hid = m0 → known (gw_db w) →
  match discover_orphans env h w with
  | (w', GRet (inl o)) => spares pid m0 (machine_of w' hid) ∧ mild o
  | (w', _) => spares pid m0 (machine_of w' hid)
  end.
Proof.
  intros Hm Hk. unfold discover_orphans. destruct (negb _); [cbn; rewrite Hm; apply spares_refl|].
  unfold gdb_, gget, gbind. destruct (discover_request_of (gw_db w) h) as [q|e] eqn:Eq; cbn [glift gret];
    [|cbn; rewrite Hm; apply spares_refl].
  destruct (known_request _ _ Hk Eq) as [H1 H2].
  pose proof (λ pf', sweep_spares (ge_platform env (gw_log w) hid) pf' q pid m0 (ge_set_order env) id_ok H1 H2 machine_ok
    (mounts_ok _ _) order_ok) as Hs.
  unfold agent_job. rewrite Hm. destruct (handle_gc_discover _ m0 q) as [m1 o] eqn:Ed.
  assert (Hm1 : spares pid m0 m1) by (specialize (Hs (ge_platform env [] hid) (gw_db w)); tauto).
  destruct (ge_delivery _ _ _); unfold machine_of in *; cbn in *; rewrite ?lookup_insert_eq, ?Hm; cbn; try done;
    try apply spares_refl.
  split; [done|]. intros pf db m. apply (Hs pf db).
Qed.

(** A computation the project survives. *)
Definition safe {A} (c : G A) : Prop := ∀ w, spares pid m0 (machine_of w hid) → spares pid m0 (machine_of (c w).1 hid).

Lemma quiet_safe {A} (c : G A) : quiet c → safe c.
Proof. intros Hc w Hw. by rewrite Hc. Qed.

Lemma safe_bind {A B} (c : G A) (f : A → G B) : safe c → (∀ a, safe (f a)) → safe (gbind c f).
Proof.
  intros Hc Hf w Hw. unfold gbind. specialize (Hc w Hw). destruct (c w) as [w1 [a|e]]; [|done]. by apply Hf.
Qed.

Lemma safe_clean o dry : mild o → safe (reconcile_clean_orphans env h o dry).
Proof.
  intros Ho. unfold reconcile_clean_orphans. apply safe_bind; [apply quiet_safe; quiet|]. intros db.
  apply safe_bind; [apply quiet_safe; quiet|]. intros _. destruct (_ && _); [|destruct (0 <? _); apply quiet_safe; quiet].
  apply safe_bind; [|intros c; apply quiet_safe; quiet]. unfold clean_orphans. destruct (negb _); [apply quiet_safe; quiet|].
  apply safe_bind; [apply quiet_safe; quiet|]. intros db'. apply safe_bind; [|intros r; apply quiet_safe; quiet].
  intros w Hw. specialize (Ho (ge_platform env (gw_log w) hid) db' _ Hw). unfold agent_job.
  destruct (handle_gc_clean _ _ _) as [m' r]. destruct (ge_delivery _ _ _); unfold machine_of; cbn;
    rewrite ?lookup_insert_eq; done.
Qed.

Lemma safe_nothing dry : safe (reconcile_clean_orphans env h no_orphans dry).
Proof.
  apply quiet_safe. unfold reconcile_clean_orphans. apply gquiet_bind; [quiet|]. intros db. apply gquiet_bind; [quiet|]. intros _.
  repeat match goal with |- context [0 <? ?x] => change (0 <? x) with false end. cbn [andb]. quiet.
Qed.

Lemma found_host dry reclaim w :
  g_find_host (gw_db w) hid = Some h → machine_of w hid = m0 → known (gw_db w) →
  spares pid m0 (machine_of (reconcile_found_host env h dry reclaim w).1 hid).
Proof.
  intros Hf Hm Hk. unfold reconcile_found_host, gdb_, gget. unfold gbind at 1. cbv beta iota.
  destruct (0 <? _); [cbn; rewrite <-Hm; apply spares_refl|].
  assert (Hc : ∃ w1 r, sync_capacity env hid w = (w1, r) ∧ machine_of w1 hid = m0 ∧ known (gw_db w1)).
  { unfold sync_capacity, gdb_, gget, gbind. cbv beta iota. rewrite Hf. unfold sync_host_capacity. unfold bind.
    destruct (for_each _ _ _) as [[v m]|e]; cbn; eexists _, _; (split; [done|]); (split; [done|]); [by apply known_saved|done]. }
  destruct Hc as (w1 & r & Hc & Hm1 & Hk1). unfold gbind at 1. rewrite Hc.
  destruct r as [c|e]; [|cbn; rewrite Hm1; apply spares_refl].
  assert (Hrep : ∀ l (k : G unit) w, machine_of w hid = m0 → spares pid m0 (machine_of (k (greport l w).1).1 hid) →
    spares pid m0 (machine_of ((greport l;;~ k) w).1 hid)) by done.
  apply Hrep; [done|]. set (w2 := (greport _ w1).1).
  assert (Hm2 : machine_of w2 hid = m0) by done. assert (Hk2 : known (gw_db w2)) by done.
  destruct (String.eqb _ _); [apply quiet_safe; [quiet|rewrite Hm2; apply spares_refl]|].
  destruct (negb (reachable h)); [cbn; rewrite <-Hm2; apply spares_refl|].
  pose proof (discovery w2 Hm2 Hk2) as Hd. unfold gbind at 1.
  destruct (discover_orphans env h w2) as [w3 [[o|msg]|e]]; [..|done].
  - destruct Hd as [Hd Ho]. revert w3 Hd. apply safe_bind; [apply quiet_safe; quiet|]. intros _.
    apply safe_bind; [by apply safe_clean|]. intros cl.
    do 3 (apply safe_bind; [apply quiet_safe; quiet|]; intros _). apply quiet_safe. quiet.
  - revert w3 Hd. apply safe_bind; [apply quiet_safe; quiet|]. intros _. destruct msg as [|a msg]; [|apply quiet_safe; quiet].
    apply safe_bind; [apply safe_nothing|]. intros cl.
    do 3 (apply safe_bind; [apply quiet_safe; quiet|]; intros _). apply quiet_safe. quiet.
Qed.
End Host.

(** C5: A reconciliation of a host leaves alone what a project of its pool holds on it, as long as the
    project is active, stopped, deploying or being reconfigured: disks, domains, containers, the
    pools of its disks and its namespace, whatever commands fail and answers are lost. *)
Theorem gc_spares_project env host_id dry_run reclaim_rbd w h p :
  (∀ l x, x ∈ ge_set_order env l → x ∈ l) →
  (∀ log i, ordinary_mount (ge_platform env log i)) →
  g_find_host (gw_db w) host_id = Some h →
  p ∈ g_projects (gw_db w) → on_hosts (get_pool_host_ids (gw_db w) h) p = true → d_state p ∈ kept_states →
  project_id (d_id p) = true → wf_machine (d_id p) (machine_of w host_id) →
  spares (d_id p) (machine_of w host_id) (machine_of (reconcile_host env host_id dry_run reclaim_rbd w).1 host_id).
Proof.
  intros Hset Hmount Hf Hp Hh Hs Hid Hwf.
  assert (h_id h = host_id) as <-.
  { unfold g_find_host in Hf. apply find_some in Hf as [_ Hi]. by apply bool_decide_eq_true in Hi. }
  pose proof (found_host env h p _ Hset Hmount Hid Hs Hwf dry_run reclaim_rbd w Hf eq_refl (conj Hp Hh)) as H.
  unfold reconcile_host, gcatch, gdb_, gget. unfold gbind at 1. cbv beta iota. rewrite Hf.
  by destruct (reconcile_found_host env h dry_run reclaim_rbd w) as [w' [[]|e]].
Qed.

(** ** What a sweep reclaims *)

Section Reclaims.
Context (pf : platform) (q : discover_request) (m0 : machine).
Context (set_order : list string → list string).
Hypothesis all_ok : ∀ c, run pf c = RanOk.
Hypothesis names_ok : ∀ f, f ∈ m_files m0 → plain_name (f_name f) = true.
Hypothesis order_all : ∀ l x, x ∈ set_order l ↔ x ∈ l.

(** The second machine holds no file, namespace or domain that the first does not. *)
Record shrinks (m m' : machine) : Prop := {
  sh_files : ∀ f, f ∈ m_files m' → f ∈ m_files m;
  sh_domains : ∀ d, d ∈ m_domains m' → ∃ d0, d0 ∈ m_domains m ∧ dm_name d0 = dm_name d;
  sh_netns : ∀ n, n ∈ m_netns m' → n ∈ m_netns m
}.

Lemma shrinks_refl m : shrinks m m.
Proof. constructor; eauto. Qed.

Lemma shrinks_trans m1 m2 m3 : shrinks m1 m2 → shrinks m2 m3 → shrinks m1 m3.
Proof.
  intros [F1 D1 N1] [F2 D2 N2]. constructor; auto. intros d Hd. destruct (D2 d Hd) as (d2 & H2 & E2).
  destruct (D1 d2 H2) as (d1 & H1 & E1). exists d1. split; [done|]. congruence.
Qed.

Lemma shrinks_files keep m : shrinks m (set_files m (List.filter keep (m_files m))).
Proof. constructor; eauto. intros f [Hf _]%list_elem_of_In%filter_In. by apply list_elem_of_In. Qed.

Lemma shrinks_netns keep m : shrinks m (set_netns m (List.filter keep (m_netns m))).
Proof. constructor; eauto. intros f [Hf _]%list_elem_of_In%filter_In. by apply list_elem_of_In. Qed.

Lemma shrinks_pools l m : shrinks m (set_pools m l).
Proof. constructor; eauto. Qed.
Lemma shrinks_containers l m : shrinks m (set_containers m l).
Proof. constructor; eauto. Qed.
Lemma shrinks_bridges l m : shrinks m (set_bridges m l).
Proof. constructor; eauto. Qed.

(** A sweep whose steps shrink and do not raise ends with [gone] true of every element it met,
    when a step makes it so and shrinking keeps it so. *)
Lemma sweep_gone {A} (gone : machine → A → Prop) (step : machine → A → machine * option Z) l m :
  (∀ m m' x, shrinks m m' → gone m x → gone m' x) →
  (∀ x m1, x ∈ l → shrinks m m1 → shrinks m1 (step m1 x).1 ∧ is_Some (step m1 x).2 ∧ gone (step m1 x).1 x) →
  shrinks m (sweep step l m).1 ∧ is_Some (sweep step l m).2 ∧ ∀ x, x ∈ l → gone (sweep step l m).1 x.
Proof.
  intros Hmono. revert m. induction l as [|x l IH]; intros m Hs; cbn.
  - split_and!; [apply shrinks_refl|done|]. by intros x ?%elem_of_nil.
  - destruct (Hs x m ltac:(left) (shrinks_refl m)) as (H1 & [n Hn] & H2). destruct (step m x) as [m1 o]. cbn in *. subst o.
    destruct (IH m1) as (H3 & [k Hk] & H4). { intros y m2 Hy H. apply Hs; [by right|]. by eapply shrinks_trans. }
    destruct (sweep step l m1) as [m2 o]. cbn in *. subst o. split_and!; [by eapply shrinks_trans|done|].
    intros y [->|Hy]%elem_of_cons; [by eapply Hmono|by apply H4].
Qed.

(** The same for sweeps of which only the end matters. *)
Lemma sweep_shrinks {A} (step : machine → A → machine * option Z) l m :
  (∀ x m1, x ∈ l → shrinks m1 (step m1 x).1 ∧ is_Some (step m1 x).2) →
  shrinks m (sweep step l m).1 ∧ is_Some (sweep step l m).2.
Proof.
  intros Hs. destruct (sweep_gone (λ _ _, True) step l m) as (H1 & H2 & _); [done|..|done].
  intros x m1 Hx _. by destruct (Hs x m1 Hx).
Qed.

Lemma ok c : ran_ok (run pf c) = true.
Proof. by rewrite all_ok. Qed.

Definition domain_gone (m : machine) (name : string) : Prop :=
  valid_domain_name name = true → ∀ d, d ∈ m_domains m → dm_name d ≠ name.

Lemma domains_go l m :
  let r := clean_orphan_domains pf l m in shrinks m r.1 ∧ is_Some r.2 ∧ ∀ x, x ∈ l → domain_gone r.1 x.
Proof.
  apply sweep_gone.
  - intros m1 m2 x [_ Hd _] Hg Hv d Hin Heq. destruct (Hd d Hin) as (d0 & H0 & E0). apply (Hg Hv d0 H0). congruence.
  - intros x m1 _ _. destruct (valid_domain_name x) eqn:Ev; cbn [negb].
    + rewrite !ok. cbn. split_and!; [|done|].
      * constructor; eauto. cbn. intros d [Hd _]%list_elem_of_In%filter_In.
        apply list_elem_of_In, list_elem_of_fmap in Hd as (d1 & -> & Hd). exists d1. split; [done|].
        destruct (String.eqb _ _) eqn:E; [|done]. by apply String.eqb_eq in E.
      * intros _ d [_ Hd]%list_elem_of_In%filter_In. by apply String.eqb_neq, negb_true_iff.
    + split_and!; [apply shrinks_refl|done|]. by intros Hv; rewrite Ev in Hv.
Qed.

Lemma namespaces_go l m :
  (∀ x, x ∈ l → startswith "troshka-" x = true) →
  let r := clean_orphan_namespaces pf l m in shrinks m r.1 ∧ is_Some r.2 ∧ ∀ x, x ∈ l → x ∉ m_netns r.1.
Proof.
  intros Hl. apply (sweep_gone (λ m x, x ∉ m_netns m)).
  - intros m1 m2 x [_ _ Hn] Hg Hin. by apply Hg, Hn.
  - intros x m1 Hx _. rewrite (Hl x Hx), ok. cbn. split_and!; [apply shrinks_netns|done|].
    intros [_ H]%list_elem_of_In%filter_In. by rewrite String.eqb_refl in H.
Qed.

Definition dir_gone (m : machine) (path : string) : Prop :=
  ∀ f, f ∈ m_files m → f_isdir f = true → f_path f +:+ "/" ≠ path.

Lemma dirs_go l m :
  (∀ x, x ∈ l → ∃ p, validate_path pf x = Some p ∧ ∀ f, f_path f +:+ "/" = x → f_path f = p) →
  let r := clean_orphan_dirs pf l m in shrinks m r.1 ∧ is_Some r.2 ∧ ∀ x, x ∈ l → dir_gone r.1 x.
Proof.
  intros Hl. apply (sweep_gone dir_gone).
  - intros m1 m2 x [Hf _ _] Hg f Hin. by apply Hg, Hf.
  - intros x m1 Hx _. destruct (Hl x Hx) as (p & Hp & Hpath). unfold clean_dir. rewrite Hp.
    destruct (isdir m1 p) eqn:Ed; cbn [negb].
    + rewrite all_ok. split_and!; [apply shrinks_files|done|]. intros f [_ Hf]%list_elem_of_In%filter_In _ Heq.
      apply Hpath in Heq. unfold in_tree in Hf. by rewrite Heq, String.eqb_refl in Hf.
    + split_and!; [apply shrinks_refl|done|]. intros f Hf Hdir Heq. apply not_true_iff_false in Ed. apply Ed.
      apply existsb_exists. exists f. split; [by apply list_elem_of_In|]. by rewrite (Hpath f Heq), String.eqb_refl, Hdir.
Qed.

Lemma containers_shrink pods l m : shrinks m (clean_orphan_containers pf pods l m).1.
Proof.
  revert pods m. induction l as [|x l IH]; intros pods m; [apply shrinks_refl|]. cbn [clean_orphan_containers].
  assert (Hc : ∀ m1 (r : machine * Z), shrinks m1 r.1 → shrinks m1 (let '(m, n) := r in (m, n + 1)).1) by (by intros ? [? ?]).
  destruct (negb _); [done|]. destruct (container_pod _ _ _) as [[|] [|a pod]]; try done.
  - cbv zeta. rewrite !ok. apply Hc. eapply shrinks_trans; [|apply IH]. eapply shrinks_trans; apply shrinks_containers.
  - destruct (_ || _); [done|]. cbv zeta. apply Hc. eapply shrinks_trans; [apply shrinks_containers|apply IH].
Qed.

Lemma rmtree_shrinks m p : shrinks m (rmtree m p).
Proof. apply shrinks_files. Qed.
Lemma unlink_shrinks m p : shrinks m (unlink m p).
Proof. apply shrinks_files. Qed.
Lemma undefine_shrinks m n : shrinks m (undefine_pool pf m n).1.
Proof. unfold undefine_pool. rewrite ok. apply shrinks_pools. Qed.
Lemma remove_bridge_shrinks m i : shrinks m (remove_bmc_bridge pf m i).
Proof. unfold remove_bmc_bridge. rewrite ok. apply shrinks_bridges. Qed.

Lemma pools_shrink l m : let r := clean_orphan_pools pf l m in shrinks m r.1 ∧ is_Some r.2.
Proof.
  apply sweep_shrinks. intros x m1 _. destruct (String.eqb _ _); [by split; [apply shrinks_refl|]|]. rewrite !all_ok.
  pose proof (undefine_shrinks m1 x). by destruct (undefine_pool pf m1 x) as [m2 b].
Qed.
Lemma bridges_shrink l m : let r := clean_orphan_bridges pf l m in shrinks m r.1 ∧ is_Some r.2.
Proof.
  apply sweep_shrinks. intros x m1 _. destruct (_ && _); cbn; (split; [|done]); [apply shrinks_bridges|apply shrinks_refl].
Qed.
Lemma cache_shrinks l m : let r := clean_cache_items pf l m in shrinks m r.1 ∧ is_Some r.2.
Proof.
  apply sweep_shrinks. intros x m1 _. destruct (validate_path pf x) as [p|]; [|by split; [apply shrinks_refl|]].
  rewrite !ok. destruct (isdir m1 p); [by split; [apply rmtree_shrinks|]|].
  destruct (_ && _); by split; [first [apply unlink_shrinks|apply shrinks_refl]|].
Qed.
Lemma bmc_shrinks l m : let r := clean_orphan_bmc pf l m in shrinks m r.1 ∧ is_Some r.2.
Proof.
  apply sweep_shrinks. intros x m1 _. cbv zeta. destruct (negb _); cbn; [by split; [apply remove_bridge_shrinks|]|].
  rewrite !all_ok. cbn. split; [|done]. eapply shrinks_trans; [|apply remove_bridge_shrinks].
  eapply shrinks_trans; [apply (undefine_shrinks m1)|apply rmtree_shrinks].
Qed.
Lemma metadata_shrinks l m : let r := clean_orphan_metadata pf l m in shrinks m r.1 ∧ is_Some r.2.
Proof.
  apply sweep_shrinks. intros x m1 _. rewrite ok. destruct (negb _); by split; [first [apply unlink_shrinks|apply shrinks_refl]|].
Qed.
Lemma isos_shrink l m : let r := clean_stale_agent_isos pf l m in shrinks m r.1 ∧ is_Some r.2.
Proof.
  apply sweep_shrinks. intros x m1 _. rewrite all_ok. destruct (_ || _); [by split; [apply shrinks_refl|]|].
  destruct (exists_path _ _); by split; [first [apply rmtree_shrinks|apply shrinks_refl]|].
Qed.

Lemma images_shrink b m : shrinks m (clean_dangling_images pf b m).1.
Proof. unfold clean_dangling_images. destruct (_ && _); [constructor; eauto|apply shrinks_refl]. Qed.

(** What is left after a sweep. *)
Definition swept (known known_domains : list string) (m : machine) : Prop :=
  (∀ d, d ∈ m_domains m → valid_domain_name (dm_name d) = true → strip (dm_name d) = dm_name d →
     ∃ prefix, prefix ∈ known_domains ∧ startswith prefix (dm_name d) = true) ∧
  (∀ n, n ∈ m_netns m → startswith "troshka-" n = true → ∃ i, i ∈ known ∧ n = "troshka-" +:+ str_take 8 i) ∧
  (∀ f, f ∈ m_files m → f_dir f ∈ vms_dirs → f_isdir f = true → f_name f ∈ known).

Lemma str_app_slash_inj a b : a +:+ "/" = b +:+ "/" → a = b.
Proof.
  revert b. induction a as [|x a IH]; intros [|y b]; cbn; intros H; [done|..].
  - injection H as _ H. by destruct b.
  - injection H as _ H. by destruct a.
  - injection H as -> H. by rewrite (IH b H).
Qed.

Lemma orphan_dirs_valid m x :
  (∀ f, f ∈ m_files m → plain_name (f_name f) = true) → x ∈ discover_orphan_dirs pf m (known_project_ids q) →
  ∃ p, validate_path pf x = Some p ∧ ∀ f, f_path f +:+ "/" = x → f_path f = p.
Proof.
  intros Hn Hx. apply list_elem_of_In, in_flat_map in Hx as (d & Hd & Hx). rewrite ok in Hx.
  apply list_elem_of_In, list_elem_of_omap in Hx as (f & Hf & Hx). destruct (_ && _); [|done]. injection Hx as <-.
  apply list_elem_of_In, filter_In in Hf as [Hf%list_elem_of_In Hdir%String.eqb_eq].
  exists (f_path f). split; [|by intros f' ?%str_app_slash_inj].
  unfold validate_path, f_path. rewrite Hdir.
  assert (Hd' : normpath d = d ∧ d ≠ "/" ∧ startswith (TROSHKA_DIR +:+ "/") (d +:+ "/" +:+ f_name f) = true).
  { destruct Hd as [<-|[<-|[<-|[]]]]; (split; [vm_compute; reflexivity|]); (split; [discriminate|reflexivity]). }
  destruct Hd' as (H1 & H2 & H3). rewrite normpath_child_slash by auto.
  unfold allowed_prefixes. cbn [app existsb]. by rewrite H3.
Qed.

(** The end of a cleaning: what it was asked for is gone. *)
Lemma clean_ends db o m :
  (∀ x, x ∈ orphan_dirs o → ∃ p, validate_path pf x = Some p ∧ ∀ f, f_path f +:+ "/" = x → f_path f = p) →
  (∀ x, x ∈ orphan_namespaces o → startswith "troshka-" x = true) →
  ∃ m' counts, handle_gc_clean pf m (clean_request_of set_order db o) = (m', Some counts) ∧ shrinks m m' ∧
    (∀ x, x ∈ orphan_domains o → domain_gone m' x) ∧ (∀ x, x ∈ orphan_namespaces o → x ∉ m_netns m') ∧
    (∀ x, x ∈ orphan_dirs o → dir_gone m' x).
Proof.
  intros Hdirs Hns.
  assert (Hset : ∀ l x, x ∈ l ↔ x ∈ set_order (dedup_first l)) by (intros; by rewrite order_all, elem_of_dedup_first).
  unfold handle_gc_clean, clean_request_of. cbn [q_domains q_pools q_dirs q_containers q_bridges q_namespaces q_cache q_bmc
    q_metadata q_temps q_agent_isos q_prune].
  destruct (domains_go (set_order (dedup_first (orphan_domains o))) m) as (S1 & [n1 O1] & G1).
  destruct (clean_orphan_domains _ _ m) as [m2 o1]. cbn [fst snd] in S1, O1, G1. subst o1.
  destruct (pools_shrink (set_order (dedup_first (orphan_pools o))) m2) as (S2 & [n2 O2]).
  destruct (clean_orphan_pools _ _ m2) as [m3 o2]. cbn [fst snd] in S2, O2. subst o2.
  destruct (dirs_go (set_order (dedup_first (orphan_dirs o))) m3) as (S3 & [n3 O3] & G3); [by intros x ?%Hset; apply Hdirs|].
  destruct (clean_orphan_dirs _ _ m3) as [m4 o3]. cbn [fst snd] in S3, O3, G3. subst o3.
  pose proof (containers_shrink [] (set_order (dedup_first (orphan_containers o))) m4) as S4.
  destruct (clean_orphan_containers _ _ _ m4) as [m5 n4]. cbn [fst snd] in S4.
  destruct (bridges_shrink (set_order (dedup_first (orphan_bridges o))) m5) as (S5 & [n5 O5]).
  destruct (clean_orphan_bridges _ _ m5) as [m6 o5]. cbn [fst snd] in S5, O5. subst o5.
  destruct (namespaces_go (set_order (dedup_first (orphan_namespaces o))) m6) as (S6 & [n6 O6] & G6);
    [by intros x ?%Hset; apply Hns|].
  destruct (clean_orphan_namespaces _ _ m6) as [m7 o6]. cbn [fst snd] in S6, O6, G6. subst o6.
  destruct (cache_shrinks (set_order (dedup_first (find_orphaned_cache db (cache_items o) ++ stale_temps o))) m7)
    as (S7 & [n7 O7]).
  destruct (clean_cache_items _ _ m7) as [m8 o7]. cbn [fst snd] in S7, O7. subst o7.
  destruct (bmc_shrinks (orphaned_bmc_project_ids o) m8) as (S8 & [n8 O8]).
  destruct (clean_orphan_bmc _ _ m8) as [m9 o8]. cbn [fst snd] in S8, O8. subst o8.
  destruct (metadata_shrinks (orphaned_metadata_ids o) m9) as (S9 & [n9 O9]).
  destruct (clean_orphan_metadata _ _ m9) as [m10 o9]. cbn [fst snd] in S9, O9. subst o9.
  change (clean_stale_temps pf [] m10) with (m10, Some 0). cbv beta iota.
  destruct (isos_shrink (set_order (dedup_first (stale_agent_isos o))) m10) as (S10 & [n10 O10]).
  destruct (clean_stale_agent_isos _ _ m10) as [m11 o10]. cbn [fst snd] in S10, O10. subst o10.
  pose proof (images_shrink (dangling_images o) m11) as S11.
  destruct (clean_dangling_images _ _ m11) as [m12 n11]. cbn [fst snd] in S11. exists m12, (n10, n11). split; [done|].
  assert (T7 : shrinks m7 m12) by (do 4 (eapply shrinks_trans; [eassumption|]); exact S11).
  assert (T4 : shrinks m4 m12) by (do 2 (eapply shrinks_trans; [eassumption|]); eapply shrinks_trans; [exact S6|exact T7]).
  assert (T2 : shrinks m2 m12) by (do 2 (eapply shrinks_trans; [eassumption|]); exact T4).
  split_and!; [by eapply shrinks_trans|..].
  - intros x Hx Hv d Hd Heq. destruct (sh_domains _ _ T2 d Hd) as (d2 & H2 & E2).
    by apply (G1 x (proj1 (Hset _ _) Hx) Hv d2 H2); rewrite E2.
  - intros x Hx Hin. by apply (G6 x (proj1 (Hset _ _) Hx)), (sh_netns _ _ T7).
  - intros x Hx f Hf. by apply (G3 x (proj1 (Hset _ _) Hx)), (sh_files _ _ T4).
Qed.

Lemma sweep_ends db :
  let '(m1, o) := handle_gc_discover pf m0 q in
  ∃ m2 counts, handle_gc_clean pf m1 (clean_request_of set_order db o) = (m2, Some counts) ∧
    swept (known_project_ids q) (known_domains q) m2.
Proof.
  unfold handle_gc_discover. set (m1 := discover_orphan_leases pf m0 (known_project_ids q)).
  match goal with |- context [clean_request_of _ _ ?o] => destruct (clean_ends db o m1) as (m2 & n & E & S & G1 & G2 & G3) end.
  { intros x. by apply (orphan_dirs_valid m0). }
  { intros x Hx. cbn in Hx. unfold discover_orphan_namespaces in Hx. rewrite ok in Hx.
    by apply list_elem_of_In, filter_In in Hx as [_ [Hx _]%andb_prop]. }
  exists m2, n. split; [done|]. cbn [orphan_domains orphan_namespaces orphan_dirs] in G1, G2, G3. clear E.
  assert (T0 : shrinks m0 m2) by (eapply shrinks_trans; [apply shrinks_files|exact S]). split_and!.
  - intros d Hd Hv Hstrip. destruct (existsb (λ x, startswith x (dm_name d)) (known_domains q)) eqn:E.
    { apply existsb_exists in E as (x & Hx & Hsx). exists x. by rewrite list_elem_of_In. }
    exfalso. destruct (sh_domains _ _ T0 d Hd) as (d0 & H0 & E0).
    refine (G1 (dm_name d) _ Hv d Hd eq_refl). unfold discover_orphan_domains. rewrite ok.
    apply list_elem_of_omap. exists d0. split; [done|]. rewrite E0, Hstrip, E.
    assert (startswith "troshka-" (dm_name d) = true) as ->; [|done].
    unfold valid_domain_name in Hv. by repeat (apply andb_prop in Hv as [Hv _]).
  - intros n' Hn Hs. destruct (bool_decide (n' ∈ map (λ i, "troshka-" +:+ str_take 8 i) (known_project_ids q))) eqn:E.
    { apply bool_decide_eq_true, list_elem_of_fmap in E as (i & -> & Hi). by exists i. }
    exfalso. apply (G2 n'); [|done]. unfold discover_orphan_namespaces. rewrite ok.
    apply list_elem_of_In, filter_In. split; [by apply list_elem_of_In, (sh_netns _ _ T0)|].
    rewrite Hs. cbn. apply bool_decide_eq_false in E. by apply bool_decide_eq_true.
  - intros f Hf Hd Hdir. destruct (decide (f_name f ∈ known_project_ids q)) as [|Hne]; [done|].
    exfalso. refine (G3 (f_path f +:+ "/") _ f Hf Hdir eq_refl).
    unfold discover_orphan_dirs. apply list_elem_of_In, in_flat_map. exists (f_dir f).
    split; [by apply list_elem_of_In|]. rewrite ok. apply list_elem_of_In, list_elem_of_omap. exists f.
    split; [|by rewrite bool_decide_eq_true_2, Hdir by done].
    apply list_elem_of_In, filter_In. split; [by apply list_elem_of_In, (sh_files _ _ T0)|apply String.eqb_refl].
Qed.
End Reclaims.

(** C6: A sweep whose commands succeed ends, and leaves of the disks' directories, of the libvirt
    domains with the agent's names and of the namespaces only those of the projects named. *)
Theorem sweep_reclaims pf q m set_order db :
  (∀ c, run pf c = RanOk) → (∀ l x, x ∈ set_order l ↔ x ∈ l) →
  (∀ f, f ∈ m_files m → plain_name (f_name f) = true) →
  let '(m1, o) := handle_gc_discover pf m q in
  ∃ m2 counts, handle_gc_clean pf m1 (clean_request_of set_order db o) = (m2, Some counts) ∧
    swept (known_project_ids q) (known_domains q) m2.
Proof. intros Hok Hset Hn. by apply sweep_ends. Qed.

(** ** The object store *)

Section Store.
Context (env : gc_env) (o : s3_object).

(** A computation that keeps one object. *)
Definition keeps_object {A} (c : G A) : Prop := ∀ w, o ∈ gw_bucket w → o ∈ gw_bucket (c w).1.

Lemma gkeeps_ret {A} (a : A) : keeps_object (gret a).
Proof. by intros w. Qed.
Lemma gkeeps_get {A} (f : gworld → A) : keeps_object (gget f).
Proof. by intros w. Qed.
Lemma gkeeps_bind {A B} (c : G A) (f : A → G B) : keeps_object c → (∀ a, keeps_object (f a)) → keeps_object (gbind c f).
Proof.
  intros Hc Hf w Hw. unfold gbind. specialize (Hc w Hw). destruct (c w) as [w1 [a|e]]; [|done]. by apply Hf.
Qed.
Lemma gkeeps_catch {A} (c : G A) k : keeps_object c → (∀ e, keeps_object (k e)) → keeps_object (gcatch c k).
Proof.
  intros Hc Hk w Hw. unfold gcatch. specialize (Hc w Hw). destruct (c w) as [w1 [a|e]]; [done|]. by apply Hk.
Qed.
Lemma gkeeps_s3_call f k : keeps_object (s3_call env f k).
Proof. intros w Hw. unfold s3_call, gbind, gget, gemit. by destruct (ge_s3 _ _ _). Qed.
Lemma gkeeps_uploads l : keeps_object (set_uploads l).
Proof. by intros w. Qed.
Lemma keeps_sum2 {A} (l : list A) f : (∀ x, x ∈ l → keeps_object (f x)) → keeps_object (gsum2 l f).
Proof.
  intros Hf. induction l as [|x l IH]; [apply gkeeps_ret|]. cbn [gsum2]. apply gkeeps_bind; [apply Hf; left|]. intros a.
  apply gkeeps_bind; [apply IH; intros y Hy; apply Hf; by right|]. intros b. apply gkeeps_ret.
Qed.

Lemma gkeeps_delete prefix : startswith prefix (s3_key o) = false → keeps_object (delete_s3_prefix_objects env prefix).
Proof.
  intros Hp. apply gkeeps_bind; [apply gkeeps_s3_call|]. intros _. apply gkeeps_bind; [apply gkeeps_get|]. intros [|x l]; [apply gkeeps_ret|].
  apply gkeeps_bind; [apply gkeeps_s3_call|]. intros _ w Hw. unfold gbind, gget, set_bucket. cbn.
  apply list_elem_of_In, filter_In. split; [by apply list_elem_of_In|by rewrite Hp].
Qed.

Lemma split_head_no_char c s : no_char c (split_head c s) = true.
Proof. induction s as [|a s IH]; [done|]. cbn. case_decide as Hd; [done|]. cbn. by rewrite decide_False. Qed.

Lemma common_prefix_form sp objs prefix :
  prefix ∈ common_prefixes sp objs → ∃ e, prefix = sp +:+ (e +:+ "/") ∧ no_char "/" e = true.
Proof.
  unfold common_prefixes. rewrite elem_of_dedup_first, list_elem_of_omap. intros (x & _ & H).
  destruct (startswith _ _); [|done]. cbv zeta in H. destruct (no_char _ _); [done|]. injection H as <-.
  eexists. split; [done|]. apply split_head_no_char.
Qed.

(** Under one prefix, the item below it. *)
Lemma same_item sp e e' r : no_char "/" e = true → no_char "/" e' = true →
  startswith (sp +:+ (e +:+ "/")) (sp +:+ (e' +:+ String "/" r)) = true → e = e'.
Proof.
  intros He He' [t H]%startswith_spec. rewrite <-str_app_assoc in H. apply str_app_inj_l in H.
  rewrite <-(split_head_app "/" e' r He'), H, <-str_app_assoc. cbn. by rewrite split_head_app.
Qed.

Lemma no_char_rev c s : no_char c (String.rev s) = no_char c s.
Proof. by rewrite !no_char_forallb, forallb_rev. Qed.

Lemma lstrip_char_other c s : match s with String a _ => a ≠ c | EmptyString => True end → lstrip_char c s = s.
Proof. destruct s as [|a s]; [done|]. cbn. intros Ha. by rewrite (proj2 (Ascii.eqb_neq _ _) Ha). Qed.

Lemma prefix_item_of sp e :
  match sp with String a _ => a ≠ "/"%char | EmptyString => False end → no_char "/" e = true → e ≠ "" →
  prefix_item ((sp +:+ "/") +:+ (e +:+ "/")) = e.
Proof.
  intros Hsp He Hne. unfold prefix_item, strip_char. rewrite (lstrip_char_other "/" ((sp +:+ "/") +:+ (e +:+ "/"))) by (destruct sp; [done|exact Hsp]).
  rewrite !rev_string_app. change (String.rev "/") with "/".
  assert (Hr : lstrip_char "/" (("/" +:+ String.rev e) +:+ ("/" +:+ String.rev sp)) = String.rev e +:+ String "/" (String.rev sp)).
  { cbn. apply lstrip_char_other. pose proof (no_char_rev "/"%char e) as Hn. rewrite He in Hn.
    destruct (String.rev e) as [|a s] eqn:E.
    - exfalso. apply Hne. by rewrite <-(rev_involutive e), E.
    - cbn in *. by destruct (decide (a = "/"%char)). }
  rewrite Hr. unfold rsplit_last. rewrite rev_involutive, split_head_app by (by rewrite no_char_rev).
  apply rev_involutive.
Qed.

(** A scan below [sp] spares the items that are active. *)
Lemma gkeeps_scan sp ids dry :
  match sp with String a _ => a ≠ "/"%char | EmptyString => False end →
  (∀ e, no_char "/" e = true → startswith ((sp +:+ "/") +:+ (e +:+ "/")) (s3_key o) = true → e ≠ "" ∧ e ∈ ids) →
  keeps_object (scan_flat_prefix_orphans env (sp +:+ "/") ids dry).
Proof.
  intros Hsp Hids. apply gkeeps_bind; [apply gkeeps_s3_call|]. intros _ w Hw. unfold gbind, gget. cbn.
  refine (keeps_sum2 _ _ _ w Hw). intros prefix Hp. apply common_prefix_form in Hp as (e & -> & He).
  destruct (_ || _) eqn:Ein; [apply gkeeps_ret|]. apply gkeeps_delete. apply not_true_iff_false. intros Hs.
  destruct (Hids e He Hs) as [Hne Hin]. apply orb_false_elim in Ein as [Ein _].
  rewrite prefix_item_of in Ein by done. unfold in_list in Ein. by apply bool_decide_eq_false in Ein.
Qed.

(** What the database says of the object: it belongs to a pattern, a snapshot or an item of a library. *)
Inductive active_object (db : gdb) : Prop :=
| OfPattern i r : i ∈ g_patterns db → plain_name i = true → s3_key o = "patterns/" +:+ (i +:+ String "/" r) → active_object db
| OfSnapshot i r : i ∈ g_library db → plain_name i = true → s3_key o = "snapshots/" +:+ (i +:+ String "/" r) → active_object db
| OfLibrary u i r : i ∈ g_library db → plain_name i = true → no_char "/" u = true →
    s3_key o = "library/" +:+ (u +:+ String "/" (i +:+ String "/" r)) → active_object db.

Lemma plain_no_slash i : plain_name i = true → no_char "/" i = true ∧ i ≠ "".
Proof.
  unfold plain_name. intros H. repeat (apply andb_prop in H as [H ?]). split; [done|]. by apply String.eqb_neq, negb_true_iff.
Qed.

(** The items below [sp] on the way to the object are active. *)
Definition vouched (sp : string) (ids : list string) : Prop :=
  ∀ e, no_char "/" e = true → startswith ((sp +:+ "/") +:+ (e +:+ "/")) (s3_key o) = true → e ≠ "" ∧ e ∈ ids.

Lemma vouched_item sp ids i r :
  plain_name i = true → i ∈ ids → s3_key o = (sp +:+ "/") +:+ (i +:+ String "/" r) → vouched sp ids.
Proof.
  intros [Hi Hne]%plain_no_slash Hin Hk e He Hs. rewrite Hk in Hs. by rewrite (same_item _ e i r He Hi Hs).
Qed.

Lemma vouched_elsewhere sp ids s k :
  startswith (sp +:+ "/") s = false → startswith s (sp +:+ "/") = false → s3_key o = s +:+ k → vouched sp ids.
Proof.
  intros H1 H2 Hk e _ Hs. exfalso. rewrite Hk in Hs. apply startswith_spec in Hs as [t Hs].
  rewrite <-str_app_assoc in Hs. symmetry in Hs. apply prefixes_comparable in Hs as [?|?]; congruence.
Qed.

Lemma gkeeps_library ids dry :
  (∀ u, no_char "/" u = true → vouched ("library/" +:+ u) ids) → keeps_object (scan_library_prefix_orphans env ids dry).
Proof.
  intros Hv. apply gkeeps_bind; [apply gkeeps_s3_call|]. intros _ w Hw. unfold gbind, gget. cbn.
  refine (keeps_sum2 _ _ _ w Hw). intros prefix Hp. apply common_prefix_form in Hp as (u & -> & Hu).
  rewrite str_app_assoc. apply gkeeps_scan; [done|]. intros e He Hs. by apply (Hv u Hu).
Qed.

Lemma gkeeps_abort l ids dry : keeps_object (abort_uploads env l ids dry).
Proof.
  induction l as [|[key i] l IH]; cbn [abort_uploads]; [apply gkeeps_ret|]. destruct (_ && _); [|done].
  apply gkeeps_bind.
  - apply gkeeps_catch; [|intros e; apply gkeeps_ret]. apply gkeeps_bind; [apply gkeeps_s3_call|]. intros _.
    apply gkeeps_bind; [apply gkeeps_get|]. intros rest. apply gkeeps_bind; [apply gkeeps_uploads|]. intros _. apply gkeeps_ret.
  - intros [|]; [|apply gkeeps_ret]. apply gkeeps_bind; [done|]. intros n. apply gkeeps_ret.
Qed.

Lemma vouched_patterns db : active_object db → vouched "patterns" (g_patterns db).
Proof.
  intros [i r Hi Hp Hk|i r Hi Hp Hk|u i r Hi Hp Hu Hk];
    [by apply (vouched_item _ _ i r)|eapply (vouched_elsewhere _ _ "snapshots/"); done|
     eapply (vouched_elsewhere _ _ "library/"); done].
Qed.

Lemma vouched_snapshots db : active_object db → vouched "snapshots" (g_library db).
Proof.
  intros [i r Hi Hp Hk|i r Hi Hp Hk|u i r Hi Hp Hu Hk];
    [eapply (vouched_elsewhere _ _ "patterns/"); done|by apply (vouched_item _ _ i r)|
     eapply (vouched_elsewhere _ _ "library/"); done].
Qed.

Lemma vouched_library db u : active_object db → no_char "/" u = true → vouched ("library/" +:+ u) (g_library db).
Proof.
  intros [i r Hi Hp Hk|i r Hi Hp Hk|u' i r Hi Hp Hu' Hk] Hu;
    [eapply (vouched_elsewhere _ _ "patterns/"); done|eapply (vouched_elsewhere _ _ "snapshots/"); done|].
  intros e He Hs. assert (u = u') as <-.
  { apply (same_item "library/" u u' (i +:+ String "/" r) Hu Hu'). rewrite <-Hk. apply startswith_spec in Hs as [t ->].
    apply startswith_spec. exists ((e +:+ "/") +:+ t). by rewrite !str_app_assoc. }
  refine (vouched_item ("library/" +:+ u) (g_library db) i r Hp Hi _ e He Hs). rewrite Hk, <-!str_app_assoc. done.
Qed.
End Store.

(** C7: The collection of the object store deletes no object of a pattern, of a snapshot or of a
    library item that the database holds, whatever calls fail. *)
Theorem s3_items_kept env dry_run w o :
  o ∈ gw_bucket w → active_object o (gw_db w) → o ∈ gw_bucket (clean_s3_orphans env dry_run w).1.
Proof.
  intros Hw Ho. unfold clean_s3_orphans. unfold gbind at 1.
  destruct (gcatch _ _ w) as [w1 r] eqn:E.
  assert (H1 : gw_bucket w1 = gw_bucket w ∧ gw_db w1 = gw_db w).
  { unfold gcatch, s3_call, gbind, gget, gemit in E. destruct (ge_s3 _ _ _); by injection E as <- _. }
  destruct H1 as [Hb Hd]. rewrite <-Hb in Hw. rewrite <-Hd in Ho. clear E Hb Hd w. destruct r as [[msg|]|e]; [done| |done].
  unfold gdb_, gget. unfold gbind at 1. cbv beta iota. revert w1 Hw Ho. intros w Hw Ho. generalize (gw_db w) Ho. clear Ho.
  intros db Ho. revert w Hw.
  apply gkeeps_bind; [apply (gkeeps_scan env o "patterns"); [done|by apply vouched_patterns]|]. intros a.
  apply gkeeps_bind; [apply (gkeeps_scan env o "snapshots"); [done|by apply vouched_snapshots]|]. intros b.
  apply gkeeps_bind; [apply gkeeps_library; intros u Hu; by apply vouched_library|]. intros c.
  apply gkeeps_bind; [|intros n; apply gkeeps_ret]. unfold abort_stale_multipart_uploads.
  apply gkeeps_bind; [|intros [|]; [apply gkeeps_bind; [apply gkeeps_get|intros l; apply gkeeps_abort]|apply gkeeps_ret]].
  apply gkeeps_catch; [|intros e; apply gkeeps_ret]. apply gkeeps_bind; [apply gkeeps_s3_call|]. intros _. apply gkeeps_ret.
Qed.

(** ** A provider's addresses *)

Section Provider.
Context (release_ok : string → bool) (provider : string) (w : pworld) (a : address) (e : ElasticIp) (r : sg_rule).
Hypothesis allocations : NoDup (map ad_allocation (pw_addresses w)).
Hypothesis row_ids : NoDup (map e_id (pw_eips w)).
Hypothesis row_of : e_allocation_id e = ad_allocation a.
Hypotheses (address_in : a ∈ pw_addresses w) (row_in : e ∈ pw_eips w).

(** The address, its row and the rule are there. *)
Record holds (x : pworld) : Prop := {
  holds_address : a ∈ pw_addresses x;
  holds_row : e ∈ pw_eips x;
  holds_rule : r ∈ pw_rules x;
  holds_projects : pw_projects x = pw_projects w;
  holds_subset : ∀ y, y ∈ pw_eips x → y ∈ pw_eips w
}.

Lemma holds_release x b x' :
  holds x → ad_allocation b ≠ ad_allocation a → release_orphan_address release_ok x b = Some x' → holds x'.
Proof.
  intros [H1 H2 H3 H4 H5] Hb. unfold release_orphan_address. destruct (release_ok _); [|done]. intros [= <-].
  constructor; cbn; try done.
  - apply list_elem_of_In, filter_In. split; [by apply list_elem_of_In|]. unfold streq. by rewrite bool_decide_eq_false_2.
  - destruct (List.find _ _) as [e'|] eqn:Ef; [|done]. apply find_some in Ef as [Hin Hal].
    apply list_elem_of_In in Hin. unfold streq in Hal. apply bool_decide_eq_true in Hal.
    apply list_elem_of_In, filter_In. split; [by apply list_elem_of_In|]. unfold streq.
    rewrite bool_decide_eq_false_2; [done|]. intros Hid. apply Hb. rewrite <-Hal, <-row_of. f_equal.
    by eapply (NoDup_map_inj e_id (pw_eips w)); eauto.
  - intros y Hy. apply H5. destruct (List.find _ _); [|done]. apply list_elem_of_In, filter_In in Hy as [Hy _].
    by apply list_elem_of_In.
Qed.

Lemma holds_release_all l x :
  holds x → (∀ b, b ∈ l → ad_allocation b ≠ ad_allocation a) → holds (release_all release_ok x l).1.
Proof.
  revert x. induction l as [|b l IH]; intros x Hx Hl; [done|]. cbn [release_all].
  destruct (release_orphan_address release_ok x b) as [x'|] eqn:E; [|done].
  apply IH; [by apply (holds_release x b); [|apply Hl; left|]|]. intros c Hc. apply Hl. by right.
Qed.

Lemma not_orphan :
  ad_project a ≠ "" → project_exists (pw_projects w) (ad_project a) = true →
  ∀ b, b ∈ find_orphan_addresses (pw_projects w) (pw_addresses w) → ad_allocation b ≠ ad_allocation a.
Proof.
  intros Hne Hx b [Hb Hob]%list_elem_of_In%filter_In Heq. apply list_elem_of_In in Hb.
  assert (b = a) as -> by by eapply (NoDup_map_inj ad_allocation (pw_addresses w)); eauto.
  rewrite Hx, orb_false_r in Hob. by apply String.eqb_eq in Hob.
Qed.

Lemma holds_gc dry_run :
  holds w → ad_project a ≠ "" → project_exists (pw_projects w) (ad_project a) = true →
  holds (gc_orphan_eips release_ok provider w dry_run).1.
Proof.
  intros Hw Hne Hx. unfold gc_orphan_eips. destruct dry_run; [done|].
  pose proof (holds_release_all _ w Hw (not_orphan Hne Hx)) as [H1 H2 H3 H4 H5].
  destruct (release_all _ _ _) as [w1 [|]]; cbn [negb fst] in *; [|constructor; cbn; [exact H1|exact row_in|apply Hw|reflexivity|intros y Hy; exact Hy]]. constructor; cbn; try done.
  - apply list_elem_of_In, filter_In. split; [by apply list_elem_of_In|].
    assert (Hin : ad_allocation a ∈ map ad_allocation (pw_addresses w)) by (by apply list_elem_of_fmap_2).
    destruct (map ad_allocation (pw_addresses w)) as [|i ids]; [by apply elem_of_nil in Hin|].
    unfold in_list. rewrite row_of, bool_decide_eq_true_2 by done. cbn. by rewrite andb_false_r.
  - intros y [Hy _]%list_elem_of_In%filter_In. by apply H5, list_elem_of_In.
Qed.
End Provider.

(** An address tagged with a project that exists stays, with its row; so does a rule of a project
    that is active or deploying. *)
Theorem provider_keeps_live release_ok provider dry_run w a p e r :
  a ∈ pw_addresses w → p ∈ pw_projects w → ad_project a = d_id p → d_id p ≠ "" →
  NoDup (map ad_allocation (pw_addresses w)) → NoDup (map e_id (pw_eips w)) →
  e ∈ pw_eips w → e_allocation_id e = ad_allocation a →
  r ∈ pw_rules w → nth 1 (split ":" (ru_description r)) "" = d_id p → d_state p ∈ ["active"; "deploying"] →
  let w' := reconcile_provider release_ok provider w dry_run in
  a ∈ pw_addresses w' ∧ e ∈ pw_eips w' ∧ r ∈ pw_rules w'.
Proof.
  intros Ha Hp Hap Hne Hnd Hids He Hea Hr Hrp Hst.
  assert (Hx : project_exists (pw_projects w) (ad_project a) = true).
  { apply existsb_exists. exists p. split; [by apply list_elem_of_In|]. rewrite Hap. unfold streq. by rewrite bool_decide_eq_true_2. }
  assert (Hw : holds w a e r w) by by constructor.
  pose proof (holds_gc release_ok provider w a e r Hnd Hids Hea Ha He dry_run Hw ltac:(congruence) Hx) as [H1 H2 H3 H4 _].
  unfold reconcile_provider. destruct (gc_orphan_eips _ _ _ _) as [w1 [|]]; [|done]. cbn [fst] in *.
  unfold gc_stale_sg_rules. destruct dry_run; [done|]. cbn. split_and!; try done.
  apply list_elem_of_In, filter_In. split; [by apply list_elem_of_In|]. rewrite H4.
  unfold is_stale_rule. rewrite Hrp. apply negb_true_iff, andb_false_iff. right. apply negb_false_iff, existsb_exists.
  exists p. split; [by apply list_elem_of_In|]. unfold streq, in_list. by rewrite !bool_decide_eq_true_2.
Qed.

(** ** Worked examples *)

Definition gc_platform : platform :=
  mkPlatform (λ _, RanOk) (λ _ _, false) LOCAL_DIR SHARED_DIR false 1000000.
Definition gc_sample_env : gc_env :=
  mkGcEnv (λ _ _, gc_platform) (λ _ _, Delivered) (λ _ _, inl true) (λ _ _, []) (λ _ _, None) (λ _ _, K8sOk)
    2000000000000 (λ _, "") (λ l, l).

Definition id_a : string := "aaaaaaaa-0000-0000-0000-000000000000".
Definition id_b : string := "bbbbbbbb-0000-0000-0000-000000000000".
Definition gc_project (i state host : string) (topo : val) : dproject :=
  mkDProject (mkProject i None (Some host) state topo None None) None None None None None []
    (mkTimers None None None false None None false None) false "" None None None (None, None, None) None true "owner" None.
Definition gc_host (i : string) : Host :=
  mkHost i None "active" "shared" 16 65536 0 0 (Some "10.0.0.5") None "connected" 1 (Some 1500) None true.

Definition two_vms : machine :=
  mkMachine [mkFile VMS_DIR id_a true 0; mkFile (VMS_DIR +:+ "/" +:+ id_a) "disk0.qcow2" false 0; mkFile VMS_DIR id_b true 0]
    [mkDomain "troshka-aaaaaaaa-11111111" true []; mkDomain "troshka-bbbbbbbb-22222222" true []] [] [] [] [] [] [].

Definition gc_world (ps : list dproject) : gworld :=
  mkGw (mkGdb [gc_host "h1"; gc_host "h2"] ps [] ["item1"] [] [] []) {[ "h1" := two_vms ]} [] [] ∅ [] [].

(** The domains and the files on the first host after its reconciliation. *)
Definition after_gc (ps : list dproject) : list string * list string :=
  let m := machine_of (reconcile_host gc_sample_env "h1" false false (gc_world ps)).1 "h1" in
  (map dm_name (m_domains m), map f_path (m_files m)).

(** Two active projects keep everything. *)
Example active_projects_kept :
  after_gc [gc_project id_a "active" "h1" VNone; gc_project id_b "active" "h1" VNone] =
    (["troshka-aaaaaaaa-11111111"; "troshka-bbbbbbbb-22222222"],
     [VMS_DIR +:+ "/" +:+ id_a; VMS_DIR +:+ "/" +:+ id_a +:+ "/disk0.qcow2"; VMS_DIR +:+ "/" +:+ id_b]).
Proof. vm_compute. reflexivity. Qed.

(** A project that is stopping, starting, migrating or in error loses its VMs and their disks. *)
Example transitional_project_swept :
  forallb (λ state,
    bool_decide (after_gc [gc_project id_a "active" "h1" VNone; gc_project id_b state "h1" VNone] =
      (["troshka-aaaaaaaa-11111111"], [VMS_DIR +:+ "/" +:+ id_a; VMS_DIR +:+ "/" +:+ id_a +:+ "/disk0.qcow2"])))
    ["stopping"; "starting"; "migrating"; "error"] = true.
Proof. vm_compute. reflexivity. Qed.

(** So do the VMs a project with several hosts has on a host other than its first. *)
Example remote_vms_swept :
  (after_gc [gc_project id_a "active" "h1" VNone; gc_project id_b "active" "h2" VNone]).1 = ["troshka-aaaaaaaa-11111111"].
Proof. vm_compute. reflexivity. Qed.

(** An upload to the library in progress is aborted: the second part of its key is the user. *)
Example library_upload_aborted :
  gw_uploads (clean_s3_orphans gc_sample_env false
    (mkGw (gw_db (gc_world [])) ∅ [] [("library/user1/item1/disk.qcow2", "upload")] ∅ [] [])).1 = [].
Proof. vm_compute. reflexivity. Qed.

(** The image of a project that is deploying may be evicted from its pool. *)
Example deploying_image_evictable :
  let topo := VDict [("nodes", VList [VDict [("type", VStr "storageNode"); ("data", VDict [("libraryItemId", VStr "item1")])]])] in
  let entry := mkEntry "e1" "pool" "item1" "ready" "images/item1.qcow2" 0 in
  let db ps := mkGdb [gc_host "h1"] ps [] ["item1"] [entry] [] [] in
  (evictable_entries gc_sample_env (db [gc_project id_a "active" "h1" topo]) "pool" ["h1"],
   evictable_entries gc_sample_env (db [gc_project id_a "deploying" "h1" topo]) "pool" ["h1"]) =
  (Ok ([entry], []), Ok ([entry], [entry])).
Proof. vm_compute. reflexivity. Qed.

(** The test for busy projects of a recovery never holds: busy projects were left out before. *)
Lemma recovery_never_deferred db host_id :
  existsb (λ p, in_list (d_state p) ["deploying"; "reconfiguring"])
    (List.filter (λ p, on_hosts [host_id] p && in_list (d_state p) ["active"; "stopped"]) (g_projects db)) = false.
Proof.
  apply not_true_iff_false. rewrite existsb_exists. intros (p & [_ [_ H1]%andb_prop]%filter_In & H2).
  unfold in_list in *. apply bool_decide_eq_true in H1, H2.
  rewrite !elem_of_cons, elem_of_nil in H1, H2. destruct H1 as [H1|[H1|[]]], H2 as [H2|[H2|[]]]; congruence.
Qed.

Lemma two_vms_wf pid : wf_machine pid two_vms.
Proof.
  constructor; cbn.
  - intros f Hf. repeat (apply elem_of_cons in Hf as [->|Hf]; [vm_compute; reflexivity|]). by apply elem_of_nil in Hf.
  - constructor.
  - by intros p ?%elem_of_nil.
  - by intros c c' ?%elem_of_nil.
Qed.

Lemma gc_platform_ordinary : ordinary_mount gc_platform.
Proof.
  intros c Hc. cbn in Hc.
  repeat (apply elem_of_cons in Hc as [->|Hc];
          [split; [vm_compute; reflexivity|]; split; [discriminate|vm_compute; reflexivity]|]).
  by apply elem_of_nil in Hc.
Qed.

Lemma gc_spares_project_witness :
  let p := gc_project id_a "active" "h1" VNone in
  let w := gc_world [p; gc_project id_b "error" "h1" VNone] in
  own_domain id_a (mkDomain "troshka-aaaaaaaa-11111111" true []) ∧
  spares id_a (machine_of w "h1") (machine_of (reconcile_host gc_sample_env "h1" false false w).1 "h1").
Proof.
  intros p w. split; [vm_compute; reflexivity|].
  apply (gc_spares_project gc_sample_env "h1" false false w (gc_host "h1") p); try (vm_compute; reflexivity).
  - by intros l x.
  - intros log i. apply gc_platform_ordinary.
  - by left.
  - unfold kept_states. set_solver.
  - apply two_vms_wf.
Defined.

Lemma sweep_reclaims_witness :
  let q := mkDiscover [id_a] ["troshka-aaaaaaaa"] [] in
  let '(m1, o) := handle_gc_discover gc_platform two_vms q in
  orphan_domains o = ["troshka-bbbbbbbb-22222222"] ∧
  ∃ m2 counts, handle_gc_clean gc_platform m1 (clean_request_of (λ l, l) (gw_db (gc_world [])) o) = (m2, Some counts) ∧
    swept [id_a] ["troshka-aaaaaaaa"] m2.
Proof.
  intros q. pose proof (sweep_reclaims gc_platform q two_vms (λ l, l) (gw_db (gc_world []))) as H.
  destruct (handle_gc_discover gc_platform two_vms q) as [m1 o] eqn:E. split.
  - by injection E as <- <-.
  - apply H; [done|done|]. intros f Hf. by apply (wf_names id_a two_vms (two_vms_wf id_a)).
Defined.

Lemma s3_items_kept_witness :
  let o := mkObject "library/user1/item1/disk.qcow2" 5 in
  let stray := mkObject "library/user1/item2/disk.qcow2" 5 in
  let w := mkGw (gw_db (gc_world [])) ∅ [o; stray] [] ∅ [] [] in
  gw_bucket (clean_s3_orphans gc_sample_env false w).1 = [o] ∧
  (active_object o (gw_db w) ∧ o ∈ gw_bucket (clean_s3_orphans gc_sample_env false w).1).
Proof.
  intros o stray w. split; [vm_compute; reflexivity|].
  assert (Ho : active_object o (gw_db w)) by (by apply (OfLibrary o _ "user1" "item1" "disk.qcow2"); [left|..]).
  split; [done|]. apply (s3_items_kept gc_sample_env false w o); [by left|done].
Defined.

Lemma provider_keeps_live_witness :
  let p := gc_project id_a "active" "h1" VNone in
  let a := mkAddress "eipalloc-1" id_a true in
  let e := mkEip "e1" "pr" (Some id_a) "c1" "eipalloc-1" "1.2.3.4" None None None "associated" None in
  let r := mkRule ("troshka-pf:" +:+ id_a +:+ ":ssh") 22 in
  let w := mkPw [p] [e] [a; mkAddress "eipalloc-2" "gone" false] [r] in
  let w' := reconcile_provider (λ _, true) "pr" w false in
  pw_addresses w' = [a] ∧ (a ∈ pw_addresses w' ∧ e ∈ pw_eips w' ∧ r ∈ pw_rules w').
Proof.
  intros p a e r w. split; [vm_compute; reflexivity|].
  apply (provider_keeps_live (λ _, true) "pr" false w a p e r); try done; try (by left); try (apply (bool_decide_eq_true_1 _); vm_compute; reflexivity).
Defined.
